(* ===== verification/_CoqProject ===== *)
-Q . S2P
Prelude.v
Sha256.v
Epoch.v
Interfaces.v
Sequencing.v
Queue.v
Checkpoint.v
Execution.v
ForcedInclusion.v
Sequencers.v
Types.v
Validation.v
Store.v
CachedStore.v
Pending.v
DACache.v
Submit.v
BatchingStrategy.v
Replay.v
Producer.v
Inclusion.v
DARetriever.v
Syncer.v
Follower.v
Journey.v
Sdk.v
CosmosExec.v
Pruner.v
Reaper.v
StoreAdapter.v
BlobClient.v
Raft.v
Election.v
Grpc.v
SyncService.v
Config.v
Signer.v
Setup.v
FullNode.v
RpcServer.v
Base64.v
CosmosApp.v
CosmosServer.v
SdkClient.v
ExecClient.v
LocalDA.v
