(* ===== verification/Prelude.v ===== *)
(** * A verification of the chain-sdk node

    The program is a sovereign-rollup node in Go. An aggregator takes batches of transactions from
    a sequencer, executes them, signs and stores blocks and publishes headers and data on a
    data-availability (DA) layer; full nodes retrieve them from the DA layer, from P2P or from
    raft, validate them, execute them and store them. Users can force transactions in through the
    DA layer. This development models the block pipeline of the node as executable definitions and
    proves what makes each part correct, and that the parts fit together.

    ** The parts and their files

    - [Prelude]: machine integers, errors as values, the error monad, little-endian encodings,
      list and option lemmas, tactics and hints.
    - [Sha256]: SHA-256, executable.
    - [Interfaces]: what the node calls and does not contain, as classes of operations with
      classes of laws and reference instances: the go-datastore key/value store with its batches,
      the protobuf runtime, hexadecimal hashes, LRU caches.
    - [Epoch]: types/epoch.go. [Sequencing]: core/sequencer. [Execution]: the transaction filters
      of core/execution/dummy.go and apps/cosmos-exec/executor/executor.go.
    - [Queue], [Checkpoint]: the persistent batch queue (pkg/sequencers/single/queue.go) and the
      checkpoint store (pkg/sequencers/common).
    - [ForcedInclusion]: the DA prefetcher and the forced-inclusion retriever
      (block/internal/da). [Sequencers]: pkg/sequencers/single and pkg/sequencers/based.
    - [Types]: the block types of types/ with their protobuf, P2P, DA-envelope and legacy forms.
      [Validation]: header, data and state validation and the hashes.
    - [Store]: pkg/store (keys, batches, rollback, pruning). [CachedStore]: cached_store.go.
    - [Pending], [DACache]: block/internal/cache: what still has to be submitted, what was seen on
      the DA layer, the snapshot of it.
    - [Submit], [Inclusion]: block/internal/submitting: submission with retries, envelopes and
      signed data; the DA inclusion loop.
    - [Replay]: block/internal/common/replay.go and the execution interface; pkg/genesis.
    - [Producer]: block/internal/executing: the block producer with its pending block.
    - [DARetriever], [Syncer], [Follower]: block/internal/syncing: retrieval and matching of blobs,
      the syncer with its P2P and raft sources, the two loops that follow the DA layer.
    - [Journey]: a block's way through producer, submitter, retriever and syncer.
    - [BatchingStrategy]: block/internal/submitting/batching_strategy.go, when to submit.
      [BlobClient]: the DA client (block/internal/da/client.go) and pkg/da/types.
    - [StoreAdapter]: pkg/store/store_adapter.go, the P2P stores over the block store, with the
      height subscription. [SyncService]: pkg/sync, broadcasting and the start of a P2P sync.
    - [Raft]: pkg/raft, the state machine, the node and its broadcast. [Election]:
      pkg/raft/election.go and node/failover.go, who produces blocks and how a node changes role.
    - [Pruner], [Reaper]: block/internal/pruner and block/internal/reaping.
    - [CosmosExec]: apps/cosmos-exec/executor, the Cosmos executor with its persistence. [Grpc]:
      execution/grpc, an executor behind gRPC. [Sdk]: chunks, Merkle proofs and namespaces of
      apps/cosmos-exec/sdk/cosmoswasm.
    - [Config]: pkg/config, the configuration with its defaults and its validation, and the class of
      the operating system. [Signer]: pkg/signer, key files. [Setup]: the genesis and node key files
      and the commands that create them (pkg/genesis/io.go, pkg/p2p/key, pkg/cmd,
      apps/cosmos-wasm/cmd/init.go). [FullNode]: node/, what a node starts and stops. [RpcServer]:
      pkg/rpc/server, the RPC handlers, health checks and the dashboard of DA submissions.
    - [CosmosApp]: apps/cosmos-exec/app, fees, accounts, genesis; the queries of the executor, signed
      transactions and the faucet. [CosmosServer]: apps/cosmos-exec/config and
      apps/cosmos-exec/cmd/cosmos-exec-grpc, the HTTP server of the executor with its middleware.
      [Base64]: base64 of the Go library. [SdkClient]: apps/cosmos-exec/sdk/cosmoswasm, the HTTP and blob
      clients, run against the modelled server and DA API. [ExecClient]: apps/cosmos-wasm/cmd/executor_client.go,
      the node's client of that server. [LocalDA]: tools/local-da, the DA layer of a
      local chain, an instance of the class of the DA API with its laws.

    A file has one Module named as itself (or as the Go type), the data as records and inductive
    types with the names of the source, one definition per function, and definitions for the
    parts of long functions; a lower-case name with an underscore is such a part. State is passed
    explicitly or through the state-and-error monad [bm]; a step of a component on the outside
    world is a function on a world type [W], so that theorems hold whatever the other side answers.
    A nil dereference or an index out of range is an error value nothing handles ([nil_deref],
    [index_panic]). Instances in the [...Witness] modules evaluate the definitions on concrete
    nodes.

    ** What the theorems show

    - The chain: one block or none per production attempt, linked, executed, signed and stored
      ([ProduceBlock_outcome], [production_chain]); resuming after a crash ([restart_resumes]);
      replay ([SyncToHeight_replays]); a syncing node's chain under any interleaving of DA, P2P and
      raft events ([sync_chain]); the composition ([block_travels]).
    - The DA side: what a DA height yields ([processBlobs_exact]); the follower's two loops under
      any schedule ([no_height_skipped]) and its progress ([catchup_reaches_head]); submission
      ([submitToDA_prefix], [data_round_no_gap]) and inclusion ([inclusion_tick]); the caches
      ([getPending_exact], [snapshot_restores]).
    - Sequencing: the queue as a deque with a write-ahead log ([queue_refines_deque]), the
      accounting of a batch ([GetNextBatch_accounting]), catch-up as a based sequencer
      ([catchup_matches_based]), checkpoints, and the full node's check of forced inclusion
      ([forced_inclusion_checked]).
    - Data: round trips of the wire forms, exact characterisations of the validation functions,
      reads of the store after commits, rollback and pruning, transparency of the caches.
    - Around the pipeline: what the Cosmos executor has after a restart ([restart_restores]) and
      what a failed execution leaves ([ExecuteTxs_failures]); an executor behind gRPC behaves as
      the executor itself ([grpc_transparent]); pruning reaches its target
      ([pruning_reaches_target]); the reaper delivers each transaction once
      ([SubmitTxs_delivers]); the P2P stores lose no item when it moves from memory to the store
      ([handover]) and wake every waiting reader ([no_lost_wakeup]); the DA client returns what it
      submitted ([submit_retrieve]); Merkle proofs of chunks ([merkle_proofs]).
    - Clusters: replicas that applied the same log agree ([replicas_agree]), what a broadcast
      commits ([Broadcast_outcome]), a node has one role at a time ([one_role]) and takes over
      only when it has caught up ([catchup_exact]).
    - A node as a process: what a validated configuration guarantees ([Validate_exact],
      [validated_parts]); key files and node keys load as they were created ([created_signer_loads],
      [imported_key_loads], [node_key_stable]), and an initialised home directory starts as an
      aggregator ([initialized_node_starts]); what each kind of node has left running when it
      returns ([FullNode_Run_outcome], [failover_Run_leftovers], [LightNode_Run_leftovers]); what is
      served over RPC ([GetBlock_serves]) and when a node calls itself ready ([ready_exact]).
    - Users of the executor: which fees the chain takes ([txFeeChecker_exact]) and that the suggested
      ones are taken ([simulated_fee_accepted], [payment_fee]); the sequences of the faucet
      ([faucet_sequences]) and its cooldown ([faucet_cooldown]); what a closed server refuses
      ([closed_server]), the rate limit ([prod_burst]) and the validity of its configuration
      ([LoadFromEnv_valid]); a submitted transaction is found by its hash ([submitted_found]); the
      SDK's client delivers it ([SubmitTxBytes_delivers]), gets its result ([WaitTxResult_returns]) and
      its finality ([GetTxFinality_exact]); blobs of applications come back ([blob_comes_back]); the node's
      client is the executor when its requests arrive ([client_transparent]), acts at most once when they do
      not ([client_at_most_once]), so that a replay through it is a replay ([sync_through_client]); the
      local DA layer ([ids_roundtrip], [subscription_complete]).
    - Where the code does something else than its comments say, a theorem states what it does
      ([any_key_synced], [overlapping_rollbacks_lose_height], [split_namespace_loses_data],
      [failed_block_forgotten], [recover_needs_start], [grace_never_extended],
      [failed_epoch_is_skipped], [stored_block_unknown_by_hash], [rollback_is_forgotten],
      [full_queue_loses_txs], [AppendDAHint_outcome], [DA_BlockTime_unchecked],
      [public_key_unprotected], [full_node_genesis_unusable], [GetState_loses_hash],
      [failures_look_healthy], [faucet_stuck], [retry_duplicates], [failed_submission_leaves_blobs],
      [node_locked_out], [large_block_refused], [mempool_lost] and others).

    ** Bounds and fuel

    Integers keep their width: [u64] and [i64] wrap, and theorems that need it assume that heights
    stay below 2^64. Loops over heights are structural on the number of heights. Loops with fuel:
    submission has the configured number of attempts, rollback, pruning, replay and the
    legacy-field decoder get one unit per height or byte and never report [out_of_fuel]; the epochs
    of the forced-inclusion check get one unit per epoch up to the DA height, which
    [forced_inclusion_checked] proves to be enough. Go loops that do not end at the largest uint64
    are modelled below it only. The catch-up loop has no fuel: its theorem gives a number of steps. The
    polls of the SDK's client get one unit each; [WaitTxResult_returns] says how many are enough.

    ** Elided

    Logging, metrics, tracing decorators and mutexes around whole methods. A context is its error
    at the points where the code looks at it. Nil and empty slices are the same, except where the
    code tells them apart. The datastore is healthy where a theorem says so; its failures are
    errors of the operations.

    ** Not modelled

    Third-party and generated code (the Cosmos SDK, wasmvm, libp2p, hashicorp raft, protobuf) and what
    only wires or wraps it: the construction of the keepers of the Cosmos app and of the services of a
    node, the P2P client over libp2p, the JSON-RPC and RPC clients; flags, the YAML text and the
    processes of commands; telemetry, tools other than the local DA layer, example programs and
    tests. *)

From Stdlib Require Export Ascii Strings.Byte.
From stdpp Require Export base gmap strings list numbers sorting.

Declare Scope chain_scope.
Delimit Scope chain_scope with chain.
#[global] Open Scope Z_scope.

(** ** Machine integers

    A Go [uint64] is a [Z] in [0, 2^64); every operation of the source that
    can wrap is written with [u64]; an [int64] (and [time.Duration]) is a [Z]
    in [-2^63, 2^63), wrapped with [i64]. *)

Definition two64 : Z := 18446744073709551616.
Definition two63 : Z := 9223372036854775808.

Definition u64 (z : Z) : Z := z mod two64.
Definition i64 (z : Z) : Z := (z + two63) mod two64 - two63.

Definition is_u64 (z : Z) : Prop := 0 <= z < two64.
Definition is_i64 (z : Z) : Prop := - two63 <= z < two63.

Notation "a +u b" := (u64 (a + b)) (at level 50, left associativity) : chain_scope.
Notation "a -u b" := (u64 (a - b)) (at level 50, left associativity) : chain_scope.
Notation "a *u b" := (u64 (a * b)) (at level 40, left associativity) : chain_scope.
#[global] Open Scope chain_scope.

#[export] Instance is_u64_dec z : Decision (is_u64 z).
Proof. unfold is_u64. apply _. Defined.
#[export] Instance is_i64_dec z : Decision (is_i64 z).
Proof. unfold is_i64. apply _. Defined.

(** Arithmetic automation: unfolds the widths and hands div/mod to [lia]. *)
Ltac uarith :=
  unfold is_u64, is_i64, u64, i64, two64, two63 in *;
  Z.div_mod_to_equations; lia.

Lemma u64_small z : is_u64 z -> u64 z = z.
Proof. intros H. apply Z.mod_small. exact H. Qed.

Lemma i64_small z : is_i64 z -> i64 z = z.
Proof.
  intros H. unfold i64. rewrite Z.mod_small; unfold is_i64, two63, two64 in *; lia.
Qed.

Lemma u64_range z : is_u64 (u64 z).
Proof. unfold is_u64, u64. apply Z.mod_pos_bound. reflexivity. Qed.

Lemma u64_u64 z : u64 (u64 z) = u64 z.
Proof. apply u64_small, u64_range. Qed.

(** Congruence modulo 2^64 ([eqm] of Zdiv, with [Proper] instances): inner
    wrap-arounds may be dropped below an outer one. *)
Lemma u64_eqm a : eqm two64 (u64 a) a.
Proof. unfold eqm, u64. apply Z.mod_mod. discriminate. Qed.

#[export] Instance eqm64_equiv : Equivalence (eqm two64) := eqm_setoid two64.
#[export] Instance eqm64_add : Proper (eqm two64 ==> eqm two64 ==> eqm two64) Z.add :=
  Zplus_eqm two64.
#[export] Instance eqm64_sub : Proper (eqm two64 ==> eqm two64 ==> eqm two64) Z.sub :=
  Zminus_eqm two64.
#[export] Instance eqm64_mul : Proper (eqm two64 ==> eqm two64 ==> eqm two64) Z.mul :=
  Zmult_eqm two64.

(** Proves [u64 x = u64 y] when x and y agree as ring expressions modulo inner wraps. *)
Ltac u64_ring :=
  match goal with |- u64 ?x = u64 ?y => change (eqm two64 x y) end;
  rewrite ?u64_eqm; match goal with |- eqm _ ?x ?y => replace y with x by ring; reflexivity end.

Lemma u64_eq_small x y : is_u64 y -> u64 x = u64 y -> u64 x = y.
Proof. intros H ->. by apply u64_small. Qed.

Lemma u64_add_small a b : is_u64 a -> is_u64 b -> a + b < two64 -> a +u b = a + b.
Proof. intros. apply u64_small. unfold is_u64 in *. lia. Qed.

Lemma u64_sub_small a b : is_u64 a -> is_u64 b -> b <= a -> a -u b = a - b.
Proof. intros. apply u64_small. unfold is_u64 in *. lia. Qed.

Lemma is_u64_intro z : 0 <= z < two64 -> is_u64 z.
Proof. done. Qed.

Create HintDb chain.
Create Rewrite HintDb chain.
#[export] Hint Resolve u64_range u64_small i64_small : chain.

(** ** Go errors

    A package-level error variable is a [ESentinel] named as in the source; an
    error built in place is [EMsg]; [fmt.Errorf] with %w is [EWrap]; and
    [errors.Join] is [EJoin].  [errors_is] follows [errors.Is]. *)

Inductive err :=
| ESentinel (name : string)
| EMsg (msg : string)
| EWrap (msg : string) (inner : err)
| EJoin (e1 e2 : err).

#[export] Instance err_eq_dec : EqDecision err.
Proof. solve_decision. Defined.

Fixpoint errors_is (e target : err) : bool :=
  bool_decide (e = target) ||
  match e with
  | EWrap _ e' => errors_is e' target
  | EJoin e1 e2 => errors_is e1 target || errors_is e2 target
  | _ => false
  end.

(** A run-time panic of the process, where the model makes it visible. *)
Definition index_panic : err := EMsg "runtime error: index out of range".

Lemma errors_is_refl e : errors_is e e = true.
Proof. destruct e; simpl; by rewrite bool_decide_true. Qed.

Lemma errors_is_wrap m e t : errors_is e t = true -> errors_is (EWrap m e) t = true.
Proof. intros H. simpl. rewrite H. by rewrite orb_true_r. Qed.

(** The result of a fallible Go function [(T, error)]. *)
Inductive res (A : Type) :=
| Ok (a : A)
| Err (e : err).
Arguments Ok {A} a.
Arguments Err {A} e.

Definition res_bind {A B} (m : res A) (f : A -> res B) : res B :=
  match m with Ok a => f a | Err e => Err e end.

Notation "'let?' x ':=' m 'in' k" := (res_bind m (fun x => k))
  (at level 10, x pattern, m at level 100, k at level 200,
   format "'let?'  x  ':='  m  'in' '//' k") : chain_scope.

Definition is_ok {A} (m : res A) : bool :=
  match m with Ok _ => true | Err _ => false end.

(** [fmt.Errorf(msg + ": %w", err)] around a fallible call. *)
Definition wrap_err {A} (msg : string) (m : res A) : res A :=
  match m with Ok a => Ok a | Err e => Err (EWrap msg e) end.

Lemma res_bind_ok {A B} (m : res A) (f : A -> res B) b :
  res_bind m f = Ok b -> exists a, m = Ok a /\ f a = Ok b.
Proof. destruct m; simpl; [eauto | done]. Qed.

Lemma wrap_err_ok {A} msg (m : res A) a : wrap_err msg m = Ok a <-> m = Ok a.
Proof. destruct m; simpl; split; congruence. Qed.

(** Peels one [let?] of a hypothesis that says the whole computation is [Ok]. *)
Ltac res_inv H :=
  match type of H with
  | res_bind ?m _ = Ok _ =>
      let x := fresh "x" in let Hx := fresh "Hx" in
      apply res_bind_ok in H; destruct H as (x & Hx & H)
  end.

(** ** Bytes *)

Abbreviation byte := Byte.byte.
Abbreviation bytes := (list Byte.byte).

#[export] Instance byte_eq_dec : EqDecision byte := Byte.byte_eq_dec.

Definition byte_Z (b : byte) : Z := Z.of_N (Byte.to_N b).
Definition Z_byte (z : Z) : byte :=
  match Byte.of_N (Z.to_N (z mod 256)) with Some b => b | None => x00 end.

Lemma byte_Z_range b : 0 <= byte_Z b < 256.
Proof. unfold byte_Z. pose proof (Byte.to_N_bounded b). lia. Qed.

Lemma byte_Z_byte z : byte_Z (Z_byte z) = z mod 256.
Proof.
  unfold byte_Z, Z_byte.
  pose proof (Z.mod_pos_bound z 256 ltac:(lia)).
  destruct (Byte.of_N (Z.to_N (z mod 256))) as [b|] eqn:E.
  - apply Byte.to_of_N in E. rewrite E. lia.
  - apply Byte.of_N_None_iff in E. lia.
Qed.

Lemma Z_byte_Z b : Z_byte (byte_Z b) = b.
Proof.
  unfold Z_byte, byte_Z. pose proof (Byte.to_N_bounded b).
  rewrite Z.mod_small by lia. rewrite N2Z.id, Byte.of_to_N. done.
Qed.

Lemma byte_Z_inj a b : byte_Z a = byte_Z b -> a = b.
Proof. intros H. by rewrite <- (Z_byte_Z a), H, Z_byte_Z. Qed.

#[export] Instance byte_countable : Countable byte.
Proof.
  refine (inj_countable byte_Z (fun z => Some (Z_byte z)) _).
  intros b. by rewrite Z_byte_Z.
Defined.

(** [bytes.Equal]: a nil slice and an empty slice are equal. *)
Definition bytes_Equal (a b : bytes) : bool := bool_decide (a = b).

Lemma bytes_Equal_true a b : bytes_Equal a b = true <-> a = b.
Proof. unfold bytes_Equal. apply bool_decide_eq_true. Qed.

(** [uint64(len(x))]: the length of a Go slice is below 2^63. *)
Definition blen {A} (l : list A) : Z := Z.of_nat (length l).

Lemma blen_nonneg {A} (l : list A) : 0 <= blen l.
Proof. unfold blen. lia. Qed.

Lemma blen_app {A} (l k : list A) : blen (l ++ k) = blen l + blen k.
Proof. unfold blen. rewrite length_app. lia. Qed.

Lemma blen_cons {A} (x : A) l : blen (x :: l) = 1 + blen l.
Proof. unfold blen. simpl. lia. Qed.

(** Total number of bytes in a list of byte slices. *)
Definition total_len (l : list bytes) : Z := foldr (fun tx n => blen tx + n) 0 l.

Lemma total_len_app l k : total_len (l ++ k) = total_len l + total_len k.
Proof. induction l as [|x l IH]; simpl; [done|]. rewrite IH. lia. Qed.

Lemma total_len_nonneg l : 0 <= total_len l.
Proof. induction l as [|x l IH]; simpl; [lia|]. pose proof (blen_nonneg x). lia. Qed.

#[export] Hint Resolve blen_nonneg total_len_nonneg byte_Z_range : chain.

(** ** Little- and big-endian encodings (encoding/binary) *)

(** [n] bytes of [z], least significant first. *)
Fixpoint le_bytes (n : nat) (z : Z) : bytes :=
  match n with
  | O => []
  | S n' => Z_byte z :: le_bytes n' (z / 256)
  end.

Fixpoint le_value (l : bytes) : Z :=
  match l with
  | [] => 0
  | b :: l' => byte_Z b + 256 * le_value l'
  end.

Definition PutUint64_LE (z : Z) : bytes := le_bytes 8 z.
Definition Uint64_LE (l : bytes) : Z := le_value (take 8 l).
Definition PutUint64_BE (z : Z) : bytes := rev (le_bytes 8 z).

Lemma length_le_bytes n z : length (le_bytes n z) = n.
Proof. revert z. induction n; intros z; simpl; auto. Qed.

Lemma le_value_bytes n z : le_value (le_bytes n z) = z mod 256 ^ Z.of_nat n.
Proof.
  revert z. induction n as [|n IH]; intros z; cbn [le_bytes le_value].
  - simpl. by rewrite Z.mod_1_r.
  - rewrite IH, byte_Z_byte.
    rewrite Nat2Z.inj_succ, Z.pow_succ_r by lia.
    rewrite Z.rem_mul_r; lia.
Qed.

Lemma le_value_range l : 0 <= le_value l < 256 ^ Z.of_nat (length l).
Proof.
  induction l as [|b l IH]; cbn [le_value length]; [simpl; lia|].
  pose proof (byte_Z_range b).
  rewrite Nat2Z.inj_succ, Z.pow_succ_r by lia. lia.
Qed.

Lemma le_bytes_value l : le_bytes (length l) (le_value l) = l.
Proof.
  induction l as [|b l IH]; cbn [le_bytes le_value length]; [done|].
  pose proof (byte_Z_range b).
  f_equal.
  - apply byte_Z_inj. rewrite byte_Z_byte.
    rewrite Z.mul_comm, Z.mod_add by lia. apply Z.mod_small; lia.
  - rewrite Z.add_comm, Z.mul_comm, Z.div_add_l by lia.
    rewrite (Z.div_small (byte_Z b)) by lia. by rewrite Z.add_0_r.
Qed.

Lemma length_PutUint64_LE z : length (PutUint64_LE z) = 8%nat.
Proof. apply length_le_bytes. Qed.

Lemma Uint64_LE_Put z : Uint64_LE (PutUint64_LE z) = u64 z.
Proof.
  unfold Uint64_LE, PutUint64_LE.
  rewrite take_ge by (rewrite length_le_bytes; lia).
  rewrite le_value_bytes. reflexivity.
Qed.

Lemma Uint64_LE_Put_app z l : Uint64_LE (PutUint64_LE z ++ l) = u64 z.
Proof.
  unfold Uint64_LE. rewrite take_app_length' by (by rewrite length_PutUint64_LE).
  unfold PutUint64_LE. by rewrite le_value_bytes.
Qed.

Lemma Uint64_LE_range l : is_u64 (Uint64_LE l).
Proof.
  unfold is_u64, Uint64_LE. pose proof (le_value_range (take 8 l)) as H.
  split; [lia|]. eapply Z.lt_le_trans; [apply H|].
  change two64 with (256 ^ 8). apply Z.pow_le_mono_r; [lia|].
  rewrite length_take. lia.
Qed.

Lemma Put_Uint64_LE l : length l = 8%nat -> PutUint64_LE (Uint64_LE l) = l.
Proof.
  intros H. unfold PutUint64_LE, Uint64_LE. rewrite take_ge by lia.
  rewrite <- H at 1. apply le_bytes_value.
Qed.

#[export] Hint Resolve Uint64_LE_range length_PutUint64_LE : chain.
#[export] Hint Rewrite Uint64_LE_Put length_PutUint64_LE : chain.

(** ** Hexadecimal (encoding/hex, fmt %x) *)

Definition hexDigits : list Ascii.ascii :=
  ["0"; "1"; "2"; "3"; "4"; "5"; "6"; "7"; "8"; "9"; "a"; "b"; "c"; "d"; "e"; "f"]%char.

Definition hex_digit (n : Z) : Ascii.ascii := nth (Z.to_nat (n mod 16)) hexDigits "0"%char.

(** The value of a hexadecimal digit, either case; [None] for another character. *)
Definition hex_value (c : Ascii.ascii) : option Z :=
  let n := Z.of_N (Ascii.N_of_ascii c) in
  if (48 <=? n) && (n <=? 57) then Some (n - 48)
  else if (97 <=? n) && (n <=? 102) then Some (n - 97 + 10)
  else if (65 <=? n) && (n <=? 70) then Some (n - 65 + 10)
  else None.

Lemma hex_value_digit n : 0 <= n < 16 -> hex_value (hex_digit n) = Some n.
Proof.
  intros H. unfold hex_digit. rewrite Z.mod_small by lia.
  rewrite <- (Z2Nat.id n) at 2 by lia.
  assert (Hn : (Z.to_nat n < 16)%nat) by lia.
  revert Hn. generalize (Z.to_nat n). clear. intros n H.
  do 16 (destruct n as [|n]; [reflexivity|]). lia.
Qed.

(** [hex.EncodeToString] (and [fmt.Sprintf("%x", b)] on a byte slice). *)
Fixpoint hex_encode (l : bytes) : string :=
  match l with
  | [] => EmptyString
  | b :: l' =>
      String.String (hex_digit (byte_Z b / 16))
        (String.String (hex_digit (byte_Z b mod 16)) (hex_encode l'))
  end.

(** [hex.DecodeString]: an error ([None]) on odd length or a bad digit. *)
Fixpoint hex_decode (s : string) : option bytes :=
  match s with
  | EmptyString => Some []
  | String.String _ EmptyString => None
  | String.String hi (String.String lo s') =>
      match hex_value hi, hex_value lo, hex_decode s' with
      | Some h, Some l, Some r => Some (Z_byte (16 * h + l) :: r)
      | _, _, _ => None
      end
  end.

Lemma hex_decode_encode l : hex_decode (hex_encode l) = Some l.
Proof.
  induction l as [|b l IH]; [done|]. cbn [hex_encode hex_decode].
  pose proof (byte_Z_range b).
  rewrite !hex_value_digit, IH by (Z.div_mod_to_equations; lia).
  do 2 f_equal. apply byte_Z_inj. rewrite byte_Z_byte.
  rewrite <- Z.div_mod by lia. apply Z.mod_small. lia.
Qed.

#[export] Instance hex_encode_inj : Inj (=) (=) hex_encode.
Proof.
  intros a b H. apply (f_equal hex_decode) in H.
  rewrite !hex_decode_encode in H. congruence.
Qed.

Lemma length_hex_encode l : String.length (hex_encode l) = (2 * length l)%nat.
Proof. induction l as [|b l IH]; simpl; [done|]. rewrite IH. lia. Qed.

(** ** Decimal (strconv.FormatUint, fmt %d) *)

Definition dec_value (c : Ascii.ascii) : option Z :=
  let n := Z.of_N (Ascii.N_of_ascii c) in
  if (48 <=? n) && (n <=? 57) then Some (n - 48) else None.

(** The digits of [n] in front of [acc]; 20 digits hold any uint64. *)
Fixpoint dec_go (fuel : nat) (n : Z) (acc : string) : string :=
  match fuel with
  | O => acc
  | S fuel' =>
      let acc' := String.String (hex_digit (n mod 10)) acc in
      if n <? 10 then acc' else dec_go fuel' (n / 10) acc'
  end.
Definition dec_string (n : Z) : string := dec_go 20 n EmptyString.

(** [strconv.ParseUint(s, 10, 64)] without the range check. *)
Fixpoint parse_dec (acc : Z) (s : string) : option Z :=
  match s with
  | EmptyString => Some acc
  | String.String c s' =>
      match dec_value c with Some d => parse_dec (10 * acc + d) s' | None => None end
  end.

Lemma dec_value_digit n : 0 <= n < 10 -> dec_value (hex_digit n) = Some n.
Proof.
  intros H. unfold hex_digit. rewrite Z.mod_small by lia.
  rewrite <- (Z2Nat.id n) at 2 by lia.
  assert (Hn : (Z.to_nat n < 10)%nat) by lia.
  revert Hn. generalize (Z.to_nat n). clear. intros n H.
  do 10 (destruct n as [|n]; [reflexivity|]). lia.
Qed.

Lemma parse_dec_go fuel n acc : 0 <= n < 10 ^ Z.of_nat fuel -> (0 < fuel)%nat ->
  parse_dec 0 (dec_go fuel n acc) = parse_dec n acc.
Proof.
  revert n acc. induction fuel as [|fuel IH]; intros n acc Hn Hf; [lia|].
  rewrite Nat2Z.inj_succ, Z.pow_succ_r in Hn by lia. cbn [dec_go].
  destruct (Z.ltb_spec n 10) as [H|H].
  - cbn [parse_dec]. rewrite Z.mod_small, dec_value_digit by lia. f_equal.
  - destruct fuel as [|fuel]; [simpl in Hn; lia|].
    rewrite IH by (try (Z.div_mod_to_equations; lia); lia).
    cbn [parse_dec]. rewrite dec_value_digit by (Z.div_mod_to_equations; lia).
    f_equal. Z.div_mod_to_equations; lia.
Qed.

Lemma parse_dec_string n : is_u64 n -> parse_dec 0 (dec_string n) = Some n.
Proof.
  intros Hn. unfold dec_string. rewrite parse_dec_go; [done| |lia].
  unfold is_u64, two64 in Hn. change (10 ^ Z.of_nat 20) with 100000000000000000000. lia.
Qed.

Lemma dec_string_inj a b : is_u64 a -> is_u64 b -> dec_string a = dec_string b -> a = b.
Proof.
  intros Ha Hb E. apply (f_equal (parse_dec 0)) in E.
  rewrite !parse_dec_string in E by done. congruence.
Qed.

(** ** Time: nanoseconds since the Unix epoch; [time.Time{}] is 1 January of year 1 *)
Definition zero_time : Z := -62135596800000000000.

(** ** Lists *)

Lemma last_cons_ne {A} (x : A) l : l <> [] -> last (x :: l) = last l.
Proof. destruct l; [done|]. intros _. by rewrite last_cons_cons. Qed.

(** The list [a, a+1, ..., b] of heights a Go loop [for h := a; h <= b; h++] visits. *)
Definition heights_upto (a b : Z) : list Z := seqZ a (b - a + 1).

Lemma elem_of_heights_upto a b h : h ∈ heights_upto a b <-> a <= h <= b.
Proof. unfold heights_upto. rewrite elem_of_seqZ. lia. Qed.

Lemma heights_upto_nil a b : b < a -> heights_upto a b = [].
Proof. intros. unfold heights_upto. apply seqZ_nil. lia. Qed.

Lemma heights_upto_cons a b : a <= b -> heights_upto a b = a :: heights_upto (a + 1) b.
Proof.
  intros. unfold heights_upto. rewrite seqZ_cons by lia.
  f_equal. f_equal; lia.
Qed.

Lemma length_heights_upto a b : length (heights_upto a b) = Z.to_nat (b - a + 1).
Proof. unfold heights_upto. apply length_seqZ. Qed.

(** Decoding the entries of a map, listed or not, gives the decoded map. *)
Definition decode_entry {K A B} (f : A -> option B) (kv : K * A) : option (K * B) :=
  pair kv.1 <$> f kv.2.

Lemma decode_entry_Some {K A B} (f : A -> option B) kv (k : K) b :
  decode_entry f kv = Some (k, b) <-> kv.1 = k /\ f kv.2 = Some b.
Proof.
  unfold decode_entry. destruct (f kv.2); simpl; split; [intros [=]; subst; auto|..];
    [intros [<- [= ->]]; done | done | intros [_ ?]; done].
Qed.

Lemma omap_entries_perm {A B} (f : A -> option B) (m : gmap string A) :
  omap (decode_entry f) (map_to_list m) ≡ₚ map_to_list (omap f m).
Proof.
  apply NoDup_Permutation.
  - pose proof (NoDup_fst_map_to_list m) as HN. revert HN.
    induction (map_to_list m) as [|[k a] l IH]; csimpl; [intros; constructor|].
    intros [Hk HN]%NoDup_cons. unfold decode_entry at 1. simpl.
    destruct (f a); simpl; [constructor; [|auto] | auto].
    intros (x & Hx & E)%list_elem_of_omap. apply decode_entry_Some in E as [E _].
    apply Hk. rewrite <- E. apply list_elem_of_fmap. eauto.
  - apply NoDup_map_to_list.
  - intros [k b]. rewrite list_elem_of_omap, elem_of_map_to_list, lookup_omap. split.
    + intros ([k' a] & Hx%elem_of_map_to_list & [E1 E2]%decode_entry_Some).
      simpl in *. subst k'. by rewrite Hx.
    + destruct (m !! k) as [a|] eqn:E; [|done]. simpl. intros Hf.
      exists (k, a). rewrite elem_of_map_to_list. split; [done|].
      by apply decode_entry_Some.
Qed.

Lemma StronglySorted_omap {A B} (R : relation A) (S : relation B) (f : A -> option B) l :
  (forall x y a b, x ∈ l -> y ∈ l -> f x = Some a -> f y = Some b -> R x y -> S a b) ->
  StronglySorted R l -> StronglySorted S (omap f l).
Proof.
  intros Hf Hl. induction Hl as [|x l Hl IH Hx]; csimpl; [constructor|].
  assert (IH' : StronglySorted S (omap f l)).
  { apply IH. intros y z a b Hy Hz. apply Hf; by right. }
  destruct (f x) as [a|] eqn:E; [|done]. constructor; [done|].
  apply Forall_forall. intros b (y & Hy & Ey)%list_elem_of_omap.
  eapply (Hf x y); eauto; [left|by right|]. by eapply Forall_forall in Hx.
Qed.

Lemma if_elem_cons `{EqDecision A} {B} (k x : A) l (a b : B) :
  (if decide (k ∈ x :: l) then a else b) =
  if decide (k = x) then a else if decide (k ∈ l) then a else b.
Proof. destruct (decide (k ∈ x :: l)) as [H|H]; rewrite elem_of_cons in H; repeat case_decide; tauto. Qed.

Lemma if_elem_snoc `{EqDecision A} {B} (k x : A) l (a b : B) :
  (if decide (k ∈ l ++ [x]) then a else b) =
  if decide (k = x) then a else if decide (k ∈ l) then a else b.
Proof.
  destruct (decide (k ∈ l ++ [x])) as [H|H]; rewrite elem_of_app, list_elem_of_singleton in H;
    repeat case_decide; tauto.
Qed.

Lemma NoDup_fmap_eq {A B} (f : A -> B) l x y :
  NoDup (f <$> l) -> x ∈ l -> y ∈ l -> f x = f y -> x = y.
Proof.
  intros HN (i & Hi)%list_elem_of_lookup (j & Hj)%list_elem_of_lookup E.
  assert (i = j) as ->; [|congruence].
  eapply NoDup_lookup; [exact HN|rewrite list_lookup_fmap, Hi; done|].
  by rewrite list_lookup_fmap, Hj, E.
Qed.

(** A list with distinct keys, sorted by key, is determined by its elements. *)
Lemma sorted_by_key_unique {A B} (R : relation B) (f : A -> B) l k :
  AntiSymm (=) R -> NoDup (f <$> k) -> l ≡ₚ k ->
  StronglySorted (fun a b => R (f a) (f b)) l -> StronglySorted (fun a b => R (f a) (f b)) k ->
  l = k.
Proof.
  intros HR HN Hp Hl Hk. eapply StronglySorted_unique_strong; [|exact Hl|exact Hk|done].
  intros x y Hx Hy Hxy Hyx. rewrite Hp in Hx. eapply NoDup_fmap_eq; eauto.
Qed.
