(* ===== verification/Sha256.v ===== *)
(** SHA-256 (Go's crypto/sha256, FIPS 180-4), executable on byte lists.

    The hash appears in the header hash, the DA commitment of a block's data,
    the store's hash index, the forced-inclusion bookkeeping, chunk
    commitments and the Merkle tree of the SDK. *)

From S2P Require Import Prelude.

Definition two32 : Z := 4294967296.

Definition add32 (a b : Z) : Z := (a + b) mod two32.
Definition rotr32 (x n : Z) : Z :=
  Z.lor (Z.shiftr x n) ((Z.shiftl x (32 - n)) mod two32).

Definition bsig0 (x : Z) : Z := Z.lxor (Z.lxor (rotr32 x 2) (rotr32 x 13)) (rotr32 x 22).
Definition bsig1 (x : Z) : Z := Z.lxor (Z.lxor (rotr32 x 6) (rotr32 x 11)) (rotr32 x 25).
Definition ssig0 (x : Z) : Z := Z.lxor (Z.lxor (rotr32 x 7) (rotr32 x 18)) (Z.shiftr x 3).
Definition ssig1 (x : Z) : Z := Z.lxor (Z.lxor (rotr32 x 17) (rotr32 x 19)) (Z.shiftr x 10).
Definition choose (x y z : Z) : Z := Z.lxor (Z.land x y) (Z.land (two32 - 1 - x) z).
Definition majority (x y z : Z) : Z :=
  Z.lxor (Z.lxor (Z.land x y) (Z.land x z)) (Z.land y z).

Definition round_constants : list Z :=
  [1116352408; 1899447441; 3049323471; 3921009573; 961987163; 1508970993; 2453635748;
   2870763221; 3624381080; 310598401; 607225278; 1426881987; 1925078388; 2162078206;
   2614888103; 3248222580; 3835390401; 4022224774; 264347078; 604807628; 770255983;
   1249150122; 1555081692; 1996064986; 2554220882; 2821834349; 2952996808; 3210313671;
   3336571891; 3584528711; 113926993; 338241895; 666307205; 773529912; 1294757372;
   1396182291; 1695183700; 1986661051; 2177026350; 2456956037; 2730485921; 2820302411;
   3259730800; 3345764771; 3516065817; 3600352804; 4094571909; 275423344; 430227734;
   506948616; 659060556; 883997877; 958139571; 1322822218; 1537002063; 1747873779;
   1955562222; 2024104815; 2227730452; 2361852424; 2428436474; 2756734187; 3204031479;
   3329325298].

Definition initial_state : list Z :=
  [1779033703; 3144134277; 1013904242; 2773480762; 1359893119; 2600822924; 528734635;
   1541459225].

(** The message followed by 0x80, zeros and the bit length as a 64-bit big-endian word. *)
Definition pad_message (m : bytes) : bytes :=
  let zeros := Z.to_nat ((55 - blen m) mod 64) in
  m ++ [x80] ++ replicate zeros x00 ++ PutUint64_BE (8 * blen m).

Definition word_of (l : bytes) : Z := le_value (rev l).

Fixpoint words_of (n : nat) (l : bytes) : list Z :=
  match n with
  | O => []
  | S n' => word_of (take 4 l) :: words_of n' (drop 4 l)
  end.

(** Extends the schedule, kept most recent word first. *)
Fixpoint extend_schedule (n : nat) (ws : list Z) : list Z :=
  match n with
  | O => ws
  | S n' =>
      let w := add32 (add32 (ssig1 (nth 1 ws 0)) (nth 6 ws 0))
                     (add32 (ssig0 (nth 14 ws 0)) (nth 15 ws 0)) in
      extend_schedule n' (w :: ws)
  end.

Definition schedule (block : bytes) : list Z :=
  rev (extend_schedule 48 (rev (words_of 16 block))).

Definition round_step (st : list Z) (kw : Z * Z) : list Z :=
  match st with
  | [a; b; c; d; e; f; g; h] =>
      let t1 := add32 (add32 (add32 h (bsig1 e)) (choose e f g)) (add32 kw.1 kw.2) in
      let t2 := add32 (bsig0 a) (majority a b c) in
      [add32 t1 t2; a; b; c; add32 d t1; e; f; g]
  | _ => st
  end.

Definition compress (st : list Z) (block : bytes) : list Z :=
  zip_with add32 st (foldl round_step st (zip round_constants (schedule block))).

Fixpoint compress_blocks (n : nat) (st : list Z) (m : bytes) : list Z :=
  match n with
  | O => st
  | S n' => compress_blocks n' (compress st (take 64 m)) (drop 64 m)
  end.

Definition sha256_Sum256 (m : bytes) : bytes :=
  let p := pad_message m in
  let st := compress_blocks (length p / 64) initial_state p in
  foldr (fun w acc => rev (le_bytes 4 w) ++ acc) [] st.

Example sha256_abc :
  hex_encode (sha256_Sum256 [x61; x62; x63]) =
  "ba7816bf8f01cfea414140de5dae2223b00361a396177a9cb410ff61f20015ad"%string.
Proof. vm_compute. reflexivity. Qed.

(** The digest is always 32 bytes long. *)
Lemma length_round_step st kw : length (round_step st kw) = length st.
Proof. unfold round_step. do 9 (destruct st as [|? st]; [done|]). done. Qed.

Lemma length_foldl_round_step kws st : length (foldl round_step st kws) = length st.
Proof.
  revert st. induction kws as [|kw kws IH]; intros st; simpl; [done|].
  by rewrite IH, length_round_step.
Qed.

Lemma length_compress_blocks n st m : length (compress_blocks n st m) = length st.
Proof.
  revert st m. induction n as [|n IH]; intros st m; simpl; [done|].
  rewrite IH. unfold compress. rewrite length_zip_with, length_foldl_round_step. lia.
Qed.

Lemma length_words_bytes ws :
  length (foldr (fun w acc => rev (le_bytes 4 w) ++ acc) ([] : bytes) ws) = (4 * length ws)%nat.
Proof.
  induction ws as [|w ws IH]; [done|]. cbn [foldr].
  rewrite length_app, length_rev, length_le_bytes, IH. simpl. lia.
Qed.

Lemma length_sha256 m : length (sha256_Sum256 m) = 32%nat.
Proof.
  unfold sha256_Sum256. rewrite length_words_bytes, length_compress_blocks. done.
Qed.

#[export] Hint Rewrite length_sha256 : chain.
#[global] Opaque sha256_Sum256.
