(* ===== verification/Epoch.v ===== *)
(** DA epochs (types/epoch.go): the arithmetic that assigns a DA height to an
    epoch and computes the epoch's first and last height, at uint64 width. *)

From S2P Require Import Prelude.

Module Epoch.

Definition CalculateEpochNumber (daHeight daStartHeight daEpochSize : Z) : Z :=
  if daHeight <? daStartHeight then 0
  else if daEpochSize =? 0 then 1
  else ((daHeight -u daStartHeight) / daEpochSize) +u 1.

Definition CalculateEpochBoundaries (daHeight daStartHeight daEpochSize : Z) : Z * Z * Z :=
  let epochNum := CalculateEpochNumber daHeight daStartHeight daEpochSize in
  if daEpochSize =? 0 then (daStartHeight, daStartHeight, epochNum)
  else if daHeight <? daStartHeight then
    (daStartHeight, (daStartHeight +u daEpochSize) -u 1, epochNum)
  else
    let start := daStartHeight +u ((epochNum -u 1) *u daEpochSize) in
    let end_ := (daStartHeight +u (epochNum *u daEpochSize)) -u 1 in
    (start, end_, epochNum).

(** ** Reference arithmetic on unbounded integers *)

Definition epoch_index (h start size : Z) : Z := (h - start) / size.
Definition epoch_first (i start size : Z) : Z := start + i * size.
Definition epoch_last (i start size : Z) : Z := start + i * size + size - 1.

Lemma epoch_index_bounds h start size :
  start <= h -> 0 < size ->
  let i := epoch_index h start size in
  0 <= i /\ epoch_first i start size <= h <= epoch_last i start size.
Proof.
  intros Hh Hs i. subst i. unfold epoch_index, epoch_first, epoch_last.
  pose proof (Z.div_mod (h - start) size ltac:(lia)).
  pose proof (Z.mod_pos_bound (h - start) size ltac:(lia)).
  pose proof (Z.div_pos (h - start) size ltac:(lia) ltac:(lia)). nia.
Qed.

Lemma epoch_index_unique h start size i :
  0 < size -> epoch_first i start size <= h <= epoch_last i start size ->
  epoch_index h start size = i.
Proof.
  unfold epoch_index, epoch_first, epoch_last. intros Hs H.
  symmetry. apply (Z.div_unique_pos _ _ _ (h - start - i * size)); lia.
Qed.

(** The machine-width computation agrees with the unbounded one whenever the
    epoch's last height fits in a uint64. *)
Lemma CalculateEpochNumber_exact h start size :
  is_u64 h -> is_u64 start -> is_u64 size -> 0 < size -> start <= h ->
  CalculateEpochNumber h start size = u64 (epoch_index h start size + 1).
Proof.
  intros Hh Hst Hsz Hpos Hle. unfold CalculateEpochNumber.
  destruct (Z.ltb_spec h start); [lia|]. destruct (Z.eqb_spec size 0); [lia|].
  rewrite u64_sub_small by done. reflexivity.
Qed.

Lemma CalculateEpochBoundaries_exact h start size :
  is_u64 h -> is_u64 start -> is_u64 size -> 0 < size -> start <= h ->
  epoch_last (epoch_index h start size) start size < two64 ->
  CalculateEpochBoundaries h start size =
    (epoch_first (epoch_index h start size) start size,
     epoch_last (epoch_index h start size) start size,
     u64 (epoch_index h start size + 1)).
Proof.
  intros Hh Hst Hsz Hpos Hle Hlast.
  pose proof (epoch_index_bounds h start size Hle Hpos) as [Hi Hb].
  set (i := epoch_index h start size) in *.
  unfold CalculateEpochBoundaries. rewrite CalculateEpochNumber_exact by done. fold i.
  destruct (Z.eqb_spec size 0); [lia|]. destruct (Z.ltb_spec h start); [lia|].
  unfold epoch_first, epoch_last, is_u64 in *.
  f_equal; f_equal; (apply u64_eq_small; [unfold is_u64; lia | u64_ring]).
Qed.

(** C34: For a DA height at or after the start height, with a positive epoch size and an epoch
    end below the largest uint64, [CalculateEpochBoundaries] returns an interval that contains the
    height, has exactly [daEpochSize] heights, carries the number [CalculateEpochNumber] gives,
    and holds precisely the heights with that epoch number: the epochs partition the heights. *)
Theorem epoch_boundaries_partition (h start size : Z) :
  is_u64 h -> is_u64 start -> is_u64 size -> 0 < size -> start <= h ->
  epoch_last (epoch_index h start size) start size < two64 - 1 ->
  exists s e n,
    CalculateEpochBoundaries h start size = (s, e, n) /\
    s <= h <= e /\ e - s + 1 = size /\
    n = CalculateEpochNumber h start size /\ 1 <= n /\
    forall h', is_u64 h' -> start <= h' ->
      (s <= h' <= e <-> CalculateEpochNumber h' start size = n).
Proof.
  intros Hh Hst Hsz Hpos Hle Hlast.
  rewrite CalculateEpochBoundaries_exact, CalculateEpochNumber_exact by (done || lia).
  pose proof (epoch_index_bounds h start size Hle Hpos) as [Hi Hb].
  set (i := epoch_index h start size) in *.
  assert (Hi1 : u64 (i + 1) = i + 1).
  { apply u64_small. unfold is_u64, epoch_last, two64 in *. nia. }
  do 3 eexists. split; [reflexivity|]. rewrite Hi1.
  split; [done|]. split; [unfold epoch_first, epoch_last; lia|].
  split; [done|]. split; [lia|]. intros h' Hh' Hle'.
  rewrite CalculateEpochNumber_exact by done.
  pose proof (epoch_index_bounds h' start size Hle' Hpos) as [Hi' Hb'].
  split.
  - intros Hin. rewrite (epoch_index_unique _ _ _ i) by done. done.
  - intros E. assert (epoch_index h' start size = i) as <-; [|done].
    assert (Hle'' : epoch_index h' start size <= h') by (unfold epoch_first, is_u64 in *; nia).
    destruct (Z.eq_dec (epoch_index h' start size + 1) two64) as [E2|E2].
    + rewrite E2 in E. change (u64 two64) with 0 in E. lia.
    + rewrite u64_small in E by (unfold is_u64 in *; lia). lia.
Qed.

Lemma epoch_boundaries_partition_witness :
  CalculateEpochBoundaries 25 10 4 = (22, 25, 4) /\
  exists s e n,
    CalculateEpochBoundaries 25 10 4 = (s, e, n) /\
    s <= 25 <= e /\ e - s + 1 = 4 /\
    n = CalculateEpochNumber 25 10 4 /\ 1 <= n /\
    forall h', is_u64 h' -> 10 <= h' ->
      (s <= h' <= e <-> CalculateEpochNumber h' 10 4 = n).
Proof.
  split; [reflexivity|].
  apply (epoch_boundaries_partition 25 10 4); try (by vm_compute); unfold is_u64, two64; lia.
Defined.

End Epoch.
