(* ===== verification/Interfaces.v ===== *)
(** Interfaces to the code the repository calls but does not contain: the
    go-datastore key/value store and the protobuf runtime.

    Each is a typeclass of operations together with a class of laws that states
    the documented behaviour the components rely on; the components are proved
    against the classes, and reference instances show the laws can hold. *)

From S2P Require Import Prelude.

Definition ErrNotFound : err := ESentinel "datastore: key not found".

(** ** String keys, compared as Go compares strings (bytewise) *)

Definition key_leb (a b : string) : bool :=
  match String.compare a b with Gt => false | _ => true end.
Definition key_le (a b : string) : Prop := key_leb a b = true.

#[export] Instance key_le_dec : RelDecision key_le.
Proof. intros a b. unfold key_le. apply _. Defined.

Lemma string_compare_refl s : String.compare s s = Eq.
Proof.
  induction s as [|c s IH]; [done|]. simpl.
  unfold Ascii.compare. by rewrite N.compare_refl, IH.
Qed.

Lemma string_compare_antisym a b : String.compare a b = CompOpp (String.compare b a).
Proof.
  revert b. induction a as [|c a IH]; intros [|c' b]; simpl; [done..|].
  unfold Ascii.compare. rewrite (N.compare_antisym (Ascii.N_of_ascii c')).
  destruct (N.compare (Ascii.N_of_ascii c') (Ascii.N_of_ascii c)); simpl; [apply IH | done..].
Qed.

Lemma string_compare_eq a b : String.compare a b = Eq -> a = b.
Proof.
  revert b. induction a as [|c a IH]; intros [|c' b]; simpl; [done..|].
  unfold Ascii.compare.
  destruct (N.compare_spec (Ascii.N_of_ascii c) (Ascii.N_of_ascii c')) as [E|E|E]; [|done..].
  intros H. apply IH in H as ->. f_equal.
  by rewrite <- (Ascii.ascii_N_embedding c), E, Ascii.ascii_N_embedding.
Qed.

Lemma string_compare_lt_trans a b c :
  String.compare a b = Lt -> String.compare b c = Lt -> String.compare a c = Lt.
Proof.
  revert b c. induction a as [|x a IH]; intros [|y b] [|z c]; simpl; try done.
  unfold Ascii.compare.
  destruct (N.compare_spec (Ascii.N_of_ascii x) (Ascii.N_of_ascii y)) as [E1|E1|E1]; try done;
  destruct (N.compare_spec (Ascii.N_of_ascii y) (Ascii.N_of_ascii z)) as [E2|E2|E2]; try done;
  destruct (N.compare_spec (Ascii.N_of_ascii x) (Ascii.N_of_ascii z)) as [E3|E3|E3];
    try lia; try done. eauto.
Qed.

#[export] Instance key_le_total : Total key_le.
Proof.
  intros a b. unfold key_le, key_leb. rewrite (string_compare_antisym b a).
  destruct (String.compare a b); simpl; auto.
Qed.

#[export] Instance key_le_trans : Transitive key_le.
Proof.
  intros a b c. unfold key_le, key_leb.
  destruct (String.compare a b) eqn:E1; [apply string_compare_eq in E1 as -> | | done]; [done|].
  destruct (String.compare b c) eqn:E2; [apply string_compare_eq in E2 as <- | | done];
    rewrite ?E1; [done|].
  by rewrite (string_compare_lt_trans a b c).
Qed.

#[export] Instance key_le_antisymm : AntiSymm (=) key_le.
Proof.
  intros a b. unfold key_le, key_leb. rewrite (string_compare_antisym b a).
  destruct (String.compare a b) eqn:E; simpl; [intros; by apply string_compare_eq | done..].
Qed.

(** ** The datastore *)

(** One write of a [ds.Batch]: a put ([Some v]) or a delete ([None]). *)
Definition batch_op : Type := string * option bytes.

Class Datastore (D : Type) := {
  ds_Get : D -> string -> res bytes;
  ds_Put : D -> string -> bytes -> D * res unit;
  ds_Delete : D -> string -> D * res unit;
  (** [Query] with [OrderByKey]: an entry may carry an error in place of its value. *)
  ds_Query : D -> res (list (string * res bytes));
  ds_Commit : D -> list batch_op -> D * res unit;
  (** [ds.NewKey(s)], a key in the form the datastore stores and lists it *)
  ds_NewKey : string -> string;
  (** [ds.NewKey(s).Name()] *)
  ds_key_Name : string -> string;
}.

Definition apply_op (m : gmap string bytes) (o : batch_op) : gmap string bytes :=
  match o with (k, Some v) => <[k := v]> m | (k, None) => delete k m end.

Definition apply_ops (m : gmap string bytes) (os : list batch_op) : gmap string bytes :=
  foldl apply_op m os.

(** A key component: none of the characters that [ds.NewKey] or [Name] treat specially. *)
Definition plain_char (c : Ascii.ascii) : bool :=
  negb (Ascii.eqb c "/" || Ascii.eqb c ":" || Ascii.eqb c ".").
Fixpoint plain_key (s : string) : bool :=
  match s with
  | EmptyString => true
  | String.String c s' => plain_char c && plain_key s'
  end.

Abbreviation slash k := (String.String "/"%char k).

(** A key already in canonical form: components without dots, each after one slash. *)
Fixpoint clean_tail (after_slash : bool) (s : string) : bool :=
  match s with
  | EmptyString => negb after_slash
  | String.String c s' =>
      if Ascii.eqb c "/" then negb after_slash && clean_tail true s'
      else negb (Ascii.eqb c ".") && clean_tail false s'
  end.
Definition clean_key (s : string) : bool :=
  match s with
  | String.String c s' => Ascii.eqb c "/" && clean_tail true s'
  | EmptyString => false
  end.

Lemma plain_hex_digit n : plain_char (hex_digit n) = true.
Proof.
  unfold hex_digit. pose proof (Z.mod_pos_bound n 16 ltac:(lia)) as Hb.
  assert (Hn : (Z.to_nat (n mod 16) < 16)%nat) by lia. revert Hn.
  generalize (Z.to_nat (n mod 16)). intros k Hk.
  do 16 (destruct k as [|k]; [reflexivity|]). lia.
Qed.

Lemma clean_dec_go fuel n acc b : (0 < fuel)%nat -> clean_tail false acc = true ->
  clean_tail b (dec_go fuel n acc) = true.
Proof.
  revert n acc b. induction fuel as [|fuel IH]; intros n acc b Hf Ha; [lia|]. cbn [dec_go].
  assert (Hc : forall b, clean_tail b (String.String (hex_digit (n mod 10)) acc) = true).
  { intros b'. pose proof (plain_hex_digit (n mod 10)) as Hp. unfold plain_char in Hp.
    simpl. destruct (Ascii.eqb _ "/"); [done|]. destruct (Ascii.eqb _ "."); [|done].
    by rewrite orb_true_r in Hp. }
  destruct (n <? 10); [apply Hc|]. destruct fuel; [apply Hc|]. apply IH; [lia|apply Hc].
Qed.

Lemma clean_dec_string b n : clean_tail b (dec_string n) = true.
Proof. apply clean_dec_go; [lia|done]. Qed.

(** What the repository relies on while the datastore does not report I/O
    errors ([ds_healthy]): contents are a finite map, a write is visible to
    later reads, a batch is applied in order and as a whole, a query lists
    every entry in key order. *)
Class DatastoreLaws (D : Type) `{Datastore D} := {
  ds_view : D -> gmap string bytes;
  ds_healthy : D -> Prop;
  ds_Get_spec d k : ds_healthy d ->
    ds_Get d k = match ds_view d !! k with Some v => Ok v | None => Err ErrNotFound end;
  ds_Put_spec d k v : ds_healthy d ->
    exists d', ds_Put d k v = (d', Ok tt) /\ ds_healthy d' /\ ds_view d' = <[k := v]> (ds_view d);
  ds_Delete_spec d k : ds_healthy d ->
    exists d', ds_Delete d k = (d', Ok tt) /\ ds_healthy d' /\ ds_view d' = delete k (ds_view d);
  ds_Query_spec d : ds_healthy d ->
    exists l : list (string * bytes),
      ds_Query d = Ok ((fun kv => (kv.1, Ok kv.2)) <$> l) /\
      l ≡ₚ map_to_list (ds_view d) /\ StronglySorted key_le l.*1;
  ds_Commit_spec d os : ds_healthy d ->
    exists d', ds_Commit d os = (d', Ok tt) /\ ds_healthy d' /\
               ds_view d' = apply_ops (ds_view d) os;
  ds_NewKey_plain k : plain_key k = true -> k <> EmptyString -> ds_NewKey k = slash k;
  ds_NewKey_clean k : clean_key k = true -> ds_NewKey k = k;
  ds_key_Name_plain k : plain_key k = true -> k <> EmptyString -> ds_key_Name (slash k) = k;
}.

(** *** The reference instance: an in-memory map with an on/off switch *)

Record mapds := Mapds { md_map : gmap string bytes; md_up : bool }.

Definition md_closed : err := EMsg "datastore closed".

Definition entry_le (a b : string * bytes) : Prop := key_le a.1 b.1.
#[export] Instance entry_le_dec : RelDecision entry_le.
Proof. intros a b. unfold entry_le. apply _. Defined.
#[export] Instance entry_le_total : Total entry_le.
Proof. intros a b. apply (total key_le). Qed.
#[export] Instance entry_le_trans : Transitive entry_le.
Proof. intros a b c H1 H2. unfold entry_le in *. by trans b.1. Qed.

#[export] Instance mapds_datastore : Datastore mapds := {
  ds_Get d k :=
    if md_up d then match md_map d !! k with Some v => Ok v | None => Err ErrNotFound end
    else Err md_closed;
  ds_Put d k v :=
    if md_up d then (Mapds (<[k := v]> (md_map d)) true, Ok tt) else (d, Err md_closed);
  ds_Delete d k :=
    if md_up d then (Mapds (delete k (md_map d)) true, Ok tt) else (d, Err md_closed);
  ds_Query d :=
    if md_up d then
      Ok ((fun kv => (kv.1, Ok kv.2)) <$> merge_sort entry_le (map_to_list (md_map d)))
    else Err md_closed;
  ds_Commit d os :=
    if md_up d then (Mapds (apply_ops (md_map d) os) true, Ok tt) else (d, Err md_closed);
  ds_NewKey k := if clean_key k then k else slash k;
  ds_key_Name k := match k with String.String "/" k' => k' | _ => k end;
}.

Lemma plain_not_clean k : plain_key k = true -> clean_key k = false.
Proof.
  destruct k as [|c k]; [done|]. simpl. unfold plain_char.
  destruct (Ascii.eqb c "/"); [done|]. done.
Qed.

#[export] Instance mapds_laws : DatastoreLaws mapds.
Proof.
  refine {| ds_view := md_map; ds_healthy := fun d => md_up d = true |}; simpl.
  - intros d k ->. done.
  - intros d k v ->. eauto.
  - intros d k ->. eauto.
  - intros d ->. eexists. split; [done|]. split; [apply merge_sort_Permutation|].
    pose proof (StronglySorted_merge_sort entry_le (map_to_list (md_map d))) as H.
    induction H as [|x l Hl IH Hx]; csimpl; constructor; [done|].
    rewrite Forall_fmap. exact Hx.
  - intros d os ->. eauto.
  - intros k Hk _. by rewrite plain_not_clean.
  - intros k ->. done.
  - done.
Defined.

(** *** Batches *)

(** [ds.Batching]: a batch collects writes and applies them on [Commit]. *)
Class Batching (D B : Type) := {
  ds_Batch : D -> res B;
  b_Put : B -> string -> bytes -> B * res unit;
  b_Delete : B -> string -> B * res unit;
  b_Commit : D -> B -> D * res unit;
  (** [ds.RawKey(s)]: a key without cleaning *)
  ds_RawKey : string -> string;
}.

(** On a healthy datastore a fresh batch is empty, records every write in order, and commits
    them as a whole; a datastore that refuses a commit is left as it was. *)
Class BatchingLaws (D B : Type) `{DatastoreLaws D} `{Batching D B} := {
  b_ops : B -> list batch_op;
  b_healthy : B -> Prop;
  ds_Batch_spec d : ds_healthy d -> exists b, ds_Batch d = Ok b /\ b_healthy b /\ b_ops b = [];
  b_Put_spec b k v : b_healthy b ->
    exists b', b_Put b k v = (b', Ok tt) /\ b_healthy b' /\ b_ops b' = b_ops b ++ [(k, Some v)];
  b_Delete_spec b k : b_healthy b ->
    exists b', b_Delete b k = (b', Ok tt) /\ b_healthy b' /\ b_ops b' = b_ops b ++ [(k, None)];
  b_Commit_spec d b : ds_healthy d -> b_healthy b ->
    exists d', b_Commit d b = (d', Ok tt) /\ ds_healthy d' /\
               ds_view d' = apply_ops (ds_view d) (b_ops b);
  ds_RawKey_clean k : clean_key k = true -> ds_RawKey k = k;
}.

#[export] Instance mapds_batching : Batching mapds (list batch_op) := {
  ds_Batch d := if md_up d then Ok [] else Err md_closed;
  b_Put b k v := (b ++ [(k, Some v)], Ok tt);
  b_Delete b k := (b ++ [(k, None)], Ok tt);
  b_Commit := ds_Commit;
  ds_RawKey k := k;
}.

#[export] Instance mapds_batching_laws : BatchingLaws mapds (list batch_op).
Proof.
  refine {| b_ops := fun b => b; b_healthy := fun _ => True |}; simpl; eauto.
  - intros d ->. eauto.
  - intros d b -> _. eauto.
Defined.

(** Writes of a batch that only deletes. *)
Definition dels (ks : list string) : list batch_op := (fun k => (k, None)) <$> ks.

Lemma apply_ops_app m os os' : apply_ops m (os ++ os') = apply_ops (apply_ops m os) os'.
Proof. apply foldl_app. Qed.

Lemma lookup_apply_dels m ks k :
  apply_ops m (dels ks) !! k = if decide (k ∈ ks) then None else m !! k.
Proof.
  revert m. induction ks as [|k' ks IH]; intros m; simpl.
  - destruct (decide (k ∈ [])) as [Hk|]; [|done]. by apply elem_of_nil in Hk.
  - rewrite IH, if_elem_cons. destruct (decide (k ∈ ks)).
    + by destruct (decide (k = k')).
    + destruct (decide (k = k')) as [->|]; [apply lookup_delete_eq|by apply lookup_delete_ne].
Qed.

(** *** Hashes as strings *)

(** [header.Hash.String()] of go-header. *)
Class HashString := hash_String : bytes -> string.
(** It prints the bytes in hexadecimal. *)
Class HashStringLaws `{HashString} := {
  hash_String_inj a b : hash_String a = hash_String b -> a = b;
  hash_String_clean h : h <> [] -> clean_tail true (hash_String h) = true;
}.

(** The reference instance: hexadecimal digits. *)
Module RefHash.

#[export] Instance hex_HashString : HashString := hex_encode.

Lemma clean_hex_encode h b : h <> [] \/ b = false -> clean_tail b (hex_encode h) = true.
Proof.
  revert b. induction h as [|x h IH]; intros b Hb; [by destruct Hb as [| ->]|]. cbn [hex_encode].
  assert (Hc : forall n b s, clean_tail b (String.String (hex_digit n) s) = clean_tail false s).
  { intros n b' s. pose proof (plain_hex_digit n) as Hp. unfold plain_char in Hp.
    simpl. destruct (Ascii.eqb _ "/"); [done|]. destruct (Ascii.eqb _ "."); [|done].
    by rewrite orb_true_r in Hp. }
  rewrite !Hc. apply IH. by right.
Qed.

#[export] Instance hex_HashString_laws : HashStringLaws.
Proof.
  constructor; unfold hash_String, hex_HashString.
  - intros a b E. assert (Some a = Some b) as [=]; [|done].
    by rewrite <- (hex_decode_encode a), E, hex_decode_encode.
  - intros h Hh. apply clean_hex_encode. by left.
Qed.

End RefHash.

(** ** The protobuf runtime *)

(** [proto.Marshal]/[proto.Unmarshal] at one message type [A]. *)
Class ProtoCodec (A : Type) := {
  proto_Marshal : A -> res bytes;
  proto_Unmarshal : bytes -> res A;
}.

(** The values a Go message of type [A] can hold (its integer fields at their widths). *)
Class ProtoMsg (A : Type) := proto_valid : A -> Prop.

(** Marshalling succeeds and unmarshalling its output gives the message back. *)
Class ProtoCodecLaws (A : Type) `{ProtoMsg A, ProtoCodec A} := {
  proto_roundtrip a : proto_valid a ->
    exists bz, proto_Marshal a = Ok bz /\ proto_Unmarshal bz = Ok a;
}.

(** *** The reference codec: any countable message type, one byte per bit of its code *)

Module RefCodec.

(** The bits of a number, lowest first, packed into bytes and padded with zeros. *)
Fixpoint pos_bits (p : positive) : list bool :=
  match p with
  | xH => [true]
  | xO p' => false :: pos_bits p'
  | xI p' => true :: pos_bits p'
  end.
Fixpoint bits_pos (l : list bool) : option positive :=
  match l with
  | [] => None
  | b :: l' =>
      match bits_pos l' with
      | Some p => Some (if b then xI p else xO p)
      | None => if b then Some xH else None
      end
  end.

Definition byte_at (l : list bool) : byte :=
  let n i := nth i l false in
  Byte.of_bits (n 0%nat, (n 1%nat, (n 2%nat, (n 3%nat, (n 4%nat, (n 5%nat, (n 6%nat, n 7%nat))))))).
Fixpoint pack (l : list bool) : bytes :=
  match l with
  | a0 :: a1 :: a2 :: a3 :: a4 :: a5 :: a6 :: a7 :: l' => byte_at [a0; a1; a2; a3; a4; a5; a6; a7] :: pack l'
  | [] => []
  | _ => [byte_at l]
  end.
Fixpoint unpack (l : bytes) : list bool :=
  match l with
  | [] => []
  | b :: l' =>
      let '(b0, (b1, (b2, (b3, (b4, (b5, (b6, b7))))))) := Byte.to_bits b in
      b0 :: b1 :: b2 :: b3 :: b4 :: b5 :: b6 :: b7 :: unpack l'
  end.

Lemma bits_pos_unpack l : bits_pos (unpack (pack l)) = bits_pos l.
Proof.
  remember (length l) as n eqn:En. revert l En. induction (lt_wf n) as [n _ IH]. intros l ->.
  do 8 (destruct l as [|? l]; [cbn [pack unpack byte_at]; rewrite ?Byte.to_bits_of_bits; simpl;
    by repeat match goal with b : bool |- _ => destruct b end|]).
  cbn [pack unpack]. unfold byte_at. rewrite Byte.to_bits_of_bits. cbn [nth].
  assert (E : bits_pos (unpack (pack l)) = bits_pos l) by (eapply IH; [|reflexivity]; simpl; lia).
  simpl. by rewrite E.
Qed.

Lemma bits_pos_bits p : bits_pos (pos_bits p) = Some p.
Proof. induction p as [p IH|p IH|]; simpl; rewrite ?IH; done. Qed.

Definition pos_bytes (p : positive) : bytes := pack (pos_bits p).
Definition bytes_pos (l : bytes) : option positive := bits_pos (unpack l).

Lemma bytes_pos_bytes p : bytes_pos (pos_bytes p) = Some p.
Proof. unfold bytes_pos, pos_bytes. by rewrite bits_pos_unpack, bits_pos_bits. Qed.

Definition codec A `{Countable A} : ProtoCodec A := {|
  proto_Marshal a := Ok (pos_bytes (encode a));
  proto_Unmarshal l :=
    match bytes_pos l ≫= decode with Some a => Ok a | None => Err (EMsg "bad message") end;
|}.

Lemma codec_laws A `{Countable A, ProtoMsg A} : @ProtoCodecLaws A _ (codec A).
Proof.
  constructor. intros a _. eexists. split; [done|]. simpl.
  rewrite bytes_pos_bytes. simpl. by rewrite decode_encode.
Qed.

End RefCodec.

(** ** The LRU cache (hashicorp/golang-lru) *)

Class LRU (C : Type -> Type -> Type) := {
  lru_New {K} `{Countable K} {A} : Z -> res (C K A);
  lru_Get {K} `{Countable K} {A} : C K A -> K -> C K A * option A;
  lru_Peek {K} `{Countable K} {A} : C K A -> K -> option A;
  lru_Add {K} `{Countable K} {A} : C K A -> K -> A -> C K A;
  lru_Remove {K} `{Countable K} {A} : C K A -> K -> C K A;
  lru_Purge {K} `{Countable K} {A} : C K A -> C K A;
  lru_Keys {K} `{Countable K} {A} : C K A -> list K;
}.

(** A cache of positive size holds some of the entries added and not removed since, the last one
    added always, and all of them up to its capacity; reading only changes the order. *)
Class LRULaws (C : Type -> Type -> Type) `{LRU C} := {
  lru_view {K} `{Countable K} {A} : C K A -> gmap K A;
  lru_cap {K} `{Countable K} {A} : C K A -> nat;
  lru_New_ok {K} `{Countable K} {A} n : 0 < n -> exists c : C K A, lru_New n = Ok c;
  lru_New_spec {K} `{Countable K} {A} n (c : C K A) : lru_New n = Ok c ->
    lru_view c = ∅ /\ Z.of_nat (lru_cap c) = n;
  lru_Get_spec {K} `{Countable K} {A} (c : C K A) k :
    exists c', lru_Get c k = (c', lru_view c !! k) /\ lru_view c' = lru_view c /\ lru_cap c' = lru_cap c;
  lru_Peek_spec {K} `{Countable K} {A} (c : C K A) k : lru_Peek c k = lru_view c !! k;
  lru_Add_spec {K} `{Countable K} {A} (c : C K A) k v :
    lru_view (lru_Add c k v) ⊆ <[k := v]> (lru_view c) /\
    lru_view (lru_Add c k v) !! k = Some v /\ lru_cap (lru_Add c k v) = lru_cap c /\
    ((size (<[k := v]> (lru_view c)) <= lru_cap c)%nat -> lru_view (lru_Add c k v) = <[k := v]> (lru_view c));
  lru_Remove_spec {K} `{Countable K} {A} (c : C K A) k :
    lru_view (lru_Remove c k) = delete k (lru_view c) /\ lru_cap (lru_Remove c k) = lru_cap c;
  lru_Purge_spec {K} `{Countable K} {A} (c : C K A) :
    lru_view (lru_Purge c) = ∅ /\ lru_cap (lru_Purge c) = lru_cap c;
  lru_Keys_spec {K} `{Countable K} {A} (c : C K A) :
    NoDup (lru_Keys c) /\ forall k, k ∈ lru_Keys c <-> is_Some (lru_view c !! k);
}.

(** *** The reference instance: a list of entries, the most recently used first *)

Module RefLRU.

Record lruc (K A : Type) := { lc_more : nat (** capacity minus one *); lc_items : list (K * A) }.
#[global] Arguments lc_more {K A} _.
#[global] Arguments lc_items {K A} _.

Section ops.
Context {K : Type} `{Countable K} {A : Type}.

Definition items_map (l : list (K * A)) : gmap K A := list_to_map l.
Definition without (k : K) (l : list (K * A)) : list (K * A) := filter (fun e => e.1 <> k) l.

Lemma lookup_without k l k' : items_map (without k l) !! k' = delete k (items_map l) !! k'.
Proof.
  unfold items_map, without. induction l as [|[x v] l IH]; [simpl; by rewrite delete_empty|].
  rewrite filter_cons. simpl. destruct (decide (x <> k)) as [Hx|Hx]; simpl.
  - destruct (decide (k' = x)) as [->|Hk]; [by rewrite lookup_insert_eq, lookup_delete_ne, lookup_insert_eq|].
    rewrite lookup_insert_ne, IH by done. destruct (decide (k' = k)) as [->|]; [by rewrite !lookup_delete_eq|].
    by rewrite !lookup_delete_ne, lookup_insert_ne.
  - apply dec_stable in Hx as ->. rewrite IH. by rewrite delete_insert_eq.
Qed.

Lemma items_without k l : items_map (without k l) = delete k (items_map l).
Proof. apply map_eq. intros k'. apply lookup_without. Qed.

Lemma items_take n l : items_map (take n l) ⊆ items_map l.
Proof.
  unfold items_map. revert n. induction l as [|[x v] l IH]; intros [|n]; simpl; try apply map_empty_subseteq.
  apply insert_mono, IH.
Qed.

Definition add_items (more : nat) (l : list (K * A)) (k : K) (v : A) : list (K * A) :=
  let l' := (k, v) :: without k l in
  if decide (size (items_map l') <= S more)%nat then l' else take (S more) l'.

Lemma items_add more l k v :
  items_map (add_items more l k v) ⊆ <[k := v]> (items_map l) /\
  items_map (add_items more l k v) !! k = Some v /\
  ((size (<[k := v]> (items_map l)) <= S more)%nat -> items_map (add_items more l k v) = <[k := v]> (items_map l)).
Proof.
  assert (E : items_map ((k, v) :: without k l) = <[k := v]> (items_map l)).
  { unfold items_map at 1. simpl. fold (items_map (without k l)). by rewrite items_without, insert_delete_eq. }
  unfold add_items. split_and!.
  - destruct (decide _); [by rewrite E|]. rewrite <- E. apply items_take.
  - destruct (decide _); simpl; apply lookup_insert_eq.
  - intros Hs. rewrite decide_True; [done|]. by rewrite E.
Qed.

End ops.

#[export] Instance ref_lru : LRU lruc := {
  lru_New K _ _ A n :=
    if 0 <? n then Ok {| lc_more := Z.to_nat (n - 1); lc_items := [] |}
    else Err (EMsg "must provide a positive size");
  lru_Get K _ _ A c k :=
    match items_map (lc_items c) !! k with
    | Some v => ({| lc_more := lc_more c; lc_items := (k, v) :: without k (lc_items c) |}, Some v)
    | None => (c, None)
    end;
  lru_Peek K _ _ A c k := items_map (lc_items c) !! k;
  lru_Add K _ _ A c k v :=
    {| lc_more := lc_more c; lc_items := add_items (lc_more c) (lc_items c) k v |};
  lru_Remove K _ _ A c k := {| lc_more := lc_more c; lc_items := without k (lc_items c) |};
  lru_Purge K _ _ A c := {| lc_more := lc_more c; lc_items := [] |};
  lru_Keys K _ _ A c := reverse (remove_dups (lc_items c).*1);
}.

#[export] Instance ref_lru_laws : LRULaws lruc.
Proof.
  refine {| lru_view := fun K _ _ A c => items_map (lc_items c);
            lru_cap := fun K _ _ A c => S (lc_more c) |}; simpl; intros K ? ? A.
  - intros n Hn. rewrite (proj2 (Z.ltb_lt _ _) Hn). eauto.
  - intros n c. destruct (Z.ltb_spec 0 n); [intros [= <-]|done]. simpl. split; [done|lia].
  - intros c k. destruct (items_map (lc_items c) !! k) as [v|] eqn:E; eexists; (split; [done|]); [|done].
    split; [|done]. simpl. unfold items_map at 1. simpl. fold (items_map (without k (lc_items c))).
    rewrite items_without. by rewrite insert_delete_id.
  - done.
  - intros c k v. destruct (items_add (lc_more c) (lc_items c) k v) as (? & ? & ?). done.
  - intros c k. split; [|done]. apply items_without.
  - done.
  - intros c. split; [rewrite reverse_Permutation; apply NoDup_remove_dups|].
    intros k. rewrite elem_of_reverse, elem_of_remove_dups.
    unfold items_map. generalize (lc_items c). clear. intros l.
    rewrite list_elem_of_fmap. split.
    + intros ([k' v] & -> & Hin). apply not_eq_None_Some. intros Hn. apply not_elem_of_list_to_map in Hn.
      apply Hn. apply list_elem_of_fmap. by exists (k', v).
    + intros [v Hv]. apply elem_of_list_to_map_2 in Hv. by exists (k, v).
Defined.

End RefLRU.
