(* ===== verification/Sequencing.v ===== *)
(** The sequencer interface (core/sequencer/sequencing.go) and its in-memory
    test implementation (core/sequencer/dummy.go). *)

From S2P Require Import Prelude Sha256.

Record Batch := MkBatch { Transactions : list bytes }.

#[export] Instance Batch_eq_dec : EqDecision Batch.
Proof. solve_decision. Defined.

Record SubmitBatchTxsRequest := { sr_Id : bytes; sr_Batch : option Batch }.
Record GetNextBatchRequest := {
  gr_Id : bytes; gr_LastBatchData : list bytes; gr_MaxBytes : Z
}.
Record GetNextBatchResponse := {
  gp_Batch : Batch; gp_Timestamp : Z; gp_BatchData : list bytes
}.

Module Hash.

(** The bytes [Batch.Hash] writes to the hasher for the transactions of the loop. *)
Fixpoint hash_txs (txs : list bytes) : bytes :=
  match txs with
  | [] => []
  | tx :: txs' => PutUint64_BE (blen tx) ++ tx ++ hash_txs txs'
  end.

Definition hash_input (batch : option Batch) : bytes :=
  match batch with
  | None => []
  | Some b =>
      match Transactions b with
      | [] => []
      | txs => PutUint64_BE (blen txs) ++ hash_txs txs
      end
  end.

Definition Batch_Hash (batch : option Batch) : bytes := sha256_Sum256 (hash_input batch).

Lemma PutUint64_BE_inj a b : is_u64 a -> is_u64 b -> PutUint64_BE a = PutUint64_BE b -> a = b.
Proof.
  intros Ha Hb H. apply (f_equal (@rev byte)) in H. unfold PutUint64_BE in H.
  rewrite !rev_involutive in H. apply (f_equal le_value) in H.
  rewrite !le_value_bytes in H. change (256 ^ Z.of_nat 8) with two64 in H.
  rewrite !Z.mod_small in H; done.
Qed.

Lemma length_PutUint64_BE z : length (PutUint64_BE z) = 8%nat.
Proof. unfold PutUint64_BE. by rewrite length_rev, length_le_bytes. Qed.

Lemma PutUint64_BE_app_inj a b l k :
  is_u64 a -> is_u64 b -> PutUint64_BE a ++ l = PutUint64_BE b ++ k -> a = b /\ l = k.
Proof.
  intros Ha Hb H. apply app_inj_1 in H as [H ->]; [|by rewrite !length_PutUint64_BE].
  split; [|done]. by apply PutUint64_BE_inj.
Qed.

(** Slices of a running program are shorter than 2^63. *)
Definition go_sized (txs : list bytes) : Prop :=
  blen txs < two63 /\ Forall (fun tx => blen tx < two63) txs.

Lemma blen_u64 {A} (l : list A) : blen l < two63 -> is_u64 (blen l).
Proof. pose proof (blen_nonneg l). unfold is_u64, two63, two64 in *. lia. Qed.

Lemma hash_txs_inj a b :
  length a = length b ->
  Forall (fun tx => blen tx < two63) a -> Forall (fun tx => blen tx < two63) b ->
  hash_txs a = hash_txs b -> a = b.
Proof.
  revert b. induction a as [|x a IH]; intros [|y b] Hlen Ha Hb H; try done.
  simpl in H, Hlen. apply Forall_cons in Ha as [Hx Ha]. apply Forall_cons in Hb as [Hy Hb].
  apply PutUint64_BE_app_inj in H as [Hl H]; [|by apply blen_u64..].
  apply app_inj_1 in H as [-> H]; [|unfold blen in Hl; lia].
  f_equal. apply IH; auto.
Qed.

Lemma hash_input_inj a b :
  go_sized (Transactions a) -> go_sized (Transactions b) ->
  hash_input (Some a) = hash_input (Some b) -> a = b.
Proof.
  destruct a as [a], b as [b]. unfold go_sized. simpl. intros [Ha1 Ha2] [Hb1 Hb2] H.
  f_equal. destruct a as [|x a], b as [|y b]; [done|..].
  - by apply (f_equal length) in H.
  - by apply (f_equal length) in H.
  - apply PutUint64_BE_app_inj in H as [Hl H]; [|by apply blen_u64..].
    apply hash_txs_inj; auto. unfold blen in Hl. lia.
Qed.

End Hash.

(** ** The dummy sequencer *)

Module Dummy.

Record DummySequencer := { batches : gmap bytes (list Batch) }.

Definition NewDummySequencer : DummySequencer := {| batches := ∅ |}.

(** A missing map key reads as the nil slice. *)
Definition queued (s : DummySequencer) (id : bytes) : list Batch :=
  default [] (batches s !! id).

Definition SubmitBatchTxs (s : DummySequencer) (req : SubmitBatchTxsRequest) : DummySequencer :=
  match sr_Batch req with
  | Some b =>
      {| batches := <[sr_Id req := queued s (sr_Id req) ++ [b]]> (batches s) |}
  | None => s
  end.

(** [now] is the value [time.Now()] returns. *)
Definition GetNextBatch (s : DummySequencer) (now : Z) (req : GetNextBatchRequest)
  : DummySequencer * GetNextBatchResponse :=
  match queued s (gr_Id req) with
  | [] => (s, {| gp_Batch := MkBatch []; gp_Timestamp := now; gp_BatchData := [] |})
  | b :: rest =>
      ({| batches := <[gr_Id req := rest]> (batches s) |},
       {| gp_Batch := b; gp_Timestamp := now; gp_BatchData := [] |})
  end.

(** What a client sees: per chain id, first in first out, and other ids untouched. *)
Lemma queued_SubmitBatchTxs s id b id' :
  queued (SubmitBatchTxs s {| sr_Id := id; sr_Batch := Some b |}) id' =
  if decide (id = id') then queued s id ++ [b] else queued s id'.
Proof.
  unfold queued at 1. simpl. case_decide as H; [subst; by rewrite lookup_insert_eq|].
  by rewrite lookup_insert_ne.
Qed.

Lemma queued_GetNextBatch s now req id' :
  queued (GetNextBatch s now req).1 id' =
  if decide (gr_Id req = id') then tail (queued s id') else queued s id'.
Proof.
  unfold GetNextBatch. destruct (queued s (gr_Id req)) as [|b rest] eqn:E; simpl.
  - case_decide as H; [subst; by rewrite E | done].
  - unfold queued at 1. simpl. case_decide as H.
    + subst. by rewrite lookup_insert_eq, E.
    + by rewrite lookup_insert_ne.
Qed.

End Dummy.
