(* ===== verification/Queue.v ===== *)
(** The single sequencer's persistent batch queue
    (pkg/sequencers/single/queue.go): an in-memory deque with a lazily compacted
    head, mirrored in a write-ahead log keyed by sequence numbers.

    [queue_spec] states the abstract deque the sequencer relies on; the
    theorems show that every operation implements it, that the log always
    describes the in-memory contents, and that [Load] after a crash restores
    them (and appends migrated legacy entries). *)

From S2P Require Import Prelude Interfaces Sequencing.

Module BatchQueue.

Definition ErrQueueFull : err := ESentinel "batch queue is full".

Definition initialSeqNum : Z := 9223372036854775808.

(** The protobuf message of the log ([pb.Batch]). *)
Record pb_Batch := { pb_Txs : list bytes }.
#[global] Instance pb_Batch_msg : ProtoMsg pb_Batch := fun _ => True.

Record queuedItem := QItem { qi_Batch : Batch; qi_Key : string }.

(** [queuedItem{}] *)
Definition zero_item : queuedItem := QItem (MkBatch []) "".

Definition seqToKey (seq : Z) : string := hex_encode (PutUint64_BE seq).

(** [strconv.ParseUint(s, 16, 64)] on a string of at most 16 characters: with an
    explicit base only digits are accepted, and 16 of them cannot overflow. *)
Fixpoint parse_hex (acc : Z) (s : string) : option Z :=
  match s with
  | EmptyString => Some acc
  | String.String c s' =>
      match hex_value c with
      | Some d => parse_hex (16 * acc + d) s'
      | None => None
      end
  end.

Section queue.
Context {D : Type} `{Datastore D} `{ProtoCodec pb_Batch}.

Record BatchQueue := {
  queue : list queuedItem;
  head : nat;
  maxQueueSize : Z;
  nextAddSeq : Z;
  nextPrependSeq : Z;
  db : D;
}.

(** [store] is the datastore [store.NewPrefixKVStore] returns. *)
Definition NewBatchQueue (store : D) (maxSize : Z) : BatchQueue := {|
  queue := []; head := 0; maxQueueSize := maxSize;
  nextAddSeq := initialSeqNum; nextPrependSeq := initialSeqNum -u 1; db := store;
|}.

Definition Size (bq : BatchQueue) : Z := blen (queue bq) - Z.of_nat (head bq).

Definition persistBatch (d : D) (batch : Batch) (key : string) : D * res unit :=
  match proto_Marshal {| pb_Txs := Transactions batch |} with
  | Err e => (d, Err e)
  | Ok encodedBatch => ds_Put d (ds_NewKey key) encodedBatch
  end.

Definition with_db (bq : BatchQueue) (d : D) : BatchQueue := {|
  queue := queue bq; head := head bq; maxQueueSize := maxQueueSize bq;
  nextAddSeq := nextAddSeq bq; nextPrependSeq := nextPrependSeq bq; db := d;
|}.

Definition AddBatch (bq : BatchQueue) (batch : Batch) : BatchQueue * res unit :=
  if (0 <? maxQueueSize bq) && (maxQueueSize bq <=? Size bq) then (bq, Err ErrQueueFull)
  else
    let key := seqToKey (nextAddSeq bq) in
    match persistBatch (db bq) batch key with
    | (d, Err e) => (with_db bq d, Err e)
    | (d, Ok _) =>
        ({| queue := queue bq ++ [QItem batch key]; head := head bq;
            maxQueueSize := maxQueueSize bq; nextAddSeq := nextAddSeq bq +u 1;
            nextPrependSeq := nextPrependSeq bq; db := d |}, Ok tt)
    end.

Definition Prepend (bq : BatchQueue) (batch : Batch) : BatchQueue * res unit :=
  let key := seqToKey (nextPrependSeq bq) in
  match persistBatch (db bq) batch key with
  | (d, Err e) => (with_db bq d, Err e)
  | (d, Ok _) =>
      let item := QItem batch key in
      let '(q, h) :=
        match head bq with
        | S h => (<[h := item]> (queue bq), h)
        | O => (item :: queue bq, O)
        end in
      ({| queue := q; head := h; maxQueueSize := maxQueueSize bq;
          nextAddSeq := nextAddSeq bq; nextPrependSeq := nextPrependSeq bq -u 1; db := d |},
       Ok tt)
  end.

(** The compaction of [Next]: the items from [head] on are moved to the front
    of the slice, which is cut after them. *)
Definition compact (q : list queuedItem) (h : nat) : list queuedItem * nat :=
  if (Nat.div (length q) 2 <? h)%nat && (100 <? h)%nat then (drop h q, O) else (q, h).

Definition Next (bq : BatchQueue) : BatchQueue * Batch :=
  match queue bq !! head bq with
  | None => (bq, MkBatch [])
  | Some item =>
      let '(q, h) := compact (<[head bq := zero_item]> (queue bq)) (S (head bq)) in
      (* a failed delete is only printed *)
      let d := (ds_Delete (db bq) (ds_NewKey (qi_Key item))).1 in
      ({| queue := q; head := h; maxQueueSize := maxQueueSize bq;
          nextAddSeq := nextAddSeq bq; nextPrependSeq := nextPrependSeq bq; db := d |},
       qi_Batch item)
  end.

(** One iteration of the loop of [Load] over the query's results: the items read
    so far, the legacy items, and the two sequence numbers. *)
Record load_state := {
  ld_queue : list queuedItem;
  ld_legacy : list queuedItem;
  ld_add : Z;
  ld_prepend : Z;
}.

Definition load_init : load_state :=
  {| ld_queue := []; ld_legacy := []; ld_add := initialSeqNum;
     ld_prepend := initialSeqNum -u 1 |}.

Definition key_seq (keyName : string) : option Z :=
  if (String.length keyName =? 16)%nat then parse_hex 0 keyName else None.

Definition load_entry (st : load_state) (result : string * res bytes) : load_state :=
  match result with
  | (_, Err _) => st
  | (rkey, Ok value) =>
      let keyName := ds_key_Name rkey in
      match proto_Unmarshal value with
      | Err _ => st
      | Ok pbBatch =>
          let batch := MkBatch (pb_Txs pbBatch) in
          match key_seq keyName with
          | Some seq =>
              {| ld_queue := ld_queue st ++ [QItem batch keyName];
                 ld_legacy := ld_legacy st;
                 ld_add := if ld_add st <=? seq then seq +u 1 else ld_add st;
                 ld_prepend := if seq <=? ld_prepend st then seq -u 1 else ld_prepend st |}
          | None =>
              {| ld_queue := ld_queue st; ld_legacy := ld_legacy st ++ [QItem batch rkey];
                 ld_add := ld_add st; ld_prepend := ld_prepend st |}
          end
      end
  end.

(** One iteration of the migration loop, on (datastore, queue, nextAddSeq). *)
Definition migrate (st : D * list queuedItem * Z) (item : queuedItem)
  : D * list queuedItem * Z :=
  let '(d, q, add) := st in
  let newKeyName := seqToKey add in
  match persistBatch d (qi_Batch item) newKeyName with
  | (d1, Err _) => (d1, q, add)
  | (d1, Ok _) =>
      ((ds_Delete d1 (ds_NewKey (qi_Key item))).1,
       q ++ [QItem (qi_Batch item) newKeyName], add +u 1)
  end.

Definition Load (bq : BatchQueue) : BatchQueue * res unit :=
  match ds_Query (db bq) with
  | Err e =>
      ({| queue := []; head := 0; maxQueueSize := maxQueueSize bq;
          nextAddSeq := initialSeqNum; nextPrependSeq := initialSeqNum -u 1; db := db bq |},
       Err (EWrap "error querying datastore" e))
  | Ok results =>
      let st := foldl load_entry load_init results in
      let '(d, q, add) := foldl migrate (db bq, ld_queue st, ld_add st) (ld_legacy st) in
      ({| queue := q; head := 0; maxQueueSize := maxQueueSize bq;
          nextAddSeq := add; nextPrependSeq := ld_prepend st; db := d |}, Ok tt)
  end.

End queue.
#[global] Arguments BatchQueue D : clear implicits.

(** ** Keys

    [seqToKey] is injective and order preserving, so that the datastore's key
    order is the order of the sequence numbers. *)

Definition be_value (acc : Z) (l : bytes) : Z :=
  foldl (fun a b => 256 * a + byte_Z b) acc l.

Lemma be_value_rev l : be_value 0 (rev l) = le_value l.
Proof.
  unfold be_value. induction l as [|b l IH]; [done|].
  simpl. rewrite foldl_app, IH. simpl. lia.
Qed.

Lemma parse_hex_encode acc l : parse_hex acc (hex_encode l) = Some (be_value acc l).
Proof.
  revert acc. induction l as [|b l IH]; intros acc; [done|]. cbn [hex_encode parse_hex].
  pose proof (byte_Z_range b).
  rewrite !hex_value_digit by (Z.div_mod_to_equations; lia). rewrite IH.
  unfold be_value. simpl. do 2 f_equal. Z.div_mod_to_equations; lia.
Qed.

Lemma seq_value z : be_value 0 (PutUint64_BE z) = u64 z.
Proof. unfold PutUint64_BE. rewrite be_value_rev, le_value_bytes. done. Qed.

Lemma key_seq_seqToKey z : key_seq (seqToKey z) = Some (u64 z).
Proof.
  unfold key_seq, seqToKey. rewrite length_hex_encode, Hash.length_PutUint64_BE.
  change (2 * 8 =? 16)%nat with true. by rewrite parse_hex_encode, seq_value.
Qed.

Lemma plain_hex_encode l : plain_key (hex_encode l) = true.
Proof. induction l as [|b l IH]; [done|]. simpl. by rewrite !plain_hex_digit, IH. Qed.

Lemma plain_seqToKey z : plain_key (seqToKey z) = true.
Proof. apply plain_hex_encode. Qed.

Lemma seqToKey_nonempty z : seqToKey z <> EmptyString.
Proof.
  intros E. apply (f_equal String.length) in E. unfold seqToKey in E.
  by rewrite length_hex_encode, Hash.length_PutUint64_BE in E.
Qed.

Lemma hex_digit_compare a b : 0 <= a < 16 -> 0 <= b < 16 ->
  Ascii.compare (hex_digit a) (hex_digit b) = (a ?= b).
Proof.
  intros Ha Hb. assert (Hc : forall x y, (x < 16)%nat -> (y < 16)%nat ->
    Ascii.compare (nth x hexDigits "0"%char) (nth y hexDigits "0"%char) = (x ?= y)%nat).
  { intros x y Hx Hy. do 16 (destruct x as [|x];
      [do 16 (destruct y as [|y]; [reflexivity|]); lia|]). lia. }
  unfold hex_digit. rewrite !Z.mod_small by lia. rewrite Hc by lia.
  rewrite <- Nat2Z.inj_compare, !Z2Nat.id by lia. done.
Qed.

Lemma be_value_acc k l : be_value k l = k * 256 ^ Z.of_nat (length l) + be_value 0 l.
Proof.
  revert k. induction l as [|b l IH]; intros k; [simpl; lia|].
  change (be_value k (b :: l)) with (be_value (256 * k + byte_Z b) l).
  change (be_value 0 (b :: l)) with (be_value (256 * 0 + byte_Z b) l).
  rewrite (IH (256 * k + _)), (IH (256 * 0 + _)). simpl length.
  rewrite Nat2Z.inj_succ, Z.pow_succ_r by lia. ring.
Qed.

Lemma be_value_cons b l :
  be_value 0 (b :: l) = byte_Z b * 256 ^ Z.of_nat (length l) + be_value 0 l.
Proof. change (be_value 0 (b :: l)) with (be_value (byte_Z b) l). apply be_value_acc. Qed.

Lemma be_value_range l : 0 <= be_value 0 l < 256 ^ Z.of_nat (length l).
Proof.
  rewrite <- (rev_involutive l), be_value_rev, length_rev. apply le_value_range.
Qed.

Lemma hex_encode_compare a b : length a = length b ->
  String.compare (hex_encode a) (hex_encode b) = (be_value 0 a ?= be_value 0 b).
Proof.
  revert b. induction a as [|x a IH]; intros [|y b] Hl; try done.
  injection Hl as Hl. cbn [hex_encode String.compare].
  pose proof (byte_Z_range x) as Hx. pose proof (byte_Z_range y) as Hy.
  rewrite !hex_digit_compare by (Z.div_mod_to_equations; lia).
  rewrite !be_value_cons, <- Hl, (IH b Hl).
  pose proof (be_value_range a) as Ha. pose proof (be_value_range b) as Hb.
  rewrite <- Hl in Hb. set (P := 256 ^ _) in *. clearbody P. clear IH Hl.
  pose proof (Z.div_mod (byte_Z x) 16 ltac:(lia)). pose proof (Z.div_mod (byte_Z y) 16 ltac:(lia)).
  pose proof (Z.mod_pos_bound (byte_Z x) 16 ltac:(lia)).
  pose proof (Z.mod_pos_bound (byte_Z y) 16 ltac:(lia)).
  symmetry. destruct (Z.compare_spec (byte_Z x / 16) (byte_Z y / 16));
    [destruct (Z.compare_spec (byte_Z x mod 16) (byte_Z y mod 16))|..];
    [replace (byte_Z y) with (byte_Z x) by lia; apply Z.add_compare_mono_l
    |apply Z.compare_lt_iff|apply Z.compare_gt_iff|apply Z.compare_lt_iff|apply Z.compare_gt_iff];
    nia.
Qed.

Lemma seqToKey_compare a b : is_u64 a -> is_u64 b ->
  String.compare (seqToKey a) (seqToKey b) = (a ?= b).
Proof.
  intros Ha Hb. unfold seqToKey.
  rewrite hex_encode_compare by (by rewrite !Hash.length_PutUint64_BE).
  by rewrite !seq_value, !u64_small.
Qed.

Lemma seqToKey_inj a b : is_u64 a -> is_u64 b -> seqToKey a = seqToKey b -> a = b.
Proof.
  intros Ha Hb E. apply Z.compare_eq. rewrite <- seqToKey_compare, E by done.
  apply string_compare_refl.
Qed.

Lemma slash_seqToKey_le a b : is_u64 a -> is_u64 b -> a <= b ->
  key_le (slash (seqToKey a)) (slash (seqToKey b)).
Proof.
  intros Ha Hb Hab. unfold key_le, key_leb. cbn [String.compare].
  rewrite seqToKey_compare by done. simpl.
  destruct (Z.compare_spec a b); [done..|lia].
Qed.

(** ** The invariant *)

(** Arithmetic on sequence numbers. *)
Ltac seqlia := unfold initialSeqNum in *; uarith.

Section invariant.
Context {D : Type} `{DatastoreLaws D} `{PC : ProtoCodec pb_Batch} `{PL : !ProtoCodecLaws pb_Batch}.

(** The items that [Next] has yet to return, and their batches. *)
Definition live (bq : BatchQueue D) : list queuedItem := drop (head bq) (queue bq).
Definition contents (bq : BatchQueue D) : list Batch := qi_Batch <$> live bq.

(** The decodable part of the log. *)
Definition dec (value : bytes) : option Batch :=
  match proto_Unmarshal value with Ok m => Some (MkBatch (pb_Txs m)) | Err _ => None end.
Definition wal_view (d : D) : gmap string Batch := omap dec (ds_view d).

(** The log entries of numbered items and of items under another key. *)
Definition wal_entries (items : list queuedItem) : list (string * Batch) :=
  (fun it => (slash (qi_Key it), qi_Batch it)) <$> items.
Definition legacy_entries (items : list queuedItem) : list (string * Batch) :=
  (fun it => (qi_Key it, qi_Batch it)) <$> items.

(** Items numbered by increasing sequence numbers strictly between [lo] and [hi]. *)
Definition numbered (lo hi : Z) (items : list queuedItem) : Prop :=
  exists seqs, qi_Key <$> items = seqToKey <$> seqs /\
    StronglySorted Z.lt seqs /\ Forall (fun s => lo < s < hi) seqs.

(** Legacy items: canonical keys that are not sequence numbers, in key order. *)
Definition legacy_key (k : string) : Prop :=
  clean_key k = true /\ key_seq (ds_key_Name k) = None.
Definition legacy (items : list queuedItem) : Prop :=
  Forall (fun it => legacy_key (qi_Key it)) items /\ NoDup (qi_Key <$> items) /\
  StronglySorted key_le (qi_Key <$> items).

Definition wal_inv (d : D) (items legs : list queuedItem) : Prop :=
  ds_healthy d /\ wal_view d = list_to_map (wal_entries items ++ legacy_entries legs).

(** The invariant of a queue after at most [n] insertions. *)
Definition queue_inv (n : Z) (bq : BatchQueue D) : Prop :=
  (head bq <= length (queue bq))%nat /\
  numbered (nextPrependSeq bq) (nextAddSeq bq) (live bq) /\
  (initialSeqNum - 1 - n <= nextPrependSeq bq < initialSeqNum /\
   initialSeqNum <= nextAddSeq bq <= initialSeqNum + n) /\
  wal_inv (db bq) (live bq) [].

Lemma persistBatch_ok d batch key : ds_healthy d -> plain_key key = true -> key <> EmptyString ->
  exists d', persistBatch d batch key = (d', Ok tt) /\ ds_healthy d' /\
    wal_view d' = <[slash key := batch]> (wal_view d).
Proof.
  intros Hd Hk Hne. unfold persistBatch.
  destruct (proto_roundtrip {| pb_Txs := Transactions batch |} I) as (bz & -> & Hu).
  destruct (ds_Put_spec d (ds_NewKey key) bz Hd) as (d' & -> & Hd' & Hv).
  exists d'. split_and!; [done..|]. unfold wal_view.
  rewrite Hv, ds_NewKey_plain by done. apply omap_insert_Some.
  unfold dec. rewrite Hu. by destruct batch.
Qed.

Lemma Delete_ok d key : ds_healthy d ->
  ds_healthy (ds_Delete d key).1 /\ wal_view (ds_Delete d key).1 = delete key (wal_view d).
Proof.
  intros Hd. destruct (ds_Delete_spec d key Hd) as (d' & -> & Hd' & Hv).
  split; [done|]. unfold wal_view. simpl. rewrite Hv. apply omap_delete.
Qed.

Lemma numbered_key lo hi items it : 0 <= lo -> hi <= two64 ->
  numbered lo hi items -> it ∈ items ->
  exists s, qi_Key it = seqToKey s /\ lo < s < hi /\ is_u64 s.
Proof.
  intros Hlo Hhi (seqs & Hk & _ & Hb) Hit.
  assert (Hin : qi_Key it ∈ seqToKey <$> seqs) by (rewrite <- Hk; by apply list_elem_of_fmap_2).
  apply list_elem_of_fmap in Hin as (s & Hs & Hin). exists s.
  eapply Forall_forall in Hb; [|exact Hin]. unfold is_u64. split_and!; [done|lia..].
Qed.

Lemma numbered_fresh lo hi items s : 0 <= lo -> hi <= two64 -> is_u64 s ->
  numbered lo hi items -> s <= lo \/ hi <= s -> slash (seqToKey s) ∉ (wal_entries items).*1.
Proof.
  intros Hlo Hhi Hs Hn Hout Hin. unfold wal_entries in Hin.
  rewrite <- list_fmap_compose in Hin. apply list_elem_of_fmap in Hin as (it & E & Hit).
  destruct (numbered_key lo hi items it) as (s' & Ek & Hb & Hu); [done..|].
  simpl in E. injection E as E. rewrite Ek in E. apply seqToKey_inj in E; [lia|done..].
Qed.

Lemma numbered_NoDup lo hi items : 0 <= lo -> hi <= two64 ->
  numbered lo hi items -> NoDup (wal_entries items).*1.
Proof.
  intros Hlo Hhi. revert lo Hlo. induction items as [|it items IH]; intros lo Hlo Hn;
    [constructor|].
  destruct Hn as ([|s seqs] & Hk & Hs & Hb); [done|]. injection Hk as Hk1 Hk2.
  apply StronglySorted_inv in Hs as [Hs Hlt]. apply Forall_cons in Hb as [Hb1 Hb2].
  assert (Hn : numbered s hi items).
  { exists seqs. split_and!; [done..|]. apply Forall_and. split; [done|].
    eapply Forall_impl; [exact Hb2|]. simpl. lia. }
  constructor; [|by apply (IH s); [lia|]].
  simpl. rewrite Hk1. apply (numbered_fresh s hi); unfold is_u64; auto; lia.
Qed.

Lemma numbered_snoc lo hi items b : lo < hi ->
  numbered lo hi items -> numbered lo (hi + 1) (items ++ [QItem b (seqToKey hi)]).
Proof.
  intros Hlt (seqs & Hk & Hs & Hb). exists (seqs ++ [hi]). rewrite !fmap_app, Hk.
  split_and!; [done|..].
  - apply StronglySorted_app_2; [|done|repeat constructor].
    intros x y Hx Hy%list_elem_of_singleton. subst. eapply Forall_forall in Hb; [|done]. lia.
  - apply Forall_app. split; [eapply Forall_impl; [exact Hb|]; simpl; lia|].
    constructor; [lia|constructor].
Qed.

Lemma numbered_cons lo hi items b : lo < hi ->
  numbered lo hi items -> numbered (lo - 1) hi (QItem b (seqToKey lo) :: items).
Proof.
  intros Hlt (seqs & Hk & Hs & Hb). exists (lo :: seqs). csimpl. rewrite Hk.
  split_and!; [done|..].
  - constructor; [done|]. eapply Forall_impl; [exact Hb|]. simpl. lia.
  - constructor; [lia|]. eapply Forall_impl; [exact Hb|]. simpl. lia.
Qed.

Lemma numbered_tail lo hi it items : numbered lo hi (it :: items) -> numbered lo hi items.
Proof.
  intros ([|s seqs] & Hk & Hs & Hb); [done|]. injection Hk as _ Hk.
  apply StronglySorted_inv in Hs as [Hs _]. apply Forall_cons in Hb as [_ Hb].
  by exists seqs.
Qed.

(** ** Operations preserve the invariant and act on [contents] *)

(** The test of [AddBatch]: the queue is bounded and holds [maxQueueSize] batches. *)
Definition full (max : Z) (l : list Batch) : bool := (0 <? max) && (max <=? blen l).

Lemma Size_contents n bq : queue_inv n bq -> Size bq = blen (contents bq).
Proof.
  intros (Hh & _). unfold Size, contents, live, blen. rewrite length_fmap, length_drop. lia.
Qed.

Lemma queue_inv_mono n m bq : queue_inv n bq -> n <= m -> queue_inv m bq.
Proof. intros (? & ? & ? & ?) ?. split_and!; [done..|lia|lia|lia|lia|done]. Qed.

Lemma AddBatch_spec n bq b : queue_inv n bq -> 0 <= n < initialSeqNum - 1 ->
  let '(bq', r) := AddBatch bq b in
  queue_inv (n + 1) bq' /\ maxQueueSize bq' = maxQueueSize bq /\
  if full (maxQueueSize bq) (contents bq)
  then r = Err ErrQueueFull /\ bq' = bq
  else r = Ok tt /\ contents bq' = contents bq ++ [b].
Proof.
  intros Hinv Hn. unfold AddBatch. rewrite (Size_contents n bq Hinv).
  fold (full (maxQueueSize bq) (contents bq)).
  destruct (full _ _).
  { split_and!; [eapply queue_inv_mono; [done|lia]|done..]. }
  destruct Hinv as (Hh & Hnum & Hb & Hd & Hw).
  destruct (persistBatch_ok (db bq) b (seqToKey (nextAddSeq bq))) as (d' & -> & Hd' & Hw');
    [done|apply plain_seqToKey|apply seqToKey_nonempty|].
  unfold initialSeqNum in *.
  assert (Hlive : drop (head bq) (queue bq ++ [QItem b (seqToKey (nextAddSeq bq))]) =
    live bq ++ [QItem b (seqToKey (nextAddSeq bq))]) by (by apply drop_app_le).
  assert (Hu : nextAddSeq bq +u 1 = nextAddSeq bq + 1) by (apply u64_small; uarith).
  split_and!; [|done|done|unfold contents, live; cbn [queue head]; by rewrite Hlive, fmap_app].
  split_and!; cbn [queue head nextAddSeq nextPrependSeq db]; rewrite ?length_app, ?Hu; try seqlia.
  - unfold live. cbn [queue head]. rewrite Hlive. apply numbered_snoc; [lia|done].
  - split; [done|]. unfold live. cbn [queue head]. rewrite Hlive, Hw', Hw. unfold wal_entries, legacy_entries.
    rewrite fmap_app, !app_nil_r. symmetry. apply list_to_map_snoc.
    eapply numbered_fresh; [| | |exact Hnum|by right]; uarith.
Qed.

Lemma Prepend_spec n bq b : queue_inv n bq -> 0 <= n < initialSeqNum - 1 ->
  let '(bq', r) := Prepend bq b in
  queue_inv (n + 1) bq' /\ maxQueueSize bq' = maxQueueSize bq /\
  r = Ok tt /\ contents bq' = b :: contents bq.
Proof.
  intros (Hh & Hnum & Hb & Hd & Hw) Hn. unfold Prepend.
  destruct (persistBatch_ok (db bq) b (seqToKey (nextPrependSeq bq))) as (d' & -> & Hd' & Hw');
    [done|apply plain_seqToKey|apply seqToKey_nonempty|].
  set (item := QItem b _). unfold initialSeqNum in *.
  destruct (match head bq with S h => _ | O => _ end) as [q h] eqn:Eq.
  assert (Hlive : drop h q = item :: live bq /\ (h <= length q)%nat).
  { unfold live. destruct (head bq) as [|h'] eqn:Eh; injection Eq as <- <-; [split; simpl; [done|lia]|].
    rewrite length_insert. split; [|lia].
    rewrite (drop_S _ item) by (apply list_lookup_insert_eq; lia).
    by rewrite drop_insert_lt by lia. }
  destruct Hlive as [Hlive Hlen].
  assert (Hu : nextPrependSeq bq -u 1 = nextPrependSeq bq - 1) by (apply u64_small; uarith).
  split_and!; [|done|done|unfold contents, live; cbn [queue head]; by rewrite Hlive].
  split_and!; cbn [queue head nextAddSeq nextPrependSeq db]; rewrite ?Hu; try seqlia.
  - unfold live. cbn [queue head]. rewrite Hlive. apply numbered_cons; [lia|done].
  - split; [done|]. unfold live. cbn [queue head]. by rewrite Hlive, Hw', Hw.
Qed.

Lemma compact_drop q h : let '(q', h') := compact q h in
  drop h' q' = drop h q /\ ((h <= length q)%nat -> (h' <= length q')%nat).
Proof. unfold compact. destruct (_ && _); split; auto. intros _. apply Nat.le_0_l. Qed.

Lemma Next_spec n bq : queue_inv n bq -> 0 <= n < initialSeqNum - 1 ->
  let '(bq', b) := Next bq in
  queue_inv n bq' /\ maxQueueSize bq' = maxQueueSize bq /\
  contents bq' = tail (contents bq) /\ b = default (MkBatch []) (hd_error (contents bq)).
Proof.
  intros Hinv Hn. unfold Next.
  destruct (queue bq !! head bq) as [item|] eqn:Ei.
  2:{ apply lookup_ge_None in Ei. unfold contents, live.
      by rewrite drop_ge by done. }
  destruct Hinv as (Hh & Hnum & Hb & Hd & Hw).
  assert (Hl : live bq = item :: drop (S (head bq)) (queue bq)) by (by apply drop_S).
  apply lookup_lt_Some in Ei as Hlt.
  pose proof (compact_drop (<[head bq := zero_item]> (queue bq)) (S (head bq))) as Hc.
  destruct (compact _ _) as [q h]. destruct Hc as [Hc Hc'].
  rewrite drop_insert_lt in Hc by lia.
  destruct (Delete_ok (db bq) (ds_NewKey (qi_Key item)) Hd) as [Hd' Hw'].
  destruct (numbered_key (nextPrependSeq bq) (nextAddSeq bq) (live bq) item) as (s & Ek & _);
    [unfold initialSeqNum in *; uarith..|done|rewrite Hl; left|].
  assert (Hlive : live bq = item :: drop h q) by (by rewrite Hl, Hc).
  unfold contents. rewrite Hlive.
  split_and!; try done. rewrite Hlive in Hnum, Hw.
  split_and!; cbn [queue head nextAddSeq nextPrependSeq db]; try done; try seqlia.
  - apply Hc'. rewrite length_insert. lia.
  - by apply numbered_tail in Hnum.
  - split; [done|]. rewrite Hw', Hw, Ek, ds_NewKey_plain by (apply plain_seqToKey || apply seqToKey_nonempty).
    rewrite <- Ek. simpl. apply delete_insert_id.
    apply not_elem_of_list_to_map. rewrite fmap_app, app_nil_r.
    pose proof (numbered_NoDup (nextPrependSeq bq) (nextAddSeq bq) _ ltac:(seqlia) ltac:(seqlia) Hnum) as HN.
    by apply NoDup_cons in HN as [HN _].
Qed.

(** ** Recovery *)

(** [load_entry] on a decoded entry. *)
Definition load_dec (st : load_state) (kb : string * Batch) : load_state :=
  match key_seq (ds_key_Name kb.1) with
  | Some seq =>
      {| ld_queue := ld_queue st ++ [QItem kb.2 (ds_key_Name kb.1)];
         ld_legacy := ld_legacy st;
         ld_add := if ld_add st <=? seq then seq +u 1 else ld_add st;
         ld_prepend := if seq <=? ld_prepend st then seq -u 1 else ld_prepend st |}
  | None =>
      {| ld_queue := ld_queue st; ld_legacy := ld_legacy st ++ [QItem kb.2 kb.1];
         ld_add := ld_add st; ld_prepend := ld_prepend st |}
  end.

Lemma load_entry_dec st l :
  foldl load_entry st ((fun kv => (kv.1, Ok kv.2)) <$> l) =
  foldl load_dec st (omap (decode_entry dec) l).
Proof.
  revert st. induction l as [|[k v] l IH]; intros st; [done|]. csimpl. rewrite IH.
  unfold decode_entry, dec. simpl. destruct (proto_Unmarshal v); done.
Qed.

Definition numbered_item (kb : string * Batch) : option queuedItem :=
  match key_seq (ds_key_Name kb.1) with
  | Some _ => Some (QItem kb.2 (ds_key_Name kb.1)) | None => None
  end.
Definition legacy_item (kb : string * Batch) : option queuedItem :=
  match key_seq (ds_key_Name kb.1) with
  | Some _ => None | None => Some (QItem kb.2 kb.1)
  end.

Lemma load_dec_items st l :
  ld_queue (foldl load_dec st l) = ld_queue st ++ omap numbered_item l /\
  ld_legacy (foldl load_dec st l) = ld_legacy st ++ omap legacy_item l.
Proof.
  revert st. induction l as [|[k b] l IH]; intros st; simpl; [by rewrite !app_nil_r|].
  destruct (IH (load_dec st (k, b))) as [-> ->].
  unfold load_dec, numbered_item, legacy_item. simpl. destruct (key_seq _); simpl;
    by rewrite <- ?app_assoc.
Qed.

(** The sequence numbers a list of decoded entries carries. *)
Definition entry_seq (kb : string * Batch) : option Z := key_seq (ds_key_Name kb.1).

Definition seq_bounds (n : Z) (st : load_state) : Prop :=
  initialSeqNum - 1 - n <= ld_prepend st < initialSeqNum /\
  initialSeqNum <= ld_add st <= initialSeqNum + n.

Definition seq_in (n s : Z) : Prop := initialSeqNum - 1 - n < s < initialSeqNum + n.

Lemma load_dec_step n st kb : 0 <= n < initialSeqNum - 1 -> seq_bounds n st ->
  (forall s, entry_seq kb = Some s -> seq_in n s) ->
  let st' := load_dec st kb in
  seq_bounds n st' /\ ld_prepend st' <= ld_prepend st /\ ld_add st <= ld_add st' /\
  forall s, entry_seq kb = Some s -> ld_prepend st' < s < ld_add st'.
Proof.
  intros Hn [Hp Ha] Hs. unfold load_dec, entry_seq, seq_bounds, seq_in in *.
  destruct (key_seq _) as [s|]; simpl; [|split_and!; auto; try done; lia].
  specialize (Hs s eq_refl).
  assert (s +u 1 = s + 1) as -> by (apply u64_small; seqlia).
  assert (s -u 1 = s - 1) as -> by (apply u64_small; seqlia).
  destruct (Z.leb_spec (ld_add st) s), (Z.leb_spec s (ld_prepend st));
    (split_and!; [..|intros ? [= <-]]); lia.
Qed.

Lemma load_dec_seqs n st l : 0 <= n < initialSeqNum - 1 -> seq_bounds n st ->
  Forall (seq_in n) (omap entry_seq l) ->
  let st' := foldl load_dec st l in
  seq_bounds n st' /\ ld_prepend st' <= ld_prepend st /\ ld_add st <= ld_add st' /\
  Forall (fun s => ld_prepend st' < s < ld_add st') (omap entry_seq l).
Proof.
  intros Hn. revert st. induction l as [|kb l IH]; intros st Hst Hl; [split_and!; simpl; auto; lia|].
  destruct (load_dec_step n st kb Hn Hst) as (H1 & H2 & H3 & H4).
  { intros s E. csimpl in Hl. rewrite E in Hl. by apply Forall_cons in Hl as [Hl _]. }
  assert (Hl' : Forall (seq_in n) (omap entry_seq l)).
  { csimpl in Hl. destruct (entry_seq kb); [by apply Forall_cons in Hl as [_ Hl]|done]. }
  destruct (IH (load_dec st kb) H1 Hl') as (I1 & I2 & I3 & I4). simpl.
  split_and!; [done|lia|lia|]. csimpl.
  destruct (entry_seq kb) as [s|] eqn:E; [|done].
  constructor; [|done]. specialize (H4 s eq_refl). lia.
Qed.

(** Decoded entries in key order that make up the log of [items] and [legs] are
    read back as [items] and [legs]. *)
Lemma wal_entry_item lo hi items : 0 <= lo -> hi <= two64 -> numbered lo hi items ->
  omap numbered_item (wal_entries items) = items /\ omap legacy_item (wal_entries items) = [].
Proof.
  intros Hlo Hhi Hn.
  assert (Hk : Forall (fun it => exists s, qi_Key it = seqToKey s) items).
  { apply Forall_forall. intros it Hit.
    destruct (numbered_key lo hi items it) as (s & ? & _); eauto. }
  clear Hn. induction Hk as [|it items (s & Es) _ [IH1 IH2]]; [done|].
  unfold numbered_item, legacy_item in *. csimpl. rewrite Es.
  rewrite ds_key_Name_plain by (apply plain_seqToKey || apply seqToKey_nonempty).
  rewrite key_seq_seqToKey, IH1, IH2, <- Es. by destruct it.
Qed.

Lemma legacy_entry_item legs : legacy legs ->
  omap numbered_item (legacy_entries legs) = [] /\ omap legacy_item (legacy_entries legs) = legs.
Proof.
  intros [Hl _]. unfold numbered_item, legacy_item.
  induction Hl as [|it legs [_ Hk] _ [IH1 IH2]]; [done|]. csimpl. rewrite Hk, IH1, IH2.
  by destruct it.
Qed.

Definition slash_key (it : queuedItem) : string := slash (qi_Key it).

Lemma wal_entries_fst items : (wal_entries items).*1 = slash_key <$> items.
Proof. unfold wal_entries. by rewrite <- list_fmap_compose. Qed.
Lemma legacy_entries_fst items : (legacy_entries items).*1 = qi_Key <$> items.
Proof. unfold legacy_entries. by rewrite <- list_fmap_compose. Qed.

Lemma numbered_sorted lo hi items : 0 <= lo -> hi <= two64 -> numbered lo hi items ->
  StronglySorted (fun a b => key_le (slash_key a) (slash_key b)) items.
Proof.
  intros Hlo Hhi (seqs & Hk & Hs & Hb). revert seqs Hk Hs Hb.
  induction items as [|it items IH]; intros [|s seqs] Hk Hs Hb; try done; [constructor|].
  injection Hk as Hk1 Hk2. change (qi_Key <$> items = seqToKey <$> seqs) in Hk2.
  apply StronglySorted_inv in Hs as [Hs Hlt].
  apply Forall_cons in Hb as [Hb1 Hb2]. constructor; [by eapply IH|].
  apply Forall_forall. intros it' Hit'. unfold slash_key. rewrite Hk1.
  assert (Hin : qi_Key it' ∈ seqToKey <$> seqs) by (rewrite <- Hk2; by apply list_elem_of_fmap_2).
  apply list_elem_of_fmap in Hin as (s' & -> & Hin).
  eapply Forall_forall in Hlt; [|exact Hin]. eapply Forall_forall in Hb2; [|exact Hin].
  apply slash_seqToKey_le; unfold is_u64; lia.
Qed.

Lemma seq_key_not_legacy s k : legacy_key k -> k <> slash (seqToKey s).
Proof.
  intros [_ Hk] ->. rewrite ds_key_Name_plain in Hk
    by (apply plain_seqToKey || apply seqToKey_nonempty).
  by rewrite key_seq_seqToKey in Hk.
Qed.

Lemma wal_NoDup lo hi items legs : 0 <= lo -> hi <= two64 -> numbered lo hi items ->
  legacy legs -> NoDup (wal_entries items ++ legacy_entries legs).*1.
Proof.
  intros Hlo Hhi Hn (Hl & HN & _). rewrite fmap_app. apply NoDup_app.
  split_and!; [by eapply numbered_NoDup| |by rewrite legacy_entries_fst].
  intros k Hk Hk'. rewrite wal_entries_fst in Hk. rewrite legacy_entries_fst in Hk'.
  apply list_elem_of_fmap in Hk as (it & -> & Hit).
  destruct (numbered_key lo hi items it) as (s & Es & _); [done..|].
  apply list_elem_of_fmap in Hk' as (it' & E & Hit').
  eapply Forall_forall in Hl; [|exact Hit']. unfold slash_key in E. rewrite Es in E.
  by apply (seq_key_not_legacy s) in Hl.
Qed.

Lemma read_back lo hi items legs (E : list (string * Batch)) :
  0 <= lo -> hi <= two64 -> numbered lo hi items -> legacy legs ->
  E ≡ₚ wal_entries items ++ legacy_entries legs ->
  StronglySorted (fun a b => key_le a.1 b.1) E ->
  omap numbered_item E = items /\ omap legacy_item E = legs.
Proof.
  intros Hlo Hhi Hn Hleg HE HS.
  destruct (wal_entry_item lo hi items Hlo Hhi Hn) as [W1 W2].
  destruct (legacy_entry_item legs Hleg) as [L1 L2].
  assert (P1 : omap numbered_item E ≡ₚ items) by (by rewrite HE, omap_app, W1, L1, app_nil_r).
  assert (P2 : omap legacy_item E ≡ₚ legs) by (by rewrite HE, omap_app, W2, L2).
  split.
  - eapply (sorted_by_key_unique key_le slash_key); [apply _| |done| |by eapply numbered_sorted].
    { rewrite <- wal_entries_fst. by eapply numbered_NoDup. }
    eapply StronglySorted_omap; [|exact HS].
    assert (Hsk : forall x a, x ∈ E -> numbered_item x = Some a -> slash_key a = x.1).
    { intros x a Hx Ha. rewrite HE in Hx. apply elem_of_app in Hx as [Hx|Hx].
      - apply list_elem_of_fmap in Hx as (it & -> & Hit).
        destruct (numbered_key lo hi items it) as (s & Es & _); [done..|].
        unfold numbered_item in Ha. simpl in Ha. rewrite Es in Ha.
        rewrite ds_key_Name_plain in Ha by (apply plain_seqToKey || apply seqToKey_nonempty).
        rewrite key_seq_seqToKey in Ha. injection Ha as <-. unfold slash_key. simpl. by rewrite Es.
      - assert (Hin : a ∈ omap numbered_item (legacy_entries legs)) by (apply list_elem_of_omap; eauto).
        rewrite L1 in Hin. by apply elem_of_nil in Hin. }
    intros x y a b Hx Hy Ha Hb. by rewrite (Hsk x a), (Hsk y b).
  - destruct Hleg as (Hl & HN & HS').
    eapply (sorted_by_key_unique key_le qi_Key); [apply _|done|done| |].
    + eapply StronglySorted_omap; [|exact HS]. unfold legacy_item.
      intros x y a b _ _ Ha Hb. destruct (key_seq _); [done|]. injection Ha as <-.
      destruct (key_seq _); [done|]. by injection Hb as <-.
    + clear -HS'. induction legs as [|a l IH]; [constructor|].
      csimpl in HS'. apply StronglySorted_inv in HS' as [H1 H2].
      constructor; [auto|]. by rewrite Forall_fmap in H2.
Qed.

Lemma legacy_tail it legs : legacy (it :: legs) -> legacy legs.
Proof.
  intros (Hl & HN & HS). apply Forall_cons in Hl as [_ Hl].
  apply NoDup_cons in HN as [_ HN]. apply StronglySorted_inv in HS as [HS _]. done.
Qed.

(** One migrated item leaves the legacy part of the log and joins the numbered one. *)
Lemma migrate_spec lo add d items it legs :
  0 <= lo < add -> add < two64 - 1 -> numbered lo add items -> legacy (it :: legs) ->
  wal_inv d items (it :: legs) ->
  exists d', migrate (d, items, add) it = (d', items ++ [QItem (qi_Batch it) (seqToKey add)], add + 1)
    /\ wal_inv d' (items ++ [QItem (qi_Batch it) (seqToKey add)]) legs.
Proof.
  intros Hlo Hadd Hn Hleg [Hd Hw]. unfold migrate.
  destruct (persistBatch_ok d (qi_Batch it) (seqToKey add)) as (d1 & -> & Hd1 & Hw1);
    [done|apply plain_seqToKey|apply seqToKey_nonempty|].
  destruct (Delete_ok d1 (ds_NewKey (qi_Key it)) Hd1) as [Hd2 Hw2].
  eexists. split; [by rewrite u64_small by uarith|]. split; [done|].
  destruct Hleg as (Hl & HN & HS). apply Forall_cons in Hl as [[Hck Hnk] Hl].
  rewrite Hw2, Hw1, Hw, ds_NewKey_clean by done.
  pose proof (wal_NoDup lo add items (it :: legs) ltac:(lia) ltac:(lia) Hn) as HND.
  specialize (HND (conj (Forall_cons_2 _ _ _ (conj Hck Hnk) Hl) (conj HN HS))).
  assert (HP : wal_entries items ++ legacy_entries (it :: legs) ≡ₚ
               (qi_Key it, qi_Batch it) :: (wal_entries items ++ legacy_entries legs))
    by (symmetry; apply Permutation_middle).
  rewrite (list_to_map_proper _ _ HND HP). rewrite HP in HND. csimpl in HND.
  apply NoDup_cons in HND as [Hfresh HND]. cbn [list_to_map foldr uncurry].
  rewrite insert_insert_ne by (intros E; symmetry in E; revert E; apply seq_key_not_legacy; done).
  rewrite delete_insert_id.
  2:{ rewrite lookup_insert_ne by (intros E; symmetry in E; revert E; apply seq_key_not_legacy; done).
      by apply not_elem_of_list_to_map. }
  rewrite <- (list_to_map_cons _ (slash (seqToKey add))). apply list_to_map_proper.
  - csimpl. constructor; [|done]. rewrite fmap_app, elem_of_app. intros [Hin|Hin].
    + revert Hin. apply (numbered_fresh lo add); auto; unfold is_u64; lia.
    + rewrite legacy_entries_fst in Hin. apply list_elem_of_fmap in Hin as (it' & E & Hit').
      eapply Forall_forall in Hl; [|exact Hit']. by apply (seq_key_not_legacy add) in Hl.
  - unfold wal_entries. rewrite fmap_app, <- app_assoc. apply Permutation_middle.
Qed.

Lemma migrate_all lo add d items legs :
  0 <= lo < add -> add + blen legs < two64 -> numbered lo add items -> legacy legs ->
  wal_inv d items legs ->
  exists d' items', foldl migrate (d, items, add) legs = (d', items', add + blen legs) /\
    wal_inv d' items' [] /\ numbered lo (add + blen legs) items' /\
    qi_Batch <$> items' = (qi_Batch <$> items) ++ (qi_Batch <$> legs).
Proof.
  revert add d items. induction legs as [|it legs IH]; intros add d items Hlo Hadd Hn Hleg Hw.
  - exists d, items. unfold blen. simpl. rewrite Z.add_0_r, app_nil_r. done.
  - rewrite blen_cons in Hadd |- *. pose proof (blen_nonneg legs).
    destruct (migrate_spec lo add d items it legs) as (d1 & E & Hw1); [done|lia|done..|].
    cbn [foldl]. rewrite E.
    destruct (IH (add + 1) d1 _ ltac:(lia) ltac:(lia) (numbered_snoc lo add items (qi_Batch it) ltac:(lia) Hn)
      (legacy_tail _ _ Hleg) Hw1) as (d' & items' & E' & Hw' & Hn' & Hb').
    exists d', items'. rewrite E'. replace (add + 1 + blen legs) with (add + (1 + blen legs)) in * by lia.
    split_and!; [done..|]. rewrite Hb', fmap_app, <- app_assoc. done.
Qed.

Lemma numbered_seqs n lo hi items legs E : 0 <= lo -> hi <= two64 ->
  initialSeqNum - 1 - n <= lo -> hi <= initialSeqNum + n ->
  numbered lo hi items -> legacy legs ->
  E ≡ₚ wal_entries items ++ legacy_entries legs ->
  Forall (seq_in n) (omap entry_seq E) /\
  forall seqs, qi_Key <$> items = seqToKey <$> seqs -> Forall is_u64 seqs ->
    forall s, s ∈ seqs -> s ∈ omap entry_seq E.
Proof.
  intros Hlo Hhi Hl Hh Hn (Hleg & _) HE. split.
  - apply Forall_forall. intros s (x & Hx & Es)%list_elem_of_omap. rewrite HE in Hx.
    unfold entry_seq in Es. apply elem_of_app in Hx as [Hx|Hx];
      apply list_elem_of_fmap in Hx as (it & -> & Hit); simpl in Es.
    + destruct (numbered_key lo hi items it) as (s' & Es' & Hb & Hu); [done..|].
      rewrite Es', ds_key_Name_plain, key_seq_seqToKey, u64_small in Es
        by (done || apply plain_seqToKey || apply seqToKey_nonempty).
      injection Es as <-. unfold seq_in. lia.
    + eapply Forall_forall in Hleg as [_ Hk]; [|exact Hit]. congruence.
  - intros seqs Hk Hu s Hs. apply list_elem_of_omap.
    assert (Hin : seqToKey s ∈ qi_Key <$> items) by (rewrite Hk; by apply list_elem_of_fmap_2).
    apply list_elem_of_fmap in Hin as (it & Ek & Hit).
    exists (slash (qi_Key it), qi_Batch it). split.
    + rewrite HE. apply elem_of_app. left. apply list_elem_of_fmap. eauto.
    + unfold entry_seq. simpl. rewrite <- Ek, ds_key_Name_plain, key_seq_seqToKey
        by (apply plain_seqToKey || apply seqToKey_nonempty).
      f_equal. apply u64_small. by eapply Forall_forall in Hu.
Qed.

Lemma Load_spec n lo hi bq items legs :
  0 <= n -> n + blen legs < initialSeqNum - 1 ->
  initialSeqNum - 1 - n <= lo -> hi <= initialSeqNum + n ->
  numbered lo hi items -> legacy legs -> wal_inv (db bq) items legs ->
  let '(bq', r) := Load bq in
  r = Ok tt /\ queue_inv (n + blen legs) bq' /\ maxQueueSize bq' = maxQueueSize bq /\
  contents bq' = (qi_Batch <$> items) ++ (qi_Batch <$> legs).
Proof.
  intros Hn0 Hn Hlo Hhi Hnum Hleg [Hd Hw]. pose proof (blen_nonneg legs) as Hlen.
  unfold Load. destruct (ds_Query_spec (db bq) Hd) as (l & -> & Hp & Hs).
  rewrite load_entry_dec. set (E := omap (decode_entry dec) l).
  assert (HND := wal_NoDup lo hi items legs ltac:(seqlia) ltac:(seqlia) Hnum Hleg).
  assert (HE : E ≡ₚ wal_entries items ++ legacy_entries legs).
  { unfold E. rewrite Hp, omap_entries_perm. fold (wal_view (db bq)). rewrite Hw.
    by apply map_to_list_to_map. }
  assert (HS : StronglySorted (fun a b => key_le a.1 b.1) E).
  { apply (StronglySorted_omap (fun a b => key_le a.1 b.1)).
    - intros x y [k b] [k' b'] _ _ [<- _]%decode_entry_Some [<- _]%decode_entry_Some. done.
    - clear -Hs. induction l as [|a l IH]; [constructor|]. csimpl in Hs.
      apply StronglySorted_inv in Hs as [H1 H2]. constructor; [auto|]. by rewrite Forall_fmap in H2. }
  destruct (read_back lo hi items legs E) as [Hq Hl]; [seqlia..|done|done|done|done|].
  destruct (load_dec_items load_init E) as [-> ->]. cbn [ld_queue ld_legacy load_init].
  rewrite Hq, Hl, !app_nil_l.
  destruct (numbered_seqs n lo hi items legs E) as [Hin Hback]; [seqlia..|done|done|done|].
  assert (Hinit : seq_bounds n load_init) by (unfold seq_bounds; cbn; seqlia).
  destruct (load_dec_seqs n load_init E ltac:(lia) Hinit Hin) as ([Hb1 Hb2] & _ & _ & Hall).
  set (st := foldl load_dec load_init E) in *.
  assert (Hnum' : numbered (ld_prepend st) (ld_add st) items).
  { destruct Hnum as (seqs & Hk & Hss & Hb). exists seqs. split_and!; [done..|].
    apply Forall_forall. intros s Hs'. eapply Forall_forall in Hall; [exact Hall|].
    eapply Hback; [done| |done]. eapply Forall_impl; [exact Hb|]. simpl. seqlia. }
  destruct (migrate_all (ld_prepend st) (ld_add st) (db bq) items legs)
    as (d' & items' & -> & Hw' & Hn' & Hb'); [seqlia..|done|done|done|].
  split_and!; [done| |done|exact Hb'].
  split_and!; cbn [queue head nextAddSeq nextPrependSeq db]; try done; lia.
Qed.

(** ** The abstract deque and the refinement *)

(** What a client can do with the queue; [DRestart] is a crash followed by
    [NewBatchQueue] and [Load] on the same datastore. *)
Inductive dq_op := DAdd (b : Batch) | DPrepend (b : Batch) | DNext | DRestart.
Inductive dq_out := ODone (r : res unit) | OBatch (b : Batch).

Definition queue_spec (max : Z) (l : list Batch) (op : dq_op) : list Batch * dq_out :=
  match op with
  | DAdd b => if full max l then (l, ODone (Err ErrQueueFull)) else (l ++ [b], ODone (Ok tt))
  | DPrepend b => (b :: l, ODone (Ok tt))
  | DNext => (tail l, OBatch (default (MkBatch []) (hd_error l)))
  | DRestart => (l, ODone (Ok tt))
  end.

Definition queue_step (bq : BatchQueue D) (op : dq_op) : BatchQueue D * dq_out :=
  match op with
  | DAdd b => let '(bq', r) := AddBatch bq b in (bq', ODone r)
  | DPrepend b => let '(bq', r) := Prepend bq b in (bq', ODone r)
  | DNext => let '(bq', b) := Next bq in (bq', OBatch b)
  | DRestart => let '(bq', r) := Load (NewBatchQueue (db bq) (maxQueueSize bq)) in (bq', ODone r)
  end.

Fixpoint run {S O} (step : S -> dq_op -> S * O) (s : S) (ops : list dq_op) : S * list O :=
  match ops with
  | [] => (s, [])
  | op :: ops' =>
      let '(s1, o) := step s op in
      let '(s2, os) := run step s1 ops' in (s2, o :: os)
  end.

Lemma queue_step_refines n bq op : queue_inv n bq -> 0 <= n < initialSeqNum - 2 ->
  let '(bq', o) := queue_step bq op in
  queue_inv (n + 1) bq' /\ maxQueueSize bq' = maxQueueSize bq /\
  queue_spec (maxQueueSize bq) (contents bq) op = (contents bq', o).
Proof.
  intros Hinv Hn. destruct op as [b|b| |]; simpl.
  - pose proof (AddBatch_spec n bq b Hinv ltac:(lia)) as HA. destruct (AddBatch bq b) as [bq' r].
    destruct HA as (HA & Hm & HB). destruct (full _ _); destruct HB as [-> E];
      [by rewrite E in HA |- * | by rewrite E].
  - pose proof (Prepend_spec n bq b Hinv ltac:(lia)) as HA. destruct (Prepend bq b) as [bq' r].
    destruct HA as (HA & Hm & -> & ->). done.
  - pose proof (Next_spec n bq Hinv ltac:(lia)) as HA. destruct (Next bq) as [bq' r].
    destruct HA as (HA & Hm & -> & ->). split; [|done]. by apply (queue_inv_mono n); [|lia].
  - destruct Hinv as (_ & Hnum & Hb & Hw).
    pose proof (Load_spec n (nextPrependSeq bq) (nextAddSeq bq)
      (NewBatchQueue (db bq) (maxQueueSize bq)) (live bq) []) as HL.
    destruct (Load _) as [bq' r]. change (blen (@nil queuedItem)) with 0 in HL.
    destruct HL as (-> & HA & Hm & Hc); [lia..|done| |done|].
    { split_and!; constructor. }
    simpl in Hc. rewrite app_nil_r in Hc. rewrite Hc.
    split_and!; [|done..]. eapply queue_inv_mono; [exact HA|lia].
Qed.

Lemma run_refines n bq ops : queue_inv n bq -> 0 <= n -> n + blen ops < initialSeqNum - 1 ->
  let '(bq', os) := run queue_step bq ops in
  exists m, queue_inv m bq' /\
  run (queue_spec (maxQueueSize bq)) (contents bq) ops = (contents bq', os).
Proof.
  revert n bq. induction ops as [|op ops IH]; intros n bq Hinv Hn0 Hn; simpl; [eauto|].
  rewrite blen_cons in Hn. pose proof (blen_nonneg ops).
  pose proof (queue_step_refines n bq op Hinv ltac:(lia)) as HS.
  destruct (queue_step bq op) as [bq1 o]. destruct HS as (Hinv1 & Hm & ->).
  pose proof (IH (n + 1) bq1 Hinv1 ltac:(lia) ltac:(lia)) as HI.
  destruct (run queue_step bq1 ops) as [bq2 os]. destruct HI as (m & Hinv2 & HI).
  exists m. rewrite <- Hm, HI. done.
Qed.

Lemma NewBatchQueue_inv d max : ds_healthy d -> wal_view d = ∅ ->
  queue_inv 0 (NewBatchQueue d max).
Proof.
  intros Hd Hw. split_and!; cbn [NewBatchQueue nextAddSeq nextPrependSeq queue head];
    try seqlia.
  - exists []. split_and!; constructor.
  - split; [done|]. exact Hw.
Qed.

(** C4: For every sequence of fewer than 2^63 - 1 client operations (add, prepend, next, and crash
    followed by reload) on a batch queue created over a healthy datastore with an empty log, the
    results of the operations are those of the abstract bounded deque, and the remaining contents
    and [Size] are the deque's: lazy head movement, compaction and recovery are unobservable. *)
Theorem queue_refines_deque (d : D) (max : Z) (ops : list dq_op)
  (Hd : ds_healthy d) (Hempty : wal_view d = ∅) (Hops : blen ops < initialSeqNum - 1) :
  let '(bq, os) := run queue_step (NewBatchQueue d max) ops in
  run (queue_spec max) [] ops = (contents bq, os) /\ Size bq = blen (contents bq).
Proof.
  pose proof (run_refines 0 _ ops (NewBatchQueue_inv d max Hd Hempty) ltac:(lia) Hops) as HR.
  destruct (run queue_step _ ops) as [bq os]. destruct HR as (m & Hinv & HR).
  split; [exact HR | by eapply Size_contents].
Qed.

(** [Load] over any healthy log whose decodable entries are numbered items (with sequence
    numbers increasing, less than [n] away from the initial one) and legacy items under other keys
    succeeds with a queue that holds the numbered batches in sequence order followed by the legacy
    batches in key order; the log then describes exactly these, every legacy entry re-keyed. *)
Theorem Load_migrates_legacy (n : Z) (bq : BatchQueue D) (items legs : list queuedItem)
  (Hn : 0 <= n) (Hroom : n + blen legs < initialSeqNum - 1)
  (Hnum : numbered (initialSeqNum - 1 - n) (initialSeqNum + n) items) (Hleg : legacy legs)
  (Hd : ds_healthy (db bq))
  (Hlog : wal_view (db bq) = list_to_map (wal_entries items ++ legacy_entries legs)) :
  let '(bq', r) := Load bq in
  r = Ok tt /\ contents bq' = (qi_Batch <$> items) ++ (qi_Batch <$> legs) /\
  wal_view (db bq') = list_to_map (wal_entries (live bq')) /\
  numbered (nextPrependSeq bq') (nextAddSeq bq') (live bq').
Proof.
  pose proof (Load_spec n (initialSeqNum - 1 - n) (initialSeqNum + n) bq items legs Hn Hroom ltac:(lia) ltac:(lia) Hnum Hleg
    (conj Hd Hlog)) as HL.
  destruct (Load bq) as [bq' r]. destruct HL as (-> & (_ & Hnum' & _ & _ & Hw) & _ & Hc).
  rewrite app_nil_r in Hw. done.
Qed.

End invariant.

(** ** Failures, over any datastore *)

(** When [AddBatch] or [Prepend] returns an error (a full queue, a failed marshal or a failed
    write) the queue in memory and both sequence numbers are unchanged; a full queue does not even
    touch the datastore; and [Prepend] never reports a full queue unless the datastore does. *)
Theorem failed_insert_unchanged {D} `{Datastore D, ProtoCodec pb_Batch} (bq : BatchQueue D) b e :
  (forall bq', AddBatch bq b = (bq', Err e) ->
     (live bq', nextAddSeq bq', nextPrependSeq bq') = (live bq, nextAddSeq bq, nextPrependSeq bq) /\
     (0 < maxQueueSize bq <= Size bq -> bq' = bq /\ e = ErrQueueFull)) /\
  (forall bq', Prepend bq b = (bq', Err e) ->
     (live bq', nextAddSeq bq', nextPrependSeq bq') = (live bq, nextAddSeq bq, nextPrependSeq bq) /\
     (persistBatch (db bq) b (seqToKey (nextPrependSeq bq))).2 = Err e).
Proof.
  split; intros bq' E.
  - unfold AddBatch in E.
    destruct (Z.ltb_spec 0 (maxQueueSize bq)), (Z.leb_spec (maxQueueSize bq) (Size bq));
      simpl in E; [by simplify_eq|..];
      (destruct (persistBatch _ _ _) as [d [?|?]]; simplify_eq; split; [done|lia]).
  - unfold Prepend in E. destruct (persistBatch _ _ _) as [d [?|?]].
    + by destruct (match head bq with O => _ | S _ => _ end).
    + by simplify_eq.
Qed.

(** ** Witnesses, on the in-memory datastore *)

#[global] Instance pb_Batch_eq_dec : EqDecision pb_Batch.
Proof. solve_decision. Defined.
#[global] Instance pb_Batch_countable : Countable pb_Batch :=
  inj_countable' pb_Txs Build_pb_Batch (fun '(Build_pb_Batch _) => eq_refl).

Definition wcodec : ProtoCodec pb_Batch := RefCodec.codec pb_Batch.
Definition wlaws : @ProtoCodecLaws pb_Batch _ wcodec := RefCodec.codec_laws pb_Batch.

Definition w_ops : list dq_op :=
  [DAdd (MkBatch [[x01]]); DAdd (MkBatch [[x02]]); DAdd (MkBatch [[x03]]); DNext;
   DPrepend (MkBatch [[x00]]); DRestart; DNext; DNext; DNext].

Lemma queue_refines_deque_witness :
  (let '(bq, os) := run (queue_step (PC := wcodec)) (NewBatchQueue (Mapds ∅ true) 2) w_ops in
   run (queue_spec 2) [] w_ops = (contents bq, os) /\ Size bq = blen (contents bq)) /\
  (run (queue_spec 2) [] w_ops).2 =
  [ODone (Ok tt); ODone (Ok tt); ODone (Err ErrQueueFull); OBatch (MkBatch [[x01]]);
   ODone (Ok tt); ODone (Ok tt); OBatch (MkBatch [[x00]]); OBatch (MkBatch [[x02]]);
   OBatch (MkBatch [])].
Proof.
  split; [|vm_compute; reflexivity].
  apply (queue_refines_deque (PC := wcodec) (PL := wlaws) (Mapds ∅ true) 2 w_ops);
    [reflexivity | reflexivity | vm_compute; reflexivity].
Defined.

Definition w_full : BatchQueue mapds :=
  {| queue := [QItem (MkBatch [[x01]]) (seqToKey initialSeqNum)]; head := 0; maxQueueSize := 1;
     nextAddSeq := initialSeqNum + 1; nextPrependSeq := initialSeqNum - 1; db := Mapds ∅ false |}.

Lemma failed_insert_unchanged_witness :
  AddBatch (H0 := wcodec) w_full (MkBatch [[x02]]) = (w_full, Err ErrQueueFull) /\
  (w_full = w_full /\ ErrQueueFull = ErrQueueFull) /\
  (persistBatch (H0 := wcodec) (db w_full) (MkBatch []) (seqToKey (nextPrependSeq w_full))).2
    = Err md_closed.
Proof.
  split; [reflexivity|]. split.
  - apply (failed_insert_unchanged (H0 := wcodec) w_full (MkBatch [[x02]]) ErrQueueFull);
      [reflexivity | vm_compute; split; [reflexivity | discriminate]].
  - apply (failed_insert_unchanged (H0 := wcodec) w_full (MkBatch []) md_closed) with (bq' := w_full).
    reflexivity.
Defined.

(** A log with one numbered batch and one stored under a hash by an earlier version. *)
Definition w_num : queuedItem := QItem (MkBatch [[x01]]) (seqToKey initialSeqNum).
Definition w_leg : queuedItem := QItem (MkBatch [[x02]]) "/abc".
Definition w_log : mapds :=
  Mapds (<[slash (seqToKey initialSeqNum) := RefCodec.pos_bytes (encode (Build_pb_Batch [[x01]]))]>
    {["/abc" := RefCodec.pos_bytes (encode (Build_pb_Batch [[x02]]))]}) true.

Lemma Load_migrates_legacy_witness :
  let '(bq', r) := Load (H0 := wcodec) (NewBatchQueue w_log 0) in
  r = Ok tt /\ contents bq' = [MkBatch [[x01]]; MkBatch [[x02]]] /\
  wal_view (PC := wcodec) (db bq') = list_to_map (wal_entries (live bq')) /\
  numbered (nextPrependSeq bq') (nextAddSeq bq') (live bq').
Proof.
  apply (Load_migrates_legacy (PC := wcodec) (PL := wlaws) 1 (NewBatchQueue w_log 0) [w_num] [w_leg]).
  - lia.
  - vm_compute. reflexivity.
  - exists [initialSeqNum]. split; [reflexivity|]. split; repeat constructor.
  - split_and!; repeat constructor. intros Hin. inversion Hin.
  - reflexivity.
  - vm_compute. reflexivity.
Defined.

End BatchQueue.
