(* ===== verification/Checkpoint.v ===== *)
(** The forced-inclusion checkpoint shared by both sequencers
    (pkg/sequencers/common/checkpoint.go): the DA height being processed and the
    number of its transactions already consumed, persisted under one key. *)

From S2P Require Import Prelude Interfaces.

Module Checkpoint.

Definition ErrCheckpointNotFound : err := ESentinel "checkpoint not found".

Record Checkpoint := MkCheckpoint { DAHeight : Z; TxIndex : Z }.
#[export] Instance Checkpoint_eq_dec : EqDecision Checkpoint.
Proof. solve_decision. Defined.

(** The protobuf message [pb.SequencerDACheckpoint]. *)
Record pb_Checkpoint := { pb_DaHeight : Z; pb_TxIndex : Z }.
#[global] Instance pb_Checkpoint_msg : ProtoMsg pb_Checkpoint :=
  fun m => is_u64 (pb_DaHeight m) /\ is_u64 (pb_TxIndex m).

Section checkpoint.
Context {D : Type} `{Datastore D} `{ProtoCodec pb_Checkpoint}.

Record CheckpointStore := { cs_db : D; cs_checkpointKey : string }.

Definition NewCheckpointStore (db : D) (checkpointkey : string) : CheckpointStore :=
  {| cs_db := db; cs_checkpointKey := checkpointkey |}.

Definition Load (cs : CheckpointStore) : res Checkpoint :=
  match ds_Get (cs_db cs) (cs_checkpointKey cs) with
  | Err e =>
      if errors_is e ErrNotFound then Err ErrCheckpointNotFound
      else Err (EWrap "failed to load checkpoint" e)
  | Ok data =>
      match proto_Unmarshal data with
      | Err e => Err (EWrap "failed to unmarshal checkpoint" e)
      | Ok pbCheckpoint => Ok (MkCheckpoint (pb_DaHeight pbCheckpoint) (pb_TxIndex pbCheckpoint))
      end
  end.

Definition Save (cs : CheckpointStore) (checkpoint : Checkpoint) : CheckpointStore * res unit :=
  let pbCheckpoint :=
    {| pb_DaHeight := DAHeight checkpoint; pb_TxIndex := TxIndex checkpoint |} in
  match proto_Marshal pbCheckpoint with
  | Err e => (cs, Err (EWrap "failed to marshal checkpoint" e))
  | Ok data =>
      let '(d, r) := ds_Put (cs_db cs) (cs_checkpointKey cs) data in
      (NewCheckpointStore d (cs_checkpointKey cs), wrap_err "failed to save checkpoint" r)
  end.

Definition Delete (cs : CheckpointStore) : CheckpointStore * res unit :=
  let '(d, r) := ds_Delete (cs_db cs) (cs_checkpointKey cs) in
  (NewCheckpointStore d (cs_checkpointKey cs),
   match r with
   | Ok _ => Ok tt
   | Err e => if errors_is e ErrNotFound then Ok tt
              else Err (EWrap "failed to delete checkpoint" e)
   end).

End checkpoint.
#[global] Arguments CheckpointStore D : clear implicits.

Definition ck_valid (c : Checkpoint) : Prop := is_u64 (DAHeight c) /\ is_u64 (TxIndex c).

Section laws.
Context {D : Type} `{DatastoreLaws D}.
Context `{PC : ProtoCodec pb_Checkpoint} `{PL : !ProtoCodecLaws pb_Checkpoint}.

Lemma Save_spec (cs : CheckpointStore D) c : ds_healthy (cs_db cs) -> ck_valid c ->
  exists cs', Save cs c = (cs', Ok tt) /\ ds_healthy (cs_db cs') /\ Load cs' = Ok c /\
    cs_checkpointKey cs' = cs_checkpointKey cs /\
    forall k, k <> cs_checkpointKey cs -> ds_view (cs_db cs') !! k = ds_view (cs_db cs) !! k.
Proof.
  intros Hd Hc. unfold Save, Load.
  destruct (proto_roundtrip {| pb_DaHeight := DAHeight c; pb_TxIndex := TxIndex c |} Hc)
    as (bz & -> & Hu).
  destruct (ds_Put_spec (cs_db cs) (cs_checkpointKey cs) bz Hd) as (d' & -> & Hd' & Hv).
  eexists. split; [done|]. simpl. rewrite ds_Get_spec, Hv, lookup_insert_eq, Hu by done.
  split_and!; [done|by destruct c|done|]. intros k Hk. by rewrite lookup_insert_ne.
Qed.

Lemma Delete_spec (cs : CheckpointStore D) : ds_healthy (cs_db cs) ->
  exists cs', Delete cs = (cs', Ok tt) /\ ds_healthy (cs_db cs') /\
    Load cs' = Err ErrCheckpointNotFound.
Proof.
  intros Hd. unfold Delete, Load.
  destruct (ds_Delete_spec (cs_db cs) (cs_checkpointKey cs) Hd) as (d' & -> & Hd' & Hv).
  eexists. split; [done|]. simpl. rewrite ds_Get_spec, Hv, lookup_delete_eq by done.
  split; [done|]. by rewrite errors_is_refl.
Qed.

End laws.

(** Reference codec, for witnesses. *)
#[global] Instance pb_Checkpoint_eq_dec : EqDecision pb_Checkpoint.
Proof. solve_decision. Defined.
#[global] Instance pb_Checkpoint_countable : Countable pb_Checkpoint :=
  inj_countable' (fun m => (pb_DaHeight m, pb_TxIndex m)) (fun p => Build_pb_Checkpoint p.1 p.2)
    (fun '(Build_pb_Checkpoint _ _) => eq_refl).
Definition wcodec : ProtoCodec pb_Checkpoint := RefCodec.codec pb_Checkpoint.
Definition wlaws : @ProtoCodecLaws pb_Checkpoint _ wcodec := RefCodec.codec_laws pb_Checkpoint.

End Checkpoint.
