(* ===== verification/Execution.v ===== *)
(** The execution interface's transaction filter (core/execution/execution.go)
    and the two implementations in the repository: the dummy executor
    (core/execution/dummy.go) and the Cosmos executor
    (apps/cosmos-exec/executor/executor.go, FilterTxs). *)

From S2P Require Import Prelude.

Module Filter.

Inductive FilterStatus := FilterOK | FilterRemove | FilterPostpone.
#[export] Instance FilterStatus_eq_dec : EqDecision FilterStatus.
Proof. solve_decision. Defined.

(** The transactions with a given status, in order. *)
Definition with_status (st : FilterStatus) (statuses : list FilterStatus) (txs : list bytes)
  : list bytes :=
  omap (fun p => if decide (p.1 = st) then Some p.2 else None) (zip statuses txs).

(** What the interface's documentation promises of [FilterTxs]. *)
Record filter_contract (txs : list bytes) (maxBytes : Z) (statuses : list FilterStatus) : Prop := {
  fc_length : length statuses = length txs;
  fc_size : 0 < maxBytes -> total_len (with_status FilterOK statuses txs) <= maxBytes;
}.

(** *** DummyExecutor.FilterTxs *)

(** The loop, with its variables [cumulativeBytes] and [limitReached]. *)
Fixpoint dummy_loop (maxBytes cumulativeBytes : Z) (limitReached : bool) (txs : list bytes)
  : list FilterStatus :=
  match txs with
  | [] => []
  | tx :: rest =>
      let txBytes := blen tx in
      if txBytes =? 0 then FilterRemove :: dummy_loop maxBytes cumulativeBytes limitReached rest
      else if (0 <? maxBytes) && (maxBytes <? txBytes)
      then FilterRemove :: dummy_loop maxBytes cumulativeBytes limitReached rest
      else if limitReached then FilterPostpone :: dummy_loop maxBytes cumulativeBytes true rest
      else if (0 <? maxBytes) && (maxBytes <? cumulativeBytes +u txBytes)
      then FilterPostpone :: dummy_loop maxBytes cumulativeBytes true rest
      else FilterOK :: dummy_loop maxBytes (cumulativeBytes +u txBytes) limitReached rest
  end.

Definition Dummy_FilterTxs (txs : list bytes) (maxBytes maxGas : Z) (hasForced : bool)
  : res (list FilterStatus) := Ok (dummy_loop maxBytes 0 false txs).

(** *** CosmosExecutor.FilterTxs *)

Fixpoint cosmos_loop (maxBytes cumulativeBytes : Z) (txs : list bytes) : list FilterStatus :=
  match txs with
  | [] => []
  | tx :: rest =>
      let txLen := blen tx in
      if txLen =? 0 then FilterRemove :: cosmos_loop maxBytes cumulativeBytes rest
      else if (0 <? maxBytes) && (maxBytes <? cumulativeBytes +u txLen)
      then FilterPostpone :: cosmos_loop maxBytes cumulativeBytes rest
      else FilterOK :: cosmos_loop maxBytes (cumulativeBytes +u txLen) rest
  end.

(** [ctxErr] is the error of a cancelled context, if it is. *)
Definition Cosmos_FilterTxs (ctxErr : option err) (txs : list bytes) (maxBytes maxGas : Z)
  (hasForced : bool) : res (list FilterStatus) :=
  match ctxErr with
  | Some e => Err e
  | None => Ok (cosmos_loop maxBytes 0 txs)
  end.

(** ** The contract *)

Lemma length_dummy_loop maxBytes c l txs : length (dummy_loop maxBytes c l txs) = length txs.
Proof.
  revert c l. induction txs as [|tx txs IH]; intros c l; [done|]. simpl.
  repeat case_match; simpl; by rewrite IH.
Qed.

Lemma length_cosmos_loop maxBytes c txs : length (cosmos_loop maxBytes c txs) = length txs.
Proof.
  revert c. induction txs as [|tx txs IH]; intros c; [done|]. simpl.
  repeat case_match; simpl; by rewrite IH.
Qed.

(** Transactions held in memory together stay far below 2^64 bytes. *)
Definition sized (txs : list bytes) : Prop := total_len txs < two63.

Lemma sized_cons tx txs : sized (tx :: txs) -> sized txs.
Proof. unfold sized. simpl. pose proof (blen_nonneg tx). lia. Qed.

Lemma dummy_loop_size maxBytes c l txs : 0 < maxBytes -> 0 <= c <= maxBytes ->
  c + total_len txs < two64 ->
  c + total_len (with_status FilterOK (dummy_loop maxBytes c l txs) txs) <= maxBytes.
Proof.
  intros Hm. revert c l. induction txs as [|tx txs IH]; intros c l Hc Hs; [simpl; lia|].
  cbn [total_len foldr] in Hs. fold (total_len txs) in Hs.
  pose proof (blen_nonneg tx). pose proof (total_len_nonneg txs). cbn [dummy_loop].
  unfold with_status.
  destruct (Z.eqb_spec (blen tx) 0); [by apply IH; lia|].
  destruct (Z.ltb_spec 0 maxBytes); [|lia]. rewrite !andb_true_l.
  destruct (Z.ltb_spec maxBytes (blen tx)); [by apply IH; lia|].
  destruct l; [by apply IH; lia|]. rewrite u64_small by (unfold is_u64; lia).
  destruct (Z.ltb_spec maxBytes (c + blen tx)); [by apply IH; lia|].
  csimpl. fold (total_len). specialize (IH (c + blen tx) false ltac:(lia) ltac:(lia)).
  unfold with_status, total_len in IH |- *. simpl. lia.
Qed.

Lemma cosmos_loop_size maxBytes c txs : 0 < maxBytes -> 0 <= c <= maxBytes ->
  c + total_len txs < two64 ->
  c + total_len (with_status FilterOK (cosmos_loop maxBytes c txs) txs) <= maxBytes.
Proof.
  intros Hm. revert c. induction txs as [|tx txs IH]; intros c Hc Hs; [simpl; lia|].
  cbn [total_len foldr] in Hs. fold (total_len txs) in Hs.
  pose proof (blen_nonneg tx). pose proof (total_len_nonneg txs). cbn [cosmos_loop].
  unfold with_status.
  destruct (Z.eqb_spec (blen tx) 0); [by apply IH; lia|].
  destruct (Z.ltb_spec 0 maxBytes); [|lia]. rewrite !andb_true_l.
  rewrite u64_small by (unfold is_u64; lia).
  destruct (Z.ltb_spec maxBytes (c + blen tx)); [by apply IH; lia|].
  csimpl. specialize (IH (c + blen tx) ltac:(lia) ltac:(lia)).
  unfold with_status, total_len in IH |- *. simpl. lia.
Qed.

(** ** Which transactions are kept *)

(** A transaction the dummy executor can ever include. *)
Definition eligible (maxBytes : Z) (tx : bytes) : bool :=
  (0 <? blen tx) && ((maxBytes <=? 0) || (blen tx <=? maxBytes)).

Lemma eligible_spec maxBytes tx :
  eligible maxBytes tx = true <-> 0 < blen tx /\ (maxBytes <= 0 \/ blen tx <= maxBytes).
Proof. unfold eligible. rewrite andb_true_iff, orb_true_iff. lia. Qed.

Lemma with_status_cons st s ss tx txs :
  with_status st (s :: ss) (tx :: txs) =
  if decide (s = st) then tx :: with_status st ss txs else with_status st ss txs.
Proof. unfold with_status. csimpl. by case_decide. Qed.

Lemma dummy_loop_cut maxBytes c txs : c + total_len txs < two64 -> 0 <= c ->
  dummy_loop maxBytes c true txs =
  (fun tx => if eligible maxBytes tx then FilterPostpone else FilterRemove) <$> txs.
Proof.
  induction txs as [|tx txs IH]; intros Hs Hc; [done|].
  cbn [total_len foldr] in Hs. fold (total_len txs) in Hs. pose proof (blen_nonneg tx).
  csimpl. unfold eligible at 1. rewrite IH by lia.
  destruct (Z.eqb_spec (blen tx) 0), (Z.ltb_spec 0 (blen tx)), (Z.ltb_spec 0 maxBytes),
    (Z.leb_spec maxBytes 0), (Z.ltb_spec maxBytes (blen tx)), (Z.leb_spec (blen tx) maxBytes);
    simpl; done || lia.
Qed.

Lemma with_status_fmap st (f : bytes -> FilterStatus) txs :
  with_status st (f <$> txs) txs = filter (fun tx => f tx = st) txs.
Proof.
  induction txs as [|tx txs IH]; [done|]. rewrite fmap_cons, with_status_cons, IH, filter_cons.
  done.
Qed.

Lemma dummy_cut_postponed maxBytes c txs : c + total_len txs < two64 -> 0 <= c ->
  with_status FilterPostpone (dummy_loop maxBytes c true txs) txs =
    filter (fun tx => eligible maxBytes tx = true) txs /\
  with_status FilterOK (dummy_loop maxBytes c true txs) txs = [].
Proof.
  intros Hs Hc. rewrite dummy_loop_cut by done. rewrite !with_status_fmap. split.
  - apply list_filter_iff. intros tx. destruct (eligible maxBytes tx); split; done.
  - clear. induction txs as [|tx txs IH]; [done|]. rewrite filter_cons, IH.
    by destruct (eligible maxBytes tx).
Qed.

Lemma dummy_loop_prefix maxBytes c txs : c + total_len txs < two64 -> 0 <= c ->
  let ss := dummy_loop maxBytes c false txs in
  with_status FilterOK ss txs ++ with_status FilterPostpone ss txs =
    filter (fun tx => eligible maxBytes tx = true) txs /\
  (forall tx rest, with_status FilterPostpone ss txs = tx :: rest ->
     0 < maxBytes < c + total_len (with_status FilterOK ss txs) + blen tx).
Proof.
  revert c. induction txs as [|tx txs IH]; intros c Hs Hc; [done|]. cbv zeta.
  cbn [total_len foldr] in Hs. fold (total_len txs) in Hs.
  pose proof (blen_nonneg tx). pose proof (total_len_nonneg txs).
  cbn [dummy_loop]. rewrite u64_small by (unfold is_u64; lia).
  destruct (Z.eqb_spec (blen tx) 0) as [E|E].
  { rewrite filter_cons_False, !with_status_cons by (rewrite eligible_spec; lia). apply IH; lia. }
  destruct (Z.ltb_spec 0 maxBytes) as [Hm|Hm]; simpl andb.
  - destruct (Z.ltb_spec maxBytes (blen tx)).
    { rewrite filter_cons_False, !with_status_cons by (rewrite eligible_spec; lia). apply IH; lia. }
    rewrite filter_cons_True by (rewrite eligible_spec; lia).
    destruct (Z.ltb_spec maxBytes (c + blen tx)); rewrite !with_status_cons; simpl.
    + destruct (dummy_cut_postponed maxBytes c txs) as [-> ->]; [lia..|]. simpl.
      split; [done|]. intros ? ? [= <- _]. lia.
    + destruct (IH (c + blen tx)) as [-> IH2]; [lia..|]. split; [done|].
      intros t r Hp. specialize (IH2 t r Hp). lia.
  - rewrite filter_cons_True by (rewrite eligible_spec; lia). rewrite !with_status_cons. simpl.
    destruct (IH (c + blen tx)) as [-> IH2]; [lia..|]. split; [done|].
    intros t r Hp. specialize (IH2 t r Hp). lia.
Qed.

Lemma cosmos_oversized maxBytes c txs i tx : 0 < maxBytes -> 0 <= c <= maxBytes ->
  c + total_len txs < two64 -> txs !! i = Some tx -> maxBytes < blen tx ->
  cosmos_loop maxBytes c txs !! i = Some FilterPostpone.
Proof.
  intros Hm. revert c i. induction txs as [|t txs IH]; intros c i Hc Hs Hi Hb; [done|].
  cbn [total_len foldr] in Hs. fold (total_len txs) in Hs.
  pose proof (blen_nonneg t). pose proof (total_len_nonneg txs). cbn [cosmos_loop].
  rewrite u64_small by (unfold is_u64; lia).
  destruct (Z.ltb_spec 0 maxBytes); [|lia]. rewrite andb_true_l.
  destruct i as [|i]; simpl in Hi.
  - injection Hi as ->. destruct (Z.eqb_spec (blen tx) 0); [lia|].
    by destruct (Z.ltb_spec maxBytes (c + blen tx)); [|lia].
  - destruct (Z.eqb_spec (blen t) 0); [by apply IH; auto; lia|].
    destruct (Z.ltb_spec maxBytes (c + blen t)); simpl; apply IH; auto; lia.
Qed.

Lemma dummy_oversized maxBytes c l txs i tx :
  txs !! i = Some tx -> 0 < maxBytes < blen tx ->
  dummy_loop maxBytes c l txs !! i = Some FilterRemove.
Proof.
  intros Hi Hbig. revert c l i Hi. induction txs as [|t txs IH]; intros c l [|i] Hi; try done.
  - injection Hi as ->. simpl. destruct (Z.eqb_spec (blen tx) 0); [done|].
    destruct (Z.ltb_spec 0 maxBytes), (Z.ltb_spec maxBytes (blen tx)); done || lia.
  - simpl. repeat case_match; simpl; by apply IH.
Qed.

(** For transactions that fit in memory, both executors return one status per transaction and
    admit at most [maxBytes] bytes; the dummy executor keeps the longest prefix of the eligible
    transactions (non-empty and not larger than the limit) that fits, postpones the rest of them
    in order and removes exactly the others. *)
Theorem filters_meet_contract (txs : list bytes) (maxBytes gas : Z) (forced : bool)
  (Hs : sized txs) (Hm : 0 <= maxBytes) :
  exists ds cs,
    Dummy_FilterTxs txs maxBytes gas forced = Ok ds /\ filter_contract txs maxBytes ds /\
    Cosmos_FilterTxs None txs maxBytes gas forced = Ok cs /\ filter_contract txs maxBytes cs /\
    with_status FilterOK ds txs ++ with_status FilterPostpone ds txs =
      filter (fun tx => eligible maxBytes tx = true) txs /\
    (forall tx rest, with_status FilterPostpone ds txs = tx :: rest ->
       maxBytes < total_len (with_status FilterOK ds txs) + blen tx).
Proof.
  unfold sized in Hs. eexists _, _.
  destruct (dummy_loop_prefix maxBytes 0 txs) as [H1 H2]; [unfold two63, two64 in *; lia|lia|].
  split_and!; [done| |done| |exact H1|].
  - split; [apply length_dummy_loop|]. intros.
    apply (dummy_loop_size maxBytes 0); unfold two63, two64 in *; lia.
  - split; [apply length_cosmos_loop|]. intros.
    apply (cosmos_loop_size maxBytes 0); unfold two63, two64 in *; lia.
  - intros tx rest Hp. specialize (H2 tx rest Hp). lia.
Qed.

Definition w_txs : list bytes := [[x01; x02]; []; [x01; x02; x03; x04]; [x05]; [x06]].

Lemma filters_meet_contract_witness :
  (sized w_txs /\ 0 <= 3) /\
  exists ds cs,
    Dummy_FilterTxs w_txs 3 0 false = Ok ds /\ filter_contract w_txs 3 ds /\
    Cosmos_FilterTxs None w_txs 3 0 false = Ok cs /\ filter_contract w_txs 3 cs /\
    with_status FilterOK ds w_txs ++ with_status FilterPostpone ds w_txs =
      filter (fun tx => eligible 3 tx = true) w_txs /\
    (forall tx rest, with_status FilterPostpone ds w_txs = tx :: rest ->
       3 < total_len (with_status FilterOK ds w_txs) + blen tx).
Proof.
  split; [split; [vm_compute; reflexivity | lia]|].
  apply (filters_meet_contract w_txs 3 0 false); [vm_compute; reflexivity | lia].
Defined.

(** The Cosmos executor postpones every transaction that is larger than the limit by itself,
    whatever precedes it, and never removes it, so it is offered again with every later batch;
    the dummy executor removes the same transaction. *)
Theorem cosmos_postpones_oversized (txs : list bytes) (maxBytes gas : Z) (forced : bool) i tx
  (Hs : sized txs) (Hi : txs !! i = Some tx) (Hbig : 0 < maxBytes < blen tx) :
  exists cs ds,
    Cosmos_FilterTxs None txs maxBytes gas forced = Ok cs /\ cs !! i = Some FilterPostpone /\
    Dummy_FilterTxs txs maxBytes gas forced = Ok ds /\ ds !! i = Some FilterRemove.
Proof.
  unfold sized in Hs. eexists _, _. split_and!; [done| |done|].
  - apply (cosmos_oversized maxBytes 0 txs i tx); unfold two63, two64 in *; try lia. done.
  - by apply (dummy_oversized maxBytes 0 false txs i tx).
Qed.

Lemma cosmos_postpones_oversized_witness :
  exists cs ds,
    Cosmos_FilterTxs None w_txs 3 0 false = Ok cs /\ cs !! 2%nat = Some FilterPostpone /\
    Dummy_FilterTxs w_txs 3 0 false = Ok ds /\ ds !! 2%nat = Some FilterRemove.
Proof.
  apply (cosmos_postpones_oversized w_txs 3 0 false 2 [x01; x02; x03; x04]);
    [vm_compute; reflexivity | reflexivity | vm_compute; split; reflexivity].
Defined.

End Filter.
