(* ===== verification/ForcedInclusion.v ===== *)
(** Retrieval of forced-inclusion transactions from the DA layer
    (block/internal/da/forced_inclusion_retriever.go) on top of the background
    prefetcher (block/internal/da/async_block_retriever.go).

    The DA layer is a function from heights to the result of the client's
    [Retrieve] in the forced-inclusion namespace. *)

From S2P Require Import Prelude Interfaces Epoch.

(** ** DA results (pkg/da/types) *)

Module DA.

Inductive StatusCode :=
| StatusUnknown | StatusSuccess | StatusNotFound | StatusNotIncludedInBlock
| StatusAlreadyInMempool | StatusTooBig | StatusContextDeadline | StatusError
| StatusIncorrectAccountSequence | StatusContextCanceled | StatusHeightFromFuture.
#[export] Instance StatusCode_eq_dec : EqDecision StatusCode.
Proof. solve_decision. Defined.

Record ResultRetrieve := {
  rr_Code : StatusCode; rr_Message : string; rr_Timestamp : Z; rr_Data : list bytes; rr_IDs : list bytes
}.

Definition ErrHeightFromFuture : err := ESentinel "given height is from the future".
Definition ErrBlobNotFound : err := ESentinel "blob: not found".

(** [SplitID]: a little-endian height followed by a commitment. *)
Definition SplitID (id : bytes) : res (Z * bytes) :=
  if (length id <=? 8)%nat then Err (EMsg "invalid ID length")
  else Ok (Uint64_LE (take 8 id), drop 8 id).

Record BlockData := { bd_Height : Z; bd_Timestamp : Z; bd_Blobs : list bytes }.

End DA.
Import DA.

(** The message [pb.BlockData] of the prefetch cache. *)
Record pb_BlockData := { pbb_Height : Z; pbb_Timestamp : Z; pbb_Blobs : list bytes }.
#[global] Instance pb_BlockData_msg : ProtoMsg pb_BlockData :=
  fun m => is_u64 (pbb_Height m) /\ is_i64 (pbb_Timestamp m).

Definition nonempty_blobs (l : list bytes) : list bytes := filter (fun b => b <> []) l.

(** ** The prefetcher *)

Module Async.
Section async.
Context {D : Type} `{Datastore D} `{ProtoCodec pb_BlockData}.

Record asyncBlockRetriever := {
  namespace : bytes;
  daStartHeight : Z;
  cache : D;
  currentDAHeight : Z;
  prefetchWindow : Z;
}.

Definition NewAsyncBlockRetriever (empty : D) (ns : bytes) (start window : Z)
  : asyncBlockRetriever :=
  {| namespace := ns; daStartHeight := start; cache := empty; currentDAHeight := start;
     prefetchWindow := if window =? 0 then 10 else window |}.

Definition with_cache (f : asyncBlockRetriever) (d : D) : asyncBlockRetriever :=
  {| namespace := namespace f; daStartHeight := daStartHeight f; cache := d;
     currentDAHeight := currentDAHeight f; prefetchWindow := prefetchWindow f |}.

(** The compare-and-swap loop, as one atomic step. *)
Definition UpdateCurrentHeight (f : asyncBlockRetriever) (height : Z) : asyncBlockRetriever :=
  if height <=? currentDAHeight f then f
  else {| namespace := namespace f; daStartHeight := daStartHeight f; cache := cache f;
          currentDAHeight := height; prefetchWindow := prefetchWindow f |}.

Definition block_prefix : string := "/block/".
Definition newBlockDataKey (height : Z) : string :=
  ds_NewKey (String.append block_prefix (dec_string height)).

Definition GetCachedBlock (f : asyncBlockRetriever) (daHeight : Z) : res (option BlockData) :=
  match namespace f with
  | [] => Ok None
  | _ =>
      if daHeight <? daStartHeight f then Err (EMsg "DA height is before the configured start height")
      else
        match ds_Get (cache f) (newBlockDataKey daHeight) with
        | Err e => if errors_is e ErrNotFound then Ok None
                   else Err (EWrap "failed to get cached block" e)
        | Ok data =>
            match proto_Unmarshal data with
            | Err e => Err (EWrap "failed to unmarshal cached block" e)
            | Ok pbBlock =>
                Ok (Some {| bd_Height := pbb_Height pbBlock;
                            bd_Timestamp := pbb_Timestamp pbBlock;
                            bd_Blobs := pbb_Blobs pbBlock |})
            end
        end
  end.

Definition fetchAndCacheBlock (da : Z -> ResultRetrieve) (f : asyncBlockRetriever) (height : Z)
  : asyncBlockRetriever :=
  let result := da height in
  let store blobs :=
    match proto_Marshal {| pbb_Height := height; pbb_Timestamp := i64 (rr_Timestamp result);
                           pbb_Blobs := blobs |} with
    | Err _ => f
    | Ok data => with_cache f (ds_Put (cache f) (newBlockDataKey height) data).1
    end in
  match rr_Code result with
  | StatusNotFound => store []
  | StatusSuccess => store (nonempty_blobs (rr_Data result))
  | _ => f
  end.

(** [fmt.Sscanf(key, "/block/%d", &height)]: the digits after the prefix, up to
    the first other character; an error when there is none or it overflows. *)
Fixpoint scan_digits (seen : bool) (acc : Z) (s : string) : option Z :=
  match s with
  | EmptyString => if seen then Some acc else None
  | String.String c s' =>
      match dec_value c with
      | Some d => scan_digits true (10 * acc + d) s'
      | None => if seen then Some acc else None
      end
  end.
Definition scan_block_key (key : string) : option Z :=
  if String.prefix block_prefix key then
    match scan_digits false 0 (String.substring 7 (String.length key) key) with
    | Some h => if h <? two64 then Some h else None
    | None => None
    end
  else None.

Definition cleanupOldBlocks (f : asyncBlockRetriever) (currentHeight : Z) : asyncBlockRetriever :=
  if currentHeight <? prefetchWindow f then f
  else
    let cleanupThreshold := currentHeight -u prefetchWindow f in
    match ds_Query (cache f) with
    | Err _ => f
    | Ok results =>
        with_cache f (foldl (fun d result =>
          match result with
          | (_, Err _) => d
          | (rkey, Ok _) =>
              if String.prefix block_prefix rkey then
                match scan_block_key (ds_NewKey rkey) with
                | Some height =>
                    if height <? cleanupThreshold then (ds_Delete d (ds_NewKey rkey)).1 else d
                | None => d
                end
              else d
          end) (cache f) results)
    end.

Definition prefetchBlocks (da : Z -> ResultRetrieve) (f : asyncBlockRetriever)
  : asyncBlockRetriever :=
  match namespace f with
  | [] => f
  | _ =>
      let currentHeight := currentDAHeight f in
      let f' := foldl (fun f i =>
        let targetHeight := currentHeight +u i in
        match ds_Get (cache f) (newBlockDataKey targetHeight) with
        | Ok _ => f
        | Err _ => fetchAndCacheBlock da f targetHeight
        end) f (heights_upto 0 (prefetchWindow f - 1)) in
      cleanupOldBlocks f' currentHeight
  end.

End async.
#[global] Arguments asyncBlockRetriever D : clear implicits.
End Async.

(** ** The forced-inclusion retriever *)

Module Retriever.
Import Async.

Definition ErrForceInclusionNotConfigured : err :=
  ESentinel "forced inclusion namespace not configured".

Record ForcedInclusionEvent := {
  fe_Timestamp : Z; fe_StartDaHeight : Z; fe_EndDaHeight : Z; fe_Txs : list bytes
}.

Section retriever.
Context {D : Type} `{Datastore D} `{ProtoCodec pb_BlockData}.

Record forcedInclusionRetriever := {
  hasForcedInclusionNamespace : bool;
  daEpochSize : Z;
  fr_daStartHeight : Z;
  asyncFetcher : asyncBlockRetriever D;
}.

Definition NewForcedInclusionRetriever (empty : D) (has_ns : bool) (ns : bytes)
  (start epochSize : Z) : forcedInclusionRetriever :=
  {| hasForcedInclusionNamespace := has_ns; daEpochSize := epochSize; fr_daStartHeight := start;
     asyncFetcher := NewAsyncBlockRetriever empty ns start (epochSize *u 2) |}.

(** The loop over the cache: blocks found and heights missing, in order. *)
Definition from_cache (f : asyncBlockRetriever D) (heights : list Z)
  : gmap Z BlockData * list Z :=
  foldl (fun '(cached, missing) h =>
    match GetCachedBlock f h with
    | Ok (Some b) => (<[h := b]> cached, missing)
    | _ => (cached, missing ++ [h])
    end) (∅, []) heights.

(** The loop over the missing heights: a height from the future ends the whole
    call; other failures are joined. *)
Fixpoint sync_fetch (da : Z -> ResultRetrieve) (missing : list Z)
  (fetched : gmap Z BlockData) (processErrs : option err) : res (gmap Z BlockData * option err) :=
  match missing with
  | [] => Ok (fetched, processErrs)
  | h :: rest =>
      let result := da h in
      match rr_Code result with
      | StatusHeightFromFuture => Err (EWrap "height not yet available" ErrHeightFromFuture)
      | StatusNotFound =>
          sync_fetch da rest
            (<[h := {| bd_Height := 0; bd_Timestamp := rr_Timestamp result; bd_Blobs := [] |}]> fetched)
            processErrs
      | StatusSuccess =>
          sync_fetch da rest
            (<[h := {| bd_Height := 0; bd_Timestamp := rr_Timestamp result;
                       bd_Blobs := rr_Data result |}]> fetched) processErrs
      | _ =>
          let e := EMsg "failed to retrieve forced inclusion blobs at height" in
          sync_fetch da rest fetched
            (Some match processErrs with None => e | Some e0 => EJoin e0 e end)
      end
  end.

(** One block's contribution to the event. *)
Definition add_block (event : ForcedInclusionEvent) (block : option BlockData)
  : ForcedInclusionEvent :=
  match block with
  | None => event
  | Some b =>
      {| fe_Timestamp := if fe_Timestamp event <? bd_Timestamp b
                         then bd_Timestamp b else fe_Timestamp event;
         fe_StartDaHeight := fe_StartDaHeight event; fe_EndDaHeight := fe_EndDaHeight event;
         fe_Txs := fe_Txs event ++ nonempty_blobs (bd_Blobs b) |}
  end.

(** The processing loop; the maps are local to the call and each height is
    visited once, so the source's deletes from them only release memory. *)
Definition process_blocks (cached fetched : gmap Z BlockData) (event : ForcedInclusionEvent)
  (heights : list Z) : ForcedInclusionEvent :=
  foldl (fun event h =>
    add_block event (match cached !! h with Some b => Some b | None => fetched !! h end))
    event heights.

Definition empty_event (ts h : Z) : ForcedInclusionEvent :=
  {| fe_Timestamp := ts; fe_StartDaHeight := h; fe_EndDaHeight := h; fe_Txs := [] |}.

(** The loop bound [epochEnd] is below the largest uint64 (with it the source's
    loop over the heights would not end). *)
Definition RetrieveForcedIncludedTxs (da : Z -> ResultRetrieve) (r : forcedInclusionRetriever)
  (daHeight : Z) : forcedInclusionRetriever * res ForcedInclusionEvent :=
  if negb (hasForcedInclusionNamespace r) then (r, Err ErrForceInclusionNotConfigured)
  else if daHeight <? fr_daStartHeight r then
    (r, Err (EMsg "DA height is before the configured start height"))
  else
    let '(epochStart, epochEnd, _) :=
      Epoch.CalculateEpochBoundaries daHeight (fr_daStartHeight r) (daEpochSize r) in
    let f := UpdateCurrentHeight (asyncFetcher r) daHeight in
    let r' := {| hasForcedInclusionNamespace := hasForcedInclusionNamespace r;
                 daEpochSize := daEpochSize r; fr_daStartHeight := fr_daStartHeight r;
                 asyncFetcher := f |} in
    if negb (daHeight =? epochEnd) then (r', Ok (empty_event zero_time daHeight))
    else
      let event := {| fe_Timestamp := zero_time; fe_StartDaHeight := epochStart;
                      fe_EndDaHeight := epochEnd; fe_Txs := [] |} in
      let heights := heights_upto epochStart epochEnd in
      let '(cachedBlocks, missingHeights) := from_cache f heights in
      match sync_fetch da missingHeights ∅ None with
      | Err e => (r', Err e)
      | Ok (syncFetchedBlocks, processErrs) =>
          let event := process_blocks cachedBlocks syncFetchedBlocks event heights in
          match processErrs with
          | Some _ => (r', Ok (empty_event (fe_Timestamp event) daHeight))
          | None => (r', Ok event)
          end
      end.

End retriever.
#[global] Arguments forcedInclusionRetriever D : clear implicits.

(** ** Specification: what the epoch's DA heights hold, no cache involved *)

Definition da_block (da : Z -> ResultRetrieve) (h : Z) : option BlockData :=
  let result := da h in
  match rr_Code result with
  | StatusSuccess => Some {| bd_Height := 0; bd_Timestamp := rr_Timestamp result;
                             bd_Blobs := rr_Data result |}
  | StatusNotFound => Some {| bd_Height := 0; bd_Timestamp := rr_Timestamp result;
                              bd_Blobs := [] |}
  | _ => None
  end.
Definition from_future (da : Z -> ResultRetrieve) (h : Z) : bool :=
  bool_decide (rr_Code (da h) = StatusHeightFromFuture).
Definition available (da : Z -> ResultRetrieve) (h : Z) : bool :=
  match da_block da h with Some _ => true | None => false end.

Definition retrieve_spec (da : Z -> ResultRetrieve) (has_ns : bool) (start size daHeight : Z)
  : res ForcedInclusionEvent :=
  if negb has_ns then Err ErrForceInclusionNotConfigured
  else if daHeight <? start then Err (EMsg "DA height is before the configured start height")
  else
    let '(first, last, _) := Epoch.CalculateEpochBoundaries daHeight start size in
    if negb (daHeight =? last) then Ok (empty_event zero_time daHeight)
    else
      let heights := heights_upto first last in
      if existsb (from_future da) heights
      then Err (EWrap "height not yet available" ErrHeightFromFuture)
      else
        let event := foldl (fun ev h => add_block ev (da_block da h))
          {| fe_Timestamp := zero_time; fe_StartDaHeight := first; fe_EndDaHeight := last;
             fe_Txs := [] |} heights in
        if forallb (available da) heights then Ok event
        else Ok (empty_event (fe_Timestamp event) daHeight).

Section refine.
Context {D : Type} `{Datastore D} `{ProtoCodec pb_BlockData}.

(** A cached block is what the DA layer holds, up to empty blobs. *)
Definition same_block (b b' : BlockData) : Prop :=
  bd_Timestamp b = bd_Timestamp b' /\ nonempty_blobs (bd_Blobs b) = nonempty_blobs (bd_Blobs b').
Definition cache_ok (da : Z -> ResultRetrieve) (f : asyncBlockRetriever D) : Prop :=
  forall h b, is_u64 h -> GetCachedBlock f h = Ok (Some b) ->
    exists b', da_block da h = Some b' /\ same_block b b'.

Definition cached_at (f : asyncBlockRetriever D) (h : Z) : option BlockData :=
  match GetCachedBlock f h with Ok (Some b) => Some b | _ => None end.
Definition is_missing (f : asyncBlockRetriever D) (h : Z) : bool :=
  match cached_at f h with Some _ => false | None => true end.

Lemma from_cache_spec f heights :
  let '(cached, missing) := from_cache f heights in
  missing = List.filter (is_missing f) heights /\
  forall h, cached !! h = if decide (h ∈ heights) then cached_at f h else None.
Proof.
  unfold from_cache. induction heights as [|h heights IH] using rev_ind; [done|].
  rewrite foldl_snoc. destruct (foldl _ _ heights) as [cached missing].
  destruct IH as [IH1 IH2]. rewrite List.filter_app, <- IH1. simpl. unfold is_missing.
  destruct (cached_at f h) as [b|] eqn:E; unfold cached_at in E;
    destruct (GetCachedBlock f h) as [[b'|]|e] eqn:Eg; simplify_eq; rewrite ?app_nil_r;
    (split; [done|]); intros k; rewrite if_elem_snoc, ?lookup_insert, IH2;
    repeat case_decide; subst; unfold cached_at; rewrite ?Eg; done.
Qed.

Lemma sync_fetch_spec da missing m errs :
  NoDup missing -> (forall h, h ∈ missing -> m !! h = None) ->
  if existsb (from_future da) missing
  then sync_fetch da missing m errs = Err (EWrap "height not yet available" ErrHeightFromFuture)
  else exists m' errs', sync_fetch da missing m errs = Ok (m', errs') /\
    (forall h, m' !! h = if decide (h ∈ missing) then da_block da h else m !! h) /\
    (errs' = None <-> errs = None /\ forallb (available da) missing = true).
Proof.
  revert m errs. induction missing as [|h missing IH]; intros m errs HN Hm.
  { simpl. exists m, errs. split_and!; [done| |tauto]. by intros h. }
  apply NoDup_cons in HN as [Hh HN]. cbn [existsb forallb sync_fetch]. unfold from_future at 1.
  assert (Hstep : forall b, da_block da h = Some b ->
    if existsb (from_future da) missing
    then sync_fetch da missing (<[h := b]> m) errs
         = Err (EWrap "height not yet available" ErrHeightFromFuture)
    else exists m' errs', sync_fetch da missing (<[h := b]> m) errs = Ok (m', errs') /\
      (forall k, m' !! k = if decide (k ∈ h :: missing) then da_block da k else m !! k) /\
      (errs' = None <-> errs = None /\ available da h && forallb (available da) missing = true)).
  { intros b Hb. specialize (IH (<[h := b]> m) errs HN).
    assert (available da h = true) as -> by (unfold available; by rewrite Hb).
    destruct (existsb _ missing).
    - apply IH. intros k Hk. rewrite lookup_insert_ne by (by intros ->). apply Hm. by right.
    - destruct IH as (m' & errs' & E & Hl & He).
      { intros k Hk. rewrite lookup_insert_ne by (by intros ->). apply Hm. by right. }
      exists m', errs'. split_and!; [done| |done]. intros k.
      rewrite Hl, lookup_insert, if_elem_cons. repeat case_decide; by subst. }
  assert (Hskip : forall e, da_block da h = None ->
    if existsb (from_future da) missing
    then sync_fetch da missing m (Some e)
         = Err (EWrap "height not yet available" ErrHeightFromFuture)
    else exists m' errs', sync_fetch da missing m (Some e) = Ok (m', errs') /\
      (forall k, m' !! k = if decide (k ∈ h :: missing) then da_block da k else m !! k) /\
      (errs' = None <-> errs = None /\ available da h && forallb (available da) missing = true)).
  { intros e Hb. specialize (IH m (Some e) HN).
    assert (available da h = false) as -> by (unfold available; by rewrite Hb).
    destruct (existsb _ missing).
    - apply IH. intros k Hk. apply Hm. by right.
    - destruct IH as (m' & errs' & E & Hl & He); [intros k Hk; apply Hm; by right|].
      exists m', errs'. split_and!; [done| |rewrite He; split; intros [? ?]; done]. intros k.
      rewrite Hl, if_elem_cons. repeat case_decide; subst; try done.
      rewrite Hb. apply Hm. by left. }
  assert (Hb : da_block da h = da_block da h) by done. unfold da_block at 2 in Hb.
  destruct (rr_Code (da h)) eqn:Ec;
    first [ rewrite bool_decide_true by done; done
          | rewrite bool_decide_false, orb_false_l by done;
            first [by apply Hskip | by apply Hstep] ].
Qed.

Lemma add_block_same ev b b' : same_block b b' -> add_block ev (Some b) = add_block ev (Some b').
Proof. intros [E1 E2]. unfold add_block. by rewrite E1, E2. Qed.

Lemma process_blocks_spec da f cached fetched ev heights :
  cache_ok da f -> Forall is_u64 heights ->
  (forall h, h ∈ heights -> cached !! h = cached_at f h) ->
  (forall h, h ∈ heights -> is_missing f h = true -> fetched !! h = da_block da h) ->
  process_blocks cached fetched ev heights =
  foldl (fun ev h => add_block ev (da_block da h)) ev heights.
Proof.
  intros Hok Hu Hc Hf. unfold process_blocks. revert ev.
  induction heights as [|h heights IH]; intros ev; [done|]. apply Forall_cons in Hu as [Hh Hu].
  simpl. rewrite IH by (try done; intros; first [apply Hc | apply Hf]; auto; by right).
  f_equal. rewrite Hc by (by left). specialize (Hf h ltac:(by left)). unfold is_missing in Hf.
  destruct (cached_at f h) as [b|] eqn:E; [|by rewrite Hf].
  unfold cached_at in E. destruct (GetCachedBlock f h) as [[b0|]|] eqn:Eg; simplify_eq.
  destruct (Hok h b Hh Eg) as (b' & -> & Hs). by apply add_block_same.
Qed.

Lemma cached_available da f h : cache_ok da f -> is_u64 h -> is_missing f h = false ->
  available da h = true /\ from_future da h = false.
Proof.
  intros Hok Hh. unfold is_missing, cached_at.
  destruct (GetCachedBlock f h) as [[b|]|] eqn:E; [|done..]. intros _.
  destruct (Hok h b Hh E) as (b' & Hb & _). unfold available, from_future. rewrite Hb.
  split; [done|]. apply bool_decide_false. unfold da_block in Hb. intros Hc. by rewrite Hc in Hb.
Qed.

Lemma missing_existsb da f heights : cache_ok da f -> Forall is_u64 heights ->
  existsb (from_future da) (List.filter (is_missing f) heights) = existsb (from_future da) heights /\
  forallb (available da) (List.filter (is_missing f) heights) = forallb (available da) heights.
Proof.
  intros Hok. induction 1 as [|h heights Hh _ [IH1 IH2]]; [done|]. simpl.
  destruct (is_missing f h) eqn:E; simpl; rewrite IH1, IH2; [done|].
  by destruct (cached_available da f h Hok Hh E) as [-> ->].
Qed.

Lemma boundaries_u64 h start size : is_u64 start ->
  let '(first, last, _) := Epoch.CalculateEpochBoundaries h start size in is_u64 first /\ is_u64 last.
Proof.
  intros Hs. unfold Epoch.CalculateEpochBoundaries.
  destruct (size =? 0); [done|]. destruct (h <? start); auto using u64_range.
Qed.

Lemma heights_u64 a b : is_u64 a -> is_u64 b -> Forall is_u64 (heights_upto a b).
Proof.
  unfold is_u64. intros Ha Hb. apply Forall_forall. intros h Hh%elem_of_heights_upto. lia.
Qed.

Lemma NoDup_heights_upto a b : NoDup (heights_upto a b).
Proof. apply NoDup_seqZ. Qed.

Lemma GetCachedBlock_Update f h k : GetCachedBlock (UpdateCurrentHeight f h) k = GetCachedBlock f k.
Proof. unfold UpdateCurrentHeight. by destruct (h <=? _). Qed.

Lemma retrieve_refines da r h : cache_ok da (asyncFetcher r) -> is_u64 (fr_daStartHeight r) ->
  (RetrieveForcedIncludedTxs da r h).2 =
  retrieve_spec da (hasForcedInclusionNamespace r) (fr_daStartHeight r) (daEpochSize r) h.
Proof.
  intros Hok Hst. unfold RetrieveForcedIncludedTxs, retrieve_spec.
  destruct (negb (hasForcedInclusionNamespace r)); [done|].
  destruct (h <? fr_daStartHeight r); [done|].
  pose proof (boundaries_u64 h (fr_daStartHeight r) (daEpochSize r) Hst) as Hb.
  destruct (Epoch.CalculateEpochBoundaries _ _ _) as [[first last] n]. destruct Hb as [Hf Hl].
  destruct (negb (h =? last)); [done|].
  set (f := UpdateCurrentHeight (asyncFetcher r) h).
  assert (Hok' : cache_ok da f).
  { intros k b Hk. unfold f. rewrite GetCachedBlock_Update. by apply Hok. }
  pose proof (heights_u64 first last Hf Hl) as Hu.
  set (heights := heights_upto first last) in *.
  pose proof (from_cache_spec f heights) as Hc.
  destruct (from_cache f heights) as [cached missing]. destruct Hc as [-> Hc].
  destruct (missing_existsb da f heights Hok' Hu) as [E1 E2].
  pose proof (sync_fetch_spec da (List.filter (is_missing f) heights) ∅ None) as HS.
  rewrite E1, E2 in HS. destruct (existsb _ heights).
  { rewrite HS; [done| |done]. apply NoDup_ListNoDup, List.NoDup_filter, NoDup_ListNoDup.
    apply NoDup_heights_upto. }
  destruct HS as (fetched & errs & -> & Hft & He); [|done|].
  { apply NoDup_ListNoDup, List.NoDup_filter, NoDup_ListNoDup, NoDup_heights_upto. }
  rewrite (process_blocks_spec da f); [|done|done| |].
  - destruct errs as [e|], (forallb (available da) heights); simpl; try done.
    + by pose proof (proj2 He (conj eq_refl eq_refl)).
    + by destruct (proj1 He eq_refl) as [_ E].
  - intros k Hk. rewrite Hc. by rewrite decide_True.
  - intros k Hk Hm. rewrite Hft, decide_True; [done|].
    apply list_elem_of_In, filter_In. split; [by apply list_elem_of_In|done].
Qed.

End refine.

(** ** The prefetcher keeps its cache consistent with the DA layer *)

Section prefetch.
Context {D : Type} `{DatastoreLaws D}.
Context `{PC : ProtoCodec pb_BlockData} `{PL : !ProtoCodecLaws pb_BlockData}.

Lemma block_key h : newBlockDataKey (D := D) h = String.append block_prefix (dec_string h).
Proof.
  unfold newBlockDataKey. apply ds_NewKey_clean. simpl. apply clean_dec_string.
Qed.

Lemma block_key_inj a b : is_u64 a -> is_u64 b ->
  newBlockDataKey (D := D) a = newBlockDataKey (D := D) b -> a = b.
Proof.
  rewrite !block_key. intros Ha Hb E. unfold block_prefix in E. simpl in E. simplify_eq.
  by apply dec_string_inj.
Qed.

(** DA timestamps are representable by [UnixNano]. *)
Definition da_times (da : Z -> ResultRetrieve) : Prop := forall h, is_i64 (rr_Timestamp (da h)).

(** Heights only become available; what is available does not change. *)
Definition da_extends (da da' : Z -> ResultRetrieve) : Prop :=
  forall h, available da h = true -> da' h = da h.

Definition prefetch_inv (da : Z -> ResultRetrieve) (f : asyncBlockRetriever D) : Prop :=
  ds_healthy (cache f) /\
  forall h v, is_u64 h -> ds_view (cache f) !! newBlockDataKey h = Some v ->
    exists b, da_block da h = Some b /\
      proto_Unmarshal v = Ok {| pbb_Height := h; pbb_Timestamp := bd_Timestamp b;
                                pbb_Blobs := nonempty_blobs (bd_Blobs b) |}.

Lemma nonempty_blobs_idemp l : nonempty_blobs (nonempty_blobs l) = nonempty_blobs l.
Proof. unfold nonempty_blobs. rewrite list_filter_filter. apply list_filter_iff. tauto. Qed.

Lemma prefetch_inv_cache_ok da f : prefetch_inv da f -> cache_ok da f.
Proof.
  intros [Hd Hi] h b Hh. unfold GetCachedBlock. destruct (namespace f); [done|].
  destruct (h <? daStartHeight f); [done|]. rewrite ds_Get_spec by done.
  destruct (ds_view (cache f) !! newBlockDataKey h) as [v|] eqn:E.
  2:{ by rewrite errors_is_refl. }
  destruct (Hi h v Hh E) as (b' & Hb & ->). simpl. intros [= <-].
  exists b'. split; [done|]. split; [done|]. apply nonempty_blobs_idemp.
Qed.

Lemma prefetch_inv_extends da da' f : da_extends da da' -> prefetch_inv da f -> prefetch_inv da' f.
Proof.
  intros Hx [Hd Hi]. split; [done|]. intros h v Hh E. destruct (Hi h v Hh E) as (b & Hb & Hu).
  exists b. split; [|done]. unfold da_block. rewrite Hx; [exact Hb|]. unfold available. by rewrite Hb.
Qed.

Lemma prefetch_inv_subseteq da f d : prefetch_inv da f -> ds_healthy d ->
  ds_view d ⊆ ds_view (cache f) -> prefetch_inv da (with_cache f d).
Proof.
  intros [Hd Hi] Hd' Hsub. split; [done|]. intros h v Hh E. apply (Hi h v Hh).
  by eapply lookup_weaken.
Qed.

Lemma fetchAndCacheBlock_inv da f h : da_times da -> is_u64 h ->
  prefetch_inv da f -> prefetch_inv da (fetchAndCacheBlock da f h).
Proof.
  intros Ht Hh Hinv.
  assert (Hstore : forall b, da_block da h = Some b -> prefetch_inv da
    match proto_Marshal {| pbb_Height := h; pbb_Timestamp := i64 (bd_Timestamp b);
                           pbb_Blobs := nonempty_blobs (bd_Blobs b) |} with
    | Err _ => f
    | Ok data => with_cache f (ds_Put (cache f) (newBlockDataKey h) data).1
    end).
  { intros b Hb. destruct Hinv as [Hd Hi].
    assert (Hts : is_i64 (bd_Timestamp b)).
    { unfold da_block in Hb. specialize (Ht h). destruct (rr_Code (da h)); simplify_eq; done. }
    rewrite i64_small by done.
    edestruct (proto_roundtrip {| pbb_Height := h; pbb_Timestamp := bd_Timestamp b;
      pbb_Blobs := nonempty_blobs (bd_Blobs b) |}) as (bz & -> & Hu); [by split|].
    destruct (ds_Put_spec (cache f) (newBlockDataKey h) bz Hd) as (d' & -> & Hd' & Hv).
    split; [done|]. intros k v Hk. simpl. rewrite Hv, lookup_insert. case_decide as E.
    - apply block_key_inj in E as <-; [|done..]. intros [= <-]. eauto.
    - intros E'. eauto. }
  unfold fetchAndCacheBlock. unfold da_block in Hstore.
  destruct (rr_Code (da h)); try done; [apply (Hstore _ eq_refl)|apply (Hstore _ eq_refl)].
Qed.

Lemma deletes_sub {A} (st : D -> A -> D) l d :
  (forall d x, st d x = d \/ exists k, st d x = (ds_Delete d k).1) ->
  ds_healthy d -> ds_healthy (foldl st d l) /\ ds_view (foldl st d l) ⊆ ds_view d.
Proof.
  intros Hst. revert d. induction l as [|x l IH]; intros d Hd; simpl; [done|].
  destruct (Hst d x) as [->|(k & ->)]; [by apply IH|].
  destruct (ds_Delete_spec d k Hd) as (d' & -> & Hd' & Hv). simpl.
  destruct (IH d' Hd') as [? Hs]. split; [done|]. rewrite Hv in Hs.
  etrans; [exact Hs|apply delete_subseteq].
Qed.

Lemma cleanupOldBlocks_inv da f h : prefetch_inv da f -> prefetch_inv da (cleanupOldBlocks f h).
Proof.
  intros Hinv. unfold cleanupOldBlocks. destruct (h <? prefetchWindow f); [done|].
  destruct (ds_Query (cache f)) as [results|]; [|done].
  match goal with |- prefetch_inv _ (with_cache _ (foldl ?st _ _)) =>
    destruct (deletes_sub st results (cache f)) as [Hd' Hs]; [|apply Hinv|by apply prefetch_inv_subseteq]
  end.
  intros d [k [v|e]]; [|by left]. simpl. destruct (String.prefix _ k); [|by left].
  destruct (scan_block_key _); [|by left]. destruct (_ <? _); eauto.
Qed.

Lemma prefetchBlocks_inv da f : da_times da -> prefetch_inv da f -> prefetch_inv da (prefetchBlocks da f).
Proof.
  intros Ht Hinv. unfold prefetchBlocks. destruct (namespace f) eqn:En; [done|].
  apply cleanupOldBlocks_inv. generalize (currentDAHeight f). intros cur.
  generalize (heights_upto 0 (prefetchWindow f - 1)). intros hs. clear En.
  revert f Hinv. induction hs as [|i hs IH]; intros f Hinv; simpl; [done|]. apply IH.
  destruct (ds_Get _ _); [done|]. apply fetchAndCacheBlock_inv; auto using u64_range.
Qed.

Lemma UpdateCurrentHeight_inv da f h : prefetch_inv da f -> prefetch_inv da (UpdateCurrentHeight f h).
Proof. unfold UpdateCurrentHeight. by destruct (h <=? _). Qed.

(** The executions of a prefetcher beside a growing DA layer. *)
Inductive reachable (start window : Z) (ns : bytes) (empty : D)
  : (Z -> ResultRetrieve) -> asyncBlockRetriever D -> Prop :=
| reach_new da : da_times da ->
    reachable start window ns empty da (NewAsyncBlockRetriever empty ns start window)
| reach_prefetch da f : reachable start window ns empty da f ->
    reachable start window ns empty da (prefetchBlocks da f)
| reach_update da f h : reachable start window ns empty da f ->
    reachable start window ns empty da (UpdateCurrentHeight f h)
| reach_da da da' f : reachable start window ns empty da f -> da_extends da da' -> da_times da' ->
    reachable start window ns empty da' f.

Lemma reachable_inv start window ns empty da f :
  ds_healthy empty -> ds_view empty = ∅ -> reachable start window ns empty da f ->
  da_times da /\ prefetch_inv da f.
Proof.
  intros He Hv. induction 1 as [da Ht|da f _ [Ht IH]|da f h _ [Ht IH]|da da' f _ [Ht IH] Hx Ht'].
  - split; [done|]. split; [done|]. intros h v _. simpl. by rewrite Hv, lookup_empty.
  - eauto using prefetchBlocks_inv.
  - eauto using UpdateCurrentHeight_inv.
  - eauto using prefetch_inv_extends.
Qed.

(** C16: Whatever the background prefetcher has cached so far, [RetrieveForcedIncludedTxs] returns
    what the DA layer itself determines ([retrieve_spec]): nothing before the epoch's last height;
    "height from the future" if any height of the epoch is not there yet; otherwise the non-empty
    blobs of all heights of the epoch in height order with the latest timestamp. *)
Theorem retrieve_cache_transparent start window ns (empty : D) da (r : forcedInclusionRetriever D) h
  (He : ds_healthy empty) (Hv : ds_view empty = ∅) (Hst : is_u64 (fr_daStartHeight r))
  (Hr : reachable start window ns empty da (asyncFetcher r)) :
  (RetrieveForcedIncludedTxs da r h).2 =
  retrieve_spec da (hasForcedInclusionNamespace r) (fr_daStartHeight r) (daEpochSize r) h.
Proof.
  apply retrieve_refines; [|done]. apply prefetch_inv_cache_ok.
  by apply (reachable_inv start window ns empty).
Qed.

(** If at the end of an epoch one height fails for a reason other than being in the future (and
    none is in the future), the retriever does not report an error: it returns an event without
    transactions that ends at the requested height, exactly as for an epoch without any. *)
Theorem failed_epoch_looks_empty start window ns (empty : D) da (r : forcedInclusionRetriever D) h
  first n bad
  (He : ds_healthy empty) (Hv : ds_view empty = ∅) (Hst : is_u64 (fr_daStartHeight r))
  (Hr : reachable start window ns empty da (asyncFetcher r))
  (Hns : hasForcedInclusionNamespace r = true) (Hh : fr_daStartHeight r <= h)
  (Hep : Epoch.CalculateEpochBoundaries h (fr_daStartHeight r) (daEpochSize r) = (first, h, n))
  (Hfut : forall k, first <= k <= h -> from_future da k = false)
  (Hbad : first <= bad <= h) (Hfail : available da bad = false) :
  exists ts, (RetrieveForcedIncludedTxs da r h).2 = Ok (empty_event ts h).
Proof.
  rewrite retrieve_refines;
    [|apply prefetch_inv_cache_ok; by apply (reachable_inv start window ns empty)|done].
  unfold retrieve_spec. rewrite Hns, Hep. destruct (Z.ltb_spec h (fr_daStartHeight r)); [lia|].
  rewrite Z.eqb_refl. simpl.
  assert (Ef : existsb (from_future da) (heights_upto first h) = false).
  { apply not_true_iff_false. intros (k & Hk & Hf)%existsb_exists.
    apply list_elem_of_In, elem_of_heights_upto, Hfut in Hk. congruence. }
  assert (Ea : forallb (available da) (heights_upto first h) = false).
  { apply not_true_iff_false. intros Ha. rewrite forallb_forall in Ha.
    rewrite Ha in Hfail; [done|]. by apply list_elem_of_In, elem_of_heights_upto. }
  rewrite Ef, Ea. eauto.
Qed.

End prefetch.

(** ** Witnesses *)

#[global] Instance pb_BlockData_eq_dec : EqDecision pb_BlockData.
Proof. solve_decision. Defined.
#[global] Instance pb_BlockData_countable : Countable pb_BlockData :=
  inj_countable' (fun m => (pbb_Height m, pbb_Timestamp m, pbb_Blobs m))
    (fun p => Build_pb_BlockData p.1.1 p.1.2 p.2) (fun '(Build_pb_BlockData _ _ _) => eq_refl).
Definition wcodec : ProtoCodec pb_BlockData := RefCodec.codec pb_BlockData.
Definition wlaws : @ProtoCodecLaws pb_BlockData _ wcodec := RefCodec.codec_laws pb_BlockData.

(** Blobs at heights 10 and 11, a failing height 12, and the future from 13. *)
Definition w_da (h : Z) : ResultRetrieve :=
  if h <? 11 then {| rr_Code := StatusSuccess; rr_Message := ""; rr_Timestamp := 7; rr_Data := [[x01]; []]; rr_IDs := [] |}
  else if h =? 11 then {| rr_Code := StatusSuccess; rr_Message := ""; rr_Timestamp := 9; rr_Data := [[x02]]; rr_IDs := [] |}
  else if h =? 12 then {| rr_Code := StatusError; rr_Message := ""; rr_Timestamp := 0; rr_Data := []; rr_IDs := [] |}
  else {| rr_Code := StatusHeightFromFuture; rr_Message := ""; rr_Timestamp := 0; rr_Data := []; rr_IDs := [] |}.

Lemma w_da_times : da_times w_da.
Proof.
  intros h. unfold w_da. destruct (h <? 11), (h =? 11), (h =? 12); vm_compute; split; done.
Qed.

Definition w_retr (start size : Z) : forcedInclusionRetriever mapds :=
  {| hasForcedInclusionNamespace := true; daEpochSize := size; fr_daStartHeight := start;
     asyncFetcher := prefetchBlocks (H0 := wcodec) w_da
       (NewAsyncBlockRetriever (Mapds ∅ true) [x2a] start 2) |}.

Lemma retrieve_cache_transparent_witness :
  (RetrieveForcedIncludedTxs (H0 := wcodec) w_da (w_retr 10 2) 11).2 =
    retrieve_spec w_da true 10 2 11 /\
  retrieve_spec w_da true 10 2 11 =
    Ok {| fe_Timestamp := 9; fe_StartDaHeight := 10; fe_EndDaHeight := 11; fe_Txs := [[x01]; [x02]] |}.
Proof.
  split; [|vm_compute; reflexivity].
  apply (retrieve_cache_transparent (PC := wcodec) (PL := wlaws) 10 2 [x2a] (Mapds ∅ true) w_da
    (w_retr 10 2) 11);
    [reflexivity | reflexivity | vm_compute; split; [discriminate|reflexivity] |].
  apply reach_prefetch, reach_new, w_da_times.
Defined.

Lemma failed_epoch_looks_empty_witness :
  exists ts, (RetrieveForcedIncludedTxs (H0 := wcodec) w_da (w_retr 11 2) 12).2
    = Ok (empty_event ts 12).
Proof.
  apply (failed_epoch_looks_empty (PC := wcodec) (PL := wlaws) 11 2 [x2a] (Mapds ∅ true) w_da
    (w_retr 11 2) 12 11 1 12);
    [reflexivity | reflexivity | vm_compute; split; [discriminate|reflexivity]
    | apply reach_prefetch, reach_new, w_da_times | reflexivity | vm_compute; discriminate
    | reflexivity | | lia | reflexivity].
  intros k Hk. assert (k = 11 \/ k = 12) as [-> | ->] by lia; reflexivity.
Defined.

End Retriever.
