(* ===== verification/Sequencers.v ===== *)
(** The two sequencers: the single sequencer
    (pkg/sequencers/single/sequencer.go), which interleaves forced-inclusion
    transactions from DA epochs with its own mempool queue, and the based
    sequencer (pkg/sequencers/based/sequencer.go), which only replays DA.

    Everything outside the sequencer that a call consults is an [env]: the
    executor's filter and limits, the forced-inclusion retriever, the DA head,
    the chain store's state and the clock.  The queue and the checkpoint store
    keep their own datastore views (the source separates them by key prefix). *)

From S2P Require Import Prelude Interfaces Epoch Sequencing Queue Checkpoint Execution ForcedInclusion.
Import Filter Retriever.

Definition ErrInvalidId : err := ESentinel "invalid chain id".
Definition ErrNoBatch : err := ESentinel "no batch to process".

Record Genesis := {
  gen_StartTime : Z;
  gen_DAStartHeight : Z;
  gen_DAEpochForcedInclusion : Z;
}.

Record env := {
  env_now : Z;                                       (* time.Now() *)
  env_GetExecutionInfo : res Z;                      (* the executor's MaxGas *)
  env_FilterTxs : list bytes -> Z -> Z -> bool -> res (list FilterStatus);
  env_Retrieve : Z -> Z -> res ForcedInclusionEvent; (* start height of the retriever, DA height *)
  env_GetLatestDAHeight : res Z;
  env_LastBlockTime : res Z;                         (* store.GetState, LastBlockTime *)
  env_GenesisDAHeight : res bytes;                   (* store.GetMetadata(GenesisDAHeightKey) *)
}.

(** [time.Duration(n) * time.Millisecond] *)
Definition millis (n : Z) : Z := i64 (i64 n * 1000000).
(** [-time.Duration(n) * time.Millisecond] *)
Definition neg_millis (n : Z) : Z := i64 (i64 (- i64 n) * 1000000).

(** The timestamp of a block that ends at transaction [idx] of an epoch with [count]. *)
Definition spread_timestamp (daEndTime count idx : Z) : Z :=
  daEndTime + neg_millis count + millis idx.

(** The size filter of both [fetchNextDAEpoch]. *)
Definition within_size (maxBytes : Z) (txs : list bytes) : list bytes :=
  filter (fun tx => blen tx <= maxBytes) txs.

Definition all_ok (txs : list bytes) : list FilterStatus := (fun _ => FilterOK) <$> txs.

Module Single.

Inductive catchUpState := catchUpUnchecked | catchUpInProgress | catchUpDone.
#[export] Instance catchUpState_eq_dec : EqDecision catchUpState.
Proof. solve_decision. Defined.

Section single.
Context {D : Type} `{Datastore D} `{ProtoCodec BatchQueue.pb_Batch} `{ProtoCodec Checkpoint.pb_Checkpoint}.

Record Sequencer := {
  genesis : Genesis;
  Id : bytes;
  queue : BatchQueue.BatchQueue D;
  fiStart : Z;                     (* the start height fiRetriever was created with *)
  daHeight : Z;
  daStartHeight : Z;
  checkpointStore : Checkpoint.CheckpointStore D;
  checkpoint : Checkpoint.Checkpoint;
  cachedForcedInclusionTxs : list bytes;
  catchUp : catchUpState;
  currentDAEndTime : Z;
  currentEpochTxCount : Z;
}.

Definition set_queue q s := {| genesis := genesis s; Id := Id s; queue := q; fiStart := fiStart s;
  daHeight := daHeight s; daStartHeight := daStartHeight s; checkpointStore := checkpointStore s;
  checkpoint := checkpoint s; cachedForcedInclusionTxs := cachedForcedInclusionTxs s;
  catchUp := catchUp s; currentDAEndTime := currentDAEndTime s;
  currentEpochTxCount := currentEpochTxCount s |}.
Definition set_fiStart a b s := {| genesis := genesis s; Id := Id s; queue := queue s; fiStart := a;
  daHeight := daHeight s; daStartHeight := b; checkpointStore := checkpointStore s;
  checkpoint := checkpoint s; cachedForcedInclusionTxs := cachedForcedInclusionTxs s;
  catchUp := catchUp s; currentDAEndTime := currentDAEndTime s;
  currentEpochTxCount := currentEpochTxCount s |}.
Definition SetDAHeight h s := {| genesis := genesis s; Id := Id s; queue := queue s;
  fiStart := fiStart s; daHeight := h; daStartHeight := daStartHeight s;
  checkpointStore := checkpointStore s; checkpoint := checkpoint s;
  cachedForcedInclusionTxs := cachedForcedInclusionTxs s; catchUp := catchUp s;
  currentDAEndTime := currentDAEndTime s; currentEpochTxCount := currentEpochTxCount s |}.
Definition set_checkpoint c s := {| genesis := genesis s; Id := Id s; queue := queue s;
  fiStart := fiStart s; daHeight := daHeight s; daStartHeight := daStartHeight s;
  checkpointStore := checkpointStore s; checkpoint := c;
  cachedForcedInclusionTxs := cachedForcedInclusionTxs s; catchUp := catchUp s;
  currentDAEndTime := currentDAEndTime s; currentEpochTxCount := currentEpochTxCount s |}.
Definition set_store cs s := {| genesis := genesis s; Id := Id s; queue := queue s;
  fiStart := fiStart s; daHeight := daHeight s; daStartHeight := daStartHeight s;
  checkpointStore := cs; checkpoint := checkpoint s;
  cachedForcedInclusionTxs := cachedForcedInclusionTxs s; catchUp := catchUp s;
  currentDAEndTime := currentDAEndTime s; currentEpochTxCount := currentEpochTxCount s |}.
Definition set_cached l s := {| genesis := genesis s; Id := Id s; queue := queue s;
  fiStart := fiStart s; daHeight := daHeight s; daStartHeight := daStartHeight s;
  checkpointStore := checkpointStore s; checkpoint := checkpoint s;
  cachedForcedInclusionTxs := l; catchUp := catchUp s;
  currentDAEndTime := currentDAEndTime s; currentEpochTxCount := currentEpochTxCount s |}.
Definition set_catchUp c s := {| genesis := genesis s; Id := Id s; queue := queue s;
  fiStart := fiStart s; daHeight := daHeight s; daStartHeight := daStartHeight s;
  checkpointStore := checkpointStore s; checkpoint := checkpoint s;
  cachedForcedInclusionTxs := cachedForcedInclusionTxs s; catchUp := c;
  currentDAEndTime := currentDAEndTime s; currentEpochTxCount := currentEpochTxCount s |}.
Definition set_endTime t s := {| genesis := genesis s; Id := Id s; queue := queue s;
  fiStart := fiStart s; daHeight := daHeight s; daStartHeight := daStartHeight s;
  checkpointStore := checkpointStore s; checkpoint := checkpoint s;
  cachedForcedInclusionTxs := cachedForcedInclusionTxs s; catchUp := catchUp s;
  currentDAEndTime := t; currentEpochTxCount := currentEpochTxCount s |}.
Definition set_txCount n s := {| genesis := genesis s; Id := Id s; queue := queue s;
  fiStart := fiStart s; daHeight := daHeight s; daStartHeight := daStartHeight s;
  checkpointStore := checkpointStore s; checkpoint := checkpoint s;
  cachedForcedInclusionTxs := cachedForcedInclusionTxs s; catchUp := catchUp s;
  currentDAEndTime := currentDAEndTime s; currentEpochTxCount := n |}.

Definition isValid (s : Sequencer) (id : bytes) : bool := bytes_Equal (Id s) id.

(** The start height kept in memory, or the genesis DA height of the store (cached). *)
Definition getInitialDAStartHeight (e : env) (s : Sequencer) : Sequencer * Z :=
  if negb (daStartHeight s =? 0) then (s, daStartHeight s)
  else
    match env_GenesisDAHeight e with
    | Ok bz => if (length bz =? 8)%nat
               then (set_fiStart (fiStart s) (Uint64_LE bz) s, Uint64_LE bz)
               else (s, 0)
    | Err _ => (s, 0)
    end.

(** [queue_db]/[ck_db] are the prefixed views of the node's datastore. *)
Definition NewSequencer (e : env) (queue_db ck_db : D) (id : bytes) (maxQueueSize : Z)
  (g : Genesis) : res Sequencer :=
  let s := {| genesis := g; Id := id; queue := BatchQueue.NewBatchQueue queue_db maxQueueSize;
              fiStart := 0; daHeight := gen_DAStartHeight g; daStartHeight := gen_DAStartHeight g;
              checkpointStore := Checkpoint.NewCheckpointStore ck_db (ds_NewKey "/single/checkpoint");
              checkpoint := Checkpoint.MkCheckpoint 0 0; cachedForcedInclusionTxs := [];
              catchUp := catchUpUnchecked; currentDAEndTime := gen_StartTime g;
              currentEpochTxCount := 0 |} in
  let '(q, r) := BatchQueue.Load (queue s) in
  match r with
  | Err err => Err (EWrap "failed to load batch queue from DB" err)
  | Ok _ =>
      let s := set_queue q s in
      let? ck :=
        match Checkpoint.Load (checkpointStore s) with
        | Ok c => Ok c
        | Err err =>
            if errors_is err Checkpoint.ErrCheckpointNotFound
            then Ok (Checkpoint.MkCheckpoint (daHeight s) 0)
            else Err (EWrap "failed to load checkpoint from DB" err)
        end in
      let s := set_checkpoint ck s in
      let '(s, start) := getInitialDAStartHeight e s in
      Ok (set_fiStart start (daStartHeight s) s)
  end.

Definition SubmitBatchTxs (s : Sequencer) (req : SubmitBatchTxsRequest) : Sequencer * res unit :=
  if negb (isValid s (sr_Id req)) then (s, Err ErrInvalidId)
  else
    match sr_Batch req with
    | None | Some (MkBatch []) => (s, Ok tt)
    | Some batch =>
        let '(q, r) := BatchQueue.AddBatch (queue s) (MkBatch (Transactions batch)) in
        (set_queue q s,
         match r with
         | Ok _ => Ok tt
         | Err err =>
             if errors_is err BatchQueue.ErrQueueFull
             then Err (EWrap "batch queue is full, cannot accept more batches" err)
             else Err (EWrap "failed to add batch" err)
         end)
    end.
(** [updateCatchUpState]: decided once, on the first fetch. *)
Definition updateCatchUpState (e : env) (s : Sequencer) : Sequencer :=
  match catchUp s with
  | catchUpInProgress | catchUpDone => s
  | catchUpUnchecked =>
      let s := set_catchUp catchUpDone s in
      let epochSize := gen_DAEpochForcedInclusion (genesis s) in
      if epochSize =? 0 then s
      else
        let currentDAHeight := Checkpoint.DAHeight (checkpoint s) in
        let start := gen_DAStartHeight (genesis s) in
        match env_GetLatestDAHeight e with
        | Err _ => s
        | Ok latestDAHeight =>
            if latestDAHeight <=? currentDAHeight then s
            else
              let currentEpoch := Epoch.CalculateEpochNumber currentDAHeight start epochSize in
              let latestEpoch := Epoch.CalculateEpochNumber latestDAHeight start epochSize in
              let missedEpochs := latestEpoch -u currentEpoch in
              if missedEpochs =? 0 then s
              else
                let s := set_catchUp catchUpInProgress s in
                match env_LastBlockTime e with
                | Ok t =>
                    if negb (t =? zero_time) && (currentDAEndTime s <? t)
                    then set_endTime t s else s
                | Err _ => s
                end
        end
  end.

Definition fetchNextDAEpoch (e : env) (s : Sequencer) (maxBytes : Z) : Sequencer * res Z :=
  let currentDAHeight := Checkpoint.DAHeight (checkpoint s) in
  let s := updateCatchUpState e s in
  match env_Retrieve e (fiStart s) currentDAHeight with
  | Err err =>
      if errors_is err DA.ErrHeightFromFuture then
        (match catchUp s with catchUpInProgress => set_catchUp catchUpDone s | _ => s end, Ok 0)
      else if errors_is err ErrForceInclusionNotConfigured then
        (set_catchUp catchUpDone (set_cached [] s), Ok 0)
      else (s, Err (EWrap "failed to retrieve forced inclusion transactions" err))
  | Ok event =>
      let validTxs := within_size maxBytes (fe_Txs event) in
      let s := set_txCount (blen validTxs) (set_cached validTxs s) in
      let s := if currentDAEndTime s <? fe_Timestamp event
               then set_endTime (fe_Timestamp event) s else s in
      (s, Ok (fe_EndDaHeight event))
  end.

(** The variables of the loop over the filter results. *)
Record filtered := {
  validForcedTxs : list bytes;
  validMempoolTxs : list bytes;
  forcedTxConsumedCount : Z;
  forcedTxPostponed : bool;
}.

Definition filter_step (forcedTxCount : nat) (acc : filtered)
  (x : nat * (FilterStatus * bytes)) : filtered :=
  let '(i, (status, tx)) := x in
  if (i <? forcedTxCount)%nat then
    if forcedTxPostponed acc then acc
    else
      match status with
      | FilterOK =>
          {| validForcedTxs := validForcedTxs acc ++ [tx]; validMempoolTxs := validMempoolTxs acc;
             forcedTxConsumedCount := forcedTxConsumedCount acc +u 1; forcedTxPostponed := false |}
      | FilterRemove =>
          {| validForcedTxs := validForcedTxs acc; validMempoolTxs := validMempoolTxs acc;
             forcedTxConsumedCount := forcedTxConsumedCount acc +u 1; forcedTxPostponed := false |}
      | FilterPostpone =>
          {| validForcedTxs := validForcedTxs acc; validMempoolTxs := validMempoolTxs acc;
             forcedTxConsumedCount := forcedTxConsumedCount acc; forcedTxPostponed := true |}
      end
  else
    match status with
    | FilterOK =>
        {| validForcedTxs := validForcedTxs acc; validMempoolTxs := validMempoolTxs acc ++ [tx];
           forcedTxConsumedCount := forcedTxConsumedCount acc;
           forcedTxPostponed := forcedTxPostponed acc |}
    | _ => acc
    end.

Definition filter_loop (forcedTxCount : nat) (statuses : list FilterStatus) (allTxs : list bytes)
  : filtered :=
  foldl (filter_step forcedTxCount)
    {| validForcedTxs := []; validMempoolTxs := []; forcedTxConsumedCount := 0;
       forcedTxPostponed := false |} (imap pair (zip statuses allTxs)).

Definition postponedMempoolTxs (forcedTxCount : nat) (statuses : list FilterStatus)
  (allTxs : list bytes) : list bytes :=
  with_status FilterPostpone (drop forcedTxCount statuses) (drop forcedTxCount allTxs).

(** Both loops read [allTxs[i]] only at statuses that keep or postpone. *)
Definition reads_past_end (statuses : list FilterStatus) (allTxs : list bytes) : bool :=
  existsb (fun st => negb (bool_decide (st = FilterRemove))) (drop (length allTxs) statuses).

(** The checkpoint part of [GetNextBatch]: advances by the consumed count, moves
    to the next DA height when the epoch's cache is used up, and saves; returns
    [txIndexForTimestamp]. *)
Definition advance_checkpoint (s : Sequencer) (daHeight consumed : Z) : Sequencer * Z * res unit :=
  let idx := Checkpoint.TxIndex (checkpoint s) +u consumed in
  let s1 :=
    if blen (cachedForcedInclusionTxs s) <=? idx
    then SetDAHeight (daHeight +u 1)
           (set_cached [] (set_checkpoint (Checkpoint.MkCheckpoint (daHeight +u 1) 0) s))
    else set_checkpoint (Checkpoint.MkCheckpoint (Checkpoint.DAHeight (checkpoint s)) idx) s in
  let '(cs, r) := Checkpoint.Save (checkpointStore s1) (checkpoint s1) in
  (set_store cs s1, idx, wrap_err "failed to save checkpoint" r).

(** The bootstrapping step at the start of [GetNextBatch]. *)
Definition init_checkpoint (e : env) (s : Sequencer) : Sequencer :=
  if (0 <? daHeight s) && (Checkpoint.DAHeight (checkpoint s) =? 0) then
    let s := set_checkpoint (Checkpoint.MkCheckpoint (daHeight s) 0) s in
    let '(s, start) := getInitialDAStartHeight e s in set_fiStart start (daStartHeight s) s
  else s.

(** The forced transactions still to be consumed. *)
Definition remaining_forced (s : Sequencer) : list bytes :=
  if Checkpoint.TxIndex (checkpoint s) <? blen (cachedForcedInclusionTxs s)
  then drop (Z.to_nat (Checkpoint.TxIndex (checkpoint s))) (cachedForcedInclusionTxs s) else [].

(** The first part of [GetNextBatch]: bootstrapping, and the fetch of the next epoch
    when the cached one is used up; returns the DA height the call works at. *)
Definition refill (e : env) (s : Sequencer) (maxBytes : Z) : Sequencer * res Z :=
  let daH := daHeight s in
  let s := init_checkpoint e s in
  if (0 <? daH) && ((blen (cachedForcedInclusionTxs s) =? 0)
       || (blen (cachedForcedInclusionTxs s) <=? Checkpoint.TxIndex (checkpoint s)))
  then fetchNextDAEpoch e s maxBytes else (s, Ok daH).

(** The mempool batch, skipped during catch-up. *)
Definition next_mempool (s : Sequencer) : Sequencer * list bytes :=
  match catchUp s with
  | catchUpInProgress => (s, [])
  | _ => let '(q, b) := BatchQueue.Next (queue s) in (set_queue q s, Transactions b)
  end.

(** The filter's verdict; every transaction is accepted when it fails. *)
Definition filter_statuses (e : env) (allTxs : list bytes) (maxBytes : Z) (forced : bool)
  : list FilterStatus :=
  let maxGas := match env_GetExecutionInfo e with Ok g => g | Err _ => 0 end in
  match env_FilterTxs e allTxs maxBytes maxGas forced with
  | Ok st => st
  | Err _ => all_ok allTxs
  end.

Definition requeue (s : Sequencer) (postponed : list bytes) : Sequencer :=
  match postponed with
  | [] => s
  | _ => set_queue (BatchQueue.Prepend (queue s) (MkBatch postponed)).1 s
  end.

Definition GetNextBatch (e : env) (s : Sequencer) (req : GetNextBatchRequest)
  : Sequencer * res GetNextBatchResponse :=
  if negb (isValid s (gr_Id req)) then (s, Err ErrInvalidId)
  else
    let '(s, fetched) := refill e s (gr_MaxBytes req) in
    match fetched with
    | Err err => (s, Err err)
    | Ok daH =>
        let forcedTxs := remaining_forced s in
        let '(s, mempool) := next_mempool s in
        let allTxs := forcedTxs ++ mempool in
        let forcedTxCount := length forcedTxs in
        let statuses := filter_statuses e allTxs (gr_MaxBytes req) (0 <? forcedTxCount)%nat in
        if reads_past_end statuses allTxs then (s, Err index_panic)
        else
          let acc := filter_loop forcedTxCount statuses allTxs in
          let s := requeue s (postponedMempoolTxs forcedTxCount statuses allTxs) in
          let '(s, txIndexForTimestamp, saved) :=
            if (0 <? daH) || (0 <? forcedTxCount)%nat
            then advance_checkpoint s daH (forcedTxConsumedCount acc) else (s, 0, Ok tt) in
          match saved with
          | Err err => (s, Err err)
          | Ok _ =>
              let batchTxs := validForcedTxs acc ++ validMempoolTxs acc in
              let timestamp :=
                if bool_decide (catchUp s = catchUpInProgress) || (0 <? forcedTxConsumedCount acc)
                then spread_timestamp (currentDAEndTime s) (currentEpochTxCount s) txIndexForTimestamp
                else env_now e in
              if bool_decide (catchUp s = catchUpInProgress) && (blen batchTxs =? 0)
              then (s, Err ErrNoBatch)
              else (s, Ok {| gp_Batch := MkBatch batchTxs; gp_Timestamp := timestamp;
                             gp_BatchData := gr_LastBatchData req |})
          end
    end.

(** [VerifyBatch]: [proofs] and [validate] are the DA client's calls. *)
Definition VerifyBatch (s : Sequencer) (proofs : list bytes -> res (list bytes))
  (validate : list bytes -> list bytes -> res (list bool)) (id : bytes) (batchData : list bytes)
  : res bool :=
  if negb (isValid s id) then Err ErrInvalidId
  else
    let? ps := wrap_err "failed to get proofs" (proofs batchData) in
    let? valid := wrap_err "failed to validate proof" (validate batchData ps) in
    Ok (forallb (fun v => v) valid).

End single.
#[global] Arguments Sequencer D : clear implicits.

(** ** The filter loop *)

(** How many statuses precede the first postponed one. *)
Fixpoint consumed_prefix (statuses : list FilterStatus) : nat :=
  match statuses with
  | [] | FilterPostpone :: _ => O
  | _ :: rest => S (consumed_prefix rest)
  end.

Lemma consumed_prefix_le ss : (consumed_prefix ss <= length ss)%nat.
Proof. induction ss as [|[] ss IH]; simpl; lia. Qed.

Lemma imap_shift {A} (i : nat) (x : A) l :
  imap (fun j x => ((i + j)%nat, x)) (x :: l) = (i, x) :: imap (fun j x => ((S i + j)%nat, x)) l.
Proof.
  rewrite imap_cons, Nat.add_0_r. f_equal. apply imap_ext. intros. simpl. f_equal. lia.
Qed.

(** After a postponed forced transaction the other forced ones are skipped. *)
Lemma filter_step_skip n i acc (l : list (FilterStatus * bytes)) :
  (i + length l <= n)%nat -> forcedTxPostponed acc = true ->
  foldl (filter_step n) acc (imap (fun j x => ((i + j)%nat, x)) l) = acc.
Proof.
  revert i. induction l as [|[st tx] l IH]; intros i Hi Hp; [done|]. rewrite imap_shift.
  simpl in Hi. cbn [foldl filter_step].
  rewrite (proj2 (Nat.ltb_lt i n)), Hp by lia. apply (IH (S i)); [lia|done].
Qed.

Lemma filter_step_forced n i acc ss txs :
  (i + length (zip ss txs) <= n)%nat -> forcedTxPostponed acc = false ->
  0 <= forcedTxConsumedCount acc -> forcedTxConsumedCount acc + blen ss < two64 ->
  length ss = length txs ->
  let k := consumed_prefix ss in
  foldl (filter_step n) acc (imap (fun j x => ((i + j)%nat, x)) (zip ss txs)) =
  {| validForcedTxs := validForcedTxs acc ++ with_status FilterOK (take k ss) (take k txs);
     validMempoolTxs := validMempoolTxs acc;
     forcedTxConsumedCount := forcedTxConsumedCount acc + Z.of_nat k;
     forcedTxPostponed := (k <? length ss)%nat |}.
Proof.
  revert i acc txs. induction ss as [|st ss IH]; intros i acc [|tx txs] Hi Hp H0 Hn Hl; try done.
  { destruct acc. simpl in *. subst. by rewrite app_nil_r, Z.add_0_r. }
  rewrite blen_cons in Hn. pose proof (blen_nonneg ss). injection Hl as Hl. cbn [zip zip_with] in *.
  rewrite imap_shift. cbn [foldl]. unfold filter_step at 2.
  simpl in Hi. rewrite (proj2 (Nat.ltb_lt i n)), Hp by lia.
  destruct st; cbn [consumed_prefix take].
  - rewrite (IH (S i)); simpl; try done; rewrite ?u64_small by (unfold is_u64; lia); try lia.
    rewrite with_status_cons. simpl. rewrite <- app_assoc. f_equal; lia.
  - rewrite (IH (S i)); simpl; try done; rewrite ?u64_small by (unfold is_u64; lia); try lia.
    rewrite with_status_cons. simpl. f_equal; lia.
  - rewrite filter_step_skip; [|simpl; lia|done].
    simpl. by rewrite app_nil_r, Z.add_0_r.
Qed.

(** Past the forced transactions only the accepted ones matter. *)
Lemma filter_step_mempool n i acc ss txs : (n <= i)%nat -> length ss = length txs ->
  foldl (filter_step n) acc (imap (fun j x => ((i + j)%nat, x)) (zip ss txs)) =
  {| validForcedTxs := validForcedTxs acc;
     validMempoolTxs := validMempoolTxs acc ++ with_status FilterOK ss txs;
     forcedTxConsumedCount := forcedTxConsumedCount acc;
     forcedTxPostponed := forcedTxPostponed acc |}.
Proof.
  revert i acc txs. induction ss as [|st ss IH]; intros i acc [|tx txs] Hi Hl; try done.
  { destruct acc. simpl. by rewrite app_nil_r. }
  injection Hl as Hl. cbn [zip zip_with] in *. rewrite imap_shift. cbn [foldl].
  rewrite (IH (S i)) by (done || lia). unfold filter_step.
  rewrite (proj2 (Nat.ltb_ge i n)) by lia. rewrite with_status_cons.
  destruct st; simpl; rewrite <- ?app_assoc; done.
Qed.

Lemma imap_app_shift {A B} (f : nat -> A -> B) i l k :
  imap (fun j x => f (i + j)%nat x) (l ++ k) =
  imap (fun j x => f (i + j)%nat x) l ++ imap (fun j x => f (i + length l + j)%nat x) k.
Proof. rewrite imap_app. f_equal. apply imap_ext. intros. simpl. f_equal. lia. Qed.

Lemma filter_loop_spec n ss txs :
  length ss = length txs -> (n <= length txs)%nat -> blen txs < two64 ->
  let k := consumed_prefix (take n ss) in
  let acc := filter_loop n ss txs in
  validForcedTxs acc = with_status FilterOK (take k ss) (take k txs) /\
  validMempoolTxs acc = with_status FilterOK (drop n ss) (drop n txs) /\
  forcedTxConsumedCount acc = Z.of_nat k.
Proof.
  intros Hl Hn Hb. cbv zeta. set (k := consumed_prefix (take n ss)).
  assert (Hk : (k <= n)%nat).
  { pose proof (consumed_prefix_le (take n ss)) as Hk. rewrite length_take in Hk. lia. }
  unfold filter_loop.
  assert (E : zip ss txs = zip (take n ss) (take n txs) ++ zip (drop n ss) (drop n txs)).
  { rewrite <- zip_with_app by (rewrite !length_take; lia). by rewrite !take_drop. }
  rewrite E. rewrite (imap_app_shift pair 0), foldl_app.
  rewrite (filter_step_forced n 0);
    [| |done|simpl; lia|simpl; unfold blen in *; rewrite length_take; lia|rewrite !length_take; lia].
  2:{ rewrite length_zip_with, !length_take. lia. }
  rewrite filter_step_mempool by (rewrite ?length_zip_with, ?length_take, ?length_drop; lia).
  simpl. fold k. rewrite !take_take, Nat.min_l by done. done.
Qed.

Lemma filter_steps_keep n (P : bytes -> Prop) acc (l : list (nat * (FilterStatus * bytes))) :
  Forall P (validForcedTxs acc ++ validMempoolTxs acc) -> Forall (fun x => P x.2.2) l ->
  Forall P (validForcedTxs (foldl (filter_step n) acc l) ++
            validMempoolTxs (foldl (filter_step n) acc l)).
Proof.
  revert acc. induction l as [|[i [st tx]] l IH]; intros acc Ha Hl; [done|].
  apply Forall_cons in Hl as [Hx Hl]. simpl. apply IH; [|done]. simpl in Hx.
  apply Forall_app in Ha as [H1 H2]. unfold filter_step.
  destruct (i <? n)%nat; [destruct (forcedTxPostponed acc); [by apply Forall_app|]|];
    destruct st; simpl; rewrite ?Forall_app, ?Forall_singleton; done.
Qed.

Lemma filter_loop_keeps n ss txs (P : bytes -> Prop) : Forall P txs ->
  Forall P (validForcedTxs (filter_loop n ss txs) ++ validMempoolTxs (filter_loop n ss txs)).
Proof.
  intros HP. apply filter_steps_keep; [constructor|]. apply Forall_forall.
  intros [i [st tx]] Hx. apply elem_of_lookup_imap in Hx as (j & y & E & Hy). simplify_eq. simpl.
  apply lookup_zip_with_Some in Hy as (a & b & E & _ & Hb). simplify_eq.
  by eapply Forall_lookup_1 in HP.
Qed.

(** ** Catch-up *)

Section catchup.
Context {D : Type} `{Datastore D} `{ProtoCodec BatchQueue.pb_Batch} `{ProtoCodec Checkpoint.pb_Checkpoint}.
Implicit Types s : Sequencer D.

(** The transitions of the catch-up state machine. *)
Definition catchup_step (a b : catchUpState) : bool :=
  match a, b with
  | catchUpUnchecked, _ => true
  | catchUpInProgress, catchUpUnchecked => false
  | catchUpInProgress, _ => true
  | catchUpDone, catchUpDone => true
  | catchUpDone, _ => false
  end.

Lemma catchup_step_refl a : catchup_step a a = true.
Proof. by destruct a. Qed.

Lemma init_checkpoint_frame e s : let s' := init_checkpoint e s in
  queue s' = queue s /\ catchUp s' = catchUp s /\
  cachedForcedInclusionTxs s' = cachedForcedInclusionTxs s /\ daHeight s' = daHeight s /\
  checkpointStore s' = checkpointStore s /\ currentDAEndTime s' = currentDAEndTime s /\
  currentEpochTxCount s' = currentEpochTxCount s /\ Id s' = Id s /\ genesis s' = genesis s.
Proof.
  unfold init_checkpoint, getInitialDAStartHeight. cbv zeta.
  destruct (_ && _); [|done]. simpl. destruct (negb _); [done|].
  destruct (env_GenesisDAHeight e) as [bz|]; [|done]. by destruct (length bz =? 8)%nat.
Qed.

Lemma updateCatchUpState_frame e s : let s' := updateCatchUpState e s in
  queue s' = queue s /\ catchup_step (catchUp s) (catchUp s') = true /\
  cachedForcedInclusionTxs s' = cachedForcedInclusionTxs s /\ daHeight s' = daHeight s /\
  checkpointStore s' = checkpointStore s /\ checkpoint s' = checkpoint s /\
  fiStart s' = fiStart s /\ currentDAEndTime s <= currentDAEndTime s' /\
  currentEpochTxCount s' = currentEpochTxCount s.
Proof.
  unfold updateCatchUpState. cbv zeta. destruct (catchUp s) eqn:E; [|rewrite E; done..].
  destruct (_ =? 0); [done|]. destruct (env_GetLatestDAHeight e) as [l|]; [|done].
  destruct (l <=? _); [done|]. destruct (_ =? 0); [done|].
  destruct (env_LastBlockTime e) as [t|]; [|done]. simpl.
  destruct (negb _); [|done]. destruct (Z.ltb_spec (currentDAEndTime s) t); simpl; [|done].
  split_and!; done || lia.
Qed.

Lemma refill_frame e s maxBytes : let s' := (refill e s maxBytes).1 in
  queue s' = queue s /\ catchup_step (catchUp s) (catchUp s') = true /\ daHeight s' = daHeight s /\
  checkpointStore s' = checkpointStore s /\ currentDAEndTime s <= currentDAEndTime s'.
Proof.
  unfold refill. destruct (init_checkpoint_frame e s) as (Hq & Hc & Hl & Hd & Hcs & Ht & _).
  destruct (_ && _).
  2:{ simpl. rewrite Hc, Hq, Hd, Hcs, Ht. split_and!; try done. apply catchup_step_refl. }
  unfold fetchNextDAEpoch.
  destruct (updateCatchUpState_frame e (init_checkpoint e s))
    as (Uq & Uc & Ul & Ud & Ucs & Uck & Uf & Ut & _).
  rewrite <- Hq, <- Hd, <- Hcs, <- Hc, <- Ht. set (u := updateCatchUpState e _) in *.
  destruct (env_Retrieve _ _ _) as [ev|err].
  - simpl. destruct (Z.ltb_spec (currentDAEndTime u) (fe_Timestamp ev)); simpl;
      split_and!; done || lia.
  - destruct (errors_is err DA.ErrHeightFromFuture);
      [|destruct (errors_is err ErrForceInclusionNotConfigured)]; simpl.
    + destruct (catchUp u) eqn:Eu; simpl; rewrite ?Eu; split_and!; try done;
        by destruct (catchUp (init_checkpoint e s)).
    + split_and!; try done. by destruct (catchUp (init_checkpoint e s)), (catchUp u).
    + done.
Qed.

Lemma advance_checkpoint_frame s daH k : let s' := (advance_checkpoint s daH k).1.1 in
  queue s' = queue s /\ catchUp s' = catchUp s /\ currentDAEndTime s' = currentDAEndTime s /\
  currentEpochTxCount s' = currentEpochTxCount s.
Proof. unfold advance_checkpoint. destruct (_ <=? _); by destruct (Checkpoint.Save _ _). Qed.

Lemma requeue_nil_frame s l : let s' := requeue s l in
  catchUp s' = catchUp s /\ (l = [] -> queue s' = queue s) /\
  currentDAEndTime s' = currentDAEndTime s /\ currentEpochTxCount s' = currentEpochTxCount s.
Proof. by destruct l. Qed.

Lemma next_mempool_frame s : let '(s', m) := next_mempool s in
  catchUp s' = catchUp s /\ (catchUp s = catchUpInProgress -> s' = s /\ m = []) /\
  currentDAEndTime s' = currentDAEndTime s /\ currentEpochTxCount s' = currentEpochTxCount s.
Proof.
  unfold next_mempool. destruct (catchUp s) eqn:E;
    [destruct (BatchQueue.Next (queue s))| |destruct (BatchQueue.Next (queue s))];
    rewrite <- ?E; simpl; split_and!; try done; congruence.
Qed.

Lemma remaining_forced_sub s : Forall (.∈ cachedForcedInclusionTxs s) (remaining_forced s).
Proof.
  unfold remaining_forced. destruct (_ <? _); [|constructor]. apply Forall_forall.
  intros tx Htx.
  rewrite <- (take_drop (Z.to_nat (Checkpoint.TxIndex (checkpoint s))) (cachedForcedInclusionTxs s)).
  apply elem_of_app. by right.
Qed.

(** Over any executor, DA layer, store and clock, a call of [GetNextBatch] moves the catch-up
    state only along its machine (decided once, then from in-progress to done and never back); and
    whenever it ends in catch-up, the mempool queue was not touched and a returned batch is
    non-empty and consists of forced transactions of the fetched epoch only. *)
Theorem catchup_machine (e : env) s req :
  let '(s', r) := GetNextBatch e s req in
  let s1 := (refill e s (gr_MaxBytes req)).1 in
  catchup_step (catchUp s) (catchUp s') = true /\
  (catchUp s' = catchUpInProgress ->
   queue s' = queue s /\
   forall resp, r = Ok resp ->
     Transactions (gp_Batch resp) <> [] /\
     Forall (.∈ cachedForcedInclusionTxs s1) (Transactions (gp_Batch resp))).
Proof.
  unfold GetNextBatch.
  destruct (negb _); [split; [apply catchup_step_refl|done]|].
  destruct (refill_frame e s (gr_MaxBytes req)) as (Rq & Rc & _).
  destruct (refill e s (gr_MaxBytes req)) as [s1 [daH|err]]; [|done]. simpl in Rq, Rc |- *.
  pose proof (remaining_forced_sub s1) as Hsub. set (forced := remaining_forced s1) in *.
  pose proof (next_mempool_frame s1) as Hm. destruct (next_mempool s1) as [s2 mem].
  destruct Hm as (Mc & Mi & _ & _). set (ss := filter_statuses _ _ _ _).
  destruct (reads_past_end ss (forced ++ mem)).
  { rewrite Mc. split; [done|]. intros Hi. destruct (Mi Hi) as [-> ->]. done. }
  destruct (requeue_nil_frame s2 (postponedMempoolTxs (length forced) ss (forced ++ mem)))
    as (Qc & Qq & _ & _).
  set (s3 := requeue s2 _) in *. set (acc := filter_loop _ _ _).
  assert (Hadv : let '(s4, ts, saved) := if (0 <? daH) || (0 <? length forced)%nat
    then advance_checkpoint s3 daH (forcedTxConsumedCount acc) else (s3, 0, Ok tt) in
    queue s4 = queue s3 /\ catchUp s4 = catchUp s3).
  { destruct (_ || _); [|done].
    pose proof (advance_checkpoint_frame s3 daH (forcedTxConsumedCount acc)) as Ha.
    destruct (advance_checkpoint _ _ _) as [[s4 ts] saved]. by destruct Ha as (? & ? & _). }
  destruct (if (0 <? daH) || _ then _ else _) as [[s4 ts] saved]. destruct Hadv as [Aq Ac].
  assert (Hq : catchUp s4 = catchUpInProgress -> queue s4 = queue s /\ mem = []).
  { rewrite Ac, Qc, Mc. intros Hi. destruct (Mi Hi) as [-> ->]. rewrite Aq, Qq; [done|].
    unfold postponedMempoolTxs. rewrite app_nil_r, drop_all. unfold with_status.
    by destruct (drop _ ss). }
  assert (Hc : catchup_step (catchUp s) (catchUp s4) = true) by (by rewrite Ac, Qc, Mc).
  destruct saved as [[]|err]; [|split; [done|]; intros Hi; by destruct (Hq Hi)].
  destruct (_ && _) eqn:Eb; (split; [done|]; intros Hi; destruct (Hq Hi) as [Eq ->]; split; [done|]).
  - done.
  - intros resp [= <-]. simpl. rewrite (bool_decide_true _ Hi) in Eb. simpl in Eb. split.
    + intros E. by rewrite E in Eb.
    + apply filter_loop_keeps. by rewrite app_nil_r.
Qed.

End catchup.

(** ** Accounting of forced and mempool transactions *)

Section accounting.
Context {D : Type} `{DatastoreLaws D}.
Context `{PB : ProtoCodec BatchQueue.pb_Batch} `{PBL : !ProtoCodecLaws BatchQueue.pb_Batch}.
Context `{PK : ProtoCodec Checkpoint.pb_Checkpoint} `{PKL : !ProtoCodecLaws Checkpoint.pb_Checkpoint}.
Implicit Types s : Sequencer D.

(** The length promise of the executor's [FilterTxs]. *)
Definition filter_lengths (e : env) : Prop :=
  forall txs mb g f st, env_FilterTxs e txs mb g f = Ok st -> length st = length txs.

Lemma length_filter_statuses e txs mb f : filter_lengths e ->
  length (filter_statuses e txs mb f) = length txs.
Proof.
  intros Hf. unfold filter_statuses. destruct (env_FilterTxs _ _ _ _ _) eqn:E; [by eapply Hf|].
  unfold all_ok. by rewrite length_fmap.
Qed.

Lemma reads_in_range ss txs : length ss = length txs -> reads_past_end ss txs = false.
Proof. intros Hl. unfold reads_past_end. by rewrite <- Hl, drop_all. Qed.

(** What the checkpoint step does to the position in the epoch. *)
Lemma advance_checkpoint_spec s daH (k : nat) :
  ds_healthy (Checkpoint.cs_db (checkpointStore s)) ->
  is_u64 daH -> daH + 1 < two64 -> is_u64 (Checkpoint.DAHeight (checkpoint s)) ->
  0 <= Checkpoint.TxIndex (checkpoint s) ->
  Checkpoint.TxIndex (checkpoint s) + Z.of_nat k < two64 ->
  (k <= length (remaining_forced s))%nat ->
  let idx := Checkpoint.TxIndex (checkpoint s) + Z.of_nat k in
  let '(s', ts, r) := advance_checkpoint s daH (Z.of_nat k) in
  r = Ok tt /\ ts = idx /\ remaining_forced s' = drop k (remaining_forced s) /\
  Checkpoint.Load (checkpointStore s') = Ok (checkpoint s') /\
  ds_healthy (Checkpoint.cs_db (checkpointStore s')) /\
  (checkpoint s', daHeight s', cachedForcedInclusionTxs s') =
  if blen (cachedForcedInclusionTxs s) <=? idx
  then (Checkpoint.MkCheckpoint (daH + 1) 0, daH + 1, [])
  else (Checkpoint.MkCheckpoint (Checkpoint.DAHeight (checkpoint s)) idx, daHeight s,
        cachedForcedInclusionTxs s).
Proof.
  intros Hd Hda Hda1 Hdh Ht0 Ht Hk. cbv zeta. unfold advance_checkpoint.
  rewrite !(u64_small (_ + _)) by (unfold is_u64 in *; lia).
  set (idx := Checkpoint.TxIndex (checkpoint s) + Z.of_nat k) in *.
  assert (Hrem : drop k (remaining_forced s) =
    if blen (cachedForcedInclusionTxs s) <=? idx then []
    else drop (Z.to_nat idx) (cachedForcedInclusionTxs s)).
  { unfold remaining_forced in *.
    destruct (Z.ltb_spec (Checkpoint.TxIndex (checkpoint s)) (blen (cachedForcedInclusionTxs s))).
    - rewrite drop_drop. replace (Z.to_nat (Checkpoint.TxIndex (checkpoint s)) + k)%nat
        with (Z.to_nat idx) by (unfold idx; lia).
      destruct (Z.leb_spec (blen (cachedForcedInclusionTxs s)) idx); [|done].
      apply drop_ge. unfold blen in *. lia.
    - destruct (Z.leb_spec (blen (cachedForcedInclusionTxs s)) idx); [by rewrite drop_nil|].
      simpl in Hk. lia. }
  destruct (Z.leb_spec (blen (cachedForcedInclusionTxs s)) idx) as [Hi|Hi].
  - destruct (Checkpoint.Save_spec (checkpointStore s) (Checkpoint.MkCheckpoint (daH + 1) 0))
      as (cs & E & Hd' & HL & _); [done|split; simpl; unfold is_u64 in *; lia|].
    simpl. rewrite E. simpl. by rewrite Hrem.
  - destruct (Checkpoint.Save_spec (checkpointStore s)
      (Checkpoint.MkCheckpoint (Checkpoint.DAHeight (checkpoint s)) idx))
      as (cs & E & Hd' & HL & _); [done|split; simpl; unfold is_u64 in *; lia|].
    simpl. rewrite E. simpl. rewrite Hrem. split_and!; try done. unfold remaining_forced. simpl.
    by rewrite (proj2 (Z.ltb_lt _ _)) by done.
Qed.

Lemma requeue_spec n s postponed :
  BatchQueue.queue_inv n (queue s) -> 0 <= n < BatchQueue.initialSeqNum - 1 ->
  let s' := requeue s postponed in
  BatchQueue.queue_inv (n + 1) (queue s') /\
  BatchQueue.contents (queue s') =
    match postponed with [] => [] | _ => [MkBatch postponed] end ++ BatchQueue.contents (queue s).
Proof.
  intros Hq Hn. destruct postponed as [|p ps]; simpl.
  - split; [|done]. apply (BatchQueue.queue_inv_mono n); [done|lia].
  - pose proof (BatchQueue.Prepend_spec n (queue s) (MkBatch (p :: ps)) Hq Hn) as HP.
    destruct (BatchQueue.Prepend _ _) as [q r]. by destruct HP as (HA & _ & _ & HC).
Qed.

(** The mempool transactions offered by a call and the batches left in the queue. *)
Definition mempool_head s : list bytes :=
  match catchUp s with
  | catchUpInProgress => []
  | _ => default [] (Transactions <$> hd_error (BatchQueue.contents (queue s)))
  end.
Definition mempool_rest s : list Batch :=
  match catchUp s with
  | catchUpInProgress => BatchQueue.contents (queue s)
  | _ => tail (BatchQueue.contents (queue s))
  end.

Lemma next_mempool_spec n s :
  BatchQueue.queue_inv n (queue s) -> 0 <= n < BatchQueue.initialSeqNum - 1 ->
  exists q, next_mempool s = (set_queue q s, mempool_head s) /\
    BatchQueue.queue_inv n q /\ BatchQueue.contents q = mempool_rest s.
Proof.
  intros Hq Hn. unfold next_mempool, mempool_head, mempool_rest.
  pose proof (BatchQueue.Next_spec n (queue s) Hq Hn) as HN.
  destruct (BatchQueue.Next (queue s)) as [q b]. destruct HN as (HA & _ & HC & ->).
  destruct (catchUp s).
  1,3: exists q; split_and!; try done; by destruct (BatchQueue.contents (queue s)).
  exists (queue s). split_and!; try done. by destruct s.
Qed.

(** The checkpoint stage of a call that consumed [k] of the remaining forced transactions. *)
Lemma checkpoint_stage s daH (k : nat) :
  ds_healthy (Checkpoint.cs_db (checkpointStore s)) -> 0 <= daH < two64 - 1 ->
  is_u64 (Checkpoint.DAHeight (checkpoint s)) ->
  0 <= Checkpoint.TxIndex (checkpoint s) < two63 ->
  blen (remaining_forced s) < two63 -> (k <= length (remaining_forced s))%nat ->
  let idx := Checkpoint.TxIndex (checkpoint s) + Z.of_nat k in
  exists s' ts,
    (if (0 <? daH) || (0 <? length (remaining_forced s))%nat
     then advance_checkpoint s daH (Z.of_nat k) else (s, 0, Ok tt)) = (s', ts, Ok tt) /\
    remaining_forced s' = drop k (remaining_forced s) /\ queue s' = queue s /\
    (0 < daH \/ remaining_forced s <> [] ->
     Checkpoint.Load (checkpointStore s') = Ok (checkpoint s') /\
     checkpoint s' =
       if blen (cachedForcedInclusionTxs s) <=? idx then Checkpoint.MkCheckpoint (daH + 1) 0
       else Checkpoint.MkCheckpoint (Checkpoint.DAHeight (checkpoint s)) idx).
Proof.
  intros Hd HdaH Hck Hidx Hlen Hk idx.
  destruct (Z.ltb_spec 0 daH) as [Hp|Hp], (Nat.ltb_spec 0 (length (remaining_forced s))) as [Hf|Hf];
    simpl.
  4:{ exists s, 0. assert (remaining_forced s = []) as Ef by (apply nil_length_inv; lia).
      rewrite Ef. split_and!; [done|by rewrite drop_nil|done|]. intros [?|?]; [lia|done]. }
  all: pose proof (advance_checkpoint_frame s daH (Z.of_nat k)) as (Aq & _);
    pose proof (advance_checkpoint_spec s daH k) as HA;
    destruct (advance_checkpoint s daH (Z.of_nat k)) as [[s' ts] r];
    destruct HA as (-> & -> & Hr & HL & _ & Hst);
      [done|unfold is_u64; lia|lia|done|lia|unfold blen, two63, two64 in *; lia|done|];
    eexists _, _; (split_and!; [done|done|done|]); intros _; (split; [done|]);
    unfold idx; destruct (_ <=? _); by simplify_eq.
Qed.

(** The states in which a call finds the sequencer: a queue that satisfies its invariant after
    [n] insertions, a working checkpoint store, a checkpoint and a DA height in range. *)
Record seq_ok (n : Z) s : Prop := {
  so_queue : BatchQueue.queue_inv n (queue s);
  so_n : 0 <= n < BatchQueue.initialSeqNum - 1;
  so_store : ds_healthy (Checkpoint.cs_db (checkpointStore s));
  so_ck : is_u64 (Checkpoint.DAHeight (checkpoint s));
  so_idx : 0 <= Checkpoint.TxIndex (checkpoint s) < two63;
  so_mem : blen (remaining_forced s ++ mempool_head s) < two63;
}.

(** C11: When the epoch stage of a call succeeded at DA height [daH], the call consumes a prefix of
    the remaining forced transactions, up to the first postponed one: the batch is the accepted
    ones of that prefix followed by the accepted ones of the mempool batch; the forced transactions
    after the prefix remain, in order, for the next call; postponed mempool transactions go back to
    the front of the queue as one batch before the untouched rest; the checkpoint advances by the
    consumed count, or to the height after [daH] once the epoch is used up, and what is stored is
    the new checkpoint.  The only error is [ErrNoBatch], for an empty batch during catch-up. *)
Theorem GetNextBatch_accounting (e : env) s req s1 daH n
  (Hid : gr_Id req = Id s) (Hfill : refill e s (gr_MaxBytes req) = (s1, Ok daH))
  (Hok : seq_ok n s1) (Hfl : filter_lengths e) (HdaH : 0 <= daH < two64 - 1) :
  let forced := remaining_forced s1 in
  let mem := mempool_head s1 in
  let m := length forced in
  let ss := filter_statuses e (forced ++ mem) (gr_MaxBytes req) (0 <? m)%nat in
  let k := consumed_prefix (take m ss) in
  let idx := Checkpoint.TxIndex (checkpoint s1) + Z.of_nat k in
  let batch := with_status FilterOK (take k ss) (take k forced)
               ++ with_status FilterOK (drop m ss) mem in
  let '(s', r) := GetNextBatch e s req in
  (match r with
   | Ok resp => Transactions (gp_Batch resp) = batch
   | Err err => err = ErrNoBatch /\ catchUp s' = catchUpInProgress /\ batch = []
   end) /\
  remaining_forced s' = drop k forced /\
  BatchQueue.contents (queue s') =
    match with_status FilterPostpone (drop m ss) mem with [] => [] | p => [MkBatch p] end
    ++ mempool_rest s1 /\
  (0 < daH \/ forced <> [] ->
   Checkpoint.Load (checkpointStore s') = Ok (checkpoint s') /\
   checkpoint s' =
     if blen (cachedForcedInclusionTxs s1) <=? idx then Checkpoint.MkCheckpoint (daH + 1) 0
     else Checkpoint.MkCheckpoint (Checkpoint.DAHeight (checkpoint s1)) idx).
Proof.
  destruct Hok as [Hq Hn Hd Hck Hidx Hmem]. cbv zeta.
  unfold GetNextBatch, isValid. rewrite Hid. unfold bytes_Equal. rewrite bool_decide_true by done.
  simpl negb. cbv iota. rewrite Hfill.
  destruct (next_mempool_spec n s1 Hq Hn) as (q & -> & Hq2 & Hrest).
  set (forced := remaining_forced s1) in *. set (mem := mempool_head s1) in *.
  set (ss := filter_statuses _ _ _ _).
  assert (Hss : length ss = length (forced ++ mem)) by (by apply length_filter_statuses).
  rewrite reads_in_range by done.
  destruct (filter_loop_spec (length forced) ss (forced ++ mem)) as (Ff & Fm & Fc);
    [done|rewrite length_app; lia|unfold two63, two64 in *; lia|].
  set (k := consumed_prefix (take (length forced) ss)) in *.
  assert (Hk : (k <= length forced)%nat).
  { pose proof (consumed_prefix_le (take (length forced) ss)) as Hk. rewrite length_take in Hk. lia. }
  rewrite Ff, Fm, Fc. unfold postponedMempoolTxs.
  rewrite drop_app_length, (take_app_le forced) by done.
  set (s2 := set_queue q s1).
  destruct (requeue_spec n s2 (with_status FilterPostpone (drop (length forced) ss) mem) Hq2 Hn)
    as (_ & Hc3).
  set (postponed := with_status FilterPostpone _ mem) in *.
  assert (H3 : checkpoint (requeue s2 postponed) = checkpoint s1 /\
    checkpointStore (requeue s2 postponed) = checkpointStore s1 /\
    cachedForcedInclusionTxs (requeue s2 postponed) = cachedForcedInclusionTxs s1)
    by (by destruct postponed). destruct H3 as (Eck & Ecs & Ech).
  set (s3 := requeue s2 postponed) in *. simpl in Hc3. rewrite Hrest in Hc3.
  assert (Erem : remaining_forced s3 = forced) by (unfold remaining_forced; by rewrite Eck, Ech).
  destruct (checkpoint_stage s3 daH k) as (s4 & ts & E4 & Hr4 & Hq4 & Hc4);
    [by rewrite Ecs|done|by rewrite Eck|by rewrite Eck|rewrite Erem|by rewrite Erem|].
  { rewrite blen_app in Hmem. pose proof (blen_nonneg mem). lia. }
  rewrite Erem, ?Eck, ?Ech in *. rewrite E4. cbv zeta.
  destruct (bool_decide (catchUp s4 = catchUpInProgress)) eqn:Ei;
    [apply bool_decide_eq_true in Ei|]; simpl;
    [destruct (Z.eqb_spec (blen (with_status FilterOK (take k ss) (take k forced) ++
      with_status FilterOK (drop (length forced) ss) mem)) 0) as [Eb|Eb]|];
    (refine (conj _ (conj Hr4 (conj _ Hc4))); [|rewrite Hq4, Hc3; by destruct postponed]); [|done..].
  split_and!; [done|done|]. apply nil_length_inv. unfold blen in Eb. lia.
Qed.

End accounting.

(** ** The checkpoint only moves forward *)

Section progress.
Context {D : Type} `{Datastore D} `{ProtoCodec BatchQueue.pb_Batch} `{ProtoCodec Checkpoint.pb_Checkpoint}.
Implicit Types s : Sequencer D.

(** The sequencer's DA height is the checkpoint's. *)
Definition aligned s : Prop := daHeight s = Checkpoint.DAHeight (checkpoint s).

Definition ck_le (a b : Checkpoint.Checkpoint) : Prop :=
  Checkpoint.DAHeight a < Checkpoint.DAHeight b \/
  Checkpoint.DAHeight a = Checkpoint.DAHeight b /\ Checkpoint.TxIndex a <= Checkpoint.TxIndex b.

(** An event ends at or after the height it was asked for. *)
Definition retriever_forward (e : env) : Prop :=
  forall start h ev, env_Retrieve e start h = Ok ev -> h <= fe_EndDaHeight ev < two64 - 1.

Lemma init_checkpoint_aligned e s : aligned s -> init_checkpoint e s = s.
Proof.
  unfold aligned, init_checkpoint. intros ->.
  destruct (Z.ltb_spec 0 (Checkpoint.DAHeight (checkpoint s))),
    (Z.eqb_spec (Checkpoint.DAHeight (checkpoint s)) 0); done || lia.
Qed.

(** The epoch stage keeps the checkpoint and returns a height at or after it, or 0 with nothing
    left to force. *)
Lemma refill_forward e s mb : aligned s -> retriever_forward e ->
  0 <= Checkpoint.DAHeight (checkpoint s) < two64 - 1 ->
  let '(s1, r) := refill e s mb in
  checkpoint s1 = checkpoint s /\ aligned s1 /\
  forall daH, r = Ok daH -> 0 <= daH < two64 - 1 /\
    (Checkpoint.DAHeight (checkpoint s) <= daH \/ daH = 0 /\ remaining_forced s1 = []).
Proof.
  intros Ha Hr Hb. unfold refill. rewrite init_checkpoint_aligned by done.
  destruct (_ && _) eqn:Econd.
  2:{ split_and!; [done..|]. intros ? [= <-]. rewrite Ha. split; [lia|by left]. }
  unfold fetchNextDAEpoch.
  destruct (updateCatchUpState_frame e s) as (_ & _ & Ul & Ud & _ & Uck & _).
  set (u := updateCatchUpState e s) in *. unfold aligned in *.
  destruct (env_Retrieve e (fiStart u) _) as [ev|err] eqn:Er.
  - apply Hr in Er. destruct (currentDAEndTime _ <? fe_Timestamp ev); simpl; rewrite ?Uck, ?Ud;
      (split_and!; [done..|]; intros ? [= <-]; split; [lia|left; lia]).
  - apply andb_true_iff in Econd as [_ Econd]. apply orb_true_iff in Econd.
    assert (Hrem : remaining_forced u = []).
    { unfold remaining_forced. rewrite Uck, Ul.
      destruct (Z.ltb_spec (Checkpoint.TxIndex (checkpoint s)) (blen (cachedForcedInclusionTxs s)));
        [|done].
      destruct Econd as [E|E]; [|lia]. apply drop_ge. unfold blen in *. lia. }
    destruct (errors_is err DA.ErrHeightFromFuture);
      [|destruct (errors_is err ErrForceInclusionNotConfigured)]; simpl.
    + destruct (catchUp u); simpl; rewrite ?Uck, ?Ud; (split_and!; [done..|]);
        intros ? [= <-]; (split; [lia|right; split; [done|exact Hrem]]).
    + rewrite Uck, Ud. split_and!; [done..|]. intros ? [= <-].
      split; [lia|right]. split; [done|]. unfold remaining_forced.
      cbn [cachedForcedInclusionTxs set_catchUp set_cached]. rewrite drop_nil. by destruct (_ <? _).
    + rewrite Uck, Ud. done.
Qed.

Lemma advance_checkpoint_forward s daH k : aligned s -> 0 <= k ->
  0 <= Checkpoint.TxIndex (checkpoint s) -> Checkpoint.TxIndex (checkpoint s) + k < two64 ->
  Checkpoint.DAHeight (checkpoint s) <= daH < two64 - 1 -> 0 <= daH ->
  let s' := (advance_checkpoint s daH k).1.1 in
  aligned s' /\ ck_le (checkpoint s) (checkpoint s').
Proof.
  intros Ha Hk Ht0 Ht Hd Hd0. unfold advance_checkpoint, aligned, ck_le in *.
  rewrite !(u64_small (_ + _)) by (unfold is_u64; lia).
  destruct (_ <=? _); destruct (Checkpoint.Save _ _); simpl; lia.
Qed.

Lemma next_mempool_ck s : let s' := (next_mempool s).1 in
  checkpoint s' = checkpoint s /\ daHeight s' = daHeight s /\
  cachedForcedInclusionTxs s' = cachedForcedInclusionTxs s.
Proof. unfold next_mempool. destruct (catchUp s); by destruct (BatchQueue.Next (queue s)). Qed.

Lemma requeue_ck s l : let s' := requeue s l in
  checkpoint s' = checkpoint s /\ daHeight s' = daHeight s /\
  cachedForcedInclusionTxs s' = cachedForcedInclusionTxs s.
Proof. by destruct l. Qed.

(** While the sequencer's DA height is the checkpoint's, every call of [GetNextBatch],
    successful or not, keeps it so and never moves the checkpoint backwards (in the order of DA
    height, then transaction index), provided the retriever answers with heights at or after the
    requested one: no forced transaction is consumed twice. *)
Theorem checkpoint_forward (e : env) s req
  (Ha : aligned s) (Hr : retriever_forward e) (Hfl : filter_lengths e)
  (Hck : 0 <= Checkpoint.DAHeight (checkpoint s) < two64 - 1)
  (Hidx : 0 <= Checkpoint.TxIndex (checkpoint s) < two63)
  (Hmem : let s1 := (refill e s (gr_MaxBytes req)).1 in
          blen (remaining_forced s1 ++ (next_mempool s1).2) < two63) :
  let s' := (GetNextBatch e s req).1 in
  aligned s' /\ ck_le (checkpoint s) (checkpoint s').
Proof.
  assert (Hrefl : ck_le (checkpoint s) (checkpoint s)) by (right; lia).
  unfold GetNextBatch. destruct (negb _); [done|].
  pose proof (refill_forward e s (gr_MaxBytes req) Ha Hr Hck) as HF.
  destruct (refill e s (gr_MaxBytes req)) as [s1 [daH|err]]; destruct HF as (E1 & A1 & HF);
    [|simpl; by rewrite E1]. specialize (HF daH eq_refl). simpl in Hmem.
  destruct (next_mempool_ck s1) as (E2 & D2 & C2). destruct (next_mempool s1) as [s2 mem].
  simpl in E2, D2, C2, Hmem. set (forced := remaining_forced s1) in *.
  set (ss := filter_statuses _ _ _ _).
  assert (Hss : length ss = length (forced ++ mem)) by (by apply length_filter_statuses).
  rewrite reads_in_range by done.
  destruct (filter_loop_spec (length forced) ss (forced ++ mem)) as (_ & _ & Fc);
    [done|rewrite length_app; lia|unfold two63, two64 in *; lia|].
  pose proof (consumed_prefix_le (take (length forced) ss)) as Hk. rewrite length_take in Hk.
  rewrite Fc. set (k := consumed_prefix _) in *.
  destruct (requeue_ck s2 (postponedMempoolTxs (length forced) ss (forced ++ mem))) as (E3 & D3 & C3).
  set (s3 := requeue s2 _) in *.
  assert (H4 : let s4 := (if (0 <? daH) || (0 <? length forced)%nat
      then advance_checkpoint s3 daH (Z.of_nat k) else (s3, 0, Ok tt)).1.1 in
    aligned s4 /\ ck_le (checkpoint s) (checkpoint s4)).
  { assert (A3 : aligned s3) by (unfold aligned in *; congruence).
    assert (Hck3 : checkpoint s3 = checkpoint s) by congruence.
    destruct (_ || _) eqn:Ec; [|simpl; by rewrite Hck3]. rewrite <- Hck3.
    unfold blen in Hmem. rewrite length_app in Hmem.
    apply advance_checkpoint_forward; rewrite ?Hck3; try done; try lia.
    - unfold two63, two64 in *; lia.
    - destruct HF as [Hd [Hle|[-> Hnil]]]; [lia|]. rewrite Hnil in Ec. done. }
  destruct (if (0 <? daH) || _ then _ else _) as [[s4 ts] saved]. simpl in H4.
  destruct saved; [|done]. by destruct (_ && _).
Qed.

End progress.

End Single.

(** ** The based sequencer *)

Module Based.

Section based.
Context {D : Type} `{Datastore D} `{ProtoCodec Checkpoint.pb_Checkpoint}.

Record BasedSequencer := {
  fiStart : Z;
  daHeight : Z;
  checkpointStore : Checkpoint.CheckpointStore D;
  checkpoint : Checkpoint.Checkpoint;
  currentBatchTxs : list bytes;
  currentDAEndTime : Z;
  currentEpochTxCount : Z;
}.

Definition set_ck cs ck s := {| fiStart := fiStart s; daHeight := daHeight s; checkpointStore := cs;
  checkpoint := ck; currentBatchTxs := currentBatchTxs s; currentDAEndTime := currentDAEndTime s;
  currentEpochTxCount := currentEpochTxCount s |}.
Definition SetDAHeight h s := {| fiStart := fiStart s; daHeight := h;
  checkpointStore := checkpointStore s; checkpoint := checkpoint s;
  currentBatchTxs := currentBatchTxs s; currentDAEndTime := currentDAEndTime s;
  currentEpochTxCount := currentEpochTxCount s |}.
Definition set_epoch txs endTime s := {| fiStart := fiStart s; daHeight := daHeight s;
  checkpointStore := checkpointStore s; checkpoint := checkpoint s; currentBatchTxs := txs;
  currentDAEndTime := endTime; currentEpochTxCount := blen txs |}.
Definition clear_batch s := {| fiStart := fiStart s; daHeight := daHeight s;
  checkpointStore := checkpointStore s; checkpoint := checkpoint s; currentBatchTxs := [];
  currentDAEndTime := currentDAEndTime s; currentEpochTxCount := currentEpochTxCount s |}.

(** [state] is the DA height of the chain state in the store, if it can be read. *)
Definition NewBasedSequencer (state : res Z) (ck_db : D) (g : Genesis) : res BasedSequencer :=
  let daStartHeight :=
    match state with
    | Ok h => if 0 <? h then h else gen_DAStartHeight g
    | Err _ => gen_DAStartHeight g
    end in
  let cs := Checkpoint.NewCheckpointStore ck_db (ds_NewKey "/based/checkpoint") in
  let? ck :=
    match Checkpoint.Load cs with
    | Ok c => Ok c
    | Err err => if errors_is err Checkpoint.ErrCheckpointNotFound
                 then Ok (Checkpoint.MkCheckpoint daStartHeight 0)
                 else Err (EWrap "failed to load checkpoint from DB" err)
    end in
  Ok {| fiStart := gen_DAStartHeight g; daHeight := daStartHeight; checkpointStore := cs;
        checkpoint := ck; currentBatchTxs := []; currentDAEndTime := gen_StartTime g;
        currentEpochTxCount := 0 |}.

Definition SubmitBatchTxs (s : BasedSequencer) (req : SubmitBatchTxsRequest)
  : BasedSequencer * res unit := (s, Ok tt).

Definition getMaxGas (e : env) : Z :=
  match env_GetExecutionInfo e with Ok g => g | Err _ => 0 end.

Definition fetchNextDAEpoch (e : env) (s : BasedSequencer) (maxBytes : Z)
  : BasedSequencer * res Z :=
  match env_Retrieve e (fiStart s) (Checkpoint.DAHeight (checkpoint s)) with
  | Err err =>
      if errors_is err ErrForceInclusionNotConfigured then (s, Err ErrForceInclusionNotConfigured)
      else if errors_is err DA.ErrHeightFromFuture then (s, Ok 0)
      else (s, Err (EWrap "failed to retrieve forced inclusion transactions" err))
  | Ok event =>
      let endTime := if currentDAEndTime s <? fe_Timestamp event
                     then fe_Timestamp event else currentDAEndTime s in
      (set_epoch (within_size maxBytes (fe_Txs event)) endTime s, Ok (fe_EndDaHeight event))
  end.

(** The loop over the statuses: accepted transactions and consumed count, up to
    the first postponed one; [None] is an index out of range. *)
Fixpoint consume (statuses : list FilterStatus) (txs valid : list bytes) (consumedCount : Z)
  : option (list bytes * Z) :=
  match statuses with
  | [] => Some (valid, consumedCount)
  | FilterOK :: rest =>
      match txs with
      | tx :: txs' => consume rest txs' (valid ++ [tx]) (consumedCount +u 1)
      | [] => None
      end
  | FilterRemove :: rest => consume rest (tail txs) valid (consumedCount +u 1)
  | FilterPostpone :: _ => Some (valid, consumedCount)
  end.

Definition advance_checkpoint (s : BasedSequencer) (daHeight consumed : Z)
  : BasedSequencer * Z * res unit :=
  let idx := Checkpoint.TxIndex (checkpoint s) +u consumed in
  let s1 :=
    if blen (currentBatchTxs s) <=? idx
    then SetDAHeight (daHeight +u 1) (clear_batch
           (set_ck (checkpointStore s) (Checkpoint.MkCheckpoint (daHeight +u 1) 0) s))
    else set_ck (checkpointStore s)
           (Checkpoint.MkCheckpoint (Checkpoint.DAHeight (checkpoint s)) idx) s in
  let '(cs, r) := Checkpoint.Save (checkpointStore s1) (checkpoint s1) in
  (set_ck cs (checkpoint s1) s1, idx, wrap_err "failed to save checkpoint" r).

Definition remaining (s : BasedSequencer) : list bytes :=
  if Checkpoint.TxIndex (checkpoint s) <? blen (currentBatchTxs s)
  then drop (Z.to_nat (Checkpoint.TxIndex (checkpoint s))) (currentBatchTxs s) else [].

Definition refill (e : env) (s : BasedSequencer) (maxBytes : Z) : BasedSequencer * res Z :=
  if (0 <? daHeight s) && ((blen (currentBatchTxs s) =? 0)
       || (blen (currentBatchTxs s) <=? Checkpoint.TxIndex (checkpoint s)))
  then fetchNextDAEpoch e s maxBytes else (s, Ok (daHeight s)).

Definition GetNextBatch (e : env) (s : BasedSequencer) (req : GetNextBatchRequest)
  : BasedSequencer * res GetNextBatchResponse :=
  let '(s, fetched) := refill e s (gr_MaxBytes req) in
  match fetched with
  | Err err => (s, Err err)
  | Ok daH =>
      let batchTxs := remaining s in
      let statuses :=
        match env_FilterTxs e batchTxs (gr_MaxBytes req) (getMaxGas e) true with
        | Ok st => st
        | Err _ => all_ok batchTxs
        end in
      match consume statuses batchTxs [] 0 with
      | None => (s, Err index_panic)
      | Some (validTxs, consumedCount) =>
          let '(s, txIndexForTimestamp, saved) :=
            if (0 <? daH) || (0 <? blen batchTxs) then advance_checkpoint s daH consumedCount
            else (s, 0, Ok tt) in
          match saved with
          | Err err => (s, Err err)
          | Ok _ =>
              let timestamp := spread_timestamp (currentDAEndTime s) (currentEpochTxCount s)
                                 txIndexForTimestamp in
              match validTxs with
              | [] => (s, Err ErrNoBatch)
              | _ => (s, Ok {| gp_Batch := MkBatch validTxs; gp_Timestamp := timestamp;
                               gp_BatchData := gr_LastBatchData req |})
              end
          end
      end
  end.

End based.
#[global] Arguments BasedSequencer D : clear implicits.

(** ** The consuming loop *)

Lemma consume_spec ss txs valid c : length ss = length txs -> 0 <= c -> c + blen ss < two64 ->
  consume ss txs valid c =
  Some (valid ++ with_status FilterOK (take (Single.consumed_prefix ss) ss)
                                     (take (Single.consumed_prefix ss) txs),
        c + Z.of_nat (Single.consumed_prefix ss)).
Proof.
  revert txs valid c. induction ss as [|st ss IH]; intros [|tx txs] valid c Hl Hc Hb; try done.
  { simpl. by rewrite app_nil_r, Z.add_0_r. }
  rewrite blen_cons in Hb. pose proof (blen_nonneg ss). injection Hl as Hl.
  destruct st; cbn [consume Single.consumed_prefix take tail].
  - rewrite u64_small, IH by (unfold is_u64; done || lia). rewrite with_status_cons. simpl.
    rewrite <- app_assoc. do 2 f_equal. lia.
  - rewrite u64_small, IH by (unfold is_u64; done || lia). rewrite with_status_cons. simpl.
    do 2 f_equal. lia.
  - simpl. by rewrite app_nil_r, Z.add_0_r.
Qed.

(** ** Catch-up of the single sequencer is based sequencing *)

Section equivalence.
Context {D : Type} `{DatastoreLaws D}.
Context `{PB : ProtoCodec BatchQueue.pb_Batch} `{PBL : !ProtoCodecLaws BatchQueue.pb_Batch}.
Context `{PK : ProtoCodec Checkpoint.pb_Checkpoint} `{PKL : !ProtoCodecLaws Checkpoint.pb_Checkpoint}.

(** The same position in the same epoch, with working checkpoint stores. *)
Record corr (s : Single.Sequencer D) (b : BasedSequencer D) : Prop := {
  co_start : Single.fiStart s = fiStart b;
  co_da : Single.daHeight s = daHeight b;
  co_ck : Single.checkpoint s = checkpoint b;
  co_txs : Single.cachedForcedInclusionTxs s = currentBatchTxs b;
  co_end : Single.currentDAEndTime s = currentDAEndTime b;
  co_cnt : Single.currentEpochTxCount s = currentEpochTxCount b;
  co_ds : ds_healthy (Checkpoint.cs_db (Single.checkpointStore s));
  co_db : ds_healthy (Checkpoint.cs_db (checkpointStore b));
}.

Lemma corr_remaining s b : corr s b -> Single.remaining_forced s = remaining b.
Proof. intros [? ? Hck Htx ? ? ? ?]. unfold Single.remaining_forced, remaining. by rewrite Hck, Htx. Qed.

(** The retriever has data or fails for another reason than the two that end catch-up. *)
Definition retriever_busy (e : env) : Prop :=
  forall start h, match env_Retrieve e start h with
  | Ok ev => 0 <= fe_EndDaHeight ev < two64 - 1
  | Err err => errors_is err DA.ErrHeightFromFuture = false /\
               errors_is err ErrForceInclusionNotConfigured = false
  end.

Lemma refill_corr e s b mb : corr s b -> Single.catchUp s = Single.catchUpInProgress ->
  0 < Checkpoint.DAHeight (checkpoint b) -> 0 <= daHeight b < two64 - 1 -> retriever_busy e ->
  let '(s1, r) := Single.refill e s mb in
  let '(b1, r') := refill e b mb in
  r = r' /\ corr s1 b1 /\ Single.catchUp s1 = Single.catchUpInProgress /\
  checkpoint b1 = checkpoint b /\ (forall daH, r = Ok daH -> 0 <= daH < two64 - 1).
Proof.
  intros Hc Hi Hpos Hda Hb. pose proof Hc as [C1 C2 C3 C4 C5 C6 C7 C8].
  unfold Single.refill, refill, Single.init_checkpoint.
  rewrite C3, C2, (proj2 (Z.eqb_neq (Checkpoint.DAHeight (checkpoint b)) 0)), andb_false_r by lia.
  cbv iota zeta. rewrite C3, C4. destruct (_ && _).
  2:{ split_and!; [done..|]. intros ? [= <-]. lia. }
  unfold Single.fetchNextDAEpoch, fetchNextDAEpoch.
  assert (Single.updateCatchUpState e s = s) as ->
    by (unfold Single.updateCatchUpState; by rewrite Hi).
  rewrite C1, C3. specialize (Hb (fiStart b) (Checkpoint.DAHeight (checkpoint b))).
  destruct (env_Retrieve e _ _) as [ev|err].
  - simpl. rewrite C5. destruct (currentDAEndTime b <? fe_Timestamp ev); simpl;
      (split_and!; [done| |done|done|by intros ? [= <-]]); by split.
  - destruct Hb as [-> ->]. split_and!; done.
Qed.

Lemma advance_corr s b daH (k : nat) : corr s b -> 0 <= daH < two64 - 1 ->
  is_u64 (Checkpoint.DAHeight (checkpoint b)) -> 0 <= Checkpoint.TxIndex (checkpoint b) ->
  Checkpoint.TxIndex (checkpoint b) + Z.of_nat k < two64 ->
  let '(s', ts, r) := Single.advance_checkpoint s daH (Z.of_nat k) in
  let '(b', ts', r') := advance_checkpoint b daH (Z.of_nat k) in
  corr s' b' /\ ts = ts' /\ r = Ok tt /\ r' = Ok tt.
Proof.
  intros [C1 C2 C3 C4 C5 C6 C7 C8] Hd Hu H0' Ht. unfold Single.advance_checkpoint, advance_checkpoint.
  rewrite C3, C4. rewrite !(u64_small (_ + _)) by (unfold is_u64; lia).
  set (idx := Checkpoint.TxIndex _ + _) in *.
  destruct (_ <=? _); simpl;
    [set (ck := Checkpoint.MkCheckpoint (daH + 1) 0)
    |set (ck := Checkpoint.MkCheckpoint (Checkpoint.DAHeight (checkpoint b)) idx)];
    (assert (Hv : Checkpoint.ck_valid ck) by (split; simpl; unfold is_u64 in *; lia));
    destruct (Checkpoint.Save_spec (Single.checkpointStore s) ck C7 Hv) as (cs & E & Hcs & _);
    destruct (Checkpoint.Save_spec (checkpointStore b) ck C8 Hv) as (cb & E' & Hcb & _);
    rewrite E, E'; (split_and!; [|done..]); by split.
Qed.

Lemma stage_corr s b daH (k : nat) c : corr s b -> Single.catchUp s = Single.catchUpInProgress ->
  0 <= daH < two64 - 1 -> is_u64 (Checkpoint.DAHeight (checkpoint b)) ->
  0 <= Checkpoint.TxIndex (checkpoint b) -> Checkpoint.TxIndex (checkpoint b) + Z.of_nat k < two64 ->
  let '(s', ts, r) := (if (0 <? daH) || c
      then Single.advance_checkpoint s daH (Z.of_nat k) else (s, 0, Ok tt)) in
  let '(b', ts', r') := (if (0 <? daH) || c
      then advance_checkpoint b daH (Z.of_nat k) else (b, 0, Ok tt)) in
  corr s' b' /\ ts = ts' /\ r = Ok tt /\ r' = Ok tt /\ Single.catchUp s' = Single.catchUpInProgress.
Proof.
  intros Hc Hi Hd Hu Ht0 Ht. destruct (_ || _); [|done].
  pose proof (advance_corr s b daH k Hc Hd Hu Ht0 Ht) as HA.
  pose proof (Single.advance_checkpoint_frame s daH (Z.of_nat k)) as (_ & Fr & _).
  destruct (Single.advance_checkpoint s daH _) as [[s' ts] r],
    (advance_checkpoint b daH _) as [[b' ts'] r'].
  destruct HA as (? & ? & ? & ?). split_and!; try done. simpl in Fr. by rewrite Fr.
Qed.


End equivalence.

(** ** Timestamps *)

(** Epochs are far smaller than the 9*10^12 transactions that overflow a duration. *)
Definition duration_safe (count : Z) : Prop := 0 <= count < 9000000000000.

Lemma spread_timestamp_exact t count idx : duration_safe count -> 0 <= idx <= count ->
  spread_timestamp t count idx = t - (count - idx) * 1000000.
Proof.
  unfold duration_safe. intros Hc Hi. unfold spread_timestamp, millis, neg_millis.
  assert (Hs : forall z, -9000000000000000000 < z < 9000000000000000000 -> i64 z = z)
    by (intros z Hz; apply i64_small; unfold is_i64, two63; lia).
  rewrite (Hs count), (Hs idx), (Hs (- count)), !Hs by lia. lia.
Qed.

Section timestamps.
Context {D : Type} `{DatastoreLaws D}.
Context `{PK : ProtoCodec Checkpoint.pb_Checkpoint} `{PKL : !ProtoCodecLaws Checkpoint.pb_Checkpoint}.

Lemma based_advance_spec (b : BasedSequencer D) daH (k : nat) :
  ds_healthy (Checkpoint.cs_db (checkpointStore b)) -> 0 <= daH < two64 - 1 ->
  is_u64 (Checkpoint.DAHeight (checkpoint b)) -> 0 <= Checkpoint.TxIndex (checkpoint b) ->
  (k <= length (remaining b))%nat -> blen (currentBatchTxs b) < two63 ->
  Checkpoint.TxIndex (checkpoint b) < two63 ->
  let idx := Checkpoint.TxIndex (checkpoint b) + Z.of_nat k in
  let '(b', ts, r) := advance_checkpoint b daH (Z.of_nat k) in
  r = Ok tt /\ ts = idx /\ remaining b' = drop k (remaining b) /\
  (remaining b <> [] -> idx <= blen (currentBatchTxs b)) /\
  currentDAEndTime b' = currentDAEndTime b /\ currentEpochTxCount b' = currentEpochTxCount b /\
  checkpoint b' = if blen (currentBatchTxs b) <=? idx then Checkpoint.MkCheckpoint (daH + 1) 0
                  else Checkpoint.MkCheckpoint (Checkpoint.DAHeight (checkpoint b)) idx.
Proof.
  intros Hd HdaH Hck Ht0 Hk Hlen Ht. cbv zeta. unfold advance_checkpoint.
  assert (Hkl : (k <= length (currentBatchTxs b))%nat).
  { unfold remaining in Hk. destruct (_ <? _); simpl in Hk; rewrite ?length_drop in Hk; lia. }
  rewrite !(u64_small (_ + _)) by (unfold is_u64, blen, two63, two64 in *; lia).
  set (idx := Checkpoint.TxIndex (checkpoint b) + Z.of_nat k) in *.
  assert (Hrem : drop k (remaining b) = if blen (currentBatchTxs b) <=? idx then []
    else drop (Z.to_nat idx) (currentBatchTxs b)).
  { unfold remaining in *.
    destruct (Z.ltb_spec (Checkpoint.TxIndex (checkpoint b)) (blen (currentBatchTxs b))).
    - rewrite drop_drop. replace (Z.to_nat (Checkpoint.TxIndex (checkpoint b)) + k)%nat
        with (Z.to_nat idx) by (unfold idx; lia).
      destruct (Z.leb_spec (blen (currentBatchTxs b)) idx); [|done].
      apply drop_ge. unfold blen in *. lia.
    - destruct (Z.leb_spec (blen (currentBatchTxs b)) idx); [by rewrite drop_nil|].
      simpl in Hk. lia. }
  assert (Hle : remaining b <> [] -> idx <= blen (currentBatchTxs b)).
  { unfold remaining in *. destruct (Z.ltb_spec (Checkpoint.TxIndex (checkpoint b))
      (blen (currentBatchTxs b))); [|done]. rewrite length_drop in Hk. unfold idx, blen in *. lia. }
  destruct (Z.leb_spec (blen (currentBatchTxs b)) idx) as [Hi|Hi]; simpl;
    [set (ck := Checkpoint.MkCheckpoint (daH + 1) 0)
    |set (ck := Checkpoint.MkCheckpoint (Checkpoint.DAHeight (checkpoint b)) idx)];
    (assert (Hv : Checkpoint.ck_valid ck)
      by (split; simpl; unfold is_u64, idx, blen, two63, two64 in *; lia));
    destruct (Checkpoint.Save_spec (checkpointStore b) ck Hd Hv) as (cs & E & _);
    rewrite E, Hrem; (split_and!; try done).
  unfold remaining. simpl. by rewrite (proj2 (Z.ltb_lt _ _)) by done.
Qed.

(** A batch the based sequencer returns at DA height [daH] from an epoch of [count]
    transactions is stamped with the epoch's end time minus one millisecond per transaction of the
    epoch still to be consumed: within an epoch the timestamps increase with the position, none
    exceeds the end time, and the last batch of the epoch lands exactly on it. *)
Theorem based_timestamp (e : env) (b b1 : BasedSequencer D) daH req
  (Hfill : refill e b (gr_MaxBytes req) = (b1, Ok daH)) (HdaH : 0 <= daH < two64 - 1)
  (Hd : ds_healthy (Checkpoint.cs_db (checkpointStore b1)))
  (Hck : is_u64 (Checkpoint.DAHeight (checkpoint b1)))
  (Hidx : 0 <= Checkpoint.TxIndex (checkpoint b1) < two63)
  (Hcnt : currentEpochTxCount b1 = blen (currentBatchTxs b1))
  (Hsafe : duration_safe (currentEpochTxCount b1)) (Hfl : Single.filter_lengths e) :
  let '(b', r) := GetNextBatch e b req in
  forall resp, r = Ok resp ->
  exists k : nat, (k <= length (remaining b1))%nat /\
    let left := currentEpochTxCount b1 - Checkpoint.TxIndex (checkpoint b1) - Z.of_nat k in
    gp_Timestamp resp = currentDAEndTime b1 - left * 1000000 /\ 0 <= left /\
    remaining b' = drop k (remaining b1) /\
    (left = 0 -> checkpoint b' = Checkpoint.MkCheckpoint (daH + 1) 0).
Proof.
  unfold GetNextBatch. rewrite Hfill. set (txs := remaining b1) in *.
  set (ss := match env_FilterTxs e txs _ _ _ with Ok st => st | Err _ => _ end).
  assert (Hss : length ss = length txs).
  { unfold ss. destruct (env_FilterTxs _ _ _ _ _) eqn:E; [by eapply Hfl|].
    unfold all_ok. by rewrite length_fmap. }
  assert (Hlen : (length txs <= length (currentBatchTxs b1))%nat).
  { unfold txs, remaining. destruct (_ <? _); simpl; [rewrite length_drop|]; lia. }
  unfold duration_safe in Hsafe. rewrite Hcnt in *.
  rewrite consume_spec by (try done; unfold blen, two64 in *; lia).
  pose proof (Single.consumed_prefix_le ss) as Hk. set (k := Single.consumed_prefix ss) in *.
  set (valid := with_status FilterOK (take k ss) (take k txs)). rewrite app_nil_l, Z.add_0_l.
  pose proof (based_advance_spec b1 daH k Hd HdaH Hck ltac:(lia)) as HA. fold txs in HA.
  specialize (HA ltac:(lia) ltac:(unfold two63; lia) ltac:(lia)).
  destruct txs as [|tx txs'] eqn:Etx.
  { assert (valid = []) as ->.
    { unfold valid. assert (k = O) as -> by (simpl in Hss; lia). done. }
    destruct (if (0 <? daH) || _ then _ else _) as [[? ?] [?|?]]; done. }
  rewrite <- Etx in *.
  assert ((0 <? blen txs) = true) as -> by (rewrite Etx, blen_cons; pose proof (blen_nonneg txs'); lia).
  rewrite orb_true_r. destruct (advance_checkpoint b1 daH (Z.of_nat k)) as [[b' ts] r].
  destruct HA as (-> & -> & Hrem & Hle & Het & Hct & Hst). rewrite Het, Hct, Hcnt.
  destruct valid as [|v vs]; [done|]. intros resp [= <-]. exists k. split; [lia|].
  specialize (Hle ltac:(by rewrite Etx)). simpl. split_and!; [|lia|done|].
  - rewrite spread_timestamp_exact by (unfold duration_safe; lia). lia.
  - intros Hl. rewrite Hst. destruct (Z.leb_spec (blen (currentBatchTxs b1))
      (Checkpoint.TxIndex (checkpoint b1) + Z.of_nat k)); [done|lia].
Qed.

End timestamps.

End Based.

(** ** Witnesses and concrete behaviours *)

Module SeqWitness.
Import Single.

(** Closed bounds on integers. *)
Ltac zbound := vm_compute; split; first [reflexivity | discriminate].

#[local] Existing Instance BatchQueue.wcodec.
#[local] Existing Instance BatchQueue.wlaws.
#[local] Existing Instance Checkpoint.wcodec.
#[local] Existing Instance Checkpoint.wlaws.

(** Epochs of one height: two transactions at every height from 10, the dummy executor's filter. *)
Definition w_env : env := {|
  env_now := 77; env_GetExecutionInfo := Ok 0; env_FilterTxs := Dummy_FilterTxs;
  env_Retrieve := fun _ h =>
    if (h <? 10) || (1000 <=? h) then Err (EMsg "no such height")
    else Ok {| fe_Timestamp := h * 1000000000; fe_StartDaHeight := h; fe_EndDaHeight := h;
               fe_Txs := [[x01]; [x02]] |};
  env_GetLatestDAHeight := Ok 10; env_LastBlockTime := Err (EMsg "none");
  env_GenesisDAHeight := Err (EMsg "none") |}.

Definition w_queue : BatchQueue.BatchQueue mapds :=
  (BatchQueue.AddBatch (BatchQueue.NewBatchQueue (Mapds ∅ true) 0) (MkBatch [[x05]])).1.

Lemma w_queue_inv : BatchQueue.queue_inv 1 w_queue.
Proof.
  pose proof (BatchQueue.AddBatch_spec 0 (BatchQueue.NewBatchQueue (Mapds ∅ true) 0) (MkBatch [[x05]])
    (BatchQueue.NewBatchQueue_inv (Mapds ∅ true) 0 eq_refl eq_refl)
    ltac:(split; vm_compute; congruence)) as HA.
  unfold w_queue. destruct (BatchQueue.AddBatch _ _) as [q r]. by destruct HA as [HA _].
Qed.

Definition w_seq (da ck : Z) (c : catchUpState) : Sequencer mapds := {|
  genesis := {| gen_StartTime := 0; gen_DAStartHeight := 10; gen_DAEpochForcedInclusion := 1 |};
  Id := [x2a]; queue := w_queue; fiStart := 10; daHeight := da; daStartHeight := 10;
  checkpointStore := Checkpoint.NewCheckpointStore (Mapds ∅ true) "/single/checkpoint";
  checkpoint := Checkpoint.MkCheckpoint ck 0; cachedForcedInclusionTxs := []; catchUp := c;
  currentDAEndTime := 0; currentEpochTxCount := 0 |}.

Definition w_req (max : Z) : GetNextBatchRequest :=
  {| gr_Id := [x2a]; gr_LastBatchData := []; gr_MaxBytes := max |}.

Lemma dummy_lengths : filter_lengths w_env.
Proof. intros txs mb g f st [= <-]. apply length_dummy_loop. Qed.

Lemma w_refill : refill w_env (w_seq 10 10 catchUpDone) 2 =
  (set_endTime 10000000000 (set_txCount 2 (set_cached [[x01]; [x02]] (w_seq 10 10 catchUpDone))), Ok 10).
Proof. reflexivity. Qed.

Lemma w_seq_ok : seq_ok 1
  (set_endTime 10000000000 (set_txCount 2 (set_cached [[x01]; [x02]] (w_seq 10 10 catchUpDone)))).
Proof.
  split; [exact w_queue_inv | zbound | reflexivity
         | zbound | zbound | vm_compute; reflexivity].
Qed.

Lemma w_height : 0 <= 10 < two64 - 1.
Proof. unfold two64. lia. Qed.

Lemma GetNextBatch_accounting_witness :
  let '(s', r) := GetNextBatch w_env (w_seq 10 10 catchUpDone) (w_req 2) in
  match r with
  | Ok resp => Transactions (gp_Batch resp) = [[x01]; [x02]]
  | Err _ => False
  end /\
  BatchQueue.contents (queue s') = [MkBatch [[x05]]] /\
  checkpoint s' = Checkpoint.MkCheckpoint 11 0.
Proof.
  pose proof (GetNextBatch_accounting w_env (w_seq 10 10 catchUpDone) (w_req 2) _ 10 1 eq_refl w_refill
    w_seq_ok dummy_lengths w_height) as HA. cbv zeta in HA.
  destruct (GetNextBatch w_env (w_seq 10 10 catchUpDone) (w_req 2)) as [s' r] eqn:E.
  destruct HA as (HA & _ & HC & HD). vm_compute in HA, HC, HD.
  split; [|split; [exact HC | apply HD; left; reflexivity]].
  destruct r as [resp|err]; [exact HA|]. vm_compute in E. discriminate E.
Defined.

Lemma checkpoint_forward_witness :
  let s := w_seq 10 10 catchUpDone in let s' := (GetNextBatch w_env s (w_req 1)).1 in
  (aligned s' /\ ck_le (checkpoint s) (checkpoint s')) /\
  checkpoint s' = Checkpoint.MkCheckpoint 10 1.
Proof.
  split; [|vm_compute; reflexivity].
  apply (checkpoint_forward w_env (w_seq 10 10 catchUpDone) (w_req 1)).
  - reflexivity.
  - intros start h ev E. unfold w_env in E. cbn [env_Retrieve] in E.
    destruct (Z.ltb_spec h 10), (Z.leb_spec 1000 h); simpl in E; try discriminate E.
    injection E as <-. simpl. unfold two64. lia.
  - exact dummy_lengths.
  - zbound.
  - zbound.
  - vm_compute. reflexivity.
Defined.

Definition w_based : Based.BasedSequencer mapds := {|
  Based.fiStart := 10; Based.daHeight := 10;
  Based.checkpointStore := Checkpoint.NewCheckpointStore (Mapds ∅ true) "/based/checkpoint";
  Based.checkpoint := Checkpoint.MkCheckpoint 10 0; Based.currentBatchTxs := [];
  Based.currentDAEndTime := 0; Based.currentEpochTxCount := 0 |}.


Lemma based_timestamp_witness :
  let '(b', r) := Based.GetNextBatch w_env w_based (w_req 1) in
  let b1 := Based.set_epoch [[x01]; [x02]] 10000000000 w_based in
  forall resp, r = Ok resp ->
  exists k : nat, (k <= length (Based.remaining b1))%nat /\
    let left := Based.currentEpochTxCount b1 - Checkpoint.TxIndex (Based.checkpoint b1) - Z.of_nat k in
    gp_Timestamp resp = Based.currentDAEndTime b1 - left * 1000000 /\ 0 <= left /\
    Based.remaining b' = drop k (Based.remaining b1) /\
    (left = 0 -> Based.checkpoint b' = Checkpoint.MkCheckpoint (10 + 1) 0).
Proof.
  refine (Based.based_timestamp w_env w_based (Based.set_epoch [[x01]; [x02]] 10000000000 w_based) 10
    (w_req 1) _ _ _ _ _ _ _ _); [reflexivity|zbound|reflexivity|zbound|zbound|reflexivity|zbound|exact dummy_lengths].
Defined.

Definition resp_txs (r : res GetNextBatchResponse) : option (list bytes) :=
  match r with Ok resp => Some (Transactions (gp_Batch resp)) | Err _ => None end.
Definition resp_time (r : res GetNextBatchResponse) : option Z :=
  match r with Ok resp => Some (gp_Timestamp resp) | Err _ => None end.

(** When the DA height of the sequencer lags behind the checkpoint's (as after a restart with a
    stored checkpoint and an older chain state), an epoch that needs two batches moves the
    checkpoint backwards: here from DA height 20 to 11, below heights already consumed. *)
Theorem stale_height_regresses :
  let s0 := w_seq 10 20 catchUpDone in
  let s1 := (GetNextBatch w_env s0 (w_req 1)).1 in
  let s2 := (GetNextBatch w_env s1 (w_req 1)).1 in
  checkpoint s0 = Checkpoint.MkCheckpoint 20 0 /\
  checkpoint s1 = Checkpoint.MkCheckpoint 20 1 /\
  checkpoint s2 = Checkpoint.MkCheckpoint 11 0.
Proof. vm_compute. auto. Qed.

(** The sequencer over the real retriever, with a DA layer whose height 12 fails. *)
Definition w_env_da (da : Z -> DA.ResultRetrieve) : env := {|
  env_now := 77; env_GetExecutionInfo := Ok 0; env_FilterTxs := Dummy_FilterTxs;
  env_Retrieve := fun start h =>
    (RetrieveForcedIncludedTxs (H0 := Retriever.wcodec) da
       (NewForcedInclusionRetriever (Mapds ∅ true) true [x2a] start 2) h).2;
  env_GetLatestDAHeight := Ok 12; env_LastBlockTime := Err (EMsg "none");
  env_GenesisDAHeight := Err (EMsg "none") |}.

(** A DA height that fails for a transient reason makes the sequencer skip the whole epoch:
    with a forced transaction at height 11 and an error at height 12 of the epoch [11, 12], the
    call returns a batch without it and stores a checkpoint past the epoch, so it is never
    included; had height 12 answered, the same call would have returned it. *)
Theorem failed_epoch_is_skipped :
  let ok_da h := if h =? 12 then {| DA.rr_Code := DA.StatusNotFound; DA.rr_Message := "";
                                    DA.rr_Timestamp := 9; DA.rr_Data := []; DA.rr_IDs := [] |} else w_da h in
  let s := set_fiStart 11 11 (w_seq 12 12 catchUpDone) in
  let '(s1, r1) := GetNextBatch (w_env_da w_da) s (w_req 100) in
  let '(s2, r2) := GetNextBatch (w_env_da ok_da) s (w_req 100) in
  resp_txs r1 = Some [[x05]] /\
  Checkpoint.Load (checkpointStore s1) = Ok (Checkpoint.MkCheckpoint 13 0) /\
  resp_txs r2 = Some [[x02]; [x05]].
Proof. vm_compute. auto. Qed.

(** An environment whose epochs at heights 10 and 11 end one millisecond apart. *)
Definition w_env_fast : env := {|
  env_now := 77; env_GetExecutionInfo := Ok 0; env_FilterTxs := Dummy_FilterTxs;
  env_Retrieve := fun _ h =>
    Ok {| fe_Timestamp := 5000000000 + h * 1000000; fe_StartDaHeight := h; fe_EndDaHeight := h;
          fe_Txs := [[x01]; [x02]; [x03]] |};
  env_GetLatestDAHeight := Ok 10; env_LastBlockTime := Err (EMsg "none");
  env_GenesisDAHeight := Err (EMsg "none") |}.

(** The spread of timestamps is monotone only within an epoch: when an epoch holds more
    transactions than milliseconds passed since the previous one ended, its first batch is stamped
    before the previous epoch's last one. *)
Theorem timestamps_regress_across_epochs :
  let '(b1, r1) := Based.GetNextBatch w_env_fast w_based (w_req 3) in
  let '(b2, r2) := Based.GetNextBatch w_env_fast b1 (w_req 1) in
  resp_time r1 = Some 5010000000 /\ resp_time r2 = Some 5009000000.
Proof. vm_compute. auto. Qed.

End SeqWitness.
