(* ===== verification/Types.v ===== *)
(** Block types and their serialization (types/data.go, header.go, signer.go,
    serialization.go, p2p_envelope.go): conversion to and from protobuf
    messages, the legacy header fields carried as unknown fields, and the
    legacy binary encoding.

    The protobuf runtime is [ProtoCodec]; protowire and the libp2p public keys
    are the classes [Protowire] and [PubKeys] below.  A nil slice is the empty
    list except in [LegacyHeaderFields], where the source tests for nil. *)

From S2P Require Import Prelude Interfaces.

(** ** protowire *)

Inductive wire_type := VarintType | Fixed32Type | Fixed64Type | BytesType | StartGroupType | EndGroupType.
#[global] Instance wire_type_eq_dec : EqDecision wire_type.
Proof. solve_decision. Defined.

Class Protowire := {
  AppendTag : Z -> wire_type -> bytes;        (* the bytes appended *)
  AppendVarint : Z -> bytes;
  ConsumeTag : bytes -> option (Z * wire_type * nat);
  ConsumeBytes : bytes -> option (bytes * nat);
  ConsumeFieldValue : Z -> wire_type -> bytes -> option nat;
}.

(** What the legacy codec relies on; the field numbers in use are below 16. *)
Class ProtowireLaws `{Protowire} := {
  ConsumeTag_Append n t rest : 1 <= n < 16 ->
    ConsumeTag (AppendTag n t ++ rest) = Some (n, t, length (AppendTag n t));
  ConsumeTag_progress b n t k : ConsumeTag b = Some (n, t, k) -> (1 <= k <= length b)%nat;
  ConsumeBytes_Append v rest : blen v < two63 ->
    ConsumeBytes (AppendVarint (blen v) ++ v ++ rest) =
    Some (v, (length (AppendVarint (blen v)) + length v)%nat);
  AppendVarint_short z : 0 <= z <= 1024 -> (length (AppendVarint z) <= 10)%nat;
  AppendTag_short n t : 1 <= n < 16 -> (1 <= length (AppendTag n t) <= 10)%nat;
}.

(** ** Public keys (libp2p crypto) *)

Class PubKeys (K : Type) := {
  pk_Raw : K -> res bytes;
  pk_Marshal : K -> res bytes;
  pk_Unmarshal : bytes -> res K;
  pk_Verify : K -> bytes -> bytes -> res bool;
}.

Class PubKeysLaws (K : Type) `{PubKeys K} := {
  pk_roundtrip k : exists bz, pk_Marshal k = Ok bz /\ bz <> [] /\ pk_Unmarshal bz = Ok k;
}.

(** ** Messages of types/pb *)

Record pb_Version := { pv_Block : Z; pv_App : Z }.
Record pb_Header := {
  ph_Version : option pb_Version; ph_Height : Z; ph_Time : Z; ph_LastHeaderHash : bytes;
  ph_DataHash : bytes; ph_AppHash : bytes; ph_ProposerAddress : bytes; ph_ValidatorHash : bytes;
  ph_ChainId : string; ph_unknown : bytes
}.
Record pb_Signer := { ps_Address : bytes; ps_PubKey : bytes }.
Record pb_SignedHeader := {
  psh_Header : option pb_Header; psh_Signature : bytes; psh_Signer : option pb_Signer
}.
Record pb_DAHeaderEnvelope := {
  pde_Header : option pb_Header; pde_Signature : bytes; pde_Signer : option pb_Signer;
  pde_EnvelopeSignature : bytes
}.
Record pb_P2PSignedHeader := {
  pp_Header : option pb_Header; pp_Signature : bytes; pp_Signer : option pb_Signer;
  pp_DaHeightHint : option Z
}.
Record pb_Metadata := { pm_ChainId : string; pm_Height : Z; pm_Time : Z; pm_LastDataHash : bytes }.
Record pb_Data := { pd_Metadata : option pb_Metadata; pd_Txs : list bytes }.
Record pb_P2PData := {
  ppd_Metadata : option pb_Metadata; ppd_Txs : list bytes; ppd_DaHeightHint : option Z
}.
Record pb_SignedData := {
  psd_Data : option pb_Data; psd_Signature : bytes; psd_Signer : option pb_Signer
}.
Record pb_State := {
  pst_Version : option pb_Version; pst_ChainId : string; pst_InitialHeight : Z;
  pst_LastBlockHeight : Z; pst_LastBlockTime : option (Z * Z); pst_DaHeight : Z;
  pst_AppHash : bytes; pst_LastHeaderHash : bytes
}.

(** ** The Go types *)

Record Version := { Block : Z; App : Z }.

Record LegacyHeaderFields := {
  LastCommitHash : option bytes; ConsensusHash : option bytes; LastResultsHash : option bytes
}.

Record Header := {
  hd_Height : Z; hd_Time : Z; hd_ChainID : string; hd_Version : Version;
  LastHeaderHash : bytes; DataHash : bytes; AppHash : bytes; ValidatorHash : bytes;
  ProposerAddress : bytes; Legacy : option LegacyHeaderFields
}.

Record Metadata := { md_ChainID : string; md_Height : Z; md_Time : Z; LastDataHash : bytes }.
Record Data := { dt_Metadata : option Metadata; Txs : list bytes }.

Record State := {
  st_Version : Version; st_ChainID : string; st_InitialHeight : Z; LastBlockHeight : Z;
  LastBlockTime : Z; st_LastHeaderHash : bytes; st_DAHeight : Z; st_AppHash : bytes
}.

(** [IsZero], [EnsureDefaults] and [Clone] of the legacy fields. *)
Definition opt_len (b : option bytes) : Z := match b with Some l => blen l | None => 0 end.
Definition legacy_IsZero (l : option LegacyHeaderFields) : bool :=
  match l with
  | None => true
  | Some l => (opt_len (LastCommitHash l) =? 0) && (opt_len (ConsensusHash l) =? 0)
              && (opt_len (LastResultsHash l) =? 0)
  end.
Definition EnsureDefaults (l : LegacyHeaderFields) : LegacyHeaderFields :=
  match ConsensusHash l with
  | Some _ => l
  | None => {| LastCommitHash := LastCommitHash l; ConsensusHash := Some (repeat x00 32);
               LastResultsHash := LastResultsHash l |}
  end.
Definition cloneBytes (b : option bytes) : option bytes :=
  match b with None | Some [] => None | Some l => Some l end.
Definition legacy_Clone (l : option LegacyHeaderFields) : option LegacyHeaderFields :=
  match l with
  | None => None
  | Some l => Some {| LastCommitHash := cloneBytes (LastCommitHash l);
                      ConsensusHash := cloneBytes (ConsensusHash l);
                      LastResultsHash := cloneBytes (LastResultsHash l) |}
  end.
Definition set_legacy (h : Header) (l : option LegacyHeaderFields) : Header :=
  {| hd_Height := hd_Height h; hd_Time := hd_Time h; hd_ChainID := hd_ChainID h;
     hd_Version := hd_Version h; LastHeaderHash := LastHeaderHash h; DataHash := DataHash h;
     AppHash := AppHash h; ValidatorHash := ValidatorHash h;
     ProposerAddress := ProposerAddress h; Legacy := l |}.
(** [Header.Clone]: the byte fields are copied, only the legacy block can change shape. *)
Definition Header_Clone (h : Header) : Header := set_legacy h (legacy_Clone (Legacy h)).
Definition ApplyLegacyDefaults (h : Header) : Header :=
  set_legacy h (Some (EnsureDefaults
    match Legacy h with
    | Some l => l
    | None => {| LastCommitHash := None; ConsensusHash := None; LastResultsHash := None |}
    end)).

(** ** Legacy header fields on the wire *)

Definition legacyLastCommitHashField : Z := 5.
Definition legacyConsensusHashField : Z := 7.
Definition legacyLastResultsHashField : Z := 9.
Definition maxUnknownFieldSize : Z := 1024 * 1024.
Definition maxLegacyHashSize : Z := 1024.

Section wire.
Context `{Protowire}.

Definition appendBytesField (buf : bytes) (number : Z) (value : bytes) : bytes :=
  buf ++ AppendTag number BytesType ++ AppendVarint (blen value) ++ value.

(** [if len(value) > 0 { payload = appendBytesField(...) }] *)
Definition append_if (buf : bytes) (number : Z) (value : option bytes) : bytes :=
  match value with
  | None | Some [] => buf
  | Some v => appendBytesField buf number v
  end.

Definition encodeLegacyUnknownFields (legacy : option LegacyHeaderFields) : bytes :=
  match legacy with
  | None => []
  | Some l =>
      if legacy_IsZero legacy then []
      else append_if (append_if (append_if [] legacyLastCommitHashField (LastCommitHash l))
             legacyConsensusHashField (ConsensusHash l))
             legacyLastResultsHashField (LastResultsHash l)
  end.

Definition set_field (n : Z) (v : bytes) (l : LegacyHeaderFields) : LegacyHeaderFields :=
  (* [append([]byte(nil), v...)] of an empty value is nil *)
  let v := match v with [] => None | _ => Some v end in
  if n =? legacyLastCommitHashField then
    {| LastCommitHash := v; ConsensusHash := ConsensusHash l; LastResultsHash := LastResultsHash l |}
  else if n =? legacyConsensusHashField then
    {| LastCommitHash := LastCommitHash l; ConsensusHash := v; LastResultsHash := LastResultsHash l |}
  else
    {| LastCommitHash := LastCommitHash l; ConsensusHash := ConsensusHash l; LastResultsHash := v |}.

Definition is_legacy_field (n : Z) : bool :=
  (n =? legacyLastCommitHashField) || (n =? legacyConsensusHashField)
  || (n =? legacyLastResultsHashField).

Definition parse_error : err := EMsg "protowire parse error".
Definition out_of_fuel : err := EMsg "out of fuel".

(** The decoding loop; every iteration consumes a tag, so a fuel of one more
    than the number of bytes is never used up ([decode_loop_total]). *)
Fixpoint decode_loop (fuel : nat) (unknown : bytes) (legacy : LegacyHeaderFields)
  : res LegacyHeaderFields :=
  match unknown with
  | [] => Ok legacy
  | _ =>
      match fuel with
      | O => Err out_of_fuel
      | S fuel =>
          match ConsumeTag unknown with
          | None => Err parse_error
          | Some (fieldNum, typ, n) =>
              let unknown := drop n unknown in
              let skip :=
                match ConsumeFieldValue fieldNum typ unknown with
                | None => Err parse_error
                | Some size => decode_loop fuel (drop size unknown) legacy
                end in
              if is_legacy_field fieldNum then
                if decide (typ = BytesType) then
                  match ConsumeBytes unknown with
                  | None => Err parse_error
                  | Some (value, size) =>
                      if maxLegacyHashSize <? blen value
                      then Err (EMsg "legacy hash field too large")
                      else decode_loop fuel (drop size unknown) (set_field fieldNum value legacy)
                  end
                else skip
              else skip
          end
      end
  end.

Definition no_legacy : LegacyHeaderFields :=
  {| LastCommitHash := None; ConsensusHash := None; LastResultsHash := None |}.

(** On the unknown fields of a [pb.Header]. *)
Definition decodeLegacyHeaderFields (unknown : bytes) : res (option LegacyHeaderFields) :=
  if blen unknown =? 0 then Ok None
  else if maxUnknownFieldSize <? blen unknown then Err (EMsg "unknown fields too large")
  else
    let? legacy := decode_loop (S (length unknown)) unknown no_legacy in
    if legacy_IsZero (Some legacy) then Ok None else Ok (Some legacy).

End wire.

(** ** Conversion to and from messages *)

Section conv.
Context {K : Type} `{PubKeys K} `{Protowire}.

Record Signer := { PubKey : option K; Address : bytes; marshalledPubKey : bytes }.
Record SignedHeader := { sh_Header : Header; sh_Signature : bytes; sh_Signer : Signer }.
Record SignedData := { sd_Data : Data; sd_Signature : bytes; sd_Signer : Signer }.
Record P2PSignedHeader := { p2p_Header : SignedHeader; p2p_HeaderHint : Z }.
Record P2PData := { p2p_Data : Data; p2p_DataHint : Z }.

Definition zero_signer : Signer := {| PubKey := None; Address := []; marshalledPubKey := [] |}.

(** The marshalled key, from the cache when it is there. *)
Definition MarshalledPubKey (s : Signer) : res bytes :=
  match marshalledPubKey s with
  | [] => match PubKey s with None => Ok [] | Some k => pk_Marshal k end
  | bz => Ok bz
  end.

Definition Header_ToProto (h : Header) : pb_Header := {|
  ph_Version := Some {| pv_Block := Block (hd_Version h); pv_App := App (hd_Version h) |};
  ph_Height := hd_Height h; ph_Time := hd_Time h; ph_LastHeaderHash := LastHeaderHash h;
  ph_DataHash := DataHash h; ph_AppHash := AppHash h; ph_ProposerAddress := ProposerAddress h;
  ph_ValidatorHash := ValidatorHash h; ph_ChainId := hd_ChainID h;
  ph_unknown := encodeLegacyUnknownFields (Legacy h) |}.

Definition version_of (v : option pb_Version) : Version :=
  match v with
  | Some v => {| Block := pv_Block v; App := pv_App v |}
  | None => {| Block := 0; App := 0 |}
  end.

Definition Header_FromProto (other : option pb_Header) : res Header :=
  match other with
  | None => Err (EMsg "header is nil")
  | Some o =>
      let? legacy := decodeLegacyHeaderFields (ph_unknown o) in
      Ok {| hd_Height := ph_Height o; hd_Time := ph_Time o; hd_ChainID := ph_ChainId o;
            hd_Version := version_of (ph_Version o); LastHeaderHash := ph_LastHeaderHash o;
            DataHash := ph_DataHash o; AppHash := ph_AppHash o;
            ValidatorHash := ph_ValidatorHash o; ProposerAddress := ph_ProposerAddress o;
            Legacy := legacy |}
  end.

Definition Signer_ToProto (s : Signer) : res pb_Signer :=
  match PubKey s with
  | None => Ok {| ps_Address := []; ps_PubKey := [] |}
  | Some _ =>
      let? pubKey := MarshalledPubKey s in
      Ok {| ps_Address := Address s; ps_PubKey := pubKey |}
  end.

Definition Signer_FromProto (s : option pb_Signer) : res Signer :=
  match s with
  | Some s =>
      match ps_PubKey s with
      | [] => Ok zero_signer
      | bz =>
          let? k := pk_Unmarshal bz in
          Ok {| PubKey := Some k; Address := ps_Address s; marshalledPubKey := bz |}
      end
  | None => Ok zero_signer
  end.

Definition SignedHeader_ToProto (sh : SignedHeader) : res pb_SignedHeader :=
  let? signer := Signer_ToProto (sh_Signer sh) in
  Ok {| psh_Header := Some (Header_ToProto (sh_Header sh)); psh_Signature := sh_Signature sh;
        psh_Signer := Some signer |}.

Definition SignedHeader_FromProto (other : option pb_SignedHeader) : res SignedHeader :=
  match other with
  | None => Err (EMsg "signed header is nil")
  | Some o =>
      match psh_Header o with
      | None => Err (EMsg "signed header's Header is nil")
      | Some ph =>
          let? h := Header_FromProto (Some ph) in
          let? signer := Signer_FromProto (psh_Signer o) in
          Ok {| sh_Header := h; sh_Signature := psh_Signature o; sh_Signer := signer |}
      end
  end.

Definition ToDAEnvelopeProto (sh : SignedHeader) (envelopeSignature : bytes)
  : res pb_DAHeaderEnvelope :=
  let? signer := Signer_ToProto (sh_Signer sh) in
  Ok {| pde_Header := Some (Header_ToProto (sh_Header sh)); pde_Signature := sh_Signature sh;
        pde_Signer := Some signer; pde_EnvelopeSignature := envelopeSignature |}.

Definition FromDAEnvelopeProto (envelope : option pb_DAHeaderEnvelope) : res SignedHeader :=
  match envelope with
  | None => Err (EMsg "da header envelope is nil")
  | Some o =>
      match pde_Header o with
      | None => Err (EMsg "da header envelope's Header is nil")
      | Some ph =>
          let? h := Header_FromProto (Some ph) in
          let? signer := Signer_FromProto (pde_Signer o) in
          Ok {| sh_Header := h; sh_Signature := pde_Signature o; sh_Signer := signer |}
      end
  end.

Definition Metadata_ToProto (m : Metadata) : pb_Metadata :=
  {| pm_ChainId := md_ChainID m; pm_Height := md_Height m; pm_Time := md_Time m;
     pm_LastDataHash := LastDataHash m |}.
Definition Metadata_FromProto (other : option pb_Metadata) : res Metadata :=
  match other with
  | None => Err (EMsg "metadata is nil")
  | Some o => Ok {| md_ChainID := pm_ChainId o; md_Height := pm_Height o; md_Time := pm_Time o;
                    LastDataHash := pm_LastDataHash o |}
  end.

(** [txsToByteSlices]/[byteSlicesToTxs] copy the slice of slices. *)
Definition Data_ToProto (d : Data) : pb_Data :=
  {| pd_Metadata := Metadata_ToProto <$> dt_Metadata d; pd_Txs := Txs d |}.
Definition Data_FromProto (other : option pb_Data) : res Data :=
  match other with
  | None => Err (EMsg "data is nil")
  | Some o =>
      let? m :=
        match pd_Metadata o with
        | Some pm => let? m := Metadata_FromProto (Some pm) in Ok (Some m)
        | None => Ok None
        end in
      Ok {| dt_Metadata := m; Txs := pd_Txs o |}
  end.

Definition SignedData_ToProto (sd : SignedData) : res pb_SignedData :=
  let? signer := Signer_ToProto (sd_Signer sd) in
  Ok {| psd_Data := Some (Data_ToProto (sd_Data sd)); psd_Signature := sd_Signature sd;
        psd_Signer := Some signer |}.
(** [recv] is the receiver, whose data is kept when the message has none. *)
Definition SignedData_FromProto (recv : SignedData) (other : option pb_SignedData) : res SignedData :=
  match other with
  | None => Err (EMsg "signed data is nil")
  | Some o =>
      let? d := match psd_Data o with
                | Some pd => Data_FromProto (Some pd) | None => Ok (sd_Data recv) end in
      let? signer := Signer_FromProto (psd_Signer o) in
      Ok {| sd_Data := d; sd_Signature := psd_Signature o; sd_Signer := signer |}
  end.

(** A time as (seconds, nanoseconds). *)
Definition State_ToProto (s : State) : pb_State := {|
  pst_Version := Some {| pv_Block := Block (st_Version s); pv_App := App (st_Version s) |};
  pst_ChainId := st_ChainID s; pst_InitialHeight := st_InitialHeight s;
  pst_LastBlockHeight := LastBlockHeight s;
  pst_LastBlockTime := Some (LastBlockTime s / 1000000000, LastBlockTime s mod 1000000000);
  pst_DaHeight := st_DAHeight s; pst_AppHash := st_AppHash s;
  pst_LastHeaderHash := st_LastHeaderHash s |}.
Definition State_FromProto (other : option pb_State) : res State :=
  match other with
  | None => Err (EMsg "state is nil")
  | Some o =>
      Ok {| st_Version := version_of (pst_Version o); st_ChainID := pst_ChainId o;
            st_InitialHeight := pst_InitialHeight o; LastBlockHeight := pst_LastBlockHeight o;
            LastBlockTime := match pst_LastBlockTime o with
                             | Some (secs, nanos) => secs * 1000000000 + nanos
                             | None => zero_time end;
            st_LastHeaderHash := pst_LastHeaderHash o; st_DAHeight := pst_DaHeight o;
            st_AppHash := pst_AppHash o |}
  end.

End conv.
#[global] Arguments Signer K : clear implicits.
#[global] Arguments SignedHeader K : clear implicits.
#[global] Arguments SignedData K : clear implicits.
#[global] Arguments P2PSignedHeader K : clear implicits.

(** ** Binary forms *)

Section binary.
Context {K : Type} `{PubKeys K} `{Protowire}.
Context `{ProtoCodec pb_Version} `{ProtoCodec pb_Header} `{ProtoCodec pb_SignedHeader}
        `{ProtoCodec pb_DAHeaderEnvelope} `{ProtoCodec pb_P2PSignedHeader} `{ProtoCodec pb_Metadata}
        `{ProtoCodec pb_Data} `{ProtoCodec pb_P2PData} `{ProtoCodec pb_SignedData}.

Definition Metadata_MarshalBinary (m : Metadata) : res bytes := proto_Marshal (Metadata_ToProto m).
Definition Metadata_UnmarshalBinary (bz : bytes) : res Metadata :=
  let? p := proto_Unmarshal bz in Metadata_FromProto (Some p).
Definition Header_MarshalBinary (h : Header) : res bytes := proto_Marshal (Header_ToProto h).
Definition Header_UnmarshalBinary (bz : bytes) : res Header :=
  let? p := proto_Unmarshal bz in Header_FromProto (Some p).
Definition Data_MarshalBinary (d : Data) : res bytes := proto_Marshal (Data_ToProto d).
Definition Data_UnmarshalBinary (bz : bytes) : res Data :=
  let? p := proto_Unmarshal bz in Data_FromProto (Some p).
Definition SignedHeader_MarshalBinary (sh : SignedHeader K) : res bytes :=
  let? p := SignedHeader_ToProto sh in proto_Marshal p.
Definition SignedHeader_UnmarshalBinary (bz : bytes) : res (SignedHeader K) :=
  let? p := proto_Unmarshal bz in SignedHeader_FromProto (Some p).
Definition SignedData_MarshalBinary (sd : SignedData K) : res bytes :=
  let? p := SignedData_ToProto sd in proto_Marshal p.
Definition SignedData_UnmarshalBinary (recv : SignedData K) (bz : bytes) : res (SignedData K) :=
  let? p := proto_Unmarshal bz in SignedData_FromProto recv (Some p).
Definition MarshalDAEnvelope (sh : SignedHeader K) (sig : bytes) : res bytes :=
  let? p := ToDAEnvelopeProto sh sig in proto_Marshal p.
Definition UnmarshalDAEnvelope (bz : bytes) : res (SignedHeader K * bytes) :=
  let? p := proto_Unmarshal bz in
  let? sh := FromDAEnvelopeProto (Some p) in Ok (sh, pde_EnvelopeSignature p).

Definition P2PSignedHeader_MarshalBinary (p : P2PSignedHeader K) : res bytes :=
  let? psh := SignedHeader_ToProto (p2p_Header p) in
  proto_Marshal {| pp_Header := psh_Header psh; pp_Signature := psh_Signature psh;
                   pp_Signer := psh_Signer psh; pp_DaHeightHint := Some (p2p_HeaderHint p) |}.
(** [hint] is the receiver's hint, kept when the message has none. *)
Definition P2PSignedHeader_UnmarshalBinary (hint : Z) (bz : bytes) : res (P2PSignedHeader K) :=
  let? msg := proto_Unmarshal bz in
  let? sh := SignedHeader_FromProto (Some {| psh_Header := pp_Header msg;
               psh_Signature := pp_Signature msg; psh_Signer := pp_Signer msg |}) in
  Ok {| p2p_Header := sh; p2p_HeaderHint := default hint (pp_DaHeightHint msg) |}.
Definition P2PData_MarshalBinary (p : P2PData) : res bytes :=
  let pData := Data_ToProto (p2p_Data p) in
  proto_Marshal {| ppd_Metadata := pd_Metadata pData; ppd_Txs := pd_Txs pData;
                   ppd_DaHeightHint := Some (p2p_DataHint p) |}.
Definition P2PData_UnmarshalBinary (hint : Z) (bz : bytes) : res P2PData :=
  let? msg := proto_Unmarshal bz in
  let? d := Data_FromProto (Some {| pd_Metadata := ppd_Metadata msg; pd_Txs := ppd_Txs msg |}) in
  Ok {| p2p_Data := d; p2p_DataHint := default hint (ppd_DaHeightHint msg) |}.

(** [marshalLegacyHeader]: fields in the order of the historical message. *)
Definition marshalLegacyHeader (h : Header) : res bytes :=
  let clone := ApplyLegacyDefaults (Header_Clone h) in
  let legacy := default no_legacy (Legacy clone) in
  let? versionBytes := proto_Marshal {| pv_Block := Block (hd_Version clone);
                                        pv_App := App (hd_Version clone) |} in
  let payload := AppendTag 1 BytesType ++ AppendVarint (blen versionBytes) ++ versionBytes in
  let payload := payload ++ AppendTag 2 VarintType ++ AppendVarint (hd_Height clone) in
  let payload := payload ++ AppendTag 3 VarintType ++ AppendVarint (hd_Time clone) in
  let payload := append_if payload 4 (Some (LastHeaderHash clone)) in
  let payload := append_if payload legacyLastCommitHashField (LastCommitHash legacy) in
  let payload := append_if payload 6 (Some (DataHash clone)) in
  let payload := append_if payload legacyConsensusHashField (ConsensusHash legacy) in
  let payload := append_if payload 8 (Some (AppHash clone)) in
  let payload := append_if payload legacyLastResultsHashField (LastResultsHash legacy) in
  let payload := append_if payload 10 (Some (ProposerAddress clone)) in
  let payload := append_if payload 11 (Some (ValidatorHash clone)) in
  Ok (append_if payload 12 (Some (String.list_byte_of_string (hd_ChainID clone)))).

End binary.

(** ** The legacy codec *)

Section legacy.
Context `{ProtowireLaws}.

Lemma decode_loop_total fuel u l : (length u < fuel)%nat -> decode_loop fuel u l <> Err out_of_fuel.
Proof.
  revert u l. induction fuel as [|fuel IH]; intros u l Hf; [lia|].
  destruct u as [|b u']; [done|]. set (u := b :: u') in *. cbn [decode_loop].
  destruct (ConsumeTag u) as [[[n t] k]|] eqn:E; [|done]. fold u.
  apply ConsumeTag_progress in E.
  assert (Hlen : forall j, (length (drop j (drop k u)) < fuel)%nat)
    by (intros j; rewrite !length_drop; lia).
  destruct (is_legacy_field n); [destruct (decide (t = BytesType)) as [->|]|].
  - destruct (ConsumeBytes _) as [[v sz]|]; [|done]. destruct (_ <? _); [done|apply IH, Hlen].
  - destruct (ConsumeFieldValue _ _ _); [apply IH, Hlen|done].
  - destruct (ConsumeFieldValue _ _ _); [apply IH, Hlen|done].
Qed.

Lemma decode_loop_fuel f1 f2 u l : (length u < f1)%nat -> (length u < f2)%nat ->
  decode_loop f1 u l = decode_loop f2 u l.
Proof.
  revert f2 u l. induction f1 as [|f1 IH]; intros [|f2] u l H1 H2; try lia.
  destruct u as [|b u']; [done|]. set (u := b :: u') in *. cbn [decode_loop]. fold u.
  destruct (ConsumeTag u) as [[[n t] k]|] eqn:E; [|done].
  apply ConsumeTag_progress in E.
  assert (Hrec : forall j l, decode_loop f1 (drop j (drop k u)) l = decode_loop f2 (drop j (drop k u)) l)
    by (intros j l0; apply IH; rewrite !length_drop; lia).
  destruct (is_legacy_field n); [destruct (decide (t = BytesType)) as [->|]|].
  - destruct (ConsumeBytes _) as [[v sz]|]; [|done]. destruct (_ <? _); [done|apply Hrec].
  - destruct (ConsumeFieldValue _ _ _); [apply Hrec|done].
  - destruct (ConsumeFieldValue _ _ _); [apply Hrec|done].
Qed.

Definition decode_all (u : bytes) (l : LegacyHeaderFields) : res LegacyHeaderFields :=
  decode_loop (S (length u)) u l.

Lemma legacy_field_range n : is_legacy_field n = true -> 1 <= n < 16.
Proof.
  unfold is_legacy_field, legacyLastCommitHashField, legacyConsensusHashField,
    legacyLastResultsHashField.
  destruct (Z.eqb_spec n 5), (Z.eqb_spec n 7), (Z.eqb_spec n 9); done || lia.
Qed.

Lemma decode_loop_field fuel n v rest l :
  is_legacy_field n = true -> blen v <= maxLegacyHashSize ->
  decode_loop (S fuel) (AppendTag n BytesType ++ AppendVarint (blen v) ++ v ++ rest) l =
  decode_loop fuel rest (set_field n v l).
Proof.
  intros Hn Hv. pose proof (legacy_field_range n Hn) as Hr.
  pose proof (AppendTag_short n BytesType Hr) as Ht.
  destruct (AppendTag n BytesType ++ AppendVarint (blen v) ++ v ++ rest) as [|b u'] eqn:Eu.
  { apply app_nil in Eu as [Eu _]. rewrite Eu in Ht. simpl in Ht. lia. }
  cbn [decode_loop]. rewrite <- Eu.
  rewrite ConsumeTag_Append by done. rewrite drop_app_length, Hn, decide_True by done.
  rewrite ConsumeBytes_Append by (unfold maxLegacyHashSize, two63 in *; lia).
  destruct (Z.ltb_spec maxLegacyHashSize (blen v)); [lia|].
  rewrite app_assoc, drop_app_length' by (rewrite length_app; done). done.
Qed.

Lemma decode_all_field n v rest l : is_legacy_field n = true -> blen v <= maxLegacyHashSize ->
  decode_all (AppendTag n BytesType ++ AppendVarint (blen v) ++ v ++ rest) l =
  decode_all rest (set_field n v l).
Proof.
  intros Hn Hv. unfold decode_all. set (u := AppendTag n BytesType ++ _).
  rewrite (decode_loop_fuel _ (S (S (length u)))) by lia.
  unfold u at 2. rewrite decode_loop_field by done.
  apply decode_loop_fuel; unfold u; rewrite ?length_app; lia.
Qed.

Lemma append_if_app buf n v : append_if buf n v = buf ++ append_if [] n v.
Proof. destruct v as [[|]|]; simpl; rewrite ?app_nil_r; done. Qed.

(** A field as it comes back: absent when empty. *)
Definition set_opt (n : Z) (v : option bytes) (l : LegacyHeaderFields) : LegacyHeaderFields :=
  match cloneBytes v with None => l | Some v => set_field n v l end.

Lemma decode_all_opt n v rest l : is_legacy_field n = true -> opt_len v <= maxLegacyHashSize ->
  decode_all (append_if [] n v ++ rest) l = decode_all rest (set_opt n v l).
Proof.
  intros Hn Hv. destruct v as [[|b v]|]; simpl; [done| |done].
  unfold appendBytesField. simpl. rewrite <- !app_assoc. by apply decode_all_field.
Qed.

Definition legacy_small (l : option LegacyHeaderFields) : Prop :=
  match l with
  | None => True
  | Some l => opt_len (LastCommitHash l) <= maxLegacyHashSize /\
              opt_len (ConsensusHash l) <= maxLegacyHashSize /\
              opt_len (LastResultsHash l) <= maxLegacyHashSize
  end.

(** The canonical form: no block when every field is empty, nil for empty fields. *)
Definition norm_legacy (l : option LegacyHeaderFields) : option LegacyHeaderFields :=
  if legacy_IsZero l then None else legacy_Clone l.

Lemma length_append_if n v : 1 <= n < 16 -> opt_len v <= maxLegacyHashSize ->
  blen (append_if [] n v) <= 1044.
Proof.
  intros Hn Hv. destruct v as [[|b v]|]; [done| |done]. cbn [append_if]. unfold appendBytesField.
  rewrite app_nil_l, !blen_app. pose proof (AppendTag_short n BytesType Hn).
  cbn [opt_len] in Hv. pose proof (AppendVarint_short (blen (b :: v))) as Hs.
  pose proof (blen_nonneg (b :: v)). unfold maxLegacyHashSize in *. specialize (Hs ltac:(lia)).
  unfold blen in *. lia.
Qed.

Lemma append_if_nonempty n v : 1 <= n < 16 -> opt_len v <> 0 -> append_if [] n v <> [].
Proof.
  intros Hn Hv. destruct v as [[|b v]|]; [done| |done]. simpl. unfold appendBytesField.
  pose proof (AppendTag_short n BytesType Hn) as Ht.
  destruct (AppendTag n BytesType); [simpl in Ht; lia|done].
Qed.

Lemma opt_len_nonneg v : 0 <= opt_len v.
Proof. destruct v; simpl; [apply blen_nonneg|lia]. Qed.

Lemma decode_encode_legacy l : legacy_small l ->
  decodeLegacyHeaderFields (encodeLegacyUnknownFields l) = Ok (norm_legacy l).
Proof.
  intros Hs. unfold decodeLegacyHeaderFields, encodeLegacyUnknownFields, norm_legacy.
  destruct l as [l|]; [|done]. destruct (legacy_IsZero (Some l)) eqn:Ez; [done|].
  destruct Hs as (H5 & H7 & H9).
  rewrite (append_if_app (append_if (append_if _ _ _) _ _)), (append_if_app (append_if _ _ _)).
  set (f5 := append_if [] legacyLastCommitHashField _). set (f7 := append_if [] legacyConsensusHashField _).
  set (f9 := append_if [] legacyLastResultsHashField _). rewrite <- app_assoc.
  assert (Hne : f5 ++ f7 ++ f9 <> []).
  { intros E. apply app_nil in E as [E5 E]. apply app_nil in E as [E7 E9]. simpl in Ez.
    destruct (Z.eqb_spec (opt_len (LastCommitHash l)) 0), (Z.eqb_spec (opt_len (ConsensusHash l)) 0),
      (Z.eqb_spec (opt_len (LastResultsHash l)) 0); try done;
      [eapply (append_if_nonempty 9); [lia| |exact E9]|..];
      first [done | by eapply (append_if_nonempty 9); [lia| |exact E9]
            | by eapply (append_if_nonempty 7); [lia| |exact E7]
            | by eapply (append_if_nonempty 5); [lia| |exact E5]]. }
  assert (Hbl : 0 < blen (f5 ++ f7 ++ f9) <= maxUnknownFieldSize).
  { split; [destruct (f5 ++ f7 ++ f9); [done|rewrite blen_cons; pose proof (blen_nonneg l0); lia]|].
    rewrite !blen_app. pose proof (length_append_if 5 (LastCommitHash l) ltac:(lia) H5).
    pose proof (length_append_if 7 (ConsensusHash l) ltac:(lia) H7).
    pose proof (length_append_if 9 (LastResultsHash l) ltac:(lia) H9).
    unfold maxUnknownFieldSize. subst f5 f7 f9. unfold legacyLastCommitHashField,
      legacyConsensusHashField, legacyLastResultsHashField. lia. }
  destruct (Z.eqb_spec (blen (f5 ++ f7 ++ f9)) 0); [lia|].
  destruct (Z.ltb_spec maxUnknownFieldSize (blen (f5 ++ f7 ++ f9))); [lia|].
  fold (decode_all (f5 ++ f7 ++ f9) no_legacy).
  unfold f5. rewrite decode_all_opt by done. unfold f7. rewrite decode_all_opt by done.
  rewrite <- (app_nil_r f9). unfold f9. rewrite decode_all_opt by done.
  unfold decode_all. cbn [decode_loop res_bind length].
  destruct l as [[[|? ?]|] [[|? ?]|] [[|? ?]|]]; simpl in *; try done.
Qed.

End legacy.

(** ** Round trips *)

(** proto3 strings must be UTF-8; ASCII is enough for chain ids. *)
Fixpoint ascii_string (s : string) : bool :=
  match s with
  | EmptyString => true
  | String.String c s' => (Z.of_N (Ascii.N_of_ascii c) <? 128) && ascii_string s'
  end.

Definition version_valid (v : option pb_Version) : Prop :=
  match v with None => True | Some v => is_u64 (pv_Block v) /\ is_u64 (pv_App v) end.
Definition pb_header_valid (h : pb_Header) : Prop :=
  version_valid (ph_Version h) /\ is_u64 (ph_Height h) /\ is_u64 (ph_Time h) /\
  ascii_string (ph_ChainId h) = true.
Definition opt_valid {A} (P : A -> Prop) (o : option A) : Prop :=
  match o with None => True | Some a => P a end.

#[global] Instance pb_Version_msg : ProtoMsg pb_Version := fun v => version_valid (Some v).
#[global] Instance pb_Header_msg : ProtoMsg pb_Header := pb_header_valid.
#[global] Instance pb_SignedHeader_msg : ProtoMsg pb_SignedHeader :=
  fun m => opt_valid pb_header_valid (psh_Header m).
#[global] Instance pb_DAHeaderEnvelope_msg : ProtoMsg pb_DAHeaderEnvelope :=
  fun m => opt_valid pb_header_valid (pde_Header m).
#[global] Instance pb_P2PSignedHeader_msg : ProtoMsg pb_P2PSignedHeader :=
  fun m => opt_valid pb_header_valid (pp_Header m) /\ opt_valid is_u64 (pp_DaHeightHint m).
#[global] Instance pb_Metadata_msg : ProtoMsg pb_Metadata :=
  fun m => ascii_string (pm_ChainId m) = true /\ is_u64 (pm_Height m) /\ is_u64 (pm_Time m).
#[global] Instance pb_Data_msg : ProtoMsg pb_Data :=
  fun m => opt_valid (A := pb_Metadata) proto_valid (pd_Metadata m).
#[global] Instance pb_P2PData_msg : ProtoMsg pb_P2PData :=
  fun m => opt_valid (A := pb_Metadata) proto_valid (ppd_Metadata m) /\
           opt_valid is_u64 (ppd_DaHeightHint m).
#[global] Instance pb_SignedData_msg : ProtoMsg pb_SignedData :=
  fun m => opt_valid (A := pb_Data) proto_valid (psd_Data m).
#[global] Instance pb_State_msg : ProtoMsg pb_State :=
  fun m => version_valid (pst_Version m) /\ ascii_string (pst_ChainId m) = true /\
           is_u64 (pst_InitialHeight m) /\ is_u64 (pst_LastBlockHeight m) /\ is_u64 (pst_DaHeight m) /\
           opt_valid (fun t : Z * Z => is_i64 t.1 /\ 0 <= t.2 < 1000000000) (pst_LastBlockTime m).

Definition header_valid (h : Header) : Prop :=
  is_u64 (Block (hd_Version h)) /\ is_u64 (App (hd_Version h)) /\ is_u64 (hd_Height h) /\
  is_u64 (hd_Time h) /\ ascii_string (hd_ChainID h) = true /\ legacy_small (Legacy h).
Definition data_valid (d : Data) : Prop :=
  opt_valid (fun m => ascii_string (md_ChainID m) = true /\ is_u64 (md_Height m) /\
                      is_u64 (md_Time m)) (dt_Metadata d).

(** A header as it comes back from the wire. *)
Definition norm_header (h : Header) : Header := set_legacy h (norm_legacy (Legacy h)).

Section roundtrip.
Context {K : Type} `{PubKeysLaws K} `{ProtowireLaws}.

Lemma header_proto_roundtrip h : header_valid h ->
  Header_FromProto (Some (Header_ToProto h)) = Ok (norm_header h) /\
  pb_header_valid (Header_ToProto h).
Proof.
  intros (Hb & Ha & Hh & Ht & Hc & Hl). split.
  - unfold Header_FromProto. simpl. rewrite decode_encode_legacy by done. simpl.
    unfold norm_header, set_legacy. by destruct h as [? ? ? [? ?]].
  - unfold pb_header_valid. simpl. auto.
Qed.

(** A signer whose cached key, if any, is the key. *)
Definition signer_ok (s : Signer K) : Prop :=
  marshalledPubKey s <> [] -> exists k, PubKey s = Some k /\ pk_Unmarshal (marshalledPubKey s) = Ok k.

(** The key survives, and with it the address; a signer without a key loses its address. *)
Definition same_signer (s s' : Signer K) : Prop :=
  PubKey s' = PubKey s /\ (PubKey s <> None -> Address s' = Address s) /\
  (PubKey s = None -> s' = zero_signer).

Lemma signer_proto_roundtrip s : signer_ok s -> exists p s',
  Signer_ToProto s = Ok p /\ Signer_FromProto (Some p) = Ok s' /\ same_signer s s'.
Proof.
  intros Hs. unfold Signer_ToProto, MarshalledPubKey, Signer_FromProto.
  destruct s as [[k|] addr cached]; simpl.
  - destruct cached as [|c cs].
    + destruct (pk_roundtrip k) as ([|b bz] & -> & Hne & Hu); [done|]. simpl. eexists _, _.
      split; [done|]. simpl. rewrite Hu. by repeat split.
    + destruct (Hs ltac:(done)) as (k' & [= <-] & Hu). simpl in Hu. eexists _, _.
      split; [done|]. simpl. rewrite Hu. by repeat split.
  - eexists _, _. split; [done|]. split; [done|]. by repeat split.
Qed.

Lemma data_proto_roundtrip d : data_valid d ->
  Data_FromProto (Some (Data_ToProto d)) = Ok d /\ proto_valid (Data_ToProto d).
Proof.
  intros Hd. destruct d as [[[c h t l]|] txs]; simpl in *; split; try done.
Qed.

Lemma state_proto_roundtrip s : State_FromProto (Some (State_ToProto s)) = Ok s.
Proof.
  destruct s as [[b a] c i lh lt hh d ah]. simpl. do 2 f_equal.
  rewrite Z.mul_comm. symmetry. apply Z.div_mod. lia.
Qed.

Context `{C1 : ProtoCodec pb_SignedHeader} `{L1 : !ProtoCodecLaws pb_SignedHeader}.
Context `{C2 : ProtoCodec pb_DAHeaderEnvelope} `{L2 : !ProtoCodecLaws pb_DAHeaderEnvelope}.
Context `{C3 : ProtoCodec pb_P2PSignedHeader} `{L3 : !ProtoCodecLaws pb_P2PSignedHeader}.
Context `{C4 : ProtoCodec pb_Data} `{L4 : !ProtoCodecLaws pb_Data}.
Context `{C5 : ProtoCodec pb_P2PData} `{L5 : !ProtoCodecLaws pb_P2PData}.
Context `{C6 : ProtoCodec pb_SignedData} `{L6 : !ProtoCodecLaws pb_SignedData}.

Definition same_header (sh sh' : SignedHeader K) : Prop :=
  sh_Header sh' = norm_header (sh_Header sh) /\ sh_Signature sh' = sh_Signature sh /\
  same_signer (sh_Signer sh) (sh_Signer sh').

Lemma signed_header_binary (sh : SignedHeader K) :
  header_valid (sh_Header sh) -> signer_ok (sh_Signer sh) ->
  exists b sh', SignedHeader_MarshalBinary sh = Ok b /\ SignedHeader_UnmarshalBinary b = Ok sh' /\
    same_header sh sh'.
Proof.
  intros Hh Hs. destruct (header_proto_roundtrip _ Hh) as [Hrt Hv].
  destruct (signer_proto_roundtrip _ Hs) as (p & s' & Hto & Hfrom & Hsame).
  destruct (proto_roundtrip (A := pb_SignedHeader)
    {| psh_Header := Some (Header_ToProto (sh_Header sh)); psh_Signature := sh_Signature sh;
       psh_Signer := Some p |} Hv) as (b & E & U).
  exists b, {| sh_Header := norm_header (sh_Header sh); sh_Signature := sh_Signature sh; sh_Signer := s' |}.
  unfold SignedHeader_MarshalBinary, SignedHeader_UnmarshalBinary, SignedHeader_ToProto.
  rewrite Hto. cbn [res_bind]. rewrite E, U. cbn [res_bind]. unfold SignedHeader_FromProto.
  cbn [psh_Header psh_Signature psh_Signer]. rewrite Hrt. cbn [res_bind]. rewrite Hfrom. done.
Qed.

Lemma data_binary (d : Data) : data_valid d ->
  exists b, Data_MarshalBinary d = Ok b /\ Data_UnmarshalBinary b = Ok d.
Proof.
  intros Hd. destruct (data_proto_roundtrip d Hd) as [Hrt Hv].
  destruct (proto_roundtrip (Data_ToProto d) Hv) as (b & E & U).
  exists b. unfold Data_MarshalBinary, Data_UnmarshalBinary. by rewrite E, U.
Qed.

(** A signer that came back from the wire is sent in the same way again. *)
Lemma signer_resent s p s' : signer_ok s -> Signer_ToProto s = Ok p -> Signer_FromProto (Some p) = Ok s' ->
  Signer_ToProto s' = Ok p.
Proof.
  intros Hs. unfold Signer_ToProto, MarshalledPubKey. destruct s as [[k|] addr cached]; simpl.
  - destruct cached as [|c cs].
    + destruct (pk_roundtrip k) as ([|b bz] & -> & Hne & Hu); [done|]. simpl. intros [= <-]. simpl. rewrite Hu.
      by intros [= <-].
    + destruct (Hs ltac:(done)) as (k' & [= <-] & Hu). simpl in Hu. intros [= <-]. simpl. rewrite Hu. by intros [= <-].
  - intros [= <-]. by intros [= <-].
Qed.

(** A header in its DA envelope; without legacy fields the decoded header marshals to the same bytes. *)
Lemma envelope_binary (sh : SignedHeader K) (sig : bytes) : header_valid (sh_Header sh) -> signer_ok (sh_Signer sh) ->
  exists b sh', MarshalDAEnvelope sh sig = Ok b /\ UnmarshalDAEnvelope b = Ok (sh', sig) /\ same_header sh sh' /\
    (Legacy (sh_Header sh) = None -> SignedHeader_MarshalBinary sh' = SignedHeader_MarshalBinary sh) /\
    signer_ok (sh_Signer sh').
Proof.
  intros Hh Hs. destruct (header_proto_roundtrip _ Hh) as [Hrt Hv].
  destruct (signer_proto_roundtrip _ Hs) as (p & s' & Hto & Hfrom & Hsame).
  set (ph := Some (Header_ToProto (sh_Header sh))).
  destruct (proto_roundtrip (A := pb_DAHeaderEnvelope)
    {| pde_Header := ph; pde_Signature := sh_Signature sh; pde_Signer := Some p;
       pde_EnvelopeSignature := sig |} Hv) as (b & E & U).
  exists b, {| sh_Header := norm_header (sh_Header sh); sh_Signature := sh_Signature sh; sh_Signer := s' |}.
  unfold MarshalDAEnvelope, UnmarshalDAEnvelope, ToDAEnvelopeProto. rewrite Hto. cbn [res_bind]. fold ph. rewrite E, U.
  cbn [res_bind]. unfold FromDAEnvelopeProto. cbn [pde_Header pde_Signature pde_Signer pde_EnvelopeSignature].
  unfold ph. rewrite Hrt. cbn [res_bind]. rewrite Hfrom. split_and!; try done.
  - intros Hl. unfold SignedHeader_MarshalBinary, SignedHeader_ToProto. cbn [sh_Signer sh_Header sh_Signature].
    rewrite Hto, (signer_resent _ _ _ Hs Hto Hfrom). cbn [res_bind].
    assert (En : norm_header (sh_Header sh) = sh_Header sh) by (destruct (sh_Header sh); simpl in Hl; by subst).
    by rewrite En.
  - cbn [sh_Signer]. unfold Signer_FromProto in Hfrom. intros Hne. destruct (ps_PubKey p) as [|x l]; [by injection Hfrom as <-|].
    destruct (pk_Unmarshal (x :: l)) as [k|] eqn:Ek; [|done]. injection Hfrom as <-. by exists k.
Qed.

(** Signed data. *)
Lemma signed_data_binary (recv sd : SignedData K) : data_valid (sd_Data sd) -> signer_ok (sd_Signer sd) ->
  exists b sd' p, SignedData_MarshalBinary sd = Ok b /\ SignedData_UnmarshalBinary recv b = Ok sd' /\
    sd_Data sd' = sd_Data sd /\ sd_Signature sd' = sd_Signature sd /\ same_signer (sd_Signer sd) (sd_Signer sd') /\
    proto_Unmarshal b = Ok p /\ psd_Data p <> None.
Proof.
  intros Hd Hs. destruct (data_proto_roundtrip _ Hd) as [Hrt Hv].
  destruct (signer_proto_roundtrip _ Hs) as (p & s' & Hto & Hfrom & Hsame).
  destruct (proto_roundtrip (A := pb_SignedData) {| psd_Data := Some (Data_ToProto (sd_Data sd));
    psd_Signature := sd_Signature sd; psd_Signer := Some p |} Hv) as (b & E & U).
  eexists b, {| sd_Data := sd_Data sd; sd_Signature := sd_Signature sd; sd_Signer := s' |}, _.
  unfold SignedData_MarshalBinary, SignedData_UnmarshalBinary, SignedData_ToProto. rewrite Hto. cbn [res_bind].
  rewrite E, U. cbn [res_bind]. unfold SignedData_FromProto. cbn [psd_Data psd_Signature psd_Signer].
  rewrite Hrt. cbn [res_bind]. rewrite Hfrom. by split_and!.
Qed.

(** C17: Every binary form of a signed header (plain, DA envelope, P2P envelope) is produced without
    error and decodes to the same header, signature and signer: the legacy block comes back in
    canonical form, the envelope signature and the DA height hint exactly. *)
Theorem signed_header_roundtrip (sh : SignedHeader K) (sig : bytes) (hint hint0 : Z)
  (Hh : header_valid (sh_Header sh)) (Hs : signer_ok (sh_Signer sh)) (Hu : is_u64 hint) :
  exists b1 b2 b3 s1 s2 s3,
    SignedHeader_MarshalBinary sh = Ok b1 /\ SignedHeader_UnmarshalBinary b1 = Ok s1 /\
    same_header sh s1 /\
    MarshalDAEnvelope sh sig = Ok b2 /\ UnmarshalDAEnvelope b2 = Ok (s2, sig) /\
    same_header sh s2 /\
    P2PSignedHeader_MarshalBinary {| p2p_Header := sh; p2p_HeaderHint := hint |} = Ok b3 /\
    P2PSignedHeader_UnmarshalBinary hint0 b3 = Ok {| p2p_Header := s3; p2p_HeaderHint := hint |} /\
    same_header sh s3.
Proof.
  destruct (header_proto_roundtrip _ Hh) as [Hrt Hv].
  destruct (signer_proto_roundtrip _ Hs) as (p & s' & Hto & Hfrom & Hsame).
  set (sh' := {| sh_Header := norm_header (sh_Header sh); sh_Signature := sh_Signature sh;
                 sh_Signer := s' |}).
  unfold SignedHeader_MarshalBinary, MarshalDAEnvelope, P2PSignedHeader_MarshalBinary,
    SignedHeader_UnmarshalBinary, UnmarshalDAEnvelope, P2PSignedHeader_UnmarshalBinary,
    SignedHeader_ToProto, ToDAEnvelopeProto.
  cbn [p2p_Header p2p_HeaderHint]. rewrite Hto. cbn [res_bind psh_Header psh_Signature psh_Signer].
  set (ph := Some (Header_ToProto (sh_Header sh))).
  destruct (proto_roundtrip (A := pb_SignedHeader)
    {| psh_Header := ph; psh_Signature := sh_Signature sh; psh_Signer := Some p |} Hv)
    as (b1 & E1 & U1).
  destruct (proto_roundtrip (A := pb_DAHeaderEnvelope)
    {| pde_Header := ph; pde_Signature := sh_Signature sh; pde_Signer := Some p;
       pde_EnvelopeSignature := sig |} Hv) as (b2 & E2 & U2).
  destruct (proto_roundtrip (A := pb_P2PSignedHeader)
    {| pp_Header := ph; pp_Signature := sh_Signature sh; pp_Signer := Some p;
       pp_DaHeightHint := Some hint |} (conj Hv Hu)) as (b3 & E3 & U3).
  exists b1, b2, b3, sh', sh', sh'. rewrite E1, E2, E3, U1, U2, U3. cbn [res_bind].
  unfold SignedHeader_FromProto, FromDAEnvelopeProto.
  cbn [psh_Header psh_Signature psh_Signer pde_Header pde_Signature pde_Signer
       pp_Header pp_Signature pp_Signer pp_DaHeightHint pde_EnvelopeSignature].
  unfold ph. rewrite Hrt. cbn [res_bind]. rewrite Hfrom. split_and!; done.
Qed.

(** Block data, with or without metadata, alone, in a P2P envelope or signed, and the chain state
    survive serialization unchanged (a signed block's key and address as for signed headers). *)
Theorem data_roundtrip (d : Data) (recv sd : SignedData K) (st : State) (hint hint0 : Z)
  (Hd : data_valid d) (Hsd : sd_Data sd = d) (Hs : signer_ok (sd_Signer sd)) (Hu : is_u64 hint) :
  exists b1 b2 b3 sd',
    Data_MarshalBinary d = Ok b1 /\ Data_UnmarshalBinary b1 = Ok d /\
    P2PData_MarshalBinary {| p2p_Data := d; p2p_DataHint := hint |} = Ok b2 /\
    P2PData_UnmarshalBinary hint0 b2 = Ok {| p2p_Data := d; p2p_DataHint := hint |} /\
    SignedData_MarshalBinary sd = Ok b3 /\ SignedData_UnmarshalBinary recv b3 = Ok sd' /\
    sd_Data sd' = d /\ sd_Signature sd' = sd_Signature sd /\
    same_signer (sd_Signer sd) (sd_Signer sd') /\
    State_FromProto (Some (State_ToProto st)) = Ok st.
Proof.
  destruct (data_proto_roundtrip d Hd) as [Hrt Hv].
  destruct (signer_proto_roundtrip _ Hs) as (p & s' & Hto & Hfrom & Hsame).
  unfold Data_MarshalBinary, P2PData_MarshalBinary, SignedData_MarshalBinary, Data_UnmarshalBinary,
    P2PData_UnmarshalBinary, SignedData_UnmarshalBinary, SignedData_ToProto. rewrite Hto, Hsd.
  cbn [res_bind p2p_Data p2p_DataHint].
  destruct (proto_roundtrip (Data_ToProto d) Hv) as (b1 & E1 & U1).
  destruct (proto_roundtrip (A := pb_P2PData) {| ppd_Metadata := pd_Metadata (Data_ToProto d);
    ppd_Txs := pd_Txs (Data_ToProto d); ppd_DaHeightHint := Some hint |} (conj Hv Hu)) as (b2 & E2 & U2).
  destruct (proto_roundtrip (A := pb_SignedData) {| psd_Data := Some (Data_ToProto d);
    psd_Signature := sd_Signature sd; psd_Signer := Some p |} Hv) as (b3 & E3 & U3).
  exists b1, b2, b3, {| sd_Data := d; sd_Signature := sd_Signature sd; sd_Signer := s' |}.
  rewrite E1, E2, E3, U1, U2, U3. cbn [res_bind ppd_Metadata ppd_Txs ppd_DaHeightHint].
  unfold SignedData_FromProto. cbn [psd_Data psd_Signature psd_Signer].
  change {| pd_Metadata := pd_Metadata (Data_ToProto d); pd_Txs := pd_Txs (Data_ToProto d) |}
    with (Data_ToProto d).
  rewrite Hrt. cbn [res_bind]. rewrite Hfrom. split_and!; try done. apply state_proto_roundtrip.
Qed.

End roundtrip.

(** ** Reference instances: base-128 varints and a key that is its own bytes *)

Module RefWire.

Fixpoint put_varint (fuel : nat) (z : Z) : bytes :=
  match fuel with
  | O => []
  | S fuel => if z <? 128 then [Z_byte z] else Z_byte (z mod 128 + 128) :: put_varint fuel (z / 128)
  end.
Fixpoint get_varint (fuel : nat) (b : bytes) : option (Z * nat) :=
  match fuel, b with
  | S fuel, c :: b' =>
      if byte_Z c <? 128 then Some (byte_Z c, 1%nat)
      else match get_varint fuel b' with
           | Some (z, k) => Some (byte_Z c - 128 + 128 * z, S k)
           | None => None
           end
  | _, _ => None
  end.

Lemma get_put_varint fuel z rest : 0 <= z < 128 ^ Z.of_nat fuel -> (0 < fuel)%nat ->
  get_varint fuel (put_varint fuel z ++ rest) = Some (z, length (put_varint fuel z)).
Proof.
  revert z. induction fuel as [|fuel IH]; intros z Hz Hf; [lia|].
  rewrite Nat2Z.inj_succ, Z.pow_succ_r in Hz by lia. cbn [put_varint].
  destruct (Z.ltb_spec z 128).
  - simpl. rewrite byte_Z_byte, Z.mod_small by lia. by rewrite (proj2 (Z.ltb_lt _ _)).
  - cbn [app get_varint length]. rewrite byte_Z_byte.
    pose proof (Z.mod_pos_bound z 128 ltac:(lia)). pose proof (Z.div_mod z 128 ltac:(lia)).
    rewrite (Z.mod_small (z mod 128 + 128)) by lia.
    rewrite (proj2 (Z.ltb_ge (z mod 128 + 128) 128)) by lia.
    destruct fuel as [|fuel]; [simpl in Hz; lia|].
    assert (0 <= z / 128 < 128 ^ Z.of_nat (S fuel))
      by (split; [apply Z.div_pos; lia|apply Z.div_lt_upper_bound; lia]).
    rewrite IH by (done || lia).
    do 2 f_equal. lia.
Qed.

Lemma get_varint_le fuel b z k : get_varint fuel b = Some (z, k) -> (1 <= k <= length b)%nat.
Proof.
  revert b z k. induction fuel as [|fuel IH]; intros [|c b] z k; try done. cbn [get_varint].
  destruct (_ <? _); [intros [= <- <-]; simpl; lia|].
  destruct (get_varint fuel b) as [[z' k']|] eqn:E; [|done]. intros [= <- <-].
  apply IH in E. simpl. lia.
Qed.

Lemma length_put_varint fuel z : (length (put_varint fuel z) <= fuel)%nat.
Proof.
  revert z. induction fuel as [|fuel IH]; intros z; simpl; [lia|].
  destruct (z <? 128); simpl; [lia|]. specialize (IH (z / 128)). lia.
Qed.

Definition wt_code (t : wire_type) : Z :=
  match t with
  | VarintType => 0 | Fixed64Type => 1 | BytesType => 2 | StartGroupType => 3 | EndGroupType => 4
  | Fixed32Type => 5
  end.
Definition code_wt (z : Z) : option wire_type :=
  if z =? 0 then Some VarintType else if z =? 1 then Some Fixed64Type
  else if z =? 2 then Some BytesType else if z =? 3 then Some StartGroupType
  else if z =? 4 then Some EndGroupType else if z =? 5 then Some Fixed32Type else None.

#[export] Instance wire : Protowire := {
  AppendTag n t := put_varint 10 (n * 8 + wt_code t);
  AppendVarint z := put_varint 10 z;
  ConsumeTag b :=
    match get_varint 10 b with
    | Some (v, k) => match code_wt (v mod 8) with Some t => Some (v / 8, t, k) | None => None end
    | None => None
    end;
  ConsumeBytes b :=
    match get_varint 10 b with
    | Some (v, k) =>
        if (length b <? k + Z.to_nat v)%nat then None else Some (take (Z.to_nat v) (drop k b), (k + Z.to_nat v)%nat)
    | None => None
    end;
  ConsumeFieldValue n t b :=
    match t with
    | VarintType => snd <$> get_varint 10 b
    | Fixed32Type => if (length b <? 4)%nat then None else Some 4%nat
    | Fixed64Type => if (length b <? 8)%nat then None else Some 8%nat
    | BytesType => match get_varint 10 b with
                   | Some (v, k) => if (length b <? k + Z.to_nat v)%nat then None else Some (k + Z.to_nat v)%nat
                   | None => None end
    | _ => None
    end;
}.

#[export] Instance wire_laws : ProtowireLaws.
Proof.
  split.
  - intros n t rest Hn. cbn [ConsumeTag AppendTag wire].
    rewrite get_put_varint by (destruct t; simpl wt_code; lia).
    assert (E : (n * 8 + wt_code t) / 8 = n /\ (n * 8 + wt_code t) mod 8 = wt_code t).
    { assert (0 <= wt_code t < 8) by (destruct t; simpl; lia). Z.div_mod_to_equations; lia. }
    destruct E as [-> ->]. by destruct t.
  - intros b n t k. cbn [ConsumeTag wire]. destruct (get_varint 10 b) as [[v k']|] eqn:E; [|done].
    destruct (code_wt _); [|done]. intros [= _ _ <-]. by apply get_varint_le in E.
  - intros v rest Hv. cbn [ConsumeBytes AppendVarint wire].
    pose proof (blen_nonneg v) as Hnn.
    rewrite get_put_varint; [|unfold two63 in Hv;
      change (128 ^ Z.of_nat 10) with 1180591620717411303424; lia|lia].
    unfold blen. rewrite Nat2Z.id, !length_app.
    destruct (Nat.ltb_spec (length (put_varint 10 (Z.of_nat (length v))) + (length v + length rest))
      (length (put_varint 10 (Z.of_nat (length v))) + length v)); [lia|].
    rewrite drop_app_length, take_app_length. done.
  - intros z _. apply length_put_varint.
  - intros n t Hn. split; [|apply length_put_varint]. cbn [AppendTag wire put_varint].
    destruct (n * 8 + wt_code t <? 128); simpl; lia.
Qed.

#[export] Instance keys : PubKeys bytes := {
  pk_Raw k := Ok k;
  pk_Marshal k := Ok (x01 :: k);
  pk_Unmarshal b := match b with _ :: k => Ok k | [] => Err (EMsg "empty key") end;
  pk_Verify k m s := Ok (bytes_Equal s (k ++ m));
}.
#[export] Instance keys_laws : PubKeysLaws bytes.
Proof. split. intros k. exists (x01 :: k). done. Qed.

End RefWire.

(** ** Witnesses *)

Module TypesWitness.
Export RefWire.

Ltac record_countable f g := refine (inj_countable' f g _); intros []; reflexivity.

#[export] Instance e1 : EqDecision pb_Version. Proof. solve_decision. Defined.
#[export] Instance c1 : Countable pb_Version.
Proof. record_countable (fun m => (pv_Block m, pv_App m)) (fun p => Build_pb_Version p.1 p.2). Defined.
#[export] Instance e2 : EqDecision pb_Header. Proof. solve_decision. Defined.
#[export] Instance c2 : Countable pb_Header.
Proof.
  record_countable
    (fun m => (ph_Version m, ph_Height m, ph_Time m, ph_LastHeaderHash m, ph_DataHash m,
               (ph_AppHash m, ph_ProposerAddress m, ph_ValidatorHash m, ph_ChainId m, ph_unknown m)))
    (fun '(a, b, c, d, e, (f, g, h, i, j)) => Build_pb_Header a b c d e f g h i j).
Defined.
#[export] Instance e3 : EqDecision pb_Signer. Proof. solve_decision. Defined.
#[export] Instance c3 : Countable pb_Signer.
Proof. record_countable (fun m => (ps_Address m, ps_PubKey m)) (fun p => Build_pb_Signer p.1 p.2). Defined.
#[export] Instance e4 : EqDecision pb_SignedHeader. Proof. solve_decision. Defined.
#[export] Instance c4 : Countable pb_SignedHeader.
Proof.
  record_countable (fun m => (psh_Header m, psh_Signature m, psh_Signer m))
    (fun '(a, b, c) => Build_pb_SignedHeader a b c).
Defined.
#[export] Instance e5 : EqDecision pb_DAHeaderEnvelope. Proof. solve_decision. Defined.
#[export] Instance c5 : Countable pb_DAHeaderEnvelope.
Proof.
  record_countable (fun m => (pde_Header m, pde_Signature m, pde_Signer m, pde_EnvelopeSignature m))
    (fun '(a, b, c, d) => Build_pb_DAHeaderEnvelope a b c d).
Defined.
#[export] Instance e6 : EqDecision pb_P2PSignedHeader. Proof. solve_decision. Defined.
#[export] Instance c6 : Countable pb_P2PSignedHeader.
Proof.
  record_countable (fun m => (pp_Header m, pp_Signature m, pp_Signer m, pp_DaHeightHint m))
    (fun '(a, b, c, d) => Build_pb_P2PSignedHeader a b c d).
Defined.
#[export] Instance e7 : EqDecision pb_Metadata. Proof. solve_decision. Defined.
#[export] Instance c7 : Countable pb_Metadata.
Proof.
  record_countable (fun m => (pm_ChainId m, pm_Height m, pm_Time m, pm_LastDataHash m))
    (fun '(a, b, c, d) => Build_pb_Metadata a b c d).
Defined.
#[export] Instance e8 : EqDecision pb_Data. Proof. solve_decision. Defined.
#[export] Instance c8 : Countable pb_Data.
Proof. record_countable (fun m => (pd_Metadata m, pd_Txs m)) (fun p => Build_pb_Data p.1 p.2). Defined.
#[export] Instance e9 : EqDecision pb_P2PData. Proof. solve_decision. Defined.
#[export] Instance c9 : Countable pb_P2PData.
Proof.
  record_countable (fun m => (ppd_Metadata m, ppd_Txs m, ppd_DaHeightHint m))
    (fun '(a, b, c) => Build_pb_P2PData a b c).
Defined.
#[export] Instance e10 : EqDecision pb_SignedData. Proof. solve_decision. Defined.
#[export] Instance c10 : Countable pb_SignedData.
Proof.
  record_countable (fun m => (psd_Data m, psd_Signature m, psd_Signer m))
    (fun '(a, b, c) => Build_pb_SignedData a b c).
Defined.
#[export] Instance e11 : EqDecision pb_State. Proof. solve_decision. Defined.
#[export] Instance c11 : Countable pb_State.
Proof.
  record_countable
    (fun m => (pst_Version m, pst_ChainId m, pst_InitialHeight m, pst_LastBlockHeight m,
               (pst_LastBlockTime m, pst_DaHeight m, pst_AppHash m, pst_LastHeaderHash m)))
    (fun '(a, b, c, d, (e, f, g, h)) => Build_pb_State a b c d e f g h).
Defined.

#[export] Instance ref_codec A `{Countable A} : ProtoCodec A | 100 := RefCodec.codec A.
#[export] Instance ref_codec_laws A `{Countable A, ProtoMsg A} : ProtoCodecLaws A | 100 :=
  RefCodec.codec_laws A.

Definition w_header : Header := {|
  hd_Height := 7; hd_Time := 1000; hd_ChainID := "chain"; hd_Version := {| Block := 11; App := 1 |};
  LastHeaderHash := [x01]; DataHash := [x02]; AppHash := [x03]; ValidatorHash := [];
  ProposerAddress := [x05];
  Legacy := Some {| LastCommitHash := Some [x09]; ConsensusHash := Some []; LastResultsHash := None |} |}.

Definition w_signer : Signer bytes :=
  {| PubKey := Some [x07]; Address := [x05]; marshalledPubKey := [] |}.
Definition w_sh : SignedHeader bytes :=
  {| sh_Header := w_header; sh_Signature := [x07; x08]; sh_Signer := w_signer |}.

Lemma signed_header_roundtrip_witness :
  exists b1 b2 b3 s1 s2 s3,
    SignedHeader_MarshalBinary w_sh = Ok b1 /\ SignedHeader_UnmarshalBinary b1 = Ok s1 /\
    same_header w_sh s1 /\
    MarshalDAEnvelope w_sh [x2a] = Ok b2 /\ UnmarshalDAEnvelope b2 = Ok (s2, [x2a]) /\
    same_header w_sh s2 /\
    P2PSignedHeader_MarshalBinary {| p2p_Header := w_sh; p2p_HeaderHint := 9 |} = Ok b3 /\
    P2PSignedHeader_UnmarshalBinary 0 b3 = Ok {| p2p_Header := s3; p2p_HeaderHint := 9 |} /\
    same_header w_sh s3.
Proof.
  apply (signed_header_roundtrip w_sh [x2a] 9 0).
  - vm_compute. repeat split; discriminate.
  - intros Hne. destruct Hne. reflexivity.
  - vm_compute. split; [discriminate|reflexivity].
Defined.

Definition w_data : Data :=
  {| dt_Metadata := Some {| md_ChainID := "chain"; md_Height := 7; md_Time := 1000; LastDataHash := [] |};
     Txs := [[x01]; [x02; x03]] |}.
Definition w_sd : SignedData bytes :=
  {| sd_Data := w_data; sd_Signature := [x01]; sd_Signer := w_signer |}.
Definition w_state : State := {|
  st_Version := {| Block := 11; App := 0 |}; st_ChainID := "chain"; st_InitialHeight := 1;
  LastBlockHeight := 7; LastBlockTime := 1000000000123; st_LastHeaderHash := [x01]; st_DAHeight := 3;
  st_AppHash := [x03] |}.

Lemma data_roundtrip_witness :
  exists b1 b2 b3 sd',
    Data_MarshalBinary w_data = Ok b1 /\ Data_UnmarshalBinary b1 = Ok w_data /\
    P2PData_MarshalBinary {| p2p_Data := w_data; p2p_DataHint := 9 |} = Ok b2 /\
    P2PData_UnmarshalBinary 0 b2 = Ok {| p2p_Data := w_data; p2p_DataHint := 9 |} /\
    SignedData_MarshalBinary w_sd = Ok b3 /\ SignedData_UnmarshalBinary w_sd b3 = Ok sd' /\
    sd_Data sd' = w_data /\ sd_Signature sd' = sd_Signature w_sd /\
    same_signer (sd_Signer w_sd) (sd_Signer sd') /\
    State_FromProto (Some (State_ToProto w_state)) = Ok w_state.
Proof.
  apply (data_roundtrip w_data w_sd w_sd w_state 9 0).
  - vm_compute. repeat split; discriminate.
  - reflexivity.
  - intros Hne. destruct Hne. reflexivity.
  - vm_compute. split; [discriminate|reflexivity].
Defined.

End TypesWitness.
