(* ===== verification/Validation.v ===== *)
(** Hashing and validation of blocks (types/hashing.go, signed_header.go,
    data.go, header.go, state.go, signer.go, block/internal/common/empty.go). *)

From S2P Require Import Prelude Sha256 Interfaces Types.

Definition ErrNoProposerAddress : err := ESentinel "no proposer address".
Definition ErrProposerVerificationFailed : err := ESentinel "proposer verification failed".
Definition ErrInvalidTimestamp : err := ESentinel "invalid timestamp".
Definition ErrLastHeaderHashMismatch : err := ESentinel "last header hash mismatch".
Definition ErrSignatureVerificationFailed : err := ESentinel "signature verification failed".
Definition ErrProposerAddressMismatch : err := ESentinel "proposer address in SignedHeader does not match the proposer address in the validator set".
Definition ErrSignatureEmpty : err := ESentinel "signature is empty".
Definition nil_deref : err := EMsg "runtime error: nil pointer dereference".

(** One minute, in nanoseconds. *)
Definition MaxClockDrift : Z := 60000000000.

(** [time.Unix(0, int64(t))] *)
Definition unix_time (t : Z) : Z := i64 t.

Section validation.
Context {K : Type} `{PubKeys K} `{Protowire}.
Context `{CV : ProtoCodec pb_Version} `{CH : ProtoCodec pb_Header} `{CD : ProtoCodec pb_Data}.

(** ** Hashes *)

Definition HashSlim (h : Header) : res bytes :=
  let? bz := Header_MarshalBinary h in Ok (sha256_Sum256 bz).
Definition HashLegacy (h : Header) : res bytes :=
  let? bz := marshalLegacyHeader h in Ok (sha256_Sum256 bz).
(** The legacy hash when legacy fields are set, the slim one otherwise; nil on error. *)
Definition Header_Hash (h : Header) : bytes :=
  match HashSlim h with
  | Err _ => []
  | Ok slimHash =>
      if negb (legacy_IsZero (Legacy h))
      then match HashLegacy h with Ok legacyHash => legacyHash | Err _ => slimHash end
      else slimHash
  end.

Definition leafPrefix : bytes := [x00].
Definition leafHashOpt (leaf : bytes) : bytes := sha256_Sum256 (leafPrefix ++ leaf).

(** The error of the marshaller is ignored: it leaves a nil slice. *)
Definition marshal_or_nil (d : Data) : bytes :=
  match Data_MarshalBinary d with Ok bz => bz | Err _ => [] end.
Definition Data_Hash (d : Data) : bytes := leafHashOpt (marshal_or_nil d).
Definition DACommitment (d : Data) : bytes :=
  leafHashOpt (marshal_or_nil {| dt_Metadata := None; Txs := Txs d |}).

(** ** Signers *)

Definition NewSigner (k : K) : res (Signer K) :=
  let? bz := pk_Raw k in
  let? marshalled := pk_Marshal k in
  Ok {| PubKey := Some k; Address := sha256_Sum256 bz; marshalledPubKey := marshalled |}.
Definition KeyAddress (k : K) : bytes :=
  match pk_Raw k with Ok bz => sha256_Sum256 bz | Err _ => [] end.

(** ** Data *)

Definition Signature_ValidateBasic (signature : bytes) : res unit :=
  match signature with [] => Err ErrSignatureEmpty | _ => Ok tt end.

(** [Validate(header, data)] *)
Definition Validate (header : SignedHeader K) (data : Data) : res unit :=
  let h := sh_Header header in
  let metadata_ok :=
    match dt_Metadata data with
    | None => true
    | Some m => bool_decide (hd_ChainID h = md_ChainID m) && (hd_Height h =? md_Height m)
                && (unix_time (hd_Time h) =? unix_time (md_Time m))
    end in
  if negb metadata_ok then Err (EMsg "header and data do not match")
  else if negb (bytes_Equal (DACommitment {| dt_Metadata := None; Txs := Txs data |}) (DataHash h))
  then Err (EMsg "dataHash from the header does not match with hash of the block's data")
  else Ok tt.

(** [d.Verify(untrusted)]; reading the last data hash of data without metadata
    dereferences nil. *)
Definition Data_Verify (d : Data) (untrusted : option Data) : res unit :=
  match untrusted with
  | None => Err (EMsg "untrusted block cannot be nil")
  | Some u =>
      match dt_Metadata u with
      | None => Err nil_deref
      | Some m => if bytes_Equal (Data_Hash d) (LastDataHash m) then Ok tt
                  else Err (EMsg "data hash of the trusted data does not match")
      end
  end.

Definition Data_Validate (now : Z) (d : Data) : res unit :=
  match dt_Metadata d with
  | None => Err (EMsg "data metadata cannot be nil")
  | Some m =>
      if bool_decide (md_ChainID m = EmptyString) then Err (EMsg "chain ID cannot be empty")
      else if md_Height m =? 0 then Err (EMsg "height cannot be zero")
      else if md_Time m =? 0 then Err (EMsg "timestamp cannot be zero")
      else if now + MaxClockDrift <? unix_time (md_Time m)
      then Err (EMsg "timestamp too far in future")
      else Ok tt
  end.

Definition TxsByteSize (d : Data) : Z := foldl (fun n tx => n + blen tx) 0 (Txs d).

(** ** Headers *)

Definition Header_Verify (h untrstH : Header) : res unit :=
  if negb (bytes_Equal (ProposerAddress untrstH) (ProposerAddress h))
  then Err (EWrap "verify" ErrProposerVerificationFailed) else Ok tt.

Definition Header_ValidateBasic (now : Z) (h : Header) : res unit :=
  match ProposerAddress h with
  | [] => Err ErrNoProposerAddress
  | _ =>
      if hd_Time h =? 0 then Err (EWrap "timestamp cannot be zero" ErrInvalidTimestamp)
      else if now + MaxClockDrift <? unix_time (hd_Time h)
      then Err (EWrap "timestamp too far in future" ErrInvalidTimestamp)
      else Ok tt
  end.

Definition isAdjacent (sh untrstH : SignedHeader K) : bool :=
  (hd_Height (sh_Header sh) +u 1) =? hd_Height (sh_Header untrstH).
Definition verifyHeaderHash (sh untrstH : SignedHeader K) : res unit :=
  if bytes_Equal (Header_Hash (sh_Header sh)) (LastHeaderHash (sh_Header untrstH)) then Ok tt
  else Err (EWrap "verification error" ErrLastHeaderHashMismatch).
Definition SignedHeader_Verify (sh untrstH : SignedHeader K) : res unit :=
  let? _ := wrap_err "verify" (Header_Verify (sh_Header sh) (sh_Header untrstH)) in
  if isAdjacent sh untrstH then verifyHeaderHash sh untrstH else Ok tt.

(** [tryPayload]: skips an empty payload and one that was tried before. *)
Definition tryPayload (sh : SignedHeader K) (tried : list bytes) (payload : bytes)
  : list bytes * res bool :=
  match payload with
  | [] => (tried, Ok false)
  | _ =>
      if existsb (fun p => bytes_Equal p payload) tried then (tried, Ok false)
      else
        (tried ++ [payload],
         match PubKey (sh_Signer sh) with
         | None => Err nil_deref
         | Some k => pk_Verify k payload (sh_Signature sh)
         end)
  end.

(** The attempts in order; [custom] is the result of the configured payload
    provider, if there is one. *)
Definition try_payloads (sh : SignedHeader K) (custom : option (res bytes)) : res unit :=
  let h := sh_Header sh in
  let? st :=
    match custom with
    | None => Ok ([], false)
    | Some r =>
        let? bz := wrap_err "custom signature payload provider failed" r in
        let '(tried, ok) := tryPayload sh [] bz in
        let? ok := ok in Ok (tried, ok)
    end in
  let '(tried, ok) := st in
  if ok : bool then Ok tt
  else
    let? slim := Header_MarshalBinary h in
    let '(tried, ok) := tryPayload sh tried slim in
    let? ok := ok in
    if ok : bool then Ok tt
    else
      let? legacy := marshalLegacyHeader h in
      let '(_, ok) := tryPayload sh tried legacy in
      let? ok := ok in
      if ok : bool then Ok tt else Err ErrSignatureVerificationFailed.

(** [ValidateBasic] (provider of the aggregator) and [ValidateBasicWithData]
    (provider of the syncing node) differ only in where [custom] comes from. *)
Definition validate_signed (now : Z) (sh : SignedHeader K) (custom : option (res bytes)) : res unit :=
  let? _ := Header_ValidateBasic now (sh_Header sh) in
  let? _ := Signature_ValidateBasic (sh_Signature sh) in
  if negb (bytes_Equal (ProposerAddress (sh_Header sh)) (Address (sh_Signer sh)))
  then Err ErrProposerAddressMismatch
  else try_payloads sh custom.

Definition ValidateBasic (now : Z) (provider : option (Header -> res bytes)) (sh : SignedHeader K)
  : res unit := validate_signed now sh ((fun f => f (sh_Header sh)) <$> provider).
Definition ValidateBasicWithData (now : Z) (provider : option (Header -> Data -> res bytes))
  (sh : SignedHeader K) (data : Data) : res unit :=
  validate_signed now sh ((fun f => f (sh_Header sh) data) <$> provider).

(** ** State *)

Definition NextState (s : State) (header : Header) (stateRoot : bytes) : State := {|
  st_Version := st_Version s; st_ChainID := st_ChainID s; st_InitialHeight := st_InitialHeight s;
  LastBlockHeight := hd_Height header; LastBlockTime := unix_time (hd_Time header);
  st_LastHeaderHash := Header_Hash header; st_DAHeight := st_DAHeight s; st_AppHash := stateRoot |}.

(** [errCount] is the process-wide [lastHeaderHashErrCount], which the
    [sync.Once] lets grow from 0 to 1 and no further. *)
Definition AssertValidSequence (errCount : Z) (s : State) (header : SignedHeader K) : Z * res unit :=
  let h := sh_Header header in
  if negb (bool_decide (hd_ChainID h = st_ChainID s)) then (errCount, Err (EMsg "invalid chain ID"))
  else if blen (st_LastHeaderHash s) =? 0 then (errCount, Ok tt)
  else if negb (hd_Height h =? LastBlockHeight s +u 1)
  then (errCount, Err (EMsg "invalid block height"))
  else if unix_time (hd_Time h) <? LastBlockTime s then (errCount, Err (EMsg "invalid block time"))
  else
    let mismatch := negb (bytes_Equal (LastHeaderHash h) (st_LastHeaderHash s)) in
    if mismatch && (errCount =? 1) then (errCount, Err (EMsg "invalid last header hash"))
    else
      let errCount := if mismatch && (errCount =? 0) then 1 else errCount in
      if negb (bytes_Equal (AppHash h) (st_AppHash s))
      then (errCount, Err (EMsg "invalid last app hash"))
      else (errCount, Ok tt).

Definition AssertValidForNextState (errCount : Z) (s : State) (header : SignedHeader K) (data : Data)
  : Z * res unit :=
  match AssertValidSequence errCount s header with
  | (c, Err e) => (c, Err e)
  | (c, Ok _) => (c, wrap_err "header-data validation failed" (Validate header data))
  end.

(** ** The hash of an empty block (block/internal/common/empty.go) *)

Definition DataHashForEmptyTxs : bytes :=
  Z_byte <$> [110; 52; 11; 156; 255; 179; 122; 152; 156; 165; 68; 230; 187; 120; 10; 44; 120; 144;
              29; 63; 179; 55; 56; 118; 133; 17; 163; 6; 23; 175; 160; 29].

End validation.

(** ** Signature validation *)

Section signatures.
Context {K : Type} `{PubKeys K} `{Protowire}.
Context `{CV : ProtoCodec pb_Version} `{CH : ProtoCodec pb_Header}.

(** The payloads a signature may cover, in the order they are tried. *)
Definition candidates (custom : option bytes) (slim legacy : bytes) : list bytes :=
  match custom with Some c => [c] | None => [] end ++ [slim; legacy].

Definition covers (k : K) (sig : bytes) (payload : bytes) : bool :=
  match payload with
  | [] => false
  | _ => match pk_Verify k payload sig with Ok b => b | Err _ => false end
  end.

Lemma tryPayload_spec (sh : SignedHeader K) tried payload k :
  PubKey (sh_Signer sh) = Some k -> (forall m s, exists b, pk_Verify k m s = Ok b) ->
  Forall (fun p => covers k (sh_Signature sh) p = false) tried ->
  exists tried' b, tryPayload sh tried payload = (tried', Ok b) /\
    b = covers k (sh_Signature sh) payload /\
    (b = false -> Forall (fun p => covers k (sh_Signature sh) p = false) tried').
Proof.
  intros Hk Ht Hf. unfold tryPayload. destruct payload as [|c p]; [eauto|].
  destruct (existsb _ tried) eqn:E.
  - exists tried, false. split; [done|]. split; [|done].
    apply existsb_exists in E as (q & Hq & Eq). apply bytes_Equal_true in Eq as ->.
    symmetry. eapply Forall_forall in Hf; [exact Hf|]. by apply list_elem_of_In.
  - rewrite Hk. destruct (Ht (c :: p) (sh_Signature sh)) as [b Eb]. rewrite Eb.
    exists (tried ++ [c :: p]), b. split; [done|].
    assert (Hc : b = covers k (sh_Signature sh) (c :: p)) by (unfold covers; by rewrite Eb).
    split; [done|]. intros ->. apply Forall_app. split; [done|]. by constructor.
Qed.

Lemma try_payloads_spec (sh : SignedHeader K) custom k slim legacy :
  PubKey (sh_Signer sh) = Some k -> (forall m s, exists b, pk_Verify k m s = Ok b) ->
  Header_MarshalBinary (sh_Header sh) = Ok slim -> marshalLegacyHeader (sh_Header sh) = Ok legacy ->
  try_payloads sh (Ok <$> custom) =
  if existsb (covers k (sh_Signature sh)) (candidates custom slim legacy)
  then Ok tt else Err ErrSignatureVerificationFailed.
Proof.
  intros Hk Ht Es El. unfold try_payloads. rewrite Es, El.
  assert (Hrest : forall tried, Forall (fun p => covers k (sh_Signature sh) p = false) tried ->
    (let '(tried, ok) := tryPayload sh tried slim in
     let? ok := ok in
     if ok : bool then Ok tt
     else let '(_, ok) := tryPayload sh tried legacy in
          let? ok := ok in
          if ok : bool then Ok tt else Err ErrSignatureVerificationFailed) =
    if existsb (covers k (sh_Signature sh)) [slim; legacy]
    then Ok tt else Err ErrSignatureVerificationFailed).
  { intros tried Hf. destruct (tryPayload_spec sh tried slim k Hk Ht Hf) as (t1 & b1 & -> & -> & Hf1).
    simpl. destruct (covers k _ slim); [done|].
    destruct (tryPayload_spec sh t1 legacy k Hk Ht (Hf1 eq_refl)) as (t2 & b2 & -> & -> & _).
    simpl. by destruct (covers k _ legacy). }
  destruct custom as [c|]; simpl.
  - destruct (tryPayload_spec sh [] c k Hk Ht ltac:(constructor)) as (t1 & b1 & -> & -> & Hf1).
    simpl. destruct (covers k _ c); [done|]. simpl. apply (Hrest t1). auto.
  - apply (Hrest []). constructor.
Qed.

(** C18: A signed header with a public key that can decide signatures is accepted exactly when its
    proposer address is set and is the signer's, its time is non-zero and at most one minute ahead,
    the signature is not empty, and it verifies over one of the payloads: the custom provider's, the
    slim encoding or the legacy encoding; trying each distinct payload once loses nothing. *)
Theorem ValidateBasic_exact (now : Z) (sh : SignedHeader K) (custom : option bytes)
  (k : K) (slim legacy : bytes)
  (Hk : PubKey (sh_Signer sh) = Some k) (Ht : forall m s, exists b, pk_Verify k m s = Ok b)
  (Es : Header_MarshalBinary (sh_Header sh) = Ok slim)
  (El : marshalLegacyHeader (sh_Header sh) = Ok legacy) :
  let provider := (fun c (_ : Header) => Ok c) <$> custom in
  ValidateBasic now provider sh = Ok tt <->
  ProposerAddress (sh_Header sh) <> [] /\ hd_Time (sh_Header sh) <> 0 /\
  unix_time (hd_Time (sh_Header sh)) <= now + MaxClockDrift /\ sh_Signature sh <> [] /\
  ProposerAddress (sh_Header sh) = Address (sh_Signer sh) /\
  exists payload, payload ∈ candidates custom slim legacy /\
    covers k (sh_Signature sh) payload = true.
Proof.
  cbv zeta. unfold ValidateBasic, validate_signed, Header_ValidateBasic.
  assert (Ec : ((fun f : Header -> res bytes => f (sh_Header sh)) <$> ((fun c _ => Ok c) <$> custom))
    = Ok <$> custom) by (by destruct custom). rewrite Ec.
  destruct (ProposerAddress (sh_Header sh)) as [|p ps] eqn:Ep; [split; [done|tauto]|].
  destruct (Z.eqb_spec (hd_Time (sh_Header sh)) 0); [split; [done|tauto]|].
  destruct (Z.ltb_spec (now + MaxClockDrift) (unix_time (hd_Time (sh_Header sh))));
    [split; [done|intros (_ & _ & ? & _); lia]|].
  destruct (sh_Signature sh) as [|g gs] eqn:Eg; [split; [done|tauto]|].
  cbn [res_bind Signature_ValidateBasic]. unfold bytes_Equal.
  case_bool_decide as Ha; simpl; [|split; [done|tauto]].
  rewrite (try_payloads_spec sh custom k slim legacy) by done. rewrite Eg.
  destruct (existsb _ _) eqn:E.
  - apply existsb_exists in E as (q & Hq & Hc). split; [|done]. intros _. split_and!; try done.
    exists q. split; [by apply list_elem_of_In|done].
  - split; [done|]. intros (_ & _ & _ & _ & _ & q & Hq & Hc). apply not_true_iff_false in E.
    destruct E. apply existsb_exists. exists q. split; [by apply list_elem_of_In|done].
Qed.

End signatures.

(** ** Headers bind their data *)

Section binding.
Context {K : Type} `{CD : ProtoCodec pb_Data} `{CDL : !ProtoCodecLaws pb_Data}.

Lemma proto_Marshal_inj `{ProtoCodecLaws A} (a b : A) :
  proto_valid a -> proto_valid b -> proto_Marshal a = proto_Marshal b -> a = b.
Proof.
  intros Ha Hb E. destruct (proto_roundtrip a Ha) as (x & Ex & Ux).
  destruct (proto_roundtrip b Hb) as (y & Ey & Uy). congruence.
Qed.

Lemma commitment_txs d : exists bz,
  proto_Marshal {| pd_Metadata := None; pd_Txs := Txs d |} = Ok bz /\
  DACommitment d = leafHashOpt bz.
Proof.
  destruct (proto_roundtrip {| pd_Metadata := None; pd_Txs := Txs d |} I) as (bz & E & _).
  exists bz. split; [done|]. unfold DACommitment, marshal_or_nil, Data_MarshalBinary.
  unfold Data_ToProto. simpl. by rewrite E.
Qed.

(** A header determines its block's transactions: if two data both pass [Validate] against the
    same header, their transactions are equal or SHA-256 has a collision on their encodings; and
    data that passes carries the header's chain id, height and time if it has metadata. *)
Theorem Validate_binds (header : SignedHeader K) (d1 d2 : Data)
  (H1 : Validate header d1 = Ok tt) (H2 : Validate header d2 = Ok tt) :
  (Txs d1 = Txs d2 \/ exists x y, x <> y /\ sha256_Sum256 x = sha256_Sum256 y) /\
  forall m, dt_Metadata d1 = Some m ->
    md_ChainID m = hd_ChainID (sh_Header header) /\ md_Height m = hd_Height (sh_Header header) /\
    unix_time (md_Time m) = unix_time (hd_Time (sh_Header header)).
Proof.
  assert (Hc : forall d, Validate header d = Ok tt ->
    DACommitment {| dt_Metadata := None; Txs := Txs d |} = DataHash (sh_Header header)).
  { intros d. unfold Validate. destruct (negb _); [done|].
    destruct (bytes_Equal _ _) eqn:E; [|done]. by apply bytes_Equal_true in E. }
  split.
  - pose proof (eq_trans (Hc d1 H1) (eq_sym (Hc d2 H2))) as E.
    destruct (commitment_txs {| dt_Metadata := None; Txs := Txs d1 |}) as (b1 & E1 & C1).
    destruct (commitment_txs {| dt_Metadata := None; Txs := Txs d2 |}) as (b2 & E2 & C2).
    rewrite C1, C2 in E. simpl in E1, E2. unfold leafHashOpt in E.
    destruct (decide (b1 = b2)) as [->|Hne].
    + left. rewrite <- E2 in E1. apply proto_Marshal_inj in E1; [congruence|done..].
    + right. exists (leafPrefix ++ b1), (leafPrefix ++ b2). split; [|done].
      intros Eq. by apply app_inv_head in Eq.
  - intros m Em. unfold Validate in H1. rewrite Em in H1.
    destruct (_ && _) eqn:E; [|done].
    apply andb_true_iff in E as [E E3]. apply andb_true_iff in E as [E1 E2].
    apply bool_decide_eq_true in E1. split_and!; [done|lia|lia].
Qed.

(** The constant the node uses for empty blocks is the DA commitment of a block without
    transactions, whatever its metadata (an empty protobuf message encodes to no bytes). *)
Theorem empty_data_hash (m : option Metadata)
  (Hempty : proto_Marshal {| pd_Metadata := None; pd_Txs := [] |} = Ok []) :
  DACommitment {| dt_Metadata := m; Txs := [] |} = DataHashForEmptyTxs.
Proof.
  unfold DACommitment, marshal_or_nil, Data_MarshalBinary, Data_ToProto. simpl.
  rewrite Hempty. vm_compute. reflexivity.
Qed.

End binding.

(** ** Chains of states *)

Section chain.
Context {K : Type} `{PubKeys K} `{Protowire}.
Context `{CV : ProtoCodec pb_Version} `{CH : ProtoCodec pb_Header}.

(** The checks on a header that extends a non-initial state, the link excepted. *)
Definition extends_state (s : State) (h : Header) : Prop :=
  hd_ChainID h = st_ChainID s /\ hd_Height h = LastBlockHeight s +u 1 /\
  LastBlockTime s <= unix_time (hd_Time h) /\ AppHash h = st_AppHash s.

(** On a non-initial state [AssertValidSequence] accepts a header exactly when chain id, height,
    time and app hash extend the state and the header links to the last one, except that a
    process accepts its first broken link: the process-wide counter is 0 before and 1 after it,
    and from then on every broken link is refused. *)
Theorem AssertValidSequence_exact (errCount : Z) (s : State) (sh : SignedHeader K)
  (Hc : errCount = 0 \/ errCount = 1) (Hs : st_LastHeaderHash s <> []) :
  let h := sh_Header sh in
  let linked := LastHeaderHash h = st_LastHeaderHash s in
  let '(c, r) := AssertValidSequence errCount s sh in
  (r = Ok tt <-> extends_state s h /\ (linked \/ errCount = 0)) /\
  (c = errCount \/ c = 1) /\ (r = Ok tt -> ~ linked -> c = 1).
Proof.
  cbv zeta. unfold AssertValidSequence, extends_state. set (h := sh_Header sh).
  case_bool_decide as Ec; simpl; [|split; [split; [done|tauto]|split; [by left|done]]].
  assert ((blen (st_LastHeaderHash s) =? 0) = false) as ->.
  { apply Z.eqb_neq. unfold blen. destruct (st_LastHeaderHash s); [done|]. simpl. lia. }
  destruct (Z.eqb_spec (hd_Height h) (LastBlockHeight s +u 1)) as [Eh|Eh]; simpl;
    [|split; [split; [done|tauto]|split; [by left|done]]].
  destruct (Z.ltb_spec (unix_time (hd_Time h)) (LastBlockTime s)) as [Et|Et].
  { split; [split; [done|intros ((_ & _ & ? & _) & _); lia]|split; [by left|done]]. }
  unfold bytes_Equal. case_bool_decide as El; case_bool_decide as Ea; simpl;
    destruct Hc as [-> | ->]; simpl;
    intuition (discriminate || congruence).
Qed.

(** [NextState] sets up exactly the link the next header has to carry: a header whose chain id,
    height, time, app hash and last-header hash continue the block just applied is accepted,
    whatever the counter. *)
Theorem NextState_links (errCount : Z) (s : State) (h : Header) (root : bytes) (next : SignedHeader K)
  (Hid : hd_ChainID (sh_Header next) = st_ChainID s)
  (Hh : hd_Height (sh_Header next) = hd_Height h +u 1)
  (Ht : unix_time (hd_Time h) <= unix_time (hd_Time (sh_Header next)))
  (Ha : AppHash (sh_Header next) = root)
  (Hl : LastHeaderHash (sh_Header next) = Header_Hash h) :
  AssertValidSequence errCount (NextState s h root) next = (errCount, Ok tt).
Proof.
  unfold AssertValidSequence. simpl. rewrite Hid, bool_decide_true by done. simpl.
  destruct (_ =? 0); [done|]. rewrite Hh, Z.eqb_refl. simpl.
  destruct (Z.ltb_spec (unix_time (hd_Time (sh_Header next))) (unix_time (hd_Time h))); [lia|].
  unfold bytes_Equal. rewrite Hl, Ha, !bool_decide_true by done. done.
Qed.

End chain.

(** ** Witnesses *)

Module ValidationWitness.
Import TypesWitness.

Definition w_slim : bytes :=
  match Header_MarshalBinary w_header with Ok bz => bz | Err _ => [] end.
Definition w_signed : SignedHeader bytes :=
  {| sh_Header := w_header; sh_Signature := [x07] ++ w_slim; sh_Signer := w_signer |}.
Definition w_legacy : bytes :=
  match marshalLegacyHeader w_header with Ok bz => bz | Err _ => [] end.

Lemma ValidateBasic_exact_witness : ValidateBasic 1000 None w_signed = Ok tt.
Proof.
  apply (ValidateBasic_exact 1000 w_signed None [x07] w_slim w_legacy).
  - reflexivity.
  - intros m s. exists (bytes_Equal s ([x07] ++ m)). reflexivity.
  - vm_compute. reflexivity.
  - vm_compute. reflexivity.
  - split; [discriminate|]. split; [discriminate|]. split; [vm_compute; discriminate|].
    split; [discriminate|]. split; [reflexivity|]. exists w_slim.
    split; [left|vm_compute; reflexivity].
Defined.

Definition w_bound : SignedHeader bytes :=
  {| sh_Header := {| hd_Height := 7; hd_Time := 1000; hd_ChainID := "chain";
       hd_Version := {| Block := 11; App := 1 |}; LastHeaderHash := [x01];
       DataHash := DACommitment w_data; AppHash := []; ValidatorHash := []; ProposerAddress := [x05];
       Legacy := None |};
     sh_Signature := []; sh_Signer := w_signer |}.

Lemma Validate_binds_witness :
  (Txs w_data = Txs w_data \/ exists x y, x <> y /\ sha256_Sum256 x = sha256_Sum256 y) /\
  forall m, dt_Metadata w_data = Some m ->
    md_ChainID m = hd_ChainID (sh_Header w_bound) /\ md_Height m = hd_Height (sh_Header w_bound) /\
    unix_time (md_Time m) = unix_time (hd_Time (sh_Header w_bound)).
Proof. apply (Validate_binds w_bound w_data w_data); vm_compute; reflexivity. Defined.

(** A codec that encodes the empty message to no bytes. *)
Definition w_data_codec : ProtoCodec pb_Data := {|
  proto_Marshal m := if decide (m = {| pd_Metadata := None; pd_Txs := [] |}) then Ok []
                     else Ok (x00 :: RefCodec.pos_bytes (encode m));
  proto_Unmarshal b := match b with
                       | [] => Ok {| pd_Metadata := None; pd_Txs := [] |}
                       | _ :: b' => proto_Unmarshal b' end |}.

Lemma empty_data_hash_witness :
  DACommitment (CD := w_data_codec) {| dt_Metadata := None; Txs := [] |} = DataHashForEmptyTxs.
Proof. apply (empty_data_hash (CD := w_data_codec) None). reflexivity. Defined.

Definition w_prev : State := {|
  st_Version := {| Block := 11; App := 0 |}; st_ChainID := "chain"; st_InitialHeight := 1;
  LastBlockHeight := 6; LastBlockTime := 900; st_LastHeaderHash := [x2a]; st_DAHeight := 3;
  st_AppHash := [x03] |}.

Lemma AssertValidSequence_exact_witness :
  let '(c, r) := AssertValidSequence 0 w_prev w_sh in
  (r = Ok tt <-> extends_state w_prev w_header /\ (LastHeaderHash w_header = [x2a] \/ 0 = 0)) /\
  (c = 0 \/ c = 1) /\ (r = Ok tt -> ~ LastHeaderHash w_header = [x2a] -> c = 1).
Proof.
  apply (AssertValidSequence_exact 0 w_prev w_sh); [left; reflexivity | discriminate].
Defined.

Definition w_next : SignedHeader bytes :=
  {| sh_Header := {| hd_Height := 8; hd_Time := 1001; hd_ChainID := "chain";
       hd_Version := {| Block := 11; App := 1 |}; LastHeaderHash := Header_Hash w_header;
       DataHash := []; AppHash := [x04]; ValidatorHash := []; ProposerAddress := [x05];
       Legacy := None |};
     sh_Signature := []; sh_Signer := w_signer |}.

Lemma NextState_links_witness :
  AssertValidSequence 1 (NextState w_prev w_header [x04]) w_next = (1, Ok tt).
Proof.
  apply (NextState_links 1 w_prev w_header [x04] w_next);
    [reflexivity | reflexivity | vm_compute; discriminate | reflexivity | reflexivity].
Defined.

End ValidationWitness.
