(* ===== verification/Store.v ===== *)
(** The block store (pkg/store/keys.go, kv.go, batch.go, store.go): blocks,
    signatures, states, the hash index, metadata and the chain height as
    entries of one key/value datastore, written through batches; rollback and
    pruning of block ranges.

    The datastore is a parameter ([Datastore], [Batching]); a [DefaultStore] is
    its datastore and a [DefaultBatch] its batch.  The theorems read the store
    through its own getters: what a committed block answers afterwards, what
    [Rollback] and [PruneBlocks] remove and what they leave alone. *)

From S2P Require Import Prelude Sha256 Interfaces Types.

Module Store.

(** ** Keys (keys.go, kv.go) *)

Definition DAIncludedHeightKey : string := "d".
Definition LastSubmittedHeaderHeightKey : string := "last-submitted-header-height".
Definition HeightToDAHeightKey : string := "rhb".
Definition GenesisDAHeightKey : string := "gdh".
Definition LastPrunedBlockHeightKey : string := "lst-prnd-b".
Definition LastPrunedStateHeightKey : string := "lst-prnd-s".

Definition headerPrefix : string := "h".
Definition dataPrefix : string := "d".
Definition signaturePrefix : string := "c".
Definition statePrefix : string := "s".
Definition metaPrefix : string := "m".
Definition indexPrefix : string := "i".
Definition heightPrefix : string := "t".

Definition heightKey (prefix : string) (height : Z) : string :=
  slash (String.append prefix (slash (dec_string height))).

Fixpoint GenerateKey (fields : list string) : string :=
  match fields with
  | [] => EmptyString
  | f :: fs => slash (String.append f (GenerateKey fs))
  end.

Definition getHeaderKey : Z -> string := heightKey headerPrefix.
Definition getDataKey : Z -> string := heightKey dataPrefix.
Definition getSignatureKey : Z -> string := heightKey signaturePrefix.
Definition getStateAtHeightKey : Z -> string := heightKey statePrefix.
Definition GetMetaKey (key : string) : string := GenerateKey [metaPrefix; key].
Definition getIndexKey `{HashString} (hash : bytes) : string :=
  GenerateKey [indexPrefix; hash_String hash].
Definition getHeightKey : string := slash heightPrefix.
Definition GetHeightToDAHeightHeaderKey (height : Z) : string :=
  String.append HeightToDAHeightKey (slash (String.append (dec_string height) "/h")).
Definition GetHeightToDAHeightDataKey (height : Z) : string :=
  String.append HeightToDAHeightKey (slash (String.append (dec_string height) "/d")).

(** ** Heights as bytes *)

Definition heightLength : Z := 8.
Definition encodeHeight (height : Z) : bytes := PutUint64_LE height.
Definition decodeHeight (heightBytes : bytes) : res Z :=
  if blen heightBytes =? heightLength then Ok (Uint64_LE heightBytes)
  else Err (EMsg "invalid height length").

(** ** Writing to a batch: a state and error monad over the batch *)

Definition bm (B A : Type) : Type := B -> B * res A.
Definition bm_ret {B A} (a : A) : bm B A := fun b => (b, Ok a).
Definition bm_err {B A} (e : err) : bm B A := fun b => (b, Err e).
Definition bm_bind {B A C} (m : bm B A) (k : A -> bm B C) : bm B C :=
  fun b => match m b with (b', Ok a) => k a b' | (b', Err e) => (b', Err e) end.
Notation "m ;;; k" := (bm_bind m (fun _ => k)) (at level 62, right associativity) : chain_scope.
(** [if err := m; err != nil { return fmt.Errorf(msg + ": %w", err) }] *)
Definition bm_wrap {B A} (msg : string) (m : bm B A) : bm B A :=
  fun b => let '(b', r) := m b in (b', wrap_err msg r).
(** The same, with [ErrNotFound] ignored. *)
Definition bm_tolerate {B} (msg : string) (m : bm B unit) : bm B unit :=
  fun b => match m b with
           | (b', Ok _) => (b', Ok tt)
           | (b', Err e) => (b', if errors_is e ErrNotFound then Ok tt else Err (EWrap msg e))
           end.

Section store.
Context {D B K : Type} `{Datastore D} `{Batching D B} `{PubKeys K} `{Protowire} `{HashString}.
Context `{ProtoCodec pb_SignedHeader} `{ProtoCodec pb_Data} `{ProtoCodec pb_State}.

Definition put (key : string) (v : bytes) : bm B unit := fun b => b_Put b key v.
Definition del (key : string) : bm B unit := fun b => b_Delete b key.

(** ** Reading (store.go) *)

Definition Height (s : D) : res Z :=
  match ds_Get s (ds_NewKey getHeightKey) with
  | Err e => if errors_is e ErrNotFound then Ok 0 else Err e
  | Ok heightBytes => decodeHeight heightBytes
  end.

Definition GetHeader (s : D) (height : Z) : res (SignedHeader K) :=
  match ds_Get s (ds_NewKey (getHeaderKey height)) with
  | Err e => Err (EWrap "load block header" e)
  | Ok headerBlob => wrap_err "unmarshal block header" (SignedHeader_UnmarshalBinary headerBlob)
  end.

Definition GetBlockData (s : D) (height : Z) : res (SignedHeader K * Data) :=
  let? header := GetHeader s height in
  match ds_Get s (ds_NewKey (getDataKey height)) with
  | Err e => Err (EWrap "failed to load block data" e)
  | Ok dataBlob =>
      match Data_UnmarshalBinary dataBlob with
      | Err e => Err (EWrap "failed to unmarshal block data" e)
      | Ok data => Ok (header, data)
      end
  end.

Definition getHeightByHash (s : D) (hash : bytes) : res Z :=
  match ds_Get s (ds_NewKey (getIndexKey hash)) with
  | Err e => Err (EWrap "failed to get height for hash" e)
  | Ok heightBytes => wrap_err "failed to decode height" (decodeHeight heightBytes)
  end.

Definition GetBlockByHash (s : D) (hash : bytes) : res (SignedHeader K * Data) :=
  let? height := wrap_err "failed to load height from index" (getHeightByHash s hash) in
  GetBlockData s height.

Definition GetSignature (s : D) (height : Z) : res bytes :=
  wrap_err "failed to retrieve signature from height" (ds_Get s (ds_NewKey (getSignatureKey height))).

Definition GetSignatureByHash (s : D) (hash : bytes) : res bytes :=
  let? height := wrap_err "failed to load hash from index" (getHeightByHash s hash) in
  GetSignature s height.

Definition GetState (s : D) : res State :=
  let? currentHeight := wrap_err "failed to get current height" (Height s) in
  let? blob := wrap_err "failed to retrieve state"
                 (ds_Get s (ds_NewKey (getStateAtHeightKey currentHeight))) in
  let? pbState := wrap_err "failed to unmarshal state from protobuf" (proto_Unmarshal blob) in
  State_FromProto (Some pbState).

Definition GetStateAtHeight (s : D) (height : Z) : res State :=
  match ds_Get s (ds_NewKey (getStateAtHeightKey height)) with
  | Err e =>
      if errors_is e ErrNotFound then Err (EWrap "get state at height" ErrNotFound)
      else Err (EWrap "failed to retrieve state at height" e)
  | Ok blob =>
      let? pbState := wrap_err "failed to unmarshal state from protobuf at height"
                        (proto_Unmarshal blob) in
      wrap_err "failed to convert protobuf to state at height" (State_FromProto (Some pbState))
  end.

(** ** Single writes (store.go) *)

Definition DeleteStateAtHeight (s : D) (height : Z) : D * res unit :=
  match ds_Delete s (ds_NewKey (getStateAtHeightKey height)) with
  | (s', Ok _) => (s', Ok tt)
  | (s', Err e) => (s', if errors_is e ErrNotFound then Ok tt
                        else Err (EWrap "failed to delete state at height" e))
  end.

Definition SetMetadata (s : D) (key : string) (value : bytes) : D * res unit :=
  let '(s', r) := ds_Put s (ds_NewKey (GetMetaKey key)) value in
  (s', wrap_err "failed to set metadata for key" r).

Definition GetMetadata (s : D) (key : string) : res bytes :=
  wrap_err "failed to get metadata for key" (ds_Get s (ds_NewKey (GetMetaKey key))).

Definition DeleteMetadata (s : D) (key : string) : D * res unit :=
  let '(s', r) := ds_Delete s (ds_NewKey (GetMetaKey key)) in
  (s', wrap_err "failed to delete metadata for key" r).

(** ** Batches (batch.go): [s] is the store the batch was created from *)

Definition NewBatch (s : D) : res B := wrap_err "failed to create a new batch" (ds_Batch s).

Definition SetHeight (s : D) (height : Z) : bm B unit :=
  match Height s with
  | Err e => bm_err e
  | Ok currentHeight =>
      if height <=? currentHeight then bm_ret tt
      else put (ds_RawKey getHeightKey) (encodeHeight height)
  end.

Definition SaveBlockDataFromBytes (header : SignedHeader K) (headerBlob dataBlob signature : bytes)
  : bm B unit :=
  let height := hd_Height (sh_Header header) in
  bm_wrap "failed to put header blob in batch" (put (ds_RawKey (getHeaderKey height)) headerBlob) ;;;
  bm_wrap "failed to put data blob in batch" (put (ds_RawKey (getDataKey height)) dataBlob) ;;;
  bm_wrap "failed to put signature blob in batch"
    (put (ds_RawKey (getSignatureKey height)) signature) ;;;
  let headerHash := sha256_Sum256 headerBlob in
  bm_wrap "failed to put index key in batch"
    (put (ds_RawKey (getIndexKey headerHash)) (encodeHeight height)).

Definition SaveBlockData (header : SignedHeader K) (data : Data) (signature : bytes) : bm B unit :=
  match SignedHeader_MarshalBinary header with
  | Err e => bm_err (EWrap "failed to marshal Header to binary" e)
  | Ok headerBlob =>
      match Data_MarshalBinary data with
      | Err e => bm_err (EWrap "failed to marshal Data to binary" e)
      | Ok dataBlob => SaveBlockDataFromBytes header headerBlob dataBlob signature
      end
  end.

Definition UpdateState (state : State) : bm B unit :=
  match proto_Marshal (State_ToProto state) with
  | Err e => bm_err (EWrap "failed to marshal state to protobuf" e)
  | Ok data => put (ds_RawKey (getStateAtHeightKey (LastBlockHeight state))) data
  end.

Definition Commit (s : D) (b : B) : D * res unit :=
  let '(s', r) := b_Commit s b in (s', wrap_err "failed to commit batch" r).

(** ** Rollback *)

(** The check against the DA included height; on a node that is not an aggregator the stored
    value is lowered in the batch. *)
Definition rollback_included (s : D) (height : Z) (aggregator : bool) : bm B unit :=
  match GetMetadata s DAIncludedHeightKey with
  | Err e => if errors_is e ErrNotFound then bm_ret tt
             else bm_err (EWrap "failed to get DA included height" e)
  | Ok daIncludedHeightBz =>
      if blen daIncludedHeightBz =? 8 then
        let daIncludedHeight := Uint64_LE daIncludedHeightBz in
        if height <? daIncludedHeight then
          if aggregator then
            bm_err (EMsg "DA included height is greater than the rollback height: cannot rollback a finalized height")
          else bm_wrap "failed to update DA included height"
                 (put (ds_NewKey (GetMetaKey DAIncludedHeightKey)) (PutUint64_LE height))
        else bm_ret tt
      else bm_ret tt
  end.

(** One iteration of the deletion loop. *)
Definition rollback_one (s : D) (currentHeight : Z) : bm B unit :=
  match ds_Get s (ds_NewKey (getHeaderKey currentHeight)) with
  | Err e => bm_err (EWrap "failed to get header at height" e)
  | Ok headerBlob =>
      bm_wrap "failed to delete header blob in batch" (del (ds_NewKey (getHeaderKey currentHeight))) ;;;
      bm_wrap "failed to delete data blob in batch" (del (ds_NewKey (getDataKey currentHeight))) ;;;
      bm_wrap "failed to delete signature of block blob in batch"
        (del (ds_NewKey (getSignatureKey currentHeight))) ;;;
      bm_wrap "failed to delete index key in batch"
        (del (ds_NewKey (getIndexKey (sha256_Sum256 headerBlob)))) ;;;
      bm_wrap "failed to delete state in batch" (del (ds_NewKey (getStateAtHeightKey currentHeight)))
  end.

(** [for currentHeight > height { ...; currentHeight-- }] *)
Fixpoint rollback_loop (fuel : nat) (s : D) (height currentHeight : Z) : bm B unit :=
  if currentHeight <=? height then bm_ret tt
  else match fuel with
       | O => bm_err out_of_fuel
       | S fuel => rollback_one s currentHeight ;;; rollback_loop fuel s height (currentHeight -u 1)
       end.

(** Run a batch program on a fresh batch and commit; an error leaves the datastore as it is. *)
Definition run_batch (s : D) (create commit : string) (m : bm B unit) : D * res unit :=
  match ds_Batch s with
  | Err e => (s, Err (EWrap create e))
  | Ok b =>
      match m b with
      | (_, Err e) => (s, Err e)
      | (b', Ok _) => let '(s', r) := b_Commit s b' in (s', wrap_err commit r)
      end
  end.

Definition Rollback (s : D) (height : Z) (aggregator : bool) : D * res unit :=
  run_batch s "failed to create a new batch" "failed to commit batch"
    match Height s with
    | Err e => bm_err (EWrap "failed to get current height" e)
    | Ok currentHeight =>
        if currentHeight <=? height then
          bm_err (EMsg "current height is already less than or equal to rollback height")
        else
          rollback_included s height aggregator ;;;
          rollback_loop (Z.to_nat (currentHeight - height)) s height currentHeight ;;;
          bm_wrap "failed to set height" (put (ds_NewKey getHeightKey) (encodeHeight height))
    end.

(** ** Pruning *)

Definition last_pruned (s : D) : res Z :=
  match GetMetadata s LastPrunedBlockHeightKey with
  | Err e => if errors_is e ErrNotFound then Ok 0
             else Err (EWrap "failed to get last pruned height" e)
  | Ok meta =>
      if blen meta =? heightLength then
        wrap_err "failed to decode last pruned height" (decodeHeight meta)
      else Ok 0
  end.

(** One iteration of the pruning loop: a height without a header is skipped. *)
Definition prune_one (s : D) (h : Z) : bm B unit :=
  match ds_Get s (ds_NewKey (getHeaderKey h)) with
  | Err e => if errors_is e ErrNotFound then bm_ret tt
             else bm_err (EWrap "failed to get header during pruning" e)
  | Ok headerBlob =>
      bm_tolerate "failed to delete header during pruning" (del (ds_NewKey (getHeaderKey h))) ;;;
      bm_tolerate "failed to delete data during pruning" (del (ds_NewKey (getDataKey h))) ;;;
      bm_tolerate "failed to delete signature during pruning" (del (ds_NewKey (getSignatureKey h))) ;;;
      bm_tolerate "failed to delete header DA height metadata during pruning"
        (del (ds_NewKey (GetMetaKey (GetHeightToDAHeightHeaderKey h)))) ;;;
      bm_tolerate "failed to delete data DA height metadata during pruning"
        (del (ds_NewKey (GetMetaKey (GetHeightToDAHeightDataKey h)))) ;;;
      bm_tolerate "failed to delete index during pruning"
        (del (ds_NewKey (getIndexKey (sha256_Sum256 headerBlob))))
  end.

(** [for h := lastPruned + 1; h <= height; h++]; at [height] = MaxUint64 the loop does not end. *)
Fixpoint prune_loop (fuel : nat) (s : D) (height h : Z) : bm B unit :=
  if height <? h then bm_ret tt
  else match fuel with
       | O => bm_err out_of_fuel
       | S fuel => prune_one s h ;;; prune_loop fuel s height (h +u 1)
       end.

Definition PruneBlocks (s : D) (height : Z) : D * res unit :=
  match ds_Batch s with
  | Err e => (s, Err (EWrap "failed to create a new batch for pruning" e))
  | Ok _ =>
      match last_pruned s with
      | Err e => (s, Err e)
      | Ok lastPruned =>
          if height <=? lastPruned then (s, Ok tt)
          else
            run_batch s "failed to create a new batch for pruning" "failed to commit pruning batch"
              (prune_loop (Z.to_nat (height - lastPruned)) s height (lastPruned +u 1) ;;;
               bm_wrap "failed to update last pruned height"
                 (put (ds_NewKey (GetMetaKey LastPrunedBlockHeightKey)) (encodeHeight height)))
      end
  end.

End store.

(** ** Specifications of batch programs *)

#[local] Arguments String.append !_ _ / : simpl nomatch.

Ltac prefix := rewrite ?elem_of_cons; tauto.

Section laws.
Context {D B K : Type} `{DL : DatastoreLaws D} `{BC : Batching D B} `{BL : !BatchingLaws D B}.
Context `{PK : PubKeys K} `{PW : Protowire} `{HS : HashString} `{HL : !HashStringLaws}.
Context `{CH : ProtoCodec pb_SignedHeader} `{CD : ProtoCodec pb_Data} `{CS : ProtoCodec pb_State}.

(** On a healthy batch [m] succeeds and records exactly [ops]. *)
Definition writes (m : bm B unit) (ops : list batch_op) : Prop :=
  forall b, b_healthy b ->
    exists b', m b = (b', Ok tt) /\ b_healthy b' /\ b_ops b' = b_ops b ++ ops.

Lemma writes_ret : writes (bm_ret tt) [].
Proof. intros b Hb. exists b. by rewrite app_nil_r. Qed.
Lemma writes_put k v : writes (put k v) [(k, Some v)].
Proof. intros b Hb. apply b_Put_spec. done. Qed.
Lemma writes_del k : writes (del k) [(k, None)].
Proof. intros b Hb. apply b_Delete_spec. done. Qed.
Lemma writes_wrap msg m ops : writes m ops -> writes (bm_wrap msg m) ops.
Proof. intros Hm b Hb. destruct (Hm b Hb) as (b' & E & ?). exists b'. unfold bm_wrap. by rewrite E. Qed.
Lemma writes_tolerate msg m ops : writes m ops -> writes (bm_tolerate msg m) ops.
Proof. intros Hm b Hb. destruct (Hm b Hb) as (b' & E & ?). exists b'. unfold bm_tolerate. by rewrite E. Qed.
Lemma writes_seq m k ops ops' : writes m ops -> writes k ops' -> writes (m ;;; k) (ops ++ ops').
Proof.
  intros Hm Hk b Hb. destruct (Hm b Hb) as (b1 & E1 & Hb1 & O1).
  destruct (Hk b1 Hb1) as (b2 & E2 & Hb2 & O2). exists b2. unfold bm_bind.
  rewrite E1, E2, O2, O1, app_assoc. done.
Qed.

Lemma run_batch_spec s create commit m ops : ds_healthy s -> writes m ops ->
  exists s', run_batch s create commit m = (s', Ok tt) /\ ds_healthy s' /\
             ds_view s' = apply_ops (ds_view s) ops.
Proof.
  intros Hs Hm. unfold run_batch. destruct (ds_Batch_spec s Hs) as (b & -> & Hb & O).
  destruct (Hm b Hb) as (b' & -> & Hb' & O').
  destruct (b_Commit_spec s b' Hs Hb') as (s' & -> & Hs' & V). exists s'.
  by rewrite V, O', O.
Qed.

(** ** Keys are clean and distinct *)

Lemma append_nil k : String.append k EmptyString = k.
Proof. induction k as [|c k IH]; [done|]. simpl. by rewrite IH. Qed.

Lemma NewKey_height c h : plain_char c = true ->
  ds_NewKey (heightKey (String.String c EmptyString) h) = heightKey (String.String c EmptyString) h.
Proof.
  intros Hc. apply ds_NewKey_clean. unfold plain_char in Hc. simpl.
  destruct (Ascii.eqb c "/"), (Ascii.eqb c "."); rewrite ?orb_true_r in Hc; try done.
  apply clean_dec_string.
Qed.

Lemma NewKey_meta key : clean_tail true key = true -> ds_NewKey (GetMetaKey key) = GetMetaKey key.
Proof.
  intros Hk. apply ds_NewKey_clean. unfold GetMetaKey, GenerateKey. simpl. by rewrite append_nil.
Qed.

Lemma clean_index hash : hash <> [] -> clean_key (getIndexKey hash) = true.
Proof.
  intros Hh. unfold getIndexKey, GenerateKey. simpl. rewrite append_nil. by apply hash_String_clean.
Qed.

Lemma sha256_nonempty m : sha256_Sum256 m <> [].
Proof. intros E. pose proof (length_sha256 m) as L. by rewrite E in L. Qed.

Lemma clean_app b p k : clean_tail b p = true -> clean_tail true k = true ->
  clean_tail b (String.append p (slash k)) = true.
Proof.
  intros Hp Hk. revert b Hp. induction p as [|c p IH]; intros b; simpl.
  - destruct b; [done|]. by rewrite Hk.
  - destruct (Ascii.eqb c "/"); intros [-> Hp]%andb_prop; simpl; by apply IH.
Qed.

Lemma clean_rhb h : clean_tail true (GetHeightToDAHeightHeaderKey h) = true /\
  clean_tail true (GetHeightToDAHeightDataKey h) = true.
Proof. split; simpl; apply clean_app; try done; apply clean_dec_string. Qed.

Lemma meta_key_inj k k' : GetMetaKey k = GetMetaKey k' -> k = k'.
Proof. unfold GetMetaKey, GenerateKey. simpl. rewrite !append_nil. by intros [= ?]. Qed.

(** ** What the two loops delete *)

Lemma dels_app ks ks' : dels (ks ++ ks') = dels ks ++ dels ks'.
Proof. apply fmap_app. Qed.

Definition rollback_keys (s : D) (h : Z) : list string :=
  match ds_view s !! getHeaderKey h with
  | Some blob => [getHeaderKey h; getDataKey h; getSignatureKey h;
                  getIndexKey (sha256_Sum256 blob); getStateAtHeightKey h]
  | None => []
  end.

Definition prune_keys (s : D) (h : Z) : list string :=
  match ds_view s !! getHeaderKey h with
  | Some blob => [getHeaderKey h; getDataKey h; getSignatureKey h;
                  GetMetaKey (GetHeightToDAHeightHeaderKey h);
                  GetMetaKey (GetHeightToDAHeightDataKey h); getIndexKey (sha256_Sum256 blob)]
  | None => []
  end.

Lemma NewKey_index hash : hash <> [] -> ds_NewKey (getIndexKey hash) = getIndexKey hash.
Proof. intros. by apply ds_NewKey_clean, clean_index. Qed.

Ltac plain_keys :=
  unfold getHeaderKey, getDataKey, getSignatureKey, getStateAtHeightKey, headerPrefix, dataPrefix,
    signaturePrefix, statePrefix;
  rewrite ?NewKey_height by done; rewrite ?NewKey_index by apply sha256_nonempty;
  rewrite ?NewKey_meta by apply clean_rhb.

Lemma rollback_one_writes s h : ds_healthy s -> is_Some (ds_view s !! getHeaderKey h) ->
  writes (rollback_one s h) (dels (rollback_keys s h)).
Proof.
  intros Hs [blob Hb]. unfold rollback_one, rollback_keys. revert Hb. plain_keys. intros Hb.
  rewrite ds_Get_spec, Hb by done. plain_keys.
  repeat (apply (writes_seq _ _ [_]); [apply writes_wrap, writes_del|]). apply writes_wrap, writes_del.
Qed.

Lemma prune_one_writes s h : ds_healthy s -> writes (prune_one s h) (dels (prune_keys s h)).
Proof.
  intros Hs. unfold prune_one, prune_keys. plain_keys. rewrite ds_Get_spec by done.
  destruct (ds_view s !! _) as [blob|]; [|apply writes_ret]. plain_keys.
  repeat (apply (writes_seq _ _ [_]); [apply writes_tolerate, writes_del|]).
  apply writes_tolerate, writes_del.
Qed.

Lemma rollback_loop_writes s height fuel cur : ds_healthy s -> is_u64 height -> is_u64 cur ->
  height <= cur -> cur - height <= Z.of_nat fuel ->
  (forall h, height < h <= cur -> is_Some (ds_view s !! getHeaderKey h)) ->
  exists ks, writes (rollback_loop fuel s height cur) (dels ks) /\
    forall k, k ∈ ks <-> exists h, height < h <= cur /\ k ∈ rollback_keys s h.
Proof.
  intros Hs Hh. revert cur. induction fuel as [|fuel IH]; intros cur Hc Hle Hf Hp; simpl;
    (destruct (Z.leb_spec cur height) as [Hz|Hz];
     [exists []; split; [apply writes_ret|]; intros k; split; [by intros ?%elem_of_nil|intros (h & ? & _); lia]|]).
  { lia. }
  assert (cur -u 1 = cur - 1) as -> by (apply u64_small; unfold is_u64 in *; lia).
  destruct (IH (cur - 1)) as (ks & Hw & Hks); [unfold is_u64 in *; lia | lia.. | intros; apply Hp; lia |].
  exists (rollback_keys s cur ++ ks). split.
  - rewrite dels_app. apply writes_seq; [|done]. apply rollback_one_writes; [done|apply Hp; lia].
  - intros k. rewrite elem_of_app, Hks. split.
    + intros [Hk|(h & ? & Hk)]; [exists cur|exists h]; split; [lia|done|lia|done].
    + intros (h & ? & Hk). destruct (decide (h = cur)) as [->|]; [by left|right; exists h; split; [lia|done]].
Qed.

Lemma prune_loop_writes s height fuel h0 : ds_healthy s -> is_u64 h0 -> height < two64 - 1 ->
  height - h0 + 1 <= Z.of_nat fuel ->
  exists ks, writes (prune_loop fuel s height h0) (dels ks) /\
    forall k, k ∈ ks <-> exists h, h0 <= h <= height /\ k ∈ prune_keys s h.
Proof.
  intros Hs Hh0 Hh. revert h0 Hh0. induction fuel as [|fuel IH]; intros h0 Hh0 Hf; simpl;
    (destruct (Z.ltb_spec height h0) as [Hz|Hz];
     [exists []; split; [apply writes_ret|]; intros k; split; [by intros ?%elem_of_nil|intros (h & ? & _); lia]|]).
  { lia. }
  assert (h0 +u 1 = h0 + 1) as -> by (apply u64_small; unfold is_u64 in *; lia).
  destruct (IH (h0 + 1)) as (ks & Hw & Hks); [unfold is_u64 in *; lia | lia |].
  exists (prune_keys s h0 ++ ks). split.
  - rewrite dels_app. apply writes_seq; [|done]. by apply prune_one_writes.
  - intros k. rewrite elem_of_app, Hks. split.
    + intros [Hk|(h & ? & Hk)]; [exists h0|exists h]; split; [lia|done|lia|done].
    + intros (h & ? & Hk). destruct (decide (h = h0)) as [->|]; [by left|right; exists h; split; [lia|done]].
Qed.

(** ** Getters depend only on their keys *)

Definition missing {A} (r : res A) : Prop := exists e, r = Err e /\ errors_is e ErrNotFound = true.

Lemma Get_agree s s' k : ds_healthy s -> ds_healthy s' -> ds_view s' !! k = ds_view s !! k ->
  ds_Get s' k = ds_Get s k.
Proof. intros Hs Hs' E. rewrite !ds_Get_spec by done. by rewrite E. Qed.

(** Everything the store answers about one height. *)
Definition block_at (s : D) (h : Z) : res (SignedHeader K) * res (SignedHeader K * Data) * res bytes :=
  (GetHeader s h, GetBlockData s h, GetSignature s h).

Lemma block_frame s s' h : ds_healthy s -> ds_healthy s' ->
  (forall k, k ∈ [getHeaderKey h; getDataKey h; getSignatureKey h] ->
     ds_view s' !! k = ds_view s !! k) -> block_at s' h = block_at s h.
Proof.
  intros Hs Hs' Hk. unfold block_at, GetBlockData, GetHeader, GetSignature.
  unfold getHeaderKey, getDataKey, getSignatureKey, headerPrefix, dataPrefix, signaturePrefix in *.
  rewrite !NewKey_height by done.
  rewrite !(Get_agree s s' _ Hs Hs'); [done|apply Hk; rewrite !elem_of_cons; tauto..].
Qed.

Lemma state_frame s s' h : ds_healthy s -> ds_healthy s' ->
  ds_view s' !! getStateAtHeightKey h = ds_view s !! getStateAtHeightKey h ->
  GetStateAtHeight s' h = GetStateAtHeight s h.
Proof.
  intros. unfold GetStateAtHeight, getStateAtHeightKey, statePrefix in *.
  rewrite !NewKey_height by done. by rewrite (Get_agree s s').
Qed.

Lemma meta_frame s s' key : ds_healthy s -> ds_healthy s' -> clean_tail true key = true ->
  ds_view s' !! GetMetaKey key = ds_view s !! GetMetaKey key -> GetMetadata s' key = GetMetadata s key.
Proof. intros. unfold GetMetadata. rewrite !NewKey_meta by done. by rewrite (Get_agree s s'). Qed.

Lemma index_frame s s' hash : ds_healthy s -> ds_healthy s' -> hash <> [] ->
  ds_view s' !! getIndexKey hash = ds_view s !! getIndexKey hash ->
  getHeightByHash s' hash = getHeightByHash s hash.
Proof. intros. unfold getHeightByHash. rewrite !NewKey_index by done. by rewrite (Get_agree s s'). Qed.

Lemma NewKey_heightKey : ds_NewKey getHeightKey = getHeightKey.
Proof. by apply ds_NewKey_clean. Qed.

Lemma height_frame s s' : ds_healthy s -> ds_healthy s' ->
  ds_view s' !! getHeightKey = ds_view s !! getHeightKey -> Height s' = Height s.
Proof. intros. unfold Height. rewrite NewKey_heightKey. by rewrite (Get_agree s s'). Qed.

Lemma missing_block s h : ds_healthy s -> ds_view s !! getHeaderKey h = None ->
  missing (GetHeader s h) /\ missing (GetBlockData s h).
Proof.
  intros Hs Hk. unfold GetBlockData, GetHeader, getHeaderKey, headerPrefix in *.
  rewrite NewKey_height, ds_Get_spec, Hk by done. split; eexists; split; done.
Qed.

Lemma missing_signature s h : ds_healthy s -> ds_view s !! getSignatureKey h = None ->
  missing (GetSignature s h).
Proof.
  intros Hs Hk. unfold GetSignature, getSignatureKey, signaturePrefix in *.
  rewrite NewKey_height, ds_Get_spec, Hk by done. eexists; split; done.
Qed.

Lemma missing_state s h : ds_healthy s -> ds_view s !! getStateAtHeightKey h = None ->
  missing (GetStateAtHeight s h).
Proof.
  intros Hs Hk. unfold GetStateAtHeight, getStateAtHeightKey, statePrefix in *.
  rewrite NewKey_height, ds_Get_spec, Hk by done. eexists; split; done.
Qed.

Lemma missing_index s hash : ds_healthy s -> hash <> [] -> ds_view s !! getIndexKey hash = None ->
  missing (getHeightByHash s hash).
Proof.
  intros Hs Hh Hk. unfold getHeightByHash. rewrite NewKey_index, ds_Get_spec, Hk by done.
  eexists; split; done.
Qed.

Lemma Height_view s cur : ds_healthy s -> Height s = Ok cur -> is_u64 cur.
Proof.
  intros Hs. unfold Height. rewrite ds_Get_spec by done.
  destruct (ds_view s !! _) as [bz|]; simpl; [|by intros [= <-]].
  unfold decodeHeight. case_match; [|done]. intros [= <-]. apply Uint64_LE_range.
Qed.

Lemma GetHeader_present s h sh : ds_healthy s -> GetHeader s h = Ok sh ->
  is_Some (ds_view s !! getHeaderKey h).
Proof.
  intros Hs. unfold GetHeader, getHeaderKey, headerPrefix.
  rewrite NewKey_height, ds_Get_spec by done. by destruct (ds_view s !! _).
Qed.

Lemma Get_header_view s h blob : ds_healthy s -> ds_Get s (ds_NewKey (getHeaderKey h)) = Ok blob ->
  ds_view s !! getHeaderKey h = Some blob.
Proof.
  intros Hs. unfold getHeaderKey, headerPrefix. rewrite NewKey_height, ds_Get_spec by done.
  by case_match; intros [= ->].
Qed.

(** ** The keys of a range of blocks *)

Abbreviation hkey c h := (heightKey (String.String c EmptyString) h).

Lemma hkey_inj c c' h h' : is_u64 h -> is_u64 h' -> hkey c h = hkey c' h' -> c = c' /\ h = h'.
Proof. unfold heightKey. simpl. intros ? ? [= -> E]. apply dec_string_inj in E; done. Qed.

(** A key that belongs to a block of a height that satisfies [P], or a hash index key. *)
Inductive range_key (P : Z -> Prop) : string -> Prop :=
| rk_height c h : P h -> c ∈ ["h"; "d"; "c"; "s"]%char -> range_key P (hkey c h)
| rk_index hash : hash <> [] -> range_key P (getIndexKey hash)
| rk_meta_h h : P h -> range_key P (GetMetaKey (GetHeightToDAHeightHeaderKey h))
| rk_meta_d h : P h -> range_key P (GetMetaKey (GetHeightToDAHeightDataKey h)).

Lemma rk_prefix c : c ∈ ["h"; "d"; "c"; "s"]%char -> c <> "i"%char /\ c <> "m"%char.
Proof.
  intros Hc. split; intros ->; revert Hc; rewrite !elem_of_cons, elem_of_nil; intuition discriminate.
Qed.

Lemma rollback_range P s h k : P h -> k ∈ rollback_keys s h -> range_key P k.
Proof.
  intros Hh. unfold rollback_keys. case_match; [|by intros ?%elem_of_nil].
  rewrite !elem_of_cons, elem_of_nil.
  intros [->|[->|[->|[->|[->|[]]]]]]; try (apply rk_height; [done|rewrite !elem_of_cons; tauto]).
  apply rk_index, sha256_nonempty.
Qed.

Lemma prune_range P s h k : P h -> k ∈ prune_keys s h -> range_key P k.
Proof.
  intros Hh. unfold prune_keys. case_match; [|by intros ?%elem_of_nil].
  rewrite !elem_of_cons, elem_of_nil.
  intros [->|[->|[->|[->|[->|[->|[]]]]]]]; try (apply rk_height; [done|rewrite !elem_of_cons; tauto]);
    [by apply rk_meta_h|by apply rk_meta_d|]. apply rk_index, sha256_nonempty.
Qed.

Lemma range_hkey P c h : (forall h', P h' -> is_u64 h') -> is_u64 h -> c ∈ ["h"; "d"; "c"; "s"]%char ->
  range_key P (hkey c h) -> P h.
Proof.
  intros HP Hh Hc Hk. remember (hkey c h) as k eqn:E. destruct Hk as [c' h' Hh' Hc'|hash|h' Hh'|h' Hh'].
  - apply hkey_inj in E as [_ <-]; [done|by apply HP|done].
  - injection E as <- _. by apply rk_prefix in Hc as [].
  - injection E as <- _. by apply rk_prefix in Hc as [].
  - injection E as <- _. by apply rk_prefix in Hc as [].
Qed.

Lemma range_not_height P : ~ range_key P getHeightKey.
Proof. intros Hk. remember getHeightKey as k eqn:E. by destruct Hk. Qed.

(** Metadata that is not the DA height of a block. *)
Definition plain_meta (key : string) : Prop :=
  clean_tail true key = true /\
  forall h, key <> GetHeightToDAHeightHeaderKey h /\ key <> GetHeightToDAHeightDataKey h.

Lemma range_not_meta P key : plain_meta key -> ~ range_key P (GetMetaKey key).
Proof.
  intros [_ Hn] Hk. remember (GetMetaKey key) as k eqn:E.
  destruct Hk as [c h' Hh' Hc|hash|h' Hh'|h' Hh'].
  - injection E as -> _. by apply rk_prefix in Hc as [].
  - discriminate E.
  - apply meta_key_inj in E. destruct (Hn h'). congruence.
  - apply meta_key_inj in E. destruct (Hn h'). congruence.
Qed.

(** ** Rollback *)

(** The stored DA included height, if it is a valid one, is at most [height]. *)
Definition included_upto (r : res bytes) (height : Z) : Prop :=
  forall bz, r = Ok bz -> blen bz = 8 -> Uint64_LE bz <= height.

Definition meta_put (key : string) (v : bytes) : batch_op := (GetMetaKey key, Some v).

Lemma GetMetadata_view s key : ds_healthy s -> clean_tail true key = true ->
  GetMetadata s key = match ds_view s !! GetMetaKey key with
                      | Some v => Ok v
                      | None => Err (EWrap "failed to get metadata for key" ErrNotFound) end.
Proof.
  intros Hs Hk. unfold GetMetadata. rewrite NewKey_meta, ds_Get_spec by done. by case_match.
Qed.

Lemma included_writes s height aggregator : ds_healthy s -> is_u64 height ->
  (aggregator = true -> included_upto (GetMetadata s DAIncludedHeightKey) height) ->
  exists u, writes (rollback_included s height aggregator) u /\
    (u = [] /\ included_upto (GetMetadata s DAIncludedHeightKey) height \/
     u = [meta_put DAIncludedHeightKey (PutUint64_LE height)]).
Proof.
  intros Hs Hh Ha. unfold rollback_included. rewrite NewKey_meta by done.
  rewrite GetMetadata_view in * by done.
  destruct (ds_view s !! _) as [bz|] eqn:Eb.
  - destruct (Z.eqb_spec (blen bz) 8) as [E8|E8];
      [destruct (Z.ltb_spec height (Uint64_LE bz)) as [Hlt|Hge]|].
    + destruct aggregator.
      * specialize (Ha eq_refl bz eq_refl E8). lia.
      * eexists. split; [apply writes_wrap, writes_put|]. by right.
    + exists []. split; [apply writes_ret|]. left. split; [done|]. by intros ? [= <-] _.
    + exists []. split; [apply writes_ret|]. left. split; [done|]. by intros ? [= <-] ?.
  - exists []. split; [apply writes_ret|]. left. split; [done|]. by intros ? [=].
Qed.

Lemma rollback_view s height cur aggregator : ds_healthy s -> Height s = Ok cur -> 0 <= height < cur ->
  (forall h, height < h <= cur -> is_ok (GetHeader s h) = true) ->
  (aggregator = true -> included_upto (GetMetadata s DAIncludedHeightKey) height) ->
  exists s' u ks, Rollback s height aggregator = (s', Ok tt) /\ ds_healthy s' /\
    (forall k, k ∈ ks <-> exists h, height < h <= cur /\ k ∈ rollback_keys s h) /\
    (u = [] /\ included_upto (GetMetadata s DAIncludedHeightKey) height \/
     u = [meta_put DAIncludedHeightKey (PutUint64_LE height)]) /\
    ds_view s' = <[getHeightKey := encodeHeight height]> (apply_ops (apply_ops (ds_view s) u) (dels ks)).
Proof.
  intros Hs Hc Hr Hp Ha. pose proof (Height_view s cur Hs Hc) as Hcu.
  assert (Hhu : is_u64 height) by (unfold is_u64 in *; lia).
  destruct (included_writes s height aggregator Hs Hhu Ha) as (u & Hu & Hcase).
  destruct (rollback_loop_writes s height (Z.to_nat (cur - height)) cur) as (ks & Hw & Hks);
    [done..|lia|lia| |].
  { intros h Hh. specialize (Hp h Hh). destruct (GetHeader s h) as [sh|] eqn:E; [|done].
    by apply (GetHeader_present s h sh). }
  unfold Rollback. rewrite Hc, (proj2 (Z.leb_gt cur height)) by lia.
  edestruct (run_batch_spec s "failed to create a new batch" "failed to commit batch")
    as (s' & E & Hs' & V); [done| |].
  { apply writes_seq; [apply Hu|]. apply writes_seq; [apply Hw|].
    apply writes_wrap, writes_put. }
  exists s', u, ks. rewrite NewKey_heightKey in *. split; [exact E|]. split; [done|].
  split; [done|]. split; [done|]. by rewrite V, !apply_ops_app.
Qed.

(** What a successful rollback from [cur] to [height] leaves. *)
Record rolled_back (s s' : D) (height cur : Z) : Prop := {
  rb_healthy : ds_healthy s';
  rb_height : Height s' = Ok height;
  (** blocks and states up to the target stay *)
  rb_kept h : is_u64 h -> h <= height ->
    block_at s' h = block_at s h /\ GetStateAtHeight s' h = GetStateAtHeight s h;
  (** those above it are gone, with their hashes *)
  rb_gone h : height < h <= cur -> missing (GetHeader s' h) /\ missing (GetBlockData s' h) /\
    missing (GetSignature s' h) /\ missing (GetStateAtHeight s' h);
  rb_unindexed h blob : height < h <= cur -> ds_Get s (ds_NewKey (getHeaderKey h)) = Ok blob ->
    missing (getHeightByHash s' (sha256_Sum256 blob));
  (** metadata stays, the DA included height is capped *)
  rb_meta key : plain_meta key -> key <> DAIncludedHeightKey -> GetMetadata s' key = GetMetadata s key;
  rb_included : included_upto (GetMetadata s' DAIncludedHeightKey) height;
}.

Lemma lookup_rolled m u ks height v k : k <> getHeightKey ->
  (u = [] \/ u = [meta_put DAIncludedHeightKey v]) -> k <> GetMetaKey DAIncludedHeightKey ->
  <[getHeightKey := encodeHeight height]> (apply_ops (apply_ops m u) (dels ks)) !! k
  = if decide (k ∈ ks) then None else m !! k.
Proof.
  intros Hk Hu Hd. rewrite lookup_insert_ne, lookup_apply_dels by done.
  destruct (decide _); [done|]. destruct Hu as [-> | ->]; [done|]. simpl. by rewrite lookup_insert_ne.
Qed.

Lemma decode_encode_height h : is_u64 h -> decodeHeight (encodeHeight h) = Ok h.
Proof.
  intros Hh. unfold decodeHeight, encodeHeight, blen. rewrite length_PutUint64_LE. simpl.
  by rewrite Uint64_LE_Put, u64_small.
Qed.

Lemma Height_insert s' h m : ds_healthy s' -> is_u64 h ->
  ds_view s' = <[getHeightKey := encodeHeight h]> m -> Height s' = Ok h.
Proof.
  intros Hs Hh V. unfold Height. rewrite NewKey_heightKey, ds_Get_spec, V, lookup_insert_eq by done.
  by apply decode_encode_height.
Qed.

Lemma plain_included : plain_meta DAIncludedHeightKey.
Proof. split; [done|]. intros h. split; discriminate. Qed.

Lemma hkey_other c h key : c ∈ ["h"; "d"; "c"; "s"]%char -> hkey c h <> getHeightKey /\ hkey c h <> GetMetaKey key.
Proof. intros Hc. split; [discriminate|]. intros [= -> _]. by apply rk_prefix in Hc as []. Qed.

(** A block the rollback keeps keeps its four entries, one it removes loses them. *)
Lemma rolled_hkey s s' u ks height cur v :
  (forall k, k ∈ ks <-> exists h, height < h <= cur /\ k ∈ rollback_keys s h) ->
  (u = [] \/ u = [meta_put DAIncludedHeightKey v]) -> 0 <= height -> cur < two64 ->
  ds_view s' = <[getHeightKey := encodeHeight height]> (apply_ops (apply_ops (ds_view s) u) (dels ks)) ->
  forall c h, c ∈ ["h"; "d"; "c"; "s"]%char -> is_u64 h ->
  (h <= height -> ds_view s' !! hkey c h = ds_view s !! hkey c h) /\
  (height < h <= cur -> is_Some (ds_view s !! getHeaderKey h) -> ds_view s' !! hkey c h = None).
Proof.
  intros Hks Hu H0 Hcur V c h Hc Hh. destruct (hkey_other c h DAIncludedHeightKey Hc) as [N1 N2].
  rewrite V, (lookup_rolled _ u ks height v) by done. split.
  - intros Hle. destruct (decide _) as [Hin|]; [|done]. exfalso.
    apply Hks in Hin as (h' & Hr & Hin).
    apply (rollback_range (fun h => height < h <= cur)) in Hin; [|done].
    apply range_hkey in Hin; [lia| |done|done]. intros ? ?. unfold is_u64. lia.
  - intros Hr [blob Hb]. destruct (decide _) as [|Hn]; [done|]. exfalso. apply Hn, Hks. exists h.
    split; [done|]. unfold rollback_keys. rewrite Hb.
    rewrite !elem_of_cons, elem_of_nil in Hc. destruct Hc as [->|[->|[->|[->|[]]]]]; prefix.
Qed.


(** Partial correctness: if [m] succeeds on a healthy batch, the batch is still healthy and only
    keys that satisfy [P] were written. *)
Definition touches (P : string -> Prop) (m : bm B unit) : Prop :=
  forall b b', b_healthy b -> m b = (b', Ok tt) ->
    b_healthy b' /\ exists ops, b_ops b' = b_ops b ++ ops /\ Forall (fun o => P o.1) ops.

Lemma writes_touches P m ops : writes m ops -> Forall (fun o => P o.1) ops -> touches P m.
Proof.
  intros Hm HP b b' Hb E. destruct (Hm b Hb) as (b2 & E2 & ? & ?). rewrite E in E2.
  injection E2 as ->. eauto.
Qed.
Lemma err_touches P e : touches P (bm_err e).
Proof. by intros b b' _ [=]. Qed.
Lemma seq_touches P m k : touches P m -> touches P k -> touches P (m ;;; k).
Proof.
  intros Hm Hk b b' Hb. unfold bm_bind. destruct (m b) as [b1 [[]|]] eqn:E; [|done].
  intros E2. destruct (Hm _ _ Hb E) as (Hb1 & o1 & O1 & F1).
  destruct (Hk _ _ Hb1 E2) as (Hb2 & o2 & O2 & F2). split; [done|]. exists (o1 ++ o2).
  rewrite O2, O1, app_assoc. split; [done|]. by apply Forall_app.
Qed.

Lemma lookup_apply_ops_ne m ops k : Forall (fun o => o.1 <> k) ops -> apply_ops m ops !! k = m !! k.
Proof.
  revert m. induction ops as [|[k' v] ops IH]; intros m; [done|].
  intros [Hk Hf]%Forall_cons. simpl in *. rewrite IH by done.
  destruct v; [by rewrite lookup_insert_ne|by rewrite lookup_delete_ne].
Qed.

(** Whatever the result, the datastore stays healthy and entries the program cannot touch stay;
    a failure leaves everything. *)
Lemma run_batch_touches P s create commit m s' r : ds_healthy s -> touches P m ->
  run_batch s create commit m = (s', r) ->
  ds_healthy s' /\ (forall e, r = Err e -> s' = s) /\
  forall k, ~ P k -> ds_view s' !! k = ds_view s !! k.
Proof.
  intros Hs Hm. unfold run_batch. destruct (ds_Batch_spec s Hs) as (b & -> & Hb & O).
  destruct (m b) as [b' [[]|e']] eqn:E; [|by intros [= -> _]].
  destruct (Hm _ _ Hb E) as (Hb' & ops & O' & F).
  destruct (b_Commit_spec s b' Hs Hb') as (d' & -> & Hd' & V). intros [= -> <-]. split; [done|].
  split; [done|]. intros k Hk. rewrite V, O', O. simpl. apply lookup_apply_ops_ne.
  eapply Forall_impl; [exact F|]. intros [k' v] Hp. simpl in *. by intros ->.
Qed.

(** The keys a rollback from [cur] to [height] may write. *)
Definition rollback_touched (height cur : Z) (k : string) : Prop :=
  range_key (fun h => height < h <= cur) k \/ k = getHeightKey \/ k = GetMetaKey DAIncludedHeightKey.

Lemma dels_touched (P : string -> Prop) ks : (forall k, k ∈ ks -> P k) -> Forall (fun o => P o.1) (dels ks).
Proof. intros HP. apply Forall_fmap, Forall_forall. eauto. Qed.

Lemma rollback_one_touches P s h : ds_healthy s -> (forall k, k ∈ rollback_keys s h -> P k) ->
  touches P (rollback_one s h).
Proof.
  intros Hs HP. destruct (ds_view s !! getHeaderKey h) as [blob|] eqn:E.
  - eapply writes_touches; [apply rollback_one_writes; [done|by rewrite E]|by apply dels_touched].
  - unfold rollback_one, getHeaderKey, headerPrefix in *. rewrite NewKey_height, ds_Get_spec, E by done.
    apply err_touches.
Qed.

Lemma rollback_loop_touches s height fuel top cur : ds_healthy s -> is_u64 height -> cur <= top ->
  is_u64 cur -> touches (rollback_touched height top) (rollback_loop fuel s height cur).
Proof.
  intros Hs Hh. revert cur. induction fuel as [|fuel IH]; intros cur Ht Hc; simpl;
    destruct (Z.leb_spec cur height); try apply err_touches;
    try (by eapply writes_touches; [apply writes_ret|]).
  apply seq_touches.
  - apply rollback_one_touches; [done|]. intros k Hk. left. eapply rollback_range; [|done]. lia.
  - assert (cur -u 1 = cur - 1) as -> by (apply u64_small; unfold is_u64 in *; lia).
    apply IH; unfold is_u64 in *; lia.
Qed.

Lemma rollback_included_touches s height top aggregator :
  touches (rollback_touched height top) (rollback_included s height aggregator).
Proof.
  unfold rollback_included. rewrite NewKey_meta by done.
  repeat case_match; try apply err_touches; try (by eapply writes_touches; [apply writes_ret|]).
  eapply writes_touches; [apply writes_wrap, writes_put|]. apply Forall_singleton. by right; right.
Qed.

Lemma rollback_frame s height aggregator s' r : ds_healthy s -> is_u64 height ->
  Rollback s height aggregator = (s', r) ->
  ds_healthy s' /\ (forall e, r = Err e -> s' = s) /\
  forall cur k, Height s = Ok cur -> ~ rollback_touched height cur k -> ds_view s' !! k = ds_view s !! k.
Proof.
  intros Hs Hh E. destruct (Height s) as [cur|e] eqn:Hc.
  - edestruct (run_batch_touches (rollback_touched height cur)) as (? & ? & Hk); [done| |exact E|].
    + rewrite Hc. destruct (_ <=? _); [apply err_touches|]. pose proof (Height_view s cur Hs Hc).
      repeat apply seq_touches; [apply rollback_included_touches|by apply rollback_loop_touches|].
      eapply writes_touches; [apply writes_wrap, writes_put|]. apply Forall_singleton.
      rewrite NewKey_heightKey. by right; left.
    + split_and!; [done..|]. intros cur' k [= <-]. apply Hk.
  - unfold Rollback in E. rewrite Hc in E.
    edestruct (run_batch_touches (fun _ => False)) as (? & ? & Hk); [done| |exact E|]; [apply err_touches|done].
Qed.

(** A rollback that fails leaves the store exactly as it was; and it does fail when the target
    is not below the current height, or when it would take an aggregator below the DA included
    height. *)
Theorem Rollback_atomic (s : D) (height : Z) (aggregator : bool) (Hs : ds_healthy s) (Hh : is_u64 height) :
  (forall s' e, Rollback s height aggregator = (s', Err e) -> s' = s) /\
  (forall cur, Height s = Ok cur -> cur <= height -> exists e, Rollback s height aggregator = (s, Err e)) /\
  (aggregator = true -> ~ included_upto (GetMetadata s DAIncludedHeightKey) height ->
   exists e, Rollback s height aggregator = (s, Err e)).
Proof.
  assert (Hat : forall s' e, Rollback s height aggregator = (s', Err e) -> s' = s).
  { intros s' e E. eapply rollback_frame; eauto. }
  destruct (ds_Batch_spec s Hs) as (b & Eb & _).
  split; [done|]. split.
  - intros cur Hc Hle. unfold Rollback, run_batch. rewrite Eb, Hc, (proj2 (Z.leb_le _ _) Hle). by eexists.
  - intros -> Hn. unfold Rollback, run_batch. rewrite Eb.
    destruct (Height s) as [cur|e]; [|by eexists]. destruct (cur <=? height); [by eexists|].
    unfold rollback_included. destruct (GetMetadata s _) as [bz|e]; [|exfalso; apply Hn; by intros ? [=]].
    destruct (Z.eqb_spec (blen bz) 8); [|exfalso; apply Hn; by intros ? [= <-]].
    destruct (Z.ltb_spec height (Uint64_LE bz)); [by eexists|exfalso; apply Hn; by intros ? [= <-]].
Qed.

Lemma Get_hkey s c h v : ds_healthy s -> plain_char c = true -> ds_view s !! hkey c h = Some v ->
  ds_Get s (ds_NewKey (hkey c h)) = Ok v.
Proof. intros Hs Hc E. by rewrite NewKey_height, ds_Get_spec, E. Qed.

Lemma state_at s h stb st : ds_healthy s -> ds_view s !! getStateAtHeightKey h = Some stb ->
  proto_Unmarshal stb = Ok (State_ToProto st) ->
  GetStateAtHeight s h = Ok st /\ (Height s = Ok h -> GetState s = Ok st).
Proof.
  intros Hs E U. unfold GetState, GetStateAtHeight.
  unfold getStateAtHeightKey, statePrefix in *. rewrite (Get_hkey s _ h stb) by done. rewrite U.
  cbn [res_bind wrap_err]. rewrite state_proto_roundtrip. split; [done|]. intros ->.
  cbn [res_bind wrap_err]. rewrite (Get_hkey s _ h stb) by done. cbn [res_bind wrap_err].
  rewrite U. cbn [res_bind wrap_err]. apply state_proto_roundtrip.
Qed.

Lemma block_read s h hb header db d sig : ds_healthy s ->
  ds_view s !! getHeaderKey h = Some hb -> SignedHeader_UnmarshalBinary hb = Ok header ->
  ds_view s !! getDataKey h = Some db -> Data_UnmarshalBinary db = Ok d ->
  ds_view s !! getSignatureKey h = Some sig ->
  GetHeader (K := K) s h = Ok header /\ GetBlockData s h = Ok (header, d) /\ GetSignature s h = Ok sig.
Proof.
  intros Hs E1 U1 E2 U2 E3. unfold GetBlockData, GetHeader, GetSignature.
  unfold getHeaderKey, getDataKey, getSignatureKey, headerPrefix, dataPrefix, signaturePrefix in *.
  rewrite (Get_hkey s "h" h hb), (Get_hkey s "d" h db), (Get_hkey s "c" h sig) by done.
  rewrite U1. cbn [res_bind wrap_err]. by rewrite U2.
Qed.

Lemma index_read s hash h : ds_healthy s -> hash <> [] -> is_u64 h ->
  ds_view s !! getIndexKey hash = Some (encodeHeight h) -> getHeightByHash s hash = Ok h.
Proof.
  intros Hs Hh Hu E. unfold getHeightByHash. rewrite NewKey_index, ds_Get_spec, E by done.
  by rewrite decode_encode_height.
Qed.

(** ** Saving a block *)

Lemma clean_hkey c h : plain_char c = true -> clean_key (hkey c h) = true.
Proof.
  intros Hc. unfold plain_char in Hc. simpl.
  destruct (Ascii.eqb c "/"), (Ascii.eqb c "."); rewrite ?orb_true_r in Hc; try done.
  apply clean_dec_string.
Qed.

Definition save_ops (header : SignedHeader K) (hb db sig : bytes) : list batch_op :=
  let h := hd_Height (sh_Header header) in
  [(getHeaderKey h, Some hb); (getDataKey h, Some db); (getSignatureKey h, Some sig);
   (getIndexKey (sha256_Sum256 hb), Some (encodeHeight h))].

Lemma save_writes header hb db sig :
  writes (SaveBlockDataFromBytes header hb db sig) (save_ops header hb db sig).
Proof.
  unfold SaveBlockDataFromBytes, save_ops, getHeaderKey, getDataKey, getSignatureKey, headerPrefix,
    dataPrefix, signaturePrefix.
  rewrite !ds_RawKey_clean by (apply clean_hkey || apply clean_index, sha256_nonempty; done).
  repeat (apply (writes_seq _ _ [_]); [apply writes_wrap, writes_put|]). apply writes_wrap, writes_put.
Qed.

Lemma set_height_writes s height cur : Height s = Ok cur ->
  exists ops, writes (SetHeight s height) ops /\
    (height <= cur /\ ops = [] \/ cur < height /\ ops = [(getHeightKey, Some (encodeHeight height))]).
Proof.
  intros Hc. unfold SetHeight. rewrite Hc. destruct (Z.leb_spec height cur).
  - exists []. split; [apply writes_ret|]. by left.
  - eexists. split; [|by right]. rewrite ds_RawKey_clean by done. apply writes_put.
Qed.

Lemma run_writes s m ops : ds_healthy s -> writes m ops ->
  exists b b' s', NewBatch s = Ok b /\ m b = (b', Ok tt) /\ Commit s b' = (s', Ok tt) /\
    ds_healthy s' /\ ds_view s' = apply_ops (ds_view s) ops.
Proof.
  intros Hs Hm. destruct (ds_Batch_spec s Hs) as (b & Eb & Hb & O).
  destruct (Hm b Hb) as (b' & E & Hb' & O').
  destruct (b_Commit_spec s b' Hs Hb') as (s' & E' & Hs' & V). exists b, b', s'.
  unfold NewBatch, Commit. rewrite Eb, E, E'. split_and!; [done..|]. by rewrite V, O', O.
Qed.

(** The entries after a committed block: its own, and everyone else's untouched. *)
Lemma saved_view m header hb db sig stb hops cur h0 :
  let h := hd_Height (sh_Header header) in
  let m' := apply_ops m (save_ops header hb db sig ++ hops ++ [(getStateAtHeightKey h, Some stb)]) in
  (h <= cur /\ hops = [] \/ cur < h /\ hops = [(getHeightKey, Some (encodeHeight h))]) ->
  is_u64 h -> is_u64 h0 ->
  m' !! getHeaderKey h = Some hb /\ m' !! getDataKey h = Some db /\ m' !! getSignatureKey h = Some sig /\
  m' !! getStateAtHeightKey h = Some stb /\
  m' !! getIndexKey (sha256_Sum256 hb) = Some (encodeHeight h) /\
  m' !! getHeightKey = (if h <=? cur then m !! getHeightKey else Some (encodeHeight h)) /\
  (forall c, c ∈ ["h"; "d"; "c"; "s"]%char -> h0 <> h -> m' !! hkey c h0 = m !! hkey c h0).
Proof.
  intros h m' Hops Hh Hh0.
  assert (Hne : forall c c', h0 <> h -> hkey c' h <> hkey c h0) by (intros c c' Hn E; apply hkey_inj in E as [_ ?]; done).
  assert (Hi : forall c, c ∈ ["h"; "d"; "c"; "s"]%char -> getIndexKey (sha256_Sum256 hb) <> hkey c h0).
  { intros c Hc [= <- _]. by apply rk_prefix in Hc as []. }
  subst m'. unfold save_ops, getHeaderKey, getDataKey, getSignatureKey, getStateAtHeightKey, headerPrefix,
    dataPrefix, signaturePrefix, statePrefix in *.
  destruct Hops as [[Hle ->]|[Hlt ->]]; [rewrite (proj2 (Z.leb_le _ _) Hle)|rewrite (proj2 (Z.leb_gt _ _) Hlt)];
    simpl; fold h; (split_and!; [..|intros c Hc Hn]);
    repeat (rewrite lookup_insert_eq || rewrite lookup_insert_ne by (discriminate || auto)); done.
Qed.

(** ** Pruning *)

Lemma last_pruned_range s lp : last_pruned s = Ok lp -> is_u64 lp.
Proof.
  unfold last_pruned, decodeHeight. repeat case_match; try done; simpl; intros [= <-];
    first [apply Uint64_LE_range | by unfold is_u64, two64; lia].
Qed.

Lemma prune_view s height lp : ds_healthy s -> last_pruned s = Ok lp -> lp < height < two64 - 1 ->
  exists s' ks, PruneBlocks s height = (s', Ok tt) /\ ds_healthy s' /\
    (forall k, k ∈ ks <-> exists h, lp < h <= height /\ k ∈ prune_keys s h) /\
    ds_view s' = <[GetMetaKey LastPrunedBlockHeightKey := encodeHeight height]>
                   (apply_ops (ds_view s) (dels ks)).
Proof.
  intros Hs Hl Hr. pose proof (last_pruned_range s lp Hl) as Hlu.
  assert (lp +u 1 = lp + 1) as Elp by (apply u64_small; unfold is_u64 in *; lia).
  destruct (prune_loop_writes s height (Z.to_nat (height - lp)) (lp + 1)) as (ks & Hw & Hks);
    [done|unfold is_u64 in *; lia|lia|lia|].
  unfold PruneBlocks. destruct (ds_Batch_spec s Hs) as (b & -> & _).
  rewrite Hl, (proj2 (Z.leb_gt height lp)), Elp by lia.
  edestruct (run_batch_spec s "failed to create a new batch for pruning" "failed to commit pruning batch")
    as (s' & E & Hs' & V); [done| |].
  { apply writes_seq; [apply Hw|]. apply writes_wrap, writes_put. }
  exists s', ks. rewrite NewKey_meta in * by done. split; [exact E|]. split; [done|]. split.
  - intros k. rewrite Hks. split; intros (h & ? & Hk); exists h; (split; [lia|done]).
  - by rewrite V, apply_ops_app.
Qed.

(** What a successful pruning of the heights above [lp] up to [height] leaves. *)
Record pruned (s s' : D) (lp height : Z) : Prop := {
  pr_healthy : ds_healthy s';
  pr_last : last_pruned s' = Ok height;
  pr_height : Height s' = Height s;
  pr_gone h : lp < h <= height -> missing (GetHeader s' h) /\ missing (GetBlockData s' h);
  pr_unindexed h blob : lp < h <= height -> ds_Get s (ds_NewKey (getHeaderKey h)) = Ok blob ->
    missing (GetSignature s' h) /\ missing (getHeightByHash s' (sha256_Sum256 blob)) /\
    missing (GetMetadata s' (GetHeightToDAHeightHeaderKey h)) /\
    missing (GetMetadata s' (GetHeightToDAHeightDataKey h));
  pr_kept h : is_u64 h -> h <= lp \/ height < h -> block_at s' h = block_at s h;
  pr_states h : is_u64 h -> GetStateAtHeight s' h = GetStateAtHeight s h;
  pr_meta key : plain_meta key -> key <> LastPrunedBlockHeightKey -> GetMetadata s' key = GetMetadata s key;
}.

Lemma lookup_pruned m ks height k : k <> GetMetaKey LastPrunedBlockHeightKey ->
  <[GetMetaKey LastPrunedBlockHeightKey := encodeHeight height]> (apply_ops m (dels ks)) !! k
  = if decide (k ∈ ks) then None else m !! k.
Proof. intros Hk. by rewrite lookup_insert_ne, lookup_apply_dels. Qed.

Lemma plain_last_pruned : plain_meta LastPrunedBlockHeightKey.
Proof. split; [done|]. intros h. split; discriminate. Qed.

Lemma missing_meta s key : ds_healthy s -> clean_tail true key = true ->
  ds_view s !! GetMetaKey key = None -> missing (GetMetadata s key).
Proof. intros Hs Hk E. rewrite GetMetadata_view, E by done. eexists. split; done. Qed.

Lemma prune_state_key s h h' : is_u64 h -> is_u64 h' -> getStateAtHeightKey h ∉ prune_keys s h'.
Proof.
  intros Hu Hu' Hk. unfold prune_keys in Hk. case_match; [|by apply elem_of_nil in Hk].
  rewrite !elem_of_cons, elem_of_nil in Hk. decompose [or] Hk; discriminate || done.
Qed.

Lemma pruned_last s' height m : ds_healthy s' -> is_u64 height ->
  ds_view s' = <[GetMetaKey LastPrunedBlockHeightKey := encodeHeight height]> m ->
  last_pruned s' = Ok height.
Proof.
  intros Hs Hh V. unfold last_pruned. rewrite GetMetadata_view, V, lookup_insert_eq by done.
  assert (blen (encodeHeight height) = 8) as ->
    by (unfold encodeHeight, blen; by rewrite length_PutUint64_LE).
  by rewrite decode_encode_height.
Qed.

Lemma pruned_block s s' ks lp height h blob : ds_healthy s' ->
  (forall k, k ∈ ks <-> exists h, lp < h <= height /\ k ∈ prune_keys s h) ->
  ds_view s' = <[GetMetaKey LastPrunedBlockHeightKey := encodeHeight height]>
                 (apply_ops (ds_view s) (dels ks)) ->
  lp < h <= height -> ds_view s !! getHeaderKey h = Some blob ->
  ds_view s' !! getHeaderKey h = None /\
  missing (GetSignature s' h) /\ missing (getHeightByHash s' (sha256_Sum256 blob)) /\
  missing (GetMetadata s' (GetHeightToDAHeightHeaderKey h)) /\
  missing (GetMetadata s' (GetHeightToDAHeightDataKey h)).
Proof.
  intros Hs' Hks V Hh Eb.
  assert (Hgone : forall k, k ∈ prune_keys s h -> k <> GetMetaKey LastPrunedBlockHeightKey ->
    ds_view s' !! k = None).
  { intros k Hk Hne. rewrite V, lookup_pruned, decide_True; [done| |done]. apply Hks. eauto. }
  unfold prune_keys in Hgone. rewrite Eb in Hgone. destruct (clean_rhb h) as [C1 C2].
  split_and!; [apply Hgone|apply missing_signature|apply missing_index|apply missing_meta|apply missing_meta];
    try done; try apply sha256_nonempty; try (apply Hgone; [prefix|]); try prefix; try discriminate.
Qed.

Lemma pruned_other s s' ks lp height k : 
  (forall k, k ∈ ks <-> exists h, lp < h <= height /\ k ∈ prune_keys s h) ->
  ds_view s' = <[GetMetaKey LastPrunedBlockHeightKey := encodeHeight height]>
                 (apply_ops (ds_view s) (dels ks)) ->
  k <> GetMetaKey LastPrunedBlockHeightKey ->
  (forall h, lp < h <= height -> k ∉ prune_keys s h) -> ds_view s' !! k = ds_view s !! k.
Proof.
  intros Hks V Hne Hk. rewrite V, lookup_pruned by done. destruct (decide _) as [Hin|]; [|done].
  apply Hks in Hin as (h & Hh & Hin). by apply Hk in Hin.
Qed.

Lemma prune_exact (s : D) (height lp : Z) (Hs : ds_healthy s) (Hl : last_pruned s = Ok lp)
  (Hr : lp < height < two64 - 1) :
  exists s', PruneBlocks s height = (s', Ok tt) /\ pruned s s' lp height /\
    forall height', height' <= height -> PruneBlocks s' height' = (s', Ok tt).
Proof.
  destruct (prune_view s height lp Hs Hl Hr) as (s' & ks & E & Hs' & Hks & V).
  pose proof (last_pruned_range s lp Hl) as Hlu.
  assert (Hhu : is_u64 height) by (unfold is_u64 in *; lia).
  assert (HP : forall h, lp < h <= height -> is_u64 h) by (unfold is_u64 in *; lia).
  assert (Hrk : forall h k, lp < h <= height -> k ∈ prune_keys s h -> range_key (fun h => lp < h <= height) k)
    by (intros h k Hh; by apply prune_range).
  assert (Hlast : last_pruned s' = Ok height) by (by eapply pruned_last).
  pose proof (fun k => pruned_other s s' ks lp height k Hks V) as Ho.
  exists s'. split; [done|]. split; [split; [done|done|..]|].
  - apply height_frame; try done. apply Ho; [done|]. intros h Hh Hk. eapply range_not_height; eauto.
  - intros h Hh. apply missing_block; [done|].
    destruct (ds_view s !! getHeaderKey h) as [blob|] eqn:Eb; [by eapply pruned_block|].
    rewrite V, lookup_pruned, Eb by done. by case_decide.
  - intros h blob Hh Eb. apply Get_header_view in Eb; [|done].
    by destruct (pruned_block s s' ks lp height h blob) as (_ & ? & ? & ? & ?).
  - intros h Hu Hout. apply block_frame; try done. intros k Hk. apply Ho.
    { rewrite !elem_of_cons, elem_of_nil in Hk. decompose [or] Hk; subst; discriminate || done. }
    intros h' Hh' Hin. apply Hrk in Hin; [|done].
    rewrite !elem_of_cons, elem_of_nil in Hk.
    destruct Hk as [->|[->|[->|[]]]]; apply range_hkey in Hin; prefix || lia || done.
  - intros h Hu. apply state_frame; try done. apply Ho; [done|]. intros h' Hh'. apply prune_state_key; auto.
  - intros key Hk Hne. apply meta_frame; try done; [apply Hk|]. apply Ho; [by intros ?%meta_key_inj|].
    intros h' Hh' Hin. eapply range_not_meta; eauto.
  - intros height' Hle. unfold PruneBlocks. destruct (ds_Batch_spec s' Hs') as (b & -> & _).
    by rewrite Hlast, (proj2 (Z.leb_le _ _) Hle).
Qed.

(** Pruning up to a height removes the blocks in the range not pruned before, with their
    signatures, hash index entries and DA-height metadata, and nothing else: states, other blocks,
    other metadata and the chain height stay; the pruned height is recorded, so that pruning to
    it or below again changes nothing. *)
Theorem PruneBlocks_exact (s : D) (height lp : Z) (Hs : ds_healthy s) (Hl : last_pruned s = Ok lp)
  (Hr : lp < height < two64 - 1) :
  exists s', PruneBlocks s height = (s', Ok tt) /\ pruned s s' lp height /\
    forall height', height' <= height -> PruneBlocks s' height' = (s', Ok tt).
Proof. by apply prune_exact. Qed.

End laws.

(** ** Reading back a saved block *)

Section saved.
Context {D B K : Type} `{DL : DatastoreLaws D} `{BC : Batching D B} `{BL : !BatchingLaws D B}.
Context `{PK : PubKeys K} `{PKL : !PubKeysLaws K} `{PW : Protowire} `{PWL : !ProtowireLaws}.
Context `{HS : HashString} `{HL : !HashStringLaws}.
Context `{CH : ProtoCodec pb_SignedHeader} `{LH : !ProtoCodecLaws pb_SignedHeader}.
Context `{CD : ProtoCodec pb_Data} `{LD : !ProtoCodecLaws pb_Data}.
Context `{CS : ProtoCodec pb_State} `{LS : !ProtoCodecLaws pb_State}.

(** The block a node commits: data, height and state in one batch. *)
Definition block_writes (s : D) (header : SignedHeader K) (d : Data) (sig : bytes) (st : State) : bm B unit :=
  SaveBlockData header d sig ;;; SetHeight s (hd_Height (sh_Header header)) ;;; UpdateState st.

(** What the store answers about a block after it was committed. *)
Record block_saved (s s' : D) (header : SignedHeader K) (d : Data) (sig : bytes) (st : State) (cur : Z) : Prop := {
  bs_height : Height s' = Ok (Z.max cur (hd_Height (sh_Header header)));
  bs_block : exists header' blob, same_header header header' /\
    SignedHeader_MarshalBinary header = Ok blob /\
    GetHeader s' (hd_Height (sh_Header header)) = Ok header' /\
    GetBlockData s' (hd_Height (sh_Header header)) = Ok (header', d) /\
    GetBlockByHash s' (sha256_Sum256 blob) = Ok (header', d) /\
    GetSignatureByHash s' (sha256_Sum256 blob) = Ok sig;
  bs_signature : GetSignature s' (hd_Height (sh_Header header)) = Ok sig;
  bs_state : GetStateAtHeight s' (hd_Height (sh_Header header)) = Ok st;
  bs_last : cur <= hd_Height (sh_Header header) -> GetState s' = Ok st;
  bs_others h : is_u64 h -> h <> hd_Height (sh_Header header) ->
    block_at (K := K) s' h = block_at s h /\ GetStateAtHeight s' h = GetStateAtHeight s h;
}.

Lemma block_ops s header d sig st cur : Height s = Ok cur ->
  header_valid (sh_Header header) -> signer_ok (sh_Signer header) -> data_valid d ->
  proto_valid (State_ToProto st) -> LastBlockHeight st = hd_Height (sh_Header header) ->
  exists hb header' db stb hops,
    SignedHeader_MarshalBinary header = Ok hb /\ SignedHeader_UnmarshalBinary hb = Ok header' /\
    same_header header header' /\ Data_UnmarshalBinary db = Ok d /\
    proto_Unmarshal stb = Ok (State_ToProto st) /\
    let h := hd_Height (sh_Header header) in
    (h <= cur /\ hops = [] \/ cur < h /\ hops = [(getHeightKey, Some (encodeHeight h))]) /\
    writes (block_writes s header d sig st)
      (save_ops header hb db sig ++ hops ++ [(getStateAtHeightKey h, Some stb)]).
Proof.
  intros Hc Hv Hk Hd Hst Hlh.
  destruct (signed_header_binary header Hv Hk) as (hb & header' & Eh & Uh & Hsame).
  destruct (data_binary d Hd) as (db & Ed & Ud).
  destruct (proto_roundtrip (State_ToProto st) Hst) as (stb & Es & Us).
  destruct (set_height_writes (B := B) s (hd_Height (sh_Header header)) cur Hc) as (hops & Hw & Hops).
  exists hb, header', db, stb, hops. split_and!; [done..|]. split; [done|].
  unfold block_writes, SaveBlockData, UpdateState. rewrite Eh, Ed, Es, Hlh.
  apply writes_seq; [apply save_writes|]. apply writes_seq; [done|].
  unfold getStateAtHeightKey, statePrefix. rewrite ds_RawKey_clean by (by apply clean_hkey). apply writes_put.
Qed.

(** The reads after the writes of [block_ops]. *)
Lemma block_reads s s' header d sig st cur hb header' db stb hops :
  ds_healthy s -> ds_healthy s' -> Height s = Ok cur -> header_valid (sh_Header header) ->
  SignedHeader_MarshalBinary header = Ok hb -> SignedHeader_UnmarshalBinary hb = Ok header' ->
  same_header header header' -> Data_UnmarshalBinary db = Ok d -> proto_Unmarshal stb = Ok (State_ToProto st) ->
  let h := hd_Height (sh_Header header) in
  (h <= cur /\ hops = [] \/ cur < h /\ hops = [(getHeightKey, Some (encodeHeight h))]) ->
  ds_view s' = apply_ops (ds_view s) (save_ops header hb db sig ++ hops ++ [(getStateAtHeightKey h, Some stb)]) ->
  block_saved s s' header d sig st cur.
Proof.
  intros Hs Hs' Hc Hv Eh Uh Hsame Ud Us h Hops V.
  assert (Hh : is_u64 (hd_Height (sh_Header header))) by apply Hv.
  pose proof (saved_view (ds_view s) header hb db sig stb hops cur) as Hm.
  cbv zeta in Hm. fold h in Hm. rewrite <- V in Hm.
  destruct (Hm _ Hops Hh Hh) as (M1 & M2 & M3 & M4 & M5 & M6 & _).
  destruct (block_read s' _ hb header' db d sig Hs' M1 Uh M2 Ud M3) as (R1 & R2 & R3).
  pose proof (index_read s' _ _ Hs' (sha256_nonempty hb) Hh M5) as Ri.
  destruct (state_at s' _ stb st Hs' M4 Us) as [Rs Rl].
  assert (Hmax : Height s' = Ok (Z.max cur (hd_Height (sh_Header header)))).
  { fold h. destruct (Z.leb_spec h cur).
    - rewrite Z.max_l, <- Hc by lia. by apply height_frame.
    - rewrite Z.max_r by lia. unfold Height. rewrite NewKey_heightKey, ds_Get_spec, M6 by done.
      by apply decode_encode_height. }
  split; [done| |done|done|..].
  - exists header', hb. unfold GetBlockByHash, GetSignatureByHash. fold h in Ri |- *. rewrite Ri. by split_and!.
  - intros Hle. apply Rl. rewrite Hmax. f_equal. fold h in Hle |- *. lia.
  - intros h' Hu Hne. destruct (Hm h' Hops Hh Hu) as (_ & _ & _ & _ & _ & _ & Ho).
    split; [apply block_frame|apply state_frame]; try done.
    + intros k. rewrite !elem_of_cons, elem_of_nil. intros [->|[->|[->|[]]]]; apply Ho; prefix || done.
    + apply Ho; prefix || done.
Qed.

(** C19: A committed block can be read back: header, data, signature and state at its height, the
    block and its signature under the hash of its encoding, the store's height never decreases,
    the last state is the block's if it is the highest, and no other height is affected. *)
Theorem saved_block_reads (s : D) (header : SignedHeader K) (d : Data) (sig : bytes) (st : State) (cur : Z)
  (Hs : ds_healthy s) (Hc : Height s = Ok cur)
  (Hv : header_valid (sh_Header header)) (Hk : signer_ok (sh_Signer header)) (Hd : data_valid d)
  (Hst : proto_valid (State_ToProto st)) (Hlh : LastBlockHeight st = hd_Height (sh_Header header)) :
  exists b b' s', NewBatch s = Ok b /\ block_writes s header d sig st b = (b', Ok tt) /\
    Commit s b' = (s', Ok tt) /\ ds_healthy s' /\ block_saved s s' header d sig st cur.
Proof.
  destruct (block_ops s header d sig st cur Hc Hv Hk Hd Hst Hlh)
    as (hb & header' & db & stb & hops & Eh & Uh & Hsame & Ud & Us & Hops & Hw).
  destruct (run_writes s _ _ Hs Hw) as (b & b' & s' & Eb & Ew & Ec & Hs' & V).
  exists b, b', s'. split_and!; [done..|].
  by eapply block_reads.
Qed.

End saved.

(** ** Witnesses: one block in an in-memory datastore *)

Module StoreWitness.
Import RefHash TypesWitness.

Definition empty_db : mapds := Mapds ∅ true.

Lemma saved_block_reads_witness : exists b b' s',
  NewBatch (B := list batch_op) empty_db = Ok b /\
  block_writes empty_db w_sh w_data [x07; x08] w_state b = (b', Ok tt) /\
  Commit empty_db b' = (s', Ok tt) /\ ds_healthy s' /\
  block_saved empty_db s' w_sh w_data [x07; x08] w_state 0.
Proof.
  apply (saved_block_reads (B := list batch_op) empty_db w_sh w_data [x07; x08] w_state 0).
  - reflexivity.
  - reflexivity.
  - vm_compute. repeat split; discriminate.
  - intros Hne. destruct Hne. reflexivity.
  - vm_compute. repeat split; discriminate.
  - vm_compute. repeat split; discriminate.
  - reflexivity.
Defined.

(** The datastore with that block, DA included height 5 and pruned height 2. *)
Definition one_block : mapds :=
  let s := match ds_Batch (B := list batch_op) empty_db with
           | Ok b => (Commit empty_db
               (block_writes empty_db w_sh w_data [x07; x08] w_state b).1).1
           | Err _ => empty_db
           end in
  let s := (SetMetadata s DAIncludedHeightKey (PutUint64_LE 5)).1 in
  (SetMetadata s LastPrunedBlockHeightKey (encodeHeight 2)).1.


Lemma Rollback_atomic_witness :
  (forall s' e, Rollback (B := list batch_op) one_block 4 true = (s', Err e) -> s' = one_block) /\
  (forall cur, Height one_block = Ok cur -> cur <= 4 ->
     exists e, Rollback (B := list batch_op) one_block 4 true = (one_block, Err e)) /\
  (true = true -> ~ included_upto (GetMetadata one_block DAIncludedHeightKey) 4 ->
   exists e, Rollback (B := list batch_op) one_block 4 true = (one_block, Err e)).
Proof.
  refine (Rollback_atomic (B := list batch_op) one_block 4 true _ _).
  - vm_compute. reflexivity.
  - split; [discriminate|reflexivity].
Defined.

Lemma PruneBlocks_exact_witness : exists s',
  PruneBlocks (B := list batch_op) one_block 7 = (s', Ok tt) /\
  pruned (K := bytes) one_block s' 2 7 /\
  forall height', height' <= 7 -> PruneBlocks (B := list batch_op) s' height' = (s', Ok tt).
Proof.
  refine (PruneBlocks_exact (B := list batch_op) (K := bytes) one_block 7 2 _ _ _).
  - vm_compute. reflexivity.
  - vm_compute. reflexivity.
  - split; reflexivity.
Defined.

End StoreWitness.

End Store.
