(* ===== verification/CachedStore.v ===== *)
(** The caching store (pkg/store/cached_store.go): LRU caches of headers and
    blocks in front of the block store, invalidated by rollback and pruning.

    The LRU cache is a parameter ([LRU] of Interfaces).  The theorem is transparency: as long
    as blocks already stored are only removed through the cached store, every
    read answers what the underlying store would answer. *)

From S2P Require Import Prelude Interfaces Types Store.

Import Store.

Module CachedStore.

Definition DefaultHeaderCacheSize : Z := 200000.
Definition DefaultBlockDataCacheSize : Z := 200000.

Section cached.
Context {D B K : Type} {C : Type -> Type -> Type} `{LRU C}.
Context `{Datastore D} `{Batching D B} `{PubKeys K} `{Protowire} `{HashString}.
Context `{ProtoCodec pb_SignedHeader} `{ProtoCodec pb_Data} `{ProtoCodec pb_State}.

Record blockDataEntry := { bde_header : SignedHeader K; bde_data : Data }.

Record CachedStore := {
  cs_Store : D;
  headerCache : C Z (SignedHeader K);
  blockDataCache : C Z blockDataEntry;
}.

(** Options: [WithHeaderCacheSize] and [WithBlockDataCacheSize]. *)
Definition CachedStoreOption : Type := CachedStore -> res CachedStore.
Definition WithHeaderCacheSize (size : Z) : CachedStoreOption := fun cs =>
  let? cache := lru_New size in
  Ok {| cs_Store := cs_Store cs; headerCache := cache; blockDataCache := blockDataCache cs |}.
Definition WithBlockDataCacheSize (size : Z) : CachedStoreOption := fun cs =>
  let? cache := lru_New size in
  Ok {| cs_Store := cs_Store cs; headerCache := headerCache cs; blockDataCache := cache |}.

Fixpoint apply_options (cs : CachedStore) (opts : list CachedStoreOption) : res CachedStore :=
  match opts with
  | [] => Ok cs
  | opt :: opts' => let? cs' := opt cs in apply_options cs' opts'
  end.

Definition NewCachedStore (store : D) (opts : list CachedStoreOption) : res CachedStore :=
  let? hc := lru_New DefaultHeaderCacheSize in
  let? bc := lru_New DefaultBlockDataCacheSize in
  apply_options {| cs_Store := store; headerCache := hc; blockDataCache := bc |} opts.

Definition Cached_GetHeader (cs : CachedStore) (height : Z) : CachedStore * res (SignedHeader K) :=
  match lru_Get (headerCache cs) height with
  | (hc, Some header) =>
      ({| cs_Store := cs_Store cs; headerCache := hc; blockDataCache := blockDataCache cs |}, Ok header)
  | (hc, None) =>
      match GetHeader (cs_Store cs) height with
      | Err e =>
          ({| cs_Store := cs_Store cs; headerCache := hc; blockDataCache := blockDataCache cs |}, Err e)
      | Ok header =>
          ({| cs_Store := cs_Store cs; headerCache := lru_Add hc height header;
              blockDataCache := blockDataCache cs |}, Ok header)
      end
  end.

Definition Cached_GetBlockData (cs : CachedStore) (height : Z)
  : CachedStore * res (SignedHeader K * Data) :=
  match lru_Get (blockDataCache cs) height with
  | (bc, Some entry) =>
      ({| cs_Store := cs_Store cs; headerCache := headerCache cs; blockDataCache := bc |},
       Ok (bde_header entry, bde_data entry))
  | (bc, None) =>
      match GetBlockData (cs_Store cs) height with
      | Err e =>
          ({| cs_Store := cs_Store cs; headerCache := headerCache cs; blockDataCache := bc |}, Err e)
      | Ok (header, data) =>
          ({| cs_Store := cs_Store cs; headerCache := lru_Add (headerCache cs) height header;
              blockDataCache := lru_Add bc height {| bde_header := header; bde_data := data |} |},
           Ok (header, data))
      end
  end.

(** [for h := fromHeight; h <= toHeight; h++]; [None] when the loop does not end
    ([toHeight] = MaxUint64). *)
Fixpoint invalidate_loop (fuel : nat) (cs : CachedStore) (h toHeight : Z) : option CachedStore :=
  if toHeight <? h then Some cs
  else match fuel with
       | O => None
       | S fuel =>
           invalidate_loop fuel
             {| cs_Store := cs_Store cs; headerCache := lru_Remove (headerCache cs) h;
                blockDataCache := lru_Remove (blockDataCache cs) h |} (h +u 1) toHeight
       end.
Definition InvalidateRange (cs : CachedStore) (fromHeight toHeight : Z) : option CachedStore :=
  invalidate_loop (Z.to_nat (toHeight - fromHeight + 1)) cs fromHeight toHeight.

Definition ClearCache (cs : CachedStore) : CachedStore :=
  {| cs_Store := cs_Store cs; headerCache := lru_Purge (headerCache cs);
     blockDataCache := lru_Purge (blockDataCache cs) |}.

Definition with_store (cs : CachedStore) (s : D) : CachedStore :=
  {| cs_Store := s; headerCache := headerCache cs; blockDataCache := blockDataCache cs |}.

(** [None] where [InvalidateRange] does not return. *)
Definition Cached_Rollback (cs : CachedStore) (height : Z) (aggregator : bool)
  : option (CachedStore * res unit) :=
  match Height (cs_Store cs) with
  | Err e => Some (cs, Err e)
  | Ok currentHeight =>
      match Rollback (B := B) (cs_Store cs) height aggregator with
      | (s, Err e) => Some (with_store cs s, Err e)
      | (s, Ok _) =>
          cs' ← InvalidateRange (with_store cs s) (height +u 1) currentHeight;
          Some (cs', Ok tt)
      end
  end.

Definition Cached_PruneBlocks (cs : CachedStore) (height : Z) : option (CachedStore * res unit) :=
  match PruneBlocks (B := B) (cs_Store cs) height with
  | (s, Err e) => Some (with_store cs s, Err e)
  | (s, Ok _) => cs' ← InvalidateRange (with_store cs s) 1 height; Some (cs', Ok tt)
  end.

End cached.
#[global] Arguments CachedStore D K C : clear implicits.

(** ** Transparency *)

Section transparent.
Context {D B K : Type} {C : Type -> Type -> Type} `{LL : LRULaws C}.
Context `{DL : DatastoreLaws D} `{BC : Batching D B} `{BL : !BatchingLaws D B}.
Context `{PK : PubKeys K} `{PW : Protowire} `{HS : HashString} `{HL : !HashStringLaws}.
Context `{CH : ProtoCodec pb_SignedHeader} `{CD : ProtoCodec pb_Data} `{CS : ProtoCodec pb_State}.

Abbreviation cstore := (CachedStore D K C).

(** Every cached entry is what the store holds. *)
Record coherent (cs : cstore) : Prop := {
  co_healthy : ds_healthy (cs_Store cs);
  co_header h hdr : is_u64 h -> lru_view (headerCache cs) !! h = Some hdr ->
    GetHeader (cs_Store cs) h = Ok hdr;
  co_block h e : is_u64 h -> lru_view (blockDataCache cs) !! h = Some e ->
    GetBlockData (cs_Store cs) h = Ok (bde_header e, bde_data e);
}.

(** A write that changes no block already stored, such as the commit of a new one. *)
Definition append_only (s s' : D) : Prop :=
  ds_healthy s' /\
  forall h, is_u64 h -> (forall hdr, GetHeader (K := K) s h = Ok hdr -> GetHeader s' h = Ok hdr) /\
    (forall b, GetBlockData (K := K) s h = Ok b -> GetBlockData s' h = Ok b).

Inductive step (cs : cstore) : cstore -> Prop :=
| st_header h : is_u64 h -> step cs (Cached_GetHeader cs h).1
| st_block h : is_u64 h -> step cs (Cached_GetBlockData cs h).1
| st_write s' : append_only (cs_Store cs) s' -> step cs (with_store cs s')
| st_rollback height aggregator cs' r : is_u64 height ->
    Cached_Rollback (B := B) cs height aggregator = Some (cs', r) -> step cs cs'
| st_prune height cs' r : 0 <= height < two64 - 1 ->
    Cached_PruneBlocks (B := B) cs height = Some (cs', r) -> step cs cs'
| st_invalidate a b cs' : is_u64 a -> InvalidateRange cs a b = Some cs' -> step cs cs'
| st_clear : step cs (ClearCache cs).

Lemma invalidate_some fuel (cs : cstore) h to cs' : is_u64 h -> invalidate_loop fuel cs h to = Some cs' ->
  cs_Store cs' = cs_Store cs /\
  lru_view (headerCache cs') ⊆ lru_view (headerCache cs) /\
  lru_view (blockDataCache cs') ⊆ lru_view (blockDataCache cs) /\
  forall k, is_u64 k -> h <= k <= to ->
    lru_view (headerCache cs') !! k = None /\ lru_view (blockDataCache cs') !! k = None.
Proof.
  revert cs h. induction fuel as [|fuel IH]; intros cs h Hh; simpl; destruct (Z.ltb_spec to h) as [Hlt|Hge];
    try done; try (intros [= <-]; split_and!; [done..|intros; lia]).
  intros E. apply IH in E as (Es & Eh & Eb & Ek); [|apply u64_range]. simpl in *.
  rewrite !(proj1 (lru_Remove_spec _ _)) in *. split_and!; [done|..].
  - etrans; [exact Eh|]. apply delete_subseteq.
  - etrans; [exact Eb|]. apply delete_subseteq.
  - intros k Hk Hr. destruct (decide (k = h)) as [->|Hne].
    + split; [eapply (lookup_weaken_None _ _ _ (lookup_delete_eq _ _) Eh)|
              eapply (lookup_weaken_None _ _ _ (lookup_delete_eq _ _) Eb)].
    + apply Ek; [done|]. rewrite u64_small; unfold is_u64 in *; lia.
Qed.

Lemma invalidate_returns fuel (cs : cstore) h to : is_u64 h -> to < two64 - 1 -> to - h + 1 <= Z.of_nat fuel ->
  is_Some (invalidate_loop fuel cs h to).
Proof.
  intros Hh Ht. revert cs h Hh. induction fuel as [|fuel IH]; intros cs h Hh Hf; simpl;
    destruct (Z.ltb_spec to h); try done; [lia|].
  apply IH; [apply u64_range|]. rewrite u64_small; unfold is_u64 in *; lia.
Qed.

(** Coherence passes to a smaller cache over a store that still holds what is cached. *)
Lemma coherent_weaken (cs cs' : cstore) : coherent cs -> ds_healthy (cs_Store cs') ->
  lru_view (headerCache cs') ⊆ lru_view (headerCache cs) ->
  lru_view (blockDataCache cs') ⊆ lru_view (blockDataCache cs) ->
  (forall h, is_u64 h -> is_Some (lru_view (headerCache cs') !! h) \/ is_Some (lru_view (blockDataCache cs') !! h) ->
     forall hdr, GetHeader (K := K) (cs_Store cs) h = Ok hdr -> GetHeader (cs_Store cs') h = Ok hdr) ->
  (forall h, is_u64 h -> is_Some (lru_view (blockDataCache cs') !! h) ->
     forall b, GetBlockData (K := K) (cs_Store cs) h = Ok b -> GetBlockData (cs_Store cs') h = Ok b) ->
  coherent cs'.
Proof.
  intros [Hh Hc Hb] Hs Sh Sb Gh Gb. split; [done|..].
  - intros h hdr Hu E. apply Gh; eauto. apply Hc; [done|]. by eapply lookup_weaken.
  - intros h e Hu E. apply Gb; eauto. apply Hb; [done|]. by eapply lookup_weaken.
Qed.

Lemma rollback_blocks s height aggregator s' cur h : ds_healthy s -> is_u64 height ->
  Rollback (B := B) s height aggregator = (s', Ok tt) -> Height s = Ok cur -> is_u64 h ->
  ~ (height < h <= cur) -> block_at (K := K) s' h = block_at s h.
Proof.
  intros Hs Hu E Hc Hh Hn. destruct (rollback_frame s height aggregator s' _ Hs Hu E) as (Hs' & _ & Hk).
  apply block_frame; try done. intros k Hin. apply (Hk cur); [done|]. unfold rollback_touched.
  pose proof (Height_view s cur Hs Hc) as Hcu.
  assert (HP : forall h', height < h' <= cur -> is_u64 h') by (unfold is_u64 in *; lia).
  rewrite !elem_of_cons, elem_of_nil in Hin.
  destruct Hin as [->|[->|[->|[]]]]; (intros [Hr|[Hr|Hr]];
    [apply range_hkey in Hr; [done|done|done|rewrite ?elem_of_cons; tauto]|discriminate Hr|discriminate Hr]).
Qed.

Lemma rollback_below s height aggregator s' cur : Rollback (B := B) s height aggregator = (s', Ok tt) ->
  Height s = Ok cur -> height < cur.
Proof.
  unfold Rollback, run_batch. intros E Hc. rewrite Hc in E. destruct (ds_Batch s); [|done].
  by destruct (Z.leb_spec cur height); [|done].
Qed.

Lemma prune_blocks s height s' h : ds_healthy s -> 0 <= height < two64 - 1 ->
  PruneBlocks (B := B) s height = (s', Ok tt) -> is_u64 h -> ~ (1 <= h <= height) ->
  ds_healthy s' /\ block_at (K := K) s' h = block_at s h.
Proof.
  intros Hs Hr E Hu Hn. destruct (last_pruned s) as [lp|e] eqn:Hl.
  2: { unfold PruneBlocks in E. rewrite Hl in E. by destruct (ds_Batch s). }
  pose proof (last_pruned_range s lp Hl) as Hlu. destruct (Z.leb_spec height lp) as [Hle|Hgt].
  - unfold PruneBlocks in E. rewrite Hl, (proj2 (Z.leb_le _ _) Hle) in E.
    destruct (ds_Batch s); [by injection E as <-|done].
  - destruct (prune_view s height lp Hs Hl ltac:(lia)) as (s2 & ks & E2 & Hs2 & Hks & V).
    rewrite E in E2. injection E2 as <-. split; [done|].
    apply block_frame; try done. intros k Hin.
    assert (HP : forall h', lp < h' <= height -> is_u64 h') by (unfold is_u64 in *; lia).
    apply (pruned_other s s' ks lp height k Hks V).
    { rewrite !elem_of_cons, elem_of_nil in Hin. decompose [or] Hin; subst; discriminate || done. }
    intros h' Hh' Hk. apply (prune_range (fun h => lp < h <= height)) in Hk; [|done].
    rewrite !elem_of_cons, elem_of_nil in Hin.
    destruct Hin as [->|[->|[->|[]]]]; apply range_hkey in Hk;
      try (rewrite ?elem_of_cons; tauto); unfold is_u64 in *; lia || done.
Qed.

(** Dropping a range of heights from the caches over a store in which only these changed. *)
Lemma invalidate_coherent (cs : cstore) s' a b cs' : coherent cs -> ds_healthy s' -> is_u64 a ->
  (forall h, is_u64 h -> ~ (a <= h <= b) -> block_at (K := K) s' h = block_at (cs_Store cs) h) ->
  InvalidateRange (with_store cs s') a b = Some cs' -> coherent cs'.
Proof.
  intros Hc Hs Ha Hb E. apply invalidate_some in E as (Es & Sh & Sb & Ek); [|done]. simpl in *.
  assert (Hin : forall h, is_u64 h -> is_Some (lru_view (headerCache cs') !! h) \/
                 is_Some (lru_view (blockDataCache cs') !! h) -> ~ (a <= h <= b)).
  { intros h Hu [[? E]|[? E]] Hr; destruct (Ek h Hu Hr) as [E1 E2]; congruence. }
  apply (coherent_weaken cs); rewrite ?Es; try done.
  - intros h Hu Hsome hdr Hh. specialize (Hb h Hu (Hin h Hu Hsome)). unfold block_at in Hb. congruence.
  - intros h Hu Hsome bd Hh. specialize (Hb h Hu (Hin h Hu (or_intror Hsome))). unfold block_at in Hb. congruence.
Qed.

Lemma header_coherent (cs : cstore) h : coherent cs -> is_u64 h ->
  coherent (Cached_GetHeader cs h).1 /\ (Cached_GetHeader cs h).2 = GetHeader (cs_Store cs) h.
Proof.
  intros Hc Hu. pose proof Hc as [Hh Ch Cb]. unfold Cached_GetHeader.
  destruct (lru_Get_spec (headerCache cs) h) as (c' & -> & V & _).
  destruct (lru_view (headerCache cs) !! h) as [hdr|] eqn:E.
  - split; [split; simpl; rewrite ?V; done|]. simpl. symmetry. by apply Ch.
  - destruct (GetHeader (cs_Store cs) h) as [hdr|e] eqn:G; simpl.
    + split; [|done]. split; simpl; [done| |done]. intros h' hdr' Hu' E'.
      destruct (lru_Add_spec c' h hdr) as [Hs _]. rewrite V in Hs. pose proof (lookup_weaken _ _ _ _ E' Hs) as E2.
      destruct (decide (h = h')) as [<-|Hne]; [rewrite lookup_insert_eq in E2; congruence|].
      rewrite lookup_insert_ne in E2 by done. by apply Ch.
    + split; [|done]. split; simpl; rewrite ?V; done.
Qed.

Lemma block_coherent (cs : cstore) h : coherent cs -> is_u64 h ->
  coherent (Cached_GetBlockData cs h).1 /\ (Cached_GetBlockData cs h).2 = GetBlockData (cs_Store cs) h.
Proof.
  intros Hc Hu. pose proof Hc as [Hh Ch Cb]. unfold Cached_GetBlockData.
  destruct (lru_Get_spec (blockDataCache cs) h) as (c' & -> & V & _).
  destruct (lru_view (blockDataCache cs) !! h) as [e|] eqn:E.
  - split; [split; simpl; rewrite ?V; done|]. simpl. symmetry. by apply Cb.
  - destruct (GetBlockData (cs_Store cs) h) as [[hdr d]|e] eqn:G; simpl.
    2: { split; [|done]. split; simpl; rewrite ?V; done. }
    assert (Gh : GetHeader (cs_Store cs) h = Ok hdr).
    { unfold GetBlockData in G. destruct (GetHeader (cs_Store cs) h) as [hdr'|]; [|done]. simpl in G.
      by repeat case_match; simplify_eq. }
    split; [|done]. split; simpl; [done|..]; intros h' x Hu' E'.
    + pose proof (lookup_weaken _ _ _ _ E' (proj1 (lru_Add_spec _ h hdr))) as E2.
      destruct (decide (h = h')) as [<-|Hne]; [rewrite lookup_insert_eq in E2; congruence|].
      rewrite lookup_insert_ne in E2 by done. by apply Ch.
    + destruct (lru_Add_spec c' h {| bde_header := hdr; bde_data := d |}) as [Hs _]. rewrite V in Hs.
      pose proof (lookup_weaken _ _ _ _ E' Hs) as E2.
      destruct (decide (h = h')) as [<-|Hne]; [rewrite lookup_insert_eq in E2; by injection E2 as <-|].
      rewrite lookup_insert_ne in E2 by done. by apply Cb.
Qed.

Lemma rollback_coherent (cs cs' : cstore) height aggregator r : coherent cs -> is_u64 height ->
  Cached_Rollback (B := B) cs height aggregator = Some (cs', r) -> coherent cs'.
Proof.
  intros Hc Hu E. unfold Cached_Rollback in E.
  destruct (Height _) as [cur|e] eqn:Hcur; [|by injection E as <- _].
  destruct (Rollback _ _ _) as [s' [[]|e]] eqn:Er.
  - destruct (InvalidateRange _ _ _) as [cs3|] eqn:Ei; [|done]. injection E as <- _.
    pose proof (rollback_below _ _ _ _ _ Er Hcur) as Hlt.
    pose proof (Height_view _ cur (co_healthy _ Hc) Hcur) as Hcu.
    assert (height +u 1 = height + 1) as Eu by (apply u64_small; unfold is_u64 in *; lia).
    rewrite Eu in Ei. eapply (invalidate_coherent cs s'); [done| | | |exact Ei].
    + by eapply (rollback_frame _ _ _ _ _ (co_healthy _ Hc) Hu Er).
    + unfold is_u64 in *. lia.
    + intros h Hh Hn. eapply rollback_blocks; [apply Hc|exact Hu|exact Er|exact Hcur|done|lia].
  - injection E as <- _. destruct (rollback_frame _ _ _ _ _ (co_healthy _ Hc) Hu Er) as (_ & He & _).
    rewrite (He e eq_refl). by destruct cs.
Qed.

Lemma prune_err s height s' e : ds_healthy s -> height < two64 - 1 ->
  PruneBlocks (B := B) s height = (s', Err e) -> s' = s.
Proof.
  intros Hs Hr E. destruct (last_pruned s) as [lp|e'] eqn:Hl.
  2: { unfold PruneBlocks in E. rewrite Hl in E. destruct (ds_Batch s); by injection E as <- _. }
  destruct (Z.leb_spec height lp) as [Hle|Hgt].
  - unfold PruneBlocks in E. rewrite Hl, (proj2 (Z.leb_le _ _) Hle) in E.
    destruct (ds_Batch s); [done|by injection E as <- _].
  - destruct (prune_view s height lp Hs Hl ltac:(lia)) as (s2 & ks & E2 & _). congruence.
Qed.

Lemma prune_coherent (cs cs' : cstore) height r : coherent cs -> 0 <= height < two64 - 1 ->
  Cached_PruneBlocks (B := B) cs height = Some (cs', r) -> coherent cs'.
Proof.
  intros Hc Hr E. unfold Cached_PruneBlocks in E. destruct (PruneBlocks _ _) as [s' [[]|e]] eqn:Ep.
  - destruct (InvalidateRange _ _ _) as [cs3|] eqn:Ei; [|done]. injection E as <- _.
    pose proof (fun h => prune_blocks _ height s' h (co_healthy _ Hc) Hr Ep) as Hp.
    eapply (invalidate_coherent cs s'); [done| | | |exact Ei]; [|done|].
    + apply (Hp 0); [done|lia].
    + intros h Hh Hn. by apply Hp.
  - injection E as <- _. rewrite (prune_err _ height s' e (co_healthy _ Hc) ltac:(lia) Ep). by destruct cs.
Qed.

Lemma step_coherent (cs cs' : cstore) : coherent cs -> step cs cs' -> coherent cs'.
Proof.
  intros Hc [h Hu|h Hu|s' [Hs Ha]|height agg cs2 r Hu E|height cs2 r Hr E|a b cs2 Ha E|].
  - by apply header_coherent.
  - by apply block_coherent.
  - apply (coherent_weaken cs); try done; intros h Hu _ x; apply Ha; done.
  - by eapply rollback_coherent.
  - by eapply prune_coherent.
  - eapply (invalidate_coherent cs (cs_Store cs)); [done|apply Hc|exact Ha|done|].
    by destruct cs.
  - split; simpl; [apply Hc|..]; intros h x _; rewrite (proj1 (lru_Purge_spec _)); done.
Qed.

(** The options of the package. *)
Definition size_option (opt : CachedStoreOption (D := D) (K := K) (C := C)) : Prop :=
  exists n, opt = WithHeaderCacheSize n \/ opt = WithBlockDataCacheSize n.

Lemma new_coherent s opts cs : ds_healthy s -> Forall size_option opts ->
  NewCachedStore s opts = Ok cs -> coherent cs.
Proof.
  intros Hs Ho. unfold NewCachedStore.
  destruct (lru_New DefaultHeaderCacheSize) as [hc|] eqn:E1; [|done].
  destruct (lru_New DefaultBlockDataCacheSize) as [bc|] eqn:E2; [|done]. simpl.
  assert (Hemp : coherent {| cs_Store := s; headerCache := hc; blockDataCache := bc |}).
  { split; simpl; [done|..]; intros h x _; [rewrite (proj1 (lru_New_spec _ _ E1))|rewrite (proj1 (lru_New_spec _ _ E2))]; done. }
  revert Hemp. generalize {| cs_Store := s; headerCache := hc; blockDataCache := bc |}.
  induction Ho as [|opt opts [n Hn] Ho IH]; intros cs0 Hemp; simpl; [by intros [= <-]|].
  destruct (opt cs0) as [cs1|] eqn:E; [|done]. simpl. apply IH. destruct Hemp as [Hh Ch Cb].
  destruct Hn as [-> | ->]; unfold WithHeaderCacheSize, WithBlockDataCacheSize in E;
    destruct (lru_New n) as [c|] eqn:En; [injection E as <-|done|injection E as <-|done];
    (split; simpl; [done|..]); try done; intros h x _; by rewrite (proj1 (lru_New_spec _ _ En)).
Qed.

(** C21: Whatever sequence of reads, appends, rollbacks, prunings and invalidations a cached store has
    gone through since its creation, its reads answer exactly what the underlying store answers;
    and rollback and pruning return (their invalidation loop ends) below the maximal height. *)
Theorem cached_transparent (s : D) (opts : list CachedStoreOption) (cs0 cs : cstore)
  (Hs : ds_healthy s) (Ho : Forall size_option opts) (Hnew : NewCachedStore s opts = Ok cs0)
  (Hr : rtc step cs0 cs) :
  (forall h, is_u64 h -> (Cached_GetHeader cs h).2 = GetHeader (cs_Store cs) h /\
     (Cached_GetBlockData cs h).2 = GetBlockData (cs_Store cs) h) /\
  (forall height aggregator cur, is_u64 height -> Height (cs_Store cs) = Ok cur -> cur < two64 - 1 ->
     is_Some (Cached_Rollback (B := B) cs height aggregator)) /\
  (forall height, height < two64 - 1 -> is_Some (Cached_PruneBlocks (B := B) cs height)).
Proof.
  assert (Hc : coherent cs).
  { apply new_coherent in Hnew; [|done..]. induction Hr as [|? ? ? Hst _ IH]; [done|].
    apply IH. by eapply step_coherent. }
  split; [|split].
  - intros h Hu. split; [by apply header_coherent|by apply block_coherent].
  - intros height agg cur Hu Hcur Hlt. unfold Cached_Rollback. rewrite Hcur.
    destruct (Rollback _ _ _) as [s' [[]|e]] eqn:Er; [|by eexists].
    edestruct (invalidate_returns (Z.to_nat (cur - (height +u 1) + 1)) (with_store cs s')
      (height +u 1) cur) as [cs' E]; [apply u64_range|exact Hlt|lia|]. unfold InvalidateRange. rewrite E. by eexists.
  - intros height Hlt. unfold Cached_PruneBlocks.
    destruct (PruneBlocks _ _) as [s' [[]|e]]; [|by eexists].
    edestruct (invalidate_returns (Z.to_nat (height - 1 + 1)) (with_store cs s') 1 height) as [cs' E];
      [done|exact Hlt|lia|]. unfold InvalidateRange. rewrite E. by eexists.
Qed.

End transparent.

(** ** Witness: small caches over the one-block store, read and then rolled back *)

Module CachedWitness.
Import RefHash RefLRU TypesWitness Store.StoreWitness.

Definition fresh : CachedStore mapds bytes lruc :=
  {| cs_Store := one_block; headerCache := {| lc_more := 1; lc_items := [] |};
     blockDataCache := {| lc_more := 2; lc_items := [] |} |}.
Definition warm : CachedStore mapds bytes lruc := (Cached_GetBlockData fresh 7).1.
Definition rolled : CachedStore mapds bytes lruc :=
  match Cached_Rollback (B := list batch_op) warm 6 true with Some (cs, _) => cs | None => warm end.

Lemma cached_transparent_witness :
  (forall h, is_u64 h -> (Cached_GetHeader rolled h).2 = GetHeader (cs_Store rolled) h /\
     (Cached_GetBlockData rolled h).2 = GetBlockData (cs_Store rolled) h) /\
  (forall height aggregator cur, is_u64 height -> Height (cs_Store rolled) = Ok cur -> cur < two64 - 1 ->
     is_Some (Cached_Rollback (B := list batch_op) rolled height aggregator)) /\
  (forall height, height < two64 - 1 -> is_Some (Cached_PruneBlocks (B := list batch_op) rolled height)).
Proof.
  refine (cached_transparent (B := list batch_op) one_block
    [WithHeaderCacheSize 2; WithBlockDataCacheSize 3] fresh rolled _ _ _ _).
  - vm_compute. reflexivity.
  - constructor; [exists 2; left; reflexivity|]. constructor; [exists 3; right; reflexivity|constructor].
  - reflexivity.
  - apply (rtc_l (step (B := list batch_op)) fresh warm rolled).
    + unfold warm. apply (st_block (B := list batch_op) fresh 7). split; [discriminate|reflexivity].
    + apply rtc_once. apply (st_rollback warm 6 true rolled (Ok tt)); [split; [discriminate|reflexivity]|].
      vm_compute. reflexivity.
Defined.

End CachedWitness.

End CachedStore.
