(* ===== verification/Pending.v ===== *)
(** Blocks waiting for DA submission (block/internal/cache/pending_base.go,
    pending_headers.go, pending_data.go): the last submitted height, kept in
    memory and as store metadata, and the items above it, read from the store
    through an LRU cache.

    The store is shared with the rest of the node, so every operation takes it
    as an argument; the cache library is [LRU]. *)

From S2P Require Import Prelude Interfaces Types Validation Store.

Import Store.

Module Pending.

Definition DefaultPendingCacheSize : Z := 200000.
Definition LastSubmittedDataHeightKey : string := "last-submitted-data-height".
Definition errInFlightData : err := ESentinel "inflight data".
Definition errInFlightHeader : err := ESentinel "inflight header".

(** [for h := from; h <= to; h++]: heights stay below MaxUint64, where the loop would not end. *)
Abbreviation loop_heights := heights_upto.

Section base.
Context {D : Type} {C : Type -> Type -> Type} {T : Type} `{Datastore D} `{LRU C}.
(** [fetch(ctx, store, height)] *)
Context (fetch : D -> Z -> res T).

Record pendingBase := { metaKey : string; lastHeight : Z; pendingCache : C Z T }.

Definition with_cache (pb : pendingBase) (c : C Z T) : pendingBase :=
  {| metaKey := metaKey pb; lastHeight := lastHeight pb; pendingCache := c |}.

Definition init (s : D) (pb : pendingBase) : res pendingBase :=
  match GetMetadata s (metaKey pb) with
  | Err e => if errors_is e ErrNotFound then Ok pb else Err e
  | Ok raw =>
      if negb (blen raw =? 8) then Err (EMsg "invalid length of last submitted height")
      else
        let lsh := Uint64_LE raw in
        if lsh =? 0 then Ok pb
        else Ok {| metaKey := metaKey pb;
                   lastHeight := if lastHeight pb =? 0 then lsh else lastHeight pb;
                   pendingCache := pendingCache pb |}
  end.

Definition newPendingBase (s : D) (key : string) : res pendingBase :=
  let? c := wrap_err "failed to create pending cache" (lru_New DefaultPendingCacheSize) in
  init s {| metaKey := key; lastHeight := 0; pendingCache := c |}.

(** The loop that fetches what is not cached. *)
Fixpoint fill_cache (s : D) (c : C Z T) (hs : list Z) : C Z T * res unit :=
  match hs with
  | [] => (c, Ok tt)
  | h :: hs' =>
      match lru_Peek c h with
      | Some _ => fill_cache s c hs'
      | None =>
          match fetch s h with
          | Err e => (c, Err e)
          | Ok item => fill_cache s (lru_Add c h item) hs'
          end
      end
  end.

(** The loop that builds the result, fetching again what was evicted. *)
Fixpoint collect (s : D) (c : C Z T) (hs : list Z) (pending : list T) : C Z T * res (list T) :=
  match hs with
  | [] => (c, Ok pending)
  | h :: hs' =>
      match lru_Get c h with
      | (c', Some item) => collect s c' hs' (pending ++ [item])
      | (c', None) =>
          match fetch s h with
          | Err e => (c', Err e)
          | Ok item => collect s (lru_Add c' h item) hs' (pending ++ [item])
          end
      end
  end.

Definition getPending (s : D) (pb : pendingBase) : pendingBase * res (list T) :=
  let lastSubmitted := lastHeight pb in
  match Height s with
  | Err e => (pb, Err e)
  | Ok storeHeight =>
      if lastSubmitted =? storeHeight then (pb, Ok [])
      else if storeHeight <? lastSubmitted then
        (pb, Err (EMsg "height of last submitted item is greater than height of last item"))
      else
        let pendingCount := storeHeight -u lastSubmitted in
        let endHeight := if DefaultPendingCacheSize <? pendingCount
                         then lastSubmitted +u DefaultPendingCacheSize else storeHeight in
        let hs := loop_heights (lastSubmitted + 1) endHeight in
        match fill_cache s (pendingCache pb) hs with
        | (c, Err e) => (with_cache pb c, Err e)
        | (c, Ok _) => let '(c', r) := collect s c hs [] in (with_cache pb c', r)
        end
  end.

Definition numPending (s : D) (pb : pendingBase) : Z :=
  match Height s with
  | Err _ => 0
  | Ok height => height -u lastHeight pb
  end.

(** A failed write of the metadata is only logged. *)
Definition setLastSubmittedHeight (s : D) (pb : pendingBase) (newHeight : Z) : D * pendingBase :=
  if lastHeight pb <? newHeight then
    ((SetMetadata s (metaKey pb) (PutUint64_LE newHeight)).1,
     {| metaKey := metaKey pb; lastHeight := newHeight; pendingCache := pendingCache pb |})
  else (s, pb).

End base.
#[global] Arguments pendingBase C T : clear implicits.

(** ** Headers and data *)

Section pending.
Context {D K : Type} {C : Type -> Type -> Type} `{Datastore D} `{LRU C} `{PubKeys K} `{Protowire}.
Context `{ProtoCodec pb_SignedHeader} `{ProtoCodec pb_Data}.

Definition fetchSignedHeader (s : D) (height : Z) : res (SignedHeader K) :=
  let? header := GetHeader s height in
  if hd_Height (sh_Header header) =? 0 then Err errInFlightHeader else Ok header.

(** [data.Height()] reads the metadata. *)
Definition fetchData (s : D) (height : Z) : res Data :=
  let? block := GetBlockData (K := K) s height in
  match dt_Metadata block.2 with
  | None => Err nil_deref
  | Some m => if md_Height m =? 0 then Err errInFlightData else Ok block.2
  end.

Abbreviation PendingHeaders := (pendingBase C (SignedHeader K)).
Abbreviation PendingData := (pendingBase C Data).

Definition NewPendingHeaders (s : D) : res PendingHeaders := newPendingBase s LastSubmittedHeaderHeightKey.
Definition NewPendingData (s : D) : res PendingData := newPendingBase s LastSubmittedDataHeightKey.

(** The marshalling loop shared by both getters. *)
Fixpoint marshal_all {T} (marshal : T -> res bytes) (msg : string) (items : list T) : res (list bytes) :=
  match items with
  | [] => Ok []
  | x :: xs =>
      let? b := wrap_err msg (marshal x) in
      let? bs := marshal_all marshal msg xs in Ok (b :: bs)
  end.

Definition GetPendingHeaders (s : D) (ph : PendingHeaders)
  : PendingHeaders * res (list (SignedHeader K) * list bytes) :=
  let '(ph', r) := getPending fetchSignedHeader s ph in
  (ph', let? headers := r in
        let? marshalled := marshal_all SignedHeader_MarshalBinary "failed to marshal header" headers in
        Ok (headers, marshalled)).

Definition GetPendingData (s : D) (pd : PendingData) : PendingData * res (list Data * list bytes) :=
  let '(pd', r) := getPending fetchData s pd in
  (pd', let? dataList := r in
        let? marshalled := marshal_all Data_MarshalBinary "failed to marshal data" dataList in
        Ok (dataList, marshalled)).

(** [for height := currentHeight + 1; height <= storeHeight; height++] of [advancePastEmptyData]. *)
Fixpoint advance_loop (s : D) (pd : PendingData) (hs : list Z) : D * PendingData :=
  match hs with
  | [] => (s, pd)
  | h :: hs' =>
      match fetchData s h with
      | Err _ => (s, pd)
      | Ok data =>
          match Txs data with
          | _ :: _ => (s, pd)
          | [] => let '(s', pd') := setLastSubmittedHeight s pd h in advance_loop s' pd' hs'
          end
      end
  end.

Definition advancePastEmptyData (s : D) (pd : PendingData) : D * PendingData :=
  match Height s with
  | Err _ => (s, pd)
  | Ok storeHeight => advance_loop s pd (loop_heights (lastHeight pd + 1) storeHeight)
  end.

Definition NumPendingData (s : D) (pd : PendingData) : D * PendingData * Z :=
  let '(s', pd') := advancePastEmptyData s pd in (s', pd', numPending s' pd').

(** [implementation.GetPendingData] (manager.go): the data with transactions. *)
Definition Manager_GetPendingData (s : D) (pd : PendingData)
  : PendingData * res (list (SignedData K) * list bytes) :=
  let '(pd', r) := GetPendingData s pd in
  (pd', let? p := r in
        let l := filter (fun x : Data * bytes => Txs x.1 <> []) (zip p.1 p.2) in
        Ok ((fun x : Data * bytes => {| sd_Data := x.1; sd_Signature := []; sd_Signer := zero_signer |}) <$> l,
            l.*2)).

End pending.

(** ** What the getters return *)

Section exact.
Context {D : Type} {C : Type -> Type -> Type} {T : Type} `{DL : DatastoreLaws D} `{LL : LRULaws C}.
Context (fetch : D -> Z -> res T).

(** Cached items above a height are what the store holds. *)
Definition fresh_above (s : D) (last : Z) (c : C Z T) : Prop :=
  forall h x, last < h -> lru_view c !! h = Some x -> fetch s h = Ok x.

Lemma fresh_add s last c h x : fresh_above s last c -> fetch s h = Ok x -> fresh_above s last (lru_Add c h x).
Proof.
  intros Hf Hx h' x' Hl E. destruct (lru_Add_spec c h x) as [Hsub _].
  pose proof (lookup_weaken _ _ _ _ E Hsub) as E'.
  destruct (decide (h = h')) as [<-|Hne]; [rewrite lookup_insert_eq in E'; congruence|].
  rewrite lookup_insert_ne in E' by done. by apply Hf.
Qed.

Lemma fill_spec s last hs c : fresh_above s last c -> Forall (fun h => last < h) hs ->
  (forall h, h ∈ hs -> is_ok (fetch s h) = true) ->
  exists c', fill_cache fetch s c hs = (c', Ok tt) /\ fresh_above s last c'.
Proof.
  intros Hf Hl Hok. revert c Hf. induction Hl as [|h hs Hh Hl IH]; intros c Hf; simpl; [by exists c|].
  destruct (lru_Peek c h); [apply IH; [|done]; intros; apply Hok; by right|].
  specialize (Hok h ltac:(by left)) as Hfh. destruct (fetch s h) as [x|] eqn:E; [|done].
  apply IH; [intros; apply Hok; by right|]. by apply fresh_add.
Qed.

Lemma collect_spec s last hs c acc : fresh_above s last c -> Forall (fun h => last < h) hs ->
  (forall h, h ∈ hs -> is_ok (fetch s h) = true) ->
  exists c' l, collect fetch s c hs acc = (c', Ok (acc ++ l)) /\ fresh_above s last c' /\
    Forall2 (fun h x => fetch s h = Ok x) hs l.
Proof.
  intros Hf Hl Hok. revert c acc Hf. induction Hl as [|h hs Hh Hl IH]; intros c acc Hf; simpl.
  { exists c, []. by rewrite app_nil_r. }
  assert (Hok' : forall h', h' ∈ hs -> is_ok (fetch s h') = true) by (intros; apply Hok; by right).
  destruct (lru_Get_spec c h) as (c1 & -> & V & _).
  assert (Hf1 : fresh_above s last c1) by (intros ? ?; rewrite V; apply Hf).
  destruct (lru_view c !! h) as [x|] eqn:E.
  - destruct (IH Hok' c1 (acc ++ [x]) Hf1) as (c' & l & -> & Hc' & Hl'). exists c', (x :: l).
    rewrite <- app_assoc. split; [done|]. split; [done|]. constructor; [by apply Hf|done].
  - specialize (Hok h ltac:(by left)) as Hfh. destruct (fetch s h) as [x|] eqn:Ef; [|done].
    destruct (IH Hok' (lru_Add c1 h x) (acc ++ [x])) as (c' & l & -> & Hc' & Hl'); [by apply fresh_add|].
    exists c', (x :: l). rewrite <- app_assoc. split; [done|]. split; [done|]. by constructor.
Qed.

(** [getPending] returns exactly the stored items above the last submitted height, in height order
    and up to the cache's capacity, whatever the cache holds or evicts. *)
Theorem getPending_exact (s : D) (pb : pendingBase C T) (storeHeight : Z)
  (Hlast : is_u64 (lastHeight pb)) (Hh : Height s = Ok storeHeight) (Hu : is_u64 storeHeight)
  (Hle : lastHeight pb <= storeHeight) (Hf : fresh_above s (lastHeight pb) (pendingCache pb)) :
  let endHeight := Z.min storeHeight (lastHeight pb + DefaultPendingCacheSize) in
  (forall h, lastHeight pb < h <= endHeight -> is_ok (fetch s h) = true) ->
  exists pb' l, getPending fetch s pb = (pb', Ok l) /\
    Forall2 (fun h x => fetch s h = Ok x) (heights_upto (lastHeight pb + 1) endHeight) l /\
    lastHeight pb' = lastHeight pb /\ metaKey pb' = metaKey pb /\
    fresh_above s (lastHeight pb') (pendingCache pb').
Proof.
  intros endHeight Hok. unfold getPending. rewrite Hh.
  destruct (Z.eqb_spec (lastHeight pb) storeHeight) as [Heq|Hne].
  { exists pb, []. split; [done|]. split; [|done]. rewrite heights_upto_nil by lia. constructor. }
  rewrite (proj2 (Z.ltb_ge storeHeight (lastHeight pb))) by lia.
  assert (Eend : (if DefaultPendingCacheSize <? storeHeight -u lastHeight pb
                  then lastHeight pb +u DefaultPendingCacheSize else storeHeight) = endHeight).
  { rewrite (u64_small (storeHeight - _)) by (unfold is_u64 in *; lia). unfold endHeight, is_u64 in *.
    destruct (Z.ltb_spec DefaultPendingCacheSize (storeHeight - lastHeight pb)); [|lia].
    rewrite u64_small; unfold is_u64, DefaultPendingCacheSize in *; lia. }
  rewrite Eend. set (hs := heights_upto _ _).
  assert (Hhs : Forall (fun h => lastHeight pb < h) hs).
  { apply Forall_forall. intros h Hin%elem_of_heights_upto. lia. }
  assert (Hok' : forall h, h ∈ hs -> is_ok (fetch s h) = true).
  { intros h Hin%elem_of_heights_upto. apply Hok. lia. }
  destruct (fill_spec s _ hs _ Hf Hhs Hok') as (c1 & -> & Hc1).
  destruct (collect_spec s _ hs c1 [] Hc1 Hhs Hok') as (c2 & l & -> & Hc2 & Hl).
  by exists (with_cache pb c2), l.
Qed.

(** Without assuming that the items can be read: what a successful call returned, and the cache
    stays fresh in any case. *)
Lemma fill_fresh s last hs c : fresh_above s last c -> fresh_above s last (fill_cache fetch s c hs).1.
Proof.
  revert c. induction hs as [|h hs IH]; intros c Hf; simpl; [done|].
  destruct (lru_Peek c h); [by apply IH|]. destruct (fetch s h) eqn:E; [|done]. apply IH. by apply fresh_add.
Qed.

Lemma collect_ok s last hs c acc : fresh_above s last c -> Forall (fun h => last < h) hs ->
  let '(c', r) := collect fetch s c hs acc in
  fresh_above s last c' /\
  forall l, r = Ok l -> exists l', l = acc ++ l' /\ Forall2 (fun h x => fetch s h = Ok x) hs l'.
Proof.
  intros Hf Hl. revert c acc Hf. induction Hl as [|h hs Hh Hl IH]; intros c acc Hf; simpl.
  { split; [done|]. intros l [= <-]. exists []. by rewrite app_nil_r. }
  destruct (lru_Get_spec c h) as (c1 & -> & V & _).
  assert (Hf1 : fresh_above s last c1) by (intros ? ?; rewrite V; apply Hf).
  assert (Hgo : forall c2 x, fresh_above s last c2 -> fetch s h = Ok x ->
    let '(c', r) := collect fetch s c2 hs (acc ++ [x]) in fresh_above s last c' /\
    forall l, r = Ok l -> exists l', l = acc ++ l' /\ Forall2 (fun h x => fetch s h = Ok x) (h :: hs) l').
  { intros c2 x Hf2 Ex. specialize (IH c2 (acc ++ [x]) Hf2). destruct (collect _ _ _ _ _) as [c' r].
    destruct IH as [I1 I2]. split; [done|]. intros l El. destruct (I2 l El) as (l' & -> & Hl').
    exists (x :: l'). rewrite <- app_assoc. split; [done|]. by constructor. }
  destruct (lru_view c !! h) as [x|] eqn:E; [apply Hgo; [done|by apply Hf]|].
  destruct (fetch s h) as [x|] eqn:Ef; [|done]. apply Hgo; [by apply fresh_add|done].
Qed.

Lemma getPending_ok s (pb : pendingBase C T) storeHeight : is_u64 (lastHeight pb) ->
  Height s = Ok storeHeight -> is_u64 storeHeight -> lastHeight pb <= storeHeight ->
  fresh_above s (lastHeight pb) (pendingCache pb) ->
  let '(pb', r) := getPending fetch s pb in
  lastHeight pb' = lastHeight pb /\ metaKey pb' = metaKey pb /\
  fresh_above s (lastHeight pb') (pendingCache pb') /\
  forall l, r = Ok l -> exists endHeight, lastHeight pb <= endHeight <= storeHeight /\
    Forall2 (fun h x => fetch s h = Ok x) (heights_upto (lastHeight pb + 1) endHeight) l.
Proof.
  intros Hlast Hh Hu Hle Hf. unfold getPending. rewrite Hh.
  destruct (Z.eqb_spec (lastHeight pb) storeHeight) as [Heq|Hne].
  { split_and!; try done. intros l [= <-]. exists storeHeight. rewrite heights_upto_nil by lia.
    split; [lia|constructor]. }
  rewrite (proj2 (Z.ltb_ge storeHeight (lastHeight pb))) by lia.
  set (endHeight := if DefaultPendingCacheSize <? _ then _ else storeHeight).
  assert (Hend : lastHeight pb <= endHeight <= storeHeight).
  { unfold endHeight. rewrite (u64_small (storeHeight - _)) by (unfold is_u64 in *; lia).
    destruct (Z.ltb_spec DefaultPendingCacheSize (storeHeight - lastHeight pb)); [|lia].
    rewrite u64_small; unfold is_u64, DefaultPendingCacheSize in *; lia. }
  assert (Hhs : Forall (fun h => lastHeight pb < h) (heights_upto (lastHeight pb + 1) endHeight)).
  { apply Forall_forall. intros h Hin%elem_of_heights_upto. lia. }
  pose proof (fill_fresh s _ (heights_upto (lastHeight pb + 1) endHeight) _ Hf) as Hfill.
  destruct (fill_cache _ _ _ _) as [c1 [[]|e]]; [|by split_and!].
  pose proof (collect_ok s _ _ c1 [] Hfill Hhs) as Hcol.
  destruct (collect _ _ _ _ _) as [c2 r]. destruct Hcol as [H1 H2].
  split_and!; try done. intros l Hl. destruct (H2 l Hl) as (l' & -> & Hf2). by exists endHeight.
Qed.

(** The stored last submitted height is the one in memory (none is stored while it is 0). *)
Definition persisted (s : D) (pb : pendingBase C T) : Prop :=
  GetMetadata s (metaKey pb) = Ok (PutUint64_LE (lastHeight pb)) \/
  missing (GetMetadata s (metaKey pb)) /\ lastHeight pb = 0.

Lemma SetMetadata_view s key v : ds_healthy s -> clean_tail true key = true ->
  exists s', SetMetadata s key v = (s', Ok tt) /\ ds_healthy s' /\ ds_view s' = <[GetMetaKey key := v]> (ds_view s).
Proof.
  intros Hs Hk. unfold SetMetadata. rewrite NewKey_meta by done.
  destruct (ds_Put_spec s (GetMetaKey key) v Hs) as (s' & -> & Hs' & V). by exists s'.
Qed.

Lemma set_last_spec s (pb : pendingBase C T) n : ds_healthy s -> clean_tail true (metaKey pb) = true ->
  is_u64 n -> persisted s pb ->
  let '(s', pb') := setLastSubmittedHeight s pb n in
  ds_healthy s' /\ lastHeight pb' = Z.max (lastHeight pb) n /\ metaKey pb' = metaKey pb /\
  pendingCache pb' = pendingCache pb /\ persisted s' pb' /\
  forall k, k <> GetMetaKey (metaKey pb) -> ds_view s' !! k = ds_view s !! k.
Proof.
  intros Hs Hk Hn Hp. unfold setLastSubmittedHeight. destruct (Z.ltb_spec (lastHeight pb) n).
  - destruct (SetMetadata_view s (metaKey pb) (PutUint64_LE n) Hs Hk) as (s' & -> & Hs' & V). simpl.
    split_and!; [done|lia|done|done| |].
    + left. simpl. by rewrite GetMetadata_view, V, lookup_insert_eq.
    + intros k Hne. by rewrite V, lookup_insert_ne.
  - split_and!; [done|lia|done..].
Qed.

(** A restart finds the last submitted height again. *)
Lemma init_persisted s (pb : pendingBase C T) (c : C Z T) : is_u64 (lastHeight pb) -> persisted s pb ->
  init s {| metaKey := metaKey pb; lastHeight := 0; pendingCache := c |} =
  Ok {| metaKey := metaKey pb; lastHeight := lastHeight pb; pendingCache := c |}.
Proof.
  intros Hu [E|[(e & E & He) Hz]]; unfold init; simpl; rewrite E.
  - unfold blen. rewrite length_PutUint64_LE. simpl. rewrite Uint64_LE_Put, u64_small by done.
    destruct (Z.eqb_spec (lastHeight pb) 0) as [->|]; done.
  - rewrite He. by rewrite Hz.
Qed.

End exact.

(** ** Skipping empty data *)

Section empty.
Context {D K : Type} {C : Type -> Type -> Type} `{DL : DatastoreLaws D} `{LL : LRULaws C}.
Context `{PK : PubKeys K} `{PW : Protowire} `{CH : ProtoCodec pb_SignedHeader} `{CD : ProtoCodec pb_Data}.

Abbreviation fetch := (fetchData (K := K)).

Lemma fetchData_frame s s' h key : ds_healthy s -> ds_healthy s' ->
  (forall k, k <> GetMetaKey key -> ds_view s' !! k = ds_view s !! k) -> fetch s' h = fetch s h.
Proof.
  intros Hs Hs' Hk. unfold fetchData.
  assert (block_at (K := K) s' h = block_at s h) as E; [|unfold block_at in E; by injection E as _ -> _].
  apply block_frame; try done. intros k. rewrite !elem_of_cons, elem_of_nil.
  intros [->|[->|[->|[]]]]; apply Hk; discriminate.
Qed.

Lemma Height_frame s s' key : ds_healthy s -> ds_healthy s' ->
  (forall k, k <> GetMetaKey key -> ds_view s' !! k = ds_view s !! k) -> Height s' = Height s.
Proof. intros Hs Hs' Hk. apply height_frame; try done. by apply Hk. Qed.

Definition empty_block (s : D) (h : Z) : Prop := exists d, fetch s h = Ok d /\ Txs d = [].

(** What skipping up to [top] does: only empty blocks are passed, and it stops at the first other. *)
Record advanced (s : D) (pd : pendingBase C Data) (s' : D) (pd' : pendingBase C Data) (top : Z) : Prop := {
  ad_healthy : ds_healthy s';
  ad_key : metaKey pd' = metaKey pd;
  ad_cache : pendingCache pd' = pendingCache pd;
  ad_persisted : persisted s' pd';
  ad_frame : forall k, k <> GetMetaKey (metaKey pd) -> ds_view s' !! k = ds_view s !! k;
  ad_range : lastHeight pd <= lastHeight pd' <= Z.max (lastHeight pd) top;
  ad_empty h : lastHeight pd < h <= lastHeight pd' -> empty_block s h;
  ad_stop : lastHeight pd' < top -> ~ empty_block s (lastHeight pd' + 1);
}.

Lemma advance_stop s (pd : pendingBase C Data) top : ds_healthy s -> persisted s pd ->
  (lastHeight pd < top -> ~ empty_block s (lastHeight pd + 1)) -> advanced s pd s pd top.
Proof. intros Hs Hp Hst. split; try done; [lia|intros; lia]. Qed.

Lemma advance_loop_spec n top s (pd : pendingBase C Data) : ds_healthy s ->
  clean_tail true (metaKey pd) = true -> is_u64 (lastHeight pd) -> is_u64 top -> persisted s pd ->
  top - lastHeight pd <= Z.of_nat n ->
  let '(s', pd') := advance_loop (K := K) s pd (heights_upto (lastHeight pd + 1) top) in
  advanced s pd s' pd' top.
Proof.
  revert s pd. induction n as [|n IH]; intros s pd Hs Hk Hl Ht Hp Hn.
  { rewrite heights_upto_nil by lia. simpl. apply advance_stop; [done..|lia]. }
  destruct (Z.ltb_spec (lastHeight pd) top) as [Hlt|Hge];
    [|rewrite heights_upto_nil by lia; simpl; apply advance_stop; [done..|lia]].
  rewrite heights_upto_cons by lia. simpl.
  destruct (fetch s (lastHeight pd + 1)) as [d|e] eqn:Ef;
    [|apply advance_stop; [done..|]; intros _ (d & E & _); congruence].
  destruct (Txs d) as [|tx txs] eqn:Et;
    [|apply advance_stop; [done..|]; intros _ (d' & E & E'); congruence].
  assert (Hu : is_u64 (lastHeight pd + 1)) by (unfold is_u64 in *; lia).
  pose proof (set_last_spec s pd (lastHeight pd + 1) Hs Hk Hu Hp) as Hset.
  destruct (setLastSubmittedHeight s pd (lastHeight pd + 1)) as [s1 pd1].
  destruct Hset as (Hs1 & El & Ek & Ec & Hp1 & Hf1). rewrite Z.max_r in El by lia.
  specialize (IH s1 pd1 Hs1 ltac:(by rewrite Ek) ltac:(by rewrite El) Ht Hp1 ltac:(lia)).
  rewrite El in IH. destruct (advance_loop s1 pd1 _) as [s2 pd2].
  assert (Hem : forall h, empty_block s1 h <-> empty_block s h).
  { intros h. unfold empty_block. by rewrite (fetchData_frame s s1 h (metaKey pd)). }
  destruct IH as [I1 I2 I3 I4 I5 I6 I7 I8]. split; [done|by rewrite I2|by rewrite I3|done|..].
  - intros k Hne. rewrite I5 by (by rewrite Ek). by apply Hf1.
  - lia.
  - intros h Hh. destruct (decide (h = lastHeight pd + 1)) as [->|]; [by exists d|]. apply Hem, I7. lia.
  - intros Hlt'. rewrite <- Hem. by apply I8.
Qed.

(** Counting pending data first moves the last submitted data height past empty blocks: exactly the
    empty ones right after it, never a block with transactions or one that cannot be read; the new
    height is persisted (a restart finds it), and the number returned is what is left up to the
    store's height. *)
Theorem NumPendingData_advances (s : D) (pd : pendingBase C Data) (c : C Z Data) (top : Z)
  (Hs : ds_healthy s) (Hk : clean_tail true (metaKey pd) = true) (Hl : is_u64 (lastHeight pd))
  (Hh : Height s = Ok top) (Hle : lastHeight pd <= top) (Hp : persisted s pd) :
  let '(s', pd', n) := NumPendingData (K := K) s pd in
  advanced s pd s' pd' top /\ n = top - lastHeight pd' /\
  init s' {| metaKey := metaKey pd; lastHeight := 0; pendingCache := c |} =
    Ok {| metaKey := metaKey pd; lastHeight := lastHeight pd'; pendingCache := c |}.
Proof.
  pose proof (Height_view s top Hs Hh) as Hu.
  unfold NumPendingData, advancePastEmptyData. rewrite Hh.
  pose proof (advance_loop_spec (Z.to_nat (top - lastHeight pd)) top s pd Hs Hk Hl Hu Hp ltac:(lia)) as Ha.
  destruct (advance_loop s pd _) as [s' pd']. pose proof Ha as [I1 I2 I3 I4 I5 I6 I7 I8].
  assert (Hl' : is_u64 (lastHeight pd')) by (unfold is_u64 in *; lia).
  split; [done|]. split.
  - unfold numPending. rewrite (Height_frame s s' (metaKey pd)), Hh by done.
    apply u64_small. unfold is_u64 in *. lia.
  - pose proof (init_persisted s' pd' c Hl' I4) as E. by rewrite I2 in E.
Qed.

End empty.

(** ** Witnesses: a chain of height 7 with an empty block, submitted up to 6 *)

Module PendingWitness.
Import RefHash RefLRU TypesWitness Store.StoreWitness.

Definition w_empty : Data := {| dt_Metadata := dt_Metadata w_data; Txs := [] |}.
Definition chain7 : mapds :=
  let s := match ds_Batch (B := list batch_op) empty_db with
           | Ok b => (Commit empty_db (block_writes empty_db w_sh w_empty [x07; x08] w_state b).1).1
           | Err _ => empty_db
           end in
  (SetMetadata s LastSubmittedDataHeightKey (PutUint64_LE 6)).1.

Definition no_items {T} : lruc Z T := {| lc_more := 1; lc_items := [] |}.
Definition headers6 : pendingBase lruc (SignedHeader bytes) :=
  {| metaKey := LastSubmittedHeaderHeightKey; lastHeight := 6; pendingCache := no_items |}.
Definition data6 : pendingBase lruc Data :=
  {| metaKey := LastSubmittedDataHeightKey; lastHeight := 6; pendingCache := no_items |}.

Lemma getPending_exact_witness : exists pb' l,
  getPending fetchSignedHeader chain7 headers6 = (pb', Ok l) /\
  Forall2 (fun h x => fetchSignedHeader chain7 h = Ok x) (heights_upto (6 + 1) 7) l /\
  lastHeight pb' = 6 /\ metaKey pb' = metaKey headers6 /\
  fresh_above fetchSignedHeader chain7 (lastHeight pb') (pendingCache pb').
Proof.
  pose proof (getPending_exact (fetchSignedHeader (K := bytes)) chain7 headers6 7) as Hw. apply Hw.
  - split; [discriminate|reflexivity].
  - vm_compute. reflexivity.
  - split; [discriminate|reflexivity].
  - discriminate.
  - intros h x _ E. discriminate E.
  - intros h Hh. cbn in Hh. replace h with 7 by lia. vm_compute. reflexivity.
Defined.

Lemma NumPendingData_advances_witness :
  let '(s', pd', n) := NumPendingData (K := bytes) chain7 data6 in
  advanced (K := bytes) chain7 data6 s' pd' 7 /\ n = 7 - lastHeight pd' /\
  init s' {| metaKey := metaKey data6; lastHeight := 0; pendingCache := (no_items : lruc Z Data) |} =
    Ok {| metaKey := metaKey data6; lastHeight := lastHeight pd'; pendingCache := no_items |}.
Proof.
  pose proof (NumPendingData_advances (K := bytes) chain7 data6 no_items 7) as Hw. apply Hw.
  - vm_compute. reflexivity.
  - reflexivity.
  - split; [discriminate|reflexivity].
  - vm_compute. reflexivity.
  - discriminate.
  - left. vm_compute. reflexivity.
Defined.

(** The empty block is passed and nothing is left. *)
Example num_pending_zero : (NumPendingData (K := bytes) chain7 data6).2 = 0.
Proof. vm_compute. reflexivity. Qed.

End PendingWitness.

End Pending.
