(* ===== verification/DACache.v ===== *)
(** The node's cache of seen blocks and DA inclusion
    (block/internal/cache/generic_cache.go, manager.go).

    One [Cache] holds four LRU maps and the highest DA height; the inclusion
    status of a height is found through its hash.  The manager keeps one cache
    for headers and one for data, saves the heights still in flight as a
    snapshot in the store's metadata, and restores them under placeholder
    hashes.  The store is shared with the rest of the node and is an argument;
    a cache without persistence has the empty key prefix. *)

From S2P Require Import Prelude Interfaces Types Store Pending.

Import Store Pending.

Module DACache.

Definition DefaultItemsCacheSize : Z := 200000.
Definition DefaultHashesCacheSize : Z := 200000.
Definition DefaultDAIncludedCacheSize : Z := 200000.
Definition HeaderDAIncludedPrefix : string := "cache/header-da-included/".
Definition DataDAIncludedPrefix : string := "cache/data-da-included/".

(** ** Snapshots *)

Record snapshotEntry := { blockHeight : Z; daHeight : Z }.
#[export] Instance snapshotEntry_eq_dec : EqDecision snapshotEntry.
Proof. solve_decision. Defined.

Definition snapshotEntrySize : Z := 16.

Definition encodeSnapshot (entries : list snapshotEntry) : bytes :=
  concat ((fun e => PutUint64_LE (blockHeight e) ++ PutUint64_LE (daHeight e)) <$> entries).

(** The loop of [decodeSnapshot] over [n] entries. *)
Fixpoint decode_entries (n : nat) (buf : bytes) : list snapshotEntry :=
  match n with
  | O => []
  | S n => {| blockHeight := Uint64_LE buf; daHeight := Uint64_LE (drop 8 buf) |}
           :: decode_entries n (drop 16 buf)
  end.

Definition decodeSnapshot (buf : bytes) : list snapshotEntry :=
  if (blen buf =? 0) || negb (blen buf mod snapshotEntrySize =? 0) then []
  else decode_entries (Z.to_nat (blen buf / snapshotEntrySize)) buf.

(** [for i := 15; i >= 0; i-- { buf[n+i] = hexDigits[height&0xf]; height >>= 4 }] *)
Fixpoint placeholder_digits (n : nat) (height : Z) (acc : string) : string :=
  match n with
  | O => acc
  | S n => placeholder_digits n (Z.shiftr height 4) (String.String (hex_digit (Z.land height 15)) acc)
  end.

Definition HeightPlaceholderKey (prefix : string) (height : Z) : string :=
  String.append prefix (String.append "__h/" (placeholder_digits 16 height EmptyString)).

(** ** One cache *)

Section cache.
Context {D : Type} {C : Type -> Type -> Type} {T : Type} `{Datastore D} `{LRU C}.

Record Cache := {
  itemsByHeight : C Z T;
  hashes : C string bool;
  daIncluded : C string Z;
  hashByHeight : C Z string;
  maxDAHeight : Z;
  storeKeyPrefix : string;
}.

Definition upd_items (c : Cache) (l : C Z T) : Cache :=
  {| itemsByHeight := l; hashes := hashes c; daIncluded := daIncluded c;
     hashByHeight := hashByHeight c; maxDAHeight := maxDAHeight c; storeKeyPrefix := storeKeyPrefix c |}.
Definition upd_hashes (c : Cache) (l : C string bool) : Cache :=
  {| itemsByHeight := itemsByHeight c; hashes := l; daIncluded := daIncluded c;
     hashByHeight := hashByHeight c; maxDAHeight := maxDAHeight c; storeKeyPrefix := storeKeyPrefix c |}.
Definition upd_included (c : Cache) (l : C string Z) : Cache :=
  {| itemsByHeight := itemsByHeight c; hashes := hashes c; daIncluded := l;
     hashByHeight := hashByHeight c; maxDAHeight := maxDAHeight c; storeKeyPrefix := storeKeyPrefix c |}.
Definition upd_byheight (c : Cache) (l : C Z string) : Cache :=
  {| itemsByHeight := itemsByHeight c; hashes := hashes c; daIncluded := daIncluded c;
     hashByHeight := l; maxDAHeight := maxDAHeight c; storeKeyPrefix := storeKeyPrefix c |}.

(** The sizes are positive, so the creation of the maps does not fail. *)
Definition NewCache (keyPrefix : string) : res Cache :=
  let? items := lru_New DefaultItemsCacheSize in
  let? hs := lru_New DefaultHashesCacheSize in
  let? incl := lru_New DefaultDAIncludedCacheSize in
  let? byh := lru_New DefaultHashesCacheSize in
  Ok {| itemsByHeight := items; hashes := hs; daIncluded := incl; hashByHeight := byh;
        maxDAHeight := 0; storeKeyPrefix := keyPrefix |}.

Definition snapshotKey (c : Cache) : string := String.append (storeKeyPrefix c) "__snap".

Definition getItem (c : Cache) (height : Z) : Cache * option T :=
  let '(l, r) := lru_Get (itemsByHeight c) height in (upd_items c l, r).
Definition setItem (c : Cache) (height : Z) (item : T) : Cache :=
  upd_items c (lru_Add (itemsByHeight c) height item).
Definition getNextItem (c : Cache) (height : Z) : Cache * option T :=
  match lru_Get (itemsByHeight c) height with
  | (l, None) => (upd_items c l, None)
  | (l, Some item) => (upd_items c (lru_Remove l height), Some item)
  end.

Definition isSeen (c : Cache) (hash : string) : Cache * bool :=
  let '(l, r) := lru_Get (hashes c) hash in (upd_hashes c l, default false r).
Definition setSeen (c : Cache) (hash : string) (height : Z) : Cache :=
  upd_byheight (upd_hashes c (lru_Add (hashes c) hash true)) (lru_Add (hashByHeight c) height hash).
Definition removeSeen (c : Cache) (hash : string) : Cache :=
  upd_hashes c (lru_Remove (hashes c) hash).

Definition getDAIncluded (c : Cache) (hash : string) : Cache * option Z :=
  let '(l, r) := lru_Get (daIncluded c) hash in (upd_included c l, r).
Definition getDAIncludedByHeight (c : Cache) (height : Z) : Cache * option Z :=
  match lru_Get (hashByHeight c) height with
  | (l, None) => (upd_byheight c l, None)
  | (l, Some hash) => getDAIncluded (upd_byheight c l) hash
  end.

(** Without concurrent writers the compare-and-swap loop succeeds at once. *)
Definition setMaxDAHeight (c : Cache) (h : Z) : Cache :=
  if h <=? maxDAHeight c then c
  else {| itemsByHeight := itemsByHeight c; hashes := hashes c; daIncluded := daIncluded c;
          hashByHeight := hashByHeight c; maxDAHeight := h; storeKeyPrefix := storeKeyPrefix c |}.

Definition setDAIncluded (c : Cache) (hash : string) (h blockH : Z) : Cache :=
  let c := match lru_Get (hashByHeight c) blockH with
           | (l, Some prev) =>
               let c := upd_byheight c l in
               if bool_decide (prev = hash) then c else upd_included c (lru_Remove (daIncluded c) prev)
           | (l, None) => upd_byheight c l
           end in
  let c := upd_included c (lru_Add (daIncluded c) hash h) in
  let c := upd_byheight c (lru_Add (hashByHeight c) blockH hash) in
  setMaxDAHeight c h.

Definition removeDAIncluded (c : Cache) (hash : string) : Cache :=
  upd_included c (lru_Remove (daIncluded c) hash).

Definition deleteAllForHeight (c : Cache) (height : Z) : Cache :=
  let c := upd_items c (lru_Remove (itemsByHeight c) height) in
  match lru_Get (hashByHeight c) height with
  | (l, None) => upd_byheight c l
  | (l, Some hash) =>
      let c := upd_byheight c (lru_Remove l height) in
      upd_included (upd_hashes c (lru_Remove (hashes c) hash)) (lru_Remove (daIncluded c) hash)
  end.

(** The entries [persistSnapshot] writes. *)
Definition snapshot_entries (c : Cache) : list snapshotEntry :=
  omap (fun h => hash ← lru_Peek (hashByHeight c) h;
                 d ← lru_Peek (daIncluded c) hash;
                 Some {| blockHeight := h; daHeight := d |}) (lru_Keys (hashByHeight c)).

Definition persistSnapshot (s : D) (c : Cache) : D * res unit :=
  if bool_decide (storeKeyPrefix c = EmptyString) then (s, Ok tt)
  else SetMetadata s (snapshotKey c) (encodeSnapshot (snapshot_entries c)).

Definition SaveToStore (s : D) (c : Cache) : D * res unit :=
  let '(s', r) := persistSnapshot s c in (s', wrap_err "saving cache snapshot" r).

Definition restore_entry (c : Cache) (e : snapshotEntry) : Cache :=
  let placeholder := HeightPlaceholderKey (storeKeyPrefix c) (blockHeight e) in
  let c := upd_included c (lru_Add (daIncluded c) placeholder (daHeight e)) in
  let c := upd_byheight c (lru_Add (hashByHeight c) (blockHeight e) placeholder) in
  setMaxDAHeight c (daHeight e).

Definition RestoreFromStore (s : D) (c : Cache) : Cache * res unit :=
  if bool_decide (storeKeyPrefix c = EmptyString) then (c, Ok tt)
  else match GetMetadata s (snapshotKey c) with
       | Err e => (c, if errors_is e ErrNotFound then Ok tt
                      else Err (EWrap "reading cache snapshot from store" e))
       | Ok buf => (foldl restore_entry c (decodeSnapshot buf), Ok tt)
       end.

Definition ClearFromStore (s : D) (c : Cache) : D * res unit :=
  let '(s', r) := DeleteMetadata s (snapshotKey c) in (s', wrap_err "clearing cache snapshot" r).

End cache.
#[global] Arguments Cache C T : clear implicits.

(** ** Snapshots survive a restart *)

#[local] Arguments String.append !_ _ / : simpl nomatch.

Lemma placeholder_digits_inj n h h' acc acc' : 0 <= h < 16 ^ Z.of_nat n -> 0 <= h' < 16 ^ Z.of_nat n ->
  placeholder_digits n h acc = placeholder_digits n h' acc' -> h = h' /\ acc = acc'.
Proof.
  revert h h' acc acc'. induction n as [|n IH]; intros h h' acc acc' Hh Hh'; simpl.
  { change (16 ^ Z.of_nat 0) with 1 in *. intros ->. split; [lia|done]. }
  rewrite Nat2Z.inj_succ, Z.pow_succ_r in * by lia. rewrite !Z.shiftr_div_pow2 by lia.
  change (2 ^ 4) with 16. intros E. apply IH in E as [E1 E2];
    [|split; [apply Z.div_pos; lia|apply Z.div_lt_upper_bound; lia]..].
  injection E2 as Ed Ea. split; [|done].
  assert (Hl : forall x, 0 <= x -> Z.land x 15 = x mod 16) by (intros; by apply (Z.land_ones x 4)).
  rewrite !Hl in Ed by lia. pose proof (Z.mod_pos_bound h 16). pose proof (Z.mod_pos_bound h' 16).
  apply (f_equal hex_value) in Ed. rewrite !hex_value_digit in Ed by lia. injection Ed as Ed.
  rewrite (Z.div_mod h 16), (Z.div_mod h' 16) by lia. lia.
Qed.

Lemma placeholder_inj p h h' : is_u64 h -> is_u64 h' ->
  HeightPlaceholderKey p h = HeightPlaceholderKey p h' -> h = h'.
Proof.
  intros Hh Hh' E. apply (inj (String.append _)), (inj (String.append _)) in E.
  apply placeholder_digits_inj in E as [E _]; [done|..]; exact Hh || exact Hh'.
Qed.

Definition entry_ok (e : snapshotEntry) : Prop := is_u64 (blockHeight e) /\ is_u64 (daHeight e).

Lemma encodeSnapshot_cons e l :
  encodeSnapshot (e :: l) = PutUint64_LE (blockHeight e) ++ PutUint64_LE (daHeight e) ++ encodeSnapshot l.
Proof. unfold encodeSnapshot. rewrite fmap_cons. cbn [concat]. by rewrite app_assoc. Qed.

Lemma length_encodeSnapshot l : length (encodeSnapshot l) = (16 * length l)%nat.
Proof.
  induction l as [|e l IH]; [done|]. rewrite encodeSnapshot_cons. cbn [length].
  rewrite !length_app, !length_PutUint64_LE, IH. lia.
Qed.

Lemma drop_Put z l : drop 8 (PutUint64_LE z ++ l) = l.
Proof. apply drop_app_length'. by rewrite length_PutUint64_LE. Qed.

Lemma decode_encode_entries l : Forall entry_ok l -> decode_entries (length l) (encodeSnapshot l) = l.
Proof.
  induction 1 as [|[b d] l [Hb Hd] _ IH]; [done|]. rewrite encodeSnapshot_cons.
  cbn [length decode_entries blockHeight daHeight] in *.
  change 16%nat with (8 + 8)%nat. rewrite <- drop_drop, !drop_Put, !Uint64_LE_Put_app, !u64_small by done.
  by rewrite IH.
Qed.

Lemma decode_encode_snapshot l : Forall entry_ok l -> decodeSnapshot (encodeSnapshot l) = l.
Proof.
  intros Hl. unfold decodeSnapshot, blen. rewrite length_encodeSnapshot, Nat2Z.inj_mul.
  change (Z.of_nat 16) with 16. unfold snapshotEntrySize.
  rewrite Z.mul_comm, Z.mod_mul, Z.div_mul, Nat2Z.id by lia. simpl. rewrite orb_false_r.
  destruct l as [|e l]; [done|]. rewrite (proj2 (Z.eqb_neq _ 0)) by (simpl; lia).
  by apply decode_encode_entries.
Qed.

Section restore.
Context {D : Type} {C : Type -> Type -> Type} {T : Type} `{DL : DatastoreLaws D} `{LL : LRULaws C}.

Abbreviation cache := (Cache C T).

(** The inclusion status of a height, through its hash. *)
Definition included_at (c : cache) (h : Z) : option Z :=
  hash ← lru_view (hashByHeight c) !! h; lru_view (daIncluded c) !! hash.

Lemma getDAIncluded_spec (c : cache) hash :
  (getDAIncluded c hash).2 = lru_view (daIncluded c) !! hash.
Proof. unfold getDAIncluded. by destruct (lru_Get_spec (daIncluded c) hash) as (l & -> & _). Qed.

Lemma getDAIncludedByHeight_spec (c : cache) h : (getDAIncludedByHeight c h).2 = included_at c h.
Proof.
  unfold getDAIncludedByHeight, included_at.
  destruct (lru_Get_spec (hashByHeight c) h) as (l & -> & _).
  destruct (lru_view (hashByHeight c) !! h) as [hash|]; [|done]. by rewrite getDAIncluded_spec.
Qed.

Lemma getDAIncludedByHeight_view (c : cache) h k : included_at (getDAIncludedByHeight c h).1 k = included_at c k.
Proof.
  unfold getDAIncludedByHeight, included_at. destruct (lru_Get_spec (hashByHeight c) h) as (l & -> & V & _).
  destruct (lru_view (hashByHeight c) !! h) as [hash|]; [|by simpl; rewrite V].
  unfold getDAIncluded. simpl. destruct (lru_Get_spec (daIncluded c) hash) as (l' & -> & V' & _). simpl. by rewrite V, V'.
Qed.

Lemma deleteAllForHeight_shrinks (c : cache) h k d :
  included_at (deleteAllForHeight c h) k = Some d -> k <> h /\ included_at c k = Some d.
Proof.
  unfold deleteAllForHeight, included_at. cbn [hashByHeight upd_items].
  destruct (lru_Get_spec (hashByHeight c) h) as (l & -> & V & _).
  destruct (lru_view (hashByHeight c) !! h) as [hash|] eqn:Eh; simpl.
  - rewrite !(proj1 (lru_Remove_spec _ _)), V. destruct (decide (k = h)) as [->|Hne]; [by rewrite lookup_delete_eq|].
    rewrite lookup_delete_ne by done. destruct (lru_view (hashByHeight c) !! k) as [hash'|]; [|done]. simpl.
    intros [_ E]%lookup_delete_Some. done.
  - rewrite V. destruct (decide (k = h)) as [->|Hne]; [by rewrite Eh|]. done.
Qed.

Lemma snapshot_spec (c : cache) :
  NoDup (blockHeight <$> snapshot_entries c) /\
  forall h d, {| blockHeight := h; daHeight := d |} ∈ snapshot_entries c <-> included_at c h = Some d.
Proof.
  unfold snapshot_entries. destruct (lru_Keys_spec (hashByHeight c)) as [Hnd Hin].
  set (f := fun h => _). assert (Hf : forall h e, f h = Some e -> blockHeight e = h).
  { intros h e. unfold f. rewrite lru_Peek_spec. destruct (lru_view _ !! h); [|done]. simpl.
    rewrite lru_Peek_spec. destruct (lru_view _ !! _); [|done]. simpl. by intros [= <-]. }
  split.
  - clear Hin. induction Hnd as [|h l Hh _ IH]; [constructor|]. csimpl. destruct (f h) as [e|] eqn:E; [|done].
    csimpl. constructor; [|done]. rewrite (Hf _ _ E), list_elem_of_fmap. intros (e' & -> & He').
    apply list_elem_of_omap in He' as (h' & Hh' & E'). apply Hh. by rewrite (Hf _ _ E').
  - intros h d. rewrite list_elem_of_omap. unfold included_at. split.
    + intros (h' & _ & E). pose proof (Hf _ _ E) as Eh. simpl in Eh. subst h'. unfold f in E.
      rewrite lru_Peek_spec in E. destruct (lru_view (hashByHeight c) !! h) as [hash|]; [|done].
      simpl in *. rewrite lru_Peek_spec in E. destruct (lru_view (daIncluded c) !! hash); [|done].
      simpl in E. congruence.
    + intros E. exists h. rewrite Hin. destruct (lru_view (hashByHeight c) !! h) as [hash|] eqn:Eh; [|done].
      split; [by eexists|]. unfold f. rewrite lru_Peek_spec, Eh. simpl in *. by rewrite lru_Peek_spec, E.
Qed.

(** The maps after restoring a list of entries into an empty cache. *)
Definition ph_byheight (p : string) (l : list snapshotEntry) : gmap Z string :=
  list_to_map ((fun e => (blockHeight e, HeightPlaceholderKey p (blockHeight e))) <$> l).
Definition ph_included (p : string) (l : list snapshotEntry) : gmap string Z :=
  list_to_map ((fun e => (HeightPlaceholderKey p (blockHeight e), daHeight e)) <$> l).

Lemma size_list_to_map `{Countable K'} {A} (l : list (K' * A)) : (size (list_to_map l : gmap K' A) <= length l)%nat.
Proof.
  induction l as [|[k v] l IH]; simpl; [by rewrite map_size_empty|].
  rewrite map_size_insert. case_match; simpl in *; lia.
Qed.

Definition max_da (l : list snapshotEntry) : Z := foldr (fun e m => Z.max (daHeight e) m) 0 l.

Record restored (c : cache) (p : string) (l : list snapshotEntry) : Prop := {
  rs_prefix : storeKeyPrefix c = p;
  rs_byheight : lru_view (hashByHeight c) = ph_byheight p l;
  rs_included : lru_view (daIncluded c) = ph_included p l;
  rs_caps : Z.of_nat (lru_cap (hashByHeight c)) = DefaultHashesCacheSize /\
            Z.of_nat (lru_cap (daIncluded c)) = DefaultDAIncludedCacheSize;
  rs_max : maxDAHeight c = max_da l;
}.

Lemma restore_entry_spec (c : cache) p l e : restored c p l ->
  Z.of_nat (length (e :: l)) <= DefaultHashesCacheSize -> restored (restore_entry c e) p (e :: l).
Proof.
  intros [Hp Hb Hi [Hc1 Hc2] Hm] Hlen. unfold restore_entry. rewrite Hp.
  set (ph := HeightPlaceholderKey p (blockHeight e)).
  destruct (lru_Add_spec (hashByHeight c) (blockHeight e) ph) as (_ & _ & Cb & Eb).
  destruct (lru_Add_spec (daIncluded c) ph (daHeight e)) as (_ & _ & Ci & Ei).
  assert (E1 : lru_view (lru_Add (hashByHeight c) (blockHeight e) ph) = ph_byheight p (e :: l)).
  { rewrite Eb, Hb; [done|]. rewrite Hb. change (<[_ := _]> (ph_byheight p l)) with (ph_byheight p (e :: l)).
    unfold ph_byheight. etrans; [apply size_list_to_map|]. rewrite length_fmap.
    unfold DefaultHashesCacheSize in *. lia. }
  assert (E2 : lru_view (lru_Add (daIncluded c) ph (daHeight e)) = ph_included p (e :: l)).
  { rewrite Ei, Hi; [done|]. rewrite Hi. change (<[_ := _]> (ph_included p l)) with (ph_included p (e :: l)).
    unfold ph_included. etrans; [apply size_list_to_map|]. rewrite length_fmap.
    unfold DefaultHashesCacheSize, DefaultDAIncludedCacheSize in *. lia. }
  unfold setMaxDAHeight. simpl. destruct (Z.leb_spec (daHeight e) (maxDAHeight c)) as [Hle|Hgt];
    split; simpl; rewrite ?Cb, ?Ci; try done; rewrite <- ?Hm; lia.
Qed.

Lemma restore_all (l l0 : list snapshotEntry) (c : cache) p : restored c p l0 ->
  Z.of_nat (length l + length l0) <= DefaultHashesCacheSize ->
  restored (foldl restore_entry c l) p (reverse l ++ l0).
Proof.
  revert c l0. induction l as [|e l IH]; intros c l0 Hr Hlen; simpl; [done|].
  rewrite reverse_cons, <- app_assoc. simpl. apply IH; [|simpl in *; lia]. apply restore_entry_spec; [done|simpl in *; lia].
Qed.

Lemma included_restored (c : cache) p l h d : restored c p l -> NoDup (blockHeight <$> l) ->
  Forall entry_ok l -> included_at c h = Some d <-> {| blockHeight := h; daHeight := d |} ∈ l.
Proof.
  intros [_ Hb Hi _ _] Hnd Hok. unfold included_at. rewrite Hb, Hi. unfold ph_byheight, ph_included.
  assert (Hnd2 : NoDup ((fun e => (HeightPlaceholderKey p (blockHeight e), daHeight e)) <$> l).*1).
  { rewrite <- list_fmap_compose. clear Hb Hi. induction l as [|e l IH]; csimpl; [constructor|].
    apply NoDup_cons in Hnd as [Hn Hnd]. apply Forall_cons in Hok as [He Hok]. constructor; [|by apply IH].
    intros (e' & E & Hin)%list_elem_of_fmap. apply Hn, list_elem_of_fmap. exists e'. split; [|done].
    rewrite Forall_forall in Hok. apply (placeholder_inj p); [apply He|by apply Hok|exact E]. }
  assert (Hnd1 : NoDup ((fun e => (blockHeight e, HeightPlaceholderKey p (blockHeight e))) <$> l).*1)
    by (by rewrite <- list_fmap_compose).
  split.
  - destruct (list_to_map _ !! h) as [ph|] eqn:E1; [|done]. simpl. intros E2.
    apply elem_of_list_to_map_2 in E1, E2.
    apply list_elem_of_fmap in E1 as (e1 & [= -> ->] & H1). apply list_elem_of_fmap in E2 as (e2 & [= E ->] & H2).
    rewrite Forall_forall in Hok. apply placeholder_inj in E; [|by apply Hok..].
    rewrite E. by destruct e2.
  - intros Hin. rewrite (elem_of_list_to_map_1 _ h (HeightPlaceholderKey p h)); [|done|].
    + simpl. apply elem_of_list_to_map_1; [done|]. apply list_elem_of_fmap.
      by exists {| blockHeight := h; daHeight := d |}.
    + apply list_elem_of_fmap. by exists {| blockHeight := h; daHeight := d |}.
Qed.

Lemma max_da_elem l m : max_da l = m -> Forall entry_ok l ->
  (forall e, e ∈ l -> daHeight e <= m) /\ (m = 0 \/ exists e, e ∈ l /\ daHeight e = m).
Proof.
  intros <-. induction l as [|e l IH]; intros Hok; simpl; [split; [by intros ? ?%elem_of_nil|by left]|].
  apply Forall_cons in Hok as [[_ He] Hok]. destruct (IH Hok) as [I1 I2]. split.
  - intros e' [->|Hin%I1]%elem_of_cons; lia.
  - destruct (Z.max_spec (daHeight e) (max_da l)) as [[? ->]|[? ->]].
    + destruct I2 as [->|(e' & ? & ?)]; [by left|]. right. exists e'. split; [by right|done].
    + right. exists e. split; [by left|done].
Qed.

(** A saved snapshot restores the DA inclusion of every block in flight: a fresh cache that loads it
    answers every height as the saved one did, and its DA height is the highest of those restored. *)
Theorem snapshot_restores (s : D) (c c0 : cache) (Hs : ds_healthy s)
  (Hp : storeKeyPrefix c <> EmptyString) (Hk : clean_tail true (snapshotKey c) = true)
  (Hsize : Z.of_nat (length (snapshot_entries c)) <= DefaultHashesCacheSize)
  (Hok : Forall entry_ok (snapshot_entries c)) (Hnew : NewCache (storeKeyPrefix c) = Ok c0) :
  exists s' c', SaveToStore s c = (s', Ok tt) /\ ds_healthy s' /\
    RestoreFromStore s' c0 = (c', Ok tt) /\
    (forall h, (getDAIncludedByHeight c' h).2 = (getDAIncludedByHeight c h).2) /\
    (forall h d, included_at c h = Some d -> d <= maxDAHeight c') /\
    (maxDAHeight c' = 0 \/ exists h, included_at c h = Some (maxDAHeight c')).
Proof.
  destruct (SetMetadata_view s _ (encodeSnapshot (snapshot_entries c)) Hs Hk) as (s' & Es & Hs' & V).
  unfold NewCache in Hnew. destruct (lru_New DefaultItemsCacheSize); [|done].
  destruct (lru_New DefaultHashesCacheSize) as [hs|]; [|done].
  destruct (lru_New DefaultDAIncludedCacheSize) as [il|] eqn:Ei; [|done].
  destruct (lru_New DefaultHashesCacheSize) as [bl|] eqn:Eb; [|done]. injection Hnew as <-.
  set (c0 := {| itemsByHeight := _ |}). apply lru_New_spec in Ei as [Vi Ci], Eb as [Vb Cb].
  assert (Hr0 : restored c0 (storeKeyPrefix c) []) by (by split).
  pose proof (restore_all (snapshot_entries c) [] c0 (storeKeyPrefix c) Hr0 ltac:(simpl; lia)) as Hr.
  rewrite app_nil_r in Hr. exists s', (foldl restore_entry c0 (snapshot_entries c)).
  unfold SaveToStore, persistSnapshot, RestoreFromStore. simpl storeKeyPrefix.
  rewrite !bool_decide_false by done. rewrite Es. change (snapshotKey c0) with (snapshotKey c).
  rewrite GetMetadata_view, V, lookup_insert_eq, decode_encode_snapshot by done.
  destruct (snapshot_spec c) as [Hnd Hin].
  assert (Hinc : forall h d, included_at (foldl restore_entry c0 (snapshot_entries c)) h = Some d <->
                             included_at c h = Some d).
  { intros h d. rewrite (included_restored _ _ _ h d Hr), <- Hin, elem_of_reverse; [done|..].
    - by rewrite fmap_reverse, reverse_Permutation.
    - by apply Forall_reverse. }
  destruct (max_da_elem _ _ (eq_sym (rs_max _ _ _ Hr)) ltac:(by apply Forall_reverse)) as [M1 M2].
  split; [done|]. split; [done|]. split; [done|]. split_and!.
  - intros h. rewrite !getDAIncludedByHeight_spec. destruct (included_at c h) as [d|] eqn:E; [by apply Hinc|].
    destruct (included_at (foldl _ _ _) h) as [d|] eqn:E'; [|done]. apply Hinc in E'. congruence.
  - intros h d E%Hin. by apply (M1 {| blockHeight := h; daHeight := d |}), elem_of_reverse.
  - destruct M2 as [->|([h d] & He & Ed)]; [by left|right]. exists h. simpl in Ed. rewrite <- Ed.
    by apply Hin, elem_of_reverse.
Qed.

(** Recording a block as DA included makes its height answer with that DA height, raises the cache's DA
    height to it, and removes the entry of any other hash the height had before (such as the
    placeholder of a restored snapshot). *)
Lemma setDAIncluded_spec (c : cache) (hash : string) (d h : Z) :
  let c' := setDAIncluded c hash d h in
  (getDAIncludedByHeight c' h).2 = Some d /\ (getDAIncluded c' hash).2 = Some d /\
  maxDAHeight c' = Z.max (maxDAHeight c) d /\
  (forall prev, lru_view (hashByHeight c) !! h = Some prev -> prev <> hash ->
     (getDAIncluded c' prev).2 = None).
Proof.
  cbv zeta. rewrite getDAIncludedByHeight_spec, getDAIncluded_spec. unfold setDAIncluded, included_at.
  destruct (lru_Get_spec (hashByHeight c) h) as (l & -> & V & _).
  set (c1 := match lru_view (hashByHeight c) !! h with Some _ => _ | None => _ end).
  assert (Hm : maxDAHeight c1 = maxDAHeight c) by (unfold c1; by repeat case_match).
  destruct (lru_Add_spec (daIncluded c1) hash d) as (Hsub & Hi & _).
  destruct (lru_Add_spec (hashByHeight c1) h hash) as (_ & Hb & _).
  unfold setMaxDAHeight. cbn [maxDAHeight upd_byheight upd_included hashByHeight daIncluded]. rewrite Hm.
  assert (Hprev : forall prev, lru_view (hashByHeight c) !! h = Some prev -> prev <> hash ->
    lru_view (lru_Add (daIncluded c1) hash d) !! prev = None).
  { intros prev Ep Hne. eapply lookup_weaken_None; [|exact Hsub]. rewrite lookup_insert_ne by done.
    unfold c1. rewrite Ep, bool_decide_false by done. simpl. rewrite (proj1 (lru_Remove_spec _ _)).
    apply lookup_delete_eq. }
  destruct (Z.leb_spec d (maxDAHeight c));
    cbn [maxDAHeight hashByHeight daIncluded upd_byheight upd_included]; rewrite Hb; simpl;
    (split_and!; [done|done|lia|]); intros prev Ep Hne; rewrite getDAIncluded_spec; by apply Hprev.
Qed.

(** Marking a block as seen under a hash that is not recorded as included hides the DA inclusion its
    height already had (for instance a placeholder restored from the snapshot), while the DA height
    from which retrieval resumes keeps counting it. *)
Theorem seen_hides_inclusion (c : cache) (hash : string) (d h : Z)
  (Hinc : (getDAIncludedByHeight c h).2 = Some d) (Hnew : (getDAIncluded c hash).2 = None) :
  (getDAIncludedByHeight (setSeen c hash h) h).2 = None /\
  maxDAHeight (setSeen c hash h) = maxDAHeight c.
Proof.
  rewrite getDAIncluded_spec in Hnew. rewrite getDAIncludedByHeight_spec. split; [|done].
  unfold included_at, setSeen. simpl.
  destruct (lru_Add_spec (hashByHeight c) h hash) as (_ & -> & _). simpl. exact Hnew.
Qed.

(** Two heights whose blocks have the same hash (data commitments only depend on the transactions)
    share one inclusion entry: clearing the caches for one of them, as is done when it is
    finalized, makes the other one count as not DA included. *)
Theorem delete_drops_twin (c : cache) (hash : string) (h h' : Z) (Hne : h <> h')
  (Hh : lru_view (hashByHeight c) !! h = Some hash) (Hh' : lru_view (hashByHeight c) !! h' = Some hash) :
  (getDAIncludedByHeight (deleteAllForHeight c h) h').2 = None.
Proof.
  rewrite getDAIncludedByHeight_spec. unfold deleteAllForHeight, included_at. cbn [hashByHeight upd_items].
  destruct (lru_Get_spec (hashByHeight c) h) as (l & -> & V & _). rewrite Hh. simpl.
  rewrite !(proj1 (lru_Remove_spec _ _)), V, lookup_delete_ne, Hh' by done. simpl. apply lookup_delete_eq.
Qed.

End restore.

(** ** The manager *)

(** A string; the events of the raft cluster carry the empty one. *)
Definition EventSource : Type := string.
Definition SourceDA : EventSource := "DA".
Definition SourceP2P : EventSource := "P2P".

Section manager.
Context {D K : Type} {C : Type -> Type -> Type} `{Datastore D} `{LRU C} `{PubKeys K} `{Protowire}.
Context `{ProtoCodec pb_SignedHeader} `{ProtoCodec pb_Data}.

Record DAHeightEvent := {
  ev_Header : SignedHeader K; ev_Data : Data; ev_DaHeight : Z; ev_Source : EventSource;
  ev_DaHeightHints : Z * Z;
}.

Record implementation := {
  headerCache : Cache C (SignedHeader K);
  dataCache : Cache C Data;
  txCache : Cache C unit;
  txTimestamps : gmap string Z;
  pendingEventsCache : Cache C DAHeightEvent;
  pendingHeaders : pendingBase C (SignedHeader K);
  pendingData : pendingBase C Data;
}.

Definition upd_caches (m : implementation) (hc : Cache C (SignedHeader K)) (dc : Cache C Data) : implementation :=
  {| headerCache := hc; dataCache := dc; txCache := txCache m; txTimestamps := txTimestamps m;
     pendingEventsCache := pendingEventsCache m; pendingHeaders := pendingHeaders m; pendingData := pendingData m |}.
Definition upd_events (m : implementation) (pc : Cache C DAHeightEvent) : implementation :=
  {| headerCache := headerCache m; dataCache := dataCache m; txCache := txCache m;
     txTimestamps := txTimestamps m; pendingEventsCache := pc; pendingHeaders := pendingHeaders m;
     pendingData := pendingData m |}.
Definition upd_pending (m : implementation) (ph : pendingBase C (SignedHeader K)) (pd : pendingBase C Data)
  : implementation :=
  {| headerCache := headerCache m; dataCache := dataCache m; txCache := txCache m;
     txTimestamps := txTimestamps m; pendingEventsCache := pendingEventsCache m; pendingHeaders := ph;
     pendingData := pd |}.

Definition SetHeaderSeen (m : implementation) (hash : string) (h : Z) : implementation :=
  upd_caches m (setSeen (headerCache m) hash h) (dataCache m).
Definition SetDataSeen (m : implementation) (hash : string) (h : Z) : implementation :=
  upd_caches m (headerCache m) (setSeen (dataCache m) hash h).
Definition SetHeaderDAIncluded (m : implementation) (hash : string) (d h : Z) : implementation :=
  upd_caches m (setDAIncluded (headerCache m) hash d h) (dataCache m).
Definition SetDataDAIncluded (m : implementation) (hash : string) (d h : Z) : implementation :=
  upd_caches m (headerCache m) (setDAIncluded (dataCache m) hash d h).
Definition GetHeaderDAIncludedByHeight (m : implementation) (h : Z) : implementation * option Z :=
  let '(c, r) := getDAIncludedByHeight (headerCache m) h in (upd_caches m c (dataCache m), r).
Definition GetDataDAIncludedByHeight (m : implementation) (h : Z) : implementation * option Z :=
  let '(c, r) := getDAIncludedByHeight (dataCache m) h in (upd_caches m (headerCache m) c, r).
Definition GetHeaderDAIncludedByHash (m : implementation) (hash : string) : implementation * option Z :=
  let '(c, r) := getDAIncluded (headerCache m) hash in (upd_caches m c (dataCache m), r).
Definition GetDataDAIncludedByHash (m : implementation) (hash : string) : implementation * option Z :=
  let '(c, r) := getDAIncluded (dataCache m) hash in (upd_caches m (headerCache m) c, r).
Definition IsHeaderSeen (m : implementation) (hash : string) : implementation * bool :=
  let '(c, r) := isSeen (headerCache m) hash in (upd_caches m c (dataCache m), r).
Definition IsDataSeen (m : implementation) (hash : string) : implementation * bool :=
  let '(c, r) := isSeen (dataCache m) hash in (upd_caches m (headerCache m) c, r).
Definition RemoveHeaderDAIncluded (m : implementation) (hash : string) : implementation :=
  upd_caches m (removeDAIncluded (headerCache m) hash) (dataCache m).
Definition RemoveDataDAIncluded (m : implementation) (hash : string) : implementation :=
  upd_caches m (headerCache m) (removeDAIncluded (dataCache m) hash).
Definition DaHeight (m : implementation) : Z := Z.max (maxDAHeight (headerCache m)) (maxDAHeight (dataCache m)).

(** Transactions are tracked by hash, at height 0, with the time they were seen. *)
Definition SetTxSeen (m : implementation) (now : Z) (hash : string) : implementation :=
  {| headerCache := headerCache m; dataCache := dataCache m; txCache := setSeen (txCache m) hash 0;
     txTimestamps := <[hash := now]> (txTimestamps m); pendingEventsCache := pendingEventsCache m;
     pendingHeaders := pendingHeaders m; pendingData := pendingData m |}.
Definition IsTxSeen (m : implementation) (hash : string) : implementation * bool :=
  let '(c, r) := isSeen (txCache m) hash in
  ({| headerCache := headerCache m; dataCache := dataCache m; txCache := c; txTimestamps := txTimestamps m;
      pendingEventsCache := pendingEventsCache m; pendingHeaders := pendingHeaders m;
      pendingData := pendingData m |}, r).

Definition DefaultTxCacheRetention : Z := 24 * 3600 * 1000000000.

Definition CleanupOldTxs (m : implementation) (now olderThan : Z) : implementation * Z :=
  let olderThan := if olderThan <=? 0 then DefaultTxCacheRetention else olderThan in
  let cutoff := now - olderThan in
  let old := filter (fun kv => kv.2 < cutoff) (map_to_list (txTimestamps m)) in
  ({| headerCache := headerCache m; dataCache := dataCache m;
      txCache := foldl (fun c kv => removeSeen c kv.1) (txCache m) old;
      txTimestamps := foldl (fun t kv => delete kv.1 t) (txTimestamps m) old;
      pendingEventsCache := pendingEventsCache m; pendingHeaders := pendingHeaders m;
      pendingData := pendingData m |}, blen old).

Definition DeleteHeight (m : implementation) (h : Z) : implementation :=
  upd_events (upd_caches m (deleteAllForHeight (headerCache m) h) (deleteAllForHeight (dataCache m) h))
    (deleteAllForHeight (pendingEventsCache m) h).

Definition SetPendingEvent (m : implementation) (h : Z) (e : DAHeightEvent) : implementation :=
  upd_events m (setItem (pendingEventsCache m) h e).
Definition GetNextPendingEvent (m : implementation) (h : Z) : implementation * option DAHeightEvent :=
  let '(c, r) := getNextItem (pendingEventsCache m) h in (upd_events m c, r).

Definition PendingEventsCount (m : implementation) : Z := blen (lru_Keys (itemsByHeight (pendingEventsCache m))).

Definition SetLastSubmittedHeaderHeight (s : D) (m : implementation) (h : Z) : D * implementation :=
  let '(s', ph) := setLastSubmittedHeight s (pendingHeaders m) h in (s', upd_pending m ph (pendingData m)).
Definition SetLastSubmittedDataHeight (s : D) (m : implementation) (h : Z) : D * implementation :=
  let '(s', pd) := setLastSubmittedHeight s (pendingData m) h in (s', upd_pending m (pendingHeaders m) pd).

Definition Manager_SaveToStore (s : D) (m : implementation) : D * res unit :=
  match SaveToStore s (headerCache m) with
  | (s1, Err e) => (s1, Err (EWrap "failed to save header cache to store" e))
  | (s1, Ok _) => let '(s2, r) := SaveToStore s1 (dataCache m) in
                  (s2, wrap_err "failed to save data cache to store" r)
  end.

(** [None] when the key is absent. *)
Definition getMetadataUint64 (s : D) (key : string) : res (option Z) :=
  match GetMetadata s key with
  | Err e => if errors_is e ErrNotFound then Ok None else Err (EWrap "read metadata" e)
  | Ok b => if negb (blen b =? 8) then Err (EMsg "invalid metadata length") else Ok (Some (Uint64_LE b))
  end.

(** Errors are only logged. *)
Definition initDAHeightFromStore (s : D) (m : implementation) : implementation :=
  match getMetadataUint64 s DAIncludedHeightKey with
  | Err _ | Ok None => m
  | Ok (Some daIncludedHeight) =>
      if daIncludedHeight =? 0 then m
      else
        let hc := match getMetadataUint64 s (GetHeightToDAHeightHeaderKey daIncludedHeight) with
                  | Ok (Some h) => setMaxDAHeight (headerCache m) h
                  | _ => headerCache m
                  end in
        let dc := match getMetadataUint64 s (GetHeightToDAHeightDataKey daIncludedHeight) with
                  | Ok (Some h) => setMaxDAHeight (dataCache m) h
                  | _ => dataCache m
                  end in
        upd_caches m hc dc
  end.

Definition Manager_RestoreFromStore (s : D) (m : implementation) : implementation * res unit :=
  match RestoreFromStore s (headerCache m) with
  | (hc, Err e) => (upd_caches m hc (dataCache m), Err (EWrap "failed to restore header cache from store" e))
  | (hc, Ok _) =>
      match RestoreFromStore s (dataCache m) with
      | (dc, Err e) => (upd_caches m hc dc, Err (EWrap "failed to restore data cache from store" e))
      | (dc, Ok _) => (initDAHeightFromStore s (upd_caches m hc dc), Ok tt)
      end
  end.

Definition Manager_ClearFromStore (s : D) (m : implementation) : D * implementation * res unit :=
  match ClearFromStore s (headerCache m) with
  | (s1, Err e) => (s1, m, Err (EWrap "failed to clear header cache from store" e))
  | (s1, Ok _) =>
      match ClearFromStore s1 (dataCache m) with
      | (s2, Err e) => (s2, m, Err (EWrap "failed to clear data cache from store" e))
      | (s2, Ok _) =>
          match NewCache HeaderDAIncludedPrefix, NewCache DataDAIncludedPrefix, NewCache EmptyString,
                NewCache EmptyString with
          | Ok hc, Ok dc, Ok tc, Ok pc =>
              (s2, initDAHeightFromStore s2
                     {| headerCache := hc; dataCache := dc; txCache := tc; txTimestamps := txTimestamps m;
                        pendingEventsCache := pc; pendingHeaders := pendingHeaders m;
                        pendingData := pendingData m |}, Ok tt)
          | _, _, _, _ => (s2, m, Ok tt)
          end
      end
  end.

(** A failure to clear or restore is only logged. *)
Definition NewManager (s : D) (clearCache : bool) : D * res implementation :=
  match NewCache HeaderDAIncludedPrefix, NewCache DataDAIncludedPrefix, NewCache EmptyString,
        NewCache EmptyString with
  | Ok hc, Ok dc, Ok tc, Ok pc =>
      match NewPendingHeaders s with
      | Err e => (s, Err (EWrap "failed to create pending headers" e))
      | Ok ph =>
          match NewPendingData s with
          | Err e => (s, Err (EWrap "failed to create pending data" e))
          | Ok pd =>
              let m := {| headerCache := hc; dataCache := dc; txCache := tc; txTimestamps := ∅;
                          pendingEventsCache := pc; pendingHeaders := ph; pendingData := pd |} in
              if clearCache then let '(s', m', _) := Manager_ClearFromStore s m in (s', Ok m')
              else (s, Ok (Manager_RestoreFromStore s m).1)
          end
      end
  | _, _, _, _ => (s, Err (EMsg "lru cache of non-positive size"))
  end.

End manager.
#[global] Arguments implementation K C : clear implicits.

(** ** Witnesses: two headers in flight *)

Module DACacheWitness.
Import RefLRU Store.StoreWitness.

Definition small {K A} : lruc K A := {| lc_more := 4; lc_items := [] |}.
Definition c_empty : Cache lruc unit :=
  {| itemsByHeight := small; hashes := small; daIncluded := small; hashByHeight := small;
     maxDAHeight := 0; storeKeyPrefix := HeaderDAIncludedPrefix |}.
Definition c_two : Cache lruc unit := setDAIncluded (setDAIncluded c_empty "AA" 10 3) "BB" 12 4.

Definition full {K A} (n : Z) : lruc K A := {| lc_more := Z.to_nat (n - 1); lc_items := [] |}.
Lemma ref_New {K} `{Countable K} {A} n : (0 <? n) = true -> lru_New (C := lruc) (K := K) (A := A) n = Ok (full n).
Proof. intros E. cbn. by rewrite E. Qed.

Definition c_fresh : Cache lruc unit :=
  {| itemsByHeight := full DefaultItemsCacheSize; hashes := full DefaultHashesCacheSize;
     daIncluded := full DefaultDAIncludedCacheSize; hashByHeight := full DefaultHashesCacheSize;
     maxDAHeight := 0; storeKeyPrefix := HeaderDAIncludedPrefix |}.

Lemma snapshot_restores_witness : exists s' c',
  SaveToStore empty_db c_two = (s', Ok tt) /\ ds_healthy s' /\
  RestoreFromStore s' c_fresh = (c', Ok tt) /\
  (forall h, (getDAIncludedByHeight c' h).2 = (getDAIncludedByHeight c_two h).2) /\
  (forall h d, included_at c_two h = Some d -> d <= maxDAHeight c') /\
  (maxDAHeight c' = 0 \/ exists h, included_at c_two h = Some (maxDAHeight c')).
Proof.
  refine (snapshot_restores empty_db c_two c_fresh _ _ _ _ _ _).
  - reflexivity.
  - discriminate.
  - vm_compute. reflexivity.
  - vm_compute. discriminate.
  - replace (snapshot_entries c_two) with
      [{| blockHeight := 3; daHeight := 10 |}; {| blockHeight := 4; daHeight := 12 |}]
      by (vm_compute; reflexivity).
    repeat (constructor; [split; split; (discriminate || reflexivity)|]). constructor.
  - unfold NewCache. cbn [storeKeyPrefix c_two]. rewrite !ref_New by reflexivity. reflexivity.
Defined.

Lemma seen_hides_inclusion_witness :
  (getDAIncludedByHeight (setSeen c_two "CC" 3) 3).2 = None /\
  maxDAHeight (setSeen c_two "CC" 3) = maxDAHeight c_two.
Proof. apply (seen_hides_inclusion c_two "CC" 10 3); vm_compute; reflexivity. Defined.

Definition c_twins : Cache lruc unit := setDAIncluded (setDAIncluded c_empty "AA" 10 3) "AA" 12 4.

Lemma delete_drops_twin_witness :
  (getDAIncludedByHeight c_twins 4).2 = Some 12 /\ (getDAIncludedByHeight (deleteAllForHeight c_twins 3) 4).2 = None.
Proof.
  split; [vm_compute; reflexivity|].
  apply (delete_drops_twin c_twins "AA" 3 4); [discriminate|vm_compute; reflexivity..].
Defined.

End DACacheWitness.

End DACache.
