(* ===== verification/Submit.v ===== *)
(** Submission to the DA layer (block/internal/submitting/da_submitter.go and
    the loops of submitter.go).

    [submitToDA] retries one size-capped batch against a DA client that may
    accept a part of it, ask for smaller batches or fail; headers are wrapped
    in signed envelopes, data in signed data; every accepted prefix moves the
    last submitted height.  The DA client, the waiting between attempts and
    the signer are parameters: the client and the clock act on a world [W]. *)

From S2P Require Import Prelude Interfaces Types Validation Store Pending DACache ForcedInclusion.

Import Store Pending DACache DA.

Module Submit.

Definition ErrOversizedItem : err := ESentinel "single item exceeds DA blob size limit".
Definition context_Canceled : err := ESentinel "context canceled".
Definition slice_panic : err := EMsg "runtime error: slice bounds out of range".
Definition DefaultMaxBlobSize : Z := 5 * 1024 * 1024.
Definition initialBackoff : Z := 100 * 1000000.

(** ** Retry policy *)

Record retryPolicy := { MaxAttempts : Z; MinBackoff : Z; MaxBackoff : Z; MaxBlobBytes : Z }.
Definition defaultRetryPolicy (maxAttempts maxDuration : Z) : retryPolicy :=
  {| MaxAttempts := maxAttempts; MinBackoff := initialBackoff; MaxBackoff := maxDuration;
     MaxBlobBytes := DefaultMaxBlobSize |}.

Record retryState := { Attempt : Z; Backoff : Z }.
Inductive retryReason := reasonUndefined | reasonFailure | reasonMempool | reasonSuccess | reasonTooBig.

Definition clamp (v minTime maxTime : Z) : Z :=
  let '(lo, hi) := if maxTime <? minTime then (maxTime, minTime) else (minTime, maxTime) in
  if v <? lo then lo else if hi <? v then hi else v.

Definition Next (rs : retryState) (reason : retryReason) (pol : retryPolicy) : retryState :=
  {| Attempt := Attempt rs + 1;
     Backoff := match reason with
                | reasonSuccess => MinBackoff pol
                | reasonMempool => MaxBackoff pol
                | reasonFailure | reasonTooBig =>
                    clamp (if Backoff rs =? 0 then MinBackoff pol else i64 (Backoff rs * 2))
                      (MinBackoff pol) (MaxBackoff pol)
                | reasonUndefined => 0
                end |}.

(** ** One batch *)

(** The counting loop: [first] is [i == 0]. *)
Fixpoint limit_count (first : bool) (marshaled : list bytes) (maxBytes total : Z) : res nat :=
  match marshaled with
  | [] => Ok O
  | m :: ms =>
      let sz := blen m in
      if maxBytes <? sz then
        if first then Err (EWrap "item size exceeds max" ErrOversizedItem) else Ok O
      else if maxBytes <? total + sz then Ok O
      else let? n := limit_count false ms maxBytes (total + sz) in Ok (S n)
  end.

Definition limitBatchBySize {T} (items : list T) (marshaled : list bytes) (maxBytes : Z)
  : res (list T * list bytes) :=
  let? count := limit_count true marshaled maxBytes 0 in
  match count with
  | O => Err (EMsg "no items fit")
  | _ => Ok (take count items, take count marshaled)
  end.

Record ResultSubmit := {
  sub_Code : StatusCode; sub_Message : string; sub_Height : Z; sub_SubmittedCount : Z
}.

(** Half of a batch that was too big, at least one item. *)
Definition half_batch (n : nat) : nat := if (n / 2 =? 0)%nat then 1%nat else (n / 2)%nat.

Section submit.
Context {W T ST : Type}.
(** [client.Submit] in the namespace and with the options of the call; [wait b] sleeps for the
    backoff [b] and says whether the context was cancelled meanwhile. *)
Context (client_Submit : W -> list bytes -> W * ResultSubmit) (wait : W -> Z -> W * bool).
Context (postSubmit : ST -> list T -> ResultSubmit -> ST).

Fixpoint submit_loop (fuel : nat) (pol : retryPolicy) (rs : retryState) (items : list T)
    (marshaled : list bytes) (w : W) (st : ST) : W * ST * res unit :=
  if MaxAttempts pol <=? Attempt rs then (w, st, Err (EMsg "failed to submit all items to DA layer"))
  else match fuel with
  | O => (w, st, Err out_of_fuel)
  | S fuel =>
      let '(w, cancelled) := wait w (Backoff rs) in
      if cancelled : bool then (w, st, Err context_Canceled)
      else
        let '(w, result) := client_Submit w marshaled in
        match sub_Code result with
        | StatusSuccess =>
            let n := sub_SubmittedCount result in
            if blen items <? n then (w, st, Err slice_panic)
            else
              let n := Z.to_nat n in
              let st := postSubmit st (take n items) result in
              if (n =? length items)%nat then (w, st, Ok tt)
              else submit_loop fuel pol (Next rs reasonSuccess pol) (drop n items) (drop n marshaled) w st
        | StatusTooBig =>
            match items with
            | [_] => (w, st, Err (EWrap "unrecoverable error" ErrOversizedItem))
            | _ =>
                let half := half_batch (length items) in
                submit_loop fuel pol (Next rs reasonTooBig pol) (take half items) (take half marshaled) w st
            end
        | StatusNotIncludedInBlock | StatusAlreadyInMempool =>
            submit_loop fuel pol (Next rs reasonMempool pol) items marshaled w st
        | StatusContextCanceled => (w, st, Err context_Canceled)
        | _ => submit_loop fuel pol (Next rs reasonFailure pol) items marshaled w st
        end
  end.

Definition submitToDA (maxAttempts blockTime : Z) (items : list T) (marshaled : list bytes) (w : W) (st : ST)
  : W * ST * res unit :=
  if negb (length items =? length marshaled)%nat then
    (w, st, Err (EMsg "items length does not match marshaled length"))
  else
    let pol := defaultRetryPolicy maxAttempts blockTime in
    let batch := match marshaled with
                 | [] => Ok (items, marshaled)
                 | _ => wrap_err "unrecoverable error: no items fit within max blob size"
                          (limitBatchBySize items marshaled (MaxBlobBytes pol))
                 end in
    match batch with
    | Err e => (w, st, Err e)
    | Ok (items, marshaled) =>
        submit_loop (Z.to_nat maxAttempts) pol {| Attempt := 0; Backoff := 0 |} items marshaled w st
    end.

End submit.

(** ** Headers and data *)

Section submitter.
Context {W D K H : Type} {C : Type -> Type -> Type} `{Datastore D} `{LRU C} `{PubKeys K} `{Protowire} `{HashString}.
Context `{ProtoCodec pb_Version} `{ProtoCodec pb_Header} `{ProtoCodec pb_SignedHeader} `{ProtoCodec pb_Data}
        `{ProtoCodec pb_DAHeaderEnvelope} `{ProtoCodec pb_SignedData}.
(** [client.Submit] in the header and the data namespace *)
Context (submit_header submit_data : W -> list bytes -> W * ResultSubmit) (wait : W -> Z -> W * bool).
(** [AppendDAHint] of the header and the data P2P store; its error is only logged *)
Context (header_hint data_hint : H -> Z -> list Z -> H).

Record signer := { Sign : bytes -> res bytes; GetPublic : res K; GetAddress : res bytes }.

(** [envelopeCache] is [None] if it could not be created. *)
Record DASubmitter := { envelopeCache : option (C Z bytes); lastSubmittedHeight : Z; signingWorkers : Z }.

(** The node state a submission changes: the store, the cache manager and the P2P stores. *)
Record node := { n_store : D; n_cache : implementation K C; n_hints : H }.

Definition getCachedEnvelope (ds : DASubmitter) (height : Z) : DASubmitter * option bytes :=
  match envelopeCache ds with
  | None => (ds, None)
  | Some c =>
      if height <=? lastSubmittedHeight ds then (ds, None)
      else let '(c', r) := lru_Get c height in
           ({| envelopeCache := Some c'; lastSubmittedHeight := lastSubmittedHeight ds;
               signingWorkers := signingWorkers ds |}, r)
  end.

Definition setCachedEnvelope (ds : DASubmitter) (height : Z) (envelope : bytes) : DASubmitter :=
  match envelopeCache ds with
  | None => ds
  | Some c =>
      if height <=? lastSubmittedHeight ds then ds
      else {| envelopeCache := Some (lru_Add c height envelope);
              lastSubmittedHeight := lastSubmittedHeight ds; signingWorkers := signingWorkers ds |}
  end.

Definition signAndCacheEnvelope (ds : DASubmitter) (sg : signer) (header : SignedHeader K) (marshalled : bytes)
  : DASubmitter * res bytes :=
  match Sign sg marshalled with
  | Err e => (ds, Err (EWrap "failed to sign envelope" e))
  | Ok envelopeSignature =>
      match MarshalDAEnvelope header envelopeSignature with
      | Err e => (ds, Err (EWrap "failed to marshal DA envelope" e))
      | Ok envelope => (setCachedEnvelope ds (hd_Height (sh_Header header)) envelope, Ok envelope)
      end
  end.

(** The first pass: cached envelopes by index. *)
Fixpoint cached_pass (ds : DASubmitter) (headers : list (SignedHeader K)) : DASubmitter * list (option bytes) :=
  match headers with
  | [] => (ds, [])
  | h :: hs =>
      let '(ds, r) := getCachedEnvelope ds (hd_Height (sh_Header h)) in
      let '(ds, rs) := cached_pass ds hs in (ds, r :: rs)
  end.

(** The sequential signing loop over the indices without an envelope. *)
Fixpoint sign_sequential (ds : DASubmitter) (sg : signer) (headers : list (SignedHeader K))
    (marshalled : list bytes) (envelopes : list (option bytes)) (need : list nat)
  : DASubmitter * res (list (option bytes)) :=
  match need with
  | [] => (ds, Ok envelopes)
  | i :: need =>
      match headers !! i, marshalled !! i with
      | Some h, Some m =>
          match signAndCacheEnvelope ds sg h m with
          | (ds, Err e) => (ds, Err (EWrap "failed to create envelope for header" e))
          | (ds, Ok envelope) =>
              sign_sequential ds sg headers marshalled (<[i := Some envelope]> envelopes) need
          end
      | _, _ => (ds, Err slice_panic)
      end
  end.

(** The workers' results in the order [need] in which they arrive: every job runs, the first error wins. *)
Fixpoint sign_parallel (ds : DASubmitter) (sg : signer) (headers : list (SignedHeader K))
    (marshalled : list bytes) (envelopes : list (option bytes)) (firstErr : option err) (need : list nat)
  : DASubmitter * res (list (option bytes)) :=
  match need with
  | [] => (ds, match firstErr with Some e => Err e | None => Ok envelopes end)
  | i :: need =>
      match headers !! i, marshalled !! i with
      | Some h, Some m =>
          match signAndCacheEnvelope ds sg h m with
          | (ds, Err e) =>
              let e := EWrap "failed to create envelope for header" e in
              sign_parallel ds sg headers marshalled envelopes
                (Some (match firstErr with Some e0 => e0 | None => e end)) need
          | (ds, Ok envelope) =>
              sign_parallel ds sg headers marshalled (<[i := Some envelope]> envelopes) firstErr need
          end
      | _, _ => (ds, Err slice_panic)
      end
  end.

Definition need_signing (envelopes : list (option bytes)) : list nat :=
  filter (fun i => mjoin (envelopes !! i) = None) (seq 0 (length envelopes)).

(** [order] is the order in which parallel workers finish: a permutation of the indices to sign. *)
Definition createDAEnvelopes (order : list nat -> list nat) (ds : DASubmitter) (sg : signer)
    (headers : list (SignedHeader K)) (marshalled : list bytes) : DASubmitter * res (list bytes) :=
  let '(ds, envelopes) := cached_pass ds headers in
  let need := need_signing envelopes in
  let '(ds, r) :=
    match need with
    | [] => (ds, Ok envelopes)
    | _ => if (length need <=? 2)%nat || (signingWorkers ds <=? 1)
           then sign_sequential ds sg headers marshalled envelopes need
           else sign_parallel ds sg headers marshalled envelopes None (order need)
    end in
  (ds, let? es := r in Ok (default [] <$> es)).

(** The callback of [SubmitHeaders]. *)
Definition post_headers (st : node * DASubmitter) (submitted : list (SignedHeader K)) (res : ResultSubmit)
  : node * DASubmitter :=
  let '(n, ds) := st in
  let m := foldl (fun m h => SetHeaderDAIncluded m (hash_String (Header_Hash (sh_Header h))) (sub_Height res)
                               (hd_Height (sh_Header h))) (n_cache n) submitted in
  let hints := header_hint (n_hints n) (sub_Height res) ((fun h => hd_Height (sh_Header h)) <$> submitted) in
  match last submitted with
  | None => ({| n_store := n_store n; n_cache := m; n_hints := hints |}, ds)
  | Some l =>
      let lastHeight := hd_Height (sh_Header l) in
      let '(s, m) := SetLastSubmittedHeaderHeight (n_store n) m lastHeight in
      ({| n_store := s; n_cache := m; n_hints := hints |},
       {| envelopeCache := envelopeCache ds; lastSubmittedHeight := lastHeight; signingWorkers := signingWorkers ds |})
  end.

Definition SubmitHeaders (order : list nat -> list nat) (maxAttempts blockTime : Z) (sg : option signer)
    (headers : list (SignedHeader K)) (marshalled : list bytes) (w : W) (n : node) (ds : DASubmitter)
  : W * (node * DASubmitter) * res unit :=
  match headers with
  | [] => (w, (n, ds), Ok tt)
  | _ =>
      match sg with
      | None => (w, (n, ds), Err (EMsg "signer is nil"))
      | Some sg =>
          if negb (length marshalled =? length headers)%nat then
            (w, (n, ds), Err (EMsg "marshalledHeaders length does not match headers length"))
          else
            match createDAEnvelopes order ds sg headers marshalled with
            | (ds, Err e) => (w, (n, ds), Err e)
            | (ds, Ok envelopes) =>
                submitToDA submit_header wait post_headers maxAttempts blockTime headers envelopes w (n, ds)
            end
      end
  end.

(** The loop of [signData]: data without transactions is skipped. *)
Fixpoint sign_data (sg : signer) (info : Signer K) (l : list (SignedData K * bytes))
  : res (list (SignedData K) * list bytes) :=
  match l with
  | [] => Ok ([], [])
  | (u, bz) :: l =>
      match Txs (sd_Data u) with
      | [] => sign_data sg info l
      | _ =>
          let? signature := wrap_err "failed to sign data" (Sign sg bz) in
          let sd := {| sd_Data := sd_Data u; sd_Signature := signature; sd_Signer := info |} in
          let? sbz := wrap_err "failed to marshal signed data" (SignedData_MarshalBinary sd) in
          let? r := sign_data sg info l in
          Ok (sd :: r.1, sbz :: r.2)
      end
  end.

Definition signData (sg : option signer) (proposer : bytes) (unsigned : list (SignedData K)) (marshalled : list bytes)
  : res (list (SignedData K) * list bytes) :=
  match sg with
  | None => Err (EMsg "signer is nil")
  | Some sg =>
      let? pubKey := wrap_err "failed to get public key" (GetPublic sg) in
      let? addr := wrap_err "failed to get address" (GetAddress sg) in
      if (0 <? blen proposer) && negb (bytes_Equal addr proposer) then
        Err (EMsg "signer address mismatch with genesis proposer")
      else sign_data sg {| PubKey := Some pubKey; Address := addr; marshalledPubKey := [] |} (zip unsigned marshalled)
  end.

(** [sd.Height()] reads the metadata, which stored data has. *)
Definition data_height (d : Data) : Z := match dt_Metadata d with Some m => md_Height m | None => 0 end.

(** The callback of [SubmitData]. *)
Definition post_data (n : node) (submitted : list (SignedData K)) (res : ResultSubmit) : node :=
  let m := foldl (fun m sd => SetDataDAIncluded m (hash_String (DACommitment (sd_Data sd))) (sub_Height res)
                                (data_height (sd_Data sd))) (n_cache n) submitted in
  let hints := data_hint (n_hints n) (sub_Height res) ((fun sd => data_height (sd_Data sd)) <$> submitted) in
  match last submitted with
  | None => {| n_store := n_store n; n_cache := m; n_hints := hints |}
  | Some l =>
      let '(s, m) := SetLastSubmittedDataHeight (n_store n) m (data_height (sd_Data l)) in
      {| n_store := s; n_cache := m; n_hints := hints |}
  end.

Definition SubmitData (maxAttempts blockTime : Z) (sg : option signer) (proposer : bytes)
    (unsigned : list (SignedData K)) (marshalled : list bytes) (w : W) (n : node) : W * node * res unit :=
  match unsigned with
  | [] => (w, n, Ok tt)
  | _ =>
      if negb (length marshalled =? length unsigned)%nat then
        (w, n, Err (EMsg "marshalledData length does not match unsignedDataList length"))
      else
        match signData sg proposer unsigned marshalled with
        | Err e => (w, n, Err (EWrap "failed to sign data" e))
        | Ok ([], _) => (w, n, Ok tt)
        | Ok (signedDataList, bz) =>
            submitToDA submit_data wait post_data maxAttempts blockTime signedDataList bz w n
        end
  end.

(** ** One tick of the submission loop (submitter.go) *)

(** [ShouldSubmit] of the configured batching strategy: pending count, size before signatures, blob
    limit, time since the last submission. *)
Context (ShouldSubmit : Z -> Z -> Z -> Z -> bool).

Definition with_cache (n : node) (m : implementation K C) : node :=
  {| n_store := n_store n; n_cache := m; n_hints := n_hints n |}.

(** Data: the result says whether a submission succeeded (and the time is reset), and a critical
    error is reported for an oversized item. *)
Definition data_round (maxAttempts blockTime since : Z) (sg : option signer) (proposer : bytes) (w : W) (n : node)
  : W * node * option (res unit) :=
  let '(s, pd, dataNb) := NumPendingData (K := K) (n_store n) (pendingData (n_cache n)) in
  let n := {| n_store := s; n_cache := upd_pending (n_cache n) (pendingHeaders (n_cache n)) pd;
              n_hints := n_hints n |} in
  if dataNb <=? 0 then (w, n, None)
  else
    match Manager_GetPendingData (K := K) (n_store n) pd with
    | (pd, Err e) => (w, with_cache n (upd_pending (n_cache n) (pendingHeaders (n_cache n)) pd), None)
    | (pd, Ok (signedDataList, marshalledData)) =>
        let n := with_cache n (upd_pending (n_cache n) (pendingHeaders (n_cache n)) pd) in
        if ShouldSubmit (blen signedDataList) (total_len marshalledData) DefaultMaxBlobSize since then
          let '(w, n, r) := SubmitData maxAttempts blockTime sg proposer signedDataList marshalledData w n in
          (w, n, Some r)
        else (w, n, None)
    end.

Definition header_round (order : list nat -> list nat) (maxAttempts blockTime since : Z) (sg : option signer)
    (w : W) (n : node) (ds : DASubmitter) : W * (node * DASubmitter) * option (res unit) :=
  if numPending (n_store n) (pendingHeaders (n_cache n)) <=? 0 then (w, (n, ds), None)
  else
    match GetPendingHeaders (n_store n) (pendingHeaders (n_cache n)) with
    | (ph, Err e) => (w, (with_cache n (upd_pending (n_cache n) ph (pendingData (n_cache n))), ds), None)
    | (ph, Ok (headers, marshalledHeaders)) =>
        let n := with_cache n (upd_pending (n_cache n) ph (pendingData (n_cache n))) in
        if ShouldSubmit (blen headers) (total_len marshalledHeaders) DefaultMaxBlobSize since then
          let '(w, st, r) := SubmitHeaders order maxAttempts blockTime sg headers marshalledHeaders w n ds in
          (w, st, Some r)
        else (w, (n, ds), None)
    end.

End submitter.
#[global] Arguments node D K H C : clear implicits.
#[global] Arguments DASubmitter C : clear implicits.

(** ** Batches are the longest prefix that fits *)

Lemma limit_count_spec first ms maxBytes total n : 0 <= total ->
  limit_count first ms maxBytes total = Ok n ->
  (n <= length ms)%nat /\ (total <= maxBytes -> total + total_len (take n ms) <= maxBytes) /\
  ((n < length ms)%nat -> maxBytes < total + total_len (take (S n) ms)).
Proof.
  revert first total n. induction ms as [|m ms IH]; intros first total n Ht; simpl.
  { intros [= <-]. simpl. split_and!; [lia|lia|lia]. }
  pose proof (blen_nonneg m).
  destruct (Z.ltb_spec maxBytes (blen m)); [destruct first; [done|intros [= <-]; simpl; split_and!; lia]|].
  destruct (Z.ltb_spec maxBytes (total + blen m)); [intros [= <-]; simpl; split_and!; lia|].
  destruct (limit_count false ms maxBytes (total + blen m)) as [k|] eqn:E; [|done].
  intros [= <-]. apply IH in E as (E1 & E2 & E3); [|lia]. cbn [take length total_len foldr] in *.
  fold (total_len (take k ms)) (total_len (take (S k) ms)) in *. split_and!; [lia|lia|].
  intros Hlt. specialize (E3 ltac:(lia)). destruct ms; cbn [take total_len foldr] in *; lia.
Qed.

(** A limited batch: a non-empty prefix of items and their encodings, within the size limit. *)
Lemma limitBatch_spec {T} (items : list T) ms maxBytes items' ms' : 0 <= maxBytes ->
  limitBatchBySize items ms maxBytes = Ok (items', ms') ->
  exists n, (0 < n <= length ms)%nat /\ items' = take n items /\ ms' = take n ms /\
    total_len ms' <= maxBytes /\ ((n < length ms)%nat -> maxBytes < total_len (take (S n) ms)).
Proof.
  intros Hm. unfold limitBatchBySize. destruct (limit_count true ms maxBytes 0) as [[|k]|] eqn:E; try done.
  intros [= <- <-]. apply limit_count_spec in E as (E1 & E2 & E3); [|done].
  exists (S k). split_and!; try done; lia.
Qed.

Lemma total_len_take n l : total_len (take n l) <= total_len l.
Proof.
  rewrite <- (take_drop n l) at 2. rewrite total_len_app. pose proof (total_len_nonneg (drop n l)). lia.
Qed.
Lemma total_len_drop n l : total_len (drop n l) <= total_len l.
Proof.
  rewrite <- (take_drop n l) at 2. rewrite total_len_app. pose proof (total_len_nonneg (take n l)). lia.
Qed.

(** ** What a submission submits *)

(** One call of the client: the blobs and its answer. *)
Definition call : Type := list bytes * ResultSubmit.

(** The blobs a call got accepted (none if the answer counts more than were sent). *)
Definition accepted (c : call) : list bytes :=
  match sub_Code c.2 with
  | StatusSuccess => if blen c.1 <? sub_SubmittedCount c.2 then []
                     else take (Z.to_nat (sub_SubmittedCount c.2)) c.1
  | _ => []
  end.

Section submitted.
Context {W T ST : Type} (client_Submit : W -> list bytes -> W * ResultSubmit) (wait : W -> Z -> W * bool).
Context (postSubmit : ST -> list T -> ResultSubmit -> ST).

(** The client with a record of its calls. *)
Definition recording : W * list call -> list bytes -> (W * list call) * ResultSubmit :=
  fun wc blobs => let '(w, r) := client_Submit wc.1 blobs in ((w, wc.2 ++ [(blobs, r)]), r).
Definition recording_wait : W * list call -> Z -> (W * list call) * bool :=
  fun wc b => let '(w, r) := wait wc.1 b in ((w, wc.2), r).

Abbreviation loop := (submit_loop recording recording_wait postSubmit).
Abbreviation chunk := (list T * ResultSubmit)%type.

(** All [postSubmit] calls: the items of each with the client's answer. *)
Definition post_all (st : ST) (chunks : list chunk) : ST :=
  foldl (fun st c => postSubmit st c.1 c.2) st chunks.

(** A loop's outcome from [items] with encodings [ms]: the post-submit calls run through a prefix
    of the items, which is what the client accepted; client calls are bounded. *)
Definition outcome (fuel : nat) (maxBytes : Z) (items : list T) (ms : list bytes) (calls : list call) (st : ST)
    (o : (W * list call) * ST * res unit) : Prop :=
  let '(_, calls', st', r) := o in
  exists (chunks : list chunk) rest new, st' = post_all st chunks /\ items = concat chunks.*1 ++ rest /\
    calls' = calls ++ new /\ concat (accepted <$> new) = take (length (concat chunks.*1)) ms /\
    (r = Ok tt -> items <> [] -> concat chunks.*1 <> []) /\ (length new <= fuel)%nat /\
    Forall (fun c => c.1 <> [] /\ total_len c.1 <= maxBytes) new.

Lemma outcome_stop fuel maxBytes items ms w calls st e :
  outcome fuel maxBytes items ms calls st ((w, calls), st, Err e).
Proof. exists [], items, []. rewrite app_nil_r. split_and!; try done; simpl; lia. Qed.

(** The last call: it got [msub] accepted, reported by the post-submit calls [cs]. *)
Lemma outcome_last fuel maxBytes (cs : list chunk) rest msub mrest items ms ans calls st w r :
  items = concat cs.*1 ++ rest -> ms = msub ++ mrest -> length (concat cs.*1) = length msub ->
  accepted (ms, ans) = msub -> (r = Ok tt -> items <> [] -> concat cs.*1 <> []) ->
  ms <> [] -> total_len ms <= maxBytes ->
  outcome (S fuel) maxBytes items ms calls st ((w, calls ++ [(ms, ans)]), post_all st cs, r).
Proof.
  intros Ei Em El Ea Hok Hne Hb. exists cs, rest, [(ms, ans)].
  split_and!; [done..| |done|simpl; lia|by constructor].
  csimpl. rewrite Ea, app_nil_r, El, Em. by rewrite take_app_length.
Qed.

(** An earlier call, after which the loop continues with [items'] and [ms']. *)
Lemma outcome_step fuel maxBytes (cs : list chunk) items' rest msub ms' mrest items ms ans calls st o :
  items = concat cs.*1 ++ items' ++ rest -> ms = msub ++ ms' ++ mrest ->
  length (concat cs.*1) = length msub -> length items' = length ms' -> items' <> [] ->
  accepted (ms, ans) = msub -> ms <> [] -> total_len ms <= maxBytes ->
  outcome fuel maxBytes items' ms' (calls ++ [(ms, ans)]) (post_all st cs) o ->
  outcome (S fuel) maxBytes items ms calls st o.
Proof.
  intros Ei Em El El' Hne' Ea Hne Hb. destruct o as [[[w calls'] st'] r].
  intros (chunks & rest' & new & -> & Ei' & -> & Eacc & Hok & Hn & Hf).
  exists (cs ++ chunks), (rest' ++ rest), ((ms, ans) :: new).
  rewrite fmap_app, concat_app. split_and!.
  - unfold post_all. by rewrite foldl_app.
  - rewrite Ei, Ei'. by rewrite <- !app_assoc.
  - by rewrite <- app_assoc.
  - csimpl. rewrite Ea, Eacc, Em, length_app, El. rewrite take_app_add'; [|done]. f_equal.
    rewrite take_app_le; [done|]. rewrite <- El', Ei', length_app. lia.
  - intros Hr _ E. apply app_eq_nil in E as [_ E]. by apply Hok.
  - simpl. lia.
  - by constructor.
Qed.

Lemma step_same fuel maxBytes items ms ans calls st o : length items = length ms -> items <> [] -> ms <> [] ->
  total_len ms <= maxBytes -> accepted (ms, ans) = [] ->
  outcome fuel maxBytes items ms (calls ++ [(ms, ans)]) st o -> outcome (S fuel) maxBytes items ms calls st o.
Proof.
  intros Hl Hne Hms Hb Ha Ho.
  by apply (outcome_step fuel maxBytes [] items [] [] ms [] items ms ans calls st); rewrite ?app_nil_r.
Qed.

Lemma submit_loop_outcome fuel pol rs items ms w calls st : length items = length ms -> items <> [] ->
  total_len ms <= MaxBlobBytes pol -> Z.of_nat fuel = MaxAttempts pol - Attempt rs ->
  outcome fuel (MaxBlobBytes pol) items ms calls st (loop fuel pol rs items ms (w, calls) st) /\
  (loop fuel pol rs items ms (w, calls) st).2 <> Err out_of_fuel.
Proof.
  revert rs items ms w calls st. induction fuel as [|fuel IH]; intros rs items ms w calls st Hl Hne Hb Hf; simpl.
  { rewrite (proj2 (Z.leb_le _ _)) by lia. split; [apply outcome_stop|done]. }
  rewrite (proj2 (Z.leb_gt _ _)) by lia.
  assert (Hms : ms <> []) by (intros ->; destruct items; [by apply Hne|discriminate Hl]).
  destruct (wait w (Backoff rs)) as [w1 cancelled] eqn:Ew.
  assert (recording_wait (w, calls) (Backoff rs) = ((w1, calls), cancelled)) as ->
    by (unfold recording_wait; simpl; by rewrite Ew).
  destruct cancelled; [split; [apply outcome_stop|discriminate]|].
  destruct (client_Submit w1 ms) as [w2 ans] eqn:Ec.
  assert (recording (w1, calls) ms = ((w2, calls ++ [(ms, ans)]), ans)) as ->
    by (unfold recording; simpl; by rewrite Ec).
  assert (Hnext : forall reason, Z.of_nat fuel = MaxAttempts pol - Attempt (Next rs reason pol)) by (simpl; lia).
  assert (Hacc : accepted (ms, ans) = match sub_Code ans with
    StatusSuccess => if blen ms <? sub_SubmittedCount ans then []
                     else take (Z.to_nat (sub_SubmittedCount ans)) ms | _ => [] end) by done.
  assert (Hbl : blen items = blen ms) by (unfold blen; lia).
  destruct (sub_Code ans);
    try (split; [by apply (outcome_last fuel _ [] items [] ms)|discriminate]);
    try (edestruct IH as [O1 O2]; [exact Hl|exact Hne|exact Hb|apply Hnext|split; [by eapply step_same|exact O2]]).
  - rewrite Hbl. rewrite <- Hbl in Hacc at 1. destruct (Z.ltb_spec (blen items) (sub_SubmittedCount ans)) as [|Hle];
      [rewrite (proj2 (Z.ltb_lt _ _)) by lia; split; [by apply (outcome_last fuel _ [] items [] ms)|discriminate]|].
    rewrite (proj2 (Z.ltb_ge _ _)) by lia. set (n := Z.to_nat (sub_SubmittedCount ans)) in *.
    assert (Hn : (n <= length items)%nat) by (unfold blen in *; lia).
    assert (Hc : concat [(take n items, ans)].*1 = take n items) by (csimpl; apply app_nil_r).
    destruct (Nat.eqb_spec n (length items)) as [En|En].
    + split; [|done]. eapply (outcome_last fuel _ [(take n items, ans)] (drop n items) (take n ms) (drop n ms));
        rewrite ?Hc, ?take_drop; try done; [rewrite !length_take; lia|]. by rewrite take_ge by lia.
    + assert (Hd : drop n items <> []) by (intros E%(f_equal length); rewrite length_drop in E; simpl in E; lia).
      destruct (IH (Next rs reasonSuccess pol) (drop n items) (drop n ms) w2 (calls ++ [(ms, ans)])
                  (postSubmit st (take n items) ans))
        as [O1 O2]; [rewrite !length_drop; lia|done|etrans; [apply total_len_drop|done]|done|].
      split; [|done]. eapply (outcome_step fuel _ [(take n items, ans)] (drop n items) [] (take n ms) (drop n ms) []);
        rewrite ?Hc, ?app_nil_r, ?take_drop; try done; [rewrite !length_take; lia|rewrite !length_drop; lia].
  - destruct items as [|x [|y items]]; [done|split; [by apply (outcome_last fuel _ [] [x] [] ms)|discriminate]|].
    cbv zeta. set (half := half_batch _). set (its := x :: y :: items) in *.
    assert (Hh : (0 < half)%nat) by (unfold half, half_batch; destruct (Nat.eqb_spec (length its / 2) 0); lia).
    assert (Ht : take half its <> []) by (by destruct half; [lia|]).
    destruct (IH (Next rs reasonTooBig pol) (take half its) (take half ms) w2 (calls ++ [(ms, ans)]) st)
      as [O1 O2]; [rewrite !length_take; lia|done|etrans; [apply total_len_take|done]|done|].
    split; [|done]. eapply (outcome_step fuel _ [] (take half its) (drop half its) [] (take half ms) (drop half ms));
      rewrite ?app_nil_l, ?take_drop; try done. rewrite !length_take; lia.
Qed.

Lemma submitToDA_outcome maxAttempts blockTime items ms w st : 0 <= maxAttempts -> items <> [] ->
  length items = length ms ->
  let '((_, calls), st', r) :=
    submitToDA recording recording_wait postSubmit maxAttempts blockTime items ms (w, []) st in
  exists (chunks : list chunk) rest, st' = post_all st chunks /\ items = concat chunks.*1 ++ rest /\
    concat (accepted <$> calls) = take (length (concat chunks.*1)) ms /\
    (r = Ok tt -> concat chunks.*1 <> []) /\ r <> Err out_of_fuel /\
    (length calls <= Z.to_nat maxAttempts)%nat /\
    Forall (fun c => c.1 <> [] /\ total_len c.1 <= DefaultMaxBlobSize) calls.
Proof.
  intros Ha Hne Hl. unfold submitToDA. rewrite Hl, Nat.eqb_refl. simpl.
  assert (Hms : ms <> []) by (intros ->; destruct items; [by apply Hne|discriminate Hl]).
  destruct ms as [|m ms']; [done|]. set (ms := m :: ms') in *.
  destruct (limitBatchBySize items ms DefaultMaxBlobSize) as [[its bs]|e] eqn:E; simpl.
  2: { exists [], items. split_and!; try done. simpl. lia. }
  apply limitBatch_spec in E as (n & Hn & -> & -> & Hb & _); [|done].
  pose (pol := defaultRetryPolicy maxAttempts blockTime).
  assert (Hne' : take n items <> []) by (destruct items; [done|]; by destruct n; [lia|]).
  assert (Hl' : length (take n items) = length (take n ms)) by (rewrite !length_take; lia).
  assert (Hf' : Z.of_nat (Z.to_nat maxAttempts) = MaxAttempts pol - 0) by (simpl; lia).
  destruct (submit_loop_outcome _ pol {| Attempt := 0; Backoff := 0 |} _ _ w [] st Hl' Hne' Hb Hf') as [O1 O2].
  destruct (submit_loop _ _ _ _ _ _ _ _ _ _) as [[[w' calls] st'] r].
  destruct O1 as (chunks & rest & new & -> & Et & -> & Eacc & Hok & Hlen & Hf). simpl in *.
  exists chunks, (rest ++ drop n items). split_and!; [done| | |by auto|done|done|done].
  - by rewrite app_assoc, <- Et, take_drop.
  - rewrite Eacc, take_take. f_equal. apply (f_equal length) in Et. rewrite length_app, length_take in Et. lia.
Qed.

End submitted.

Section prefix.
Context {W T : Type} (client_Submit : W -> list bytes -> W * ResultSubmit) (wait : W -> Z -> W * bool).

(** The items of every [postSubmit] call, in order. *)
Definition log_post (st : list T) (submitted : list T) (_ : ResultSubmit) : list T := st ++ submitted.

Lemma post_all_log chunks st : post_all log_post st chunks = st ++ concat chunks.*1.
Proof.
  revert st. induction chunks as [|c chunks IH]; intros st; csimpl; [by rewrite app_nil_r|].
  unfold post_all in *. simpl. rewrite IH. unfold log_post. by rewrite app_assoc.
Qed.

(** C23: Whatever the DA client answers, one submission reports items as submitted in order, without gap or
    duplicate: together they are a prefix of the items, non-empty if it returns without error, and
    their encodings are exactly the blobs the client accepted.  The client is called at most the
    configured number of times, each time with a non-empty batch within the blob size limit, and
    the retry loop always ends. *)
Theorem submitToDA_prefix (maxAttempts blockTime : Z) (items : list T) (ms : list bytes) (w : W) 
  (Ha : 0 <= maxAttempts) (Hne : items <> []) (Hl : length items = length ms) :
  let '((_, calls), submitted, r) :=
    submitToDA (recording client_Submit) (recording_wait wait) log_post maxAttempts blockTime items ms (w, []) [] in
  (exists rest, items = submitted ++ rest) /\ (r = Ok tt -> submitted <> []) /\ r <> Err out_of_fuel /\
  concat (accepted <$> calls) = take (length submitted) ms /\
  (length calls <= Z.to_nat maxAttempts)%nat /\
  Forall (fun c => c.1 <> [] /\ total_len c.1 <= DefaultMaxBlobSize) calls.
Proof.
  pose proof (submitToDA_outcome client_Submit wait log_post maxAttempts blockTime items ms w [] Ha Hne Hl) as Ho.
  destruct (submitToDA _ _ _ _ _ _ _ _ _) as [[[w' calls] st] r].
  destruct Ho as (chunks & rest & -> & Ei & Eacc & Hok & Hfu & Hn & Hf).
  rewrite post_all_log. simpl. split_and!; try done. by exists rest.
Qed.

End prefix.

(** ** No block with transactions is skipped *)

Section nogap.
Context {W D K H : Type} {C : Type -> Type -> Type} `{DL : DatastoreLaws D} `{LL : LRULaws C}.
Context `{PK : PubKeys K} `{PW : Protowire} `{HS : HashString}.
Context `{CV : ProtoCodec pb_Version} `{CHd : ProtoCodec pb_Header} `{CH : ProtoCodec pb_SignedHeader}
        `{CD : ProtoCodec pb_Data} `{CE : ProtoCodec pb_DAHeaderEnvelope} `{CSd : ProtoCodec pb_SignedData}.
Context (submit_data : W -> list bytes -> W * ResultSubmit) (wait : W -> Z -> W * bool).
Context (data_hint : H -> Z -> list Z -> H).

Abbreviation fetch := (fetchData (K := K)).
Abbreviation nd := (node D K H C).
Abbreviation last_data n := (lastHeight (pendingData (n_cache n))).

(** Stored data carries its height. *)
Definition heights_match (s : D) : Prop := forall h d, is_u64 h -> fetch s h = Ok d -> data_height d = h.

(** The invariant of the data submission state. *)
Record data_inv (top : Z) (n : nd) : Prop := {
  di_healthy : ds_healthy (n_store n);
  di_key : metaKey (pendingData (n_cache n)) = LastSubmittedDataHeightKey;
  di_height : Height (n_store n) = Ok top;
  di_last : 0 <= last_data n <= top;
  di_persisted : persisted (n_store n) (pendingData (n_cache n));
  di_fresh : fresh_above fetch (n_store n) (last_data n) (pendingCache (pendingData (n_cache n)));
  di_match : heights_match (n_store n);
}.

(** The store differs at most in the metadata of the last submitted data height. *)
Definition same_blocks (s s' : D) : Prop :=
  forall k, k <> GetMetaKey LastSubmittedDataHeightKey -> ds_view s' !! k = ds_view s !! k.

Lemma fetch_same s s' h : ds_healthy s -> ds_healthy s' -> same_blocks s s' -> fetch s' h = fetch s h.
Proof. intros. by eapply fetchData_frame. Qed.

(** Moving the data height forward keeps the invariant. *)
Lemma data_inv_move top (n n' : nd) : data_inv top n -> ds_healthy (n_store n') ->
  metaKey (pendingData (n_cache n')) = LastSubmittedDataHeightKey ->
  pendingCache (pendingData (n_cache n')) = pendingCache (pendingData (n_cache n)) ->
  persisted (n_store n') (pendingData (n_cache n')) ->
  last_data n <= last_data n' <= top -> same_blocks (n_store n) (n_store n') -> data_inv top n'.
Proof.
  intros [I1 I2 I3 I4 I5 I6 I7] Hs Hk Hc Hp Hl Hb. split; try done.
  - rewrite <- I3. by eapply (Height_frame (n_store n)).
  - lia.
  - rewrite Hc. intros h x Hh E. rewrite (fetch_same (n_store n)) by done. apply I6; [lia|done].
  - intros h d Hu. rewrite (fetch_same (n_store n)) by done. by apply I7.
Qed.

Lemma fold_included_pending (f : implementation K C -> SignedData K -> implementation K C) l m :
  (forall m sd, pendingData (f m sd) = pendingData m) -> pendingData (foldl f m l) = pendingData m.
Proof. intros Hf. revert m. induction l as [|x l IH]; intros m; simpl; [done|]. by rewrite IH, Hf. Qed.

Abbreviation post := (post_data data_hint).

Lemma post_data_inv top (n : nd) sub ans : data_inv top n -> is_u64 top ->
  Forall (fun sd => 0 <= data_height (sd_Data sd) <= top) sub ->
  let n' := post n sub ans in
  data_inv top n' /\ same_blocks (n_store n) (n_store n') /\ last_data n <= last_data n' /\
  (last_data n' = last_data n \/ exists sd, sd ∈ sub /\ data_height (sd_Data sd) = last_data n').
Proof.
  intros Hi Hu Hsub. cbv zeta. pose proof Hi as [I1 I2 I3 I4 I5 I6 I7]. unfold post_data.
  set (m := foldl _ _ _). assert (Em : pendingData m = pendingData (n_cache n)).
  { unfold m. by apply fold_included_pending. }
  destruct (last sub) as [l|] eqn:El.
  - assert (Hin : l ∈ sub) by (by apply last_Some_elem_of).
    rewrite Forall_forall in Hsub. specialize (Hsub l Hin). unfold SetLastSubmittedDataHeight. rewrite Em.
    assert (Hhu : is_u64 (data_height (sd_Data l))) by (unfold is_u64 in *; lia).
    pose proof (set_last_spec (n_store n) (pendingData (n_cache n)) (data_height (sd_Data l)) I1
      ltac:(by rewrite I2) Hhu I5) as Hset.
    destruct (setLastSubmittedHeight _ _ _) as [s' pd']. destruct Hset as (S1 & S2 & S3 & S4 & S5 & S6).
    rewrite I2 in *. simpl. split; [|split; [done|split; [lia|]]].
    + apply (data_inv_move top n); simpl; try done. lia.
    + destruct (Z.max_spec (lastHeight (pendingData (n_cache n))) (data_height (sd_Data l))) as [[? E]|[? E]];
        [right; exists l; split; [done|lia]|left; lia].
  - simpl. rewrite Em. split; [|split; [done|split; [lia|by left]]].
    apply (data_inv_move top n); simpl; rewrite ?Em; try done. lia.
Qed.

Lemma post_all_inv top chunks (n : nd) : data_inv top n -> is_u64 top ->
  Forall (fun sd => 0 <= data_height (sd_Data sd) <= top) (concat chunks.*1) ->
  let n' := post_all post n chunks in
  data_inv top n' /\ same_blocks (n_store n) (n_store n') /\ last_data n <= last_data n' /\
  (last_data n' = last_data n \/ exists sd, sd ∈ concat chunks.*1 /\ data_height (sd_Data sd) = last_data n').
Proof.
  cbv zeta. revert n. induction chunks as [|[sub ans] chunks IH]; intros n Hi Hu Hf.
  { simpl. split; [done|]. split; [done|]. split; [lia|by left]. }
  csimpl in *. apply Forall_app in Hf as [Hf1 Hf2].
  destruct (post_data_inv top n sub ans Hi Hu Hf1) as (P1 & P2 & P3 & P4).
  destruct (IH _ P1 Hu Hf2) as (Q1 & Q2 & Q3 & Q4). unfold post_all in *. simpl. split; [done|].
  split; [intros k Hk; rewrite Q2 by done; by apply P2|]. split; [lia|].
  destruct Q4 as [->|(sd & Hin & E)]; [|right; exists sd; split; [apply elem_of_app; by right|done]].
  destruct P4 as [->|(sd & Hin & E)]; [by left|right; exists sd; split; [apply elem_of_app; by left|done]].
Qed.

Lemma sign_data_spec sg (info : Signer K) l sds bzs : sign_data sg info l = Ok (sds, bzs) ->
  sd_Data <$> sds = filter (fun d => Txs d <> []) ((fun x => sd_Data x.1) <$> l) /\
  Forall2 (fun sd bz => SignedData_MarshalBinary sd = Ok bz) sds bzs.
Proof.
  revert sds bzs. induction l as [|[u bz] l IH]; intros sds bzs; csimpl.
  { intros [= <- <-]. by split. }
  rewrite filter_cons. simpl. destruct (Txs (sd_Data u)) as [|tx txs] eqn:Et.
  { rewrite decide_False by (intros Hn; by apply Hn). apply IH. }
  rewrite decide_True by done.
  destruct (Sign sg bz) as [sig|]; [|done]. cbn [wrap_err res_bind].
  destruct (SignedData_MarshalBinary _) as [sbz|] eqn:Em; [|done]. cbn [wrap_err res_bind].
  destruct (sign_data sg info l) as [[r1 r2]|]; [|done]. intros [= <- <-].
  destruct (IH _ _ eq_refl) as [I1 I2]. split; [csimpl; by rewrite I1|by constructor].
Qed.

Lemma marshal_all_length {T} (f : T -> res bytes) msg l bs : marshal_all f msg l = Ok bs -> length bs = length l.
Proof.
  revert bs. induction l as [|x l IH]; intros bs; simpl; [by intros [= <-]|].
  destruct (f x); [|done]. simpl. destruct (marshal_all f msg l); [|done]. intros [= <-]. simpl. by rewrite IH.
Qed.

Lemma filter_zip_fst {A B} (P : A -> Prop) `{forall x, Decision (P x)} (l : list A) (k : list B) :
  length l = length k -> (filter (fun x : A * B => P x.1) (zip l k)).*1 = filter P l.
Proof.
  revert k. induction l as [|a l IH]; intros [|b k]; try done. intros [= Hl]. simpl.
  rewrite !filter_cons. simpl. destruct (decide (P a)); csimpl; by rewrite IH.
Qed.

(** What the manager hands to the submission: the stored data with transactions, in height order. *)
Lemma manager_pending_ok s (pd : pendingBase C Data) top : is_u64 (lastHeight pd) -> Height s = Ok top ->
  is_u64 top -> lastHeight pd <= top -> fresh_above fetch s (lastHeight pd) (pendingCache pd) ->
  let '(pd', r) := Manager_GetPendingData (K := K) s pd in
  lastHeight pd' = lastHeight pd /\ metaKey pd' = metaKey pd /\
  fresh_above fetch s (lastHeight pd') (pendingCache pd') /\
  forall sds bzs, r = Ok (sds, bzs) -> length sds = length bzs /\ exists endHeight ds,
    lastHeight pd <= endHeight <= top /\
    Forall2 (fun h x => fetch s h = Ok x) (heights_upto (lastHeight pd + 1) endHeight) ds /\
    sd_Data <$> sds = filter (fun d => Txs d <> []) ds.
Proof.
  intros Hl Hh Hu Hle Hf. unfold Manager_GetPendingData, GetPendingData.
  pose proof (getPending_ok fetch s pd top Hl Hh Hu Hle Hf) as Hg.
  destruct (getPending _ _ _) as [pd' r]. destruct Hg as (G1 & G2 & G3 & G4).
  split_and!; try done. intros sds bzs. destruct r as [ds|]; [|done]. simpl.
  destruct (marshal_all _ _ ds) as [ms|] eqn:Em; [|done]. simpl. intros [= <- <-].
  rewrite !length_fmap. split; [done|]. destruct (G4 ds eq_refl) as (e & He & Hf2).
  exists e, ds. split; [done|]. split; [done|]. rewrite <- list_fmap_compose.
  apply marshal_all_length in Em. rewrite <- (filter_zip_fst _ ds ms) by done. done.
Qed.

Lemma heights_of_data s ds a b : heights_match s -> 0 <= a -> b < two64 ->
  Forall2 (fun h x => fetch s h = Ok x) (heights_upto a b) ds -> data_height <$> ds = heights_upto a b.
Proof.
  intros Hm Ha Hb. assert (Hr : forall h, h ∈ heights_upto a b -> is_u64 h)
    by (intros h Hh%elem_of_heights_upto; unfold is_u64; lia). revert Hr. generalize (heights_upto a b).
  intros hs Hr Hf. induction Hf as [|h d hs ds Hd _ IH]; [done|]. csimpl.
  rewrite IH by (intros h' Hh'; apply Hr; by right). rewrite (Hm h d); [done|apply Hr; by left|done].
Qed.

Lemma heights_upto_sorted a b : StronglySorted Z.lt (heights_upto a b).
Proof.
  unfold heights_upto. remember (Z.to_nat (b - a + 1)) as n eqn:En. revert a b En.
  induction n as [|n IH]; intros a b En.
  - rewrite seqZ_nil by lia. constructor.
  - rewrite seqZ_cons by lia. constructor.
    + replace (Z.pred (b - a + 1)) with (b - Z.succ a + 1) by lia. apply IH. lia.
    + apply Forall_forall. intros x Hx%elem_of_seqZ. lia.
Qed.

Lemma sorted_filter {A} (f : A -> Z) (P : A -> Prop) `{forall x, Decision (P x)} l :
  StronglySorted Z.lt (f <$> l) -> StronglySorted Z.lt (f <$> filter P l).
Proof.
  induction l as [|x l IH]; [done|]. csimpl. intros Hs. apply StronglySorted_inv in Hs as [Hs Hx].
  rewrite filter_cons. destruct (decide (P x)); [|by apply IH]. csimpl. constructor; [by apply IH|].
  rewrite Forall_fmap in *. apply Forall_forall. intros y [_ Hy]%list_elem_of_filter.
  rewrite Forall_forall in Hx. by apply Hx.
Qed.

(** A block that needs no submission, or whose signed data was accepted in one of the calls. *)
Definition covered (s : D) (calls : list call) (h : Z) : Prop :=
  empty_block (K := K) s h \/
  exists sd blob, fetch s h = Ok (sd_Data sd) /\ SignedData_MarshalBinary sd = Ok blob /\
    blob ∈ concat (accepted <$> calls).

(** The blocks up to the height of an accepted item are covered, when the items are the stored data
    with transactions in height order. *)
Lemma prefix_covers s ds e a (sds : list (SignedData K)) bzs sub rest calls sd0 : heights_match s -> 0 <= a -> e < two64 ->
  Forall2 (fun h x => fetch s h = Ok x) (heights_upto (a + 1) e) ds ->
  sd_Data <$> sds = filter (fun d => Txs d <> []) ds ->
  Forall2 (fun sd bz => SignedData_MarshalBinary sd = Ok bz) sds bzs ->
  sds = sub ++ rest -> concat (accepted <$> calls) = take (length sub) bzs -> sd0 ∈ sub ->
  data_height (sd_Data sd0) <= e /\
  forall h, a < h <= data_height (sd_Data sd0) -> covered s calls h.
Proof.
  intros Hm Ha He64 Hf Hd Hb Es Ea Hin. pose proof (heights_of_data s ds (a + 1) e Hm ltac:(lia) He64 Hf) as Hh.
  assert (Hsort : StronglySorted Z.lt ((fun sd => data_height (sd_Data sd)) <$> sds)).
  { change ((fun sd => data_height (sd_Data sd)) <$> sds) with ((data_height ∘ sd_Data) <$> sds).
    rewrite list_fmap_compose, Hd. apply sorted_filter. rewrite Hh. apply heights_upto_sorted. }
  assert (He : data_height (sd_Data sd0) <= e).
  { assert (Hx : data_height (sd_Data sd0) ∈ heights_upto (a + 1) e).
    { rewrite <- Hh. apply list_elem_of_fmap_2. apply (list_elem_of_filter (fun d => Txs d <> [])). rewrite <- Hd.
      apply list_elem_of_fmap_2. rewrite Es. apply elem_of_app. by left. }
    apply elem_of_heights_upto in Hx. lia. }
  split; [done|]. intros h Hr.
  assert (Hhin : h ∈ heights_upto (a + 1) e) by (apply elem_of_heights_upto; lia).
  apply list_elem_of_lookup in Hhin as [i Hi].
  destruct (Forall2_lookup_l _ _ _ _ _ Hf Hi) as (d & Hid & Hfd).
  destruct (decide (Txs d = [])) as [Hemp|Hne]; [left; by exists d|right].
  assert (Hin' : d ∈ sd_Data <$> sds).
  { rewrite Hd. apply list_elem_of_filter. split; [done|]. by eapply list_elem_of_lookup_2. }
  apply list_elem_of_fmap in Hin' as (sd & -> & Hsd). rewrite Es in Hsd. apply elem_of_app in Hsd as [Hsd|Hsd].
  - apply list_elem_of_lookup in Hsd as [j Hj].
    assert (Hj' : sds !! j = Some sd) by (rewrite Es; by apply lookup_app_l_Some).
    destruct (Forall2_lookup_l _ _ _ _ _ Hb Hj') as (blob & Hjb & Hmb). exists sd, blob.
    split_and!; [done..|]. rewrite Ea. apply list_elem_of_lookup. exists j.
    rewrite lookup_take_lt by (by eapply lookup_lt_Some). done.
  - exfalso. rewrite Es, fmap_app in Hsort. apply StronglySorted_app in Hsort as (Hord & _ & _).
    assert (data_height (sd_Data sd0) < data_height (sd_Data sd)).
    { apply Hord; by apply (list_elem_of_fmap_2 (fun sd => data_height (sd_Data sd))). }
    rewrite (Hm h _ ltac:(unfold is_u64; lia) Hfd) in *. lia.
Qed.

Lemma filter_twice {A} (P : A -> Prop) `{forall x, Decision (P x)} (l : list A) : filter P (filter P l) = filter P l.
Proof.
  induction l as [|x l IH]; [done|]. rewrite !filter_cons. destruct (decide (P x)); [|done].
  rewrite filter_cons, decide_True, IH by done. done.
Qed.

Lemma signData_spec sg proposer (u : list (SignedData K)) bzs sds sbzs : length u = length bzs ->
  signData sg proposer u bzs = Ok (sds, sbzs) ->
  sd_Data <$> sds = filter (fun d => Txs d <> []) (sd_Data <$> u) /\
  Forall2 (fun sd bz => SignedData_MarshalBinary sd = Ok bz) sds sbzs.
Proof.
  intros Hl. unfold signData. destruct sg as [sg|]; [|done].
  destruct (GetPublic sg); [|done]. cbn [wrap_err res_bind]. destruct (GetAddress sg); [|done].
  cbn [wrap_err res_bind]. destruct (_ && _); [done|]. intros E. apply sign_data_spec in E as [E1 E2].
  split; [|done]. rewrite E1. f_equal. change (fun x => sd_Data x.1) with (sd_Data ∘ (@fst (SignedData K) bytes)).
  rewrite list_fmap_compose, fst_zip by lia. done.
Qed.

(** One call of [SubmitData] on the pending data of the manager. *)
Lemma SubmitData_covers top maxAttempts blockTime sg proposer ds e (u : list (SignedData K)) bzs w (n : nd) :
  data_inv top n -> 0 <= maxAttempts -> e <= top -> length u = length bzs ->
  Forall2 (fun h x => fetch (n_store n) h = Ok x) (heights_upto (last_data n + 1) e) ds ->
  sd_Data <$> u = filter (fun d => Txs d <> []) ds ->
  let '((_, calls), n', r) := SubmitData (recording submit_data) (recording_wait wait) data_hint maxAttempts
    blockTime sg proposer u bzs (w, []) n in
  data_inv top n' /\ same_blocks (n_store n) (n_store n') /\ last_data n <= last_data n' /\
  (forall h, last_data n < h <= last_data n' -> covered (n_store n) calls h).
Proof.
  intros Hi Ha He Hl Hf Hd. pose proof (Height_view _ top (di_healthy _ _ Hi) (di_height _ _ Hi)) as Hu.
  assert (He64 : e < two64) by (destruct Hu; lia).
  assert (Hl0 : 0 <= last_data n + 1) by (pose proof (di_last _ _ Hi); lia).
  assert (Hsame : forall calls : list call, data_inv top n /\ same_blocks (n_store n) (n_store n) /\
    last_data n <= last_data n /\ (forall h, last_data n < h <= last_data n -> covered (n_store n) calls h)).
  { intros calls. split_and!; [done..|lia|intros; lia]. }
  unfold SubmitData. destruct u as [|u0 us] eqn:Eu; [apply Hsame|]. rewrite <- Eu in *.
  rewrite Hl, Nat.eqb_refl. cbn [negb].
  destruct (signData sg proposer u bzs) as [[sds sbzs]|] eqn:Es; [|apply Hsame].
  apply signData_spec in Es as [Esd Hm]; [|done].
  destruct sds as [|sd1 sds1] eqn:E1; [apply Hsame|]. rewrite <- E1 in *.
  assert (Hne : sds <> []) by (by rewrite E1).
  pose proof (submitToDA_outcome submit_data wait (post_data data_hint) maxAttempts blockTime sds sbzs w n Ha Hne
    (Forall2_length _ _ _ Hm)) as Ho.
  destruct (submitToDA _ _ _ _ _ _ _ _ _) as [[[w' calls] n'] r].
  destruct Ho as (chunks & rest & -> & Ei & Eacc & _).
  assert (Hd2 : sd_Data <$> sds = filter (fun d => Txs d <> []) ds).
  { rewrite Esd, Hd. apply filter_twice. }
  pose proof (fun sd0 Hin => prefix_covers (n_store n) ds e (last_data n) sds sbzs (concat chunks.*1) rest calls sd0
    (di_match _ _ Hi) (proj1 (di_last _ _ Hi)) He64 Hf Hd2 Hm Ei Eacc Hin) as Hcov.
  destruct (post_all_inv top chunks n Hi Hu) as (P1 & P2 & P3 & P4).
  { apply Forall_forall. intros sd Hin. destruct (Hcov sd Hin) as [Hle _]. split; [|lia].
    assert (Hx : data_height (sd_Data sd) ∈ heights_upto (last_data n + 1) e).
    { rewrite <- (heights_of_data _ ds _ _ (di_match _ _ Hi) Hl0 He64 Hf). apply list_elem_of_fmap_2.
      apply (list_elem_of_filter (fun d => Txs d <> [])). rewrite <- Hd2. apply list_elem_of_fmap_2.
      rewrite Ei. apply elem_of_app. by left. }
    apply elem_of_heights_upto in Hx. pose proof (di_last _ _ Hi). lia. }
  split_and!; [done..|]. intros h Hh. destruct P4 as [E|(sd0 & Hin & E)]; [lia|].
  destruct (Hcov sd0 Hin) as [_ Hc]. apply Hc. lia.
Qed.

Lemma covered_same s s' calls h : ds_healthy s -> ds_healthy s' -> same_blocks s s' ->
  covered s' calls h -> covered s calls h.
Proof. intros Hs Hs' Hb. unfold covered, empty_block. by rewrite (fetch_same s s' h Hs Hs' Hb). Qed.

(** C22: No block with transactions is skipped by data submission: in one round of the submission loop,
    whatever the strategy decides and the DA client answers, every block the last submitted data
    height moves past either has no transactions or was accepted by the DA layer, as its signed
    data, in this round.  The height never decreases, is persisted, and blocks are not touched. *)
Theorem data_round_no_gap (ShouldSubmit : Z -> Z -> Z -> Z -> bool) (maxAttempts blockTime since top : Z)
  (sg : option signer) (proposer : bytes) (w : W) (n : nd) (Ha : 0 <= maxAttempts) (Hi : data_inv top n) :
  let '((_, calls), n', _) := data_round (recording submit_data) (recording_wait wait) data_hint ShouldSubmit
    maxAttempts blockTime since sg proposer (w, []) n in
  data_inv top n' /\ same_blocks (n_store n) (n_store n') /\ last_data n <= last_data n' /\
  (forall h, last_data n < h <= last_data n' -> covered (n_store n) calls h).
Proof.
  pose proof Hi as [I1 I2 I3 I4 I5 I6 I7]. pose proof (Height_view _ top I1 I3) as Hu.
  assert (Hlu : is_u64 (last_data n)) by (unfold is_u64 in *; lia).
  unfold data_round, NumPendingData, advancePastEmptyData. rewrite I3.
  pose proof (advance_loop_spec (K := K) (Z.to_nat (top - last_data n)) top (n_store n) (pendingData (n_cache n)) I1
    ltac:(by rewrite I2) Hlu Hu I5 ltac:(lia)) as Hadv.
  destruct (advance_loop _ _ _) as [s1 pd1]. destruct Hadv as [A1 A2 A3 A4 A5 A6 A7 _]. rewrite I2 in *.
  set (n1 := {| n_store := s1; n_cache := _ |}).
  assert (Hi1 : data_inv top n1) by (apply (data_inv_move top n); simpl; try done; lia).
  assert (Hem : forall calls h, last_data n < h <= last_data n1 -> covered (n_store n) calls h)
    by (intros calls h Hh; left; by apply A7).
  assert (Hstop : forall calls, data_inv top n1 /\ same_blocks (n_store n) (n_store n1) /\
    last_data n <= last_data n1 /\ forall h, last_data n < h <= last_data n1 -> covered (n_store n) calls h)
    by (intros calls; split_and!; [done..|simpl; lia|apply Hem]).
  destruct (_ <=? 0); [apply Hstop|].
  assert (Hl1 : is_u64 (lastHeight pd1)) by (unfold is_u64 in *; lia).
  pose proof (manager_pending_ok s1 pd1 top Hl1 (di_height _ _ Hi1) Hu ltac:(lia) (di_fresh _ _ Hi1)) as Hg.
  cbn [n_store n1]. destruct (Manager_GetPendingData s1 pd1) as [pd2 r]. destruct Hg as (G1 & G2 & G3 & G4).
  set (n2 := Submit.with_cache n1 _).
  assert (Hi2 : data_inv top n2).
  { destruct Hi1 as [J1 J2 J3 J4 J5 J6 J7]. split; simpl in *; rewrite ?G1, ?G2; try done.
    - unfold persisted. rewrite G1, G2. done.
    - by rewrite G1 in G3. }
  assert (E12 : last_data n2 = last_data n1) by exact G1.
  destruct r as [[sds bzs]|e].
  2: { split_and!; [done|done|simpl; lia|]. intros h Hh. apply Hem. simpl in *. lia. }
  destruct (G4 sds bzs eq_refl) as (Hlen & e & ds & He & Hf & Hd).
  destruct (ShouldSubmit _ _ _ _).
  2: { split_and!; [done|done|simpl; lia|]. intros h Hh. apply Hem. simpl in *. lia. }
  pose proof (SubmitData_covers top maxAttempts blockTime sg proposer ds e sds bzs w n2 Hi2 Ha ltac:(lia) Hlen) as Hs.
  rewrite E12 in Hs. specialize (Hs Hf Hd). destruct (SubmitData _ _ _ _ _ _ _ _ _ _ _) as [[[w' calls] n'] r].
  destruct Hs as (S1 & S2 & S3 & S4). split_and!; [done| |simpl in *; lia|].
  - intros k Hk. rewrite S2 by done. by apply A5.
  - intros h Hh. destruct (Z.le_gt_cases h (last_data n1)); [apply Hem; simpl in *; lia|].
    apply (covered_same _ s1); [done..|]. apply S4. simpl in *; lia.
Qed.

End nogap.

(** ** Witnesses: a DA layer that takes one blob per call *)

Module SubmitWitness.
Import RefHash RefLRU TypesWitness Store.StoreWitness.

Definition one_by_one (w : unit) (blobs : list bytes) : unit * ResultSubmit :=
  (w, {| sub_Code := StatusSuccess; sub_Message := ""; sub_Height := 20; sub_SubmittedCount := 1 |}).
Definition no_wait (w : unit) (b : Z) : unit * bool := (w, false).

Lemma submitToDA_prefix_witness :
  let '((_, calls), submitted, r) :=
    submitToDA (recording one_by_one) (recording_wait no_wait) log_post 5 1000 [1; 2; 3]
      [[x01]; [x02; x03]; [x04]] (tt, []) [] in
  (exists rest, [1; 2; 3] = submitted ++ rest) /\ (r = Ok tt -> submitted <> []) /\ r <> Err out_of_fuel /\
  concat (accepted <$> calls) = take (length submitted) [[x01]; [x02; x03]; [x04]] /\
  (length calls <= Z.to_nat 5)%nat /\
  Forall (fun c => c.1 <> [] /\ total_len c.1 <= DefaultMaxBlobSize) calls.
Proof.
  refine (submitToDA_prefix one_by_one no_wait 5 1000 [1; 2; 3] [[x01]; [x02; x03]; [x04]] tt _ _ _);
    [discriminate|discriminate|reflexivity].
Defined.

Definition blob {A} (r : res (list A)) : list A := match r with Ok b => b | Err _ => [] end.
Definition w_ops : list batch_op :=
  save_ops w_sh (blob (SignedHeader_MarshalBinary w_sh)) (blob (Data_MarshalBinary w_data)) [x01] ++
  [(getHeightKey, Some (encodeHeight 7))] ++ [(getStateAtHeightKey 7, Some [])].
(** One block, of height 7, with transactions; data is submitted up to height 6. *)
Definition w_store : mapds :=
  Mapds (<[GetMetaKey LastSubmittedDataHeightKey := PutUint64_LE 6]> (apply_ops ∅ w_ops)) true.

Definition small {A B} : lruc A B := {| lc_more := 4; lc_items := [] |}.
Definition no_cache {T} : Cache lruc T :=
  {| itemsByHeight := small; hashes := small; daIncluded := small; hashByHeight := small;
     maxDAHeight := 0; storeKeyPrefix := EmptyString |}.
Definition w_node : node mapds bytes unit lruc :=
  {| n_store := w_store; n_hints := tt;
     n_cache := {| headerCache := no_cache; dataCache := no_cache; txCache := no_cache; txTimestamps := ∅;
       pendingEventsCache := no_cache;
       pendingHeaders := {| metaKey := LastSubmittedHeaderHeightKey; lastHeight := 6; pendingCache := small |};
       pendingData := {| metaKey := LastSubmittedDataHeightKey; lastHeight := 6; pendingCache := small |} |} |}.
Definition w_sign : signer (K := bytes) :=
  {| Sign := fun b => Ok (x07 :: b); GetPublic := Ok [x07]; GetAddress := Ok [x05] |}.

Lemma w_store_match : heights_match (K := bytes) w_store.
Proof.
  intros h d Hu. destruct (decide (h = 7)) as [->|Hne].
  - vm_compute. intros E. injection E as <-. reflexivity.
  - assert (Hk : ds_view w_store !! getHeaderKey h = None).
    { unfold w_store. cbn [ds_view mapds_laws md_map]. rewrite lookup_insert_ne by discriminate.
      destruct (saved_view ∅ w_sh (blob (SignedHeader_MarshalBinary w_sh)) (blob (Data_MarshalBinary w_data)) [x01]
        [] [(getHeightKey, Some (encodeHeight 7))] 0 h) as (_ & _ & _ & _ & _ & _ & Ho);
        [right; split; [reflexivity|reflexivity]|split; [discriminate|reflexivity]|exact Hu|].
      apply (Ho "h"%char); [rewrite !elem_of_cons; tauto|exact Hne]. }
    assert (Hs : ds_healthy w_store) by reflexivity.
    unfold fetchData. destruct (missing_block (K := bytes) w_store h Hs Hk) as [_ (e & -> & _)]. discriminate.
Qed.

Lemma data_round_no_gap_witness :
  let '((_, calls), n', _) := data_round (recording one_by_one) (recording_wait no_wait) (fun h _ _ => h)
    (fun n _ _ _ => 0 <? n) 5 1000 0 (Some w_sign) [x05] (tt, []) w_node in
  data_inv 7 n' /\ same_blocks (n_store w_node) (n_store n') /\ 6 <= lastHeight (pendingData (n_cache n')) /\
  (forall h, 6 < h <= lastHeight (pendingData (n_cache n')) -> covered (K := bytes) (n_store w_node) calls h).
Proof.
  pose proof (data_round_no_gap one_by_one no_wait (fun h _ _ => h) (fun n _ _ _ => 0 <? n) 5 1000 0 7
    (Some w_sign) [x05] tt w_node) as Hw. apply Hw; [discriminate|].
  split.
  - reflexivity.
  - reflexivity.
  - vm_compute. reflexivity.
  - split; discriminate.
  - left. vm_compute. reflexivity.
  - intros h x _ E. discriminate E.
  - exact w_store_match.
Defined.

(** The round submits block 7. *)
Example data_round_advances :
  lastHeight (pendingData (n_cache (data_round one_by_one no_wait (fun h _ _ => h) (fun n _ _ _ => 0 <? n) 5 1000 0
    (Some w_sign) [x05] tt w_node).1.2)) = 7.
Proof. vm_compute. reflexivity. Qed.

End SubmitWitness.

End Submit.
