(* ===== verification/BatchingStrategy.v ===== *)
(** When a submission round submits (block/internal/submitting/batching_strategy.go): the four strategies,
    their defaults, and that the one a node is configured with is a parameter the submission rounds of
    Submit.v can be run with.

    A float64 is a binary64 number of the standard library's [spec_float], with its comparison and its
    rounded product; durations are nanoseconds. *)

From Stdlib Require Import SpecFloat.
From S2P Require Import Prelude Submit.

Module Strategy.

(** ** float64 *)

Abbreviation float64 := spec_float.
Definition f_mul (a b : float64) : float64 := SFmul 53 1024 a b.
Definition f_le (a b : float64) : bool := SFleb a b.
Definition f_lt (a b : float64) : bool := SFltb a b.
Definition f_zero : float64 := S754_zero false.
(** [float64(n)] for an integer *)
Definition f_of_int (n : Z) : float64 := binary_normalize 53 1024 n 0 false.
Definition f_one : float64 := f_of_int 1.
(** The literal 0.8: the nearest binary64 number is 7205759403792794 / 2^53. *)
Definition f_default : float64 := S754_finite false 7205759403792794 (-53).

(** [int(x)] truncates; what it gives for an infinity or no number is up to the implementation. *)
Definition f_to_int (other : Z) (x : float64) : Z :=
  match x with
  | S754_zero _ => 0
  | S754_finite s m e =>
      let n := if 0 <=? e then Z.pos m * 2 ^ e else Z.pos m / 2 ^ (- e) in
      if s then - n else n
  | S754_infinity _ | S754_nan => other
  end.

(** ** The strategies *)

Inductive BatchingStrategy :=
| ImmediateStrategy
| SizeBasedStrategy (sizeThreshold : float64) (minItems : Z)
| TimeBasedStrategy (maxDelay minItems : Z)
| AdaptiveStrategy (sizeThreshold : float64) (maxDelay minItems : Z).

Definition or_default (sizeThreshold : float64) : float64 :=
  if f_le sizeThreshold f_zero || f_lt f_one sizeThreshold then f_default else sizeThreshold.
Definition or_one (minItems : Z) : Z := if minItems =? 0 then 1 else minItems.
Definition or_block_time (maxDelay daBlockTime : Z) : Z := if maxDelay =? 0 then daBlockTime else maxDelay.

Definition NewSizeBasedStrategy (sizeThreshold : float64) (minItems : Z) : BatchingStrategy :=
  SizeBasedStrategy (or_default sizeThreshold) (or_one minItems).
Definition NewTimeBasedStrategy (daBlockTime maxDelay minItems : Z) : BatchingStrategy :=
  TimeBasedStrategy (or_block_time maxDelay daBlockTime) (or_one minItems).
Definition NewAdaptiveStrategy (daBlockTime : Z) (sizeThreshold : float64) (maxDelay minItems : Z) : BatchingStrategy :=
  AdaptiveStrategy (or_default sizeThreshold) (or_block_time maxDelay daBlockTime) (or_one minItems).

Record DAConfig := {
  da_BatchingStrategy : string; da_BatchSizeThreshold : float64; da_BatchMinItems : Z; da_BlockTime : Z; da_BatchMaxDelay : Z
}.
Definition NewBatchingStrategy (cfg : DAConfig) : res BatchingStrategy :=
  let name := da_BatchingStrategy cfg in
  if bool_decide (name = "immediate"%string) then Ok ImmediateStrategy
  else if bool_decide (name = "size"%string) then Ok (NewSizeBasedStrategy (da_BatchSizeThreshold cfg) (da_BatchMinItems cfg))
  else if bool_decide (name = "time"%string) then Ok (NewTimeBasedStrategy (da_BlockTime cfg) (da_BatchMaxDelay cfg) (da_BatchMinItems cfg))
  else if bool_decide (name = "adaptive"%string)
  then Ok (NewAdaptiveStrategy (da_BlockTime cfg) (da_BatchSizeThreshold cfg) (da_BatchMaxDelay cfg) (da_BatchMinItems cfg))
  else Err (EMsg "unknown batching strategy").
(** [NewSubmitter]: a configuration without a strategy gets the time-based one. *)
Definition configured (cfg : DAConfig) : BatchingStrategy :=
  match NewBatchingStrategy cfg with Ok s => s | Err _ => NewTimeBasedStrategy (da_BlockTime cfg) 0 1 end.

Section decide.
Context (other : Z).

Definition threshold (maxBlobSize : Z) (sizeThreshold : float64) : Z := f_to_int other (f_mul (f_of_int maxBlobSize) sizeThreshold).

Definition Immediate_ShouldSubmit (pendingCount totalSize maxBlobSize timeSinceLastSubmit : Z) : bool := 0 <? pendingCount.
Definition Size_ShouldSubmit (sizeThreshold : float64) (minItems pendingCount totalSize maxBlobSize timeSinceLastSubmit : Z) : bool :=
  if pendingCount <? minItems then false else threshold maxBlobSize sizeThreshold <=? totalSize.
Definition Time_ShouldSubmit (maxDelay minItems pendingCount totalSize maxBlobSize timeSinceLastSubmit : Z) : bool :=
  if pendingCount <? minItems then false else maxDelay <=? timeSinceLastSubmit.
Definition Adaptive_ShouldSubmit (sizeThreshold : float64)
    (maxDelay minItems pendingCount totalSize maxBlobSize timeSinceLastSubmit : Z) : bool :=
  if pendingCount <? minItems then false
  else if threshold maxBlobSize sizeThreshold <=? totalSize then true
  else if maxDelay <=? timeSinceLastSubmit then true
  else false.

Definition ShouldSubmit (s : BatchingStrategy) : Z -> Z -> Z -> Z -> bool :=
  match s with
  | ImmediateStrategy => Immediate_ShouldSubmit
  | SizeBasedStrategy sizeThreshold minItems => Size_ShouldSubmit sizeThreshold minItems
  | TimeBasedStrategy maxDelay minItems => Time_ShouldSubmit maxDelay minItems
  | AdaptiveStrategy sizeThreshold maxDelay minItems => Adaptive_ShouldSubmit sizeThreshold maxDelay minItems
  end.

(** ** What the strategies promise *)

(** The delay after which a strategy submits, if it has one. *)
Definition max_delay (s : BatchingStrategy) : option Z :=
  match s with
  | ImmediateStrategy => None
  | SizeBasedStrategy _ _ => None
  | TimeBasedStrategy d _ | AdaptiveStrategy _ d _ => Some d
  end.

Lemma or_one_pos n : 0 <= n -> 1 <= or_one n.
Proof. unfold or_one. intros Hn. destruct (Z.eqb_spec n 0); lia. Qed.

(** Whatever the configuration: a strategy never submits without an item; with the minimum of items the
    strategies that have a delay submit once it has passed, however small the items are; and the adaptive
    strategy submits exactly when the size-based or the time-based one would. *)
Lemma configured_submits cfg pending size maxBlob since : is_u64 (da_BatchMinItems cfg) -> 0 <= pending ->
  (ShouldSubmit (configured cfg) pending size maxBlob since = true -> 0 < pending) /\
  (forall d, max_delay (configured cfg) = Some d -> or_one (da_BatchMinItems cfg) <= pending -> d <= since ->
     ShouldSubmit (configured cfg) pending size maxBlob since = true) /\
  (forall t d n, ShouldSubmit (AdaptiveStrategy t d n) pending size maxBlob since =
     ShouldSubmit (SizeBasedStrategy t n) pending size maxBlob since || ShouldSubmit (TimeBasedStrategy d n) pending size maxBlob since).
Proof.
  intros Hm Hp. assert (Hone : 1 <= or_one (da_BatchMinItems cfg)) by (apply or_one_pos, Hm).
  split; [|split].
  - unfold configured, NewBatchingStrategy, NewTimeBasedStrategy. change (or_one 1) with 1. repeat case_bool_decide; cbn;
      unfold Immediate_ShouldSubmit, Size_ShouldSubmit, Time_ShouldSubmit, Adaptive_ShouldSubmit; repeat match goal with |- context [if ?a <? ?b then _ else _] => destruct (Z.ltb_spec a b) end; try done; intros; lia.
  - unfold configured, NewBatchingStrategy. repeat case_bool_decide; cbn; try done; intros d [= <-] Hi Hd;
      unfold Time_ShouldSubmit, Adaptive_ShouldSubmit;
      rewrite (proj2 (Z.ltb_ge _ _)) by (exact Hi || (change (or_one 1) with 1; lia)); rewrite (proj2 (Z.leb_le _ _) Hd); try done.
    + by destruct (_ <=? size).
  - intros t d n. cbn. unfold Size_ShouldSubmit, Time_ShouldSubmit, Adaptive_ShouldSubmit. destruct (pending <? n); [done|]. destruct (_ <=? size); [done|]. by destruct (d <=? since).
Qed.

(** With the default threshold a blob of the default limit counts as full from 4 MiB on. *)
Example default_threshold : threshold Submit.DefaultMaxBlobSize (or_default f_zero) = 4194304.
Proof. vm_compute. reflexivity. Qed.
Example half_threshold : threshold 5242880 (f_mul (f_of_int 5) (S754_finite false 1 (-1))) = 13107200 /\
  or_default (f_mul (f_of_int 5) (S754_finite false 1 (-1))) = f_default.
Proof. vm_compute. done. Qed.

End decide.

End Strategy.
