(* ===== verification/Replay.v ===== *)
(** The execution-layer replayer (block/internal/common/replay.go): after a crash it re-executes
    stored blocks until the execution layer has reached the node's height. The execution client
    (core/execution/execution.go) is the class [CoreExecutor]; its optional interfaces are optional
    fields. *)

From S2P Require Import Prelude Interfaces Types Validation Store.

Import Store.

Notation "'let!' x ':=' m 'in' k" := (bm_bind m (fun x => k))
  (at level 10, x binder, m at level 200, k at level 200,
   format "'let!'  x  ':='  m  'in' '//' k") : chain_scope.

Record Genesis := {
  g_ChainID : string; g_StartTime : Z; g_InitialHeight : Z; g_ProposerAddress : bytes; g_DAStartHeight : Z;
  g_DAEpochForcedInclusion : Z
}.

(** [NewGenesis] and [Validate]; [addrNil] says that the address is the nil slice. *)
Definition NewGenesis (chainID : string) (initialHeight startTime : Z) (proposerAddress : bytes) : Genesis := {|
  g_ChainID := chainID; g_StartTime := startTime; g_InitialHeight := initialHeight;
  g_ProposerAddress := proposerAddress; g_DAStartHeight := 0; g_DAEpochForcedInclusion := 50 |}.
Definition Genesis_Validate (addrNil : bool) (g : Genesis) : res unit :=
  if bool_decide (g_ChainID g = EmptyString) then Err (EMsg "invalid or missing chain_id in genesis file")
  else if g_InitialHeight g <? 1 then Err (EMsg "initial_height must be at least 1")
  else if g_StartTime g =? zero_time then Err (EMsg "start_time cannot be zero time")
  else if addrNil then Err (EMsg "proposer_address cannot be nil")
  else if g_DAEpochForcedInclusion g <? 1 then Err (EMsg "da_epoch_forced_inclusion must be at least 1")
  else Ok tt.

Class CoreExecutor (W : Type) := {
  exec_InitChain : W -> Z -> Z -> string -> W * res bytes;
  (** transactions, height, time, previous state root *)
  exec_ExecuteTxs : W -> list bytes -> Z -> Z -> bytes -> W * res bytes;
  exec_SetFinal : W -> Z -> W * res unit;
  (** [HeightProvider] *)
  exec_GetLatestHeight : option (W -> W * res Z);
  (** [Rollbackable] *)
  exec_Rollback : option (W -> Z -> W * res unit);
}.

(** Effects on the world and the store, in the order of the code. *)
Definition on_store {W D A} (f : D -> res A) : bm (W * D) A := fun ws => (ws, f ws.2).
Definition on_world {W D A} (f : W -> W * res A) : bm (W * D) A :=
  fun ws => let '(w, r) := f ws.1 in ((w, ws.2), r).
Definition write_store {W D A} (f : D -> D * res A) : bm (W * D) A :=
  fun ws => let '(s, r) := f ws.2 in ((ws.1, s), r).
(** A batch created by [NewBatch], filled by [m] and committed, as the store's clients do. *)
Definition in_batch {D B} `{Datastore D} `{Batching D B} (s : D) (create commit : string) (m : bm B unit)
  : D * res unit :=
  match NewBatch s with
  | Err e => (s, Err (EWrap create e))
  | Ok b =>
      match m b with
      | (_, Err e) => (s, Err e)
      | (b', Ok _) => let '(s', r) := Commit s b' in (s', wrap_err commit r)
      end
  end.
Definition check {S} (b : bool) (e : err) : bm S unit := if b then bm_ret tt else bm_err e.

Module Replay.

Section replay.
Context {W D B K : Type} `{EX : CoreExecutor W} `{Datastore D} `{Batching D B} `{PubKeys K} `{Protowire} `{HashString}.
Context `{ProtoCodec pb_Version} `{ProtoCodec pb_Header} `{ProtoCodec pb_SignedHeader} `{ProtoCodec pb_Data}
  `{ProtoCodec pb_State}.

(** The state block [height] executes on. *)
Definition prev_state (g : Genesis) (s : D) (header : SignedHeader K) (height : Z) : res State :=
  if height =? g_InitialHeight g then
    Ok {| st_Version := {| Block := 0; App := 0 |}; st_ChainID := g_ChainID g;
          st_InitialHeight := g_InitialHeight g; LastBlockHeight := g_InitialHeight g -u 1;
          LastBlockTime := g_StartTime g; st_LastHeaderHash := []; st_DAHeight := 0;
          st_AppHash := AppHash (sh_Header header) |}
  else wrap_err "failed to get previous state" (GetStateAtHeight s (height -u 1)).

(** The comparison with the stored state, skipped when there is none to read. *)
Definition root_matches (s : D) (height : Z) (newAppHash : bytes) : bool :=
  match GetStateAtHeight s height with
  | Ok expectedState => bytes_Equal newAppHash (st_AppHash expectedState)
  | Err _ => true
  end.

Definition replayBlock (g : Genesis) (height : Z) : bm (W * D) unit :=
  let! block := bm_wrap "failed to get block data from store"
                  (on_store (fun s => GetBlockData (K := K) s height)) in
  let '(header, data) := block in
  let! prevState := on_store (fun s => prev_state g s header height) in
  let! newAppHash := bm_wrap "failed to execute transactions"
    (on_world (fun w => exec_ExecuteTxs w (Txs data) height (unix_time (hd_Time (sh_Header header)))
                          (st_AppHash prevState))) in
  let! ok := on_store (fun s => Ok (root_matches s height newAppHash)) in
  check ok (EMsg "app hash mismatch") ;;;
  let newState := NextState prevState (sh_Header header) newAppHash in
  write_store (fun s => in_batch s "create batch" "commit batch with new state"
    (bm_wrap "update state in batch" (UpdateState newState))).

(** [for height := execHeight + 1; height <= targetHeight; height++] *)
Fixpoint replay_loop (fuel : nat) (g : Genesis) (height target : Z) : bm (W * D) unit :=
  if target <? height then bm_ret tt
  else match fuel with
       | O => bm_err out_of_fuel
       | S fuel => bm_wrap "failed to replay block to execution layer" (replayBlock g height) ;;;
                   replay_loop fuel g (height +u 1) target
       end.

Definition SyncToHeight (g : Genesis) (targetHeight : Z) : bm (W * D) unit :=
  match exec_GetLatestHeight with
  | None => bm_ret tt
  | Some GetLatestHeight =>
      if targetHeight <? g_InitialHeight g then bm_ret tt
      else
        let! execHeight := bm_wrap "failed to get execution layer height" (on_world GetLatestHeight) in
        if targetHeight <? execHeight then
          match exec_Rollback with
          | Some Rollback => bm_wrap "failed to rollback execution layer"
                               (on_world (fun w => Rollback w targetHeight))
          | None => bm_err (EMsg "execution layer height ahead of target height: manually rollback execution layer")
          end
        else if execHeight <? targetHeight then
          let! _ := bm_wrap "cannot sync: block not found in store"
                      (on_store (fun s => GetBlockData (K := K) s targetHeight)) in
          replay_loop (Z.to_nat (targetHeight - execHeight)) g (execHeight +u 1) targetHeight
        else bm_ret tt
  end.

End replay.

(** ** What a replay does *)

(** The key of height [h] under a one-letter prefix. *)
Abbreviation hkey c h := (heightKey (String.String c EmptyString) h).

Section laws.
Context {W D B K : Type} `{EX : CoreExecutor W} `{DL : DatastoreLaws D} `{BC : Batching D B} `{BL : !BatchingLaws D B}.
Context `{PK : PubKeys K} `{PW : Protowire} `{HS : HashString}.
Context `{CV : ProtoCodec pb_Version} `{CHd : ProtoCodec pb_Header} `{CH : ProtoCodec pb_SignedHeader}.
Context `{CD : ProtoCodec pb_Data} `{CS : ProtoCodec pb_State} `{LS : !ProtoCodecLaws pb_State}.

Lemma in_batch_spec s create commit (m : bm B unit) ops : ds_healthy s -> writes m ops ->
  exists s', in_batch s create commit m = (s', Ok tt) /\ ds_healthy s' /\ ds_view s' = apply_ops (ds_view s) ops.
Proof.
  intros Hs Hm. destruct (run_writes s m ops Hs Hm) as (b & b' & s' & Eb & Em & Ec & Hs' & V).
  exists s'. unfold in_batch. by rewrite Eb, Em, Ec.
Qed.

(** Stored headers carry the height they are stored under, and stored states can be encoded. *)
Record well_stored (s : D) : Prop := {
  ws_height h (hdr : SignedHeader K) d : is_u64 h -> GetBlockData s h = Ok (hdr, d) -> hd_Height (sh_Header hdr) = h;
  ws_state h st : is_u64 h -> GetStateAtHeight s h = Ok st -> proto_valid (State_ToProto st);
}.

Definition genesis_ok (g : Genesis) : Prop :=
  ascii_string (g_ChainID g) = true /\ 1 <= g_InitialHeight g < two64.

Lemma unix_time_i64 t : is_i64 (unix_time t).
Proof. unfold unix_time, i64, is_i64. pose proof (Z.mod_pos_bound (t + two63) two64). unfold two64, two63 in *. lia. Qed.

Lemma seconds_valid t : is_i64 t -> is_i64 (t / 1000000000) /\ 0 <= t mod 1000000000 < 1000000000.
Proof.
  unfold is_i64, two63. intros ?. split; [|apply Z.mod_pos_bound; lia].
  split; [apply Z.div_le_lower_bound|apply Z.div_lt_upper_bound]; lia.
Qed.

Lemma next_state_valid st h root : proto_valid (State_ToProto st) -> is_u64 (hd_Height h) ->
  proto_valid (State_ToProto (NextState st h root)).
Proof.
  intros (V1 & V2 & V3 & V4 & V5 & V6) Hh. split_and!; [done..|]. simpl. apply seconds_valid, unix_time_i64.
Qed.

Lemma prev_state_valid g s (hdr : SignedHeader K) h prev root : genesis_ok g -> well_stored s ->
  1 <= h < two64 -> prev_state g s hdr h = Ok prev ->
  is_u64 (hd_Height (sh_Header hdr)) -> proto_valid (State_ToProto (NextState prev (sh_Header hdr) root)).
Proof.
  intros [Hid Hi] Hw Hh. unfold prev_state. case_match.
  - intros [= <-] Hu. split_and!; simpl; try done; [unfold is_u64; lia|].
    apply seconds_valid, unix_time_i64.
  - destruct (GetStateAtHeight s (h -u 1)) as [st|] eqn:E; [|done]. intros [= <-] Hu.
    apply next_state_valid; [|done]. eapply ws_state; [done|apply u64_range|exact E].
Qed.

Lemma update_state_writes st : proto_valid (State_ToProto st) -> exists stb,
  proto_Unmarshal stb = Ok (State_ToProto st) /\
  writes (B := B) (UpdateState st) [(getStateAtHeightKey (LastBlockHeight st), Some stb)].
Proof.
  intros Hv. destruct (proto_roundtrip (State_ToProto st) Hv) as (stb & E & U). exists stb. split; [done|].
  unfold UpdateState. rewrite E. unfold getStateAtHeightKey, statePrefix.
  rewrite ds_RawKey_clean by (by apply clean_hkey). apply writes_put.
Qed.

(** The store after a state was written at [h]: that state, and everything else as before. *)
Record state_written (s s' : D) (h : Z) (st : State) : Prop := {
  sw_healthy : ds_healthy s';
  sw_state : GetStateAtHeight s' h = Ok st;
  sw_blocks k : is_u64 k -> block_at (K := K) s' k = block_at s k;
  sw_height : Height s' = Height s;
  sw_others k : is_u64 k -> k <> h -> GetStateAtHeight s' k = GetStateAtHeight s k;
}.

Lemma state_write s s' st stb : ds_healthy s -> ds_healthy s' -> is_u64 (LastBlockHeight st) ->
  proto_Unmarshal stb = Ok (State_ToProto st) ->
  ds_view s' = <[getStateAtHeightKey (LastBlockHeight st) := stb]> (ds_view s) ->
  state_written s s' (LastBlockHeight st) st.
Proof.
  intros Hs Hs' Hu U V.
  assert (Ho : forall c k, is_u64 k -> c <> "s"%char \/ k <> LastBlockHeight st ->
    ds_view s' !! hkey c k = ds_view s !! hkey c k).
  { intros c k Hk Hne. rewrite V. apply lookup_insert_ne. intros E1. unfold getStateAtHeightKey, statePrefix in E1.
    apply hkey_inj in E1 as [E1 E2]; [|done..]. destruct Hne; congruence. }
  split; [done|..].
  - eapply state_at; [done| |exact U]. rewrite V. apply lookup_insert_eq.
  - intros k Hk. apply block_frame; [done..|]. intros key.
    rewrite !elem_of_cons, elem_of_nil. intros [->|[->|[->|[]]]]; apply Ho; (done || by left).
  - apply height_frame; [done..|]. rewrite V. apply lookup_insert_ne.
    apply (hkey_other "s" (LastBlockHeight st) EmptyString). by do 3 right; left.
  - intros k Hk Hne. apply state_frame; [done..|]. apply Ho; tauto.
Qed.

Lemma write_state s create commit msg st : ds_healthy s -> proto_valid (State_ToProto st) ->
  exists s', in_batch (B := B) s create commit (bm_wrap msg (UpdateState st)) = (s', Ok tt) /\
    state_written s s' (LastBlockHeight st) st.
Proof.
  intros Hs Hv. destruct (update_state_writes st Hv) as (stb & U & Hw).
  destruct (in_batch_spec s create commit _ _ Hs (writes_wrap msg _ _ Hw)) as (s' & E & Hs' & V).
  exists s'. split; [done|]. apply (state_write s s' st stb); try done. apply Hv.
Qed.

Lemma written_well_stored s s' h st : is_u64 h -> state_written s s' h st -> proto_valid (State_ToProto st) ->
  well_stored s -> well_stored s'.
Proof.
  intros Hh [Hs' H1 H2 H3 H4] Hv [Wh Ws]. split.
  - intros k hdr d Hk E. specialize (H2 k Hk). unfold block_at in H2. simplify_eq. apply (Wh k hdr d); congruence.
  - intros k st' Hk E. destruct (decide (k = h)) as [->|Hne]; [congruence|].
    rewrite H4 in E by done. by apply (Ws k).
Qed.

Lemma replayBlock_spec g h w s w' s' : genesis_ok g -> ds_healthy s -> well_stored s -> 1 <= h < two64 ->
  replayBlock (B := B) (K := K) g h (w, s) = ((w', s'), Ok tt) ->
  exists (hdr : SignedHeader K) d prev root,
    GetBlockData s h = Ok (hdr, d) /\ prev_state g s hdr h = Ok prev /\
    exec_ExecuteTxs w (Txs d) h (unix_time (hd_Time (sh_Header hdr))) (st_AppHash prev) = (w', Ok root) /\
    (forall st, GetStateAtHeight s h = Ok st -> st_AppHash st = root) /\
    state_written s s' h (NextState prev (sh_Header hdr) root) /\ well_stored s'.
Proof.
  intros Hg Hs Hw Hh E. assert (Hu : is_u64 h) by (unfold is_u64; lia).
  unfold replayBlock, bm_bind, bm_wrap, on_store, on_world, write_store, check in E. simpl in E.
  destruct (GetBlockData s h) as [[hdr d]|] eqn:Eb; [|done]. simpl in E.
  destruct (prev_state g s hdr h) as [prev|] eqn:Ep; [|done]. simpl in E.
  destruct (exec_ExecuteTxs _ _ _ _ _) as [w1 [root|]] eqn:Ex; [|done]. simpl in E.
  destruct (root_matches s h root) eqn:Er; [|done]. simpl in E.
  pose proof (ws_height s Hw h hdr d Hu Eb) as Ehh.
  assert (Hv : proto_valid (State_ToProto (NextState prev (sh_Header hdr) root)))
    by (apply (prev_state_valid g s hdr h); (done || by rewrite Ehh)).
  destruct (write_state s "create batch" "commit batch with new state" "update state in batch" _ Hs Hv)
    as (s1 & E1 & Hsw). unfold bm_wrap in E1. rewrite E1 in E. injection E as <- <-. simpl in Hsw. rewrite Ehh in Hsw.
  exists hdr, d, prev, root. split_and!; [done..| |done|].
  - intros st Est. unfold root_matches in Er. rewrite Est in Er. by apply bytes_Equal_true in Er.
  - by eapply written_well_stored.
Qed.

(** ** When a replay succeeds *)

(** Every block of the range is stored with its state, and the state below the range. *)
Record replayable (g : Genesis) (s : D) (a b : Z) : Prop := {
  ry_blocks h : a <= h <= b -> exists (hdr : SignedHeader K) d st,
    GetBlockData s h = Ok (hdr, d) /\ GetStateAtHeight s h = Ok st;
  ry_first : a <> g_InitialHeight g -> exists st, GetStateAtHeight s (a - 1) = Ok st;
}.

(** The root block [h] executes on, as stored. *)
Definition input_root (g : Genesis) (s : D) (hdr : SignedHeader K) (h : Z) (root : bytes) : Prop :=
  if decide (h = g_InitialHeight g) then root = AppHash (sh_Header hdr)
  else exists st, GetStateAtHeight s (h - 1) = Ok st /\ root = st_AppHash st.

(** Executing a stored block on its input root gives its stored root. *)
Definition reproduces (g : Genesis) (s : D) (a b : Z) : Prop := forall w h (hdr : SignedHeader K) d st root,
  a <= h <= b -> GetBlockData s h = Ok (hdr, d) -> GetStateAtHeight s h = Ok st -> input_root g s hdr h root ->
  exists w', exec_ExecuteTxs w (Txs d) h (unix_time (hd_Time (sh_Header hdr))) root = (w', Ok (st_AppHash st)).

Lemma prev_state_root g s (hdr : SignedHeader K) a b : genesis_ok g -> 1 <= a < two64 -> replayable g s a b ->
  exists prev, prev_state g s hdr a = Ok prev /\ input_root g s hdr a (st_AppHash prev).
Proof.
  intros Hg Ha [_ Hf]. unfold prev_state, input_root. destruct (Z.eqb_spec a (g_InitialHeight g)) as [->|Hne].
  - eexists. split; [done|]. by rewrite decide_True.
  - destruct (Hf Hne) as [st E]. rewrite u64_small by (unfold is_u64; lia). rewrite E.
    eexists. split; [done|]. rewrite decide_False by done. eauto.
Qed.

Lemma replayBlock_total g h target w s : genesis_ok g -> ds_healthy s -> well_stored s ->
  1 <= h <= target -> target < two64 - 1 -> replayable g s h target -> reproduces g s h target ->
  exists w' s', replayBlock (B := B) (K := K) g h (w, s) = ((w', s'), Ok tt).
Proof.
  intros Hg Hs Hw Hh Ht Hr Hx. destruct (ry_blocks _ _ _ _ Hr h ltac:(lia)) as (hdr & d & st & Eb & Est).
  destruct (prev_state_root g s hdr h target Hg ltac:(lia) Hr) as (prev & Ep & Hin).
  destruct (Hx w h hdr d st _ ltac:(lia) Eb Est Hin) as [w' Ex].
  assert (Hu : is_u64 h) by (unfold is_u64; lia).
  assert (Hv : proto_valid (State_ToProto (NextState prev (sh_Header hdr) (st_AppHash st)))).
  { apply (prev_state_valid g s hdr h); try done; [lia|]. by rewrite (ws_height s Hw h hdr d Hu Eb). }
  destruct (write_state s "create batch" "commit batch with new state" "update state in batch" _ Hs Hv)
    as (s1 & E1 & _).
  exists w', s1. unfold replayBlock, bm_bind, bm_wrap, on_store, on_world, write_store, check. simpl.
  rewrite Eb. simpl. rewrite Ep. simpl. rewrite Ex. simpl. unfold root_matches. rewrite Est.
  unfold bytes_Equal. rewrite bool_decide_true by done. simpl. unfold bm_wrap in E1. by rewrite E1.
Qed.

Lemma replayable_next g s s1 h b (hdr : SignedHeader K) d prev root : 1 <= h <= b -> b < two64 - 1 ->
  state_written s s1 h (NextState prev (sh_Header hdr) root) -> GetBlockData s h = Ok (hdr, d) ->
  (forall st, GetStateAtHeight s h = Ok st -> st_AppHash st = root) ->
  replayable g s h b -> reproduces g s h b -> replayable g s1 (h + 1) b /\ reproduces g s1 (h + 1) b.
Proof.
  intros Hh Hb [Hs1 S1 S2 S3 S4] Eb Hroot Hr Hx.
  assert (Hblk : forall k, is_u64 k -> GetBlockData (K := K) s1 k = GetBlockData s k).
  { intros k Hk. specialize (S2 k Hk). unfold block_at in S2. congruence. }
  assert (Hk : forall k, h + 1 <= k <= b -> is_u64 k) by (unfold is_u64, two64 in *; lia).
  split; [split|].
  - intros k Hr'. rewrite Hblk, S4 by (lia || by apply Hk). apply Hr. lia.
  - intros _. rewrite Z.add_simpl_r. eauto.
  - intros w k hdr' d' st' root' Hr' E1 E2 Hin. rewrite Hblk in E1 by (by apply Hk).
    rewrite S4 in E2 by (lia || by apply Hk). apply (Hx w k hdr' d' st' root'); [lia|done..|].
    unfold input_root in *. destruct (decide (k = g_InitialHeight g)); [done|].
    destruct Hin as (st & Est & ->). destruct (decide (k - 1 = h)) as [E|Hne].
    + rewrite E in *. rewrite S1 in Est. injection Est as <-.
      destruct (ry_blocks _ _ _ _ Hr h ltac:(lia)) as (_ & _ & st0 & _ & E0).
      exists st0. split; [done|]. symmetry. by apply Hroot.
    + rewrite S4 in Est by (unfold is_u64, two64 in *; lia). eauto.
Qed.

Lemma replay_loop_total g fuel h target w s : genesis_ok g -> ds_healthy s -> well_stored s ->
  1 <= h <= target + 1 -> target < two64 - 1 -> target + 1 - h <= Z.of_nat fuel ->
  replayable g s h target -> reproduces g s h target ->
  exists w' s', replay_loop (B := B) (K := K) fuel g h target (w, s) = ((w', s'), Ok tt).
Proof.
  revert h w s. induction fuel as [|fuel IH]; intros h w s Hg Hs Hw Hh Ht Hf Hr Hx; simpl;
    (destruct (Z.ltb_spec target h); [by eexists _, _|]); [lia|].
  destruct (replayBlock_total g h target w s) as (w1 & s1 & E); [done..|lia|done|done|done|].
  unfold bm_bind, bm_wrap. rewrite E.
  destruct (replayBlock_spec g h _ _ _ _ Hg Hs Hw ltac:(lia) E)
    as (hdr & d & prev & root & Eb & _ & _ & Hroot & Hsw & Hw1).
  rewrite u64_small by (unfold is_u64, two64 in *; lia).
  destruct (replayable_next g s s1 h target hdr d prev root) as [Hr1 Hx1]; [lia|done..|].
  apply IH; [done|apply Hsw|done|lia|done|lia|done|done].
Qed.

End laws.

(** ** The calls of a whole replay *)

Record exec_call := { ec_txs : list bytes; ec_height : Z; ec_time : Z; ec_prev : bytes; ec_result : res bytes }.

(** An execution client that records the calls of [ExecuteTxs]. *)
Definition recording {W} (EX : CoreExecutor W) : CoreExecutor (W * list exec_call) := {|
  exec_InitChain wl t i c := let '(w, r) := exec_InitChain wl.1 t i c in ((w, wl.2), r);
  exec_ExecuteTxs wl txs h t p :=
    let '(w, r) := exec_ExecuteTxs wl.1 txs h t p in
    ((w, wl.2 ++ [{| ec_txs := txs; ec_height := h; ec_time := t; ec_prev := p; ec_result := r |}]), r);
  exec_SetFinal wl h := let '(w, r) := exec_SetFinal wl.1 h in ((w, wl.2), r);
  exec_GetLatestHeight := (fun f wl => let '(w, r) := f wl.1 in ((w, wl.2), r)) <$> exec_GetLatestHeight;
  exec_Rollback := (fun f wl h => let '(w, r) := f wl.1 h in ((w, wl.2), r)) <$> exec_Rollback;
|}.

Section synced.
Context {W D B K : Type} `{EX : CoreExecutor W} `{DL : DatastoreLaws D} `{BC : Batching D B} `{BL : !BatchingLaws D B}.
Context `{PK : PubKeys K} `{PW : Protowire} `{HS : HashString}.
Context `{CV : ProtoCodec pb_Version} `{CHd : ProtoCodec pb_Header} `{CH : ProtoCodec pb_SignedHeader}.
Context `{CD : ProtoCodec pb_Data} `{CS : ProtoCodec pb_State} `{LS : !ProtoCodecLaws pb_State}.

(** One replayed block: what was executed and what is stored for its height afterwards. *)
Definition replayed_call (g : Genesis) (s s' : D) (c : exec_call) : Prop :=
  let h := ec_height c in
  exists (hdr : SignedHeader K) d st',
    GetBlockData s h = Ok (hdr, d) /\ ec_txs c = Txs d /\ ec_time c = unix_time (hd_Time (sh_Header hdr)) /\
    GetStateAtHeight s' h = Ok st' /\ ec_result c = Ok (st_AppHash st') /\ LastBlockHeight st' = h /\
    st_LastHeaderHash st' = Header_Hash (sh_Header hdr) /\
    (forall st, GetStateAtHeight s h = Ok st -> st_AppHash st = st_AppHash st') /\
    (if decide (h = g_InitialHeight g) then ec_prev c = AppHash (sh_Header hdr) /\ st_DAHeight st' = 0
     else exists prev, GetStateAtHeight s' (h - 1) = Ok prev /\ ec_prev c = st_AppHash prev /\
            st_DAHeight st' = st_DAHeight prev).

Record replayed (g : Genesis) (s s' : D) (a b : Z) (calls : list exec_call) : Prop := {
  rp_heights : ec_height <$> calls = heights_upto a b;
  rp_calls : Forall (replayed_call g s s') calls;
  rp_blocks h : is_u64 h -> block_at (K := K) s' h = block_at s h;
  rp_height : Height s' = Height s;
  rp_states h : is_u64 h -> ~ (a <= h <= b) -> GetStateAtHeight s' h = GetStateAtHeight s h;
}.

#[local] Instance recording_exec : CoreExecutor (W * list exec_call) := recording EX.

Lemma replay_loop_spec g fuel h target w log s w' log' s' : genesis_ok g -> ds_healthy s -> well_stored (K := K) s ->
  1 <= h <= target + 1 -> target < two64 - 1 ->
  replay_loop (B := B) (K := K) fuel g h target ((w, log), s) = (((w', log'), s'), Ok tt) ->
  exists calls, log' = log ++ calls /\ replayed g s s' h target calls.
Proof.
  revert h w log s. induction fuel as [|fuel IH]; intros h w log s Hg Hs Hw Hh Ht E; simpl in E;
    destruct (Z.ltb_spec target h) as [Hd|Hd].
  1, 3: injection E as <- <- <-; exists []; split; [by rewrite app_nil_r|];
    split; [by rewrite heights_upto_nil by lia|constructor|done..].
  { done. }
  unfold bm_bind, bm_wrap in E.
  destruct (replayBlock g h (w, log, s)) as [[[w1 log1] s1] [[]|]] eqn:Er; [|done].
  destruct (replayBlock_spec g h _ _ _ _ Hg Hs Hw ltac:(lia) Er)
    as (hdr & d & prev & root & Eb & Ep & Ex & Hsame & [Hs1 S1 S2 S3 S4] & Hw1).
  simpl in Ex. destruct (exec_ExecuteTxs w _ _ _ _) as [w2 r2] eqn:Ex2. injection Ex as <- <- ->.
  rewrite u64_add_small in E by (unfold is_u64, two64 in *; lia).
  destruct (IH (h + 1) _ _ _ Hg Hs1 Hw1 ltac:(lia) Ht E) as (calls & -> & [R1 R2 R3 R4 R5]).
  assert (Hu : is_u64 h) by (unfold is_u64, two64 in *; lia).
  eexists (_ :: calls). split; [by rewrite <- app_assoc|]. split.
  - rewrite fmap_cons, R1, (heights_upto_cons h) by lia. done.
  - constructor.
    + exists hdr, d, (NextState prev (sh_Header hdr) root). simpl.
      rewrite R5 by (done || lia). split_and!; try done.
      * eapply ws_height; [exact Hw|done|exact Eb].
      * unfold prev_state in Ep. destruct (Z.eqb_spec h (g_InitialHeight g)) as [->|Hne].
        -- rewrite decide_True by done. injection Ep as <-. done.
        -- rewrite decide_False by done. rewrite u64_small in Ep by (unfold is_u64 in *; lia).
           assert (is_u64 (h - 1)) by (unfold is_u64 in *; lia).
           exists prev. rewrite R5, S4 by (done || lia). split; [|done].
           destruct (GetStateAtHeight s (h - 1)); simpl in Ep; [|done]. congruence.
    + apply Forall_forall. intros c Hc. rewrite Forall_forall in R2.
      assert (Hin : ec_height c ∈ heights_upto (h + 1) target) by (rewrite <- R1; by apply list_elem_of_fmap_2).
      apply elem_of_heights_upto in Hin. assert (Huc : is_u64 (ec_height c)) by (unfold is_u64, two64 in *; lia).
      destruct (R2 c Hc) as (hdr' & d' & st' & Q1 & Q2 & Q3 & Q4 & Q5 & Q6 & Q7 & Q8 & Q9).
      exists hdr', d', st'. pose proof (S2 _ Huc) as Hbl. unfold block_at in Hbl.
      split_and!; try done; [congruence|]. intros st Est. apply Q8. rewrite S4; (done || lia).
  - intros k Hk. by rewrite R3, S2.
  - by rewrite R4.
  - intros k Hk Hne. rewrite R5, S4; (done || lia).
Qed.

Lemma reproduces_recording g s a b : reproduces (EX := EX) (K := K) g s a b ->
  reproduces (EX := recording EX) (K := K) g s a b.
Proof.
  intros Hx [w log] h hdr d st root Hr Eb Es Hin. destruct (Hx w h hdr d st root Hr Eb Es Hin) as [w' E].
  eexists. simpl. by rewrite E.
Qed.

(** C10: Replaying an execution layer that is behind. A sync that returns without error has executed
    exactly the blocks above the execution layer's height up to the target, once each and in order,
    with the stored transactions and time and on the root of the state below, and every root it
    got equals the stored one where there was one; blocks, the store's height and the states
    outside the range are as before. The states it writes in the range take the DA height of the
    state below the range (zero at the initial height), not their own. And the sync does succeed
    when every block and state is stored and the execution layer reproduces the stored roots. *)
Theorem SyncToHeight_replays (g : Genesis) (target x : Z) (w w1 : W) (log : list exec_call) (s : D)
  (GetLatestHeight : W -> W * res Z) (Hg : genesis_ok g) (Hs : ds_healthy s) (Hw : well_stored (K := K) s)
  (Hi : g_InitialHeight g <= target < two64 - 1) (Hf : exec_GetLatestHeight (W := W) = Some GetLatestHeight)
  (Hx : GetLatestHeight w = (w1, Ok x)) (Hlt : 0 <= x < target) :
  let sync := SyncToHeight (B := B) (K := K) g target ((w, log), s) in
  (forall w' log' s', sync = (((w', log'), s'), Ok tt) ->
     exists calls, log' = log ++ calls /\ replayed g s s' (x + 1) target calls) /\
  (replayable (K := K) g s (x + 1) target -> reproduces (EX := EX) (K := K) g s (x + 1) target ->
     exists w' log' s', sync = (((w', log'), s'), Ok tt)).
Proof.
  assert (E0 : SyncToHeight (B := B) (K := K) g target ((w, log), s) =
    match GetBlockData (K := K) s target with
    | Ok _ => replay_loop (B := B) (K := K) (Z.to_nat (target - x)) g (x + 1) target ((w1, log), s)
    | Err e => (((w1, log), s), Err (EWrap "cannot sync: block not found in store" e))
    end).
  { unfold SyncToHeight. simpl. rewrite Hf. simpl.
    destruct (Z.ltb_spec target (g_InitialHeight g)) as [|_]; [lia|].
    unfold bm_bind, bm_wrap, on_world, on_store. simpl. rewrite Hx. simpl.
    destruct (Z.ltb_spec target x) as [|_]; [lia|]. destruct (Z.ltb_spec x target) as [_|]; [|lia].
    rewrite u64_small by (unfold is_u64; lia). cbn [snd]. by destruct (GetBlockData s target). }
  cbv zeta. rewrite E0. split.
  - intros w' log' s' E. destruct (GetBlockData s target); [|done].
    eapply replay_loop_spec in E; [exact E|done|done|done|lia|lia].
  - intros Hr Hp. destruct (ry_blocks _ _ _ _ Hr target ltac:(lia)) as (hdr & d & _ & -> & _).
    destruct (replay_loop_total (EX := recording EX) (B := B) g (Z.to_nat (target - x)) (x + 1) target (w1, log) s)
      as ([w' log'] & s' & E); [done|done|done|lia|lia|lia|done|by apply reproduces_recording|].
    by exists w', log', s'.
Qed.

End synced.

(** ** Witness: an execution layer at height 6 and a store with block 7 *)

Module ReplayWitness.
Import RefHash TypesWitness.

Definition blob {A} (r : res (list A)) : list A := match r with Ok b => b | Err _ => [] end.
Definition w_ops : list batch_op :=
  save_ops w_sh (blob (SignedHeader_MarshalBinary w_sh)) (blob (Data_MarshalBinary w_data)) [x01] ++
  [(getHeightKey, Some (encodeHeight 7))] ++
  [(getStateAtHeightKey 7, Some (blob (proto_Marshal (State_ToProto w_state))))].
Definition w_store : mapds := Mapds (apply_ops ∅ w_ops) true.
Definition w_genesis : Genesis :=
  {| g_ChainID := "chain"; g_StartTime := 900; g_InitialHeight := 7; g_ProposerAddress := [x05]; g_DAStartHeight := 1;
     g_DAEpochForcedInclusion := 2 |}.
(** The world is the execution layer's height; every block gives root 3. *)
#[local] Instance w_exec : CoreExecutor Z := {|
  exec_InitChain w _ _ _ := (w, Ok [x02]);
  exec_ExecuteTxs w _ h _ _ := (h, Ok [x03]);
  exec_SetFinal w _ := (w, Ok tt);
  exec_GetLatestHeight := Some (fun w => (w, Ok w));
  exec_Rollback := None |}.

Lemma w_other c h : c ∈ ["h"; "d"; "c"; "s"]%char -> is_u64 h -> h <> 7 -> ds_view w_store !! hkey c h = None.
Proof.
  intros Hc Hu Hne. destruct (saved_view ∅ w_sh (blob (SignedHeader_MarshalBinary w_sh)) (blob (Data_MarshalBinary w_data))
    [x01] (blob (proto_Marshal (State_ToProto w_state))) [(getHeightKey, Some (encodeHeight 7))] 0 h)
    as (_ & _ & _ & _ & _ & _ & Ho);
    [right; split; reflexivity|split; [discriminate|reflexivity]|exact Hu|]. by apply (Ho c).
Qed.

Lemma w_stored : well_stored (K := bytes) w_store.
Proof.
  assert (Hs : ds_healthy w_store) by reflexivity. split.
  - intros h hdr d Hu. destruct (decide (h = 7)) as [->|Hne].
    + vm_compute. intros E. injection E as <- <-. reflexivity.
    + destruct (missing_block (K := bytes) w_store h Hs) as [_ (e & -> & _)]; [apply w_other; (done || by left)|done].
  - intros h st Hu. destruct (decide (h = 7)) as [->|Hne].
    + intros E. assert (st = w_state) as -> by (vm_compute in E; injection E as <-; reflexivity).
      vm_compute. repeat split; discriminate.
    + destruct (missing_state w_store h Hs) as (e & -> & _); [|done]. apply w_other; [by do 3 right; left|done..].
Qed.

Lemma SyncToHeight_replays_witness :
  let sync := SyncToHeight (EX := recording w_exec) (B := list batch_op) (K := bytes) w_genesis 7 ((6, []), w_store) in
  (forall w' log' s', sync = (((w', log'), s'), Ok tt) ->
     exists calls, log' = [] ++ calls /\ replayed (K := bytes) w_genesis w_store s' (6 + 1) 7 calls) /\
  (replayable (K := bytes) w_genesis w_store (6 + 1) 7 -> reproduces (K := bytes) w_genesis w_store (6 + 1) 7 ->
     exists w' log' s', sync = (((w', log'), s'), Ok tt)).
Proof.
  pose proof (SyncToHeight_replays (B := list batch_op) (K := bytes) w_genesis 7 6 6 6 [] w_store (fun w => (w, Ok w))) as Hw.
  apply Hw.
  - split; [reflexivity|split; [discriminate|reflexivity]].
  - reflexivity.
  - exact w_stored.
  - split; [discriminate|reflexivity].
  - reflexivity.
  - reflexivity.
  - split; [discriminate|reflexivity].
Defined.

(** The sync runs: block 7 is executed, and the DA height of its state drops from 3 to 0. *)
Example replay_runs :
  let '(ws, r) := SyncToHeight (EX := recording w_exec) (B := list batch_op) (K := bytes) w_genesis 7 ((6, []), w_store) in
  r = Ok tt /\ ec_height <$> ws.1.2 = [7] /\
  (st_DAHeight <$> match GetStateAtHeight w_store 7 with Ok st => Some st | Err _ => None end) = Some 3 /\
  (st_DAHeight <$> match GetStateAtHeight ws.2 7 with Ok st => Some st | Err _ => None end) = Some 0.
Proof. vm_compute. repeat split. Qed.

End ReplayWitness.

End Replay.
