(* ===== verification/Producer.v ===== *)
(** Block production (block/internal/executing/executor.go and pending.go): the executor of an
    aggregator builds a block from the sequencer's next batch, keeps it as pending metadata, executes
    it, signs it, commits it with its state in one store batch and broadcasts it.

    The sequencer, the raft node, the P2P broadcasters and the timers are the class [Network]; the
    execution client is [CoreExecutor]; the store and the cache manager are the modelled ones. The
    executor's fields are a record, and the process-wide counter of [AssertValidSequence] and the
    error channel are part of it. *)

From S2P Require Import Prelude Sha256 Interfaces Sequencing Types Validation Store Pending DACache Submit Replay.

Import Store Pending DACache Submit Replay.

Module Producer.

Definition ErrNotProposer : err := ESentinel "not a proposer".
Definition ErrNoBatch : err := ESentinel "no batch to process".
Definition ErrNoTransactionsInBatch : err := ESentinel "no transactions found in batch".
Definition MaxRetriesBeforeHalt : nat := 5.
Definition pendingCheckInterval : Z := 64.
Definition headerKey : string := "pending_header".
Definition dataKey : string := "pending_data".

Record RaftBlockState := {
  rs_Height : Z; rs_Hash : bytes; rs_Timestamp : Z; rs_Header : bytes; rs_Data : bytes;
  rs_LastSubmittedDaHeaderHeight : Z; rs_LastSubmittedDaDataHeight : Z
}.

Class Network (W K : Type) := {
  (** [None] is a nil response or a response with a nil batch. *)
  seq_GetNextBatch : W -> GetNextBatchRequest -> W * res (option GetNextBatchResponse);
  seq_GetDAHeight : W -> Z;
  seq_SetDAHeight : W -> Z -> W;
  raft_HasQuorum : W -> W * bool;
  raft_GetState : W -> W * RaftBlockState;
  raft_Broadcast : W -> RaftBlockState -> W * res unit;
  p2p_header : W -> P2PSignedHeader K -> W * res unit;
  p2p_data : W -> P2PData -> W * res unit;
  (** the wait between two attempts; true if the context ended first *)
  retry_wait : W -> W * bool;
}.

Record BatchData := { bd_Batch : Batch; bd_Time : Z; bd_Data : list bytes }.
Record lastBlockInfo := { headerHash : bytes; dataHash : bytes; signature : bytes }.

(** What an executor is created with and does not change. *)
Record options (K : Type) := {
  o_signer : option (signer (K := K)); o_genesis : Genesis; o_raft : bool;
  o_BasedSequencer : bool; o_MaxPending : Z; o_LazyMode : bool;
  o_ValidatorHasher : bytes -> option K -> res bytes;
  o_SignaturePayload : Header -> res bytes;
}.
#[global] Arguments o_signer {K}. #[global] Arguments o_genesis {K}. #[global] Arguments o_raft {K}.
#[global] Arguments o_BasedSequencer {K}. #[global] Arguments o_MaxPending {K}.
#[global] Arguments o_LazyMode {K}. #[global] Arguments o_ValidatorHasher {K}. #[global] Arguments o_SignaturePayload {K}.

(** [errorCh] is the buffered channel (its content and capacity), if there is one. *)
Record Executor (D K : Type) (C : Type -> Type -> Type) := {
  store : D; cache : implementation K C; lastState : option State; hasPendingBlock : bool;
  lastInfo : option lastBlockInfo; pendingCheckCounter : Z; hashErrCount : Z;
  errorCh : option (list err * nat);
}.
#[global] Arguments store {D K C}. #[global] Arguments cache {D K C}. #[global] Arguments lastState {D K C}.
#[global] Arguments hasPendingBlock {D K C}. #[global] Arguments lastInfo {D K C}.
#[global] Arguments pendingCheckCounter {D K C}. #[global] Arguments hashErrCount {D K C}.
#[global] Arguments errorCh {D K C}. #[global] Arguments Build_Executor {D K C}.

Definition zero_state : State := {|
  st_Version := {| Block := 0; App := 0 |}; st_ChainID := EmptyString; st_InitialHeight := 0; LastBlockHeight := 0;
  LastBlockTime := 0; st_LastHeaderHash := []; st_DAHeight := 0; st_AppHash := [] |}.

Section setters.
Context {D K : Type} {C : Type -> Type -> Type}.
Abbreviation exc := (Executor D K C).
Definition set_store (s : D) (e : exc) : exc :=
  Build_Executor s (cache e) (lastState e) (hasPendingBlock e) (lastInfo e) (pendingCheckCounter e) (hashErrCount e) (errorCh e).
Definition set_cache (m : implementation K C) (e : exc) : exc :=
  Build_Executor (store e) m (lastState e) (hasPendingBlock e) (lastInfo e) (pendingCheckCounter e) (hashErrCount e) (errorCh e).
Definition setLastState (st : State) (e : exc) : exc :=
  Build_Executor (store e) (cache e) (Some st) (hasPendingBlock e) (lastInfo e) (pendingCheckCounter e) (hashErrCount e) (errorCh e).
Definition set_hasPending (b : bool) (e : exc) : exc :=
  Build_Executor (store e) (cache e) (lastState e) b (lastInfo e) (pendingCheckCounter e) (hashErrCount e) (errorCh e).
Definition set_info (i : lastBlockInfo) (e : exc) : exc :=
  Build_Executor (store e) (cache e) (lastState e) (hasPendingBlock e) (Some i) (pendingCheckCounter e) (hashErrCount e) (errorCh e).
Definition set_counter (n : Z) (e : exc) : exc :=
  Build_Executor (store e) (cache e) (lastState e) (hasPendingBlock e) (lastInfo e) n (hashErrCount e) (errorCh e).
Definition set_errCount (n : Z) (e : exc) : exc :=
  Build_Executor (store e) (cache e) (lastState e) (hasPendingBlock e) (lastInfo e) (pendingCheckCounter e) n (errorCh e).
Definition set_errorCh (c : option (list err * nat)) (e : exc) : exc :=
  Build_Executor (store e) (cache e) (lastState e) (hasPendingBlock e) (lastInfo e) (pendingCheckCounter e) (hashErrCount e) c.

Definition getLastState (e : exc) : State := default zero_state (lastState e).

(** A full channel drops the error. *)
Definition push_critical (er : err) (e : exc) : exc :=
  match errorCh e with
  | None => e
  | Some (l, cap) => if (length l <? cap)%nat then set_errorCh (Some (l ++ [er], cap)) e else e
  end.
End setters.

Section executor.
Context {W D B K : Type} {C : Type -> Type -> Type}.
Context `{EX : CoreExecutor W} `{NW : Network W K} `{DS : Datastore D} `{BT : Batching D B} `{LR : LRU C}.
Context `{PK : PubKeys K} `{PW : Protowire} `{HS : HashString}.
Context `{CV : ProtoCodec pb_Version} `{CHd : ProtoCodec pb_Header} `{CH : ProtoCodec pb_SignedHeader}.
Context `{CD : ProtoCodec pb_Data} `{CS : ProtoCodec pb_State}.
Context (o : options K).

Abbreviation exc := (Executor D K C).
Abbreviation M := (bm (W * exc)).

Definition world {A} (f : W -> W * res A) : M A := fun '(w, e) => let '(w', r) := f w in ((w', e), r).
Definition ask {A} (f : exc -> A) : M A := fun we => (we, Ok (f we.2)).
Definition modify (f : exc -> exc) : M unit := fun '(w, e) => ((w, f e), Ok tt).
Definition read {A} (f : D -> res A) : M A := fun we => (we, f (store we.2)).
Definition write {A} (f : D -> D * res A) : M A :=
  fun '(w, e) => let '(s, r) := f (store e) in ((w, set_store s e), r).
Definition sendCriticalError (er : err) : M unit := modify (push_critical er).
(** [sendCriticalError(fmt.Errorf(msg, err)); return fmt.Errorf(msg, err)] *)
Definition critical {A} (msg : string) (m : M A) : M A := fun we =>
  match m we with
  | (we', Err er) => bm_bind (sendCriticalError (EWrap msg er)) (fun _ => bm_err (EWrap msg er)) we'
  | ok => ok
  end.

(** [NewExecutor]: only the checks; a typed nil raft node counts as none. *)
Definition NewExecutor_check : res unit :=
  if o_BasedSequencer o then Ok tt
  else match o_signer o with
       | None => Err (EMsg "signer cannot be nil")
       | Some sg =>
           let? addr := wrap_err "failed to get address" (GetAddress sg) in
           if bytes_Equal addr (g_ProposerAddress (o_genesis o)) then Ok tt else Err ErrNotProposer
       end.

(** ** The pending block (pending.go) *)

Definition getPendingBlock (s : D) : res (option (SignedHeader K * Data)) :=
  match GetMetadata s headerKey with
  | Err er => if errors_is er ErrNotFound then Ok None else Err er
  | Ok headerBytes =>
      match GetMetadata s dataKey with
      | Err er => if errors_is er ErrNotFound
                  then Err (EMsg "pending header exists but data is missing: corrupt state") else Err er
      | Ok dataBytes =>
          let? header := wrap_err "unmarshal pending header" (SignedHeader_UnmarshalBinary headerBytes) in
          let? data := wrap_err "unmarshal pending data" (Data_UnmarshalBinary dataBytes) in
          Ok (Some (header, data))
      end
  end.

Definition savePendingBlock (header : SignedHeader K) (data : Data) (s : D) : D * res unit :=
  match SignedHeader_MarshalBinary header with
  | Err er => (s, Err (EWrap "marshal header" er))
  | Ok headerBytes =>
      match Data_MarshalBinary data with
      | Err er => (s, Err (EWrap "marshal data" er))
      | Ok dataBytes =>
          in_batch s "create batch for early save" "commit pending block"
            (bm_wrap "save pending header" (put (ds_NewKey (GetMetaKey headerKey)) headerBytes) ;;;
             bm_wrap "save pending data" (put (ds_NewKey (GetMetaKey dataKey)) dataBytes))
      end
  end.

Definition deletePendingBlock (s : D) : D * res unit :=
  match DeleteMetadata s headerKey with
  | (s', Err er) => (s', Err (EWrap "delete pending header" er))
  | (s', Ok _) => let '(s'', r) := DeleteMetadata s' dataKey in (s'', wrap_err "delete pending data" r)
  end.

(** [Delete] tolerating [ErrNotFound]. *)
Definition delete_legacy (key : string) : bm B unit := bm_tolerate "delete legacy key" (del (ds_NewKey key)).

Definition migrateLegacyPendingBlock (candidateHeight : Z) (s : D) : D * res unit :=
  match GetBlockData (K := K) s candidateHeight with
  | Err er => if errors_is er ErrNotFound then (s, Ok tt) else (s, Err (EWrap "get block data" er))
  | Ok (pendingHeader, pendingData) =>
      if negb (blen (sh_Signature pendingHeader) =? 0) then (s, Err (EMsg "pending block with signatures found"))
      else
        match savePendingBlock pendingHeader pendingData s with
        | (s', Err er) => (s', Err (EWrap "save migrated pending block" er))
        | (s', Ok _) =>
            match NewBatch (B := B) s' with
            | Err er => (s', Err (EWrap "create cleanup batch" er))
            | Ok _ =>
                match SignedHeader_MarshalBinary pendingHeader with
                | Err er => (s', Err (EWrap "marshal header for hash" er))
                | Ok headerBytes =>
                    in_batch s' "create cleanup batch" "commit cleanup batch"
                      (delete_legacy (getHeaderKey candidateHeight) ;;;
                       delete_legacy (getDataKey candidateHeight) ;;;
                       delete_legacy (getSignatureKey candidateHeight) ;;;
                       delete_legacy (getIndexKey (sha256_Sum256 headerBytes)))
                end
            end
        end
  end.

(** ** Building a block *)

(** The batch and the error are returned together. *)
Definition RetrieveBatch : M (option BatchData * option err) := fun '(w, e) =>
  let req := {| gr_Id := String.list_byte_of_string (g_ChainID (o_genesis o)); gr_LastBatchData := [];
                gr_MaxBytes := DefaultMaxBlobSize |} in
  let '(w', r) := seq_GetNextBatch w req in
  ((w', e),
   Ok match r with
      | Err er => (None, Some er)
      | Ok None => (None, Some ErrNoBatch)
      | Ok (Some res) =>
          let bd := {| bd_Batch := gp_Batch res; bd_Time := gp_Timestamp res; bd_Data := gp_BatchData res |} in
          (Some bd, if blen (Transactions (gp_Batch res)) =? 0 then Some ErrNoTransactionsInBatch else None)
      end).

(** The hashes and signature of the block below, from memory or from the store. *)
Definition last_block (e : exc) (height : Z) : res lastBlockInfo :=
  match lastInfo e with
  | Some info => Ok info
  | None =>
      let? last := wrap_err "failed to get last block" (GetBlockData (K := K) (store e) (height -u 1)) in
      let? sig := wrap_err "failed to get last signature" (GetSignature (store e) (height -u 1)) in
      Ok {| headerHash := Header_Hash (sh_Header last.1); dataHash := Data_Hash last.2; signature := sig |}
  end.

(** The public key, if there is a signer, and the validator hash. *)
Definition signer_info : res (option K * bytes) :=
  let addr := g_ProposerAddress (o_genesis o) in
  match o_signer o with
  | Some sg =>
      let? pubKey := wrap_err "failed to get public key" (GetPublic sg) in
      let? validatorHash := wrap_err "failed to get validator hash" (o_ValidatorHasher o addr (Some pubKey)) in
      Ok (Some pubKey, validatorHash)
  | None =>
      let? validatorHash := wrap_err "failed to get validator hash" (o_ValidatorHasher o addr None) in
      Ok (None, validatorHash)
  end.

(** A use of a nil batch is a nil dereference. *)
Definition CreateBlock (e : exc) (height : Z) (batchData : option BatchData) : res (SignedHeader K * Data) :=
  let currentState := getLastState e in
  let g := o_genesis o in
  let? last :=
    if g_InitialHeight g <? height then
      match batchData with
      | None => Err nil_deref
      | Some bd => let? info := last_block e height in Ok (u64 (bd_Time bd), info)
      end
    else Ok (u64 (g_StartTime g), {| headerHash := []; dataHash := []; signature := [] |}) in
  let '(headerTime, info) := last in
  let? si := signer_info in
  let '(pubKey, validatorHash) := si in
  match batchData with
  | None => Err nil_deref
  | Some bd =>
      let data := {| dt_Metadata := Some {| md_ChainID := g_ChainID g; md_Height := height; md_Time := headerTime;
                                            LastDataHash := dataHash info |};
                     Txs := Transactions (bd_Batch bd) |} in
      let header := {|
        hd_Height := height; hd_Time := headerTime; hd_ChainID := g_ChainID g;
        hd_Version := {| Block := Block (st_Version currentState); App := App (st_Version currentState) |};
        LastHeaderHash := headerHash info;
        DataHash := if blen (Txs data) =? 0 then DataHashForEmptyTxs else DACommitment data;
        AppHash := st_AppHash currentState; ValidatorHash := validatorHash;
        ProposerAddress := g_ProposerAddress g; Legacy := None |} in
      Ok ({| sh_Header := header; sh_Signature := signature info;
             sh_Signer := {| PubKey := pubKey; Address := g_ProposerAddress g; marshalledPubKey := [] |} |}, data)
  end.

(** ** Executing and signing it *)

(** [left] attempts remain. *)
Fixpoint exec_retry (left : nat) (txs : list bytes) (header : Header) (prev : bytes) : M bytes :=
  match left with
  | O => bm_ret []
  | S left' => fun '(w, e) =>
      match exec_ExecuteTxs w txs (hd_Height header) (unix_time (hd_Time header)) prev with
      | (w', Ok newAppHash) => ((w', e), Ok newAppHash)
      | (w', Err er) =>
          match left' with
          | O => ((w', e), Err (EWrap "failed to execute transactions" er))
          | S _ => let '(w'', cancelled) := retry_wait w' in
                   if cancelled : bool then ((w'', e), Err (EWrap "context cancelled during retry" context_Canceled))
                   else exec_retry left' txs header prev (w'', e)
          end
      end
  end.
Definition executeTxsWithRetry (txs : list bytes) (header : Header) (currentState : State) : M bytes :=
  exec_retry MaxRetriesBeforeHalt txs header (st_AppHash currentState).

Definition ApplyBlock (header : Header) (data : Data) : M State :=
  let! currentState := ask getLastState in
  let! newAppHash := critical "failed to execute transactions"
                       (executeTxsWithRetry (Txs data) header currentState) in
  bm_ret (NextState currentState header newAppHash).

(** The serialized payload, the second result, is not used. *)
Definition signHeader (header : Header) : res bytes :=
  match o_signer o with
  | None => Ok []
  | Some sg =>
      let? bz := wrap_err "failed to get signature payload" (o_SignaturePayload o header) in
      Sign sg bz
  end.

(** ** Producing a block *)

Definition check_quorum : M unit := fun '(w, e) =>
  if o_raft o then
    let '(w', ok) := raft_HasQuorum w in
    ((w', e), if ok : bool then Ok tt else Err (EMsg "raft cluster does not have quorum"))
  else ((w, e), Ok tt).

(** The amortized limit check: true when the block is skipped. *)
Definition pending_limit : M bool := fun '(w, e) =>
  let limit := o_MaxPending o in
  if 0 <? limit then
    let counter := pendingCheckCounter e +u 1 in
    let e := set_counter counter e in
    if (limit <=? pendingCheckInterval) || (counter mod pendingCheckInterval =? 0) then
      let pendingHeadersNb := numPending (store e) (pendingHeaders (cache e)) in
      let '(s, pd, pendingDataNb) := NumPendingData (K := K) (store e) (pendingData (cache e)) in
      let e := set_cache (upd_pending (cache e) (pendingHeaders (cache e)) pd) (set_store s e) in
      ((w, e), Ok ((limit <=? pendingHeadersNb) || (limit <=? pendingDataNb)))
    else ((w, e), Ok false)
  else ((w, e), Ok false).

(** A pending block of the new height, looked up only if the flag is set. *)
Definition reuse_pending (newHeight : Z) : M (option (SignedHeader K * Data)) := fun we =>
  if hasPendingBlock we.2 then
    match getPendingBlock (store we.2) with
    | Ok (Some (header, data)) =>
        (we, Ok (if hd_Height (sh_Header header) =? newHeight then Some (header, data) else None))
    | Ok None => (we, Ok None)
    | Err er => (we, if errors_is er ErrNotFound then Ok None else Err (EWrap "failed to get block data" er))
    end
  else (we, Ok None).

(** A new block from the next batch, saved as pending; [None] if there is no batch. *)
Definition new_block (newHeight : Z) : M (option (SignedHeader K * Data)) :=
  let! rb := RetrieveBatch in
  let '(batchData, er) := rb in
  let build :=
    let! blk := bm_wrap "failed to create block" (fun we => (we, CreateBlock we.2 newHeight batchData)) in
    bm_wrap "failed to save block data" (write (savePendingBlock blk.1 blk.2)) ;;;
    bm_ret (Some blk) in
  match er with
  | None => build
  | Some er =>
      if errors_is er ErrNoBatch then bm_ret None
      else if errors_is er ErrNoTransactionsInBatch then build
      else bm_err (EWrap "failed to retrieve batch" er)
  end.

Definition assert_sequence (currentState : State) (header : SignedHeader K) : M unit := fun '(w, e) =>
  let '(n, r) := AssertValidSequence (hashErrCount e) currentState header in ((w, set_errCount n e), r).

Definition raft_state (e : exc) (newHeight : Z) (header : SignedHeader K) (headerBytes dataBytes : bytes) : RaftBlockState := {|
  rs_Height := newHeight; rs_Hash := Header_Hash (sh_Header header); rs_Timestamp := hd_Time (sh_Header header);
  rs_Header := headerBytes; rs_Data := dataBytes;
  rs_LastSubmittedDaHeaderHeight := lastHeight (pendingHeaders (cache e));
  rs_LastSubmittedDaDataHeight := lastHeight (pendingData (cache e)) |}.

Definition propose (newHeight : Z) (header : SignedHeader K) (data : Data) : M unit :=
  if o_raft o then
    let! headerBytes := bm_wrap "failed to marshal header" (fun we => (we, SignedHeader_MarshalBinary header)) in
    let! dataBytes := bm_wrap "failed to marshal data" (fun we => (we, Data_MarshalBinary data)) in
    let! rs := ask (fun e => raft_state e newHeight header headerBytes dataBytes) in
    bm_wrap "failed to propose block to raft" (world (fun w => raft_Broadcast w rs))
  else bm_ret tt.

(** The writes of the block's batch, on the store the batch was created from. *)
Definition commit_writes (s : D) (newHeight : Z) (header : SignedHeader K) (data : Data) (sig : bytes) (newState : State)
  : bm B unit :=
  bm_wrap "failed to save block" (SaveBlockData header data sig) ;;;
  bm_wrap "failed to update store height" (SetHeight s newHeight) ;;;
  bm_wrap "failed to update state" (UpdateState newState).

(** Batch, raft proposal, commit: the proposal is made before the batch is committed. *)
Definition commit_block (newHeight : Z) (header : SignedHeader K) (data : Data) (sig : bytes) (newState : State) : M unit :=
  let! s := ask store in
  let! b := bm_wrap "failed to create batch" (read NewBatch) in
  let! b := (fun we => (we, let '(b', r) := commit_writes s newHeight header data sig newState b in
                            let? _ := r in Ok b')) in
  propose newHeight header data ;;;
  bm_wrap "failed to commit batch" (write (fun s => Commit s b)).

(** Both broadcasts only log their errors; the header goes first. *)
Definition broadcast (header : SignedHeader K) (data : Data) : M unit := fun '(w, e) =>
  let '(w, _) := p2p_header w {| p2p_Header := header; p2p_HeaderHint := 0 |} in
  let '(w, _) := p2p_data w {| p2p_Data := data; p2p_DataHint := 0 |} in
  ((w, e), Ok tt).

(** From a block to its commit. *)
Definition seal_block (currentState : State) (newHeight : Z) (blk : SignedHeader K * Data) : M unit :=
  let '(header, data) := blk in
  check_quorum ;;;
  let! newState := bm_wrap "failed to apply block" (ApplyBlock (sh_Header header) data) in
  let! daHeight := (fun we => (we, Ok (seq_GetDAHeight we.1))) in
  let newState := {|
    st_Version := st_Version newState; st_ChainID := st_ChainID newState;
    st_InitialHeight := st_InitialHeight newState; LastBlockHeight := LastBlockHeight newState;
    LastBlockTime := LastBlockTime newState; st_LastHeaderHash := st_LastHeaderHash newState;
    st_DAHeight := daHeight; st_AppHash := st_AppHash newState |} in
  let! sig := bm_wrap "failed to sign header" (fun we => (we, signHeader (sh_Header header))) in
  let header := {| sh_Header := sh_Header header; sh_Signature := sig; sh_Signer := sh_Signer header |} in
  critical "failed to validate block" (assert_sequence currentState header) ;;;
  commit_block newHeight header data sig newState ;;;
  modify (set_hasPending false) ;;;
  modify (setLastState newState) ;;;
  modify (set_info {| headerHash := st_LastHeaderHash newState; dataHash := Data_Hash data; signature := sig |}) ;;;
  broadcast header data ;;;
  (if o_BasedSequencer o then
     critical "failed to set final height in based sequencer mode" (world (fun w => exec_SetFinal w newHeight))
   else bm_ret tt).

Definition ProduceBlock (ctxErr : option err) : M unit :=
  match ctxErr with
  | Some er => bm_err er
  | None =>
      check_quorum ;;;
      let! currentState := ask getLastState in
      let newHeight := LastBlockHeight currentState +u 1 in
      let! skip := pending_limit in
      if skip : bool then bm_ret tt
      else
        let! pending := reuse_pending newHeight in
        let! blk := match pending with
                    | Some blk => bm_ret (Some blk)
                    | None => new_block newHeight
                    end in
        match blk with
        | None => bm_ret tt
        | Some blk => seal_block currentState newHeight blk
        end
  end.

(** ** Starting and stopping *)

Definition on_chain {A} (m : bm (W * D) A) : M A :=
  fun '(w, e) => let '((w', s'), r) := m (w, store e) in ((w', set_store s' e), r).

(** The stored state, or the state of a new chain. *)
Definition load_state : M State := fun we =>
  match GetState (store we.2) with
  | Ok state => (we, Ok state)
  | Err _ =>
      let g := o_genesis o in
      (let! stateRoot := critical "failed to initialize chain"
         (world (fun w => exec_InitChain w (g_StartTime g) (g_InitialHeight g) (g_ChainID g))) in
       bm_ret {| st_Version := {| Block := 0; App := 0 |}; st_ChainID := g_ChainID g;
                 st_InitialHeight := g_InitialHeight g; LastBlockHeight := g_InitialHeight g -u 1;
                 LastBlockTime := g_StartTime g; st_LastHeaderHash := []; st_DAHeight := g_DAStartHeight g;
                 st_AppHash := stateRoot |}) we
  end.

Definition raft_state_now : M RaftBlockState := fun '(w, e) => let '(w', rs) := raft_GetState w in ((w', e), Ok rs).

(** The stored header of [height] has the hash the raft cluster agreed on. *)
Definition check_raft_hash (what mismatch : string) (height : Z) (hash : bytes) : M unit :=
  let! header := bm_wrap what (read (fun s => GetHeader (K := K) s height)) in
  check (bytes_Equal (Header_Hash (sh_Header header)) hash) (EMsg mismatch).

Definition raft_precheck (state : State) : M unit :=
  if o_raft o then
    let! raftState := raft_state_now in
    if rs_Height raftState =? 0 then bm_ret tt
    else if rs_Height raftState <? LastBlockHeight state
    then bm_err (EMsg "invalid state: local height ahead of raft")
    else if (0 <? LastBlockHeight state) && (LastBlockHeight state =? rs_Height raftState)
    then check_raft_hash "failed to get header for sync check" "invalid state: block hash mismatch"
           (LastBlockHeight state) (rs_Hash raftState)
    else bm_ret tt
  else bm_ret tt.

(** Fill the last-block cache, as far as the block can be read. *)
Definition warm_cache (state : State) : M unit := modify (fun e =>
  if 0 <? LastBlockHeight state then
    match GetBlockData (K := K) (store e) (LastBlockHeight state) with
    | Err _ => e
    | Ok (h, d) =>
        set_info {| headerHash := Header_Hash (sh_Header h); dataHash := Data_Hash d;
                    signature := match GetSignature (store e) (LastBlockHeight state) with Ok sig => sig | Err _ => [] end |} e
    end
  else e).

Definition sync_target (state : State) : M Z :=
  if o_raft o then
    let! raftState := raft_state_now in
    bm_ret (if LastBlockHeight state <? rs_Height raftState then rs_Height raftState else LastBlockHeight state)
  else bm_ret (LastBlockHeight state).

Definition raft_postcheck : M unit :=
  if o_raft o then
    let! raftState := raft_state_now in
    let! newState := bm_wrap "get state after sync" (read GetState) in
    if (0 <? LastBlockHeight newState) && (LastBlockHeight newState =? rs_Height raftState)
    then check_raft_hash "get header" "CRITICAL: content mismatch after replay!" (LastBlockHeight newState) (rs_Hash raftState)
    else bm_ret tt
  else bm_ret tt.

Definition initializeState : M unit :=
  let! state := load_state in
  raft_precheck state ;;;
  modify (setLastState state) ;;;
  world (fun w => (seq_SetDAHeight w (st_DAHeight state), Ok tt)) ;;;
  write (fun s => in_batch s "failed to create batch" "failed to commit batch"
    (bm_wrap "failed to set store height" (SetHeight s (LastBlockHeight state)) ;;;
     bm_wrap "failed to update state" (UpdateState state))) ;;;
  bm_wrap "failed to migrate legacy pending block"
    (let! st := ask getLastState in write (migrateLegacyPendingBlock (LastBlockHeight st +u 1))) ;;;
  modify (fun e => match GetMetadata (store e) headerKey with Ok _ => set_hasPending true e | Err _ => e end) ;;;
  warm_cache state ;;;
  let! syncTargetHeight := sync_target state in
  critical "failed to sync execution layer"
    (on_chain (SyncToHeight (B := B) (K := K) (o_genesis o) syncTargetHeight)) ;;;
  (if o_BasedSequencer o && (0 <? syncTargetHeight) then
     critical "failed to set final height in based sequencer mode"
       (world (fun w => exec_SetFinal w syncTargetHeight))
   else bm_ret tt) ;;;
  raft_postcheck.

Definition Start : M unit := bm_wrap "failed to initialize state" initializeState.

(** After the loop ended; a failure to delete is ignored. *)
Definition Stop (e : exc) : exc :=
  if hasPendingBlock e then e else set_store (deletePendingBlock (store e)).1 e.

Definition IsSyncedWithRaft (s : D) (raftState : RaftBlockState) : res Z :=
  let? state := GetState s in
  let diff := i64 (i64 (LastBlockHeight state) - i64 (rs_Height raftState)) in
  if negb (diff =? 0) then Ok diff
  else if rs_Height raftState =? 0 then Ok 0
  else
    let? header := wrap_err "get header for sync check at height" (GetHeader (K := K) s (rs_Height raftState)) in
    if bytes_Equal (Header_Hash (sh_Header header)) (rs_Hash raftState) then Ok 0
    else Err (EMsg "block hash mismatch").

(** ** The production loop *)

(** What the loop's select receives. *)
Inductive event := BlockTimer | LazyTimer | TxNotify.

(** The loop's variable and the notification channel of capacity one. *)
Record loop_state := { txsAvailable : bool; txNotifyCh : bool }.

Definition NotifyNewTransactions (l : loop_state) : loop_state := {| txsAvailable := txsAvailable l; txNotifyCh := true |}.

(** One iteration. Errors of a production are only logged; [ctxErr] is the context's error then. *)
Definition on_event (ctxErr : option err) (ev : event) (l : loop_state) (we : W * exc) : loop_state * (W * exc) :=
  match ev with
  | BlockTimer =>
      if o_LazyMode o && negb (txsAvailable l) then (l, we)
      else ({| txsAvailable := false; txNotifyCh := txNotifyCh l |}, (ProduceBlock ctxErr we).1)
  | LazyTimer => (l, if o_LazyMode o then (ProduceBlock ctxErr we).1 else we)
  | TxNotify => (if txNotifyCh l then {| txsAvailable := true; txNotifyCh := false |} else l, we)
  end.

(** The delays of the block timer: before the first block, and after a production. *)
Definition firstBlockDelay (st : State) (now blockTime : Z) : Z :=
  if LastBlockHeight st <? g_InitialHeight (o_genesis o) then 0
  else Z.max 0 (LastBlockTime st + blockTime - now).
Definition nextDelay (blockTime elapsed : Z) : Z := Z.max (blockTime - elapsed) 0.

End executor.

(** ** Reasoning about the executor's monad *)

(** [Q] holds of the state and result of running [m] from [x]. *)
Definition post {S A} (m : bm S A) (x : S) (Q : S -> res A -> Prop) : Prop := let '(y, r) := m x in Q y r.

Section post.
Context {S A A' : Type}.

Lemma post_mono (m : bm S A) x (Q Q' : S -> res A -> Prop) : (forall y r, Q y r -> Q' y r) -> post m x Q -> post m x Q'.
Proof. unfold post. destruct (m x). auto. Qed.

Lemma post_bind (m : bm S A) (k : A -> bm S A') x Q :
  post m x (fun y r => match r with Ok a => post (k a) y Q | Err e => Q y (Err e) end) -> post (bm_bind m k) x Q.
Proof. unfold post, bm_bind. destruct (m x) as [y [a|e]]; done. Qed.

Lemma post_wrap msg (m : bm S A) x Q : post m x (fun y r => Q y (wrap_err msg r)) -> post (bm_wrap msg m) x Q.
Proof. unfold post, bm_wrap. by destruct (m x). Qed.

Lemma post_ret (a : A) x (Q : S -> res A -> Prop) : Q x (Ok a) -> post (bm_ret a) x Q.
Proof. done. Qed.
Lemma post_err er x (Q : S -> res A -> Prop) : Q x (Err er) -> post (bm_err er) x Q.
Proof. done. Qed.
End post.

Section frames.
Context {D K : Type} `{DL : DatastoreLaws D} `{PK : PubKeys K} `{PW : Protowire}.
Context `{CH : ProtoCodec pb_SignedHeader} `{CD : ProtoCodec pb_Data} `{CS : ProtoCodec pb_State}.

(** The two stores hold the same chain: height, blocks and states. *)
Record same_chain (s s' : D) : Prop := {
  sc_healthy : ds_healthy s';
  sc_height : Height s' = Height s;
  sc_block h : is_u64 h -> block_at (K := K) s' h = block_at s h;
  sc_state h : is_u64 h -> GetStateAtHeight s' h = GetStateAtHeight s h;
}.

Lemma same_chain_refl s : ds_healthy s -> same_chain s s.
Proof. by split. Qed.
Lemma same_chain_trans s1 s2 s3 : same_chain s1 s2 -> same_chain s2 s3 -> same_chain s1 s3.
Proof.
  intros [A1 A2 A3 A4] [B1 B2 B3 B4]. split; [done|congruence|..]; intros h Hu; [by rewrite B3, A3|by rewrite B4, A4].
Qed.

Lemma same_chain_sym s s' : ds_healthy s -> same_chain s s' -> same_chain s' s.
Proof. intros Hs [A1 A2 A3 A4]. split; [done|done|..]; intros h Hu; symmetry; auto. Qed.

(** Metadata is not part of the chain. *)
Lemma meta_same_chain s s' : ds_healthy s -> ds_healthy s' ->
  (forall k, (forall key, k <> GetMetaKey key) -> ds_view s' !! k = ds_view s !! k) -> same_chain s s'.
Proof.
  intros Hs Hs' Hk. split; [done|..].
  - apply height_frame; try done. by apply Hk.
  - intros h _. apply block_frame; try done. intros k. rewrite !elem_of_cons, elem_of_nil.
    intros [->|[->|[->|[]]]]; apply Hk; discriminate.
  - intros h _. apply state_frame; try done. apply Hk. discriminate.
Qed.

Lemma same_block_data s s' h : is_u64 h -> same_chain s s' -> GetBlockData (K := K) s' h = GetBlockData s h.
Proof. intros Hu Hc. pose proof (sc_block _ _ Hc h Hu) as E. unfold block_at in E. congruence. Qed.

Lemma state_of_height s h st : Height s = Ok h -> GetStateAtHeight s h = Ok st -> GetState s = Ok st.
Proof.
  unfold GetState, GetStateAtHeight. intros ->. simpl. destruct (ds_Get s _) as [bz|er]; simpl.
  - destruct (proto_Unmarshal bz) as [p|]; simpl; [|done]. by destruct (State_FromProto (Some p)).
  - by destruct (errors_is er ErrNotFound).
Qed.

(** Skipping empty data only writes the last submitted height. *)
Lemma advance_loop_frame {C : Type -> Type -> Type} hs s (pd : pendingBase C Data) : ds_healthy s ->
  clean_tail true (metaKey pd) = true ->
  let '(s', pd') := advance_loop (K := K) s pd hs in
  ds_healthy s' /\ metaKey pd' = metaKey pd /\ forall k, k <> GetMetaKey (metaKey pd) -> ds_view s' !! k = ds_view s !! k.
Proof.
  revert s pd. induction hs as [|h hs IH]; intros s pd Hs Hk; simpl; [done|].
  destruct (fetchData s h) as [d|]; [|done]. destruct (Txs d); [|done].
  unfold setLastSubmittedHeight. destruct (_ <? _); [|by apply IH].
  destruct (SetMetadata_view s (metaKey pd) (PutUint64_LE h) Hs Hk) as (s' & -> & Hs' & V). simpl.
  specialize (IH s' {| metaKey := metaKey pd; lastHeight := h; pendingCache := pendingCache pd |} Hs' Hk).
  destruct (advance_loop _ _ _) as [s2 pd2]. simpl in IH. destruct IH as (I1 & I2 & I3).
  split_and!; [done|done|]. intros k Hne. rewrite I3, V by done. by rewrite lookup_insert_ne.
Qed.

Lemma NumPendingData_frame {C : Type -> Type -> Type} s (pd : pendingBase C Data) : ds_healthy s ->
  clean_tail true (metaKey pd) = true ->
  let '(s', pd', _) := NumPendingData (K := K) s pd in
  ds_healthy s' /\ metaKey pd' = metaKey pd /\ forall k, k <> GetMetaKey (metaKey pd) -> ds_view s' !! k = ds_view s !! k.
Proof.
  intros Hs Hk. unfold NumPendingData, advancePastEmptyData. destruct (Height s) as [top|]; [|done].
  pose proof (advance_loop_frame (heights_upto (lastHeight pd + 1) top) s pd Hs Hk) as Ha.
  by destruct (advance_loop _ _ _).
Qed.

End frames.

(** ** The invariant of a producing node *)

Section invariant.
Context {W D B K : Type} {C : Type -> Type -> Type}.
Context `{EX : CoreExecutor W} `{NW : Network W K} `{DL : DatastoreLaws D} `{BC : Batching D B} `{BL : !BatchingLaws D B}.
Context `{LR : LRU C} `{PK : PubKeys K} `{PKL : !PubKeysLaws K} `{PW : Protowire} `{PWL : !ProtowireLaws}.
Context `{HS : HashString} `{HL : !HashStringLaws}.
Context `{CV : ProtoCodec pb_Version} `{CHd : ProtoCodec pb_Header}.
Context `{CH : ProtoCodec pb_SignedHeader} `{LH : !ProtoCodecLaws pb_SignedHeader}.
Context `{CD : ProtoCodec pb_Data} `{LD : !ProtoCodecLaws pb_Data}.
Context `{CS : ProtoCodec pb_State} `{LS : !ProtoCodecLaws pb_State}.
Context (o : options K) (Hg : genesis_ok (o_genesis o)).

Abbreviation exc := (Executor D K C).
Abbreviation g := (o_genesis o).
Abbreviation same := (same_chain (K := K)).

(** The header carries the hashes of the block below it in the store. *)
Definition linked_below (s : D) (h : Header) (m : Metadata) : Prop :=
  g_InitialHeight g < hd_Height h ->
  exists (ph : SignedHeader K) pd, GetBlockData s (hd_Height h - 1) = Ok (ph, pd) /\
    LastHeaderHash h = Header_Hash (sh_Header ph) /\ LastDataHash m = Data_Hash pd.

(** A block that continues state [st] of the chain in [s]. *)
Record next_of (s : D) (st : State) (sh : SignedHeader K) (d : Data) : Prop := {
  nx_header : header_valid (sh_Header sh);
  nx_data : data_valid d;
  nx_signer : signer_ok (sh_Signer sh);
  nx_legacy : Legacy (sh_Header sh) = None;
  nx_chain : hd_ChainID (sh_Header sh) = g_ChainID g;
  nx_height : hd_Height (sh_Header sh) = LastBlockHeight st + 1;
  nx_root : AppHash (sh_Header sh) = st_AppHash st;
  nx_commit : DataHash (sh_Header sh) = if blen (Txs d) =? 0 then DataHashForEmptyTxs else DACommitment d;
  nx_meta : exists m, dt_Metadata d = Some m /\ md_ChainID m = hd_ChainID (sh_Header sh) /\
    md_Height m = hd_Height (sh_Header sh) /\ md_Time m = hd_Time (sh_Header sh) /\ linked_below s (sh_Header sh) m;
}.

(** The in-memory copies agree with the store, and a pending block of the next height continues the chain. *)
Record exec_inv (e : exc) (st : State) : Prop := {
  ei_healthy : ds_healthy (store e);
  ei_last : lastState e = Some st;
  ei_height : Height (store e) = Ok (LastBlockHeight st);
  ei_state : GetStateAtHeight (store e) (LastBlockHeight st) = Ok st;
  ei_valid : proto_valid (State_ToProto st);
  ei_block : g_InitialHeight g <= LastBlockHeight st -> exists (ph : SignedHeader K) pd sig,
    GetBlockData (store e) (LastBlockHeight st) = Ok (ph, pd) /\
    GetSignature (store e) (LastBlockHeight st) = Ok sig /\
    forall info, lastInfo e = Some info ->
      headerHash info = Header_Hash (sh_Header ph) /\ dataHash info = Data_Hash pd;
  ei_pending sh d : getPendingBlock (store e) = Ok (Some (sh, d)) ->
    hd_Height (sh_Header sh) <= LastBlockHeight st + 1 /\
    (hd_Height (sh_Header sh) = LastBlockHeight st + 1 -> next_of (store e) st sh d);
  ei_key : metaKey (pendingData (cache e)) = LastSubmittedDataHeightKey;
}.

Lemma next_of_same s s' st sh d : same s s' -> next_of s st sh d -> next_of s' st sh d.
Proof.
  intros Hc [N1 N2 N3 N4 N5 N6 N7 N8 (m & M1 & M2 & M3 & M4 & M5)]. split; try done.
  exists m. split_and!; try done. intros Hi. destruct (M5 Hi) as (ph & pd & E & ?).
  exists ph, pd. rewrite (same_block_data s s'); [done| |done].
  destruct Hg as [_ ?], N1 as (_ & _ & ? & _). unfold is_u64 in *. lia.
Qed.

(** What a step that does not commit may change. *)
Record kept (e e' : exc) (st : State) : Prop := {
  kp_last : lastState e' = lastState e;
  kp_info : lastInfo e' = lastInfo e;
  kp_chain : same (store e) (store e');
  kp_key : metaKey (pendingData (cache e')) = metaKey (pendingData (cache e));
  kp_pending : getPendingBlock (K := K) (store e') = getPendingBlock (store e) \/
    exists sh d, getPendingBlock (store e') = Ok (Some (sh, d)) /\ next_of (store e) st sh d;
  kp_flag : hasPendingBlock e' = hasPendingBlock e;
}.

Lemma kept_refl e st : ds_healthy (store e) -> kept e e st.
Proof. intros Hs. split; auto using same_chain_refl. Qed.

Lemma kept_trans e1 e2 e3 st : ds_healthy (store e1) -> kept e1 e2 st -> kept e2 e3 st -> kept e1 e3 st.
Proof.
  intros Hs [A1 A2 A3 A4 A5 A6] [B1 B2 B3 B4 B5 B6].
  split; [congruence|congruence|by eapply same_chain_trans|congruence| |congruence].
  destruct B5 as [E|(sh & d & E & Hn)]; [rewrite E; exact A5|]. right. exists sh, d. split; [done|].
  eapply next_of_same; [|exact Hn]. by apply same_chain_sym.
Qed.

Lemma inv_kept e e' st : exec_inv e st -> kept e e' st -> exec_inv e' st.
Proof.
  intros [I1 I2 I3 I4 I5 I6 I7 I8] [P1 P2 P3 P4 P5 P6]. pose proof P3 as [Q1 Q2 Q3 Q4].
  assert (Hu : is_u64 (LastBlockHeight st)) by apply I5.
  split; [done|congruence|congruence|by rewrite Q4|done| | |congruence].
  - intros Hi. destruct (I6 Hi) as (ph & pd & sig & E1 & E2 & E3). exists ph, pd, sig.
    rewrite (same_block_data _ _ _ Hu P3). pose proof (Q3 (LastBlockHeight st) Hu) as Eb. unfold block_at in Eb.
    split_and!; [done|congruence|]. intros info. rewrite P2. apply E3.
  - intros sh d E. destruct P5 as [E'|(sh' & d' & E' & Hn)].
    + rewrite E' in E. destruct (I7 sh d E) as [Hle Hn]. split; [done|]. intros Hh. apply (next_of_same (store e)); auto.
    + rewrite E in E'. injection E' as <- <-. rewrite (nx_height _ _ _ _ Hn). split; [lia|]. intros _.
      by apply (next_of_same (store e)).
Qed.

(** The setters of fields the invariant does not read. *)
Lemma kept_fields e e' st : ds_healthy (store e) -> store e' = store e -> lastState e' = lastState e ->
  lastInfo e' = lastInfo e -> cache e' = cache e -> hasPendingBlock e' = hasPendingBlock e -> kept e e' st.
Proof. intros Hs E1 E2 E3 E4 E5. split; try done; rewrite ?E1, ?E4; auto using same_chain_refl. Qed.

Lemma kept_critical er e st : ds_healthy (store e) -> kept e (push_critical er e) st.
Proof. intros Hs. unfold push_critical. repeat case_match; by apply kept_fields. Qed.

(** [m] keeps the chain, whatever it returns. *)
Definition keeps {A} (st : State) (m : bm (W * exc) A) (Q : exc -> A -> Prop) : Prop :=
  forall w e, exec_inv e st -> post m (w, e) (fun we' r => kept e we'.2 st /\ forall a, r = Ok a -> Q we'.2 a).

Lemma keeps_bind {A A'} st (m : bm (W * exc) A) (k : A -> bm (W * exc) A') Q Q' : keeps st m Q ->
  (forall a w e, exec_inv e st -> Q e a -> post (k a) (w, e) (fun we' r => kept e we'.2 st /\ forall b, r = Ok b -> Q' we'.2 b)) ->
  keeps st (bm_bind m k) Q'.
Proof.
  intros Hm Hk w e He. apply post_bind. eapply post_mono; [|by apply Hm]. intros [w' e'] r [Hkp Hr].
  destruct r as [a|er]; [|by split; [|intros ? ?]].
  eapply post_mono; [|apply Hk; [by eapply inv_kept|by apply Hr]]. intros y r [Hkp' Hr']. split; [|done].
  eapply kept_trans; [apply He|done|done].
Qed.

Lemma keeps_wrap {A} st msg (m : bm (W * exc) A) Q : keeps st m Q -> keeps st (bm_wrap msg m) Q.
Proof.
  intros Hm w e He. apply post_wrap. eapply post_mono; [|by apply Hm]. intros y r [Hkp Hr]. split; [done|].
  intros a E. apply Hr. by destruct r.
Qed.

Lemma keeps_critical {A} st msg (m : bm (W * exc) A) Q : keeps st m Q -> keeps st (critical msg m) Q.
Proof.
  intros Hm w e He. specialize (Hm w e He). unfold post, critical, bm_bind, sendCriticalError, modify in *.
  destruct (m (w, e)) as [[w' e'] [a|er]]; [done|]. destruct Hm as [Hkp _]. split; [|done]. simpl.
  eapply kept_trans; [apply He|done|]. apply kept_critical, Hkp.
Qed.

Lemma keeps_state {A} st (k : State -> bm (W * exc) A) Q : keeps st (k st) Q ->
  keeps st (bm_bind (ask getLastState) k) Q.
Proof.
  intros Hk w e He. apply post_bind. unfold post at 1, ask, getLastState. simpl. rewrite (ei_last _ _ He). by apply Hk.
Qed.

Lemma keeps_world {A} st (f : W -> W * res A) : keeps st (world f) (fun _ _ => True).
Proof. intros w e He. unfold post, world. destruct (f w). split; [apply kept_refl, He|done]. Qed.

Lemma keeps_check_quorum st : keeps st (check_quorum o) (fun _ _ => True).
Proof.
  intros w e He. unfold post, check_quorum. destruct (o_raft o); [destruct (raft_HasQuorum w) as [w' b]|];
    (split; [apply kept_refl, He|done]).
Qed.

Lemma pending_frame s s' : ds_healthy s -> ds_healthy s' ->
  (forall k, k <> GetMetaKey LastSubmittedDataHeightKey -> ds_view s' !! k = ds_view s !! k) ->
  getPendingBlock (K := K) s' = getPendingBlock s.
Proof.
  intros Hs Hs' Hk. unfold getPendingBlock. rewrite !(meta_frame s s'); try done; apply Hk; discriminate.
Qed.

Lemma keeps_pending_limit st : keeps st (pending_limit o) (fun _ _ => True).
Proof.
  intros w e He. unfold post, pending_limit. destruct (_ <? _); [|split; [apply kept_refl, He|done]].
  destruct (_ || _); [|split; [|done]; apply kept_fields; [apply He|done..]]. simpl.
  pose proof (NumPendingData_frame (K := K) (store e) (pendingData (cache e)) (ei_healthy _ _ He)) as Hn.
  rewrite (ei_key _ _ He) in Hn. specialize (Hn eq_refl).
  destruct (NumPendingData _ _) as [[s' pd'] n]. destruct Hn as (Hs' & Hk & Hv). split; [|done].
  pose proof (ei_healthy _ _ He) as Hs.
  split; try done; simpl.
  - apply meta_same_chain; try done. intros k Hne. by apply Hv.
  - by rewrite Hk, (ei_key _ _ He).
  - left. by apply pending_frame.
Qed.

Lemma keeps_reuse_pending st : keeps st (reuse_pending (LastBlockHeight st + 1))
  (fun e blk => match blk with Some (sh, d) => next_of (store e) st sh d | None => True end).
Proof.
  intros w e He. unfold post, reuse_pending. simpl.
  assert (Hr : kept e e st) by apply kept_refl, He.
  destruct (hasPendingBlock e); [|split; [done|by intros ? [= <-]]].
  destruct (getPendingBlock (store e)) as [[[sh d]|]|er] eqn:E.
  - split; [done|]. intros a [= <-]. destruct (Z.eqb_spec (hd_Height (sh_Header sh)) (LastBlockHeight st + 1)); [|done].
    by apply (ei_pending _ _ He sh d).
  - split; [done|]. by intros ? [= <-].
  - split; [done|]. destruct (errors_is er ErrNotFound); [by intros ? [= <-]|done].
Qed.

Lemma keeps_RetrieveBatch st : keeps st (RetrieveBatch o) (fun _ _ => True).
Proof. intros w e He. unfold post, RetrieveBatch. destruct (seq_GetNextBatch _ _). split; [apply kept_refl, He|done]. Qed.

(** *** The block built from a batch *)

Lemma last_block_spec e st info : exec_inv e st -> g_InitialHeight g <= LastBlockHeight st ->
  last_block e (LastBlockHeight st + 1) = Ok info ->
  exists (ph : SignedHeader K) pd, GetBlockData (store e) (LastBlockHeight st) = Ok (ph, pd) /\
    headerHash info = Header_Hash (sh_Header ph) /\ dataHash info = Data_Hash pd.
Proof.
  intros He Hi. destruct (ei_block _ _ He Hi) as (ph & pd & sig & E1 & E2 & E3). unfold last_block.
  destruct (lastInfo e) as [i|]; [intros [= <-]; exists ph, pd; split; [done|by apply E3]|].
  assert (Hu : is_u64 (LastBlockHeight st)) by apply (ei_valid _ _ He).
  rewrite Z.add_simpl_r, u64_small, E1, E2 by done. simpl. intros [= <-]. by exists ph, pd.
Qed.

Lemma CreateBlock_next e st bd sh d : exec_inv e st -> LastBlockHeight st + 1 < two64 ->
  CreateBlock o e (LastBlockHeight st + 1) bd = Ok (sh, d) -> next_of (store e) st sh d.
Proof.
  intros He Hb E. pose proof (ei_valid _ _ He) as ((Vb & Va) & _ & _ & Vh & _). simpl in Vb, Va, Vh.
  unfold CreateBlock in E. res_inv E. destruct x as [t info]. res_inv E. destruct x as [pk vh].
  destruct bd as [bd|]; [|done]. injection E as <- <-.
  assert (Ht : is_u64 t /\ (g_InitialHeight g <= LastBlockHeight st -> last_block e (LastBlockHeight st + 1) = Ok info)).
  { destruct (Z.ltb_spec (g_InitialHeight g) (LastBlockHeight st + 1)).
    - res_inv Hx. injection Hx as <- <-. split; [apply u64_range|done].
    - injection Hx as <- <-. split; [apply u64_range|lia]. }
  destruct Ht as [Ht Hlast]. destruct Hg as [Hid _].
  assert (Hh : is_u64 (LastBlockHeight st + 1)) by (unfold is_u64 in *; lia).
  assert (El : getLastState e = st) by (unfold getLastState; by rewrite (ei_last _ _ He)). rewrite El.
  split; simpl; try done.
  - by intros [].
  - eexists. split_and!; try done. simpl. intros Hi. simpl in *.
    destruct (last_block_spec e st info He) as (ph & pd & E1 & E2); [lia|apply Hlast; lia|].
    exists ph, pd. replace (LastBlockHeight st + 1 - 1) with (LastBlockHeight st) by lia. done.
Qed.

(** *** The pending block *)

Lemma unmarshal_signer_ok b (sh : SignedHeader K) : SignedHeader_UnmarshalBinary b = Ok sh -> signer_ok (sh_Signer sh).
Proof.
  unfold SignedHeader_UnmarshalBinary, SignedHeader_FromProto. intros E. res_inv E.
  destruct (psh_Header _); [|done]. res_inv E. res_inv E. injection E as <-. simpl.
  unfold Signer_FromProto in *. intros Hne. destruct (psh_Signer _) as [ps|]; [|by injection Hx1 as <-].
  destruct (ps_PubKey ps) as [|c l] eqn:Ep; [by injection Hx1 as <-|]. res_inv Hx1. injection Hx1 as <-. by eexists.
Qed.

Lemma next_of_wire s st (sh sh' : SignedHeader K) d : next_of s st sh d -> same_header sh sh' ->
  signer_ok (sh_Signer sh') -> next_of s st sh' d.
Proof.
  intros [N1 N2 N3 N4 N5 N6 N7 N8 N9] (E & _ & _) Hk.
  assert (E' : sh_Header sh' = sh_Header sh).
  { rewrite E. destruct sh as [[? ? ? ? ? ? ? ? ? l] ? ?]. simpl in N4. by subst l. }
  split; rewrite ?E'; done.
Qed.

Lemma savePendingBlock_spec s st (sh : SignedHeader K) d : ds_healthy s -> next_of s st sh d ->
  exists s' sh', savePendingBlock (B := B) sh d s = (s', Ok tt) /\ same s s' /\ same_header sh sh' /\
    getPendingBlock s' = Ok (Some (sh', d)) /\ next_of s st sh' d.
Proof.
  intros Hs Hn. destruct (signed_header_binary sh (nx_header _ _ _ _ Hn) (nx_signer _ _ _ _ Hn)) as (hb & sh' & Eh & Uh & Hsame).
  destruct (data_binary d (nx_data _ _ _ _ Hn)) as (db & Ed & Ud).
  unfold savePendingBlock. rewrite Eh, Ed, !NewKey_meta by done.
  destruct (in_batch_spec (B := B) s "create batch for early save" "commit pending block"
    (bm_wrap "save pending header" (put (GetMetaKey headerKey) hb) ;;;
     bm_wrap "save pending data" (put (GetMetaKey dataKey) db)) [meta_put headerKey hb; meta_put dataKey db] Hs)
    as (s' & E & Hs' & V).
  { apply (writes_seq _ _ [_] [_]); apply writes_wrap, writes_put. }
  exists s', sh'. split_and!; [done| |done| |].
  - apply meta_same_chain; try done. intros k Hk. rewrite V. simpl.
    rewrite !lookup_insert_ne by (apply not_eq_sym, Hk). done.
  - unfold getPendingBlock. rewrite !GetMetadata_view, V by done. simpl.
    rewrite lookup_insert_ne, !lookup_insert_eq by discriminate. by rewrite Uh, Ud.
  - eapply next_of_wire; [done|done|]. by eapply unmarshal_signer_ok.
Qed.

Lemma keeps_new_block st : LastBlockHeight st + 1 < two64 -> keeps st (new_block (B := B) o (LastBlockHeight st + 1))
  (fun e blk => match blk with Some (sh, d) => next_of (store e) st sh d | None => True end).
Proof.
  intros Hb. apply (keeps_bind _ _ _ (fun _ _ => True)); [apply keeps_RetrieveBatch|].
  intros [bd er] w e He _. set (build := bm_bind _ _).
  assert (Hbuild : post build (w, e) (fun we' r => kept e we'.2 st /\ forall b, r = Ok b ->
    match b with Some (sh, d) => next_of (store we'.2) st sh d | None => True end)).
  { apply post_bind, post_wrap. unfold post at 1. simpl.
    destruct (CreateBlock o e _ bd) as [[sh d]|] eqn:Ec; simpl; [|split; [apply kept_refl, He|done]].
    pose proof (CreateBlock_next e st bd sh d He Hb Ec) as Hn.
    destruct (savePendingBlock_spec (store e) st sh d (ei_healthy _ _ He) Hn) as (s' & sh' & Es & Hc & Hsame & Ep & Hn').
    apply post_bind, post_wrap. unfold post, write. simpl. rewrite Es. simpl. split.
    - split; try done. right. by exists sh', d.
    - intros b [= <-]. by eapply next_of_same. }
  destruct er as [er|]; [|exact Hbuild]. destruct (errors_is er ErrNoBatch).
  { apply post_ret. split; [apply kept_refl, He|by intros ? [= <-]]. }
  destruct (errors_is er ErrNoTransactionsInBatch); [exact Hbuild|].
  apply post_err. split; [apply kept_refl, He|done].
Qed.

(** *** Executing *)

(** The block was executed: some call on the state's root returned [root]. *)
Definition executed (st : State) (h : Header) (d : Data) (root : bytes) : Prop :=
  exists w w', exec_ExecuteTxs w (Txs d) (hd_Height h) (unix_time (hd_Time h)) (st_AppHash st) = (w', Ok root).

Lemma keeps_exec_retry left st h d : (0 < left)%nat ->
  keeps st (exec_retry left (Txs d) h (st_AppHash st)) (fun _ root => executed st h d root).
Proof.
  induction left as [|left IH]; [lia|]. intros _ w e He. unfold post. cbn [exec_retry].
  destruct (exec_ExecuteTxs _ _ _ _ _) as [w' [root|er]] eqn:E.
  - split; [apply kept_refl, He|]. intros a [= <-]. by exists w, w'.
  - destruct left; [split; [apply kept_refl, He|done]|].
    destruct (retry_wait w') as [w2 [|]]; [split; [apply kept_refl, He|done]|]. apply IH; [lia|done].
Qed.

Lemma keeps_ApplyBlock st h d :
  keeps st (ApplyBlock h d) (fun _ ns => exists root, executed st h d root /\ ns = NextState st h root).
Proof.
  apply keeps_state.
  apply (keeps_bind _ _ _ (fun _ root => executed st h d root)).
  { apply keeps_critical, keeps_exec_retry. unfold MaxRetriesBeforeHalt. lia. }
  intros root w e He Hx. apply post_ret. split; [apply kept_refl, He|]. intros b [= <-]. eauto.
Qed.

Lemma keeps_assert_sequence st cs h : keeps st (assert_sequence cs h) (fun _ _ => True).
Proof.
  intros w e He. unfold post, assert_sequence. destruct (AssertValidSequence _ _ _).
  split; [apply kept_fields; (done || apply He)|done].
Qed.

Lemma propose_world n h d w e : exists w' r, propose (C := C) o n h d (w, e) = ((w', e) : W * exc, r).
Proof.
  unfold propose, bm_bind, bm_wrap, ask, world. destruct (o_raft o); [|by eexists _, _].
  destruct (SignedHeader_MarshalBinary h); [|by eexists _, _]. simpl.
  destruct (Data_MarshalBinary d); [|by eexists _, _]. simpl.
  destruct (raft_Broadcast _ _) as [w' r]. by eexists _, _.
Qed.

(** *** Committing *)

Lemma writes_wrapped (m1 m2 m3 : bm B unit) a1 a2 a3 ops : writes (m1 ;;; m2 ;;; m3) ops ->
  writes (bm_wrap a1 m1 ;;; bm_wrap a2 m2 ;;; bm_wrap a3 m3) ops.
Proof.
  intros Hm b Hb. destruct (Hm b Hb) as (b' & E & ?). exists b'. split; [|done].
  unfold bm_bind, bm_wrap in *. destruct (m1 b) as [b1 [[]|]]; [|done]. simpl.
  destruct (m2 b1) as [b2 [[]|]]; [|done]. simpl. by destruct (m3 b2) as [b3 [[]|]].
Qed.

(** The state with the sequencer's DA height. *)
Definition with_DAHeight (st : State) (d : Z) : State := {|
  st_Version := st_Version st; st_ChainID := st_ChainID st; st_InitialHeight := st_InitialHeight st;
  LastBlockHeight := LastBlockHeight st; LastBlockTime := LastBlockTime st; st_LastHeaderHash := st_LastHeaderHash st;
  st_DAHeight := d; st_AppHash := st_AppHash st |}.

(** The store after block [sh], [d] was committed on [s] with state [st']. *)
Record committed (s s' : D) (sh : SignedHeader K) (d : Data) (sig : bytes) (st' : State) : Prop := {
  cm_healthy : ds_healthy s';
  cm_height : Height s' = Ok (LastBlockHeight st');
  cm_state : GetStateAtHeight s' (LastBlockHeight st') = Ok st';
  cm_block : exists sh', GetBlockData s' (LastBlockHeight st') = Ok (sh', d) /\
    sh_Header sh' = sh_Header sh /\ sh_Signature sh' = sig;
  cm_signature : GetSignature s' (LastBlockHeight st') = Ok sig;
  cm_others h : is_u64 h -> h <> LastBlockHeight st' ->
    block_at (K := K) s' h = block_at s h /\ GetStateAtHeight s' h = GetStateAtHeight s h;
  cm_pending : getPendingBlock (K := K) s' = getPendingBlock s;
}.

Lemma commit_spec s st sh d sig st' : ds_healthy s -> Height s = Ok (LastBlockHeight st) -> next_of s st sh d ->
  proto_valid (State_ToProto st') -> LastBlockHeight st' = LastBlockHeight st + 1 ->
  let sh1 := {| sh_Header := sh_Header sh; sh_Signature := sig; sh_Signer := sh_Signer sh |} in
  exists b b' s', NewBatch s = Ok b /\
    commit_writes (B := B) s (LastBlockHeight st + 1) sh1 d sig st' b = (b', Ok tt) /\
    Commit s b' = (s', Ok tt) /\ committed s s' sh d sig st'.
Proof.
  intros Hs Hh Hn Hv Hl sh1. pose proof (nx_height _ _ _ _ Hn) as Ehh.
  destruct (block_ops (B := B) s sh1 d sig st' _ Hh (nx_header _ _ _ _ Hn) (nx_signer _ _ _ _ Hn) (nx_data _ _ _ _ Hn) Hv
    ltac:(simpl; congruence)) as (hb & sh' & db & stb & hops & Eh & Uh & Hsame & Ud & Us & Hops & Hw).
  unfold block_writes in Hw. simpl in Hops, Hw. rewrite Ehh in Hops, Hw.
  destruct (run_writes s _ _ Hs (writes_wrapped _ _ _ "failed to save block" "failed to update store height"
    "failed to update state" _ Hw)) as (b & b' & s' & Eb & Em & Ec & Hs' & V).
  exists b, b', s'. split_and!; [done..|].
  match type of V with _ = apply_ops _ ?ops =>
    assert (Hm : forall key, Forall (fun o : batch_op => o.1 <> GetMetaKey key) ops) end.
  { intros key. repeat constructor; try discriminate.
    destruct Hops as [[_ ->]|[_ ->]]; repeat constructor; discriminate. }
  destruct (block_reads s s' sh1 d sig st' _ hb sh' db stb hops Hs Hs' Hh (nx_header _ _ _ _ Hn) Eh Uh Hsame Ud Us)
    as [R1 R2 R3 R4 R5 R6]; [simpl; by rewrite Ehh|simpl; by rewrite Ehh|].
  simpl in R1, R2, R3, R4, R5, R6. rewrite Ehh, <- Hl in R1, R2, R3, R4, R5, R6.
  assert (El : sh_Header sh' = sh_Header sh).
  { destruct Hsame as (-> & _). simpl. pose proof (nx_legacy _ _ _ _ Hn) as Hlg.
    destruct (sh_Header sh). simpl in Hlg. by subst. }
  split; [done| |done| |done|done|].
  - rewrite R1. f_equal. lia.
  - destruct R2 as (sh2 & blob & S1 & S2 & _ & S4 & _). rewrite Eh in S2. exists sh2. split; [done|].
    destruct S1 as (-> & -> & _). split; [|done]. rewrite <- El. symmetry. apply Hsame.
  - unfold getPendingBlock. rewrite !(meta_frame s s'); try done; rewrite V; apply lookup_apply_ops_ne, Hm.
Qed.

(** The chain grew by one block, which continues [st], was executed and signed. *)
Record extended (e e' : exc) (st st' : State) : Prop := {
  xt_inv : exec_inv e' st';
  xt_height : LastBlockHeight st' = LastBlockHeight st + 1;
  xt_flag : hasPendingBlock e' = false;
  xt_block : exists (sh sh' : SignedHeader K) d sig, next_of (store e) st sh d /\
    GetBlockData (store e') (LastBlockHeight st') = Ok (sh', d) /\ sh_Header sh' = sh_Header sh /\
    signHeader o (sh_Header sh) = Ok sig /\ sh_Signature sh' = sig /\
    GetSignature (store e') (LastBlockHeight st') = Ok sig /\
    executed st (sh_Header sh) d (st_AppHash st') /\
    exists da, st' = with_DAHeight (NextState st (sh_Header sh) (st_AppHash st')) da;
  xt_others h : is_u64 h -> h <> LastBlockHeight st' ->
    block_at (K := K) (store e') h = block_at (store e) h /\
    GetStateAtHeight (store e') h = GetStateAtHeight (store e) h;
}.

Lemma inv_committed e e' st st' sh d sig : exec_inv e st -> committed (store e) (store e') sh d sig st' ->
  lastState e' = Some st' ->
  lastInfo e' = Some {| headerHash := Header_Hash (sh_Header sh); dataHash := Data_Hash d; signature := sig |} ->
  metaKey (pendingData (cache e')) = metaKey (pendingData (cache e)) -> LastBlockHeight st' = LastBlockHeight st + 1 ->
  proto_valid (State_ToProto st') -> exec_inv e' st'.
Proof.
  intros He [C1 C2 C3 (sh' & C4 & C4' & C4'') C5 C6 C7] El Ei Ek Eh Hv.
  split; [done|done|done|done|done| | |by rewrite Ek, (ei_key _ _ He)].
  - intros _. exists sh', d, sig. split_and!; [done..|]. intros info. rewrite Ei. intros [= <-]. by rewrite C4'.
  - intros sh0 d0 E. rewrite C7 in E. destruct (ei_pending _ _ He _ _ E) as [Hle _]. split; lia.
Qed.

Lemma extended_kept e1 e2 e3 st st' : exec_inv e1 st -> kept e1 e2 st -> extended e2 e3 st st' -> extended e1 e3 st st'.
Proof.
  intros He Hk [X1 X2 X3 (sh & sh' & d & sig & Hn & X4) X5]. split; try done.
  - exists sh, sh', d, sig. split; [|done]. apply (next_of_same (store e2)); [|done].
    apply same_chain_sym; [apply He|apply Hk].
  - intros h Hu Hne. destruct (X5 h Hu Hne) as [-> ->]. split; by apply Hk.
Qed.

Context (HDA : forall w, is_u64 (seq_GetDAHeight w)).

(** What sealing may do: fail and keep the chain, or extend it. *)
Definition sealed (e : exc) (st : State) (we' : W * exc) (r : res unit) : Prop :=
  (exists er, r = Err er) /\ kept e we'.2 st \/
  (r = Ok tt \/ o_BasedSequencer o = true) /\ exists st', extended e we'.2 st st'.

Lemma sealed_kept e e1 st we' r : exec_inv e st -> kept e e1 st -> sealed e1 st we' r -> sealed e st we' r.
Proof.
  intros He Hk [[Hr Hk']|[Hr (st' & Hx)]]; [left|right]; (split; [done|]).
  - eapply kept_trans; [apply He|done|done].
  - exists st'. by eapply extended_kept.
Qed.

(** A step that keeps the chain, before the rest of the sealing. *)
Lemma sealed_bind {A} st (m : bm (W * exc) A) (k : A -> bm (W * exc) unit) Q w e : keeps st m Q -> exec_inv e st ->
  (forall a w' e', exec_inv e' st -> kept e e' st -> Q e' a -> post (k a) (w', e') (sealed e' st)) ->
  post (bm_bind m k) (w, e) (sealed e st).
Proof.
  intros Hm He Hk. apply post_bind. eapply post_mono; [|by apply Hm]. intros [w' e'] r [Hkp Hr]. simpl in *.
  destruct r as [a|er]; [|left; by eauto].
  eapply post_mono; [|apply Hk; [by eapply inv_kept|done|by apply Hr]]. intros y r. by apply sealed_kept.
Qed.

Lemma keeps_pure {A} st (r : res A) : keeps st (fun we => (we, r)) (fun _ a => r = Ok a).
Proof. intros w e He. split; [apply kept_refl, He|done]. Qed.

Lemma broadcast_world h d w e : exists w', broadcast (C := C) h d (w, e) = ((w', e) : W * exc, Ok tt).
Proof. unfold broadcast. destruct (p2p_header _ _) as [w1 r1]. destruct (p2p_data _ _) as [w2 r2]. by exists w2. Qed.

(** From the commit on: the store batch either is not committed, or everything is updated. *)
Lemma finish_block st sh d sig ns w e : exec_inv e st -> next_of (store e) st sh d ->
  proto_valid (State_ToProto ns) -> LastBlockHeight ns = LastBlockHeight st + 1 ->
  (exists da, ns = with_DAHeight (NextState st (sh_Header sh) (st_AppHash ns)) da) ->
  executed st (sh_Header sh) d (st_AppHash ns) -> signHeader o (sh_Header sh) = Ok sig ->
  let sh1 := {| sh_Header := sh_Header sh; sh_Signature := sig; sh_Signer := sh_Signer sh |} in
  post (commit_block (B := B) o (LastBlockHeight st + 1) sh1 d sig ns ;;;
        modify (set_hasPending false) ;;; modify (setLastState ns) ;;;
        modify (set_info {| headerHash := st_LastHeaderHash ns; dataHash := Data_Hash d; signature := sig |}) ;;;
        broadcast sh1 d ;;;
        (if o_BasedSequencer o then
           critical "failed to set final height in based sequencer mode"
             (world (fun w => exec_SetFinal w (LastBlockHeight st + 1)))
         else bm_ret tt)) (w, e) (sealed e st).
Proof.
  intros He Hn Hv Hl Hns Hx Hsig sh1.
  assert (Hlh : st_LastHeaderHash ns = Header_Hash (sh_Header sh)) by (by destruct Hns as [da ->]).
  destruct (commit_spec (store e) st sh d sig ns (ei_healthy _ _ He) (ei_height _ _ He) Hn Hv Hl)
    as (b & b' & s' & Eb & Em & Ec & Hcm).
  set (i := {| headerHash := _; dataHash := _; signature := _ |}).
  apply post_bind. unfold commit_block. apply post_bind. unfold post at 1, ask. simpl.
  apply post_bind, post_wrap. unfold post at 1, read. simpl. rewrite Eb. simpl.
  apply post_bind. unfold post at 1. unfold sh1 in *. rewrite Em. simpl. apply post_bind. unfold post at 1.
  destruct (propose_world (LastBlockHeight st + 1) {| sh_Header := sh_Header sh; sh_Signature := sig; sh_Signer := sh_Signer sh |} d w e)
    as (w1 & r1 & ->).
  destruct r1 as [[]|er]; [|left; split; [by eauto|apply kept_refl, He]].
  apply post_wrap. unfold post at 1, write. rewrite Ec. simpl.
  set (e1 := set_info i (setLastState ns (set_hasPending false (set_store s' e)))).
  unfold post, bm_bind, modify. fold e1.
  destruct (broadcast_world {| sh_Header := sh_Header sh; sh_Signature := sig; sh_Signer := sh_Signer sh |} d w1 e1) as (w2 & ->).
  assert (Hext : forall e2 : exc, store e2 = store e1 -> lastState e2 = lastState e1 -> lastInfo e2 = lastInfo e1 ->
    cache e2 = cache e1 -> hasPendingBlock e2 = hasPendingBlock e1 -> extended e e2 st ns).
  { intros e2 E1 E2 E3 E4 E5. pose proof Hcm as [C1 C2 C3 (sh' & C4 & C4' & C4'') C5 C6 C7].
    split; rewrite ?E1, ?E5; try done.
    - apply (inv_committed e e2 st ns sh d sig); rewrite ?E1, ?E2, ?E3, ?E4; try done. simpl. unfold i. by rewrite Hlh.
    - exists sh, sh', d, sig. by split_and!. }
  destruct (o_BasedSequencer o) eqn:Ebs; [|right; split; [by left|]; exists ns; by apply Hext].
  unfold critical, world. destruct (exec_SetFinal _ _) as [w3 [[]|er]]; right; (split; [by right|]); exists ns;
    [by apply Hext|]. simpl. unfold push_critical. repeat case_match; by apply Hext.
Qed.

Lemma seal_block_outcome st sh d w e : exec_inv e st -> next_of (store e) st sh d -> LastBlockHeight st + 1 < two64 ->
  post (seal_block (B := B) o st (LastBlockHeight st + 1) (sh, d)) (w, e) (sealed e st).
Proof.
  intros He Hn Hb. unfold seal_block.
  eapply sealed_bind; [apply keeps_check_quorum|done|]. intros _ w1 e1 He1 Hk1 _.
  eapply sealed_bind; [apply keeps_wrap, keeps_ApplyBlock|done|]. intros ns w2 e2 He2 Hk2 (root & Hx & ->).
  apply post_bind. unfold post at 1. cbn [fst].
  set (ns := {| st_Version := _ |}).
  eapply sealed_bind; [apply keeps_wrap, keeps_pure|done|]. intros sig w3 e3 He3 Hk3 Hsig.
  eapply sealed_bind; [apply keeps_critical, keeps_assert_sequence|done|]. intros _ w4 e4 He4 Hk4 _.
  assert (Hkk : kept e e4 st) by eauto 10 using kept_trans, ei_healthy.
  apply finish_block; try done.
  - by apply (next_of_same (store e)); [apply Hkk|].
  - pose proof (ei_valid _ _ He) as Hv. pose proof (nx_header _ _ _ _ Hn) as (_ & _ & Hh & _).
    pose proof (next_state_valid st (sh_Header sh) root Hv Hh) as (V1 & V2 & V3 & V4 & V5 & V6).
    split_and!; try done. simpl. apply HDA.
  - simpl. apply Hn.
  - by exists (seq_GetDAHeight w2).
Qed.

(** What one call may do: keep the chain, or extend it by one block. *)
Definition produced (e : exc) (st : State) (we' : W * exc) (r : res unit) : Prop :=
  kept e we'.2 st \/ (r = Ok tt \/ o_BasedSequencer o = true) /\ exists st', extended e we'.2 st st'.

Lemma produced_kept e e1 st we' r : exec_inv e st -> kept e e1 st -> produced e1 st we' r -> produced e st we' r.
Proof.
  intros He Hk [Hk'|[Hr (st' & Hx)]]; [left; eapply kept_trans; (done || apply He)|right].
  split; [done|]. exists st'. by eapply extended_kept.
Qed.

Lemma produced_bind {A} st (m : bm (W * exc) A) (k : A -> bm (W * exc) unit) Q w e : keeps st m Q -> exec_inv e st ->
  (forall a w' e', exec_inv e' st -> Q e' a -> post (k a) (w', e') (produced e' st)) ->
  post (bm_bind m k) (w, e) (produced e st).
Proof.
  intros Hm He Hk. apply post_bind. eapply post_mono; [|by apply Hm]. intros [w' e'] r [Hkp Hr]. simpl in *.
  destruct r as [a|er]; [|by left].
  eapply post_mono; [|apply Hk; [by eapply inv_kept|by apply Hr]]. intros y r. by apply produced_kept.
Qed.

Lemma produce_spec ctxErr st w e : exec_inv e st -> LastBlockHeight st + 1 < two64 ->
  post (ProduceBlock (B := B) o ctxErr) (w, e) (produced e st).
Proof.
  intros He Hb. unfold ProduceBlock. destruct ctxErr as [er|]; [apply post_err; left; apply kept_refl, He|].
  eapply produced_bind; [apply keeps_check_quorum|done|]. intros _ w1 e1 He1 _.
  apply post_bind. unfold post at 1, ask, getLastState. simpl. rewrite (ei_last _ _ He1). simpl.
  pose proof (ei_valid _ _ He) as (_ & _ & _ & Vh & _). simpl in Vh.
  rewrite u64_small by (unfold is_u64 in *; lia).
  eapply produced_bind; [apply keeps_pending_limit|done|]. intros [|] w2 e2 He2 _.
  { apply post_ret. left. apply kept_refl, He2. }
  set (Q := fun (e : exc) (blk : option (SignedHeader K * Data)) =>
    match blk with Some (sh, d) => next_of (store e) st sh d | None => True end).
  apply (produced_bind st _ _ Q); [apply keeps_reuse_pending|done|]. intros pending w3 e3 He3 Hp.
  assert (Hkeep : post (match pending with Some blk => bm_ret (Some blk) | None => new_block (B := B) o (LastBlockHeight st + 1) end)
    (w3, e3) (fun we' r => kept e3 we'.2 st /\ forall a, r = Ok a -> Q we'.2 a)).
  { destruct pending as [blk|]; [|by apply keeps_new_block].
    apply post_ret. split; [apply kept_refl, He3|]. by intros a [= <-]. }
  apply post_bind. eapply post_mono; [|exact Hkeep]. intros [w4 e4] r [Hk Hr]. simpl in *.
  destruct r as [blk|er]; [|by left]. specialize (Hr blk eq_refl). assert (He4 : exec_inv e4 st) by by eapply inv_kept.
  destruct blk as [[sh d]|]; [|by apply post_ret; left].
  eapply post_mono; [|by apply seal_block_outcome]. intros y r Hs. apply (produced_kept e3 e4); try done.
  destruct Hs as [[_ ?]|?]; [by left|by right].
Qed.

(** C8: One call of [ProduceBlock], whatever the sequencer, the execution client, the raft node, the
    signer and the context do: either the chain (height, blocks, states), the last state and the
    invariant are as before, or the chain has grown by exactly one block, at the next height, that
    links to the block below (header and data hash), carries the last app hash and its data's
    commitment, was executed on the last root, is signed, and is stored with the new state; an
    error after that is only possible when a based node cannot finalize it. *)
Theorem ProduceBlock_outcome (ctxErr : option err) (st : State) (w : W) (e : exc)
  (He : exec_inv e st) (Hb : LastBlockHeight st + 1 < two64) :
  let '((w', e'), r) := ProduceBlock (B := B) o ctxErr (w, e) in
  kept e e' st /\ exec_inv e' st \/
  (r = Ok tt \/ o_BasedSequencer o = true) /\ exists st', extended e e' st st'.
Proof.
  pose proof (produce_spec ctxErr st w e He Hb) as Hp. unfold post in Hp.
  destruct (ProduceBlock o ctxErr (w, e)) as [[w' e'] r]. destruct Hp as [Hk|Hx]; [left|by right].
  split; [done|]. by eapply inv_kept.
Qed.

(** *** Whole runs *)

(** The block of height [h] hangs on the one below. *)
Definition linked_at (s : D) (h : Z) : Prop :=
  exists (sh : SignedHeader K) d m st sig, GetBlockData s h = Ok (sh, d) /\ hd_Height (sh_Header sh) = h /\
    dt_Metadata d = Some m /\ linked_below s (sh_Header sh) m /\
    GetStateAtHeight s (h - 1) = Ok st /\ AppHash (sh_Header sh) = st_AppHash st /\
    DataHash (sh_Header sh) = (if blen (Txs d) =? 0 then DataHashForEmptyTxs else DACommitment d) /\
    GetSignature s h = Ok sig /\ signHeader o (sh_Header sh) = Ok sig.

Lemma linked_frame s s' h : block_at (K := K) s' h = block_at s h -> block_at (K := K) s' (h - 1) = block_at s (h - 1) ->
  GetStateAtHeight s' (h - 1) = GetStateAtHeight s (h - 1) -> linked_at s h -> linked_at s' h.
Proof.
  unfold block_at. intros [= _ E1 E2] [= _ E3 _] E4 (sh & d & m & st & sig & L1 & L2 & L3 & L4 & L5 & L6 & L7 & L8 & L9).
  exists sh, d, m, st, sig. rewrite E1, E2, E4. split_and!; try done.
  unfold linked_below in *. rewrite L2 in *. by rewrite E3.
Qed.

Lemma extended_linked e e' st st' : exec_inv e st -> extended e e' st st' -> LastBlockHeight st' < two64 ->
  linked_at (store e') (LastBlockHeight st').
Proof.
  intros He [X1 X2 X3 (sh & sh' & d & sig & Hn & X4 & X5 & X6 & X7 & X8 & X9 & X10) Xo] Hb.
  pose proof (ei_valid _ _ He) as (_ & _ & _ & Vh & _). simpl in Vh.
  destruct Hn as [N1 N2 N3 N4 N5 N6 N7 N8 (m & M1 & M2 & M3 & M4 & M5)].
  destruct (Xo (LastBlockHeight st)) as [Eb Es]; [done|lia|].
  exists sh', d, m, st, sig. rewrite X5. split_and!; try (done || congruence).
  - intros Hi. destruct (M5 Hi) as (ph & pd & E & ?). exists ph, pd. unfold block_at in Eb. injection Eb as _ Eb _.
    rewrite N6, Z.add_simpl_r in *. by rewrite Eb.
  - rewrite X2, Z.add_simpl_r, Es. apply He.
Qed.

Fixpoint run_loop (evs : list (option err * event)) (l : loop_state) (we : W * exc) : loop_state * (W * exc) :=
  match evs with
  | [] => (l, we)
  | (ctxErr, ev) :: evs' => let '(l', we') := on_event (B := B) o ctxErr ev l we in run_loop evs' l' we'
  end.

(** The chain of [e'] continues the chain of [e] up to the heights of their states. *)
Record grown (e e' : exc) (st st' : State) : Prop := {
  gr_inv : exec_inv e' st';
  gr_height : LastBlockHeight st <= LastBlockHeight st';
  gr_linked h : LastBlockHeight st < h <= LastBlockHeight st' -> linked_at (store e') h;
  gr_below h : is_u64 h -> h <= LastBlockHeight st ->
    block_at (K := K) (store e') h = block_at (store e) h /\
    GetStateAtHeight (store e') h = GetStateAtHeight (store e) h;
}.

Lemma grown_trans e1 e2 e3 st1 st2 st3 : exec_inv e1 st1 -> exec_inv e2 st2 ->
  grown e1 e2 st1 st2 -> grown e2 e3 st2 st3 -> grown e1 e3 st1 st3.
Proof.
  intros I1 I2 [A1 A2 A3 A4] [B1 B2 B3 B4].
  pose proof (ei_valid _ _ I1) as (_ & _ & _ & V1 & _). pose proof (ei_valid _ _ I2) as (_ & _ & _ & V2 & _). simpl in V1, V2.
  split; [done|lia| |].
  - intros h Hh. destruct (decide (h <= LastBlockHeight st2)); [|apply B3; lia].
    unfold is_u64 in *. destruct (B4 h) as [Eb _]; [unfold is_u64; lia|done|].
    destruct (B4 (h - 1)) as [Eb' Es']; [unfold is_u64; lia|lia|].
    apply (linked_frame (store e2)); try done. apply A3. lia.
  - intros h Hu Hh. destruct (A4 h Hu Hh) as [<- <-]. apply B4; [done|lia].
Qed.

Lemma produced_grown e st we' r : exec_inv e st -> LastBlockHeight st + 1 < two64 -> produced e st we' r ->
  exists st', grown e we'.2 st st' /\ LastBlockHeight st' <= LastBlockHeight st + 1.
Proof.
  intros He Hb [Hk|[_ (st' & Hx)]].
  - exists st. split; [|lia]. split; [by eapply inv_kept|lia|lia|]. intros h Hu _. split; by apply Hk.
  - exists st'. pose proof (xt_height _ _ _ _ Hx) as Eh. split; [|lia]. split; [apply Hx|lia| |].
    + intros h Hh. replace h with (LastBlockHeight st') by lia. apply (extended_linked e _ st); (done || lia).
    + intros h Hu Hle. apply Hx; [done|lia].
Qed.

Lemma event_grown ctxErr ev l w e st : exec_inv e st -> LastBlockHeight st + 1 < two64 ->
  exists st', grown e (on_event (B := B) o ctxErr ev l (w, e)).2.2 st st' /\ LastBlockHeight st' <= LastBlockHeight st + 1.
Proof.
  intros He Hb.
  assert (Hid : exists st', grown e e st st' /\ LastBlockHeight st' <= LastBlockHeight st + 1).
  { exists st. split; [|lia]. split; [done|lia|lia|done]. }
  pose proof (produce_spec ctxErr st w e He Hb) as Hp. unfold post in Hp. unfold on_event.
  destruct (ProduceBlock o ctxErr (w, e)) as [we' r]. apply produced_grown in Hp; [|done..].
  destruct ev; simpl.
  - destruct (o_LazyMode o && negb (txsAvailable l)); [exact Hid|exact Hp].
  - destruct (o_LazyMode o); [exact Hp|exact Hid].
  - exact Hid.
Qed.

(** C3: Whatever sequence of timer ticks and transaction notifications the production loop receives,
    in normal or lazy mode, and whatever the components it calls answer: the invariant holds at
    the end, the heights have grown by at most one per event without a gap, every new block links
    to the one below, carries the app hash its predecessor's execution left and a signature over
    it, and no block or state that was there before has changed. *)
Theorem production_chain (evs : list (option err * event)) (l : loop_state) (w : W) (e : exc) (st : State)
  (He : exec_inv e st) (Hb : LastBlockHeight st + Z.of_nat (length evs) < two64) :
  let '(_, (_, e')) := run_loop evs l (w, e) in
  exists st', grown e e' st st' /\ LastBlockHeight st' <= LastBlockHeight st + Z.of_nat (length evs).
Proof.
  revert l w e st He Hb. induction evs as [|[c ev] evs IH]; intros l w e st He Hb; cbn [run_loop].
  { exists st. split; [|simpl; lia]. split; [done|lia|lia|done]. }
  cbn [length] in Hb. destruct (event_grown c ev l w e st He) as (st1 & G1 & B1); [lia|].
  destruct (on_event _ _ _ _ _) as [l1 [w1 e1]]. simpl in G1.
  specialize (IH l1 w1 e1 st1 (gr_inv _ _ _ _ G1) ltac:(lia)). destruct (run_loop evs l1 (w1, e1)) as [l2 [w2 e2]].
  destruct IH as (st2 & G2 & B2). exists st2. split; [|cbn [length]; lia].
  eapply grown_trans; [done|exact (gr_inv _ _ _ _ G1)|done|done].
Qed.

(** *** Failed blocks *)

Lemma delete_pending s : ds_healthy s ->
  let s' := (deletePendingBlock s).1 in ds_healthy s' /\ getPendingBlock (K := K) s' = Ok None.
Proof.
  intros Hs. unfold deletePendingBlock, DeleteMetadata. rewrite !NewKey_meta by done.
  destruct (ds_Delete_spec s (GetMetaKey headerKey) Hs) as (s1 & -> & Hs1 & V1). simpl.
  destruct (ds_Delete_spec s1 (GetMetaKey dataKey) Hs1) as (s2 & -> & Hs2 & V2). simpl. split; [done|].
  unfold getPendingBlock. rewrite GetMetadata_view, V2, V1 by done.
  rewrite lookup_delete_ne, lookup_delete_eq by discriminate. done.
Qed.

(** A process that did not find a pending block at its start never uses one: whatever happens in
    [ProduceBlock] after the new block was saved (execution fails, the signer fails, the raft
    proposal fails after signing), the flag stays unset, so the next call asks the sequencer for
    another batch and builds another block of the same height, and a graceful stop deletes the
    saved one. *)
Theorem failed_block_forgotten (ctxErr : option err) (st : State) (w : W) (e : exc)
  (He : exec_inv e st) (Hb : LastBlockHeight st + 1 < two64) (Hf : hasPendingBlock e = false) :
  let '((w', e'), r) := ProduceBlock (B := B) o ctxErr (w, e) in
  hasPendingBlock e' = false /\
  (forall h (w2 : W), reuse_pending h (w2, e') = ((w2, e'), Ok None)) /\
  getPendingBlock (K := K) (store (Stop e')) = Ok None.
Proof.
  pose proof (produce_spec ctxErr st w e He Hb) as Hp. unfold post in Hp.
  destruct (ProduceBlock o ctxErr (w, e)) as [[w' e'] r].
  assert (H2 : ds_healthy (store e') /\ hasPendingBlock e' = false).
  { destruct Hp as [Hk|[_ (st' & Hx)]]; simpl in *.
    - split; [apply Hk|]. by rewrite (kp_flag _ _ _ Hk).
    - split; [apply Hx|apply Hx]. }
  destruct H2 as [Hs Hf']. split_and!; [done| |].
  - intros h w2. unfold reuse_pending. simpl. by rewrite Hf'.
  - unfold Stop. rewrite Hf'. by apply delete_pending.
Qed.

(** *** Restarting after a crash *)

(** The executor as [NewExecutor] creates it on an existing store. *)
Definition fresh_executor (s : D) (m : implementation K C) (n : Z) (ch : option (list err * nat)) : exc :=
  Build_Executor s m None false None 0 n ch.

Lemma init_batch s st : ds_healthy s -> Height s = Ok (LastBlockHeight st) -> GetStateAtHeight s (LastBlockHeight st) = Ok st ->
  proto_valid (State_ToProto st) ->
  exists s', in_batch (B := B) s "failed to create batch" "failed to commit batch"
    (bm_wrap "failed to set store height" (SetHeight s (LastBlockHeight st)) ;;;
     bm_wrap "failed to update state" (UpdateState st)) = (s', Ok tt) /\
    same s s' /\ forall key, ds_view s' !! GetMetaKey key = ds_view s !! GetMetaKey key.
Proof.
  intros Hs Hh Hst Hv. destruct (update_state_writes (B := B) st Hv) as (stb & U & Hw).
  destruct (set_height_writes (B := B) s (LastBlockHeight st) _ Hh) as (ops & Hw' & [[_ ->]|[? _]]); [|lia].
  destruct (in_batch_spec (B := B) s "failed to create batch" "failed to commit batch" _ _ Hs
    (writes_seq _ _ _ _ (writes_wrap "failed to set store height" _ _ Hw') (writes_wrap "failed to update state" _ _ Hw)))
    as (s' & E & Hs' & V).
  exists s'. split; [done|]. simpl in V.
  destruct (state_write (K := K) s s' st stb Hs Hs') as [W1 W2 W3 W4 W5]; [apply Hv|done|done|]. split.
  - split; [done|done|done|]. intros h Hu. destruct (decide (h = LastBlockHeight st)) as [->|Hne]; [congruence|by apply W5].
  - intros key. rewrite V. by apply lookup_insert_ne.
Qed.

(** The execution layer answers with the node's height: nothing is replayed. *)
Definition exec_in_sync (height : Z) : Prop :=
  match exec_GetLatestHeight (W := W) with None => True | Some f => forall w, exists w', f w = (w', Ok height) end.

Lemma sync_noop height w (s : D) : exec_in_sync height ->
  exists w', SyncToHeight (B := B) (K := K) g height (w, s) = ((w', s), Ok tt).
Proof.
  unfold exec_in_sync, SyncToHeight. destruct exec_GetLatestHeight as [f|]; [|by eexists]. intros Hf.
  destruct (_ <? _); [by eexists|]. unfold bm_bind, bm_wrap, on_world. simpl. destruct (Hf w) as (w' & ->). simpl.
  rewrite Z.ltb_irrefl. by exists w'.
Qed.

(** The invariant holds again, and a pending block of the next height is found. *)
Definition resumed (e e' : exc) (st : State) : Prop :=
  exec_inv e' st /\
  forall sh d, getPendingBlock (store e) = Ok (Some (sh, d)) -> hd_Height (sh_Header sh) = LastBlockHeight st + 1 ->
    forall w2 : W, reuse_pending (LastBlockHeight st + 1) (w2, e') = ((w2, e'), Ok (Some (sh, d))).

Lemma pending_same s s' : ds_healthy s -> ds_healthy s' ->
  (forall key, ds_view s' !! GetMetaKey key = ds_view s !! GetMetaKey key) ->
  getPendingBlock (K := K) s' = getPendingBlock s.
Proof. intros Hs Hs' Hk. unfold getPendingBlock. by rewrite !(meta_frame s s'). Qed.

(** An executor over the same chain and metadata with the stored state, its flag set if there is a
    pending header, and a last-block cache that is empty or right. *)
Lemma resumed_intro e e' st : exec_inv e st -> same (store e) (store e') ->
  (forall key, ds_view (store e') !! GetMetaKey key = ds_view (store e) !! GetMetaKey key) ->
  lastState e' = Some st -> metaKey (pendingData (cache e')) = LastSubmittedDataHeightKey ->
  (is_ok (GetMetadata (store e') headerKey) = true -> hasPendingBlock e' = true) ->
  (forall info, lastInfo e' = Some info -> exists (ph : SignedHeader K) pd,
     GetBlockData (store e') (LastBlockHeight st) = Ok (ph, pd) /\
     headerHash info = Header_Hash (sh_Header ph) /\ dataHash info = Data_Hash pd) ->
  resumed e e' st.
Proof.
  intros He Hc Hk El Em Hf Hi.
  assert (Ep : getPendingBlock (K := K) (store e') = getPendingBlock (store e)) by (apply pending_same; [apply He|apply Hc|done]).
  split.
  - assert (He0 : exec_inv (Build_Executor (store e') (cache e') (Some st) (hasPendingBlock e) (lastInfo e) 0 0 None) st).
    { apply (inv_kept e); [done|]. split; simpl; try done; [by rewrite (ei_last _ _ He)|by rewrite Em, (ei_key _ _ He)|by left]. }
    destruct He0 as [I1 I2 I3 I4 I5 I6 I7 I8]. simpl in *. split; try done.
    intros Hini. destruct (I6 Hini) as (ph & pd & sig & E1 & E2 & _). exists ph, pd, sig. split_and!; [done..|].
    intros info Ei. destruct (Hi info Ei) as (ph' & pd' & E3 & ?). rewrite E1 in E3. by injection E3 as <- <-.
  - intros sh d E Hh w2. rewrite <- Ep in E. unfold reuse_pending. simpl. rewrite Hf; [by rewrite E, Hh, Z.eqb_refl|].
    unfold getPendingBlock in E. destruct (GetMetadata (store e') headerKey) as [|er]; [done|].
    by destruct (errors_is er ErrNotFound).
Qed.


End invariant.

(** ** Witnesses: a new chain on an in-memory store *)

Module ProducerWitness.
Import RefHash RefLRU TypesWitness SubmitWitness.

(** The number of batches taken so far, and whether the execution client and the raft node work. *)
Record world := { taken : Z; exec_up : bool; raft_up : bool }.

#[local] Instance w_exec : CoreExecutor world := {|
  exec_InitChain w _ _ _ := (w, Ok [x02]);
  exec_ExecuteTxs w txs h _ prev := (w, if exec_up w then Ok (prev ++ [Z_byte h]) else Err (EMsg "down"));
  exec_SetFinal w _ := (w, Ok tt);
  exec_GetLatestHeight := None;
  exec_Rollback := None |}.

#[local] Instance w_network : Network world bytes := {|
  seq_GetNextBatch w _ :=
    ({| taken := taken w + 1; exec_up := exec_up w; raft_up := raft_up w |},
     Ok (Some {| gp_Batch := {| Transactions := [[Z_byte (taken w)]] |}; gp_Timestamp := 2000 + taken w; gp_BatchData := [] |}));
  seq_GetDAHeight _ := 5;
  seq_SetDAHeight w _ := w;
  raft_HasQuorum w := (w, true);
  raft_GetState w := (w, {| rs_Height := 0; rs_Hash := []; rs_Timestamp := 0; rs_Header := []; rs_Data := [];
                            rs_LastSubmittedDaHeaderHeight := 0; rs_LastSubmittedDaDataHeight := 0 |});
  raft_Broadcast w _ := (w, if raft_up w then Ok tt else Err (EMsg "leadership lost"));
  p2p_header w _ := (w, Ok tt);
  p2p_data w _ := (w, Ok tt);
  retry_wait w := (w, false) |}.

Definition w_options (raft : bool) : options bytes := {|
  o_signer := Some w_sign;
  o_genesis := {| g_ChainID := "chain"; g_StartTime := 1000; g_InitialHeight := 1; g_ProposerAddress := [x05]; g_DAStartHeight := 3;
                  g_DAEpochForcedInclusion := 2 |};
  o_raft := raft; o_BasedSequencer := false; o_MaxPending := 10; o_LazyMode := false;
  o_ValidatorHasher := fun _ _ => Ok [x06]; o_SignaturePayload := Header_MarshalBinary |}.

Definition w_cache : implementation bytes lruc :=
  {| headerCache := no_cache; dataCache := no_cache; txCache := no_cache; txTimestamps := ∅; pendingEventsCache := no_cache;
     pendingHeaders := {| metaKey := LastSubmittedHeaderHeightKey; lastHeight := 0; pendingCache := small |};
     pendingData := {| metaKey := LastSubmittedDataHeightKey; lastHeight := 0; pendingCache := small |} |}.

Definition w_world (exec raft : bool) : world := {| taken := 0; exec_up := exec; raft_up := raft |}.
Definition w_fresh : Executor mapds bytes lruc :=
  fresh_executor (Mapds ∅ true) w_cache 0 (Some ([], 1%nat)).

(** The executor after its first start. *)
Definition w_started : Executor mapds bytes lruc :=
  (initializeState (B := list batch_op) (w_options false) (w_world true true, w_fresh)).1.2.
Definition w_state0 : State := {|
  st_Version := {| Block := 0; App := 0 |}; st_ChainID := "chain"; st_InitialHeight := 1; LastBlockHeight := 0;
  LastBlockTime := 1000; st_LastHeaderHash := []; st_DAHeight := 3; st_AppHash := [x02] |}.

Lemma w_inv raft : exec_inv (w_options raft) w_started w_state0.
Proof.
  split.
  - reflexivity.
  - vm_compute. reflexivity.
  - vm_compute. reflexivity.
  - vm_compute. reflexivity.
  - vm_compute. repeat split; discriminate.
  - intros Hi. exfalso. apply Hi. reflexivity.
  - intros sh d E. vm_compute in E. discriminate E.
  - vm_compute. reflexivity.
Qed.

Lemma w_genesis_ok raft : genesis_ok (o_genesis (w_options raft)).
Proof. split; [reflexivity|split; [discriminate|reflexivity]]. Qed.
Lemma w_da_height (w : world) : is_u64 (seq_GetDAHeight w).
Proof. split; [discriminate|reflexivity]. Qed.

Lemma ProduceBlock_outcome_witness :
  let '((w', e'), r) := ProduceBlock (B := list batch_op) (w_options true) None (w_world true true, w_started) in
  kept (w_options true) w_started e' w_state0 /\ exec_inv (w_options true) e' w_state0 \/
  (r = Ok tt \/ o_BasedSequencer (w_options true) = true) /\ exists st', extended (w_options true) w_started e' w_state0 st'.
Proof.
  pose proof (ProduceBlock_outcome (B := list batch_op) (w_options true) (w_genesis_ok true) w_da_height None w_state0
    (w_world true true) w_started (w_inv true)) as Hw. exact (Hw eq_refl).
Defined.

Definition w_events : list (option err * event) := [(None, TxNotify); (None, BlockTimer); (None, BlockTimer); (None, BlockTimer)].
Definition w_loop : loop_state := {| txsAvailable := false; txNotifyCh := false |}.

Lemma production_chain_witness :
  let '(_, (_, e')) := run_loop (B := list batch_op) (w_options false) w_events w_loop (w_world true true, w_started) in
  exists st', grown (w_options false) w_started e' w_state0 st' /\ LastBlockHeight st' <= LastBlockHeight w_state0 + Z.of_nat (length w_events).
Proof.
  pose proof (production_chain (B := list batch_op) (w_options false) (w_genesis_ok false) w_da_height w_events w_loop
    (w_world true true) w_started w_state0 (w_inv false)) as Hw. exact (Hw eq_refl).
Defined.

(** Two ticks produce two blocks. *)
Example production_runs :
  match (run_loop (B := list batch_op) (w_options false) (take 3 w_events) w_loop (w_world true true, w_started)).2 with
  | (_, e') => Height (store e') = Ok 2 /\ (LastBlockHeight <$> lastState e') = Some 2
  end.
Proof. vm_compute. split; reflexivity. Qed.

Lemma failed_block_forgotten_witness :
  let '((w', e'), r) := ProduceBlock (B := list batch_op) (w_options false) None (w_world false true, w_started) in
  hasPendingBlock e' = false /\
  (forall h (w2 : world), reuse_pending h (w2, e') = ((w2, e'), Ok None)) /\
  getPendingBlock (K := bytes) (store (Stop e')) = Ok None.
Proof.
  pose proof (failed_block_forgotten (B := list batch_op) (w_options false) (w_genesis_ok false) w_da_height None w_state0
    (w_world false true) w_started (w_inv false)) as Hw.
  assert (Hf : hasPendingBlock w_started = false) by (vm_compute; reflexivity). exact (Hw eq_refl Hf).
Defined.


(** Transactions of the block of height 1. *)
Definition txs_at (e : Executor mapds bytes lruc) (h : Z) : option (list bytes) :=
  match GetBlockData (K := bytes) (store e) h with Ok (_, d) => Some (Txs d) | Err _ => None end.

(** Execution is down for the first batch: a retry in the same process commits the second batch, a
    restart after a crash commits the first. *)
Example retry_or_restart :
  let '((w1, e1), r1) := ProduceBlock (B := list batch_op) (w_options false) None (w_world false true, w_started) in
  let up := {| taken := taken w1; exec_up := true; raft_up := true |} in
  let '((_, e2), r2) := ProduceBlock (B := list batch_op) (w_options false) None (up, e1) in
  let '((w3, e3), r3) := initializeState (B := list batch_op) (w_options false) (up, fresh_executor (store e1) w_cache 0 None) in
  let '((_, e4), r4) := ProduceBlock (B := list batch_op) (w_options false) None (w3, e3) in
  is_ok r1 = false /\ r2 = Ok tt /\ txs_at e2 1 = Some [[x01]] /\ r3 = Ok tt /\ r4 = Ok tt /\ txs_at e4 1 = Some [[x00]].
Proof. vm_compute. repeat split. Qed.

End ProducerWitness.
End Producer.
