(* ===== verification/Inclusion.v ===== *)
(** DA inclusion (block/internal/submitting/submitter.go): a height is included once its header, and
    its data unless it is empty, were seen on the DA layer; the inclusion loop records where, finalizes
    the height in the execution client, persists the DA included height and clears the caches.

    The execution client's [SetFinal], the wait between attempts and the sequencer (nil on a
    syncing node) are parameters. *)

From S2P Require Import Prelude Sha256 Interfaces Types Validation Store Pending DACache Submit Replay Producer.

Import Store Pending DACache.

Module Inclusion.

Record Submitter (D K : Type) (C : Type -> Type -> Type) := {
  sm_store : D; sm_cache : implementation K C; daIncludedHeight : Z
}.
#[global] Arguments sm_store {D K C}. #[global] Arguments sm_cache {D K C}.
#[global] Arguments daIncludedHeight {D K C}. #[global] Arguments Build_Submitter {D K C}.

(** How one iteration of the inner loop ends: [Halted] leaves the goroutine after a critical error. *)
Inductive tick_end := Advanced | Broke | Halted | NoFuel.

Section inclusion.
Context {W D K : Type} {C : Type -> Type -> Type} `{DS : Datastore D} `{LR : LRU C} `{PK : PubKeys K} `{PW : Protowire}.
Context `{CH : ProtoCodec pb_SignedHeader} `{CD : ProtoCodec pb_Data}.
Context (SetFinal : W -> Z -> W * res unit) (wait : W -> W * bool) (SetDAHeight : option (W -> Z -> W)).

Abbreviation sub := (Submitter D K C).

Definition set_sub_store (s : D) (x : sub) : sub := Build_Submitter s (sm_cache x) (daIncludedHeight x).
Definition set_sub_cache (m : implementation K C) (x : sub) : sub := Build_Submitter (sm_store x) m (daIncludedHeight x).
Definition SetDAIncludedHeight (h : Z) (x : sub) : sub := Build_Submitter (sm_store x) (sm_cache x) h.

Definition putUint64Metadata (s : D) (key : string) (val : Z) : D * res unit := SetMetadata s key (PutUint64_LE val).

Definition initializeDAIncludedHeight (x : sub) : sub :=
  match GetMetadata (sm_store x) DAIncludedHeightKey with
  | Ok height => if blen height =? 8 then SetDAIncludedHeight (Uint64_LE height) x else x
  | Err _ => x
  end.

(** The lookups refresh the recency of the cache entries. *)
Definition IsHeightDAIncluded (x : sub) (height : Z) (data : Data) : sub * res bool :=
  if height <=? daIncludedHeight x then (x, Ok true)
  else
    match Height (sm_store x) with
    | Err e => (x, Err e)
    | Ok currentHeight =>
        if currentHeight <? height then (x, Ok false)
        else
          let dataCommitment := DACommitment data in
          let '(m, headerIncluded) := GetHeaderDAIncludedByHeight (sm_cache x) height in
          let '(m, dataIncluded) := GetDataDAIncludedByHeight m height in
          (set_sub_cache m x,
           Ok (bool_decide (is_Some headerIncluded) &&
               (bytes_Equal dataCommitment DataHashForEmptyTxs || bool_decide (is_Some dataIncluded))))
    end.

(** The writes of the genesis DA height, and the sequencer's DA height. *)
Definition genesis_inclusion (genesisInclusion : bool) (height : Z) (w : W) (x : sub) : W * sub * res unit :=
  if genesisInclusion then
    match putUint64Metadata (sm_store x) GenesisDAHeightKey height with
    | (s, Err e) => (w, set_sub_store s x, Err e)
    | (s, Ok _) => (match SetDAHeight with Some f => f w height | None => w end, set_sub_store s x, Ok tt)
    end
  else (w, x, Ok tt).

Definition setNodeHeightToDAHeight (height : Z) (data : Data) (genesisInclusion : bool) (w : W) (x : sub)
  : W * sub * res unit :=
  let dataHash := DACommitment data in
  let '(m, r) := GetHeaderDAIncludedByHeight (sm_cache x) height in
  let x := set_sub_cache m x in
  match r with
  | None => (w, x, Err (EMsg "header not found in cache"))
  | Some daHeightForHeader =>
      match putUint64Metadata (sm_store x) (GetHeightToDAHeightHeaderKey height) daHeightForHeader with
      | (s, Err e) => (w, set_sub_store s x, Err e)
      | (s, Ok _) =>
          let x := set_sub_store s x in
          let '(x, r) :=
            if negb (bytes_Equal dataHash DataHashForEmptyTxs) then
              let '(m, r) := GetDataDAIncludedByHeight (sm_cache x) height in
              (set_sub_cache m x,
               match r with
               | None => Err (EMsg "data not found in cache")
               | Some daHeightForData => Ok (daHeightForData, Z.min daHeightForData daHeightForHeader)
               end)
            else (x, Ok (daHeightForHeader, daHeightForHeader)) in
          match r with
          | Err e => (w, x, Err e)
          | Ok (dataDAHeight, genesisDAIncludedHeight) =>
              match putUint64Metadata (sm_store x) (GetHeightToDAHeightDataKey height) dataDAHeight with
              | (s, Err e) => (w, set_sub_store s x, Err e)
              | (s, Ok _) => genesis_inclusion genesisInclusion genesisDAIncludedHeight w (set_sub_store s x)
              end
          end
      end
  end.

(** [left] attempts remain. *)
Fixpoint setFinal_retry (left : nat) (nextHeight : Z) (w : W) : W * res unit :=
  match left with
  | O => (w, Ok tt)
  | S left' =>
      match SetFinal w nextHeight with
      | (w', Ok _) => (w', Ok tt)
      | (w', Err e) =>
          match left' with
          | O => (w', Err (EWrap "failed to set final height after attempts" e))
          | S _ => let '(w'', cancelled) := wait w' in
                   if cancelled : bool then (w'', Err (EWrap "context cancelled during retry" Submit.context_Canceled))
                   else setFinal_retry left' nextHeight w''
          end
      end
  end.
Definition setFinalWithRetry (nextHeight : Z) (w : W) : W * res unit :=
  setFinal_retry Producer.MaxRetriesBeforeHalt nextHeight w.

(** One iteration of the inner loop; [currentDAIncluded] is the loop's variable. *)
Definition include_next (currentDAIncluded : Z) (w : W) (x : sub) : W * sub * tick_end :=
  let nextHeight := currentDAIncluded +u 1 in
  match GetBlockData (K := K) (sm_store x) nextHeight with
  | Err _ => (w, x, Broke)
  | Ok (_, data) =>
      match IsHeightDAIncluded x nextHeight data with
      | (x, Err _) | (x, Ok false) => (w, x, Broke)
      | (x, Ok true) =>
          match setNodeHeightToDAHeight nextHeight data (currentDAIncluded =? 0) w x with
          | (w, x, Err _) => (w, x, Broke)
          | (w, x, Ok _) =>
              match setFinalWithRetry nextHeight w with
              | (w, Err _) => (w, x, Halted)
              | (w, Ok _) =>
                  match putUint64Metadata (sm_store x) DAIncludedHeightKey nextHeight with
                  | (s, Err _) => (w, set_sub_store s x, Broke)
                  | (s, Ok _) =>
                      let x := SetDAIncludedHeight nextHeight (set_sub_store s x) in
                      (w, set_sub_cache (DeleteHeight (sm_cache x) nextHeight) x, Advanced)
                  end
              end
          end
      end
  end.

Fixpoint inclusion_loop (fuel : nat) (currentDAIncluded : Z) (w : W) (x : sub) : W * sub * tick_end :=
  match fuel with
  | O => (w, x, NoFuel)
  | S fuel =>
      match include_next currentDAIncluded w x with
      | (w, x, Advanced) => inclusion_loop fuel (currentDAIncluded +u 1) w x
      | stop => stop
      end
  end.

(** One tick. Heights above the store's are never included, so as many iterations as heights are
    left, and one more, are enough. *)
Definition processDAInclusion (w : W) (x : sub) : W * sub * tick_end :=
  let currentDAIncluded := daIncludedHeight x in
  let left := match Height (sm_store x) with Ok top => Z.to_nat (top - currentDAIncluded) | Err _ => O end in
  inclusion_loop (S left) currentDAIncluded w x.

End inclusion.

(** ** What a tick includes *)

Section laws.
Context {W D K : Type} {C : Type -> Type -> Type} `{DL : DatastoreLaws D} `{LL : LRULaws C}.
Context `{PK : PubKeys K} `{PW : Protowire} `{CH : ProtoCodec pb_SignedHeader} `{CD : ProtoCodec pb_Data}.
Context `{CS : ProtoCodec pb_State}.
Context (SetFinal : W -> Z -> W * res unit) (wait : W -> W * bool) (SetDAHeight : option (W -> Z -> W)).

Abbreviation sub := (Submitter D K C).
Abbreviation same := (Producer.same_chain (K := K)).
Abbreviation header_at x h := (included_at (headerCache (sm_cache x)) h).
Abbreviation data_at x h := (included_at (dataCache (sm_cache x)) h).

Definition is_empty (d : Data) : bool := bytes_Equal (DACommitment d) DataHashForEmptyTxs.

(** Block [h] is stored, its header is on the DA layer at [dh] and its data at [dd] (an empty block
    counts its header). *)
Definition included (x : sub) (h dh dd : Z) : Prop :=
  exists (hdr : SignedHeader K) d, GetBlockData (sm_store x) h = Ok (hdr, d) /\ header_at x h = Some dh /\
    (if is_empty d then dd = dh else data_at x h = Some dd).

(** The caches only lose entries, and the chain is the same. *)
Record shrunk (x x' : sub) : Prop := {
  sk_chain : same (sm_store x) (sm_store x');
  sk_header h d : header_at x' h = Some d -> header_at x h = Some d;
  sk_data h d : data_at x' h = Some d -> data_at x h = Some d;
}.

Lemma shrunk_refl x : ds_healthy (sm_store x) -> shrunk x x.
Proof. intros Hs. split; auto using Producer.same_chain_refl. Qed.
Lemma shrunk_trans x y z : shrunk x y -> shrunk y z -> shrunk x z.
Proof. intros [A1 A2 A3] [B1 B2 B3]. split; eauto using Producer.same_chain_trans. Qed.

Lemma included_shrunk x x' h dh dd : is_u64 h -> shrunk x x' -> included x' h dh dd -> included x h dh dd.
Proof.
  intros Hu [S1 S2 S3] (hdr & d & E1 & E2 & E3). exists hdr, d.
  rewrite (Producer.same_block_data _ _ _ Hu S1) in E1. split_and!; [done|auto|]. destruct (is_empty d); auto.
Qed.

(** Lookups change nothing that can be read. *)
Lemma header_lookup (m : implementation K C) h : exists m', GetHeaderDAIncludedByHeight m h = (m', included_at (headerCache m) h) /\
  (forall k, included_at (headerCache m') k = included_at (headerCache m) k) /\
  (forall k, included_at (dataCache m') k = included_at (dataCache m) k).
Proof.
  unfold GetHeaderDAIncludedByHeight. pose proof (getDAIncludedByHeight_spec (headerCache m) h) as E.
  pose proof (getDAIncludedByHeight_view (headerCache m) h) as V.
  destruct (getDAIncludedByHeight (headerCache m) h) as [c r]. simpl in *. subst r. eexists. split; [done|]. by split.
Qed.
Lemma data_lookup (m : implementation K C) h : exists m', GetDataDAIncludedByHeight m h = (m', included_at (dataCache m) h) /\
  (forall k, included_at (headerCache m') k = included_at (headerCache m) k) /\
  (forall k, included_at (dataCache m') k = included_at (dataCache m) k).
Proof.
  unfold GetDataDAIncludedByHeight. pose proof (getDAIncludedByHeight_spec (dataCache m) h) as E.
  pose proof (getDAIncludedByHeight_view (dataCache m) h) as V.
  destruct (getDAIncludedByHeight (dataCache m) h) as [c r]. simpl in *. subst r. eexists. split; [done|]. by split.
Qed.

(** *** Metadata *)

#[local] Arguments String.append !_ _ / : simpl nomatch.

Lemma append_length a b : String.length (String.append a b) = (String.length a + String.length b)%nat.
Proof. induction a as [|c a IH]; [done|]. simpl. by rewrite IH. Qed.
Lemma append_split_inj a b x y : String.length x = String.length y -> String.append a x = String.append b y -> a = b /\ x = y.
Proof.
  intros Hl. revert b. induction a as [|c a IH]; intros [|c' b] E; simpl in E.
  - done.
  - exfalso. apply (f_equal String.length) in E. simpl in E. rewrite append_length in E. lia.
  - exfalso. apply (f_equal String.length) in E. simpl in E. rewrite append_length in E. lia.
  - injection E as -> E. by destruct (IH b E) as [-> ->].
Qed.

(** The metadata an iteration at height [h] may write. *)
Definition touched (h : Z) : list string :=
  [GetHeightToDAHeightHeaderKey h; GetHeightToDAHeightDataKey h; GenesisDAHeightKey; DAIncludedHeightKey].

Lemma touched_distinct h : GetHeightToDAHeightHeaderKey h <> GetHeightToDAHeightDataKey h.
Proof. intros E. unfold GetHeightToDAHeightHeaderKey, GetHeightToDAHeightDataKey in E. simpl in E. injection E as E. by apply append_split_inj in E as [_ ?]. Qed.

Lemma rhb_other h h' : is_u64 h -> is_u64 h' -> h <> h' ->
  (GetHeightToDAHeightHeaderKey h ∉ touched h') /\ (GetHeightToDAHeightDataKey h ∉ touched h').
Proof.
  intros Hu Hu' Hne. unfold touched. split; rewrite !not_elem_of_cons; split_and!;
    try (apply not_elem_of_nil); unfold GetHeightToDAHeightHeaderKey, GetHeightToDAHeightDataKey; simpl; try discriminate;
    intros E; injection E as E; apply append_split_inj in E as [E ?]; try done; by apply dec_string_inj in E.
Qed.

(** From [s] to [s'] only metadata under [keys] was written. *)
Record meta_only (s s' : D) (keys : list string) : Prop := {
  mo_chain : same s s';
  mo_meta key : (key ∉ keys) -> clean_tail true key = true -> GetMetadata s' key = GetMetadata s key;
}.

Lemma meta_only_refl s keys : ds_healthy s -> meta_only s s keys.
Proof. intros Hs. split; auto using Producer.same_chain_refl. Qed.
Lemma meta_only_trans s1 s2 s3 keys : meta_only s1 s2 keys -> meta_only s2 s3 keys -> meta_only s1 s3 keys.
Proof. intros [A1 A2] [B1 B2]. split; [by eapply Producer.same_chain_trans|]. intros key Hk Hc. by rewrite B2, A2. Qed.

Lemma put_meta s key v keys : ds_healthy s -> key ∈ keys -> clean_tail true key = true -> exists s',
  putUint64Metadata s key v = (s', Ok tt) /\ meta_only s s' keys /\ GetMetadata s' key = Ok (PutUint64_LE v) /\
  forall key', key' <> key -> clean_tail true key' = true -> GetMetadata s' key' = GetMetadata s key'.
Proof.
  intros Hs Hin Hk. destruct (SetMetadata_view s key (PutUint64_LE v) Hs Hk) as (s' & E & Hs' & V).
  assert (Ho : forall key', key' <> key -> clean_tail true key' = true -> GetMetadata s' key' = GetMetadata s key').
  { intros key' Hne Hc. apply meta_frame; try done. rewrite V. apply lookup_insert_ne. intros E'. by apply meta_key_inj in E'. }
  exists s'. split_and!; [done| |by rewrite GetMetadata_view, V, lookup_insert_eq|done].
  split.
  - apply Producer.meta_same_chain; try done. intros k Hne. rewrite V. apply lookup_insert_ne. apply not_eq_sym, Hne.
  - intros key' Hk' Hc. apply Ho; [|done]. by intros ->.
Qed.

(** *** Recording an inclusion *)

Lemma IsHeightDAIncluded_spec (x : sub) h d top : Height (sm_store x) = Ok top -> daIncludedHeight x < h ->
  exists x' b, IsHeightDAIncluded x h d = (x', Ok b) /\ sm_store x' = sm_store x /\ daIncludedHeight x' = daIncludedHeight x /\
    (forall k, header_at x' k = header_at x k) /\ (forall k, data_at x' k = data_at x k) /\
    (b = true <-> h <= top /\ is_Some (header_at x h) /\ (is_empty d = true \/ is_Some (data_at x h))).
Proof.
  intros Hh Hlt. unfold IsHeightDAIncluded. rewrite (proj2 (Z.leb_gt h (daIncludedHeight x))) by lia. rewrite Hh.
  destruct (Z.ltb_spec top h) as [Ht|Ht]; [exists x, false; split_and!; try done; split; [done|lia]|].
  destruct (header_lookup (sm_cache x) h) as (m1 & -> & H1 & H2).
  destruct (data_lookup m1 h) as (m2 & -> & H3 & H4). rewrite H2.
  eexists _, _. split; [done|]. split_and!; try done.
  - intros k. simpl. by rewrite H3, H1.
  - intros k. simpl. by rewrite H4, H2.
  - unfold is_empty. rewrite andb_true_iff, orb_true_iff, !bool_decide_eq_true. tauto.
Qed.

Lemma setNode_spec (x : sub) h d gen w dh dd : ds_healthy (sm_store x) -> header_at x h = Some dh ->
  (if is_empty d then dd = dh else data_at x h = Some dd) ->
  exists w' x', setNodeHeightToDAHeight SetDAHeight h d gen w x = (w', x', Ok tt) /\
    meta_only (sm_store x) (sm_store x') (touched h) /\ daIncludedHeight x' = daIncludedHeight x /\
    (forall k, header_at x' k = header_at x k) /\ (forall k, data_at x' k = data_at x k) /\
    GetMetadata (sm_store x') (GetHeightToDAHeightHeaderKey h) = Ok (PutUint64_LE dh) /\
    GetMetadata (sm_store x') (GetHeightToDAHeightDataKey h) = Ok (PutUint64_LE dd) /\
    GetMetadata (sm_store x') DAIncludedHeightKey = GetMetadata (sm_store x) DAIncludedHeightKey /\
    (gen = true -> GetMetadata (sm_store x') GenesisDAHeightKey = Ok (PutUint64_LE (Z.min dd dh))) /\
    w' = if gen then match SetDAHeight with Some f => f w (Z.min dd dh) | None => w end else w.
Proof.
  intros Hs Hh Hd. unfold setNodeHeightToDAHeight. destruct (header_lookup (sm_cache x) h) as (m1 & -> & A1 & A2).
  rewrite Hh. simpl. destruct (clean_rhb h) as [K1 K2].
  destruct (put_meta (sm_store x) (GetHeightToDAHeightHeaderKey h) dh (touched h) Hs) as (s1 & -> & M1 & G1 & F1);
    [by left|done|].
  fold (is_empty d). set (y := if negb (is_empty d) then _ else _).
  assert (Hy : exists m2, y = (Build_Submitter s1 m2 (daIncludedHeight x), Ok (dd, Z.min dd dh)) /\
    (forall k, included_at (headerCache m2) k = header_at x k) /\ (forall k, included_at (dataCache m2) k = data_at x k)).
  { subst y. destruct (is_empty d); simpl.
    - subst dd. exists m1. rewrite Z.min_id. by split_and!.
    - destruct (data_lookup m1 h) as (m2 & -> & B1 & B2). rewrite A2, Hd. exists m2. split; [done|].
      split; intros k; rewrite ?B1, ?B2; auto. }
  destruct Hy as (m2 & -> & C1 & C2). simpl.
  destruct (put_meta s1 (GetHeightToDAHeightDataKey h) dd (touched h)) as (s2 & -> & M2 & G2 & F2); [apply M1|by right; left|done|].
  assert (G1' : GetMetadata s2 (GetHeightToDAHeightHeaderKey h) = Ok (PutUint64_LE dh)).
  { rewrite F2; [done|apply touched_distinct|done]. }
  assert (Gd : GetMetadata s2 DAIncludedHeightKey = GetMetadata (sm_store x) DAIncludedHeightKey).
  { by rewrite F2, F1 by (discriminate || done). }
  unfold genesis_inclusion. destruct gen; simpl.
  - destruct (put_meta s2 GenesisDAHeightKey (Z.min dd dh) (touched h)) as (s3 & -> & M3 & G3 & F3);
      [apply M2|by do 2 right; left|done|].
    eexists _, _. split; [done|]. simpl. split_and!; try done.
    + eapply meta_only_trans; [|exact M3]. by eapply meta_only_trans.
    + rewrite F3; [done|discriminate|done].
    + rewrite F3; [done|discriminate|done].
    + by rewrite F3 by (discriminate || done).
  - eexists _, _. split; [done|]. simpl. split_and!; try done. by eapply meta_only_trans.
Qed.

Lemma DeleteHeight_shrinks (m : implementation K C) h k d :
  (included_at (headerCache (DeleteHeight m h)) k = Some d -> included_at (headerCache m) k = Some d) /\
  (included_at (dataCache (DeleteHeight m h)) k = Some d -> included_at (dataCache m) k = Some d).
Proof. split; simpl; intros E; by apply deleteAllForHeight_shrinks in E as [_ ?]. Qed.

End laws.

(** *** Finalizing *)

Section ticks.
Context {W D K : Type} {C : Type -> Type -> Type} `{DL : DatastoreLaws D} `{LL : LRULaws C}.
Context `{PK : PubKeys K} `{PW : Protowire} `{CH : ProtoCodec pb_SignedHeader} `{CD : ProtoCodec pb_Data}.
Context `{CS : ProtoCodec pb_State}.
Context (SetFinal : W -> Z -> W * res unit) (wait : W -> W * bool) (SetDAHeight : option (W -> Z -> W)).

Abbreviation sub := (Submitter D K C).
Abbreviation incl := (included (D := D) (K := K) (C := C)).
Abbreviation header_at x h := (included_at (headerCache (sm_cache x)) h).
Abbreviation data_at x h := (included_at (dataCache (sm_cache x)) h).

(** The calls of [SetFinal], with their results. *)
Definition final_log : Type := list (Z * res unit).
Definition rec_final (wl : W * final_log) (h : Z) : (W * final_log) * res unit :=
  let '(w, r) := SetFinal wl.1 h in ((w, wl.2 ++ [(h, r)]), r).
Definition rec_wait (wl : W * final_log) : (W * final_log) * bool := let '(w, b) := wait wl.1 in ((w, wl.2), b).
Definition rec_height : option (W * final_log -> Z -> W * final_log) := (fun f wl h => (f wl.1 h, wl.2)) <$> SetDAHeight.
(** The heights that were finalized. *)
Definition finalized (log : final_log) : list Z := omap (fun c => match c.2 with Ok _ => Some c.1 | Err _ => None end) log.

Lemma setFinal_spec left h wl wl' r : (0 < left)%nat -> setFinal_retry rec_final rec_wait left h wl = (wl', r) ->
  finalized wl'.2 = finalized wl.2 ++ (if is_ok r then [h] else []).
Proof.
  revert wl. induction left as [|left IH]; [lia|]. intros wl _ E. cbn [setFinal_retry] in E. unfold rec_final at 1 in E.
  destruct (SetFinal wl.1 h) as [w1 [[]|e]].
  - injection E as <- <-. unfold finalized. simpl. by rewrite omap_app.
  - assert (Hl : finalized (wl.2 ++ [(h, Err e)]) = finalized wl.2) by (unfold finalized; rewrite omap_app; simpl; by rewrite app_nil_r).
    destruct left as [|left]; [injection E as <- <-; simpl; by rewrite Hl, app_nil_r|].
    unfold rec_wait at 1 in E. simpl in E. destruct (wait w1) as [w2 [|]].
    + injection E as <- <-. simpl. by rewrite Hl, app_nil_r.
    + apply IH in E; [|lia]. rewrite E. simpl. by rewrite Hl.
Qed.

(** The persisted inclusion of height [h]. *)
Definition recorded (s : D) (h dh dd : Z) : Prop :=
  GetMetadata s (GetHeightToDAHeightHeaderKey h) = Ok (PutUint64_LE dh) /\
  GetMetadata s (GetHeightToDAHeightDataKey h) = Ok (PutUint64_LE dd).

Abbreviation next := (include_next (K := K) (C := C) (D := D) rec_final rec_wait rec_height).

(** Why an iteration stopped. *)
Definition stopped (x : sub) (top h : Z) (log log' : final_log) (e : tick_end) : Prop :=
  match e with
  | Broke => ~ (h <= top /\ exists dh dd, incl x h dh dd) /\ log' = log
  | Halted => h <= top /\ (exists dh dd, incl x h dh dd) /\ finalized log' = finalized log
  | _ => False
  end.

Lemma include_next_spec (x : sub) cur top w log : ds_healthy (sm_store x) -> daIncludedHeight x = cur ->
  is_u64 (cur + 1) -> Height (sm_store x) = Ok top ->
  let '((w', log'), x', e) := next cur (w, log) x in
  shrunk x x' /\ meta_only (K := K) (sm_store x) (sm_store x') (touched (cur + 1)) /\
  match e with
  | Advanced => cur + 1 <= top /\ daIncludedHeight x' = cur + 1 /\ finalized log' = finalized log ++ [cur + 1] /\
      GetMetadata (sm_store x') DAIncludedHeightKey = Ok (PutUint64_LE (cur + 1)) /\
      exists dh dd, incl x (cur + 1) dh dd /\ recorded (sm_store x') (cur + 1) dh dd /\
        (cur = 0 -> GetMetadata (sm_store x') GenesisDAHeightKey = Ok (PutUint64_LE (Z.min dd dh)))
  | e => daIncludedHeight x' = cur /\ GetMetadata (sm_store x') DAIncludedHeightKey = GetMetadata (sm_store x) DAIncludedHeightKey /\
      stopped x top (cur + 1) log log' e
  end.
Proof.
  intros Hs Hc Hu Hh. unfold include_next. rewrite (u64_small (cur + 1)) by done.
  assert (Hrefl : shrunk x x /\ meta_only (K := K) (sm_store x) (sm_store x) (touched (cur + 1)))
    by (split; [by apply shrunk_refl|by apply meta_only_refl]).
  destruct (GetBlockData (sm_store x) (cur + 1)) as [[hdr d]|er] eqn:Eb.
  2: { split; [apply Hrefl|]. split; [apply Hrefl|]. simpl. split_and!; try done. intros (_ & dh & dd & hdr & d & E & _). congruence. }
  destruct (IsHeightDAIncluded_spec x (cur + 1) d top Hh ltac:(lia)) as (x1 & b & -> & S1 & D1 & A1 & A2 & Hb).
  assert (Hx1 : shrunk x x1).
  { split; [rewrite S1; by apply Producer.same_chain_refl|..]; intros k v; rewrite ?A1, ?A2; done. }
  destruct b.
  2: { rewrite S1. split; [done|]. split; [apply Hrefl|]. simpl. split_and!; try done; [congruence|].
       intros (Ht & dh & dd & hdr' & d' & E1 & E2 & E3). rewrite Eb in E1. injection E1 as <- <-.
       apply (diff_false_true : false <> true). apply Hb. split_and!; [done|by eexists|].
       destruct (is_empty d); [by left|right; by eexists]. }
  destruct (proj1 Hb eq_refl) as (Ht & [dh Edh] & Hdd).
  assert (Hd : exists dd, if is_empty d then dd = dh else data_at x (cur + 1) = Some dd).
  { destruct (is_empty d); [by eexists|]. destruct Hdd as [?|[dd ?]]; [done|]. by exists dd. }
  destruct Hd as [dd Edd].
  assert (Hin : incl x (cur + 1) dh dd) by (exists hdr, d; by split_and!).
  destruct (setNode_spec rec_height x1 (cur + 1) d (cur =? 0) (w, log) dh dd) as
    ([w2 log2] & x2 & -> & M2 & D2 & B1 & B2 & R1 & R2 & R3 & R4 & R5); [by rewrite S1|by rewrite A1|by rewrite A2|].
  rewrite S1 in M2, R3.
  assert (Elog : log2 = log).
  { destruct (cur =? 0); [|by injection R5 as _ <-]. unfold rec_height in R5. destruct SetDAHeight; by injection R5 as _ <-. }
  subst log2. clear R5.
  assert (Hx2 : shrunk x x2).
  { split; [apply M2|..]; intros k v; rewrite ?B1, ?B2, ?A1, ?A2; done. }
  destruct (setFinalWithRetry rec_final rec_wait (cur + 1) (w2, log)) as [[w3 log3] r3] eqn:Ef.
  unfold setFinalWithRetry in Ef. apply setFinal_spec in Ef; [|unfold Producer.MaxRetriesBeforeHalt; lia]. simpl in Ef.
  destruct r3 as [[]|er]; simpl in Ef.
  2: { split; [done|]. split; [done|]. simpl. split_and!; try done; [congruence|by eauto|]. by rewrite Ef, app_nil_r. }
  destruct (put_meta (K := K) (sm_store x2) DAIncludedHeightKey (cur + 1) (touched (cur + 1))) as (s4 & -> & M4 & G4 & F4);
    [apply M2|by do 3 right; left|done|].
  split_and!; try done.
  - split; [eapply Producer.same_chain_trans; [apply M2|apply M4]|..]; simpl; intros k v E;
      destruct (DeleteHeight_shrinks (sm_cache x2) (cur + 1) k v) as [Q1 Q2]; rewrite <- ?A1, <- ?B1, <- ?A2, <- ?B2; auto.
  - by eapply meta_only_trans.
  - exists dh, dd. split; [done|]. destruct (clean_rhb (cur + 1)) as [K1 K2]. split; [split|].
    + simpl. rewrite F4; [done| |done]. intros E. discriminate E.
    + simpl. rewrite F4; [done| |done]. intros E. discriminate E.
    + intros E0. simpl. rewrite F4 by (discriminate || done). apply R4. lia.
Qed.

(** The result of a tick that started at included height [cur]. *)
Record ticked (x x' : sub) (cur top : Z) (log log' : final_log) (e : tick_end) : Prop := {
  tk_range : cur <= daIncludedHeight x' <= Z.max cur top;
  tk_shrunk : shrunk x x';
  tk_included h : cur < h <= daIncludedHeight x' ->
    exists dh dd, incl x h dh dd /\ recorded (sm_store x') h dh dd;
  tk_final : finalized log' = finalized log ++ heights_upto (cur + 1) (daIncludedHeight x');
  tk_persisted : GetMetadata (sm_store x') DAIncludedHeightKey =
    if decide (cur = daIncludedHeight x') then GetMetadata (sm_store x) DAIncludedHeightKey
    else Ok (PutUint64_LE (daIncludedHeight x'));
  tk_end : e = Halted \/ e = Broke /\
    ~ (daIncludedHeight x' + 1 <= top /\ exists dh dd, incl x' (daIncludedHeight x' + 1) dh dd);
}.

Lemma recorded_frame s s' h h' dh dd : is_u64 h -> is_u64 h' -> h <> h' -> meta_only (K := K) s s' (touched h') ->
  recorded s h dh dd -> recorded s' h dh dd.
Proof.
  intros Hu Hu' Hne Hm [R1 R2]. destruct (rhb_other h h' Hu Hu' Hne), (clean_rhb h). split; by rewrite (mo_meta _ _ _ Hm).
Qed.

(** Inclusions recorded below are not overwritten by later iterations. *)
Lemma inclusion_loop_keeps fuel (x : sub) cur top w log h dh dd : ds_healthy (sm_store x) -> daIncludedHeight x = cur ->
  0 <= cur < two64 - 1 -> top < two64 - 1 -> Height (sm_store x) = Ok top -> 0 <= h <= cur ->
  recorded (sm_store x) h dh dd ->
  recorded (sm_store (inclusion_loop rec_final rec_wait rec_height fuel cur (w, log) x).1.2) h dh dd.
Proof.
  revert cur w log x. induction fuel as [|fuel IH]; intros cur w log x Hs Hc Hb Ht Hh Hle Hr; cbn [inclusion_loop]; [done|].
  assert (Hu : is_u64 (cur + 1)) by (unfold is_u64; lia).
  pose proof (include_next_spec x cur top w log Hs Hc Hu Hh) as Hn.
  destruct (next cur (w, log) x) as [[[w1 log1] x1] e1]. destruct Hn as (Hsk & Hm & Hn).
  assert (Hr1 : recorded (sm_store x1) h dh dd) by (eapply recorded_frame; [..|exact Hm|exact Hr]; (unfold is_u64; lia) || done || lia).
  destruct e1; try done. destruct Hn as (Ht1 & D1 & _). rewrite u64_small by done.
  apply IH; try done; try lia; [apply Hm|]. rewrite <- Hh. apply Hm.
Qed.

Lemma inclusion_loop_spec fuel (x : sub) cur top w log : ds_healthy (sm_store x) -> daIncludedHeight x = cur ->
  0 <= cur < two64 - 1 -> top < two64 - 1 -> Height (sm_store x) = Ok top -> (Z.to_nat (top - cur) < fuel)%nat ->
  let '((_, log'), x', e) := inclusion_loop rec_final rec_wait rec_height fuel cur (w, log) x in
  ticked x x' cur top log log' e.
Proof.
  revert cur w log x. induction fuel as [|fuel IH]; intros cur w log x Hs Hc Hb Ht Hh Hf; [lia|]. cbn [inclusion_loop].
  assert (Hu : is_u64 (cur + 1)) by (unfold is_u64; lia).
  pose proof (include_next_spec x cur top w log Hs Hc Hu Hh) as Hn.
  pose proof (fun f h dh dd y cur' w' log' => inclusion_loop_keeps f y cur' top w' log' h dh dd) as Hkeep.
  destruct (next cur (w, log) x) as [[[w1 log1] x1] e1]. destruct Hn as (Hsk & Hm & Hn).
  assert (Hstop : forall e, daIncludedHeight x1 = cur -> GetMetadata (sm_store x1) DAIncludedHeightKey = GetMetadata (sm_store x) DAIncludedHeightKey ->
    stopped x top (cur + 1) log log1 e -> ticked x x1 cur top log log1 e).
  { intros e D1 G1 Hst. split; rewrite ?D1; try done; [lia|lia|..].
    - rewrite heights_upto_nil, app_nil_r by lia. destruct e; try done; [by destruct Hst as [_ ->]|apply Hst].
    - by rewrite decide_True.
    - destruct e; try done; [|by left]. right. split; [done|]. intros (Ht1 & dh & dd & Hi). apply Hst. split; [done|].
      exists dh, dd. by eapply included_shrunk. }
  destruct e1; [|by apply Hstop; apply Hn..].
  destruct Hn as (Ht1 & D1 & F1 & G1 & dh & dd & Hi & Hr & _). rewrite u64_small by done.
  assert (Hh1 : Height (sm_store x1) = Ok top) by (rewrite <- Hh; apply Hm).
  assert (Hs1 : ds_healthy (sm_store x1)) by apply Hm.
  specialize (Hkeep fuel (cur + 1) dh dd x1 (cur + 1) w1 log1 Hs1 D1 ltac:(lia) Ht Hh1 ltac:(lia) Hr).
  specialize (IH (cur + 1) w1 log1 x1 Hs1 D1 ltac:(lia) Ht Hh1 ltac:(lia)).
  destruct (inclusion_loop _ _ _ fuel (cur + 1) (w1, log1) x1) as [[[w2 log2] x2] e2]. simpl in Hkeep.
  destruct IH as [T1 T2 T3 T4 T5 T6]. split; [lia|by eapply shrunk_trans| | | |done].
  - intros h Hh'. destruct (decide (h = cur + 1)) as [->|Hne]; [by exists dh, dd|].
    destruct (T3 h ltac:(lia)) as (dh' & dd' & Hi' & Hr'). exists dh', dd'. split; [|done].
    eapply included_shrunk; [|exact Hsk|exact Hi']. unfold is_u64 in *. lia.
  - rewrite T4, F1, <- app_assoc. f_equal. rewrite (heights_upto_cons (cur + 1)) by lia. done.
  - rewrite T5. rewrite (decide_False (P := cur = _)) by lia. destruct (decide (cur + 1 = daIncludedHeight x2)) as [<-|]; [|done].
    done.
Qed.

(** C9: One tick of the DA inclusion loop ends, and advances the included height to [b] such that:
    every height passed is stored and was seen on the DA layer, its header and, unless the block
    is empty, its data; where it was seen is persisted under the height; the execution client
    finalized exactly the heights passed, once each and in order; the included height is
    persisted; the chain is unchanged; and unless finalizing failed, the next height is not
    included yet. *)
Theorem inclusion_tick (x : sub) (w : W) (log : final_log) (cur top : Z) (Hs : ds_healthy (sm_store x))
  (Hc : daIncludedHeight x = cur) (Hb : 0 <= cur < two64 - 1) (Hh : Height (sm_store x) = Ok top) (Ht : top < two64 - 1) :
  let '((_, log'), x', e) := processDAInclusion rec_final rec_wait rec_height (w, log) x in
  ticked x x' cur top log log' e.
Proof.
  unfold processDAInclusion. rewrite Hh, Hc. apply inclusion_loop_spec; try done. lia.
Qed.

End ticks.

(** ** Witness: block 7 is on the DA layer, header at 11 and data at 12 *)

Module InclusionWitness.
Import RefHash RefLRU TypesWitness Submit.SubmitWitness.

Definition seen_at (h d : Z) {T} : Cache lruc T := setDAIncluded no_cache "AA" d h.
Definition w_sub : Submitter mapds bytes lruc :=
  Build_Submitter w_store {| headerCache := seen_at 7 11; dataCache := seen_at 7 12; txCache := no_cache; txTimestamps := ∅;
    pendingEventsCache := no_cache;
    pendingHeaders := {| metaKey := LastSubmittedHeaderHeightKey; lastHeight := 7; pendingCache := small |};
    pendingData := {| metaKey := LastSubmittedDataHeightKey; lastHeight := 7; pendingCache := small |} |} 6.
Definition w_final (w : unit) (h : Z) : unit * res unit := (w, Ok tt).
Definition w_wait (w : unit) : unit * bool := (w, false).

Lemma inclusion_tick_witness :
  let '((_, log'), x', e) := processDAInclusion (rec_final w_final) (rec_wait w_wait) (rec_height None) (tt, []) w_sub in
  ticked w_sub x' 6 7 [] log' e.
Proof.
  pose proof (inclusion_tick w_final w_wait None w_sub tt [] 6 7) as Hw. apply Hw.
  - reflexivity.
  - reflexivity.
  - split; [discriminate|reflexivity].
  - vm_compute. reflexivity.
  - reflexivity.
Defined.

(** The tick includes block 7. *)
Example inclusion_runs :
  daIncludedHeight (processDAInclusion (rec_final w_final) (rec_wait w_wait) (rec_height None) (tt, []) w_sub).1.2 = 7.
Proof. vm_compute. reflexivity. Qed.

End InclusionWitness.
End Inclusion.
