(* ===== verification/DARetriever.v ===== *)
(** Retrieval of blocks from the DA layer (block/internal/syncing/da_retriever.go and assert.go).

    The retriever decodes the blobs of a DA height into headers and signed data, keeps the halves
    that have no partner yet, and emits one event per complete block. Its cache is the node's
    cache manager and is an argument. A use of a nil pointer, which stops the process, is the
    error [nil_deref]. *)

From S2P Require Import Prelude Sha256 Interfaces ForcedInclusion Types Validation Store Pending DACache Submit Replay.

Import DA Store Pending DACache.

(** The order in which a Go [range] visits a map is not specified: any order of its entries. *)
Class MapRange := range_map : forall A, gmap Z A -> list (Z * A).
#[global] Arguments range_map {_ A} _.
Class MapRangeLaws `{MapRange} := range_map_perm : forall A (m : gmap Z A), range_map m ≡ₚ map_to_list m.

(** [da.Client] as the syncing side uses it, with the context's error at the time of asking. *)
Class DAClient (W : Type) := {
  da_Retrieve : W -> Z -> bytes -> W * ResultRetrieve;
  da_HeaderNamespace : bytes;
  da_DataNamespace : bytes;
  da_GetLatestDAHeight : W -> W * res Z;
  ctx_Err : W -> option err;
}.

Module DARetriever.

(** [slices.BinarySearch], on [n] elements left between [i] and [j]. *)
Fixpoint search_loop (fuel : nat) (l : list Z) (target : Z) (i j : nat) : nat :=
  match fuel with
  | O => i
  | S fuel =>
      if (i <? j)%nat then
        let h := Nat.div2 (i + j) in
        if nth h l 0 <? target then search_loop fuel l target (S h) j else search_loop fuel l target i h
      else i
  end.
Definition BinarySearch (l : list Z) (target : Z) : nat * bool :=
  let i := search_loop (length l) l target 0 (length l) in
  (i, (i <? length l)%nat && (nth i l 0 =? target)).

Section retriever.
Context {W K : Type} {C : Type -> Type -> Type} `{DC : DAClient W} `{LR : LRU C} `{PK : PubKeys K} `{PW : Protowire}.
Context `{HS : HashString} `{MR : MapRange}.
Context `{CV : ProtoCodec pb_Version} `{CHd : ProtoCodec pb_Header} `{CH : ProtoCodec pb_SignedHeader}.
Context `{CE : ProtoCodec pb_DAHeaderEnvelope} `{CD : ProtoCodec pb_Data} `{CSD : ProtoCodec pb_SignedData}.
Context (g : Genesis).

Record daRetriever := {
  r_pendingHeaders : gmap Z (SignedHeader K);
  r_pendingData : gmap Z Data;
  strictMode : bool;
  priorityHeights : list Z;
}.

Definition NewDARetriever : daRetriever :=
  {| r_pendingHeaders := ∅; r_pendingData := ∅; strictMode := false; priorityHeights := [] |}.

Definition set_priority (r : daRetriever) (l : list Z) : daRetriever :=
  {| r_pendingHeaders := r_pendingHeaders r; r_pendingData := r_pendingData r; strictMode := strictMode r;
     priorityHeights := l |}.

(** ** Priority heights *)

Definition QueuePriorityHeight (r : daRetriever) (daHeight : Z) : daRetriever :=
  let '(idx, found) := BinarySearch (priorityHeights r) daHeight in
  if found : bool then r
  else set_priority r (take idx (priorityHeights r) ++ daHeight :: drop idx (priorityHeights r)).

Definition PopPriorityHeight (r : daRetriever) : daRetriever * Z :=
  match priorityHeights r with
  | [] => (r, 0)
  | height :: l => (set_priority r l, height)
  end.

(** ** Checks (assert.go) *)

Definition assertExpectedProposer (proposerAddr : bytes) : res unit :=
  if bytes_Equal proposerAddr (g_ProposerAddress g) then Ok tt else Err (EMsg "unexpected proposer").

(** [txsNil] says that the transactions are the nil slice. *)
Definition assertValidSignedData (txsNil : bool) (sd : SignedData K) : res unit :=
  if txsNil then Err (EMsg "empty signed data")
  else
    let? _ := assertExpectedProposer (Address (sd_Signer sd)) in
    let? dataBytes := wrap_err "failed to get signed data payload" (Data_MarshalBinary (sd_Data sd)) in
    match PubKey (sd_Signer sd) with
    | None => Err nil_deref
    | Some k =>
        let? valid := wrap_err "failed to verify signature" (pk_Verify k dataBytes (sd_Signature sd)) in
        if valid : bool then Ok tt else Err (EMsg "invalid signature")
    end.

(** ** Decoding blobs *)

Abbreviation manager := (implementation K C).

(** The header and whether it came in an envelope with a verified signature; [None] for a rejected blob. *)
Definition decode_envelope (strict : bool) (bz : bytes) : option (SignedHeader K * bool) :=
  match UnmarshalDAEnvelope bz with
  | Err _ =>
      if strict then None
      else match SignedHeader_UnmarshalBinary bz with Ok header => Some (header, false) | Err _ => None end
  | Ok (header, envelopeSignature) =>
      match envelopeSignature with
      | [] => Some (header, false)
      | _ =>
          match PubKey (sh_Signer header) with
          | None => None
          | Some k =>
              match SignedHeader_MarshalBinary header with
              | Err _ => None
              | Ok payload =>
                  match pk_Verify k payload envelopeSignature with
                  | Ok true => Some (header, true)
                  | _ => None
                  end
              end
          end
      end
  end.

(** [tryDecodeHeader]: strict mode, cache, header. *)
Definition tryDecodeHeader (now : Z) (bz : bytes) (daHeight : Z) (strict : bool) (m : manager)
  : bool * manager * option (SignedHeader K) :=
  match decode_envelope strict bz with
  | None => (strict, m, None)
  | Some (header, isValidEnvelope) =>
      if strict && negb isValidEnvelope then (strict, m, None)
      else
        let strict := strict || isValidEnvelope in
        match Header_ValidateBasic now (sh_Header header), assertExpectedProposer (ProposerAddress (sh_Header header)) with
        | Ok _, Ok _ =>
            let headerHash := hash_String (Header_Hash (sh_Header header)) in
            (strict, SetHeaderDAIncluded m headerHash daHeight (hd_Height (sh_Header header)), Some header)
        | _, _ => (strict, m, None)
        end
  end.

Definition zero_signed_data : SignedData K :=
  {| sd_Data := {| dt_Metadata := None; Txs := [] |}; sd_Signature := []; sd_Signer := zero_signer |}.

(** Unmarshalling leaves nil transactions only when the message has no data. *)
Definition txs_nil (bz : bytes) : bool :=
  match proto_Unmarshal bz with Ok p => bool_decide (psd_Data p = None) | Err _ => true end.

(** [tryDecodeData]: the height of data without metadata dereferences nil. *)
Definition tryDecodeData (bz : bytes) (daHeight : Z) (m : manager) : manager * res (option Data) :=
  match SignedData_UnmarshalBinary zero_signed_data bz with
  | Err _ => (m, Ok None)
  | Ok sd =>
      if (blen (Txs (sd_Data sd)) =? 0) && (blen (sd_Signature sd) =? 0) then (m, Ok None)
      else
        match assertValidSignedData (txs_nil bz) sd with
        | Err e => (m, if bool_decide (e = nil_deref) then Err nil_deref else Ok None)
        | Ok _ =>
            let dataHash := hash_String (DACommitment (sd_Data sd)) in
            match dt_Metadata (sd_Data sd) with
            | None => (m, Err nil_deref)
            | Some md => (SetDataDAIncluded m dataHash daHeight (md_Height md), Ok (Some (sd_Data sd)))
            end
        end
  end.

(** The first loop of [processBlobs]: strict mode, cache, and the decoded headers and data. *)
Fixpoint decode_blobs (now daHeight : Z) (blobs : list bytes) (strict : bool) (m : manager)
  : bool * manager * res (list (SignedHeader K) * list Data) :=
  match blobs with
  | [] => (strict, m, Ok ([], []))
  | bz :: rest =>
      match bz with
      | [] => decode_blobs now daHeight rest strict m
      | _ =>
          match tryDecodeHeader now bz daHeight strict m with
          | (strict, m, Some header) =>
              let '(strict, m, r) := decode_blobs now daHeight rest strict m in
              (strict, m, let? hd := r in Ok (header :: hd.1, hd.2))
          | (strict, m, None) =>
              match tryDecodeData bz daHeight m with
              | (m, Err e) => (strict, m, Err e)
              | (m, Ok None) => decode_blobs now daHeight rest strict m
              | (m, Ok (Some data)) =>
                  let '(strict, m, r) := decode_blobs now daHeight rest strict m in
                  (strict, m, let? hd := r in Ok (hd.1, data :: hd.2))
              end
          end
      end
  end.

(** ** Matching headers with data *)

(** Only the first header, and the first data, of a height are kept. *)
Definition keep_first {A} (m : gmap Z A) (h : Z) (a : A) : gmap Z A :=
  match m !! h with Some _ => m | None => <[h := a]> m end.
Definition add_headers (m : gmap Z (SignedHeader K)) (l : list (SignedHeader K)) : gmap Z (SignedHeader K) :=
  foldl (fun m header => keep_first m (hd_Height (sh_Header header)) header) m l.
Definition data_height (d : Data) : Z := match dt_Metadata d with Some md => md_Height md | None => 0 end.
Definition add_data (m : gmap Z Data) (l : list Data) : gmap Z Data :=
  foldl (fun m data => keep_first m (data_height data) data) m l.

Definition isEmptyDataExpected (header : SignedHeader K) : bool :=
  (blen (DataHash (sh_Header header)) =? 0) || bytes_Equal (DataHash (sh_Header header)) DataHashForEmptyTxs.
Definition createEmptyDataForHeader (header : SignedHeader K) : Data := {|
  Txs := [];
  dt_Metadata := Some {| md_ChainID := hd_ChainID (sh_Header header); md_Height := hd_Height (sh_Header header);
                         md_Time := hd_Time (sh_Header header); LastDataHash := [] |} |}.

Definition da_event (daHeight : Z) (header : SignedHeader K) (data : Data) : DAHeightEvent (K := K) :=
  {| ev_Header := header; ev_Data := data; ev_DaHeight := daHeight; ev_Source := SourceDA; ev_DaHeightHints := (0, 0) |}.

(** One visit of the second loop, to the header of [height]. *)
Definition match_header (daHeight : Z) (st : gmap Z (SignedHeader K) * gmap Z Data * list (DAHeightEvent (K := K)))
  (entry : Z * SignedHeader K) : gmap Z (SignedHeader K) * gmap Z Data * list DAHeightEvent :=
  let '(headers, datas, events) := st in
  let '(height, header) := entry in
  match datas !! height with
  | None =>
      if isEmptyDataExpected header
      then (delete height headers, datas, events ++ [da_event daHeight header (createEmptyDataForHeader header)])
      else st
  | Some data => (delete height headers, delete height datas, events ++ [da_event daHeight header data])
  end.

Definition processBlobs (now : Z) (blobs : list bytes) (daHeight : Z) (r : daRetriever) (m : manager)
  : daRetriever * manager * res (list (DAHeightEvent (K := K))) :=
  let '(strict, m, dec) := decode_blobs now daHeight blobs (strictMode r) m in
  match dec with
  | Err e => ({| r_pendingHeaders := r_pendingHeaders r; r_pendingData := r_pendingData r; strictMode := strict;
                 priorityHeights := priorityHeights r |}, m, Err e)
  | Ok (decodedHeaders, decodedData) =>
      let headers := add_headers (r_pendingHeaders r) decodedHeaders in
      let datas := add_data (r_pendingData r) decodedData in
      let '(headers, datas, events) := foldl (match_header daHeight) (headers, datas, []) (range_map headers) in
      ({| r_pendingHeaders := headers; r_pendingData := datas; strictMode := strict;
          priorityHeights := priorityHeights r |}, m, Ok events)
  end.

(** ** Fetching a height *)

(** Every other code counts as success. *)
Definition validateBlobResponse (r : ResultRetrieve) : option err :=
  match rr_Code r with
  | StatusError => Some (EMsg "DA retrieval failed")
  | StatusHeightFromFuture => Some (EWrap "height from future" ErrHeightFromFuture)
  | StatusNotFound => Some (EWrap "blob not found" ErrBlobNotFound)
  | _ => None
  end.

(** An error that is not [ErrBlobNotFound]. *)
Definition serious (e : option err) : option err :=
  match e with Some e => if errors_is e ErrBlobNotFound then None else Some e | None => None end.

Definition fetchBlobs (w : W) (daHeight : Z) : W * res (list bytes) :=
  let '(w, headerRes) := da_Retrieve w daHeight da_HeaderNamespace in
  if bytes_Equal da_HeaderNamespace da_DataNamespace then
    (w, match validateBlobResponse headerRes with Some e => Err e | None => Ok (rr_Data headerRes) end)
  else
    let '(w, dataRes) := da_Retrieve w daHeight da_DataNamespace in
    (w, match serious (validateBlobResponse headerRes), serious (validateBlobResponse dataRes) with
        | Some e, _ => Err e
        | None, Some e => Err e
        | None, None =>
            let part (r : ResultRetrieve) (l : list bytes) := if bool_decide (rr_Code r = StatusSuccess) then l else [] in
            let data := part headerRes (rr_Data headerRes) ++ part dataRes (rr_Data dataRes) in
            let ids := part headerRes (rr_IDs headerRes) ++ part dataRes (rr_IDs dataRes) in
            if (blen data =? 0) && (blen ids =? 0) then Err ErrBlobNotFound else Ok data
        end).

Definition RetrieveFromDA (now : Z) (daHeight : Z) (w : W) (r : daRetriever) (m : manager)
  : W * daRetriever * manager * res (list (DAHeightEvent (K := K))) :=
  let '(w, blobs) := fetchBlobs w daHeight in
  match blobs with
  | Err e => (w, r, m, Err e)
  | Ok data =>
      match ctx_Err w with
      | Some e => (w, r, m, Err e)
      | None => let '(r, m, events) := processBlobs now data daHeight r m in (w, r, m, events)
      end
  end.

End retriever.
#[global] Arguments daRetriever K : clear implicits.

(** ** The priority queue *)

Lemma sorted_nth l a b : StronglySorted Z.lt l -> (a < b < length l)%nat -> nth a l 0 < nth b l 0.
Proof.
  intros Hs. revert a b. induction Hs as [|x l Hs IH Hx]; intros a b; simpl; [lia|].
  destruct b as [|b]; [lia|]. destruct a as [|a]; intros Hab; [|apply IH; lia].
  rewrite Forall_forall in Hx. apply Hx. destruct (nth_lookup_or_length l b 0) as [E|]; [|lia].
  by eapply list_elem_of_lookup_2.
Qed.

Lemma search_loop_spec fuel l t i j : StronglySorted Z.lt l -> (i <= j <= length l)%nat -> (j - i <= fuel)%nat ->
  (forall k, (k < i)%nat -> nth k l 0 < t) -> (forall k, (j <= k < length l)%nat -> t <= nth k l 0) ->
  let p := search_loop fuel l t i j in
  (p <= length l)%nat /\ (forall k, (k < p)%nat -> nth k l 0 < t) /\ (forall k, (p <= k < length l)%nat -> t <= nth k l 0).
Proof.
  intros Hs. revert i j. induction fuel as [|fuel IH]; intros i j Hij Hf Hlo Hhi; simpl.
  { split_and!; [lia|done|]. intros k Hk. apply Hhi. lia. }
  destruct (Nat.ltb_spec i j) as [Hlt|Hge].
  2: { split_and!; [lia|done|]. intros k Hk. apply Hhi. lia. }
  set (h := Nat.div2 (i + j)). assert (Hh : (i <= h < j)%nat).
  { unfold h. pose proof (Nat.div2_odd (i + j)) as Ho. destruct (Nat.odd (i + j)); simpl in Ho; lia. }
  destruct (Z.ltb_spec (nth h l 0) t); apply IH; try lia; try done.
  - intros k Hk. destruct (decide (k = h)) as [->|]; [done|]. pose proof (sorted_nth l k h Hs ltac:(lia)). lia.
  - intros k Hk. destruct (decide (k = h)) as [->|]; [done|]. pose proof (sorted_nth l h k Hs ltac:(lia)). lia.
Qed.

Lemma above_drop l p h : StronglySorted Z.lt l -> (forall k, (p <= k < length l)%nat -> h <= nth k l 0) ->
  ((p < length l)%nat -> nth p l 0 <> h) -> forall x, x ∈ drop p l -> h < x.
Proof.
  intros Hs Hhi Hne x (k & E)%list_elem_of_lookup. rewrite lookup_drop in E.
  pose proof (lookup_lt_Some _ _ _ E) as Hk. rewrite <- (nth_lookup_Some l _ 0 x E).
  pose proof (Hhi p ltac:(lia)). specialize (Hne ltac:(lia)).
  destruct (decide (k = 0%nat)) as [->|]; [rewrite Nat.add_0_r; lia|].
  pose proof (sorted_nth l p (p + k) Hs ltac:(lia)). lia.
Qed.

(** Queued heights stay sorted without duplicates, so that the lowest one is popped first. *)
Lemma QueuePriorityHeight_spec {K} (r : daRetriever K) h : StronglySorted Z.lt (priorityHeights r) ->
  StronglySorted Z.lt (priorityHeights (QueuePriorityHeight r h)) /\
  forall x, x ∈ priorityHeights (QueuePriorityHeight r h) <-> x = h \/ x ∈ priorityHeights r.
Proof.
  intros Hs. unfold QueuePriorityHeight, BinarySearch. set (l := priorityHeights r) in *.
  pose proof (search_loop_spec (length l) l h 0 (length l) Hs) as Hp.
  specialize (Hp ltac:(lia) ltac:(lia) ltac:(lia) ltac:(lia)). set (p := search_loop _ _ _ _ _) in *.
  destruct Hp as (Hl & Hlo & Hhi).
  destruct (Nat.ltb_spec p (length l)) as [Hlt|Hge], (Z.eqb_spec (nth p l 0) h) as [Eh|Hne]; simpl.
  1: { split; [done|]. intros x. split; [by right|]. intros [->|?]; [|done].
       destruct (nth_lookup_or_length l p 0) as [E|]; [|lia]. rewrite Eh in E. by eapply list_elem_of_lookup_2. }
  all: assert (Hlo' : forall x, x ∈ take p l -> x < h) by
    (intros x (k & E & Hk)%elem_of_take; rewrite <- (nth_lookup_Some l k 0 x E); auto).
  all: assert (Hhi' : forall x, x ∈ drop p l -> h < x) by (apply (above_drop l p h Hs Hhi); lia || (intros; lia)).
  all: pose proof Hs as Hs0; rewrite <- (take_drop p l) in Hs; apply StronglySorted_app in Hs as (_ & Ht & Hd).
  all: split; [apply StronglySorted_app; split_and!; [|done|constructor; [done|by apply Forall_forall]]|].
  all: try (intros a b Ha%Hlo' [->|Hb%Hhi']%elem_of_cons; lia).
  all: intros x; pose proof (take_drop p l) as El; rewrite <- El at 3; rewrite !elem_of_app, elem_of_cons; tauto.
Qed.

(** ** What a DA height yields *)

(** The first element of [l] with key [k], after what the map holds. *)
Definition first_of {A} (key : A -> Z) (m : gmap Z A) (l : list A) (k : Z) : option A :=
  match m !! k with Some a => Some a | None => head (filter (fun a => key a = k) l) end.

Lemma fold_keep_first {A} (key : A -> Z) (l : list A) (m : gmap Z A) k :
  foldl (fun m a => keep_first m (key a) a) m l !! k = first_of key m l k.
Proof.
  unfold first_of. revert m. induction l as [|a l IH]; intros m; simpl; [by destruct (m !! k)|].
  rewrite IH, filter_cons. unfold keep_first. destruct (m !! key a) as [b|] eqn:E, (decide (key a = k)) as [<-|Hne].
  - by rewrite E.
  - done.
  - by rewrite lookup_insert_eq, E.
  - by rewrite lookup_insert_ne.
Qed.

Lemma filter_no_key {A} (l : list (Z * A)) h : h ∉ l.*1 -> filter (fun e => e.1 = h) l = [].
Proof.
  intros Hn. destruct (filter _ l) as [|e l'] eqn:Ef; [done|]. exfalso.
  assert (He : e ∈ filter (fun e => e.1 = h) l) by (rewrite Ef; by left).
  apply list_elem_of_filter in He as [<- He]. apply Hn, list_elem_of_fmap. by exists e.
Qed.
Lemma filter_key {A} (l : list (Z * A)) h a : NoDup l.*1 -> (h, a) ∈ l -> filter (fun e => e.1 = h) l = [(h, a)].
Proof.
  induction l as [|[k b] l IH]; [by intros _ ?%elem_of_nil|]. intros [Hn Hnd]%NoDup_cons. rewrite filter_cons.
  intros [[= <- <-]|Hin]%elem_of_cons; simpl.
  - rewrite decide_True by done. by rewrite filter_no_key.
  - rewrite decide_False; [by apply IH|]. intros ->. apply Hn, list_elem_of_fmap. by exists (h, a).
Qed.

Section accounting.
Context {W K : Type} {C : Type -> Type -> Type} `{LR : LRU C} `{PK : PubKeys K} `{PW : Protowire}.
Context `{HS : HashString} `{MR : MapRange} `{ML : !MapRangeLaws}.
Context `{CV : ProtoCodec pb_Version} `{CHd : ProtoCodec pb_Header} `{CH : ProtoCodec pb_SignedHeader}.
Context `{CE : ProtoCodec pb_DAHeaderEnvelope} `{CD : ProtoCodec pb_Data} `{CSD : ProtoCodec pb_SignedData}.
Context (g : Genesis).

Abbreviation manager := (implementation K C).
Abbreviation Event := (DAHeightEvent (K := K)).

Definition sh_height (sh : SignedHeader K) : Z := hd_Height (sh_Header sh).

(** The event of a height whose header is [header] and whose data is [data], if it is complete. *)
Definition complete (da : Z) (header : SignedHeader K) (data : option Data) : option Event :=
  match data with
  | Some data => Some (da_event da header data)
  | None => if isEmptyDataExpected header then Some (da_event da header (createEmptyDataForHeader header)) else None
  end.

Lemma match_header_eq da hs ds (evs : list Event) h hdr :
  match_header da (hs, ds, evs) (h, hdr) =
  match complete da hdr (ds !! h) with
  | None => (hs, ds, evs)
  | Some ev => (delete h hs, delete h ds, evs ++ [ev])
  end.
Proof.
  simpl. destruct (ds !! h) as [d|] eqn:E; simpl; [done|].
  destruct (isEmptyDataExpected hdr); [|done]. by rewrite (delete_id ds).
Qed.

Lemma match_loop da l hs ds (evs : list Event) : NoDup l.*1 ->
  let '(hs', ds', evs') := foldl (match_header da) (hs, ds, evs) l in
  evs' = evs ++ omap (fun e => complete da e.2 (ds !! e.1)) l /\
  (forall k, hs' !! k = match filter (fun e => e.1 = k) l with
     | e :: _ => if complete da e.2 (ds !! k) is Some _ then None else hs !! k | [] => hs !! k end) /\
  (forall k, ds' !! k = match filter (fun e => e.1 = k) l with
     | e :: _ => if complete da e.2 (ds !! k) is Some _ then None else ds !! k | [] => ds !! k end).
Proof.
  revert hs ds evs. induction l as [|[h hdr] l IH]; intros hs ds evs Hnd.
  { simpl. by rewrite app_nil_r. }
  apply NoDup_cons in Hnd as [Hn Hnd]. cbn [foldl]. rewrite match_header_eq.
  pose proof (filter_no_key l h Hn) as Hnil.
  assert (Hf : forall k, filter (fun e => e.1 = k) ((h, hdr) :: l) =
    if decide (h = k) then [(h, hdr)] else filter (fun e => e.1 = k) l).
  { intros k. rewrite filter_cons. simpl. destruct (decide (h = k)) as [<-|]; [|done]. by rewrite Hnil. }
  destruct (complete da hdr (ds !! h)) as [ev|] eqn:Ec.
  - specialize (IH (delete h hs) (delete h ds) (evs ++ [ev]) Hnd).
    destruct (foldl _ _ l) as [[hs' ds'] evs']. destruct IH as (I1 & I2 & I3). split_and!.
    + rewrite I1, <- app_assoc. f_equal. csimpl. rewrite Ec. simpl. f_equal. apply list_omap_ext, Forall2_same_length_lookup_2.
      { done. }
      intros i [h' hdr'] e2 He E2. assert (e2 = (h', hdr')) as -> by congruence. apply list_elem_of_lookup_2 in He. simpl. rewrite lookup_delete_ne; [done|]. intros <-. apply Hn, list_elem_of_fmap.
      by exists (h, hdr').
    + intros k. rewrite Hf, I2. destruct (decide (h = k)) as [<-|Hne]; [|by rewrite !lookup_delete_ne].
      simpl. rewrite Ec, Hnil. apply lookup_delete_eq.
    + intros k. rewrite Hf, I3. destruct (decide (h = k)) as [<-|Hne]; [|by rewrite !lookup_delete_ne].
      simpl. rewrite Ec, Hnil. apply lookup_delete_eq.
  - specialize (IH hs ds evs Hnd). destruct (foldl _ _ l) as [[hs' ds'] evs']. destruct IH as (I1 & I2 & I3).
    split_and!; [rewrite I1; csimpl; by rewrite Ec|..]; intros k; rewrite Hf, ?I2, ?I3;
      (destruct (decide (h = k)) as [<-|]; [|done]); simpl; by rewrite Ec, Hnil.
Qed.

(** What the retriever checks of a header, and of signed data, before it counts them as included. *)
Definition enveloped (sh : SignedHeader K) : Prop := exists k payload sig,
  PubKey (sh_Signer sh) = Some k /\ SignedHeader_MarshalBinary sh = Ok payload /\ pk_Verify k payload sig = Ok true.
Definition header_checked (now : Z) (strict : bool) (sh : SignedHeader K) : Prop :=
  ProposerAddress (sh_Header sh) = g_ProposerAddress g /\ Header_ValidateBasic now (sh_Header sh) = Ok tt /\
  (strict = true -> enveloped sh).
Definition data_checked (d : Data) : Prop := dt_Metadata d <> None /\ exists (s : Signer K) sig k bz,
  Address s = g_ProposerAddress g /\ PubKey s = Some k /\ Data_MarshalBinary d = Ok bz /\ pk_Verify k bz sig = Ok true.

Lemma decode_envelope_checked strict bz sh : decode_envelope strict bz = Some (sh, true) -> enveloped sh.
Proof.
  unfold decode_envelope. destruct (UnmarshalDAEnvelope bz) as [[sh' [|c sig]]|]; [done| |by repeat case_match].
  destruct (PubKey (sh_Signer sh')) as [k|] eqn:Ek; [|done].
  destruct (SignedHeader_MarshalBinary sh') as [payload|] eqn:Em; [|done].
  destruct (pk_Verify k payload (c :: sig)) as [[]|] eqn:Ev; try done. intros [= <-]. by exists k, payload, (c :: sig).
Qed.

Lemma tryDecodeHeader_spec now bz da strict (m : manager) :
  let '(strict', m', r) := tryDecodeHeader g now bz da strict m in
  (strict = true -> strict' = true) /\ forall sh, r = Some sh -> header_checked now strict sh.
Proof.
  unfold tryDecodeHeader. destruct (decode_envelope strict bz) as [[sh v]|] eqn:Ed; [|done].
  destruct (strict && negb v) eqn:Es; [done|]. unfold assertExpectedProposer.
  destruct (Header_ValidateBasic now (sh_Header sh)) as [[]|] eqn:Ev; [|by destruct strict].
  destruct (bytes_Equal _ _) eqn:Ep; [|by destruct strict]. split; [by destruct strict|]. intros sh' [= <-].
  apply bytes_Equal_true in Ep. split_and!; try done. intros ->. destruct v; [|done].
  by eapply decode_envelope_checked.
Qed.

Lemma tryDecodeData_spec bz da (m m' : manager) d : tryDecodeData g bz da m = (m', Ok (Some d)) -> data_checked d.
Proof.
  unfold tryDecodeData. destruct (SignedData_UnmarshalBinary _ bz) as [sd|]; [|done]. destruct (_ && _); [done|].
  destruct (assertValidSignedData g (txs_nil bz) sd) as [[]|e] eqn:Ea; [|by case_bool_decide].
  unfold assertValidSignedData, assertExpectedProposer in Ea. destruct (txs_nil bz); [done|].
  destruct (bytes_Equal _ _) eqn:Ep; [|done]. simpl in Ea. apply bytes_Equal_true in Ep.
  destruct (Data_MarshalBinary (sd_Data sd)) as [db|] eqn:Em; [|done]. simpl in Ea.
  destruct (PubKey (sd_Signer sd)) as [k|] eqn:Ek; [|done].
  destruct (pk_Verify k db (sd_Signature sd)) as [[]|] eqn:Ev; [|done..].
  destruct (dt_Metadata (sd_Data sd)) as [md|] eqn:Ed; [|done]. intros [= _ <-].
  split; [by rewrite Ed|]. by exists (sd_Signer sd), (sd_Signature sd), k, db.
Qed.

Lemma checked_weaken now s s' hs : (s = true -> s' = true) ->
  Forall (header_checked now s') hs -> Forall (header_checked now s) hs.
Proof. intros Hs Hf. eapply Forall_impl; [exact Hf|]. intros sh (? & ? & ?). split_and!; auto. Qed.

Lemma decode_blobs_spec now da blobs strict (m : manager) :
  let '(strict', m', r) := decode_blobs g now da blobs strict m in
  (strict = true -> strict' = true) /\
  forall hs ds, r = Ok (hs, ds) -> Forall (header_checked now strict) hs /\ Forall data_checked ds.
Proof.
  revert strict m. induction blobs as [|bz blobs IH]; intros strict m; simpl.
  { split; [done|]. by intros ? ? [= <- <-]. }
  destruct bz as [|c bz]; [apply IH|]. pose proof (tryDecodeHeader_spec now (c :: bz) da strict m) as Hh.
  destruct (tryDecodeHeader _ _ _ _ _ _) as [[s1 m1] [sh|]].
  - destruct Hh as [Hs Hc]. specialize (Hc sh eq_refl). specialize (IH s1 m1).
    destruct (decode_blobs _ _ _ _ _ _) as [[s2 m2] r]. destruct IH as [I1 I2]. split; [auto|].
    intros hs ds E. destruct r as [[hs' ds']|]; [|done]. injection E as <- <-. destruct (I2 hs' ds' eq_refl) as [F1 F2].
    split; [|done]. constructor; [done|]. by eapply checked_weaken.
  - destruct Hh as [Hs _]. destruct (tryDecodeData _ _ _ _) as [m2 [[d|]|e]] eqn:Ed; [| |by split].
    + apply tryDecodeData_spec in Ed. specialize (IH s1 m2).
      destruct (decode_blobs _ _ _ _ _ _) as [[s2 m3] r]. destruct IH as [I1 I2]. split; [auto|].
      intros hs ds E. destruct r as [[hs' ds']|]; [|done]. injection E as <- <-. destruct (I2 hs' ds' eq_refl) as [F1 F2].
      split; [|by constructor]. by eapply checked_weaken.
    + specialize (IH s1 m2). destruct (decode_blobs _ _ _ _ _ _) as [[s2 m3] r]. destruct IH as [I1 I2]. split; [auto|].
      intros hs ds E. destruct (I2 hs ds E) as [F1 F2]. split; [|done]. by eapply checked_weaken.
Qed.

Lemma omap_keys {A B} (f : Z * A -> option B) (key : B -> Z) l :
  (forall e b, e ∈ l -> f e = Some b -> key b = e.1) -> NoDup l.*1 -> NoDup (key <$> omap f l).
Proof.
  intros Hk Hnd. eapply sublist_NoDup; [exact Hnd|]. clear Hnd. induction l as [|e l IH]; csimpl; [done|].
  destruct (f e) as [b|] eqn:E; csimpl.
  - rewrite (Hk e b) by (done || by left). apply sublist_skip, IH. intros e' b' He'. apply Hk. by right.
  - apply sublist_cons, IH. intros e' b' He'. apply Hk. by right.
Qed.

(** Halves are kept under their height. *)
Definition keyed (r : daRetriever K) : Prop :=
  forall h sh, r_pendingHeaders r !! h = Some sh -> sh_height sh = h.

Lemma first_of_key {A} (key : A -> Z) m l h a : (forall h a, m !! h = Some a -> key a = h) ->
  first_of key m l h = Some a -> key a = h.
Proof.
  unfold first_of. intros Hm. destruct (m !! h) as [b|] eqn:E; [intros [= <-]; auto|].
  intros E'. assert (Ha : a ∈ filter (fun a => key a = h) l) by (by apply head_Some_elem_of).
  by apply list_elem_of_filter in Ha as [? _].
Qed.

(** What a DA height does to the halves and which events it gives. *)
Definition accounted (now da : Z) (blobs : list bytes) (r r' : daRetriever K) (m : manager) (events : list Event) : Prop :=
  exists hs ds, (decode_blobs g now da blobs (strictMode r) m).2 = Ok (hs, ds) /\
    Forall (header_checked now (strictMode r)) hs /\ Forall data_checked ds /\
    let header := first_of sh_height (r_pendingHeaders r) hs in
    let data := first_of data_height (r_pendingData r) ds in
    (forall ev, ev ∈ events <-> exists h sh, header h = Some sh /\ complete da sh (data h) = Some ev) /\
    NoDup ((fun ev => sh_height (ev_Header ev)) <$> events) /\
    (forall h sh, r_pendingHeaders r' !! h = Some sh <-> header h = Some sh /\ complete da sh (data h) = None) /\
    (forall h d, r_pendingData r' !! h = Some d <-> data h = Some d /\ header h = None) /\
    (strictMode r = true -> strictMode r' = true) /\ keyed r'.

Lemma processBlobs_spec now da blobs (r r' : daRetriever K) (m m' : manager) events : keyed r ->
  processBlobs g now blobs da r m = (r', m', Ok events) -> accounted now da blobs r r' m events.
Proof.
  intros Hr E. unfold accounted. unfold processBlobs in E. pose proof (decode_blobs_spec now da blobs (strictMode r) m) as Hd.
  destruct (decode_blobs _ _ _ _ _ _) as [[s1 m1] [[hs ds]|]]; [|done]. destruct Hd as [Hs Hd].
  destruct (Hd hs ds eq_refl) as [F1 F2]. exists hs, ds. split; [done|]. split; [done|]. split; [done|]. cbv zeta.
  set (H0 := add_headers (r_pendingHeaders r) hs) in *. set (D0 := add_data (r_pendingData r) ds) in *.
  assert (EH : forall h, H0 !! h = first_of sh_height (r_pendingHeaders r) hs h) by (intros; apply fold_keep_first).
  assert (ED : forall h, D0 !! h = first_of data_height (r_pendingData r) ds h) by (intros; apply fold_keep_first).
  pose proof (range_map_perm _ H0) as Hp.
  assert (Hin : forall h sh, (h, sh) ∈ range_map H0 <-> H0 !! h = Some sh)
    by (intros; rewrite Hp; apply elem_of_map_to_list).
  assert (Hnd : NoDup (range_map H0).*1) by (rewrite Hp; apply NoDup_fst_map_to_list).
  pose proof (match_loop da (range_map H0) H0 D0 [] Hnd) as Hm.
  destruct (foldl _ _ _) as [[H1 D1] evs]. injection E as <- _ <-. destruct Hm as (M1 & M2 & M3). simpl in M1.
  assert (Hfil : forall h, filter (fun e : Z * SignedHeader K => e.1 = h) (range_map H0) =
    match H0 !! h with Some sh => [(h, sh)] | None => [] end).
  { intros h. destruct (H0 !! h) as [sh|] eqn:Eh; [apply filter_key; [done|by apply Hin]|].
    apply filter_no_key. intros ([h' sh] & -> & He%Hin)%list_elem_of_fmap. simpl in Eh. congruence. }
  setoid_rewrite <- EH. setoid_rewrite <- ED. simpl. split_and!.
  - intros ev. rewrite M1, list_elem_of_omap. split.
    + intros ([h sh] & He & Ec). exists h, sh. split; [by apply Hin|done].
    + intros (h & sh & Eh & Ec). exists (h, sh). split; [by apply Hin|done].
  - rewrite M1. apply omap_keys; [|done]. intros [h sh] ev He%Hin Ec. simpl in *.
    rewrite EH in He. rewrite <- (first_of_key sh_height _ _ _ _ Hr He).
    unfold complete in Ec. repeat case_match; by simplify_eq.
  - intros h sh. rewrite M2, Hfil. destruct (H0 !! h) as [sh'|]; [|by split; [|intros [? _]]]. simpl.
    destruct (complete da sh' (D0 !! h)) eqn:Ec; split; [done|intros [[= <-] ?]; congruence| |by intros [? _]].
    by intros [= <-].
  - intros h d. rewrite M3, Hfil. destruct (H0 !! h) as [sh'|]; [|by split; [|intros [? _]]]. simpl.
    assert (Hn : ~ (D0 !! h = Some d /\ Some sh' = None)) by (by intros [_ ?]).
    destruct (complete da sh' (D0 !! h)) eqn:Ec; [by split|]. unfold complete in Ec.
    destruct (D0 !! h) eqn:Eh; [done|]. split; [done|by intros [? _]].
  - done.
  - intros h sh. simpl. rewrite M2, Hfil. destruct (H0 !! h) as [sh'|] eqn:Eh; [|done]. simpl.
    destruct (complete _ _ _); [done|]. intros [= <-]. rewrite EH in Eh. by eapply first_of_key.
Qed.

(** C5: What becomes of the blobs of a DA height, in whatever order the pending map is visited. Let the
    header of a height be the one pending, or else the first decoded one, and likewise its data. A
    block event is emitted exactly for the heights whose header is known and whose data is known or
    expected to be empty, once each; every other header, and all data without a header, stays pending:
    nothing is lost and nothing is emitted twice. Every decoded header names the proposer and is
    well formed, in strict mode it carries an envelope signature that its own key verifies, all
    decoded data is signed in the proposer's name, and strict mode is never left. *)
Theorem processBlobs_exact (now da : Z) (blobs : list bytes) (r r' : daRetriever K) (m m' : manager) (events : list Event)
  (Hr : keyed r) (E : processBlobs g now blobs da r m = (r', m', Ok events)) :
  exists hs ds, (decode_blobs g now da blobs (strictMode r) m).2 = Ok (hs, ds) /\
    Forall (header_checked now (strictMode r)) hs /\ Forall data_checked ds /\
    let header := first_of sh_height (r_pendingHeaders r) hs in
    let data := first_of data_height (r_pendingData r) ds in
    (forall ev, ev ∈ events <-> exists h sh, header h = Some sh /\ complete da sh (data h) = Some ev) /\
    NoDup ((fun ev => sh_height (ev_Header ev)) <$> events) /\
    (forall h sh, r_pendingHeaders r' !! h = Some sh <-> header h = Some sh /\ complete da sh (data h) = None) /\
    (forall h d, r_pendingData r' !! h = Some d <-> data h = Some d /\ header h = None) /\
    (strictMode r = true -> strictMode r' = true) /\ keyed r'.
Proof. exact (processBlobs_spec now da blobs r r' m m' events Hr E). Qed.

End accounting.

Module RetrieverWitness.
Import RefHash RefLRU TypesWitness Submit.SubmitWitness.

#[export] Instance listed : MapRange := fun A m => map_to_list m.
#[export] Instance listed_laws : MapRangeLaws.
Proof. intros A m. done. Qed.

Definition w_genesis : Genesis :=
  {| g_ChainID := "chain"; g_StartTime := 1000; g_InitialHeight := 1; g_ProposerAddress := [x05]; g_DAStartHeight := 3;
     g_DAEpochForcedInclusion := 2 |}.
Definition block_data (h : Z) : Data :=
  {| dt_Metadata := Some {| md_ChainID := "chain"; md_Height := h; md_Time := 2000; LastDataHash := [] |}; Txs := [[x01]; [x02]] |}.
Definition block_header (h : Z) : SignedHeader bytes :=
  let hd := {| hd_Height := h; hd_Time := 2000; hd_ChainID := "chain"; hd_Version := {| Block := 0; App := 0 |};
               LastHeaderHash := []; DataHash := DACommitment (block_data h); AppHash := [x02]; ValidatorHash := [x06];
               ProposerAddress := [x05]; Legacy := None |} in
  {| sh_Header := hd; sh_Signature := x07 :: blob (Header_MarshalBinary hd); sh_Signer := w_signer |}.
Definition header_blob (h : Z) : bytes :=
  blob (MarshalDAEnvelope (block_header h) (x07 :: blob (SignedHeader_MarshalBinary (block_header h)))).
Definition data_blob (h : Z) : bytes :=
  blob (SignedData_MarshalBinary {| sd_Data := block_data h; sd_Signature := x07 :: blob (Data_MarshalBinary (block_data h));
                                    sd_Signer := w_signer |}).

Definition w_manager : implementation bytes lruc :=
  {| headerCache := no_cache; dataCache := no_cache; txCache := no_cache; txTimestamps := ∅; pendingEventsCache := no_cache;
     pendingHeaders := {| metaKey := LastSubmittedHeaderHeightKey; lastHeight := 0; pendingCache := small |};
     pendingData := {| metaKey := LastSubmittedDataHeightKey; lastHeight := 0; pendingCache := small |} |}.

(** A whole block, a header without its data, data without its header, and a blob of another kind. *)
Definition w_blobs : list bytes := [header_blob 1; data_blob 1; header_blob 2; data_blob 3; [x2a]].
Definition w_out := processBlobs w_genesis 2000 w_blobs 9 NewDARetriever w_manager.
Definition w_found : list (DAHeightEvent (K := bytes)) := blob w_out.2.

Lemma processBlobs_exact_witness :
  exists hs ds, (decode_blobs w_genesis 2000 9 w_blobs (strictMode (K := bytes) NewDARetriever) w_manager).2 = Ok (hs, ds) /\
    Forall (header_checked w_genesis 2000 (strictMode (K := bytes) NewDARetriever)) hs /\ Forall (data_checked w_genesis) ds /\
    let header := first_of sh_height (r_pendingHeaders NewDARetriever) hs in
    let data := first_of data_height (r_pendingData (K := bytes) NewDARetriever) ds in
    (forall ev, ev ∈ w_found <-> exists h sh, header h = Some sh /\ complete 9 sh (data h) = Some ev) /\
    NoDup ((fun ev => sh_height (ev_Header ev)) <$> w_found) /\
    (forall h sh, r_pendingHeaders w_out.1.1 !! h = Some sh <-> header h = Some sh /\ complete 9 sh (data h) = None) /\
    (forall h d, r_pendingData w_out.1.1 !! h = Some d <-> data h = Some d /\ header h = None) /\
    (strictMode (K := bytes) NewDARetriever = true -> strictMode w_out.1.1 = true) /\ keyed w_out.1.1.
Proof.
  pose proof (processBlobs_exact w_genesis 2000 9 w_blobs NewDARetriever w_out.1.1 w_manager w_out.1.2 w_found) as Hw.
  apply Hw.
  - intros h sh E. discriminate E.
  - vm_compute. reflexivity.
Defined.

(** One event, for block 1; header 2 and data 3 wait, and the retriever has become strict. *)
Example retriever_runs :
  ((fun ev => sh_height (ev_Header ev)) <$> w_found) = [1] /\
  (map_to_list (r_pendingHeaders w_out.1.1)).*1 = [2] /\ (map_to_list (r_pendingData w_out.1.1)).*1 = [3] /\
  strictMode w_out.1.1 = true.
Proof. vm_compute. repeat split. Qed.

End RetrieverWitness.

End DARetriever.
