(* ===== verification/Syncer.v ===== *)
(** Block synchronization (block/internal/syncing/syncer.go, p2p_handler.go, raft_retriever.go): a
    full node validates the blocks it gets from the DA layer, from P2P and from raft, executes
    them and commits them in height order.

    The execution client is [CoreExecutor], the DA client is [DAClient]; the forced-inclusion
    retriever, the transaction filter, the P2P stores, the clock and the waits are the class
    [SyncEnv]. The store, the cache manager and the DA retriever are the modelled ones. The height
    channel is a list of at most 100 events. Goroutines are the step functions; a use of a nil
    pointer is the error [nil_deref]. *)

From S2P Require Import Prelude Sha256 Interfaces Execution ForcedInclusion Types Validation Store Pending DACache.
From S2P Require Import Submit Replay Producer DARetriever.

Import Filter Retriever Store Pending DACache Replay Producer DARetriever.

Class SyncEnv (W K : Type) := {
  env_now : W -> Z;
  (** the wait between two attempts; true if the context ended first *)
  sync_wait : W -> W * bool;
  fi_Retrieve : W -> Z -> W * res ForcedInclusionEvent;
  exec_MaxGas : W -> W * res Z;
  exec_FilterTxs : W -> list bytes -> Z -> Z -> bool -> W * res (list FilterStatus);
  p2p_GetHeader : W -> Z -> W * res (P2PSignedHeader K);
  p2p_GetData : W -> Z -> W * res P2PData;
}.

Module Syncer.

Definition baseGracePeriodEpochs : Z := 1.
Definition maxGracePeriodEpochs : Z := 4.
(** [math.Round(0.8 * DefaultMaxBlobSize)] *)
Definition fullness_bytes : Z := (8 * Submit.DefaultMaxBlobSize + 5) / 10.
Definition heightInCap : nat := 100.
Definition daHintMaxDrift : Z := 200.
Definition errInvalidBlock : err := ESentinel "invalid block".
Definition errInvalidState : err := ESentinel "invalid state".
Definition errMaliciousProposer : err := ESentinel "malicious proposer detected".

(** What a syncer is created with and does not change. *)
Record config := {
  c_genesis : Genesis;
  (** the payload provider of [SetCustomVerifierForSyncNode], if there is one *)
  c_provider : option (Header -> Data -> res bytes);
}.

(** The forced-inclusion bookkeeping. *)
Record forced := {
  seenBlockTxs : gset string;
  seenBlockTxsByHeight : gmap Z (list string);
  daBlockBytes : gmap Z Z;
  lastCheckedEpochEnd : Z;
}.

Record Syncer (D K : Type) (C : Type -> Type -> Type) := {
  y_store : D; y_cache : implementation K C; y_lastState : option State; daRetrieverHeight : Z;
  heightInCh : list (DAHeightEvent (K := K)); y_errorCh : option (list err * nat); hasCriticalError : bool;
  y_hashErrCount : Z; y_retriever : daRetriever K; fiRetriever : bool; y_forced : forced;
  (** the P2P handler's processed height; [None] before [Start] *)
  p2pProcessed : option Z;
  (** the height of the P2P wait that can be cancelled *)
  p2pWait : option Z;
}.
#[global] Arguments y_store {D K C}. #[global] Arguments y_cache {D K C}. #[global] Arguments y_lastState {D K C}.
#[global] Arguments daRetrieverHeight {D K C}. #[global] Arguments heightInCh {D K C}. #[global] Arguments y_errorCh {D K C}.
#[global] Arguments hasCriticalError {D K C}. #[global] Arguments y_hashErrCount {D K C}.
#[global] Arguments y_retriever {D K C}. #[global] Arguments fiRetriever {D K C}. #[global] Arguments y_forced {D K C}.
#[global] Arguments p2pProcessed {D K C}. #[global] Arguments p2pWait {D K C}. #[global] Arguments Build_Syncer {D K C}.

Section setters.
Context {D K : Type} {C : Type -> Type -> Type}.
Abbreviation syn := (Syncer D K C).

Definition set_store (s : D) (y : syn) : syn :=
  Build_Syncer s (y_cache y) (y_lastState y) (daRetrieverHeight y) (heightInCh y) (y_errorCh y) (hasCriticalError y)
    (y_hashErrCount y) (y_retriever y) (fiRetriever y) (y_forced y) (p2pProcessed y) (p2pWait y).
Definition set_cache (m : implementation K C) (y : syn) : syn :=
  Build_Syncer (y_store y) m (y_lastState y) (daRetrieverHeight y) (heightInCh y) (y_errorCh y) (hasCriticalError y)
    (y_hashErrCount y) (y_retriever y) (fiRetriever y) (y_forced y) (p2pProcessed y) (p2pWait y).
Definition SetLastState (st : State) (y : syn) : syn :=
  Build_Syncer (y_store y) (y_cache y) (Some st) (daRetrieverHeight y) (heightInCh y) (y_errorCh y) (hasCriticalError y)
    (y_hashErrCount y) (y_retriever y) (fiRetriever y) (y_forced y) (p2pProcessed y) (p2pWait y).
Definition set_daHeight (h : Z) (y : syn) : syn :=
  Build_Syncer (y_store y) (y_cache y) (y_lastState y) h (heightInCh y) (y_errorCh y) (hasCriticalError y)
    (y_hashErrCount y) (y_retriever y) (fiRetriever y) (y_forced y) (p2pProcessed y) (p2pWait y).
Definition set_inCh (l : list (DAHeightEvent (K := K))) (y : syn) : syn :=
  Build_Syncer (y_store y) (y_cache y) (y_lastState y) (daRetrieverHeight y) l (y_errorCh y) (hasCriticalError y)
    (y_hashErrCount y) (y_retriever y) (fiRetriever y) (y_forced y) (p2pProcessed y) (p2pWait y).
Definition set_critical (c : option (list err * nat)) (y : syn) : syn :=
  Build_Syncer (y_store y) (y_cache y) (y_lastState y) (daRetrieverHeight y) (heightInCh y) c true
    (y_hashErrCount y) (y_retriever y) (fiRetriever y) (y_forced y) (p2pProcessed y) (p2pWait y).
Definition set_errCount (n : Z) (y : syn) : syn :=
  Build_Syncer (y_store y) (y_cache y) (y_lastState y) (daRetrieverHeight y) (heightInCh y) (y_errorCh y) (hasCriticalError y)
    n (y_retriever y) (fiRetriever y) (y_forced y) (p2pProcessed y) (p2pWait y).
Definition set_retriever (r : daRetriever K) (y : syn) : syn :=
  Build_Syncer (y_store y) (y_cache y) (y_lastState y) (daRetrieverHeight y) (heightInCh y) (y_errorCh y) (hasCriticalError y)
    (y_hashErrCount y) r (fiRetriever y) (y_forced y) (p2pProcessed y) (p2pWait y).
Definition set_forced (f : forced) (y : syn) : syn :=
  Build_Syncer (y_store y) (y_cache y) (y_lastState y) (daRetrieverHeight y) (heightInCh y) (y_errorCh y) (hasCriticalError y)
    (y_hashErrCount y) (y_retriever y) (fiRetriever y) f (p2pProcessed y) (p2pWait y).
Definition set_processed (p : option Z) (y : syn) : syn :=
  Build_Syncer (y_store y) (y_cache y) (y_lastState y) (daRetrieverHeight y) (heightInCh y) (y_errorCh y) (hasCriticalError y)
    (y_hashErrCount y) (y_retriever y) (fiRetriever y) (y_forced y) p (p2pWait y).
Definition set_wait (p : option Z) (y : syn) : syn :=
  Build_Syncer (y_store y) (y_cache y) (y_lastState y) (daRetrieverHeight y) (heightInCh y) (y_errorCh y) (hasCriticalError y)
    (y_hashErrCount y) (y_retriever y) (fiRetriever y) (y_forced y) (p2pProcessed y) p.
(** The handlers [Start] creates. *)
Definition set_handlers (y : syn) : syn :=
  Build_Syncer (y_store y) (y_cache y) (y_lastState y) (daRetrieverHeight y) (heightInCh y) (y_errorCh y) (hasCriticalError y)
    (y_hashErrCount y) NewDARetriever true (y_forced y) (Some 0) (p2pWait y).

(** [NewSyncer]. The DA retriever of a syncer that has not started is not used. *)
Definition NewSyncer (c : config) (s : D) (m : implementation K C) (errorCh : option (list err * nat)) : syn := {|
  y_store := s; y_cache := m; y_lastState := None; daRetrieverHeight := g_DAStartHeight (c_genesis c); heightInCh := [];
  y_errorCh := errorCh; hasCriticalError := false; y_hashErrCount := 0; y_retriever := NewDARetriever; fiRetriever := false;
  y_forced := {| seenBlockTxs := ∅; seenBlockTxsByHeight := ∅; daBlockBytes := ∅; lastCheckedEpochEnd := 0 |};
  p2pProcessed := None; p2pWait := None |}.

Definition getLastState (y : syn) : State := default zero_state (y_lastState y).

(** A full channel drops the error. *)
Definition sendCriticalError (er : err) (y : syn) : syn :=
  set_critical match y_errorCh y with
               | None => None
               | Some (l, cap) => Some (if (length l <? cap)%nat then (l ++ [er], cap) else (l, cap))
               end y.

(** [P2PHandler.SetProcessedHeight]: without concurrent writers the compare-and-swap succeeds at once. *)
Definition SetProcessedHeight (height current : Z) : Z := if height <=? current then current else height.

Definition setP2PWaitState (height : Z) (y : syn) : syn := set_wait (Some height) y.
Definition cancelP2PWait (height : Z) (y : syn) : syn :=
  match p2pWait y with
  | None => y
  | Some h => if (height =? 0) || (h <=? height) then set_wait None y else y
  end.

End setters.

(** ** The syncer *)

Section syncer.
Context {W D B K : Type} {C : Type -> Type -> Type}.
Context `{EX : CoreExecutor W} `{DC : DAClient W} `{SE : SyncEnv W K} `{DS : Datastore D} `{BT : Batching D B} `{LR : LRU C}.
Context `{PK : PubKeys K} `{PW : Protowire} `{HS : HashString} `{MR : MapRange}.
Context `{CV : ProtoCodec pb_Version} `{CHd : ProtoCodec pb_Header} `{CH : ProtoCodec pb_SignedHeader}.
Context `{CD : ProtoCodec pb_Data} `{CS : ProtoCodec pb_State}.
Context (c : config).

Abbreviation syn := (Syncer D K C).
Abbreviation Event := (DAHeightEvent (K := K)).
Abbreviation M := (bm (W * syn)).
Abbreviation g := (c_genesis c).

Definition world {A} (f : W -> W * res A) : M A := fun '(w, y) => let '(w', r) := f w in ((w', y), r).
Definition ask {A} (f : syn -> A) : M A := fun wy => (wy, Ok (f wy.2)).
Definition modify (f : syn -> syn) : M unit := fun '(w, y) => ((w, f y), Ok tt).
Definition on_cache {A} (f : implementation K C -> implementation K C * A) : M A :=
  fun '(w, y) => let '(m, a) := f (y_cache y) in ((w, set_cache m y), Ok a).
Definition write {A} (f : D -> D * res A) : M A :=
  fun '(w, y) => let '(s, r) := f (y_store y) in ((w, set_store s y), r).

(** *** Validation *)

Definition ValidateBlock (currState : State) (data : Data) (header : SignedHeader K) : M unit := fun '(w, y) =>
  match ValidateBasicWithData (env_now w) (c_provider c) header data with
  | Err e => ((w, y), Err (EWrap "invalid header" e))
  | Ok _ =>
      let '(n, r) := AssertValidForNextState (y_hashErrCount y) currState header data in
      ((w, set_errCount n y), match r with Ok _ => Ok tt | Err e => Err (EJoin errInvalidState e) end)
  end.

(** *** Execution *)

(** [left] attempts remain. *)
Fixpoint exec_retry (left : nat) (txs : list bytes) (header : Header) (prev : bytes) : M bytes :=
  match left with
  | O => bm_ret []
  | S left' => fun '(w, y) =>
      match exec_ExecuteTxs w txs (hd_Height header) (unix_time (hd_Time header)) prev with
      | (w', Ok newAppHash) => ((w', y), Ok newAppHash)
      | (w', Err er) =>
          match left' with
          | O => ((w', y), Err (EWrap "failed to execute transactions" er))
          | S _ => let '(w'', cancelled) := sync_wait w' in
                   if cancelled : bool then ((w'', y), Err (EWrap "context cancelled during retry" Submit.context_Canceled))
                   else exec_retry left' txs header prev (w'', y)
          end
      end
  end.
Definition executeTxsWithRetry (txs : list bytes) (header : Header) (currentState : State) : M bytes :=
  exec_retry MaxRetriesBeforeHalt txs header (st_AppHash currentState).

Definition ApplyBlock (header : Header) (data : Data) (currentState : State) : M State := fun wy =>
  match executeTxsWithRetry (Txs data) header currentState wy with
  | ((w, y), Err er) =>
      ((w, sendCriticalError (EWrap "failed to execute transactions" er) y), Err (EWrap "failed to execute transactions" er))
  | (wy', Ok newAppHash) => (wy', Ok (NextState currentState header newAppHash))
  end.

(** *** Forced inclusion *)

Definition hashTx (tx : bytes) : string := hex_encode (sha256_Sum256 tx).

(** The loop over an epoch's heights does not end if [epochEnd] is the largest uint64. *)
Definition gracePeriodForEpoch (f : forced) (epochStart epochEnd : Z) : Z :=
  if epochEnd <? epochStart then baseGracePeriodEpochs
  else
    let heightCount := epochEnd -u epochStart +u 1 in
    let totalBytes := foldl (fun n h => n +u default 0 (daBlockBytes f !! h)) 0 (heights_upto epochStart epochEnd) in
    let avgBytes := totalBytes / heightCount in
    let extra := if fullness_bytes <? avgBytes then (avgBytes -u fullness_bytes) / fullness_bytes else 0 in
    Z.min (baseGracePeriodEpochs +u extra) maxGracePeriodEpochs.

(** The block's transactions and their size, recorded for the DA height. *)
Definition record_block (f : forced) (daHeight : Z) (data : Data) : forced :=
  let hashes := hashTx <$> Txs data in
  {| seenBlockTxs := list_to_set hashes ∪ seenBlockTxs f;
     seenBlockTxsByHeight := <[daHeight := hashes]> (seenBlockTxsByHeight f);
     daBlockBytes := <[daHeight := foldl (fun n tx => n +u blen tx) 0 (Txs data)]> (daBlockBytes f);
     lastCheckedEpochEnd := lastCheckedEpochEnd f |}.

Definition prune_height (f : forced) (h : Z) : forced :=
  {| seenBlockTxs := seenBlockTxs f ∖ list_to_set (default [] (seenBlockTxsByHeight f !! h));
     seenBlockTxsByHeight := delete h (seenBlockTxsByHeight f);
     daBlockBytes := delete h (daBlockBytes f);
     lastCheckedEpochEnd := lastCheckedEpochEnd f |}.
Definition pruneUpTo (f : forced) (upTo : Z) : forced :=
  let f' := foldl prune_height f (heights_upto (lastCheckedEpochEnd f) upTo) in
  {| seenBlockTxs := seenBlockTxs f'; seenBlockTxsByHeight := seenBlockTxsByHeight f';
     daBlockBytes := daBlockBytes f'; lastCheckedEpochEnd := upTo |}.

Definition prune_epoch (f : forced) (epochEnd : Z) : forced :=
  if lastCheckedEpochEnd f <? epochEnd then pruneUpTo f epochEnd else f.

(** How many valid transactions of the epoch were not seen; [None] if there are fewer statuses than
    transactions (an index out of range). *)
Fixpoint count_missing (seen : gset string) (txs : list bytes) (statuses : list FilterStatus) : option Z :=
  match txs, statuses with
  | [], _ => Some 0
  | _, [] => None
  | tx :: txs, st :: statuses =>
      n ← count_missing seen txs statuses;
      Some (if bool_decide (st = FilterOK /\ hashTx tx ∉ seen) then n + 1 else n)
  end.

(** The loop over epoch ends. [None] is a return without error before its end. *)
Fixpoint verify_epochs (fuel : nat) (daHeight maxGas epochEnd missing : Z) : M (option Z) :=
  match fuel with
  | O => bm_err out_of_fuel
  | S fuel => fun '(w, y) =>
      let size := g_DAEpochForcedInclusion g in
      let epochStart := epochEnd -u (size -u 1) in
      let graceBoundary := epochEnd +u u64 (gracePeriodForEpoch (y_forced y) epochStart epochEnd * size) in
      if daHeight <=? graceBoundary then ((w, y), Ok (Some missing))
      else
        match fi_Retrieve w epochEnd with
        | (w, Err e) =>
            ((w, y), if errors_is e ErrForceInclusionNotConfigured then Ok None
                     else Err (EWrap "failed to retrieve forced inclusion txs for epoch" e))
        | (w, Ok event) =>
            if blen (fe_Txs event) =? 0 then
              verify_epochs fuel daHeight maxGas (epochEnd +u size) missing
                (w, set_forced (prune_epoch (y_forced y) epochEnd) y)
            else
              match exec_FilterTxs w (fe_Txs event) Submit.DefaultMaxBlobSize maxGas true with
              | (w, Err e) => ((w, y), Err (EWrap "failed to filter forced inclusion txs" e))
              | (w, Ok statuses) =>
                  match count_missing (seenBlockTxs (y_forced y)) (fe_Txs event) statuses with
                  | None => ((w, y), Err index_panic)
                  | Some n =>
                      verify_epochs fuel daHeight maxGas (epochEnd +u size) (missing + n)
                        (w, set_forced (prune_epoch (y_forced y) epochEnd) y)
                  end
              end
        end
  end.

Definition first_epoch_end : Z := g_DAStartHeight g +u g_DAEpochForcedInclusion g -u 1.
Definition start_epoch_end (f : forced) : Z :=
  if (lastCheckedEpochEnd f =? 0) || (lastCheckedEpochEnd f <? first_epoch_end) then first_epoch_end
  else lastCheckedEpochEnd f +u g_DAEpochForcedInclusion g.
(** Enough for every epoch end up to the DA height. *)
Definition epoch_fuel (daHeight start : Z) : nat := S (S (Z.to_nat ((daHeight - start) / g_DAEpochForcedInclusion g))).

Definition VerifyForcedInclusionTxs (daHeight : Z) (data : Data) : M unit := fun '(w, y) =>
  if negb (fiRetriever y) || (g_DAEpochForcedInclusion g =? 0) then ((w, y), Ok tt)
  else
    let y := set_forced (record_block (y_forced y) daHeight data) y in
    if (daHeight <? g_DAStartHeight g) || (daHeight <? st_DAHeight (getLastState y)) then ((w, y), Ok tt)
    else
      match exec_MaxGas w with
      | (w, Err e) => ((w, y), Err (EWrap "failed to get execution info" e))
      | (w, Ok maxGas) =>
          let start := start_epoch_end (y_forced y) in
          match verify_epochs (epoch_fuel daHeight start) daHeight maxGas start 0 (w, y) with
          | (wy, Err e) => (wy, Err e)
          | (wy, Ok None) => (wy, Ok tt)
          | (wy, Ok (Some missing)) =>
              (wy, if 0 <? missing then Err (EJoin errMaliciousProposer (EMsg "sequencer is malicious")) else Ok tt)
          end
      end.

(** *** Syncing one block *)

(** A panic is not an error value: nothing handles it. *)
Definition is_panic (e : err) : bool := bool_decide (e = nil_deref) || bool_decide (e = index_panic).

(** Remove both halves of a rejected block from the inclusion caches. *)
Definition drop_included (header : SignedHeader K) (data : Data) : M unit :=
  on_cache (fun m => (RemoveDataDAIncluded (RemoveHeaderDAIncluded m (hash_String (Header_Hash (sh_Header header))))
                        (hash_String (DACommitment data)), tt)).

Definition validate_or_drop (currentState : State) (header : SignedHeader K) (data : Data) : M unit := fun wy =>
  match ValidateBlock currentState data header wy with
  | (wy', Ok _) => (wy', Ok tt)
  | (wy', Err e) =>
      bm_bind (drop_included header data)
        (fun _ => bm_err (if errors_is e errInvalidState || errors_is e errInvalidBlock then e else EJoin errInvalidBlock e)) wy'
  end.

(** Only a malicious proposer, and a panic, stop the block; any other failure is logged. *)
Definition check_forced (event : Event) : M unit :=
  if bool_decide (ev_Source event = SourceDA) then fun wy =>
    match VerifyForcedInclusionTxs (ev_DaHeight event) (ev_Data event) wy with
    | (wy', Ok _) => (wy', Ok tt)
    | (wy', Err e) =>
        if is_panic e then (wy', Err e)
        else if errors_is e errMaliciousProposer
        then bm_bind (drop_included (ev_Header event) (ev_Data event)) (fun _ => bm_err e) wy'
        else (wy', Ok tt)
    end
  else bm_ret tt.

Definition with_da_height (st : State) (daHeight : Z) : State :=
  if st_DAHeight st <? daHeight then with_DAHeight st daHeight else st.

(** The writes of the block's batch, on the store the batch was created from. *)
Definition sync_writes (s : D) (header : SignedHeader K) (data : Data) (newState : State) : bm B unit :=
  bm_wrap "failed to save block" (SaveBlockData header data (sh_Signature header)) ;;;
  bm_wrap "failed to update height" (SetHeight s (hd_Height (sh_Header header))) ;;;
  bm_wrap "failed to update state" (UpdateState newState).

Definition mark_seen (header : SignedHeader K) (data : Data) (newState : State) : M unit :=
  on_cache (fun m =>
    let m := SetHeaderSeen m (hash_String (Header_Hash (sh_Header header))) (hd_Height (sh_Header header)) in
    (if bytes_Equal (DataHash (sh_Header header)) DataHashForEmptyTxs then m
     else SetDataSeen m (hash_String (DACommitment data)) (LastBlockHeight newState), tt)) ;;;
  modify (fun y => set_processed (SetProcessedHeight (LastBlockHeight newState) <$> p2pProcessed y) y).

Definition TrySyncNextBlock (event : Event) : M unit := fun wy =>
  match ctx_Err wy.1 with
  | Some e => (wy, Err e)
  | None =>
      let header := ev_Header event in
      let data := ev_Data event in
      (let! currentState := ask getLastState in
       validate_or_drop currentState header data ;;;
       check_forced event ;;;
       let! newState := bm_wrap "failed to apply block" (ApplyBlock (sh_Header header) data currentState) in
       let newState := with_da_height newState (ev_DaHeight event) in
       write (fun s => in_batch s "failed to create batch" "failed to commit batch" (sync_writes s header data newState)) ;;;
       modify (SetLastState newState) ;;;
       mark_seen header data newState) wy
  end.

(** *** Height events *)

(** The DA heights a P2P event asks to fetch first. *)
Definition hint_heights (height : Z) (hints : Z * Z) (m : implementation K C) : implementation K C * list Z :=
  let header m := let '(m, r) := GetHeaderDAIncludedByHeight m height in
                  (m, match r with Some _ => [] | None => [hints.1] end) in
  let data m := let '(m, r) := GetDataDAIncludedByHeight m height in
                (m, match r with Some _ => [] | None => [hints.2] end) in
  if (hints.1 =? 0) && (hints.2 =? 0) then (m, [])
  else if hints.1 =? 0 then data m
  else if hints.2 =? 0 then header m
  else
    let '(m, l1) := header m in
    let '(m, l2) := data m in
    (m, match l1, l2 with
        | [a], [b] => if a =? b then [a] else [a; b]
        | _, _ => l1 ++ l2
        end).

(** Queue the hints that are not behind, nor beyond the DA head when one is suspiciously far ahead. *)
Definition queue_hints (hints : list Z) : M unit := fun '(w, y) =>
  match hints with
  | [] => ((w, y), Ok tt)
  | _ =>
      let currentDAHeight := daRetrieverHeight y in
      let needsValidation := existsb (fun h => currentDAHeight +u daHintMaxDrift <? h) hints in
      let '(w, latest) := if needsValidation then let '(w, r) := da_GetLatestDAHeight w in
                                                  (w, match r with Ok h => Some h | Err _ => None end)
                          else (w, None) in
      let wanted h := negb (h <? currentDAHeight)
                      && negb (match latest with Some top => top <? h | None => false end) in
      ((w, set_retriever (foldl (fun r h => if wanted h then QueuePriorityHeight r h else r) (y_retriever y) hints) y), Ok tt)
  end.

(** Data that DA does not carry gets the hash of the data below; without metadata this dereferences nil. *)
Definition fill_last_data (currentHeight : Z) (event : Event) : M (option Event) := fun wy =>
  if bool_decide (ev_Source event = SourceDA) && bytes_Equal (DataHash (sh_Header (ev_Header event))) DataHashForEmptyTxs
     && (0 <? currentHeight) then
    match GetBlockData (K := K) (y_store wy.2) currentHeight with
    | Err _ => (wy, Ok None)
    | Ok (_, lastData) =>
        match dt_Metadata (ev_Data event) with
        | None => (wy, Err nil_deref)
        | Some md =>
            (wy, Ok (Some {|
               ev_Header := ev_Header event;
               ev_Data := {| dt_Metadata := Some {| md_ChainID := md_ChainID md; md_Height := md_Height md;
                                                    md_Time := md_Time md; LastDataHash := Data_Hash lastData |};
                             Txs := Txs (ev_Data event) |};
               ev_DaHeight := ev_DaHeight event; ev_Source := ev_Source event; ev_DaHeightHints := ev_DaHeightHints event |}))
        end
    end
  else (wy, Ok (Some event)).

(** What happens to an event whose block could not be synced. *)
Definition on_sync_error (event : Event) (height : Z) (e : err) (y : syn) : syn :=
  if errors_is e errInvalidBlock || hasCriticalError y then y
  else if errors_is e errMaliciousProposer then sendCriticalError (EWrap "sequencer malicious" e) y
  else if errors_is e errInvalidState then sendCriticalError (EWrap "invalid state detected" e) y
  else set_cache (SetPendingEvent (y_cache y) height event) y.

(** The only error is a panic. *)
Definition processHeightEvent (event : Event) : M unit := fun '(w, y) =>
  let height := hd_Height (sh_Header (ev_Header event)) in
  let headerHash := hash_String (Header_Hash (sh_Header (ev_Header event))) in
  match Height (y_store y) with
  | Err _ => ((w, y), Ok tt)
  | Ok currentHeight =>
      if height <=? currentHeight then ((w, y), Ok tt)
      else
        let '(m, seen) := IsHeaderSeen (y_cache y) headerHash in
        let y := set_cache m y in
        if seen : bool then ((w, y), Ok tt)
        else if negb (height =? currentHeight +u 1) then ((w, set_cache (SetPendingEvent (y_cache y) height event) y), Ok tt)
        else
          (let! hints := if bool_decide (ev_Source event = SourceP2P)
                         then on_cache (hint_heights height (ev_DaHeightHints event)) else bm_ret [] in
           queue_hints hints ;;;
           let! filled := fill_last_data currentHeight event in
           match filled with
           | None => bm_ret tt
           | Some event =>
               modify (cancelP2PWait height) ;;;
               (fun wy => match TrySyncNextBlock event wy with
                          | (wy', Ok _) => (wy', Ok tt)
                          | ((w', y'), Err e) => ((w', on_sync_error event height e y'), if is_panic e then Err e else Ok tt)
                          end)
           end) (w, y)
  end.

(** A non-blocking send: [None] when the channel is full. *)
Definition try_send (event : Event) (y : syn) : option syn :=
  if (length (heightInCh y) <? heightInCap)%nat then Some (set_inCh (heightInCh y ++ [event]) y) else None.

(** [pipeEvent]. [ctxErr] is the context's error; if the channel has room as well, the select may take
    either case, which [takeDone] decides. *)
Definition pipeEvent (ctxErr : option err) (takeDone : bool) (event : Event) (y : syn) : syn * res unit :=
  let pending := set_cache (SetPendingEvent (y_cache y) (hd_Height (sh_Header (ev_Header event))) event) y in
  match ctxErr, try_send event y with
  | None, Some y' => (y', Ok tt)
  | None, None => (pending, Ok tt)
  | Some e, Some y' => if takeDone then (pending, Err e) else (y', Ok tt)
  | Some e, None => (pending, Err e)
  end.

(** One receive of [processLoop]. *)
Definition process_next : M unit := fun '(w, y) =>
  match heightInCh y with
  | [] => ((w, y), Ok tt)
  | event :: l => processHeightEvent event (w, set_inCh l y)
  end.

Definition without_hints (event : Event) : Event := {|
  ev_Header := ev_Header event; ev_Data := ev_Data event; ev_DaHeight := ev_DaHeight event;
  ev_Source := ev_Source event; ev_DaHeightHints := (0, 0) |}.

(** [processPendingEvents]: each round takes a slot of the channel or is the last. The event sent is a
    copy without the DA hints; [takeDone] says at which height the context's case is taken. *)
Fixpoint pending_loop (slots : nat) (takeDone : Z -> bool) (nextHeight : Z) (y : syn) : syn :=
  match GetNextPendingEvent (y_cache y) nextHeight with
  | (m, None) => set_cache m y
  | (m, Some event) =>
      let y := set_cache m y in
      let back := set_cache (SetPendingEvent (y_cache y) nextHeight event) y in
      if takeDone nextHeight then back
      else match slots, try_send (without_hints event) y with
           | S slots, Some y' => pending_loop slots takeDone (nextHeight +u 1) y'
           | _, _ => back
           end
  end.
Definition processPendingEvents (takeDone : Z -> bool) (y : syn) : syn :=
  match Height (y_store y) with
  | Err _ => y
  | Ok currentHeight => pending_loop (heightInCap - length (heightInCh y)) takeDone (currentHeight +u 1) y
  end.

(** *** P2P (p2p_handler.go) *)

Definition p2p_assertExpectedProposer (proposerAddr : bytes) : res unit :=
  if bytes_Equal (g_ProposerAddress g) proposerAddr then Ok tt else Err (EMsg "proposer address mismatch").

(** [ProcessHeight]; the handler exists. *)
Definition ProcessHeight (height : Z) : M unit := fun '(w, y) =>
  if height <=? default 0 (p2pProcessed y) then ((w, y), Ok tt)
  else
    match p2p_GetHeader w height with
    | (w, Err e) => ((w, y), Err e)
    | (w, Ok p2pHeader) =>
        match p2p_assertExpectedProposer (ProposerAddress (sh_Header (p2p_Header p2pHeader))) with
        | Err e => ((w, y), Err e)
        | Ok _ =>
            match p2p_GetData w height with
            | (w, Err e) => ((w, y), Err e)
            | (w, Ok p2pData) =>
                if negb (bytes_Equal (DataHash (sh_Header (p2p_Header p2pHeader))) (DACommitment (p2p_Data p2pData)))
                then ((w, y), Err (EMsg "data hash mismatch"))
                else
                  let event := {| ev_Header := p2p_Header p2pHeader; ev_Data := p2p_Data p2pData; ev_DaHeight := 0;
                                  ev_Source := SourceP2P;
                                  ev_DaHeightHints := (p2p_HeaderHint p2pHeader, p2p_DataHint p2pData) |} in
                  let y := match try_send event y with
                           | Some y' => y'
                           | None => set_cache (SetPendingEvent (y_cache y) (hd_Height (sh_Header (ev_Header event))) event) y
                           end in
                  ((w, set_processed (SetProcessedHeight height <$> p2pProcessed y) y), Ok tt)
            end
        end
    end.

(** One round of [p2pWorkerLoop]; the waits that follow it do not change the state. *)
Definition p2p_round : M unit := fun '(w, y) =>
  match Height (y_store y) with
  | Err _ => ((w, y), Ok tt)
  | Ok currentHeight =>
      let targetHeight := currentHeight +u 1 in
      let '((w, y), _) := ProcessHeight targetHeight (w, setP2PWaitState targetHeight y) in
      ((w, cancelP2PWait targetHeight y), Ok tt)
  end.

(** *** Raft (raft_retriever.go) *)

(** The pre-processor [NewSyncer] installs. *)
Definition raft_preprocess (state : RaftBlockState) (y : syn) : syn :=
  let '(s, m) := SetLastSubmittedHeaderHeight (y_store y) (y_cache y) (rs_LastSubmittedDaHeaderHeight state) in
  let '(s, m) := SetLastSubmittedDataHeight s m (rs_LastSubmittedDaDataHeight state) in
  set_cache m (set_store s y).

Definition raft_event (header : SignedHeader K) (data : Data) : Event := {|
  ev_Header := header; ev_Data := data; ev_DaHeight := 0; ev_Source := EmptyString; ev_DaHeightHints := (0, 0) |}.

(** A malformed header and one of another proposer are only logged. *)
Definition consumeRaftBlock (takeDone : bool) (state : RaftBlockState) : M unit := fun '(w, y) =>
  let y := raft_preprocess state y in
  match SignedHeader_UnmarshalBinary (rs_Header state) with
  | Err e => ((w, y), Err (EWrap "unmarshal header" e))
  | Ok header =>
      match Header_ValidateBasic (env_now w) (sh_Header header),
            assertExpectedProposer g (ProposerAddress (sh_Header header)) with
      | Ok _, Ok _ =>
          match Data_UnmarshalBinary (rs_Data state) with
          | Err e => ((w, y), Err (EWrap "unmarshal data" e))
          | Ok data => let '(y, r) := pipeEvent (ctx_Err w) takeDone (raft_event header data) y in ((w, y), r)
          end
      | _, _ => ((w, y), Ok tt)
      end
  end.

Definition IsSyncedWithRaft (s : D) (raftState : RaftBlockState) : res Z :=
  let? state := GetState s in
  let diff := i64 (i64 (LastBlockHeight state) - i64 (rs_Height raftState)) in
  if negb (diff =? 0) then Ok diff
  else if rs_Height raftState =? 0 then Ok 0
  else
    let? header := wrap_err "get header for sync check at height" (GetHeader (K := K) s (rs_Height raftState)) in
    if bytes_Equal (Header_Hash (sh_Header header)) (rs_Hash raftState) then Ok 0
    else Err (EMsg "header hash mismatch").

(** The last state, from the store or the genesis when none was loaded yet. *)
Definition recovery_state (y : syn) : State :=
  let currentState := getLastState y in
  if bool_decide (st_ChainID currentState = EmptyString) then
    match GetState (y_store y) with
    | Ok st => st
    | Err _ => {| st_Version := {| Block := 0; App := 0 |}; st_ChainID := g_ChainID g; st_InitialHeight := 0;
                  LastBlockHeight := g_InitialHeight g -u 1; LastBlockTime := zero_time; st_LastHeaderHash := [];
                  st_DAHeight := 0; st_AppHash := [] |}
    end
  else currentState.

Definition RecoverFromRaft (raftState : RaftBlockState) : M unit := fun '(w, y) =>
  match SignedHeader_UnmarshalBinary (rs_Header raftState) with
  | Err e => ((w, y), Err (EWrap "unmarshal header" e))
  | Ok header =>
      match Data_UnmarshalBinary (rs_Data raftState) with
      | Err e => ((w, y), Err (EWrap "unmarshal data" e))
      | Ok data =>
          let currentState := recovery_state y in
          if LastBlockHeight currentState =? rs_Height raftState then
            ((w, y), if bytes_Equal (st_LastHeaderHash currentState) (rs_Hash raftState) then Ok tt
                     else Err (EMsg "header hash mismatch"))
          else if LastBlockHeight currentState +u 1 =? rs_Height raftState
          then TrySyncNextBlock (raft_event header data) (w, y)
          else ((w, y), if rs_Height raftState <? LastBlockHeight currentState
                        then Err (EMsg "invalid block height") else Ok tt)
      end
  end.

(** *** Starting and stopping *)

(** The last epoch end behind the state's DA height. *)
Definition checked_epochs (st : State) (f : forced) : forced :=
  let size := g_DAEpochForcedInclusion g in
  if (0 <? size) && (g_DAStartHeight g <=? st_DAHeight st) then
    if first_epoch_end <=? st_DAHeight st then
      let elapsed := st_DAHeight st -u first_epoch_end in
      {| seenBlockTxs := seenBlockTxs f; seenBlockTxsByHeight := seenBlockTxsByHeight f; daBlockBytes := daBlockBytes f;
         lastCheckedEpochEnd := first_epoch_end +u u64 (elapsed / size * size) |}
    else f
  else f.

Definition load_state : M State := fun '(w, y) =>
  match GetState (y_store y) with
  | Ok state => ((w, y), Ok state)
  | Err _ =>
      match exec_InitChain w (g_StartTime g) (g_InitialHeight g) (g_ChainID g) with
      | (w, Err e) => ((w, y), Err (EWrap "failed to initialize execution client" e))
      | (w, Ok stateRoot) =>
          ((w, y), Ok {| st_Version := {| Block := 0; App := 0 |}; st_ChainID := g_ChainID g;
                         st_InitialHeight := g_InitialHeight g; LastBlockHeight := g_InitialHeight g -u 1;
                         LastBlockTime := g_StartTime g; st_LastHeaderHash := []; st_DAHeight := g_DAStartHeight g;
                         st_AppHash := stateRoot |})
      end
  end.

Definition on_chain {A} (m : bm (W * D) A) : M A :=
  fun '(w, y) => let '((w', s'), r) := m (w, y_store y) in ((w', set_store s' y), r).

Definition initializeState : M unit :=
  let! state := load_state in
  check (negb (negb (st_DAHeight state =? 0) && (st_DAHeight state <? g_DAStartHeight g)))
    (EMsg "DA height is lower than DA start height") ;;;
  write (fun s => in_batch s "failed to create batch" "failed to commit batch"
    (bm_wrap "failed to set store height" (SetHeight s (LastBlockHeight state)) ;;;
     bm_wrap "failed to update state" (UpdateState state))) ;;;
  modify (SetLastState state) ;;;
  modify (fun y => set_forced (checked_epochs state (y_forced y)) y) ;;;
  modify (fun y => set_daHeight (Z.max (g_DAStartHeight g) (Z.max (DaHeight (y_cache y)) (st_DAHeight state))) y) ;;;
  bm_wrap "failed to sync execution layer on startup"
    (on_chain (SyncToHeight (B := B) (K := K) g (LastBlockHeight state))).

(** Draining the channel on [Stop]; [n] events are processed before the timeout. A panic ends it. *)
Fixpoint drain (n : nat) : M unit := fun '(w, y) =>
  match n, heightInCh y with
  | S n, _ :: _ => (process_next ;;; drain n) (w, y)
  | _, _ => ((w, y), Ok tt)
  end.
Definition Stop (n : nat) : M unit :=
  modify (cancelP2PWait 0) ;;;
  let! crit := ask hasCriticalError in
  if crit : bool then bm_ret tt else drain n.

(** With no DA height known, the head of the DA layer is the start. *)
Definition detect_da_height : M unit := fun '(w, y) =>
  if daRetrieverHeight y =? 0 then
    match da_GetLatestDAHeight w with
    | (w, Ok latest) => ((w, if latest =? 0 then y else set_daHeight latest y), Ok tt)
    | (w, Err _) => ((w, y), Ok tt)
    end
  else ((w, y), Ok tt).

(** [Start], without the goroutines it starts: state, handlers, the P2P handler's height and the DA
    height. [raftErr] is the error of the raft retriever's own start, if there is one; [waited] says
    that the genesis time came before the context ended; an error stops the syncer, draining at
    most [n] events. *)
Definition Start (n : nat) (raftErr : option err) (waited : bool) : M unit := fun wy =>
  match (bm_wrap "failed to initialize syncer state" initializeState ;;;
         modify set_handlers ;;;
         modify (fun y => match Height (y_store y) with
                          | Ok h => set_processed (SetProcessedHeight h <$> p2pProcessed y) y
                          | Err _ => y
                          end) ;;;
         match raftErr with Some e => bm_err (EWrap "start raft retriever" e) | None => bm_ret tt end ;;;
         if waited then detect_da_height else bm_ret tt) wy with
  | (wy', Ok _) => (wy', Ok tt)
  | (wy', Err e) => (Stop n ;;; bm_err e) wy'
  end.

(** Unprocessed events; [inFlight] is 1 while the process loop handles one. *)
Definition PendingCount (inFlight : Z) (y : syn) : Z :=
  blen (heightInCh y) + inFlight + PendingEventsCount (y_cache y).

End syncer.

(** ** The chain of a syncing node *)

Section chain.
Context {W D B K : Type} {C : Type -> Type -> Type}.
Context `{EX : CoreExecutor W} `{DC : DAClient W} `{SE : SyncEnv W K} `{DL : DatastoreLaws D} `{BC : Batching D B}.
Context `{BL : !BatchingLaws D B} `{LL : LRULaws C}.
Context `{PK : PubKeys K} `{PKL : !PubKeysLaws K} `{PW : Protowire} `{PWL : !ProtowireLaws}.
Context `{HS : HashString} `{HL : !HashStringLaws} `{MR : MapRange}.
Context `{CV : ProtoCodec pb_Version} `{CHd : ProtoCodec pb_Header}.
Context `{CH : ProtoCodec pb_SignedHeader} `{LH : !ProtoCodecLaws pb_SignedHeader}.
Context `{CD : ProtoCodec pb_Data} `{LD : !ProtoCodecLaws pb_Data}.
Context `{CS : ProtoCodec pb_State} `{LS : !ProtoCodecLaws pb_State}.
Context (c : config).

Abbreviation syn := (Syncer D K C).
Abbreviation Event := (DAHeightEvent (K := K)).
Abbreviation M := (bm (W * syn)).

(** An event with fields a decoded message can have. *)
Definition event_ok (ev : Event) : Prop :=
  header_valid (sh_Header (ev_Header ev)) /\ signer_ok (sh_Signer (ev_Header ev)) /\ data_valid (ev_Data ev) /\
  is_u64 (ev_DaHeight ev).

(** The pending events. *)
Definition waiting (m : implementation K C) : gmap Z Event := lru_view (itemsByHeight (pendingEventsCache m)).

Definition meta_keys (m : implementation K C) : string * string := (metaKey (pendingHeaders m), metaKey (pendingData m)).

(** The in-memory state is the stored one, and every queued event is well formed. *)
Record sync_inv (y : syn) (st : State) : Prop := {
  si_healthy : ds_healthy (y_store y);
  si_last : y_lastState y = Some st;
  si_height : Height (y_store y) = Ok (LastBlockHeight st);
  si_state : GetStateAtHeight (y_store y) (LastBlockHeight st) = Ok st;
  si_valid : proto_valid (State_ToProto st);
  si_queue : Forall event_ok (heightInCh y);
  si_waiting h ev : waiting (y_cache y) !! h = Some ev -> event_ok ev;
  si_keys : meta_keys (y_cache y) = (LastSubmittedHeaderHeightKey, LastSubmittedDataHeightKey);
}.

(** The block passed the node's checks on state [st]. *)
Definition validated (st : State) (sh : SignedHeader K) (d : Data) : Prop := exists now n,
  ValidateBasicWithData now (c_provider c) sh d = Ok tt /\ (AssertValidForNextState n st sh d).2 = Ok tt.

(** What everything before the commit leaves as it was. *)
Record same_core (y y' : syn) : Prop := {
  co_store : y_store y' = y_store y;
  co_last : y_lastState y' = y_lastState y;
  co_queue : heightInCh y' = heightInCh y;
  co_waiting : waiting (y_cache y') = waiting (y_cache y);
  co_keys : meta_keys (y_cache y') = meta_keys (y_cache y);
}.

Lemma same_core_refl y : same_core y y.
Proof. by split. Qed.
Lemma same_core_trans y1 y2 y3 : same_core y1 y2 -> same_core y2 y3 -> same_core y1 y3.
Proof. intros [] []. split; congruence. Qed.
Hint Resolve same_core_refl same_core_trans : core.

Lemma inv_core y y' st : sync_inv y st -> same_core y y' -> sync_inv y' st.
Proof. intros [] [E1 E2 E3 E4 E5]. split; rewrite ?E1, ?E2, ?E3, ?E4, ?E5; done. Qed.

(** [m] keeps the core, whatever it returns; its result satisfies [Q]. *)
Definition core {A} (m : M A) (Q : A -> Prop) : Prop :=
  forall w y, post m (w, y) (fun wy' r => same_core y wy'.2 /\ forall a, r = Ok a -> Q a).

Lemma core_bind {A A'} (m : M A) (k : A -> M A') P Q : core m P -> (forall a, P a -> core (k a) Q) -> core (bm_bind m k) Q.
Proof.
  intros Hm Hk w y. apply post_bind. eapply post_mono; [|apply Hm]. intros [w' y'] r [Hc Hr].
  destruct r as [a|e]; [|by split]. eapply post_mono; [|apply (Hk a (Hr a eq_refl))].
  intros [w2 y2] r [Hc' Hr']. split; [by eapply same_core_trans|done].
Qed.
Lemma core_wrap {A} msg (m : M A) Q : core m Q -> core (bm_wrap msg m) Q.
Proof.
  intros Hm w y. apply post_wrap. eapply post_mono; [|apply Hm]. intros x r [Hc Hr]. split; [done|].
  intros a E. apply Hr. by destruct r.
Qed.
Lemma core_ret {A} (a : A) (Q : A -> Prop) : Q a -> core (bm_ret a) Q.
Proof. intros Hq w y. split; [done|]. by intros ? [= <-]. Qed.
Lemma core_err {A} e (Q : A -> Prop) : core (bm_err e) Q.
Proof. intros w y. by split. Qed.

Lemma core_from {A} {m : M A} {Q} (Hm : core m Q) w y y1 : same_core y y1 ->
  post m (w, y1) (fun wy' r => same_core y wy'.2 /\ forall a, r = Ok a -> Q a).
Proof. intros Hc. eapply post_mono; [|apply Hm]. intros x r [Hc' Hr]. split; [by eapply same_core_trans|done]. Qed.

Lemma core_drop header data : core (drop_included header data) (fun _ => True).
Proof. intros w y. by split; [split|]. Qed.

Lemma core_validate st header data :
  core (validate_or_drop c st header data) (fun _ => validated st header data).
Proof.
  intros w y. unfold post, validate_or_drop, ValidateBlock.
  destruct (ValidateBasicWithData (env_now w) (c_provider c) header data) as [[]|e] eqn:E1; [|by split; [split|]].
  destruct (AssertValidForNextState (y_hashErrCount y) st header data) as [n [[]|e]] eqn:E2; [|by split; [split|]].
  split; [by split|]. intros _ _. exists (env_now w), (y_hashErrCount y). by rewrite E2.
Qed.

Lemma core_exec_retry left txs h prev : core (exec_retry (SE := SE) left txs h prev) (fun root => left = O \/
  exists w w', exec_ExecuteTxs w txs (hd_Height h) (unix_time (hd_Time h)) prev = (w', Ok root)).
Proof.
  induction left as [|left IH]; [by apply core_ret; left|]. intros w y. unfold post. cbn [exec_retry].
  destruct (exec_ExecuteTxs _ _ _ _ _) as [w' [root|er]] eqn:E; [split; [done|]; intros a [= <-]; right; by eauto|].
  destruct left as [|left]; [by split|]. destruct (sync_wait w') as [w2 [|]]; [by split|].
  eapply post_mono; [|apply IH]. intros x r [Hc Hr]. split; [done|]. intros a Ha. right.
  destruct (Hr a Ha); [done|done].
Qed.

Lemma core_ApplyBlock h d st : core (ApplyBlock (SE := SE) h d st) (fun ns => exists root,
  executed st h d root /\ ns = NextState st h root).
Proof.
  intros w y. unfold post, ApplyBlock. pose proof (core_exec_retry MaxRetriesBeforeHalt (Txs d) h (st_AppHash st) w y) as Hx.
  unfold post, executeTxsWithRetry in *. destruct (exec_retry _ _ _ _ _) as [[w' y'] [root|er]]; destruct Hx as [Hc Hr].
  - split; [done|]. intros ns [= <-]. exists root. split; [|done]. by destruct (Hr root eq_refl).
  - split; [|done]. simpl. eapply same_core_trans; [exact Hc|]. by split.
Qed.

Lemma core_verify_epochs fuel da gas e n : core (verify_epochs (SE := SE) c fuel da gas e n) (fun _ => True).
Proof.
  revert e n. induction fuel as [|fuel IH]; intros e n; [apply core_err|]. intros w y. unfold post. cbn [verify_epochs].
  destruct (_ <=? _); [by split|]. destruct (fi_Retrieve w e) as [w1 [ev|er]]; [|by split].
  destruct (blen _ =? 0); [by apply (core_from (IH _ _))|].
  destruct (exec_FilterTxs _ _ _ _ _) as [w2 [sts|er]]; [|by split].
  destruct (count_missing _ _ _); [|by split]. by apply (core_from (IH _ _)).
Qed.

Lemma core_forced da d : core (VerifyForcedInclusionTxs (SE := SE) c da d) (fun _ => True).
Proof.
  intros w y. unfold post, VerifyForcedInclusionTxs. destruct (_ || _); [by split|].
  destruct (_ || _); [by split; [split|]|]. destruct (exec_MaxGas w) as [w1 [gas|er]]; [|by split; [split|]].
  set (y1 := set_forced _ y). set (st := start_epoch_end _ _).
  pose proof (core_verify_epochs (epoch_fuel c da st) da gas st 0 w1 y1) as Hv. unfold post in Hv.
  destruct (verify_epochs _ _ _ _ _ _ _) as [[w2 y2] [[n|]|er]]; destruct Hv as [Hc _];
    (split; [eapply same_core_trans; [|exact Hc]; by split|done]).
Qed.

Lemma core_check_forced ev : core (check_forced (SE := SE) c ev) (fun _ => True).
Proof.
  unfold check_forced. case_bool_decide; [|by apply core_ret]. intros w y. unfold post.
  pose proof (core_forced (ev_DaHeight ev) (ev_Data ev) w y) as Hv. unfold post in Hv.
  destruct (VerifyForcedInclusionTxs _ _ _ _) as [[w1 y1] [[]|er]]; destruct Hv as [Hc _]; [by split|].
  destruct (is_panic er); [by split|]. destruct (errors_is er _); [|by split].
  by apply (core_from (core_bind _ _ _ _ (core_drop (ev_Header ev) (ev_Data ev)) (fun _ _ => core_err er _))).
Qed.

(** *** Committing a block *)

(** The block of [ev] was committed on [st], which became [st']. *)
Record synced (y y' : syn) (ev : Event) (st st' : State) : Prop := {
  sn_height : LastBlockHeight st' = LastBlockHeight st + 1;
  sn_number : hd_Height (sh_Header (ev_Header ev)) = LastBlockHeight st';
  sn_valid : validated st (ev_Header ev) (ev_Data ev);
  sn_exec : exists root, executed st (sh_Header (ev_Header ev)) (ev_Data ev) root /\
    st' = with_da_height (NextState st (sh_Header (ev_Header ev)) root) (ev_DaHeight ev);
  sn_block : block_saved (y_store y) (y_store y') (ev_Header ev) (ev_Data ev) (sh_Signature (ev_Header ev)) st' (LastBlockHeight st);
  sn_inv : sync_inv y' st';
}.

Lemma next_sync_valid st h root da : proto_valid (State_ToProto st) -> is_u64 (hd_Height h) -> is_u64 da ->
  proto_valid (State_ToProto (with_da_height (NextState st h root) da)).
Proof.
  intros Hv Hh Hd. pose proof (next_state_valid st h root Hv Hh) as (V1 & V2 & V3 & V4 & V5 & V6).
  unfold with_da_height. destruct (_ <? _); [|by split_and!]. by split_and!.
Qed.

Lemma with_da_height_fields st da : LastBlockHeight (with_da_height st da) = LastBlockHeight st.
Proof. unfold with_da_height. by destruct (_ <? _). Qed.

Lemma sync_commit s st ev st' : ds_healthy s -> Height s = Ok (LastBlockHeight st) -> event_ok ev ->
  proto_valid (State_ToProto st') -> LastBlockHeight st' = hd_Height (sh_Header (ev_Header ev)) ->
  exists s', in_batch (B := B) s "failed to create batch" "failed to commit batch"
      (sync_writes s (ev_Header ev) (ev_Data ev) st') = (s', Ok tt) /\ ds_healthy s' /\
    block_saved s s' (ev_Header ev) (ev_Data ev) (sh_Signature (ev_Header ev)) st' (LastBlockHeight st).
Proof.
  intros Hs Hh (Vh & Vs & Vd & _) Hv Hl.
  destruct (block_ops (B := B) s (ev_Header ev) (ev_Data ev) (sh_Signature (ev_Header ev)) st' _ Hh Vh Vs Vd Hv Hl)
    as (hb & sh' & db & stb & hops & Eh & Uh & Hsame & Ud & Us & Hops & Hw).
  destruct (in_batch_spec s "failed to create batch" "failed to commit batch" _ _ Hs (writes_wrapped _ _ _
    "failed to save block" "failed to update height" "failed to update state" _ Hw)) as (s' & E & Hs' & V).
  exists s'. split_and!; [done|done|]. by eapply block_reads.
Qed.

(** An attempt fails and keeps the core, or commits the block. *)
Definition tried (y : syn) (ev : Event) (st : State) (wy' : W * syn) (r : res unit) : Prop :=
  (exists e, r = Err e) /\ same_core y wy'.2 \/ r = Ok tt /\ exists st', synced y wy'.2 ev st st'.

Lemma tried_bind {A} (m : M A) (k : A -> M unit) P w y y0 ev st : core m P -> same_core y y0 ->
  (forall a w' y', same_core y y' -> P a -> post (k a) (w', y') (tried y ev st)) ->
  post (bm_bind m k) (w, y0) (tried y ev st).
Proof.
  intros Hm H0' Hk. apply post_bind. eapply post_mono; [|by apply (core_from Hm)]. intros [w' y'] r [Hc Hr]. simpl in *.
  destruct r as [a|e]; [by apply Hk; [|apply Hr]|]. left. by eauto.
Qed.

Lemma mark_seen_core header data ns (w : W) y : exists y', mark_seen header data ns (w, y) = ((w, y'), Ok tt) /\ same_core y y'.
Proof. eexists. split; [reflexivity|]. split; simpl; try done; by destruct (bytes_Equal _ _). Qed.

Lemma TrySync_spec st w y ev : sync_inv y st -> event_ok ev ->
  hd_Height (sh_Header (ev_Header ev)) = LastBlockHeight st + 1 ->
  post (TrySyncNextBlock (B := B) c ev) (w, y) (tried y ev st).
Proof.
  intros Hi Hev Hh. unfold post, TrySyncNextBlock. simpl. destruct (ctx_Err w) as [er|]; [left; split; by eauto|].
  set (header := ev_Header ev) in *. set (data := ev_Data ev).
  enough (Hp : forall k : State -> M unit, post (k st) (w, y) (tried y ev st) ->
    post (bm_bind (ask getLastState) k) (w, y) (tried y ev st)).
  2: { intros k Hk. apply post_bind. unfold post at 1, ask, getLastState. simpl. by rewrite (si_last _ _ Hi). }
  apply Hp. clear Hp. eapply tried_bind; [apply core_validate|done|]. intros [] w1 y1 C1 Hval.
  eapply tried_bind; [apply core_check_forced|done|]. intros [] w2 y2 C2 _.
  eapply tried_bind; [apply core_wrap, core_ApplyBlock|done|]. intros ns w3 y3 C3 (root & Hx & ->).
  set (st' := with_da_height _ _). assert (Hl : LastBlockHeight st' = hd_Height (sh_Header header)).
  { unfold st'. by rewrite with_da_height_fields. }
  assert (Hv : proto_valid (State_ToProto st')) by (apply next_sync_valid; [apply Hi|apply Hev|apply Hev]).
  destruct (sync_commit (y_store y) st ev st' (si_healthy _ _ Hi) (si_height _ _ Hi) Hev Hv Hl) as (s' & Es & Hs' & Hb).
  fold header data in Es. apply post_bind. unfold post at 1, write. cbv beta. rewrite (co_store _ _ C3), Es.
  apply post_bind. unfold post at 1, modify. unfold post.
  destruct (mark_seen_core header data st' w3 (SetLastState st' (set_store s' y3))) as (y4 & -> & [D1 D2 D3 D4 D5]).
  right. split; [done|]. exists st'. destruct C3 as [E1 E2 E3 E4 E5], Hi as [I1 I2 I3 I4 I5 I6 I7 I8], Hb as [R1 R2 R3 R4 R5 R6].
  fold header in R1, R2, R3, R4, R5, R6. simpl in D1, D2, D3, D4, D5.
  split; simpl; rewrite ?D1; try (done || lia).
  - exists root. done.
  - split; rewrite ?D1, ?D2, ?D3, ?D4, ?D5, ?E3, ?E4, ?E5; try done; [|by rewrite Hl].
    rewrite R1, Hl. f_equal. lia.
Qed.

(** *** Runs of the node *)

(** The stored block of height [h] passed the checks on the stored state below it, and the stored state
    of [h] is the result of executing it there. *)
Definition validated_at (s : D) (h : Z) : Prop := exists (sh sh' : SignedHeader K) d st0 st1 root da,
  GetBlockData s h = Ok (sh', d) /\ same_header sh sh' /\ hd_Height (sh_Header sh) = h /\
  GetSignature s h = Ok (sh_Signature sh) /\
  GetStateAtHeight s (h - 1) = Ok st0 /\ validated st0 sh d /\ executed st0 (sh_Header sh) d root /\
  st1 = with_da_height (NextState st0 (sh_Header sh) root) da /\ GetStateAtHeight s h = Ok st1.

(** The chain of [y'] continues the chain of [y] up to the heights of their states. *)
Record continued (y y' : syn) (st st' : State) : Prop := {
  ct_inv : sync_inv y' st';
  ct_height : LastBlockHeight st <= LastBlockHeight st';
  ct_valid h : LastBlockHeight st < h <= LastBlockHeight st' -> validated_at (y_store y') h;
  ct_below h : is_u64 h -> h <= LastBlockHeight st ->
    block_at (K := K) (y_store y') h = block_at (y_store y) h /\
    GetStateAtHeight (y_store y') h = GetStateAtHeight (y_store y) h;
}.

(** At most one block more. *)
Definition advanced (y : syn) (st : State) (wy' : W * syn) : Prop :=
  exists st', continued y wy'.2 st st' /\ LastBlockHeight st' <= LastBlockHeight st + 1.

Lemma quiet_advanced y st wy' : sync_inv wy'.2 st -> y_store wy'.2 = y_store y -> advanced y st wy'.
Proof. intros Hi E. exists st. split; [|lia]. split; [done|lia|lia|]. by rewrite E. Qed.

Lemma validated_frame s s' h : block_at (K := K) s' h = block_at s h ->
  GetStateAtHeight s' h = GetStateAtHeight s h -> GetStateAtHeight s' (h - 1) = GetStateAtHeight s (h - 1) ->
  validated_at s h -> validated_at s' h.
Proof.
  unfold block_at. intros E1 E2 E3 (sh & sh' & d & st0 & st1 & root & da & V). simplify_eq.
  exists sh, sh', d, st0, st1, root, da. rewrite E2, E3. destruct V as (V1 & V2 & V3 & V4 & V).
  split_and!; try (done || congruence); apply V.
Qed.

Lemma synced_advanced y0 y wy' ev st st' : sync_inv y st -> y_store y = y_store y0 -> synced y wy'.2 ev st st' ->
  advanced y0 st wy'.
Proof.
  intros Hi E [S1 S2 S3 (root & S4 & S5) [R1 R2 R3 R4 R5 R6] S6]. exists st'. split; [|lia].
  pose proof (si_valid _ _ Hi) as (_ & _ & _ & V & _). simpl in V.
  split; [done|lia| |].
  - intros h Hh. assert (h = LastBlockHeight st') as -> by lia.
    destruct R2 as (sh' & blob & Q1 & _ & _ & Q2 & _).
    exists (ev_Header ev), sh', (ev_Data ev), st, st', root, (ev_DaHeight ev). rewrite S2 in Q2, R3, R4.
    split_and!; try done. rewrite S1, Z.add_simpl_r. destruct (R6 (LastBlockHeight st)) as [_ ->]; [done|lia|]. apply Hi.
  - intros h Hu Hle. rewrite <- E. apply R6; [done|]. rewrite S2. lia.
Qed.

Lemma continued_trans y1 y2 y3 st1 st2 st3 : sync_inv y1 st1 ->
  continued y1 y2 st1 st2 -> continued y2 y3 st2 st3 -> continued y1 y3 st1 st3.
Proof.
  intros I1 [A1 A2 A3 A4] [B1 B2 B3 B4].
  pose proof (si_valid _ _ I1) as (_ & _ & _ & V1 & _). pose proof (si_valid _ _ A1) as (_ & _ & _ & V2 & _). simpl in V1, V2.
  split; [done|lia| |].
  - intros h Hh. destruct (decide (h <= LastBlockHeight st2)); [|apply B3; lia].
    unfold is_u64 in *. destruct (B4 h) as [Eb Es]; [unfold is_u64; lia|done|].
    destruct (B4 (h - 1)) as [_ Es']; [unfold is_u64; lia|lia|].
    apply (validated_frame (y_store y2)); try done. apply A3. lia.
  - intros h Hu Hh. destruct (A4 h Hu Hh) as [<- <-]. apply B4; [done|lia].
Qed.

(** Adding a pending event keeps the invariant. *)
Lemma inv_pending y st h ev : sync_inv y st -> event_ok ev -> sync_inv (set_cache (SetPendingEvent (y_cache y) h ev) y) st.
Proof.
  intros [I1 I2 I3 I4 I5 I6 I7 I8] Hev. split; try done. intros k e. unfold waiting. simpl. intros E.
  destruct (lru_Add_spec (itemsByHeight (pendingEventsCache (y_cache y))) h ev) as (Hsub & _).
  eapply lookup_weaken in E; [|exact Hsub]. apply lookup_insert_Some in E as [[_ <-]|[_ E]]; [done|]. by apply (I7 k).
Qed.

Lemma inv_send y y' st ev : sync_inv y st -> event_ok ev -> try_send ev y = Some y' ->
  sync_inv y' st /\ y_store y' = y_store y.
Proof.
  intros [I1 I2 I3 I4 I5 I6 I7 I8] Hev. unfold try_send. destruct (_ <? _)%nat; [|done]. intros [= <-].
  split; [|done]. split; try done. simpl. apply Forall_app. by split; [|constructor].
Qed.

Lemma core_hints h hints : core (on_cache (hint_heights h hints)) (fun _ => True).
Proof.
  intros w y. unfold post, on_cache. destruct (hint_heights h hints (y_cache y)) as [m l] eqn:E. split; [|done].
  enough (Ew : (pendingEventsCache m, meta_keys m) = (pendingEventsCache (y_cache y), meta_keys (y_cache y)))
    by (injection Ew as E1 E2 E3; split; simpl; unfold waiting, meta_keys; congruence).
  unfold hint_heights, GetHeaderDAIncludedByHeight, GetDataDAIncludedByHeight in E.
  repeat (case_match; simplify_eq/=; try done).
Qed.

Lemma core_queue_hints l : core (queue_hints l) (fun _ => True).
Proof.
  intros w y. unfold post, queue_hints. destruct l; [by split|].
  destruct (if existsb _ _ then _ else _) as [w' latest]. by split; [split|].
Qed.

(** The event whose last data hash was filled in. *)
Lemma core_fill cur ev : event_ok ev -> core (fill_last_data cur ev) (fun r => match r with
  | Some ev' => event_ok ev' /\ ev_Header ev' = ev_Header ev | None => True end).
Proof.
  intros Hev w y. unfold post, fill_last_data. destruct (_ && _ && _); [|split; [done|]; by intros ? [= <-]].
  destruct (GetBlockData _ _) as [[lh ld]|]; [|split; [done|]; by intros ? [= <-]].
  destruct (dt_Metadata (ev_Data ev)) as [md|] eqn:Em; [|by split]. split; [done|]. intros r [= <-].
  destruct Hev as (V1 & V2 & V3 & V4). split; [|done]. split_and!; try done. unfold data_valid in *. by rewrite Em in V3.
Qed.

Lemma core_advanced y y' w st : sync_inv y st -> same_core y y' -> advanced y st (w, y').
Proof. intros Hi Hc. apply quiet_advanced; [by eapply inv_core|apply Hc]. Qed.

Lemma advanced_bind {A} (m : M A) (k : A -> M unit) P w y y0 st : sync_inv y st -> core m P -> same_core y y0 ->
  (forall a w' y', same_core y y' -> P a -> post (k a) (w', y') (fun wy' _ => advanced y st wy')) ->
  post (bm_bind m k) (w, y0) (fun wy' _ => advanced y st wy').
Proof.
  intros Hi Hm H0' Hk. apply post_bind. eapply post_mono; [|by apply (core_from Hm)]. intros [w' y'] r [Hc Hr]. simpl in *.
  destruct r as [a|e]; [by apply Hk; [|apply Hr]|]. by apply core_advanced.
Qed.

Lemma core_on_error y ev h e st : sync_inv y st -> event_ok ev ->
  sync_inv (on_sync_error ev h e y) st /\ y_store (on_sync_error ev h e y) = y_store y.
Proof.
  intros Hi Hev. unfold on_sync_error. destruct (_ || _); [done|].
  assert (Hcrit : forall er, sync_inv (sendCriticalError er y) st) by (intros; eapply inv_core; [exact Hi|by split]).
  destruct (errors_is _ _); [done|]. destruct (errors_is _ _); [done|]. split; [by apply inv_pending|done].
Qed.

Lemma try_advanced ev h w y y0 st : sync_inv y st -> same_core y y0 -> event_ok ev ->
  hd_Height (sh_Header (ev_Header ev)) = LastBlockHeight st + 1 ->
  post (fun wy => match TrySyncNextBlock (B := B) c ev wy with
                  | (wy', Ok _) => (wy', Ok tt)
                  | ((w', y'), Err e) => ((w', on_sync_error ev h e y'), if is_panic e then Err e else Ok tt)
                  end) (w, y0) (fun wy' _ => advanced y st wy').
Proof.
  intros Hi Hc Hev Hh. assert (Hi0 : sync_inv y0 st) by by eapply inv_core.
  pose proof (TrySync_spec st w y0 ev Hi0 Hev Hh) as Ht. unfold post in *.
  destruct (TrySyncNextBlock c ev (w, y0)) as [[w' y'] r]. destruct Ht as [[(e & ->) Hc']|[-> (st' & Hs)]]; simpl in *.
  - destruct (core_on_error y' ev h e st) as [I1 I2]; [by eapply inv_core|done|].
    apply quiet_advanced; [done|]. simpl. rewrite I2. etrans; [apply Hc'|apply Hc].
  - eapply (synced_advanced y y0); [done|apply Hc|done].
Qed.

Lemma process_advanced ev w y st : sync_inv y st -> event_ok ev -> LastBlockHeight st + 1 < two64 ->
  post (processHeightEvent (B := B) c ev) (w, y) (fun wy' _ => advanced y st wy').
Proof.
  intros Hi Hev Hb. unfold post, processHeightEvent. rewrite (si_height _ _ Hi).
  destruct (_ <=? _); [by apply core_advanced|].
  destruct (IsHeaderSeen _ _) as [m seen] eqn:Em. assert (Hm : same_core y (set_cache m y)).
  { unfold IsHeaderSeen in Em. destruct (isSeen _ _). by injection Em as <- <-. }
  destruct seen; [by apply core_advanced|].
  pose proof (si_valid _ _ Hi) as (_ & _ & _ & V & _). simpl in V. rewrite u64_small by (unfold is_u64 in *; lia).
  destruct (Z.eqb_spec (hd_Height (sh_Header (ev_Header ev))) (LastBlockHeight st + 1)) as [Eh|]; simpl.
  2: { apply quiet_advanced; [|done]. simpl. apply (inv_pending (set_cache m y)); [by eapply inv_core|done]. }
  match goal with |- let '_ := ?m' _ in _ => apply (advanced_bind _ _ (fun _ => True) w y (set_cache m y) st Hi) end.
  { case_bool_decide; [apply core_hints|by apply core_ret]. }
  { done. }
  intros hints w1 y1 C1 _. eapply advanced_bind; [done|apply core_queue_hints|done|]. intros [] w2 y2 C2 _.
  eapply advanced_bind; [done|by apply core_fill|done|]. intros [ev'|] w3 y3 C3 Hf; [|by apply core_advanced].
  destruct Hf as [Hev' Eh']. apply post_bind. unfold post at 1, modify.
  apply try_advanced; [done| |done|by rewrite Eh']. eapply same_core_trans; [exact C3|].
  unfold cancelP2PWait. destruct (p2pWait y3); [destruct (_ || _)|]; by split.
Qed.

(** What happens to a running node. The error of a step is a panic, which ends the run. *)
Inductive action :=
| Pipe (takeDone : bool) (ev : Event)
| ProcessNext
| ProcessPending (takeDone : Z -> bool)
| P2PRound
| RaftApply (takeDone : bool) (state : RaftBlockState).

Definition act (a : action) : M unit :=
  match a with
  | Pipe takeDone ev => fun '(w, y) => ((w, (pipeEvent (ctx_Err w) takeDone ev y).1), Ok tt)
  | ProcessNext => process_next (B := B) c
  | ProcessPending takeDone => modify (processPendingEvents takeDone)
  | P2PRound => p2p_round c
  | RaftApply takeDone state => fun wy => ((consumeRaftBlock c takeDone state wy).1, Ok tt)
  end.
Definition run (acts : list action) : M unit := foldr (fun a k => act a ;;; k) (bm_ret tt) acts.

(** *** Valid blocks are synced *)

Lemma exec_first (left : nat) txs h prev w w' root (y : syn) : exec_ExecuteTxs w txs (hd_Height h) (unix_time (hd_Time h)) prev = (w', Ok root) ->
  exec_retry (SE := SE) (S left) txs h prev (w, y) = ((w', y), Ok root).
Proof. intros E. cbn [exec_retry]. by rewrite E. Qed.

(** A validation that succeeds leaves the state as it is but for the process-wide counter. *)
Lemma validate_runs st header data w (y : syn) : ValidateBasicWithData (env_now w) (c_provider c) header data = Ok tt ->
  (AssertValidForNextState (y_hashErrCount y) st header data).2 = Ok tt ->
  exists n, validate_or_drop c st header data (w, y) = ((w, set_errCount n y), Ok tt).
Proof.
  intros E1 E2. unfold validate_or_drop, ValidateBlock. rewrite E1.
  destruct (AssertValidForNextState (y_hashErrCount y) st header data) as [n r]. simpl in E2. subst r. by exists n.
Qed.

(** The block of [ev] is valid next for the node [y] in state [st]. *)
Record ready (w : W) (y : syn) (st : State) (ev : Event) (root : bytes) : Prop := {
  rd_context : ctx_Err w = None;
  rd_header : ValidateBasicWithData (env_now w) (c_provider c) (ev_Header ev) (ev_Data ev) = Ok tt;
  rd_sequence : (AssertValidForNextState (y_hashErrCount y) st (ev_Header ev) (ev_Data ev)).2 = Ok tt;
  rd_forced w1 (y1 : syn) : (check_forced (SE := SE) c ev (w1, y1)).2 = Ok tt;
  rd_exec w1 : exists w2, exec_ExecuteTxs w1 (Txs (ev_Data ev)) (hd_Height (sh_Header (ev_Header ev)))
    (unix_time (hd_Time (sh_Header (ev_Header ev)))) (st_AppHash st) = (w2, Ok root);
}.

Lemma ready_synced w y st ev root : sync_inv y st -> event_ok ev ->
  hd_Height (sh_Header (ev_Header ev)) = LastBlockHeight st + 1 -> ready w y st ev root ->
  exists w' y', TrySyncNextBlock (B := B) c ev (w, y) = ((w', y'), Ok tt) /\
    synced y y' ev st (with_da_height (NextState st (sh_Header (ev_Header ev)) root) (ev_DaHeight ev)).
Proof.
  intros Hi Hev Hh [R1 R2 R3 R4 R5].
  assert (Hok : exists w' y', TrySyncNextBlock (B := B) c ev (w, y) = ((w', y'), Ok tt) /\
    y_lastState y' = Some (with_da_height (NextState st (sh_Header (ev_Header ev)) root) (ev_DaHeight ev))).
  { set (st' := with_da_height _ _).
    enough (Hp : post (TrySyncNextBlock (B := B) c ev) (w, y) (fun wy' r => r = Ok tt /\ y_lastState wy'.2 = Some st'))
      by (unfold post in Hp; destruct (TrySyncNextBlock c ev (w, y)) as [[w' y'] r]; destruct Hp as [-> Hp]; by exists w', y').
    unfold post, TrySyncNextBlock. cbn [fst]. rewrite R1.
    match goal with |- let '(y', r) := ?m _ in _ => change (post m (w, y) (fun wy' r => r = Ok tt /\ y_lastState wy'.2 = Some st')) end.
    apply post_bind. unfold post at 1, ask, getLastState. cbn [snd]. rewrite (si_last _ _ Hi). change (default zero_state (Some st)) with st.
    destruct (validate_runs st (ev_Header ev) (ev_Data ev) w y R2 R3) as (n & Ev).
    apply post_bind. unfold post at 1. rewrite Ev. apply post_bind. unfold post at 1.
    pose proof (core_check_forced ev w (set_errCount n y)) as Hc. specialize (R4 w (set_errCount n y)).
    unfold post in Hc. destruct (check_forced c ev (w, set_errCount n y)) as [[w2 y2] r2]. simpl in R4. subst r2.
    destruct Hc as [Hc _]. simpl in Hc.
    destruct (R5 w2) as [w3 Ex]. apply post_bind, post_wrap. unfold post at 1, ApplyBlock, executeTxsWithRetry, MaxRetriesBeforeHalt.
    rewrite (exec_first _ _ _ _ _ _ _ y2 Ex). simpl. apply post_bind. unfold post at 1, write. fold st'.
    assert (Hl : LastBlockHeight st' = hd_Height (sh_Header (ev_Header ev))) by (unfold st'; by rewrite with_da_height_fields).
    assert (Hv : proto_valid (State_ToProto st')) by (apply next_sync_valid; [apply Hi|apply Hev|apply Hev]).
    destruct (sync_commit (y_store y) st ev st' (si_healthy _ _ Hi) (si_height _ _ Hi) Hev Hv Hl) as (s' & Es & _).
    rewrite (co_store _ _ Hc). simpl. rewrite Es. apply post_bind. unfold post at 1, modify. unfold post.
    destruct (mark_seen_core (ev_Header ev) (ev_Data ev) st' w3 (SetLastState st' (set_store s' y2))) as (y4 & -> & [_ D2 _ _ _]).
    done. }
  destruct Hok as (w' & y' & E & El). exists w', y'. split; [done|].
  pose proof (TrySync_spec st w y ev Hi Hev Hh) as Ht. unfold post in Ht. rewrite E in Ht.
  destruct Ht as [[(e & ?) _]|[_ (st' & Hs)]]; [done|]. pose proof (si_last _ _ (sn_inv _ _ _ _ _ Hs)) as El'.
  simpl in Hs, El'. rewrite El in El'. injection El' as ->. done.
Qed.

(** A header is valid when any key it names verifies its signature over the slim encoding. *)
Lemma accepts_signed now (sh : SignedHeader K) (d : Data) k slim : c_provider c = None ->
  ProposerAddress (sh_Header sh) <> [] -> hd_Time (sh_Header sh) <> 0 ->
  unix_time (hd_Time (sh_Header sh)) <= now + MaxClockDrift -> Address (sh_Signer sh) = ProposerAddress (sh_Header sh) ->
  PubKey (sh_Signer sh) = Some k -> Header_MarshalBinary (sh_Header sh) = Ok slim -> slim <> [] ->
  sh_Signature sh <> [] -> pk_Verify k slim (sh_Signature sh) = Ok true ->
  ValidateBasicWithData now (c_provider c) sh d = Ok tt.
Proof.
  intros Hp Hprop Ht Hnow Haddr Hk Es Hne Hsig Hver.
  unfold ValidateBasicWithData, validate_signed, Header_ValidateBasic. rewrite Hp.
  destruct (ProposerAddress (sh_Header sh)) as [|p ps] eqn:Ep; [done|].
  destruct (Z.eqb_spec (hd_Time (sh_Header sh)) 0); [done|].
  destruct (Z.ltb_spec (now + MaxClockDrift) (unix_time (hd_Time (sh_Header sh)))); [lia|].
  destruct (sh_Signature sh) as [|c0 sig] eqn:Eg; [done|]. simpl.
  unfold bytes_Equal. rewrite Haddr, bool_decide_true by done. simpl. unfold try_payloads. simpl. rewrite Es. simpl.
  unfold tryPayload. destruct slim as [|b slim]; [done|]. simpl. rewrite Hk, Eg, Hver. done.
Qed.

(** C14: A block that continues the node's state is committed: the attempt returns without error and the
    chain grows by this block, with the state its execution gives. The signature is only asked to
    verify under the public key the header itself carries: [k] is any key at all, and the signer's
    address, which has to be the proposer's, is a field of its own that nothing compares with [k]. *)
Theorem any_key_synced (w : W) (y : syn) (st : State) (ev : Event) (root : bytes) (k : K) (slim : bytes)
  (Hi : sync_inv y st) (Hev : event_ok ev) (Hh : hd_Height (sh_Header (ev_Header ev)) = LastBlockHeight st + 1)
  (Hctx : ctx_Err w = None) (Hp : c_provider c = None)
  (Hprop : ProposerAddress (sh_Header (ev_Header ev)) <> []) (Ht : hd_Time (sh_Header (ev_Header ev)) <> 0)
  (Hnow : unix_time (hd_Time (sh_Header (ev_Header ev))) <= env_now w + MaxClockDrift)
  (Haddr : Address (sh_Signer (ev_Header ev)) = ProposerAddress (sh_Header (ev_Header ev)))
  (Hk : PubKey (sh_Signer (ev_Header ev)) = Some k)
  (Es : Header_MarshalBinary (sh_Header (ev_Header ev)) = Ok slim) (Hne : slim <> [])
  (Hsig : sh_Signature (ev_Header ev) <> []) (Hver : pk_Verify k slim (sh_Signature (ev_Header ev)) = Ok true)
  (Hseq : (AssertValidForNextState (y_hashErrCount y) st (ev_Header ev) (ev_Data ev)).2 = Ok tt)
  (Hforced : forall w1 (y1 : syn), (check_forced (SE := SE) c ev (w1, y1)).2 = Ok tt)
  (Hexec : forall w1, exists w2, exec_ExecuteTxs w1 (Txs (ev_Data ev)) (hd_Height (sh_Header (ev_Header ev)))
    (unix_time (hd_Time (sh_Header (ev_Header ev)))) (st_AppHash st) = (w2, Ok root)) :
  exists w' y', TrySyncNextBlock (B := B) c ev (w, y) = ((w', y'), Ok tt) /\
    synced y y' ev st (with_da_height (NextState st (sh_Header (ev_Header ev)) root) (ev_DaHeight ev)).
Proof.
  apply ready_synced; try done. split; try done. by eapply accepts_signed.
Qed.

(** [RecoverFromRaft] loads the stored state when none is in memory, but the block is then validated
    against the empty state in memory: a node that has not started cannot recover a block, whatever
    its store holds, and nothing but its caches changes. *)
Theorem recover_needs_start (w : W) (y : syn) (state : RaftBlockState) (sh : SignedHeader K) (d : Data)
  (Hl : y_lastState y = None) (Eh : SignedHeader_UnmarshalBinary (rs_Header state) = Ok sh)
  (Ed : Data_UnmarshalBinary (rs_Data state) = Ok d) (Hid : hd_ChainID (sh_Header sh) <> EmptyString)
  (Hn : LastBlockHeight (recovery_state c y) +u 1 = rs_Height state)
  (Hne : LastBlockHeight (recovery_state c y) <> rs_Height state) :
  let '((_, y'), r) := RecoverFromRaft (B := B) c state (w, y) in (exists e, r = Err e) /\ same_core y y'.
Proof.
  unfold RecoverFromRaft. rewrite Eh, Ed. destruct (Z.eqb_spec (LastBlockHeight (recovery_state c y)) (rs_Height state)); [done|].
  rewrite Hn, Z.eqb_refl. unfold TrySyncNextBlock. cbn [fst]. destruct (ctx_Err w) as [e|]; [by eauto|].
  set (ev := raft_event sh d).
  match goal with |- let '(p, r) := ?m _ in _ => enough (Hp : post m (w, y) (fun wy' r => (exists e, r = Err e) /\ same_core y wy'.2))
    by (unfold post in Hp; by destruct (m (w, y)) as [[w' y'] r]) end.
  apply post_bind. unfold post at 1, ask, getLastState. cbn [snd]. rewrite Hl. change (default zero_state None) with zero_state.
  apply post_bind. unfold post at 1. pose proof (core_validate zero_state sh d w y) as Hv. unfold post in Hv.
  change (ev_Header ev) with sh. change (ev_Data ev) with d.
  destruct (validate_or_drop c zero_state sh d (w, y)) as [[w1 y1] [[]|e]]; destruct Hv as [Hc Hq]; [|by eauto].
  destruct (Hq tt eq_refl) as (now & cnt & _ & Ha). unfold AssertValidForNextState, AssertValidSequence in Ha.
  rewrite bool_decide_false in Ha by done. done.
Qed.

(** Events arrive as decoded messages. *)
Definition act_ok (a : action) : Prop :=
  match a with
  | Pipe _ ev => event_ok ev
  | RaftApply _ state => forall sh d, SignedHeader_UnmarshalBinary (rs_Header state) = Ok sh ->
      Data_UnmarshalBinary (rs_Data state) = Ok d -> event_ok (raft_event sh d)
  | _ => True
  end.

Lemma pipe_quiet ctxErr t ev y st : sync_inv y st -> event_ok ev ->
  sync_inv (pipeEvent ctxErr t ev y).1 st /\ y_store (pipeEvent ctxErr t ev y).1 = y_store y.
Proof.
  intros Hi Hev. unfold pipeEvent.
  assert (Hp : forall h, sync_inv (set_cache (SetPendingEvent (y_cache y) h ev) y) st) by (intros; by apply inv_pending).
  destruct ctxErr, (try_send ev y) as [y'|] eqn:Es; [destruct t|..]; simpl;
    first [by split; [apply Hp|]|by apply (inv_send y y' st ev)].
Qed.

Lemma pending_loop_quiet slots t n y st : sync_inv y st ->
  sync_inv (pending_loop slots t n y) st /\ y_store (pending_loop slots t n y) = y_store y.
Proof.
  revert n y. induction slots as [|slots IH]; intros n y Hi; cbn [pending_loop];
    unfold GetNextPendingEvent, getNextItem;
    destruct (lru_Get_spec (itemsByHeight (pendingEventsCache (y_cache y))) n) as (l & -> & Vl & _);
    destruct (lru_view (itemsByHeight (pendingEventsCache (y_cache y))) !! n) as [ev|] eqn:Ew.
  1, 3: set (y1 := set_cache _ y).
  3, 4: split; [|reflexivity]; destruct Hi as [I1 I2 I3 I4 I5 I6 I7 I8]; split; try done;
    intros h e; unfold waiting; simpl; rewrite Vl; apply I7.
  all: assert (Hev : event_ok ev) by (by apply (si_waiting _ _ Hi n)).
  all: assert (Hi1 : sync_inv y1 st) by (destruct Hi as [I1 I2 I3 I4 I5 I6 I7 I8]; split; try done; intros h e;
    destruct (lru_Remove_spec l n) as [Vr _]; unfold waiting; simpl; rewrite Vr, Vl; intros [_ E]%lookup_delete_Some; by apply (I7 h)).
  all: assert (Hb : sync_inv (set_cache (SetPendingEvent (y_cache y1) n ev) y1) st) by by apply inv_pending.
  all: destruct (t n); [by split|].
  - by split.
  - destruct (try_send (without_hints ev) y1) as [y2|] eqn:Es; [|by split]. destruct (inv_send y1 y2 st (without_hints ev) Hi1 Hev Es) as [Hi2 E2].
    destruct (IH (n +u 1) y2 Hi2) as [J1 J2]. split; [done|]. by rewrite J2, E2.
Qed.

(** The P2P stores hold decoded headers and data. *)
Context (HP2Ph : forall w h w' p, p2p_GetHeader w h = (w', Ok p) ->
  header_valid (sh_Header (p2p_Header p)) /\ signer_ok (sh_Signer (p2p_Header p))).
Context (HP2Pd : forall w h w' p, p2p_GetData (SyncEnv := SE) w h = (w', Ok p) -> data_valid (p2p_Data p)).

Lemma core_wait h (y : syn) : same_core y (cancelP2PWait h y).
Proof. unfold cancelP2PWait. destruct (p2pWait y); [destruct (_ || _)|]; by split. Qed.

Lemma ProcessHeight_quiet h w y st : sync_inv y st ->
  post (ProcessHeight c h) (w, y) (fun wy' _ => sync_inv wy'.2 st /\ y_store wy'.2 = y_store y).
Proof.
  intros Hi. unfold post, ProcessHeight. destruct (_ <=? _); [done|].
  destruct (p2p_GetHeader w h) as [w1 [ph|]] eqn:Eh; [|done].
  destruct (p2p_assertExpectedProposer _ _); [|done].
  destruct (p2p_GetData w1 h) as [w2 [pd|]] eqn:Ed; [|done]. destruct (negb _); [done|].
  set (ev := {| ev_Header := _ |}). assert (Hev : event_ok ev).
  { destruct (HP2Ph _ _ _ _ Eh). split_and!; try done. by eapply HP2Pd. }
  set (y1 := match try_send ev y with Some y' => y' | None => _ end).
  assert (H1 : sync_inv y1 st /\ y_store y1 = y_store y).
  { unfold y1. destruct (try_send ev y) as [y2|] eqn:Es; [by apply (inv_send y y2 st ev)|]. split; [by apply inv_pending|done]. }
  destruct H1 as [Hi1 E1]. split; [|done]. simpl. eapply inv_core; [exact Hi1|by split].
Qed.

Lemma set_submitted {T} s (pb : pendingBase C T) h : ds_healthy s -> clean_tail true (metaKey pb) = true ->
  let '(s', pb') := setLastSubmittedHeight s pb h in same_chain (K := K) s s' /\ metaKey pb' = metaKey pb.
Proof.
  intros Hs Hk. unfold setLastSubmittedHeight. destruct (_ <? _); [|split; [by apply same_chain_refl|done]].
  destruct (SetMetadata_view s (metaKey pb) (PutUint64_LE h) Hs Hk) as (s' & -> & Hs' & V). split; [|done].
  apply meta_same_chain; try done. intros k Hne. simpl. rewrite V. apply lookup_insert_ne, not_eq_sym, Hne.
Qed.

Lemma raft_quiet state y st : sync_inv y st ->
  sync_inv (raft_preprocess state y) st /\ same_chain (K := K) (y_store y) (y_store (raft_preprocess state y)).
Proof.
  intros Hi. pose proof Hi as [I1 I2 I3 I4 I5 I6 I7 I8]. injection I8 as K1 K2.
  unfold raft_preprocess, SetLastSubmittedHeaderHeight, SetLastSubmittedDataHeight.
  pose proof (set_submitted (y_store y) (pendingHeaders (y_cache y)) (rs_LastSubmittedDaHeaderHeight state) I1) as S1.
  rewrite K1 in S1. specialize (S1 eq_refl). destruct (setLastSubmittedHeight (y_store y) _ _) as [s1 ph]. destruct S1 as [S1 Q1].
  pose proof (set_submitted s1 (pendingData (y_cache y)) (rs_LastSubmittedDaDataHeight state) (sc_healthy _ _ S1)) as S2.
  rewrite K2 in S2. specialize (S2 eq_refl). simpl. destruct (setLastSubmittedHeight s1 _ _) as [s2 pd]. destruct S2 as [S2 Q2].
  assert (Hc : same_chain (K := K) (y_store y) s2) by by eapply same_chain_trans. split; [|done].
  assert (Hu : is_u64 (LastBlockHeight st)) by apply I5.
  split; simpl; try done; [apply Hc|by rewrite (sc_height _ _ Hc)|by rewrite (sc_state _ _ Hc)|].
  unfold meta_keys. simpl. by rewrite Q1, Q2.
Qed.

Lemma chain_advanced y st wy' : sync_inv wy'.2 st -> same_chain (K := K) (y_store y) (y_store wy'.2) -> advanced y st wy'.
Proof.
  intros Hi Hc. exists st. split; [|lia]. split; [done|lia|lia|]. intros h Hu _. split; by apply Hc.
Qed.

Lemma act_advanced a w y st : sync_inv y st -> act_ok a -> LastBlockHeight st + 1 < two64 ->
  post (act a) (w, y) (fun wy' _ => advanced y st wy').
Proof.
  intros Hi Ha Hb. destruct a as [t ev| |t| |t state]; simpl in *.
  - unfold post. destruct (pipe_quiet (ctx_Err w) t ev y st Hi Ha). by apply quiet_advanced.
  - unfold post, process_next. destruct (heightInCh y) as [|ev l] eqn:Eq; [by apply quiet_advanced|].
    pose proof Hi as [I1 I2 I3 I4 I5 I6 I7 I8]. rewrite Eq in I6. apply Forall_cons in I6 as [Hev Hl].
    assert (Hi1 : sync_inv (set_inCh l y) st) by by split.
    pose proof (process_advanced ev w (set_inCh l y) st Hi1 Hev Hb) as Hp. unfold post in Hp.
    destruct (processHeightEvent _ _ _) as [wy' r]. destruct Hp as (st' & [P1 P2 P3 P4] & ?). exists st'. by split.
  - unfold post, modify, processPendingEvents. rewrite (si_height _ _ Hi).
    destruct (pending_loop_quiet (heightInCap - length (heightInCh y)) t (LastBlockHeight st +u 1) y st Hi).
    by apply quiet_advanced.
  - unfold post, p2p_round. rewrite (si_height _ _ Hi). set (n := LastBlockHeight st +u 1).
    assert (Hi1 : sync_inv (setP2PWaitState n y) st) by (eapply inv_core; [exact Hi|by split]).
    pose proof (ProcessHeight_quiet n w _ st Hi1) as Hp. unfold post in Hp.
    destruct (ProcessHeight _ _ _) as [[w' y'] r]. destruct Hp as [Hi2 E2]. simpl in Hi2, E2.
    apply quiet_advanced; [eapply inv_core; [exact Hi2|apply core_wait]|]. simpl. by rewrite (co_store _ _ (core_wait n y')).
  - unfold post, consumeRaftBlock. destruct (raft_quiet state y st Hi) as [Hi1 Hc].
    assert (H1 : advanced y st (w, raft_preprocess state y)) by by apply chain_advanced.
    destruct (SignedHeader_UnmarshalBinary (rs_Header state)) as [sh|]; [|done].
    destruct (Header_ValidateBasic _ _); [|done]. destruct (assertExpectedProposer _ _); [|done].
    destruct (Data_UnmarshalBinary (rs_Data state)) as [d|]; [|done].
    destruct (pipe_quiet (ctx_Err w) t (raft_event sh d) _ st Hi1 (Ha sh d eq_refl eq_refl)) as [Hi2 E2].
    destruct (pipeEvent _ _ _ _) as [y2 r]. simpl in Hi2, E2. apply chain_advanced; [done|]. simpl. by rewrite E2.
Qed.

(** C2: Whatever events a full node receives from the DA layer, from P2P and from raft, in whatever order,
    and whatever the components it calls answer: the invariant holds at the end, the height has
    grown by at most one per step without a gap, no block or state that was there before has
    changed, and every new block passed the node's validation on the stored state below it, was
    executed on that state's root, and is stored with its signature and the resulting state. *)
Theorem sync_chain (acts : list action) (w : W) (y : syn) (st : State) (Hi : sync_inv y st)
  (Ha : Forall act_ok acts) (Hb : LastBlockHeight st + Z.of_nat (length acts) < two64) :
  let '((_, y'), _) := run acts (w, y) in
  exists st', continued y y' st st' /\ LastBlockHeight st' <= LastBlockHeight st + Z.of_nat (length acts).
Proof.
  enough (Hp : post (run acts) (w, y) (fun wy' _ => exists st', continued y wy'.2 st st' /\
    LastBlockHeight st' <= LastBlockHeight st + Z.of_nat (length acts)))
    by (unfold post in Hp; by destruct (run acts (w, y)) as [[w' y'] r]).
  revert w y st Hi Hb. induction Ha as [|a acts Ha _ IH]; intros w y st Hi Hb.
  { destruct (quiet_advanced y st (w, y) Hi eq_refl) as (st' & ? & ?). apply post_ret. exists st. split; [|simpl; lia].
    split; [done|lia|lia|done]. }
  cbn [length] in Hb. apply post_bind. eapply post_mono; [|apply act_advanced; [exact Hi|exact Ha|lia]].
  intros [w1 y1] r (st1 & H1 & B1). simpl in H1.
  destruct r as [[]|e]; [|exists st1; split; [done|cbn [length]; lia]].
  eapply post_mono; [|apply (IH w1 y1 st1); [apply H1|lia]]. intros wy' r (st2 & H2 & B2).
  exists st2. split; [|cbn [length]; lia]. by eapply continued_trans.
Qed.

End chain.

(** ** Forced inclusion *)

Lemma prune_height_lookup f h k : k <> h -> daBlockBytes (prune_height f h) !! k = daBlockBytes f !! k.
Proof. intros Hne. simpl. by rewrite lookup_delete_ne. Qed.

Lemma prune_all f hs : seenBlockTxs (foldl prune_height f hs) ⊆ seenBlockTxs f /\
  forall k, k ∉ hs -> daBlockBytes (foldl prune_height f hs) !! k = daBlockBytes f !! k.
Proof.
  revert f. induction hs as [|h hs IH]; intros f; simpl; [done|]. destruct (IH (prune_height f h)) as [I1 I2]. split.
  - etrans; [exact I1|]. intros x Hx. simpl in Hx. by apply elem_of_difference in Hx as [? _].
  - intros k Hk. apply not_elem_of_cons in Hk as [Hne Hk]. rewrite I2 by done. by apply prune_height_lookup.
Qed.

(** Pruning up to an epoch's end forgets transactions, but no sizes above that end. *)
Lemma prune_epoch_spec f e : seenBlockTxs (prune_epoch f e) ⊆ seenBlockTxs f /\
  forall k, e < k -> daBlockBytes (prune_epoch f e) !! k = daBlockBytes f !! k.
Proof.
  unfold prune_epoch. destruct (_ <? _); [|done]. unfold pruneUpTo. simpl.
  destruct (prune_all f (heights_upto (lastCheckedEpochEnd f) e)) as [P1 P2]. split; [done|].
  intros k Hk. apply P2. rewrite elem_of_heights_upto. lia.
Qed.

Lemma grace_frame f f' a b : (forall k, a <= k -> daBlockBytes f' !! k = daBlockBytes f !! k) ->
  gracePeriodForEpoch f' a b = gracePeriodForEpoch f a b.
Proof.
  intros Hf. unfold gracePeriodForEpoch. destruct (_ <? _); [done|].
  enough (E : forall n, foldl (fun n h => n +u default 0 (daBlockBytes f' !! h)) n (heights_upto a b) =
    foldl (fun n h => n +u default 0 (daBlockBytes f !! h)) n (heights_upto a b)) by (by rewrite E).
  assert (Hin : forall h, h ∈ heights_upto a b -> daBlockBytes f' !! h = daBlockBytes f !! h).
  { intros h [Hh _]%elem_of_heights_upto. by apply Hf. }
  induction (heights_upto a b) as [|h l IH]; intros n; simpl; [done|].
  rewrite (Hin h) by by left. apply IH. intros h' Hh'. apply Hin. by right.
Qed.

Lemma grace_range f a b : 1 <= gracePeriodForEpoch f a b <= maxGracePeriodEpochs.
Proof.
  unfold gracePeriodForEpoch. destruct (_ <? _); [by split|]. set (avg := _ / _). unfold baseGracePeriodEpochs.
  assert (Hx : 0 <= (if fullness_bytes <? avg then (avg -u fullness_bytes) / fullness_bytes else 0) < two64 - 1).
  { destruct (_ <? _); [|by split]. pose proof (u64_range (avg - fullness_bytes)) as Hr. unfold is_u64 in Hr.
    change fullness_bytes with 4194304 in *. split; [apply Z.div_pos; lia|]. apply Z.div_lt_upper_bound; [lia|].
    unfold two64 in *. lia. }
  rewrite u64_small by (unfold is_u64; lia). unfold maxGracePeriodEpochs. lia.
Qed.

Lemma count_missing_zero seen txs sts : count_missing seen txs sts = Some 0 ->
  forall i tx, txs !! i = Some tx -> sts !! i = Some FilterOK -> hashTx tx ∈ seen.
Proof.
  revert sts. induction txs as [|tx txs IH]; intros sts; simpl; [done|]. destruct sts as [|st sts]; [done|].
  assert (Hn : forall n, count_missing seen txs sts = Some n -> 0 <= n).
  { clear. revert sts. induction txs as [|tx txs IH]; intros sts n; simpl; [intros [= <-]; lia|]. destruct sts as [|st sts]; [done|].
    destruct (count_missing seen txs sts) as [m|] eqn:E; [|done]. simpl. specialize (IH sts m E).
    case_bool_decide; intros [= <-]; lia. }
  destruct (count_missing seen txs sts) as [n|] eqn:E; [|done]. specialize (Hn n eq_refl). simpl.
  case_bool_decide as Hb; intros [= E0]; [lia|]. subst n. intros [|i] x Hx Hs; simpl in *; [|by eapply IH].
  injection Hx as ->. injection Hs as ->. destruct (decide (hashTx x ∈ seen)); [done|]. destruct Hb. by split.
Qed.

Lemma count_missing_total seen txs sts : length sts = length txs -> exists n, count_missing seen txs sts = Some n /\ 0 <= n.
Proof.
  revert sts. induction txs as [|tx txs IH]; intros [|st sts]; simpl; try done; [by exists 0|]. intros [= El].
  destruct (IH sts El) as (n & -> & Hn). simpl. eexists. split; [done|]. case_bool_decide; lia.
Qed.

Section forced.
Context {W D K : Type} {C : Type -> Type -> Type} `{SE : SyncEnv W K} (c : config).
Abbreviation syn := (Syncer D K C).
Abbreviation size := (g_DAEpochForcedInclusion (c_genesis c)).

(** The DA layer and the filter answer the same whenever they are asked, the filter for every transaction. *)
Context (txs_of : Z -> list bytes) (statuses : list bytes -> list FilterStatus).
Context (Hret : forall w e, exists w' ev, fi_Retrieve w e = (w', Ok ev) /\ fe_Txs ev = txs_of e).
Context (Hflt : forall w txs gas, exists w',
  exec_FilterTxs (SyncEnv := SE) w txs Submit.DefaultMaxBlobSize gas true = (w', Ok (statuses txs))).
Context (Hlen : forall txs, length (statuses txs) = length txs).
Context (Hsize : 0 < size).

(** The epoch ending at [e] is due at DA height [da]: its grace period is over. *)
Definition due (f : forced) (da e : Z) : Prop := e + gracePeriodForEpoch f (e - (size - 1)) e * size < da.
(** Every valid transaction of the epoch was seen. *)
Definition honoured (seen : gset string) (e : Z) : Prop :=
  forall i tx, txs_of e !! i = Some tx -> statuses (txs_of e) !! i = Some FilterOK -> hashTx tx ∈ seen.

Lemma due_frame f f' da e : (forall k, e - (size - 1) <= k -> daBlockBytes f' !! k = daBlockBytes f !! k) ->
  due f' da e <-> due f da e.
Proof. intros Hf. unfold due. by rewrite (grace_frame f f'). Qed.

Lemma verify_epochs_spec fuel da gas e n w (y : syn) : 0 <= n -> size - 1 <= e -> is_u64 da -> da + 5 * size < two64 ->
  e <= da + size -> (da - e) / size + 1 < Z.of_nat fuel ->
  exists w' y' m, verify_epochs c fuel da gas e n (w, y) = ((w', y'), Ok (Some m)) /\ n <= m /\
    (m = 0 -> forall i, 0 <= i -> (forall j, 0 <= j <= i -> due (y_forced y) da (e + j * size)) ->
       honoured (seenBlockTxs (y_forced y)) (e + i * size)).
Proof.
  revert e n w y. induction fuel as [|fuel IH]; intros e n w y Hn He Hda Hb Hle Hf.
  { exfalso. assert (-1 <= (da - e) / size) by (apply Z.div_le_lower_bound; lia). lia. }
  assert (He64 : is_u64 e) by (unfold is_u64 in *; lia).
  assert (Hs64 : is_u64 size) by (unfold is_u64 in *; lia).
  cbn [verify_epochs]. set (f := y_forced y).
  pose proof (grace_range f (e - (size - 1)) e) as Hgr. unfold maxGracePeriodEpochs in Hgr.
  rewrite (u64_small (size - 1)), (u64_small (e - (size - 1))) by (unfold is_u64 in *; lia).
  set (gr := gracePeriodForEpoch f (e - (size - 1)) e) in *.
  assert (Hgb : 0 <= gr * size <= 4 * size) by nia.
  rewrite (u64_small (gr * size)) by (unfold is_u64 in *; lia).
  rewrite (u64_small (e + gr * size)) by (unfold is_u64 in *; lia).
  destruct (Z.leb_spec da (e + gr * size)) as [Hnd|Hdue].
  { exists w, y, n. split_and!; [done|lia|]. intros _ i Hi Hj. specialize (Hj 0 ltac:(lia)). unfold due in Hj.
    replace (e + 0 * size) with e in Hj by lia. fold f gr in Hj. lia. }
  rewrite (u64_small (e + size)) by (unfold is_u64 in *; lia).
  set (y1 := set_forced (prune_epoch f e) y).
  assert (Hrec : forall w1 n1, n <= n1 ->
    (n1 = 0 -> honoured (seenBlockTxs f) e) ->
    exists w' y' m, verify_epochs c fuel da gas (e + size) n1 (w1, y1) = ((w', y'), Ok (Some m)) /\ n <= m /\
      (m = 0 -> forall i, 0 <= i -> (forall j, 0 <= j <= i -> due f da (e + j * size)) ->
         honoured (seenBlockTxs f) (e + i * size))).
  { intros w1 n1 Hn1 Hhon. destruct (prune_epoch_spec f e) as [P1 P2].
    destruct (IH (e + size) n1 w1 y1) as (w' & y' & m & E & Hm & Hq); try lia.
    { done. }
    { replace (da - (e + size)) with (da - e + (-1) * size) by lia. rewrite Z.div_add by lia. lia. }
    exists w', y', m. split_and!; [done|lia|]. intros -> i Hi Hj.
    destruct (decide (i = 0)) as [->|Hi0].
    - replace (e + 0 * size) with e by lia. apply Hhon. lia.
    - replace (e + i * size) with (e + size + (i - 1) * size) by lia.
      intros k tx Hx Hs. apply P1. eapply (Hq eq_refl (i - 1)); [lia| |done|done].
      intros j Hj'. simpl. apply (due_frame f).
      + intros k' Hk'. apply P2. nia.
      + replace (e + size + j * size) with (e + (j + 1) * size) by lia. apply Hj. lia. }
  destruct (Hret w e) as (w1 & ev & -> & Et). rewrite Et.
  destruct (Z.eqb_spec (blen (txs_of e)) 0) as [E0|Hne].
  { apply Hrec; [lia|]. intros _ i tx Hx. unfold blen in E0. apply lookup_lt_Some in Hx. lia. }
  destruct (Hflt w1 (txs_of e) gas) as (w2 & ->).
  destruct (count_missing_total (seenBlockTxs f) (txs_of e) (statuses (txs_of e)) (Hlen _)) as (k & Ek & Hk).
  rewrite Ek. apply Hrec; [lia|]. intros E1. assert (k = 0) as -> by lia.
  intros i tx Hx Hs. exact (count_missing_zero _ _ _ Ek i tx Hx Hs).
Qed.

(** C13: The forced-inclusion check ends, and a block that passes it convicts or clears the sequencer: if
    the check returns without error then, of every epoch that is due (and all those before it since
    the last one checked), every forced transaction the execution client calls valid is in this
    block or in one recorded before. *)
Theorem forced_inclusion_checked (gas da : Z) (d : Data) (w w1 : W) (y : syn) (Hon : fiRetriever y = true)
  (Hgas : exec_MaxGas w = (w1, Ok gas)) (Hda : is_u64 da) (Hb : da + 5 * size < two64)
  (Hstart : g_DAStartHeight (c_genesis c) <= da) (Hs0 : 0 <= g_DAStartHeight (c_genesis c))
  (Hst : st_DAHeight (getLastState y) <= da) (Hchk : 0 <= lastCheckedEpochEnd (y_forced y) <= da) :
  let f := record_block (y_forced y) da d in
  let e := start_epoch_end c f in
  exists w' y' r, VerifyForcedInclusionTxs c da d (w, y) = ((w', y'), r) /\
    (r = Ok tt \/ r = Err (EJoin errMaliciousProposer (EMsg "sequencer is malicious"))) /\
    (r = Ok tt -> forall i, 0 <= i -> (forall j, 0 <= j <= i -> due f da (e + j * size)) ->
       honoured (seenBlockTxs f) (e + i * size)).
Proof.
  cbv zeta. set (f := record_block (y_forced y) da d). set (e := start_epoch_end c f).
  assert (Hs64 : is_u64 size) by (unfold is_u64 in *; lia).
  assert (Ef : first_epoch_end c = g_DAStartHeight (c_genesis c) + size - 1).
  { unfold first_epoch_end. rewrite (u64_small (_ + size)), u64_small by (unfold is_u64 in *; lia). lia. }
  assert (He : size - 1 <= e <= da + size).
  { unfold e, start_epoch_end. rewrite Ef. simpl. destruct (_ || _) eqn:Eo; [lia|].
    apply orb_false_iff in Eo as [_ Hlt]. apply Z.ltb_ge in Hlt. rewrite u64_small by (unfold is_u64 in *; lia). lia. }
  unfold VerifyForcedInclusionTxs. rewrite Hon. destruct (Z.eqb_spec size 0); [lia|]. cbn [negb orb]. fold f.
  destruct (Z.ltb_spec da (g_DAStartHeight (c_genesis c))); [lia|]. cbn [orb].
  change (getLastState (set_forced f y)) with (getLastState y).
  destruct (Z.ltb_spec da (st_DAHeight (getLastState y))); [lia|]. rewrite Hgas.
  change (y_forced (set_forced f y)) with f. fold e.
  destruct (verify_epochs_spec (epoch_fuel c da e) da gas e 0 w1 (set_forced f y)) as (w' & y' & m & E & Hm & Hq); try lia.
  { done. }
  { unfold epoch_fuel. destruct (decide (0 <= da - e)) as [Hpos|Hneg].
    - pose proof (Z.div_pos (da - e) size Hpos Hsize). lia.
    - assert ((da - e) / size < 0) by (apply Z.div_lt_upper_bound; lia). lia. }
  rewrite E. exists w', y'. destruct (Z.ltb_spec 0 m); eexists; (split; [done|]).
  - split; [by right|done].
  - split; [by left|]. intros _. apply Hq. lia.
Qed.

End forced.

(** The grace period of an epoch is never extended while no DA height has more than one block's
    worth of transaction bytes on record, which is the most a height can have since each block
    replaces the entry of its DA height: the extra periods for congested epochs are unreachable. *)
Theorem grace_never_extended (f : forced) (a b : Z) (Ha : 0 <= a <= b)
  (Hsmall : forall h n, daBlockBytes f !! h = Some n -> 0 <= n <= Submit.DefaultMaxBlobSize)
  (Hb : (b - a + 1) * Submit.DefaultMaxBlobSize < two64) :
  gracePeriodForEpoch f a b = baseGracePeriodEpochs.
Proof.
  unfold gracePeriodForEpoch. destruct (Z.ltb_spec b a); [lia|].
  change Submit.DefaultMaxBlobSize with 5242880 in *.
  assert (Hsum : forall l n, 0 <= n -> n + Z.of_nat (length l) * 5242880 < two64 ->
    0 <= foldl (fun n h => n +u default 0 (daBlockBytes f !! h)) n l <= n + Z.of_nat (length l) * 5242880).
  { induction l as [|h l IH]; intros n Hn Hl; cbn [foldl length] in *; [lia|].
    assert (Hd : 0 <= default 0 (daBlockBytes f !! h) <= 5242880).
    { destruct (daBlockBytes f !! h) as [x|] eqn:E; [by apply (Hsmall h)|]. simpl. lia. }
    rewrite u64_small by (unfold is_u64; lia). specialize (IH (n + default 0 (daBlockBytes f !! h))). lia. }
  specialize (Hsum (heights_upto a b) 0 ltac:(lia)). rewrite length_heights_upto in Hsum.
  unfold two64 in *.
  rewrite (u64_small (b - a)) by (unfold is_u64, two64; lia). rewrite (u64_small (b - a + 1)) by (unfold is_u64, two64; lia).
  set (tot := foldl _ _ _) in *. assert (Havg : tot / (b - a + 1) <= 5242880) by (apply Z.div_le_upper_bound; lia).
  change fullness_bytes with 4194304. destruct (Z.ltb_spec 4194304 (tot / (b - a + 1))); [|done].
  rewrite (u64_small (_ - 4194304)) by (unfold is_u64, two64; lia). by rewrite Z.div_small by lia.
Qed.

Module SyncerWitness.
Import DA RefHash RefLRU TypesWitness Submit.SubmitWitness RetrieverWitness.

(** The forced transactions of the epoch that ends at DA height 4; no other epoch has any. *)
Definition w_forced (e : Z) : list bytes := if e =? 4 then [[x01]; [x2a]] else [].
Definition w_statuses (txs : list bytes) : list FilterStatus :=
  (fun tx => if bool_decide (tx = [x2a]) then FilterRemove else FilterOK) <$> txs.

#[export] Instance w_exec : CoreExecutor unit := {|
  exec_InitChain w _ _ _ := (w, Ok [x02]);
  exec_ExecuteTxs w _ h _ prev := (w, Ok (prev ++ [Z_byte h]));
  exec_SetFinal w _ := (w, Ok tt);
  exec_GetLatestHeight := None;
  exec_Rollback := None |}.
#[export] Instance w_da : DAClient unit := {|
  da_Retrieve w _ _ := (w, {| rr_Code := StatusNotFound; rr_Message := ""; rr_Timestamp := 0; rr_Data := []; rr_IDs := [] |});
  da_HeaderNamespace := [x01]; da_DataNamespace := [x02];
  da_GetLatestDAHeight w := (w, Ok 9);
  ctx_Err _ := None |}.
#[export] Instance w_env : SyncEnv unit bytes := {|
  env_now _ := 2000;
  sync_wait w := (w, false);
  fi_Retrieve w e := (w, Ok {| fe_Timestamp := 0; fe_StartDaHeight := e - 1; fe_EndDaHeight := e; fe_Txs := w_forced e |});
  exec_MaxGas w := (w, Ok 0);
  exec_FilterTxs w txs _ _ _ := (w, Ok (w_statuses txs));
  p2p_GetHeader w _ := (w, Err (EMsg "not found"));
  p2p_GetData w _ := (w, Err (EMsg "not found")) |}.

Definition w_config : config := {| c_genesis := w_genesis; c_provider := None |}.
Definition w_fresh : Syncer mapds bytes lruc := NewSyncer w_config (Mapds ∅ true) w_manager (Some ([], 1%nat)).
Definition w_started : Syncer mapds bytes lruc := (Start (B := list batch_op) w_config 5 None true (tt, w_fresh)).1.2.
Definition w_state0 : State := {|
  st_Version := {| Block := 0; App := 0 |}; st_ChainID := "chain"; st_InitialHeight := 1; LastBlockHeight := 0;
  LastBlockTime := 1000; st_LastHeaderHash := []; st_DAHeight := 3; st_AppHash := [x02] |}.

Lemma w_sync_inv : sync_inv w_started w_state0.
Proof.
  split.
  - reflexivity.
  - vm_compute. reflexivity.
  - vm_compute. reflexivity.
  - vm_compute. reflexivity.
  - vm_compute. repeat split; discriminate.
  - constructor.
  - intros h ev E. discriminate E.
  - reflexivity.
Qed.

(** A block whose header names the proposer [05] and is signed with the key [2b]. *)
Definition foreign_header : SignedHeader bytes :=
  let hd := sh_Header (block_header 1) in
  {| sh_Header := hd; sh_Signature := x2b :: blob (Header_MarshalBinary hd);
     sh_Signer := {| PubKey := Some [x2b]; Address := [x05]; marshalledPubKey := [] |} |}.
Definition w_event : DAHeightEvent (K := bytes) := da_event 9 foreign_header (block_data 1).

Lemma w_event_ok : event_ok w_event.
Proof. split_and!; try (vm_compute; repeat split; discriminate). intros Hne. destruct Hne. reflexivity. Qed.

Lemma sync_chain_witness :
  let '((_, y'), _) := run (B := list batch_op) w_config [Pipe false w_event; ProcessNext; P2PRound] (tt, w_started) in
  exists st', continued (W := unit) w_config w_started y' w_state0 st' /\
    LastBlockHeight st' <= LastBlockHeight w_state0 + Z.of_nat (length [Pipe false w_event; ProcessNext; P2PRound]).
Proof.
  pose proof (sync_chain (B := list batch_op) w_config) as Hw.
  specialize (Hw (fun w h w' p E => ltac:(discriminate E)) (fun w h w' p E => ltac:(discriminate E))).
  specialize (Hw [Pipe false w_event; ProcessNext; P2PRound] tt w_started w_state0 w_sync_inv).
  apply Hw; [|reflexivity]. apply Forall_cons. split; [exact w_event_ok|]. repeat constructor.
Defined.

(** The block is synced. *)
Example sync_runs :
  Height (y_store (run (B := list batch_op) w_config [Pipe false w_event; ProcessNext; P2PRound] (tt, w_started)).1.2) = Ok 1.
Proof. vm_compute. reflexivity. Qed.

Definition w_p2p_event : DAHeightEvent (K := bytes) := {|
  ev_Header := foreign_header; ev_Data := block_data 1; ev_DaHeight := 0; ev_Source := SourceP2P; ev_DaHeightHints := (0, 0) |}.
Lemma w_p2p_event_ok : event_ok w_p2p_event.
Proof. split_and!; try (vm_compute; repeat split; discriminate). intros Hne. destruct Hne. reflexivity. Qed.

Lemma any_key_synced_witness :
  exists w' y', TrySyncNextBlock (B := list batch_op) w_config w_p2p_event (tt, w_started) = ((w', y'), Ok tt) /\
    synced (W := unit) w_config w_started y' w_p2p_event w_state0
      (with_da_height (NextState w_state0 (sh_Header (ev_Header w_p2p_event)) [x02; x01]) (ev_DaHeight w_p2p_event)).
Proof.
  pose proof (any_key_synced (B := list batch_op) w_config tt w_started w_state0 w_p2p_event [x02; x01] [x2b]
    (blob (Header_MarshalBinary (sh_Header foreign_header))) w_sync_inv w_p2p_event_ok) as Hw.
  apply Hw.
  - reflexivity.
  - reflexivity.
  - reflexivity.
  - discriminate.
  - discriminate.
  - vm_compute. discriminate.
  - reflexivity.
  - reflexivity.
  - vm_compute. reflexivity.
  - vm_compute. discriminate.
  - vm_compute. discriminate.
  - vm_compute. reflexivity.
  - vm_compute. reflexivity.
  - intros w1 y1. reflexivity.
  - intros w1. exists w1. reflexivity.
Defined.

(** The block as raft has it. *)
Definition w_raft : RaftBlockState := {|
  rs_Height := 1; rs_Hash := Header_Hash (sh_Header (block_header 1)); rs_Timestamp := 2000;
  rs_Header := blob (SignedHeader_MarshalBinary (block_header 1)); rs_Data := blob (Data_MarshalBinary (block_data 1));
  rs_LastSubmittedDaHeaderHeight := 0; rs_LastSubmittedDaDataHeight := 0 |}.
Definition w_decoded : SignedHeader bytes :=
  match SignedHeader_UnmarshalBinary (rs_Header w_raft) with Ok sh => sh | Err _ => block_header 1 end.

Lemma recover_needs_start_witness :
  let '((_, y'), r) := RecoverFromRaft (B := list batch_op) w_config w_raft (tt, w_fresh) in
  (exists e, r = Err e) /\ same_core w_fresh y'.
Proof.
  pose proof (recover_needs_start (B := list batch_op) w_config tt w_fresh w_raft w_decoded (block_data 1)) as Hw. apply Hw.
  - reflexivity.
  - vm_compute. reflexivity.
  - vm_compute. reflexivity.
  - vm_compute. discriminate.
  - vm_compute. reflexivity.
  - vm_compute. discriminate.
Defined.

(** The same block is recovered by a node that has started. *)
Example started_recovers : (RecoverFromRaft (B := list batch_op) w_config w_raft (tt, w_started)).2 = Ok tt.
Proof. vm_compute. reflexivity. Qed.

Lemma forced_inclusion_checked_witness :
  let f := record_block (y_forced w_started) 9 (block_data 1) in
  let e := start_epoch_end w_config f in
  exists w' y' r, VerifyForcedInclusionTxs w_config 9 (block_data 1) (tt, w_started) = ((w', y'), r) /\
    (r = Ok tt \/ r = Err (EJoin errMaliciousProposer (EMsg "sequencer is malicious"))) /\
    (r = Ok tt -> forall i, 0 <= i ->
       (forall j, 0 <= j <= i -> due w_config f 9 (e + j * g_DAEpochForcedInclusion (c_genesis w_config))) ->
       honoured w_forced w_statuses (seenBlockTxs f) (e + i * g_DAEpochForcedInclusion (c_genesis w_config))).
Proof.
  pose proof (forced_inclusion_checked (D := mapds) (C := lruc) (SE := w_env) w_config w_forced w_statuses) as Hw.
  specialize (Hw (fun w e => ex_intro _ w (ex_intro _ _ (conj eq_refl eq_refl))) (fun w txs gas => ex_intro _ w eq_refl)
    (fun txs => length_fmap _ txs)).
  specialize (Hw eq_refl 0 9 (block_data 1) tt tt w_started). apply Hw.
  - vm_compute. reflexivity.
  - reflexivity.
  - split; [discriminate|reflexivity].
  - reflexivity.
  - discriminate.
  - discriminate.
  - vm_compute. discriminate.
  - vm_compute. split; discriminate.
Defined.

(** The block has the forced transaction [01] and clears the sequencer; an empty block convicts it. *)
Example forced_runs :
  (VerifyForcedInclusionTxs w_config 9 (block_data 1) (tt, w_started)).2 = Ok tt /\
  (VerifyForcedInclusionTxs w_config 9 {| dt_Metadata := None; Txs := [] |} (tt, w_started)).2 =
    Err (EJoin errMaliciousProposer (EMsg "sequencer is malicious")).
Proof. vm_compute. split; reflexivity. Qed.

(** An epoch of two DA heights with one full block each. *)
Definition w_full : forced := {|
  seenBlockTxs := ∅; seenBlockTxsByHeight := ∅; daBlockBytes := {[3 := Submit.DefaultMaxBlobSize; 4 := Submit.DefaultMaxBlobSize]};
  lastCheckedEpochEnd := 0 |}.

Lemma grace_never_extended_witness : gracePeriodForEpoch w_full 3 4 = baseGracePeriodEpochs.
Proof.
  pose proof (grace_never_extended w_full 3 4) as Hw. apply Hw.
  - split; discriminate.
  - intros h n E. cbn [daBlockBytes w_full] in E. apply lookup_insert_Some in E as [[_ <-]|[_ [_ <-]%lookup_singleton_Some]]; split; discriminate.
  - reflexivity.
Defined.

End SyncerWitness.

End Syncer.
