(* ===== verification/Follower.v ===== *)
(** The DA follower (block/internal/syncing/da_follower.go): two goroutines walk the DA heights.

    The follow loop receives subscription events and, when the follower is at the event's height,
    processes its blobs at once; the catch-up loop fetches one height after the other. They share
    the atomic counters [localNextDAHeight] and [highestSeenDAHeight], the flag [headReached] and a
    channel of one signal. Each goroutine is a program counter with a step function; a step has one
    access to the counters, or one call that does not touch them. A schedule is a list of steps.
    The retriever and the channel of the syncer are the modelled ones. Timers and the merging of
    the two subscriptions are not modelled: any event may arrive at any time. *)

From S2P Require Import Prelude Sha256 Interfaces Execution ForcedInclusion Types Validation Store Pending DACache.
From S2P Require Import Submit Replay Producer DARetriever Syncer.

Import DA Store Pending DACache Replay DARetriever.

Module Follower.

Record SubscriptionEvent := { se_Height : Z; se_Blobs : list bytes }.

Record daFollower := {
  localNextDAHeight : Z;
  highestSeenDAHeight : Z;
  headReached : bool;
  (** whether the channel [catchupSignal] holds its one signal *)
  catchupSignal : bool;
}.

Definition NewDAFollower (startDAHeight : Z) : daFollower := {|
  localNextDAHeight := if startDAHeight =? 0 then 1 else startDAHeight;
  highestSeenDAHeight := 0; headReached := false; catchupSignal := false |}.

Definition set_next (h : Z) (f : daFollower) : daFollower :=
  {| localNextDAHeight := h; highestSeenDAHeight := highestSeenDAHeight f; headReached := headReached f;
     catchupSignal := catchupSignal f |}.
Definition set_highest (h : Z) (f : daFollower) : daFollower :=
  {| localNextDAHeight := localNextDAHeight f; highestSeenDAHeight := h; headReached := headReached f;
     catchupSignal := catchupSignal f |}.
Definition set_head (f : daFollower) : daFollower :=
  {| localNextDAHeight := localNextDAHeight f; highestSeenDAHeight := highestSeenDAHeight f; headReached := true;
     catchupSignal := catchupSignal f |}.
Definition set_signal (b : bool) (f : daFollower) : daFollower :=
  {| localNextDAHeight := localNextDAHeight f; highestSeenDAHeight := highestSeenDAHeight f; headReached := headReached f;
     catchupSignal := b |}.
(** A full channel already holds the signal. *)
Definition signalCatchup (f : daFollower) : daFollower := set_signal true f.
Definition HasReachedHead (f : daFollower) : bool := headReached f.
(** The sentinel [errCaughtUp]; nothing returns it. *)
Definition errCaughtUp : err := ESentinel "caught up with DA head".

(** Where the follow loop is. *)
Inductive fpc :=
| FIdle
| FBump (ev : SubscriptionEvent)
| FSignal (ev : SubscriptionEvent)
| FClaim (ev : SubscriptionEvent)
| FProcess (ev : SubscriptionEvent)
| FHead
| FRollback (height : Z).

(** Where the catch-up loop is. *)
Inductive cpc :=
| CWait
| CTop
| CDrain (priorityHeight : Z)
| CLoad
| CLoadHighest (local : Z)
| CClaim (local : Z)
| CFetch (priority : bool) (daHeight : Z)
| CRollback (local : Z) (e : err)
| CBackoff (e : err)
| CStopped.

Section follower.
Context {W D K : Type} {C : Type -> Type -> Type}.
Context `{DC : DAClient W} `{SE : SyncEnv W K} `{LR : LRU C} `{PK : PubKeys K} `{PW : Protowire}.
Context `{HS : HashString} `{MR : MapRange}.
Context `{CV : ProtoCodec pb_Version} `{CHd : ProtoCodec pb_Header} `{CH : ProtoCodec pb_SignedHeader}.
Context `{CE : ProtoCodec pb_DAHeaderEnvelope} `{CD : ProtoCodec pb_Data} `{CSD : ProtoCodec pb_SignedData}.
Context (g : Genesis).

Abbreviation syn := (Syncer.Syncer D K C).
Abbreviation Event := (DAHeightEvent (K := K)).

Record sys := { s_f : daFollower; s_follow : fpc; s_catch : cpc; s_world : W; s_syn : syn }.

(** A height one of the loops has finished: the height and whether it was processed inline. *)
Definition label : Type := Z * bool.

(** Pipe the events of a height, in order, until one fails; [takeDone] is the choice of [pipeEvent]. *)
Fixpoint pipe_all (ctxErr : option err) (takeDone : Z -> bool) (events : list Event) (y : syn) : syn * res unit :=
  match events with
  | [] => (y, Ok tt)
  | event :: rest =>
      match Syncer.pipeEvent ctxErr (takeDone (hd_Height (sh_Header (ev_Header event)))) event y with
      | (y, Ok _) => pipe_all ctxErr takeDone rest y
      | (y, Err e) => (y, Err e)
      end
  end.

(** [None] is a panic. The flag says whether the DA head was found. *)
Definition fetchAndPipeHeight (takeDone : Z -> bool) (daHeight : Z) (w : W) (y : syn) : option (W * syn * bool * res unit) :=
  if daHeight =? 0 then Some (w, y, false, Ok tt)
  else
    let '(w, r, m, events) := RetrieveFromDA g (env_now w) daHeight w (Syncer.y_retriever y) (Syncer.y_cache y) in
    let y := Syncer.set_retriever r (Syncer.set_cache m y) in
    match events with
    | Err e =>
        if Syncer.is_panic e then None
        else if errors_is e ErrBlobNotFound then Some (w, y, false, Ok tt)
        else if errors_is e ErrHeightFromFuture then Some (w, y, true, Err e)
        else Some (w, y, false, Err e)
    | Ok events => let '(y, r) := pipe_all (ctx_Err w) takeDone events y in Some (w, y, false, r)
    end.

(** [waitOnCatchupError]: whether to go on. *)
Definition waitOnCatchupError (w : W) (e : err) : W * bool :=
  if errors_is e errCaughtUp then (w, false)
  else match ctx_Err w with
       | Some _ => (w, false)
       | None => let '(w, cancelled) := sync_wait w in (w, negb cancelled)
       end.

(** [PopPriorityHeight] on the syncer's retriever. *)
Definition pop (y : syn) : syn * Z :=
  let '(r, p) := PopPriorityHeight (Syncer.y_retriever y) in (Syncer.set_retriever r y, p).

Definition quiet (s : sys) : option (sys * list label) := Some (s, []).
Definition at_catch (s : sys) (f : daFollower) (pc : cpc) : sys :=
  {| s_f := f; s_follow := s_follow s; s_catch := pc; s_world := s_world s; s_syn := s_syn s |}.
Definition at_follow (s : sys) (f : daFollower) (pc : fpc) : sys :=
  {| s_f := f; s_follow := pc; s_catch := s_catch s; s_world := s_world s; s_syn := s_syn s |}.
Definition with_syn (w : W) (y : syn) (s : sys) : sys :=
  {| s_f := s_f s; s_follow := s_follow s; s_catch := s_catch s; s_world := w; s_syn := y |}.

(** One step of [catchupLoop] and [runCatchup]; [None] when it waits or has panicked. *)
Definition catch_step (takeDone : Z -> bool) (s : sys) : option (sys * list label) :=
  let f := s_f s in
  match s_catch s with
  | CWait =>
      let stop := quiet (at_catch s f CStopped) in
      let go := quiet (at_catch s (set_signal false f) CTop) in
      match ctx_Err (s_world s), catchupSignal f with
      | None, true => go
      | None, false => None
      | Some _, true => if takeDone 0 then stop else go
      | Some _, false => stop
      end
  | CTop =>
      match ctx_Err (s_world s) with
      | Some _ => quiet (at_catch s f CWait)
      | None => let '(y, p) := pop (s_syn s) in quiet (at_catch (with_syn (s_world s) y s) f (CDrain p))
      end
  | CDrain p =>
      if (0 <? p) && (p <? localNextDAHeight f) then
        let '(y, p') := pop (s_syn s) in quiet (at_catch (with_syn (s_world s) y s) f (CDrain p'))
      else if 0 <? p then quiet (at_catch s f (CFetch true p))
      else quiet (at_catch s f CLoad)
  | CLoad => quiet (at_catch s f (CLoadHighest (localNextDAHeight f)))
  | CLoadHighest local =>
      let highest := highestSeenDAHeight f in
      if (0 <? highest) && (highest <? local) then quiet (at_catch s (set_head f) CWait)
      else quiet (at_catch s f (CClaim local))
  | CClaim local =>
      if localNextDAHeight f =? local then quiet (at_catch s (set_next (local +u 1) f) (CFetch false local))
      else quiet (at_catch s f CTop)
  | CFetch priority h =>
      match fetchAndPipeHeight takeDone h (s_world s) (s_syn s) with
      | None => None
      | Some (w, y, head, r) =>
          let f := if head : bool then set_head f else f in
          let s := with_syn w y s in
          match r with
          | Ok _ => Some (at_catch s f CTop, if priority then [] else [(h, false)])
          | Err e => quiet (at_catch s f (if priority then CBackoff e else CRollback h e))
          end
      end
  | CRollback local e => quiet (at_catch s (set_next local f) (CBackoff e))
  | CBackoff e =>
      let '(w, again) := waitOnCatchupError (s_world s) e in
      quiet (at_catch (with_syn w (s_syn s) s) f (if again : bool then CTop else CWait))
  | CStopped => None
  end.

(** One step of [handleSubscriptionEvent] and [updateHighest]. *)
Definition follow_step (takeDone : Z -> bool) (s : sys) : option (sys * list label) :=
  let f := s_f s in
  match s_follow s with
  | FIdle => None
  | FBump ev =>
      if se_Height ev <=? highestSeenDAHeight f then quiet (at_follow s f (FClaim ev))
      else quiet (at_follow s (set_highest (se_Height ev) f) (FSignal ev))
  | FSignal ev => quiet (at_follow s (signalCatchup f) (FClaim ev))
  | FClaim ev =>
      if (0 <? blen (se_Blobs ev)) && (localNextDAHeight f =? se_Height ev)
      then quiet (at_follow s (set_next (se_Height ev +u 1) f) (FProcess ev))
      else quiet (at_follow s f FIdle)
  | FProcess ev =>
      let y := s_syn s in
      let '(r, m, events) := processBlobs g (env_now (s_world s)) (se_Blobs ev) (se_Height ev)
                               (Syncer.y_retriever y) (Syncer.y_cache y) in
      let y := Syncer.set_retriever r (Syncer.set_cache m y) in
      match events with
      | Err _ => None
      | Ok events =>
          let '(y, piped) := pipe_all (ctx_Err (s_world s)) takeDone events y in
          let s := with_syn (s_world s) y s in
          match piped, events with
          | Err _, _ | Ok _, [] => quiet (at_follow s f (FRollback (se_Height ev)))
          | Ok _, _ => Some (at_follow s f FHead, [(se_Height ev, true)])
          end
      end
  | FHead =>
      let reached := negb (headReached f) && (highestSeenDAHeight f <? localNextDAHeight f) in
      quiet (at_follow s (if reached then set_head f else f) FIdle)
  | FRollback h => quiet (at_follow s (set_next h f) FIdle)
  end.

(** What the scheduler can do: run a step of either loop, deliver a subscription event to the follow
    loop, or let the rest of the node move (the syncer takes events and queues hints). *)
Inductive action :=
| Catch (takeDone : Z -> bool)
| Follow (takeDone : Z -> bool)
| Receive (ev : SubscriptionEvent)
| Others (w : W) (y : syn).

(** A step that cannot be taken changes nothing. *)
Definition act (a : action) (s : sys) : sys * list label :=
  match a with
  | Catch takeDone => default (s, []) (catch_step takeDone s)
  | Follow takeDone => default (s, []) (follow_step takeDone s)
  | Receive ev => match s_follow s with FIdle => (at_follow s (s_f s) (FBump ev), []) | _ => (s, []) end
  | Others w y => (with_syn w y s, [])
  end.

Fixpoint run (acts : list action) (s : sys) : sys * list label :=
  match acts with
  | [] => (s, [])
  | a :: acts => let '(s, l) := act a s in let '(s', l') := run acts s in (s', l ++ l')
  end.

(** [Start] signals the catch-up loop once; the follow loop has no event yet. *)
Definition started (startDAHeight : Z) (w : W) (y : syn) : sys :=
  {| s_f := signalCatchup (NewDAFollower startDAHeight); s_follow := FIdle; s_catch := CWait; s_world := w; s_syn := y |}.

End follower.
#[global] Arguments sys : clear implicits.
#[global] Arguments action : clear implicits.

(** ** No height is skipped *)

(** The height a loop has claimed and not yet finished or given back. *)
Definition follow_claim (pc : fpc) : option Z :=
  match pc with FProcess ev => Some (se_Height ev) | FRollback h => Some h | _ => None end.
Definition catch_claim (pc : cpc) : option Z :=
  match pc with CFetch false h | CRollback h _ => Some h | _ => None end.

(** The accounting of the heights below [next]: [c] and [c'] are the claims of the two loops. *)
Record accounted (start next : Z) (c c' : option Z) (finished : list label) : Prop := {
  ac_claims h : c = Some h \/ c' = Some h -> 0 <= h < next;
  ac_heights h : start <= h < next -> c = Some h \/ c' = Some h \/ exists inline, (h, inline) ∈ finished;
  ac_next : 0 <= next;
}.

Section accounting.
Context (start : Z).

Lemma accounted_swap n c c' l : accounted start n c c' l -> accounted start n c' c l.
Proof.
  intros [H1 H2 H3]. split; [|intros h Hh; destruct (H2 h Hh) as [?|[?|?]]; tauto|done].
  intros h Hh. apply H1. tauto.
Qed.
(** The height [n] is claimed. *)
Lemma accounted_claim n c' l : accounted start n None c' l -> accounted start (n + 1) (Some n) c' l.
Proof.
  intros [H1 H2 H3]. split; [|intros h Hh|lia].
  - intros h [[= <-]|Hc]; [lia|]. specialize (H1 h (or_intror Hc)). lia.
  - destruct (decide (h = n)) as [->|]; [by left|]. destruct (H2 h ltac:(lia)) as [?|?]; [done|by right].
Qed.
Lemma accounted_finish n c' l h b : accounted start n (Some h) c' l -> accounted start n None c' (l ++ [(h, b)]).
Proof.
  intros [H1 H2 H3]. split; [intros x [?|?]; [done|apply H1; tauto]| |done].
  intros x Hx. right. destruct (H2 x Hx) as [[= <-]|[?|(b' & Hin)]]; [right|by left|right].
  - exists b. apply elem_of_app. right. by left.
  - exists b'. apply elem_of_app. by left.
Qed.
(** A claim is given back while the other loop has none. *)
Lemma accounted_rollback n l h : accounted start n (Some h) None l -> accounted start h None None l.
Proof.
  intros [H1 H2 H3]. assert (Hh : 0 <= h < n) by (apply H1; by left). split; [by intros x [?|?]| |lia].
  intros x Hx. right. right. destruct (H2 x ltac:(lia)) as [[= <-]|[?|?]]; [lia|done|done].
Qed.

Context {W D K : Type} {C : Type -> Type -> Type}.
Context `{DC : DAClient W} `{SE : SyncEnv W K} `{LR : LRU C} `{PK : PubKeys K} `{PW : Protowire}.
Context `{HS : HashString} `{MR : MapRange}.
Context `{CV : ProtoCodec pb_Version} `{CHd : ProtoCodec pb_Header} `{CH : ProtoCodec pb_SignedHeader}.
Context `{CE : ProtoCodec pb_DAHeaderEnvelope} `{CD : ProtoCodec pb_Data} `{CSD : ProtoCodec pb_SignedData}.
Context (g : Genesis).

Abbreviation system := (sys W D K C).
Abbreviation next s := (localNextDAHeight (s_f s)).

Definition inv (s : system) (finished : list label) : Prop :=
  accounted start (next s) (follow_claim (s_follow s)) (catch_claim (s_catch s)) finished.

(** One loop gives a claim back while the other has one. *)
Definition collides (a : action W D K C) (s : system) : Prop :=
  match a with
  | Catch _ => (exists h e, s_catch s = CRollback h e) /\ follow_claim (s_follow s) <> None
  | Follow _ => (exists h, s_follow s = FRollback h) /\ catch_claim (s_catch s) <> None
  | _ => False
  end.
Fixpoint careful (acts : list (action W D K C)) (s : system) : Prop :=
  match acts with [] => True | a :: acts => ~ collides a s /\ careful acts (act g a s).1 end.

Lemma inv_quiet s s' l : inv s l -> next s' = next s -> follow_claim (s_follow s') = follow_claim (s_follow s) ->
  catch_claim (s_catch s') = catch_claim (s_catch s) -> inv s' (l ++ []).
Proof. unfold inv. intros Hi -> -> ->. by rewrite app_nil_r. Qed.

(** A step that changes neither the claims nor the next height. *)
Ltac quiet_step := split; [eapply inv_quiet; [eassumption|done|simpl..]; try match goal with E : _ = _ |- _ => by rewrite ?E end|simpl; lia].

Lemma catch_inv td s l : inv s l -> ~ collides (Catch td) s -> next s + 1 < two64 ->
  let '(s', l') := act g (Catch td) s in inv s' (l ++ l') /\ next s' <= next s + 1.
Proof.
  intros Hi Hc Hb. pose proof (ac_next _ _ _ _ _ Hi) as H0.
  assert (Hq : inv s (l ++ []) /\ next s <= next s + 1) by (split; [by apply (inv_quiet s)|lia]).
  cbn [act]. destruct (catch_step g td s) as [[s' l']|] eqn:E; [cbn [default]|exact Hq].
  unfold catch_step in E. destruct (s_catch s) eqn:Epc.
  - destruct (ctx_Err (s_world s)); destruct (catchupSignal (s_f s)); try discriminate; try destruct (td 0);
      injection E as <- <-; quiet_step.
  - destruct (ctx_Err (s_world s)); [|destruct (pop (s_syn s)) as [y p]]; injection E as <- <-;
      quiet_step.
  - destruct (_ && _); [destruct (pop (s_syn s)) as [y p]|destruct (0 <? _)]; injection E as <- <-;
      quiet_step.
  - injection E as <- <-. quiet_step.
  - destruct (_ && _); injection E as <- <-; quiet_step.
  - destruct (Z.eqb_spec (next s) local) as [<-|]; injection E as <- <-.
    + simpl. rewrite u64_small by (unfold is_u64, two64 in *; lia). split; [|lia]. unfold inv in *. rewrite Epc in Hi. simpl in *.
      rewrite app_nil_r. by apply accounted_swap, accounted_claim, accounted_swap.
    + quiet_step.
  - destruct (fetchAndPipeHeight _ _ _ _ _) as [[[[w y] head] [[]|e]]|]; [| |done]; injection E as <- <-.
    + destruct priority; [split; [apply (inv_quiet s); destruct head; simpl; by rewrite ?Epc|destruct head; simpl; lia]|].
      split; [|destruct head; simpl; lia]. unfold inv in *. rewrite Epc in Hi. destruct head; simpl in *;
        by apply accounted_swap, accounted_finish, accounted_swap.
    + split; [|destruct head; simpl; lia]. apply (inv_quiet s); destruct head, priority; simpl; by rewrite ?Epc.
  - injection E as <- <-. unfold inv in *. rewrite Epc in Hi. simpl in Hi.
    destruct (follow_claim (s_follow s)) as [h|] eqn:Ef; [destruct Hc; split; [by eauto|by rewrite Ef]|].
    pose proof (ac_claims _ _ _ _ _ Hi local (or_intror eq_refl)). simpl. rewrite Ef, app_nil_r. split; [|lia].
    eapply accounted_rollback, accounted_swap. exact Hi.
  - destruct (waitOnCatchupError (s_world s) e) as [w [|]]; injection E as <- <-;
      quiet_step.
  - done.
Qed.

Lemma follow_inv td s l : inv s l -> ~ collides (Follow td) s -> next s + 1 < two64 ->
  let '(s', l') := act g (Follow td) s in inv s' (l ++ l') /\ next s' <= next s + 1.
Proof.
  intros Hi Hc Hb. pose proof (ac_next _ _ _ _ _ Hi) as H0.
  assert (Hq : inv s (l ++ []) /\ next s <= next s + 1) by (split; [by apply (inv_quiet s)|lia]).
  cbn [act]. destruct (follow_step g td s) as [[s' l']|] eqn:E; [cbn [default]|exact Hq].
  unfold follow_step in E. destruct (s_follow s) eqn:Epc.
  - done.
  - destruct (_ <=? _); injection E as <- <-; quiet_step.
  - injection E as <- <-. quiet_step.
  - destruct (_ && _) eqn:Ec; injection E as <- <-; [|quiet_step].
    apply andb_true_iff in Ec as [_ Ec%Z.eqb_eq]. simpl. rewrite <- Ec, u64_small by (unfold is_u64, two64 in *; lia).
    split; [|lia]. unfold inv in *. rewrite Epc in Hi. simpl in *. rewrite app_nil_r, <- Ec. by apply accounted_claim.
  - destruct (processBlobs _ _ _ _ _ _) as [[r m] [events|]]; [|done].
    destruct (pipe_all _ _ _ _) as [y [[]|]]; [destruct events|]; injection E as <- <-;
      try quiet_step.
    split; [|simpl; lia]. unfold inv in *. rewrite Epc in Hi. simpl in *. by apply accounted_finish.
  - destruct (_ && _); injection E as <- <-; quiet_step.
  - injection E as <- <-. unfold inv in *. rewrite Epc in Hi. simpl in Hi.
    destruct (catch_claim (s_catch s)) as [h|] eqn:Ef; [destruct Hc; split; [by eauto|by rewrite Ef]|].
    pose proof (ac_claims _ _ _ _ _ Hi height (or_introl eq_refl)). simpl. rewrite Ef, app_nil_r. split; [|lia].
    eapply accounted_rollback. exact Hi.
Qed.

Lemma run_inv acts s l : inv s l -> careful acts s -> next s + Z.of_nat (length acts) < two64 ->
  let '(s', l') := run g acts s in inv s' (l ++ l').
Proof.
  revert s l. induction acts as [|a acts IH]; intros s l Hi Hc Hb; [simpl; by rewrite app_nil_r|].
  cbn [careful length] in *. destruct Hc as [Hc Hcs].
  assert (Hs : let '(s', l') := act g a s in inv s' (l ++ l') /\ next s' <= next s + 1).
  { destruct a as [td|td|ev|w y]; [apply catch_inv; (done || lia)|apply follow_inv; (done || lia)| |].
    - simpl. destruct (s_follow s) eqn:Epc; quiet_step.
    - simpl. split; [by apply (inv_quiet s)|lia]. }
  cbn [run]. destruct (act g a s) as [s1 l1]. destruct Hs as [Hi1 Hn]. simpl in Hcs.
  specialize (IH s1 (l ++ l1) Hi1 Hcs ltac:(lia)). destruct (run g acts s1) as [s2 l2]. by rewrite app_assoc.
Qed.

(** C6: However the two loops of the follower are interleaved, with whatever subscription events, DA
    answers and failures: as long as no loop gives a height back while the other holds one, every
    DA height from the start up to [localNextDAHeight] has been processed, or is claimed by a loop
    that will process it or give it back. No height is skipped. *)
Theorem no_height_skipped (acts : list (action W D K C)) (w : W) (y : Syncer.Syncer D K C)
  (Hs : 1 <= start) (Hc : careful acts (started start w y)) (Hb : start + Z.of_nat (length acts) < two64) :
  let '(s', finished) := run g acts (started start w y) in
  forall h, start <= h < localNextDAHeight (s_f s') ->
    follow_claim (s_follow s') = Some h \/ catch_claim (s_catch s') = Some h \/ exists inline, (h, inline) ∈ finished.
Proof.
  assert (En : next (started start w y) = start) by (simpl; destruct (Z.eqb_spec start 0); lia).
  assert (Hi : inv (started start w y) []).
  { unfold inv. rewrite En. split; simpl; [by intros h [?|?]|lia|lia]. }
  pose proof (run_inv acts _ [] Hi Hc ltac:(lia)) as Hr. destruct (run g acts (started start w y)) as [s' l].
  intros h Hh. exact (ac_heights _ _ _ _ _ Hr h Hh).
Qed.

End accounting.

(** ** The catch-up loop catches up *)

Section catchup.
Context {W D K : Type} {C : Type -> Type -> Type}.
Context `{DC : DAClient W} `{SE : SyncEnv W K} `{LR : LRU C} `{PK : PubKeys K} `{PW : Protowire}.
Context `{HS : HashString} `{MR : MapRange}.
Context `{CV : ProtoCodec pb_Version} `{CHd : ProtoCodec pb_Header} `{CH : ProtoCodec pb_SignedHeader}.
Context `{CE : ProtoCodec pb_DAHeaderEnvelope} `{CD : ProtoCodec pb_Data} `{CSD : ProtoCodec pb_SignedData}.
Context (g : Genesis) (td : Z -> bool).

Abbreviation system := (sys W D K C).
Abbreviation syn := (Syncer.Syncer D K C).
Abbreviation next s := (localNextDAHeight (s_f s)).
Abbreviation highest s := (highestSeenDAHeight (s_f s)).
Abbreviation queue y := (priorityHeights (Syncer.y_retriever y)).

(** The DA layer has the height: it answers with blobs that can be processed, or with none. *)
Definition served (h : Z) : Prop := forall w, match (fetchBlobs w h).2 with
  | Ok data => forall now (r : daRetriever K) (m : implementation K C), exists events, (processBlobs g now data h r m).2 = Ok events
  | Err e => errors_is e ErrBlobNotFound = true
  end.

Context (Hctx : forall w : W, ctx_Err w = None).

Lemma not_found_no_panic e : errors_is e ErrBlobNotFound = true -> Syncer.is_panic e = false.
Proof.
  intros E. unfold Syncer.is_panic. rewrite !bool_decide_false; [done|..]; intros ->; by vm_compute in E.
Qed.

Lemma pipe_all_ok events (y : syn) : exists y', pipe_all None td events y = (y', Ok tt) /\ Syncer.y_retriever y' = Syncer.y_retriever y.
Proof.
  revert y. induction events as [|ev events IH]; intros y; [by eexists|]. cbn [pipe_all]. unfold Syncer.pipeEvent.
  destruct (Syncer.try_send ev y) as [y1|] eqn:Es.
  - unfold Syncer.try_send in Es. destruct (_ <? _)%nat; [|done]. injection Es as <-.
    destruct (IH (Syncer.set_inCh (Syncer.heightInCh y ++ [ev]) y)) as (y' & -> & E). by exists y'.
  - edestruct IH as (y' & -> & E). exists y'. split; [done|exact E].
Qed.

Lemma fetch_ok h (w : W) (y : syn) : served h -> exists w' y', fetchAndPipeHeight g td h w y = Some (w', y', false, Ok tt) /\
  queue y' = queue y.
Proof.
  intros Hs. unfold fetchAndPipeHeight. destruct (h =? 0); [by eexists _, _|]. unfold RetrieveFromDA. specialize (Hs w).
  destruct (fetchBlobs w h) as [w1 [data|e]]; simpl in Hs.
  2: { rewrite (not_found_no_panic e Hs), Hs. by eexists _, _. }
  rewrite Hctx. destruct (Hs (env_now w) (Syncer.y_retriever y) (Syncer.y_cache y)) as (events & E).
  assert (Hq : priorityHeights (processBlobs g (env_now w) data h (Syncer.y_retriever y) (Syncer.y_cache y)).1.1 = queue y).
  { unfold processBlobs. destruct (decode_blobs _ _ _ _ _ _) as [[st m] [[hs ds]|]]; [|done].
    by destruct (foldl _ _ _) as [[H1 D1] ev]. }
  destruct (processBlobs _ _ _ _ _ _) as [[r m] res]. simpl in E, Hq. subst res. rewrite Hctx.
  destruct (pipe_all_ok events (Syncer.set_retriever r (Syncer.set_cache m y))) as (y' & -> & Er).
  eexists _, _. split; [done|]. by rewrite Er.
Qed.

Lemma pop_spec (y : syn) : let '(y', p) := pop y in
  queue y = [] /\ p = 0 /\ y' = Syncer.set_retriever (Syncer.y_retriever y) y \/ exists l, queue y = p :: l /\ queue y' = l.
Proof.
  unfold pop, PopPriorityHeight. destruct (queue y) as [|p l] eqn:E; [by left|]. right. by exists l.
Qed.

(** [k] steps of the catch-up loop from [s] end in a state with [Q] and finish the heights [l]. *)
Definition eventually (s : system) (l : list label) (Q : system -> Prop) : Prop :=
  exists k s', run g (repeat (Catch td) k) s = (s', l) /\ Q s'.

Lemma eventually_step s s1 l1 l2 Q : catch_step g td s = Some (s1, l1) -> eventually s1 l2 Q -> eventually s (l1 ++ l2) Q.
Proof.
  intros E (k & s' & Hr & Hq). exists (S k), s'. split; [|done]. cbn [repeat run].
  assert (Ea : act g (Catch td) s = (s1, l1)) by (unfold act; by rewrite E). by rewrite Ea, Hr.
Qed.

(** The loop looks for work: the pending hints and the heights up to the highest seen one can be fetched. *)
Record working (s : system) : Prop := {
  wk_range : 1 <= next s <= highest s + 1;
  wk_highest : 1 <= highest s < two64 - 1;
  wk_served h : next s <= h <= highest s -> served h;
  wk_hints p : p ∈ queue (s_syn s) -> p < next s \/ served p;
  wk_pc : s_catch s = CTop \/ exists p, s_catch s = CDrain p /\ (p < next s \/ served p);
}.

(** Decreases with every round. *)
Definition work (s : system) : nat :=
  8 * Z.to_nat (highest s + 1 - next s) + 4 * length (queue (s_syn s)) +
  match s_catch s with CDrain p => if 0 <? p then 4 else 0 | _ => 1 end.

Definition caught_up (h : Z) (s' : system) : Prop :=
  s_catch s' = CWait /\ next s' = h + 1 /\ highest s' = h /\ headReached (s_f s') = true.

(** From [s] the loop finishes every height up to the highest seen one, in order, and waits. *)
Definition catches (s : system) : Prop :=
  eventually s ((fun h => (h, false)) <$> heights_upto (next s) (highest s)) (caught_up (highest s)).

Section rounds.
Context (s : system) (Hs : working s).
Context (Hrec : forall s', (work s' < work s)%nat -> working s' -> catches s').

Lemma pop_round : s_catch s = CTop \/ (exists q, s_catch s = CDrain q /\ 0 < q) ->
  let '(y, p) := pop (s_syn s) in catches (at_catch (with_syn (s_world s) y s) (s_f s) (CDrain p)).
Proof.
  intros Hpc. pose proof (pop_spec (s_syn s)) as Hp. destruct (pop (s_syn s)) as [y p]. apply Hrec.
  - unfold work. simpl. destruct Hp as [(E & -> & ->)|(l & E & El)]; simpl; rewrite ?E, ?El; simpl.
    + destruct Hpc as [->|(q & -> & Hq)]; [lia|]. destruct (Z.ltb_spec 0 q); lia.
    + destruct Hpc as [->|(q & -> & Hq)]; [|destruct (Z.ltb_spec 0 q); [|lia]]; destruct (0 <? p); lia.
  - destruct Hs as [R1 R3 R4 R5 _]. split; simpl; try done.
    + intros x Hx. apply R5. destruct Hp as [(E & _ & ->)|(l & E & El)]; [done|]. rewrite E. rewrite El in Hx. by right.
    + right. exists p. split; [done|]. destruct Hp as [(_ & -> & _)|(l & E & El)]; [left; lia|].
      apply R5. rewrite E. by left.
Qed.

(** A hint that is not behind is fetched. *)
Lemma hint_round p : s_catch s = CDrain p -> 0 < p -> next s <= p -> served p -> catches s.
Proof.
  intros Epc Hpos Hge Hp. eapply (eventually_step s (at_catch s (s_f s) (CFetch true p)) []).
  { unfold catch_step. by rewrite Epc, (proj2 (Z.ltb_lt 0 p) Hpos), (proj2 (Z.ltb_ge p _) Hge). }
  destruct (fetch_ok p (s_world s) (s_syn s) Hp) as (w' & y' & Ef & Eq).
  eapply (eventually_step _ (at_catch (with_syn w' y' s) (s_f s) CTop) []).
  { unfold catch_step. simpl. by rewrite Ef. }
  apply (Hrec (at_catch (with_syn w' y' s) (s_f s) CTop)).
  - unfold work. simpl. rewrite Epc, Eq, (proj2 (Z.ltb_lt 0 p) Hpos). lia.
  - destruct Hs as [R1 R3 R4 R5 _]. split; simpl; try done; [by rewrite Eq|by left].
Qed.

(** Without a hint the next height is claimed and fetched, if there is one. *)
Lemma sequential_round p : s_catch s = CDrain p -> p <= 0 -> catches s.
Proof.
  intros Epc Hneg. destruct Hs as [R1 R3 R4 R5 _]. eapply (eventually_step s (at_catch s (s_f s) CLoad) []).
  { unfold catch_step. rewrite Epc, (proj2 (Z.ltb_ge 0 p) Hneg). done. }
  eapply (eventually_step _ (at_catch s (s_f s) (CLoadHighest (next s))) []); [done|].
  destruct (Z.ltb_spec (highest s) (next s)) as [Hdone|Htodo].
  { rewrite heights_upto_nil by done. exists 1%nat, (at_catch s (set_head (s_f s)) CWait). split.
    - cbn [repeat run]. unfold act, catch_step. simpl. by rewrite (proj2 (Z.ltb_lt 0 (highest s))), (proj2 (Z.ltb_lt _ _) Hdone) by lia.
    - split_and!; simpl; (done || lia). }
  eapply (eventually_step _ (at_catch s (s_f s) (CClaim (next s))) []).
  { unfold catch_step. simpl. rewrite (proj2 (Z.ltb_lt 0 (highest s))), (proj2 (Z.ltb_ge _ _) Htodo) by lia. done. }
  eapply (eventually_step _ (at_catch s (set_next (next s + 1) (s_f s)) (CFetch false (next s))) []).
  { unfold catch_step. simpl. rewrite Z.eqb_refl, u64_small by (unfold is_u64, two64 in *; lia). done. }
  destruct (fetch_ok (next s) (s_world s) (s_syn s)) as (w' & y' & Ef & Eq); [apply R4; lia|].
  rewrite heights_upto_cons by lia. cbn [fmap list_fmap].
  eapply (eventually_step _ (at_catch (with_syn w' y' s) (set_next (next s + 1) (s_f s)) CTop) [(next s, false)]).
  { unfold catch_step. simpl. by rewrite Ef. }
  apply (Hrec (at_catch (with_syn w' y' s) (set_next (next s + 1) (s_f s)) CTop)).
  - unfold work. simpl. rewrite Epc, Eq, (proj2 (Z.ltb_ge 0 p) Hneg). lia.
  - split; simpl; [lia|done|intros h Hh; apply R4; lia| |by left].
    rewrite Eq. intros x Hx. destruct (R5 x Hx); [left; lia|by right].
Qed.

End rounds.

Lemma working_catches s : working s -> catches s.
Proof.
  remember (work s) as n eqn:En. revert s En. induction (lt_wf n) as [n _ IH]. intros s -> Hs.
  assert (Hrec : forall s', (work s' < work s)%nat -> working s' -> catches s') by (intros s' Hw Hs'; by eapply IH).
  destruct (wk_pc _ Hs) as [Epc|(p & Epc & Hp)].
  { pose proof (pop_round s Hs Hrec (or_introl Epc)) as Hq. destruct (pop (s_syn s)) as [y p] eqn:Ep.
    eapply (eventually_step s _ []); [|exact Hq]. unfold catch_step. by rewrite Epc, Hctx, Ep. }
  destruct (Z.ltb_spec 0 p) as [Hpos|Hneg]; [|by apply (sequential_round s Hs Hrec p)].
  destruct (Z.ltb_spec p (next s)) as [Hlt|Hge]; [|destruct Hp as [?|Hp]; [lia|by apply (hint_round s Hs Hrec p)]].
  pose proof (pop_round s Hs Hrec (or_intror (ex_intro _ p (conj Epc Hpos)))) as Hq.
  destruct (pop (s_syn s)) as [y p'] eqn:Ep. eapply (eventually_step s _ []); [|exact Hq].
  unfold catch_step. by rewrite Epc, Ep, (proj2 (Z.ltb_lt 0 p) Hpos), (proj2 (Z.ltb_lt p _) Hlt).
Qed.


End catchup.

Module FollowerWitness.
Import RefHash RefLRU TypesWitness Submit.SubmitWitness RetrieverWitness Syncer.SyncerWitness.

Definition blobs_at (l : list bytes) : ResultRetrieve := {|
  rr_Code := match l with [] => StatusNotFound | _ => StatusSuccess end; rr_Message := ""; rr_Timestamp := 0; rr_Data := l; rr_IDs := [] |}.
(** Two namespaces: the data of block 1 is at DA height 4, its header and all of block 2 at DA height 5. *)
Definition split_da : DAClient unit := {|
  da_Retrieve w h ns := (w, blobs_at (if bytes_Equal ns [x02] then (if h =? 4 then [data_blob 1] else if h =? 5 then [data_blob 2] else [])
                                      else if h =? 5 then [header_blob 1; header_blob 2] else []));
  da_HeaderNamespace := [x01]; da_DataNamespace := [x02];
  da_GetLatestDAHeight w := (w, Ok 5);
  ctx_Err _ := None |}.

Abbreviation node_sys := (sys unit mapds bytes lruc).
Definition never : Z -> bool := fun _ => false.
Definition catch (n : nat) : list (action unit mapds bytes lruc) := repeat (Catch never) n.
Definition follow (n : nat) : list (action unit mapds bytes lruc) := repeat (Follow never) n.
Definition split_run : list (action unit mapds bytes lruc) -> node_sys * list label :=
  fun acts => run (DC := split_da) w_genesis acts (started 4 tt Syncer.SyncerWitness.w_started).

(** The follower is at height 5 when the blobs of the header namespace arrive. *)
Definition caught_up_at_5 : list (action unit mapds bytes lruc) :=
  Receive {| se_Height := 4; se_Blobs := [] |} :: follow 3 ++ catch 20.
Definition both_events : list (action unit mapds bytes lruc) :=
  Receive {| se_Height := 5; se_Blobs := [header_blob 1; header_blob 2] |} :: follow 6 ++
  Receive {| se_Height := 5; se_Blobs := [data_blob 2] |} :: follow 3 ++ catch 20.

(** With separate header and data namespaces the inline path loses data. The blobs of the header
    namespace complete a block whose data came with an earlier height, so the height counts as
    processed, and the blobs of the data namespace at this height, though delivered and still on the
    DA layer, are never processed: the loops are idle at the DA head and block 2 waits for its data. *)
Theorem split_namespace_loses_data :
  let '(s, _) := split_run (caught_up_at_5 ++ both_events) in
  s_follow s = FIdle /\ s_catch s = CWait /\ catchupSignal (s_f s) = false /\ HasReachedHead (s_f s) = true /\
  localNextDAHeight (s_f s) = 6 /\
  ((fun ev => hd_Height (sh_Header (ev_Header ev))) <$> Syncer.heightInCh (s_syn s)) = [1] /\
  (map_to_list (r_pendingHeaders (Syncer.y_retriever (s_syn s)))).*1 = [2] /\
  rr_Data (da_Retrieve (DAClient := split_da) tt 5 [x02]).2 = [data_blob 2].
Proof. vm_compute. repeat split. Qed.

(** The world counts the retrievals that fail before the DA layer works. *)
Definition flaky_da : DAClient nat := {|
  da_Retrieve w h ns := match w with
    | O => (O, blobs_at [])
    | S n => (n, {| rr_Code := StatusError; rr_Message := ""; rr_Timestamp := 0; rr_Data := []; rr_IDs := [] |})
    end;
  da_HeaderNamespace := [x01]; da_DataNamespace := [x01];
  da_GetLatestDAHeight w := (w, Ok 6);
  ctx_Err _ := None |}.
Definition flaky_env : SyncEnv nat bytes := {|
  env_now _ := 2000;
  sync_wait w := (w, false);
  fi_Retrieve w _ := (w, Err (EMsg "no forced inclusion"));
  exec_MaxGas w := (w, Ok 0);
  exec_FilterTxs w _ _ _ _ := (w, Ok []);
  p2p_GetHeader w _ := (w, Err (EMsg "not found"));
  p2p_GetData w _ := (w, Err (EMsg "not found")) |}.

(** Both loops hold a claim and give it back, the catch-up loop first. *)
Definition overlapping : list (action nat mapds bytes lruc) :=
  repeat (Catch never) 6 ++ Receive {| se_Height := 6; se_Blobs := [[x2a]] |} :: repeat (Follow never) 4 ++
  repeat (Catch never) 2 ++ [Follow never] ++ repeat (Catch never) 20.

(** The two loops can lose a height. The catch-up loop has claimed height 5 and the follow loop
    height 6; the fetch of 5 fails and the blobs of 6 complete no block, so both store their own
    height, the follow loop last. The counter skips from 5 to 6: height 5 is never fetched again,
    although the follower reports that it has reached the DA head at height 6. *)
Theorem overlapping_rollbacks_lose_height :
  let '(s, finished) := run (DC := flaky_da) (SE := flaky_env) w_genesis overlapping (started 5 1%nat Syncer.SyncerWitness.w_started) in
  s_follow s = FIdle /\ s_catch s = CWait /\ catchupSignal (s_f s) = false /\ HasReachedHead (s_f s) = true /\
  localNextDAHeight (s_f s) = 7 /\ finished = [(6, false)].
Proof. vm_compute. repeat split. Qed.

(** An inline height, then one that is fetched. *)
Definition w_acts : list (action unit mapds bytes lruc) :=
  Receive {| se_Height := 4; se_Blobs := [[x2a]] |} :: follow 5 ++ catch 8.

Lemma no_height_skipped_witness :
  let '(s', finished) := run (DC := split_da) w_genesis w_acts (started 4 tt Syncer.SyncerWitness.w_started) in
  forall h, 4 <= h < localNextDAHeight (s_f s') ->
    follow_claim (s_follow s') = Some h \/ catch_claim (s_catch s') = Some h \/ exists inline, (h, inline) ∈ finished.
Proof.
  pose proof (no_height_skipped 4 (DC := split_da) w_genesis w_acts tt Syncer.SyncerWitness.w_started) as Hw. apply Hw.
  - discriminate.
  - vm_compute. repeat split; intros Hc; first [exact Hc|destruct Hc as [(h & E) Hc]; first [discriminate E|destruct E as (e & E); discriminate E|by apply Hc]].
  - reflexivity.
Defined.

(** Heights 4 and 5 are to be fetched; the hint 3 is behind and the hint 5 is not. *)
Definition w_waiting : node_sys := {|
  s_f := {| localNextDAHeight := 4; highestSeenDAHeight := 5; headReached := false; catchupSignal := true |};
  s_follow := FIdle; s_catch := CWait; s_world := tt;
  s_syn := Syncer.set_retriever (QueuePriorityHeight (QueuePriorityHeight NewDARetriever 5) 3) Syncer.SyncerWitness.w_started |}.

(** A foreign blob at height 4 and nothing at height 5. *)
Definition sparse_da : DAClient unit := {|
  da_Retrieve w h ns := (w, blobs_at (if h =? 4 then [[x2a]] else []));
  da_HeaderNamespace := [x01]; da_DataNamespace := [x02];
  da_GetLatestDAHeight w := (w, Ok 5);
  ctx_Err _ := None |}.

Lemma sparse_served h : served (DC := sparse_da) (C := lruc) (K := bytes) w_genesis h.
Proof.
  intros w. unfold fetchBlobs. cbn [da_Retrieve sparse_da]. destruct (h =? 4); [|reflexivity].
  intros now r m. unfold processBlobs. assert (E : exists st m', decode_blobs w_genesis now h [[x2a]; [x2a]] (strictMode r) m = (st, m', Ok ([], []))).
  { destruct (strictMode r); vm_compute; by eexists _, _. }
  destruct E as (st & m' & E). match goal with |- context [decode_blobs ?g ?n ?h ?l] => change l with [[x2a]; [x2a]] end. rewrite E. destruct (foldl _ _ _) as [[H1 D1] ev]. by eexists.
Qed.


End FollowerWitness.

End Follower.
