(* ===== verification/Journey.v ===== *)
(** A block's way from the aggregator to a full node: produced (executor.go), published on the DA layer
    by the submitter (da_submitter.go), retrieved (da_retriever.go) and synced (syncer.go). The
    theorem composes the models of the four components. *)

From S2P Require Import Prelude Sha256 Interfaces ForcedInclusion Types Validation Store Pending DACache Submit Replay.
From S2P Require Import Producer DARetriever Syncer.

Import Store Pending DACache Replay DARetriever.

Module Journey.

Section blobs.
Context {K : Type} {C : Type -> Type -> Type} `{LR : LRU C} `{PK : PubKeys K} `{PKL : !PubKeysLaws K}.
Context `{PW : Protowire} `{PWL : !ProtowireLaws} `{HS : HashString}.
Context `{CV : ProtoCodec pb_Version} `{CHd : ProtoCodec pb_Header} `{CH : ProtoCodec pb_SignedHeader}.
Context `{CE : ProtoCodec pb_DAHeaderEnvelope} `{LE : !ProtoCodecLaws pb_DAHeaderEnvelope}.
Context `{CD : ProtoCodec pb_Data} `{CSD : ProtoCodec pb_SignedData} `{LSD : !ProtoCodecLaws pb_SignedData}.
Context (g : Genesis).

Abbreviation manager := (implementation K C).

(** The retriever accepts the envelope of a header signed by the header's own key. *)
Lemma header_blob_decodes now da strict (m : manager) (sh : SignedHeader K) k mb esig hb :
  header_valid (sh_Header sh) -> signer_ok (sh_Signer sh) -> Legacy (sh_Header sh) = None ->
  PubKey (sh_Signer sh) = Some k -> SignedHeader_MarshalBinary sh = Ok mb -> MarshalDAEnvelope sh esig = Ok hb ->
  esig <> [] -> pk_Verify k mb esig = Ok true -> Header_ValidateBasic now (sh_Header sh) = Ok tt ->
  ProposerAddress (sh_Header sh) = g_ProposerAddress g ->
  exists m' sh', tryDecodeHeader g now hb da strict m = (true, m', Some sh') /\ sh_Header sh' = sh_Header sh /\
    sh_Signature sh' = sh_Signature sh /\ PubKey (sh_Signer sh') = Some k /\
    Address (sh_Signer sh') = Address (sh_Signer sh) /\ signer_ok (sh_Signer sh').
Proof.
  intros Hh Hs Hl Hk Em Ee Hne Hv Hb Hp. destruct (envelope_binary sh esig Hh Hs) as (b & sh' & E & U & Hsame & Hm & Hs').
  rewrite Ee in E. injection E as <-. specialize (Hm Hl). destruct Hsame as (S1 & S2 & S3 & S4 & _).
  assert (En : sh_Header sh' = sh_Header sh) by (rewrite S1; destruct (sh_Header sh); simpl in Hl; by subst).
  assert (Hd : decode_envelope strict hb = Some (sh', true)).
  { unfold decode_envelope. rewrite U. destruct esig as [|c esig]; [done|]. rewrite S3, Hk, Hm, Em, Hv. done. }
  unfold tryDecodeHeader. rewrite Hd. rewrite andb_false_r. rewrite En, Hb. unfold assertExpectedProposer, bytes_Equal.
  rewrite Hp, bool_decide_true by done. rewrite orb_true_r. eexists _, sh'.
  split_and!; [reflexivity|done|done|by rewrite S3|apply S4; by rewrite Hk|done].
Qed.

(** The retriever accepts signed data in the proposer's name. *)
Lemma data_blob_decodes da (m : manager) (sd : SignedData K) k md bz db :
  data_valid (sd_Data sd) -> signer_ok (sd_Signer sd) -> Txs (sd_Data sd) <> [] -> dt_Metadata (sd_Data sd) = Some md ->
  PubKey (sd_Signer sd) = Some k -> Address (sd_Signer sd) = g_ProposerAddress g ->
  Data_MarshalBinary (sd_Data sd) = Ok bz -> pk_Verify k bz (sd_Signature sd) = Ok true ->
  SignedData_MarshalBinary sd = Ok db ->
  exists m', tryDecodeData g db da m = (m', Ok (Some (sd_Data sd))).
Proof.
  intros Hd Hs Ht Hmd Hk Ha Eb Hv Ed.
  destruct (signed_data_binary zero_signed_data sd Hd Hs) as (b & sd' & p & E & U & S1 & S2 & (S3 & S4 & _) & Up & Hp).
  rewrite Ed in E. injection E as <-. unfold tryDecodeData. rewrite U, S1, S2.
  assert (Hlen : blen (Txs (sd_Data sd)) <> 0) by (unfold blen; destruct (Txs (sd_Data sd)); [done|simpl; lia]).
  rewrite (proj2 (Z.eqb_neq _ _) Hlen). cbn [andb].
  assert (Hn : txs_nil db = false) by (unfold txs_nil; rewrite Up; by apply bool_decide_false).
  assert (Hval : assertValidSignedData g (txs_nil db) sd' = Ok tt).
  { rewrite Hn. unfold assertValidSignedData, assertExpectedProposer, bytes_Equal.
    rewrite S4 by (by rewrite Hk). rewrite Ha, bool_decide_true by done. cbn [res_bind]. rewrite S1, Eb. cbn [wrap_err res_bind].
    rewrite S3, Hk, S2, Hv. done. }
  rewrite Hval, Hmd. by eexists.
Qed.

End blobs.

(** ** From the aggregator to a full node *)

Section journey.
Context {V W D B E : Type} {K : Type} {C : Type -> Type -> Type}.
Context `{EV : CoreExecutor V} `{NV : Producer.Network V K}.
Context `{EX : CoreExecutor W} `{DC : DAClient W} `{SE : SyncEnv W K} `{DL : DatastoreLaws D} `{BC : Batching D B}.
Context `{BL : !BatchingLaws D B} `{LL : LRULaws C}.
Context `{PK : PubKeys K} `{PKL : !PubKeysLaws K} `{PW : Protowire} `{PWL : !ProtowireLaws}.
Context `{HS : HashString} `{HL : !HashStringLaws} `{MR : MapRange} `{ML : !MapRangeLaws}.
Context `{CV : ProtoCodec pb_Version} `{CHd : ProtoCodec pb_Header}.
Context `{CH : ProtoCodec pb_SignedHeader} `{LH : !ProtoCodecLaws pb_SignedHeader}.
Context `{CE : ProtoCodec pb_DAHeaderEnvelope} `{LE : !ProtoCodecLaws pb_DAHeaderEnvelope}.
Context `{CD : ProtoCodec pb_Data} `{LD : !ProtoCodecLaws pb_Data}.
Context `{CSD : ProtoCodec pb_SignedData} `{LSD : !ProtoCodecLaws pb_SignedData}.
Context `{CS : ProtoCodec pb_State} `{LS : !ProtoCodecLaws pb_State}.

(** The aggregator's options [o], its signer [sg] with key [k], and the full node's configuration [c]. *)
Context (o : Producer.options K) (sg : Submit.signer (K := K)) (k : K) (c : Syncer.config).
Abbreviation g := (Syncer.c_genesis c).
Abbreviation proposer := (g_ProposerAddress g).

(** One chain: the same genesis; the signatures of the signer verify under its key and are not empty;
    blocks are signed over the slim encoding, and the full node has no payload provider. *)
Record one_chain : Prop := {
  oc_genesis : Producer.o_genesis o = g;
  oc_signer : Producer.o_signer o = Some sg;
  oc_public : Submit.GetPublic sg = Ok k;
  oc_address : Submit.GetAddress sg = Ok proposer;
  oc_proposer : proposer <> [];
  oc_scheme msg sig : Submit.Sign sg msg = Ok sig -> sig <> [] /\ pk_Verify k msg sig = Ok true;
  oc_payload : forall h, Producer.o_SignaturePayload o h = Header_MarshalBinary h;
  oc_provider : Syncer.c_provider c = None;
  oc_empty : proto_Marshal {| pd_Metadata := None; pd_Txs := [] |} = Ok [];
}.

(** The blobs the submitter makes of a block: the header's envelope, then the signed data, if any. *)
Definition published (sh : SignedHeader K) (d : Data) (hb : bytes) (dbs : list bytes) : Prop :=
  exists (ds ds' : Submit.DASubmitter C) mb db sds,
    SignedHeader_MarshalBinary sh = Ok mb /\ Submit.signAndCacheEnvelope ds sg sh mb = (ds', Ok hb) /\
    Data_MarshalBinary d = Ok db /\
    Submit.signData (Some sg) proposer [{| sd_Data := d; sd_Signature := []; sd_Signer := zero_signer |}] [db] = Ok (sds, dbs).

Lemma published_blobs sh d hb dbs : one_chain -> published sh d hb dbs ->
  exists mb esig, SignedHeader_MarshalBinary sh = Ok mb /\ MarshalDAEnvelope sh esig = Ok hb /\
    esig <> [] /\ pk_Verify k mb esig = Ok true /\
    match Txs d with
    | [] => dbs = []
    | _ => exists bz sig b, Data_MarshalBinary d = Ok bz /\ pk_Verify k bz sig = Ok true /\ dbs = [b] /\
        SignedData_MarshalBinary {| sd_Data := d; sd_Signature := sig;
          sd_Signer := {| PubKey := Some k; Address := proposer; marshalledPubKey := [] |} |} = Ok b
    end.
Proof.
  intros [_ _ Hk Ha Hp Hsch _ _ _] (ds & ds' & mb & db & sds & Em & Ee & Ed & Es).
  unfold Submit.signAndCacheEnvelope in Ee. destruct (Submit.Sign sg mb) as [esig|] eqn:Esig; [|done].
  destruct (MarshalDAEnvelope sh esig) as [env|] eqn:Eenv; [|done]. injection Ee as _ <-.
  destruct (Hsch _ _ Esig) as [H1 H2]. exists mb, esig. split_and!; try done.
  unfold Submit.signData in Es. rewrite Hk, Ha in Es. cbn [wrap_err res_bind] in Es.
  unfold bytes_Equal in Es. rewrite (bool_decide_true (proposer = proposer)), andb_false_r in Es by done.
  cbn [zip zip_with Submit.sign_data] in Es. cbn [sd_Data] in Es. destruct (Txs d) as [|tx txs] eqn:Et.
  - by injection Es as _ <-.
  - destruct (Submit.Sign sg db) as [sig|] eqn:Eg; [|done]. cbn [wrap_err res_bind] in Es.
    destruct (SignedData_MarshalBinary _) as [b|] eqn:Eb; [|done]. cbn [wrap_err res_bind] in Es.
    injection Es as _ <-. destruct (Hsch _ _ Eg) as [_ H4]. by exists db, sig, b.
Qed.

(** Decoding only touches the inclusion caches. *)
Definition same_pending (m m' : implementation K C) : Prop :=
  pendingEventsCache m' = pendingEventsCache m /\ pendingHeaders m' = pendingHeaders m /\ pendingData m' = pendingData m.

Lemma decode_blobs_pending now da blobs strict m : same_pending m (decode_blobs g now da blobs strict m).1.2.
Proof.
  revert strict m. induction blobs as [|bz blobs IH]; intros strict m; [done|]. cbn [decode_blobs].
  destruct bz as [|b bz]; [apply IH|].
  assert (Hh : same_pending m (tryDecodeHeader g now (b :: bz) da strict m).1.2).
  { unfold tryDecodeHeader. by repeat case_match. }
  destruct (tryDecodeHeader _ _ _ _ _ _) as [[s1 m1] [sh|]]; simpl in Hh.
  - specialize (IH s1 m1). destruct (decode_blobs _ _ _ _ _ _) as [[s2 m2] r]. simpl in *. unfold same_pending in *.
    intuition congruence.
  - assert (Hd : same_pending m1 (tryDecodeData g (b :: bz) da m1).1) by (unfold tryDecodeData; by repeat case_match).
    destruct (tryDecodeData _ _ _ _) as [m2 [[d|]|er]]; simpl in Hd; unfold same_pending in *.
    + specialize (IH s1 m2). destruct (decode_blobs _ _ _ _ _ _) as [[s2 m3] r]. simpl in *. intuition congruence.
    + specialize (IH s1 m2). intuition congruence.
    + simpl. intuition congruence.
Qed.

Lemma block_signer_ok (s : D) h (sh : SignedHeader K) d : GetBlockData s h = Ok (sh, d) -> signer_ok (sh_Signer sh).
Proof.
  unfold GetBlockData, GetHeader. intros Eb. res_inv Eb. destruct (ds_Get s (ds_NewKey (getHeaderKey h))) as [hb|]; [|done].
  apply wrap_err_ok in Hx. destruct (ds_Get s _) as [db|]; [|done]. destruct (Data_UnmarshalBinary db); [|done].
  injection Eb as <- _. by eapply Producer.unmarshal_signer_ok.
Qed.

(** What the full node needs of the block [sh], [d] to accept it on [st]. *)
Record acceptable (now : Z) (w : W) (st : State) (sh : SignedHeader K) (d : Data) (da : Z) (root : bytes) : Prop := {
  ac_time : hd_Time (sh_Header sh) <> 0;
  ac_retrieved : unix_time (hd_Time (sh_Header sh)) <= now + MaxClockDrift;
  ac_synced : unix_time (hd_Time (sh_Header sh)) <= env_now w + MaxClockDrift;
  ac_context : ctx_Err w = None;
  ac_sequence n : (AssertValidSequence n st sh).2 = Ok tt;
  ac_slim : exists slim, Header_MarshalBinary (sh_Header sh) = Ok slim /\ slim <> [];
  ac_forced (ev : DAHeightEvent (K := K)) w1 (y1 : Syncer.Syncer D K C) : Txs (ev_Data ev) = Txs d -> ev_DaHeight ev = da ->
    (Syncer.check_forced (SE := SE) c ev (w1, y1)).2 = Ok tt;
  ac_exec w1 : exists w2, exec_ExecuteTxs w1 (Txs d) (hd_Height (sh_Header sh)) (unix_time (hd_Time (sh_Header sh)))
    (st_AppHash st) = (w2, Ok root);
}.

(** The event the retriever makes of the block. *)
Lemma retrieved_event now da (r : daRetriever K) (m : implementation K C) (sh : SignedHeader K) d md hb dbs :
  one_chain -> published sh d hb dbs -> header_valid (sh_Header sh) -> data_valid d -> signer_ok (sh_Signer sh) ->
  Legacy (sh_Header sh) = None -> PubKey (sh_Signer sh) = Some k -> ProposerAddress (sh_Header sh) = proposer ->
  Header_ValidateBasic now (sh_Header sh) = Ok tt -> dt_Metadata d = Some md -> md_Height md = hd_Height (sh_Header sh) ->
  DataHash (sh_Header sh) = (if blen (Txs d) =? 0 then DataHashForEmptyTxs else DACommitment d) ->
  hb <> [] -> (forall b, b ∈ dbs -> b <> [] /\ forall x : SignedHeader K, decode_envelope true b <> Some (x, true)) ->
  keyed r -> r_pendingHeaders r !! hd_Height (sh_Header sh) = None -> r_pendingData r !! hd_Height (sh_Header sh) = None ->
  exists r' m' events sh', processBlobs g now (hb :: dbs) da r m = (r', m', Ok events) /\ same_pending m m' /\
    sh_Header sh' = sh_Header sh /\ sh_Signature sh' = sh_Signature sh /\ PubKey (sh_Signer sh') = Some k /\
    Address (sh_Signer sh') = Address (sh_Signer sh) /\ signer_ok (sh_Signer sh') /\
    da_event da sh' (if blen (Txs d) =? 0 then createEmptyDataForHeader sh' else d) ∈ events.
Proof.
  intros Hoc Hpub Hh Hd Hs Hl Hk Hp Hb Hmd Hmh Hdh Hne Hdbs Hr P1 P2.
  destruct (published_blobs sh d hb dbs Hoc Hpub) as (mb & esig & Em & Ee & Hsne & Hver & Hdata).
  destruct (header_blob_decodes g now da (strictMode r) m sh k mb esig hb Hh Hs Hl Hk Em Ee Hsne Hver Hb Hp)
    as (m1 & sh' & Ed & S1 & S2 & S3 & S4 & S5).
  assert (Hdec : exists m2, decode_blobs g now da (hb :: dbs) (strictMode r) m =
    (true, m2, Ok ([sh'], if blen (Txs d) =? 0 then [] else [d]))).
  { cbn [decode_blobs]. destruct hb as [|b0 hb]; [done|]. rewrite Ed. destruct (Txs d) as [|tx txs] eqn:Et.
    { rewrite Hdata. simpl. by eexists. }
    destruct Hdata as (bz & sig & b & Eb & Hv & -> & Esd).
    set (sd := {| sd_Data := d; sd_Signature := sig; sd_Signer := _ |}) in Esd.
    destruct (data_blob_decodes g da m1 sd k md bz b) as (m2 & Edd); try done.
    { by intros ?. }
    { simpl. by rewrite Et. }
    destruct (Hdbs b) as [Hbne Hnot]; [by left|]. cbn [decode_blobs]. destruct b as [|b1 b]; [done|].
    assert (Eh : tryDecodeHeader g now (b1 :: b) da true m1 = (true, m1, None)).
    { unfold tryDecodeHeader. destruct (decode_envelope true (b1 :: b)) as [[x v]|] eqn:Ex; [|done].
      destruct v; [by destruct (Hnot x)|done]. }
    rewrite Eh, Edd. simpl. by eexists. }
  destruct Hdec as (m2 & Hdec). pose proof (decode_blobs_pending now da (hb :: dbs) (strictMode r) m) as Hpend.
  rewrite Hdec in Hpend. simpl in Hpend.
  destruct (processBlobs g now (hb :: dbs) da r m) as [[r' m'] res0] eqn:Epb.
  assert (Hres : exists events, res0 = Ok events /\ m' = m2).
  { unfold processBlobs in Epb. rewrite Hdec in Epb. destruct (foldl _ _ _) as [[H1 D1] evs]. injection Epb as _ <- <-. by eexists. }
  destruct Hres as (events & -> & ->).
  destruct (processBlobs_spec g now da (hb :: dbs) r r' m m2 events Hr Epb) as (hs & ds & E2 & _ & _ & Hev & _).
  rewrite Hdec in E2. injection E2 as <- <-. exists r', m2, events, sh'. split_and!; try done.
  apply Hev. exists (hd_Height (sh_Header sh)), sh'. unfold first_of. rewrite P1, P2.
  rewrite filter_cons_True by (unfold sh_height; by rewrite S1). split; [done|].
  destruct (blen (Txs d) =? 0) eqn:Et.
  - cbn [filter list_filter complete head]. unfold isEmptyDataExpected, bytes_Equal. rewrite S1, Hdh.
    by rewrite bool_decide_true, orb_true_r.
  - rewrite filter_cons_True; [done|]. unfold data_height. by rewrite Hmd.
Qed.

Lemma event_accepted now da root w (y : Syncer.Syncer D K C) st (sh sh' : SignedHeader K) d md :
  one_chain -> acceptable now w st sh d da root -> sh_Header sh' = sh_Header sh -> sh_Signature sh' = sh_Signature sh ->
  PubKey (sh_Signer sh') = Some k -> Address (sh_Signer sh') = proposer -> ProposerAddress (sh_Header sh) = proposer ->
  Producer.signHeader o (sh_Header sh) = Ok (sh_Signature sh) ->
  dt_Metadata d = Some md -> md_ChainID md = hd_ChainID (sh_Header sh) -> md_Height md = hd_Height (sh_Header sh) ->
  md_Time md = hd_Time (sh_Header sh) ->
  DataHash (sh_Header sh) = (if blen (Txs d) =? 0 then DataHashForEmptyTxs else DACommitment d) ->
  Syncer.ready c w y st (da_event da sh' (if blen (Txs d) =? 0 then createEmptyDataForHeader sh' else d)) root.
Proof.
  intros Hoc [A1 A2 A3 A4 A5 (slim & A6 & A6') A7 A8] S1 S2 S3 S4 Hp Hsig Hmd M1 M2 M3 Hdh.
  set (d' := if blen (Txs d) =? 0 then _ else d).
  assert (Et : Txs d' = Txs d).
  { unfold d'. destruct (Z.eqb_spec (blen (Txs d)) 0) as [E0|]; [|done]. unfold blen in E0. destruct (Txs d); [done|simpl in E0; lia]. }
  assert (Em : exists m', dt_Metadata d' = Some m' /\ md_ChainID m' = hd_ChainID (sh_Header sh) /\
    md_Height m' = hd_Height (sh_Header sh) /\ md_Time m' = hd_Time (sh_Header sh)).
  { unfold d'. destruct (_ =? 0); [|by exists md]. eexists. split; [done|]. simpl. by rewrite S1. }
  unfold Producer.signHeader in Hsig. rewrite (oc_signer Hoc), (oc_payload Hoc), A6 in Hsig. cbn [wrap_err res_bind] in Hsig.
  destruct (oc_scheme Hoc _ _ Hsig) as [G1 G2].
  split; cbn [ev_Header ev_Data da_event]; rewrite ?Et, ?S1; try done.
  - apply (Syncer.accepts_signed c _ _ _ k slim); rewrite ?S1, ?S2; try done; [apply Hoc|by rewrite Hp; apply Hoc|by rewrite Hp].
  - specialize (A5 (Syncer.y_hashErrCount y)). unfold AssertValidForNextState.
    assert (Es : AssertValidSequence (Syncer.y_hashErrCount y) st sh' = AssertValidSequence (Syncer.y_hashErrCount y) st sh)
      by (unfold AssertValidSequence; by rewrite S1).
    rewrite Es. destruct (AssertValidSequence _ st sh) as [n [[]|]]; [|done]. simpl. unfold Validate.
    destruct Em as (m' & -> & Q1 & Q2 & Q3). rewrite S1, Q1, Q2, Q3, bool_decide_true, !Z.eqb_refl by done. simpl.
    unfold bytes_Equal. rewrite bool_decide_true; [done|]. rewrite Hdh, Et.
    destruct (Z.eqb_spec (blen (Txs d)) 0) as [E0|]; [|done]. unfold blen in E0. destruct (Txs d); [|simpl in E0; lia].
    apply empty_data_hash, Hoc.
  - intros w1 y1. by apply A7.
Qed.

(** C1: From the aggregator to a full node. Let the aggregator extend its chain by a block, the submitter
    publish the block's envelope and signed data, and a full node in the same state retrieve these
    blobs. Then the retriever emits an event with exactly this header and these transactions, the
    syncer accepts it, and if the full node's execution layer computes the same root the full
    node's new state is the aggregator's, but for the DA height each of them keeps. *)
Theorem block_travels (e e' : Producer.Executor D K C) (st st' : State) (sh : SignedHeader K) (d : Data) (hb : bytes)
  (dbs : list bytes) (now da : Z) (w : W) (y : Syncer.Syncer D K C)
  (Hoc : one_chain) (Hx : Producer.extended (EX := EV) o e e' st st')
  (Hblk : GetBlockData (Producer.store e') (LastBlockHeight st') = Ok (sh, d))
  (Hkey : PubKey (sh_Signer sh) = Some k) (Haddr : Address (sh_Signer sh) = proposer)
  (Hprop : ProposerAddress (sh_Header sh) = proposer)
  (Hpub : published sh d hb dbs) (Hne : hb <> [])
  (Hdbs : forall b, b ∈ dbs -> b <> [] /\ forall x : SignedHeader K, decode_envelope true b <> Some (x, true))
  (Hi : Syncer.sync_inv y st) (Hr : keyed (Syncer.y_retriever y)) (Hda : is_u64 da)
  (P1 : r_pendingHeaders (Syncer.y_retriever y) !! LastBlockHeight st' = None)
  (P2 : r_pendingData (Syncer.y_retriever y) !! LastBlockHeight st' = None)
  (Hac : acceptable now w st sh d da (st_AppHash st')) :
  exists r' m' events ev w' y' stn,
    processBlobs g now (hb :: dbs) da (Syncer.y_retriever y) (Syncer.y_cache y) = (r', m', Ok events) /\ ev ∈ events /\
    sh_Header (ev_Header ev) = sh_Header sh /\ Txs (ev_Data ev) = Txs d /\
    let y1 := Syncer.set_retriever r' (Syncer.set_cache m' y) in
    Syncer.TrySyncNextBlock (B := B) c ev (w, y1) = ((w', y'), Ok tt) /\ Syncer.synced c y1 y' ev st stn /\
    Producer.with_DAHeight stn (st_DAHeight st') = st'.
Proof.
  pose proof (block_signer_ok _ _ _ _ Hblk) as Hsok.
  destruct (Producer.xt_block _ _ _ _ _ Hx) as (sh0 & sh1 & d0 & sig & Hn & Eb & Eh & Esg & Es & _ & _ & (da0 & Est)).
  rewrite Hblk in Eb. injection Eb as -> ->. rewrite <- Eh in *.
  pose proof (Producer.xt_height _ _ _ _ _ Hx) as Ehh.
  destruct Hn as [N1 N2 N3 N4 N5 N6 N7 N8 (md & M1 & M2 & M3 & M4 & _)]. rewrite <- Eh in *. rewrite Ehh, <- N6 in P1, P2.
  assert (Hb : Header_ValidateBasic now (sh_Header sh1) = Ok tt).
  { unfold Header_ValidateBasic. pose proof (oc_proposer Hoc) as Hpn. rewrite <- Hprop in Hpn.
    destruct (ProposerAddress (sh_Header sh1)); [done|]. destruct (Z.eqb_spec (hd_Time (sh_Header sh1)) 0); [by destruct (ac_time _ _ _ _ _ _ _ Hac)|].
    destruct (Z.ltb_spec (now + MaxClockDrift) (unix_time (hd_Time (sh_Header sh1)))); [|done].
    pose proof (ac_retrieved _ _ _ _ _ _ _ Hac). lia. }
  destruct (retrieved_event now da (Syncer.y_retriever y) (Syncer.y_cache y) sh1 d0 md hb dbs) as
    (r' & m' & events & sh' & Ep & Hpend & S1 & S2 & S3 & S4 & S5 & Hin); try done.
  set (d' := if blen (Txs d0) =? 0 then createEmptyDataForHeader sh' else d0) in Hin.
  set (ev := da_event da sh' d'). set (y1 := Syncer.set_retriever r' (Syncer.set_cache m' y)).
  assert (Hi1 : Syncer.sync_inv y1 st).
  { eapply Syncer.inv_core; [exact Hi|]. destruct Hpend as (Q1 & Q2 & Q3).
    split; try done; unfold Syncer.waiting, Syncer.meta_keys; simpl; congruence. }
  assert (Hrdy : Syncer.ready c w y1 st ev (st_AppHash st')) by
    (apply (event_accepted now da _ w y1 st sh1 sh' d0 md); try done; by rewrite ?S4, ?Es).
  assert (Hev : Syncer.event_ok ev).
  { assert (Hd : data_valid d').
    { unfold d'. destruct (_ =? 0); [|done]. unfold data_valid, createEmptyDataForHeader. cbn. rewrite S1.
      destruct N1 as (_ & _ & ? & ? & ? & _). by split_and!. }
    split; [simpl; by rewrite S1|]. by split_and!. }
  destruct (Syncer.ready_synced (B := B) c w y1 st ev (st_AppHash st') Hi1 Hev) as (w' & y' & Et & Hsn); [simpl; by rewrite S1|done|].
  eexists r', m', events, ev, w', y', _. do 3 (split; [done|]). split; [|split; [exact Et|split; [exact Hsn|]]].
  - simpl. unfold d'. destruct (Z.eqb_spec (blen (Txs d0)) 0) as [E0|]; [|done]. unfold blen in E0.
    destruct (Txs d0); [done|simpl in E0; lia].
  - simpl. rewrite S1. rewrite Est at 2 3. unfold Syncer.with_da_height. by destruct (_ <? _).
Qed.

End journey.

Module JourneyWitness.
Import RefHash RefLRU TypesWitness Submit.SubmitWitness RetrieverWitness Validation.ValidationWitness.
Import Producer.ProducerWitness Syncer.SyncerWitness.

#[local] Existing Instances Producer.ProducerWitness.w_exec Producer.ProducerWitness.w_network w_data_codec | 0.

#[local] Instance w_data_codec_laws : ProtoCodecLaws (H0 := w_data_codec) pb_Data.
Proof.
  split. intros a Ha. unfold proto_Marshal, proto_Unmarshal, w_data_codec. destruct (decide _) as [->|_]; [by eexists|].
  eexists. split; [done|]. pose proof (RefCodec.codec_laws pb_Data) as Hl.
  destruct (proto_roundtrip (ProtoCodecLaws := Hl) a) as (bz & [= <-] & E); [exact Ha|exact E].
Qed.

(** The chain of both nodes; forced inclusion is off. *)
Definition j_genesis : Genesis :=
  {| g_ChainID := "chain"; g_StartTime := 1000; g_InitialHeight := 1; g_ProposerAddress := [x05]; g_DAStartHeight := 3;
     g_DAEpochForcedInclusion := 0 |}.
Definition j_options : Producer.options bytes := {|
  Producer.o_signer := Some w_sign; Producer.o_genesis := j_genesis; Producer.o_raft := false; Producer.o_BasedSequencer := false;
  Producer.o_MaxPending := 10; Producer.o_LazyMode := false; Producer.o_ValidatorHasher := fun _ _ => Ok [x06];
  Producer.o_SignaturePayload := Header_MarshalBinary |}.
Definition j_config : Syncer.config := {| Syncer.c_genesis := j_genesis; Syncer.c_provider := None |}.
Definition up : Producer.ProducerWitness.world := w_world true true.
Definition aggregator : Producer.Executor mapds bytes lruc :=
  (Producer.initializeState (B := list batch_op) j_options (up, Producer.ProducerWitness.w_fresh)).1.2.
Definition produced : Producer.Executor mapds bytes lruc :=
  (Producer.ProduceBlock (B := list batch_op) j_options None (up, aggregator)).1.2.
Definition follower : Syncer.Syncer mapds bytes lruc :=
  (Syncer.Start (B := list batch_op) j_config 5 None true (tt, Syncer.SyncerWitness.w_fresh)).1.2.
Definition state0 : State := Producer.ProducerWitness.w_state0.
Definition state1 : State := default state0 (Producer.lastState produced).
Definition block1 : SignedHeader bytes * Data :=
  match GetBlockData (K := bytes) (Producer.store produced) 1 with Ok b => b | Err _ => (block_header 1, block_data 1) end.
Definition sub0 : Submit.DASubmitter lruc := {| Submit.envelopeCache := None; Submit.lastSubmittedHeight := 0; Submit.signingWorkers := 1 |}.
Definition envelope1 : bytes :=
  blob (Submit.signAndCacheEnvelope sub0 w_sign block1.1 (blob (SignedHeader_MarshalBinary block1.1))).2.
Definition signed1 : list (SignedData bytes) * list bytes :=
  match Submit.signData (Some w_sign) [x05] [{| sd_Data := block1.2; sd_Signature := []; sd_Signer := zero_signer |}]
    [blob (Data_MarshalBinary block1.2)] with Ok l => l | Err _ => ([], []) end.
Definition data1 : list bytes := signed1.2.

Lemma j_inv : Producer.exec_inv j_options aggregator state0.
Proof.
  split.
  - reflexivity.
  - vm_compute. reflexivity.
  - vm_compute. reflexivity.
  - vm_compute. reflexivity.
  - vm_compute. repeat split; discriminate.
  - intros Hi. exfalso. apply Hi. reflexivity.
  - intros sh d E. vm_compute in E. discriminate E.
  - vm_compute. reflexivity.
Qed.

Lemma j_extended : Producer.extended j_options aggregator produced state0 state1.
Proof.
  assert (Hg : genesis_ok (Producer.o_genesis j_options)) by (split; [reflexivity|split; [discriminate|reflexivity]]).
  pose proof (Producer.produce_spec (D := mapds) (C := lruc) (B := list batch_op) j_options Hg w_da_height None state0 up aggregator
    j_inv eq_refl) as Hp.
  assert (El : Producer.lastState produced = Some state1) by (vm_compute; reflexivity).
  assert (E0 : Producer.lastState aggregator = Some state0) by (vm_compute; reflexivity).
  unfold Producer.post in Hp. unfold produced in *.
  destruct (Producer.ProduceBlock (B := list batch_op) j_options None (up, aggregator)) as [[w' e'] r].
  cbn [fst snd] in *. destruct Hp as [Hk|[_ (st' & Hx)]].
  - pose proof (Producer.kp_last _ _ _ _ Hk) as E. cbn [snd] in E. rewrite El, E0 in E. discriminate E.
  - pose proof (Producer.ei_last _ _ _ (Producer.xt_inv _ _ _ _ _ Hx)) as E. cbn [snd] in E. rewrite El in E. injection E as <-.
    exact Hx.
Qed.

Lemma j_chain : one_chain j_options w_sign [x07] j_config.
Proof.
  split; try reflexivity; [discriminate|]. intros msg sig E. injection E as <-. split; [discriminate|].
  cbn. unfold bytes_Equal. by rewrite bool_decide_true.
Qed.

Lemma j_published : published (K := bytes) (C := lruc) w_sign j_config block1.1 block1.2 envelope1 data1.
Proof.
  exists sub0, (Submit.signAndCacheEnvelope sub0 w_sign block1.1 (blob (SignedHeader_MarshalBinary block1.1))).1,
    (blob (SignedHeader_MarshalBinary block1.1)), (blob (Data_MarshalBinary block1.2)), signed1.1.
  split; [|split; [|split]]; vm_compute; reflexivity.
Qed.

Lemma j_data_blobs b : b ∈ data1 -> b <> [] /\ forall x : SignedHeader bytes, decode_envelope true b <> Some (x, true).
Proof.
  assert (E : exists d, data1 = [d]) by (eexists; vm_compute; reflexivity). destruct E as (d & E). rewrite E.
  intros ->%list_elem_of_singleton.
  assert (Ed : d = default [] (head data1)) by (rewrite E; reflexivity). rewrite Ed. split; [vm_compute; discriminate|].
  intros x. replace (decode_envelope true _) with (@None (SignedHeader bytes * bool)) by (vm_compute; reflexivity). discriminate.
Qed.

Lemma j_sync_inv : Syncer.sync_inv follower state0.
Proof.
  split.
  - reflexivity.
  - vm_compute. reflexivity.
  - vm_compute. reflexivity.
  - vm_compute. reflexivity.
  - vm_compute. repeat split; discriminate.
  - constructor.
  - intros h ev E. discriminate E.
  - reflexivity.
Qed.

Lemma j_acceptable :
  acceptable (W := unit) (D := mapds) (C := lruc) j_config 2000 tt state0 block1.1 block1.2 9 (st_AppHash state1).
Proof.
  split.
  - vm_compute. discriminate.
  - vm_compute. discriminate.
  - vm_compute. discriminate.
  - reflexivity.
  - intros n. vm_compute. reflexivity.
  - eexists. split; [vm_compute; reflexivity|discriminate].
  - intros ev w1 y1 _ _. unfold Syncer.check_forced. case_bool_decide; [|reflexivity].
    unfold Syncer.VerifyForcedInclusionTxs. rewrite orb_true_r. reflexivity.
  - intros w1. exists w1. vm_compute. reflexivity.
Qed.

Lemma block_travels_witness :
  exists r' m' events ev w' y' stn,
    processBlobs (Syncer.c_genesis j_config) 2000 (envelope1 :: data1) 9 (Syncer.y_retriever follower) (Syncer.y_cache follower) =
      (r', m', Ok events) /\ ev ∈ events /\
    sh_Header (ev_Header ev) = sh_Header block1.1 /\ Txs (ev_Data ev) = Txs block1.2 /\
    let y1 := Syncer.set_retriever r' (Syncer.set_cache m' follower) in
    Syncer.TrySyncNextBlock (B := list batch_op) j_config ev (tt, y1) = ((w', y'), Ok tt) /\
    Syncer.synced (W := unit) j_config y1 y' ev state0 stn /\
    Producer.with_DAHeight stn (st_DAHeight state1) = state1.
Proof.
  pose proof (block_travels (B := list batch_op) j_options w_sign [x07] j_config aggregator produced state0 state1 block1.1 block1.2
    envelope1 data1 2000 9 tt follower j_chain j_extended) as Hw.
  apply Hw.
  - vm_compute. reflexivity.
  - vm_compute. reflexivity.
  - vm_compute. reflexivity.
  - vm_compute. reflexivity.
  - exact j_published.
  - vm_compute. discriminate.
  - exact j_data_blobs.
  - exact j_sync_inv.
  - intros h sh E. discriminate E.
  - split; [discriminate|reflexivity].
  - vm_compute. reflexivity.
  - vm_compute. reflexivity.
  - exact j_acceptable.
Defined.

End JourneyWitness.

End Journey.
