(* ===== verification/Sdk.v ===== *)
(** The pure parts of the client library (apps/cosmos-exec/sdk/cosmoswasm): chunking of large blobs
    (chunk.go, internal/chunk), Merkle proofs over the commitments of a batch (merkle.go,
    internal/merkle) and DA namespaces (namespace.go). *)

From S2P Require Import Prelude Sha256.

(** ** Chunks *)

Module Chunk.

Definition DefaultMaxSize : Z := 512 * 1024.

Record Meta := { OriginalHash : string; TotalChunks : Z; ChunkCommitments : list string }.

(** The loop of [splitBytes]; a round takes at least one byte if [size] is positive. *)
Fixpoint split_loop (fuel : nat) (data : bytes) (size : nat) : list bytes :=
  match fuel, data with
  | S fuel, _ :: _ =>
      let e := Nat.min size (length data) in
      take e data :: split_loop fuel (drop e data) size
  | _, _ => []
  end.
Definition splitBytes (data : bytes) (size : nat) : list bytes := split_loop (length data) data size.

Definition hash_hex (b : bytes) : string := hex_encode (sha256_Sum256 b).

Definition Split (data : bytes) (maxSize : Z) : list bytes * option Meta :=
  let maxSize := if maxSize <=? 0 then DefaultMaxSize else maxSize in
  if blen data <=? maxSize then ([data], None)
  else
    let chunks := splitBytes data (Z.to_nat maxSize) in
    (chunks, Some {| OriginalHash := hash_hex data; TotalChunks := blen chunks; ChunkCommitments := hash_hex <$> chunks |}).

Definition Reassemble (chunks : list bytes) (meta : option Meta) : res bytes :=
  match chunks with
  | [] => Err (EMsg "no chunks to reassemble")
  | _ =>
      let buf := concat chunks in
      match meta with
      | Some m => if bool_decide (hash_hex buf = OriginalHash m) then Ok buf else Err (EMsg "integrity check failed")
      | None => Ok buf
      end
  end.

(** The public wrappers convert between two records with the same fields. *)
Definition ChunkBlob (data : bytes) (maxSize : Z) : list bytes * option Meta := Split data maxSize.
Definition ReassembleChunks (chunks : list bytes) (meta : option Meta) : res bytes := Reassemble chunks meta.

Lemma split_loop_spec fuel data size : (0 < size)%nat -> (length data <= fuel)%nat ->
  concat (split_loop fuel data size) = data /\
  Forall (fun c => (0 < length c <= size)%nat) (split_loop fuel data size).
Proof.
  intros Hs. revert data. induction fuel as [|fuel IH]; intros data Hf; [by destruct data; simpl in *; [|lia]|].
  destruct data as [|b data]; [done|]. cbn [split_loop]. set (e := Nat.min size (length (b :: data))).
  assert (He : (0 < e <= length (b :: data))%nat) by (unfold e; simpl; lia).
  destruct (IH (drop e (b :: data))) as [H1 H2]; [rewrite length_drop; simpl in *; lia|].
  cbn [concat]. rewrite H1, take_drop. split; [done|]. constructor; [|done].
  rewrite length_take. unfold e in *. lia.
Qed.

(** Splitting and reassembling gives the data back, every chunk is within the limit, and whatever
    chunks pass the check of the metadata are the data or show a collision of SHA-256. *)
Theorem chunks_roundtrip (data : bytes) (maxSize : Z) :
  let '(chunks, meta) := ChunkBlob data maxSize in
  ReassembleChunks chunks meta = Ok data /\
  Forall (fun c => blen c <= if maxSize <=? 0 then DefaultMaxSize else maxSize) chunks /\
  (forall m, meta = Some m -> TotalChunks m = blen chunks /\ ChunkCommitments m = hash_hex <$> chunks /\
     forall other out, ReassembleChunks other meta = Ok out ->
       out = data \/ exists x y, x <> y /\ sha256_Sum256 x = sha256_Sum256 y).
Proof.
  unfold ChunkBlob, ReassembleChunks, Split. set (sz := if maxSize <=? 0 then DefaultMaxSize else maxSize).
  assert (Hsz : 0 < sz) by (unfold sz, DefaultMaxSize; destruct (Z.leb_spec maxSize 0); lia).
  destruct (Z.leb_spec (blen data) sz) as [Hle|Hgt].
  { simpl. rewrite app_nil_r. split_and!; [done|by constructor|done]. }
  destruct (split_loop_spec (length data) data (Z.to_nat sz)) as [H1 H2]; [lia|lia|]. fold (splitBytes data (Z.to_nat sz)) in *.
  set (chunks := splitBytes data (Z.to_nat sz)) in *. unfold Reassemble. split_and!.
  - destruct chunks as [|c l] eqn:Ec; [|rewrite H1; cbn [OriginalHash]; by rewrite bool_decide_true].
    simpl in H1. subst data. unfold blen in Hgt. simpl in Hgt. lia.
  - eapply Forall_impl; [exact H2|]. intros c Hc. simpl in Hc. unfold blen. lia.
  - intros m [= <-]. split_and!; [done|done|]. intros [|c l] out E; [done|]. cbn [OriginalHash] in E.
    destruct (bool_decide_reflect (hash_hex (concat (c :: l)) = hash_hex data)) as [Eh|]; [|done]. injection E as <-.
    unfold hash_hex in Eh. apply (inj hex_encode) in Eh.
    destruct (decide (concat (c :: l) = data)) as [|Hne]; [by left|right; by eexists _, _].
Qed.

End Chunk.

(** ** Merkle proofs *)

Module Merkle.

Record PathStep := { SiblingHash : string; IsLeft : bool }.

(** [fmt.Sscanf(s, "%02x", &v)] on two bytes [a] and [b]: blanks are skipped, then as many digits as there
    are, which may be one; what follows the number is not looked at; an underscore counts as a digit and
    is then refused. *)
Definition is_blank (c : Ascii.ascii) : bool := bool_decide (Z.of_N (Ascii.N_of_ascii c) ∈ [9; 11; 12; 13; 32]).
Definition scan_02x (a b : Ascii.ascii) : option Z :=
  match hex_value a, hex_value b with
  | Some h, Some l => Some (16 * h + l)
  | Some h, None => if Ascii.eqb b "_" then None else Some h
  | None, Some l => if is_blank a then Some l else None
  | None, None => None
  end.

Fixpoint scan_pairs (s : string) : option bytes :=
  match s with
  | String.String a (String.String b s') =>
      match scan_02x a b with
      | Some v => rest ← scan_pairs s'; Some (Z_byte v :: rest)
      | None => None
      end
  | _ => Some []
  end.
Definition HexTo32 (h : string) : res bytes :=
  if negb (Nat.eqb (String.length h) 64) then Err (EMsg "expected 64 hex chars")
  else match scan_pairs h with Some b => Ok b | None => Err (EMsg "invalid hex") end.

(** One round of the loop: the hashes of the pairs, the last node with itself if it has no partner. Every
    node is a slice of 32 bytes without spare capacity, so that [append(left, right...)] copies. *)
Fixpoint next_layer (l : list bytes) : list bytes :=
  match l with
  | a :: b :: l' => sha256_Sum256 (a ++ b) :: next_layer l'
  | [a] => [sha256_Sum256 (a ++ a)]
  | [] => []
  end.

(** The loop of [ComputeRoot]; [fuel] rounds are enough for as many nodes. *)
Fixpoint root_loop (fuel : nat) (l : list bytes) : bytes :=
  match fuel, l with
  | S fuel, _ :: _ :: _ => root_loop fuel (next_layer l)
  | _, a :: _ => a
  | _, [] => []
  end.
Definition ComputeRoot (layer : list bytes) : bytes := root_loop (length layer) layer.

(** The steps one round of [buildPath] adds: of the pair at [i] if it holds the node [idx]. *)
Fixpoint pair_steps (i idx : nat) (l : list bytes) : list PathStep :=
  match l with
  | [] => []
  | a :: l' =>
      let b := default a (head l') in
      let step :=
        if (i =? idx)%nat then [{| SiblingHash := hex_encode b; IsLeft := false |}]
        else if (S i =? idx)%nat then [{| SiblingHash := hex_encode a; IsLeft := true |}]
        else [] in
      step ++ match l' with [] => [] | _ :: l'' => pair_steps (S (S i)) idx l'' end
  end.
Fixpoint path_loop (fuel : nat) (l : list bytes) (idx : nat) : list PathStep :=
  match fuel, l with
  | S fuel, _ :: _ :: _ => pair_steps 0 idx l ++ path_loop fuel (next_layer l) (Nat.div2 idx)
  | _, _ => []
  end.
Definition buildPath (layer : list bytes) (leafIndex : nat) : list PathStep := path_loop (length layer) layer leafIndex.

Fixpoint decode_all (commitments : list string) : res (list bytes) :=
  match commitments with
  | [] => Ok []
  | c :: l => let? b := wrap_err "invalid commitment" (HexTo32 c) in let? bs := decode_all l in Ok (b :: bs)
  end.

Definition BuildProof (commitments : list string) (leafIndex : Z) : res (string * list PathStep) :=
  match commitments with
  | [] => Err (EMsg "commitments cannot be empty")
  | _ =>
      if (leafIndex <? 0) || (blen commitments <=? leafIndex) then Err (EMsg "leaf index out of range")
      else
        let? layer := decode_all commitments in
        Ok (hex_encode (ComputeRoot layer), buildPath layer (Z.to_nat leafIndex))
  end.

Definition combine (step : PathStep) (sibling current : bytes) : bytes :=
  if IsLeft step then sibling ++ current else current ++ sibling.
Fixpoint verify_loop (current : bytes) (path : list PathStep) : res bytes :=
  match path with
  | [] => Ok current
  | step :: path =>
      let? sibling := wrap_err "invalid sibling hash" (HexTo32 (SiblingHash step)) in
      verify_loop (sha256_Sum256 (combine step sibling current)) path
  end.
Definition Verify (root commitment : string) (proofPath : list PathStep) : res unit :=
  let? current := wrap_err "invalid commitment" (HexTo32 commitment) in
  let? computed := verify_loop current proofPath in
  if bool_decide (hex_encode computed = root) then Ok tt else Err (EMsg "proof invalid").

(** The public form. *)
Record MerkleProof := { Root : string; Commitment : string; Index : Z; Path : list PathStep }.
Definition BuildMerkleProof (commitments : list string) (index : Z) : res MerkleProof :=
  let? p := BuildProof commitments index in
  Ok {| Root := p.1; Commitment := nth (Z.to_nat index) commitments EmptyString; Index := index; Path := p.2 |}.
Definition VerifyMerkleProof (proof : option MerkleProof) : res unit :=
  match proof with
  | None => Err (EMsg "merkle proof is nil")
  | Some p => Verify (Root p) (Commitment p) (Path p)
  end.

(** *** Hexadecimal *)

Lemma scan_pairs_hex b : scan_pairs (hex_encode b) = Some b.
Proof.
  induction b as [|x b IH]; [done|]. cbn [hex_encode scan_pairs]. pose proof (byte_Z_range x).
  unfold scan_02x. rewrite !hex_value_digit, IH by (Z.div_mod_to_equations; lia). cbn. do 2 f_equal.
  apply byte_Z_inj. rewrite byte_Z_byte, <- Z.div_mod by lia. apply Z.mod_small. lia.
Qed.
Lemma HexTo32_hex b : length b = 32%nat -> HexTo32 (hex_encode b) = Ok b.
Proof. intros Hb. unfold HexTo32. by rewrite length_hex_encode, Hb, scan_pairs_hex. Qed.

Lemma scan_pairs_length n s b : String.length s = (2 * n)%nat -> scan_pairs s = Some b -> length b = n.
Proof.
  revert s b. induction n as [|n IH]; intros s b Hs E; [destruct s; [by injection E as <-|done]|].
  destruct s as [|a [|c s]]; [done|simpl in Hs; lia|]. cbn [scan_pairs] in E. destruct (scan_02x a c); [|done].
  destruct (scan_pairs s) as [r|] eqn:Er; [|done]. injection E as <-. simpl. f_equal. apply (IH s); [simpl in Hs; lia|done].
Qed.
Lemma HexTo32_length s b : HexTo32 s = Ok b -> length b = 32%nat.
Proof.
  unfold HexTo32. destruct (Nat.eqb_spec (String.length s) 64) as [E|]; [|done]. simpl.
  destruct (scan_pairs s) eqn:Es; [|done]. intros [= <-]. by apply (scan_pairs_length 32 s).
Qed.

(** *** Layers *)

Definition node (b : bytes) : Prop := length b = 32%nat.

(** Induction in steps of two. *)
Lemma pairs_ind {A} (P : list A -> Prop) : P [] -> (forall a, P [a]) -> (forall a b l, P l -> P (a :: b :: l)) -> forall l, P l.
Proof.
  intros H0 H1 H2 l. enough (H : P l /\ forall a, P (a :: l)) by apply H.
  induction l as [|b l [IH1 IH2]]; [by split; [|apply H1]|]. split; [apply IH2|]. intros a. by apply H2.
Qed.

Lemma length_next_layer l : length (next_layer l) = Nat.div2 (S (length l)).
Proof. induction l as [|a|a b l IH] using pairs_ind; [done|done|]. cbn [next_layer length]. rewrite IH. done. Qed.
Lemma next_layer_shorter a b l : (length (next_layer (a :: b :: l)) < length (a :: b :: l))%nat.
Proof.
  rewrite length_next_layer. set (n := length (a :: b :: l)). assert (2 <= n)%nat by (unfold n; simpl; lia).
  pose proof (Nat.div2_odd (S n)) as Ho. destruct (Nat.odd (S n)); cbn [Nat.b2n] in Ho; lia.
Qed.
Lemma next_layer_nodes l : Forall node (next_layer l).
Proof. induction l as [|a|a b l IH] using pairs_ind; repeat constructor; (apply length_sha256 || done). Qed.
Lemma next_layer_elem l v : v ∈ next_layer l -> exists a b, a ∈ l /\ b ∈ l /\ v = sha256_Sum256 (a ++ b).
Proof.
  induction l as [|a|a b l IH] using pairs_ind; cbn [next_layer].
  - by intros ?%not_elem_of_nil.
  - intros ->%list_elem_of_singleton. exists a, a. by rewrite list_elem_of_singleton.
  - intros [->|(x & y & Hx & Hy & ->)%IH]%elem_of_cons; [exists a, b|exists x, y]; rewrite !elem_of_cons; tauto.
Qed.

Lemma depth_step n : (1 < n)%nat -> Nat.log2_up n = S (Nat.log2_up (Nat.div2 (S n))).
Proof.
  intros Hn. set (m := Nat.div2 (S n)). pose proof (Nat.div2_odd (S n)) as Ho. fold m in Ho.
  assert (Hm : (2 * m = n \/ 2 * m = S n)%nat) by (destruct (Nat.odd (S n)); simpl in Ho; lia).
  apply Nat.log2_up_unique; [lia|]. cbn [Nat.pred].
  destruct (decide (m = 1%nat)) as [E|Hm1]; [rewrite E; change (Nat.log2_up 1) with 0%nat; simpl; lia|].
  pose proof (Nat.log2_up_spec m ltac:(lia)) as [H1 H2]. rewrite Nat.pow_succ_r'. split; [|lia].
  destruct (Nat.log2_up m) as [|k]; [simpl in H2; lia|]. cbn [Nat.pred] in H1. rewrite Nat.pow_succ_r'.
  lia.
Qed.

(** *** Proofs verify *)

Lemma pair_steps_below i idx l : (idx < i)%nat -> pair_steps i idx l = [].
Proof.
  revert i. induction l as [|a|a b l IH] using pairs_ind; intros i Hi; cbn [pair_steps]; [done|..];
    destruct (Nat.eqb_spec i idx); try lia; destruct (Nat.eqb_spec (S i) idx); try lia; [done|]. apply IH. lia.
Qed.

(** The round adds one step, which combines with the node to the hash above it. *)
Lemma pair_steps_spec i k l v : l !! k = Some v -> exists step sib, pair_steps i (i + k) l = [step] /\
  SiblingHash step = hex_encode sib /\ sib ∈ l /\ next_layer l !! Nat.div2 k = Some (sha256_Sum256 (combine step sib v)).
Proof.
  revert i k. induction l as [|a|a b l IH] using pairs_ind; intros i k Hk; [done|..].
  - apply list_lookup_singleton_Some in Hk as [-> <-]. cbn [pair_steps]. rewrite Nat.add_0_r, Nat.eqb_refl.
    eexists _, a. rewrite list_elem_of_singleton. by split_and!.
  - cbn [pair_steps next_layer]. destruct k as [|[|k]].
    + injection Hk as ->. rewrite Nat.add_0_r, Nat.eqb_refl. eexists _, b. rewrite pair_steps_below by lia.
      split_and!; [done|done|right; left|done].
    + injection Hk as ->. destruct (Nat.eqb_spec i (i + 1)); [lia|]. destruct (Nat.eqb_spec (S i) (i + 1)); [|lia].
      eexists _, a. rewrite pair_steps_below by lia. split_and!; [done|done|left|done].
    + destruct (Nat.eqb_spec i (i + S (S k))); [lia|]. destruct (Nat.eqb_spec (S i) (i + S (S k))); [lia|].
      destruct (IH (S (S i)) k Hk) as (step & sib & E & Es & Hin & En). replace (i + S (S k))%nat with (S (S i) + k)%nat by lia.
      exists step, sib. split_and!; [done|done|by do 2 right|done].
Qed.

Lemma path_verifies fuel l k v : Forall node l -> l !! k = Some v -> (length l <= fuel)%nat ->
  verify_loop v (path_loop fuel l k) = Ok (root_loop fuel l) /\ length (path_loop fuel l k) = Nat.log2_up (length l).
Proof.
  revert l k v. induction fuel as [|fuel IH]; intros l k v Hn Hk Hf; [destruct l; [done|simpl in Hf; lia]|].
  destruct l as [|a [|b l]]; [done|by apply list_lookup_singleton_Some in Hk as [-> <-]|].
  cbn [path_loop root_loop]. destruct (pair_steps_spec 0 k _ v Hk) as (step & sib & E & Es & Hin & En). simpl Nat.add in E.
  rewrite E. cbn [app verify_loop]. rewrite Es, HexTo32_hex by (by eapply (proj1 (Forall_forall _ _) Hn)). cbn [wrap_err res_bind].
  destruct (IH (next_layer (a :: b :: l)) (Nat.div2 k) _ (next_layer_nodes _) En) as [H1 H2].
  { pose proof (next_layer_shorter a b l). lia. }
  split; [exact H1|]. rewrite (depth_step (length (a :: b :: l))) by (simpl; lia). cbn [length]. by rewrite H2, length_next_layer.
Qed.

(** *** Only members have proofs of the right length *)

Lemma member_or_collision fuel l v path : Forall node l -> l <> [] -> (length l <= fuel)%nat -> node v ->
  verify_loop v path = Ok (root_loop fuel l) -> length path = Nat.log2_up (length l) ->
  v ∈ l \/ exists x y, x <> y /\ sha256_Sum256 x = sha256_Sum256 y.
Proof.
  revert l v path. induction fuel as [|fuel IH]; intros l v path Hn Hne Hf Hv E Hlen; [destruct l; [done|simpl in Hf; lia]|].
  destruct l as [|a [|b l]]; [done|destruct path; [|done]; injection E as ->; left; by left|].
  rewrite depth_step in Hlen by (simpl; lia). destruct path as [|step path]; [done|]. injection Hlen as Hlen.
  cbn [verify_loop root_loop] in E. destruct (HexTo32 (SiblingHash step)) as [sib|] eqn:Es; [|done]. cbn [wrap_err res_bind] in E.
  pose proof (HexTo32_length _ _ Es) as Hsib.
  destruct (IH (next_layer (a :: b :: l)) (sha256_Sum256 (combine step sib v)) path) as [Hin|]; try done.
  { apply next_layer_nodes. }
  { pose proof (next_layer_shorter a b l). lia. }
  { apply length_sha256. }
  { by rewrite length_next_layer. }
  2: by right.
  destruct (next_layer_elem _ _ Hin) as (x & y & Hx & Hy & Eh).
  destruct (decide (combine step sib v = x ++ y)) as [Ec|Hdiff]; [|right; by eexists _, _]. left.
  assert (node x) by (by eapply (proj1 (Forall_forall _ _) Hn)). unfold combine, node in *.
  destruct (IsLeft step); apply app_inj_1 in Ec as [-> ->]; try done; congruence.
Qed.

Lemma decode_all_spec cs layer : decode_all cs = Ok layer -> Forall2 (fun c b => HexTo32 c = Ok b) cs layer.
Proof.
  revert layer. induction cs as [|c cs IH]; intros layer E; [injection E as <-; constructor|]. cbn [decode_all] in E.
  destruct (HexTo32 c) as [b|] eqn:Eb; [|done]. cbn [wrap_err res_bind] in E. destruct (decode_all cs) as [bs|]; [|done].
  injection E as <-. constructor; [done|by apply IH].
Qed.
Lemma decode_all_nodes cs layer : decode_all cs = Ok layer -> Forall node layer /\ length layer = length cs.
Proof.
  intros H%decode_all_spec. split; [|symmetry; by eapply Forall2_length]. eapply Forall2_Forall_r; [exact H|].
  apply Forall_true. intros c b Hb. by eapply HexTo32_length.
Qed.


(** *** What a root does not say *)

Lemma next_layer_twin l x : Nat.Even (length l) -> next_layer (l ++ [x]) = next_layer (l ++ [x; x]).
Proof.
  induction l as [|a|a b l IH] using pairs_ind; intros He; [done|by destruct He as [k He]; simpl in He; lia|].
  cbn [app next_layer]. f_equal. apply IH. destruct He as [k He]. exists (pred k). simpl in He. lia.
Qed.

Lemma root_loop_more fuel fuel' l : (length l <= fuel)%nat -> (length l <= fuel')%nat -> root_loop fuel l = root_loop fuel' l.
Proof.
  revert fuel' l. induction fuel as [|fuel IH]; intros fuel' l H1 H2; [destruct l; [by destruct fuel'|simpl in H1; lia]|].
  destruct l as [|a [|b l]]; [by destruct fuel'|by destruct fuel'|]. destruct fuel' as [|fuel']; [simpl in H2; lia|].
  cbn [root_loop]. pose proof (next_layer_shorter a b l). apply IH; lia.
Qed.

(** Neither the number of leaves nor the level of a node is bound by a root: a batch of odd length and
    the batch with its last commitment doubled have the same root, and every inner node of a tree
    passes as a commitment, with a path that is too short. *)
Theorem root_not_binding (l : list bytes) (x : bytes) (Hl : l <> []) (He : Nat.Even (length l)) :
  ComputeRoot (l ++ [x]) = ComputeRoot (l ++ [x; x]) /\
  forall k v, next_layer (l ++ [x]) !! k = Some v ->
    exists path, Verify (hex_encode (ComputeRoot (l ++ [x]))) (hex_encode v) path = Ok tt /\
      (length path < Nat.log2_up (length (l ++ [x])))%nat.
Proof.
  assert (Hr : forall r, exists a b l', l ++ x :: r = a :: b :: l') by (intros r; destruct l as [|a [|b l]]; [done|by eexists _, _, _|by eexists _, _, _]).
  assert (Hroot : forall r, ComputeRoot (l ++ x :: r) = ComputeRoot (next_layer (l ++ x :: r))).
  { intros r. destruct (Hr r) as (a & b & l' & E). rewrite E. unfold ComputeRoot at 1.
    change (root_loop (S (length l')) (next_layer (a :: b :: l')) = ComputeRoot (next_layer (a :: b :: l'))).
    pose proof (next_layer_shorter a b l'). apply root_loop_more; simpl in *; lia. }
  split; [rewrite (Hroot []), (Hroot [x]); by rewrite next_layer_twin|].
  intros k v Hk. set (layer := next_layer (l ++ [x])) in *. pose proof (next_layer_nodes (l ++ [x])) as Hn. fold layer in Hn.
  destruct (path_verifies (length layer) layer k v Hn Hk ltac:(lia)) as [Hv Hlen].
  exists (path_loop (length layer) layer k). unfold Verify.
  rewrite HexTo32_hex by (apply (proj1 (Forall_forall _ _) Hn); by eapply list_elem_of_lookup_2). cbn [wrap_err res_bind].
  rewrite Hv. cbn [res_bind]. rewrite (Hroot []), bool_decide_true by done. split; [done|]. rewrite Hlen.
  unfold layer. rewrite length_next_layer, (depth_step (length (l ++ [x]))); [lia|].
  destruct (Hr []) as (a & b & l' & ->). simpl. lia.
Qed.

Module MerkleWitness.

Definition leaf (n : Z) : bytes := replicate 32 (Z_byte n).
Definition w_batch : list string := hex_encode ∘ leaf <$> [1; 2; 3].
Definition w_proof : MerkleProof :=
  match BuildMerkleProof w_batch 2 with Ok p => p | Err _ => {| Root := ""; Commitment := ""; Index := 0; Path := [] |} end.


Lemma root_not_binding_witness :
  ComputeRoot ([leaf 1; leaf 2] ++ [leaf 3]) = ComputeRoot ([leaf 1; leaf 2] ++ [leaf 3; leaf 3]) /\
  forall k v, next_layer ([leaf 1; leaf 2] ++ [leaf 3]) !! k = Some v ->
    exists path, Verify (hex_encode (ComputeRoot ([leaf 1; leaf 2] ++ [leaf 3]))) (hex_encode v) path = Ok tt /\
      (length path < Nat.log2_up (length ([leaf 1; leaf 2] ++ [leaf 3])))%nat.
Proof.
  pose proof (root_not_binding [leaf 1; leaf 2] (leaf 3)) as Hw. apply Hw; [discriminate|]. exists 1%nat. reflexivity.
Defined.

(** Strings that are not hexadecimal are decoded: a blank or a letter beyond f counts as no digit. *)
Example loose_hex : scan_02x "a" "b" = Some 171 /\ scan_02x "a" "z" = Some 10 /\ scan_02x " " "a" = Some 10 /\ scan_02x "z" "a" = None.
Proof. vm_compute. repeat split. Qed.

End MerkleWitness.
End Merkle.

(** ** Namespaces *)

Module Namespaces.

Definition NamespaceSize : nat := 29.
Definition namespaceV0PrefixSize : nat := 18.
Definition namespaceV0DataSize : nat := 10.

(** A version byte and an array of 28 bytes. *)
Record Namespace := { Version : byte; ID : bytes }.
Definition ns_ok (n : Namespace) : Prop := length (ID n) = 28%nat.

(** Copying into the zeroed array leaves the bytes after the data zero. *)
Definition NewNamespaceV0 (data : bytes) : res Namespace :=
  if (namespaceV0DataSize <? length data)%nat then Err (EMsg "namespace data too long")
  else Ok {| Version := x00;
             ID := replicate namespaceV0PrefixSize x00 ++ data ++ replicate (namespaceV0DataSize - length data) x00 |}.

(** The error is ignored; the data has ten bytes. *)
Definition NamespaceFromString (s : bytes) : option Namespace :=
  match NewNamespaceV0 (take namespaceV0DataSize (sha256_Sum256 s)) with Ok ns => Some ns | Err _ => None end.

Definition TrimPrefix_0x (s : string) : string :=
  match s with String.String "0" (String.String "x" s') => s' | _ => s end.

Definition NamespaceFromHex (hexStr : string) : res Namespace :=
  match hex_decode (TrimPrefix_0x hexStr) with
  | None => Err (EMsg "invalid hex")
  | Some b =>
      if negb (Nat.eqb (length b) NamespaceSize) then Err (EMsg "invalid namespace size")
      else match b with
           | [] => Err (EMsg "invalid namespace size")
           | v :: id =>
               if bool_decide (v = x00) && negb (forallb (fun c => bool_decide (c = x00)) (take namespaceV0PrefixSize id))
               then Err (EMsg "invalid v0 namespace: the first bytes of the ID must be zero")
               else Ok {| Version := v; ID := id |}
           end
  end.

Definition Bytes (n : Namespace) : bytes := Version n :: ID n.
Definition Hex (n : Namespace) : string := String.String "0" (String.String "x" (hex_encode (Bytes n))).
Definition Equal (n other : option Namespace) : bool :=
  match n, other with
  | Some a, Some b => bool_decide (Version a = Version b) && bool_decide (ID a = ID b)
  | None, None => true
  | _, _ => false
  end.

(** Version 0 asks for a zero prefix. *)
Definition standard (n : Namespace) : Prop :=
  Version n = x00 -> take namespaceV0PrefixSize (ID n) = replicate namespaceV0PrefixSize x00.

Lemma forallb_zero l : forallb (fun c => bool_decide (c = x00)) l = true <-> l = replicate (length l) x00.
Proof.
  induction l as [|c l IH]; [done|]. simpl. rewrite andb_true_iff, bool_decide_eq_true, IH.
  split; [by intros [-> <-]|]. intros E. injection E as -> E. by split.
Qed.

Lemma trim_hex n : TrimPrefix_0x (hex_encode (Bytes n)) = hex_encode (Bytes n).
Proof.
  destruct n as [v id]. unfold Bytes. cbn [hex_encode TrimPrefix_0x Version ID]. pose proof (byte_Z_range v) as Hv.
  assert (Hx : hex_digit (byte_Z v mod 16) <> "x"%char).
  { intros E. pose proof (hex_value_digit (byte_Z v mod 16) ltac:(apply Z.mod_pos_bound; lia)) as Hh. by rewrite E in Hh. }
  destruct (hex_digit (byte_Z v / 16)) as [[] [] [] [] [] [] [] []]; try done.
  destruct (hex_digit (byte_Z v mod 16)) as [[] [] [] [] [] [] [] []]; done.
Qed.

Lemma from_hex_exact n h : ns_ok n -> TrimPrefix_0x h = hex_encode (Bytes n) -> NamespaceFromHex h = Ok n <-> standard n.
Proof.
  intros Hm Eh. destruct n as [v id]. unfold ns_ok, standard in *. cbn [ID Version] in *. unfold NamespaceFromHex.
  rewrite Eh, hex_decode_encode. unfold Bytes, NamespaceSize. cbn [Version ID length]. rewrite Hm. cbn [Nat.eqb negb].
  pose proof (forallb_zero (take namespaceV0PrefixSize id)) as Hz. rewrite length_take, Hm in Hz.
  change (namespaceV0PrefixSize `min` 28)%nat with namespaceV0PrefixSize in Hz.
  destruct (bool_decide_reflect (v = x00)) as [->|Hne]; cbn [andb]; [|by split].
  destruct (forallb _ _); cbn [negb]; split; intros HH; try done; [intros _; by apply Hz|].
  specialize (HH eq_refl). apply Hz in HH. done.
Qed.

Lemma new_accepted l : (length l <= namespaceV0DataSize)%nat ->
  exists m, NewNamespaceV0 l = Ok m /\ ns_ok m /\ NamespaceFromHex (Hex m) = Ok m.
Proof.
  intros Hl. unfold NewNamespaceV0. destruct (Nat.ltb_spec namespaceV0DataSize (length l)); [lia|]. eexists. split; [done|].
  set (m := {| Version := _ |}). assert (Hm : ns_ok m).
  { unfold ns_ok. cbn [ID m]. rewrite !length_app, !length_replicate. unfold namespaceV0PrefixSize, namespaceV0DataSize in *. lia. }
  split; [done|]. apply (from_hex_exact m); [done|done|]. intros _. cbn [ID m]. by rewrite take_app_length' by by rewrite length_replicate.
Qed.

(** A namespace survives its printed form, with and without the prefix, exactly if it is standard;
    [NewNamespaceV0] and [NamespaceFromString] only make such namespaces. *)
Theorem namespace_roundtrip (n : Namespace) (data s : bytes) (Hn : ns_ok n) (Hd : (length data <= namespaceV0DataSize)%nat) :
  (NamespaceFromHex (Hex n) = Ok n <-> standard n) /\ (NamespaceFromHex (hex_encode (Bytes n)) = Ok n <-> standard n) /\
  (exists m, NewNamespaceV0 data = Ok m /\ ns_ok m /\ NamespaceFromHex (Hex m) = Ok m) /\
  (exists m, NamespaceFromString s = Some m /\ ns_ok m /\ NamespaceFromHex (Hex m) = Ok m).
Proof.
  split_and!; [by apply from_hex_exact|apply from_hex_exact; [done|apply trim_hex]|by apply new_accepted|].
  unfold NamespaceFromString. destruct (new_accepted (take namespaceV0DataSize (sha256_Sum256 s))) as (m & -> & Hm);
    [rewrite length_take; lia|by exists m].
Qed.

End Namespaces.
