(* ===== verification/CosmosExec.v ===== *)
(** The Cosmos executor (apps/cosmos-exec/executor/executor.go and persist.go): the execution layer
    the node drives. It wraps a Cosmos SDK application, which is third-party code and the class
    [App]; it keeps the mempool, the results of transactions and blocks, and persists its own
    metadata beside the application's database.

    The three files of the persistence directory are modelled by their records: a line that cannot
    be parsed is [None]. Writes to them succeed or fail as the store's list of outcomes says. The
    format of a block's time is a parameter. Queries, simulation and the HTTP types are left out. *)

From S2P Require Import Prelude Sha256 Interfaces Types Store Replay Sdk.

(** ABCI results. *)
Record abci_Attribute := { at_Key : string; at_Value : string }.
Record abci_Event := { ab_Type : string; ab_Attributes : list abci_Attribute }.
Record abci_TxResult := {
  tr_Code : Z; tr_Log : string; tr_Events : list abci_Event; tr_GasUsed : Z; tr_GasWanted : Z }.

Class App (A : Type) := {
  app_SetChainID : string -> A -> A;
  app_DefaultGenesis : A -> bytes;
  (** time, chain id, initial height, genesis *)
  app_InitChain : A -> Z -> string -> Z -> bytes -> A * res bytes;
  (** transactions, height, time, hash *)
  app_FinalizeBlock : A -> list bytes -> Z -> Z -> bytes -> A * res (list abci_TxResult);
  app_Commit : A -> A * res unit;
  app_LastCommitHash : A -> bytes;
  app_LoadVersion : A -> Z -> A * res unit;
  (** the application opened again on its database *)
  app_Reopen : A -> A;
  format_RFC3339 : Z -> string;
}.

Module CosmosExec.

Record BlockInfo := { bi_Height : Z; bi_Time : string; bi_AppHash : string; bi_NumTxs : Z; bi_TxHashes : list string }.
Record TxEventAttribute := { te_Key : string; te_Value : string }.
Record TxEvent := { te_Type : string; te_Attributes : list TxEventAttribute }.
Record TxExecutionResult := {
  xr_Hash : string; xr_Height : Z; xr_Code : Z; xr_Log : string; xr_Events : list TxEvent;
  xr_GasUsed : Z; xr_GasWanted : Z; xr_Bytes : Z }.
Record ChainMetadata := {
  cm_Initialized : bool; cm_ChainID : string; cm_StateRoot : string; cm_LastHeight : Z; cm_FinalizedHeight : Z }.
Definition zero_metadata : ChainMetadata :=
  {| cm_Initialized := false; cm_ChainID := EmptyString; cm_StateRoot := EmptyString; cm_LastHeight := 0; cm_FinalizedHeight := 0 |}.

(** ** Persistence (persist.go) *)

(** The files; [ps_outcomes] are the coming writes: [None] for success, or the error and whether what
    was written is in the file in spite of it (the directory's fsync may fail after the rename).
    Lines torn by a crash are not written by the model; loading skips them. *)
Record PersistStore := {
  ps_metadata : option ChainMetadata;
  ps_txs : list (option TxExecutionResult);
  ps_blocks : list (option BlockInfo);
  ps_outcomes : list (option (err * bool));
}.

Definition next_outcome (p : PersistStore) : option (err * bool) := default None (head (ps_outcomes p)).
(** The next write, which makes [p'] of [p] where it takes place. *)
Definition write_file (p p' : PersistStore) : PersistStore * res unit :=
  let left q := {| ps_metadata := ps_metadata q; ps_txs := ps_txs q; ps_blocks := ps_blocks q; ps_outcomes := tail (ps_outcomes p) |} in
  match next_outcome p with
  | None => (left p', Ok tt)
  | Some (e, done) => (left (if done then p' else p), Err e)
  end.
Definition AppendTxResult (p : PersistStore) (r : TxExecutionResult) : PersistStore * res unit :=
  write_file p {| ps_metadata := ps_metadata p; ps_txs := ps_txs p ++ [Some r]; ps_blocks := ps_blocks p; ps_outcomes := ps_outcomes p |}.
Definition AppendBlock (p : PersistStore) (b : BlockInfo) : PersistStore * res unit :=
  write_file p {| ps_metadata := ps_metadata p; ps_txs := ps_txs p; ps_blocks := ps_blocks p ++ [Some b]; ps_outcomes := ps_outcomes p |}.
(** The rename makes the write atomic. *)
Definition SaveMetadata (p : PersistStore) (m : ChainMetadata) : PersistStore * res unit :=
  let '(p, r) := write_file p {| ps_metadata := Some m; ps_txs := ps_txs p; ps_blocks := ps_blocks p; ps_outcomes := ps_outcomes p |} in
  (p, wrap_err "persist metadata.json" r).

Definition LoadMetadata (p : PersistStore) : ChainMetadata := default zero_metadata (ps_metadata p).
(** A later line replaces an earlier one; lines that cannot be parsed are counted. *)
Definition load_lines {K V} `{Countable K} (key : V -> K) (lines : list (option V)) : gmap K V * Z :=
  foldl (fun '(m, skipped) line => match line with Some v => (<[key v := v]> m, skipped) | None => (m, skipped + 1) end) (∅, 0) lines.
Definition LoadTxResults (p : PersistStore) : gmap string TxExecutionResult * Z := load_lines xr_Hash (ps_txs p).
Definition LoadBlocks (p : PersistStore) : gmap Z BlockInfo * Z := load_lines bi_Height (ps_blocks p).

Definition hexDecode (s : string) : res bytes :=
  if Nat.odd (String.length s) then Err (EMsg "odd hex length")
  else match Merkle.scan_pairs s with Some b => Ok b | None => Err (EMsg "invalid hex") end.

(** [splitLines] cuts at line feeds; a last line need not have one. *)
Fixpoint splitLines (data : bytes) : list bytes :=
  match data with
  | [] => []
  | b :: rest =>
      if bool_decide (b = x0a) then [] :: splitLines rest
      else match splitLines rest with
           | [] => [[b]]
           | l :: ls => (b :: l) :: ls
           end
  end.

Definition toExecTxEvents (events : list abci_Event) : list TxEvent :=
  (fun event => {| te_Type := ab_Type event;
     te_Attributes := (fun a => {| te_Key := at_Key a; te_Value := at_Value a |}) <$> ab_Attributes event |}) <$> events.

(** ** The executor *)

Section executor.
Context {A : Type} `{AP : App A}.

Record CosmosExecutor := {
  x_app : A; initialized : bool; x_chainID : string; stateRoot : bytes; lastHeight : Z; finalizedHeight : Z;
  x_genesis : bytes; mempool : list bytes; txResults : gmap string TxExecutionResult; blocks : gmap Z BlockInfo;
  persistStore : option PersistStore;
}.

Definition set_app (a : A) (e : CosmosExecutor) : CosmosExecutor :=
  {| x_app := a; initialized := initialized e; x_chainID := x_chainID e; stateRoot := stateRoot e; lastHeight := lastHeight e;
     finalizedHeight := finalizedHeight e; x_genesis := x_genesis e; mempool := mempool e; txResults := txResults e;
     blocks := blocks e; persistStore := persistStore e |}.
Definition set_mempool (l : list bytes) (e : CosmosExecutor) : CosmosExecutor :=
  {| x_app := x_app e; initialized := initialized e; x_chainID := x_chainID e; stateRoot := stateRoot e; lastHeight := lastHeight e;
     finalizedHeight := finalizedHeight e; x_genesis := x_genesis e; mempool := l; txResults := txResults e;
     blocks := blocks e; persistStore := persistStore e |}.
Definition set_maps (t : gmap string TxExecutionResult) (b : gmap Z BlockInfo) (e : CosmosExecutor) : CosmosExecutor :=
  {| x_app := x_app e; initialized := initialized e; x_chainID := x_chainID e; stateRoot := stateRoot e; lastHeight := lastHeight e;
     finalizedHeight := finalizedHeight e; x_genesis := x_genesis e; mempool := mempool e; txResults := t;
     blocks := b; persistStore := persistStore e |}.
Definition set_persist (p : option PersistStore) (e : CosmosExecutor) : CosmosExecutor :=
  {| x_app := x_app e; initialized := initialized e; x_chainID := x_chainID e; stateRoot := stateRoot e; lastHeight := lastHeight e;
     finalizedHeight := finalizedHeight e; x_genesis := x_genesis e; mempool := mempool e; txResults := txResults e;
     blocks := blocks e; persistStore := p |}.
Definition set_chain (init : bool) (id : string) (root : bytes) (h final : Z) (e : CosmosExecutor) : CosmosExecutor :=
  {| x_app := x_app e; initialized := init; x_chainID := id; stateRoot := root; lastHeight := h;
     finalizedHeight := final; x_genesis := x_genesis e; mempool := mempool e; txResults := txResults e;
     blocks := blocks e; persistStore := persistStore e |}.

(** [New] without options. *)
Definition New (a : A) : CosmosExecutor := {|
  x_app := a; initialized := false; x_chainID := EmptyString; stateRoot := []; lastHeight := 0; finalizedHeight := 0;
  x_genesis := []; mempool := []; txResults := ∅; blocks := ∅; persistStore := None |}.
Definition WithGenesis (genesis : bytes) (e : CosmosExecutor) : CosmosExecutor :=
  if 0 <? blen genesis then {| x_app := x_app e; initialized := initialized e; x_chainID := x_chainID e; stateRoot := stateRoot e;
    lastHeight := lastHeight e; finalizedHeight := finalizedHeight e; x_genesis := genesis; mempool := mempool e;
    txResults := txResults e; blocks := blocks e; persistStore := persistStore e |}
  else e.

(** [WithPersistence] on files that can be read; the error is the one stored in [initErr]. *)
Definition WithPersistence (p : PersistStore) (e : CosmosExecutor) : CosmosExecutor * res unit :=
  let e := set_persist (Some p) e in
  let meta := LoadMetadata p in
  let '(e, failed) :=
    if cm_Initialized meta then
      let e := set_chain true (cm_ChainID meta) (stateRoot e) (cm_LastHeight meta) (cm_FinalizedHeight meta) e in
      let e := if bool_decide (cm_ChainID meta = EmptyString) then e else set_app (app_SetChainID (cm_ChainID meta) (x_app e)) e in
      if bool_decide (cm_StateRoot meta = EmptyString) then (e, None)
      else match hexDecode (cm_StateRoot meta) with
           | Ok root => (set_chain true (x_chainID e) root (lastHeight e) (finalizedHeight e) e, None)
           | Err er => (e, Some (EWrap "decode persisted state root" er))
           end
    else (e, None) in
  match failed with
  | Some er => (e, Err er)
  | None =>
      let e := set_maps ((LoadTxResults p).1 ∪ txResults e) (blocks e) e in
      let bs := (LoadBlocks p).1 in
      let e := set_maps (txResults e) (bs ∪ blocks e) e in
      (set_chain (initialized e) (x_chainID e) (stateRoot e) (map_fold (fun h _ top => Z.max h top) (lastHeight e) bs)
         (finalizedHeight e) e, Ok tt)
  end.

Definition metadata_of (e : CosmosExecutor) : ChainMetadata := {|
  cm_Initialized := initialized e; cm_ChainID := x_chainID e; cm_StateRoot := hex_encode (stateRoot e);
  cm_LastHeight := lastHeight e; cm_FinalizedHeight := finalizedHeight e |}.
Definition saveMetadataLocked (e : CosmosExecutor) : CosmosExecutor * res unit :=
  match persistStore e with
  | None => (e, Ok tt)
  | Some p => let '(p, r) := SaveMetadata p (metadata_of e) in (set_persist (Some p) e, r)
  end.

Definition InitChain (ctxErr : option err) (genesisTime initialHeight : Z) (chainID : string) (e : CosmosExecutor)
  : CosmosExecutor * res bytes :=
  match ctxErr with
  | Some er => (e, Err er)
  | None =>
      if initialHeight =? 0 then (e, Err (EMsg "initial height must be > 0"))
      else if bool_decide (chainID = EmptyString) then (e, Err (EMsg "chain id is required"))
      else if initialized e then
        (e, if bool_decide (x_chainID e = chainID) then Ok (stateRoot e) else Err (EMsg "executor already initialized"))
      else
        let a := app_SetChainID chainID (x_app e) in
        let genesis := if blen (x_genesis e) =? 0 then app_DefaultGenesis a else x_genesis e in
        match app_InitChain a genesisTime chainID (i64 initialHeight) genesis with
        | (a, Err er) => (set_app a e, Err (EWrap "init chain" er))
        | (a, Ok appHash) =>
            let '(a, r) := if blen appHash =? 0
                           then match app_Commit a with
                                | (a, Err er) => (a, Err (EWrap "commit after init chain" er))
                                | (a, Ok _) => (a, Ok (app_LastCommitHash a))
                                end
                           else (a, Ok appHash) in
            let e := set_app a e in
            match r with
            | Err er => (e, Err er)
            | Ok root =>
                let e := set_chain true chainID root (initialHeight -u 1) (finalizedHeight e) e in
                match saveMetadataLocked e with
                | (e, Err er) => (e, Err (EWrap "persist metadata after InitChain" er))
                | (e, Ok _) => (e, Ok (stateRoot e))
                end
            end
        end
  end.

(** Takes the whole mempool. *)
Definition GetTxs (ctxErr : option err) (e : CosmosExecutor) : CosmosExecutor * res (list bytes) :=
  match ctxErr with
  | Some er => (e, Err er)
  | None => if blen (mempool e) =? 0 then (e, Ok []) else (set_mempool [] e, Ok (mempool e))
  end.

Definition hashTx (tx : bytes) : string := hex_encode (sha256_Sum256 tx).
Definition safeUint64 (v : Z) : Z := if v <? 0 then 0 else v.

(** The results of the block's transactions, recorded one by one; [validTxs] may be shorter. *)
Fixpoint record_results (blockHeight : Z) (results : list abci_TxResult) (validTxs : list bytes) (e : CosmosExecutor)
  : CosmosExecutor * res (list string) :=
  match results, validTxs with
  | r :: results, tx :: validTxs =>
      let result := {| xr_Hash := hashTx tx; xr_Height := blockHeight; xr_Code := tr_Code r; xr_Log := tr_Log r;
                       xr_Events := toExecTxEvents (tr_Events r); xr_GasUsed := safeUint64 (tr_GasUsed r);
                       xr_GasWanted := safeUint64 (tr_GasWanted r); xr_Bytes := blen tx |} in
      let e := set_maps (<[hashTx tx := result]> (txResults e)) (blocks e) e in
      let '(e, w) := match persistStore e with
                     | None => (e, Ok tt)
                     | Some p => let '(p, w) := AppendTxResult p result in (set_persist (Some p) e, w)
                     end in
      match w with
      | Err er => (e, Err (EWrap "persist tx result" er))
      | Ok _ =>
          let '(e, hs) := record_results blockHeight results validTxs e in
          (e, let? hashes := hs in Ok (hashTx tx :: hashes))
      end
  | _, _ => (e, Ok [])
  end.

(** From the commit of the application on. *)
Definition finish_block (blockHeight timestamp numTxs : Z) (txHashes : list string) (e : CosmosExecutor)
  : CosmosExecutor * res bytes :=
  match app_Commit (x_app e) with
  | (a, Err er) => (set_app a e, Err (EWrap "commit" er))
  | (a, Ok _) =>
      let e := set_app a e in
      let e := set_chain (initialized e) (x_chainID e) (app_LastCommitHash a) blockHeight (finalizedHeight e) e in
      let info := {| bi_Height := blockHeight; bi_Time := format_RFC3339 timestamp; bi_AppHash := hex_encode (stateRoot e);
                     bi_NumTxs := numTxs; bi_TxHashes := txHashes |} in
      let e := set_maps (txResults e) (<[blockHeight := info]> (blocks e)) e in
      let '(e, w) := match persistStore e with
                     | None => (e, Ok tt)
                     | Some p => let '(p, w) := AppendBlock p info in (set_persist (Some p) e, w)
                     end in
      match w with
      | Err er => (e, Err (EWrap "persist block" er))
      | Ok _ =>
          match saveMetadataLocked e with
          | (e, Err er) => (e, Err (EWrap "persist metadata after ExecuteTxs" er))
          | (e, Ok _) => (e, Ok (stateRoot e))
          end
      end
  end.

Definition ExecuteTxs (ctxErr : option err) (txs : list bytes) (blockHeight timestamp : Z) (prevStateRoot : bytes)
  (e : CosmosExecutor) : CosmosExecutor * res bytes :=
  match ctxErr with
  | Some er => (e, Err er)
  | None =>
      if blockHeight =? 0 then (e, Err (EMsg "block height must be > 0"))
      else if negb (initialized e) then (e, Err (EMsg "executor not initialized"))
      else if negb (bool_decide (stateRoot e = prevStateRoot)) then (e, Err (EMsg "prev state root mismatch"))
      else if negb (blockHeight =? lastHeight e +u 1) then (e, Err (EMsg "unexpected block height"))
      else
        let validTxs := filter (fun tx => 0 < blen tx) txs in
        match app_FinalizeBlock (x_app e) validTxs (i64 blockHeight) timestamp prevStateRoot with
        | (a, Err er) => (set_app a e, Err (EWrap "finalize block" er))
        | (a, Ok results) =>
            match record_results blockHeight results validTxs (set_app a e) with
            | (e, Err er) => (e, Err er)
            | (e, Ok txHashes) => finish_block blockHeight timestamp (blen txs) txHashes e
            end
        end
  end.

Definition InjectTx (ctxErr : option err) (tx : bytes) (e : CosmosExecutor) : CosmosExecutor * res string :=
  match ctxErr with
  | Some er => (e, Err er)
  | None => if blen tx =? 0 then (e, Err (EMsg "tx cannot be empty")) else (set_mempool (mempool e ++ [tx]) e, Ok (hashTx tx))
  end.

Definition SetFinal (ctxErr : option err) (blockHeight : Z) (e : CosmosExecutor) : CosmosExecutor * res unit :=
  match ctxErr with
  | Some er => (e, Err er)
  | None =>
      if lastHeight e <? blockHeight then (e, Err (EMsg "cannot finalize future block"))
      else
        let final := if finalizedHeight e <? blockHeight then blockHeight else finalizedHeight e in
        let e := set_chain (initialized e) (x_chainID e) (stateRoot e) (lastHeight e) final e in
        let '(e, r) := saveMetadataLocked e in (e, wrap_err "persist metadata after SetFinal" r)
  end.

Record StatusInfo := {
  si_Initialized : bool; si_ChainID : string; si_LatestHeight : Z; si_FinalizedHeight : Z; si_Healthy : bool; si_Synced : bool }.
Definition GetStatus (ctxErr : option err) (e : CosmosExecutor) : res StatusInfo :=
  match ctxErr with
  | Some er => Err er
  | None => Ok {| si_Initialized := initialized e; si_ChainID := x_chainID e; si_LatestHeight := lastHeight e;
                  si_FinalizedHeight := finalizedHeight e; si_Healthy := true;
                  si_Synced := (lastHeight e <=? finalizedHeight e) || (lastHeight e =? 0) |}
  end.
Definition GetBlock (ctxErr : option err) (height : Z) (e : CosmosExecutor) : res (option BlockInfo) :=
  match ctxErr with Some er => Err er | None => Ok (blocks e !! height) end.
Definition GetLatestBlock (ctxErr : option err) (e : CosmosExecutor) : res (option BlockInfo) :=
  match ctxErr with
  | Some er => Err er
  | None => Ok (if lastHeight e =? 0 then None else blocks e !! lastHeight e)
  end.
Definition GetPendingTxCount (ctxErr : option err) (e : CosmosExecutor) : res Z :=
  match ctxErr with Some er => Err er | None => Ok (blen (mempool e)) end.
Definition GetLatestHeight (ctxErr : option err) (e : CosmosExecutor) : res Z :=
  match ctxErr with Some er => Err er | None => Ok (lastHeight e) end.

Definition Rollback (ctxErr : option err) (targetHeight : Z) (e : CosmosExecutor) : CosmosExecutor * res unit :=
  match ctxErr with
  | Some er => (e, Err er)
  | None =>
      if lastHeight e <? targetHeight then (e, Err (EMsg "cannot rollback to future height"))
      else if targetHeight =? lastHeight e then (e, Ok tt)
      else
        match app_LoadVersion (x_app e) (i64 targetHeight) with
        | (a, Err er) => (set_app a e, Err (EWrap "load version" er))
        | (a, Ok _) =>
            let e := set_app a e in
            let e := set_maps (filter (fun kv => xr_Height kv.2 <= targetHeight) (txResults e))
                       (filter (fun kv => kv.1 <= targetHeight) (blocks e)) e in
            let e := set_chain (initialized e) (x_chainID e) (app_LastCommitHash a) targetHeight
                       (Z.min (finalizedHeight e) targetHeight) e in
            let '(e, r) := saveMetadataLocked e in (e, wrap_err "persist metadata after rollback" r)
        end
  end.

(** Only the maps in memory are pruned. *)
Definition PruneExec (ctxErr : option err) (height : Z) (e : CosmosExecutor) : CosmosExecutor * res unit :=
  match ctxErr with
  | Some er => (e, Err er)
  | None => (set_maps (filter (fun kv => height < xr_Height kv.2) (txResults e)) (filter (fun kv => height < kv.1) (blocks e)) e, Ok tt)
  end.

(** The executor behind the node's interface, with its optional parts. *)
#[export] Instance Cosmos_CoreExecutor : CoreExecutor CosmosExecutor := {|
  exec_InitChain := fun e time height id => InitChain None time height id e;
  exec_ExecuteTxs := fun e txs height time root => ExecuteTxs None txs height time root e;
  exec_SetFinal := fun e height => SetFinal None height e;
  exec_GetLatestHeight := Some (fun e => (e, GetLatestHeight None e));
  exec_Rollback := Some (fun e height => Rollback None height e) |}.

(** A new process on the same directories. *)
Definition restart (p : PersistStore) (a : A) : CosmosExecutor * res unit := WithPersistence p (New (app_Reopen a)).

(** The calls of a node and of its clients, and restarts between them. Rollbacks are left out: see
    [rollback_is_forgotten]. *)
Inductive op :=
  | OInitChain (ctxErr : option err) (genesisTime initialHeight : Z) (chainID : string)
  | OGetTxs (ctxErr : option err)
  | OExecuteTxs (ctxErr : option err) (txs : list bytes) (blockHeight timestamp : Z) (prevStateRoot : bytes)
  | OInjectTx (ctxErr : option err) (tx : bytes)
  | OSetFinal (ctxErr : option err) (blockHeight : Z)
  | OPruneExec (ctxErr : option err) (height : Z)
  | ORestart.
(** Heights are of type uint64. *)
Definition op_ok (o : op) : Prop :=
  match o with
  | OInitChain _ _ h _ | OExecuteTxs _ _ h _ _ | OSetFinal _ h | OPruneExec _ h => is_u64 h
  | _ => True
  end.
Definition run_op (o : op) (e : CosmosExecutor) : CosmosExecutor :=
  match o with
  | OInitChain c t h id => (InitChain c t h id e).1
  | OGetTxs c => (GetTxs c e).1
  | OExecuteTxs c txs h ts root => (ExecuteTxs c txs h ts root e).1
  | OInjectTx c tx => (InjectTx c tx e).1
  | OSetFinal c h => (SetFinal c h e).1
  | OPruneExec c h => (PruneExec c h e).1
  | ORestart => match persistStore e with Some p => (restart p (x_app e)).1 | None => New (app_Reopen (x_app e)) end
  end.
Definition run_ops (ops : list op) (e : CosmosExecutor) : CosmosExecutor := foldl (fun e o => run_op o e) e ops.

(** What the files hold of an executor, the metadata apart. *)
Record kept (e : CosmosExecutor) (p : PersistStore) : Prop := {
  kp_store : persistStore e = Some p;
  kp_healthy : Forall (fun o => o = None) (ps_outcomes p);
  kp_txs : txResults e ⊆ (LoadTxResults p).1;
  kp_blocks : blocks e ⊆ (LoadBlocks p).1;
  kp_top : forall h b, (LoadBlocks p).1 !! h = Some b -> h <= lastHeight e;
  kp_range : is_u64 (lastHeight e);
  kp_fresh : initialized e = false -> x_chainID e = EmptyString /\ stateRoot e = [] /\ lastHeight e = 0 /\ finalizedHeight e = 0;
}.
Definition durable (e : CosmosExecutor) (p : PersistStore) : Prop := kept e p /\ LoadMetadata p = metadata_of e.

Lemma load_lines_app {K V} `{Countable K} (key : V -> K) lines v :
  (load_lines key (lines ++ [Some v])).1 = <[key v := v]> (load_lines key lines).1.
Proof. unfold load_lines. rewrite foldl_app. simpl. by destruct (foldl _ _ lines). Qed.

Lemma healthy_next p : Forall (fun o => o = None) (ps_outcomes p) ->
  next_outcome p = None /\ Forall (fun o => o = None) (tail (ps_outcomes p)).
Proof. unfold next_outcome. destruct (ps_outcomes p); simpl; [done|]. by intros [-> ?]%Forall_cons. Qed.

Lemma save_spec e p : kept e p -> exists p', saveMetadataLocked e = (set_persist (Some p') e, Ok tt) /\
  durable (set_persist (Some p') e) p' /\ ps_txs p' = ps_txs p /\ ps_blocks p' = ps_blocks p.
Proof.
  intros [Hp Hh Ht Hb Htop Hr Hf]. destruct (healthy_next _ Hh) as [En Hh'].
  unfold saveMetadataLocked, SaveMetadata, write_file. rewrite Hp, En. eexists. split; [done|]. by split.
Qed.

Lemma record_spec h results validTxs e p : durable e p -> exists e' hashes p',
  record_results h results validTxs e = (e', Ok hashes) /\ durable e' p' /\ x_app e' = x_app e /\ mempool e' = mempool e /\
  metadata_of e' = metadata_of e /\ stateRoot e' = stateRoot e /\ blocks e' = blocks e /\
  hashes = hashTx <$> take (length results) validTxs.
Proof.
  revert validTxs e p. induction results as [|r results IH]; intros validTxs e p Hd; [by eexists _, _, _|].
  destruct validTxs as [|tx validTxs]; [by eexists _, _, _|].
  destruct Hd as [[Hp Hh Ht Hb Htop Hr Hf] Hm]. destruct (healthy_next _ Hh) as [En Hh'].
  cbn [record_results]. simpl persistStore. rewrite Hp. unfold AppendTxResult, write_file. rewrite En.
  match goal with |- context [record_results h results validTxs ?e1] =>
    destruct (IH validTxs e1 (default p (persistStore e1))) as (e' & hs & p' & -> & Hd' & Ha & Hmp & Hme & Hs & Hbl & ->) end.
  { split; [|done]. split; [done|done| |done|done|done|done]. unfold LoadTxResults. simpl. rewrite load_lines_app. by apply insert_mono. }
  by eexists _, _, _.
Qed.

(** Nothing but the application changed. *)
Lemma durable_app a e p : durable e p -> durable (set_app a e) p.
Proof. by intros [[] ?]. Qed.

Lemma durable_mempool l e p : durable e p -> durable (set_mempool l e) p.
Proof. by intros [[] ?]. Qed.

Lemma InitChain_durable c t h id e p : is_u64 h -> durable e p -> exists p', durable (InitChain c t h id e).1 p'.
Proof.
  intros Hh Hd. unfold InitChain. destruct c; [by exists p|]. destruct (Z.eqb_spec h 0); [by exists p|].
  case_bool_decide; [by exists p|]. destruct (initialized e) eqn:Ei; [by exists p|].
  destruct (app_InitChain _ _ _ _ _) as [a [hash|er]]; [|exists p; by apply durable_app].
  destruct (if blen hash =? 0 then _ else _) as [a' [root|er]]; [|exists p; by apply durable_app].
  match goal with |- context [saveMetadataLocked ?e1] => assert (Hk : kept e1 p) end.
  { destruct Hd as [[Hp Hl Ht Hb Htop Hr Hf] _]. destruct (Hf Ei) as (_ & _ & H0 & _).
    assert (Hu : h -u 1 = h - 1) by (apply u64_small; unfold is_u64 in *; lia).
    split; simpl; try done; [intros h' b Hb'; specialize (Htop h' b Hb')|]; rewrite Hu; unfold is_u64 in *; lia. }
  destruct (save_spec _ _ Hk) as (p' & -> & Hd' & _). by exists p'.
Qed.

Lemma finish_durable h ts n hashes e p : durable e p -> initialized e = true -> h = lastHeight e + 1 -> is_u64 h ->
  exists p', durable (finish_block h ts n hashes e).1 p'.
Proof.
  intros [[Hp Hh Ht Hb Htop Hr Hf] Hm] Hi -> Hu. unfold finish_block.
  destruct (app_Commit (x_app e)) as [a [[]|er]]; [|by exists p].
  simpl persistStore. rewrite Hp. destruct (healthy_next _ Hh) as [En Hh']. unfold AppendBlock, write_file. rewrite En.
  match goal with |- context [saveMetadataLocked ?e1] => assert (Hk : kept e1 (default p (persistStore e1))) end.
  { split; simpl; try done; unfold LoadBlocks; simpl; rewrite ?load_lines_app.
    - by apply insert_mono.
    - intros h' b. simpl. intros [[<- _]|[_ E]]%lookup_insert_Some; [lia|]. specialize (Htop _ _ E). lia.
    - by rewrite Hi. }
  destruct (save_spec _ _ Hk) as (p' & -> & Hd' & _). by exists p'.
Qed.

Lemma ExecuteTxs_durable c txs h ts root e p : is_u64 h -> durable e p -> exists p', durable (ExecuteTxs c txs h ts root e).1 p'.
Proof.
  intros Hh Hd. unfold ExecuteTxs. destruct c; [by exists p|]. destruct (Z.eqb_spec h 0) as [|H0]; [by exists p|].
  destruct (initialized e) eqn:Ei; simpl; [|by exists p]. case_bool_decide; simpl; [|by exists p].
  destruct (Z.eqb_spec h (lastHeight e +u 1)) as [Eh|]; simpl; [|by exists p].
  destruct (app_FinalizeBlock _ _ _ _ _) as [a [results|er]]; [|exists p; by apply durable_app].
  destruct (record_spec h results (filter (fun tx => 0 < blen tx) txs) (set_app a e) p (durable_app a e p Hd))
    as (e' & hs & p' & -> & Hd' & _ & _ & Hm & _). unfold metadata_of in Hm. simpl in Hm. simplify_eq.
  apply (finish_durable _ _ _ _ _ p'); [done|congruence| |done]. destruct Hd as [[] _]. unfold u64, is_u64 in *.
  destruct (Z.eq_dec (lastHeight e) (two64 - 1)) as [E|]; [rewrite E in *; by vm_compute in H0|].
  rewrite Z.mod_small by lia. lia.
Qed.

Lemma SetFinal_durable c h e p : is_u64 h -> durable e p -> exists p', durable (SetFinal c h e).1 p'.
Proof.
  intros Hh Hd. unfold SetFinal. destruct c; [by exists p|]. destruct (Z.ltb_spec (lastHeight e) h); [by exists p|].
  match goal with |- context [saveMetadataLocked ?e1] => assert (Hk : kept e1 p) end.
  { destruct Hd as [[Hp Hl Ht Hb Htop Hr Hf] _]. split; simpl; try done. intros Hi. destruct (Hf Hi) as (? & ? & ? & ?).
    destruct (Z.ltb_spec (finalizedHeight e) h); repeat split; try done. lia. }
  destruct (save_spec _ _ Hk) as (p' & -> & Hd' & _). by exists p'.
Qed.

Lemma PruneExec_durable c h e p : durable e p -> durable (PruneExec c h e).1 p.
Proof.
  intros [[Hp Hl Ht Hb Htop Hr Hf] Hm]. unfold PruneExec. destruct c; [done|]. split; [|done]. split; simpl; try done.
  - etrans; [apply map_filter_subseteq|done].
  - etrans; [apply map_filter_subseteq|done].
Qed.

(** The replay of the block log ends at the highest height of the log or of the metadata. *)
Definition log_top (bs : gmap Z BlockInfo) (top : Z) : Z := map_fold (fun h _ top => Z.max h top) top bs.
Lemma log_top_spec bs top : top <= log_top bs top /\ (forall h b, bs !! h = Some b -> h <= log_top bs top) /\
  (log_top bs top = top \/ exists b, bs !! log_top bs top = Some b).
Proof.
  unfold log_top. apply (map_fold_weak_ind (fun r m => top <= r /\ (forall h b, m !! h = Some b -> h <= r) /\
    (r = top \/ exists b, m !! r = Some b))); [naive_solver lia|].
  intros h x m r Hn (Ht & Hall & Hor). split_and!; [lia| |].
  - intros h' b. intros [[<- _]|[_ E]]%lookup_insert_Some; [lia|]. specialize (Hall _ _ E). lia.
  - destruct (Z.max_spec h r) as [[Hlt ->]|[Hle ->]].
    + destruct Hor as [|[b E]]; [by left|]. right. exists b. rewrite lookup_insert_ne; [done|lia].
    + right. exists x. by rewrite lookup_insert_eq.
Qed.

Lemma hexDecode_hex b : hexDecode (hex_encode b) = Ok b.
Proof.
  unfold hexDecode. rewrite Merkle.scan_pairs_hex. replace (Nat.odd _) with false; [done|].
  symmetry. induction b as [|x b IH]; [done|]. by cbn [hex_encode String.length Nat.odd] in *.
Qed.

(** What a new process reads back from files with saved metadata. *)
Lemma restart_spec p a m root : LoadMetadata p = m -> cm_StateRoot m = hex_encode root ->
  (cm_Initialized m = false -> cm_ChainID m = EmptyString /\ root = [] /\ cm_LastHeight m = 0 /\ cm_FinalizedHeight m = 0) ->
  exists e', restart p a = (e', Ok tt) /\ persistStore e' = Some p /\ initialized e' = cm_Initialized m /\
    x_chainID e' = cm_ChainID m /\ stateRoot e' = root /\ finalizedHeight e' = cm_FinalizedHeight m /\ mempool e' = [] /\
    lastHeight e' = log_top (LoadBlocks p).1 (cm_LastHeight m) /\
    txResults e' = (LoadTxResults p).1 /\ blocks e' = (LoadBlocks p).1.
Proof.
  intros Em Er Hf. unfold restart, WithPersistence. rewrite Em, Er. destruct (cm_Initialized m) eqn:Ei.
  - destruct root as [|x root].
    + rewrite bool_decide_eq_true_2 by done. case_bool_decide; eexists; simpl; rewrite !(right_id_L ∅ (∪)); done.
    + rewrite (bool_decide_eq_false_2 (hex_encode (x :: root) = EmptyString)) by done. rewrite hexDecode_hex.
      case_bool_decide; eexists; simpl; rewrite !(right_id_L ∅ (∪)); done.
  - destruct (Hf eq_refl) as (-> & -> & -> & ->). eexists. simpl. by rewrite !(right_id_L ∅ (∪)).
Qed.

Definition same_chain (e e' : CosmosExecutor) : Prop :=
  initialized e' = initialized e /\ x_chainID e' = x_chainID e /\ stateRoot e' = stateRoot e /\
  lastHeight e' = lastHeight e /\ finalizedHeight e' = finalizedHeight e.

Lemma restart_durable e p : durable e p -> exists e', restart p (x_app e) = (e', Ok tt) /\ same_chain e e' /\
  durable e' p /\ txResults e ⊆ txResults e' /\ blocks e ⊆ blocks e'.
Proof.
  intros [[Hp Hl Ht Hb Htop Hr Hf] Hm].
  destruct (restart_spec p (x_app e) _ (stateRoot e) Hm eq_refl Hf) as (e' & E & Hp' & Hi & Hc & Hs & Hfi & _ & Hla & Htx & Hbl).
  assert (El : lastHeight e' = lastHeight e).
  { rewrite Hla. simpl. destruct (log_top_spec (LoadBlocks p).1 (lastHeight e)) as (Hle & _ & [E'|[b Eb]]); [done|].
    apply Htop in Eb. lia. }
  simpl in *. exists e'. split; [done|]. split; [done|]. split; [|by rewrite Htx, Hbl].
  split; [|by rewrite Hm; unfold metadata_of; rewrite Hi, Hc, Hs, Hfi, El].
  split; rewrite ?Htx, ?Hbl, ?El, ?Hi, ?Hc, ?Hs, ?Hfi; done.
Qed.

Lemma run_op_durable o e p : op_ok o -> durable e p -> exists p', durable (run_op o e) p'.
Proof.
  intros Ho Hd. destruct o as [c t h id|c|c txs h ts root|c tx|c h|c h|]; simpl in *.
  - by eapply InitChain_durable.
  - exists p. unfold GetTxs. destruct c; [done|]. case_match; [done|by apply durable_mempool].
  - by eapply ExecuteTxs_durable.
  - exists p. unfold InjectTx. destruct c; [done|]. case_match; [done|by apply durable_mempool].
  - by eapply SetFinal_durable.
  - exists p. by apply PruneExec_durable.
  - exists p. rewrite (kp_store _ _ (proj1 Hd)). by destruct (restart_durable _ _ Hd) as (e' & -> & _ & ? & _).
Qed.

(** The files of a new node, on a disk without faults. *)
Definition empty_store : PersistStore := {| ps_metadata := None; ps_txs := []; ps_blocks := []; ps_outcomes := [] |}.


Section rollback.
(** The node's side, for the replayer. *)
Context {D B K : Type} `{Datastore D} `{Batching D B} `{PubKeys K} `{Protowire} `{HashString}.
Context `{ProtoCodec pb_Version} `{ProtoCodec pb_Header} `{ProtoCodec pb_SignedHeader} `{ProtoCodec pb_Data}
  `{ProtoCodec pb_State}.

Lemma sync_ahead g t e (s : D) : g_InitialHeight g <= t -> t < lastHeight e ->
  Replay.SyncToHeight (B := B) (K := K) g t (e, s) =
  let '(e', r) := Rollback None t e in ((e', s), wrap_err "failed to rollback execution layer" r).
Proof.
  intros Hg Ht. unfold Replay.SyncToHeight. cbn -[Rollback]. destruct (Z.ltb_spec t (g_InitialHeight g)) as [|_]; [lia|].
  unfold Store.bm_bind, Store.bm_wrap, on_world. cbn -[Rollback]. destruct (Z.ltb_spec t (lastHeight e)) as [_|]; [|lia].
  cbn -[Rollback]. by destruct (Rollback None t e).
Qed.

(** A restart after a rollback. A rollback to [t] reaches [t], with the root of the version the
    application loads, but leaves the lines of the discarded blocks in the block log. A new process
    on the same files takes the root of the rollback and the height of the log: it is at the old
    height again, reports the discarded block as its latest one, and refuses every block [t + 1].
    The replayer, which the node runs at start, answers this with another rollback. *)
Theorem rollback_is_forgotten (e : CosmosExecutor) (p : PersistStore) (b : BlockInfo) (t : Z) (a : A)
  (Hd : durable e p) (Hi : initialized e = true) (Hlog : (LoadBlocks p).1 !! lastHeight e = Some b)
  (Ht : 0 <= t < lastHeight e) (Hv : app_LoadVersion (x_app e) (i64 t) = (a, Ok tt)) :
  exists e' p' e'', Rollback None t e = (e', Ok tt) /\ lastHeight e' = t /\ stateRoot e' = app_LastCommitHash a /\
    persistStore e' = Some p' /\ restart p' (x_app e') = (e'', Ok tt) /\
    stateRoot e'' = stateRoot e' /\ lastHeight e'' = lastHeight e /\ GetLatestBlock None e'' = Ok (Some b) /\
    (forall txs ts root, exists er, ExecuteTxs None txs (t + 1) ts root e'' = (e'', Err er)) /\
    forall g (s : D), g_InitialHeight g <= t ->
      Replay.SyncToHeight (B := B) (K := K) g t (e'', s) =
      let '(e3, r) := Rollback None t e'' in ((e3, s), wrap_err "failed to rollback execution layer" r).
Proof.
  destruct Hd as [[Hp Hl Htx Hb Htop Hr Hf] Hm]. destruct (healthy_next _ Hl) as [En _].
  unfold Rollback at 1. destruct (Z.ltb_spec (lastHeight e) t) as [|_]; [lia|]. destruct (Z.eqb_spec t (lastHeight e)) as [|_]; [lia|].
  rewrite Hv. unfold saveMetadataLocked. simpl persistStore. rewrite Hp. unfold SaveMetadata, write_file. rewrite En.
  match goal with |- context [set_persist (Some ?q) ?e1] =>
    destruct (restart_spec q a (metadata_of e1) (app_LastCommitHash a)) as (e'' & E & _ & _ & _ & Hs & _ & _ & Hla & _ & Hbl) end;
    [done|done|by simpl; rewrite Hi|].
  assert (El : lastHeight e'' = lastHeight e).
  { rewrite Hla. simpl. unfold LoadBlocks in *. simpl in *.
    destruct (log_top_spec (load_lines bi_Height (ps_blocks p)).1 t) as (_ & Hge & [E'|[x Ex]]);
      specialize (Hge _ _ Hlog); [lia|]. apply Htop in Ex. lia. }
  eexists _, _, e''. split; [done|]. split; [done|]. split; [done|]. split; [done|]. split; [exact E|]. split; [done|]. split; [done|].
  assert (Hneg : lastHeight e'' +u 1 <> t + 1).
  { rewrite El. unfold u64, is_u64 in *. destruct (Z.eq_dec (lastHeight e) (two64 - 1)) as [->|];
      [vm_compute (_ mod _); lia|rewrite Z.mod_small; lia]. }
  split; [|split].
  - unfold GetLatestBlock. rewrite El, Hbl. destruct (Z.eqb_spec (lastHeight e) 0); [lia|]. exact (f_equal Ok Hlog).
  - intros txs ts root. unfold ExecuteTxs. destruct (Z.eqb_spec (t + 1) 0); [lia|]. destruct (initialized e''); [|by eexists].
    simpl. case_bool_decide; simpl; [|by eexists]. destruct (Z.eqb_spec (t + 1) (lastHeight e'' +u 1)); [congruence|by eexists].
  - intros g s Hg. apply sync_ahead; [done|lia].
Qed.

End rollback.

(** The chain is by the recording of results, whether it fails or not. *)
Lemma record_keeps h results validTxs e : same_chain e (record_results h results validTxs e).1.
Proof.
  revert validTxs e. induction results as [|r results IH]; intros [|tx validTxs] e; try done.
  cbn [record_results]. simpl persistStore.
  destruct (persistStore e) as [p|]; [destruct (AppendTxResult p _) as [p' [[]|er]]|]; try done;
    match goal with |- context [record_results h results validTxs ?e1] => specialize (IH validTxs e1) end;
    by destruct (record_results h results validTxs _).
Qed.

(** C25: A block that fails. Either the executor is at the chain it was at, and the call can be made
    again; or the application has committed the block and a file could not be written after that:
    then the executor is at the block's height in spite of the error, and every further call for
    that height is refused, whatever its transactions, time and root. *)
Theorem ExecuteTxs_failures (txs : list bytes) (h ts : Z) (root : bytes) (e e' : CosmosExecutor) (er : err)
  (Hh : is_u64 h) (E : ExecuteTxs None txs h ts root e = (e', Err er)) :
  same_chain e e' \/
  (lastHeight e' = h /\
   (exists x, er = EWrap "persist block" x \/ er = EWrap "persist metadata after ExecuteTxs" x) /\
   forall txs' ts' root', exists er', ExecuteTxs None txs' h ts' root' e' = (e', Err er')).
Proof.
  unfold ExecuteTxs in E. destruct (Z.eqb_spec h 0) as [|H0]; [simplify_eq; by left|].
  destruct (initialized e) eqn:Ei; simpl in E; [|simplify_eq; by left]. case_bool_decide; simpl in E; [|simplify_eq; by left].
  destruct (Z.eqb_spec h (lastHeight e +u 1)) as [Eh|]; simpl in E; [|simplify_eq; by left].
  destruct (app_FinalizeBlock _ _ _ _ _) as [a [results|er']]; [|simplify_eq; by left].
  pose proof (record_keeps h results (filter (fun tx => 0 < blen tx) txs) (set_app a e)) as Hk.
  destruct (record_results h results _ _) as [e1 [hs|er']]; [|simplify_eq; by left].
  unfold finish_block in E. destruct (app_Commit (x_app e1)) as [a' [[]|er']]; [|simplify_eq; by left].
  assert (Hfin : lastHeight e' = h /\ initialized e' = true /\
    exists x, er = EWrap "persist block" x \/ er = EWrap "persist metadata after ExecuteTxs" x).
  { destruct Hk as (Hi & _). simpl in Hi. unfold saveMetadataLocked in E. simpl persistStore in E.
    destruct (persistStore e1) as [p|] eqn:Ep; [|simpl in E; rewrite Ep in E; done]. destruct (AppendBlock p _) as [p1 [[]|er']]; simpl in E.
    - destruct (SaveMetadata p1 _) as [p2 [[]|er']]; simplify_eq. simpl. rewrite Hi, Ei. eauto.
    - simplify_eq. simpl. rewrite Hi, Ei. eauto. }
  right. destruct Hfin as (Hl & Hi & Hx). split; [done|]. split; [done|]. intros txs' ts' root'. unfold ExecuteTxs.
  destruct (Z.eqb_spec h 0); [done|]. rewrite Hi. simpl. case_bool_decide; simpl; [|by eexists]. rewrite Hl.
  destruct (Z.eqb_spec h (h +u 1)) as [Ec|]; [|by eexists]. exfalso. unfold u64, is_u64 in *.
  destruct (Z.eq_dec h (two64 - 1)) as [->|]; [by vm_compute in Ec|]. rewrite Z.mod_small in Ec; lia.
Qed.

End executor.
#[global] Arguments CosmosExecutor : clear implicits.

(** Witnesses: an application whose state is the list of its committed transactions, by version. *)
Module CosmosWitness.

Record toy := { ty_pending : list bytes; ty_versions : list (list bytes) }.
Definition toy_hash (t : toy) : bytes := sha256_Sum256 (concat (concat (ty_versions t))).
#[local] Instance toy_app : App toy := {|
  app_SetChainID _ t := t;
  app_DefaultGenesis _ := [x7b; x7d];
  app_InitChain t _ _ _ genesis := (t, Ok genesis);
  app_FinalizeBlock t txs _ _ _ := ({| ty_pending := txs; ty_versions := ty_versions t |},
    Ok ((fun tx => {| tr_Code := 0; tr_Log := EmptyString; tr_Events := []; tr_GasUsed := blen tx; tr_GasWanted := -1 |}) <$> txs));
  app_Commit t := ({| ty_pending := []; ty_versions := ty_versions t ++ [ty_pending t] |}, Ok tt);
  app_LastCommitHash := toy_hash;
  app_LoadVersion t v := ({| ty_pending := []; ty_versions := take (Z.to_nat v) (ty_versions t) |}, Ok tt);
  app_Reopen t := {| ty_pending := []; ty_versions := ty_versions t |};
  format_RFC3339 _ := "1970-01-01T00:00:00Z"%string |}.

Definition toy0 : toy := {| ty_pending := []; ty_versions := [] |}.
Definition root1 : bytes := toy_hash {| ty_pending := []; ty_versions := [[[x01]]] |}.
Definition two_blocks : list op := [
  OInitChain None 0 1 "toy"; OInjectTx None [x01]; OGetTxs None; OExecuteTxs None [[x01]; []] 1 5 [x7b; x7d]; OSetFinal None 1;
  ORestart; OExecuteTxs None [[x02]; [x03]] 2 6 root1 ].
Definition at_two : CosmosExecutor toy := run_ops two_blocks (WithPersistence empty_store (New toy0)).1.
Definition files_two : PersistStore := default empty_store (persistStore at_two).

Lemma two_ok : Forall op_ok two_blocks.
Proof. repeat constructor; vm_compute; intros; discriminate. Qed.


Lemma at_two_durable : durable at_two files_two.
Proof.
  assert (Hp : exists p, durable at_two p).
  { unfold at_two, run_ops. assert (H0 : exists p, durable (WithPersistence empty_store (New toy0)).1 p)
      by (exists empty_store; split; [split|]; done).
    revert H0. generalize (WithPersistence empty_store (New toy0)).1. pose proof two_ok as Hok.
    induction Hok as [|o ops Ho Hops IH]; intros e1 [p Hd]; [by exists p|]. simpl. apply IH. by eapply run_op_durable. }
  destruct Hp as [p Hd]. pose proof (kp_store _ _ (proj1 Hd)) as E. unfold files_two. by rewrite E.
Qed.

Import RefHash TypesWitness.
Definition block_two : BlockInfo :=
  default {| bi_Height := 0; bi_Time := EmptyString; bi_AppHash := EmptyString; bi_NumTxs := 0; bi_TxHashes := [] |}
    ((LoadBlocks files_two).1 !! lastHeight at_two).
Definition toy_one : toy := {| ty_pending := []; ty_versions := [[[x01]]] |}.
Lemma block_two_logged : (LoadBlocks files_two).1 !! lastHeight at_two = Some block_two.
Proof. by vm_compute. Qed.
Lemma toy_one_loaded : app_LoadVersion (x_app at_two) (i64 1) = (toy_one, Ok tt).
Proof. by vm_compute. Qed.
Lemma at_two_initialized : initialized at_two = true /\ 0 <= 1 < lastHeight at_two.
Proof. by vm_compute. Qed.

Lemma rollback_is_forgotten_witness : exists e' p' e'',
  Rollback None 1 at_two = (e', Ok tt) /\ lastHeight e' = 1 /\ stateRoot e' = app_LastCommitHash toy_one /\
    persistStore e' = Some p' /\ restart p' (x_app e') = (e'', Ok tt) /\
    stateRoot e'' = stateRoot e' /\ lastHeight e'' = lastHeight at_two /\ GetLatestBlock None e'' = Ok (Some block_two) /\
    (forall txs ts root, exists er, ExecuteTxs None txs (1 + 1) ts root e'' = (e'', Err er)) /\
    forall g (s : mapds), g_InitialHeight g <= 1 ->
      Replay.SyncToHeight (B := list batch_op) (K := bytes) g 1 (e'', s) =
      let '(e3, r) := Rollback None 1 e'' in ((e3, s), wrap_err "failed to rollback execution layer" r).
Proof.
  exact (rollback_is_forgotten (D := mapds) (B := list batch_op) (K := bytes) at_two files_two block_two 1 toy_one at_two_durable
    (proj1 at_two_initialized) block_two_logged (proj2 at_two_initialized) toy_one_loaded).
Defined.

(** A disk whose third write (of the block) fails. *)
Definition failing : CosmosExecutor toy :=
  run_ops [OInitChain None 0 1 "toy"]
    (WithPersistence {| ps_metadata := None; ps_txs := []; ps_blocks := []; ps_outcomes := [None; None; Some (EMsg "disk full", false)] |}
       (New toy0)).1.
Definition failed : CosmosExecutor toy * res bytes := ExecuteTxs None [[x01]] 1 5 [x7b; x7d] failing.
Lemma failed_is : ExecuteTxs None [[x01]] 1 5 [x7b; x7d] failing = (failed.1, Err (EWrap "persist block" (EMsg "disk full"))).
Proof. by vm_compute. Qed.
Lemma ExecuteTxs_failures_witness : ~ same_chain failing failed.1 /\
  (same_chain failing failed.1 \/
   (lastHeight failed.1 = 1 /\
    (exists x, EWrap "persist block" (EMsg "disk full") = EWrap "persist block" x \/
               EWrap "persist block" (EMsg "disk full") = EWrap "persist metadata after ExecuteTxs" x) /\
    forall txs' ts' root', exists er', ExecuteTxs None txs' 1 ts' root' failed.1 = (failed.1, Err er'))).
Proof.
  split; [intros (_ & _ & _ & H & _); by vm_compute in H|].
  exact (ExecuteTxs_failures [[x01]] 1 5 [x7b; x7d] failing failed.1 _ (conj (Z.le_0_1) eq_refl) failed_is).
Defined.

End CosmosWitness.

End CosmosExec.
