(* ===== verification/Pruner.v ===== *)
(** The pruner (block/internal/pruner/pruner.go) and its configuration (pkg/config/config.go): at every
    tick it removes old blocks, or old states, from the store and from the execution client, in
    batches, and never a block that is not on the DA layer.

    The execution client's optional [PruneExec] is a parameter. The ticker is the sequence of ticks;
    a block time of zero, on which the code divides, is excluded where it matters. *)

From S2P Require Import Prelude Sha256 Interfaces Types Validation Store Pending.

Import Store Pending.

Module Pruner.

Definition PruningModeDisabled : string := "disabled".
Definition PruningModeAll : string := "all".
Definition PruningModeMetadata : string := "metadata".
(** Durations are in nanoseconds. *)
Record PruningConfig := { Mode : string; KeepRecent : Z; Interval : Z }.
Definition IsPruningEnabled (c : PruningConfig) : bool :=
  negb (bool_decide (Mode c = PruningModeDisabled)) && negb (bool_decide (Mode c = EmptyString)).
Definition PruningConfig_Validate (c : PruningConfig) (blockTime : Z) : res unit :=
  if negb (bool_decide (Mode c = PruningModeDisabled)) && negb (bool_decide (Mode c = PruningModeAll)) &&
     negb (bool_decide (Mode c = PruningModeMetadata)) then Err (EMsg "invalid pruning mode")
  else if bool_decide (Mode c = PruningModeDisabled) then Ok tt
  else if Interval c =? 0 then Err (EMsg "pruning_interval must be >= 1s when pruning is enabled")
  else if Interval c <? blockTime then Err (EMsg "pruning_interval must be greater than or equal to block time")
  else if KeepRecent c =? 0 then Err (EMsg "pruning_keep_recent must be > 0 when pruning is enabled")
  else Ok tt.

Record Pruner := { cfg : PruningConfig; blockTime : Z; daEnabled : bool }.
Definition NewPruner (c : PruningConfig) (blockTime : Z) (daAddress : string) : Pruner :=
  {| cfg := c; blockTime := blockTime; daEnabled := negb (bool_decide (daAddress = EmptyString)) |}.

Definition calculateBatchSize (p : Pruner) : Z :=
  let blocksPerInterval := u64 (Z.quot (Interval (cfg p)) (blockTime p)) in
  Z.min (blocksPerInterval *u 4) 10000.

Section pruner.
Context {W D B : Type} `{DS : Datastore D} `{BT : Batching D B} `{HS : HashString}.
Context (PruneExec : option (W -> Z -> W * res unit)).

(** One of the two recorded heights; a recorded zero is invalid. *)
Definition get_pruned_height (key : string) (s : D) : res Z :=
  match GetMetadata s key with
  | Err e => if errors_is e ErrNotFound then Ok 0
             else Err (EWrap "failed to get last pruned block height or invalid format" e)
  | Ok bz =>
      if negb (blen bz =? 8) then Err (EMsg "failed to get last pruned block height or invalid format")
      else if Uint64_LE bz =? 0 then Err (EMsg "invalid last pruned block height")
      else Ok (Uint64_LE bz)
  end.
Definition getLastPrunedBlockHeight : D -> res Z :=
  get_pruned_height LastPrunedBlockHeightKey.
Definition getLastPrunedStateHeight : D -> res Z :=
  get_pruned_height LastPrunedStateHeightKey.
Definition setLastPrunedStateHeight (s : D) (height : Z) : D * res unit :=
  SetMetadata s LastPrunedStateHeightKey (PutUint64_LE height).

(** The call to the execution client. *)
Definition prune_exec (height : Z) (w : W) : W * res unit :=
  match PruneExec with
  | None => (w, Ok tt)
  | Some f => match f w height with
              | (w, Ok _) => (w, Ok tt)
              | (w, Err e) => (w, if errors_is e ErrNotFound then Ok tt else Err e)
              end
  end.

(** The height up to which blocks may be pruned at all; none while the DA included height is unknown. *)
Definition upper_bound (p : Pruner) (s : D) (storeHeight : Z) : option Z :=
  if daEnabled p then
    match GetMetadata s DAIncludedHeightKey with
    | Ok bz => if blen bz =? 8 then Some (Z.min storeHeight (Uint64_LE bz)) else None
    | Err _ => None
    end
  else Some storeHeight.

Definition pruneBlocks (p : Pruner) (ws : W * D) : (W * D) * res unit :=
  let '(w, s) := ws in
  match Height s with
  | Err e => (ws, Err (EWrap "failed to get store height for pruning" e))
  | Ok storeHeight =>
      match upper_bound p s storeHeight with
      | None => (ws, Ok tt)
      | Some upperBound =>
          if upperBound <=? KeepRecent (cfg p) then (ws, Ok tt)
          else
            let targetHeight := upperBound -u KeepRecent (cfg p) in
            match getLastPrunedBlockHeight s with
            | Err e => (ws, Err (EWrap "failed to get last pruned block height" e))
            | Ok lastPruned =>
                let batchEnd := Z.min (lastPruned +u calculateBatchSize p) targetHeight in
                match PruneBlocks (B := B) s batchEnd with
                | (s, Err e) => ((w, s), Err e)
                | (s, Ok _) => let '(w, r) := prune_exec batchEnd w in ((w, s), r)
                end
            end
      end
  end.

(** [for h := lastPrunedState + 1; h <= batchEnd; h++] *)
Fixpoint delete_states (fuel : nat) (h batchEnd : Z) (s : D) : D * res unit :=
  if batchEnd <? h then (s, Ok tt)
  else match fuel with
       | O => (s, Err out_of_fuel)
       | S fuel =>
           match DeleteStateAtHeight s h with
           | (s, Err e) => if errors_is e ErrNotFound then delete_states fuel (h +u 1) batchEnd s else (s, Err e)
           | (s, Ok _) => delete_states fuel (h +u 1) batchEnd s
           end
       end.

(** Where the pruning of states resumes: the blocks pruned may be ahead of it. *)
Definition last_state (s : D) : res Z :=
  let? st := wrap_err "failed to get last pruned state height" (getLastPrunedStateHeight s) in
  Ok (match getLastPrunedBlockHeight s with Ok blk => if st <? blk then blk else st | Err _ => st end).

Definition pruneMetadata (p : Pruner) (ws : W * D) : (W * D) * res unit :=
  let '(w, s) := ws in
  match Height s with
  | Err e => (ws, Err e)
  | Ok height =>
      if height <=? KeepRecent (cfg p) then (ws, Ok tt)
      else
        match last_state s with
        | Err e => (ws, Err e)
        | Ok lastPrunedState =>
            let target := height -u KeepRecent (cfg p) in
            if target <=? lastPrunedState then (ws, Ok tt)
            else
              let batchEnd := Z.min (lastPrunedState +u calculateBatchSize p) target in
              match delete_states (Z.to_nat (batchEnd - lastPrunedState)) (lastPrunedState +u 1) batchEnd s with
              | (s, Err e) => ((w, s), Err e)
              | (s, Ok _) =>
                  match prune_exec batchEnd w with
                  | (w, Err e) => ((w, s), Err e)
                  | (w, Ok _) =>
                      let '(s, r) := setLastPrunedStateHeight s batchEnd in
                      ((w, s), wrap_err "failed to set last pruned block height" r)
                  end
              end
        end
  end.

(** One tick of [pruneLoop]; errors are logged. *)
Definition on_tick (p : Pruner) (ws : W * D) : W * D :=
  if bool_decide (Mode (cfg p) = PruningModeMetadata) then (pruneMetadata p ws).1
  else if bool_decide (Mode (cfg p) = PruningModeAll) then (pruneBlocks p ws).1
  else ws.
(** [Start] and [n] ticks. *)
Definition pruneLoop (p : Pruner) (n : nat) (ws : W * D) : W * D :=
  if IsPruningEnabled (cfg p) then Nat.iter n (on_tick p) ws else ws.

End pruner.

(** ** What pruning does *)

Section laws.
Context {W D B K : Type} `{DL : DatastoreLaws D} `{BC : Batching D B} `{BL : !BatchingLaws D B}.
Context `{PK : PubKeys K} `{PW : Protowire} `{HS : HashString} `{HL : !HashStringLaws}.
Context `{CH : ProtoCodec pb_SignedHeader} `{CD : ProtoCodec pb_Data} `{CS : ProtoCodec pb_State}.
Context (PruneExec : option (W -> Z -> W * res unit)).

(** The execution client does not stop the pruner. *)
Definition exec_prunes : Prop := forall f, PruneExec = Some f -> forall w h, exists w' r, f w h = (w', r) /\
  match r with Ok _ => True | Err e => errors_is e ErrNotFound = true end.

Lemma exec_prunes_ok h w : exec_prunes -> exists w', prune_exec PruneExec h w = (w', Ok tt).
Proof.
  intros Hx. unfold prune_exec. destruct PruneExec as [f|] eqn:E; [|by exists w].
  destruct (Hx f E w h) as (w' & [[]|e] & -> & Hr); [by exists w'|]. rewrite Hr. by exists w'.
Qed.

(** The blocks of [(lp, e]] are gone, and nothing else the node reads has changed. *)
Record trimmed (s s' : D) (lp e : Z) : Prop := {
  tm_healthy : ds_healthy s';
  tm_last : getLastPrunedBlockHeight s' = Ok e;
  tm_height : Height s' = Height s;
  tm_gone h : lp < h <= e -> missing (GetHeader (K := K) s' h) /\ missing (GetBlockData (K := K) s' h);
  tm_kept h : is_u64 h -> h <= lp \/ e < h -> block_at (K := K) s' h = block_at s h;
  tm_states h : is_u64 h -> GetStateAtHeight s' h = GetStateAtHeight s h;
  tm_included : GetMetadata s' DAIncludedHeightKey = GetMetadata s DAIncludedHeightKey;
}.

Lemma trimmed_refl s lp : ds_healthy s -> getLastPrunedBlockHeight s = Ok lp -> trimmed s s lp lp.
Proof. intros. split; try done. intros; lia. Qed.

Lemma trimmed_trans s s1 s2 lp e1 e2 : 0 <= lp -> e2 < two64 -> lp <= e1 <= e2 ->
  trimmed s s1 lp e1 -> trimmed s1 s2 e1 e2 -> trimmed s s2 lp e2.
Proof.
  intros H0 H2 He [A1 A2 A3 A4 A5 A6 A7] [B1 B2 B3 B4 B5 B6 B7]. split; [done|done|congruence| | | |congruence].
  - intros h Hh. destruct (Z.le_gt_cases h e1); [|apply B4; lia]. destruct (A4 h) as [G1 G2]; [lia|].
    specialize (B5 h ltac:(unfold is_u64; lia) ltac:(lia)). unfold block_at in B5. injection B5 as -> -> _. done.
  - intros h Hu Hh. rewrite B5, A5; [done|done|lia|done|lia].
  - intros h Hu. by rewrite B6, A6.
Qed.

Lemma plain_da_included : plain_meta DAIncludedHeightKey.
Proof. split; [done|]. intros h. split; discriminate. Qed.

Lemma get_pruned_last s lp : getLastPrunedBlockHeight s = Ok lp -> last_pruned s = Ok lp.
Proof.
  unfold getLastPrunedBlockHeight, get_pruned_height, last_pruned, decodeHeight, heightLength.
  destruct (GetMetadata s LastPrunedBlockHeightKey) as [bz|e]; [|by destruct (errors_is e ErrNotFound)].
  destruct (Z.eqb_spec (blen bz) 8) as [Eb|]; [|done]. simpl. by case_match.
Qed.

Lemma last_get_pruned s lp : 0 < lp -> last_pruned s = Ok lp -> getLastPrunedBlockHeight s = Ok lp.
Proof.
  unfold getLastPrunedBlockHeight, get_pruned_height, last_pruned, decodeHeight, heightLength. intros H0.
  destruct (GetMetadata s LastPrunedBlockHeightKey) as [bz|e]; [|by destruct (errors_is e ErrNotFound)].
  destruct (Z.eqb_spec (blen bz) 8) as [Eb|]; [|intros [= <-]; lia]. simpl. intros [= <-].
  destruct (Z.eqb_spec (Uint64_LE bz) 0); [lia|done].
Qed.

Lemma batch_bounds p : 0 <= calculateBatchSize p <= 10000.
Proof. unfold calculateBatchSize. pose proof (u64_range (u64 (Interval (cfg p) ÷ blockTime p) * 4)). unfold is_u64 in *. lia. Qed.

(** One call with a bound above what is kept. *)
Lemma prune_step (p : Pruner) (w : W) (s : D) (h bound lp : Z) : ds_healthy s -> Height s = Ok h -> upper_bound p s h = Some bound ->
  0 <= KeepRecent (cfg p) < bound -> bound < two64 - 10001 -> getLastPrunedBlockHeight s = Ok lp ->
  lp <= bound - KeepRecent (cfg p) -> exec_prunes ->
  exists w' s', pruneBlocks (B := B) PruneExec p (w, s) = ((w', s'), Ok tt) /\
    trimmed s s' lp (Z.min (lp + calculateBatchSize p) (bound - KeepRecent (cfg p))).
Proof.
  intros Hs Eh Eb Hk Hb El Hlp Hx. pose proof (batch_bounds p) as Hbs.
  pose proof (get_pruned_last s lp El) as El'. pose proof (last_pruned_range s lp El') as Hlu.
  unfold pruneBlocks. rewrite Eh, Eb, El. destruct (Z.leb_spec bound (KeepRecent (cfg p))); [lia|].
  rewrite !u64_small by (unfold is_u64 in *; lia).
  set (e := Z.min (lp + calculateBatchSize p) (bound - KeepRecent (cfg p))).
  destruct (exec_prunes_ok e w Hx) as [w' Ew].
  destruct (Z.eq_dec e lp) as [Ee|Hne].
  - assert (E : PruneBlocks (B := B) s e = (s, Ok tt)).
    { unfold PruneBlocks. destruct (ds_Batch_spec s Hs) as (b & -> & _). rewrite El', Ee. by rewrite Z.leb_refl. }
    rewrite E, Ew. exists w', s. split; [done|]. rewrite Ee. by apply trimmed_refl.
  - destruct (prune_exact (B := B) (K := K) s e lp Hs El') as (s' & E & [P1 P2 P3 P4 _ P6 P7 P8] & _); [unfold is_u64 in *; lia|].
    rewrite E, Ew. exists w', s'. split; [done|]. split; try done.
    + apply last_get_pruned; [unfold is_u64 in *; lia|done].
    + apply P8; [apply plain_da_included|done].
Qed.

(** C26: Pruning of blocks. Let the bound be the store's height, or the DA included height where that
    is lower and DA is enabled. After [n] ticks on a healthy store exactly the blocks above the last
    pruned one, at most [n] batches of them and none above the bound less what is to be kept, are
    gone; every other block, all states and the chain's height read as before. A batch is of at
    most 10000 blocks, and of at least four under a valid configuration: so every such block goes. *)
Theorem pruning_reaches_target (p : Pruner) (w : W) (s : D) (h bound lp : Z) (Hm : Mode (cfg p) = PruningModeAll)
  (Hs : ds_healthy s) (Eh : Height s = Ok h) (Eb : upper_bound p s h = Some bound)
  (Hk : 0 <= KeepRecent (cfg p) < bound) (Hb : bound < two64 - 10001) (El : getLastPrunedBlockHeight s = Ok lp)
  (Hlp : lp <= bound - KeepRecent (cfg p)) (Hx : exec_prunes) :
  (forall n, exists w' s', pruneLoop (B := B) PruneExec p n (w, s) = (w', s') /\
     trimmed s s' lp (Z.min (lp + Z.of_nat n * calculateBatchSize p) (bound - KeepRecent (cfg p)))) /\
  calculateBatchSize p <= 10000 /\
  (PruningConfig_Validate (cfg p) (blockTime p) = Ok tt -> 0 < blockTime p -> Interval (cfg p) / blockTime p < 2 ^ 62 ->
   4 <= calculateBatchSize p).
Proof.
  pose proof (batch_bounds p) as Hbs. split; [|split; [lia|]].
  - pose proof (last_pruned_range s lp (get_pruned_last s lp El)) as Hlu.
    intros n. unfold pruneLoop, IsPruningEnabled. rewrite Hm. simpl.
    induction n as [|n (w1 & s1 & E1 & T1)]; simpl.
    { exists w, s. split; [done|]. rewrite Z.min_l by lia. replace (lp + _) with lp by lia. by apply trimmed_refl. }
    rewrite E1. unfold on_tick at 1. rewrite Hm. rewrite bool_decide_eq_false_2, bool_decide_eq_true_2 by done. pose proof T1 as [A1 A2 A3 _ _ _ A7].
    destruct (prune_step p w1 s1 h bound _ A1 ltac:(congruence) ltac:(by rewrite <- Eb; unfold upper_bound; rewrite A7)
      Hk Hb A2 ltac:(lia) Hx) as (w2 & s2 & -> & T2).
    exists w2, s2. split; [done|]. replace (Z.min (lp + Z.pos (Pos.of_succ_nat n) * _) _) with
      (Z.min (Z.min (lp + Z.of_nat n * calculateBatchSize p) (bound - KeepRecent (cfg p)) + calculateBatchSize p)
        (bound - KeepRecent (cfg p))) by lia.
    eapply trimmed_trans; [..|exact T1|exact T2]; unfold is_u64 in *; lia.
  - intros Hv Ht Hi. unfold PruningConfig_Validate in Hv. rewrite Hm in Hv. simpl in Hv.
    destruct (Z.eqb_spec (Interval (cfg p)) 0); [done|]. destruct (Z.ltb_spec (Interval (cfg p)) (blockTime p)); [done|].
    unfold calculateBatchSize. rewrite Z.quot_div_nonneg by lia.
    assert (1 <= Interval (cfg p) / blockTime p) by (apply Z.div_le_lower_bound; lia).
    change (2 ^ 62) with 4611686018427387904 in Hi.
    rewrite (u64_small (Interval (cfg p) / blockTime p)) by (unfold is_u64, two64; lia).
    rewrite u64_small by (unfold is_u64, two64; lia). lia.
Qed.

Lemma delete_states_spec fuel a e s : ds_healthy s -> 0 <= a -> e < two64 - 1 -> e - a < Z.of_nat fuel ->
  exists s', delete_states fuel a e s = (s', Ok tt) /\ ds_healthy s' /\
    (forall h, a <= h <= e -> ds_view s' !! getStateAtHeightKey h = None) /\
    (forall k, (forall h, a <= h <= e -> k <> getStateAtHeightKey h) -> ds_view s' !! k = ds_view s !! k).
Proof.
  revert a s. induction fuel as [|fuel IH]; intros a s Hs Ha He Hf; simpl;
    (destruct (Z.ltb_spec e a); [exists s; split; [done|]; split; [done|]; split; [lia|done]|]); [lia|].
  unfold DeleteStateAtHeight, getStateAtHeightKey, statePrefix in *. rewrite NewKey_height by done.
  destruct (ds_Delete_spec s (heightKey "s" a) Hs) as (s1 & -> & Hs1 & V1).
  rewrite u64_small by (unfold is_u64 in *; lia).
  destruct (IH (a + 1) s1 Hs1) as (s' & E & Hs' & Hgone & Hkept); [lia|lia|lia|].
  exists s'. split; [done|]. split; [done|]. split.
  - intros h Hh. destruct (Z.eq_dec h a) as [->|]; [|apply Hgone; lia].
    rewrite Hkept; [by rewrite V1, lookup_delete_eq|]. intros h' Hh' [_ E']%hkey_inj; unfold is_u64 in *; lia.
  - intros k Hk. rewrite Hkept by (intros h Hh; apply Hk; lia). rewrite V1, lookup_delete_ne; [done|].
    intros <-. by apply (Hk a); [lia|].
Qed.

(** Pruning of states. One tick removes exactly the states above the last pruned height, one batch
    of them and none among those to be kept; every other state, every block and the chain's height
    read as before, and the next tick resumes after them. *)
Theorem pruneMetadata_exact (p : Pruner) (w : W) (s : D) (h lp : Z)
  (Hs : ds_healthy s) (Eh : Height s = Ok h) (El : last_state s = Ok lp) (H0 : 0 <= lp)
  (Hk : 0 <= KeepRecent (cfg p) < h) (Hb : h < two64 - 10001) (Hlp : lp < h - KeepRecent (cfg p))
  (Hp : 0 < calculateBatchSize p) (Hx : exec_prunes) :
  let e := Z.min (lp + calculateBatchSize p) (h - KeepRecent (cfg p)) in
  exists w' s', pruneMetadata PruneExec p (w, s) = ((w', s'), Ok tt) /\ lp < e /\
    (forall h', lp < h' <= e -> missing (GetStateAtHeight s' h')) /\
    (forall h', is_u64 h' -> h' <= lp \/ e < h' -> GetStateAtHeight s' h' = GetStateAtHeight s h') /\
    (forall h', is_u64 h' -> block_at (K := K) s' h' = block_at s h') /\
    Height s' = Height s /\ last_state s' = Ok e.
Proof.
  intros e. pose proof (batch_bounds p) as Hbs.
  unfold pruneMetadata. rewrite Eh, El. destruct (Z.leb_spec h (KeepRecent (cfg p))); [lia|].
  rewrite !u64_small by (unfold is_u64 in *; lia). destruct (Z.leb_spec (h - KeepRecent (cfg p)) lp); [lia|]. fold e.
  destruct (delete_states_spec (Z.to_nat (e - lp)) (lp + 1) e s) as (s1 & -> & Hs1 & Hgone & Hkept); [done|lia|lia|lia|].
  destruct (exec_prunes_ok e w Hx) as [w' ->].
  destruct (SetMetadata_view s1 LastPrunedStateHeightKey (PutUint64_LE e) Hs1 eq_refl) as (s2 & E2 & Hs2 & V2).
  unfold setLastPrunedStateHeight. rewrite E2. exists w', s2.
  assert (Ho : forall k, k <> GetMetaKey LastPrunedStateHeightKey -> (forall h', lp < h' <= e -> k <> getStateAtHeightKey h') ->
    ds_view s2 !! k = ds_view s !! k).
  { intros k Hn Hk'. rewrite V2, lookup_insert_ne by done. apply Hkept. intros; apply Hk'; lia. }
  split; [done|]. split; [lia|]. split_and!.
  - intros h' Hh. apply missing_state; [done|]. rewrite V2, lookup_insert_ne by done. apply Hgone. lia.
  - intros h' Hu Hout. apply state_frame; [done|done|]. apply Ho; [done|].
    intros h2 Hh2 [_ E']%hkey_inj; unfold is_u64 in *; lia.
  - intros h' Hu. apply block_frame; [done|done|]. intros k Hin. apply Ho.
    + rewrite !elem_of_cons, elem_of_nil in Hin. decompose [or] Hin; subst; done.
    + intros h2 Hh2. rewrite !elem_of_cons, elem_of_nil in Hin. decompose [or] Hin; subst; done.
  - rewrite <- Eh. apply height_frame; [done|done|]. by apply Ho.
  - unfold last_state, getLastPrunedStateHeight, get_pruned_height at 1. rewrite GetMetadata_view, V2, lookup_insert_eq by done.
    unfold blen. rewrite length_PutUint64_LE. simpl. rewrite Uint64_LE_Put, u64_small by (unfold is_u64; lia).
    destruct (Z.eqb_spec e 0); [lia|]. simpl.
    assert (Eg : getLastPrunedBlockHeight s2 = getLastPrunedBlockHeight s).
    { unfold getLastPrunedBlockHeight, get_pruned_height. rewrite (meta_frame s s2); [done|done|done|done|by apply Ho]. }
    rewrite Eg. unfold last_state in El. destruct (getLastPrunedStateHeight s) as [st|]; [|done]. simpl in El.
    destruct (getLastPrunedBlockHeight s) as [blk|]; [|done]. destruct (Z.ltb_spec st blk), (Z.ltb_spec e blk);
      simplify_eq; f_equal; lia.
Qed.

End laws.

(** Witnesses: a store at height 9 whose blocks are on the DA layer up to height 6. *)
Module PrunerWitness.
Import RefHash TypesWitness.

Definition w_store : mapds := Mapds (apply_ops ∅ [
  (getHeightKey, Some (encodeHeight 9)); (GetMetaKey DAIncludedHeightKey, Some (PutUint64_LE 6));
  (getHeaderKey 3, Some [x01]); (getHeaderKey 5, Some [x02]); (getStateAtHeightKey 3, Some [x03])]) true.
Definition w_pruner : Pruner :=
  {| cfg := {| Mode := PruningModeAll; KeepRecent := 2; Interval := 3 |}; blockTime := 2; daEnabled := true |}.
(** The execution client notes the height. *)
Definition w_exec : option (Z -> Z -> Z * res unit) := Some (fun _ h => (h, Err ErrNotFound)).
Lemma w_exec_prunes : exec_prunes w_exec.
Proof. intros f [= <-] w h. by eexists _, _. Qed.

Lemma pruning_reaches_target_witness :
  (forall n, exists w' s', pruneLoop (B := list batch_op) w_exec w_pruner n (0, w_store) = (w', s') /\
     trimmed (K := bytes) w_store s' 0 (Z.min (0 + Z.of_nat n * calculateBatchSize w_pruner) (6 - 2))) /\
  calculateBatchSize w_pruner <= 10000 /\
  (PruningConfig_Validate (cfg w_pruner) (blockTime w_pruner) = Ok tt -> 0 < blockTime w_pruner ->
   Interval (cfg w_pruner) / blockTime w_pruner < 2 ^ 62 -> 4 <= calculateBatchSize w_pruner).
Proof.
  apply (pruning_reaches_target (B := list batch_op) (K := bytes) w_exec w_pruner 0 w_store 9 6 0);
    [done|done|by vm_compute|by vm_compute|by vm_compute|by vm_compute|by vm_compute|by vm_compute|apply w_exec_prunes].
Defined.

Lemma pruneMetadata_exact_witness :
  let e := Z.min (0 + calculateBatchSize w_pruner) (9 - KeepRecent (cfg w_pruner)) in
  exists w' s', pruneMetadata w_exec w_pruner (0, w_store) = ((w', s'), Ok tt) /\ 0 < e /\
    (forall h', 0 < h' <= e -> missing (GetStateAtHeight s' h')) /\
    (forall h', is_u64 h' -> h' <= 0 \/ e < h' -> GetStateAtHeight s' h' = GetStateAtHeight w_store h') /\
    (forall h', is_u64 h' -> block_at (K := bytes) s' h' = block_at w_store h') /\
    Height s' = Height w_store /\ last_state s' = Ok e.
Proof.
  apply (pruneMetadata_exact (K := bytes) w_exec w_pruner 0 w_store 9 0);
    [done|by vm_compute|by vm_compute|done|by vm_compute|by vm_compute|by vm_compute|by vm_compute|apply w_exec_prunes].
Defined.

(** A batch size of zero makes the pruner record height zero, which it refuses to read again. *)
Example zero_batch_stops : let p := {| cfg := {| Mode := PruningModeMetadata; KeepRecent := 2; Interval := 1 |}; blockTime := 2; daEnabled := true |} in
  let ws := (pruneMetadata w_exec p (0, w_store)).1 in
  PruningConfig_Validate (cfg p) (blockTime p) = Err (EMsg "pruning_interval must be greater than or equal to block time") /\
  pruneMetadata w_exec p ws = (ws, Err (EWrap "failed to get last pruned state height" (EMsg "invalid last pruned block height"))).
Proof. by vm_compute. Qed.

End PrunerWitness.

End Pruner.
