(* ===== verification/Reaper.v ===== *)
(** The reaper (block/internal/reaping/reaper.go): it moves transactions from the execution client's
    mempool to the sequencer, drops those it has seen and tells the producer about new ones.

    The client's [GetTxs] and the sequencer's [SubmitBatchTxs] are parameters of the operations; the
    last section puts the Cosmos executor and the single sequencer in their place. The ticker and
    the clock are inputs. *)

From S2P Require Import Prelude Sha256 Interfaces Sequencing Queue Checkpoint Sequencers Types Validation Store Pending DACache Producer CosmosExec.

Import DACache.

Module Reaper.

Definition MaxBackoffInterval : Z := 30 * 1000000000.
Definition hashTx (tx : bytes) : string := hex_encode (sha256_Sum256 tx).

(** The argument checks of [NewReaper]. *)
Definition NewReaper_check (executorNil cacheNil : bool) (scrapeInterval : Z) : res unit :=
  if executorNil then Err (EMsg "executor cannot be nil")
  else if cacheNil then Err (EMsg "cache cannot be nil")
  else if scrapeInterval =? 0 then Err (EMsg "scrape interval cannot be empty")
  else Ok tt.

Section reaper.
Context {X Q K : Type} {C : Type -> Type -> Type} `{LR : LRU C}.
Context (GetTxs : X -> X * res (list bytes)) (SubmitBatchTxs : Q -> SubmitBatchTxsRequest -> Q * res unit).

(** What the reaper works on: the client, the sequencer, the cache manager and the producer's loop. *)
Record Reaper := {
  exec : X; sequencer : Q; chainID : bytes; cache : implementation K C; executor : Producer.loop_state;
  interval : Z; consecutiveFailures : Z; ticker : Z;
}.
Definition upd (x : X) (q : Q) (m : implementation K C) (l : Producer.loop_state) (r : Reaper) : Reaper :=
  {| exec := x; sequencer := q; chainID := chainID r; cache := m; executor := l; interval := interval r;
     consecutiveFailures := consecutiveFailures r; ticker := ticker r |}.

(** The transactions the cache has not seen, in order. *)
Fixpoint select_new (m : implementation K C) (txs : list bytes) : implementation K C * list bytes :=
  match txs with
  | [] => (m, [])
  | tx :: txs =>
      let '(m, seen) := IsTxSeen m (hashTx tx) in
      let '(m, rest) := select_new m txs in
      (m, if seen then rest else tx :: rest)
  end.
(** [clock] gives the time of each call. *)
Fixpoint mark_seen (clock : nat -> Z) (m : implementation K C) (txs : list bytes) : implementation K C :=
  match txs with
  | [] => m
  | tx :: txs => mark_seen (fun i => clock (S i)) (SetTxSeen m (clock O) (hashTx tx)) txs
  end.

Definition SubmitTxs (clock : nat -> Z) (r : Reaper) : Reaper * res unit :=
  match GetTxs (exec r) with
  | (x, Err e) => (upd x (sequencer r) (cache r) (executor r) r, Err (EWrap "failed to get txs from executor" e))
  | (x, Ok txs) =>
      let r := upd x (sequencer r) (cache r) (executor r) r in
      if blen txs =? 0 then (r, Ok tt)
      else
        let '(m, newTxs) := select_new (cache r) txs in
        let r := upd x (sequencer r) m (executor r) r in
        if blen newTxs =? 0 then (r, Ok tt)
        else
          match SubmitBatchTxs (sequencer r) {| sr_Id := chainID r; sr_Batch := Some (MkBatch newTxs) |} with
          | (q, Err e) => (upd x q m (executor r) r, Err (EWrap "failed to submit txs to sequencer" e))
          | (q, Ok _) => (upd x q (mark_seen clock m newTxs) (Producer.NotifyNewTransactions (executor r)) r, Ok tt)
          end
  end.

Inductive event := Tick (clock : nat -> Z) | CleanupTick (now : Z).

(** One iteration of [reaperLoop]. *)
Definition on_event (r : Reaper) (ev : event) : Reaper :=
  match ev with
  | Tick clock =>
      match SubmitTxs clock r with
      | (r, Err _) =>
          let failures := consecutiveFailures r + 1 in
          let backoff := Z.min (i64 (interval r * Z.shiftl 1 (Z.min failures 5))) MaxBackoffInterval in
          {| exec := exec r; sequencer := sequencer r; chainID := chainID r; cache := cache r; executor := executor r;
             interval := interval r; consecutiveFailures := failures; ticker := backoff |}
      | (r, Ok _) =>
          if 0 <? consecutiveFailures r then
            {| exec := exec r; sequencer := sequencer r; chainID := chainID r; cache := cache r; executor := executor r;
               interval := interval r; consecutiveFailures := 0; ticker := interval r |}
          else r
      end
  | CleanupTick now =>
      upd (exec r) (sequencer r) (CleanupOldTxs (cache r) now DefaultTxCacheRetention).1 (executor r) r
  end.

End reaper.
#[global] Arguments Reaper : clear implicits.

(** ** What one submission does *)

Section laws.
Context {X Q K : Type} {C : Type -> Type -> Type} `{LL : LRULaws C}.
Context (GetTxs : X -> X * res (list bytes)) (SubmitBatchTxs : Q -> SubmitBatchTxsRequest -> Q * res unit).
Abbreviation reaper := (Reaper X Q K C).

(** The transactions the cache knows, and the set it keeps them in. *)
Definition seen (m : implementation K C) (tx : bytes) : bool := (IsTxSeen m (hashTx tx)).2.
Definition seen_set (m : implementation K C) : gmap string bool := lru_view (hashes (txCache m)).
Definition unseen (m : implementation K C) (txs : list bytes) : list bytes := filter (fun tx => seen m tx = false) txs.

Lemma seen_view m tx : seen m tx = default false (seen_set m !! hashTx tx).
Proof. unfold seen, IsTxSeen, isSeen, seen_set. by destruct (lru_Get_spec (hashes (txCache m)) (hashTx tx)) as (c & -> & _). Qed.

Lemma IsTxSeen_keeps m h : seen_set (IsTxSeen m h).1 = seen_set m /\
  lru_cap (hashes (txCache (IsTxSeen m h).1)) = lru_cap (hashes (txCache m)).
Proof. unfold IsTxSeen, isSeen, seen_set. by destruct (lru_Get_spec (hashes (txCache m)) h) as (c & -> & ? & ?). Qed.

Lemma select_new_spec m txs : (select_new m txs).2 = unseen m txs /\ seen_set (select_new m txs).1 = seen_set m /\
  lru_cap (hashes (txCache (select_new m txs).1)) = lru_cap (hashes (txCache m)).
Proof.
  revert m. induction txs as [|tx txs IH]; intros m; [done|]. simpl.
  pose proof (IsTxSeen_keeps m (hashTx tx)) as [Hs Hc]. destruct (IsTxSeen m (hashTx tx)) as [m1 b] eqn:E.
  destruct (IH m1) as (H1 & H2 & H3). destruct (select_new m1 txs) as [m2 rest]. simpl in *.
  split_and!; [|congruence..]. assert (Eb : seen m tx = b) by (unfold seen; by rewrite E).
  unfold unseen at 1. rewrite filter_cons, H1, Eb.
  assert (unseen m1 txs = unseen m txs) as ->.
  { apply list_filter_iff. intros tx'. by rewrite !seen_view, Hs. }
  by destruct b; case_decide.
Qed.

(** Marking keeps every transaction as long as the cache has room for all of them. *)
Lemma mark_seen_spec clock m txs :
  (size (seen_set m) + length txs <= lru_cap (hashes (txCache m)))%nat ->
  (forall tx, tx ∈ txs -> seen (mark_seen clock m txs) tx = true) /\
  (forall tx, seen m tx = true -> seen (mark_seen clock m txs) tx = true).
Proof.
  revert clock m. induction txs as [|tx txs IH]; intros clock m Hc; [by split; [intros ? ?%elem_of_nil|]|]. simpl in *.
  set (m1 := SetTxSeen m (clock O) (hashTx tx)).
  destruct (lru_Add_spec (hashes (txCache m)) (hashTx tx) true) as (_ & _ & Hcap & Hfull).
  assert (Hsz : (size (<[hashTx tx := true]> (seen_set m)) <= S (size (seen_set m)))%nat)
    by (rewrite map_size_insert; destruct (seen_set m !! hashTx tx); simpl; unfold id; lia).
  assert (Es : seen_set m1 = <[hashTx tx := true]> (seen_set m)) by (apply Hfull; unfold seen_set in *; lia).
  destruct (IH (fun i => clock (S i)) m1) as [H1 H2].
  { rewrite Es. unfold m1, SetTxSeen, setSeen. simpl. rewrite Hcap. lia. }
  split.
  - intros tx' [->|Hin]%elem_of_cons; [|by apply H1]. apply H2. by rewrite seen_view, Es, lookup_insert_eq.
  - intros tx' Hs. apply H2. rewrite seen_view in *. rewrite Es. destruct (decide (hashTx tx' = hashTx tx)) as [->|].
    + by rewrite lookup_insert_eq.
    + by rewrite lookup_insert_ne.
Qed.

(** One round of the reaper. The client's mempool is asked once. What is passed to the
    sequencer is exactly the transactions not seen before, in their order, in one batch, and
    nothing when there is none. If the sequencer takes the batch the producer is told and, while
    the cache has room, all of the round's transactions count as seen; if it does not, no
    transaction is marked, so that whatever the client offers again is submitted again. *)
Theorem SubmitTxs_delivers (clock : nat -> Z) (r : reaper) (x : X) (txs : list bytes)
  (Hg : GetTxs (exec r) = (x, Ok txs)) :
  let new := unseen (cache r) txs in
  let '(r', res) := SubmitTxs GetTxs SubmitBatchTxs clock r in
  exec r' = x /\
  if blen new =? 0 then res = Ok tt /\ sequencer r' = sequencer r /\ executor r' = executor r /\ seen_set (cache r') = seen_set (cache r)
  else exists q sub, SubmitBatchTxs (sequencer r) {| sr_Id := chainID r; sr_Batch := Some (MkBatch new) |} = (q, sub) /\
    sequencer r' = q /\
    match sub with
    | Ok _ => res = Ok tt /\ Producer.txNotifyCh (executor r') = true /\
        ((size (seen_set (cache r)) + length new <= lru_cap (hashes (txCache (cache r))))%nat ->
         forall tx, tx ∈ txs -> seen (cache r') tx = true)
    | Err e => res = Err (EWrap "failed to submit txs to sequencer" e) /\ executor r' = executor r /\
        seen_set (cache r') = seen_set (cache r)
    end.
Proof.
  intros new. unfold SubmitTxs. rewrite Hg. cbn [cache upd sequencer executor exec chainID].
  destruct (Z.eqb_spec (blen txs) 0) as [E0|_].
  { assert (txs = []) as -> by (destruct txs; [done|unfold blen in E0; simpl in E0; lia]). done. }
  destruct (select_new_spec (cache r) txs) as (En & Es & Ec). destruct (select_new (cache r) txs) as [m news]. simpl in En, Es, Ec.
  subst news. fold new. destruct (Z.eqb_spec (blen new) 0); [done|].
  destruct (SubmitBatchTxs (sequencer r) _) as [q sub]. destruct sub as [[]|e]; cbn; split; try done; eexists _, _; split; try done.
  split; [done|]. split; [done|]. split; [done|]. intros Hroom tx Hin.
  destruct (mark_seen_spec clock m new) as [H1 H2]; [rewrite Es; by rewrite Ec|].
  destruct (seen (cache r) tx) eqn:Etx; [apply H2; by rewrite seen_view, Es, <- seen_view|].
  apply H1. subst new. unfold unseen. by apply list_elem_of_filter.
Qed.

End laws.

(** ** With the Cosmos executor and the single sequencer *)

Section loss.
Context {A D K : Type} {C : Type -> Type -> Type} `{AP : App A} `{Datastore D} `{ProtoCodec BatchQueue.pb_Batch} `{LL : LRULaws C}.
Abbreviation node := (Reaper (CosmosExec.CosmosExecutor A) (Single.Sequencer D) K C).
Abbreviation submit := (SubmitTxs (K := K) (C := C) (CosmosExec.GetTxs (A := A) None) (Single.SubmitBatchTxs (D := D))).

Lemma upd_same (r : node) : upd (exec r) (sequencer r) (cache r) (executor r) r = r.
Proof. by destruct r. Qed.

(** Transactions the sequencer refuses are lost. The Cosmos executor's [GetTxs] empties the
    mempool. When the queue of the single sequencer is full, a round that has new transactions
    fails; after it they are not in the mempool, not in the queue and not marked as seen, and
    the next round finds nothing to do and succeeds. *)
Theorem full_queue_loses_txs (clock : nat -> Z) (r : node)
  (Hid : Single.isValid (sequencer r) (chainID r) = true)
  (Hq : 0 < BatchQueue.maxQueueSize (Single.queue (sequencer r)) <= BatchQueue.Size (Single.queue (sequencer r)))
  (Hn : unseen (cache r) (CosmosExec.mempool (exec r)) <> []) :
  exists r' e, submit clock r = (r', Err e) /\ CosmosExec.mempool (exec r') = [] /\ sequencer r' = sequencer r /\
    (forall tx, tx ∈ unseen (cache r) (CosmosExec.mempool (exec r)) -> seen (cache r') tx = false) /\
    forall clock', submit clock' r' = (r', Ok tt).
Proof.
  set (txs := CosmosExec.mempool (exec r)) in *.
  assert (Hne : (blen txs =? 0) = false) by (destruct txs; [done|unfold blen; simpl; lia]).
  unfold SubmitTxs at 1, CosmosExec.GetTxs at 1. fold txs. rewrite Hne. cbn [cache upd sequencer executor exec chainID].
  rewrite Hne. destruct (select_new_spec (cache r) txs) as (En & Es & _). destruct (select_new (cache r) txs) as [m news].
  simpl in En, Es. subst news.
  assert (Hne' : (blen (unseen (cache r) txs) =? 0) = false) by (destruct (unseen (cache r) txs); [done|unfold blen; simpl; lia]).
  rewrite Hne'.
  assert (Ef : Single.SubmitBatchTxs (sequencer r) {| sr_Id := chainID r; sr_Batch := Some (MkBatch (unseen (cache r) txs)) |} =
    (sequencer r, Err (EWrap "batch queue is full, cannot accept more batches" BatchQueue.ErrQueueFull))).
  { unfold Single.SubmitBatchTxs. cbn [sr_Id sr_Batch]. rewrite Hid. destruct (unseen (cache r) txs) as [|tx l]; [done|].
    unfold BatchQueue.AddBatch. rewrite (proj2 (Z.ltb_lt _ _) (proj1 Hq)), (proj2 (Z.leb_le _ _) (proj2 Hq)).
    simpl. by destruct (sequencer r). }
  rewrite Ef. eexists _, _. split; [done|]. split; [done|]. split; [done|]. split.
  - intros tx [Htx _]%list_elem_of_filter. cbn [cache upd]. rewrite seen_view, Es, <- seen_view. done.
  - intros clock'. reflexivity.
Qed.

End loss.

(** Witnesses: two transactions in the mempool, the first of them seen before. *)
Module ReaperWitness.
Import RefLRU CosmosExec.CosmosWitness.
#[local] Existing Instance toy_app.

Definition w_codec : ProtoCodec BatchQueue.pb_Batch := RefCodec.codec BatchQueue.pb_Batch.
Definition w_manager : implementation bytes lruc := SetTxSeen Producer.ProducerWitness.w_cache 5 (hashTx [x01]).
Definition w_mempool : CosmosExec.CosmosExecutor toy := CosmosExec.set_mempool [[x01]; [x02]] (CosmosExec.New toy0).
Definition w_node (queue : BatchQueue.BatchQueue mapds)
  : Reaper (CosmosExec.CosmosExecutor toy) (Single.Sequencer mapds) bytes lruc := {|
  exec := w_mempool; sequencer := Single.set_queue queue (SeqWitness.w_seq 10 10 Single.catchUpDone); chainID := [x2a];
  cache := w_manager; executor := {| Producer.txsAvailable := false; Producer.txNotifyCh := false |};
  interval := 1000000000; consecutiveFailures := 0; ticker := 1000000000 |}.
Definition w_full : BatchQueue.BatchQueue mapds :=
  {| BatchQueue.queue := [BatchQueue.QItem (MkBatch [[x01]]) (BatchQueue.seqToKey BatchQueue.initialSeqNum)]; BatchQueue.head := 0;
     BatchQueue.maxQueueSize := 1; BatchQueue.nextAddSeq := BatchQueue.initialSeqNum + 1;
     BatchQueue.nextPrependSeq := BatchQueue.initialSeqNum - 1; BatchQueue.db := Mapds ∅ true |}.

Lemma w_valid : Single.isValid (sequencer (w_node w_full)) (chainID (w_node w_full)) = true.
Proof. reflexivity. Qed.
Lemma w_is_full : 0 < BatchQueue.maxQueueSize (Single.queue (sequencer (w_node w_full))) <=
  BatchQueue.Size (Single.queue (sequencer (w_node w_full))).
Proof. by vm_compute. Qed.
Lemma w_new : unseen (cache (w_node w_full)) (CosmosExec.mempool (exec (w_node w_full))) <> [].
Proof. by vm_compute. Qed.

Lemma w_taken : CosmosExec.GetTxs None (exec (w_node SeqWitness.w_queue)) = (CosmosExec.set_mempool [] w_mempool, Ok [[x01]; [x02]]).
Proof. reflexivity. Qed.

Lemma w_one_new : (blen (unseen (cache (w_node SeqWitness.w_queue)) [[x01]; [x02]]) =? 0) = false.
Proof. by vm_compute. Qed.

Lemma SubmitTxs_delivers_witness : exists r' res,
  SubmitTxs (CosmosExec.GetTxs None) (Single.SubmitBatchTxs (H0 := w_codec)) (fun _ => 7) (w_node SeqWitness.w_queue) = (r', res) /\
  exec r' = CosmosExec.set_mempool [] w_mempool /\
  exists q sub, Single.SubmitBatchTxs (H0 := w_codec) (sequencer (w_node SeqWitness.w_queue))
    {| sr_Id := chainID (w_node SeqWitness.w_queue);
       sr_Batch := Some (MkBatch (unseen (cache (w_node SeqWitness.w_queue)) [[x01]; [x02]])) |} = (q, sub) /\ sequencer r' = q.
Proof.
  pose proof (SubmitTxs_delivers (CosmosExec.GetTxs None) (Single.SubmitBatchTxs (H0 := w_codec)) (fun _ => 7)
    (w_node SeqWitness.w_queue) (CosmosExec.set_mempool [] w_mempool) [[x01]; [x02]] w_taken) as H.
  cbv zeta in H. rewrite w_one_new in H. destruct (SubmitTxs _ _ _ _) as [r' res].
  exists r', res. destruct H as (He & q & sub & Hs & Hq & _). split; [done|]. split; [exact He|]. exists q, sub. exact (conj Hs Hq).
Defined.

Lemma full_queue_loses_txs_witness : exists r' e, SubmitTxs (CosmosExec.GetTxs None) (Single.SubmitBatchTxs (H0 := w_codec)) (fun _ => 7) (w_node w_full) = (r', Err e) /\
  CosmosExec.mempool (exec r') = [] /\ sequencer r' = sequencer (w_node w_full) /\
  (forall tx, tx ∈ unseen (cache (w_node w_full)) (CosmosExec.mempool (exec (w_node w_full))) -> seen (cache r') tx = false) /\
  forall clock', SubmitTxs (CosmosExec.GetTxs None) (Single.SubmitBatchTxs (H0 := w_codec)) clock' r' = (r', Ok tt).
Proof.
  exact (full_queue_loses_txs (H0 := w_codec) (fun _ => 7) (w_node w_full) w_valid w_is_full w_new).
Defined.

End ReaperWitness.

End Reaper.
