(* ===== verification/StoreAdapter.v ===== *)
(** The adapters that present the block store to the P2P layer (pkg/store/store_adapter.go): items
    received from peers wait in a bounded cache until the node has stored them; reads look at the
    store first and at the cache then; a reader of a height that is not there yet waits for it.

    An item is a value of a type with the class [Entity]; [None] stands for an item for which
    [IsZero] holds. The store is a field of the adapter, which the rest of the node changes between
    calls. Blocking calls take what happens while they wait as an argument. The waiting itself, with
    its interleavings, is the step relation of [HeightSub]. *)

From S2P Require Import Prelude Sha256 Interfaces Types Validation Store Pending DARetriever.

Import Store.

(** What the adapters use of an item. *)
Class Entity (H : Type) := {
  ent_Height : H -> Z; ent_Hash : H -> bytes; ent_DAHint : H -> Z; ent_SetDAHint : Z -> H -> H }.

(** The interface [StoreGetter]. *)
Class StoreGetter (D H : Type) := {
  sg_GetByHeight : D -> Z -> res H;
  sg_GetByHash : D -> bytes -> res H;
  sg_Height : D -> res Z;
  sg_HasAt : D -> Z -> bool;
  sg_GetDAHint : D -> Z -> res Z;
  sg_SetDAHint : D -> Z -> Z -> D * res unit;
}.

Module Adapter.

Definition maxPendingCacheSize : Z := 10000.
Definition ErrEmptyStore : err := ESentinel "header/store: no headers in store".
Definition ErrNotFoundHeader : err := ESentinel "header: not found".

(** ** The pending cache *)

Section pending.
Context {H : Type} `{EN : Entity H}.

Record pendingCache := { items : gmap Z H; byHash : gmap bytes Z; daHints : gmap Z Z; maxHeight : Z }.
Definition newPendingCache : pendingCache := {| items := ∅; byHash := ∅; daHints := ∅; maxHeight := 0 |}.

Definition pc_len (c : pendingCache) : Z := Z.of_nat (size (items c)).
Definition add (item : H) (c : pendingCache) : pendingCache :=
  let height := ent_Height item in
  {| items := <[height := item]> (items c);
     byHash := <[ent_Hash item := height]> (byHash c);
     daHints := if 0 <? ent_DAHint item then <[height := ent_DAHint item]> (daHints c) else daHints c;
     maxHeight := if maxHeight c <? height then height else maxHeight c |}.
Definition pc_get (height : Z) (c : pendingCache) : option H := items c !! height.
Definition pc_getByHash (hash : bytes) (c : pendingCache) : option H :=
  match byHash c !! hash with None => None | Some height => items c !! height end.
Definition pc_has (height : Z) (c : pendingCache) : bool := bool_decide (is_Some (items c !! height)).
Definition pc_hasByHash (hash : bytes) (c : pendingCache) : bool := bool_decide (is_Some (byHash c !! hash)).
Definition pc_getDAHint (height : Z) (c : pendingCache) : option Z := daHints c !! height.
Definition pc_setDAHint (height hint : Z) (c : pendingCache) : pendingCache :=
  {| items := items c; byHash := byHash c; daHints := <[height := hint]> (daHints c); maxHeight := maxHeight c |}.
Definition recalcMaxHeight (its : gmap Z H) : Z := map_fold (fun h _ m => if m <? h then h else m) 0 its.
Definition pc_delete (height : Z) (c : pendingCache) : pendingCache :=
  match items c !! height with
  | Some item =>
      let its := delete height (items c) in
      {| items := its; byHash := delete (ent_Hash item) (byHash c); daHints := delete height (daHints c);
         maxHeight := if height =? maxHeight c then recalcMaxHeight its else maxHeight c |}
  | None => {| items := items c; byHash := byHash c; daHints := delete height (daHints c); maxHeight := maxHeight c |}
  end.
Definition head (c : pendingCache) : option H * Z :=
  if maxHeight c =? 0 then (None, 0)
  else match items c !! maxHeight c with None => (None, 0) | Some item => (Some item, maxHeight c) end.

(** [pruneIf]: the items whose height satisfies the predicate go, with their hashes and hints. *)
Definition pruneIf (pred : Z -> bool) (c : pendingCache) : pendingCache * Z :=
  let gone := filter (fun kv => pred kv.1 = true) (items c) in
  let its := filter (fun kv => pred kv.1 = false) (items c) in
  ({| items := its;
      byHash := map_fold (fun _ item m => delete (ent_Hash item) m) (byHash c) gone;
      daHints := filter (fun kv => gone !! kv.1 = None) (daHints c);
      maxHeight := if bool_decide (is_Some (gone !! maxHeight c)) then recalcMaxHeight its else maxHeight c |},
   Z.of_nat (size gone)).

End pending.
#[global] Arguments pendingCache : clear implicits.

(** ** Heights and their waiters *)

(** Waiters are numbers, by the height they wait for. *)
Record heightSub := { hs_height : Z; heightChs : gmap Z (list nat) }.
Definition newHeightSub (initialHeight : Z) : heightSub := {| hs_height := initialHeight; heightChs := ∅ |}.
Definition notifyUpTo (h : Z) (hs : heightSub) : heightSub :=
  {| hs_height := hs_height hs; heightChs := filter (fun kv => ~ kv.1 <= h) (heightChs hs) |}.
Definition SetHeight (h : Z) (hs : heightSub) : heightSub :=
  notifyUpTo h {| hs_height := h; heightChs := heightChs hs |}.

(** ** The adapter *)

Section adapter.
Context {D H : Type} `{EN : Entity H} `{SG : StoreGetter D H} `{Datastore D}.

Record StoreAdapter := {
  a_store : D; genesisInitialHeight : Z; a_sub : heightSub; initialized : bool; pending : pendingCache H }.

Definition upd (hs : heightSub) (init : bool) (c : pendingCache H) (a : StoreAdapter) : StoreAdapter :=
  {| a_store := a_store a; genesisInitialHeight := genesisInitialHeight a; a_sub := hs; initialized := init; pending := c |}.
Definition set_store (s : D) (a : StoreAdapter) : StoreAdapter :=
  {| a_store := s; genesisInitialHeight := genesisInitialHeight a; a_sub := a_sub a; initialized := initialized a; pending := pending a |}.
Definition set_pending (c : pendingCache H) (a : StoreAdapter) : StoreAdapter := upd (a_sub a) (initialized a) c a.
Definition a_SetHeight (h : Z) (a : StoreAdapter) : StoreAdapter := upd (SetHeight h (a_sub a)) (initialized a) (pending a) a.

Definition NewStoreAdapter (s : D) (initialHeight : Z) : StoreAdapter :=
  let storeHeight := match sg_Height s with Ok h => h | Err _ => 0 end in
  {| a_store := s; genesisInitialHeight := Z.max initialHeight 1; a_sub := newHeightSub storeHeight;
     initialized := 0 <? storeHeight; pending := newPendingCache |}.

Definition Start (a : StoreAdapter) : StoreAdapter * res unit :=
  match sg_Height (a_store a) with
  | Err e => (a, Err e)
  | Ok h => (if 0 <? h then upd (SetHeight h (a_sub a)) true (pending a) a else a, Ok tt)
  end.

Definition store_height (a : StoreAdapter) : Z := match sg_Height (a_store a) with Ok h => h | Err _ => 0 end.

(** The head of the cache, which has a height of at least one where there is one. *)
Definition pending_head (a : StoreAdapter) : StoreAdapter * res H :=
  match head (pending a) with
  | (Some item, pendingHeight) => (a_SetHeight pendingHeight a, Ok item)
  | (None, _) => (a, Err ErrEmptyStore)
  end.
Definition Head (a : StoreAdapter) : StoreAdapter * res H :=
  let storeHeight := store_height a in
  if storeHeight <? (head (pending a)).2 then pending_head a
  else if 0 <? storeHeight then
    let a := a_SetHeight storeHeight a in
    match sg_GetByHeight (a_store a) storeHeight with
    | Ok item => (a, Ok item)
    | Err _ => pending_head a
    end
  else pending_head a.

(** The first candidate of [Tail]: after the pruned blocks, where the store knows them. *)
Definition tail_start (a : StoreAdapter) : Z :=
  match GetMetadata (a_store a) LastPrunedBlockHeightKey with
  | Ok bz =>
      if blen bz =? heightLength then
        match decodeHeight bz with
        | Ok lastPruned => if genesisInitialHeight a <? lastPruned +u 1 then lastPruned +u 1 else genesisInitialHeight a
        | Err _ => genesisInitialHeight a
        end
      else genesisInitialHeight a
  | Err _ => genesisInitialHeight a
  end.
(** [for h := startHeight + 1; h <= height; h++] *)
Fixpoint tail_walk (fuel : nat) (a : StoreAdapter) (h height : Z) : res H :=
  if height <? h then Err ErrEmptyStore
  else match fuel with
       | O => Err out_of_fuel
       | S fuel =>
           match sg_GetByHeight (a_store a) h with
           | Ok item => Ok item
           | Err _ => match pc_get h (pending a) with Some item => Ok item | None => tail_walk fuel a (h +u 1) height end
           end
       end.
Definition Tail (a : StoreAdapter) : res H :=
  let? height := if hs_height (a_sub a) =? 0
                 then match sg_Height (a_store a) with
                      | Ok h => if h =? 0 then Err ErrEmptyStore else Ok h
                      | Err _ => Err ErrEmptyStore
                      end
                 else Ok (hs_height (a_sub a)) in
  let startHeight := tail_start a in
  match sg_GetByHeight (a_store a) startHeight with
  | Ok item => Ok item
  | Err _ =>
      match pc_get (genesisInitialHeight a) (pending a) with
      | Some item => Ok item
      | None => tail_walk (Z.to_nat (height - startHeight)) a (startHeight +u 1) height
      end
  end.

(** The hint of an item: cached, or from the store and then cached. *)
Definition applyDAHint (item : H) (a : StoreAdapter) : StoreAdapter * H :=
  let height := ent_Height item in
  match pc_getDAHint height (pending a) with
  | Some hint => (a, ent_SetDAHint hint item)
  | None =>
      match sg_GetDAHint (a_store a) height with
      | Ok diskHint =>
          if 0 <? diskHint then (set_pending (pc_setDAHint height diskHint (pending a)) a, ent_SetDAHint diskHint item)
          else (a, item)
      | Err _ => (a, item)
      end
  end.
(** An item of the cache is shared: the hint is also set in the cache. *)
Definition apply_shared (height : Z) (item : H) (a : StoreAdapter) : StoreAdapter * H :=
  let '(a, item) := applyDAHint item a in
  (set_pending {| items := <[height := item]> (items (pending a)); byHash := byHash (pending a);
                  daHints := daHints (pending a); maxHeight := maxHeight (pending a) |} a, item).

Definition getByHeightNoWait (height : Z) (a : StoreAdapter) : StoreAdapter * res H :=
  match sg_GetByHeight (a_store a) height with
  | Ok item => let '(a, item) := applyDAHint item a in (a, Ok item)
  | Err _ =>
      match pc_get height (pending a) with
      | Some item => let '(a, item) := apply_shared height item a in (a, Ok item)
      | None => (a, Err ErrNotFoundHeader)
      end
  end.

Definition Get (hash : bytes) (a : StoreAdapter) : StoreAdapter * res H :=
  match sg_GetByHash (a_store a) hash with
  | Ok item => let '(a, item) := applyDAHint item a in (a, Ok item)
  | Err _ =>
      match byHash (pending a) !! hash with
      | Some height =>
          match pc_getByHash hash (pending a) with
          | Some item => let '(a, item) := apply_shared height item a in (a, Ok item)
          | None => (a, Err ErrNotFoundHeader)
          end
      | None => (a, Err ErrNotFoundHeader)
      end
  end.

(** What a wait ends with: the context's error, or a wake-up in the state others left. *)
Definition wake := StoreAdapter -> StoreAdapter + err.
Definition GetByHeight (w : wake) (height : Z) (a : StoreAdapter) : StoreAdapter * res H :=
  match getByHeightNoWait height a with
  | (a, Ok item) => (a, Ok item)
  | (a, Err _) =>
      if height <=? hs_height (a_sub a) then getByHeightNoWait height a
      else match w a with
           | inr e => (a, Err e)
           | inl a => getByHeightNoWait height a
           end
  end.

(** [for height := from; height < to; height++]; [w] by height. *)
Fixpoint range_loop (fuel : nat) (w : Z -> wake) (height to : Z) (got : list H) (a : StoreAdapter) : StoreAdapter * res (list H) :=
  match fuel with
  | O => (a, Ok got)
  | S fuel =>
      match GetByHeight (w height) height a with
      | (a, Err _) => (a, match got with [] => Err ErrNotFoundHeader | _ => Ok got end)
      | (a, Ok item) => range_loop fuel w (height +u 1) to (got ++ [item]) a
      end
  end.
Definition GetRange (w : Z -> wake) (from to : Z) (a : StoreAdapter) : StoreAdapter * res (list H) :=
  if to <=? from then (a, Ok []) else range_loop (Z.to_nat (to - from)) w from to [] a.
Definition GetRangeByHeight (w : Z -> wake) (from : option H) (to : Z) (a : StoreAdapter) : StoreAdapter * res (list H) :=
  match from with
  | None => (a, Err ErrNotFoundHeader)
  | Some from => if to <=? ent_Height from +u 1 then (a, Ok []) else GetRange w (ent_Height from +u 1) to a
  end.

Definition Has (hash : bytes) (a : StoreAdapter) : bool :=
  match sg_GetByHash (a_store a) hash with Ok _ => true | Err _ => pc_hasByHash hash (pending a) end.
Definition HasAt (height : Z) (a : StoreAdapter) : bool :=
  if sg_HasAt (a_store a) height then true else pc_has height (pending a).

Definition a_Height (a : StoreAdapter) : StoreAdapter * Z :=
  let h := store_height a in
  if 0 <? h then
    if h <? maxHeight (pending a) then (a_SetHeight (maxHeight (pending a)) a, maxHeight (pending a))
    else (a_SetHeight h a, h)
  else
    let height := hs_height (a_sub a) in
    (a, if 0 <? height then height else if height <? maxHeight (pending a) then maxHeight (pending a) else height).

Definition prunePersisted (a : StoreAdapter) : StoreAdapter :=
  let storeHeight := store_height a in
  if storeHeight =? 0 then a
  else set_pending (pruneIf (fun height => height <=? storeHeight) (pending a)).1 a.

(** Each retry of [waitForSpace] finds the store as the node has left it, or the context done. *)
Fixpoint waitForSpace (retries : list (option D)) (a : StoreAdapter) : StoreAdapter * list (option D) * res unit :=
  if pc_len (pending a) <? maxPendingCacheSize then (a, retries, Ok tt)
  else
    let a := prunePersisted a in
    if pc_len (pending a) <? maxPendingCacheSize then (a, retries, Ok tt)
    else match retries with
         | [] => (a, [], Err out_of_fuel)
         | None :: retries => (a, retries, Err (EMsg "context canceled"))
         | Some s :: retries => waitForSpace retries (set_store s a)
         end.

(** One item of [Append]. *)
Definition append_one (retries : list (option D)) (item : H) (a : StoreAdapter) : StoreAdapter * list (option D) * res unit :=
  let height := ent_Height item in
  if sg_HasAt (a_store a) height then (a, retries, Ok tt)
  else
    match waitForSpace retries a with
    | (a, retries, Err e) => (a, retries, Err e)
    | (a, retries, Ok _) =>
        let a := set_pending (add item (pending a)) a in
        let a := if 0 <? ent_DAHint item then set_store (sg_SetDAHint (a_store a) height (ent_DAHint item)).1 a else a in
        let a := if hs_height (a_sub a) <? height then a_SetHeight height a else a in
        (a, retries, Ok tt)
    end.
Fixpoint Append (retries : list (option D)) (l : list (option H)) (a : StoreAdapter) : StoreAdapter * res unit :=
  match l with
  | [] => (a, Ok tt)
  | None :: l => Append retries l a
  | Some item :: l =>
      match append_one retries item a with
      | (a, _, Err e) => (a, Err e)
      | (a, retries, Ok _) => Append retries l a
      end
  end.

Definition Init (item : option H) (a : StoreAdapter) : StoreAdapter :=
  if initialized a then a
  else match item with
       | None => a
       | Some item => upd (SetHeight (ent_Height item) (a_sub a)) true (add item (pending a)) a
       end.

(** [for height := from; height < to; height++] of the cache and of the callback. *)
Fixpoint delete_loop (fuel : nat) (height : Z) (c : pendingCache H) : pendingCache H :=
  match fuel with O => c | S fuel => delete_loop fuel (height +u 1) (pc_delete height c) end.
Fixpoint on_delete_loop {W} (fuel : nat) (onDeleteFn : W -> Z -> W * res unit) (height : Z) (w : W) : W * res unit :=
  match fuel with
  | O => (w, Ok tt)
  | S fuel => match onDeleteFn w height with
              | (w, Err e) => (w, Err e)
              | (w, Ok _) => on_delete_loop fuel onDeleteFn (height +u 1) w
              end
  end.
Definition DeleteRange {W} (onDeleteFn : option (W -> Z -> W * res unit)) (from to : Z) (w : W) (a : StoreAdapter)
  : W * StoreAdapter * res unit :=
  let n := Z.to_nat (to - from) in
  let a := set_pending (delete_loop n from (pending a)) a in
  let '(w, r) := match onDeleteFn with Some f => on_delete_loop n f from w | None => (w, Ok tt) end in
  match r with
  | Err e => (w, a, Err e)
  | Ok _ => (w, if from <=? hs_height (a_sub a) then a_SetHeight (from -u 1) a else a, Ok tt)
  end.

End adapter.
#[global] Arguments StoreAdapter : clear implicits.

(** ** The getters over the block store *)

Section getters.
Context {D K : Type} `{Datastore D} `{PubKeys K} `{Protowire} `{HashString}.
Context `{ProtoCodec pb_Version} `{ProtoCodec pb_Header} `{ProtoCodec pb_SignedHeader} `{ProtoCodec pb_Data}.

#[export] Instance header_Entity : Entity (P2PSignedHeader K) := {|
  ent_Height p := hd_Height (sh_Header (p2p_Header p));
  ent_Hash p := Header_Hash (sh_Header (p2p_Header p));
  ent_DAHint := p2p_HeaderHint;
  ent_SetDAHint hint p := {| p2p_Header := p2p_Header p; p2p_HeaderHint := hint |} |}.
(** Data without metadata, on which the code would panic, counts as height 0. *)
#[export] Instance data_Entity : Entity P2PData := {|
  ent_Height p := DARetriever.data_height (p2p_Data p);
  ent_Hash p := Data_Hash (p2p_Data p);
  ent_DAHint := p2p_DataHint;
  ent_SetDAHint hint p := {| p2p_Data := p2p_Data p; p2p_DataHint := hint |} |}.

Definition get_hint (key : Z -> string) (s : D) (height : Z) : res Z :=
  let? data := GetMetadata s (key height) in
  if blen data =? 8 then Ok (Uint64_LE data) else Err (EMsg "invalid da hint data length").
(** [daHint, _ := g.GetDAHint(ctx, height)] *)
Definition hint_or_zero (r : res Z) : Z := match r with Ok h => h | Err _ => 0 end.

#[export] Instance HeaderStoreGetter : StoreGetter D (P2PSignedHeader K) := {|
  sg_GetByHeight s height :=
    let? header := GetHeader s height in
    Ok {| p2p_Header := header; p2p_HeaderHint := hint_or_zero (get_hint GetHeightToDAHeightHeaderKey s height) |};
  sg_GetByHash s hash :=
    let? block := GetBlockByHash s hash in
    Ok {| p2p_Header := block.1;
          p2p_HeaderHint := hint_or_zero (get_hint GetHeightToDAHeightHeaderKey s (hd_Height (sh_Header block.1))) |};
  sg_Height := Height;
  sg_HasAt s height := match GetHeader (K := K) s height with Ok _ => true | Err _ => false end;
  sg_GetDAHint := get_hint GetHeightToDAHeightHeaderKey;
  sg_SetDAHint s height daHint := SetMetadata s (GetHeightToDAHeightHeaderKey height) (PutUint64_LE daHint) |}.

Definition DataStoreGetter : StoreGetter D P2PData := {|
  sg_GetByHeight s height :=
    let? block := GetBlockData (K := K) s height in
    Ok {| p2p_Data := block.2; p2p_DataHint := hint_or_zero (get_hint GetHeightToDAHeightDataKey s height) |};
  sg_GetByHash s hash :=
    let? block := GetBlockByHash (K := K) s hash in
    Ok {| p2p_Data := block.2; p2p_DataHint := hint_or_zero (get_hint GetHeightToDAHeightDataKey s (DARetriever.data_height block.2)) |};
  sg_Height := Height;
  sg_HasAt s height := match GetBlockData (K := K) s height with Ok _ => true | Err _ => false end;
  sg_GetDAHint := get_hint GetHeightToDAHeightDataKey;
  sg_SetDAHint s height daHint := SetMetadata s (GetHeightToDAHeightDataKey height) (PutUint64_LE daHint) |}.

End getters.

(** ** From the peers to the store *)

(** What the adapter relies on: an item is found where the getter says there is one, hints are kept
    apart from items, and setting a hint changes nothing else. *)
Class EntityLaws (H : Type) `{Entity H} := {
  ent_Height_hint d (x : H) : ent_Height (ent_SetDAHint d x) = ent_Height x;
  ent_Hash_hint d (x : H) : ent_Hash (ent_SetDAHint d x) = ent_Hash x;
}.
Class StoreGetterLaws (D H : Type) `{Entity H} `{StoreGetter D H} := {
  sg_ok : D -> Prop;
  sg_HasAt_spec s h : sg_HasAt s h = true <-> exists x, sg_GetByHeight s h = Ok x;
  sg_Get_height s h x : sg_ok s -> is_u64 h -> sg_GetByHeight s h = Ok x -> ent_Height x = h;
  sg_SetDAHint_keeps s h d : sg_ok s -> let s' := (sg_SetDAHint s h d).1 in
    sg_ok s' /\ sg_Height s' = sg_Height s /\ forall h', sg_HasAt s' h' = sg_HasAt s h';
}.

Section handover.
Context {D H : Type} `{EL : EntityLaws H} `{SL : !StoreGetter D H} `{LL : !StoreGetterLaws D H} `{DS : Datastore D}.
Context (initial : Z).
Abbreviation adapter := (StoreAdapter D H).

Definition height_of (s : D) : Z := match sg_Height s with Ok h => h | Err _ => 0 end.
(** The blocks of the chain up to the store's height are there. *)
Definition complete (s : D) : Prop := sg_ok s /\ forall h, initial <= h <= height_of s -> sg_HasAt s h = true.
(** The node only adds blocks. *)
Definition grows (s s' : D) : Prop := complete s' /\ forall h, sg_HasAt s h = true -> sg_HasAt s' h = true.
Fixpoint growing (s : D) (retries : list (option D)) : Prop :=
  match retries with
  | [] => True
  | None :: l => growing s l
  | Some s' :: l => grows s s' /\ growing s' l
  end.

Lemma grows_trans s1 s2 s3 : grows s1 s2 -> grows s2 s3 -> grows s1 s3.
Proof. intros [_ G1] [G2 G3]. split; auto. Qed.
Lemma growing_weaken s s' retries : (forall h, sg_HasAt s h = true -> sg_HasAt s' h = true) ->
  growing s' retries -> growing s retries.
Proof.
  revert s s'. induction retries as [|[x|] l IH]; intros s s' Hs; simpl; [done| |by apply IH].
  intros [[Hc Hg] Hl]. split; [|done]. split; [done|]. auto.
Qed.

(** The cache: items are under their heights, the maximum is right, and it is bounded. *)
Record inv (a : adapter) : Prop := {
  in_store : complete (a_store a);
  in_items h x : items (pending a) !! h = Some x -> ent_Height x = h /\ is_u64 h;
  in_max : maxHeight (pending a) = recalcMaxHeight (items (pending a));
  in_bound : pc_len (pending a) <= maxPendingCacheSize + (if initialized a then 1 else 0);
}.

Definition available (a : adapter) (h : Z) : Prop := HasAt h a = true.

Lemma available_spec a h : available a h <-> sg_HasAt (a_store a) h = true \/ is_Some (items (pending a) !! h).
Proof.
  unfold available, HasAt, pc_has. destruct (sg_HasAt (a_store a) h); [split; [by left|done]|].
  rewrite bool_decide_eq_true. split; [by right|]. by intros [|].
Qed.

(** The largest key. *)
Lemma recalc_spec (m : gmap Z H) : 0 <= recalcMaxHeight m /\ (forall h x, m !! h = Some x -> h <= recalcMaxHeight m) /\
  (recalcMaxHeight m = 0 \/ is_Some (m !! recalcMaxHeight m)).
Proof.
  unfold recalcMaxHeight. apply (map_fold_weak_ind (fun r m => 0 <= r /\ (forall h x, m !! h = Some x -> h <= r) /\ (r = 0 \/ is_Some (m !! r))));
    [naive_solver lia|].
  intros i x m' r Hn (G0 & Hall & Hor). destruct (Z.ltb_spec r i) as [Hlt|Hle]; split_and!; try lia.
  - intros h y [[<- _]|[_ E]]%lookup_insert_Some; [lia|]. specialize (Hall _ _ E). lia.
  - right. rewrite lookup_insert_eq. by eexists.
  - intros h y [[<- _]|[_ E]]%lookup_insert_Some; [lia|]. by apply Hall in E.
  - destruct Hor as [|Hs]; [by left|]. right. destruct (decide (i = r)) as [->|]; [rewrite lookup_insert_eq; by eexists|].
    by rewrite lookup_insert_ne.
Qed.
(** It is determined by this. *)
Lemma recalc_unique (m : gmap Z H) r : 0 <= r -> (forall h x, m !! h = Some x -> h <= r) -> (r = 0 \/ is_Some (m !! r)) ->
  r = recalcMaxHeight m.
Proof.
  intros G0 Hall Hor. destruct (recalc_spec m) as (G0' & Hall' & Hor').
  assert (recalcMaxHeight m <= r) by (destruct Hor' as [->|[x E]]; [done|by apply Hall in E]).
  assert (r <= recalcMaxHeight m) by (destruct Hor as [->|[x E]]; [done|by apply Hall' in E]). lia.
Qed.

Lemma recalc_insert (m : gmap Z H) h x : 0 <= h ->
  recalcMaxHeight (<[h := x]> m) = if recalcMaxHeight m <? h then h else recalcMaxHeight m.
Proof.
  intros Hh. symmetry. destruct (recalc_spec m) as (G0 & Hall & Hor).
  apply recalc_unique; destruct (Z.ltb_spec (recalcMaxHeight m) h); try lia.
  - intros h' y [[<- _]|[_ E]]%lookup_insert_Some; [lia|]. apply Hall in E. lia.
  - intros h' y [[<- _]|[_ E]]%lookup_insert_Some; [lia|]. by apply Hall in E.
  - right. rewrite lookup_insert_eq. by eexists.
  - destruct Hor as [|Hs]; [by left|]. right. destruct (decide (h = recalcMaxHeight m)) as [->|];
      [rewrite lookup_insert_eq; by eexists|by rewrite lookup_insert_ne].
Qed.

(** Removing keys keeps the maximum unless its own key goes. *)
Lemma recalc_keep (m m' : gmap Z H) : m' ⊆ m -> (is_Some (m !! recalcMaxHeight m) -> is_Some (m' !! recalcMaxHeight m)) ->
  recalcMaxHeight m = recalcMaxHeight m'.
Proof.
  intros Hs Hk. destruct (recalc_spec m) as (G0 & Hall & Hor). apply recalc_unique; [done| |destruct Hor; [by left|right; by apply Hk]].
  intros h x E. eapply Hall, lookup_weaken; eauto.
Qed.

(** A change that keeps the invariant, what is available and the stored blocks. *)
Record ext (a a' : adapter) : Prop := {
  ex_inv : inv a';
  ex_avail h : initial <= h -> available a h -> available a' h;
  ex_store h : sg_HasAt (a_store a) h = true -> sg_HasAt (a_store a') h = true;
}.

Lemma ext_refl a : inv a -> ext a a.
Proof. by split. Qed.
Lemma ext_trans a1 a2 a3 : ext a1 a2 -> ext a2 a3 -> ext a1 a3.
Proof. intros [A1 A2 A3] [B1 B2 B3]. split; auto. Qed.

(** Only the heights, the flag, hashes or hints change. *)
Lemma ext_cosmetic a a' : inv a -> a_store a' = a_store a -> items (pending a') = items (pending a) ->
  maxHeight (pending a') = maxHeight (pending a) -> (initialized a = true -> initialized a' = true) -> ext a a'.
Proof.
  intros [I1 I2 I3 I4] Es Ei Em Hi. split.
  - split; rewrite ?Es, ?Ei, ?Em; try done. unfold pc_len in *. rewrite Ei. destruct (initialized a), (initialized a'); try lia.
  - intros h _. rewrite !available_spec, Es, Ei. done.
  - by rewrite Es.
Qed.

(** An item is replaced by one of the same height. *)
Lemma ext_reitem a h x y : inv a -> items (pending a) !! h = Some x -> ent_Height y = h ->
  ext a (set_pending {| items := <[h := y]> (items (pending a)); byHash := byHash (pending a);
                        daHints := daHints (pending a); maxHeight := maxHeight (pending a) |} a).
Proof.
  intros [I1 I2 I3 I4] Ex Ey. destruct (I2 h x Ex) as [_ Hu]. split.
  - split; simpl; [done| | |].
    + intros h' z [[<- <-]|[_ E]]%lookup_insert_Some; [done|by apply I2].
    + rewrite recalc_insert, I3 by (unfold is_u64 in *; lia). destruct (recalc_spec (items (pending a))) as (_ & Hall & _).
      specialize (Hall _ _ Ex). destruct (Z.ltb_spec (recalcMaxHeight (items (pending a))) h); [lia|done].
    + unfold pc_len in *. simpl. rewrite map_size_insert, Ex. simpl. done.
  - intros h' _. rewrite !available_spec. simpl. destruct (decide (h' = h)) as [->|]; [rewrite lookup_insert_eq; eauto|].
    by rewrite lookup_insert_ne.
  - done.
Qed.

Lemma applyDAHint_ext x a : inv a -> ext a (applyDAHint x a).1 /\ a_store (applyDAHint x a).1 = a_store a /\
  items (pending (applyDAHint x a).1) = items (pending a) /\ ent_Height (applyDAHint x a).2 = ent_Height x.
Proof.
  intros Hi. unfold applyDAHint. destruct (pc_getDAHint _ _); [|destruct (sg_GetDAHint _ _) as [d|]; [destruct (0 <? d)|]];
    simpl; (split; [by apply ext_cosmetic|]); rewrite ?ent_Height_hint; done.
Qed.

Lemma apply_shared_ext h x a : inv a -> items (pending a) !! h = Some x ->
  ext a (apply_shared h x a).1 /\ ent_Height (apply_shared h x a).2 = h.
Proof.
  intros Hi Ex. unfold apply_shared. destruct (applyDAHint_ext x a Hi) as (He & _ & Ei & Eh).
  destruct (applyDAHint x a) as [a1 y]. simpl in *. destruct (in_items _ Hi h x Ex) as [Ehx _].
  split; [|congruence]. eapply ext_trans; [exact He|]. eapply ext_reitem; [apply He|by rewrite Ei|congruence].
Qed.

(** What is available can be read without waiting; reading keeps everything. *)
Lemma read_spec h a : inv a -> is_u64 h -> ext a (getByHeightNoWait h a).1 /\
  (forall x, (getByHeightNoWait h a).2 = Ok x -> ent_Height x = h) /\
  (available a h -> exists x, (getByHeightNoWait h a).2 = Ok x).
Proof.
  intros Hi Hu. unfold getByHeightNoWait. destruct (sg_GetByHeight (a_store a) h) as [x|e] eqn:E.
  - destruct (applyDAHint_ext x a Hi) as (He & _ & _ & Eh). destruct (applyDAHint x a) as [a1 y]. simpl in *.
    split; [done|]. split; [|eauto]. intros y' [= <-]. rewrite Eh. eapply sg_Get_height; eauto. by destruct (in_store _ Hi).
  - destruct (pc_get h (pending a)) as [x|] eqn:Ep.
    + destruct (apply_shared_ext h x a Hi Ep) as (He & Eh). destruct (apply_shared h x a) as [a1 y]. simpl in *.
      split; [done|]. split; [|eauto]. by intros y' [= <-].
    + simpl. split; [by apply ext_refl|]. split; [done|]. rewrite available_spec. unfold pc_get in Ep. rewrite Ep.
      intros [Hs|[? ?]]; [|done]. apply sg_HasAt_spec in Hs as [x Ex]. congruence.
Qed.

Lemma Get_ext k a : inv a -> ext a (Get k a).1.
Proof.
  intros Hi. unfold Get. destruct (sg_GetByHash _ _) as [x|e].
  - destruct (applyDAHint_ext x a Hi) as (He & _). by destruct (applyDAHint x a).
  - destruct (byHash (pending a) !! k) as [h|] eqn:Eb; [|by apply ext_refl].
    unfold pc_getByHash. rewrite Eb. destruct (items (pending a) !! h) as [x|] eqn:Ex; [|by apply ext_refl].
    destruct (apply_shared_ext h x a Hi Ex) as (He & _). by destruct (apply_shared h x a).
Qed.

Lemma prune_ext a : inv a -> ext a (prunePersisted a).
Proof.
  intros Hi. pose proof Hi as [[Ok0 I1] I2 I3 I4]. unfold prunePersisted. destruct (Z.eqb_spec (store_height a) 0) as [|_]; [by apply ext_refl|].
  set (m := items (pending a)) in *. set (n := store_height a) in *.
  set (its := filter (fun kv => (kv.1 <=? n) = false) m).
  assert (Hsub : its ⊆ m) by apply map_filter_subseteq.
  split; [split|..]; simpl; fold m n its.
  - by split.
  - intros h x E. apply I2. eapply lookup_weaken; eauto.
  - case_bool_decide as Hg; [done|]. rewrite I3. fold m. apply recalc_keep; [done|]. intros [x E].
    exists x. apply map_lookup_filter_Some. split; [done|]. simpl. destruct (recalcMaxHeight m <=? n) eqn:El; [|done].
    destruct Hg. rewrite I3. exists x. apply map_lookup_filter_Some. done.
  - unfold pc_len in *. simpl. fold m its. assert (size its <= size m)%nat by (by apply map_subseteq_size). fold m in I4. lia.
  - intros h Hh. rewrite !available_spec. simpl. fold m n its. intros [Hs|[x E]]; [by left|].
    destruct (h <=? n) eqn:El; [left; apply I1; split; [done|by apply Z.leb_le in El]|]. right. exists x. by apply map_lookup_filter_Some.
  - done.
Qed.

Lemma store_ext s a : inv a -> grows (a_store a) s -> ext a (set_store s a).
Proof.
  intros [I1 I2 I3 I4] [Gc Gh]. split; [by split|..]; [|done].
  intros h _. rewrite !available_spec. simpl. intros [Hs|Hs]; auto.
Qed.

Lemma wait_ext retries a : inv a -> growing (a_store a) retries ->
  let '(a', retries', r) := waitForSpace retries a in
  ext a a' /\ growing (a_store a') retries' /\ (r = Ok tt -> pc_len (pending a') < maxPendingCacheSize).
Proof.
  revert a. induction retries as [|o retries IH]; intros a Hi Hg; cbn [waitForSpace].
  all: destruct (Z.ltb_spec (pc_len (pending a)) maxPendingCacheSize); [split; [by apply ext_refl|done]|].
  all: pose proof (prune_ext a Hi) as He.
  all: assert (Eq : a_store (prunePersisted a) = a_store a) by (unfold prunePersisted; by destruct (_ =? _)).
  all: destruct (Z.ltb_spec (pc_len (pending (prunePersisted a))) maxPendingCacheSize);
    [split; [exact He|]; split; [by rewrite Eq|done]|].
  - done.
  - destruct o as [s|]; [|by rewrite Eq; split; [exact He|split; [exact Hg|]]].
    destruct Hg as [Hgs Hg]. rewrite <- Eq in Hgs. pose proof (store_ext s _ (ex_inv _ _ He) Hgs) as He'.
    specialize (IH (set_store s (prunePersisted a)) (ex_inv _ _ He') Hg).
    destruct (waitForSpace retries _) as [[a' retries'] r]. destruct IH as (E1 & E2 & E3).
    split; [eapply ext_trans; [exact He|]; by eapply ext_trans|done].
Qed.

Lemma add_ext x a : inv a -> is_u64 (ent_Height x) -> pc_len (pending a) < maxPendingCacheSize + (if initialized a then 1 else 0) ->
  ext a (set_pending (add x (pending a)) a) /\ available (set_pending (add x (pending a)) a) (ent_Height x).
Proof.
  intros [I1 I2 I3 I4] Hu Hl. split; [|apply available_spec; right; simpl; rewrite lookup_insert_eq; by eexists]. split.
  - split; simpl; [done| | |].
    + intros h y [[<- <-]|[_ E]]%lookup_insert_Some; [done|by apply I2].
    + rewrite recalc_insert, I3 by (unfold is_u64 in *; lia). done.
    + unfold pc_len in *. simpl. rewrite map_size_insert. destruct (items (pending a) !! ent_Height x); simpl; unfold id; lia.
  - intros h _. rewrite !available_spec. simpl. destruct (decide (h = ent_Height x)) as [->|]; [rewrite lookup_insert_eq; eauto|].
    by rewrite lookup_insert_ne.
  - done.
Qed.

Lemma append_one_spec retries x a : inv a -> is_u64 (ent_Height x) -> growing (a_store a) retries ->
  let '(a', retries', r) := append_one retries x a in
  ext a a' /\ growing (a_store a') retries' /\ (r = Ok tt -> available a' (ent_Height x)).
Proof.
  intros Hi Hu Hg. unfold append_one. destruct (sg_HasAt (a_store a) (ent_Height x)) eqn:Eh.
  { split; [by apply ext_refl|]. split; [done|]. intros _. apply available_spec. by left. }
  pose proof (wait_ext retries a Hi Hg) as Hw. destruct (waitForSpace retries a) as [[a1 retries'] r].
  destruct Hw as (He & Hg' & Hr). destruct r as [[]|e]; [|done].
  destruct (add_ext x a1 (ex_inv _ _ He) Hu) as [He2 Hav]; [specialize (Hr eq_refl); destruct (initialized a1); lia|].
  set (a2 := set_pending (add x (pending a1)) a1) in *.
  assert (H3 : exists a3, (if 0 <? ent_DAHint x then set_store (sg_SetDAHint (a_store a2) (ent_Height x) (ent_DAHint x)).1 a2 else a2) = a3 /\
    ext a2 a3 /\ available a3 (ent_Height x) /\ growing (a_store a3) retries').
  { destruct (0 <? ent_DAHint x); [|exists a2; split; [done|]; split; [by apply ext_refl; apply He2|done]].
    eexists. split; [reflexivity|].
    destruct (in_store _ (ex_inv _ _ He2)) as [Hok Hc].
    pose proof (sg_SetDAHint_keeps (a_store a2) (ent_Height x) (ent_DAHint x) Hok) as (K1 & K2 & K3).
    set (s := (sg_SetDAHint (a_store a2) (ent_Height x) (ent_DAHint x)).1) in *.
    assert (Hgs : grows (a_store a2) s).
    { split; [|intros h Hh; by rewrite K3]. split; [done|]. intros h Hh. unfold height_of in Hh. rewrite K2 in Hh. rewrite K3. by apply Hc. }
    pose proof (store_ext s a2 (ex_inv _ _ He2) Hgs) as He3. split; [done|]. split.
    - apply available_spec. right. apply available_spec in Hav as [Hs|Hs]; simpl; rewrite lookup_insert_eq; by eexists.
    - simpl. eapply growing_weaken; [|exact Hg']. intros h. by rewrite K3. }
  destruct H3 as (a3 & -> & He3 & Hav3 & Hg3).
  assert (He4 : ext a3 (if hs_height (a_sub a3) <? ent_Height x then a_SetHeight (ent_Height x) a3 else a3)).
  { destruct (_ <? _); [apply ext_cosmetic|apply ext_refl]; try done; apply He3. }
  split; [eapply ext_trans; [exact He|]; eapply ext_trans; [exact He2|]; by eapply ext_trans|].
  split; [by destruct (_ <? _)|]. intros _. by destruct (_ <? _).
Qed.

Definition items_ok (l : list (option H)) : Prop := forall x, Some x ∈ l -> is_u64 (ent_Height x).

Lemma Append_spec retries l a : inv a -> items_ok l -> growing (a_store a) retries ->
  let '(a', r) := Append retries l a in
  ext a a' /\ (r = Ok tt -> forall x, Some x ∈ l -> initial <= ent_Height x -> available a' (ent_Height x)).
Proof.
  revert retries a. induction l as [|[x|] l IH]; intros retries a Hi Hl Hg; cbn [Append].
  - split; [by apply ext_refl|]. by intros _ x ?%elem_of_nil.
  - pose proof (append_one_spec retries x a Hi (Hl x ltac:(by left)) Hg) as Ho.
    destruct (append_one retries x a) as [[a1 retries'] r]. destruct Ho as (He & Hg' & Hav).
    destruct r as [[]|e]; [|split; [done|done]]. specialize (IH retries' a1 (ex_inv _ _ He) ltac:(intros y Hy; apply Hl; by right) Hg').
    destruct (Append retries' l a1) as [a2 r]. destruct IH as [He2 Hav2]. split; [by eapply ext_trans|].
    intros Hr y [[= ->]|Hy]%elem_of_cons Hy0; [apply (ex_avail _ _ He2); auto|by apply Hav2].
  - specialize (IH retries a Hi ltac:(intros y Hy; apply Hl; by right) Hg). destruct (Append retries l a) as [a2 r].
    destruct IH as [He Hav]. split; [done|]. intros Hr y [?|Hy]%elem_of_cons Hy0; [done|by apply Hav].
Qed.

Lemma Init_ext item a : inv a -> (forall x, item = Some x -> is_u64 (ent_Height x)) -> ext a (Init item a).
Proof.
  intros Hi Hu. unfold Init. destruct (initialized a) eqn:Ei; [by apply ext_refl|]. destruct item as [x|]; [|by apply ext_refl].
  set (a0 := upd (a_sub a) true (pending a) a). assert (He : ext a a0) by (by apply ext_cosmetic).
  destruct (add_ext x a0 (ex_inv _ _ He) (Hu x eq_refl)) as [He2 _].
  { destruct Hi as [_ _ _ I4]. rewrite Ei in I4. simpl. lia. }
  eapply ext_trans; [exact He|]. eapply ext_trans; [exact He2|]. apply ext_cosmetic; try done. apply He2.
Qed.

Lemma head_ext a : inv a -> ext a (Head a).1 /\ ext a (a_Height a).1 /\ ext a (Start a).1.
Proof.
  intros Hi.
  assert (Hp : forall a', inv a' -> ext a' (pending_head a').1).
  { intros a' Hi'. unfold pending_head. destruct (head (pending a')) as [[x|] n]; [by apply ext_cosmetic|by apply ext_refl]. }
  assert (Hset : forall n, ext a (a_SetHeight n a)) by (intros n; by apply ext_cosmetic).
  split_and!.
  - unfold Head. destruct (_ <? _); [by apply Hp|]. destruct (_ <? _); [|by apply Hp].
    destruct (sg_GetByHeight _ _); [apply Hset|]. eapply ext_trans; [apply Hset|]. apply Hp. apply (Hset (store_height a)).
  - unfold a_Height. destruct (0 <? store_height a); [destruct (_ <? _); apply Hset|by apply ext_refl].
  - unfold Start. destruct (sg_Height _) as [n|]; [|by apply ext_refl]. destruct (0 <? n); [by apply ext_cosmetic|by apply ext_refl].
Qed.

(** What happens to an adapter, deletions apart: calls of the P2P layer, and blocks stored by the node. *)
Inductive step : adapter -> adapter -> Prop :=
  | step_append a retries l : items_ok l -> growing (a_store a) retries -> step a (Append retries l a).1
  | step_init a item : (forall x, item = Some x -> is_u64 (ent_Height x)) -> step a (Init item a)
  | step_get a h : is_u64 h -> step a (getByHeightNoWait h a).1
  | step_get_hash a k : step a (Get k a).1
  | step_head a : step a (Head a).1
  | step_height a : step a (a_Height a).1
  | step_start a : step a (Start a).1
  | step_store a s : grows (a_store a) s -> step a (set_store s a).

Lemma step_ext a a' : step a a' -> inv a -> ext a a'.
Proof.
  intros Hs Hi. destruct Hs.
  - pose proof (Append_spec retries l a Hi) as HA. destruct (Append retries l a). by apply HA.
  - by apply Init_ext.
  - by apply read_spec.
  - by apply Get_ext.
  - by apply head_ext.
  - by apply head_ext.
  - by apply head_ext.
  - by apply store_ext.
Qed.

Lemma steps_ext a a' : rtc step a a' -> inv a -> ext a a'.
Proof.
  induction 1 as [|a a1 a2 Hs _ IH]; intros Hi; [by apply ext_refl|].
  pose proof (step_ext _ _ Hs Hi) as He. eapply ext_trans; [exact He|apply IH, He].
Qed.

Lemma new_inv s n : complete s -> inv (NewStoreAdapter s n).
Proof.
  intros Hc. split; simpl; [done|by intros h x; rewrite lookup_empty|by unfold recalcMaxHeight; rewrite map_fold_empty|].
  unfold pc_len, maxPendingCacheSize. simpl. rewrite map_size_empty. destruct (0 <? _); lia.
Qed.


End handover.

(** The getters over the block store keep the contract, on a healthy store whose blocks are filed
    under their heights. *)
Section getter_laws.
Context {D K : Type} `{DL : DatastoreLaws D} `{PK : PubKeys K} `{PW : Protowire} `{HS : HashString} `{HL : !HashStringLaws}.
Context `{CV : ProtoCodec pb_Version} `{CHd : ProtoCodec pb_Header} `{CH : ProtoCodec pb_SignedHeader} `{CD : ProtoCodec pb_Data}.

#[export] Instance header_EntityLaws : EntityLaws (P2PSignedHeader K).
Proof. by split. Qed.
#[export] Instance data_EntityLaws : EntityLaws P2PData.
Proof. by split. Qed.

(** A hint changes neither the blocks nor the height. *)
Lemma hint_frame (s : D) key v : ds_healthy s -> clean_tail true key = true ->
  ds_healthy (SetMetadata s key v).1 /\ Height (SetMetadata s key v).1 = Height s /\
  forall h, block_at (K := K) (SetMetadata s key v).1 h = block_at s h.
Proof.
  intros Hs Hk. destruct (Pending.SetMetadata_view s key v Hs Hk) as (s' & -> & Hs' & V). simpl.
  split; [done|]. split.
  - apply height_frame; [done|done|]. by rewrite V, lookup_insert_ne.
  - intros h. apply block_frame; [done|done|]. intros k Hin. rewrite V, lookup_insert_ne; [done|].
    rewrite !elem_of_cons, elem_of_nil in Hin. decompose [or] Hin; subst; done.
Qed.

Definition filed (s : D) : Prop := forall h (x : SignedHeader K) d, is_u64 h ->
  (GetHeader s h = Ok x -> hd_Height (sh_Header x) = h) /\
  (GetBlockData s h = Ok (x, d) -> DARetriever.DARetriever.data_height d = h).

Lemma filed_frame s s' : (forall h, block_at (K := K) s' h = block_at s h) -> filed s -> filed s'.
Proof. intros Hb Hf h x d Hu. specialize (Hb h). unfold block_at in Hb. injection Hb as -> -> _. by apply Hf. Qed.

Lemma has_ok {A B} (r : res A) (f : A -> res B) (g : A -> B) : (forall x, f x = Ok (g x)) ->
  match r with Ok _ => true | Err _ => false end = true <-> exists x, res_bind r f = Ok x.
Proof. intros Hf. destruct r as [x|e]; simpl; [|split; [done|by intros [? ?]]]. rewrite Hf. split; eauto. Qed.

#[export] Instance HeaderStoreGetterLaws : StoreGetterLaws D (P2PSignedHeader K).
Proof.
  refine {| sg_ok s := ds_healthy s /\ filed s |}.
  - intros s h. cbn. by eapply has_ok.
  - intros s h x [_ Hf] Hu. cbn. destruct (GetHeader s h) as [y|e] eqn:E; [|done]. simpl. intros [= <-]. cbn.
    by apply (Hf h y {| dt_Metadata := None; Txs := [] |} Hu).
  - intros s h d [Hs Hf]. cbn [sg_SetDAHint sg_HasAt sg_Height HeaderStoreGetter DataStoreGetter]. destruct (hint_frame s (GetHeightToDAHeightHeaderKey h) (PutUint64_LE d) Hs) as (H1 & H2 & H3);
      [apply clean_rhb|]. split; [split; [done|by eapply filed_frame]|]. split; [done|].
    intros h'. specialize (H3 h'). unfold block_at in H3. by injection H3 as -> _ _.
Defined.

Definition DataStoreGetterLaws : @StoreGetterLaws D P2PData _ (DataStoreGetter (K := K)).
Proof.
  refine (@Build_StoreGetterLaws D P2PData _ (DataStoreGetter (K := K)) (fun s => ds_healthy s /\ filed s) _ _ _).
  - intros s h. cbn. by eapply has_ok.
  - intros s h x [_ Hf] Hu. cbn. destruct (GetBlockData s h) as [[y d]|e] eqn:E; [|done]. simpl. intros [= <-]. cbn.
    by apply (Hf h y d Hu).
  - intros s h d [Hs Hf]. cbn [sg_SetDAHint sg_HasAt sg_Height HeaderStoreGetter DataStoreGetter]. destruct (hint_frame s (GetHeightToDAHeightDataKey h) (PutUint64_LE d) Hs) as (H1 & H2 & H3);
      [apply clean_rhb|]. split; [split; [done|by eapply filed_frame]|]. split; [done|].
    intros h'. specialize (H3 h'). unfold block_at in H3. by injection H3 as _ -> _.
Defined.

End getter_laws.

(** ** Blocks by hash *)

Section by_hash.
Context {D K : Type} `{DS : Datastore D} `{PK : PubKeys K} `{PW : Protowire} `{HS : HashString}.
Context `{CV : ProtoCodec pb_Version} `{CHd : ProtoCodec pb_Header} `{CH : ProtoCodec pb_SignedHeader} `{CD : ProtoCodec pb_Data}.

(** What [SaveBlockData] puts in the index: hashes of the bytes of signed headers. *)
Definition index_of_signed (s : D) : Prop := forall k h, getHeightByHash s k = Ok h ->
  exists (y : SignedHeader K) blob, SignedHeader_MarshalBinary y = Ok blob /\ k = sha256_Sum256 blob.
(** The bytes a header is hashed over. *)
Definition hashed_bytes (x : Header) (b : bytes) : Prop := Header_MarshalBinary x = Ok b \/ marshalLegacyHeader x = Ok b.

Lemma Header_Hash_bytes x : Header_Hash x = [] \/ exists b, hashed_bytes x b /\ Header_Hash x = sha256_Sum256 b.
Proof.
  unfold Header_Hash, HashSlim, HashLegacy, hashed_bytes. destruct (Header_MarshalBinary x) as [b|]; simpl; [|by left].
  right. destruct (negb _); [|eauto]. destruct (marshalLegacyHeader x) as [b'|]; simpl; eauto.
Qed.

Lemma found_signed (s : D) k y : index_of_signed s -> GetBlockByHash (K := K) s k = Ok y ->
  exists (z : SignedHeader K) blob, SignedHeader_MarshalBinary z = Ok blob /\ k = sha256_Sum256 blob.
Proof.
  intros Hi. unfold GetBlockByHash. destruct (getHeightByHash s k) as [h|] eqn:E; [|done]. intros _. by apply (Hi k h).
Qed.

(** A stored block is not found under its hash. The store indexes a block by the hash of the
    bytes of its signed header; the P2P layer asks with the hash of the header, or of the data.
    Once a block has left the cache, [Get] with its hash fails and [Has] is false for both adapters,
    although the block is there by height, unless the SHA-256 of what they hash coincides with that
    of the bytes of some signed header. *)
Theorem stored_block_unknown_by_hash (s : D) (ah : StoreAdapter D (P2PSignedHeader K)) (ad : StoreAdapter D P2PData)
  (h : Z) (x : SignedHeader K) (d : Data) (Hx : GetBlockData s h = Ok (x, d)) (Hi : index_of_signed s)
  (Eh : a_store ah = s) (Ed : a_store ad = s) (Hne : Header_Hash (sh_Header x) <> [])
  (Hh : byHash (pending ah) !! Header_Hash (sh_Header x) = None) (Hd : byHash (pending ad) !! Data_Hash d = None) :
  (exists hint, (getByHeightNoWait h ah).2 = Ok {| p2p_Header := x; p2p_HeaderHint := hint |}) /\
  (((Get (Header_Hash (sh_Header x)) ah).2 = Err ErrNotFoundHeader /\ Has (Header_Hash (sh_Header x)) ah = false) \/
   exists b (y : SignedHeader K) blob, hashed_bytes (sh_Header x) b /\ SignedHeader_MarshalBinary y = Ok blob /\
     sha256_Sum256 b = sha256_Sum256 blob) /\
  (((Get (SG := DataStoreGetter (K := K)) (Data_Hash d) ad).2 = Err ErrNotFoundHeader /\
    Has (SG := DataStoreGetter (K := K)) (Data_Hash d) ad = false) \/
   exists (y : SignedHeader K) blob, SignedHeader_MarshalBinary y = Ok blob /\
     sha256_Sum256 (leafPrefix ++ marshal_or_nil d) = sha256_Sum256 blob).
Proof.
  split; [|split].
  - unfold getByHeightNoWait. rewrite Eh. cbn [sg_GetByHeight HeaderStoreGetter]. unfold GetBlockData in Hx.
    destruct (GetHeader s h) as [x'|]; [|done]. simpl in Hx. destruct (ds_Get _ _); [|done].
    destruct (Data_UnmarshalBinary _); [|done]. injection Hx as -> _. simpl.
    unfold applyDAHint. repeat case_match; simplify_eq; simpl; by eexists.
  - unfold Get, Has. rewrite Eh. cbn [sg_GetByHash HeaderStoreGetter]. unfold pc_hasByHash. rewrite Hh.
    destruct (GetBlockByHash s _) as [y|] eqn:E; simpl; [|by left]. right.
    destruct (found_signed _ _ _ Hi E) as (z & blob & Hz & Hk). destruct (Header_Hash_bytes (sh_Header x)) as [|(b & Hb & Hs)]; [done|].
    exists b, z, blob. by rewrite <- Hs.
  - unfold Get, Has. rewrite Ed. cbn [sg_GetByHash DataStoreGetter]. unfold pc_hasByHash. rewrite Hd.
    destruct (GetBlockByHash s _) as [y|] eqn:E; simpl; [|by left]. right.
    destruct (found_signed _ _ _ Hi E) as (z & blob & Hz & Hk). exists z, blob. by split.
Qed.

End by_hash.

(** ** Waiting for a height *)

Module HeightSub.

(** The operations are not atomic: [SetHeight] stores the height and notifies later, under the lock;
    [Wait] checks and registers under the lock. [inflight] are the heights stored whose notification
    is still to come; [woken] are the waiters whose channel was closed. *)
Record state := { st_sub : heightSub; inflight : list Z; woken : list nat }.

Definition registered (hs : heightSub) (height : Z) : list nat := default [] (heightChs hs !! height).
(** [Wait] with the lock held: [None] for [errElapsedHeight]. *)
Definition register (w : nat) (height : Z) (hs : heightSub) : option heightSub :=
  if height <=? hs_height hs then None
  else Some {| hs_height := hs_height hs; heightChs := <[height := registered hs height ++ [w]]> (heightChs hs) |}.
Definition closed_by (h : Z) (hs : heightSub) : list nat :=
  concat ((map_to_list (filter (fun kv => kv.1 <= h) (heightChs hs))).*2).

Inductive step : state -> state -> Prop :=
  (** [hs.height.Store(h)]: callers may raise the height or lower it *)
  | step_store σ h : step σ {| st_sub := {| hs_height := h; heightChs := heightChs (st_sub σ) |};
                               inflight := h :: inflight σ; woken := woken σ |}
  (** [hs.notifyUpTo(h)] *)
  | step_notify σ l1 h l2 : inflight σ = l1 ++ h :: l2 ->
      step σ {| st_sub := notifyUpTo h (st_sub σ); inflight := l1 ++ l2; woken := closed_by h (st_sub σ) ++ woken σ |}
  (** [hs.Wait(height)] that has to wait *)
  | step_wait σ w height hs : register w height (st_sub σ) = Some hs ->
      step σ {| st_sub := hs; inflight := inflight σ; woken := woken σ |}.

Definition init (h : Z) : state := {| st_sub := newHeightSub h; inflight := []; woken := [] |}.

(** A waiter is ahead of the height, or a notification that reaches it is on its way. *)
Definition covered (σ : state) : Prop := forall height, is_Some (heightChs (st_sub σ) !! height) ->
  hs_height (st_sub σ) < height \/ exists h, h ∈ inflight σ /\ height <= h.

Lemma step_covered σ σ' : step σ σ' -> covered σ -> covered σ'.
Proof.
  intros Hs Hc. destruct Hs as [σ h|σ l1 h l2 El|σ w height hs Er]; intros height' Hr; simpl in *.
  - destruct (Z.lt_ge_cases h height'); [by left|]. right. exists h. split; [by left|lia].
  - destruct Hr as [ws [Hin Hgt]%map_lookup_filter_Some]. simpl in Hgt.
    destruct (Hc height' ltac:(by eexists)) as [|(h' & Hin' & Hle)]; [by left|]. right. exists h'. split; [|done].
    rewrite El in Hin'. rewrite elem_of_app, elem_of_cons in Hin'. rewrite elem_of_app.
    destruct Hin' as [|[->|]]; [by left|lia|by right].
  - unfold register in Er. destruct (Z.leb_spec height (hs_height (st_sub σ))); [done|]. injection Er as <-. simpl in *.
    destruct (decide (height' = height)) as [->|Hne]; [by left|]. rewrite lookup_insert_ne in Hr by done. by apply Hc.
Qed.

(** The waiters in the map and those woken: none disappears. *)
Definition present (σ : state) (w : nat) : Prop :=
  w ∈ woken σ \/ exists height ws, heightChs (st_sub σ) !! height = Some ws /\ w ∈ ws.

Lemma step_present σ σ' w : step σ σ' -> present σ w -> present σ' w.
Proof.
  intros Hs Hp. destruct Hs as [σ h|σ l1 h l2 El|σ w' height hs Er]; [done|..].
  - destruct Hp as [Hw|(height & ws & Hl & Hin)]; [left; simpl; rewrite elem_of_app; by right|].
    destruct (decide (height <= h)) as [Hle|Hgt].
    + left. simpl. rewrite elem_of_app. left. unfold closed_by. apply list_elem_of_In, in_concat. exists ws. split; [|by apply list_elem_of_In]. apply list_elem_of_In.
      apply list_elem_of_fmap. exists (height, ws). split; [done|]. apply elem_of_map_to_list, map_lookup_filter_Some. done.
    + right. exists height, ws. split; [|done]. simpl. by apply map_lookup_filter_Some.
  - unfold register in Er. destruct (Z.leb_spec height (hs_height (st_sub σ))); [done|]. injection Er as <-. simpl.
    destruct Hp as [Hw|(height' & ws & Hl & Hin)]; [by left|]. right. destruct (decide (height' = height)) as [->|Hne].
    + exists height, (registered (st_sub σ) height ++ [w']). simpl. rewrite lookup_insert_eq. split; [done|].
      unfold registered. rewrite Hl. simpl. rewrite elem_of_app. by left.
    + exists height', ws. simpl. by rewrite lookup_insert_ne.
Qed.


End HeightSub.

(** ** Witnesses *)

Module AdapterWitness.
Import RefHash TypesWitness Store.StoreWitness.

Definition w_item : P2PSignedHeader bytes := {| p2p_Header := w_sh; p2p_HeaderHint := 3 |}.
Definition w_adapter : StoreAdapter mapds (P2PSignedHeader bytes) := NewStoreAdapter empty_db 1.
Definition w_after : StoreAdapter mapds (P2PSignedHeader bytes) := (Append [] [None; Some w_item] w_adapter).1.

Lemma empty_complete : complete (D := mapds) (H := P2PSignedHeader bytes) 1 empty_db.
Proof.
  split; [split; [reflexivity|]|].
  - intros h x d _. split; intros E; [unfold GetHeader in E|unfold GetBlockData, GetHeader in E]; cbn in E;
      rewrite lookup_empty in E; discriminate.
  - intros h Hh. assert (E : height_of (H := P2PSignedHeader bytes) empty_db = 0) by reflexivity. lia.
Qed.


(** The blocks of one height, saved. *)
Definition blob {A} (r : res (list A)) : list A := match r with Ok b => b | Err _ => [] end.
Definition w_data7 : Data := {| dt_Metadata := Some {| md_ChainID := "chain"; md_Height := 7; md_Time := 1; LastDataHash := [] |}; Txs := [[x01]] |}.
Definition w_store : mapds := Mapds (apply_ops ∅
  (save_ops w_sh (blob (SignedHeader_MarshalBinary w_sh)) (blob (Data_MarshalBinary w_data7)) [x01] ++
   [(getHeightKey, Some (encodeHeight 7))])) true.

Lemma index_key_inj p q : getIndexKey p = getIndexKey q -> p = q.
Proof.
  unfold getIndexKey, GenerateKey. simpl. intros [= E]. rewrite !append_nil in E. by apply hash_String_inj.
Qed.

Lemma w_store_index : index_of_signed (K := bytes) w_store.
Proof.
  intros k h. destruct k as [|b k]; [intros E; vm_compute in E; discriminate|]. unfold getHeightByHash. rewrite NewKey_index by done.
  cbn [ds_Get mapds_datastore w_store md_up md_map].
  destruct (apply_ops ∅ _ !! getIndexKey (b :: k)) as [v|] eqn:E; [|done]. intros _.
  assert (Hk : getIndexKey (b :: k) = getIndexKey (sha256_Sum256 (blob (SignedHeader_MarshalBinary w_sh)))).
  { unfold save_ops in E. cbn [apply_ops foldl app apply_op] in E.
    rewrite lookup_insert_ne in E by discriminate. apply lookup_insert_Some in E as [[E _]|[_ E]]; [by symmetry|].
    rewrite !lookup_insert_ne, lookup_empty in E by discriminate. done. }
  pose proof (index_key_inj _ _ Hk) as Hb.
  exists w_sh, (blob (SignedHeader_MarshalBinary w_sh)). split; [by vm_compute|exact Hb].
Qed.

Definition w_headers : StoreAdapter mapds (P2PSignedHeader bytes) := NewStoreAdapter w_store 1.
Definition w_datas : StoreAdapter mapds P2PData := NewStoreAdapter (SG := DataStoreGetter (K := bytes)) w_store 1.
Definition stored_header : SignedHeader bytes := match GetHeader w_store 7 with Ok x => x | Err _ => w_sh end.

Lemma adapter_w_stored : GetBlockData w_store 7 = Ok (stored_header, w_data7).
Proof. by vm_compute. Qed.
Lemma w_hash : Header_Hash (sh_Header stored_header) <> [].
Proof. by vm_compute. Qed.

Lemma stored_block_unknown_by_hash_witness :
  (exists hint, (getByHeightNoWait 7 w_headers).2 = Ok {| p2p_Header := stored_header; p2p_HeaderHint := hint |}) /\
  (Get (Header_Hash (sh_Header stored_header)) w_headers).2 = Err ErrNotFoundHeader /\
  (Get (SG := DataStoreGetter (K := bytes)) (Data_Hash w_data7) w_datas).2 = Err ErrNotFoundHeader.
Proof.
  split; [|by vm_compute].
  exact (proj1 (stored_block_unknown_by_hash w_store w_headers w_datas 7 stored_header w_data7 adapter_w_stored w_store_index
    eq_refl eq_refl w_hash (lookup_empty _) (lookup_empty _))).
Defined.

Definition w_hs : heightSub := {| hs_height := 7; heightChs := {[9 := [5%nat]]} |}.
Definition w_waiting : HeightSub.state := {| HeightSub.st_sub := w_hs; HeightSub.inflight := []; HeightSub.woken := [] |}.
Definition w_storing : HeightSub.state :=
  {| HeightSub.st_sub := {| hs_height := 9; heightChs := heightChs w_hs |}; HeightSub.inflight := [9]; HeightSub.woken := [] |}.
Definition w_notified : HeightSub.state :=
  {| HeightSub.st_sub := SetHeight 9 w_hs; HeightSub.inflight := []; HeightSub.woken := [5%nat] |}.
Lemma w_steps : rtc HeightSub.step w_waiting w_notified.
Proof.
  apply (rtc_l _ _ w_storing); [exact (HeightSub.step_store w_waiting 9)|]. apply rtc_once.
  exact (HeightSub.step_notify w_storing [] 9 [] eq_refl).
Qed.


(** Another item of the same height: the old hash still answers, with the new item. *)
Definition w_other : P2PSignedHeader bytes :=
  {| p2p_Header := {| sh_Header := {| hd_Height := 7; hd_Time := 1000; hd_ChainID := "chain"; hd_Version := {| Block := 11; App := 1 |};
       LastHeaderHash := [x01]; DataHash := [x02]; AppHash := [x04]; ValidatorHash := []; ProposerAddress := [x05]; Legacy := None |};
       sh_Signature := [x07]; sh_Signer := w_signer |}; p2p_HeaderHint := 0 |}.
Example replaced_hash_answers :
  let a := (Append [] [Some w_item; Some w_other] w_adapter).1 in
  ent_Hash w_item <> ent_Hash w_other /\ Has (ent_Hash w_item) a = true /\
  match (Get (ent_Hash w_item) a).2 with Ok x => ent_Hash x = ent_Hash w_other | Err _ => False end.
Proof. by vm_compute. Qed.

(** [DeleteRange] from height zero sets the largest height. *)
Example delete_from_zero : hs_height (a_sub (DeleteRange (None : option (unit -> Z -> unit * res unit)) 0 3 tt w_after).1.2) = two64 - 1.
Proof. by vm_compute. Qed.

End AdapterWitness.

End Adapter.
