(* ===== verification/BlobClient.v ===== *)
(** The DA client (block/internal/da/client.go) over the JSON-RPC blob API (pkg/da/jsonrpc), with
    namespaces and results (pkg/da/types): it maps blobs to RPC calls, RPC errors to status codes by
    their text, and blob identifiers to heights and commitments.

    The RPC of the DA node, the share library and JSON are third-party and the class [BlobAPI]; the
    timeouts of the calls are among the errors they return. *)

From S2P Require Import Prelude Sha256 ForcedInclusion Submit Sdk.

(** ** Texts *)

(** [err.Error()] *)
Fixpoint err_Error (e : err) : string :=
  match e with
  | ESentinel s | EMsg s => s
  | EWrap m e => String.append m (String.append ": " (err_Error e))
  | EJoin e1 e2 => String.append (err_Error e1) (String.String (Ascii.ascii_of_nat 10) (err_Error e2))
  end.

Fixpoint HasPrefix (s prefix : string) : bool :=
  match prefix, s with
  | EmptyString, _ => true
  | String.String c p, String.String d s => Ascii.eqb c d && HasPrefix s p
  | _, EmptyString => false
  end.
(** [strings.Contains] *)
Fixpoint Contains (s sub : string) : bool :=
  HasPrefix s sub || match s with EmptyString => false | String.String _ s => Contains s sub end.

Lemma HasPrefix_append p s : HasPrefix (String.append p s) p = true.
Proof. induction p as [|c p IH]; [by destruct s|]. simpl. by rewrite Ascii.eqb_refl. Qed.

Lemma Contains_prefix t p : HasPrefix t p = true -> Contains t p = true.
Proof. intros Hp. destruct t as [|c t]; simpl in *; by rewrite Hp. Qed.
Lemma Contains_right a s sub : Contains s sub = true -> Contains (String.append a s) sub = true.
Proof. intros Hs. induction a as [|c a IH]; [done|]. simpl. apply orb_true_iff. right. exact IH. Qed.

(** A wrapped error still contains the text. *)
Lemma Contains_wrap m e sub : Contains (err_Error e) sub = true -> Contains (err_Error (EWrap m e)) sub = true.
Proof. intros Hc. simpl. by apply Contains_right, (Contains_right ": "). Qed.

(** ** The blob API *)

Class BlobAPI (W L PR OPT : Type) := {
  (** go-square: namespaces, blobs and their commitments *)
  share_NewNamespaceFromBytes : bytes -> res bytes;
  ValidateForBlob : bytes -> res unit;
  share_NewBlob : bytes -> bytes -> Z -> res L;
  share_Data : L -> bytes;
  CreateCommitment : L -> res bytes;
  (** JSON *)
  json_options : bytes -> res OPT;
  zero_options : OPT;
  json_of_proof : PR -> res bytes;
  proof_of_json : bytes -> res PR;
  (** the RPC of the DA node *)
  api_Submit : W -> list (L * bytes) -> OPT -> W * res Z;
  api_GetAll : W -> Z -> bytes -> W * res (list (L * bytes));
  api_Get : W -> Z -> bytes -> bytes -> W * res (option (L * bytes));
  api_GetProof : W -> Z -> bytes -> bytes -> W * res PR;
  api_Included : W -> Z -> bytes -> PR -> bytes -> W * (bool * option err);
  (** a subscription, as the list of its responses until the context is cancelled *)
  api_Subscribe : W -> bytes -> W * res (list (option (Z * list (option (L * bytes)))));
  api_HeaderTime : W -> Z -> W * res Z;
  api_NetworkHead : W -> W * res (option Z);
  time_Now : W -> Z;
}.

Module DAC.

Definition ErrBlobSizeOverLimit : err := ESentinel "blob: over size limit".
Definition ErrTxTimedOut : err := ESentinel "timed out waiting for tx to be included in a block".
Definition ErrTxAlreadyInMempool : err := ESentinel "tx already in mempool".
Definition ErrTxIncorrectAccountSequence : err := ESentinel "incorrect account sequence".
Definition ErrContextDeadline : err := ESentinel "context deadline".
Definition context_Canceled : err := ESentinel "context canceled".

(** ** Identifiers (jsonrpc/blob.go) *)

Definition MakeID (height : Z) (commitment : bytes) : bytes := PutUint64_LE height ++ commitment.
(** A malformed identifier gives height 0 and a nil commitment. *)
Definition SplitID (id : bytes) : Z * option bytes :=
  if blen id <=? 8 then (0, None) else (Uint64_LE (take 8 id), Some (drop 8 id)).

Lemma SplitID_MakeID height commitment : is_u64 height -> commitment <> [] ->
  SplitID (MakeID height commitment) = (height, Some commitment).
Proof.
  intros Hu Hc. unfold SplitID, MakeID, blen. rewrite length_app, length_PutUint64_LE.
  destruct (Z.leb_spec (Z.of_nat (8 + length commitment)) 8) as [Hl|_].
  { destruct commitment; [done|]. simpl in Hl. lia. }
  rewrite take_app_length', drop_app_length' by (by rewrite length_PutUint64_LE). by rewrite Uint64_LE_Put, u64_small.
Qed.

(** ** Namespaces (types/namespace.go) *)

Definition IsValidForVersion0 (n : Namespaces.Namespace) : bool :=
  bool_decide (Namespaces.Version n = x00) &&
  forallb (fun b => bool_decide (b = x00)) (take Namespaces.namespaceV0PrefixSize (Namespaces.ID n)).
Definition NewNamespaceV0 (data : bytes) : res Namespaces.Namespace :=
  if (Namespaces.namespaceV0DataSize <? length data)%nat then Err (EMsg "data too long for version 0 namespace")
  else Ok {| Namespaces.Version := x00;
             Namespaces.ID := replicate Namespaces.namespaceV0PrefixSize x00 ++ data ++
               replicate (Namespaces.namespaceV0DataSize - length data) x00 |}.
Definition NamespaceFromBytes (b : bytes) : res Namespaces.Namespace :=
  if negb (length b =? Namespaces.NamespaceSize)%nat then Err (EMsg "invalid namespace size")
  else
    let ns := {| Namespaces.Version := hd x00 b; Namespaces.ID := tail b |} in
    if bool_decide (Namespaces.Version ns = x00) && negb (IsValidForVersion0 ns)
    then Err (EMsg "invalid version 0 namespace: first 18 bytes of ID must be zero")
    else Ok ns.
Definition NamespaceFromString (s : bytes) : option Namespaces.Namespace :=
  match NewNamespaceV0 (take Namespaces.namespaceV0DataSize (sha256_Sum256 s)) with Ok ns => Some ns | Err _ => None end.

(** ** The client *)

Record BaseResult := {
  Code : DA.StatusCode; Message : string; Height : Z; SubmittedCount : Z; BlobSize : Z; IDs : list bytes; Timestamp : option Z }.
Record ResultRetrieve := { rt_Base : BaseResult; rt_Data : list bytes }.

Section client.
Context {W L PR OPT : Type} `{API : BlobAPI W L PR OPT}.
Abbreviation blob := (L * bytes)%type.

(** Namespaces in bytes, computed by [NewClient]. *)
Record client := { namespaceBz : bytes; dataNamespaceBz : bytes; forcedNamespaceBz : bytes; hasForcedNamespace : bool }.
Definition ns_bytes (s : bytes) : bytes := match NamespaceFromString s with Some ns => Namespaces.Bytes ns | None => [] end.
Definition NewClient (ns dataNs forcedNs : bytes) : client :=
  let hasForced := negb (bool_decide (forcedNs = [])) in
  {| namespaceBz := ns_bytes ns; dataNamespaceBz := ns_bytes dataNs;
     forcedNamespaceBz := if hasForced then ns_bytes forcedNs else []; hasForcedNamespace := hasForced |}.

(** A blob is the library's blob and its commitment. *)
Definition NewBlob (shareVersion : Z) (ns data commitment : bytes) : res blob :=
  let? _ := wrap_err "invalid namespace" (ValidateForBlob ns) in
  let? libBlob := wrap_err "build blob" (share_NewBlob ns data shareVersion) in
  if 0 <? blen commitment then Ok (libBlob, commitment)
  else let? com := wrap_err "create commitment" (CreateCommitment libBlob) in Ok (libBlob, com).
Definition NewBlobV0 (ns data : bytes) : res blob := NewBlob 0 ns data [].

Definition failed (code : DA.StatusCode) (msg : string) (height : Z) (ts : option Z) : BaseResult :=
  {| Code := code; Message := msg; Height := height; SubmittedCount := 0; BlobSize := 0; IDs := []; Timestamp := ts |}.

(** The loop of [Submit] that builds the blobs; the result of a failure otherwise. *)
Fixpoint build_blobs (ns : bytes) (data : list bytes) : BaseResult + list blob :=
  match data with
  | [] => inr []
  | raw :: data =>
      if Submit.DefaultMaxBlobSize <? blen raw then inl (failed DA.StatusTooBig (err_Error ErrBlobSizeOverLimit) 0 None)
      else match NewBlobV0 ns raw with
           | Err e => inl (failed DA.StatusError (String.append "failed to build blob: " (err_Error e)) 0 None)
           | Ok b => match build_blobs ns data with inl r => inl r | inr bs => inr (b :: bs) end
           end
  end.

Definition submit_code (e : err) : DA.StatusCode :=
  let text := err_Error e in
  if errors_is e context_Canceled then DA.StatusContextCanceled
  else if Contains text (err_Error ErrTxTimedOut) then DA.StatusNotIncludedInBlock
  else if Contains text (err_Error ErrTxAlreadyInMempool) then DA.StatusAlreadyInMempool
  else if Contains text (err_Error ErrTxIncorrectAccountSequence) then DA.StatusIncorrectAccountSequence
  else if Contains text (err_Error ErrBlobSizeOverLimit) then DA.StatusTooBig
  else if Contains text (err_Error ErrContextDeadline) then DA.StatusContextDeadline
  else DA.StatusError.

Definition ids_of (height : Z) (blobs : list blob) : list bytes := (fun b => MakeID height b.2) <$> blobs.

(** The RPC and what its answer is turned into. *)
Definition submit_blobs (blobs : list blob) (opts : OPT) (blobSize : Z) (w : W) : W * BaseResult :=
  match api_Submit w blobs opts with
  | (w, Err e) =>
      (w, {| Code := submit_code e; Message := String.append "failed to submit blobs: " (err_Error e); Height := 0;
             SubmittedCount := 0; BlobSize := blobSize; IDs := []; Timestamp := Some (time_Now w) |})
  | (w, Ok height) =>
      if blen blobs =? 0 then
        (w, {| Code := DA.StatusSuccess; Message := EmptyString; Height := height; SubmittedCount := 0; BlobSize := blobSize;
               IDs := []; Timestamp := None |})
      else
        (w, {| Code := DA.StatusSuccess; Message := EmptyString; Height := height; SubmittedCount := blen (ids_of height blobs);
               BlobSize := blobSize; IDs := ids_of height blobs; Timestamp := Some (time_Now w) |})
  end.
Definition Submit (data : list bytes) (namespace options : bytes) (w : W) : W * BaseResult :=
  let blobSize := foldl (fun n b => n +u blen b) 0 data in
  match share_NewNamespaceFromBytes namespace with
  | Err e => (w, failed DA.StatusError (String.append "invalid namespace: " (err_Error e)) 0 None)
  | Ok ns =>
      match build_blobs ns data with
      | inl r => (w, r)
      | inr blobs =>
          match (if 0 <? blen options then json_options options else Ok zero_options) with
          | Err e => (w, failed DA.StatusError (String.append "failed to parse submit options: " (err_Error e)) 0 None)
          | Ok opts => submit_blobs blobs opts blobSize w
          end
      end
  end.

(** The time of the DA block, or the local time when it cannot be had. *)
Definition getBlockTimestamp (height : Z) (w : W) : W * res Z :=
  let '(w, r) := api_HeaderTime w height in (w, wrap_err "failed to get header timestamp for block" r).
Definition block_time (height : Z) (w : W) : W * Z :=
  match getBlockTimestamp height w with (w, Ok t) => (w, t) | (w, Err _) => (w, time_Now w) end.

Definition no_data (r : BaseResult) : ResultRetrieve := {| rt_Base := r; rt_Data := [] |}.
Definition Retrieve (height : Z) (namespace : bytes) (w : W) : W * ResultRetrieve :=
  match share_NewNamespaceFromBytes namespace with
  | Err e => (w, no_data (failed DA.StatusError (String.append "invalid namespace: " (err_Error e)) height (Some (time_Now w))))
  | Ok ns =>
      match api_GetAll w height ns with
      | (w, Err e) =>
          if Contains (err_Error e) (err_Error DA.ErrBlobNotFound) then
            let '(w, t) := block_time height w in
            (w, no_data (failed DA.StatusNotFound (err_Error DA.ErrBlobNotFound) height (Some t)))
          else if Contains (err_Error e) (err_Error DA.ErrHeightFromFuture) then
            (w, no_data (failed DA.StatusHeightFromFuture (err_Error DA.ErrHeightFromFuture) height (Some (time_Now w))))
          else (w, no_data (failed DA.StatusError (String.append "failed to get blobs: " (err_Error e)) height (Some (time_Now w))))
      | (w, Ok blobs) =>
          let '(w, t) := block_time height w in
          if blen blobs =? 0 then (w, no_data (failed DA.StatusNotFound (err_Error DA.ErrBlobNotFound) height (Some t)))
          else (w, {| rt_Base := {| Code := DA.StatusSuccess; Message := EmptyString; Height := height; SubmittedCount := 0;
                                    BlobSize := 0; IDs := ids_of height blobs; Timestamp := Some t |};
                      rt_Data := (fun b => share_Data b.1) <$> blobs |})
      end
  end.

Definition GetLatestDAHeight (w : W) : W * res Z :=
  match api_NetworkHead w with
  | (w, Err e) => (w, Err (EWrap "failed to get DA network head" e))
  | (w, Ok None) => (w, Err (EMsg "DA network head returned nil header"))
  | (w, Ok (Some h)) => (w, Ok h)
  end.

Definition RetrieveForcedInclusion (c : client) (height : Z) (w : W) : W * ResultRetrieve :=
  if negb (hasForcedNamespace c)
  then (w, no_data (failed DA.StatusError "forced inclusion namespace not configured" height None))
  else Retrieve height (forcedNamespaceBz c) w.

(** A response of a subscription: nil responses are dropped; nil, empty and oversized blobs are. *)
Definition extractBlobData (blobs : list (option blob)) : list bytes :=
  omap (fun b => match b with
                 | None => None
                 | Some b => let data := share_Data b.1 in
                             if (blen data =? 0) || (Submit.DefaultMaxBlobSize <? blen data) then None else Some data
                 end) blobs.
Definition subscription_events (resps : list (option (Z * list (option blob)))) : list (Z * list bytes) :=
  omap (option_map (fun r : Z * list (option blob) => (r.1, extractBlobData r.2))) resps.
Definition Subscribe (namespace : bytes) (w : W) : W * res (list (Z * list bytes)) :=
  match share_NewNamespaceFromBytes namespace with
  | Err e => (w, Err (EWrap "invalid namespace" e))
  | Ok ns =>
      match api_Subscribe w ns with
      | (w, Err e) => (w, Err (EWrap "blob subscribe" e))
      | (w, Ok resps) => (w, Ok (subscription_events resps))
      end
  end.

Fixpoint get_loop (ns : bytes) (ids : list bytes) (w : W) : W * res (list bytes) :=
  match ids with
  | [] => (w, Ok [])
  | id :: ids =>
      match SplitID id with
      | (_, None) => (w, Err (EMsg "invalid blob id"))
      | (height, Some commitment) =>
          match api_Get w height ns commitment with
          | (w, Err e) => (w, Err e)
          | (w, Ok b) =>
              let '(w, r) := get_loop ns ids w in
              (w, let? rest := r in Ok (match b with Some b => share_Data b.1 :: rest | None => rest end))
          end
      end
  end.
Definition Get (ids : list bytes) (namespace : bytes) (w : W) : W * res (list bytes) :=
  match ids with
  | [] => (w, Ok [])
  | _ => match share_NewNamespaceFromBytes namespace with
         | Err e => (w, Err (EWrap "invalid namespace" e))
         | Ok ns => get_loop ns ids w
         end
  end.

Fixpoint proofs_loop (ns : bytes) (ids : list bytes) (w : W) : W * res (list bytes) :=
  match ids with
  | [] => (w, Ok [])
  | id :: ids =>
      match SplitID id with
      | (_, None) => (w, Err (EMsg "invalid blob id"))
      | (height, Some commitment) =>
          match api_GetProof w height ns commitment with
          | (w, Err e) => (w, Err e)
          | (w, Ok proof) =>
              match json_of_proof proof with
              | Err e => (w, Err e)
              | Ok bz => let '(w, r) := proofs_loop ns ids w in (w, let? rest := r in Ok (bz :: rest))
              end
          end
      end
  end.
Definition GetProofs (ids : list bytes) (namespace : bytes) (w : W) : W * res (list bytes) :=
  match ids with
  | [] => (w, Ok [])
  | _ => match share_NewNamespaceFromBytes namespace with
         | Err e => (w, Err (EWrap "invalid namespace" e))
         | Ok ns => proofs_loop ns ids w
         end
  end.

(** An error of the inclusion check is only logged. *)
Fixpoint validate_loop (ns : bytes) (ids proofs : list bytes) (w : W) : W * res (list bool) :=
  match ids, proofs with
  | id :: ids, p :: proofs =>
      match proof_of_json p with
      | Err e => (w, Err e)
      | Ok proof =>
          match SplitID id with
          | (_, None) => (w, Err (EMsg "invalid blob id"))
          | (height, Some commitment) =>
              let '(w, (included, _)) := api_Included w height ns proof commitment in
              let '(w, r) := validate_loop ns ids proofs w in
              (w, let? rest := r in Ok (included :: rest))
          end
      end
  | _, _ => (w, Ok [])
  end.
Definition Validate (ids proofs : list bytes) (namespace : bytes) (w : W) : W * res (list bool) :=
  if negb (blen ids =? blen proofs) then (w, Err (EMsg "number of IDs and proofs must match"))
  else match ids with
       | [] => (w, Ok [])
       | _ => match share_NewNamespaceFromBytes namespace with
              | Err e => (w, Err (EWrap "invalid namespace" e))
              | Ok ns => validate_loop ns ids proofs w
              end
       end.

(** The client as the submitter sees it. *)
Definition submitter_client (namespace options : bytes) (w : W) (data : list bytes) : W * Submit.ResultSubmit :=
  let '(w, r) := Submit data namespace options w in
  (w, {| Submit.sub_Code := Code r; Submit.sub_Message := Message r; Submit.sub_Height := Height r;
         Submit.sub_SubmittedCount := SubmittedCount r |}).

End client.

(** ** What the client promises *)

(** A DA layer: the blobs of a height and a namespace, which only grow by submissions and which reads
    return in order; a commitment is never empty, and a blob keeps its data and namespace. *)
Class BlobAPILaws (W L PR OPT : Type) `{BlobAPI W L PR OPT} := {
  ledger : W -> Z -> bytes -> list (L * bytes);
  share_Namespace : L -> bytes;
  share_NewBlob_spec ns data v b : share_NewBlob ns data v = Ok b -> share_Data b = data /\ share_Namespace b = ns;
  CreateCommitment_spec b c : CreateCommitment b = Ok c -> c <> [];
  api_Submit_spec w blobs o w' h : api_Submit w blobs o = (w', Ok h) -> is_u64 h /\
    forall ns, Forall (fun b => share_Namespace b.1 = ns /\ b.2 <> []) blobs -> exists l1 l2, ledger w' h ns = l1 ++ blobs ++ l2;
  api_GetAll_spec w h ns w' r : api_GetAll w h ns = (w', r) -> ledger w' = ledger w /\ forall blobs, r = Ok blobs -> blobs = ledger w h ns;
  api_Get_spec w h ns c w' r : api_Get w h ns c = (w', r) -> ledger w' = ledger w /\
    forall b, r = Ok b -> match b with Some b => b ∈ ledger w h ns /\ b.2 = c | None => forall b', b' ∈ ledger w h ns -> b'.2 <> c end;
  api_HeaderTime_spec w h w' r : api_HeaderTime w h = (w', r) -> ledger w' = ledger w;
}.

Section laws.
Context {W L PR OPT : Type} `{AL : BlobAPILaws W L PR OPT}.

Lemma build_spec ns data blobs : build_blobs ns data = inr blobs ->
  (fun b : L * bytes => share_Data b.1) <$> blobs = data /\ Forall (fun b => share_Namespace b.1 = ns) blobs /\
  Forall (fun b => b.2 <> []) blobs /\ Forall (fun d => blen d <= Submit.DefaultMaxBlobSize) data.
Proof.
  revert blobs. induction data as [|raw data IH]; intros blobs; simpl.
  { intros [= <-]. done. }
  destruct (Z.ltb_spec Submit.DefaultMaxBlobSize (blen raw)); [done|].
  unfold NewBlobV0, NewBlob. destruct (ValidateForBlob ns) as [[]|]; [|done]. simpl.
  destruct (share_NewBlob ns raw 0) as [l|] eqn:El; [|done]. simpl.
  destruct (CreateCommitment l) as [c|] eqn:Ec; [|done]. simpl.
  destruct (build_blobs ns data) as [|bs]; [done|]. intros [= <-].
  destruct (IH bs eq_refl) as (H1 & H2 & H3 & H4). apply share_NewBlob_spec in El as [Ed En]. apply CreateCommitment_spec in Ec.
  csimpl. split_and!; [congruence|by constructor..].
Qed.

(** A successful submission is one call with all of the blobs, in order. *)
Lemma Submit_success data namespace options w w' r : Submit data namespace options w = (w', r) -> Code r = DA.StatusSuccess ->
  exists ns blobs opts h, share_NewNamespaceFromBytes namespace = Ok ns /\ build_blobs ns data = inr blobs /\
    api_Submit w blobs opts = (w', Ok h) /\ Height r = h /\ IDs r = ids_of h blobs /\ SubmittedCount r = blen data.
Proof.
  unfold Submit. destruct (share_NewNamespaceFromBytes namespace) as [ns|]; [|by intros [= <- <-]].
  destruct (build_blobs ns data) as [fr|blobs] eqn:Eb.
  { intros [= <- <-] Hc. exfalso. clear -Eb Hc. revert fr Eb Hc. induction data as [|raw data IH]; simpl; [done|]. intros fr.
    destruct (_ <? _); [by intros [= <-]|]. destruct (NewBlobV0 ns raw); [|by intros [= <-]].
    destruct (build_blobs ns data) as [fr'|]; [|done]. intros [= <-]. by apply IH. }
  destruct (if 0 <? blen options then _ else _) as [opts|]; [|by intros [= <- <-]].
  unfold submit_blobs. destruct (api_Submit w blobs opts) as [w1 [h|e]] eqn:Es.
  2: { intros [= <- <-]. simpl. unfold submit_code. by repeat case_match. }
  destruct (build_spec ns data blobs Eb) as (Hd & _). assert (Hl : length blobs = length data) by (by rewrite <- Hd, length_fmap).
  destruct (Z.eqb_spec (blen blobs) 0) as [E0|]; intros [= <- <-] _; exists ns, blobs, opts, h; split_and!; try done; simpl.
  - destruct blobs; [done|]. unfold blen in E0. simpl in E0. lia.
  - unfold blen in *. rewrite <- Hl. lia.
  - unfold blen, ids_of. by rewrite length_fmap, Hl.
Qed.

Lemma Get_found ns h blobs w : is_u64 h -> Forall (fun b => b.2 <> []) blobs -> blobs ⊆ ledger w h ns ->
  (forall b b', b ∈ ledger w h ns -> b' ∈ ledger w h ns -> b.2 = b'.2 -> b = b') ->
  forall w' l, get_loop ns (ids_of h blobs) w = (w', Ok l) -> l = (fun b : L * bytes => share_Data b.1) <$> blobs.
Proof.
  intros Hu Hne. revert w. induction Hne as [|b blobs Hb Hne IH]; intros w Hsub Huni w' l; csimpl; [by intros [= <- <-]|].
  rewrite SplitID_MakeID by done. destruct (api_Get w h ns b.2) as [w1 [x|e]] eqn:Eg; [|done].
  apply api_Get_spec in Eg as [El Hx]. specialize (Hx x eq_refl).
  destruct (get_loop ns (ids_of h blobs) w1) as [w2 [rest|e]] eqn:Er; [|done]. simpl. intros [= <- <-].
  assert (Hin : b ∈ ledger w h ns) by (apply Hsub; by left).
  destruct x as [x|]; [|by destruct (Hx b Hin)]. destruct Hx as [Hxin Hxc]. rewrite (Huni x b Hxin Hin Hxc). f_equal.
  eapply (IH w1); [|by rewrite El|exact Er]. rewrite El. intros y Hy. apply Hsub. by right.
Qed.

(** C30: What is submitted can be retrieved. After a successful submission of blobs, none of which was
    larger than the limit, a retrieval of the reported height in the same namespace that gets an
    answer succeeds and returns exactly these blobs, in order and without gap, among those of the
    height, with the identifiers of the submission; and fetching these identifiers returns the
    blobs themselves, as long as no two blobs of the height have the same commitment. A
    submission that is not successful counts nothing as submitted. *)
Theorem submit_retrieve (data : list bytes) (namespace options : bytes) (w w1 : W) (r : BaseResult)
  (Hs : Submit data namespace options w = (w1, r)) (Hne : data <> []) :
  (Code r <> DA.StatusSuccess -> SubmittedCount r = 0 /\ IDs r = []) /\
  (Code r = DA.StatusSuccess ->
   SubmittedCount r = blen data /\ Forall (fun d => blen d <= Submit.DefaultMaxBlobSize) data /\
   exists ns, share_NewNamespaceFromBytes namespace = Ok ns /\
   (forall w2 blobs, api_GetAll w1 (Height r) ns = (w2, Ok blobs) ->
      exists w3 rr l1 l2 i1 i2, Retrieve (Height r) namespace w1 = (w3, rr) /\ Code (rt_Base rr) = DA.StatusSuccess /\
        rt_Data rr = l1 ++ data ++ l2 /\ IDs (rt_Base rr) = i1 ++ IDs r ++ i2 /\ length i1 = length l1 /\ length i2 = length l2) /\
   ((forall b b', b ∈ ledger w1 (Height r) ns -> b' ∈ ledger w1 (Height r) ns -> b.2 = b'.2 -> b = b') ->
    forall w3 l, Get (IDs r) namespace w1 = (w3, Ok l) -> l = data)).
Proof.
  split.
  { intros Hc. unfold Submit in Hs. destruct (share_NewNamespaceFromBytes namespace) as [ns|]; [|by simplify_eq].
    destruct (build_blobs ns data) as [fr|blobs] eqn:Eb.
    - injection Hs as <- <-. clear -Eb. revert fr Eb. induction data as [|raw data IH]; simpl; [done|]. intros fr.
      destruct (_ <? _); [by intros [= <-]|]. destruct (NewBlobV0 ns raw); [|by intros [= <-]].
      destruct (build_blobs ns data); [|done]. intros [= <-]. by apply IH.
    - destruct (if 0 <? blen options then _ else _) as [opts|]; [|by simplify_eq].
      unfold submit_blobs in Hs. destruct (api_Submit w blobs opts) as [w2 [h|e]]; [|by simplify_eq].
      destruct (blen blobs =? 0); simplify_eq; done. }
  intros Hc. destruct (Submit_success _ _ _ _ _ _ Hs Hc) as (ns & blobs & opts & h & En & Eb & Es & Eh & Ei & Ec).
  destruct (build_spec ns data blobs Eb) as (Hd & Hns & Hcm & Hsz). destruct (api_Submit_spec _ _ _ _ _ Es) as [Hu Hled].
  destruct (Hled ns) as (l1 & l2 & El); [by apply Forall_and|]. split; [done|]. split; [done|]. exists ns. split; [done|]. rewrite Eh, Ei. split.
  - intros w2 got Hg. destruct (api_GetAll_spec _ _ _ _ _ Hg) as [_ Hgot]. specialize (Hgot got eq_refl).
    unfold Retrieve. rewrite En, Hg. destruct (block_time h w2) as [w3 t] eqn:Et.
    assert (Hn0 : (blen got =? 0) = false).
    { apply Z.eqb_neq. rewrite Hgot, El. unfold blen. rewrite !length_app. destruct blobs; [|simpl; lia].
      by destruct data. }
    rewrite Hn0. exists w3, {| rt_Base := {| Code := DA.StatusSuccess; Message := EmptyString; Height := h; SubmittedCount := 0;
        BlobSize := 0; IDs := ids_of h got; Timestamp := Some t |}; rt_Data := (fun b => share_Data b.1) <$> got |}.
    exists ((fun b => share_Data b.1) <$> l1), ((fun b => share_Data b.1) <$> l2), (ids_of h l1), (ids_of h l2).
    split; [done|]. split; [done|]. simpl. rewrite Hgot, El. unfold ids_of. rewrite !fmap_app, Hd, !length_fmap. done.
  - intros Huni w3 l Hg. unfold Get in Hg. assert (Hids : ids_of h blobs <> []) by (destruct blobs; [by destruct data|done]).
    destruct (ids_of h blobs) as [|i ids] eqn:Eids; [done|]. rewrite En, <- Eids in Hg.
    rewrite <- Hd. eapply Get_found; [exact Hu|exact Hcm| |exact Huni|exact Hg].
    intros b Hb. rewrite El, !elem_of_app. by right; left.
Qed.

End laws.

(** Witness: a DA layer that keeps one list of blobs per height. *)
Module DACWitness.

Definition lib_blob : Type := bytes * bytes.
Record layer := { ly_blobs : gmap Z (list (lib_blob * bytes)); ly_next : Z }.
Definition in_ns (ns : bytes) (l : list (lib_blob * bytes)) : list (lib_blob * bytes) := filter (fun b => b.1.1 = ns) l.
Definition at_height (w : layer) (h : Z) : list (lib_blob * bytes) := default [] (ly_blobs w !! h).

#[local] Instance layer_api : BlobAPI layer lib_blob unit unit := {|
  share_NewNamespaceFromBytes b := if blen b =? 29 then Ok b else Err (EMsg "invalid namespace length");
  ValidateForBlob _ := Ok tt;
  share_NewBlob ns data _ := if blen data =? 0 then Err (EMsg "empty blob") else Ok (ns, data);
  share_Data := snd;
  CreateCommitment b := Ok (x01 :: b.2);
  json_options _ := Ok tt; zero_options := tt; json_of_proof _ := Ok []; proof_of_json _ := Ok tt;
  api_Submit w blobs _ :=
    if (0 <=? ly_next w) && (ly_next w <? 1000) then
      ({| ly_blobs := <[ly_next w := blobs]> (ly_blobs w); ly_next := ly_next w + 1 |}, Ok (ly_next w))
    else (w, Err (EWrap "rpc" ErrContextDeadline));
  api_GetAll w h ns := (w, Ok (in_ns ns (at_height w h)));
  api_Get w h ns c := (w, Ok (List.find (fun b => bool_decide (b.2 = c)) (in_ns ns (at_height w h))));
  api_GetProof w _ _ _ := (w, Ok tt);
  api_Included w _ _ _ _ := (w, (true, None));
  api_Subscribe w ns := (w, Ok []);
  api_HeaderTime w h := (w, Ok (h * 6)); api_NetworkHead w := (w, Ok (Some (ly_next w - 1))); time_Now _ := 5 |}.

Lemma in_ns_all ns l : Forall (fun b : lib_blob * bytes => b.1.1 = ns) l -> in_ns ns l = l.
Proof. unfold in_ns. induction 1 as [|b l Hb _ IH]; [done|]. rewrite filter_cons, decide_True by done. f_equal. exact IH. Qed.

#[local] Instance layer_laws : BlobAPILaws layer lib_blob unit unit.
Proof.
  refine {| ledger w h ns := in_ns ns (at_height w h); share_Namespace := fst |}.
  - intros ns data v b. simpl. destruct (blen data =? 0); [done|]. by intros [= <-].
  - intros b c [= <-]. done.
  - intros w blobs o w' h. simpl. destruct (_ && _) eqn:Eb; [|done]. intros [= <- <-]. split; [unfold is_u64, two64; lia|].
    intros ns [Hns _]%Forall_and. exists [], []. unfold at_height. simpl. rewrite lookup_insert_eq. simpl. rewrite app_nil_r. by apply in_ns_all.
  - intros w h ns w' r [= <- <-]. split; [done|]. by intros blobs [= <-].
  - intros w h ns c w' r [= <- <-]. split; [done|]. intros b [= <-].
    destruct (List.find _ _) as [b|] eqn:Ef.
    + apply List.find_some in Ef as [Hin Hc]. split; [by apply list_elem_of_In|by apply bool_decide_eq_true in Hc].
    + intros b' Hin Hc. pose proof (List.find_none _ _ Ef b') as Hn. rewrite <- list_elem_of_In in Hn. specialize (Hn Hin).
      by apply bool_decide_eq_false in Hn.
  - intros w h w' r [= <- <-]. done.
Qed.

Definition w_layer : layer := {| ly_blobs := ∅; ly_next := 7 |}.
Definition w_ns : bytes := ns_bytes [x68; x69].
Definition w_blobs : list bytes := [[x01]; [x02; x03]].
Definition w_result : layer * BaseResult := Submit w_blobs w_ns [] w_layer.

Lemma submit_retrieve_witness : Code w_result.2 = DA.StatusSuccess /\
  (Code w_result.2 <> DA.StatusSuccess -> SubmittedCount w_result.2 = 0 /\ IDs w_result.2 = []) /\
  (Code w_result.2 = DA.StatusSuccess ->
   SubmittedCount w_result.2 = blen w_blobs /\ Forall (fun d => blen d <= Submit.DefaultMaxBlobSize) w_blobs /\
   exists ns, share_NewNamespaceFromBytes w_ns = Ok ns /\
   (forall w2 blobs, api_GetAll w_result.1 (Height w_result.2) ns = (w2, Ok blobs) ->
      exists w3 rr l1 l2 i1 i2, Retrieve (Height w_result.2) w_ns w_result.1 = (w3, rr) /\ Code (rt_Base rr) = DA.StatusSuccess /\
        rt_Data rr = l1 ++ w_blobs ++ l2 /\ IDs (rt_Base rr) = i1 ++ IDs w_result.2 ++ i2 /\ length i1 = length l1 /\ length i2 = length l2) /\
   ((forall b b', b ∈ ledger w_result.1 (Height w_result.2) ns -> b' ∈ ledger w_result.1 (Height w_result.2) ns -> b.2 = b'.2 -> b = b') ->
    forall w3 l, Get (IDs w_result.2) w_ns w_result.1 = (w3, Ok l) -> l = w_blobs)).
Proof.
  split; [by vm_compute|].
  exact (submit_retrieve w_blobs w_ns [] w_layer w_result.1 w_result.2 (surjective_pairing _) ltac:(discriminate)).
Defined.

(** An oversized blob is refused without a call; an error of the node is known by its text. *)
Example submit_codes :
  Code (Submit [replicate (Z.to_nat (Submit.DefaultMaxBlobSize + 1)) x00] w_ns [] w_layer).2 = DA.StatusTooBig /\
  Code (Submit w_blobs w_ns [] {| ly_blobs := ∅; ly_next := 1000 |}).2 = DA.StatusContextDeadline /\
  submit_code (EMsg "broadcast: tx already in mempool (code 19)") = DA.StatusAlreadyInMempool.
Proof. split; [by vm_compute|]. by vm_compute. Qed.

End DACWitness.

End DAC.
