(* ===== verification/Raft.v ===== *)
(** The raft node (pkg/raft/node.go, pkg/raft/types.go): the state machine that raft replicates, which
    holds the last block of the cluster, its snapshots, and the node around it: broadcasting a block,
    waiting for the log, bootstrapping the cluster and changing its members.

    The hashicorp library is third-party. What it documents is the step relation of [cluster]: one log
    of committed entries, which every node applies in order, from the start or from a snapshot; and the
    class [RaftLib]: a successful [Apply] has committed its entry and applied it on the caller's node. *)

From S2P Require Import Prelude Interfaces Producer.

Import Producer.

Module Raft.

(** ** The state machine *)

Record RaftApplyMsg := { am_Index : Z; am_State : RaftBlockState }.

(** [applyCh] is the channel of [SetApplyCallback], if there is one: its content and its capacity. *)
Record FSM := { fsm_state : RaftBlockState; applyCh : option (list RaftApplyMsg * nat) }.
Definition set_state (st : RaftBlockState) (f : FSM) : FSM := {| fsm_state := st; applyCh := applyCh f |}.

Definition zero_block_state : RaftBlockState := {|
  rs_Height := 0; rs_Hash := []; rs_Timestamp := 0; rs_Header := []; rs_Data := [];
  rs_LastSubmittedDaHeaderHeight := 0; rs_LastSubmittedDaDataHeight := 0 |}.
Definition newFSM : FSM := {| fsm_state := zero_block_state; applyCh := None |}.

Definition assertValid (s next : RaftBlockState) : res unit :=
  if rs_Height next <=? rs_Height s then Err (EMsg "invalid height")
  else if rs_Timestamp next <=? rs_Timestamp s then Err (EMsg "invalid timestamp")
  else Ok tt.

(** A send that does not block: a full channel drops the message. *)
Definition notify (msg : RaftApplyMsg) (ch : option (list RaftApplyMsg * nat)) : option (list RaftApplyMsg * nat) :=
  match ch with
  | Some (q, cap) => Some (if (length q <? cap)%nat then q ++ [msg] else q, cap)
  | None => None
  end.

Section fsm.
Context `{ProtoCodec RaftBlockState}.

(** What [Apply] returns is the response of the log entry. *)
Definition Apply (index : Z) (data : bytes) (f : FSM) : FSM * res unit :=
  match proto_Unmarshal data with
  | Err e => (f, Err e)
  | Ok state =>
      match assertValid (fsm_state f) state with
      | Err e => (f, Err e)
      | Ok _ => ({| fsm_state := state; applyCh := notify {| am_Index := index; am_State := state |} (applyCh f) |}, Ok tt)
      end
  end.

Definition Snapshot (f : FSM) : RaftBlockState := fsm_state f.
(** [write] and [close] are the outcomes of the sink; the result is what the sink keeps, if it was not
    cancelled. *)
Definition Persist (write close : res unit) (state : RaftBlockState) : option bytes * res unit :=
  match proto_Marshal state with
  | Err e => (None, Err e)
  | Ok data =>
      match write with
      | Err e => (None, Err e)
      | Ok _ => match close with Err e => (None, Err e) | Ok _ => (Some data, Ok tt) end
      end
  end.
Definition Restore (rc : res bytes) (f : FSM) : FSM * res unit :=
  match rc with
  | Err e => (f, Err (EWrap "read snapshot" e))
  | Ok data =>
      match proto_Unmarshal data with
      | Err e => (f, Err (EWrap "decode snapshot" e))
      | Ok state => (set_state state f, Ok tt)
      end
  end.

Definition SetApplyCallback (cap : nat) (f : FSM) : FSM := {| fsm_state := fsm_state f; applyCh := Some ([], cap) |}.

(** ** The cluster *)

(** A node: its state machine and how many entries of the log it has applied. *)
Record replica := { rp_fsm : FSM; rp_applied : nat }.
(** [c_snaps] are the snapshots the nodes have persisted, with the number of entries they stand for. *)
Record cluster := { c_log : list bytes; c_nodes : list replica; c_snaps : list (nat * bytes) }.
Definition set_node (i : nat) (n : replica) (c : cluster) : cluster :=
  {| c_log := c_log c; c_nodes := <[i := n]> (c_nodes c); c_snaps := c_snaps c |}.

Inductive step : cluster -> cluster -> Prop :=
| commit c data : step c {| c_log := c_log c ++ [data]; c_nodes := c_nodes c; c_snaps := c_snaps c |}
| apply_next c i n data : c_nodes c !! i = Some n -> c_log c !! rp_applied n = Some data ->
    step c (set_node i {| rp_fsm := (Apply (Z.of_nat (S (rp_applied n))) data (rp_fsm n)).1; rp_applied := S (rp_applied n) |} c)
| take_snapshot c i n write close data r : c_nodes c !! i = Some n ->
    Persist write close (Snapshot (rp_fsm n)) = (Some data, r) ->
    step c {| c_log := c_log c; c_nodes := c_nodes c; c_snaps := (rp_applied n, data) :: c_snaps c |}
| install_snapshot c i n k data f : c_nodes c !! i = Some n -> (k, data) ∈ c_snaps c -> (rp_applied n <= k)%nat ->
    Restore (Ok data) (rp_fsm n) = (f, Ok tt) -> step c (set_node i {| rp_fsm := f; rp_applied := k |} c)
| restart c i n : c_nodes c !! i = Some n -> step c (set_node i {| rp_fsm := newFSM; rp_applied := 0 |} c)
| set_callback c i n cap : c_nodes c !! i = Some n ->
    step c (set_node i {| rp_fsm := SetApplyCallback cap (rp_fsm n); rp_applied := rp_applied n |} c)
| consume c i n msg q cap : c_nodes c !! i = Some n -> applyCh (rp_fsm n) = Some (msg :: q, cap) ->
    step c (set_node i {| rp_fsm := {| fsm_state := fsm_state (rp_fsm n); applyCh := Some (q, cap) |}; rp_applied := rp_applied n |} c).

Definition new_cluster (size : nat) : cluster :=
  {| c_log := []; c_nodes := replicate size {| rp_fsm := newFSM; rp_applied := 0 |}; c_snaps := [] |}.

(** The specification: the block state after the entries of a log, each of which counts only if it can be
    decoded and is newer in height and in time. *)
Definition newer (s next : RaftBlockState) : bool :=
  (rs_Height s <? rs_Height next) && (rs_Timestamp s <? rs_Timestamp next).
Definition next_state (s : RaftBlockState) (data : bytes) : RaftBlockState :=
  match proto_Unmarshal data with Ok st => if newer s st then st else s | Err _ => s end.
Definition replicated (log : list bytes) : RaftBlockState := foldl next_state zero_block_state log.

(** ** The node *)

(** A node that is nil has no leader and no quorum. [state] and [barrier] are what the library answers. *)
Definition IsLeader (n : option bool) : bool := match n with None => false | Some isLeader => isLeader end.
Definition HasQuorum (n : option bool) (barrier : res unit) : bool :=
  match n with
  | None => false
  | Some isLeader => if negb isLeader then false else is_ok barrier
  end.

(** [lib] is [raft.Apply(data, timeout).Error()], which does not look at the response of the entry. *)
Definition Broadcast (isLeader : bool) (ctxErr : option err) (lib : bytes -> cluster -> cluster * res unit)
    (state : RaftBlockState) (c : cluster) : cluster * res unit :=
  if negb isLeader then (c, Err (EMsg "not leader"))
  else match proto_Marshal state with
       | Err e => (c, Err (EWrap "marshal block state" e))
       | Ok data =>
           match ctxErr with
           | Some e => (c, Err e)
           | None => let '(c, r) := lib data c in (c, wrap_err "apply log" r)
           end
       end.

Definition GetState (i : nat) (c : cluster) : option RaftBlockState := (fun n => fsm_state (rp_fsm n)) <$> c_nodes c !! i.

End fsm.

(** The waiting loop, on what its tickers deliver: the applied and the last index, or the timeout. The
    result is [None] while it waits. *)
Inductive wait_event := WTick (applied last : Z) | WTimeout.
Fixpoint waitForMsgsLanded (events : list wait_event) : option (res unit) :=
  match events with
  | [] => None
  | WTick applied last :: events => if last <=? applied then Some (Ok tt) else waitForMsgsLanded events
  | WTimeout :: _ => Some (Err (EMsg "max wait time reached"))
  end.

(** ** Members *)

Record server := { sv_ID : string; sv_Address : string }.
#[global] Instance server_eq_dec : EqDecision server.
Proof. solve_decision. Defined.

(** [strings.Split(s, sep)] for a separator of one character. *)
Fixpoint strings_Split (sep : Ascii.ascii) (s : string) : list string :=
  match s with
  | EmptyString => [EmptyString]
  | String.String c s =>
      match strings_Split sep s with
      | part :: parts => if Ascii.eqb c sep then EmptyString :: part :: parts else String.String c part :: parts
      | [] => []
      end
  end.

(** [strings.TrimSpace] on ASCII text. *)
Definition is_space (c : Ascii.ascii) : bool :=
  let n := Ascii.nat_of_ascii c in ((9 <=? n) && (n <=? 13) || (n =? 32))%nat.
Fixpoint trim_left (s : string) : string :=
  match s with String.String c s' => if is_space c then trim_left s' else s | EmptyString => EmptyString end.
Fixpoint trim_right (s : string) : string :=
  match s with
  | EmptyString => EmptyString
  | String.String c s => match trim_right s with
                  | EmptyString => if is_space c then EmptyString else String.String c EmptyString
                  | s' => String.String c s'
                  end
  end.
Definition TrimSpace (s : string) : string := trim_right (trim_left s).

Definition splitPeerAddr (peer : string) : res server :=
  match strings_Split "@" peer with
  | [p0; p1] =>
      let nodeID := TrimSpace p0 in
      let address := TrimSpace p1 in
      if bool_decide (nodeID = EmptyString) then Err (EMsg "nodeID cannot be empty")
      else if bool_decide (address = EmptyString) then Err (EMsg "address cannot be empty")
      else Ok {| sv_ID := nodeID; sv_Address := address |}
  | _ => Err (EMsg "expecting nodeID@address for peer")
  end.

Fixpoint dedup_loop (seen : gset string) (servers : list server) : list server :=
  match servers with
  | [] => []
  | server :: servers =>
      if bool_decide (sv_ID server ∈ seen) then dedup_loop seen servers
      else server :: dedup_loop ({[sv_ID server]} ∪ seen) servers
  end.
Definition deduplicateServers (servers : list server) : list server := dedup_loop ∅ servers.

Record Config := { NodeID : string; RaftAddr : string; Bootstrap : bool; Peers : list string }.

(** The peers but this node, in order. *)
Fixpoint peer_servers (thisNode : server) (peers : list string) : res (list server) :=
  match peers with
  | [] => Ok []
  | peer :: peers =>
      let? addr := wrap_err "peer" (splitPeerAddr peer) in
      let? rest := peer_servers thisNode peers in
      Ok (if bool_decide (addr = thisNode) then rest else addr :: rest)
  end.

(** [existing] is the configuration the library has; the result has the servers the cluster was
    bootstrapped with, if it was. *)
Definition Start (existing : res (list server)) (bootstrap : list server -> res unit) (n : option Config)
    : option (list server) * res unit :=
  match n with
  | None => (None, Ok tt)
  | Some config =>
      if negb (Bootstrap config) then (None, Err (EMsg "raft cluster requires bootstrap mode"))
      else match existing with
           | Ok (_ :: _) => (None, Ok tt)
           | _ =>
               let thisNode := {| sv_ID := NodeID config; sv_Address := RaftAddr config |} in
               match peer_servers thisNode (Peers config) with
               | Err e => (None, Err e)
               | Ok peers =>
                   let servers := thisNode :: peers in
                   if negb (blen (deduplicateServers servers) =? blen servers)
                   then (None, Err (EMsg "duplicate peers found in config"))
                   else match bootstrap servers with
                        | Err e => (None, Err (EWrap "bootstrap cluster" e))
                        | Ok _ => (Some servers, Ok tt)
                        end
               end
           end
  end.

(** The library's member changes: [fail] is the error a call would end with, a call that fails changes
    nothing; a removal is by ID, and adding a voter that is a member updates its address. *)
Section members.
Variable fail : string -> option err.

Definition RemoveServer (id : string) (servers : list server) : list server * res unit :=
  match fail id with Some e => (servers, Err e) | None => (List.filter (fun s => negb (String.eqb (sv_ID s) id)) servers, Ok tt) end.
Definition AddVoter (new : server) (servers : list server) : list server * res unit :=
  match fail (sv_ID new) with
  | Some e => (servers, Err e)
  | None => (List.filter (fun s => negb (String.eqb (sv_ID s) (sv_ID new))) servers ++ [new], Ok tt)
  end.

(** The loop over the servers of the configuration that was read first; true if the node is a member. *)
Fixpoint remove_loop (nodeID addr : string) (read servers : list server) : list server * res bool :=
  match read with
  | [] => (servers, Ok false)
  | srv :: read =>
      if String.eqb (sv_ID srv) nodeID || String.eqb (sv_Address srv) addr then
        if String.eqb (sv_Address srv) addr && String.eqb (sv_ID srv) nodeID then (servers, Ok true)
        else match RemoveServer (sv_ID srv) servers with
             | (servers, Err e) => (servers, Err (EWrap "removing existing node" e))
             | (servers, Ok _) => remove_loop nodeID addr read servers
             end
      else remove_loop nodeID addr read servers
  end.
Definition AddPeer (nodeID addr : string) (getErr : option err) (servers : list server) : list server * res unit :=
  match getErr with
  | Some e => (servers, Err e)
  | None =>
      match remove_loop nodeID addr servers servers with
      | (servers, Err e) => (servers, Err e)
      | (servers, Ok true) => (servers, Ok tt)
      | (servers, Ok false) => AddVoter {| sv_ID := nodeID; sv_Address := addr |} servers
      end
  end.
Definition RemovePeer (nodeID : string) (servers : list server) : list server * res unit := RemoveServer nodeID servers.

End members.

(** ** What the cluster promises *)

#[global] Instance raft_msg : ProtoMsg RaftBlockState := fun st =>
  is_u64 (rs_Height st) /\ is_u64 (rs_Timestamp st) /\ is_u64 (rs_LastSubmittedDaHeaderHeight st) /\
  is_u64 (rs_LastSubmittedDaDataHeight st).

(** A decoded message has fields of its types. *)
Class TypedCodec (A : Type) `{ProtoMsg A, ProtoCodec A} := {
  proto_typed bz a : proto_Unmarshal bz = Ok a -> proto_valid a
}.

Section promises.
Context `{PC : ProtoCodec RaftBlockState} {PL : ProtoCodecLaws RaftBlockState} {TC : TypedCodec RaftBlockState}.

Lemma assertValid_newer s next : is_ok (assertValid s next) = newer s next.
Proof.
  unfold assertValid, newer. destruct (Z.leb_spec (rs_Height next) (rs_Height s)), (Z.ltb_spec (rs_Height s) (rs_Height next));
    try lia; [done|]. destruct (Z.leb_spec (rs_Timestamp next) (rs_Timestamp s)), (Z.ltb_spec (rs_Timestamp s) (rs_Timestamp next));
    try lia; done.
Qed.

Lemma Apply_state i data f : fsm_state (Apply i data f).1 = next_state (fsm_state f) data.
Proof.
  unfold Apply, next_state. destruct (proto_Unmarshal data) as [st|]; [|done]. rewrite <- assertValid_newer.
  by destruct (assertValid (fsm_state f) st).
Qed.

(** *** The replicated state of a growing log *)

(** [s'] is [s] or a later state. *)
Definition grown (s s' : RaftBlockState) : Prop :=
  s' = s \/ rs_Height s < rs_Height s' /\ rs_Timestamp s < rs_Timestamp s'.

#[local] Instance grown_preorder : PreOrder grown.
Proof. split; [by left|]. intros s1 s2 s3 [->|[]] [->|[]]; unfold grown; [by left|by right|by right|right; lia]. Qed.

Lemma next_grown s data : grown s (next_state s data).
Proof.
  unfold next_state. destruct (proto_Unmarshal data) as [st|]; [|by left]. unfold newer. destruct (_ && _) eqn:E; [right|by left]. lia.
Qed.
Lemma fold_grown log s : grown s (foldl next_state s log).
Proof. revert s. induction log as [|d log IH]; intros s; simpl; [done|]. etrans; [apply next_grown|apply IH]. Qed.

Lemma replicated_app l k : replicated (l ++ k) = foldl next_state (replicated l) k.
Proof. unfold replicated. by rewrite foldl_app. Qed.
Lemma replicated_grown log m n : (m <= n)%nat -> grown (replicated (take m log)) (replicated (take n log)).
Proof.
  intros Hm. rewrite <- (take_drop m (take n log)), take_take, Nat.min_l by done. rewrite replicated_app. apply fold_grown.
Qed.

Lemma replicated_valid log : proto_valid (replicated log).
Proof.
  unfold replicated. assert (Hz : proto_valid zero_block_state) by (repeat split; simpl; try unfold is_u64; unfold two64; lia).
  revert Hz. generalize zero_block_state. induction log as [|d log IH]; intros s Hs; simpl; [done|]. apply IH.
  unfold next_state. destruct (proto_Unmarshal d) as [st|] eqn:E; [|done]. destruct (newer s st); [by eapply proto_typed|done].
Qed.

(** *** The invariant of the cluster *)

Definition by_height (m m' : RaftApplyMsg) : Prop := rs_Height (am_State m) < rs_Height (am_State m').
Definition channel_ok (f : FSM) : Prop :=
  match applyCh f with
  | Some (q, cap) => (length q <= cap)%nat /\ StronglySorted by_height q /\
                     Forall (fun m => rs_Height (am_State m) <= rs_Height (fsm_state f)) q
  | None => True
  end.
Definition node_ok (log : list bytes) (n : replica) : Prop :=
  (rp_applied n <= length log)%nat /\ fsm_state (rp_fsm n) = replicated (take (rp_applied n) log) /\ channel_ok (rp_fsm n).
Definition snap_ok (log : list bytes) (p : nat * bytes) : Prop :=
  (p.1 <= length log)%nat /\ proto_Unmarshal p.2 = Ok (replicated (take p.1 log)).
Definition inv (c : cluster) : Prop := Forall (node_ok (c_log c)) (c_nodes c) /\ Forall (snap_ok (c_log c)) (c_snaps c).

Lemma channel_grown f st : channel_ok f -> grown (fsm_state f) st -> channel_ok (set_state st f).
Proof.
  unfold channel_ok, set_state. simpl. destruct (applyCh f) as [[q cap]|]; [|done]. intros (Hl & Hs & Hf) Hg. split; [done|].
  split; [done|]. eapply Forall_impl; [exact Hf|]. simpl. intros m Hm. destruct Hg as [->|[]]; lia.
Qed.

Lemma sorted_snoc q m : StronglySorted by_height q -> Forall (fun m' => by_height m' m) q -> StronglySorted by_height (q ++ [m]).
Proof.
  induction 1 as [|x q Hs IH Hx]; intros Hf; simpl; [repeat constructor|]. inversion Hf; subst.
  constructor; [by apply IH|]. apply Forall_app. split; [done|]. by constructor.
Qed.

Lemma Apply_channel i data f : channel_ok f -> channel_ok (Apply i data f).1.
Proof.
  intros Hc. unfold Apply. destruct (proto_Unmarshal data) as [st|]; [|done]. destruct (assertValid (fsm_state f) st) as [[]|] eqn:Ev; [|done].
  assert (Hlt : rs_Height (fsm_state f) < rs_Height st).
  { pose proof (assertValid_newer (fsm_state f) st) as Hn. rewrite Ev in Hn. unfold newer in Hn. simpl in Hn. lia. }
  unfold channel_ok in *. simpl. destruct (applyCh f) as [[q cap]|]; [|done]. destruct Hc as (Hl & Hs & Hf). simpl.
  assert (Hf' : Forall (fun m => rs_Height (am_State m) < rs_Height st) q) by (eapply Forall_impl; [exact Hf|]; simpl; intros; lia).
  destruct (Nat.ltb_spec (length q) cap).
  - rewrite length_app. simpl. split; [lia|]. split; [by apply sorted_snoc|]. apply Forall_app. split; [|by repeat constructor].
    eapply Forall_impl; [exact Hf'|]. simpl. intros. lia.
  - split; [done|]. split; [done|]. eapply Forall_impl; [exact Hf'|]. simpl. intros. lia.
Qed.

Lemma node_ok_weaken log d n : node_ok log n -> node_ok (log ++ [d]) n.
Proof. intros (Hl & Hs & Hc). split; [rewrite length_app; lia|]. split; [by rewrite take_app_le|done]. Qed.
Lemma snap_ok_weaken log d p : snap_ok log p -> snap_ok (log ++ [d]) p.
Proof. intros [Hl Hs]. split; [rewrite length_app; lia|by rewrite take_app_le]. Qed.

Lemma set_node_inv c i n : inv c -> node_ok (c_log c) n -> inv (set_node i n c).
Proof. intros [Hn Hs] Ho. split; [by apply Forall_insert|done]. Qed.

Lemma new_ok log : node_ok log {| rp_fsm := newFSM; rp_applied := 0 |}.
Proof. split; [simpl; lia|]. done. Qed.

Lemma step_inv c c' : step c c' -> inv c -> inv c'.
Proof.
  intros Hst Hi. pose proof Hi as [Hn Hs].
  destruct Hst as [c data|c i n data En Ed|c i n write close data r En Ep|c i n k data f En Ek Hk Er|c i n En|c i n cap En|c i n msg q cap En Eq].
  - split; (eapply Forall_impl; [eassumption|]); intros; [by apply node_ok_weaken|by apply snap_ok_weaken].
  - rewrite Forall_lookup in Hn. destruct (Hn i n En) as (Hl & Hst & Hc). apply set_node_inv; [done|].
    pose proof (lookup_lt_Some _ _ _ Ed). split; [simpl; lia|]. split; [|by apply Apply_channel]. simpl.
    rewrite Apply_state, Hst, (take_S_r _ _ _ Ed), replicated_app. done.
  - split; [done|]. constructor; [|done]. rewrite Forall_lookup in Hn. destruct (Hn i n En) as (Hl & Hst & Hc). split; [done|].
    unfold Persist, Snapshot in Ep. rewrite Hst in Ep. simpl.
    destruct (proto_roundtrip _ (replicated_valid (take (rp_applied n) (c_log c)))) as (bz & Em & Eu). rewrite Em in Ep.
    destruct write; [|done]. destruct close; by simplify_eq.
  - rewrite Forall_lookup in Hn. destruct (Hn i n En) as (Hl & Hst & Hc). rewrite Forall_forall in Hs. destruct (Hs _ Ek) as [Hkl Hu].
    simpl in Hu, Hkl. unfold Restore in Er. rewrite Hu in Er. simplify_eq. apply set_node_inv; [done|]. split; [done|]. split; [done|].
    simpl. apply channel_grown; [done|]. rewrite Hst. by apply replicated_grown.
  - apply set_node_inv, new_ok. done.
  - rewrite Forall_lookup in Hn. destruct (Hn i n En) as (Hl & Hst & Hc). apply set_node_inv; [done|]. split; [done|]. split; [done|].
    unfold channel_ok. simpl. split; [lia|]. split; constructor.
  - rewrite Forall_lookup in Hn. destruct (Hn i n En) as (Hl & Hst & Hc). apply set_node_inv; [done|]. split; [done|]. split; [done|].
    unfold channel_ok in *. simpl in *. rewrite Eq in Hc. destruct Hc as (Hq & Hss & Hf). simpl in Hq.
    apply StronglySorted_inv in Hss as [Hss _]. inversion Hf; subst. split; [lia|done].
Qed.

Lemma steps_inv c c' : rtc step c c' -> inv c -> inv c'.
Proof. induction 1; eauto using step_inv. Qed.
Lemma cluster_inv size : inv (new_cluster size).
Proof. split; [|constructor]. apply Forall_replicate, new_ok. Qed.
Lemma step_log c c' : step c c' -> c_log c `prefix_of` c_log c'.
Proof. destruct 1; simpl; try done. by exists [data]. Qed.
Lemma steps_log c c' : rtc step c c' -> c_log c `prefix_of` c_log c'.
Proof. induction 1 as [|c1 c2 c3 H1 _ IH]; [done|]. etrans; [by apply step_log|done]. Qed.

(** C31: The replicas agree. Whatever is committed, and however the nodes apply entries, take and install
    snapshots, restart and lose messages of a full channel: the block state of a node is a function of
    the log and of how far the node has applied it; of two nodes, the one that has applied more is at the
    same block or at one with a greater height and time; and the messages that wait for the syncer have
    strictly increasing heights up to the node's. *)
Theorem replicas_agree (size : nat) (c : cluster) (Hr : rtc step (new_cluster size) c) (i j : nat) (m n : replica)
  (Hi : c_nodes c !! i = Some m) (Hj : c_nodes c !! j = Some n) (Hle : (rp_applied m <= rp_applied n)%nat) :
  GetState i c = Some (replicated (take (rp_applied m) (c_log c))) /\
  (rp_applied m = rp_applied n -> GetState i c = GetState j c) /\
  grown (fsm_state (rp_fsm m)) (fsm_state (rp_fsm n)) /\ channel_ok (rp_fsm n).
Proof.
  pose proof (steps_inv _ _ Hr (cluster_inv size)) as [Hn _]. rewrite Forall_lookup in Hn.
  destruct (Hn _ _ Hi) as (_ & Em & _). destruct (Hn _ _ Hj) as (_ & En & Hc). unfold GetState. rewrite Hi, Hj. csimpl.
  rewrite Em, En. split; [done|]. split; [by intros ->|]. split; [by apply replicated_grown|done].
Qed.

(** *** Broadcasting *)

(** The documentation of [raft.Apply]: it commits and applies entries of the log and no more; without an
    error the given entry is in the log and applied on this node. *)
Class RaftLib := {
  raft_Apply : nat -> bytes -> cluster -> cluster * res unit;
  raft_Apply_steps i data c c' r : raft_Apply i data c = (c', r) -> rtc step c c';
  raft_Apply_committed i data c c' : raft_Apply i data c = (c', Ok tt) -> exists p n,
    (length (c_log c) <= p)%nat /\ c_log c' !! p = Some data /\ c_nodes c' !! i = Some n /\ (p < rp_applied n)%nat;
}.

Lemma prefix_take (l k : list bytes) p : l `prefix_of` k -> (p <= length l)%nat -> take p k = take p l.
Proof. intros [x ->] Hp. by rewrite take_app_le. Qed.

Lemma take_entry (log : list bytes) p q d : log !! p = Some d -> (p < q)%nat ->
  replicated (take q log) = foldl next_state (next_state (replicated (take p log)) d) (drop (S p) (take q log)).
Proof.
  intros Ed Hpq. rewrite <- (take_drop (S p) (take q log)) at 1. rewrite take_take, Nat.min_l by lia.
  by rewrite (take_S_r _ _ _ Ed), !replicated_app.
Qed.

(** What a broadcast does. A node that is not the leader changes nothing and fails. After a successful
    broadcast the block is an entry of the log. If it is newer in height and in time than the state the
    log had before it, then on every node that has applied it, now and later, the cluster is at this
    block or past it. If it is not, the entry has no effect on any node, and the broadcast is reported as
    successful all the same. *)
Theorem Broadcast_outcome {RL : RaftLib} (size : nat) (c c' : cluster) (i : nat) (isLeader : bool) (ctxErr : option err)
  (st : RaftBlockState) (r : res unit) (Hr : rtc step (new_cluster size) c) (Hv : proto_valid st)
  (Hb : Broadcast isLeader ctxErr (raft_Apply i) st c = (c', r)) :
  (isLeader = false -> c' = c /\ r <> Ok tt) /\
  (r = Ok tt -> exists p data, c_log c' !! p = Some data /\ proto_Unmarshal data = Ok st /\
     (exists n, c_nodes c' !! i = Some n /\ (p < rp_applied n)%nat) /\
     let before := replicated (take p (c_log c')) in
     forall c'' j n, rtc step c' c'' -> c_nodes c'' !! j = Some n -> (p < rp_applied n)%nat ->
       if newer before st then grown st (fsm_state (rp_fsm n))
       else fsm_state (rp_fsm n) = foldl next_state before (drop (S p) (take (rp_applied n) (c_log c'')))).
Proof.
  unfold Broadcast in Hb. destruct isLeader; simpl in Hb; [|by simplify_eq]. split; [done|]. intros ->.
  destruct (proto_roundtrip st Hv) as (data & Em & Eu). rewrite Em in Hb. destruct ctxErr; [done|].
  destruct (raft_Apply i data c) as [c1 [[]|e]] eqn:El; simpl in Hb; simplify_eq.
  pose proof (raft_Apply_steps _ _ _ _ _ El) as Hst. destruct (raft_Apply_committed _ _ _ _ El) as (p & n & Hp & Ep & En & Hn).
  exists p, data. split; [done|]. split; [done|]. split; [by exists n|]. intros before c'' j m Hs Ej Hm.
  pose proof (steps_inv _ _ Hs (steps_inv _ _ Hst (steps_inv _ _ Hr (cluster_inv size)))) as [Hi _]. rewrite Forall_lookup in Hi.
  destruct (Hi _ _ Ej) as (_ & -> & _). pose proof (steps_log _ _ Hs) as Hpre.
  rewrite (take_entry _ p _ data) by (done || by eapply prefix_lookup_Some).
  rewrite (prefix_take _ _ p Hpre) by (apply lookup_lt_Some in Ep; lia). fold before.
  unfold next_state at 2. unfold next_state at 3. rewrite Eu. destruct (newer before st); [apply fold_grown|done].
Qed.

End promises.

(** *** Members *)

Lemma dedup_length seen l : (length (dedup_loop seen l) <= length l)%nat.
Proof. revert seen. induction l as [|s l IH]; intros seen; simpl; [done|]. destruct (bool_decide _); simpl; [etrans; [apply IH|lia]|]. specialize (IH ({[sv_ID s]} ∪ seen)). lia. Qed.
Lemma dedup_same seen l : length (dedup_loop seen l) = length l -> dedup_loop seen l = l.
Proof.
  revert seen. induction l as [|s l IH]; intros seen; simpl; [done|]. destruct (bool_decide _); simpl.
  - pose proof (dedup_length seen l). lia.
  - intros [= Hl]. by rewrite IH.
Qed.
Lemma dedup_ids seen l : NoDup (sv_ID <$> dedup_loop seen l) /\ Forall (fun s => sv_ID s ∉ seen) (dedup_loop seen l).
Proof.
  revert seen. induction l as [|s l IH]; intros seen; simpl; [repeat constructor|]. case_bool_decide as Hin; [apply IH|].
  destruct (IH ({[sv_ID s]} ∪ seen)) as [Hn Hf]. split.
  - csimpl. constructor; [|done]. rewrite list_elem_of_fmap. intros (s' & E & Hs'). rewrite Forall_forall in Hf.
    apply (Hf _ Hs'). rewrite <- E. apply elem_of_union_l, elem_of_singleton. done.
  - constructor; [done|]. eapply Forall_impl; [exact Hf|]. intros s' [_ Hs']%not_elem_of_union. done.
Qed.
Lemma dedup_whole l : length (deduplicateServers l) = length l -> NoDup (sv_ID <$> l).
Proof.
  intros Hl. rewrite <- (dedup_same ∅ l Hl). apply dedup_ids.
Qed.

Lemma peers_listed this ps peers : peer_servers this ps = Ok peers ->
  Forall (fun s => exists p, p ∈ ps /\ splitPeerAddr p = Ok s) peers.
Proof.
  revert peers. induction ps as [|p ps IH]; intros peers Ep; simpl in Ep; [by simplify_eq|].
  destruct (splitPeerAddr p) as [s|] eqn:Es; [|done]. simpl in Ep. res_inv Ep. specialize (IH _ Hx).
  assert (Hrest : Forall (fun s => exists p', p' ∈ p :: ps /\ splitPeerAddr p' = Ok s) x).
  { eapply Forall_impl; [exact IH|]. intros s' (p' & Hp' & Hs'). exists p'. split; [by right|done]. }
  injection Ep as <-. destruct (bool_decide _); [done|]. constructor; [exists p; split; [by left|done]|done].
Qed.

(** A cluster is bootstrapped with this node first and with distinct node IDs, each but the first from
    the configured peers, and only if there was no configuration. *)
Lemma Start_bootstraps existing bootstrap config servers r :
  Start existing bootstrap (Some config) = (Some servers, r) ->
  r = Ok tt /\ Bootstrap config = true /\ ~ (exists s l, existing = Ok (s :: l)) /\ bootstrap servers = Ok tt /\
  NoDup (sv_ID <$> servers) /\ exists peers, servers = {| sv_ID := NodeID config; sv_Address := RaftAddr config |} :: peers /\
  Forall (fun s => exists p, p ∈ Peers config /\ splitPeerAddr p = Ok s) peers.
Proof.
  unfold Start. destruct (Bootstrap config); [|done]. cbn [negb]. set (this := {| sv_ID := _; sv_Address := _ |}).
  intros HS. assert (He : ~ (exists s l, existing = Ok (s :: l))) by (intros (s & l & ->); done).
  assert (HS' : match peer_servers this (Peers config) with
    | Err e => (None, Err e)
    | Ok peers => if negb (blen (deduplicateServers (this :: peers)) =? blen (this :: peers))
                  then (None, Err (EMsg "duplicate peers found in config"))
                  else match bootstrap (this :: peers) with
                       | Err e => (None, Err (EWrap "bootstrap cluster" e)) | Ok _ => (Some (this :: peers), Ok tt) end
    end = (Some servers, r)) by (destruct existing as [[|s l]|]; [exact HS|by exfalso; apply He; eauto|exact HS]).
  destruct (peer_servers this (Peers config)) as [peers|] eqn:Ep; [|done].
  destruct (Z.eqb_spec (blen (deduplicateServers (this :: peers))) (blen (this :: peers))) as [Hd|]; [|done]. cbn [negb] in HS'.
  destruct (bootstrap (this :: peers)) as [[]|] eqn:Eb; [|done]. injection HS' as <- <-.
  repeat (split; [done|]). split; [apply dedup_whole; unfold blen in Hd; lia|]. exists peers. split; [done|]. by eapply peers_listed.
Qed.

Definition conflict (nodeID addr : string) (s : server) : bool := String.eqb (sv_ID s) nodeID || String.eqb (sv_Address s) addr.

Lemma remove_loop_false fail nodeID addr read servers servers' : remove_loop fail nodeID addr read servers = (servers', Ok false) ->
  servers' = List.filter (fun s => negb (existsb (fun q => conflict nodeID addr q && String.eqb (sv_ID s) (sv_ID q)) read)) servers.
Proof.
  revert servers. induction read as [|srv read IH]; intros servers Hr; simpl in Hr.
  { injection Hr as <-. clear. induction servers as [|s l IH]; simpl; [done|]. by f_equal. }
  change (String.eqb (sv_ID srv) nodeID || String.eqb (sv_Address srv) addr) with (conflict nodeID addr srv) in Hr.
  simpl. destruct (conflict nodeID addr srv); simpl; [|by apply IH].
  destruct (_ && _); [done|]. unfold RemoveServer in Hr. destruct (fail (sv_ID srv)); [done|]. rewrite (IH _ Hr). clear.
  induction servers as [|s l IH]; simpl; [done|]. destruct (String.eqb (sv_ID s) (sv_ID srv)); simpl; [done|].
  destruct (existsb _ read); simpl; [done|]. by f_equal.
Qed.

Lemma remove_loop_true fail nodeID addr read servers servers' : remove_loop fail nodeID addr read servers = (servers', Ok true) ->
  {| sv_ID := nodeID; sv_Address := addr |} ∈ read.
Proof.
  revert servers. induction read as [|srv read IH]; intros servers Hr; simpl in Hr; [done|].
  destruct (String.eqb_spec (sv_ID srv) nodeID) as [Ei|Ei], (String.eqb_spec (sv_Address srv) addr) as [Ea|Ea]; simpl in Hr.
  - subst. destruct srv. by left.
  - right. destruct (RemoveServer fail (sv_ID srv) servers) as [l [[]|]]; [eauto|done].
  - right. destruct (RemoveServer fail (sv_ID srv) servers) as [l [[]|]]; [eauto|done].
  - right. eauto.
Qed.

Lemma same_id (servers : list server) s q : NoDup (sv_ID <$> servers) -> s ∈ servers -> q ∈ servers -> sv_ID s = sv_ID q -> s = q.
Proof.
  intros Hnd [i Hi]%list_elem_of_lookup [j Hj]%list_elem_of_lookup E.
  assert (i = j) as ->; [|congruence]. eapply NoDup_lookup; [exact Hnd| |]; rewrite list_lookup_fmap; [by rewrite Hi|rewrite Hj; csimpl; by rewrite E].
Qed.

(** A node that joins under a new address or with the address of another node replaces what was there:
    after a successful [AddPeer] of a node that was not a member, the members are those that have
    neither its ID nor its address, and the node. *)
Lemma AddPeer_replaces fail nodeID addr servers servers' : NoDup (sv_ID <$> servers) ->
  {| sv_ID := nodeID; sv_Address := addr |} ∉ servers -> AddPeer fail nodeID addr None servers = (servers', Ok tt) ->
  forall s, s ∈ servers' <-> s = {| sv_ID := nodeID; sv_Address := addr |} \/ s ∈ servers /\ sv_ID s <> nodeID /\ sv_Address s <> addr.
Proof.
  intros Hnd Hnew. unfold AddPeer. destruct (remove_loop fail nodeID addr servers servers) as [l [[]|]] eqn:El; [|..|done].
  { by apply remove_loop_true in El. }
  unfold AddVoter. destruct (fail _); [done|]. intros [= <-] s. rewrite elem_of_app, list_elem_of_singleton.
  apply remove_loop_false in El as ->. rewrite !list_elem_of_In, !filter_In. simpl.
  rewrite <- !list_elem_of_In. split; [|intros [->|(Hs & Hi & Ha)]; [by right|left]].
  - intros [((Hs & Hx) & Hi)| ->]; [right|by left]. split; [done|]. apply negb_true_iff in Hx, Hi.
    assert (Hc : conflict nodeID addr s = false).
    { rewrite <- not_true_iff_false in Hx |- *. intros Hc. apply Hx, existsb_exists. exists s. rewrite <- list_elem_of_In, Hc, String.eqb_refl. done. }
    unfold conflict in Hc. apply orb_false_iff in Hc as [H1 H2]. by apply String.eqb_neq in H1, H2.
  - assert (Hc : conflict nodeID addr s = false).
    { unfold conflict. apply orb_false_iff. split; by apply String.eqb_neq. }
    split; [split; [done|]|by apply negb_true_iff, String.eqb_neq]. apply negb_true_iff, not_true_iff_false.
    intros Hex. apply existsb_exists in Hex as (q & Hq & Hcq). apply andb_true_iff in Hcq as [Hcq He]. apply String.eqb_eq in He. rewrite <- list_elem_of_In in Hq.
    assert (s = q) as -> by by eapply same_id. congruence.
Qed.

(** Witnesses: two nodes, a codec that checks the width of the fields, and a library that commits an entry
    and applies it on the caller's node when that node has applied everything before. *)
Module RaftWitness.

#[local] Instance state_eq_dec : EqDecision RaftBlockState.
Proof. solve_decision. Defined.
#[local] Instance state_countable : Countable RaftBlockState.
Proof.
  refine (inj_countable (fun s => (rs_Height s, rs_Hash s, rs_Timestamp s, rs_Header s, rs_Data s,
      (rs_LastSubmittedDaHeaderHeight s, rs_LastSubmittedDaDataHeight s)))
    (fun '(h, x, t, b, d, (lh, ld)) => Some {| rs_Height := h; rs_Hash := x; rs_Timestamp := t; rs_Header := b; rs_Data := d;
      rs_LastSubmittedDaHeaderHeight := lh; rs_LastSubmittedDaDataHeight := ld |}) _).
  by intros [].
Defined.
Definition u64_ok (z : Z) : bool := (0 <=? z) && (z <? two64).
Definition state_ok (st : RaftBlockState) : bool :=
  u64_ok (rs_Height st) && u64_ok (rs_Timestamp st) && u64_ok (rs_LastSubmittedDaHeaderHeight st) &&
  u64_ok (rs_LastSubmittedDaDataHeight st).
Lemma state_ok_valid st : state_ok st = true <-> proto_valid st.
Proof. unfold state_ok, u64_ok, proto_valid, raft_msg, is_u64. rewrite !andb_true_iff, !Z.leb_le, !Z.ltb_lt. tauto. Qed.

#[local] Instance state_codec : ProtoCodec RaftBlockState := {|
  proto_Marshal st := Ok (RefCodec.pos_bytes (encode st));
  proto_Unmarshal bz := match RefCodec.bytes_pos bz ≫= decode with
                        | Some st => if state_ok st then Ok st else Err (EMsg "bad message")
                        | None => Err (EMsg "bad message")
                        end |}.
#[local] Instance state_laws : ProtoCodecLaws RaftBlockState.
Proof.
  constructor. intros a Ha. eexists. split; [done|]. simpl. rewrite RefCodec.bytes_pos_bytes. simpl. rewrite decode_encode.
  apply state_ok_valid in Ha. by rewrite Ha.
Qed.
#[local] Instance state_typed : TypedCodec RaftBlockState.
Proof.
  constructor. intros bz a. simpl. destruct (_ ≫= _) as [st|]; [|done]. destruct (state_ok st) eqn:E; [|done]. intros [= <-].
  by apply state_ok_valid.
Qed.

Definition apply_here (i : nat) (data : bytes) (c : cluster) : cluster * res unit :=
  match c_nodes c !! i with
  | Some n =>
      if (rp_applied n =? length (c_log c))%nat then
        (set_node i {| rp_fsm := (Apply (Z.of_nat (S (rp_applied n))) data (rp_fsm n)).1; rp_applied := S (rp_applied n) |}
           {| c_log := c_log c ++ [data]; c_nodes := c_nodes c; c_snaps := c_snaps c |}, Ok tt)
      else (c, Err (EMsg "timed out enqueuing operation"))
  | None => (c, Err (EMsg "raft is already shutdown"))
  end.

#[local] Program Instance here_lib : RaftLib := {| raft_Apply := apply_here |}.
Next Obligation.
  intros i data c c' r. unfold apply_here. destruct (c_nodes c !! i) as [n|] eqn:En; [|by intros [= <- <-]].
  destruct (Nat.eqb_spec (rp_applied n) (length (c_log c))) as [Ea|]; [|by intros [= <- <-]]. intros [= <- <-].
  eapply rtc_l; [apply commit|]. apply rtc_once. eapply (apply_next {| c_log := c_log c ++ [data]; c_nodes := c_nodes c; c_snaps := c_snaps c |}); [done|].
  simpl. rewrite Ea. by apply list_lookup_middle.
Qed.
Next Obligation.
  intros i data c c'. unfold apply_here. destruct (c_nodes c !! i) as [n|] eqn:En; [|done].
  destruct (Nat.eqb_spec (rp_applied n) (length (c_log c))) as [Ea|]; [|done]. intros [= <-]. exists (length (c_log c)).
  eexists. split; [done|]. split; [by apply list_lookup_middle|]. simpl.
  split; [apply list_lookup_insert_eq; by eapply lookup_lt_Some|]. simpl. lia.
Qed.

Definition block (h t : Z) : RaftBlockState := {|
  rs_Height := h; rs_Hash := [x01]; rs_Timestamp := t; rs_Header := []; rs_Data := [];
  rs_LastSubmittedDaHeaderHeight := 0; rs_LastSubmittedDaDataHeight := 0 |}.
Definition w_c0 : cluster := new_cluster 2.
Definition w_c1 : cluster := (Broadcast true None (raft_Apply 0) (block 1 100) w_c0).1.
Definition w_c2 : cluster := (Broadcast true None (raft_Apply 0) (block 2 100) w_c1).1.

Lemma broadcast_steps i st c : rtc step c (Broadcast true None (raft_Apply i) st c).1.
Proof.
  unfold Broadcast. simpl. destruct (apply_here i _ c) as [c' r] eqn:E. simpl. by apply (raft_Apply_steps (RaftLib := here_lib)) in E.
Qed.
Lemma w_c1_reachable : rtc step (new_cluster 2) w_c1.
Proof. apply broadcast_steps. Qed.
Lemma w_c2_reachable : rtc step (new_cluster 2) w_c2.
Proof. etrans; [apply w_c1_reachable|]. apply broadcast_steps. Qed.

Definition w_node (i : nat) (c : cluster) : replica := default {| rp_fsm := newFSM; rp_applied := 0 |} (c_nodes c !! i).

Lemma replicas_agree_witness :
  GetState 1 w_c2 = Some (replicated (take (rp_applied (w_node 1 w_c2)) (c_log w_c2))) /\
  (rp_applied (w_node 1 w_c2) = rp_applied (w_node 0 w_c2) -> GetState 1 w_c2 = GetState 0 w_c2) /\
  grown (fsm_state (rp_fsm (w_node 1 w_c2))) (fsm_state (rp_fsm (w_node 0 w_c2))) /\ channel_ok (rp_fsm (w_node 0 w_c2)).
Proof.
  refine (replicas_agree 2 w_c2 w_c2_reachable 1 0 (w_node 1 w_c2) (w_node 0 w_c2) _ _ _); [by vm_compute|by vm_compute|vm_compute; lia].
Defined.

(** The second block has the time of the first: it is broadcast with success and has no effect. *)
Lemma Broadcast_outcome_witness :
  Broadcast true None (raft_Apply 0) (block 2 100) w_c1 = (w_c2, Ok tt) /\ GetState 0 w_c2 = Some (block 1 100) /\
  (true = false -> w_c2 = w_c1 /\ Ok tt <> Ok tt) /\
  (Ok tt = Ok tt -> exists p data, c_log w_c2 !! p = Some data /\ proto_Unmarshal data = Ok (block 2 100) /\
     (exists n, c_nodes w_c2 !! 0%nat = Some n /\ (p < rp_applied n)%nat) /\
     let before := replicated (take p (c_log w_c2)) in
     forall c'' j n, rtc step w_c2 c'' -> c_nodes c'' !! j = Some n -> (p < rp_applied n)%nat ->
       if newer before (block 2 100) then grown (block 2 100) (fsm_state (rp_fsm n))
       else fsm_state (rp_fsm n) = foldl next_state before (drop (S p) (take (rp_applied n) (c_log c'')))).
Proof.
  split; [by vm_compute|]. split; [by vm_compute|].
  refine (Broadcast_outcome 2 w_c1 w_c2 0 true None (block 2 100) (Ok tt) w_c1_reachable _ _); [by apply state_ok_valid|by vm_compute].
Defined.

Example peers_parsed :
  splitPeerAddr " node1 @127.0.0.1:7000" = Ok {| sv_ID := "node1"; sv_Address := "127.0.0.1:7000" |} /\
  splitPeerAddr "node1" = Err (EMsg "expecting nodeID@address for peer") /\
  (Start (Ok []) (fun _ => Ok tt) (Some {| NodeID := "a"; RaftAddr := "x:1"; Bootstrap := true; Peers := ["b@y:1"; "a@x:1"] |})).1
    = Some [{| sv_ID := "a"; sv_Address := "x:1" |}; {| sv_ID := "b"; sv_Address := "y:1" |}].
Proof. by vm_compute. Qed.

End RaftWitness.

End Raft.
