(* ===== verification/Election.v ===== *)
(** Leader election (pkg/raft/election.go) and the modes a node switches between (node/failover.go).

    [DynamicLeaderElection.Run] is a loop over notifications of raft, a ticker, the errors of the worker
    and the end of the context; one worker runs in a goroutine, as leader or as follower. The loop is
    [handle] on its local variables [loop]; the goroutines are the list [workers], and a worker that
    returns by itself is the event [WorkerExit]. The raft node, the factories and the runnables are the
    class [Elect]; a handle of type [R] names a runnable whose state is in the world [W]. *)

From S2P Require Import Prelude Sha256 Interfaces ForcedInclusion Types Validation Store Pending DACache Submit Replay Producer.
From S2P Require Import DARetriever Syncer Raft.

Import Producer.

Module Election.

Definition ErrLeadershipLost : err := ESentinel "leader lock lost".

Class Elect (W R : Type) := {
  n_waitForMsgsLanded : W -> W * res unit;
  n_leadershipTransfer : W -> W * res unit;
  n_leaderID : W -> string;
  n_NodeID : W -> string;
  n_GetState : W -> RaftBlockState;
  leaderFactory : W -> W * res R;
  followerFactory : W -> W * res R;
  r_IsSynced : W -> R -> RaftBlockState -> W * res Z;
  r_Recover : W -> R -> RaftBlockState -> W * res unit;
  (** what [Run] of a runnable returns once its context is cancelled *)
  r_cancelled : W -> R -> W * res unit;
}.

Section election.
Context {W R : Type} `{Elect W R}.

(** ** The loop *)

(** [ticker] is whether the ticker's channel is still there; [errCh] has room for one error. *)
Record loop := {
  isStarted : bool; isCurrentlyLeader : bool; runnable : option R; workers : list (string * R); errCh : option err; ticker : bool
}.
Definition new_loop : loop := {|
  isStarted := false; isCurrentlyLeader := false; runnable := None; workers := []; errCh := None; ticker := true |}.
Definition set_workers (ws : list (string * R)) (ch : option err) (l : loop) : loop := {|
  isStarted := isStarted l; isCurrentlyLeader := isCurrentlyLeader l; runnable := runnable l; workers := ws; errCh := ch; ticker := ticker l |}.
Definition set_role (leader : bool) (r : R) (l : loop) : loop := {|
  isStarted := true; isCurrentlyLeader := leader; runnable := Some r; workers := workers l; errCh := errCh l; ticker := ticker l |}.
Definition stop_ticker (l : loop) : loop := {|
  isStarted := isStarted l; isCurrentlyLeader := isCurrentlyLeader l; runnable := runnable l; workers := workers l; errCh := errCh l; ticker := false |}.

(** The end of a worker's goroutine: an error other than the cancellation gives the leadership away and
    is sent without blocking. *)
Definition worker_done (name : string) (result : res unit) (w : W) (ch : option err) : W * option err :=
  match result with
  | Ok _ => (w, ch)
  | Err e =>
      if errors_is e Submit.context_Canceled then (w, ch)
      else let '(w, _) := n_leadershipTransfer w in
           (w, match ch with None => Some (EMsg (String.append name " worker exited unexpectedly")) | Some e => Some e end)
  end.

(** [workerCancel(); wg.Wait()] *)
Fixpoint drain (ws : list (string * R)) (w : W) (ch : option err) : W * option err :=
  match ws with
  | [] => (w, ch)
  | (name, r) :: ws =>
      let '(w, result) := r_cancelled w r in
      let '(w, ch) := worker_done name result w ch in
      drain ws w ch
  end.
Definition stop_workers (w : W) (l : loop) : W * loop :=
  let '(w, ch) := drain (workers l) w (errCh l) in (w, set_workers [] ch l).
Definition startWorker (name : string) (r : R) (w : W) (l : loop) : W * loop :=
  let '(w, l) := stop_workers w l in (w, set_workers (workers l ++ [(name, r)]) (errCh l) l).

(** Whether the loop goes on, or what [Run] returns; the deferred calls stop the worker. *)
Definition continue (w : W) (l : loop) : W * loop * option err := (w, l, None).
Definition return_ (w : W) (l : loop) (e : err) : W * loop * option err :=
  let '(w, l) := stop_workers w l in (w, l, Some e).

Definition verifyState (r : R) (w : W) : W * res unit :=
  let raftState := n_GetState w in
  if rs_Height raftState =? 0 then (w, Ok tt)
  else match r_IsSynced w r raftState with
       | (w, Err e) => (w, Err e)
       | (w, Ok diff) =>
           if diff =? 0 then (w, Ok tt)
           else if diff <? 0 then (w, Ok tt)
           else r_Recover w r raftState
       end.

Definition start_leader (w : W) (l : loop) : W * loop * option err :=
  match leaderFactory w with
  | (w, Err e) => return_ w l e
  | (w, Ok r) => let '(w, l) := startWorker "leader" r w (set_role true r l) in continue w l
  end.

(** A follower that becomes the leader must be at the block of the cluster, or recover it. *)
Definition promote (r : R) (w : W) (l : loop) : W * loop * option err :=
  if negb (String.eqb (n_leaderID w) (n_NodeID w)) then continue w l
  else
    let raftState := n_GetState w in
    match r_IsSynced w r raftState with
    | (w, Err e) => return_ w l e
    | (w, Ok diff) =>
        let '(w, rec) := if negb (diff =? 0) then r_Recover w r raftState else (w, Ok tt) in
        match rec with
        | Err e => let '(w, _) := n_leadershipTransfer w in return_ w l e
        | Ok _ => let '(w, l) := stop_workers w l in start_leader w l
        end
    end.

Definition become_leader (w : W) (l : loop) : W * loop * option err :=
  match n_waitForMsgsLanded w with
  | (w, Err _) => let '(w, _) := n_leadershipTransfer w in continue w l
  | (w, Ok _) =>
      if isStarted l then
        match runnable l with
        | Some r => promote r w l
        | None => return_ w l (EMsg "runtime error: nil runnable")
        end
      else start_leader w l
  end.

Definition start_follower (verify : bool) (w : W) (l : loop) : W * loop * option err :=
  match followerFactory w with
  | (w, Err e) => return_ w l e
  | (w, Ok r) =>
      match (if verify then verifyState r w else (w, Ok tt)) with
      | (w, Err e) => return_ w (set_role false r l) e
      | (w, Ok _) => let '(w, l) := startWorker "follower" r w (set_role false r l) in continue w l
      end
  end.

Inductive event :=
| LeaderChanged (becameLeader : bool)
| Tick
| WorkerFailed
| Done (e : err)
| WorkerExit (result : res unit).

Definition handle (ev : event) (w : W) (l : loop) : W * loop * option err :=
  match ev with
  | LeaderChanged becameLeader =>
      if becameLeader && negb (isCurrentlyLeader l) then become_leader w l
      else if negb becameLeader && isCurrentlyLeader l then return_ w l ErrLeadershipLost
      else if negb becameLeader && negb (isCurrentlyLeader l) && negb (isStarted l) then start_follower true w l
      else continue w l
  | Tick =>
      if negb (ticker l) then continue w l
      else if String.eqb (n_leaderID w) EmptyString then continue w l
      else
        let l := stop_ticker l in
        if isStarted l then continue w l
        else if String.eqb (n_leaderID w) (n_NodeID w) then continue w l
        else start_follower false w l
  | WorkerFailed => match errCh l with Some e => return_ w (set_workers (workers l) None l) e | None => continue w l end
  | Done e => return_ w l e
  | WorkerExit result =>
      match workers l with
      | (name, _) :: ws => let '(w, ch) := worker_done name result w (errCh l) in continue w (set_workers ws ch l)
      | [] => continue w l
      end
  end.

(** The loop on a sequence of events, until it returns. *)
Fixpoint Run_loop (evs : list event) (w : W) (l : loop) : W * loop * option err :=
  match evs with
  | [] => continue w l
  | ev :: evs =>
      match handle ev w l with
      | (w, l, Some e) => (w, l, Some e)
      | (w, l, None) => Run_loop evs w l
      end
  end.
Definition Run (evs : list event) (w : W) : W * loop * option err := Run_loop evs w new_loop.

(** ** One role at a time *)

Definition role (l : loop) : string := if isCurrentlyLeader l then "leader" else "follower".
Record well (l : loop) : Prop := {
  we_leader : isCurrentlyLeader l = true -> isStarted l = true;
  we_idle : isStarted l = false -> runnable l = None /\ workers l = [];
  we_started : isStarted l = true -> exists r, runnable l = Some r /\ (workers l = [] \/ workers l = [(role l, r)]);
}.
(** What holds after an event: while the loop runs it is well formed, and once it has returned nothing runs. *)
Definition outcome_ok (o : W * loop * option err) : Prop :=
  match o.2 with None => well o.1.2 | Some _ => workers o.1.2 = [] end.

Lemma well_new : well new_loop.
Proof. by split. Qed.

Lemma stop_spec w l : exists w' ch, stop_workers w l = (w', set_workers [] ch l).
Proof. unfold stop_workers. destruct (drain _ _ _) as [w' ch]. eauto. Qed.
Lemma return_spec w l e : exists w' l', return_ w l e = (w', l', Some e) /\ workers l' = [].
Proof. unfold return_. destruct (stop_spec w l) as (w' & ch & ->). by exists w', (set_workers [] ch l). Qed.
Ltac returned := match goal with |- context [return_ ?w ?l ?e] =>
  let Hret := fresh in destruct (return_spec w l e) as (? & ? & Hret & ?); rewrite Hret; done end.
Lemma start_spec name r w l : exists w' ch, startWorker name r w l = (w', set_workers [(name, r)] ch l).
Proof. unfold startWorker. destruct (stop_spec w l) as (w' & ch & ->). simpl. eauto. Qed.

Lemma well_workers l ch : well l -> well (set_workers [] ch l).
Proof.
  intros [H1 H2 H3]. split; simpl; [done|by intros E; destruct (H2 E)|]. intros E. destruct (H3 E) as (r & Hr & _). exists r. by split; [|left].
Qed.

(** The check a follower passes to become the leader: it is at the cluster's block, or recovering it succeeds. *)
Definition promotion_check (r : R) (w : W) : Prop :=
  n_leaderID w = n_NodeID w /\ exists w1 d, r_IsSynced w r (n_GetState w) = (w1, Ok d) /\
  (d <> 0 -> exists w2, r_Recover w1 r (n_GetState w) = (w2, Ok tt)).
Definition promoted (w : W) (l l' : loop) : Prop :=
  exists w1, n_waitForMsgsLanded w = (w1, Ok tt) /\ (isStarted l = true -> exists r, runnable l = Some r /\ promotion_check r w1) /\
  exists r', runnable l' = Some r' /\ workers l' = [("leader"%string, r')] /\ exists w2 w3, leaderFactory w2 = (w3, Ok r').

Lemma start_leader_spec w l : match start_leader w l with
  | (_, l', None) => well l' /\ exists r' w3, runnable l' = Some r' /\ workers l' = [("leader"%string, r')] /\ leaderFactory w = (w3, Ok r')
  | (_, l', Some _) => workers l' = [] end.
Proof.
  unfold start_leader. destruct (leaderFactory w) as [w1 [r|e]] eqn:Ef; [|returned].
  destruct (start_spec "leader" r w1 (set_role true r l)) as (w' & ch & ->). simpl. split; [|by eauto 10].
  split; simpl; [done|done|]. intros _. exists r. split; [done|by right].
Qed.

Lemma become_leader_spec w l : well l -> isCurrentlyLeader l = false -> match become_leader w l with
  | (_, l', None) => well l' /\ (l' = l \/ promoted w l l')
  | (_, l', Some _) => workers l' = [] end.
Proof.
  intros Hw Hl. unfold become_leader. destruct (n_waitForMsgsLanded w) as [w1 [[]|e]] eqn:Ew.
  2: { destruct (n_leadershipTransfer w1) as [w2 r2]. simpl. by auto. }
  destruct (isStarted l) eqn:Es.
  - destruct (we_started _ Hw Es) as (r & Er & _). rewrite Er. unfold promote.
    destruct (String.eqb_spec (n_leaderID w1) (n_NodeID w1)) as [Eid|]; simpl; [|by auto].
    destruct (r_IsSynced w1 r (n_GetState w1)) as [w2 [d|e]] eqn:Ey; [|returned].
    destruct (if negb (d =? 0) then _ else _) as [w3 [[]|e]] eqn:Erec.
    2: { destruct (n_leadershipTransfer w3) as [w4 r4]. returned. }
    assert (Hc : promotion_check r w1).
    { split; [done|]. exists w2, d. split; [done|]. intros Hd. apply Z.eqb_neq in Hd. rewrite Hd in Erec. by exists w3. }
    destruct (stop_spec w3 l) as (w4 & ch & ->). pose proof (start_leader_spec w4 (set_workers [] ch l)) as Hs.
    destruct (start_leader w4 (set_workers [] ch l)) as [[w5 l'] [e|]]; [done|]. destruct Hs as (Hwl & r' & w6 & H1 & H2 & H3).
    split; [done|]. right. exists w1. split; [done|]. split; [by eauto|]. by eauto 10.
  - pose proof (start_leader_spec w1 l) as Hs. destruct (start_leader w1 l) as [[w5 l'] [e|]]; [done|].
    destruct Hs as (Hwl & r' & w6 & H1 & H2 & H3). split; [done|]. right. exists w1. split; [done|]. split; [by rewrite Es|]. by eauto 10.
Qed.

Lemma start_follower_spec v w l : match start_follower v w l with
  | (_, l', None) => well l' /\ isCurrentlyLeader l' = false
  | (_, l', Some _) => workers l' = [] end.
Proof.
  unfold start_follower. destruct (followerFactory w) as [w1 [r|e]]; [|returned].
  destruct (if v then _ else _) as [w2 [[]|e]]; [|returned].
  destruct (start_spec "follower" r w2 (set_role false r l)) as (w' & ch & ->). simpl. split; [|done].
  split; simpl; [done|done|]. intros _. exists r. split; [done|by right].
Qed.

Ltac unchanged := simpl; split; [done|split; [intros; split; [done|discriminate]|congruence]].
Lemma handle_spec ev w l : well l -> match handle ev w l with
  | (_, l', None) => well l' /\ (isCurrentlyLeader l = true -> isCurrentlyLeader l' = true /\ ev <> LeaderChanged false) /\
      (isCurrentlyLeader l = false -> isCurrentlyLeader l' = true -> ev = LeaderChanged true /\ promoted w l l')
  | (_, l', Some _) => workers l' = [] end.
Proof.
  intros Hw. destruct ev as [b| | |e|result]; cbn [handle].
  - destruct b, (isCurrentlyLeader l) eqn:El; cbn [andb negb].
    + simpl. by rewrite El.
    + pose proof (become_leader_spec w l Hw El) as Hb. destruct (become_leader w l) as [[w' l'] [e|]]; [done|].
      destruct Hb as [Hw' Hp]. split; [done|]. split; [done|]. intros _ El'. split; [done|]. destruct Hp as [->|Hp]; [congruence|done].
    + returned.
    + destruct (isStarted l) eqn:Es; cbn [negb]; [simpl; by rewrite El|].
      pose proof (start_follower_spec true w l) as Hf. destruct (start_follower true w l) as [[w' l'] [e|]]; [done|].
      destruct Hf as [? ?]. split; [done|]. split; [done|]. congruence.
  - destruct (ticker l); cbn [negb]; [|unchanged].
    destruct (String.eqb (n_leaderID w) EmptyString); [unchanged|].
    assert (Hw' : well (stop_ticker l)) by (by destruct Hw). cbn [isStarted stop_ticker].
    destruct (isStarted l) eqn:Es; [unchanged|].
    destruct (String.eqb (n_leaderID w) (n_NodeID w)); [unchanged|].
    assert (El : isCurrentlyLeader l = false) by (destruct (isCurrentlyLeader l) eqn:E; [|done]; by rewrite (we_leader _ Hw E) in Es).
    pose proof (start_follower_spec false w (stop_ticker l)) as Hf. destruct (start_follower false w (stop_ticker l)) as [[w' l'] [e|]]; [done|].
    destruct Hf as [? ?]. split; [done|]. split; congruence.
  - destruct (errCh l) as [e|]; [returned|unchanged].
  - returned.
  - destruct (workers l) as [|[name r] ws] eqn:Eww; [unchanged|].
    destruct (worker_done name result w (errCh l)) as [w' ch]. cbn. split; [|split; [by intros El; rewrite El|congruence]].
    destruct (isStarted l) eqn:Es; [|by destruct (we_idle _ Hw Es); congruence].
    destruct (we_started _ Hw Es) as (r1 & Er1 & [Hx|Hx]); rewrite Eww in Hx; [done|]. simplify_eq. by apply well_workers.
Qed.

Lemma Run_well evs w l : well l -> outcome_ok (Run_loop evs w l).
Proof.
  revert w l. induction evs as [|ev evs IH]; intros w l Hw; [done|]. simpl. pose proof (handle_spec ev w l Hw) as Hh.
  destruct (handle ev w l) as [[w' l'] [e|]]; [done|]. apply IH, Hh.
Qed.

(** C32: One role at a time, and no leader that has not caught up. Whatever raft notifies, whatever the
    runnables do and in whatever order: at most one worker runs, as a follower or as the leader, and it
    belongs to the last runnable made; none runs once [Run] has returned. A node becomes the leader only
    when raft says so, after the state machine has applied the log, and, if it was a follower, only if it is still
    the leader and the follower is at the cluster's block or recovered it. A leader never goes back to
    being a follower: losing the leadership ends [Run] with that error. *)
Theorem one_role (evs : list event) (w0 w : W) (l : loop) (ev : event) (Hr : Run evs w0 = (w, l, None)) :
  (workers l = [] \/ exists r, runnable l = Some r /\ workers l = [(role l, r)]) /\
  match handle ev w l with
  | (_, l', Some e) => workers l' = []
  | (_, l', None) =>
      (isCurrentlyLeader l = true -> isCurrentlyLeader l' = true) /\
      (isCurrentlyLeader l = false -> isCurrentlyLeader l' = true -> ev = LeaderChanged true /\ promoted w l l')
  end /\
  (isCurrentlyLeader l = true -> (handle (LeaderChanged false) w l).2 = Some ErrLeadershipLost).
Proof.
  pose proof (Run_well evs w0 new_loop well_new) as Hw. unfold Run in Hr. rewrite Hr in Hw. cbn in Hw. split; [|split].
  - destruct (isStarted l) eqn:Es; [|left; by apply (we_idle _ Hw)]. destruct (we_started _ Hw Es) as (r & Er & [Ew|Ew]); eauto.
  - pose proof (handle_spec ev w l Hw) as Hh. destruct (handle ev w l) as [[w' l'] [e|]]; [done|]. destruct Hh as (_ & H1 & H2).
    split; [intros El; by destruct (H1 El)|done].
  - intros El. cbn [handle]. rewrite El. cbn. unfold return_. by destruct (stop_spec w l) as (w' & ch & ->).
Qed.

End election.

Arguments loop : clear implicits.

(** Witness: node [a] starts as a follower of [b]; by the time the follower is made, [a] is elected. *)
Module ElectionWitness.

(** The world is the ID of the leader; runnables are numbered. *)
#[local] Instance w_elect : Elect string nat := {|
  n_waitForMsgsLanded w := (w, Ok tt);
  n_leadershipTransfer w := (w, Ok tt);
  n_leaderID w := w; n_NodeID _ := "a"%string;
  n_GetState _ := Raft.zero_block_state;
  leaderFactory w := (w, Ok 2%nat);
  followerFactory _ := ("a"%string, Ok 1%nat);
  r_IsSynced w _ _ := (w, Ok (-1));
  r_Recover w _ _ := (w, Ok tt);
  r_cancelled w _ := (w, Err Submit.context_Canceled) |}.

Definition w_follower : loop nat := {|
  isStarted := true; isCurrentlyLeader := false; runnable := Some 1%nat; workers := [("follower"%string, 1%nat)];
  errCh := None; ticker := false |}.

Lemma one_role_witness : handle (LeaderChanged true) "a"%string w_follower =
    ("a"%string, {| isStarted := true; isCurrentlyLeader := true; runnable := Some 2%nat; workers := [("leader"%string, 2%nat)];
                    errCh := None; ticker := false |}, None) /\
  (workers w_follower = [] \/ exists r, runnable w_follower = Some r /\ workers w_follower = [(role w_follower, r)]) /\
  match handle (LeaderChanged true) "a"%string w_follower with
  | (_, l', Some e) => workers l' = []
  | (_, l', None) =>
      (isCurrentlyLeader w_follower = true -> isCurrentlyLeader l' = true) /\
      (isCurrentlyLeader w_follower = false -> isCurrentlyLeader l' = true ->
         LeaderChanged true = LeaderChanged true /\ promoted "a"%string w_follower l')
  end /\
  (isCurrentlyLeader w_follower = true -> (handle (LeaderChanged false) "a"%string w_follower).2 = Some ErrLeadershipLost).
Proof.
  split; [reflexivity|].
  exact (one_role [Tick] "b"%string "a"%string w_follower (LeaderChanged true) eq_refl).
Defined.

(** A follower whose [Run] fails when it is cancelled takes the new leader down with it. *)
#[local] Instance failing_elect : Elect string nat := {|
  n_waitForMsgsLanded w := (w, Ok tt); n_leadershipTransfer w := (w, Ok tt);
  n_leaderID w := w; n_NodeID _ := "a"%string; n_GetState _ := Raft.zero_block_state;
  leaderFactory w := (w, Ok 2%nat); followerFactory _ := ("a"%string, Ok 1%nat);
  r_IsSynced w _ _ := (w, Ok 0); r_Recover w _ _ := (w, Ok tt);
  r_cancelled w r := (w, Err (EMsg "stopping header sync")) |}.
Example follower_error_stops_leader :
  (Run (H := failing_elect) [Tick; LeaderChanged true; WorkerFailed] "b"%string).2
    = Some (EMsg "follower worker exited unexpectedly").
Proof. reflexivity. Qed.

End ElectionWitness.

End Election.

(** ** The modes of a node (node/failover.go) *)

Module Failover.
Import Store Pending DACache Replay Producer DARetriever Syncer.

(** *** Waiting before producing *)

(** What an aggregator that syncs before producing sees: the end of the context, the timer of the P2P
    timeout, and ticks with the syncer's DA status, the store's height, the heights of the two P2P
    stores and the number of events in the syncer's pipeline. *)
Inductive catchup_event :=
| CDone
| CTimeout
| CTick (reachedDAHead : bool) (height : res Z) (headerHeight dataHeight pendingCount : Z).

Definition caught_up (catchupTimeout : Z) (ignoreP2P reached : bool) (height : res Z) (h d pending : Z) : bool :=
  match height with
  | Err _ => false
  | Ok storeHeight =>
      let maxP2PHeight := Z.max h d in
      let p2pCaughtUp := ignoreP2P || (0 <? maxP2PHeight) && (maxP2PHeight <=? storeHeight) in
      let p2pCaughtUp := if negb ignoreP2P && (catchupTimeout =? 0) && (maxP2PHeight =? 0) then true else p2pCaughtUp in
      reached && p2pCaughtUp && (pending =? 0)
  end.

(** [armed] is whether the timer's channel is there. The result is [None] while the loop waits. *)
Fixpoint wait_loop (catchupTimeout : Z) (ignoreP2P armed : bool) (events : list catchup_event) : option bool :=
  match events with
  | [] => None
  | CDone :: _ => Some false
  | CTimeout :: events => wait_loop catchupTimeout (if armed then true else ignoreP2P) false events
  | CTick reached height h d pending :: events =>
      if caught_up catchupTimeout ignoreP2P reached height h d pending then Some true
      else wait_loop catchupTimeout ignoreP2P armed events
  end.
Definition waitForCatchup (catchupTimeout : Z) (events : list catchup_event) : option bool :=
  wait_loop catchupTimeout false (0 <? catchupTimeout) events.

(** The catch-up phase: [start] is the outcome of starting the syncer and [ctxErr] the context's error.
    The result is the outcome and whether the syncer was given up for the executor. *)
Definition runCatchupPhase (catchupTimeout : Z) (start : res unit) (ctxErr : err) (events : list catchup_event)
    : option (res unit * bool) :=
  match start with
  | Err e => Some (Err (EWrap "catchup syncer start" e), false)
  | Ok _ =>
      match waitForCatchup catchupTimeout events with
      | None => None
      | Some false => Some (Err ctxErr, false)
      | Some true => Some (Ok tt, true)
      end
  end.

(** [setupFailoverState]: whether the node syncs first, and whether it keeps its syncer. *)
Definition catchupEnabled (isAggregator : bool) (catchupTimeout : Z) : bool := isAggregator && (0 <? catchupTimeout).
Definition keeps_syncer (isAggregator : bool) (catchupTimeout : Z) : bool :=
  negb (isAggregator && negb (catchupEnabled isAggregator catchupTimeout)).

Lemma wait_loop_true t ignore armed evs : 0 < t -> wait_loop t ignore armed evs = Some true <->
  exists pre post reached height h d pending, evs = pre ++ CTick reached (Ok height) h d pending :: post /\ ~ CDone ∈ pre /\
    reached = true /\ pending = 0 /\ (ignore = true \/ armed = true /\ CTimeout ∈ pre \/ 0 < Z.max h d <= height).
Proof.
  intros Ht. revert ignore armed. induction evs as [|ev evs IH]; intros ignore armed.
  { simpl. split; [done|]. by intros ([|]&?&?&?&?&?&?&?&?). }
  destruct ev as [| |re hr h d pe]; cbn [wait_loop].
  - split; [done|]. intros (pre & post & re & hr & h & d & pe & E & Hp & _). destruct pre; simpl in E; simplify_eq. by destruct Hp; left.
  - rewrite IH. split.
    + intros (pre & post & re & hr & h & d & pe & -> & Hp & Hr & He & Hc). exists (CTimeout :: pre), post, re, hr, h, d, pe.
      split; [done|]. split; [by apply not_elem_of_cons|]. split; [done|]. split; [done|].
      destruct Hc as [Hc|[[? ?]|Hc]]; [|done|by auto]. destruct armed; [|by auto]. right. left. split; [done|by left].
    + intros (pre & post & re & hr & h & d & pe & E & Hp & Hr & He & Hc). destruct pre as [|x pre]; simpl in E; simplify_eq.
      apply not_elem_of_cons in Hp as [_ Hp]. exists pre, post, true, hr, h, d, 0. split; [done|]. split; [done|]. split; [done|]. split; [done|].
      destruct Hc as [->|[[-> _]|Hc]]; [left; by destruct armed|by left|by auto].
  - assert (Hcu : caught_up t ignore re hr h d pe = true <-> exists height, hr = Ok height /\ re = true /\ pe = 0 /\ (ignore = true \/ 0 < Z.max h d <= height)).
    { unfold caught_up. destruct hr as [height|e]; [|split; [done|by intros (?&?&?)]].
      rewrite (proj2 (Z.eqb_neq t 0)) by lia. rewrite andb_false_r. cbn [andb].
      rewrite !andb_true_iff, orb_true_iff, andb_true_iff, Z.ltb_lt, Z.leb_le, Z.eqb_eq. split; [|by intros (? & [= <-] & ? & ? & ?)].
      intros [[? ?] ?]. by eauto. }
    destruct (caught_up t ignore re hr h d pe).
    + split; [intros _|done]. destruct (proj1 Hcu eq_refl) as (height & -> & Hr & He & Hc). exists [], evs, re, height, h, d, pe.
      split; [done|]. split; [apply not_elem_of_nil|]. split; [done|]. split; [done|]. destruct Hc; auto.
    + rewrite IH. split.
      * intros (pre & post & r2 & hr2 & h2 & d2 & pe2 & -> & Hp & Hr & He & Hc). exists (CTick re hr h d pe :: pre), post, r2, hr2, h2, d2, pe2.
        split; [done|]. split; [by apply not_elem_of_cons|]. split; [done|]. split; [done|].
        destruct Hc as [Hc|[[? ?]|Hc]]; [by auto|right; left; split; [done|by right]|by auto].
      * intros (pre & post & r2 & hr2 & h2 & d2 & pe2 & E & Hp & Hr & He & Hc). destruct pre as [|x pre]; simpl in E.
        { injection E as -> -> -> -> -> ->. exfalso. assert (Hx : false = true); [|done]. apply Hcu. exists hr2.
          destruct Hc as [?|[[? []%not_elem_of_nil]|?]]; auto. }
        injection E as <- ->. apply not_elem_of_cons in Hp as [_ Hp]. exists pre, post, r2, hr2, h2, d2, pe2.
        split; [done|]. split; [done|]. split; [done|]. split; [done|].
        destruct Hc as [?|[[? Hin]|?]]; [by auto| |by auto]. apply elem_of_cons in Hin as [?|?]; [done|by auto].
Qed.

(** When an aggregator starts to produce. In the catch-up phase, which only aggregators with a timeout
    have, a node gives up its syncer exactly when, before the context ends, there is a tick at which the
    DA head has been reached, no event waits in the pipeline, and the store is at the greatest height of
    the P2P stores, which have at least one block, unless the timeout has passed: then the peers are no
    longer asked. *)
Theorem catchup_exact (catchupTimeout : Z) (ctxErr : err) (events : list catchup_event)
  (He : catchupEnabled true catchupTimeout = true) :
  (runCatchupPhase catchupTimeout (Ok tt) ctxErr events = Some (Ok tt, true) <->
   exists pre post height h d, events = pre ++ CTick true (Ok height) h d 0 :: post /\ ~ CDone ∈ pre /\
     (CTimeout ∈ pre \/ 0 < Z.max h d <= height)) /\
  keeps_syncer true catchupTimeout = true.
Proof.
  assert (Ht : (0 <? catchupTimeout) = true) by exact He. unfold keeps_syncer. rewrite He. split; [|done].
  unfold runCatchupPhase, waitForCatchup. rewrite Ht. apply Z.ltb_lt in Ht. split.
  - intros Hr. destruct (wait_loop _ _ _ events) as [[]|] eqn:Ew; [|done|done]. apply wait_loop_true in Ew; [|done].
    destruct Ew as (pre & post & re & hr & h & d & pe & -> & Hp & -> & -> & Hc). exists pre, post, hr, h, d. split; [done|]. split; [done|].
    destruct Hc as [?|[[_ ?]|?]]; [done|by left|by right].
  - intros (pre & post & hr & h & d & -> & Hp & Hc).
    assert (Ew : wait_loop catchupTimeout false true (pre ++ CTick true (Ok hr) h d 0 :: post) = Some true); [|by rewrite Ew].
    apply wait_loop_true; [done|]. exists pre, post, true, hr, h, d, 0. split; [done|]. split; [done|]. split; [done|]. split; [done|].
    destruct Hc as [?|?]; auto.
Qed.

(** *** Starting and stopping the components (block/components.go) *)

(** A component that may be missing, with the outcome of its start or of its stop. *)
Record Components := {
  bc_Executor : option (res unit); bc_Pruner : option (res unit); bc_Reaper : option (res unit);
  bc_Syncer : option (res unit); bc_Submitter : option (res unit); bc_Cache : option (res unit)
}.
Definition parts (bc : Components) : list (string * option (res unit)) :=
  [("executor", bc_Executor bc); ("pruner", bc_Pruner bc); ("reaper", bc_Reaper bc); ("syncer", bc_Syncer bc);
   ("submitter", bc_Submitter bc)]%string.

(** The components are started in order up to the first that fails; the result has those that were. *)
Fixpoint start_parts (l : list (string * option (res unit))) : list string * res unit :=
  match l with
  | [] => ([], Ok tt)
  | (_, None) :: l => start_parts l
  | (name, Some (Err e)) :: _ => ([], Err (EWrap (String.append "failed to start " name) e))
  | (name, Some (Ok _)) :: l => let '(started, r) := start_parts l in (name :: started, r)
  end.
(** [critical] is the error that ended the wait, if a component sent one, and [ctxErr] the context's. *)
Definition Components_Start (bc : Components) (critical : option err) (ctxErr : option err) : list string * res unit :=
  match start_parts (parts bc) with
  | (started, Err e) => (started, Err e)
  | (started, Ok _) =>
      (started, match critical, ctxErr with
                | Some e, _ => Err (EWrap "node stopped due to critical execution client failure" e)
                | None, Some e => Err e
                | None, None => Ok tt
                end)
  end.

Definition join (errs : option err) (name : string) (r : res unit) : option err :=
  match r with
  | Ok _ => errs
  | Err e => Some (match errs with None => EWrap name e | Some e0 => EJoin e0 (EWrap name e) end)
  end.
Fixpoint stop_parts (l : list (string * option (res unit))) (errs : option err) : list string * option err :=
  match l with
  | [] => ([], errs)
  | (_, None) :: l => stop_parts l errs
  | (name, Some r) :: l =>
      let '(stopped, errs) := stop_parts l (join errs (String.append "failed to stop " name) r) in (name :: stopped, errs)
  end.
Definition Components_Stop (bc : Components) : list string * option err :=
  let '(stopped, errs) := stop_parts (parts bc) None in
  match bc_Cache bc with
  | None => (stopped, errs)
  | Some r => (stopped ++ ["cache"%string], join errs "failed to save caches" r)
  end.

Definition present (l : list (string * option (res unit))) : list string := omap (fun p => const p.1 <$> p.2) l.

(** A start that succeeds has started every component, one that fails only those before the one that
    failed, which are not stopped again; a stop reaches every component whatever the others answer. *)
Lemma start_parts_spec l : match start_parts l with
  | (started, Ok _) => started = present l
  | (started, Err e) => exists pre name e' post, l = pre ++ (name, Some (Err e')) :: post /\ started = present pre /\
      e = EWrap (String.append "failed to start " name) e'
  end.
Proof.
  induction l as [|[name [[[]|e]|]] l IH]; simpl; [done| | |].
  - destruct (start_parts l) as [started [[]|e]]; [by subst|]. destruct IH as (pre & n & e' & post & -> & -> & ->).
    by exists ((name, Some (Ok tt)) :: pre), n, e', post.
  - by exists [], name, e, l.
  - destruct (start_parts l) as [started [[]|e]]; [done|]. destruct IH as (pre & n & e' & post & -> & -> & ->).
    by exists ((name, None) :: pre), n, e', post.
Qed.
Lemma stop_parts_all l errs : (stop_parts l errs).1 = present l.
Proof.
  revert errs. induction l as [|[name [r|]] l IH]; intros errs; simpl; [done| |done].
  specialize (IH (join errs (String.append "failed to stop " name) r)). by destruct (stop_parts l _) as [stopped e]; simpl in *; subst.
Qed.

(** *** Synchronisation with raft *)

Section modes.
Context {W D B K : Type} {C : Type -> Type -> Type}.
Context `{EX : CoreExecutor W} `{DC : DAClient W} `{SE : SyncEnv W K} `{DL : DatastoreLaws D} `{BC : Batching D B}.
Context `{BL : !BatchingLaws D B} `{LL : LRULaws C}.
Context `{PK : PubKeys K} `{PKL : !PubKeysLaws K} `{PW : Protowire} `{PWL : !ProtowireLaws}.
Context `{HS : HashString} `{HL : !HashStringLaws} `{MR : MapRange}.
Context `{CV : ProtoCodec pb_Version} `{CHd : ProtoCodec pb_Header}.
Context `{CH : ProtoCodec pb_SignedHeader} `{LH : !ProtoCodecLaws pb_SignedHeader}.
Context `{CD : ProtoCodec pb_Data} `{LD : !ProtoCodecLaws pb_Data}.
Context `{CS : ProtoCodec pb_State} `{LS : !ProtoCodecLaws pb_State}.
Context (c : config).

(** The block components of a mode, as far as the methods here use them. *)
Record failoverState := { fo_Syncer : option (Syncer D K C); fo_Executor : option (Executor D K C) }.

Definition IsSynced (s : RaftBlockState) (f : failoverState) : res Z :=
  match fo_Syncer f, fo_Executor f with
  | Some y, _ => Syncer.IsSyncedWithRaft (K := K) (y_store y) s
  | None, Some e => Producer.IsSyncedWithRaft (K := K) (store e) s
  | None, None => Err (EMsg "sync check not supported in this mode")
  end.
Definition Recover (state : RaftBlockState) (w : W) (f : failoverState) : W * failoverState * res unit :=
  match fo_Syncer f with
  | Some y => let '((w, y), r) := RecoverFromRaft (B := B) c state (w, y) in
              (w, {| fo_Syncer := Some y; fo_Executor := fo_Executor f |}, r)
  | None => (w, f, Err (EMsg "recovery not supported in this mode"))
  end.

Lemma recovery_state_is y st : sync_inv y st -> recovery_state c y = st.
Proof.
  intros Hi. unfold recovery_state, getLastState. rewrite (si_last _ _ Hi). simpl. destruct (bool_decide _); [|done].
  by rewrite (state_of_height _ _ _ (si_height _ _ Hi) (si_state _ _ Hi)).
Qed.

(** What the promotion of a follower rests on. For a follower that has started, with the block the
    cluster is at: a node at this height is synced or recovers only if it has this very block; a node one
    below recovers by syncing the block; a node that is ahead fails. A node that is two or more blocks
    behind is told apart by the check, but recovering it reports success and does nothing: it becomes the
    leader without the blocks of the cluster. *)
Theorem Recover_outcome (w : W) (y : Syncer D K C) (ex : option (Executor D K C)) (st : State) (state : RaftBlockState)
  (sh : SignedHeader K) (d : Data) (Hi : sync_inv y st) (Hn : is_i64 (LastBlockHeight st)) (Hs : 0 < rs_Height state < two63)
  (Eh : SignedHeader_UnmarshalBinary (rs_Header state) = Ok sh) (Ed : Data_UnmarshalBinary (rs_Data state) = Ok d)
  (Hev : event_ok (raft_event sh d)) (Hh : hd_Height (sh_Header sh) = rs_Height state) :
  let f := {| fo_Syncer := Some y; fo_Executor := ex |} in
  (forall n, IsSynced state f = Ok n -> n = LastBlockHeight st - rs_Height state /\
     (n = 0 -> exists stored, GetHeader (y_store y) (rs_Height state) = Ok stored /\ Header_Hash (sh_Header stored) = rs_Hash state)) /\
  let '(w', f', r) := Recover state w f in
  (rs_Height state = LastBlockHeight st -> f' = f /\ (r = Ok tt <-> st_LastHeaderHash st = rs_Hash state)) /\
  (rs_Height state = LastBlockHeight st + 1 -> exists y', f' = {| fo_Syncer := Some y'; fo_Executor := ex |} /\
     (r = Ok tt /\ (exists st', synced (W := W) c y y' (raft_event sh d) st st') \/ (exists e, r = Err e) /\ same_core y y')) /\
  (rs_Height state < LastBlockHeight st -> f' = f /\ exists e, r = Err e) /\
  (LastBlockHeight st + 1 < rs_Height state -> f' = f /\ r = Ok tt /\ IsSynced state f = Ok (LastBlockHeight st - rs_Height state)).
Proof.
  pose proof (state_of_height _ _ _ (si_height _ _ Hi) (si_state _ _ Hi)) as Hst.
  assert (Hu : 0 <= LastBlockHeight st) by apply (si_valid _ _ Hi).
  assert (Hdiff : i64 (i64 (LastBlockHeight st) - i64 (rs_Height state)) = LastBlockHeight st - rs_Height state).
  { unfold is_i64 in Hn. rewrite (i64_small (LastBlockHeight st)), (i64_small (rs_Height state)), i64_small; unfold is_i64, two63 in *; lia. }
  cbn zeta. unfold IsSynced. cbn [fo_Syncer]. unfold IsSyncedWithRaft. rewrite Hst. cbn [res_bind]. rewrite Hdiff. split.
  { intros n. destruct (Z.eqb_spec (LastBlockHeight st - rs_Height state) 0) as [E0|E0]; cbn [negb]; [|intros [= <-]; split; [done|lia]].
    rewrite (proj2 (Z.eqb_neq (rs_Height state) 0)) by lia. intros HI. res_inv HI. apply wrap_err_ok in Hx.
    destruct (bytes_Equal _ _) eqn:Eb; [|done]. injection HI as <-. split; [lia|]. intros _. exists x. split; [done|]. by apply bytes_Equal_true. }
  unfold Recover. cbn [fo_Syncer fo_Executor]. unfold RecoverFromRaft. rewrite Eh, Ed, (recovery_state_is y st Hi).
  assert (Hadd : LastBlockHeight st +u 1 = LastBlockHeight st + 1) by (apply u64_small; unfold is_u64, is_i64, two64, two63 in *; lia).
  rewrite Hadd. destruct (Z.eqb_spec (LastBlockHeight st) (rs_Height state)) as [E1|E1].
  { split; [|split; [|split]]; try lia. intros _. split; [done|]. rewrite <- bytes_Equal_true. by destruct (bytes_Equal _ _). }
  destruct (Z.eqb_spec (LastBlockHeight st + 1) (rs_Height state)) as [E2|E2].
  { pose proof (TrySync_spec (B := B) c st w y (raft_event sh d) Hi Hev ltac:(simpl; lia)) as Ht. unfold post in Ht.
    destruct (TrySyncNextBlock c (raft_event sh d) (w, y)) as [[w' y'] r]. split; [|split; [|split]]; try lia. intros _. exists y'. split; [done|].
    destruct Ht as [[? ?]|[? ?]]; auto. }
  split; [|split; [|split]]; try lia.
  - intros Hlt. rewrite (proj2 (Z.ltb_lt _ _) Hlt). eauto.
  - intros Hlt. rewrite (proj2 (Z.ltb_ge (rs_Height state) (LastBlockHeight st))) by lia.
    split; [done|]. split; [done|]. rewrite (proj2 (Z.eqb_neq (LastBlockHeight st - rs_Height state) 0)) by lia. done.
Qed.

End modes.

Module FailoverWitness.
Import RefHash RefLRU TypesWitness SyncerWitness RetrieverWitness Submit.SubmitWitness.

Lemma catchup_exact_witness :
  (runCatchupPhase 5 (Ok tt) (EMsg "context canceled") [CTick true (Ok 3) 4 4 0; CTick true (Ok 4) 4 4 0] = Some (Ok tt, true) <->
   exists pre post height h d, [CTick true (Ok 3) 4 4 0; CTick true (Ok 4) 4 4 0] = pre ++ CTick true (Ok height) h d 0 :: post /\ ~ CDone ∈ pre /\
     (CTimeout ∈ pre \/ 0 < Z.max h d <= height)) /\ keeps_syncer true 5 = true.
Proof. exact (catchup_exact 5 (EMsg "context canceled") [CTick true (Ok 3) 4 4 0; CTick true (Ok 4) 4 4 0] eq_refl). Defined.

Definition w_ahead : RaftBlockState := {|
  rs_Height := 3; rs_Hash := Header_Hash (sh_Header (block_header 3)); rs_Timestamp := 2000;
  rs_Header := blob (SignedHeader_MarshalBinary (block_header 3)); rs_Data := blob (Data_MarshalBinary (block_data 3));
  rs_LastSubmittedDaHeaderHeight := 0; rs_LastSubmittedDaDataHeight := 0 |}.
Definition w_ahead_header : SignedHeader bytes :=
  match SignedHeader_UnmarshalBinary (rs_Header w_ahead) with Ok sh => sh | Err _ => block_header 3 end.
Definition w_mode : failoverState := {| fo_Syncer := Some w_started; fo_Executor := None |}.

Lemma w_ahead_ok : event_ok (raft_event w_ahead_header (block_data 3)).
Proof. split_and!; try (vm_compute; repeat split; discriminate). intros _. eexists. by vm_compute. Qed.
Lemma w_ahead_decodes : SignedHeader_UnmarshalBinary (rs_Header w_ahead) = Ok w_ahead_header /\
  Data_UnmarshalBinary (rs_Data w_ahead) = Ok (block_data 3) /\ hd_Height (sh_Header w_ahead_header) = 3.
Proof. vm_compute. done. Qed.

(** A node without any block recovers from a cluster at height 3. *)
Lemma Recover_outcome_witness :
  IsSynced w_ahead w_mode = Ok (-3) /\ (Recover (B := list batch_op) w_config w_ahead tt w_mode).2 = Ok tt.
Proof.
  pose proof (Recover_outcome (B := list batch_op) w_config tt w_started None w_state0 w_ahead w_ahead_header (block_data 3) w_sync_inv
    ltac:(vm_compute; split; [discriminate|reflexivity]) ltac:(vm_compute; split; reflexivity) (proj1 w_ahead_decodes) (proj1 (proj2 w_ahead_decodes))
    w_ahead_ok (proj2 (proj2 w_ahead_decodes))) as Hw.
  destruct Hw as [_ Hw]. fold w_mode in Hw.
  destruct (Recover (B := list batch_op) w_config w_ahead tt w_mode) as [[w' f'] r]. destruct Hw as (_ & _ & _ & Hw).
  destruct (Hw eq_refl) as (_ & Hr & Hs). split; [exact Hs|exact Hr].
Defined.

End FailoverWitness.

End Failover.
