(* ===== verification/Grpc.v ===== *)
(** Execution over gRPC (execution/grpc/client.go and server.go): the client implements the node's executor
    interface by calls to a server that delegates to an executor in another process.

    The executor behind the server is the class [Executor]; connect, which carries messages and errors, is
    the class [Transport]: a message arrives as it was sent or not at all, and of an error only the code
    and the text arrive. Times are nanoseconds since the epoch, protobuf timestamps seconds and
    nanoseconds. *)

From S2P Require Import Prelude Sha256 Interfaces Types Store Execution Replay BlobClient.

Import Filter Replay.

Module Grpc.

(** [core/execution.Executor] *)
Class Executor (W : Type) := {
  ex_InitChain : W -> Z -> Z -> string -> W * res bytes;
  ex_GetTxs : W -> W * res (list bytes);
  ex_ExecuteTxs : W -> list bytes -> Z -> Z -> bytes -> W * res bytes;
  ex_SetFinal : W -> Z -> W * res unit;
  ex_GetExecutionInfo : W -> W * res Z;
  ex_FilterTxs : W -> list bytes -> Z -> Z -> bool -> W * res (list FilterStatus);
}.

(** The error, if there is one, that keeps the request from the server or the response from the client. *)
Class Transport (W : Type) := {
  tr_request : W -> W * option err;
  tr_response : W -> W * option err;
}.

(** ** Messages *)

Record Timestamp := { ts_Seconds : Z; ts_Nanos : Z }.
(** [timestamppb.New] and [AsTime] *)
Definition timestamp_New (t : Z) : Timestamp := {| ts_Seconds := t / 1000000000; ts_Nanos := t mod 1000000000 |}.
Definition AsTime (t : Timestamp) : Z := ts_Seconds t * 1000000000 + ts_Nanos t.

Record InitChainRequest := { GenesisTime : option Timestamp; InitialHeight : Z; ChainId : string }.
Record ExecuteTxsRequest := { er_Txs : list bytes; er_BlockHeight : Z; er_Timestamp : option Timestamp; er_PrevStateRoot : bytes }.
Record FilterTxsRequest := { fr_Txs : list bytes; fr_MaxBytes : Z; fr_MaxGas : Z; fr_HasForceIncludedTransaction : bool }.

(** The enumeration on the wire *)
Definition pb_FilterStatus (s : FilterStatus) : Z := match s with FilterOK => 0 | FilterRemove => 1 | FilterPostpone => 2 end.
Definition execution_FilterStatus (n : Z) : option FilterStatus :=
  if n =? 0 then Some FilterOK else if n =? 1 then Some FilterRemove else if n =? 2 then Some FilterPostpone else None.

(** [connect.NewError(code, err)] *)
Definition invalid_argument (msg : string) : err := EWrap "invalid_argument" (EMsg msg).
Definition internal {A} (msg : string) (r : res A) : res A := wrap_err "internal" (wrap_err msg r).

(** ** The server *)

Module Server.
Section server.
Context {W : Type} `{EX : Executor W}.

Definition InitChain (req : InitChainRequest) (w : W) : W * res bytes :=
  match GenesisTime req with
  | None => (w, Err (invalid_argument "genesis_time is required"))
  | Some t =>
      if InitialHeight req =? 0 then (w, Err (invalid_argument "initial_height must be > 0"))
      else if bool_decide (ChainId req = EmptyString) then (w, Err (invalid_argument "chain_id is required"))
      else let '(w, r) := ex_InitChain w (AsTime t) (InitialHeight req) (ChainId req) in (w, internal "failed to init chain" r)
  end.
Definition GetTxs (req : unit) (w : W) : W * res (list bytes) := let '(w, r) := ex_GetTxs w in (w, internal "failed to get txs" r).
Definition ExecuteTxs (req : ExecuteTxsRequest) (w : W) : W * res bytes :=
  if er_BlockHeight req =? 0 then (w, Err (invalid_argument "block_height must be > 0"))
  else match er_Timestamp req with
       | None => (w, Err (invalid_argument "timestamp is required"))
       | Some t =>
           if blen (er_PrevStateRoot req) =? 0 then (w, Err (invalid_argument "prev_state_root is required"))
           else let '(w, r) := ex_ExecuteTxs w (er_Txs req) (er_BlockHeight req) (AsTime t) (er_PrevStateRoot req) in
                (w, internal "failed to execute txs" r)
       end.
Definition SetFinal (blockHeight : Z) (w : W) : W * res unit :=
  if blockHeight =? 0 then (w, Err (invalid_argument "block_height must be > 0"))
  else let '(w, r) := ex_SetFinal w blockHeight in (w, internal "failed to set final" r).
Definition GetExecutionInfo (req : unit) (w : W) : W * res Z :=
  let '(w, r) := ex_GetExecutionInfo w in (w, internal "failed to get execution info" r).
Definition FilterTxs (req : FilterTxsRequest) (w : W) : W * res (list Z) :=
  let '(w, r) := ex_FilterTxs w (fr_Txs req) (fr_MaxBytes req) (fr_MaxGas req) (fr_HasForceIncludedTransaction req) in
  (w, internal "failed to filter transactions" (let? result := r in Ok (pb_FilterStatus <$> result))).

End server.
End Server.

Section call.
Context {W : Type} `{TR : Transport W}.

(** A call: the executor may have done its work although the client sees an error. *)
Definition call {Q A} (handler : Q -> W -> W * res A) (req : Q) (w : W) : W * res A :=
  match tr_request w with
  | (w, Some e) => (w, Err e)
  | (w, None) =>
      let '(w, r) := handler req w in
      match tr_response w with
      | (w, Some e) => (w, Err e)
      | (w, None) => (w, match r with Ok a => Ok a | Err e => Err (EMsg (err_Error e)) end)
      end
  end.

End call.

(** ** The client *)

Module Client.
Section client.
Context {W : Type} `{EX : Executor W} `{TR : Transport W}.

Definition InitChain (genesisTime initialHeight : Z) (chainID : string) (w : W) : W * res bytes :=
  let '(w, r) := call Server.InitChain
    {| GenesisTime := Some (timestamp_New genesisTime); InitialHeight := initialHeight; ChainId := chainID |} w in
  (w, wrap_err "grpc client: failed to init chain" r).
Definition GetTxs (w : W) : W * res (list bytes) :=
  let '(w, r) := call Server.GetTxs tt w in (w, wrap_err "grpc client: failed to get txs" r).
Definition ExecuteTxs (txs : list bytes) (blockHeight timestamp : Z) (prevStateRoot : bytes) (w : W) : W * res bytes :=
  let '(w, r) := call Server.ExecuteTxs
    {| er_Txs := txs; er_BlockHeight := blockHeight; er_Timestamp := Some (timestamp_New timestamp); er_PrevStateRoot := prevStateRoot |} w in
  (w, wrap_err "grpc client: failed to execute txs" r).
Definition SetFinal (blockHeight : Z) (w : W) : W * res unit :=
  let '(w, r) := call Server.SetFinal blockHeight w in (w, wrap_err "grpc client: failed to set final" r).
Definition GetExecutionInfo (w : W) : W * res Z :=
  let '(w, r) := call Server.GetExecutionInfo tt w in (w, wrap_err "grpc client: failed to get execution info" r).
(** [execution.FilterStatus(status)]: the server sends the numbers of the three statuses and no others. *)
Definition FilterTxs (txs : list bytes) (maxBytes maxGas : Z) (hasForced : bool) (w : W) : W * res (list FilterStatus) :=
  let '(w, r) := call Server.FilterTxs
    {| fr_Txs := txs; fr_MaxBytes := maxBytes; fr_MaxGas := maxGas; fr_HasForceIncludedTransaction := hasForced |} w in
  (w, let? statuses := wrap_err "grpc client: failed to filter transactions" r in Ok (omap execution_FilterStatus statuses)).

End client.
End Client.

Section grpc.
Context {W : Type} `{EX : Executor W} `{TR : Transport W}.

(** What the node sees: the client has neither the height nor the rollback of the executor behind it. *)
Definition Grpc_CoreExecutor : CoreExecutor W := {|
  exec_InitChain w time height id := Client.InitChain time height id w;
  exec_ExecuteTxs w txs height time root := Client.ExecuteTxs txs height time root w;
  exec_SetFinal w height := Client.SetFinal height w;
  exec_GetLatestHeight := None;
  exec_Rollback := None |}.

(** ** The client is the executor *)

Lemma AsTime_New t : AsTime (timestamp_New t) = t.
Proof. unfold AsTime, timestamp_New. simpl. pose proof (Z.div_mod t 1000000000 ltac:(lia)). lia. Qed.
Lemma status_roundtrip (l : list FilterStatus) : omap execution_FilterStatus (pb_FilterStatus <$> l) = l.
Proof. induction l as [|s l IH]; [done|]. csimpl. destruct s; cbn; by f_equal. Qed.

(** The client's result: the same value, or an error whose text ends with that of the executor's. *)
Definition agrees {A} (r r' : res A) : Prop :=
  match r, r' with
  | Ok a, Ok b => a = b
  | Err e, Err e' => exists prefix, err_Error e' = String.append prefix (err_Error e)
  | _, _ => False
  end.
(** A call that never reaches the executor. *)
Definition refused {A} (w : W) (o : W * res A) : Prop := o.1 = w /\ exists e, o.2 = Err e.

Context (Hreq : forall w, tr_request w = (w, None)) (Hresp : forall w, tr_response w = (w, None)).

Lemma append_assoc a b c : String.append a (String.append b c) = String.append (String.append a b) c.
Proof. induction a as [|x a IH]; [done|]. exact (f_equal (String.String x) IH). Qed.

Lemma agrees_wrapped {A} m1 m2 (r : res A) :
  agrees r (wrap_err m1 (match internal m2 r with Ok a => Ok a | Err e => Err (EMsg (err_Error e)) end)).
Proof.
  destruct r as [a|e]; [done|]. unfold internal, wrap_err, agrees. cbn [err_Error]. eexists. rewrite !append_assoc. reflexivity.
Qed.

Lemma call_reliable {Q A} (handler : Q -> W -> W * res A) req w :
  call handler req w = (let '(w, r) := handler req w in (w, match r with Ok a => Ok a | Err e => Err (EMsg (err_Error e)) end)).
Proof. unfold call. rewrite Hreq. destruct (handler req w) as [w' r]. by rewrite Hresp. Qed.

(** The client is the executor. Over a transport that delivers, every call of the client has the effect of
    the call on the executor behind the server and its result, errors by their text, times to the
    nanosecond; except that the server refuses, without asking the executor, a block or a final height
    of 0, an empty previous root, and a chain without an initial height or an ID. *)
Theorem grpc_transparent (w : W) :
  (forall time height id, let o := Client.InitChain time height id w in
     if (height =? 0) || bool_decide (id = EmptyString) then refused w o
     else o.1 = (ex_InitChain w time height id).1 /\ agrees (ex_InitChain w time height id).2 o.2) /\
  ((Client.GetTxs w).1 = (ex_GetTxs w).1 /\ agrees (ex_GetTxs w).2 (Client.GetTxs w).2) /\
  (forall txs height time root, let o := Client.ExecuteTxs txs height time root w in
     if (height =? 0) || bool_decide (root = []) then refused w o
     else o.1 = (ex_ExecuteTxs w txs height time root).1 /\ agrees (ex_ExecuteTxs w txs height time root).2 o.2) /\
  (forall height, let o := Client.SetFinal height w in
     if height =? 0 then refused w o else o.1 = (ex_SetFinal w height).1 /\ agrees (ex_SetFinal w height).2 o.2) /\
  ((Client.GetExecutionInfo w).1 = (ex_GetExecutionInfo w).1 /\ agrees (ex_GetExecutionInfo w).2 (Client.GetExecutionInfo w).2) /\
  (forall txs maxBytes maxGas forced, let o := Client.FilterTxs txs maxBytes maxGas forced w in
     o.1 = (ex_FilterTxs w txs maxBytes maxGas forced).1 /\ agrees (ex_FilterTxs w txs maxBytes maxGas forced).2 o.2).
Proof.
  split_and!.
  - intros time height id. unfold Client.InitChain. rewrite call_reliable. unfold Server.InitChain. cbn.
    destruct (height =? 0); [by split; [|eexists]|]. destruct (bool_decide (id = EmptyString)); [by split; [|eexists]|]. cbn.
    rewrite AsTime_New. destruct (ex_InitChain w time height id) as [w' r]. split; [done|apply agrees_wrapped].
  - unfold Client.GetTxs. rewrite call_reliable. unfold Server.GetTxs. by destruct (ex_GetTxs w).
  - unfold Client.GetTxs. rewrite call_reliable. unfold Server.GetTxs. destruct (ex_GetTxs w). apply agrees_wrapped.
  - intros txs height time root. unfold Client.ExecuteTxs. rewrite call_reliable. unfold Server.ExecuteTxs. cbn.
    destruct (height =? 0); [by split; [|eexists]|]. destruct root as [|b root]; [by split; [|eexists]|]. cbn.
    rewrite AsTime_New. destruct (ex_ExecuteTxs w txs height time (b :: root)) as [w' r]. split; [done|apply agrees_wrapped].
  - intros height. unfold Client.SetFinal. rewrite call_reliable. unfold Server.SetFinal.
    destruct (height =? 0); [by split; [|eexists]|]. destruct (ex_SetFinal w height) as [w' r]. split; [done|apply agrees_wrapped].
  - unfold Client.GetExecutionInfo. rewrite call_reliable. unfold Server.GetExecutionInfo. by destruct (ex_GetExecutionInfo w).
  - unfold Client.GetExecutionInfo. rewrite call_reliable. unfold Server.GetExecutionInfo. destruct (ex_GetExecutionInfo w). apply agrees_wrapped.
  - intros txs maxBytes maxGas forced. unfold Client.FilterTxs. rewrite call_reliable. unfold Server.FilterTxs. cbn.
    destruct (ex_FilterTxs w txs maxBytes maxGas forced) as [w' [l|e]]; [split; [done|]; cbn; by rewrite status_roundtrip|].
    split; [done|]. exact (agrees_wrapped _ _ (Err e : res (list FilterStatus))).
Qed.

(** The height of the executor is not seen over gRPC: the replay that a node starts with passes without
    looking at it, whatever the store and the executor hold. *)
Lemma sync_over_grpc {D B K} `{DS : Datastore D} `{BT : Batching D B} `{PK : PubKeys K} `{PW : Protowire} `{HS : HashString}
  `{CV : ProtoCodec pb_Version} `{CHd : ProtoCodec pb_Header} `{CH : ProtoCodec pb_SignedHeader} `{CD : ProtoCodec pb_Data} `{CS : ProtoCodec pb_State}
  (g : Genesis) (target : Z) (s : D) (w : W) :
  SyncToHeight (EX := Grpc_CoreExecutor) (B := B) (K := K) g target (w, s) = ((w, s), Ok tt).
Proof. reflexivity. Qed.

End grpc.

(** Witness: an executor that counts its blocks and refuses any but the next. *)
Module GrpcWitness.

#[local] Instance w_executor : Executor Z := {|
  ex_InitChain n _ _ _ := (n, Ok [x01]);
  ex_GetTxs n := (n, Ok [[x07]]);
  ex_ExecuteTxs n _ height _ _ := if height =? n + 1 then (height, Ok [x02]) else (n, Err (EMsg "unexpected height"));
  ex_SetFinal n _ := (n, Ok tt);
  ex_GetExecutionInfo n := (n, Ok 0);
  ex_FilterTxs n txs _ _ _ := (n, Ok ((fun _ => FilterPostpone) <$> txs)) |}.
#[local] Instance w_transport : Transport Z := {| tr_request n := (n, None); tr_response n := (n, None) |}.

Lemma grpc_transparent_witness :
  (forall time height id, let o := Client.InitChain time height id 4 in
     if (height =? 0) || bool_decide (id = EmptyString) then refused 4 o
     else o.1 = (ex_InitChain 4 time height id).1 /\ agrees (ex_InitChain 4 time height id).2 o.2) /\
  ((Client.GetTxs 4).1 = (ex_GetTxs 4).1 /\ agrees (ex_GetTxs 4).2 (Client.GetTxs 4).2) /\
  (forall txs height time root, let o := Client.ExecuteTxs txs height time root 4 in
     if (height =? 0) || bool_decide (root = []) then refused 4 o
     else o.1 = (ex_ExecuteTxs 4 txs height time root).1 /\ agrees (ex_ExecuteTxs 4 txs height time root).2 o.2) /\
  (forall height, let o := Client.SetFinal height 4 in
     if height =? 0 then refused 4 o else o.1 = (ex_SetFinal 4 height).1 /\ agrees (ex_SetFinal 4 height).2 o.2) /\
  ((Client.GetExecutionInfo 4).1 = (ex_GetExecutionInfo 4).1 /\ agrees (ex_GetExecutionInfo 4).2 (Client.GetExecutionInfo 4).2) /\
  (forall txs maxBytes maxGas forced, let o := Client.FilterTxs txs maxBytes maxGas forced 4 in
     o.1 = (ex_FilterTxs 4 txs maxBytes maxGas forced).1 /\ agrees (ex_FilterTxs 4 txs maxBytes maxGas forced).2 o.2).
Proof. exact (grpc_transparent (fun _ => eq_refl) (fun _ => eq_refl) 4). Defined.

(** When the response is lost, the block is executed and the client fails; the retry is refused. *)
#[local] Instance lossy_transport : Transport (Z * bool) := {|
  tr_request n := (n, None);
  tr_response := fun n : Z * bool => if n.2 then ((n.1, false), Some (EMsg "unavailable")) else (n, None) |}.
#[local] Instance lossy_executor : Executor (Z * bool) := {|
  ex_InitChain n _ _ _ := (n, Ok [x01]); ex_GetTxs n := (n, Ok []);
  ex_ExecuteTxs := fun (n : Z * bool) _ height _ _ => if height =? n.1 + 1 then ((height, n.2), Ok [x02]) else (n, Err (EMsg "unexpected height"));
  ex_SetFinal n _ := (n, Ok tt); ex_GetExecutionInfo n := (n, Ok 0); ex_FilterTxs n _ _ _ _ := (n, Ok []) |}.
Example lost_response :
  let '(w, r) := Client.ExecuteTxs [] 5 9 [x02] (4, true) in
  w = (5, false) /\ is_ok r = false /\ is_ok (Client.ExecuteTxs [] 5 9 [x02] w).2 = false.
Proof. vm_compute. done. Qed.

End GrpcWitness.

End Grpc.
