(* ===== verification/SyncService.v ===== *)
(** The P2P sync services (pkg/sync/sync_service.go): a service per kind of item (headers, data) over the
    store adapter of StoreAdapter.v. It initialises the P2P store from a peer or with the first block the
    node produces, starts the go-header syncer, broadcasts items, and records where items were put on the
    DA layer.

    The exchange, the syncer and the topic of go-header are the class [P2PNet]; the errors with which the
    topic's validation refuses a message are [ValidationIgnored] and [ValidationFailed]. The retries of a
    full cache and the waits for a height are arguments, as in StoreAdapter.v. *)

From S2P Require Import Prelude Sha256 Interfaces Types Validation Store StoreAdapter.

Import Adapter.

Class P2PNet (W H : Type) := {
  exchange_GetByHeight : W -> Z -> W * res (option H);
  syncer_Start : W -> W * res unit;
  sub_Broadcast : W -> H -> W * res unit;
}.

Module SyncService.

Definition ValidationIgnored : err := ESentinel "validation ignored".
Definition ValidationFailed : err := ESentinel "validation failed".

Section service.
Context {W D H : Type} `{NET : P2PNet W H} `{EN : Entity H} `{SG : StoreGetter D H}.

(** [InitialHeight] is the genesis'. *)
Record SyncService := { ss_store : StoreAdapter D H; InitialHeight : Z; storeInitialized : bool; started : bool }.
Definition set_adapter (a : StoreAdapter D H) (s : SyncService) : SyncService :=
  {| ss_store := a; InitialHeight := InitialHeight s; storeInitialized := storeInitialized s; started := started s |}.
Definition set_initialized (b : bool) (s : SyncService) : SyncService :=
  {| ss_store := ss_store s; InitialHeight := InitialHeight s; storeInitialized := b; started := started s |}.

Definition is_empty_store (e : err) : bool := errors_is e ErrNotFoundHeader || errors_is e ErrEmptyStore.

(** True when this call initialised the store. [Sync] of the adapter does nothing. *)
Definition initStore (retries : list (option D)) (initial : option H) (a : StoreAdapter D H) : StoreAdapter D H * res bool :=
  match initial with
  | None => (a, Err (EMsg "failed to initialize the store"))
  | Some _ =>
      match Head a with
      | (a, Ok _) => (a, Ok false)
      | (a, Err e) =>
          if is_empty_store e then
            match Append retries [initial] a with
            | (a, Err e) => (a, Err e)
            | (a, Ok _) => (a, Ok true)
            end
          else (a, Err e)
      end
  end.

(** [CompareAndSwap] of the flag around [initStore]. *)
Definition ensure_store (retries : list (option D)) (initial : option H) (s : SyncService) : SyncService * res bool :=
  if storeInitialized s then (s, Ok false)
  else match initStore retries initial (ss_store s) with
       | (a, Err e) => (set_initialized false (set_adapter a s), Err (EWrap "failed to initialize the store" e))
       | (a, Ok b) => (set_initialized true (set_adapter a s), Ok b)
       end.

Definition startSyncer (w : W) (s : SyncService) : W * SyncService * res unit :=
  if started s then (w, s, Ok tt)
  else match syncer_Start w with
       | (w, Err e) => (w, s, Err (EWrap "failed to start syncer" e))
       | (w, Ok _) => (w, {| ss_store := ss_store s; InitialHeight := InitialHeight s; storeInitialized := storeInitialized s; started := true |}, Ok tt)
       end.

(** Every error of the broadcast is logged or ignored. *)
Definition WriteToStoreAndBroadcast (retries : list (option D)) (headerOrData : option H) (w : W) (s : SyncService)
    : W * SyncService * res unit :=
  if InitialHeight s =? 0 then (w, s, Err (EMsg "invalid initial height; cannot be zero"))
  else match headerOrData with
       | None => (w, s, Err (EMsg "empty header/data cannot write to store or broadcast"))
       | Some item =>
           match ensure_store retries headerOrData s with
           | (s, Err e) => (w, s, Err e)
           | (s, Ok _) =>
               match startSyncer w s with
               | (w, s, Err e) => (w, s, Err (EWrap "failed to start syncer after initializing the store" e))
               | (w, s, Ok _) => let '(w, _) := sub_Broadcast w item in (w, s, Ok tt)
               end
           end
       end.

(** *** DA hints *)

(** [v.SetDAHint(daHeight)] on what [GetByHeight] returned: an item of the cache is shared with the cache,
    one of the store is the caller's own. *)
Definition set_hint (daHeight height : Z) (v : H) (a : StoreAdapter D H) : StoreAdapter D H * H :=
  let v := ent_SetDAHint daHeight v in
  match sg_GetByHeight (a_store a) height with
  | Ok _ => (a, v)
  | Err _ => (set_pending {| items := <[height := v]> (items (pending a)); byHash := byHash (pending a);
                             daHints := daHints (pending a); maxHeight := maxHeight (pending a) |} a, v)
  end.
(** [wk] is what a wait for a height that is not there ends with. *)
Fixpoint hint_loop (wk : Z -> wake (D := D) (H := H)) (daHeight : Z) (heights : list Z) (a : StoreAdapter D H)
    : StoreAdapter D H * res (list (option H)) :=
  match heights with
  | [] => (a, Ok [])
  | height :: heights =>
      match GetByHeight (wk height) height a with
      | (a, Err e) => if errors_is e ErrNotFoundHeader then hint_loop wk daHeight heights a else (a, Err e)
      | (a, Ok v) =>
          let '(a, v) := set_hint daHeight height v a in
          let '(a, r) := hint_loop wk daHeight heights a in
          (a, let? entries := r in Ok (Some v :: entries))
      end
  end.
Definition AppendDAHint (retries : list (option D)) (wk : Z -> wake (D := D) (H := H)) (daHeight : Z) (heights : list Z) (a : StoreAdapter D H)
    : StoreAdapter D H * res unit :=
  match hint_loop wk daHeight heights a with
  | (a, Err e) => (a, Err e)
  | (a, Ok entries) => Append retries entries a
  end.

(** *** Initialisation from a peer *)

Definition tryInit (retries : list (option D)) (w : W) (s : SyncService) : W * SyncService * res unit :=
  let '(a, headr) := Head (ss_store s) in
  let s := set_adapter a s in
  let query := match headr with
               | Ok head => Ok (ent_Height head)
               | Err e => if is_empty_store e then Ok (InitialHeight s) else Err (EWrap "failed to inspect local store head" e)
               end in
  match query with
  | Err e => (w, s, Err e)
  | Ok heightToQuery =>
      match exchange_GetByHeight w heightToQuery with
      | (w, Err e) => (w, s, Err (EWrap "failed to fetch height from peers" e))
      | (w, Ok trusted) =>
          match ensure_store retries trusted s with
          | (s, Err e) => (w, s, Err e)
          | (s, Ok _) => startSyncer w s
          end
      end
  end.

(** What the wait after a failed attempt ends with. The loop also returns the waits it made, in seconds. *)
Inductive retry_event := Backoff | CtxDone (e : err) | TimedOut.
Fixpoint init_loop (retries : list (option D)) (backoff : Z) (evs : list retry_event) (w : W) (s : SyncService)
    : W * SyncService * option (res unit) * list Z :=
  match tryInit retries w s with
  | (w, s, Ok _) => (w, s, Some (Ok tt), [])
  | (w, s, Err _) =>
      match evs with
      | [] => (w, s, None, [])
      | CtxDone e :: _ => (w, s, Some (Err e), [backoff])
      | TimedOut :: _ => (w, s, Some (Ok tt), [backoff])
      | Backoff :: evs =>
          let '(w, s, r, waits) := init_loop retries (Z.min (backoff * 2) 3) evs w s in (w, s, r, backoff :: waits)
      end
  end.
Definition initFromP2PWithRetry (retries : list (option D)) (peers : nat) (evs : list retry_event) (w : W) (s : SyncService)
    : W * SyncService * option (res unit) * list Z :=
  match peers with O => (w, s, Some (Ok tt), []) | S _ => init_loop retries 1 evs w s end.

(** ** What a service promises *)

(** The syncer only ever runs on an initialised store. *)
Definition svc_inv (s : SyncService) : Prop := started s = true -> storeInitialized s = true.

Lemma ensure_store_spec retries item s : let '(s', r) := ensure_store retries item s in
  started s' = started s /\ InitialHeight s' = InitialHeight s /\ storeInitialized s' = is_ok r || storeInitialized s /\
  (storeInitialized s = true -> s' = s /\ r = Ok false).
Proof.
  unfold ensure_store. destruct (storeInitialized s) eqn:E; [by rewrite E|].
  destruct (initStore retries item (ss_store s)) as [a [b|e]]; done.
Qed.

Lemma startSyncer_spec w s : let '(_, s', r) := startSyncer w s in
  ss_store s' = ss_store s /\ storeInitialized s' = storeInitialized s /\ InitialHeight s' = InitialHeight s /\ started s' = is_ok r || started s.
Proof.
  unfold startSyncer. destruct (started s) eqn:E; [by rewrite E|]. by destruct (syncer_Start w) as [w' [[]|e]]; simpl; rewrite ?E.
Qed.

(** Publishing a block. It fails only if the service has no initial height, the item is empty, the store
    cannot be initialised or the syncer cannot be started, and never because of the broadcast: once the
    service runs, only the first two fail, and they change nothing. A success leaves the store
    initialised and the syncer running, and the syncer never runs on a store that is not; a failed
    initialisation leaves the service as it was before it, to be tried again by the next call. *)
Theorem Write_outcome (retries : list (option D)) (item : option H) (w : W) (s : SyncService) (Hi : svc_inv s) :
  let '(_, s', r) := WriteToStoreAndBroadcast retries item w s in
  svc_inv s' /\
  (r = Ok tt -> storeInitialized s' = true /\ started s' = true) /\
  (InitialHeight s = 0 \/ item = None -> s' = s /\ r <> Ok tt) /\
  (started s = true -> s' = s /\ (r = Ok tt <-> InitialHeight s <> 0 /\ item <> None)) /\
  (r <> Ok tt -> started s' = started s /\ (storeInitialized s' = false -> storeInitialized s = false)).
Proof.
  unfold WriteToStoreAndBroadcast. destruct (Z.eqb_spec (InitialHeight s) 0) as [E0|E0].
  { split_and!; [done|done|by intros _| |done]. intros _. split; [done|]. split; [done|by intros []]. }
  destruct item as [x|].
  2: { split_and!; [done|done|by intros _| |done]. intros _. split; [done|]. split; [done|by intros []]. }
  pose proof (ensure_store_spec retries (Some x) s) as He. destruct (ensure_store retries (Some x) s) as [s1 [b|e]].
  - destruct He as (E1 & E2 & E3 & E4). simpl in E3. pose proof (startSyncer_spec w s1) as Hs.
    destruct (startSyncer w s1) as [[w2 s2] [[]|e]] eqn:Es; destruct Hs as (F1 & F2 & F3 & F4); simpl in F4.
    + destruct (sub_Broadcast w2 x) as [w3 r3]. split_and!; [by intros _; congruence|by intros _; split; congruence|by intros [?|?]| |done].
      intros Hst. destruct (E4 (Hi Hst)) as [-> _]. unfold startSyncer in Es. rewrite Hst in Es. injection Es as _ <-. by split.
    + split_and!; [intros _; congruence|done|by intros [?|?]| |].
      * intros Hst. unfold startSyncer in Es. rewrite E1, Hst in Es. done.
      * intros _. split; [congruence|]. congruence.
  - destruct He as (E1 & E2 & E3 & E4). simpl in E3. split_and!; [intros Hst; rewrite E3; apply Hi; congruence|done|by intros [?|?]| |].
    + intros Hst. by destruct (E4 (Hi Hst)).
    + intros _. split; congruence.
Qed.

Lemma tryInit_spec retries w s : svc_inv s -> let '(_, s', r) := tryInit retries w s in
  svc_inv s' /\ (r = Ok tt -> started s' = true /\ storeInitialized s' = true).
Proof.
  intros Hi. unfold tryInit. destruct (Head (ss_store s)) as [a hr]. set (s0 := set_adapter a s). assert (Hi0 : svc_inv s0) by exact Hi.
  destruct (match hr with Ok _ => _ | Err _ => _ end) as [n|e]; [|done]. destruct (exchange_GetByHeight w n) as [w1 [tr|e]]; [|done].
  pose proof (ensure_store_spec retries tr s0) as He. destruct (ensure_store retries tr s0) as [s1 [b|e]]; destruct He as (E1 & _ & E3 & _); simpl in E3.
  - pose proof (startSyncer_spec w1 s1) as Hs. destruct (startSyncer w1 s1) as [[w2 s2] [[]|e]]; destruct Hs as (_ & F2 & _ & F4); simpl in F4.
    + split; [intros _; congruence|]. split; congruence.
    + split; [intros _; congruence|done].
  - split; [|done]. intros Hst. rewrite E3. apply Hi0. congruence.
Qed.

(** The initialisation from peers returns once the context ends or the timeout fires, and not later than
    the first attempt that succeeds; between attempts it waits one second, then two, then three at a time.
    Whenever it returns, the syncer runs only on an initialised store, and it does run unless the context
    ended or the timeout fired. *)
Lemma init_loop_outcome retries backoff evs w s : svc_inv s -> 1 <= backoff <= 3 ->
  let '(_, s', r, waits) := init_loop retries backoff evs w s in
  svc_inv s' /\ Forall (fun n => 1 <= n <= 3) waits /\ (length waits <= length evs)%nat /\
  (r = None -> Forall (fun ev => ev = Backoff) evs) /\
  (Forall (fun ev => ev = Backoff) evs -> r = Some (Ok tt) -> started s' = true).
Proof.
  revert backoff w s. induction evs as [|ev evs IH]; intros backoff w s Hi Hb; cbn [init_loop];
    pose proof (tryInit_spec retries w s Hi) as Ht; destruct (tryInit retries w s) as [[w1 s1] [[]|e]]; destruct Ht as [Hi1 Hs1].
  - split_and!; [done|constructor|simpl; lia|done|by intros _ _; apply Hs1].
  - split_and!; [done|constructor|simpl; lia|done|done].
  - split_and!; [done|constructor|simpl; lia|done|by intros _ _; apply Hs1].
  - destruct ev as [|e'|].
    + specialize (IH (Z.min (backoff * 2) 3) w1 s1 Hi1 ltac:(lia)).
      destruct (init_loop retries (Z.min (backoff * 2) 3) evs w1 s1) as [[[w2 s2] r] waits]. destruct IH as (I1 & I2 & I3 & I4 & I5).
      split_and!; [done|by constructor|simpl; lia|intros Hr; constructor; [done|auto]|]. intros Hf. inversion Hf; subst. auto.
    + split_and!; [done|by apply Forall_singleton|simpl; lia|done|]. intros Hf. by inversion Hf.
    + split_and!; [done|by apply Forall_singleton|simpl; lia|done|]. intros Hf. by inversion Hf.
Qed.

End service.
#[global] Arguments SyncService : clear implicits.

(** *** Where hints go *)

Section hints.
Context {D H : Type} `{EL : EntityLaws H} `{SL : !StoreGetter D H} `{LL : !StoreGetterLaws D H}.
Context (Hhint : forall d (x : H), ent_DAHint (ent_SetDAHint d x) = d).
Abbreviation adapter := (StoreAdapter D H).

Definition stored_at (s : D) (h : Z) : Prop := is_u64 h /\ sg_HasAt s h = true.

Lemma applyDAHint_store (x : H) (a : adapter) : let '(a', y) := applyDAHint x a in
  a_store a' = a_store a /\ items (pending a') = items (pending a) /\ ent_Height y = ent_Height x.
Proof.
  unfold applyDAHint. destruct (pc_getDAHint _ _); [|destruct (sg_GetDAHint _ _) as [d|]; [destruct (0 <? d)|]]; simpl; rewrite ?ent_Height_hint; done.
Qed.

Lemma hint_loop_stored wk d heights (a : adapter) : sg_ok (a_store a) -> Forall (stored_at (a_store a)) heights ->
  exists a' entries, hint_loop wk d heights a = (a', Ok entries) /\ a_store a' = a_store a /\ items (pending a') = items (pending a) /\
    Forall (fun e => exists x, e = Some x /\ sg_HasAt (a_store a) (ent_Height x) = true) entries.
Proof.
  intros Hok. revert a Hok. induction heights as [|h heights IH]; intros a Hok Hf; cbn [hint_loop]; [by eexists _, _|].
  inversion Hf as [|? ? [Hu Hh] Hf']; subst. pose proof Hh as Hx. apply sg_HasAt_spec in Hx as [x Ex].
  unfold GetByHeight, getByHeightNoWait. rewrite Ex. pose proof (applyDAHint_store x a) as Ha. destruct (applyDAHint x a) as [a1 y].
  destruct Ha as (E1 & E2 & E3). unfold set_hint. rewrite E1, Ex.
  destruct (IH a1) as (a2 & entries & El & F1 & F2 & F3); [by rewrite E1|by rewrite E1|]. rewrite El. cbn.
  eexists _, _. split; [reflexivity|]. split; [congruence|]. split; [congruence|]. constructor; [|by rewrite E1 in F3].
  exists (ent_SetDAHint d y). split; [done|]. rewrite ent_Height_hint, E3, (sg_Get_height _ _ _ Hok Hu Ex). done.
Qed.

Lemma Append_stored retries l (a : adapter) : Forall (fun e => exists x, e = Some x /\ sg_HasAt (a_store a) (ent_Height x) = true) l ->
  Append retries l a = (a, Ok tt).
Proof.
  induction 1 as [|e l (x & -> & Hx) _ IH]; [done|]. cbn [Append]. unfold append_one. by rewrite Hx.
Qed.

Lemma waitForSpace_room retries (a : adapter) : pc_len (pending a) < maxPendingCacheSize -> waitForSpace retries a = (a, retries, Ok tt).
Proof. intros Hl. destruct retries; cbn [waitForSpace]; by rewrite (proj2 (Z.ltb_lt _ _) Hl). Qed.

(** Where a DA hint goes. For an item that waits in the cache, [AppendDAHint] puts the hint on the item, in
    the cache and in the store. For blocks that are in the store already, which is where the blocks the
    node submits to the DA layer are, it reports success and records nothing: the store and the cached
    items are as before. *)
Theorem AppendDAHint_outcome (retries : list (option D)) (wk : Z -> wake) (d h : Z) (heights : list Z) (x : H) (a : adapter)
  (Hd : 0 < d) (Hok : sg_ok (a_store a)) (Hst : Forall (stored_at (a_store a)) heights)
  (Hno : sg_HasAt (a_store a) h = false) (Hx : items (pending a) !! h = Some x) (Hxh : ent_Height x = h)
  (Hroom : pc_len (pending a) < maxPendingCacheSize) :
  (exists a', AppendDAHint retries wk d heights a = (a', Ok tt) /\ a_store a' = a_store a /\ items (pending a') = items (pending a)) /\
  (exists a' y, AppendDAHint retries wk d [h] a = (a', Ok tt) /\ a_store a' = (sg_SetDAHint (a_store a) h d).1 /\
     items (pending a') = <[h := y]> (items (pending a)) /\ ent_DAHint y = d /\ ent_Height y = h /\ daHints (pending a') !! h = Some d).
Proof.
  split.
  - destruct (hint_loop_stored wk d heights a Hok Hst) as (a1 & entries & El & E1 & E2 & E3). unfold AppendDAHint. rewrite El.
    rewrite Append_stored by by rewrite E1. by eexists.
  - unfold AppendDAHint. cbn [hint_loop]. unfold GetByHeight, getByHeightNoWait.
    assert (He : exists e, sg_GetByHeight (a_store a) h = Err e).
    { destruct (sg_GetByHeight (a_store a) h) as [z|e] eqn:E; [|by eexists]. exfalso.
      assert (Ht : sg_HasAt (a_store a) h = true) by (apply sg_HasAt_spec; eauto). congruence. }
    destruct He as [e Ee]. rewrite Ee. unfold pc_get. rewrite Hx. unfold apply_shared. pose proof (applyDAHint_store x a) as Ha.
    destruct (applyDAHint x a) as [a1 y]. destruct Ha as (E1 & E2 & E3). unfold set_hint. cbn [a_store set_pending upd]. rewrite E1, Ee. cbn.
    unfold append_one. rewrite ent_Height_hint, E3, Hxh. cbn. rewrite E1, Hno.
    rewrite waitForSpace_room.
    2: { unfold pc_len in *. cbn. rewrite E2, !map_size_insert. rewrite lookup_insert_eq, Hx. simpl. unfold id. lia. }
    cbn. rewrite Hhint, (proj2 (Z.ltb_lt _ _) Hd).
    assert (Hy : ent_Height (ent_SetDAHint d y) = h) by by rewrite ent_Height_hint, E3.
    eexists _, (ent_SetDAHint d y). split; [reflexivity|].
    destruct (_ <? h); cbn; rewrite E1, E2, !Hy, !Hhint, (proj2 (Z.ltb_lt _ _) Hd), !insert_insert_eq, lookup_insert_eq; done.
Qed.

End hints.

(** Witness: items are pairs of a height and a hint, the store a set of heights with their hints. *)
Module SyncServiceWitness.

Record toy := { t_blocks : gset Z; t_hints : gmap Z Z }.
#[local] Instance toy_entity : Entity (Z * Z) := {|
  ent_Height := fst; ent_Hash x := PutUint64_LE x.1; ent_DAHint := snd; ent_SetDAHint d x := (x.1, d) |}.
#[local] Instance toy_getter : StoreGetter toy (Z * Z) := {|
  sg_GetByHeight s h := if bool_decide (h ∈ t_blocks s) then Ok (h, default 0 (t_hints s !! h)) else Err (EMsg "not found");
  sg_GetByHash _ _ := Err (EMsg "not found");
  sg_Height s := Ok (Z.of_nat (size (t_blocks s)));
  sg_HasAt s h := bool_decide (h ∈ t_blocks s);
  sg_GetDAHint s h := match t_hints s !! h with Some d => Ok d | None => Err (EMsg "not found") end;
  sg_SetDAHint s h d := ({| t_blocks := t_blocks s; t_hints := <[h := d]> (t_hints s) |}, Ok tt) |}.
#[local] Instance toy_entity_laws : EntityLaws (Z * Z).
Proof. by split. Qed.
#[local] Instance toy_getter_laws : StoreGetterLaws toy (Z * Z).
Proof.
  refine {| sg_ok _ := True |}.
  - intros s h. simpl. case_bool_decide; split; eauto; [done|by intros [x ?]].
  - intros s h x _ _. simpl. case_bool_decide; [|done]. by intros [= <-].
  - intros s h d _. done.
Defined.
#[local] Instance toy_net : P2PNet nat (Z * Z) := {|
  exchange_GetByHeight n h := match n with O => (O, Ok (Some (h, 0))) | S n => (n, Err (EMsg "no peer")) end;
  syncer_Start n := (n, Ok tt);
  sub_Broadcast n _ := (n, Err ValidationFailed) |}.

Definition w_db : toy := {| t_blocks := {[1; 2]}; t_hints := ∅ |}.
Definition w_adapter : StoreAdapter toy (Z * Z) := (Append [] [Some (3, 0)] (NewStoreAdapter w_db 1)).1.

Lemma AppendDAHint_outcome_witness :
  (exists a', AppendDAHint [] (fun _ a => inl a) 77 [1; 2] w_adapter = (a', Ok tt) /\ a_store a' = a_store w_adapter /\
     items (pending a') = items (pending w_adapter)) /\
  (exists a' y, AppendDAHint [] (fun _ a => inl a) 77 [3] w_adapter = (a', Ok tt) /\ a_store a' = (sg_SetDAHint (a_store w_adapter) 3 77).1 /\
     items (pending a') = <[3 := y]> (items (pending w_adapter)) /\ ent_DAHint y = 77 /\ ent_Height y = 3 /\ daHints (pending a') !! 3 = Some 77).
Proof.
  refine (AppendDAHint_outcome (fun d x => eq_refl) [] (fun _ a => inl a) 77 3 [1; 2] (3, 0) w_adapter _ I _ _ _ _ _).
  - reflexivity.
  - repeat constructor; by vm_compute.
  - by vm_compute.
  - by vm_compute.
  - reflexivity.
  - by vm_compute.
Defined.

Definition w_service : SyncService toy (Z * Z) := {|
  ss_store := NewStoreAdapter {| t_blocks := ∅; t_hints := ∅ |} 1; InitialHeight := 1; storeInitialized := false; started := false |}.

Lemma Write_outcome_witness :
  let '(_, s', r) := WriteToStoreAndBroadcast [] (Some (1, 0)) O w_service in
  svc_inv s' /\ (r = Ok tt -> storeInitialized s' = true /\ started s' = true) /\
  (InitialHeight w_service = 0 \/ Some (1, 0) = None -> s' = w_service /\ r <> Ok tt) /\
  (started w_service = true -> s' = w_service /\ (r = Ok tt <-> InitialHeight w_service <> 0 /\ Some (1, 0) <> None)) /\
  (r <> Ok tt -> started s' = started w_service /\ (storeInitialized s' = false -> storeInitialized w_service = false)).
Proof. exact (Write_outcome [] (Some (1, 0)) O w_service (fun Hs => ltac:(discriminate Hs))). Defined.

(** Two attempts fail, the third finds a peer. *)
Example init_retries :
  let '(_, s, r, waits) := initFromP2PWithRetry [] 1 [Backoff; Backoff; Backoff] 2%nat w_service in
  r = Some (Ok tt) /\ waits = [1; 2] /\ started s = true /\ HasAt 1 (ss_store s) = true.
Proof. vm_compute. done. Qed.

End SyncServiceWitness.

End SyncService.
