(* ===== verification/Config.v ===== *)
(** The configuration (pkg/config): its records and defaults, the checks of [Validate], the namespaces it
    gives to the DA client and the readiness threshold; and the files of a node as the class [OS], which
    stands for the operating system.

    Durations are in nanoseconds. Flags, viper, YAML and the translation of addresses are left out: a
    configuration is what they have produced. *)

From Stdlib Require Import SpecFloat.
From S2P Require Import Prelude Sha256 Interfaces Validation Store Replay Sdk BatchingStrategy BlobClient Pruner.

(** ** The operating system *)

Inductive stat_result := StatOk | StatNotExist | StatErr (e : err).

Class OS (W : Type) := {
  os_MkdirAll : string -> W -> W * res unit;
  os_Stat : string -> W -> stat_result;
  os_ReadFile : string -> W -> res bytes;
  os_WriteFile : string -> bytes -> W -> W * res unit;
  os_Remove : string -> W -> W * res unit;
  (** random bytes, of crypto/rand *)
  rand_Read : nat -> W -> W * res bytes;
  os_Now : W -> Z;
}.

(** [filepath.Join] of a directory in its clean form and a name. *)
Definition filepath_Join (dir name : string) : string :=
  if bool_decide (dir = EmptyString) then name else String.append dir (String.append "/" name).

(** Two states of the disk agree on a file. *)
Definition same_file {W} `{OS W} (path : string) (w w' : W) : Prop :=
  os_ReadFile path w' = os_ReadFile path w /\ os_Stat path w' = os_Stat path w.

(** What is written is read back; a call leaves the files it does not name as they are, also when it fails.
    A failed write promises nothing of its own file. Creating a directory creates no file in it. The clock
    has been set. *)
Class OSLaws (W : Type) `{OS W} := {
  mkdir_keeps dir name w w' r : os_MkdirAll dir w = (w', r) -> same_file (filepath_Join dir name) w w';
  write_reads path b w w' : os_WriteFile path b w = (w', Ok tt) -> os_ReadFile path w' = Ok b /\ os_Stat path w' = StatOk;
  write_keeps path b w w' r path' : os_WriteFile path b w = (w', r) -> path' <> path -> same_file path' w w';
  remove_keeps path w w' r path' : os_Remove path w = (w', r) -> path' <> path -> same_file path' w w';
  rand_length n w w' b : rand_Read n w = (w', Ok b) -> length b = n;
  rand_keeps n w w' r path : rand_Read n w = (w', r) -> same_file path w w';
  os_Now_set w : os_Now w <> zero_time;
}.

(** The error of a second check is added to the first one ([errors.Join]; [None] is nil). *)
Definition errors_Join (e : option err) (e' : err) : option err :=
  Some (match e with Some e => EJoin e e' | None => e' end).

Module Config.
Import Strategy.

Definition Millisecond : Z := 1000000.
Definition Second : Z := 1000000000.
Definition Minute : Z := 60 * Second.

(** ** The records (config.go, instrumentation.go) *)

(** [da_Batching] holds the fields that the batching strategies use, [BlockTime] among them. *)
Record DAConfig := {
  da_Address : string; da_AuthToken : string; da_SubmitOptions : string; da_SigningAddresses : list string;
  da_Namespace : string; da_DataNamespace : string; da_ForcedInclusionNamespace : string; da_MempoolTTL : Z;
  da_MaxSubmitAttempts : Z; da_RequestTimeout : Z; da_Batching : Strategy.DAConfig }.
Record NodeConfig := {
  nd_Aggregator : bool; nd_BasedSequencer : bool; nd_Light : bool; nd_BlockTime : Z; nd_MaxPendingHeadersAndData : Z;
  nd_LazyMode : bool; nd_LazyBlockInterval : Z; nd_ScrapeInterval : Z; nd_CatchupTimeout : Z;
  nd_ReadinessWindowSeconds : Z; nd_ReadinessMaxBlocksBehind : Z }.
Record LogConfig := { lg_Level : string; lg_Format : string; lg_Trace : bool }.
Record P2PConfig := { p2_ListenAddress : string; p2_Peers : string; p2_BlockedPeers : string; p2_AllowedPeers : string }.
Record SignerConfig := { sg_SignerType : string; sg_SignerPath : string }.
Record RPCConfig := { rp_Address : string; rp_EnableDAVisualization : bool }.
Record RaftConfig := {
  rf_Enable : bool; rf_NodeID : string; rf_RaftAddr : string; rf_RaftDir : string; rf_Bootstrap : bool; rf_Peers : string;
  rf_SnapCount : Z; rf_SendTimeout : Z; rf_HeartbeatTimeout : Z; rf_LeaderLeaseTimeout : Z }.
Record InstrumentationConfig := {
  in_Prometheus : bool; in_PrometheusListenAddr : string; in_MaxOpenConnections : Z; in_Namespace : string; in_Pprof : bool;
  in_PprofListenAddr : string; in_Tracing : bool; in_TracingEndpoint : string; in_TracingServiceName : string;
  in_TracingSampleRate : float64 }.
(** A nil [Instrumentation] is [None]. *)
Record Config := {
  c_RootDir : string; c_ClearCache : bool; c_DBPath : string; c_P2P : P2PConfig; c_Node : NodeConfig; c_DA : DAConfig;
  c_RPC : RPCConfig; c_Instrumentation : option InstrumentationConfig; c_Log : LogConfig; c_Signer : SignerConfig;
  c_Raft : RaftConfig; c_Pruning : Pruner.PruningConfig }.

Definition GetNamespace (d : DAConfig) : string := da_Namespace d.
Definition GetDataNamespace (d : DAConfig) : string :=
  if bool_decide (da_DataNamespace d = EmptyString) then GetNamespace d else da_DataNamespace d.
Definition GetForcedInclusionNamespace (d : DAConfig) : string := da_ForcedInclusionNamespace d.

(** ** Instrumentation *)

(** 0.1 *)
Definition f_tenth : float64 := S754_finite false 7205759403792794 (-56).
Definition DefaultInstrumentationConfig : InstrumentationConfig := {|
  in_Prometheus := false; in_PrometheusListenAddr := ":26660"; in_MaxOpenConnections := 3; in_Namespace := "evnode";
  in_Pprof := false; in_PprofListenAddr := ":6060"; in_Tracing := false; in_TracingEndpoint := "localhost:4318";
  in_TracingServiceName := "ev-node"; in_TracingSampleRate := f_tenth |}.
Definition IsPrometheusEnabled (cfg : InstrumentationConfig) : bool :=
  in_Prometheus cfg && negb (bool_decide (in_PrometheusListenAddr cfg = EmptyString)).
Definition IsPprofEnabled (cfg : InstrumentationConfig) : bool := in_Pprof cfg.
Definition GetPprofListenAddr (cfg : InstrumentationConfig) : string :=
  if bool_decide (in_PprofListenAddr cfg = EmptyString) then in_PprofListenAddr DefaultInstrumentationConfig
  else in_PprofListenAddr cfg.
Definition IsTracingEnabled (cfg : option InstrumentationConfig) : bool :=
  match cfg with Some cfg => in_Tracing cfg && negb (bool_decide (in_TracingEndpoint cfg = EmptyString)) | None => false end.

(** ** Defaults (defaults.go) *)

(** Durations divide towards zero; [time.Duration(windowSeconds) * time.Second] wraps. *)
Definition calculateReadinessMaxBlocksBehind (blockTime windowSeconds : Z) : Z :=
  if blockTime =? 0 then 30
  else
    let windowSeconds := if windowSeconds =? 0 then 15 else windowSeconds in
    u64 (Z.quot (i64 (i64 windowSeconds * Second)) blockTime).

(** [DefaultConfig] for a root directory and the random string of the namespace. *)
Definition DefaultConfig (rootDir randomNamespace : string) : Config := {|
  c_RootDir := rootDir; c_ClearCache := false; c_DBPath := "data";
  c_P2P := {| p2_ListenAddress := "/ip4/0.0.0.0/tcp/7676"; p2_Peers := EmptyString; p2_BlockedPeers := EmptyString;
              p2_AllowedPeers := EmptyString |};
  c_Node := {| nd_Aggregator := false; nd_BasedSequencer := false; nd_Light := false; nd_BlockTime := Second;
               nd_MaxPendingHeadersAndData := 0; nd_LazyMode := false; nd_LazyBlockInterval := 60 * Second;
               nd_ScrapeInterval := Second; nd_CatchupTimeout := 0; nd_ReadinessWindowSeconds := 15;
               nd_ReadinessMaxBlocksBehind := calculateReadinessMaxBlocksBehind Second 15 |};
  c_DA := {| da_Address := "http://localhost:7980"; da_AuthToken := EmptyString; da_SubmitOptions := EmptyString;
             da_SigningAddresses := []; da_Namespace := randomNamespace; da_DataNamespace := EmptyString;
             da_ForcedInclusionNamespace := EmptyString; da_MempoolTTL := 0; da_MaxSubmitAttempts := 30;
             da_RequestTimeout := 60 * Second;
             da_Batching := {| da_BatchingStrategy := "time"; da_BatchSizeThreshold := f_default; da_BatchMinItems := 1;
                               da_BlockTime := 6 * Second; da_BatchMaxDelay := 0 |} |};
  c_RPC := {| rp_Address := "127.0.0.1:7331"; rp_EnableDAVisualization := false |};
  c_Instrumentation := Some DefaultInstrumentationConfig;
  c_Log := {| lg_Level := "info"; lg_Format := "text"; lg_Trace := false |};
  c_Signer := {| sg_SignerType := "file"; sg_SignerPath := "config" |};
  c_Raft := {| rf_Enable := false; rf_NodeID := EmptyString; rf_RaftAddr := EmptyString;
               rf_RaftDir := filepath_Join rootDir "raft"; rf_Bootstrap := false; rf_Peers := EmptyString; rf_SnapCount := 0;
               rf_SendTimeout := 200 * Millisecond; rf_HeartbeatTimeout := 350 * Millisecond;
               rf_LeaderLeaseTimeout := 175 * Millisecond |};
  c_Pruning := {| Pruner.Mode := Pruner.PruningModeDisabled; Pruner.KeepRecent := 100000; Pruner.Interval := 15 * Minute |} |}.

(** ** Validation *)

Definition raft_errors (c : RaftConfig) : option err :=
  let e := if bool_decide (rf_NodeID c = EmptyString) then Some (EMsg "node ID is required") else None in
  let e := if bool_decide (rf_RaftAddr c = EmptyString) then errors_Join e (EMsg "raft address is required") else e in
  let e := if bool_decide (rf_RaftDir c = EmptyString) then errors_Join e (EMsg "raft directory is required") else e in
  let e := if rf_SendTimeout c <=? 0 then errors_Join e (EMsg "send timeout must be positive") else e in
  let e := if rf_HeartbeatTimeout c <=? 0 then errors_Join e (EMsg "heartbeat timeout must be positive") else e in
  if rf_LeaderLeaseTimeout c <=? 0 then errors_Join e (EMsg "leader lease timeout must be positive") else e.
Definition RaftConfig_Validate (c : RaftConfig) : res unit :=
  if negb (rf_Enable c) then Ok tt else match raft_errors c with Some e => Err e | None => Ok tt end.

Definition ConfigPath (c : Config) : string := filepath_Join (filepath_Join (c_RootDir c) "config") "evnode.yaml".

Section validate.
Context {N L PR OPT : Type} `{API : BlobAPI N L PR OPT}.

(** The bytes of a Go string. *)
Definition string_bytes (s : string) : bytes := String.list_byte_of_string s.

Definition validateNamespace (namespace : string) : res unit :=
  if bool_decide (namespace = EmptyString) then Err (EMsg "namespace cannot be empty")
  else match share_NewNamespaceFromBytes (DAC.ns_bytes (string_bytes namespace)) with
       | Ok _ => Ok tt
       | Err e => Err (EWrap "could not validate namespace" e)
       end.

(** The checks after the creation of the directory. *)
Definition validate_fields (c : Config) : res unit :=
  let n := c_Node c in
  let d := c_DA c in
  if nd_BasedSequencer n && negb (nd_Aggregator n) then Err (EMsg "based sequencer mode requires aggregator mode to be enabled")
  else if (0 <? nd_CatchupTimeout n) && negb (nd_Aggregator n) then Err (EMsg "catchup timeout requires aggregator mode to be enabled")
  else if (0 <? nd_CatchupTimeout n) && rf_Enable (c_Raft c)
  then Err (EMsg "catchup timeout and Raft consensus are mutually exclusive; disable one of them")
  else
    let? _ := wrap_err "could not validate namespace" (validateNamespace (GetNamespace d)) in
    let? _ := if bool_decide (GetDataNamespace d = EmptyString) then Ok tt
              else wrap_err "could not validate data namespace" (validateNamespace (GetDataNamespace d)) in
    let? _ := if bool_decide (GetForcedInclusionNamespace d = EmptyString) then Ok tt
              else wrap_err "could not validate forced inclusion namespace" (validateNamespace (GetForcedInclusionNamespace d)) in
    if nd_LazyMode n && (nd_LazyBlockInterval n <=? nd_BlockTime n)
    then Err (EMsg "LazyBlockInterval must be greater than BlockTime in lazy mode")
    else
      let? _ := RaftConfig_Validate (c_Raft c) in
      Pruner.PruningConfig_Validate (c_Pruning c) (nd_BlockTime n).

Definition Validate {W} `{OS W} (c : Config) (w : W) : W * res unit :=
  if bool_decide (c_RootDir c = EmptyString) then (w, Err (EMsg "root directory cannot be empty"))
  else
    let '(w, r) := os_MkdirAll (filepath_Join (c_RootDir c) "config") w in
    match r with
    | Err e => (w, Err (EWrap "could not create directory" e))
    | Ok _ => (w, validate_fields c)
    end.

(** ** What validation promises *)

Definition raft_ok (c : RaftConfig) : Prop :=
  rf_NodeID c <> EmptyString /\ rf_RaftAddr c <> EmptyString /\ rf_RaftDir c <> EmptyString /\ 0 < rf_SendTimeout c /\
  0 < rf_HeartbeatTimeout c /\ 0 < rf_LeaderLeaseTimeout c.
Definition pruning_ok (c : Pruner.PruningConfig) (blockTime : Z) : Prop :=
  Pruner.Mode c = Pruner.PruningModeDisabled \/
  (Pruner.Mode c = Pruner.PruningModeAll \/ Pruner.Mode c = Pruner.PruningModeMetadata) /\ Pruner.Interval c <> 0 /\
  blockTime <= Pruner.Interval c /\ Pruner.KeepRecent c <> 0.

(** The namespaces that the library of the DA layer accepts: version 0 with 18 zero bytes. *)
Definition namespace_v0 (b : bytes) : Prop :=
  exists data, length data = Namespaces.namespaceV0DataSize /\ b = x00 :: replicate Namespaces.namespaceV0PrefixSize x00 ++ data.

Lemma ns_bytes_v0 s : namespace_v0 (DAC.ns_bytes s).
Proof.
  unfold DAC.ns_bytes, DAC.NamespaceFromString, DAC.NewNamespaceV0.
  set (data := take _ (sha256_Sum256 s)).
  assert (Hl : length data = Namespaces.namespaceV0DataSize) by (unfold data; rewrite length_take, length_sha256; reflexivity).
  rewrite Hl. exists data. split; [done|]. simpl. by rewrite app_nil_r.
Qed.

Context (share_v0 : forall b, namespace_v0 b -> exists ns, share_NewNamespaceFromBytes b = Ok ns).

Lemma validateNamespace_exact s : validateNamespace s = Ok tt <-> s <> EmptyString.
Proof.
  unfold validateNamespace. destruct (share_v0 _ (ns_bytes_v0 (string_bytes s))) as [ns ->].
  case_bool_decide; split; done.
Qed.

Lemma RaftConfig_Validate_exact c : RaftConfig_Validate c = Ok tt <-> (rf_Enable c = true -> raft_ok c).
Proof.
  unfold RaftConfig_Validate, raft_errors, raft_ok, errors_Join.
  destruct (rf_Enable c); simpl; [|done].
  repeat case_bool_decide; destruct (Z.leb_spec (rf_SendTimeout c) 0), (Z.leb_spec (rf_HeartbeatTimeout c) 0),
    (Z.leb_spec (rf_LeaderLeaseTimeout c) 0); simpl; split; try done; try (intros Hr; destruct (Hr eq_refl) as (?&?&?&?&?&?); (done || lia)).
  all: intros _ _; split_and!; done.
Qed.

Lemma PruningConfig_Validate_exact c bt : Pruner.PruningConfig_Validate c bt = Ok tt <-> pruning_ok c bt.
Proof.
  unfold Pruner.PruningConfig_Validate, pruning_ok.
  destruct (Z.eqb_spec (Pruner.Interval c) 0), (Z.ltb_spec (Pruner.Interval c) bt), (Z.eqb_spec (Pruner.KeepRecent c) 0);
    repeat case_bool_decide; simpl; split; try tauto; try done; try (intros [?|([?|?]&?&?&?)]; (done || lia || tauto)).
Qed.

Lemma opt_namespace_exact s msg :
  (if bool_decide (s = EmptyString) then Ok tt else wrap_err msg (validateNamespace s)) = Ok tt.
Proof. case_bool_decide; [done|]. by apply wrap_err_ok, validateNamespace_exact. Qed.

Lemma validate_fields_exact c : validate_fields c = Ok tt <->
  (nd_BasedSequencer (c_Node c) = true -> nd_Aggregator (c_Node c) = true) /\
  (0 < nd_CatchupTimeout (c_Node c) -> nd_Aggregator (c_Node c) = true /\ rf_Enable (c_Raft c) = false) /\
  da_Namespace (c_DA c) <> EmptyString /\
  (nd_LazyMode (c_Node c) = true -> nd_BlockTime (c_Node c) < nd_LazyBlockInterval (c_Node c)) /\
  (rf_Enable (c_Raft c) = true -> raft_ok (c_Raft c)) /\
  pruning_ok (c_Pruning c) (nd_BlockTime (c_Node c)).
Proof.
  rewrite <- RaftConfig_Validate_exact, <- PruningConfig_Validate_exact, <- validateNamespace_exact.
  unfold validate_fields. rewrite !opt_namespace_exact. unfold GetNamespace. cbn [res_bind].
  generalize (nd_BasedSequencer (c_Node c)), (nd_Aggregator (c_Node c)), (nd_LazyMode (c_Node c)), (rf_Enable (c_Raft c)).
  intros based agg lazy raft.
  destruct (RaftConfig_Validate (c_Raft c)) as [[]|], (validateNamespace _) as [[]|],
    (Z.ltb_spec 0 (nd_CatchupTimeout (c_Node c))), (Z.leb_spec (nd_LazyBlockInterval (c_Node c)) (nd_BlockTime (c_Node c)));
    destruct based, agg, lazy, raft; simpl; (split; [intros E; try discriminate E|intros (H1&H2&H3&H4&H5&H6)]).
  all: try (split_and!; (done || lia || (intros; split_and!; (done || lia)))).
  all: try done; try (by specialize (H1 eq_refl)); try (specialize (H4 eq_refl); lia).
  all: destruct H2 as [? ?]; (done || lia).
Qed.

(** [Validate] accepts exactly the configurations whose modes fit together and whose raft and pruning parts
    are complete: a based sequencer or a catch-up needs an aggregator, a catch-up excludes raft, the lazy
    interval is longer than the block time. Of the namespaces only an empty one is refused: every string
    stands for a namespace that the DA layer accepts. *)
Theorem Validate_exact {W} `{OS W} (c : Config) (w w' : W) (r : res unit) :
  Validate c w = (w', r) ->
  r = Ok tt <->
    c_RootDir c <> EmptyString /\ (os_MkdirAll (filepath_Join (c_RootDir c) "config") w).2 = Ok tt /\
    (nd_BasedSequencer (c_Node c) = true -> nd_Aggregator (c_Node c) = true) /\
    (0 < nd_CatchupTimeout (c_Node c) -> nd_Aggregator (c_Node c) = true /\ rf_Enable (c_Raft c) = false) /\
    da_Namespace (c_DA c) <> EmptyString /\
    (nd_LazyMode (c_Node c) = true -> nd_BlockTime (c_Node c) < nd_LazyBlockInterval (c_Node c)) /\
    (rf_Enable (c_Raft c) = true -> raft_ok (c_Raft c)) /\
    pruning_ok (c_Pruning c) (nd_BlockTime (c_Node c)).
Proof.
  rewrite <- validate_fields_exact. unfold Validate. case_bool_decide as Hr; [intros [= <- <-]; split; [done|by intros (?&?)]|].
  destruct (os_MkdirAll _ w) as [w1 [[]|e]]; intros [= <- <-]; simpl; [tauto|]. split; [done|]. by intros (_ & ? & _).
Qed.


End validate.

(** ** What validation does not look at *)

(** [time.NewTicker] panics for a period that is not positive. *)
Definition NewTicker (d : Z) : res unit := if d <=? 0 then Err (EMsg "non-positive interval for NewTicker") else Ok tt.
(** The ticker of [processDAInclusionLoop]. *)
Definition inclusion_ticker (c : Config) : res unit := NewTicker (da_BlockTime (da_Batching (c_DA c))).
(** The ticker of [daSubmissionLoop]: [max(DA.BlockTime / 4, 100ms)]. *)
Definition submission_ticker (c : Config) : res unit :=
  NewTicker (Z.max (Z.quot (da_BlockTime (da_Batching (c_DA c))) 4) (100 * Millisecond)).

Definition with_DA_BlockTime (t : Z) (c : Config) : Config := {|
  c_RootDir := c_RootDir c; c_ClearCache := c_ClearCache c; c_DBPath := c_DBPath c; c_P2P := c_P2P c; c_Node := c_Node c;
  c_DA := {| da_Address := da_Address (c_DA c); da_AuthToken := da_AuthToken (c_DA c); da_SubmitOptions := da_SubmitOptions (c_DA c);
             da_SigningAddresses := da_SigningAddresses (c_DA c); da_Namespace := da_Namespace (c_DA c);
             da_DataNamespace := da_DataNamespace (c_DA c); da_ForcedInclusionNamespace := da_ForcedInclusionNamespace (c_DA c);
             da_MempoolTTL := da_MempoolTTL (c_DA c); da_MaxSubmitAttempts := da_MaxSubmitAttempts (c_DA c);
             da_RequestTimeout := da_RequestTimeout (c_DA c);
             da_Batching := {| da_BatchingStrategy := da_BatchingStrategy (da_Batching (c_DA c));
                               da_BatchSizeThreshold := da_BatchSizeThreshold (da_Batching (c_DA c));
                               da_BatchMinItems := da_BatchMinItems (da_Batching (c_DA c)); da_BlockTime := t;
                               da_BatchMaxDelay := da_BatchMaxDelay (da_Batching (c_DA c)) |} |};
  c_RPC := c_RPC c; c_Instrumentation := c_Instrumentation c; c_Log := c_Log c; c_Signer := c_Signer c; c_Raft := c_Raft c;
  c_Pruning := c_Pruning c |}.

(** Validation does not look at the block time of the DA layer: with any value that is not positive a
    configuration is as valid as before, the submission loop runs, and the inclusion loop panics. *)
Theorem DA_BlockTime_unchecked {N L PR OPT W : Type} `{API : BlobAPI N L PR OPT} `{OS W} (c : Config) (t : Z) (w : W) :
  t <= 0 ->
  Validate (with_DA_BlockTime t c) w = Validate c w /\
  submission_ticker (with_DA_BlockTime t c) = Ok tt /\
  inclusion_ticker (with_DA_BlockTime t c) = Err (EMsg "non-positive interval for NewTicker").
Proof.
  intros Ht. split_and!; [done| |].
  - unfold submission_ticker, NewTicker, Millisecond. cbn. destruct (Z.leb_spec (Z.max (t ÷ 4) (100 * 1000000)) 0); [lia|done].
  - unfold inclusion_ticker, NewTicker. cbn. by destruct (Z.leb_spec t 0); [|lia].
Qed.

(** ** The reference operating system: files in a map, a counter for random bytes *)

Module RefOS.

(** [dk_ro] makes writes fail. *)
Record disk := { dk_files : gmap string bytes; dk_seed : Z; dk_ro : bool; dk_now : Z }.
Definition set_files (f : gmap string bytes) (d : disk) : disk :=
  {| dk_files := f; dk_seed := dk_seed d; dk_ro := dk_ro d; dk_now := dk_now d |}.

#[export] Instance disk_OS : OS disk := {|
  os_MkdirAll _ d := (d, if dk_ro d then Err (EMsg "read-only file system") else Ok tt);
  os_Stat p d := match dk_files d !! p with Some _ => StatOk | None => StatNotExist end;
  os_ReadFile p d := match dk_files d !! p with Some b => Ok b | None => Err (EMsg "file does not exist") end;
  os_WriteFile p b d := if dk_ro d then (d, Err (EMsg "read-only file system")) else (set_files (<[p := b]> (dk_files d)) d, Ok tt);
  os_Remove p d := if dk_ro d then (d, Err (EMsg "read-only file system")) else (set_files (delete p (dk_files d)) d, Ok tt);
  rand_Read n d := ({| dk_files := dk_files d; dk_seed := dk_seed d + Z.of_nat n; dk_ro := dk_ro d; dk_now := dk_now d |},
                    Ok ((fun i => Z_byte (dk_seed d + Z.of_nat i)) <$> seq 0 n));
  os_Now d := Z.max 1 (dk_now d) |}.

#[export] Instance disk_laws : OSLaws disk.
Proof.
  split.
  - by intros dir name w w' r [= <- <-].
  - intros path b w w'. cbn. destruct (dk_ro w); [done|]. intros [= <-]. cbn. by rewrite lookup_insert_eq.
  - intros path b w w' r path'. unfold same_file. cbn. destruct (dk_ro w); intros [= <- <-] Hne; [done|]. cbn.
    by rewrite lookup_insert_ne by done.
  - intros path w w' r path'. unfold same_file. cbn. destruct (dk_ro w); intros [= <- <-] Hne; [done|]. cbn.
    by rewrite lookup_delete_ne by done.
  - intros n w w' b [= <- <-]. by rewrite length_fmap, length_seq.
  - by intros n w w' r path [= <- <-].
  - intros w. unfold zero_time. cbn. lia.
Qed.

End RefOS.

Module ConfigWitness.
Import RefOS.

#[local] Existing Instance DAC.DACWitness.layer_api.

Definition w_disk : disk := {| dk_files := ∅; dk_seed := 1; dk_ro := false; dk_now := 1000 |}.
Definition w_config : Config := DefaultConfig "/home/node" "abcdefghij".

Lemma layer_v0 b : namespace_v0 b -> exists ns, share_NewNamespaceFromBytes b = Ok ns.
Proof.
  intros (data & Hl & ->). exists (x00 :: replicate Namespaces.namespaceV0PrefixSize x00 ++ data). cbn.
  unfold blen. cbn. by rewrite Hl.
Defined.

Lemma Validate_exact_witness : da_Namespace (c_DA w_config) <> EmptyString.
Proof.
  exact (proj1 (proj2 (proj2 (proj2 (proj2 (proj1 (Validate_exact layer_v0 w_config w_disk w_disk (Ok tt) eq_refl) eq_refl)))))).
Defined.

Definition w_pruned : Config := {|
  c_RootDir := c_RootDir w_config; c_ClearCache := false; c_DBPath := "data"; c_P2P := c_P2P w_config; c_Node := c_Node w_config;
  c_DA := c_DA w_config; c_RPC := c_RPC w_config; c_Instrumentation := None; c_Log := c_Log w_config; c_Signer := c_Signer w_config;
  c_Raft := c_Raft w_config;
  c_Pruning := {| Pruner.Mode := "all"; Pruner.KeepRecent := 100; Pruner.Interval := 10 * Second |} |}.

Lemma DA_BlockTime_unchecked_witness : Validate (with_DA_BlockTime 0 w_config) w_disk = (w_disk, Ok tt).
Proof.
  exact (eq_trans (proj1 (DA_BlockTime_unchecked w_config 0 w_disk ltac:(discriminate))) eq_refl).
Defined.

End ConfigWitness.
End Config.
