(* ===== verification/Signer.v ===== *)
(** The signers (pkg/signer): the key file with its encryption (file/local.go), and the signer in memory
    (noop/signer.go).

    Ed25519 keys of libp2p and Argon2 are the class [KeyLib]; AES-GCM and JSON of the standard library are
    the classes [AEAD] and [KeyJSON]. Panics of the run-time and of the GCM code are error values. Wiping
    secrets from memory is modelled where a caller can see it: the passphrase it has passed is zeroed. *)

From S2P Require Import Prelude Sha256 Interfaces Types Validation Store Replay Submit Config.

Import Store.

(** ** Libraries *)

(** [K] are public keys and [S] private keys. *)
Class KeyLib (S K : Type) := {
  sk_Raw : S -> res bytes;
  sk_GetPublic : S -> K;
  sk_Sign : S -> bytes -> res bytes;
  UnmarshalEd25519PrivateKey : bytes -> res S;
  UnmarshalEd25519PublicKey : bytes -> res K;
  (** from 32 random bytes *)
  GenerateKeyPair : bytes -> res (S * K);
  (** passphrase, salt, iterations, memory, threads, length of the key *)
  argon2_IDKey : bytes -> bytes -> Z -> Z -> Z -> nat -> bytes;
}.

(** The raw form of a key is the form it is read from; the keys of a pair belong together. *)
Class KeyLibLaws (S K : Type) `{PubKeys K} `{KeyLib S K} := {
  sk_roundtrip s bz : sk_Raw s = Ok bz -> UnmarshalEd25519PrivateKey bz = Ok s;
  pk_raw_roundtrip (k : K) bz : pk_Raw k = Ok bz -> UnmarshalEd25519PublicKey bz = Ok k;
  GenerateKeyPair_public seed s k : GenerateKeyPair seed = Ok (s, k) -> k = sk_GetPublic s;
  sign_verifies s m sig : sk_Sign s m = Ok sig -> pk_Verify (sk_GetPublic s) m sig = Ok true;
  argon2_length p salt t m th n : length (argon2_IDKey p salt t m th n) = n;
}.

(** AES in the Galois counter mode: key, nonce, text. *)
Class AEAD := {
  gcm_Seal : bytes -> bytes -> bytes -> bytes;
  gcm_Open : bytes -> bytes -> bytes -> res bytes;
}.
Class AEADLaws `{AEAD} := { open_seal key nonce text : gcm_Open key nonce (gcm_Seal key nonce text) = Ok text }.

Record keyData := { PrivKeyEncrypted : bytes; Nonce : bytes; PubKeyBytes : bytes; Salt : bytes }.
Class KeyJSON := { json_Marshal : keyData -> res bytes; json_Unmarshal : bytes -> res keyData }.
Class KeyJSONLaws `{KeyJSON} := { json_roundtrip d b : json_Marshal d = Ok b -> json_Unmarshal b = Ok d }.

Module Signer.

Definition divide_panic : err := EMsg "runtime error: integer divide by zero".
Definition nonce_panic : err := EMsg "crypto/cipher: incorrect nonce length given to GCM".
Definition gcm_NonceSize : nat := 12.

Definition aes_NewCipher (key : bytes) : res bytes :=
  if bool_decide (length key ∈ [16; 24; 32]%nat) then Ok key else Err (EMsg "crypto/aes: invalid key size").
(** [gcm.Open]: a nonce of another length than the cipher's panics. *)
Definition gcm_open `{AEAD} (key nonce text : bytes) : res bytes :=
  if negb (length nonce =? gcm_NonceSize)%nat then Err nonce_panic else gcm_Open key nonce text.

Definition zeroBytes (b : bytes) : bytes := replicate (length b) x00.

Definition fallbackDeriveKey (passphrase : bytes) (keyLen : nat) : res bytes :=
  let n := length passphrase in
  if (keyLen <=? n)%nat then Ok (take keyLen passphrase)
  else if (n =? 0)%nat then Err divide_panic
  else Ok (passphrase ++ ((fun i => Z_byte (Z.lxor (byte_Z (nth (i mod n) passphrase x00)) (Z.of_nat i mod 256))) <$> seq n (keyLen - n))).

Section signer.
Context {S K W : Type} `{PK : PubKeys K} `{KL : KeyLib S K} `{AE : AEAD} `{KJ : KeyJSON} `{O : OS W}.

Definition deriveKeyArgon2 (passphrase salt : bytes) (keyLen : nat) : bytes :=
  argon2_IDKey passphrase salt 3 (32 * 1024) 4 keyLen.

(** Nil keys are [None]. *)
Record FileSystemSigner := { privateKey : option S; publicKey : option K; keyFile : string }.

Definition getAddress (pubKey : option K) : res bytes :=
  match pubKey with
  | None => Err nil_deref
  | Some pubKey => let? bz := pk_Raw pubKey in Ok (sha256_Sum256 bz)
  end.
Definition FileSystemSigner_Sign (s : FileSystemSigner) (message : bytes) : res bytes :=
  match privateKey s with None => Err (EMsg "private key not loaded") | Some k => sk_Sign k message end.
Definition FileSystemSigner_GetPublic (s : FileSystemSigner) : res K :=
  match publicKey s with None => Err (EMsg "public key not loaded") | Some k => Ok k end.
Definition FileSystemSigner_GetAddress (s : FileSystemSigner) : res bytes := getAddress (publicKey s).
(** The interface that the producer and the submitter use (signer.go). *)
Definition as_signer (s : FileSystemSigner) : Submit.signer (K := K) := {|
  Submit.Sign := FileSystemSigner_Sign s; Submit.GetPublic := FileSystemSigner_GetPublic s;
  Submit.GetAddress := FileSystemSigner_GetAddress s |}.

(** ** Writing a key *)

Definition lift {A} (r : res A) : bm W A := fun w => (w, r).

Definition mkdir (dir : string) : bm W unit := fun w =>
  let '(w, r) := os_MkdirAll dir w in (w, wrap_err "failed to create directory" r).
Definition random (msg : string) (n : nat) : bm W bytes := fun w => let '(w, r) := rand_Read n w in (w, wrap_err msg r).

(** From the salt on, as in [saveKeys] and in [ImportPrivateKey]: derive the key, seal the private key
    under a fresh nonce and write the file. *)
Definition seal_and_write (filePath : string) (passphrase salt privKeyBytes pubKeyBytes : bytes) : bm W unit :=
  let! block := lift (wrap_err "failed to create cipher" (aes_NewCipher (deriveKeyArgon2 passphrase salt 32))) in
  let! nonce := random "failed to generate nonce" gcm_NonceSize in
  let data := {| PrivKeyEncrypted := gcm_Seal block nonce privKeyBytes; Nonce := nonce; PubKeyBytes := pubKeyBytes; Salt := salt |} in
  let! jsonData := lift (wrap_err "failed to marshal key data" (json_Marshal data)) in
  fun w => let '(w, r) := os_WriteFile filePath jsonData w in (w, wrap_err "failed to write key file" r).

Definition saveKeys (s : FileSystemSigner) (passphrase : bytes) : bm W unit :=
  match privateKey s, publicKey s with
  | Some privateKey, Some publicKey =>
      let! salt := random "failed to generate salt" 16 in
      let! privKeyBytes := lift (wrap_err "failed to get raw private key" (sk_Raw privateKey)) in
      let! pubKeyBytes := lift (wrap_err "failed to get raw public key" (pk_Raw publicKey)) in
      seal_and_write (keyFile s) passphrase salt privKeyBytes pubKeyBytes
  | _, _ => bm_err (EMsg "keys not initialized")
  end.

Definition key_path (keyPath : string) : string := filepath_Join keyPath "signer.json".

(** A key file must not exist yet; a file that could not be written completely is removed. The result has
    the passphrase as the caller sees it afterwards. *)
Definition create_signer (keyPath : string) (passphrase : bytes) : bm W FileSystemSigner :=
  let filePath := key_path keyPath in
  let! _ := mkdir keyPath in
  let! _ := fun w => match os_Stat filePath w with
                     | StatOk => (w, Err (EMsg "key file already exists"))
                     | StatNotExist => (w, Ok tt)
                     | StatErr e => (w, Err (EWrap "failed to check key file status" e))
                     end in
  let! seed := random "failed to generate key pair" 32 in
  let! keys := lift (wrap_err "failed to generate key pair" (GenerateKeyPair seed)) in
  let signer := {| privateKey := Some keys.1; publicKey := Some keys.2; keyFile := filePath |} in
  fun w => match saveKeys signer passphrase w with
           | (w, Err e) => let '(w, _) := os_Remove filePath w in (w, Err (EWrap "failed to save keys" e))
           | (w, Ok _) => (w, Ok signer)
           end.
Definition CreateFileSystemSigner (keyPath : string) (passphrase : bytes) (w : W) : W * (bytes * res FileSystemSigner) :=
  let '(w, r) := create_signer keyPath passphrase w in (w, (zeroBytes passphrase, r)).

Definition import_key (keyPath : string) (privKeyBytes passphrase : bytes) : bm W unit :=
  let! _ := mkdir keyPath in
  let! privKey := lift (wrap_err "failed to unmarshal private key" (UnmarshalEd25519PrivateKey privKeyBytes)) in
  let! pubKeyBytes := lift (wrap_err "failed to get raw public key" (pk_Raw (sk_GetPublic privKey))) in
  let! salt := random "failed to generate salt" 16 in
  seal_and_write (key_path keyPath) passphrase salt privKeyBytes pubKeyBytes.
Definition ImportPrivateKey (keyPath : string) (privKeyBytes passphrase : bytes) (w : W) : W * (bytes * res unit) :=
  let '(w, r) := import_key keyPath privKeyBytes passphrase w in (w, (zeroBytes passphrase, r)).

(** ** Reading a key *)

Definition read_key_file (filePath : string) (w : W) : res keyData :=
  let? jsonData := wrap_err "failed to read key file" (os_ReadFile filePath w) in
  wrap_err "failed to unmarshal key data" (json_Unmarshal jsonData).

(** A file without a salt is of the old format. *)
Definition derive_key (data : keyData) (passphrase : bytes) : res bytes :=
  if bool_decide (Salt data = []) then fallbackDeriveKey passphrase 32 else Ok (deriveKeyArgon2 passphrase (Salt data) 32).

(** The texts of the two callers differ by the question mark. *)
Definition decrypt_key (data : keyData) (passphrase : bytes) : res bytes :=
  let? derivedKey := derive_key data passphrase in
  let? block := wrap_err "failed to create cipher" (aes_NewCipher derivedKey) in
  match gcm_open block (Nonce data) (PrivKeyEncrypted data) with
  | Ok b => Ok b
  | Err e => if bool_decide (e = nonce_panic) then Err e else Err (EWrap "failed to decrypt private key (wrong passphrase?)" e)
  end.

Definition loadKeys (filePath : string) (passphrase : bytes) (w : W) : res FileSystemSigner :=
  let? data := read_key_file filePath w in
  let? privKeyBytes := decrypt_key data passphrase in
  let? privKey := wrap_err "failed to unmarshal private key" (UnmarshalEd25519PrivateKey privKeyBytes) in
  let? pubKey := wrap_err "failed to unmarshal public key" (UnmarshalEd25519PublicKey (PubKeyBytes data)) in
  Ok {| privateKey := Some privKey; publicKey := Some pubKey; keyFile := filePath |}.

Definition LoadFileSystemSigner (keyPath : string) (passphrase : bytes) (w : W) : bytes * res FileSystemSigner :=
  let filePath := key_path keyPath in
  (zeroBytes passphrase,
   match os_Stat filePath w with
   | StatNotExist => Err (EMsg "key file not found")
   | StatErr e => Err (EWrap "failed to check key file status" e)
   | StatOk => loadKeys filePath passphrase w
   end).

Definition ExportPrivateKey (keyPath : string) (passphrase : bytes) (w : W) : bytes * res bytes :=
  (zeroBytes passphrase,
   let? data := read_key_file (key_path keyPath) w in
   decrypt_key data passphrase).

(** ** The signer in memory (noop/signer.go) *)

Record NoopSigner := { no_privKey : S; no_pubKey : K; no_address : bytes }.
Definition NewNoopSigner (privKey : S) : res NoopSigner :=
  let? address := getAddress (Some (sk_GetPublic privKey)) in
  Ok {| no_privKey := privKey; no_pubKey := sk_GetPublic privKey; no_address := address |}.
Definition noop_signer (n : NoopSigner) : Submit.signer (K := K) := {|
  Submit.Sign m := sk_Sign (no_privKey n) m; Submit.GetPublic := Ok (no_pubKey n); Submit.GetAddress := Ok (no_address n) |}.

End signer.
#[global] Arguments FileSystemSigner : clear implicits.

(** ** What a key file keeps *)

Section laws.
Context {S K W : Type} `{PK : PubKeys K} `{KL : KeyLib S K} `{KLL : !KeyLibLaws S K} `{AE : AEAD} `{AEL : !AEADLaws}.
Context `{KJ : KeyJSON} `{KJL : !KeyJSONLaws} `{O : OS W} `{OL : !OSLaws W}.

Lemma bm_bind_inv {A B} (m : bm W A) (k : A -> bm W B) w w' b :
  bm_bind m k w = (w', Ok b) -> exists w1 a, m w = (w1, Ok a) /\ k a w1 = (w', Ok b).
Proof. unfold bm_bind. destruct (m w) as [w1 [a|e]]; [|done]. intros E. by exists w1, a. Qed.

Lemma wrap_inv {A} msg (r : res A) (w w' : W) a : (w, wrap_err msg r) = (w', Ok a) -> w' = w /\ r = Ok a.
Proof. intros [= <- E]. by apply wrap_err_ok in E. Qed.

(** A key file that holds a private key under a passphrase, beside a public key. *)
Definition holds (path : string) (passphrase priv pub : bytes) (w : W) : Prop :=
  os_Stat path w = StatOk /\ exists data, read_key_file path w = Ok data /\ PubKeyBytes data = pub /\
    decrypt_key (S := S) (K := K) data passphrase = Ok priv.

Lemma holds_same path passphrase priv pub w w' : same_file path w w' -> holds path passphrase priv pub w -> holds path passphrase priv pub w'.
Proof. intros [E1 E2] (Hs & data & Hr & Hp). unfold holds, read_key_file in *. rewrite E2, E1. eauto. Qed.

Lemma seal_and_write_holds path passphrase salt priv pub w w' : salt <> [] ->
  seal_and_write (S := S) (K := K) path passphrase salt priv pub w = (w', Ok tt) -> holds path passphrase priv pub w'.
Proof.
  intros Hsalt E. unfold seal_and_write in E. apply bm_bind_inv in E as (w1 & block & [-> Eb]%wrap_inv & E).
  apply bm_bind_inv in E as (w2 & nonce & En & E). unfold random in En. destruct (rand_Read _ w) as [w3 rn] eqn:Er.
  apply wrap_inv in En as [<- ->]. apply rand_length in Er. apply bm_bind_inv in E as (w4 & js & [-> Ej]%wrap_inv & E).
  destruct (os_WriteFile path js w2) as [w5 rw] eqn:Ew. apply wrap_inv in E as [-> ->]. apply write_reads in Ew as [Erd Est].
  split; [done|]. eexists. unfold read_key_file. rewrite Erd. cbn. rewrite (json_roundtrip _ _ Ej). split; [done|]. split; [done|].
  unfold decrypt_key, derive_key. cbn. rewrite bool_decide_false by done. cbn. rewrite Eb. cbn.
  unfold gcm_open. rewrite Er, Nat.eqb_refl. cbn. by rewrite open_seal.
Qed.

Lemma load_holds keyPath passphrase priv pub (s : S) (k : K) w :
  holds (key_path keyPath) passphrase priv pub w -> UnmarshalEd25519PrivateKey priv = Ok s -> UnmarshalEd25519PublicKey pub = Ok k ->
  LoadFileSystemSigner keyPath passphrase w =
    (zeroBytes passphrase, Ok {| privateKey := Some s; publicKey := Some k; keyFile := key_path keyPath |}).
Proof.
  intros (Hs & data & Hr & <- & Hd) Es Ek. unfold LoadFileSystemSigner, loadKeys. rewrite Hs, Hr. cbn. rewrite Hd. cbn.
  rewrite Es. cbn. by rewrite Ek.
Qed.

Lemma export_holds keyPath passphrase priv pub w : holds (key_path keyPath) passphrase priv pub w ->
  ExportPrivateKey (S := S) (K := K) keyPath passphrase w = (zeroBytes passphrase, Ok priv).
Proof. intros (_ & data & Hr & _ & Hd). unfold ExportPrivateKey. rewrite Hr. cbn. by rewrite Hd. Qed.

Lemma random_inv msg n (w w' : W) b : random msg n w = (w', Ok b) -> length b = n /\ forall path, same_file path w w'.
Proof.
  unfold random. destruct (rand_Read n w) as [w1 r] eqn:Er. intros [-> ->]%wrap_inv. split; [by eapply rand_length|].
  intros path. by eapply rand_keeps.
Qed.

Lemma saveKeys_holds (sg : FileSystemSigner S K) passphrase w w' : saveKeys sg passphrase w = (w', Ok tt) ->
  exists s k priv pub, privateKey sg = Some s /\ publicKey sg = Some k /\ sk_Raw s = Ok priv /\ pk_Raw k = Ok pub /\
    holds (keyFile sg) passphrase priv pub w'.
Proof.
  unfold saveKeys. destruct (privateKey sg) as [s|]; [|done]. destruct (publicKey sg) as [k|]; [|done]. intros E.
  apply bm_bind_inv in E as (w1 & salt & [Hl _]%random_inv & E). apply bm_bind_inv in E as (w2 & priv & [-> Ep]%wrap_inv & E).
  apply bm_bind_inv in E as (w3 & pub & [-> Eq]%wrap_inv & E). exists s, k, priv, pub. split_and!; [done..|].
  eapply seal_and_write_holds; [|exact E]. by destruct salt.
Qed.

Lemma create_signer_spec keyPath passphrase w w' (sg : FileSystemSigner S K) : create_signer keyPath passphrase w = (w', Ok sg) ->
  exists s priv pub, sg = {| privateKey := Some s; publicKey := Some (sk_GetPublic s); keyFile := key_path keyPath |} /\
    sk_Raw s = Ok priv /\ pk_Raw (sk_GetPublic s) = Ok pub /\ holds (key_path keyPath) passphrase priv pub w'.
Proof.
  intros E. apply bm_bind_inv in E as (w1 & [] & _ & E). apply bm_bind_inv in E as (w2 & [] & _ & E).
  apply bm_bind_inv in E as (w3 & seed & _ & E). apply bm_bind_inv in E as (w4 & [s k] & [-> Eg]%wrap_inv & E).
  apply GenerateKeyPair_public in Eg. cbn -[saveKeys] in E. destruct (saveKeys _ passphrase w3) as [w5 [[]|e]] eqn:Es.
  2: { by destruct (os_Remove _ w5). }
  injection E as <- <-. apply saveKeys_holds in Es as (s' & k' & priv & pub & [= <-] & [= <-] & Ep & Eq & Hh). cbn in Hh.
  subst k. by exists s, priv, pub.
Qed.

(** A signer that was created is loaded from its file again, with the passphrase of its creation, whatever
    happens to other files; the exported key is its private key; what it signs verifies under its public
    key, and its address is the hash of that key. The caller's passphrases are wiped. *)
Theorem created_signer_loads (keyPath : string) (passphrase z : bytes) (w w' w2 : W) (sg : FileSystemSigner S K) :
  CreateFileSystemSigner keyPath passphrase w = (w', (z, Ok sg)) -> same_file (key_path keyPath) w' w2 ->
  z = replicate (length passphrase) x00 /\
  LoadFileSystemSigner keyPath passphrase w2 = (z, Ok sg) /\
  exists s priv pub, privateKey sg = Some s /\ sk_Raw s = Ok priv /\
    ExportPrivateKey (S := S) (K := K) keyPath passphrase w2 = (z, Ok priv) /\
    pk_Raw (sk_GetPublic s) = Ok pub /\ Submit.GetPublic (as_signer sg) = Ok (sk_GetPublic s) /\
    Submit.GetAddress (as_signer sg) = Ok (sha256_Sum256 pub) /\
    forall m sig, Submit.Sign (as_signer sg) m = Ok sig -> pk_Verify (sk_GetPublic s) m sig = Ok true.
Proof.
  unfold CreateFileSystemSigner. destruct (create_signer keyPath passphrase w) as [w1 r] eqn:Ec. intros [= -> <- ->] Hsame.
  apply create_signer_spec in Ec as (s & priv & pub & -> & Ep & Eq & Hh). apply (holds_same _ _ _ _ _ _ Hsame) in Hh.
  split; [done|]. split.
  { eapply load_holds; [exact Hh|by apply sk_roundtrip|by apply pk_raw_roundtrip]. }
  exists s, priv, pub. split_and!; [done|done| |done|done| |].
  - by apply (export_holds _ _ _ pub).
  - unfold as_signer. cbn. unfold FileSystemSigner_GetAddress. cbn. by rewrite Eq.
  - intros m sig Hs. by apply sign_verifies.
Qed.

(** An imported key is loaded as the signer of this key, and exported as it was imported. *)
Theorem imported_key_loads (keyPath : string) (privKeyBytes passphrase z : bytes) (w w' w2 : W) :
  ImportPrivateKey (S := S) (K := K) keyPath privKeyBytes passphrase w = (w', (z, Ok tt)) -> same_file (key_path keyPath) w' w2 ->
  exists s, UnmarshalEd25519PrivateKey privKeyBytes = Ok s /\
    LoadFileSystemSigner keyPath passphrase w2 =
      (z, Ok {| privateKey := Some s; publicKey := Some (sk_GetPublic s); keyFile := key_path keyPath |}) /\
    ExportPrivateKey (S := S) (K := K) keyPath passphrase w2 = (z, Ok privKeyBytes).
Proof.
  unfold ImportPrivateKey. destruct (import_key keyPath privKeyBytes passphrase w) as [w1 r] eqn:Ei. intros [= -> <- ->] Hsame.
  apply bm_bind_inv in Ei as (w3 & [] & _ & Ei). apply bm_bind_inv in Ei as (w4 & s & [-> Es]%wrap_inv & Ei).
  apply bm_bind_inv in Ei as (w5 & pub & [-> Ep]%wrap_inv & Ei). apply bm_bind_inv in Ei as (w6 & salt & [Hl _]%random_inv & Ei).
  apply seal_and_write_holds in Ei; [|by destruct salt]. apply (holds_same _ _ _ _ _ _ Hsame) in Ei. exists s. split; [done|]. split.
  - by apply (load_holds _ _ privKeyBytes pub); [|done|apply pk_raw_roundtrip].
  - by apply (export_holds _ _ _ pub).
Qed.

(** Creating a signer never touches a key file that exists. *)
Theorem create_keeps_existing (keyPath : string) (passphrase : bytes) (w w' : W) (r : bytes * res (FileSystemSigner S K)) :
  os_Stat (key_path keyPath) w = StatOk -> CreateFileSystemSigner keyPath passphrase w = (w', r) ->
  same_file (key_path keyPath) w w' /\ is_ok r.2 = false.
Proof.
  intros Hs. unfold CreateFileSystemSigner, create_signer, mkdir, bm_bind. destruct (os_MkdirAll keyPath w) as [w1 rm] eqn:Em.
  destruct (mkdir_keeps keyPath "signer.json" _ _ _ Em) as [Hr Hst]. fold (key_path keyPath) in *. destruct rm as [[]|e]; cbn.
  - rewrite Hst, Hs. intros [= <- <-]. done.
  - intros [= <- <-]. done.
Qed.

(** The public key in a key file is not protected: with another one in its place the file loads, and the
    signer has the private key of the file and the public key and the address of the other one. *)
Theorem public_key_unprotected (keyPath : string) (passphrase bz bz' : bytes) (data : keyData) (sg : FileSystemSigner S K) (k' : K) (w w' : W) :
  LoadFileSystemSigner keyPath passphrase w = (zeroBytes passphrase, Ok sg) -> read_key_file (key_path keyPath) w = Ok data ->
  pk_Raw k' = Ok bz' ->
  json_Marshal {| PrivKeyEncrypted := PrivKeyEncrypted data; Nonce := Nonce data; PubKeyBytes := bz'; Salt := Salt data |} = Ok bz ->
  os_WriteFile (key_path keyPath) bz w = (w', Ok tt) ->
  LoadFileSystemSigner keyPath passphrase w' =
    (zeroBytes passphrase, Ok {| privateKey := privateKey sg; publicKey := Some k'; keyFile := keyFile sg |}).
Proof.
  intros El Er Ek Ej Ew. apply write_reads in Ew as [Erd Est]. unfold LoadFileSystemSigner in *. rewrite Est.
  destruct (os_Stat (key_path keyPath) w); [|done..]. injection El as El. unfold loadKeys in *. rewrite Er in El. cbn in El.
  unfold read_key_file. rewrite Erd. cbn. rewrite (json_roundtrip _ _ Ej). cbn.
  unfold decrypt_key, derive_key in *. cbn. res_inv El. rewrite Hx. cbn. res_inv El. rewrite Hx0. cbn.
  rewrite (pk_raw_roundtrip _ _ Ek). cbn. res_inv El. by injection El as <-.
Qed.

(** ** Files that stop the process *)

(** A key file whose nonce does not have 12 bytes panics in the cipher, with any passphrase that gives a key;
    a file of the old format panics for an empty passphrase. *)
Theorem malformed_key_file_panics (keyPath : string) (passphrase : bytes) (data : keyData) (w : W) :
  os_Stat (key_path keyPath) w = StatOk -> read_key_file (key_path keyPath) w = Ok data ->
  (passphrase <> [] -> length (Nonce data) <> 12%nat ->
     (LoadFileSystemSigner (S := S) (K := K) keyPath passphrase w).2 = Err nonce_panic /\
     (ExportPrivateKey (S := S) (K := K) keyPath passphrase w).2 = Err nonce_panic) /\
  (passphrase = [] -> Salt data = [] ->
     (LoadFileSystemSigner (S := S) (K := K) keyPath passphrase w).2 = Err divide_panic /\
     (ExportPrivateKey (S := S) (K := K) keyPath passphrase w).2 = Err divide_panic).
Proof.
  intros Hs Hr. unfold LoadFileSystemSigner, ExportPrivateKey, loadKeys. rewrite Hs, Hr. cbn. split.
  - intros Hp Hn. assert (Hk : exists key, derive_key (S := S) (K := K) data passphrase = Ok key /\ length key = 32%nat).
    { unfold derive_key. case_bool_decide as Hsalt; [|eexists; split; [done|apply argon2_length]].
      unfold fallbackDeriveKey. destruct (Nat.leb_spec 32 (length passphrase)).
      - eexists. split; [done|]. rewrite length_take. lia.
      - destruct passphrase as [|b p]; [done|]. cbn [length Nat.eqb] in *. eexists. split; [done|].
        rewrite length_app, length_fmap, length_seq. cbn [length]. lia. }
    destruct Hk as (key & Ek & Hl). unfold decrypt_key. rewrite Ek. cbn. unfold aes_NewCipher. rewrite Hl. cbn.
    unfold gcm_open, gcm_NonceSize. rewrite (proj2 (Nat.eqb_neq _ _) Hn). done.
  - intros -> Hsalt. unfold decrypt_key, derive_key. by rewrite bool_decide_true by done.
Qed.

End laws.

(** ** Witnesses: keys are byte strings and their own public keys, the cipher puts the key in front *)

Module SignerWitness.
Import RefWire Config.RefOS.

#[export] Instance w_keylib : KeyLib bytes bytes := {|
  sk_Raw s := Ok s; sk_GetPublic s := s; sk_Sign s m := Ok (s ++ m);
  UnmarshalEd25519PrivateKey b := Ok b; UnmarshalEd25519PublicKey b := Ok b;
  GenerateKeyPair seed := Ok (seed, seed);
  argon2_IDKey p salt _ _ _ n := take n (p ++ salt ++ replicate n x00) |}.
#[export] Instance w_keylib_laws : KeyLibLaws bytes bytes.
Proof.
  split.
  - by intros s bz [= <-].
  - by intros k bz [= <-].
  - by intros seed s k [= <- <-].
  - intros s m sig [= <-]. cbn. f_equal. by apply bool_decide_eq_true.
  - intros. cbn. rewrite length_take, !length_app, length_replicate. lia.
Qed.
#[export] Instance w_aead : AEAD := {|
  gcm_Seal key nonce text := key ++ text;
  gcm_Open key nonce text := if bool_decide (take (length key) text = key) then Ok (drop (length key) text)
                             else Err (EMsg "cipher: message authentication failed") |}.
#[export] Instance w_aead_laws : AEADLaws.
Proof. split. intros key nonce text. cbn. rewrite take_app_length, drop_app_length. by rewrite bool_decide_true. Qed.

#[export] Instance keyData_eq_dec : EqDecision keyData. Proof. solve_decision. Defined.
#[export] Instance keyData_countable : Countable keyData.
Proof.
  refine (inj_countable' (fun d => (PrivKeyEncrypted d, Nonce d, PubKeyBytes d, Salt d))
    (fun '(a, b, c, e) => {| PrivKeyEncrypted := a; Nonce := b; PubKeyBytes := c; Salt := e |}) _). by intros [].
Defined.
#[export] Instance w_json : KeyJSON := {|
  json_Marshal d := Ok (RefCodec.pos_bytes (encode d));
  json_Unmarshal b := match RefCodec.bytes_pos b ≫= decode with Some d => Ok d | None => Err (EMsg "invalid character") end |}.
#[export] Instance w_json_laws : KeyJSONLaws.
Proof. split. intros d b [= <-]. cbn. rewrite RefCodec.bytes_pos_bytes. cbn. by rewrite decode_encode. Qed.

Definition empty_disk : disk := {| dk_files := ∅; dk_seed := 1; dk_ro := false; dk_now := 1000 |}.
Definition dir : string := "/home/node/config".
Definition pass : bytes := [x70; x77].

Definition created : disk := (CreateFileSystemSigner (S := bytes) (K := bytes) dir pass empty_disk).1.
Definition created_signer : FileSystemSigner bytes bytes :=
  let key := (fun i => Z_byte (1 + Z.of_nat i)) <$> seq 0 32 in
  {| privateKey := Some key; publicKey := Some key; keyFile := key_path dir |}.
Lemma created_is : CreateFileSystemSigner (S := bytes) (K := bytes) dir pass empty_disk = (created, ([x00; x00], Ok created_signer)).
Proof. vm_compute. reflexivity. Qed.
Lemma created_signer_loads_witness : LoadFileSystemSigner dir pass created = ([x00; x00], Ok created_signer).
Proof. exact (proj1 (proj2 (created_signer_loads dir pass [x00; x00] empty_disk created created created_signer created_is (conj eq_refl eq_refl)))). Defined.

Definition imported : disk := (ImportPrivateKey (S := bytes) (K := bytes) dir [x09; x08] pass created).1.
Lemma imported_is : ImportPrivateKey (S := bytes) (K := bytes) dir [x09; x08] pass created = (imported, ([x00; x00], Ok tt)).
Proof. vm_compute. reflexivity. Qed.
Lemma imported_key_loads_witness : exists s : bytes, UnmarshalEd25519PrivateKey [x09; x08] = Ok s.
Proof.
  destruct (imported_key_loads (S := bytes) (K := bytes) dir [x09; x08] pass [x00; x00] created imported imported imported_is (conj eq_refl eq_refl))
    as (s & Es & _). by exists s.
Defined.

Lemma create_keeps_existing_witness : same_file (key_path dir) created (CreateFileSystemSigner (S := bytes) (K := bytes) dir pass created).1.
Proof.
  refine (proj1 (create_keeps_existing (S := bytes) (K := bytes) dir pass created _ _ _ (surjective_pairing _))). vm_compute. reflexivity.
Defined.

Definition created_data : keyData := {|
  PrivKeyEncrypted := gcm_Seal (argon2_IDKey (S := bytes) (K := bytes) pass ((fun i => Z_byte (33 + Z.of_nat i)) <$> seq 0 16) 3 (32 * 1024) 4 32) []
    ((fun i => Z_byte (1 + Z.of_nat i)) <$> seq 0 32);
  Nonce := (fun i => Z_byte (49 + Z.of_nat i)) <$> seq 0 12;
  PubKeyBytes := (fun i => Z_byte (1 + Z.of_nat i)) <$> seq 0 32; Salt := (fun i => Z_byte (33 + Z.of_nat i)) <$> seq 0 16 |}.
Definition forged_file : bytes := RefCodec.pos_bytes (encode {|
  PrivKeyEncrypted := PrivKeyEncrypted created_data; Nonce := Nonce created_data; PubKeyBytes := [x05]; Salt := Salt created_data |}).
Definition forged : disk := (os_WriteFile (key_path dir) forged_file created).1.
Lemma public_key_unprotected_witness : LoadFileSystemSigner dir pass forged =
  (zeroBytes pass, Ok {| privateKey := privateKey created_signer; publicKey := Some [x05]; keyFile := keyFile created_signer |}).
Proof.
  refine (public_key_unprotected dir pass forged_file [x05] created_data created_signer [x05] created forged _ _ _ _ _);
    vm_compute; reflexivity.
Defined.

Definition bad_data : keyData := {| PrivKeyEncrypted := [x01]; Nonce := [x01]; PubKeyBytes := []; Salt := [] |}.
Definition bad_disk : disk := (os_WriteFile (key_path dir) (RefCodec.pos_bytes (encode bad_data)) empty_disk).1.
Lemma malformed_key_file_panics_witness : (ExportPrivateKey (S := bytes) (K := bytes) dir pass bad_disk).2 = Err nonce_panic.
Proof.
  refine (proj2 (proj1 (malformed_key_file_panics (S := bytes) (K := bytes) dir pass bad_data bad_disk _ _) _ _));
    [vm_compute; reflexivity|vm_compute; reflexivity|discriminate|discriminate].
Defined.

End SignerWitness.
End Signer.
