(* ===== verification/Setup.v ===== *)
(** Setting a node up and starting it: the genesis file (pkg/genesis/io.go), the node key
    (pkg/p2p/key/nodekey.go), the commands that create, export and import keys (pkg/cmd/init.go, keys.go) and
    initialise a node (apps/cosmos-wasm/cmd/init.go), the choice of the signer at start
    (pkg/cmd/run_node.go), and the full node around its components (node/full.go).

    JSON and YAML are classes, as in [Signer]. What the commands print is left out. *)

From S2P Require Import Prelude Sha256 Interfaces Types Validation Store Replay Submit Producer Sdk BlobClient Raft Config Signer.

Import Store Config Signer.

Record nodeKeyJSON := { nk_PrivKeyBytes : bytes; nk_PubKeyBytes : bytes }.
(** A genesis with whether its proposer address is nil. *)
Class SetupJSON := {
  genesis_Marshal : Genesis * bool -> res bytes;
  genesis_Unmarshal : bytes -> res (Genesis * bool);
  nodeKey_Marshal : nodeKeyJSON -> res bytes;
  nodeKey_Unmarshal : bytes -> res nodeKeyJSON;
  yaml_Marshal : Config -> res bytes;
}.
Class SetupJSONLaws `{SetupJSON} := {
  genesis_roundtrip g b : genesis_Marshal g = Ok b -> genesis_Unmarshal b = Ok g;
  nodeKey_roundtrip k b : nodeKey_Marshal k = Ok b -> nodeKey_Unmarshal b = Ok k;
}.

Module Setup.

Definition ErrGenesisExists : err := ESentinel "genesis file already exists".

Definition with_SignerPath (path : string) (c : Config) : Config := {|
  c_RootDir := c_RootDir c; c_ClearCache := c_ClearCache c; c_DBPath := c_DBPath c; c_P2P := c_P2P c; c_Node := c_Node c;
  c_DA := c_DA c; c_RPC := c_RPC c; c_Instrumentation := c_Instrumentation c; c_Log := c_Log c;
  c_Signer := {| sg_SignerType := sg_SignerType (c_Signer c); sg_SignerPath := path |}; c_Raft := c_Raft c; c_Pruning := c_Pruning c |}.

Section setup.
Context {S K W : Type} `{PK : PubKeys K} `{KL : KeyLib S K} `{AE : AEAD} `{KJ : KeyJSON} `{SJ : SetupJSON} `{O : OS W}.

Definition write_file (path : string) (b : bytes) : bm W unit := os_WriteFile path b.
Definition configDir (homePath : string) : string := filepath_Join homePath "config".

(** ** The genesis file *)

Definition GenesisPath (homePath : string) : string := filepath_Join (configDir homePath) "genesis.json".

Definition Genesis_Save (g : Genesis * bool) (genesisPath : string) : bm W unit :=
  let! genesisJSON := lift (wrap_err "failed to marshal genesis state" (genesis_Marshal g)) in
  bm_wrap "failed to write genesis file" (write_file genesisPath genesisJSON).

(** [proposerAddress] is [None] for nil. *)
Definition CreateGenesis (homePath chainID : string) (initialHeight : Z) (proposerAddress : option bytes) : bm W unit :=
  let! _ := fun w => match os_Stat (GenesisPath homePath) w with
                     | StatOk => (w, Err ErrGenesisExists)
                     | StatNotExist => (w, Ok tt)
                     | StatErr e => (w, Err (EWrap "failed to check for existing genesis file" e))
                     end in
  let! _ := bm_wrap "error creating config directory" (os_MkdirAll (configDir homePath)) in
  let! now := fun w => (w, Ok (os_Now w)) in
  let genesisData := NewGenesis chainID initialHeight now (default [] proposerAddress) in
  bm_wrap "error writing genesis file"
    (Genesis_Save (genesisData, bool_decide (proposerAddress = None)) (GenesisPath homePath)).

Definition LoadGenesis (genesisPath : string) (w : W) : res Genesis :=
  match os_Stat genesisPath w with
  | StatNotExist => Err (EMsg "genesis file not found at path")
  | _ =>
      let? genesisJSON := wrap_err "failed to read genesis file" (os_ReadFile genesisPath w) in
      let? g := wrap_err "invalid genesis file" (genesis_Unmarshal genesisJSON) in
      let? _ := Genesis_Validate g.2 g.1 in
      Ok g.1
  end.

(** ** The node key *)

Record NodeKey := { nk_PrivKey : S; nk_PubKey : K }.
Definition node_key_path (dirPath : string) : string := filepath_Join dirPath "node_key.json".

Definition NodeKey_MarshalJSON (k : NodeKey) : res bytes :=
  let? privBytes := wrap_err "failed to marshal private key" (sk_Raw (nk_PrivKey k)) in
  let? pubBytes := wrap_err "failed to marshal public key" (pk_Raw (nk_PubKey k)) in
  nodeKey_Marshal {| nk_PrivKeyBytes := privBytes; nk_PubKeyBytes := pubBytes |}.
Definition NodeKey_UnmarshalJSON (data : bytes) : res NodeKey :=
  let? aux := nodeKey_Unmarshal data in
  let? privKey := wrap_err "failed to unmarshal private key" (UnmarshalEd25519PrivateKey (nk_PrivKeyBytes aux)) in
  let? pubKey := wrap_err "failed to unmarshal public key" (UnmarshalEd25519PublicKey (nk_PubKeyBytes aux)) in
  Ok {| nk_PrivKey := privKey; nk_PubKey := pubKey |}.

(** [pkg/hash]: the truncation keeps all 32 bytes. *)
Definition SumTruncated (bz : bytes) : bytes := take 32 (sha256_Sum256 bz).
Definition PubKeyToID (pubKey : K) : string :=
  match pk_Raw pubKey with Ok raw => hex_encode (SumTruncated raw) | Err _ => EmptyString end.
Definition NodeKey_ID (k : NodeKey) : string := PubKeyToID (nk_PubKey k).

Definition SaveAs (k : NodeKey) (dirPath : string) : bm W unit :=
  let! jsonBytes := lift (NodeKey_MarshalJSON k) in
  let! _ := os_MkdirAll dirPath in
  write_file (node_key_path dirPath) jsonBytes.
Definition GenerateNodeKey : bm W NodeKey :=
  let! seed := rand_Read 32 in
  let! keys := lift (GenerateKeyPair seed) in
  bm_ret {| nk_PrivKey := keys.1; nk_PubKey := keys.2 |}.
Definition LoadNodeKey (dirPath : string) (w : W) : res NodeKey :=
  let? jsonBytes := wrap_err "failed to read node key file" (os_ReadFile (node_key_path dirPath) w) in
  wrap_err "failed to unmarshal node key" (NodeKey_UnmarshalJSON jsonBytes).
(** [FileExists]: any answer but that the file does not exist. *)
Definition FileExists (path : string) (w : W) : bool := match os_Stat path w with StatNotExist => false | _ => true end.
Definition LoadOrGenNodeKey (dirPath : string) : bm W NodeKey := fun w =>
  if FileExists (node_key_path dirPath) w then (w, wrap_err "failed to load node key" (LoadNodeKey dirPath w))
  else (let! nodeKey := bm_wrap "failed to generate node key" GenerateNodeKey in
        let! _ := bm_wrap "failed to save node key" (SaveAs nodeKey dirPath) in
        bm_ret nodeKey) w.

(** ** Commands *)

(** The trimmed content of a passphrase file, which must not be empty. *)
Definition read_passphrase (passphraseFile : string) (w : W) : res string :=
  let? passphraseBytes := wrap_err "failed to read passphrase from file" (os_ReadFile passphraseFile w) in
  let passphrase := Raft.TrimSpace (String.string_of_list_byte passphraseBytes) in
  if bool_decide (passphrase = EmptyString) then Err (EMsg "passphrase file is empty") else Ok passphrase.

(** The new configuration and the address, [None] for nil. *)
Definition CreateSigner (config : Config) (homePath passphrase : string) : bm W (Config * option bytes) :=
  if bool_decide (sg_SignerType (c_Signer config) = "file"%string) && nd_Aggregator (c_Node config) then
    if bool_decide (passphrase = EmptyString) then bm_err (EMsg "passphrase is required when using local file signer")
    else
      let signerDir := configDir homePath in
      let! _ := bm_wrap "failed to create signer directory" (os_MkdirAll signerDir) in
      let config := with_SignerPath signerDir config in
      let! signer := fun w => let '(w, (_, r)) := CreateFileSystemSigner (S := S) (K := K) signerDir (string_bytes passphrase) w in
                              (w, wrap_err "failed to initialize signer" r) in
      let! pubKey := lift (wrap_err "failed to get public key" (FileSystemSigner_GetPublic signer)) in
      let! bz := lift (wrap_err "failed to get public key raw bytes" (pk_Raw pubKey)) in
      bm_ret (config, Some (SumTruncated bz))
  else if negb (bool_decide (sg_SignerType (c_Signer config) = "file"%string)) && nd_Aggregator (c_Node config)
  then bm_err (EMsg "remote signer not implemented for aggregator nodes, use local signer instead")
  else bm_ret (config, None).

Definition SaveAsYaml (c : Config) : bm W unit :=
  let! _ := bm_wrap "could not create directory" (os_MkdirAll (configDir (c_RootDir c))) in
  let! data := lift (wrap_err "error marshaling YAML data" (yaml_Marshal c)) in
  write_file (ConfigPath c) data.

Context {N L PR OPT : Type} `{API : BlobAPI N L PR OPT}.

(** [InitCmd] of the cosmos-wasm app with its configuration loaded; no passphrase file is an empty name. *)
Definition InitCmd (cfg : Config) (homePath passphraseFile chainID : string) : bm W unit :=
  let! _ := bm_wrap "error validating config" (Validate cfg) in
  let! passphrase := fun w => (w, if bool_decide (passphraseFile = EmptyString) then Ok EmptyString else read_passphrase passphraseFile w) in
  let! created := CreateSigner cfg homePath passphrase in
  let! _ := bm_wrap "error writing evnode.yml file" (SaveAsYaml created.1) in
  let! _ := bm_wrap "failed to create node key" (LoadOrGenNodeKey (configDir homePath)) in
  fun w => match CreateGenesis homePath chainID 1 created.2 w with
           | (w, Ok _) => (w, Ok tt)
           | (w, Err e) =>
               if errors_is e ErrGenesisExists
               then (w, let? _ := wrap_err "error loading existing genesis file" (LoadGenesis (GenesisPath homePath) w) in Ok tt)
               else (w, Err (EWrap "error initializing genesis file" e))
           end.

(** [keys export]: the key in hexadecimal. *)
Definition exportKeyCmd (rootDir passphraseFile : string) (w : W) : res string :=
  if bool_decide (passphraseFile = EmptyString) then Err (EMsg "passphrase file is required")
  else
    let? passphrase := read_passphrase passphraseFile w in
    let? privKeyBytes := wrap_err "failed to export private key"
                           (ExportPrivateKey (S := S) (K := K) (configDir rootDir) (string_bytes passphrase) w).2 in
    Ok (hex_encode privKeyBytes).
(** [keys import] *)
Definition importKeyCmd (rootDir passphraseFile hexKey : string) (force : bool) : bm W unit := fun w =>
  if bool_decide (passphraseFile = EmptyString) then (w, Err (EMsg "passphrase file is required to encrypt the imported key"))
  else
    match read_passphrase passphraseFile w, hex_decode hexKey with
    | Err e, _ => (w, Err e)
    | Ok _, None => (w, Err (EMsg "failed to decode hex private key"))
    | Ok passphrase, Some privKeyBytes =>
        if match os_Stat (key_path (configDir rootDir)) w with StatOk => negb force | _ => false end
        then (w, Err (EMsg "key file already exists. Use --force to overwrite"))
        else let '(w, (_, r)) := ImportPrivateKey (S := S) (K := K) (configDir rootDir) privKeyBytes (string_bytes passphrase) w in
             (w, wrap_err "failed to import private key" r)
    end.

(** ** The signer of a node at its start (run_node.go) *)

(** [filepath.Abs] depends on the working directory. *)
Context (filepath_Abs : string -> res string).

Fixpoint TrimSuffix (s suffix : string) : string :=
  if bool_decide (s = suffix) then EmptyString
  else match s with EmptyString => EmptyString | String.String c s => String.String c (TrimSuffix s suffix) end.

Definition start_signer (nodeConfig : Config) (passphraseFile : string) (w : W) : res (option (FileSystemSigner S K)) :=
  let n := c_Node nodeConfig in
  let isFile := bool_decide (sg_SignerType (c_Signer nodeConfig) = "file"%string) in
  if isFile && (nd_Aggregator n && negb (nd_BasedSequencer n)) then
    if bool_decide (passphraseFile = EmptyString) then Err (EMsg "passphrase file must be provided via --evnode.signer.passphrase_file")
    else
      let? passphrase := read_passphrase passphraseFile w in
      let? signerPath := filepath_Abs (TrimSuffix (sg_SignerPath (c_Signer nodeConfig)) "signer.json") in
      let? signer := (LoadFileSystemSigner (S := S) (K := K) signerPath (string_bytes passphrase) w).2 in
      Ok (Some signer)
  else if nd_Aggregator n && negb isFile then Err (EMsg "unknown signer type")
  else Ok None.

End setup.
#[global] Arguments NodeKey : clear implicits.

(** ** Which files an operation leaves alone *)

Lemma join_inj dir a b : filepath_Join dir a = filepath_Join dir b -> a = b.
Proof.
  unfold filepath_Join. case_bool_decide; [done|]. intros E%(inj (String.append _)). by injection E as E.
Qed.

Section laws.
Context {S K W : Type} `{PK : PubKeys K} `{KL : KeyLib S K} `{KLL : !KeyLibLaws S K} `{AE : AEAD} `{AEL : !AEADLaws}.
Context `{KJ : KeyJSON} `{KJL : !KeyJSONLaws} `{SJ : SetupJSON} `{SJL : !SetupJSONLaws} `{O : OS W} `{OL : !OSLaws W}.

Lemma same_file_refl path (w : W) : same_file path w w.
Proof. done. Qed.
Lemma same_file_trans path (w1 w2 w3 : W) : same_file path w1 w2 -> same_file path w2 w3 -> same_file path w1 w3.
Proof. intros [A1 A2] [B1 B2]. split; congruence. Qed.

Definition keeps {A} (path : string) (m : bm W A) : Prop := forall w w' r, m w = (w', r) -> same_file path w w'.

Lemma keeps_file_pure {A} path (f : W -> res A) : keeps path (fun w => (w, f w)).
Proof. intros w w' r [= <- _]. done. Qed.
Lemma keeps_lift {A} path (r : res A) : keeps path (lift r).
Proof. apply (keeps_file_pure path (fun _ => r)). Qed.
Lemma keeps_ret {A} path (a : A) : keeps path (bm_ret a).
Proof. apply (keeps_file_pure path (fun _ => Ok a)). Qed.
Lemma keeps_err {A} path e : keeps path (bm_err (A := A) e).
Proof. apply (keeps_file_pure path (fun _ => Err e)). Qed.
Lemma keeps_file_bind {A B} path (m : bm W A) (k : A -> bm W B) : keeps path m -> (forall a, keeps path (k a)) -> keeps path (bm_bind m k).
Proof.
  intros Hm Hk w w' r. unfold bm_bind. destruct (m w) as [w1 [a|e]] eqn:Em.
  - intros E. eapply same_file_trans; [by eapply Hm|by eapply Hk].
  - intros [= <- _]. by eapply Hm.
Qed.
Lemma keeps_file_wrap {A} path msg (m : bm W A) : keeps path m -> keeps path (bm_wrap msg m).
Proof. intros Hm w w' r. unfold bm_wrap. destruct (m w) as [w1 x] eqn:Em. intros E. eapply Hm. rewrite Em. f_equal. by destruct x; injection E. Qed.
Lemma keeps_map {A B} path (m : bm W A) (f : res A -> res B) : keeps path m -> keeps path (fun w => let '(w, r) := m w in (w, f r)).
Proof. intros Hm w w' r. destruct (m w) as [w1 x] eqn:Em. intros [= <- _]. by eapply Hm. Qed.
Lemma keeps_write path path' b : path' <> path -> keeps path' (write_file path b).
Proof. intros Hne w w' r E. by eapply write_keeps. Qed.
Lemma keeps_mkdir dir name : keeps (filepath_Join dir name) (os_MkdirAll dir).
Proof. intros w w' r E. by eapply mkdir_keeps. Qed.
Lemma keeps_rand path n : keeps path (rand_Read n).
Proof. intros w w' r E. by eapply rand_keeps. Qed.

(** Follows the structure of an operation down to its calls. *)
Ltac keep :=
  repeat first
    [ apply keeps_file_bind; [|intros ?]
    | apply keeps_file_wrap
    | apply keeps_lift | apply keeps_ret | apply keeps_err | apply keeps_rand | apply keeps_mkdir
    | by apply keeps_write
    | match goal with |- keeps _ (fun w => let '(v, r) := ?m w in (v, @?f r)) => apply (keeps_map _ m f) end
    | match goal with |- keeps _ (fun w => (w, @?f w)) => apply (keeps_file_pure _ f) end ].

Lemma keeps_saveKeys path (sg : FileSystemSigner S K) passphrase : path <> keyFile sg -> keeps path (saveKeys sg passphrase).
Proof.
  intros Hne. unfold saveKeys, random. destruct (privateKey sg), (publicKey sg); keep.
Qed.

(** Every file of the configuration directory but the one it writes. *)
Lemma keeps_create dir name passphrase : name <> "signer.json"%string ->
  keeps (filepath_Join dir name) (create_signer (S := S) (K := K) dir passphrase).
Proof.
  intros Hne. assert (Hp : filepath_Join dir name <> key_path dir) by (by intros ?%join_inj).
  unfold create_signer, mkdir, random. keep.
  - intros w w' r. by destruct (os_Stat (key_path dir) w); intros [= <- _].
  - intros w w' r. destruct (saveKeys _ passphrase w) as [w1 x] eqn:Es. apply (keeps_saveKeys (filepath_Join dir name)) in Es; [|done].
    destruct x as [[]|e]; [by intros [= <- _]|]. destruct (os_Remove (key_path dir) w1) as [w2 y] eqn:Er. intros [= <- _].
    eapply same_file_trans; [exact Es|]. by eapply remove_keeps.
Qed.
Lemma keeps_CreateSigner cfg home name passphrase : name <> "signer.json"%string ->
  keeps (filepath_Join (configDir home) name) (CreateSigner (S := S) (K := K) cfg home passphrase).
Proof.
  intros Hne. unfold CreateSigner. destruct (_ && _); [case_bool_decide|destruct (_ && _)]; keep.
  intros w w' r. unfold CreateFileSystemSigner. destruct (create_signer _ _ w) as [w1 x] eqn:Ec. intros [= <- _].
  by eapply keeps_create.
Qed.
Lemma keeps_yaml cfg name : name <> "evnode.yaml"%string -> keeps (filepath_Join (configDir (c_RootDir cfg)) name) (SaveAsYaml cfg).
Proof. intros Hne. unfold SaveAsYaml, ConfigPath. keep. apply keeps_write. by intros ?%join_inj. Qed.
Lemma keeps_node_key dir name : name <> "node_key.json"%string -> keeps (filepath_Join dir name) (LoadOrGenNodeKey (S := S) (K := K) dir).
Proof.
  intros Hne w w' r. unfold LoadOrGenNodeKey. destruct (FileExists _ w); [by intros [= <- _]|].
  assert (Hk : keeps (filepath_Join dir name) (let! nodeKey := bm_wrap "failed to generate node key" (GenerateNodeKey (S := S) (K := K)) in
        let! _ := bm_wrap "failed to save node key" (SaveAs nodeKey dir) in bm_ret nodeKey)); [|apply Hk].
  unfold GenerateNodeKey, SaveAs. keep. apply keeps_write. by intros ?%join_inj.
Qed.
Lemma keeps_genesis home chainID h addr name : name <> "genesis.json"%string ->
  keeps (filepath_Join (configDir home) name) (CreateGenesis home chainID h addr).
Proof.
  intros Hne. unfold CreateGenesis, Genesis_Save. keep.
  - intros w w' r. by destruct (os_Stat (GenesisPath home) w); intros [= <- _].
  - apply keeps_write. by intros ?%join_inj.
Qed.

Lemma bm_wrap_inv {A} msg (m : bm W A) w w' a : bm_wrap msg m w = (w', Ok a) -> m w = (w', Ok a).
Proof. unfold bm_wrap. destruct (m w) as [w1 [x|e]]; [by intros [= <- <-]|done]. Qed.

(** *** The node key *)

(** A node keeps its key: after the first call every further one gives the same key and writes nothing. *)
Theorem node_key_stable (dirPath : string) (k : NodeKey S K) (w w' w2 : W) :
  LoadOrGenNodeKey dirPath w = (w', Ok k) -> same_file (node_key_path dirPath) w' w2 -> LoadOrGenNodeKey dirPath w2 = (w2, Ok k).
Proof.
  intros E [Er Es]. unfold LoadOrGenNodeKey in *. unfold FileExists in *. rewrite Es. unfold LoadNodeKey. rewrite Er.
  destruct (os_Stat (node_key_path dirPath) w) eqn:Est.
  1, 3: injection E as <- E; rewrite Est, <- E; done.
  apply bm_bind_inv in E as (w3 & nk & Eg%bm_wrap_inv & E). apply bm_bind_inv in E as (w4 & [] & Ea%bm_wrap_inv & [= <- <-]).
  apply bm_bind_inv in Ea as (w5 & js & [= <- Ej] & Ea). apply bm_bind_inv in Ea as (w6 & [] & _ & Ea).
  apply write_reads in Ea as [Erd Ests]. rewrite Ests, Erd. cbn. unfold NodeKey_MarshalJSON in Ej.
  res_inv Ej. res_inv Ej. apply wrap_err_ok in Hx, Hx0. unfold NodeKey_UnmarshalJSON. rewrite (nodeKey_roundtrip _ _ Ej). cbn.
  rewrite (sk_roundtrip _ _ Hx). cbn. rewrite (pk_raw_roundtrip _ _ Hx0). cbn. by destruct nk.
Qed.

(** *** Genesis *)

Lemma CreateGenesis_loads home chainID h addr w w' w2 : CreateGenesis home chainID h addr w = (w', Ok tt) ->
  same_file (GenesisPath home) w' w2 ->
  os_Stat (GenesisPath home) w = StatNotExist /\
  exists now, now <> zero_time /\
    LoadGenesis (GenesisPath home) w2 =
      let g := NewGenesis chainID h now (default [] addr) in let? _ := Genesis_Validate (bool_decide (addr = None)) g in Ok g.
Proof.
  intros E [Er Es]. unfold CreateGenesis in E. apply bm_bind_inv in E as (w1 & [] & E1 & E). split.
  { by destruct (os_Stat (GenesisPath home) w). }
  apply bm_bind_inv in E as (w3 & [] & _ & E). apply bm_bind_inv in E as (w4 & now & [= <- <-] & E%bm_wrap_inv).
  apply bm_bind_inv in E as (w5 & js & [-> Ej]%wrap_inv & E%bm_wrap_inv). apply write_reads in E as [Erd Est].
  exists (os_Now w3). split; [apply os_Now_set|]. unfold LoadGenesis. rewrite Es, Est, Er, Erd. cbn. by rewrite (genesis_roundtrip _ _ Ej).
Qed.

(** *** Setting up and starting *)

Context {N L PR OPT : Type} `{API : BlobAPI N L PR OPT}.

Lemma Validate_keeps name cfg : keeps (filepath_Join (configDir (c_RootDir cfg)) name) (Validate cfg (W := W)).
Proof.
  intros w w' r. unfold Validate. case_bool_decide; [by intros [= <- _]|].
  destruct (os_MkdirAll (filepath_Join (c_RootDir cfg) "config") w) as [w1 x] eqn:Em.
  assert (Hs : same_file (filepath_Join (configDir (c_RootDir cfg)) name) w w1) by (by eapply mkdir_keeps).
  by destruct x; intros [= <- _].
Qed.

Lemma CreateSigner_spec cfg home passphrase w w' cfg' addr :
  sg_SignerType (c_Signer cfg) = "file"%string -> nd_Aggregator (c_Node cfg) = true ->
  CreateSigner (S := S) (K := K) cfg home passphrase w = (w', Ok (cfg', addr)) ->
  cfg' = with_SignerPath (configDir home) cfg /\
  exists w1 z (sg : FileSystemSigner S K) pub, CreateFileSystemSigner (configDir home) (string_bytes passphrase) w1 = (w', (z, Ok sg)) /\
    addr = Some (sha256_Sum256 pub) /\ exists k, FileSystemSigner_GetPublic sg = Ok k /\ pk_Raw k = Ok pub.
Proof.
  intros Ht Ha. unfold CreateSigner. rewrite Ha, bool_decide_true by done. cbn. case_bool_decide; [done|]. intros E.
  apply bm_bind_inv in E as (w1 & [] & _ & E). apply bm_bind_inv in E as (w2 & sg & Es & E).
  apply bm_bind_inv in E as (w3 & k & [-> Ek]%wrap_inv & E). apply bm_bind_inv in E as (w4 & pub & [-> Ep]%wrap_inv & E).
  injection E as <- <- <-. split; [done|].
  destruct (CreateFileSystemSigner _ _ w1) as [w5 [z r]] eqn:Ec. apply wrap_inv in Es as [-> ->].
  exists w1, z, sg, pub. split; [done|]. split; [|by exists k]. f_equal. unfold SumTruncated. symmetry.
  rewrite take_ge; [done|]. by rewrite length_sha256.
Qed.

Lemma CreateSigner_root cfg home passphrase w w' cfg' addr :
  CreateSigner (S := S) (K := K) cfg home passphrase w = (w', Ok (cfg', addr)) -> c_RootDir cfg' = c_RootDir cfg.
Proof.
  unfold CreateSigner. destruct (_ && _); [case_bool_decide; [done|]|destruct (_ && _); [done|]].
  - intros Ec. do 4 apply bm_bind_inv in Ec as (? & ? & _ & Ec). by injection Ec as _ <- _.
  - by intros [= _ <- _].
Qed.

(** The operating system does not return the errors of this program. *)
Context (os_errors : forall path b (w w' : W) e, os_WriteFile path b w = (w', Err e) -> errors_is e ErrGenesisExists = false).

(** Where there is no genesis, only a genesis that was created passes as one. *)
Lemma CreateGenesis_exists home chainID h addr w w' e : os_Stat (GenesisPath home) w = StatNotExist ->
  CreateGenesis home chainID h addr w = (w', Err e) -> errors_is e ErrGenesisExists = true -> os_Stat (GenesisPath home) w' = StatNotExist.
Proof.
  intros Hs E Ee. unfold CreateGenesis, bm_bind at 1 in E. rewrite Hs in E. unfold bm_bind at 1, bm_wrap at 1 in E.
  destruct (os_MkdirAll (configDir home) w) as [w1 x] eqn:Em. destruct (mkdir_keeps _ "genesis.json" _ _ _ Em) as [_ Hm].
  fold (GenesisPath home) in Hm. destruct x as [[]|e1]; [|injection E as <- _; congruence]. cbn in E.
  unfold Genesis_Save, bm_bind, lift, bm_wrap in E. destruct (genesis_Marshal _) as [js|e1]; cbn in E.
  2: { injection E as <- _. congruence. }
  destruct (write_file (GenesisPath home) js w1) as [w2 [[]|e1]] eqn:Ew; [done|]. injection E as _ <-. cbn in Ee.
  unfold write_file in Ew. by rewrite (os_errors _ _ _ _ _ Ew) in Ee.
Qed.

(** What [InitCmd] does, step by step, when it succeeds on a directory without a genesis. *)
Lemma InitCmd_steps cfg home passFile chainID w w' : c_RootDir cfg = home -> os_Stat (GenesisPath home) w = StatNotExist ->
  InitCmd (S := S) (K := K) cfg home passFile chainID w = (w', Ok tt) ->
  exists w1 w2 passphrase created,
    Validate cfg w = (w1, Ok tt) /\ (passFile <> EmptyString -> read_passphrase passFile w1 = Ok passphrase) /\
    CreateSigner (S := S) (K := K) cfg home passphrase w1 = (w2, Ok created) /\
    same_file (key_path (configDir home)) w2 w' /\
    exists w3, CreateGenesis home chainID 1 created.2 w3 = (w', Ok tt).
Proof.
  intros Hroot Hgen E. apply bm_bind_inv in E as (w1 & [] & Ev%bm_wrap_inv & E). apply bm_bind_inv in E as (w1' & p & [= <- Ep] & E).
  apply bm_bind_inv in E as (w2 & [cfg' addr] & Ec & E). apply bm_bind_inv in E as (w3 & [] & Ey%bm_wrap_inv & E).
  apply bm_bind_inv in E as (w4 & nk & Ek%bm_wrap_inv & E). cbn [fst snd] in *. exists w1, w2, p, (cfg', addr).
  assert (Hroot' : c_RootDir cfg' = home) by (by rewrite (CreateSigner_root _ _ _ _ _ _ _ Ec)).
  assert (Hk : forall name, name <> "evnode.yaml"%string -> name <> "node_key.json"%string ->
    same_file (filepath_Join (configDir home) name) w2 w4).
  { intros name H1 H2. eapply same_file_trans; [|by eapply keeps_node_key].
    pose proof (keeps_yaml cfg' name H1) as Hy. rewrite Hroot' in Hy. by eapply Hy. }
  assert (Hg : os_Stat (GenesisPath home) w4 = StatNotExist).
  { rewrite <- Hgen. apply (same_file_trans (GenesisPath home) w w1 w4).
    - pose proof (Validate_keeps "genesis.json" cfg) as Hv. rewrite Hroot in Hv. by eapply Hv.
    - eapply same_file_trans; [by eapply (keeps_CreateSigner cfg home "genesis.json")|by apply Hk]. }
  assert (Hx : CreateGenesis home chainID 1 addr w4 = (w', Ok tt)).
  { destruct (CreateGenesis home chainID 1 addr w4) as [w5 [[]|e]] eqn:Eg; [by injection E as <-|]. exfalso.
    destruct (errors_is e ErrGenesisExists) eqn:Ee; [|done]. unfold LoadGenesis in E.
    by rewrite (CreateGenesis_exists _ _ _ _ _ _ _ Hg Eg Ee) in E. }
  split_and!; [done| |done| |by exists w4].
  - intros Hp. by rewrite bool_decide_false in Ep by done.
  - eapply same_file_trans; [by apply (Hk "signer.json"%string)|]. by eapply (keeps_genesis home chainID 1 addr "signer.json").
Qed.

Lemma Genesis_valid chainID h now addr : chainID <> EmptyString -> 1 <= h -> now <> zero_time ->
  Genesis_Validate false (NewGenesis chainID h now addr) = Ok tt.
Proof.
  intros Hc Hh Hn. unfold Genesis_Validate. cbn. rewrite bool_decide_false by done.
  destruct (Z.ltb_spec h 1); [lia|]. by rewrite (proj2 (Z.eqb_neq _ _) Hn).
Qed.

(** C35: A home directory initialised as an aggregator starts as one: with the passphrase of its creation the
    signer is loaded from the key file, the genesis loads, and the block producer accepts the pair of
    them, because the address that was put into the genesis is the address of the loaded signer. Other
    files may have changed in between. *)
Theorem initialized_node_starts (filepath_Abs : string -> res string) (cfg nodeConfig : Config)
  (home passFile chainID passphrase : string) (w w' w2 : W)
  (Hroot : c_RootDir cfg = home) (Hfile : sg_SignerType (c_Signer cfg) = "file"%string) (Hagg : nd_Aggregator (c_Node cfg) = true)
  (Hchain : chainID <> EmptyString) (Hp : passFile <> EmptyString) (Hnew : os_Stat (GenesisPath home) w = StatNotExist)
  (Hinit : InitCmd (S := S) (K := K) cfg home passFile chainID w = (w', Ok tt))
  (Hkey : same_file (key_path (configDir home)) w' w2) (Hgen : same_file (GenesisPath home) w' w2)
  (Hpass1 : read_passphrase passFile (Validate cfg w).1 = Ok passphrase) (Hpass2 : read_passphrase passFile w2 = Ok passphrase)
  (Hsg : c_Signer nodeConfig = {| sg_SignerType := "file"; sg_SignerPath := configDir home |})
  (Hmode : nd_Aggregator (c_Node nodeConfig) = true /\ nd_BasedSequencer (c_Node nodeConfig) = false)
  (Habs : filepath_Abs (TrimSuffix (configDir home) "signer.json") = Ok (configDir home)) :
  exists (sg : FileSystemSigner S K) (g : Genesis),
    start_signer filepath_Abs nodeConfig passFile w2 = Ok (Some sg) /\
    LoadGenesis (GenesisPath home) w2 = Ok g /\ g_ChainID g = chainID /\
    forall o : Producer.options K, Producer.o_signer o = Some (as_signer sg) -> Producer.o_genesis o = g ->
      Producer.NewExecutor_check o = Ok tt.
Proof.
  destruct (InitCmd_steps _ _ _ _ _ _ Hroot Hnew Hinit) as (w1 & wc & pass & [cfg' addr] & Ev & Epass & Ec & Hsame & w3 & Eg).
  rewrite Ev in Hpass1. cbn in Hpass1. rewrite (Epass Hp) in Hpass1. injection Hpass1 as ->.
  destruct (CreateSigner_spec _ _ _ _ _ _ _ Hfile Hagg Ec) as (_ & wd & z & sg & pub & Ecr & -> & k & Ek & Epub).
  destruct (created_signer_loads _ _ _ _ _ w2 _ Ecr) as (_ & El & s & priv & pub' & Es & _ & _ & Epub' & Egp & Ega & _).
  { by eapply same_file_trans. }
  cbn in Egp. rewrite Ek in Egp. injection Egp as ->. rewrite Epub in Epub'. injection Epub' as <-.
  destruct (CreateGenesis_loads _ _ _ _ _ _ _ Eg Hgen) as (_ & now & Hnow & Eload). cbn in Eload.
  rewrite Genesis_valid in Eload; [|done|lia|done]. cbn in Eload.
  eexists sg, _. split_and!; [|exact Eload|done|].
  - destruct Hmode as [Hm1 Hm2]. unfold start_signer. rewrite Hm1, Hm2, Hsg. cbn [sg_SignerType sg_SignerPath].
    rewrite bool_decide_true by done. cbn [andb negb]. rewrite bool_decide_false by done.
    rewrite Hpass2. cbn [res_bind]. rewrite Habs. cbn [res_bind]. by rewrite El.
  - intros o Eo1 Eo2. unfold Producer.NewExecutor_check. destruct (Producer.o_BasedSequencer o); [done|]. rewrite Eo1, Eo2.
    cbn in Ega |- *. rewrite Ega. cbn. unfold bytes_Equal. by rewrite bool_decide_true.
Qed.

(** A node that is initialised without a signer writes a genesis without a proposer, which no node accepts:
    it does not load, and the next initialisation fails on it. *)
Theorem full_node_genesis_unusable (cfg : Config) (home passFile chainID : string) (w w' w2 : W) :
  c_RootDir cfg = home -> nd_Aggregator (c_Node cfg) = false -> chainID <> EmptyString ->
  os_Stat (GenesisPath home) w = StatNotExist -> InitCmd (S := S) (K := K) cfg home passFile chainID w = (w', Ok tt) ->
  same_file (GenesisPath home) w' w2 ->
  LoadGenesis (GenesisPath home) w2 = Err (EMsg "proposer_address cannot be nil").
Proof.
  intros Hroot Hagg Hchain Hnew Hinit Hgen.
  destruct (InitCmd_steps _ _ _ _ _ _ Hroot Hnew Hinit) as (w1 & wc & pass & [cfg' addr] & _ & _ & Ec & _ & w3 & Eg).
  unfold CreateSigner in Ec. rewrite Hagg, !andb_false_r in Ec. injection Ec as <- <- <-.
  destruct (CreateGenesis_loads _ _ _ _ _ _ _ Eg Hgen) as (_ & now & Hnow & ->). cbn.
  unfold Genesis_Validate. cbn. rewrite bool_decide_false by done. by rewrite (proj2 (Z.eqb_neq _ _) Hnow).
Qed.

(** *** Export and import *)

(** A key that was imported is exported as the same bytes; without [--force] an import leaves the file of an
    existing key alone. *)
Theorem import_export (rootDir passFile hexKey passphrase : string) (force : bool) (w w' w2 : W) (r : res unit) :
  read_passphrase passFile w = Ok passphrase -> read_passphrase passFile w2 = Ok passphrase -> passFile <> EmptyString ->
  importKeyCmd (S := S) (K := K) rootDir passFile hexKey force w = (w', r) -> same_file (key_path (configDir rootDir)) w' w2 ->
  (r = Ok tt -> exists b, hex_decode hexKey = Some b /\ exportKeyCmd (S := S) (K := K) rootDir passFile w2 = Ok (hex_encode b)) /\
  (force = false -> os_Stat (key_path (configDir rootDir)) w = StatOk -> w' = w /\ is_ok r = false).
Proof.
  intros Hp1 Hp2 Hne E Hsame. unfold importKeyCmd in E. rewrite bool_decide_false, Hp1 in E by done. split.
  - intros ->. destruct (hex_decode hexKey) as [b|]; [|done]. exists b. split; [done|].
    destruct (match _ with StatOk => _ | _ => _ end); [done|].
    destruct (ImportPrivateKey _ b _ w) as [w1 [z x]] eqn:Ei. apply wrap_inv in E as [-> ->].
    destruct (imported_key_loads _ _ _ _ _ _ w2 Ei Hsame) as (s & _ & _ & Ex). unfold exportKeyCmd.
    rewrite bool_decide_false, Hp2 by done. cbn [res_bind]. by rewrite Ex.
  - intros -> Hs. rewrite Hs in E. cbn in E. destruct (hex_decode hexKey); injection E as <- <-; split; reflexivity.
Qed.

End laws.

(** ** Witnesses *)

Module SetupWitness.
Import RefWire Config.RefOS Signer.SignerWitness.

#[local] Existing Instance DAC.DACWitness.layer_api.

#[local] Instance genesis_eq_dec : EqDecision Genesis. Proof. solve_decision. Defined.
#[local] Instance genesis_countable : Countable Genesis.
Proof.
  refine (inj_countable' (fun g => (g_ChainID g, g_StartTime g, g_InitialHeight g, g_ProposerAddress g, g_DAStartHeight g, g_DAEpochForcedInclusion g))
    (fun '(a, b, c, d, e, f) => {| g_ChainID := a; g_StartTime := b; g_InitialHeight := c; g_ProposerAddress := d; g_DAStartHeight := e;
       g_DAEpochForcedInclusion := f |}) _). by intros [].
Defined.
#[local] Instance nodeKeyJSON_eq_dec : EqDecision nodeKeyJSON. Proof. solve_decision. Defined.
#[local] Instance nodeKeyJSON_countable : Countable nodeKeyJSON.
Proof.
  refine (inj_countable' (fun k => (nk_PrivKeyBytes k, nk_PubKeyBytes k)) (fun '(a, b) => {| nk_PrivKeyBytes := a; nk_PubKeyBytes := b |}) _).
  by intros [].
Defined.

Definition code {A} `{Countable A} (a : A) : res bytes := Ok (RefCodec.pos_bytes (encode a)).
Definition uncode {A} `{Countable A} (b : bytes) : res A :=
  match RefCodec.bytes_pos b ≫= decode with Some a => Ok a | None => Err (EMsg "invalid character") end.
Lemma uncode_code {A} `{Countable A} (a : A) b : code a = Ok b -> uncode b = Ok a.
Proof. intros [= <-]. unfold uncode. rewrite RefCodec.bytes_pos_bytes. cbn. by rewrite decode_encode. Qed.

#[local] Instance w_setup_json : SetupJSON := {|
  genesis_Marshal := code; genesis_Unmarshal := uncode; nodeKey_Marshal := code; nodeKey_Unmarshal := uncode;
  yaml_Marshal c := Ok (string_bytes (c_RootDir c)) |}.
#[local] Instance w_setup_laws : SetupJSONLaws.
Proof. split; intros; by apply uncode_code. Qed.

Lemma disk_errors path b (w w' : disk) e : os_WriteFile path b w = (w', Err e) -> errors_is e ErrGenesisExists = false.
Proof. cbn. destruct (dk_ro w); [|done]. by intros [= _ <-]. Qed.

Definition home : string := "/home/node".
Definition pass_file : string := "/run/passphrase".
(** The passphrase file ends with a line feed. *)
Definition fresh : disk := {| dk_files := {[pass_file := [x70; x77; x0a]]}; dk_seed := 1; dk_ro := false; dk_now := 1000 |}.

Definition aggregator (b : bool) : Config :=
  let c := DefaultConfig home "abcdefghij" in
  let n := c_Node c in
  {| c_RootDir := home; c_ClearCache := false; c_DBPath := "data"; c_P2P := c_P2P c;
     c_Node := {| nd_Aggregator := b; nd_BasedSequencer := false; nd_Light := false; nd_BlockTime := nd_BlockTime n;
                  nd_MaxPendingHeadersAndData := 0; nd_LazyMode := false; nd_LazyBlockInterval := nd_LazyBlockInterval n;
                  nd_ScrapeInterval := nd_ScrapeInterval n; nd_CatchupTimeout := 0; nd_ReadinessWindowSeconds := 15;
                  nd_ReadinessMaxBlocksBehind := 15 |};
     c_DA := c_DA c; c_RPC := c_RPC c; c_Instrumentation := None; c_Log := c_Log c; c_Signer := c_Signer c; c_Raft := c_Raft c;
     c_Pruning := c_Pruning c |}.

Definition inited (b : bool) : disk := (InitCmd (S := bytes) (K := bytes) (aggregator b) home pass_file "chain" fresh).1.
Lemma inited_is b : InitCmd (S := bytes) (K := bytes) (aggregator b) home pass_file "chain" fresh = (inited b, Ok tt).
Proof. destruct b; vm_compute; reflexivity. Qed.

Lemma initialized_node_starts_witness : exists sg g,
  start_signer (S := bytes) (K := bytes) Ok (with_SignerPath (configDir home) (aggregator true)) pass_file (inited true) = Ok (Some sg) /\
  LoadGenesis (GenesisPath home) (inited true) = Ok g.
Proof.
  refine (match initialized_node_starts (S := bytes) (K := bytes) disk_errors Ok (aggregator true)
      (with_SignerPath (configDir home) (aggregator true)) home pass_file "chain" "pw" fresh (inited true) (inited true)
      eq_refl eq_refl eq_refl _ _ _ (inited_is true) (conj eq_refl eq_refl) (conj eq_refl eq_refl) _ _ eq_refl (conj eq_refl eq_refl) eq_refl
    with ex_intro _ sg (ex_intro _ g (conj H1 (conj H2 _))) => ex_intro _ sg (ex_intro _ g (conj H1 H2)) end);
    (discriminate || (vm_compute; reflexivity)).
Defined.

Lemma full_node_genesis_unusable_witness : LoadGenesis (GenesisPath home) (inited false) = Err (EMsg "proposer_address cannot be nil").
Proof.
  apply (full_node_genesis_unusable (S := bytes) (K := bytes) disk_errors (aggregator false) home pass_file "chain" fresh (inited false));
    (done || apply inited_is || (vm_compute; reflexivity)).
Defined.

Definition key_made : disk := (LoadOrGenNodeKey (S := bytes) (K := bytes) (configDir home) fresh).1.
Definition made_key : NodeKey bytes bytes :=
  let k := (fun i => Z_byte (1 + Z.of_nat i)) <$> seq 0 32 in {| nk_PrivKey := k; nk_PubKey := k |}.
Lemma node_key_stable_witness : LoadOrGenNodeKey (configDir home) key_made = (key_made, Ok made_key).
Proof.
  apply (node_key_stable (configDir home) made_key fresh key_made key_made); [vm_compute; reflexivity|split; reflexivity].
Defined.

Definition key_imported : disk := (importKeyCmd (S := bytes) (K := bytes) home pass_file "0A0b" true fresh).1.
Lemma import_export_witness : exists b, hex_decode "0A0b" = Some b /\
  exportKeyCmd (S := bytes) (K := bytes) home pass_file key_imported = Ok (hex_encode b).
Proof.
  refine (proj1 (import_export (S := bytes) (K := bytes) home pass_file "0A0b" "pw" true fresh key_imported key_imported (Ok tt) _ _ _ _ _) eq_refl);
    [vm_compute; reflexivity|vm_compute; reflexivity|discriminate|vm_compute; reflexivity|split; reflexivity].
Defined.

End SetupWitness.
End Setup.
