(* ===== verification/FullNode.v ===== *)
(** The node around its components: which role a full node takes (node/node.go, node/full.go), what its run
    and the run of a mode (node/failover.go) start and stop in which order, and the light node
    (node/light.go).

    The outcomes of the parts are arguments: a run is a function from them to the sequence of starts and
    stops and to the error it returns. Timeouts of a shutdown are among the errors of its parts. *)

From S2P Require Import Prelude Replay Raft Config.

Import Config.

Module FullNode.

Definition context_Canceled : err := ESentinel "context canceled".
Definition context_DeadlineExceeded : err := ESentinel "context deadline exceeded".
Definition http_ErrServerClosed : err := ESentinel "http: Server closed".

(** ** Starts and stops *)

Inductive part := Prometheus | Pprof | P2P | RaftNode | Election | Store | Rpc | HeaderSync | DataSync | Catchup | BlockComponents.
#[export] Instance part_eq_dec : EqDecision part.
Proof. solve_decision. Defined.
Inductive event := Up (p : part) | Down (p : part).
#[export] Instance event_eq_dec : EqDecision event.
Proof. solve_decision. Defined.

(** The events of a part that may be missing. *)
Definition when {A} (o : option A) (es : list event) : list event := match o with Some _ => es | None => [] end.

(** What is still running after a sequence of events. *)
Definition after (running : list part) (e : event) : list part :=
  match e with Up p => p :: running | Down p => filter (fun q => q <> p) running end.
Definition left_running (running : list part) (es : list event) : list part := foldl after running es.

(** [if err != nil && !errors.Is(err, expected) { multiErr = errors.Join(multiErr, fmt.Errorf(msg, err)) }] *)
Definition join_unless (expected : list err) (msg : string) (r : res unit) (errs : option err) : option err :=
  match r with
  | Ok _ => errs
  | Err e => if existsb (errors_is e) expected then errs else errors_Join errs (EWrap msg e)
  end.

(** ** The role of a node *)

Inductive elector := DynamicLeaderElection | SingleLeader | SingleFollower.
(** [newFullNode] *)
Definition role (c : Config) : res elector :=
  match nd_Aggregator (c_Node c), rf_Enable (c_Raft c) with
  | true, true => Ok DynamicLeaderElection
  | true, false => Ok SingleLeader
  | false, false => Ok SingleFollower
  | false, true => Err (EMsg "raft config must be used in sequencer setup only")
  end.
Inductive node_kind := Light | Full (e : elector).
(** [NewNode] *)
Definition NewNode (c : Config) : res node_kind :=
  if nd_Light (c_Node c) then Ok Light else let? e := role c in Ok (Full e).
(** The configuration of the raft library ([initRaftNode]); no peers give no list. *)
Definition initRaftNode (c : RaftConfig) : Raft.Config := {|
  Raft.NodeID := rf_NodeID c; Raft.RaftAddr := rf_RaftAddr c; Raft.Bootstrap := rf_Bootstrap c;
  Raft.Peers := if bool_decide (rf_Peers c = EmptyString) then [] else Raft.strings_Split "," (rf_Peers c) |}.

(** ** The run of a full node *)

(** [fr_raft] is the raft node, if there is one, with the outcomes of its start and its stop. *)
Record full_outcomes := {
  fr_p2pStart : res unit; fr_raft : option (res unit * res unit); fr_election : res unit;
  fr_shutdown : part -> res unit; fr_storeClose : res unit }.

(** [startInstrumentationServer]: the servers in the order of [prometheusSrv] and [pprofSrv]. *)
Definition instrumentation_servers (c : option InstrumentationConfig) : list part :=
  match c with
  | None => []
  | Some c => (if IsPrometheusEnabled c then [Prometheus] else []) ++ (if IsPprofEnabled c then [Pprof] else [])
  end.

Definition shutdown_text (i : nat) : string :=
  match i with O => "shutting down Prometheus server" | _ => "shutting down pprof server" end.
Fixpoint shutdown_servers (i : nat) (l : list part) (o : full_outcomes) (errs : option err) : option err :=
  match l with
  | [] => errs
  | p :: l => shutdown_servers (S i) l o (join_unless [http_ErrServerClosed] (shutdown_text i) (fr_shutdown o p) errs)
  end.

(** The starts and stops of a run up to the closing of the store. *)
Definition run_events (servers : list part) (raft : option (res unit)) : list event :=
  (Up <$> servers) ++ [Up P2P] ++ when raft [Up RaftNode] ++ [Up Election; Down Election] ++ when raft [Down RaftNode] ++ (Down <$> servers).

(** The error of the election if it is not the cancellation, then those of the shutdown, then the context's. *)
Definition run_result (election : res unit) (errs : option err) : res unit :=
  let shutdown := match errs with Some e => Err e | None => Err context_Canceled end in
  match election with
  | Err e => if errors_is e context_Canceled then shutdown else Err e
  | Ok _ => shutdown
  end.

Definition FullNode_Run (c : Config) (o : full_outcomes) : list event * res unit :=
  let servers := instrumentation_servers (c_Instrumentation c) in
  let up := Up <$> servers in
  match fr_p2pStart o with
  | Err e => (up, Err (EWrap "start p2p" e))
  | Ok _ =>
      match fr_raft o with
      | Some (Err e, _) => (up ++ [Up P2P; Down P2P], Err (EWrap "error while starting leader election" e))
      | raft =>
          let raft := match raft with Some (_, stop) => Some stop | None => None end in
          let errs := match raft with Some r => join_unless [context_Canceled] "stopping leader election" r None | None => None end in
          let errs := shutdown_servers 0 servers o errs in
          let errs := join_unless [] "closing store" (fr_storeClose o) errs in
          (run_events servers raft ++ [Down Store; Down P2P],
           run_result (fr_election o) errs)
      end
  end.

(** ** The run of a mode *)

(** The RPC server runs until it is shut down, or ends by itself, before or after the components start. *)
Inductive rpc_end := RpcServes | RpcFails (e : err) (before : bool).
Record mode_outcomes := {
  mo_header : res unit; mo_data : res unit; mo_headerFirst : bool;
  mo_catchup : option (res unit); mo_rpc : rpc_end; mo_start : res unit; mo_stop : res unit; mo_stopFirst : bool;
  mo_headerStop : res unit; mo_dataStop : res unit }.

(** The error of an error group: the first one. *)
Definition first_err (first : bool) (a b : option err) : option err :=
  match a, b with
  | Some a, Some b => Some (if first then a else b)
  | Some a, None => Some a
  | None, b => b
  end.
Definition to_err (msg : string) (r : res unit) : option err := match r with Ok _ => None | Err e => Some (EWrap msg e) end.
Definition to_res (e : option err) : res unit := match e with None => Ok tt | Some e => Err e end.

(** Starting the components and waiting for both goroutines. *)
Definition run_components (o : mode_outcomes) : list event * option err :=
  let stop := join_unless [context_Canceled] "stopping block components" (mo_stop o) in
  let start := match mo_start o with
               | Err e => if errors_is e context_Canceled then None else Some (EWrap "components started with error" e)
               | Ok _ => None
               end in
  match mo_rpc o with
  | RpcServes => ([Up BlockComponents; Down Rpc; Down BlockComponents], first_err (mo_stopFirst o) (stop None) start)
  | RpcFails e before =>
      ((if before then [Down Rpc; Down BlockComponents; Up BlockComponents] else [Up BlockComponents; Down Rpc; Down BlockComponents]),
       first_err true (stop (Some e)) start)
  end.

(** If the RPC server has ended by itself when the run is given up, it has stopped the components. *)
Definition rpc_given_up (o : mode_outcomes) : list event :=
  match mo_rpc o with RpcServes => [] | RpcFails _ _ => [Down Rpc; Down BlockComponents] end.

Definition stop_services (o : mode_outcomes) (errs : option err) : option err :=
  join_unless [context_Canceled] "stopping header sync" (mo_headerStop o)
    (join_unless [context_Canceled] "stopping data sync" (mo_dataStop o) errs).

Definition failover_Run (o : mode_outcomes) : list event * res unit :=
  let up := [Up Rpc] ++ (if is_ok (mo_header o) then [Up HeaderSync] else []) ++ (if is_ok (mo_data o) then [Up DataSync] else []) in
  match first_err (mo_headerFirst o) (to_err "header sync service" (mo_header o)) (to_err "data sync service" (mo_data o)) with
  | Some e => (up ++ rpc_given_up o, Err e)
  | None =>
      let stop := [Down DataSync; Down HeaderSync] in
      match mo_catchup o with
      | Some (Err e) => (up ++ [Up Catchup; Down Catchup] ++ rpc_given_up o ++ stop, to_res (stop_services o (Some e)))
      | catchup =>
          let '(es, err) := run_components o in
          (up ++ when catchup [Up Catchup; Down Catchup] ++ es ++ stop, to_res (stop_services o err))
      end
  end.

(** ** The run of a light node *)

Record light_outcomes := {
  lo_p2pStart : res unit; lo_syncStart : res unit; lo_syncStop : res unit; lo_rpcShutdown : res unit; lo_p2pClose : res unit;
  lo_storeClose : res unit }.
(** When all is stopped the context is cancelled, and the run returns its error and not those of the stops. *)
Definition LightNode_Run (o : light_outcomes) : list event * res unit :=
  match lo_p2pStart o with
  | Err e => ([Up Rpc], Err (EWrap "error while starting P2P client" e))
  | Ok _ =>
      match lo_syncStart o with
      | Err e => ([Up Rpc; Up P2P], Err (EWrap "error while starting header sync service" e))
      | Ok _ => ([Up Rpc; Up P2P; Up HeaderSync; Down HeaderSync; Down Rpc; Down P2P; Down Store], Err context_Canceled)
      end
  end.

(** ** What the runs promise *)

(** A node has exactly one of four roles, and a validated configuration of an aggregator always has one; raft
    without an aggregator is refused here and not by the validation. *)
Lemma role_validated c : nd_Aggregator (c_Node c) = true -> is_ok (role c) = true.
Proof. intros Ha. unfold role. rewrite Ha. by destruct (rf_Enable _). Qed.

Lemma instrumentation_cases c : In (instrumentation_servers c) [[]; [Prometheus]; [Pprof]; [Prometheus; Pprof]].
Proof.
  destruct c as [c|]; [|by left]. unfold instrumentation_servers. destruct (IsPrometheusEnabled c), (IsPprofEnabled c); simpl; tauto.
Qed.

Lemma run_events_left c raft : left_running [Store] (run_events (instrumentation_servers c) raft ++ [Down Store; Down P2P]) = [].
Proof. destruct (instrumentation_cases c) as [<-|[<-|[<-|[<-|[]]]]]; destruct raft; reflexivity. Qed.
Lemma run_events_store c raft : Down Store ∉ run_events (instrumentation_servers c) raft.
Proof. destruct (instrumentation_cases c) as [<-|[<-|[<-|[<-|[]]]]]; destruct raft; apply (bool_decide_eq_true _); reflexivity. Qed.

Lemma shutdown_servers_ok i l o errs : (forall p, fr_shutdown o p = Ok tt) -> shutdown_servers i l o errs = errs.
Proof. intros Hs. revert i. induction l as [|p l IH]; intros i; [done|]. cbn. by rewrite Hs, IH. Qed.

Lemma run_result_spec election errs (P Q R : Prop) : (P -> Q -> R -> errs = None) ->
  exists e, run_result election errs = Err e /\
    match election with
    | Err ee => (errors_is ee context_Canceled = false -> e = ee)
    | Ok _ => (P -> Q -> R -> e = context_Canceled)
    end.
Proof.
  intros Herr. unfold run_result. destruct election as [[]|ee].
  - destruct errs as [e|]; [|by exists context_Canceled]. exists e. split; [done|]. intros p q r. by specialize (Herr p q r).
  - destruct (errors_is ee context_Canceled); [|by exists ee]. destruct errs as [e|]; by eexists.
Qed.

(** A full node that has started its P2P client and its raft node stops everything it has started, the store
    after all but the P2P client, whatever the parts answer; it never returns without an error, and the
    error is the election's if it failed, else those of the shutdown, else the cancellation. One that
    could not start them leaves the servers for metrics running and the store open. *)
Theorem FullNode_Run_outcome (c : Config) (o : full_outcomes) :
  let '(es, r) := FullNode_Run c o in
  match fr_p2pStart o, fr_raft o with
  | Ok _, (None | Some (Ok _, _)) =>
      left_running [Store] es = [] /\ (exists es', es = es' ++ [Down Store; Down P2P] /\ Down Store ∉ es') /\
      exists e, r = Err e /\
        match fr_election o with
        | Err ee => (errors_is ee context_Canceled = false -> e = ee)
        | Ok _ => (fr_storeClose o = Ok tt -> (forall p, fr_shutdown o p = Ok tt) ->
                   (forall a b, fr_raft o = Some (a, b) -> b = Ok tt) -> e = context_Canceled)
        end
  | _, _ =>
      is_ok r = false /\ left_running [Store] es = rev (instrumentation_servers (c_Instrumentation c)) ++ [Store]
  end.
Proof.
  unfold FullNode_Run. destruct (fr_p2pStart o) as [[]|e].
  2: { split; [done|]. destruct (instrumentation_cases (c_Instrumentation c)) as [<-|[<-|[<-|[<-|[]]]]]; reflexivity. }
  destruct (fr_raft o) as [[[[]|e] stop]|].
  2: { split; [done|]. destruct (instrumentation_cases (c_Instrumentation c)) as [<-|[<-|[<-|[<-|[]]]]]; reflexivity. }
  - split; [apply run_events_left|]. split; [eexists; split; [reflexivity|apply run_events_store]|].
    apply run_result_spec. intros -> Hs Hr. rewrite (Hr _ _ eq_refl). cbn. by rewrite shutdown_servers_ok.
  - split; [apply run_events_left|]. split; [eexists; split; [reflexivity|apply run_events_store]|].
    apply run_result_spec. intros -> Hs _. cbn. by rewrite shutdown_servers_ok.
Qed.

(** A mode that has started both sync services, and caught up if it has to, stops everything it has started,
    unless the RPC server ends before the components start, which then are not stopped. One that gives up
    earlier leaves the RPC server running, and of the sync services the one that did start. *)
Theorem failover_Run_leftovers (o : mode_outcomes) :
  let '(es, r) := failover_Run o in
  let rpc := match mo_rpc o with RpcServes => [Rpc] | RpcFails _ _ => [] end in
  left_running [] es =
    match mo_header o, mo_data o, mo_catchup o with
    | Ok _, Ok _, Some (Err _) => rpc
    | Ok _, Ok _, _ => match mo_rpc o with RpcFails _ true => [BlockComponents] | _ => [] end
    | Ok _, Err _, _ => HeaderSync :: rpc
    | Err _, Ok _, _ => DataSync :: rpc
    | Err _, Err _, _ => rpc
    end.
Proof.
  unfold failover_Run, run_components, rpc_given_up.
  destruct (mo_header o) as [[]|e1], (mo_data o) as [[]|e2], (mo_catchup o) as [[[]|e3]|], (mo_rpc o) as [|e4 []], (mo_headerFirst o);
    reflexivity.
Qed.

(** A mode whose run succeeds has had no error of any part but cancellations. *)
Theorem failover_Run_ok (o : mode_outcomes) : (failover_Run o).2 = Ok tt ->
  mo_header o = Ok tt /\ mo_data o = Ok tt /\ (forall e, mo_catchup o <> Some (Err e)) /\ mo_rpc o = RpcServes /\
  forall e, mo_start o = Err e \/ mo_stop o = Err e \/ mo_headerStop o = Err e \/ mo_dataStop o = Err e -> errors_is e context_Canceled = true.
Proof.
  assert (Hj : forall msg r errs, join_unless [context_Canceled] msg r errs = None ->
    errs = None /\ forall e, r = Err e -> errors_is e context_Canceled = true).
  { intros msg [[]|e] errs; cbn; [done|]. rewrite orb_false_r. destruct (errors_is e context_Canceled) eqn:Ee; [|done].
    intros ->. split; [done|]. by intros e' [= <-]. }
  assert (Hr : forall e, to_res e = Ok tt -> e = None) by (by intros [e|]).
  unfold failover_Run. destruct (mo_header o) as [[]|e1], (mo_data o) as [[]|e2]; try done.
  cbn [first_err to_err]. unfold run_components.
  destruct (mo_catchup o) as [[[]|e3]|]; destruct (mo_rpc o) as [|e4 b]; cbn -[join_unless stop_services]; intros E; apply Hr in E;
    unfold stop_services in E; apply Hj in E as [E Hh]; apply Hj in E as [E Hd]; try done.
  all: try (by destruct (join_unless _ _ (mo_stop o) (Some e4)) as [x|] eqn:Ej; [destruct (mo_start o) as [[]|es];
    [|destruct (errors_is es context_Canceled)]|apply Hj in Ej as [? _]]).
  all: destruct (join_unless _ _ (mo_stop o) None) as [x|] eqn:Ej;
    [destruct (mo_start o) as [[]|es]; [done|destruct (errors_is es context_Canceled); done]|]; apply Hj in Ej as [_ Hs];
    split_and!; [done..|]; intros e [H|[H|[H|H]]]; auto; rewrite H in E; destruct (errors_is e context_Canceled); done.
Qed.

(** A light node that could not start leaves its RPC server running and its store open; otherwise it stops
    everything, and the errors of the stops are not returned. *)
Theorem LightNode_Run_leftovers (o : light_outcomes) :
  left_running [Store] (LightNode_Run o).1 =
    match lo_p2pStart o, lo_syncStart o with
    | Ok _, Ok _ => []
    | Err _, _ => [Rpc; Store]
    | Ok _, Err _ => [P2P; Rpc; Store]
    end /\ is_ok (LightNode_Run o).2 = false.
Proof. unfold LightNode_Run. destruct (lo_p2pStart o) as [[]|], (lo_syncStart o) as [[]|]; done. Qed.

Module FullNodeWitness.

Definition good : mode_outcomes := {|
  mo_header := Ok tt; mo_data := Ok tt; mo_headerFirst := true; mo_catchup := None; mo_rpc := RpcServes;
  mo_start := Err context_Canceled; mo_stop := Ok tt; mo_stopFirst := true; mo_headerStop := Ok tt; mo_dataStop := Ok tt |}.
Lemma failover_Run_ok_witness : mo_rpc good = RpcServes.
Proof. exact (proj1 (proj2 (proj2 (proj2 (failover_Run_ok good eq_refl))))). Defined.

End FullNodeWitness.
End FullNode.
