(* ===== verification/RpcServer.v ===== *)
(** The RPC server of a node (pkg/rpc/server): the store, P2P and configuration services (server.go), the
    health endpoints (http.go) and the dashboard of DA submissions (da_visualization.go).

    A handler is a function of the state it serves and of its request; an answer is a message or an error
    with its code. HTTP, JSON and the templates are left out. *)

From Stdlib Require Import SpecFloat.
From S2P Require Import Prelude Sha256 Interfaces Types Validation Store Replay ForcedInclusion BatchingStrategy Sdk BlobClient DARetriever.
From S2P Require Import StoreAdapter Raft Config.

Import Store Config.

Module RpcServer.

(** ** Answers *)

Inductive Code := CodeInternal | CodeNotFound | CodeInvalidArgument | CodeUnavailable.
Inductive answer (A : Type) := Answer (a : A) | Refuse (c : Code) (e : err).
Arguments Answer {A} a.
Arguments Refuse {A} c e.

Record pb_GetBlockResponse := {
  gb_Header : pb_SignedHeader; gb_Data : pb_Data; gb_HeaderDaHeight : Z; gb_DataDaHeight : Z }.
Record pb_P2PStoreEntry := { pe_Height : Z; pe_Hash : bytes; pe_Time : option Z }.
Record pb_P2PStoreSnapshot := {
  pp_Label : string; pp_Height : Z; pp_Head : option pb_P2PStoreEntry; pp_Tail : option pb_P2PStoreEntry }.

Inductive identifier := ByHeight (height : Z) | ByHash (hash : bytes) | NoIdentifier.

(** ** The store service *)

Section store.
Context {D K : Type} `{Datastore D} `{PubKeys K} `{Protowire} `{HashString}.
Context `{ProtoCodec pb_SignedHeader} `{ProtoCodec pb_Data} `{ProtoCodec pb_State}.

Definition GetMetadata_rpc (s : D) (key : string) : answer bytes :=
  match GetMetadata s key with Ok value => Answer value | Err e => Refuse CodeNotFound e end.

(** A DA height that is missing, malformed or cannot be read is zero in the answer. *)
Definition da_height (s : D) (key : string) : Z :=
  match GetMetadata s key with Ok b => if blen b =? 8 then Uint64_LE b else 0 | Err _ => 0 end.

Definition block_response (s : D) (header : SignedHeader K) (data : Data) : answer pb_GetBlockResponse :=
  match SignedHeader_ToProto header with
  | Err e => Refuse CodeInternal (EWrap "failed to convert block header to proto format" e)
  | Ok pbHeader =>
      let blockHeight := hd_Height (sh_Header header) in
      let da key := if 0 <? blockHeight then da_height s key else 0 in
      Answer {| gb_Header := pbHeader; gb_Data := Data_ToProto data; gb_HeaderDaHeight := da (GetHeightToDAHeightHeaderKey blockHeight);
                gb_DataDaHeight := da (GetHeightToDAHeightDataKey blockHeight) |}
  end.

Definition retrieved (s : D) (r : res (SignedHeader K * Data)) : answer pb_GetBlockResponse :=
  match r with
  | Err e => Refuse CodeInternal (EWrap "failed to retrieve block data" e)
  | Ok (header, data) => block_response s header data
  end.

(** Height 0 asks for the latest block. *)
Definition GetBlock (s : D) (id : identifier) : answer pb_GetBlockResponse :=
  match id with
  | ByHeight height =>
      if height =? 0 then
        match Height s with
        | Err e => Refuse CodeInternal (EWrap "failed to get latest height" e)
        | Ok fetchHeight =>
            if fetchHeight =? 0 then Refuse CodeNotFound (EMsg "store is empty, no latest block available")
            else retrieved s (GetBlockData s fetchHeight)
        end
      else retrieved s (GetBlockData s height)
  | ByHash hash => retrieved s (GetBlockByHash s hash)
  | NoIdentifier => Refuse CodeInvalidArgument (EMsg "invalid or unsupported identifier type provided")
  end.

(** The state in the answer is built field by field. *)
Definition GetState_rpc (s : D) : answer pb_State :=
  match GetState s with
  | Err e => Refuse CodeNotFound e
  | Ok state =>
      let p := State_ToProto state in
      Answer {| pst_Version := pst_Version p; pst_ChainId := pst_ChainId p; pst_InitialHeight := pst_InitialHeight p;
                pst_LastBlockHeight := pst_LastBlockHeight p; pst_LastBlockTime := pst_LastBlockTime p; pst_DaHeight := pst_DaHeight p;
                pst_AppHash := pst_AppHash p; pst_LastHeaderHash := [] |}
  end.

Definition GetGenesisDaHeight (s : D) : answer Z :=
  match GetMetadata_rpc s GenesisDAHeightKey with
  | Refuse c e => Refuse c e
  | Answer value => if blen value =? 8 then Answer (Uint64_LE value) else Refuse CodeNotFound (EMsg "invalid metadata value")
  end.

End store.

(** ** The P2P stores *)

Section p2p_stores.
Context {D H : Type} `{EN : Entity H} `{SG : StoreGetter D H} `{DS : Datastore D}.
(** [Time()] of an item; a zero time is left out of the answer. *)
Context (ent_Time : H -> Z).

Definition toP2PStoreEntry (item : H) : pb_P2PStoreEntry := {|
  pe_Height := ent_Height item; pe_Hash := ent_Hash item;
  pe_Time := if ent_Time item =? zero_time then None else Some (ent_Time item) |}.

(** An empty store has no entries; any other error is the answer's. *)
Definition entry_of (msg : string) (r : res H) : res (option pb_P2PStoreEntry) :=
  match r with
  | Ok item => Ok (Some (toP2PStoreEntry item))
  | Err e => if errors_is e Adapter.ErrEmptyStore || errors_is e Adapter.ErrNotFoundHeader then Ok None else Err (EWrap msg e)
  end.

Definition collectP2PStoreSnapshot (label : string) (a : Adapter.StoreAdapter D H) : Adapter.StoreAdapter D H * res pb_P2PStoreSnapshot :=
  let '(a, height) := Adapter.a_Height a in
  let '(a, head) := Adapter.Head a in
  (a, let? head := entry_of "failed to read head" head in
      let? tail := entry_of "failed to read tail" (Adapter.Tail a) in
      Ok {| pp_Label := label; pp_Height := height; pp_Head := head; pp_Tail := tail |}).

End p2p_stores.

(** The two stores, either of which may be missing. *)
Definition GetP2PStoreInfo {A B : Type} (header : option (A * (A -> A * res pb_P2PStoreSnapshot)))
  (data : option (B * (B -> B * res pb_P2PStoreSnapshot))) : answer (list pb_P2PStoreSnapshot) :=
  let collect {X} (x : option (X * (X -> X * res pb_P2PStoreSnapshot))) : res (list pb_P2PStoreSnapshot) :=
    match x with None => Ok [] | Some (st, f) => let? snapshot := (f st).2 in Ok [snapshot] end in
  match collect header with
  | Err e => Refuse CodeInternal e
  | Ok l => match collect data with Err e => Refuse CodeInternal e | Ok l' => Answer (l ++ l') end
  end.

(** ** The configuration and P2P services *)

(** [HexString] of a namespace *)
Definition HexString (b : bytes) : string := String.append "0x" (hex_encode b).
Definition GetNamespace_rpc (c : Config) : string * string :=
  (HexString (DAC.ns_bytes (string_bytes (GetNamespace (c_DA c)))), HexString (DAC.ns_bytes (string_bytes (GetDataNamespace (c_DA c))))).
(** The address of the proposer; [None] is nil. *)
Definition GetSignerInfo (signer : option bytes) : answer bytes :=
  match signer with None => Refuse CodeUnavailable (EMsg "sequencer signer not available") | Some a => Answer a end.

Record peer := { pr_ID : string; pr_Address : string }.
(** The P2P client: its identifier and listen addresses, and its peers. *)
Record P2PRPC := { pm_NetworkInfo : res (string * list string); pm_Peers : res (list peer) }.

Definition GetPeerInfo (pm : P2PRPC) : answer (list peer) :=
  match pm_Peers pm with Ok peers => Answer peers | Err e => Refuse CodeInternal (EWrap "failed to get peer info" e) end.
Definition GetNetInfo (pm : P2PRPC) : answer (string * list string) :=
  match pm_NetworkInfo pm with Ok i => Answer i | Err e => Refuse CodeInternal (EWrap "failed to get network info" e) end.

(** ** Health (http.go) *)

Inductive http := HttpOK (body : string) | HttpError (status : Z) (body : string).

Definition live (height : res Z) : http := if is_ok height then HttpOK "OK" else HttpError 503 "FAIL".

Definition unready (why : string) : http := HttpError 503 (String.append "UNREADY: " why).

(** The checks of the P2P client, if there is one. *)
Definition p2p_check (pm : option P2PRPC) (aggregator : bool) : option string :=
  match pm with
  | None => None
  | Some pm =>
      match pm_NetworkInfo pm with
      | Err _ => Some "failed to query P2P network info"%string
      | Ok (_, listen) =>
          if bool_decide (listen = []) then Some "P2P not listening for connections"%string
          else if aggregator then None
          else match pm_Peers pm with
               | Err _ => Some "failed to query peers"%string
               | Ok peers => if bool_decide (peers = []) then Some "no peers connected"%string else None
               end
      end
  end.

(** [time.Since]: the difference of two times, at most the largest duration. *)
Definition time_Since (now t : Z) : Z := Z.max (- two63) (Z.min (two63 - 1) (now - t)).
Definition maxAllowedDelay (n : NodeConfig) : Z :=
  if nd_LazyMode n then i64 (2 * nd_LazyBlockInterval n) else i64 (5 * nd_BlockTime n).

Definition ready (pm : option P2PRPC) (n : NodeConfig) (state : res State) (bestKnown : option Z) (now : Z) : http :=
  match p2p_check pm (nd_Aggregator n) with
  | Some why => unready why
  | None =>
      match state with
      | Err _ => unready "state unavailable"
      | Ok state =>
          let localHeight := LastBlockHeight state in
          if localHeight =? 0 then unready "no blocks yet"
          else if nd_Aggregator n && (maxAllowedDelay n <? time_Since now (LastBlockTime state))
          then unready "aggregator not producing blocks at expected rate"
          else match bestKnown with
               | None => unready "best-known height unavailable"
               | Some bestKnownHeight =>
                   if bestKnownHeight =? 0 then unready "best-known height unknown"
                   else if bestKnownHeight <=? localHeight then HttpOK "READY"
                   else if nd_ReadinessMaxBlocksBehind n <? bestKnownHeight -u localHeight then unready "behind best-known head"
                   else HttpOK "READY"
               end
      end
  end.

(** [/raft/node]: the interface holds a pointer to a raft node that is nil when raft is off, so that the
    comparison of the interface with nil is always false. *)
Inductive raft_reply := MethodNotAllowed | RaftInfo (is_leader : bool) (node_id : string).
Definition raft_endpoint (get : bool) (raftNode : option (bool * string)) : res raft_reply :=
  if negb get then Ok MethodNotAllowed
  else
    let isLeader := Raft.IsLeader (fst <$> raftNode) in
    match raftNode with
    | None => Err nil_deref
    | Some (_, nodeID) => Ok (RaftInfo isLeader nodeID)
    end.

(** ** The dashboard of DA submissions (da_visualization.go) *)

Record DASubmissionInfo := {
  sb_ID : string; sb_Height : Z; sb_BlobSize : Z; sb_Timestamp : Z; sb_GasPrice : Strategy.float64; sb_StatusCode : string; sb_Message : string;
  sb_NumBlobs : Z; sb_BlobIDs : list string; sb_Namespace : string }.
Record DAVisualizationServer := { submissions : list DASubmissionInfo; isAggregator : bool; has_da : bool }.
Definition NewDAVisualizationServer (has_da isAggregator : bool) : DAVisualizationServer :=
  {| submissions := []; isAggregator := isAggregator; has_da := has_da |}.

Definition getStatusCodeString (code : DA.StatusCode) : string :=
  match code with
  | DA.StatusSuccess => "Success" | DA.StatusNotFound => "Not Found" | DA.StatusNotIncludedInBlock => "Not Included In Block"
  | DA.StatusAlreadyInMempool => "Already In Mempool" | DA.StatusTooBig => "Too Big" | DA.StatusContextDeadline => "Context Deadline"
  | DA.StatusError => "Error" | DA.StatusIncorrectAccountSequence => "Incorrect Account Sequence"
  | DA.StatusContextCanceled => "Context Canceled" | DA.StatusHeightFromFuture => "Height From Future" | DA.StatusUnknown => "Unknown"
  end.

(** The result of a submission; its timestamp is zero where the code has not set it. [id] is the text made
    of the height and the clock. *)
Definition submission_of (result : DAC.BaseResult) (id : string) (gasPrice : Strategy.float64) (numBlobs : Z) (namespace : bytes) : DASubmissionInfo := {|
  sb_ID := id; sb_Height := DAC.Height result; sb_BlobSize := DAC.BlobSize result; sb_Timestamp := default zero_time (DAC.Timestamp result);
  sb_GasPrice := gasPrice; sb_StatusCode := getStatusCodeString (DAC.Code result); sb_Message := DAC.Message result;
  sb_NumBlobs := numBlobs; sb_BlobIDs := hex_encode <$> DAC.IDs result; sb_Namespace := hex_encode namespace |}.

Definition record (submission : DASubmissionInfo) (s : DAVisualizationServer) : DAVisualizationServer :=
  let l := submissions s ++ [submission] in
  {| submissions := if 100 <? blen l then drop 1 l else l; isAggregator := isAggregator s; has_da := has_da s |}.
Definition RecordSubmission (result : DAC.BaseResult) (id : string) (gasPrice : Strategy.float64) (numBlobs : Z) (namespace : bytes)
  : DAVisualizationServer -> DAVisualizationServer := record (submission_of result id gasPrice numBlobs namespace).

(** [/da/submissions]: the newest first; nothing on a node that does not submit. *)
Definition handleDASubmissions (s : DAVisualizationServer) : list DASubmissionInfo :=
  if negb (isAggregator s) then [] else rev (submissions s).

(** [/da/blob]: the namespace of a request, from its parameter or from a submission that has the blob. *)
Definition ParseHexNamespace (hexStr : string) : res Namespaces.Namespace :=
  let hexStr := match hexStr with String.String "0" (String.String "x" s) => s | s => s end in
  match hex_decode hexStr with
  | None => Err (EMsg "invalid hex string")
  | Some b => DAC.NamespaceFromBytes b
  end.
Definition param_namespace (nsParam : string) : bytes :=
  match ParseHexNamespace nsParam with Ok ns => Namespaces.Bytes ns | Err _ => DAC.ns_bytes (string_bytes nsParam) end.
Fixpoint submitted_namespace (blobID : string) (l : list DASubmissionInfo) : option bytes :=
  match l with
  | [] => None
  | submission :: l =>
      if bool_decide (blobID ∈ sb_BlobIDs submission) && negb (bool_decide (sb_Namespace submission = EmptyString))
      then match hex_decode (sb_Namespace submission) with Some ns => Some ns | None => submitted_namespace blobID l end
      else submitted_namespace blobID l
  end.
Definition blob_namespace (nsParam blobID : string) (l : list DASubmissionInfo) : option bytes :=
  let namespace := if bool_decide (nsParam = EmptyString) then submitted_namespace blobID l else Some (param_namespace nsParam) in
  match namespace with Some [] => None | n => n end.

Inductive blob_reply := BlobDetails (id : string) (height : Z) (commitment : string) (content : bytes) | BlobError (status : Z) (text : string).
Definition handleDABlobDetails {W} (Get : list bytes -> bytes -> W -> W * res (list bytes)) (blobID nsParam : string)
  (s : DAVisualizationServer) (w : W) : W * blob_reply :=
  if bool_decide (blobID = EmptyString) then (w, BlobError 400 "Missing blob ID parameter")
  else match hex_decode blobID with
  | None => (w, BlobError 400 "Invalid blob ID format")
  | Some id =>
      match blob_namespace nsParam blobID (submissions s) with
      | None => (w, BlobError 400 "Namespace required to retrieve blob")
      | Some namespace =>
          match Get [id] namespace w with
          | (w, Err _) => (w, BlobError 500 "Failed to retrieve blob")
          | (w, Ok []) => (w, BlobError 404 "Blob not found")
          | (w, Ok (blob :: _)) =>
              let '(height, commitment) := DAC.SplitID id in (w, BlobDetails blobID height (hex_encode (default [] commitment)) blob)
          end
      end
  end.

(** *** Statistics and health *)

Import Strategy.
Definition f_add (a b : float64) : float64 := SFadd 53 1024 a b.
Definition f_div (a b : float64) : float64 := SFdiv 53 1024 a b.
Definition has_status (status : string) (s : DASubmissionInfo) : bool := bool_decide (sb_StatusCode s = status).
Definition count (status : string) (l : list DASubmissionInfo) : Z := blen (filter (fun s => has_status status s = true) l).

Record da_stats := {
  ss_total : Z; ss_success : Z; ss_error : Z; ss_success_rate : float64; ss_total_blob_size : Z; ss_avg_blob_size : float64;
  ss_avg_gas_price : float64; ss_first : option Z; ss_last : option Z }.
(** [None] on a node that does not submit. *)
Definition handleDAStats (s : DAVisualizationServer) : option da_stats :=
  if negb (isAggregator s) then None
  else
    let l := submissions s in
    let n := blen l in
    let totalBlobSize := foldl (fun t x => t +u sb_BlobSize x) 0 l in
    let totalGasPrice := foldl (fun t x => f_add t (sb_GasPrice x)) f_zero l in
    let avg x := if 0 <? n then f_div x (f_of_int n) else f_zero in
    Some {| ss_total := n; ss_success := count "Success" l; ss_error := count "Error" l;
            ss_success_rate := f_mul (avg (f_of_int (count "Success" l))) (f_of_int 100);
            ss_total_blob_size := totalBlobSize; ss_avg_blob_size := avg (f_of_int totalBlobSize); ss_avg_gas_price := avg totalGasPrice;
            ss_first := sb_Timestamp <$> head l; ss_last := sb_Timestamp <$> last l |}.

(** The latest timestamp of the submissions with a status. *)
Definition latest (status : string) (l : list DASubmissionInfo) : option Z :=
  foldl (fun t x => if has_status status x
                    then match t with
                         | None => Some (sb_Timestamp x)
                         | Some t => if t <? sb_Timestamp x then Some (sb_Timestamp x) else Some t
                         end
                    else t) None l.

Inductive connection := Connected | Disconnected | ConnectionTimeout.
Record da_health := {
  dh_status : string; dh_is_healthy : bool; dh_connection : connection; dh_recent_errors : Z; dh_recent_successes : Z; dh_sample : Z;
  dh_issues : list string }.

Definition error_rate (errors sample : Z) : float64 :=
  if 0 <? sample then f_mul (f_div (f_of_int errors) (f_of_int sample)) (f_of_int 100) else f_zero.
Definition longer (now d : Z) (t : option Z) : bool := match t with Some t => d <? time_Since now t | None => false end.

(** [expired] says that the context of the request is done; the texts of the issues are shortened. *)
Definition handleDAHealth (s : DAVisualizationServer) (now : Z) (expired : bool) : option da_health :=
  if negb (isAggregator s) then None
  else
    let l := submissions s in
    let recentCount := Nat.min (length l) 10 in
    let recent := drop (length l - recentCount) l in
    let errors := count "Error" recent in
    let '(healthy, status, issues) := (true, "healthy"%string, []) in
    let '(healthy, status, issues) :=
      if f_lt (f_of_int 20) (error_rate errors (Z.of_nat recentCount)) then (false, "degraded"%string, issues ++ ["High error rate"%string])
      else (healthy, status, issues) in
    let '(healthy, status, issues) :=
      if longer now (5 * Minute) (latest "Success" recent) then (false, "unhealthy"%string, issues ++ ["No successful submissions"%string])
      else (healthy, status, issues) in
    let '(status, issues) :=
      if longer now (2 * Minute) (sb_Timestamp <$> last l) then ("warning"%string, issues ++ ["No submissions"%string])
      else (status, issues) in
    let '(status, issues) :=
      if bool_decide (l = []) then ("unknown"%string, issues ++ ["No submissions recorded yet"%string]) else (status, issues) in
    let '(healthy, status, issues, conn) :=
      if expired then (healthy, status, issues, ConnectionTimeout)
      else if has_da s then (healthy, status, issues, Connected)
      else (false, "unhealthy"%string, issues ++ ["DA layer not initialized"%string], Disconnected) in
    Some {| dh_status := status; dh_is_healthy := healthy; dh_connection := conn; dh_recent_errors := errors;
            dh_recent_successes := count "Success" recent; dh_sample := Z.of_nat recentCount; dh_issues := issues |}.

(** ** What the services promise *)

Section serves.
Context {D K : Type} `{DS : Datastore D} `{PK : PubKeys K} `{PKL : !PubKeysLaws K} `{PW : Protowire} `{PWL : !ProtowireLaws} `{HS : HashString}.
Context `{CH : ProtoCodec pb_SignedHeader} `{CD : ProtoCodec pb_Data} `{CS : ProtoCodec pb_State}.

Lemma header_served (sh : SignedHeader K) : header_valid (sh_Header sh) -> signer_ok (sh_Signer sh) ->
  exists p sh', SignedHeader_ToProto sh = Ok p /\ SignedHeader_FromProto (Some p) = Ok sh' /\ same_header sh sh'.
Proof.
  intros Hh Hs. destruct (header_proto_roundtrip _ Hh) as [Hrt _].
  destruct (signer_proto_roundtrip _ Hs) as (p & s' & Hto & Hfrom & Hsame). unfold SignedHeader_ToProto. rewrite Hto.
  cbn [res_bind]. eexists _, {| sh_Header := _; sh_Signature := _; sh_Signer := s' |}. split; [done|]. split.
  - unfold SignedHeader_FromProto. cbn [psh_Header psh_Signature psh_Signer]. rewrite Hrt. cbn [res_bind]. by rewrite Hfrom.
  - done.
Qed.

(** A block of the store is served as it is stored: by its height, as the latest block, and under every hash
    the store knows it by; the client decodes the same header, signer and data, and reads the DA heights
    that were recorded for the block, or zero. *)
Theorem GetBlock_serves (s : D) (header : SignedHeader K) (d : Data) (h : Z)
  (Hb : GetBlockData s h = Ok (header, d)) (Hh : hd_Height (sh_Header header) = h) (Hpos : 0 < h)
  (Hv : header_valid (sh_Header header)) (Hk : signer_ok (sh_Signer header)) (Hd : data_valid d) :
  exists resp header', GetBlock (K := K) s (ByHeight h) = Answer resp /\
    (Height s = Ok h -> GetBlock (K := K) s (ByHeight 0) = Answer resp) /\
    (forall hash, GetBlockByHash s hash = Ok (header, d) -> GetBlock (K := K) s (ByHash hash) = Answer resp) /\
    SignedHeader_FromProto (Some (gb_Header resp)) = Ok header' /\ same_header header header' /\
    Data_FromProto (Some (gb_Data resp)) = Ok d /\
    gb_HeaderDaHeight resp = da_height s (GetHeightToDAHeightHeaderKey h) /\
    gb_DataDaHeight resp = da_height s (GetHeightToDAHeightDataKey h).
Proof.
  destruct (header_served header Hv Hk) as (p & header' & Ep & Ef & Hsame).
  destruct (data_proto_roundtrip d Hd) as [Hrt _]. assert (Hz : (h =? 0) = false) by (apply Z.eqb_neq; lia).
  eexists {| gb_Header := p; gb_Data := Data_ToProto d; gb_HeaderDaHeight := _; gb_DataDaHeight := _ |}, header'.
  assert (Hr : retrieved s (Ok (header, d)) = Answer {| gb_Header := p; gb_Data := Data_ToProto d;
    gb_HeaderDaHeight := da_height s (GetHeightToDAHeightHeaderKey h); gb_DataDaHeight := da_height s (GetHeightToDAHeightDataKey h) |}).
  { unfold retrieved, block_response. rewrite Ep, Hh. by rewrite (proj2 (Z.ltb_lt 0 h) Hpos). }
  split_and!; [| | |done..].
  - unfold GetBlock. rewrite Hz, Hb. exact Hr.
  - intros Hl. unfold GetBlock. cbn [Z.eqb]. rewrite Hl, Hz, Hb. exact Hr.
  - intros hash Eh. unfold GetBlock. rewrite Eh. exact Hr.
Qed.

(** The state that is served lacks the hash of the last header. *)
Theorem GetState_loses_hash (s : D) (st : State) : GetState s = Ok st ->
  exists p, GetState_rpc s = Answer p /\
    State_FromProto (Some p) = Ok {| st_Version := st_Version st; st_ChainID := st_ChainID st; st_InitialHeight := st_InitialHeight st;
      LastBlockHeight := LastBlockHeight st; LastBlockTime := LastBlockTime st; st_LastHeaderHash := []; st_DAHeight := st_DAHeight st;
      st_AppHash := st_AppHash st |}.
Proof.
  intros E. unfold GetState_rpc. rewrite E. eexists. split; [done|]. pose proof (state_proto_roundtrip st) as Hst.
  apply (f_equal (fun r => match r with Ok x => (st_Version x, LastBlockTime x) | Err _ => (st_Version st, 0) end)) in Hst.
  cbn in Hst |- *. by injection Hst as -> ->.
Qed.

End serves.

(** A node is ready exactly when its P2P client listens (and, unless it is an aggregator, has peers), it has a
    block, an aggregator's last block is recent, and the node is not too far behind the best known height,
    which must be known. *)
Theorem ready_exact (pm : option P2PRPC) (n : NodeConfig) (state : res State) (bestKnown : option Z) (now : Z) :
  (forall b, bestKnown = Some b -> is_u64 b) -> (forall st, state = Ok st -> is_u64 (LastBlockHeight st)) ->
  ready pm n state bestKnown now = HttpOK "READY" <->
    (forall m, pm = Some m -> (exists id listen, pm_NetworkInfo m = Ok (id, listen) /\ listen <> []) /\
       (nd_Aggregator n = false -> exists peers, pm_Peers m = Ok peers /\ peers <> [])) /\
    exists st best, state = Ok st /\ bestKnown = Some best /\ LastBlockHeight st <> 0 /\ best <> 0 /\
      (nd_Aggregator n = true -> time_Since now (LastBlockTime st) <= maxAllowedDelay n) /\
      (best <= LastBlockHeight st \/ best - LastBlockHeight st <= nd_ReadinessMaxBlocksBehind n).
Proof.
  intros Hub Hul. unfold ready.
  assert (Hp : p2p_check pm (nd_Aggregator n) = None <->
    (forall m, pm = Some m -> (exists id listen, pm_NetworkInfo m = Ok (id, listen) /\ listen <> []) /\
       (nd_Aggregator n = false -> exists peers, pm_Peers m = Ok peers /\ peers <> []))).
  { destruct pm as [m|]; [|done]. cbn. split.
    - intros E m' [= <-]. destruct (pm_NetworkInfo m) as [[id listen]|]; [|done]. case_bool_decide as Hl; [done|].
      split; [by eauto|]. intros Ha. rewrite Ha in E. destruct (pm_Peers m) as [peers|]; [|done]. case_bool_decide; [done|eauto].
    - intros Hm. destruct (Hm m eq_refl) as [(id & listen & -> & Hl) Hpeers]. rewrite bool_decide_false by done.
      destruct (nd_Aggregator n); [done|]. destruct (Hpeers eq_refl) as (peers & -> & Hne). by rewrite bool_decide_false. }
  rewrite <- Hp. destruct (p2p_check pm (nd_Aggregator n)) as [why|].
  { split; [done|]. by intros [? _]. }
  destruct state as [st|e]; [|split; [done|by intros (_ & ? & ? & ? & _)]].
  specialize (Hul st eq_refl). destruct (Z.eqb_spec (LastBlockHeight st) 0) as [Hz|Hz].
  { split; [done|]. by intros (_ & st' & ? & [= <-] & _ & ? & _). }
  destruct (Z.ltb_spec (maxAllowedDelay n) (time_Since now (LastBlockTime st))) as [Hd|Hd]; destruct (nd_Aggregator n) eqn:Ha; cbn [andb].
  { split; [done|]. intros (_ & st' & ? & [= <-] & _ & _ & _ & Ht & _). specialize (Ht eq_refl). lia. }
  all: destruct bestKnown as [best|]; [|split; [done|by intros (_ & ? & ? & _ & ? & _)]]; specialize (Hub best eq_refl);
    destruct (Z.eqb_spec best 0); [split; [done|by intros (_ & ? & ? & _ & [= <-] & _ & ? & _)]|];
    destruct (Z.leb_spec best (LastBlockHeight st));
    [split; [intros _; split; [done|]; exists st, best; split_and!; (done || lia || (by left))|done]|];
    rewrite u64_sub_small by (done || lia); destruct (Z.ltb_spec (nd_ReadinessMaxBlocksBehind n) (best - LastBlockHeight st));
    [split; [done|]; intros (_ & st' & ? & [= <-] & [= <-] & _ & _ & _ & ?); lia|];
    (split; [intros _; split; [done|]; exists st, best; split_and!; (done || lia)|done]).
Qed.

(** *** The dashboard *)

(** The dashboard has the last hundred submissions, in order. *)
Theorem recent_submissions (has_da agg : bool) (l : list DASubmissionInfo) :
  submissions (foldl (fun s x => record x s) (NewDAVisualizationServer has_da agg) l) = drop (length l - 100) l.
Proof.
  induction l as [|x l IH] using rev_ind; [done|]. rewrite foldl_app. cbn [foldl]. set (s := foldl _ _ l) in *.
  unfold record. cbn [submissions]. rewrite IH, length_app. cbn [length].
  destruct (Z.ltb_spec 100 (blen (drop (length l - 100) l ++ [x]))) as [Hlt|Hge]; unfold blen in *; rewrite length_app, length_drop in *; cbn [length] in *.
  - rewrite drop_app_le by (rewrite length_drop; lia). rewrite drop_drop. rewrite drop_app_le by lia. do 2 f_equal. lia.
  - replace (length l - 100)%nat with 0%nat by lia. replace (length l + 1 - 100)%nat with 0%nat by lia. done.
Qed.

(** The error rate as the code computes it in binary64 is above 20 exactly when more than a fifth of the
    recent submissions are errors. *)
Theorem degraded_exact (errors sample : Z) : 0 <= errors <= sample -> sample <= 10 ->
  f_lt (f_of_int 20) (error_rate errors sample) = (sample <? 5 * errors).
Proof.
  intros He Hs.
  assert (Hall : forallb (fun n => forallb (fun e => Bool.eqb (f_lt (f_of_int 20) (error_rate (Z.of_nat e) (Z.of_nat n))) (Z.of_nat n <? 5 * Z.of_nat e))
    (seq 0 (Datatypes.S n))) (seq 0 11) = true) by (vm_compute; reflexivity).
  rewrite forallb_forall in Hall. specialize (Hall (Z.to_nat sample)). rewrite in_seq in Hall. specialize (Hall ltac:(lia)).
  rewrite forallb_forall in Hall. specialize (Hall (Z.to_nat errors)). rewrite in_seq in Hall. specialize (Hall ltac:(lia)).
  apply Bool.eqb_prop in Hall. by rewrite !Z2Nat.id in Hall by lia.
Qed.

(** Only the status "Error" counts as an error: a DA layer on which every recent submission failed in
    another way (timed out, was not included, was too big) is reported as healthy. *)
Theorem failures_look_healthy (s : DAVisualizationServer) (now : Z) : isAggregator s = true -> has_da s = true -> submissions s <> [] ->
  Forall (fun x => sb_StatusCode x <> "Success"%string /\ sb_StatusCode x <> "Error"%string /\ time_Since now (sb_Timestamp x) <= 2 * Minute) (submissions s) ->
  exists h, handleDAHealth s now false = Some h /\ dh_is_healthy h = true /\ dh_status h = "healthy"%string /\ dh_issues h = [].
Proof.
  intros Ha Hda Hne Hall. unfold handleDAHealth. rewrite Ha, Hda. cbn [negb].
  set (l := submissions s) in *. set (rc := Nat.min (length l) 10). set (recent := drop (length l - rc) l).
  assert (Hr : Forall (fun x => sb_StatusCode x <> "Success"%string /\ sb_StatusCode x <> "Error"%string /\ time_Since now (sb_Timestamp x) <= 2 * Minute) recent)
    by (by apply Forall_drop).
  assert (He : count "Error" recent = 0).
  { unfold count, blen, has_status. replace (filter _ recent) with (@nil DASubmissionInfo); [done|]. symmetry.
    clear -Hr. induction Hr as [|x r [_ [Hx _]] _ IH]; [done|]. rewrite filter_cons, decide_False; [exact IH|]. by rewrite bool_decide_eq_true. }
  assert (Hl : latest "Success" recent = None).
  { unfold latest, has_status. clear -Hr. induction Hr as [|x r [Hx _] _ IH]; [done|]. cbn. by rewrite bool_decide_false. }
  rewrite He, Hl. assert (Hrate : f_lt (f_of_int 20) (error_rate 0 (Z.of_nat rc)) = false).
  { rewrite degraded_exact; [apply Z.ltb_ge; lia|lia|]. unfold rc. lia. }
  rewrite Hrate. cbn [longer].
  assert (Hlast : longer now (2 * Minute) (sb_Timestamp <$> last l) = false).
  { destruct (last l) as [x|] eqn:El; [|done]. cbn. apply Z.ltb_ge. apply last_Some_elem_of in El.
    rewrite Forall_forall in Hall. by apply Hall. }
  rewrite Hlast, bool_decide_false by done. by eexists.
Qed.

(** The endpoint of the raft node panics on a node without raft. *)
Example raft_endpoint_off : raft_endpoint true None = Err nil_deref.
Proof. reflexivity. Qed.

Module RpcWitness.
Import RefHash TypesWitness.

Definition served : SignedHeader bytes :=
  match GetBlockData (K := bytes) StoreWitness.one_block 7 with Ok (h, _) => h | Err _ => w_sh end.
Lemma GetBlock_serves_witness : exists resp, GetBlock (K := bytes) StoreWitness.one_block (ByHeight 7) = Answer resp.
Proof.
  refine (match GetBlock_serves (K := bytes) StoreWitness.one_block served w_data 7 _ _ _ _ _ _ with ex_intro _ resp (ex_intro _ _ (conj E _)) => ex_intro _ resp E end).
  - vm_compute. reflexivity.
  - vm_compute. reflexivity.
  - reflexivity.
  - vm_compute. repeat split; discriminate.
  - intros _. eexists. split; [vm_compute; reflexivity|vm_compute; reflexivity].
  - vm_compute. repeat split; discriminate.
Defined.
Lemma GetState_loses_hash_witness : exists p, GetState_rpc StoreWitness.one_block = Answer p.
Proof.
  refine (match GetState_loses_hash StoreWitness.one_block w_state _ with ex_intro _ p (conj E _) => ex_intro _ p E end). vm_compute. reflexivity.
Defined.

Definition w_node : NodeConfig := c_Node (DefaultConfig "/home/node" "abcdefghij").
Definition w_p2p : P2PRPC := {| pm_NetworkInfo := Ok ("id"%string, ["/ip4/0.0.0.0/tcp/7676"%string]); pm_Peers := Ok [{| pr_ID := "p"; pr_Address := "a" |}] |}.
Lemma ready_exact_witness : ready (Some w_p2p) w_node (Ok w_state) (Some 20) 5000 = HttpOK "READY".
Proof.
  apply (ready_exact (Some w_p2p) w_node (Ok w_state) (Some 20) 5000).
  - intros b [= <-]. split; [discriminate|reflexivity].
  - intros st [= <-]. split; [discriminate|reflexivity].
  - split.
    + intros m [= <-]. split; [by eexists _, _|]. intros _. by eexists.
    + exists w_state, 20. split_and!; [done|done|discriminate|discriminate|discriminate|]. right. vm_compute. discriminate.
Defined.

Lemma degraded_exact_witness : f_lt (f_of_int 20) (error_rate 3 10) = true.
Proof. exact (degraded_exact 3 10 ltac:(lia) ltac:(lia)). Defined.

Definition timed_out : DASubmissionInfo := submission_of
  {| DAC.Code := DA.StatusContextDeadline; DAC.Message := "timeout"; DAC.Height := 0; DAC.SubmittedCount := 0; DAC.BlobSize := 10; DAC.IDs := [];
     DAC.Timestamp := Some 1000 |} "submission" f_zero 1 [].
Definition w_viz : DAVisualizationServer := record timed_out (NewDAVisualizationServer true true).
Lemma failures_look_healthy_witness : exists h, handleDAHealth w_viz 2000 false = Some h /\ dh_is_healthy h = true /\
  dh_status h = "healthy"%string /\ dh_issues h = [].
Proof.
  apply (failures_look_healthy w_viz 2000); [reflexivity|reflexivity|discriminate|].
  constructor; [split_and!; discriminate|constructor].
Defined.

End RpcWitness.
End RpcServer.
