(* ===== verification/Base64.v ===== *)
(** Text as it goes over HTTP: [base64.StdEncoding] of the Go library (encoding, and decoding that skips line
    breaks), with its round trip, and the effect of [strings.TrimSpace] on encoded text. *)

From S2P Require Import Prelude Raft.

Module Base64.

Definition alphabet : list Ascii.ascii :=
  String.list_ascii_of_string "ABCDEFGHIJKLMNOPQRSTUVWXYZabcdefghijklmnopqrstuvwxyz0123456789+/".
Definition symbol (n : Z) : Ascii.ascii := nth (Z.to_nat n) alphabet "A"%char.
Definition sextet (c : Ascii.ascii) : option Z :=
  let n := Z.of_N (Ascii.N_of_ascii c) in
  if (65 <=? n) && (n <=? 90) then Some (n - 65)
  else if (97 <=? n) && (n <=? 122) then Some (n - 97 + 26)
  else if (48 <=? n) && (n <=? 57) then Some (n - 48 + 52)
  else if n =? 43 then Some 62 else if n =? 47 then Some 63 else None.

(** [EncodeToString]: three bytes are four symbols; the last group is padded. *)
Fixpoint encode64 (l : bytes) : string :=
  match l with
  | [] => EmptyString
  | [a] =>
      let n := byte_Z a * 16 in
      String.String (symbol (n / 64)) (String.String (symbol (n mod 64)) "==")
  | [a; b] =>
      let n := (byte_Z a * 256 + byte_Z b) * 4 in
      String.String (symbol (n / 4096)) (String.String (symbol (n / 64 mod 64)) (String.String (symbol (n mod 64)) "="))
  | a :: b :: c :: l =>
      let n := (byte_Z a * 256 + byte_Z b) * 256 + byte_Z c in
      String.String (symbol (n / 262144)) (String.String (symbol (n / 4096 mod 64))
        (String.String (symbol (n / 64 mod 64)) (String.String (symbol (n mod 64)) (encode64 l))))
  end.

Definition line_break (c : Ascii.ascii) : bool := let n := Ascii.nat_of_ascii c in ((n =? 10) || (n =? 13))%nat.
Fixpoint unbroken (s : string) : string :=
  match s with
  | EmptyString => EmptyString
  | String.String c s => if line_break c then unbroken s else String.String c (unbroken s)
  end.

Definition corrupt {A} : res A := Err (EMsg "illegal base64 data").

(** Groups of four: padding only at the end; the bits that padding leaves over are ignored. *)
Fixpoint decode_groups (s : string) : res bytes :=
  match s with
  | EmptyString => Ok []
  | String.String c0 (String.String c1 (String.String c2 (String.String c3 s))) =>
      match sextet c0, sextet c1 with
      | Some n0, Some n1 =>
          if Ascii.eqb c2 "=" then
            if Ascii.eqb c3 "=" && bool_decide (s = EmptyString) then Ok [Z_byte ((n0 * 64 + n1) / 16)] else corrupt
          else match sextet c2 with
          | None => corrupt
          | Some n2 =>
              if Ascii.eqb c3 "=" then
                if bool_decide (s = EmptyString)
                then let n := ((n0 * 64 + n1) * 64 + n2) / 4 in Ok [Z_byte (n / 256); Z_byte n] else corrupt
              else match sextet c3 with
              | None => corrupt
              | Some n3 =>
                  let n := ((n0 * 64 + n1) * 64 + n2) * 64 + n3 in
                  let? l := decode_groups s in Ok (Z_byte (n / 65536) :: Z_byte (n / 256) :: Z_byte n :: l)
              end
          end
      | _, _ => corrupt
      end
  | _ => corrupt
  end.
Definition decode64 (s : string) : res bytes := decode_groups (unbroken s).

Lemma symbol_spec n : 0 <= n < 64 ->
  sextet (symbol n) = Some n /\ Ascii.eqb (symbol n) "=" = false /\ line_break (symbol n) = false /\ Raft.is_space (symbol n) = false.
Proof.
  intros H. replace n with (Z.of_nat (Z.to_nat n)) by lia. assert (Hn : (Z.to_nat n < 64)%nat) by lia. clear H.
  revert Hn. generalize (Z.to_nat n). clear n. intros n Hn. do 64 (destruct n as [|n]; [by vm_compute|]). lia.
Qed.

(** Induction over groups of three. *)
Lemma groups_ind (P : bytes -> Prop) : P [] -> (forall a, P [a]) -> (forall a b, P [a; b]) ->
  (forall a b c l, P l -> P (a :: b :: c :: l)) -> forall l, P l.
Proof.
  intros H0 H1 H2 H3. fix IH 1. intros l. destruct l as [|a l]; [exact H0|]. destruct l as [|b l]; [apply H1|].
  destruct l as [|c l]; [apply H2|]. apply H3, IH.
Qed.

Ltac sextets :=
  repeat match goal with |- context [symbol ?n] =>
    let H := fresh in let H1 := fresh in let H2 := fresh in let H3 := fresh in let H4 := fresh in let c := fresh "c" in
    assert (H : 0 <= n < 64) by (Z.div_mod_to_equations; lia); destruct (symbol_spec n H) as (H1 & H2 & H3 & H4); clear H;
    set (c := symbol n) in *; clearbody c end.

Lemma same_byte n b : n mod 256 = byte_Z b -> Z_byte n = b.
Proof. intros H. apply byte_Z_inj. by rewrite byte_Z_byte. Qed.

Lemma unbroken_encode l : unbroken (encode64 l) = encode64 l.
Proof.
  induction l as [|a|a b|a b c l IH] using groups_ind; cbn [encode64 unbroken]; [done|..].
  all: try pose proof (byte_Z_range a); try pose proof (byte_Z_range b); try pose proof (byte_Z_range c); cbv zeta; sextets.
  all: repeat match goal with H : line_break _ = false |- _ => rewrite H; clear H end; try rewrite IH; done.
Qed.

Lemma decode_encode64 l : decode64 (encode64 l) = Ok l.
Proof.
  unfold decode64. rewrite unbroken_encode. induction l as [|a|a b|a b c l IH] using groups_ind; cbn [encode64 decode_groups]; [done|..].
  all: try pose proof (byte_Z_range a); try pose proof (byte_Z_range b); try pose proof (byte_Z_range c); cbv zeta; sextets.
  all: repeat match goal with H : sextet _ = Some _ |- _ => rewrite H; clear H | H : Ascii.eqb _ _ = false |- _ => rewrite H; clear H end.
  - cbn. do 2 f_equal. apply same_byte. Z.div_mod_to_equations; lia.
  - cbn. do 2 f_equal; [|f_equal]; apply same_byte; Z.div_mod_to_equations; lia.
  - rewrite IH. cbn [res_bind]. do 2 f_equal; [|f_equal; [|f_equal]]; apply same_byte; Z.div_mod_to_equations; lia.
Qed.

(** *** Text without spaces is its own trimming *)

Fixpoint solid (s : string) : bool :=
  match s with EmptyString => true | String.String c s => negb (Raft.is_space c) && solid s end.
Lemma trim_solid s : solid s = true -> Raft.TrimSpace s = s.
Proof.
  intros H. unfold Raft.TrimSpace. assert (Raft.trim_left s = s) as ->.
  { destruct s as [|c s]; [done|]. cbn in H |- *. by destruct (Raft.is_space c). }
  induction s as [|c s IH]; [done|]. cbn in H |- *. apply andb_prop in H as [Hc Hs]. rewrite IH by done.
  destruct s; [|done]. by destruct (Raft.is_space c).
Qed.

Lemma encode_solid l : solid (encode64 l) = true.
Proof.
  induction l as [|a|a b|a b c l IH] using groups_ind; cbn [encode64]; [done|..].
  all: try pose proof (byte_Z_range a); try pose proof (byte_Z_range b); try pose proof (byte_Z_range c); cbv zeta; sextets.
  all: cbn [solid]; repeat match goal with H : Raft.is_space _ = false |- _ => rewrite H; clear H end; cbn; try rewrite IH; done.
Qed.

Lemma encode_empty l : encode64 l = EmptyString <-> l = [].
Proof. split; [|by intros ->]. intros H. pose proof (decode_encode64 l) as E. rewrite H in E. by injection E. Qed.

Lemma hex_digit_solid n : Raft.is_space (hex_digit n) = false.
Proof.
  unfold hex_digit. assert (Hn : (Z.to_nat (n mod 16) < 16)%nat) by (pose proof (Z.mod_pos_bound n 16); lia).
  revert Hn. generalize (Z.to_nat (n mod 16)). clear n. intros n Hn. do 16 (destruct n as [|n]; [by vm_compute|]). lia.
Qed.
Lemma hex_solid l : solid (hex_encode l) = true.
Proof. induction l as [|b l IH]; [done|]. cbn [hex_encode solid]. by rewrite !hex_digit_solid, IH. Qed.
End Base64.
