(* ===== verification/CosmosApp.v ===== *)
(** The fees of the Cosmos app and the faucet: the fee policy and the account creation of the ante handler
    (apps/cosmos-exec/app/ante.go), the sweep of the collected fees (app.go) and the genesis with balances
    (genesis.go), the queries of the executor that read the app (executor/executor.go), signing
    (sdk/cosmoswasm/internal/txcodec, faucet_tx.go) and the faucet of the server
    (cmd/cosmos-exec-grpc/faucet.go).

    Decimals, coins, addresses, keys and the protobuf form of a transaction belong to the Cosmos SDK: they
    are classes with laws. The environment of the process is a function. A panic of the SDK is an error
    value. *)

From Stdlib Require Import SpecFloat.
From S2P Require Import Prelude Sha256 Interfaces Sdk BatchingStrategy Raft CosmosExec Config RpcServer.

(** ** The Cosmos SDK *)

(** [Dec] is math.LegacyDec, [Coins] is sdk.Coins; amounts are math.Int. *)
Class CosmosLib (Dec Coins : Type) := {
  LegacyNewDecFromStr : string -> res Dec;
  LegacyZeroDec : Dec;
  dec_IsPositive : Dec -> bool;
  dec_MulInt : Dec -> Z -> res Dec;
  dec_Ceil : Dec -> Dec;
  dec_RoundInt : Dec -> res Z;
  AmountOf : Coins -> string -> Z;
  (** sdk.NewCoins of one coin; an error is a panic, on an invalid denom *)
  NewCoins : string -> Z -> res Coins;
  no_coins : Coins;
  coins_IsZero : Coins -> bool;
  coins_IsValid : Coins -> bool;
  ParseCoinsNormalized : string -> res Coins;
  AccAddressFromBech32 : string -> res bytes;
}.

(** A decimal has 18 places: [dec_val] is its value times 10^18. *)
Definition places : Z := 10 ^ 18.
Class CosmosLibLaws (Dec Coins : Type) `{CosmosLib Dec Coins} := {
  dec_val : Dec -> Z;
  zero_val : dec_val LegacyZeroDec = 0;
  positive_val d : dec_IsPositive d = (0 <? dec_val d);
  mul_val d i r : dec_MulInt d i = Ok r -> dec_val r = dec_val d * i;
  ceil_val d : dec_val (dec_Ceil d) = - (- dec_val d / places) * places;
  round_val d n : dec_RoundInt d = Ok n -> dec_val d mod places = 0 -> dec_val d = n * places;
  amount_new denom a c : 0 < a -> NewCoins denom a = Ok c -> AmountOf c denom = a;
  amount_none denom : AmountOf no_coins denom = 0;
}.

(** What a signed transaction says: what [SIGN_MODE_DIRECT] signs. [M] are messages. *)
Record SignDoc (M Coins : Type) := {
  sd_Messages : list M; sd_PubKey : bytes; sd_Sequence : Z; sd_GasLimit : Z; sd_Fee : Coins; sd_ChainID : string; sd_AccountNumber : Z }.
Arguments sd_Messages {M Coins}. Arguments sd_PubKey {M Coins}. Arguments sd_Sequence {M Coins}. Arguments sd_GasLimit {M Coins}.
Arguments sd_Fee {M Coins}. Arguments sd_ChainID {M Coins}. Arguments sd_AccountNumber {M Coins}.

(** Keys and the protobuf runtime: encoding signs; decoding is what the ante handler reads. *)
Class TxLib (M Coins : Type) := {
  secp_PubKey : bytes -> bytes;
  secp_Address : bytes -> string;
  MsgSend : string -> string -> Coins -> M;
  encode_signed : bytes -> SignDoc M Coins -> res bytes;
  decode_fee_tx : bytes -> option (Coins * Z);
}.
Class TxLibLaws (M Coins : Type) `{TxLib M Coins} := {
  decode_signed key d b : encode_signed key d = Ok b -> decode_fee_tx b = Some (sd_Fee d, sd_GasLimit d) /\ b <> [];
}.

(** What the executor asks the app, besides running blocks: state at a height. *)
Class AppQueries (A Coins : Type) := {
  app_GetAccount : A -> Z -> bytes -> option (Z * Z);
  app_PeekAccountNumber : A -> Z -> res Z;
  app_GetAllBalances : A -> Z -> bytes -> Coins;
  (** a balance as a decimal string *)
  app_GetBalance : A -> Z -> bytes -> string -> string;
  (** gas used and wanted *)
  app_Simulate : A -> bytes -> res (Z * Z);
  (** a panic of the contract is an error; the gas limit is the last argument but one *)
  app_QuerySmart : A -> Z -> bytes -> bytes -> Z -> res bytes;
}.

Module CosmosApp.

Definition TrimSpace (s : string) : string := Raft.TrimSpace s.

(** [strings.TrimPrefix] *)
Definition TrimPrefix (p s : string) : string :=
  if String.prefix p s then String.substring (String.length p) (String.length s - String.length p) s else s.

(** [strings.ToLower] on ASCII text *)
Definition lower (c : Ascii.ascii) : Ascii.ascii :=
  let n := Ascii.nat_of_ascii c in if ((65 <=? n) && (n <=? 90))%nat then Ascii.ascii_of_nat (n + 32) else c.
Fixpoint ToLower (s : string) : string :=
  match s with EmptyString => EmptyString | String.String c s => String.String (lower c) (ToLower s) end.

(** [strconv.ParseUint(s, 10, 64)] and [strconv.ParseInt(s, 10, 64)] *)
Definition ParseUint (s : string) : res Z :=
  if bool_decide (s = EmptyString) then Err (EMsg "invalid syntax")
  else match parse_dec 0 s with
       | Some n => if n <? two64 then Ok n else Err (EMsg "value out of range")
       | None => Err (EMsg "invalid syntax")
       end.
Definition ParseInt (s : string) : res Z :=
  let '(neg, digits) :=
    match s with
    | String.String "-" s => (true, s)
    | String.String "+" s => (false, s)
    | _ => (false, s)
    end in
  if bool_decide (digits = EmptyString) then Err (EMsg "invalid syntax")
  else match parse_dec 0 digits with
       | Some n => let n := if neg : bool then - n else n in
                   if bool_decide (is_i64 n) then Ok n else Err (EMsg "value out of range")
       | None => Err (EMsg "invalid syntax")
       end.

Definition envOr (env : string -> string) (key def : string) : string :=
  let v := TrimSpace (env key) in if bool_decide (v = EmptyString) then def else v.

(** ** The fee policy (ante.go) *)

Section fees.
Context {Dec Coins : Type} `{CL : CosmosLib Dec Coins}.

Definition enforceSignaturesEnv (env : string -> string) : bool :=
  let v := ToLower (TrimSpace (env "COSMOS_EXEC_ENFORCE_SIGNATURES"%string)) in
  bool_decide (v ∈ ["1"; "true"; "yes"; "on"]%string).

Definition treasuryAddrFromEnv (env : string -> string) : bytes :=
  let v := TrimSpace (env "COSMOS_EXEC_TREASURY_ADDR"%string) in
  if bool_decide (v = EmptyString) then []
  else match AccAddressFromBech32 v with Ok addr => addr | Err _ => [] end.

Record feePolicy := { minGasPrice : Dec; denom : string }.
Definition feePolicyFromEnv (env : string -> string) : feePolicy :=
  let denom := envOr env "COSMOS_EXEC_GAS_DENOM" "ustake" in
  let v := TrimSpace (env "COSMOS_EXEC_MIN_GAS_PRICE"%string) in
  {| denom := denom;
     minGasPrice :=
       if bool_decide (v = EmptyString) then LegacyZeroDec
       else match LegacyNewDecFromStr v with
            | Ok d => if dec_IsPositive d then d else LegacyZeroDec
            | Err _ => LegacyZeroDec
            end |}.
Definition enforced (p : feePolicy) : bool := dec_IsPositive (minGasPrice p).

(** [price.MulInt(gas).Ceil().RoundInt()] *)
Definition fee_amount (price : Dec) (gas : Z) : res Z := let? d := dec_MulInt price gas in dec_RoundInt (dec_Ceil d).
Definition requiredFee (p : feePolicy) (gas : Z) : res Z := fee_amount (minGasPrice p) gas.

Definition ErrTxDecode : err := ESentinel "tx parse error".
Definition ErrInsufficientFee : err := ESentinel "insufficient fee".

(** The priority is the fee, at most the largest int64. *)
Definition priority_of (paid : Z) : Z :=
  if bool_decide (is_i64 paid) then paid else if 0 <? paid then two63 - 1 else 0.

(** [txFeeChecker] on the fee and the gas of a transaction; [None] is no FeeTx. *)
Definition txFeeChecker (p : feePolicy) (simulate : bool) (tx : option (Coins * Z)) : res (Coins * Z) :=
  match tx with
  | None => Err (EWrap "tx must be a FeeTx" ErrTxDecode)
  | Some (fee, gas) =>
      let paid := AmountOf fee (denom p) in
      let accept := Ok (fee, priority_of paid) in
      if enforced p && negb simulate then
        let? required := requiredFee p gas in
        if paid <? required then Err (EWrap "insufficient fee" ErrInsufficientFee) else accept
      else accept
  end.

(** [feeForGas] of the server; an error is a panic. *)
Definition feeForGas (env : string -> string) (gas : Z) : res Coins :=
  let v := TrimSpace (env "COSMOS_EXEC_MIN_GAS_PRICE"%string) in
  if bool_decide (v = EmptyString) then Ok no_coins
  else match LegacyNewDecFromStr v with
       | Err _ => Ok no_coins
       | Ok price =>
           if negb (dec_IsPositive price) then Ok no_coins
           else
             let denom := envOr env "COSMOS_EXEC_GAS_DENOM" "ustake" in
             let? amt := fee_amount price gas in
             if 0 <? amt then NewCoins denom amt else Ok no_coins
       end.

End fees.
Arguments feePolicy : clear implicits.

(** ** Accounts of new signers (ante.go) *)

Section accounts.
(** The account keeper: the accounts of a state, the creation of one. *)
Context {A Acc : Type} (HasAccount : A -> bytes -> bool) (NewAccountWithAddress : A -> bytes -> A * Acc) (SetAccount : A -> Acc -> A).

(** The loop of [AnteHandle] over the signatures, by the addresses of their keys; [None] is no key. *)
Definition create_accounts (sigs : list (option bytes)) (s : A) : A :=
  foldl (fun s sig => match sig with
                      | None => s
                      | Some addr => if HasAccount s addr then s else let '(s, acc) := NewAccountWithAddress s addr in SetAccount s acc
                      end) s sigs.
(** [AnteHandle]: [None] is a transaction that has no signatures to verify; [next] is the rest of the chain. *)
Definition AutoCreateAccount_AnteHandle {R} (tx : option (res (list (option bytes)))) (next : A -> A * res R) (s : A) : A * res R :=
  match tx with
  | None => (s, Err (EWrap "tx must be a SigVerifiableTx" ErrTxDecode))
  | Some (Err e) => (s, Err e)
  | Some (Ok sigs) => next (create_accounts sigs s)
  end.
End accounts.

(** ** The sweep of fees (app.go) *)

Section sweep.
Context {Dec Coins B R : Type} `{CL : CosmosLib Dec Coins}.
(** The bank keeper: balances, and a transfer from the account of a module. *)
Context (GetAllBalances : B -> bytes -> Coins) (SendCoinsFromModuleToAccount : string -> bytes -> Coins -> B -> B * res unit)
        (GetModuleAddress : string -> bytes).

Definition FeeCollectorName : string := "fee_collector".
Definition sweepFeesToTreasury (env : string -> string) (b : B) : B * res unit :=
  let treasury := treasuryAddrFromEnv (CL := CL) env in
  if bool_decide (treasury = []) then (b, Ok tt)
  else
    let balance := GetAllBalances b (GetModuleAddress FeeCollectorName) in
    if coins_IsZero balance then (b, Ok tt) else SendCoinsFromModuleToAccount FeeCollectorName treasury balance b.

(** [EndBlocker]: the modules, then the sweep. *)
Definition EndBlocker (env : string -> string) (modules : B -> B * res R) (b : B) : B * res R :=
  match modules b with
  | (b, Err e) => (b, Err e)
  | (b, Ok resp) => match sweepFeesToTreasury env b with
                    | (b, Err e) => (b, Err e)
                    | (b, Ok _) => (b, Ok resp)
                    end
  end.
End sweep.

(** ** A genesis with balances (genesis.go) *)

Section genesis.
Context {Dec Coins Raw P : Type} `{CL : CosmosLib Dec Coins}.
(** The genesis of the bank module; [bg_rest] are its parameters and metadata. *)
Record bank_genesis := { bg_Balances : list (string * Coins); bg_Supply : Coins; bg_rest : P }.
Context (bank_UnmarshalJSON : Raw -> res bank_genesis) (bank_MarshalJSON : bank_genesis -> res Raw)
        (json_UnmarshalState : bytes -> res (gmap string Raw)) (json_MarshalState : gmap string Raw -> res bytes)
        (zero_bank : bank_genesis).

Definition GenesisWithBalances (DefaultGenesis : bytes) (balances : list (string * Coins)) : res bytes :=
  let? state := wrap_err "unmarshal default genesis" (json_UnmarshalState DefaultGenesis) in
  let? bankGen := match state !! "bank"%string with
                  | Some raw => wrap_err "unmarshal bank genesis" (bank_UnmarshalJSON raw)
                  | None => Ok zero_bank
                  end in
  let bankGen := {| bg_Balances := bg_Balances bankGen ++ balances; bg_Supply := no_coins; bg_rest := bg_rest bankGen |} in
  let? patched := wrap_err "marshal bank genesis" (bank_MarshalJSON bankGen) in
  wrap_err "marshal genesis" (json_MarshalState (<["bank"%string := patched]> state)).
End genesis.

(** ** The executor's queries (executor.go) *)

Import CosmosExec.

Definition normalizeHash (hash : string) : string := ToLower (TrimPrefix "0X" (TrimPrefix "0x" (TrimSpace hash))).

Record AccountInfo := { ai_Address : string; ai_AccountNumber : Z; ai_Sequence : Z; ai_Exists : bool }.
Record BalanceInfo (Coins : Type) := { bl_Address : string; bl_Balances : Coins; bl_Denom : string; bl_Amount : string }.
Arguments bl_Balances {Coins}. Arguments bl_Amount {Coins}.
Record SimulateResult := { sr_GasUsed : Z; sr_GasWanted : Z }.

Section queries.
Context {Dec Coins A : Type} `{CL : CosmosLib Dec Coins} `{AP : App A} `{AQ : AppQueries A Coins}.

Definition GetTxResult (ctxErr : option err) (hash : string) (e : CosmosExecutor A) : res (option TxExecutionResult) :=
  match ctxErr with Some er => Err er | None => Ok (txResults e !! normalizeHash hash) end.

(** The height of a query: the genesis state before the first block. *)
Definition query_height (e : CosmosExecutor A) : Z := i64 (if lastHeight e =? 0 then 1 else lastHeight e).

Definition QuerySmart (queryGasMax : Z) (ctxErr : option err) (contract : string) (queryMsg : bytes) (e : CosmosExecutor A) : res bytes :=
  match ctxErr with
  | Some er => Err er
  | None =>
      if bool_decide (contract = EmptyString) then Err (EMsg "contract address is required")
      else if blen queryMsg =? 0 then Err (EMsg "query msg cannot be empty")
      else
        let? contractAddr := wrap_err "invalid contract address" (AccAddressFromBech32 contract) in
        app_QuerySmart (x_app e) (query_height e) contractAddr queryMsg queryGasMax
  end.

Definition GetAccountInfo (bech32Addr : string) (e : CosmosExecutor A) : res AccountInfo :=
  let? addr := wrap_err "invalid address" (AccAddressFromBech32 (TrimSpace bech32Addr)) in
  match app_GetAccount (x_app e) (query_height e) addr with
  | None =>
      let? nextNum := wrap_err "peek next account number" (app_PeekAccountNumber (x_app e) (query_height e)) in
      Ok {| ai_Address := bech32Addr; ai_AccountNumber := nextNum; ai_Sequence := 0; ai_Exists := false |}
  | Some (number, sequence) =>
      Ok {| ai_Address := bech32Addr; ai_AccountNumber := number; ai_Sequence := sequence; ai_Exists := true |}
  end.

Definition GetBalance (bech32Addr denom : string) (e : CosmosExecutor A) : res (BalanceInfo Coins) :=
  let? addr := wrap_err "invalid address" (AccAddressFromBech32 (TrimSpace bech32Addr)) in
  let denom := TrimSpace denom in
  Ok {| bl_Address := bech32Addr; bl_Balances := app_GetAllBalances (x_app e) (query_height e) addr; bl_Denom := denom;
        bl_Amount := if bool_decide (denom = EmptyString) then EmptyString
                     else app_GetBalance (x_app e) (query_height e) addr denom |}.

Definition SimulateTx (ctxErr : option err) (txBytes : bytes) (e : CosmosExecutor A) : res SimulateResult :=
  match ctxErr with
  | Some er => Err er
  | None =>
      if blen txBytes =? 0 then Err (EMsg "tx cannot be empty")
      else if negb (initialized e) then Err (EMsg "executor not initialized")
      else let? info := wrap_err "simulate" (app_Simulate (x_app e) txBytes) in
           Ok {| sr_GasUsed := info.1; sr_GasWanted := info.2 |}
  end.
End queries.

(** ** Signing (txcodec.go, faucet_tx.go) *)

Definition decodeHex (s : string) : res bytes :=
  if Nat.odd (String.length s) then Err (EMsg "hex length must be even")
  else match hex_decode s with Some b => Ok b | None => Err (EMsg "invalid hex char") end.

Definition NewSecp256k1FromHex (hexKey : string) : res bytes :=
  let? bz := wrap_err "invalid hex private key" (decodeHex (TrimPrefix "0x" (TrimSpace hexKey))) in
  if blen bz =? 32 then Ok bz else Err (EMsg "private key must be 32 bytes").

Section signing.
Context {Dec Coins M : Type} `{CL : CosmosLib Dec Coins} `{TL : TxLib M Coins}.

(** [SignerInput]; the private key is present. *)
Record SignerInput := {
  in_PrivKey : bytes; in_ChainID : string; in_AccountNumber : Z; in_Sequence : Z; in_GasLimit : Z; in_FeeAmount : Coins }.

(** [BuildSignedProtoTxBytes]: no gas limit is a large one. *)
Definition default_gas : Z := 100000000.
Definition BuildSignedProtoTxBytes (signer : SignerInput) (msgs : list M) : res bytes :=
  if bool_decide (in_ChainID signer = EmptyString) then Err (EMsg "signer.ChainID is required")
  else encode_signed (in_PrivKey signer) {|
    sd_Messages := msgs; sd_PubKey := secp_PubKey (in_PrivKey signer); sd_Sequence := in_Sequence signer;
    sd_GasLimit := if in_GasLimit signer =? 0 then default_gas else in_GasLimit signer;
    sd_Fee := in_FeeAmount signer; sd_ChainID := in_ChainID signer; sd_AccountNumber := in_AccountNumber signer |}.

Definition TreasuryAddressFromHex (privHex : string) : res string := let? priv := NewSecp256k1FromHex privHex in Ok (secp_Address priv).

Definition BuildSignedBankSendWithFee (privHex chainID toBech32 : string) (amount fee : Coins) (accNum seq gas : Z) : res (string * bytes) :=
  if bool_decide (TrimSpace chainID = EmptyString) then Err (EMsg "chainID is required")
  else if bool_decide (TrimSpace toBech32 = EmptyString) then Err (EMsg "recipient address is required")
  else if coins_IsZero amount || negb (coins_IsValid amount) then Err (EMsg "invalid send amount")
  else
    let? priv := wrap_err "parse treasury key" (NewSecp256k1FromHex privHex) in
    let from := secp_Address priv in
    let? raw := wrap_err "sign bank send" (BuildSignedProtoTxBytes {|
      in_PrivKey := priv; in_ChainID := chainID; in_AccountNumber := accNum; in_Sequence := seq; in_GasLimit := gas;
      in_FeeAmount := fee |} [MsgSend from toBech32 amount]) in
    Ok (from, raw).
End signing.
Arguments SignerInput : clear implicits.

(** ** The faucet (faucet.go) *)

Inductive method := GET | POST | OPTIONS | OtherMethod.
#[export] Instance method_eq_dec : EqDecision method.
Proof. solve_decision. Defined.
(** [Dropped]: the handler panicked, the server closes the connection. *)
Inductive reply (R : Type) := Reply (r : R) | Fail (status : Z) (e : err) | Dropped.
Arguments Reply {R}. Arguments Fail {R}. Arguments Dropped {R}.

Section faucet.
Context {Dec Coins A M : Type} `{CL : CosmosLib Dec Coins} `{AP : App A} `{AQ : AppQueries A Coins} `{TL : TxLib M Coins}.

Record faucetConfig := {
  fc_privHex : string; fc_treasury : string; fc_genesisAmt : Coins; fc_payout : Coins; fc_gas : Z; fc_cooldown : Z;
  fc_lastSeen : gmap string Z; fc_haveSeq : bool; fc_nextSeq : Z }.

Definition loadFaucetConfig (env : string -> string) : res (option faucetConfig) :=
  let priv := TrimSpace (env "COSMOS_EXEC_TREASURY_PRIVKEY_HEX"%string) in
  if bool_decide (priv = EmptyString) then Ok None
  else
    let? treasury := wrap_err "COSMOS_EXEC_TREASURY_PRIVKEY_HEX" (TreasuryAddressFromHex priv) in
    let? genesisAmt := wrap_err "COSMOS_EXEC_TREASURY_AMOUNT"
                         (ParseCoinsNormalized (envOr env "COSMOS_EXEC_TREASURY_AMOUNT" "1000000000000ustake")) in
    let? payout := wrap_err "COSMOS_EXEC_FAUCET_AMOUNT" (ParseCoinsNormalized (envOr env "COSMOS_EXEC_FAUCET_AMOUNT" "1000000ustake")) in
    if coins_IsZero payout then Err (EMsg "COSMOS_EXEC_FAUCET_AMOUNT must be > 0")
    else
      let g := TrimSpace (env "COSMOS_EXEC_FAUCET_GAS"%string) in
      let? gas := if bool_decide (g = EmptyString) then Ok 200000 else wrap_err "COSMOS_EXEC_FAUCET_GAS" (ParseUint g) in
      let c := TrimSpace (env "COSMOS_EXEC_FAUCET_COOLDOWN_SECONDS"%string) in
      let? cooldown := if bool_decide (c = EmptyString) then Ok (3600 * Config.Second)
                       else let? s := wrap_err "COSMOS_EXEC_FAUCET_COOLDOWN_SECONDS" (ParseInt c) in Ok (i64 (s * Config.Second)) in
      Ok (Some {| fc_privHex := priv; fc_treasury := treasury; fc_genesisAmt := genesisAmt; fc_payout := payout; fc_gas := gas;
                  fc_cooldown := cooldown; fc_lastSeen := ∅; fc_haveSeq := false; fc_nextSeq := 0 |}).

(** The sequence for the next transaction of the treasury, whose sequence on the chain is [onchain]. *)
Definition next_sequence (fc : faucetConfig) (onchain : Z) : Z :=
  if fc_haveSeq fc && (onchain <? fc_nextSeq fc) then fc_nextSeq fc else onchain.
(** What a payment leaves behind. *)
Definition paid (fc : faucetConfig) (seq : Z) (addr : string) (now : Z) : faucetConfig := {|
  fc_privHex := fc_privHex fc; fc_treasury := fc_treasury fc; fc_genesisAmt := fc_genesisAmt fc; fc_payout := fc_payout fc;
  fc_gas := fc_gas fc; fc_cooldown := fc_cooldown fc; fc_lastSeen := <[addr := now]> (fc_lastSeen fc); fc_haveSeq := true;
  fc_nextSeq := u64 (seq + 1) |}.

Definition cooling (fc : faucetConfig) (addr : string) (now : Z) : bool :=
  match fc_lastSeen fc !! addr with Some last => RpcServer.time_Since now last <? fc_cooldown fc | None => false end.

(** The transaction of a payment; when the fee cannot be computed the process panics instead. *)
Definition payment (env : string -> string) (fc : faucetConfig) (chainID addr : string) (accNum seq : Z) : res bytes :=
  let? fee := feeForGas env (fc_gas fc) in
  let? tx := BuildSignedBankSendWithFee (fc_privHex fc) chainID addr (fc_payout fc) fee accNum seq (fc_gas fc) in
  Ok tx.2.

Definition faucetHandler (env : string -> string) (ctxErr : option err) (m : method) (addrParam : string) (now : Z)
  (fc : faucetConfig) (e : CosmosExecutor A) : faucetConfig * CosmosExecutor A * reply string :=
  if negb (bool_decide (m = POST)) && negb (bool_decide (m = GET)) then (fc, e, Fail 405 (EMsg "method not allowed"))
  else
    let addr := TrimSpace addrParam in
    if bool_decide (addr = EmptyString) then (fc, e, Fail 400 (EMsg "addr query param is required"))
    else match AccAddressFromBech32 addr with
    | Err er => (fc, e, Fail 400 (EWrap "invalid bech32 addr" er))
    | Ok _ =>
        if bool_decide (addr = fc_treasury fc) then (fc, e, Fail 400 (EMsg "refusing to fund the treasury itself"))
        else if cooling fc addr now then (fc, e, Fail 429 (EMsg "address funded recently"))
        else match GetAccountInfo (fc_treasury fc) e with
        | Err er => (fc, e, Fail 500 (EWrap "treasury account lookup" er))
        | Ok info =>
            let seq := next_sequence fc (ai_Sequence info) in
            match GetStatus ctxErr e with
            | Err er => (fc, e, Fail 500 (EWrap "status" er))
            | Ok status =>
                if negb (is_ok (feeForGas env (fc_gas fc))) then (fc, e, Dropped)
                else match payment env fc (si_ChainID status) addr (ai_AccountNumber info) seq with
                | Err er => (fc, e, Fail 500 (EWrap "sign" er))
                | Ok txBytes =>
                    match InjectTx ctxErr txBytes e with
                    | (e, Err er) => (fc, e, Fail 400 (EWrap "submit" er))
                    | (e, Ok hash) => (paid fc seq addr now, e, Reply hash)
                    end
                end
            end
        end
    end.

(** [genesisOption]: the treasury has its balance in the genesis of the executor. *)
Definition genesisOption (GenesisWithBalances : list (string * Coins) -> res bytes) (fc : faucetConfig) (e : CosmosExecutor A)
  : res (CosmosExecutor A) :=
  let? genesis := wrap_err "build genesis with treasury balance" (GenesisWithBalances [(fc_treasury fc, fc_genesisAmt fc)]) in
  Ok (WithGenesis genesis e).

End faucet.
Arguments faucetConfig : clear implicits.

(** ** What the fee policy demands *)

Section fee_theorems.
Context {Dec Coins : Type} `{CL : CosmosLib Dec Coins} `{CLL : !CosmosLibLaws Dec Coins}.

Lemma fee_amount_val price gas n : fee_amount price gas = Ok n -> n = - (- (dec_val price * gas) / places).
Proof.
  unfold fee_amount. intros (d & Em & E)%res_bind_ok. pose proof (ceil_val d) as Hc. rewrite (mul_val _ _ _ Em) in Hc.
  apply round_val in E; [|rewrite Hc; apply Z.mod_mul; done]. rewrite Hc in E. by apply Z.mul_cancel_r in E.
Qed.

(** The least whole amount that covers a price. *)
Lemma ceil_le x paid : - (- x / places) <= paid <-> x <= paid * places.
Proof.
  pose proof (Z.div_mod (- x) places ltac:(done)) as Hd. pose proof (Z.mod_pos_bound (- x) places ltac:(done)) as Hm.
  set (q := - x / places) in *. unfold places in *. split; nia.
Qed.

Lemma policy_price env : minGasPrice (feePolicyFromEnv env) = LegacyZeroDec \/ dec_IsPositive (minGasPrice (feePolicyFromEnv env)) = true.
Proof.
  unfold feePolicyFromEnv. cbn. case_bool_decide; [by left|]. destruct (LegacyNewDecFromStr _) as [d|]; [|by left].
  destruct (dec_IsPositive d) eqn:E; [by right|by left].
Qed.

(** A transaction passes the fee check exactly when no price is set or its fee in the denomination of the
    policy covers its gas at the price, without rounding in its favour; a simulation always passes. *)
Theorem txFeeChecker_exact (p : feePolicy Dec) (fee : Coins) (gas : Z) :
  is_ok (requiredFee p gas) = true ->
  (is_ok (txFeeChecker p false (Some (fee, gas))) = true <->
     dec_val (minGasPrice p) <= 0 \/ dec_val (minGasPrice p) * gas <= AmountOf fee (denom p) * places) /\
  txFeeChecker p true (Some (fee, gas)) = Ok (fee, priority_of (AmountOf fee (denom p))).
Proof.
  intros Hr. unfold txFeeChecker. rewrite andb_false_r, andb_true_r. split; [|done]. unfold enforced. rewrite positive_val.
  destruct (Z.ltb_spec 0 (dec_val (minGasPrice p))) as [Hp|Hp]; [|split; [by left|done]].
  destruct (requiredFee p gas) as [n|e] eqn:E; [|done]. cbn [res_bind]. apply fee_amount_val in E.
  rewrite <- ceil_le, <- E. destruct (Z.ltb_spec (AmountOf fee (denom p)) n); cbn; (split; [intros Hx|intros [Hx|Hx]]); (done || lia || (right; lia)).
Qed.

(** The fee the server computes for an amount of gas passes the check of the chain for that gas, in the same
    environment: for the faucet as well as for the fee that a simulation suggests. *)
Lemma feeForGas_accepted env gas fee : feeForGas env gas = Ok fee ->
  is_ok (txFeeChecker (feePolicyFromEnv env) false (Some (fee, gas))) = true.
Proof.
  unfold feeForGas, txFeeChecker, enforced, requiredFee. rewrite andb_true_r. unfold feePolicyFromEnv. cbn [minGasPrice denom].
  assert (Hz : dec_IsPositive LegacyZeroDec = false) by (by rewrite positive_val, zero_val).
  case_bool_decide; [by rewrite Hz|]. destruct (LegacyNewDecFromStr _) as [price|]; [|by rewrite Hz].
  destruct (dec_IsPositive price) eqn:Hp; cbn [negb]; [|by rewrite Hz]. rewrite Hp.
  intros (amt & E & Ef)%res_bind_ok. rewrite E. cbn [res_bind].
  destruct (Z.ltb_spec 0 amt) as [Ha|Ha].
  - rewrite (amount_new _ _ _ Ha Ef). by rewrite Z.ltb_irrefl.
  - injection Ef as <-. rewrite amount_none. destruct (Z.ltb_spec 0 amt); [lia|done].
Qed.

Lemma feeForGas_zero env fee : feeForGas env 0 = Ok fee -> fee = no_coins.
Proof.
  unfold feeForGas. case_bool_decide; [by intros [= <-]|]. destruct (LegacyNewDecFromStr _) as [price|]; [|by intros [= <-]].
  destruct (dec_IsPositive price); cbn [negb]; [|by intros [= <-]]. intros (amt & ->%fee_amount_val & E)%res_bind_ok.
  rewrite Z.mul_0_r in E. by injection E.
Qed.

Lemma fee_refused (p : feePolicy Dec) fee gas n : enforced p = true -> requiredFee p gas = Ok n -> AmountOf fee (denom p) < n ->
  txFeeChecker p false (Some (fee, gas)) = Err (EWrap "insufficient fee" ErrInsufficientFee).
Proof. intros He Hr Hl. unfold txFeeChecker. rewrite He, Hr. cbn. by rewrite (proj2 (Z.ltb_lt _ _) Hl). Qed.

End fee_theorems.

(** ** What the faucet does *)

Section faucet_theorems.
Context {Dec Coins A M : Type} `{CL : CosmosLib Dec Coins} `{CLL : !CosmosLibLaws Dec Coins} `{AP : App A} `{AQ : AppQueries A Coins}.
Context `{TL : TxLib M Coins} `{TLL : !TxLibLaws M Coins}.

Lemma payment_inv env fc chainID addr accNum seq tx : payment env fc chainID addr accNum seq = Ok tx ->
  exists fee, feeForGas env (fc_gas fc) = Ok fee /\
    decode_fee_tx tx = Some (fee, if fc_gas fc =? 0 then default_gas else fc_gas fc) /\ tx <> [].
Proof.
  unfold payment. intros (fee & Ef & E)%res_bind_ok. apply res_bind_ok in E as ([from raw] & E & [= <-]). exists fee. split; [done|].
  unfold BuildSignedBankSendWithFee in E. repeat (case_bool_decide; [done|]). destruct (coins_IsZero _ || _); [done|].
  res_inv E. res_inv E. injection E as <- <-. apply wrap_err_ok in Hx0. unfold BuildSignedProtoTxBytes in Hx0.
  case_bool_decide; [done|]. by apply decode_signed in Hx0.
Qed.

(** The payments of a faucet pass the fee check of the chain, unless its gas limit is configured as zero: the
    fee is then none, but the transaction is signed with the default gas limit, and with a price for gas
    every payment is refused. *)
Theorem payment_fee (env : string -> string) (fc : faucetConfig Coins) (chainID addr : string) (accNum seq : Z) (tx : bytes) :
  payment env fc chainID addr accNum seq = Ok tx ->
  (fc_gas fc <> 0 -> is_ok (txFeeChecker (feePolicyFromEnv env) false (decode_fee_tx tx)) = true) /\
  (fc_gas fc = 0 -> enforced (feePolicyFromEnv env) = true -> is_ok (requiredFee (feePolicyFromEnv env) default_gas) = true ->
     txFeeChecker (feePolicyFromEnv env) false (decode_fee_tx tx) = Err (EWrap "insufficient fee" ErrInsufficientFee)).
Proof.
  intros (fee & Ef & Ed & _)%payment_inv. rewrite Ed. split.
  - intros Hg. rewrite (proj2 (Z.eqb_neq _ _) Hg). by apply feeForGas_accepted.
  - intros Hg He Hr. rewrite Hg in Ef |- *. cbn [Z.eqb]. destruct (requiredFee _ default_gas) as [n|] eqn:En; [|done].
    eapply fee_refused; [done..|]. apply fee_amount_val in En. subst n. unfold enforced in He. rewrite positive_val in He.
    apply Z.ltb_lt in He. rewrite (feeForGas_zero _ _ Ef), amount_none.
    apply Z.lt_nge. rewrite ceil_le. unfold default_gas, places. nia.
Qed.

(** A successful request has put exactly one transaction into the mempool: a payment signed with the next
    sequence; the faucet remembers it and the recipient. A refused one changes nothing. *)
Theorem faucetHandler_outcome (env : string -> string) (ctxErr : option err) (m : method) (addrParam : string) (now : Z)
  (fc : faucetConfig Coins) (e : CosmosExecutor A) :
  match faucetHandler env ctxErr m addrParam now fc e with
  | (fc', e', Reply hash) =>
      exists info tx, GetAccountInfo (fc_treasury fc) e = Ok info /\
        let seq := next_sequence fc (ai_Sequence info) in
        payment env fc (x_chainID e) (TrimSpace addrParam) (ai_AccountNumber info) seq = Ok tx /\
        hash = hashTx tx /\ e' = set_mempool (mempool e ++ [tx]) e /\ fc' = paid fc seq (TrimSpace addrParam) now /\
        cooling fc (TrimSpace addrParam) now = false
  | (fc', e', _) => fc' = fc /\ e' = e
  end.
Proof.
  unfold faucetHandler. destruct (negb _ && negb _); [done|]. case_bool_decide; [done|]. destruct (AccAddressFromBech32 _); [|done].
  case_bool_decide; [done|]. destruct (cooling _ _ _) eqn:Ec; [done|]. destruct (GetAccountInfo _ _) as [info|]; [|done].
  destruct ctxErr as [er|]; [done|]. cbn. destruct (is_ok _); [|done]. cbn. destruct (payment _ _ _ _ _ _) as [tx|] eqn:Ep; [|done].
  destruct (Z.eqb_spec (blen tx) 0) as [Hl|Hl]; [done|]. exists info, tx. done.
Qed.

(** *** Sequences and cooldown over a run

    [fr_chain] is the sequence of the treasury on the chain, [fr_pending] are the sequences of its
    transactions that wait for execution, oldest first; [fr_log] the payments, latest first. The treasury's
    key is used by the faucet only. *)
Record faucet_run := { fr_fc : faucetConfig Coins; fr_chain : Z; fr_pending : list Z; fr_log : list (string * Z) }.
(** A payment, the execution of the oldest transaction (which succeeds if its sequence is the account's, and
    then raises it), the loss of it. *)
Inductive faucet_step : faucet_run -> faucet_run -> Prop :=
| fs_pay r addr now : cooling (fr_fc r) addr now = false ->
    let seq := next_sequence (fr_fc r) (fr_chain r) in
    faucet_step r {| fr_fc := paid (fr_fc r) seq addr now; fr_chain := fr_chain r; fr_pending := fr_pending r ++ [seq];
                     fr_log := (addr, now) :: fr_log r |}
| fs_execute r s rest : fr_pending r = s :: rest ->
    faucet_step r {| fr_fc := fr_fc r; fr_chain := if s =? fr_chain r then fr_chain r + 1 else fr_chain r; fr_pending := rest; fr_log := fr_log r |}.
Inductive faucet_loss : faucet_run -> faucet_run -> Prop :=
| fl_lose r s rest : fr_pending r = s :: rest ->
    faucet_loss r {| fr_fc := fr_fc r; fr_chain := fr_chain r; fr_pending := rest; fr_log := fr_log r |}.

(** Nothing lost: what waits has the sequences from the account's on, and the faucet expects the one after. *)
Definition in_order (r : faucet_run) : Prop :=
  let n := Z.of_nat (length (fr_pending r)) in
  fr_pending r = seqZ (fr_chain r) n /\ 0 <= fr_chain r /\
  (if fc_haveSeq (fr_fc r) then fc_nextSeq (fr_fc r) = fr_chain r + n else n = 0).

Lemma seqZ_snoc a n : 0 <= n -> seqZ a n ++ [a + n] = seqZ a (n + 1).
Proof. intros Hn. rewrite (seqZ_app a n 1) by lia. done. Qed.

Lemma in_order_step chain r r' : faucet_step r r' -> chain + Z.of_nat (length (fr_log r')) < two64 ->
  in_order r /\ fr_chain r + Z.of_nat (length (fr_pending r)) = chain + Z.of_nat (length (fr_log r)) ->
  in_order r' /\ fr_chain r' + Z.of_nat (length (fr_pending r')) = chain + Z.of_nat (length (fr_log r')).
Proof.
  intros Hs Hb ((Hp & H0 & Hq) & Hl). destruct Hs as [r addr now Hc seq|r s rest E]; cbn in *.
  - rewrite length_app. cbn. set (n := length (fr_pending r)) in *.
    assert (Hseq : seq = fr_chain r + Z.of_nat n).
    { unfold seq, next_sequence. destruct (fc_haveSeq (fr_fc r)); cbn [andb].
      - rewrite Hq. destruct (Z.ltb_spec (fr_chain r) (fr_chain r + Z.of_nat n)); lia.
      - lia. }
    split; [|lia]. split_and!; cbn; [|done|].
    + rewrite length_app. cbn. rewrite Hp at 1. rewrite Hseq, seqZ_snoc by lia. f_equal. lia.
    + rewrite length_app. cbn. fold n. rewrite u64_small; [lia|]. unfold is_u64. lia.
  - unfold in_order in *. rewrite E in *. cbn [length] in *. rewrite seqZ_cons in Hp by lia. injection Hp as -> Hr.
    cbn [fr_pending fr_chain fr_fc]. rewrite Z.eqb_refl. split; [|lia].
    split_and!; [rewrite Hr at 1; unfold Z.succ; f_equal; lia|lia|]. destruct (fc_haveSeq (fr_fc r)); lia.
Qed.

(** As long as no transaction of the faucet is lost, every payment succeeds in its turn: the transactions that
    wait carry the sequences the account will have when they are executed. *)
Theorem faucet_sequences (fc : faucetConfig Coins) (chain : Z) (r : faucet_run) (Hnew : fc_haveSeq fc = false) (H0 : 0 <= chain)
  (Hrun : rtc faucet_step {| fr_fc := fc; fr_chain := chain; fr_pending := []; fr_log := [] |} r)
  (Hb : chain + Z.of_nat (length (fr_log r)) < two64) :
  fr_pending r = seqZ (fr_chain r) (Z.of_nat (length (fr_pending r))).
Proof.
  enough (in_order r /\ fr_chain r + Z.of_nat (length (fr_pending r)) = chain + Z.of_nat (length (fr_log r))) as ((H & _) & _) by done.
  revert Hb. pattern r. revert r Hrun. apply rtc_ind_r; [|intros r r' Hr Hs IH]; intros Hb; [unfold in_order; cbn; by rewrite Hnew|].
  eapply in_order_step; [done..|]. apply IH. destruct Hs; cbn in *; lia.
Qed.

(** When a transaction was lost and the faucet is ahead of the account, no payment succeeds any more: the
    sequence of the account stays what it is, whatever is paid, executed or lost. *)
Theorem faucet_stuck (r r' : faucet_run) (n : nat) (Hhave : fc_haveSeq (fr_fc r) = true) (Hahead : fr_chain r < fc_nextSeq (fr_fc r))
  (Hlost : fr_chain r ∉ fr_pending r) (Hrun : nsteps (fun a b => faucet_step a b \/ faucet_loss a b) n r r')
  (Hb : fc_nextSeq (fr_fc r) + Z.of_nat n < two64) (H0 : 0 <= fr_chain r) :
  fr_chain r' = fr_chain r /\ fr_chain r' ∉ fr_pending r'.
Proof.
  induction Hrun as [r|n r r1 r' Hs Hr IH]; [done|]. destruct Hs as [Hs|Hs].
  - destruct Hs as [r addr now Hc seq|r s rest E].
    + assert (Hseq : seq = fc_nextSeq (fr_fc r)).
      { unfold seq, next_sequence. by rewrite Hhave, (proj2 (Z.ltb_lt _ _) Hahead). }
      apply IH; cbn; rewrite ?Hseq, ?u64_small by (unfold is_u64; lia); [done|lia| |lia|done].
      rewrite not_elem_of_app, list_elem_of_singleton. split; [done|lia].
    + rewrite E, not_elem_of_cons in Hlost. destruct Hlost as [Hne Hlost].
      assert (Hs : (s =? fr_chain r) = false) by (apply Z.eqb_neq; congruence).
      rewrite Hs in IH. apply IH; cbn; [done..|lia|done].
  - destruct Hs as [r s rest E]. rewrite E, not_elem_of_cons in Hlost. apply IH; cbn; [done|done|apply Hlost|lia|done].
Qed.

(** Two payments to one address, as it is spelled in the request, are a cooldown apart. *)
Theorem faucet_cooldown (fc : faucetConfig Coins) (chain : Z) (r : faucet_run) (addr : string) (t1 t2 : Z) (l1 l2 l3 : list (string * Z))
  (Hnew : fc_lastSeen fc = ∅)
  (Hrun : rtc faucet_step {| fr_fc := fc; fr_chain := chain; fr_pending := []; fr_log := [] |} r)
  (Hlog : fr_log r = l3 ++ (addr, t2) :: l2 ++ (addr, t1) :: l1) (Hnext : addr ∉ l2.*1) :
  fc_cooldown fc <= RpcServer.time_Since t2 t1.
Proof.
  assert (Hinv : fc_cooldown (fr_fc r) = fc_cooldown fc /\
    (forall a, fc_lastSeen (fr_fc r) !! a = snd <$> head (filter (fun p => p.1 = a) (fr_log r))) /\
    forall a s1 s2 k1 k2 k3, fr_log r = k3 ++ (a, s2) :: k2 ++ (a, s1) :: k1 -> a ∉ k2.*1 -> fc_cooldown fc <= RpcServer.time_Since s2 s1).
  { clear Hlog. revert r Hrun. apply (rtc_ind_r (fun r => _)); [|intros r r' Hr Hs (IHc & IHl & IHt)].
    - cbn. split_and!; [done|intros a; by rewrite Hnew|]. intros a s1 s2 k1 k2 k3 E. by destruct k3.
    - destruct Hs as [r a now Hc seq|r s rest E]; [|done]. cbn [fr_fc fr_log paid fc_lastSeen fc_cooldown]. split_and!; [done| |].
      + intros b. destruct (decide (a = b)) as [->|Hne].
        * rewrite lookup_insert_eq, filter_cons_True by done. done.
        * rewrite lookup_insert_ne, filter_cons_False by done. apply IHl.
      + intros b s1 s2 k1 k2 [|x k3] E Hn; [|injection E as _ E; by eapply IHt].
        injection E as -> -> E. unfold cooling in Hc. rewrite IHl, E, filter_app in Hc.
        assert (Hnil : filter (fun p : string * Z => p.1 = b) k2 = []).
        { clear -Hn. induction k2 as [|[c t] k2 IH]; [done|]. cbn in Hn.
          apply not_elem_of_cons in Hn as [Hne Hn]. rewrite filter_cons_False by (cbn; congruence). by apply IH. }
        rewrite Hnil, filter_cons_True in Hc by done. cbn in Hc. rewrite IHc in Hc. apply Z.ltb_ge in Hc. done. }
  destruct Hinv as (_ & _ & H). by eapply H.
Qed.

(** The cooldown knows spellings, not accounts: another text for the address that has just been paid is paid
    as well. *)
Lemma cooldown_by_spelling (fc : faucetConfig Coins) (seq now : Z) (addr other : string) :
  other <> addr -> cooling (paid fc seq addr now) other now = cooling fc other now.
Proof. intros H. unfold cooling. cbn. by rewrite lookup_insert_ne. Qed.

End faucet_theorems.

(** ** Accounts, fees and genesis *)

(** Every signer has an account when the rest of the chain runs, and what was there is unchanged. *)
Theorem signers_have_accounts {A Acc : Type} (HasAccount : A -> bytes -> bool) (NewAccountWithAddress : A -> bytes -> A * Acc)
  (SetAccount : A -> Acc -> A) (get : A -> bytes -> option Acc)
  (has_get : forall s addr, HasAccount s addr = bool_decide (is_Some (get s addr)))
  (new_set : forall s addr s' acc, NewAccountWithAddress s addr = (s', acc) ->
     is_Some (get (SetAccount s' acc) addr) /\ forall addr', addr' <> addr -> get (SetAccount s' acc) addr' = get s addr')
  (sigs : list (option bytes)) (s : A) :
  let s' := create_accounts HasAccount NewAccountWithAddress SetAccount sigs s in
  (forall addr, Some addr ∈ sigs -> HasAccount s' addr = true) /\
  (forall addr acc, get s addr = Some acc -> get s' addr = Some acc) /\
  (forall addr, Some addr ∉ sigs -> get s' addr = get s addr).
Proof.
  cbn. revert s. induction sigs as [|sig sigs IH]; intros s; [by split_and!; [intros ? ?%not_elem_of_nil|..]|].
  unfold create_accounts in *. cbn [foldl].
  set (s1 := match sig with Some addr => _ | None => s end). specialize (IH s1) as (IH1 & IH2 & IH3).
  assert (Hs1 : (forall addr, sig = Some addr -> is_Some (get s1 addr)) /\ (forall addr acc, get s addr = Some acc -> get s1 addr = Some acc) /\
    forall addr, sig <> Some addr -> get s1 addr = get s addr).
  { unfold s1. destruct sig as [a|]; [|done]. rewrite has_get. case_bool_decide as Hh; [by split_and!; [intros ? [= <-]|..]|].
    destruct (NewAccountWithAddress s a) as [s2 acc] eqn:E. destruct (new_set _ _ _ _ E) as [H1 H2].
    split_and!; [by intros ? [= <-]| |].
    - intros addr acc' Ha. rewrite H2; [done|]. intros ->. apply Hh. eauto.
    - intros addr Hne. apply H2. congruence. }
  destruct Hs1 as (Ha & Hb & Hc). split_and!.
  - intros addr [<-|Hin]%elem_of_cons; [|by apply IH1]. rewrite has_get. apply bool_decide_eq_true.
    destruct (Ha addr eq_refl) as [acc E]. exists acc. by apply IH2.
  - intros addr acc E. by apply IH2, Hb.
  - intros addr [H1 H2]%not_elem_of_cons. rewrite IH3 by done. apply Hc. congruence.
Qed.

(** Without a treasury a block ends as its modules end; with one, a transfer that is refused fails the block. *)
Lemma EndBlocker_outcome {Dec Coins B R : Type} `{CL : CosmosLib Dec Coins} GetAllBalances Send GetModuleAddress env
  (modules : B -> B * res R) (b b1 : B) (resp : R) : modules b = (b1, Ok resp) ->
  let r := EndBlocker (CL := CL) GetAllBalances Send GetModuleAddress env modules b in
  (treasuryAddrFromEnv (CL := CL) env = [] -> r = modules b) /\
  (forall b2 e, treasuryAddrFromEnv (CL := CL) env <> [] ->
     let balance := GetAllBalances b1 (GetModuleAddress FeeCollectorName) in
     coins_IsZero balance = false -> Send FeeCollectorName (treasuryAddrFromEnv (CL := CL) env) balance b1 = (b2, Err e) -> r = (b2, Err e)).
Proof.
  intros E. cbn. unfold EndBlocker, sweepFeesToTreasury. rewrite E. split.
  - intros ->. by rewrite bool_decide_true.
  - intros b2 e Ht Hz Hs. by rewrite bool_decide_false, Hz, Hs.
Qed.

(** The genesis has the given balances after those of the default, no supply, and the other modules as they
    were. *)
Theorem genesis_has_balances {Dec Coins Raw P : Type} `{CL : CosmosLib Dec Coins}
  (unbank : Raw -> res (bank_genesis (Coins := Coins) (P := P))) bank unstate state zero_bank
  (bank_law : forall g raw, bank g = Ok raw -> unbank raw = Ok g) (state_law : forall m b, state m = Ok b -> unstate b = Ok m)
  (DefaultGenesis out : bytes) (m : gmap string Raw) (raw : Raw) (g : bank_genesis) (balances : list (string * Coins)) :
  unstate DefaultGenesis = Ok m -> m !! "bank"%string = Some raw -> unbank raw = Ok g ->
  GenesisWithBalances (CL := CL) unbank bank unstate state zero_bank DefaultGenesis balances = Ok out ->
  exists m' raw', unstate out = Ok m' /\ m' !! "bank"%string = Some raw' /\
    unbank raw' = Ok {| bg_Balances := bg_Balances g ++ balances; bg_Supply := no_coins; bg_rest := bg_rest g |} /\
    forall k, k <> "bank"%string -> m' !! k = m !! k.
Proof.
  intros Em Er Eg. unfold GenesisWithBalances. rewrite Em. cbn [wrap_err res_bind]. rewrite Er, Eg. cbn [wrap_err res_bind].
  intros (raw' & Ep%wrap_err_ok & E%wrap_err_ok)%res_bind_ok. exists (<["bank"%string := raw']> m), raw'.
  split_and!; [by apply state_law|by rewrite lookup_insert_eq|by apply bank_law|]. intros k Hk. by rewrite lookup_insert_ne.
Qed.

(** ** A reference library and a faucet *)

Module CosmosAppWitness.

(** Prices are read in millionths; an address is its text in lower case. *)
#[export] Instance ref_lib : CosmosLib Z (gmap string Z) := {|
  LegacyNewDecFromStr s := match parse_dec 0 s with Some n => Ok (n * 10 ^ 12) | None => Err (EMsg "failed to set decimal string") end;
  LegacyZeroDec := 0; dec_IsPositive d := 0 <? d; dec_MulInt d i := Ok (d * i); dec_Ceil d := - (- d / places) * places;
  dec_RoundInt d := Ok (d / places); AmountOf c denom := default 0 (c !! denom); NewCoins denom a := Ok {[denom := a]}; no_coins := ∅;
  coins_IsZero c := bool_decide (c = ∅); coins_IsValid _ := true;
  ParseCoinsNormalized s := if bool_decide (s = EmptyString) then Ok ∅ else Ok {["ustake"%string := 1000000]};
  AccAddressFromBech32 s := if bool_decide (s = EmptyString) then Err (EMsg "empty address string is not allowed")
                            else Ok (String.list_byte_of_string (ToLower s)) |}.
#[export] Instance ref_lib_laws : CosmosLibLaws Z (gmap string Z).
Proof.
  refine {| dec_val := fun d : Z => d |}; cbn; try done.
  - by intros d i r [= <-].
  - intros d n [= <-] Hm. rewrite Z.mul_comm. apply Z.div_exact; done.
  - intros denom a c _ [= <-]. by rewrite lookup_singleton_eq.
Defined.

#[export] Instance ref_tx : TxLib string (gmap string Z) := {|
  secp_PubKey key := key; secp_Address key := hex_encode key; MsgSend from to _ := String.append from to;
  encode_signed _ d := Ok (x01 :: RefCodec.pos_bytes (encode (map_to_list (sd_Fee d), sd_GasLimit d)));
  decode_fee_tx b := match b with
                     | [] => None
                     | _ :: b => '(l, gas) ← RefCodec.bytes_pos b ≫= decode (A := list (string * Z) * Z); Some (list_to_map l, gas)
                     end |}.
#[export] Instance ref_tx_laws : TxLibLaws string (gmap string Z).
Proof.
  split. intros key d b [= <-]. split; [|done]. unfold decode_fee_tx, ref_tx. rewrite RefCodec.bytes_pos_bytes. cbn [mbind option_bind]. rewrite decode_encode. cbn.
  by rewrite list_to_map_to_list.
Qed.

#[export] Instance toy_queries : AppQueries CosmosWitness.toy (gmap string Z) := {|
  app_GetAccount t _ _ := Some (7, blen (CosmosWitness.ty_versions t)); app_PeekAccountNumber _ _ := Ok 8; app_GetAllBalances _ _ _ := ∅;
  app_GetBalance _ _ _ _ := "0"%string; app_Simulate _ tx := Ok (1000, 5000); app_QuerySmart _ _ _ msg _ := Ok msg |}.
#[export] Existing Instance CosmosWitness.toy_app.

(** 0.025ustake for a unit of gas *)
Definition env (k : string) : string := if bool_decide (k = "COSMOS_EXEC_MIN_GAS_PRICE"%string) then " 25000 " else EmptyString.
Definition faucet (gas : Z) : faucetConfig (gmap string Z) := {|
  fc_privHex := hex_encode (replicate 32 x01); fc_treasury := "treasury"; fc_genesisAmt := ∅; fc_payout := {["ustake"%string := 1000000]};
  fc_gas := gas; fc_cooldown := 100; fc_lastSeen := ∅; fc_haveSeq := false; fc_nextSeq := 0 |}.

Definition paying (n : Z) : gmap string Z := {["ustake"%string := n]}.
Definition policy : feePolicy Z := feePolicyFromEnv (Coins := gmap string Z) env.
Lemma txFeeChecker_exact_witness :
  is_ok (txFeeChecker policy false (Some (paying 5000, 200000))) = true /\ is_ok (txFeeChecker policy false (Some (paying 4999, 200000))) = false.
Proof.
  assert (Hr : is_ok (requiredFee (Coins := gmap string Z) policy 200000) = true) by (vm_compute; reflexivity).
  split.
  - apply (proj1 (txFeeChecker_exact policy (paying 5000) 200000 Hr)). right. vm_compute. discriminate.
  - destruct (is_ok (txFeeChecker policy false (Some (paying 4999, 200000)))) eqn:E; [|done].
    apply (proj1 (txFeeChecker_exact policy (paying 4999) 200000 Hr)) in E as [E|E]; vm_compute in E; by destruct E.
Defined.

Definition payment_of (gas : Z) : bytes := match payment (M := string) env (faucet gas) "chain" "alice" 7 3 with Ok tx => tx | Err _ => [] end.
Lemma payment_fee_witness : is_ok (txFeeChecker policy false (decode_fee_tx (payment_of 200000))) = true /\
  txFeeChecker policy false (decode_fee_tx (payment_of 0)) = Err (EWrap "insufficient fee" ErrInsufficientFee).
Proof.
  split.
  - refine (proj1 (payment_fee (M := string) env (faucet 200000) "chain" "alice" 7 3 (payment_of 200000) _) _); [vm_compute; reflexivity|done].
  - refine (proj2 (payment_fee (M := string) env (faucet 0) "chain" "alice" 7 3 (payment_of 0) _) eq_refl _ _); vm_compute; reflexivity.
Defined.

(** Two payments, then the first is executed. *)
Definition run0 : faucet_run (Coins := gmap string Z) := {| fr_fc := faucet 200000; fr_chain := 5; fr_pending := []; fr_log := [] |}.
Definition run1 : faucet_run := {| fr_fc := paid (faucet 200000) 5 "alice" 1000; fr_chain := 5; fr_pending := [5]; fr_log := [("alice"%string, 1000)] |}.
Definition run2 : faucet_run := {| fr_fc := paid (fr_fc run1) 6 "alice" 1200; fr_chain := 5; fr_pending := [5; 6];
  fr_log := [("alice"%string, 1200); ("alice"%string, 1000)] |}.
Definition run3 : faucet_run := {| fr_fc := fr_fc run2; fr_chain := 6; fr_pending := [6]; fr_log := fr_log run2 |}.
Lemma runs : rtc faucet_step run0 run3 /\ rtc faucet_step run0 run2.
Proof.
  assert (H1 : faucet_step run0 run1) by (apply (fs_pay run0 "alice" 1000); vm_compute; reflexivity).
  assert (H2 : faucet_step run1 run2) by (apply (fs_pay run1 "alice" 1200); vm_compute; reflexivity).
  assert (H3 : faucet_step run2 run3) by (apply (fs_execute run2 5 [6]); done).
  split; [apply (rtc_l _ _ run1), (rtc_l _ _ run2), (rtc_l _ _ run3)|apply (rtc_l _ _ run1), (rtc_l _ _ run2)]; done.
Qed.
Lemma faucet_sequences_witness : fr_pending run3 = seqZ 6 1.
Proof. exact (faucet_sequences (faucet 200000) 5 run3 eq_refl ltac:(lia) (proj1 runs) eq_refl). Defined.
Lemma faucet_cooldown_witness : 100 <= RpcServer.time_Since 1200 1000.
Proof.
  refine (faucet_cooldown (faucet 200000) 5 run2 "alice" 1000 1200 [] [] [] eq_refl (proj2 runs) eq_refl _). apply not_elem_of_nil.
Defined.

(** The first payment is lost: the second one fails, and so does a third. *)
Definition lost : faucet_run := {| fr_fc := fr_fc run2; fr_chain := 5; fr_pending := [6]; fr_log := fr_log run2 |}.
Definition after_lost : faucet_run := {| fr_fc := fr_fc run2; fr_chain := 5; fr_pending := []; fr_log := fr_log run2 |}.
Lemma faucet_stuck_witness : fr_chain after_lost = 5.
Proof.
  refine (proj1 (faucet_stuck lost after_lost 1 eq_refl eq_refl _ _ eq_refl ltac:(done))).
  - cbn. rewrite list_elem_of_singleton. done.
  - eapply nsteps_l; [left; exact (fs_execute lost 6 [] eq_refl)|]. apply nsteps_O.
Defined.

Definition keeper_get (m : gmap bytes Z) (a : bytes) : option (bytes * Z) := (fun z => (a, z)) <$> m !! a.
Definition keeper_has (m : gmap bytes Z) (a : bytes) : bool := bool_decide (is_Some (keeper_get m a)).
Definition keeper_new (m : gmap bytes Z) (a : bytes) : gmap bytes Z * (bytes * Z) := (m, (a, Z.of_nat (size m))).
Definition keeper_set (m : gmap bytes Z) (acc : bytes * Z) : gmap bytes Z := <[acc.1 := acc.2]> m.
Lemma signers_have_accounts_witness :
  keeper_has (create_accounts keeper_has keeper_new keeper_set [Some [x01]; None; Some [x02]] {[ [x01] := 4 ]}) [x02] = true.
Proof.
  refine (proj1 (signers_have_accounts keeper_has keeper_new keeper_set keeper_get _ _ [Some [x01]; None; Some [x02]] {[ [x01] := 4 ]}) [x02] _).
  - done.
  - intros m a m' acc [= <- <-]. unfold keeper_get, keeper_set. cbn. rewrite lookup_insert_eq. split; [by eexists|].
    intros a' Hne. by rewrite lookup_insert_ne.
  - rewrite !elem_of_cons. auto.
Defined.

(** A genesis of two modules, one of them the bank with one balance. *)
Definition w_unbank (raw : bytes) : res (bank_genesis (Coins := gmap string Z) (P := unit)) :=
  match RefCodec.bytes_pos raw ≫= decode (A := list (string * list (string * Z)) * list (string * Z)) with
  | Some (l, supply) => Ok {| bg_Balances := (fun p => (p.1, list_to_map p.2)) <$> l; bg_Supply := list_to_map supply; bg_rest := tt |}
  | None => Err (EMsg "invalid character")
  end.
Definition w_bank (g : bank_genesis (Coins := gmap string Z) (P := unit)) : res bytes :=
  Ok (RefCodec.pos_bytes (encode ((fun p => (p.1, map_to_list p.2)) <$> bg_Balances g, map_to_list (bg_Supply g)))).
Definition w_unstate (b : bytes) : res (gmap string bytes) :=
  match RefCodec.bytes_pos b ≫= decode (A := list (string * bytes)) with Some l => Ok (list_to_map l) | None => Err (EMsg "invalid character") end.
Definition w_state (m : gmap string bytes) : res bytes := Ok (RefCodec.pos_bytes (encode (map_to_list m))).
Lemma w_bank_law g raw : w_bank g = Ok raw -> w_unbank raw = Ok g.
Proof.
  intros [= <-]. unfold w_unbank. rewrite RefCodec.bytes_pos_bytes. cbn [mbind option_bind]. rewrite decode_encode. destruct g as [l supply []]. cbn.
  rewrite list_to_map_to_list. do 2 f_equal. rewrite <- list_fmap_compose. rewrite <- (list_fmap_id l) at 2. apply list_fmap_ext.
  intros i [a c] _. cbn. by rewrite list_to_map_to_list.
Qed.
Lemma w_state_law m b : w_state m = Ok b -> w_unstate b = Ok m.
Proof.
  intros [= <-]. unfold w_unstate. rewrite RefCodec.bytes_pos_bytes. cbn [mbind option_bind]. rewrite decode_encode. by rewrite list_to_map_to_list.
Qed.
Definition w_default : bank_genesis (Coins := gmap string Z) (P := unit) := {| bg_Balances := [("bob"%string, ∅)]; bg_Supply := ∅; bg_rest := tt |}.
Definition w_default_raw : bytes := match w_bank w_default with Ok b => b | Err _ => [] end.
Definition w_modules : gmap string bytes := {["bank"%string := w_default_raw; "auth"%string := [x01]]}.
Definition w_genesis : bytes := match w_state w_modules with Ok b => b | Err _ => [] end.
Definition w_out : bytes :=
  match GenesisWithBalances w_unbank w_bank w_unstate w_state w_default w_genesis [("treasury"%string, ∅)] with Ok b => b | Err _ => [] end.
Lemma genesis_has_balances_witness : exists m' raw', w_unstate w_out = Ok m' /\ m' !! "bank"%string = Some raw' /\
  w_unbank raw' = Ok {| bg_Balances := [("bob"%string, ∅); ("treasury"%string, ∅)]; bg_Supply := ∅; bg_rest := tt |} /\
  forall k, k <> "bank"%string -> m' !! k = w_modules !! k.
Proof.
  refine (genesis_has_balances w_unbank w_bank w_unstate w_state w_default w_bank_law w_state_law w_genesis w_out w_modules w_default_raw w_default
    [("treasury"%string, ∅)] _ _ _ _); [apply w_state_law; reflexivity|reflexivity|apply w_bank_law; reflexivity|vm_compute; reflexivity].
Defined.

End CosmosAppWitness.

End CosmosApp.
