(* ===== verification/CosmosServer.v ===== *)
(** The HTTP server of the Cosmos executor: its configuration (apps/cosmos-exec/config), and of
    apps/cosmos-exec/cmd/cosmos-exec-grpc the options of the process and the handlers (main.go), the
    middleware (middleware.go), the counters (metrics.go) and the cost estimate (cost.go), over the modelled
    executor and faucet.

    A handler is a function of the request and of the executor. JSON is a class of parsers; a reply is a
    value, written as JSON with its status. The executor's gRPC service is one of the routes. *)

From Stdlib Require Import SpecFloat.
From S2P Require Import Prelude Sha256 Interfaces Types Store Replay Sdk BatchingStrategy Raft CosmosExec Config RpcServer Base64 CosmosApp.

(** ** JSON requests *)

Record submitTxRequest := { sq_TxBase64 : string; sq_TxHex : string }.
Record estimateRequest := { eq_TxBase64 : string; eq_TxHex : string; eq_Hash : string; eq_Bytes : Z; eq_Gas : Z }.
Record querySmartRequest := { qq_Contract : string; qq_Msg : bytes }.
Class ServerJSON := {
  parse_submit : bytes -> res submitTxRequest;
  parse_estimate : bytes -> res estimateRequest;
  parse_query : bytes -> res querySmartRequest;
  parse_target_height : bytes -> res Z;
  parse_height : bytes -> res Z;
  (** whether a text is a JSON value *)
  json_Valid : bytes -> bool;
}.

Module CosmosServer.
Import CosmosExec CosmosApp.

(** ** Configuration (config.go) *)

Inductive Profile := ProfileDev | ProfileTest | ProfileProd | OtherProfile (p : string).

Record Config := {
  ListenAddr : string; Home : string; InMemory : bool; BlockTime : Z; QueryGasMax : Z; MaxBlobSize : Z; MaxStoreTotalSize : Z;
  PersistBlobs : bool; PersistTxResults : bool; DataDir : string; LogLevel : string; AuthToken : string; CORSAllowOrigin : string;
  MaxRequestBodyBytes : Z; RateLimitRPS : Z; ReadOnlyMode : bool; MetricsEnabled : bool; MetricsAddr : string; ReadTimeout : Z;
  WriteTimeout : Z; IdleTimeout : Z; profile : Profile }.

Definition DefaultConfig : Config := {|
  ListenAddr := "0.0.0.0:50051"; Home := ".cosmos-exec-grpc"; InMemory := false; BlockTime := 2 * Config.Second; QueryGasMax := 50000000;
  MaxBlobSize := 4 * 1024 * 1024; MaxStoreTotalSize := 256 * 1024 * 1024; PersistBlobs := false; PersistTxResults := false;
  DataDir := EmptyString; LogLevel := "info"; AuthToken := EmptyString; CORSAllowOrigin := "*"; MaxRequestBodyBytes := 10 * 1024 * 1024;
  RateLimitRPS := 0; ReadOnlyMode := false; MetricsEnabled := false; MetricsAddr := "127.0.0.1:9090"; ReadTimeout := 30 * Config.Second;
  WriteTimeout := 30 * Config.Second; IdleTimeout := 120 * Config.Second; profile := ProfileDev |}.

Definition ForProfile (p : Profile) : Config :=
  let d := DefaultConfig in
  match p with
  | ProfileTest => {|
      ListenAddr := "127.0.0.1:0"; Home := EmptyString; InMemory := true; BlockTime := BlockTime d; QueryGasMax := QueryGasMax d;
      MaxBlobSize := MaxBlobSize d; MaxStoreTotalSize := 16 * 1024 * 1024; PersistBlobs := PersistBlobs d; PersistTxResults := PersistTxResults d;
      DataDir := DataDir d; LogLevel := "error"; AuthToken := AuthToken d; CORSAllowOrigin := CORSAllowOrigin d;
      MaxRequestBodyBytes := MaxRequestBodyBytes d; RateLimitRPS := RateLimitRPS d; ReadOnlyMode := ReadOnlyMode d;
      MetricsEnabled := MetricsEnabled d; MetricsAddr := MetricsAddr d; ReadTimeout := ReadTimeout d; WriteTimeout := WriteTimeout d;
      IdleTimeout := IdleTimeout d; profile := p |}
  | ProfileProd => {|
      ListenAddr := ListenAddr d; Home := Home d; InMemory := InMemory d; BlockTime := BlockTime d; QueryGasMax := QueryGasMax d;
      MaxBlobSize := MaxBlobSize d; MaxStoreTotalSize := 1024 * 1024 * 1024; PersistBlobs := true; PersistTxResults := true;
      DataDir := DataDir d; LogLevel := "info"; AuthToken := AuthToken d; CORSAllowOrigin := EmptyString;
      MaxRequestBodyBytes := MaxRequestBodyBytes d; RateLimitRPS := 100; ReadOnlyMode := ReadOnlyMode d; MetricsEnabled := true;
      MetricsAddr := MetricsAddr d; ReadTimeout := 15 * Config.Second; WriteTimeout := 15 * Config.Second; IdleTimeout := 60 * Config.Second;
      profile := p |}
  | _ => {|
      ListenAddr := ListenAddr d; Home := Home d; InMemory := InMemory d; BlockTime := BlockTime d; QueryGasMax := QueryGasMax d;
      MaxBlobSize := MaxBlobSize d; MaxStoreTotalSize := MaxStoreTotalSize d; PersistBlobs := PersistBlobs d;
      PersistTxResults := PersistTxResults d; DataDir := DataDir d; LogLevel := LogLevel d; AuthToken := AuthToken d;
      CORSAllowOrigin := CORSAllowOrigin d; MaxRequestBodyBytes := MaxRequestBodyBytes d; RateLimitRPS := RateLimitRPS d;
      ReadOnlyMode := ReadOnlyMode d; MetricsEnabled := MetricsEnabled d; MetricsAddr := MetricsAddr d; ReadTimeout := ReadTimeout d;
      WriteTimeout := WriteTimeout d; IdleTimeout := IdleTimeout d; profile := p |}
  end.

Definition parseBool (s : string) : bool := bool_decide (ToLower (TrimSpace s) ∈ ["true"; "1"; "yes"]%string).

Section load.
(** [time.ParseDuration], in nanoseconds *)
Context (ParseDuration : string -> res Z).
Definition var {A} (env : string -> string) (key : string) (old : A) (f : string -> A) : A :=
  let v := env key in if bool_decide (v = EmptyString) then old else f v.
Definition number (env : string -> string) (key : string) (old : Z) (parse : string -> res Z) (ok : Z -> bool) : Z :=
  var env key old (fun v => match parse v with Ok n => if ok n then n else old | Err _ => old end).

Definition LoadFromEnv (env : string -> string) (c : Config) : Config := {|
  ListenAddr := var env "COSMOS_EXEC_LISTEN_ADDR" (ListenAddr c) id;
  Home := var env "COSMOS_EXEC_HOME" (Home c) id;
  InMemory := var env "COSMOS_EXEC_IN_MEMORY" (InMemory c) parseBool;
  BlockTime := number env "COSMOS_EXEC_BLOCK_TIME" (BlockTime c) ParseDuration (fun _ => true);
  QueryGasMax := number env "COSMOS_EXEC_QUERY_GAS_MAX" (QueryGasMax c) ParseUint (fun _ => true);
  MaxBlobSize := number env "COSMOS_EXEC_MAX_BLOB_SIZE" (MaxBlobSize c) ParseInt (Z.ltb 0);
  MaxStoreTotalSize := number env "COSMOS_EXEC_MAX_STORE_SIZE" (MaxStoreTotalSize c) ParseInt (Z.ltb 0);
  PersistBlobs := var env "COSMOS_EXEC_PERSIST_BLOBS" (PersistBlobs c) parseBool;
  PersistTxResults := var env "COSMOS_EXEC_PERSIST_TX_RESULTS" (PersistTxResults c) parseBool;
  DataDir := var env "COSMOS_EXEC_DATA_DIR" (DataDir c) id;
  LogLevel := var env "COSMOS_EXEC_LOG_LEVEL" (LogLevel c) id;
  AuthToken := var env "COSMOS_EXEC_AUTH_TOKEN" (AuthToken c) id;
  CORSAllowOrigin := var env "COSMOS_EXEC_CORS_ORIGIN" (CORSAllowOrigin c) id;
  MaxRequestBodyBytes := number env "COSMOS_EXEC_MAX_BODY_BYTES" (MaxRequestBodyBytes c) ParseInt (Z.ltb 0);
  RateLimitRPS := number env "COSMOS_EXEC_RATE_LIMIT_RPS" (RateLimitRPS c) ParseInt (Z.leb 0);
  ReadOnlyMode := var env "COSMOS_EXEC_READ_ONLY" (ReadOnlyMode c) parseBool;
  MetricsEnabled := var env "COSMOS_EXEC_METRICS" (MetricsEnabled c) parseBool;
  MetricsAddr := var env "COSMOS_EXEC_METRICS_ADDR" (MetricsAddr c) id;
  ReadTimeout := ReadTimeout c; WriteTimeout := WriteTimeout c; IdleTimeout := IdleTimeout c;
  profile := var env "COSMOS_EXEC_PROFILE" (profile c) (fun v =>
    let v := ToLower v in
    if bool_decide (v = "dev"%string) then ProfileDev else if bool_decide (v = "test"%string) then ProfileTest
    else if bool_decide (v = "prod"%string) then ProfileProd else profile c) |}.
End load.

Definition Validate (c : Config) : res unit :=
  if bool_decide (ListenAddr c = EmptyString) then Err (EMsg "listen_addr is required")
  else if QueryGasMax c =? 0 then Err (EMsg "query_gas_max must be > 0")
  else if MaxBlobSize c <=? 0 then Err (EMsg "max_blob_size must be > 0")
  else if MaxStoreTotalSize c <=? 0 then Err (EMsg "max_store_total_size must be > 0")
  else Ok tt.

Definition ResolveDataDir (c : Config) : string :=
  if negb (bool_decide (DataDir c = EmptyString)) then DataDir c
  else if negb (bool_decide (Home c = EmptyString)) then String.append (Home c) "/data"
  else EmptyString.

(** *** The process (main.go): where the database and the persistence are *)

Inductive database := MemDB | GoLevelDB (dir : string).
Definition openDatabase (dataDir : string) (inMemory : bool) : database :=
  if inMemory then MemDB else GoLevelDB (if bool_decide (dataDir = EmptyString) then ".cosmos-exec-grpc/data" else dataDir).
(** The directory of the executor's persistence, if there is one. *)
Definition persist_dir (c : Config) : option string :=
  let persist := if negb (InMemory c) then true else PersistTxResults c in
  let dir := ResolveDataDir c in
  if persist && negb (bool_decide (dir = EmptyString)) then Some dir else None.

(** ** Middleware (middleware.go) *)

(** A request: [rq_body] is what reading the whole body gives; [rq_query] and [rq_path] are its parameters. *)
Record request := {
  rq_Method : method; rq_auth : string; rq_forwarded : string; rq_remote : string; rq_body : bytes; rq_readErr : option err;
  rq_query : string -> string; rq_path : string; rq_ctxErr : option err }.

Record tokenBucket := { tokens : spec_float; lastTime : Z }.
Record ipRateLimiter := { buckets : gmap string tokenBucket; rps : Z }.
Definition newIPRateLimiter (rps : Z) : ipRateLimiter := {| buckets := ∅; rps := rps |}.

(** [Duration.Seconds] *)
Definition Seconds (d : Z) : spec_float :=
  RpcServer.f_add (Strategy.f_of_int (Z.quot d Config.Second)) (RpcServer.f_div (Strategy.f_of_int (Z.rem d Config.Second)) (Strategy.f_of_int Config.Second)).

Definition refill (limit : Z) (now : Z) (b : tokenBucket) : spec_float :=
  let elapsed := Seconds (RpcServer.time_Since now (lastTime b)) in
  let t := RpcServer.f_add (tokens b) (Strategy.f_mul elapsed (Strategy.f_of_int limit)) in
  if Strategy.f_lt (Strategy.f_of_int limit) t then Strategy.f_of_int limit else t.

Definition allow (ip : string) (now : Z) (l : ipRateLimiter) : ipRateLimiter * bool :=
  let b := default {| tokens := Strategy.f_of_int (rps l); lastTime := now |} (buckets l !! ip) in
  let t := refill (rps l) now b in
  let put t := {| buckets := <[ip := {| tokens := t; lastTime := now |}]> (buckets l); rps := rps l |} in
  if Strategy.f_lt t Strategy.f_one then (put t, false) else (put (SFsub 53 1024 t Strategy.f_one), true).

(** [strings.LastIndex] and the text before it *)
Fixpoint before_last (sep : Ascii.ascii) (s : string) : option string :=
  match s with
  | EmptyString => None
  | String.String c s =>
      match before_last sep s with
      | Some p => Some (String.String c p)
      | None => if Ascii.eqb c sep then Some EmptyString else None
      end
  end.
Definition extractIP (r : request) : string :=
  if negb (bool_decide (rq_forwarded r = EmptyString)) then TrimSpace (hd EmptyString (Raft.strings_Split "," (rq_forwarded r)))
  else default (rq_remote r) (before_last ":" (rq_remote r)).

(** The value of Access-Control-Allow-Origin *)
Definition allowed_origin (c : Config) : string :=
  if bool_decide (CORSAllowOrigin c = EmptyString) then "*" else CORSAllowOrigin c.

Inductive gate := Stop (status : Z) | Pass (maxBody : option Z).
Definition securityMiddleware (c : Config) (limiter : option ipRateLimiter) (r : request) (now : Z) : option ipRateLimiter * gate :=
  let post := bool_decide (rq_Method r = POST) in
  if bool_decide (rq_Method r = OPTIONS) then (limiter, Stop 204)
  else if ReadOnlyMode c && post then (limiter, Stop 403)
  else if negb (bool_decide (AuthToken c = EmptyString)) && post &&
          negb (bool_decide (rq_auth r = String.append "Bearer " (AuthToken c))) then (limiter, Stop 401)
  else
    let limit := if (0 <? MaxRequestBodyBytes c) && post then Some (MaxRequestBodyBytes c) else None in
    match limiter with
    | None => (None, Pass limit)
    | Some l => let '(l, ok) := allow (extractIP r) now l in (Some l, if ok then Pass limit else Stop 429)
    end.

(** [io.ReadAll] of a body limited by the middleware and by the handler. *)
Definition read_body (maxBody : option Z) (limit : Z) (r : request) : res bytes :=
  match rq_readErr r with
  | Some e => Err e
  | None =>
      match maxBody with
      | Some n => if (n <? limit) && (n <? blen (rq_body r)) then Err (EMsg "http: request body too large")
                  else Ok (take (Z.to_nat limit) (rq_body r))
      | None => Ok (take (Z.to_nat limit) (rq_body r))
      end
  end.

(** ** Counters (metrics.go) *)

Record Metrics := { requestCount : Z; errorCount : Z; txSubmitCount : Z; queryCount : Z }.
Definition newMetrics : Metrics := {| requestCount := 0; errorCount := 0; txSubmitCount := 0; queryCount := 0 |}.
Inductive metric_kind := KTxSubmit | KQuery | KOther.
Definition withMetrics (k : metric_kind) (m : Metrics) : Metrics := {|
  requestCount := requestCount m; errorCount := errorCount m;
  txSubmitCount := match k with KTxSubmit => i64 (txSubmitCount m + 1) | _ => txSubmitCount m end;
  queryCount := match k with KQuery => i64 (queryCount m + 1) | _ => queryCount m end |}.
Definition incRequest (m : Metrics) : Metrics := {|
  requestCount := i64 (requestCount m + 1); errorCount := errorCount m; txSubmitCount := txSubmitCount m; queryCount := queryCount m |}.
Definition incError (m : Metrics) : Metrics := {|
  requestCount := requestCount m; errorCount := i64 (errorCount m + 1); txSubmitCount := txSubmitCount m; queryCount := queryCount m |}.

(** ** The cost estimate (cost.go) *)

(** math/big: 80 bits of mantissa; [big_Text n x] is [x] with [n] decimals. *)
Class BigFloat (F : Type) := {
  big_Parse : string -> res F;
  big_zero : F;
  big_SetUint64 : Z -> F;
  big_Mul : F -> F -> F;
  big_Text : Z -> F -> string;
}.

(** [strings.TrimRight] of one character *)
Fixpoint TrimRight (t : Ascii.ascii) (s : string) : string :=
  match s with
  | EmptyString => EmptyString
  | String.String c s =>
      match TrimRight t s with
      | EmptyString => if Ascii.eqb c t then EmptyString else String.String c EmptyString
      | s' => String.String c s'
      end
  end.
Definition trimZeros (s : string) : string :=
  if negb (bool_decide ("."%char ∈ String.list_ascii_of_string s)) then s
  else
    let s := TrimRight "." (TrimRight "0" s) in
    if bool_decide (s = EmptyString) || bool_decide (s = "-"%string) then "0" else s.

Record CostBreakdown := {
  cb_Bytes : Z; cb_Gas : Z; EstDAAmount : string; EstDADenom : string; EstGasAmount : string; EstGasDenom : string;
  DAPricePerByte : string; cb_MinGasPrice : string }.

Section cost.
Context {F : Type} `{BF : BigFloat F}.
Record costPolicy := {
  tiaPerByte : F; cp_minGasPrice : F; daDenom : string; gasDenom : string; tiaPerByteStr : string; minGasPriceStr : string }.
Definition mustBigFloat (s : string) : F := match big_Parse s with Ok f => f | Err _ => big_zero end.
Definition getCostPolicy (env : string -> string) : costPolicy :=
  let tiaStr := envOr env "COSMOS_EXEC_TIA_PER_BYTE" "0.000000214" in
  let gasStr := envOr env "COSMOS_EXEC_MIN_GAS_PRICE" "0.000001" in
  {| tiaPerByte := mustBigFloat tiaStr; cp_minGasPrice := mustBigFloat gasStr; daDenom := envOr env "COSMOS_EXEC_DA_DENOM" "TIA";
     gasDenom := envOr env "COSMOS_EXEC_GAS_DENOM" "ustake"; tiaPerByteStr := tiaStr; minGasPriceStr := gasStr |}.
Definition estimate (p : costPolicy) (bytes gas : Z) : CostBreakdown := {|
  cb_Bytes := bytes; cb_Gas := gas; EstDAAmount := trimZeros (big_Text 12 (big_Mul (big_SetUint64 bytes) (tiaPerByte p)));
  EstDADenom := daDenom p; EstGasAmount := trimZeros (big_Text 6 (big_Mul (big_SetUint64 gas) (cp_minGasPrice p)));
  EstGasDenom := gasDenom p; DAPricePerByte := tiaPerByteStr p; cb_MinGasPrice := minGasPriceStr p |}.
End cost.

(** ** Handlers (main.go) *)

Definition maxTxSize : Z := 10 * 1024 * 1024.
Definition maxQueryMsgSize : Z := 256 * 1024.
Definition maxHashLen : Z := 128.

Definition hex_DecodeString (s : string) : res bytes :=
  match hex_decode s with Some b => Ok b | None => Err (EMsg "encoding/hex: invalid input") end.
Definition decodeTx (hexInput base64Input : string) : res bytes :=
  let nonempty bz := if blen bz =? 0 then Err (EMsg "tx cannot be empty") else Ok bz in
  let hexInput := TrimSpace hexInput in
  if negb (bool_decide (hexInput = EmptyString)) then
    let? bz := wrap_err "invalid tx_hex" (hex_DecodeString (TrimPrefix "0X" (TrimPrefix "0x" hexInput))) in nonempty bz
  else
    let base64Input := TrimSpace base64Input in
    if negb (bool_decide (base64Input = EmptyString)) then
      let? bz := wrap_err "invalid tx_base64" (Base64.decode64 base64Input) in nonempty bz
    else Err (EMsg "tx_base64 or tx_hex is required").

(** Replies in sequence: the first failure is the reply. *)
Definition reply_bind {X R} (m : reply X) (k : X -> reply R) : reply R :=
  match m with Reply x => k x | Fail st e => Fail st e | Dropped => Dropped end.
Definition on_err {X} (status : Z) (r : res X) : reply X := match r with Ok x => Reply x | Err e => Fail status e end.
Definition require_method (m : method) (r : request) : reply unit :=
  if bool_decide (rq_Method r = m) then Reply tt else Fail 405 (EMsg "method not allowed").
Definition guard (status : Z) (bad : bool) (msg : string) : reply unit := if bad then Fail status (EMsg msg) else Reply tt.
Notation "'let&' x ':=' m 'in' k" := (reply_bind m (fun x => k)) (at level 10, x pattern, m at level 100, k at level 200) : chain_scope.

(** The JSON of a POST whose body the handler reads up to [limit]. *)
Definition post_json {X} (parse : bytes -> res X) (maxBody : option Z) (limit : Z) (r : request) : reply X :=
  let& _ := require_method POST r in
  match read_body maxBody limit r with
  | Err _ => Fail 400 (EMsg "failed to read body")
  | Ok body => match parse body with Err _ => Fail 400 (EMsg "invalid json body") | Ok x => Reply x end
  end.

Section handlers.
Context {Dec Coins A F : Type} `{CL : CosmosLib Dec Coins} `{AP : App A} `{AQ : AppQueries A Coins} `{BF : BigFloat F} `{SJ : ServerJSON}.
Implicit Types (r : request) (e : CosmosExecutor A).

(** What a handler writes with status 200. *)
Record simulated := { sm_gas_used : Z; sm_gas_wanted : Z; sm_gas_limit : Z; sm_fee : Coins }.
Inductive payload :=
  | PHash (hash : string)
  | PNotFound
  | PResult (result : TxExecutionResult) (cost : CostBreakdown)
  | PPending (hash : string)
  | PTx (succeeded : bool) (result : TxExecutionResult) (cost : CostBreakdown)
  | PCost (cost : CostBreakdown)
  | PSimulated (s : simulated)
  | PData (json : bytes)
  | PDataRaw (data : bytes)
  | PBlock (b : BlockInfo)
  | PAccount (i : AccountInfo)
  | PBalance (i : BalanceInfo Coins)
  | PBalances (c : Coins)
  | PDenomBalance (denom amount : string)
  | PStatus (s : StatusInfo)
  | PCount (n : Z)
  | PHealth (tx_count block_count : Z)
  | PReady (latest finalized : Z)
  | PHeight (h : Z)
  | PMetrics (m : Metrics) (txs blks pool : Z)
  | POk
  | PStatic.

Definition submitTxHandler (maxBody : option Z) r e : CosmosExecutor A * reply payload :=
  match (let& q := post_json parse_submit maxBody maxTxSize r in on_err 400 (decodeTx (sq_TxHex q) (sq_TxBase64 q))) with
  | Reply txBytes =>
      let '(e, h) := InjectTx (rq_ctxErr r) txBytes e in (e, let& hash := on_err 400 h in Reply (PHash hash))
  | Fail st er => (e, Fail st er)
  | Dropped => (e, Dropped)
  end.

(** The hash of a request, which is at most [maxHashLen] characters. *)
Definition hash_param (text : string) : reply string :=
  let hash := TrimSpace text in
  let& _ := guard 400 (bool_decide (hash = EmptyString)) "hash is required" in
  let& _ := guard 400 (maxHashLen <? Z.of_nat (String.length hash)) "hash too long" in
  Reply hash.

Definition txResultHandler (env : string -> string) r e : reply payload :=
  let& _ := require_method GET r in
  let& hash := hash_param (rq_query r "hash") in
  let& found := on_err 500 (GetTxResult (rq_ctxErr r) hash e) in
  match found with
  | None => Reply PNotFound
  | Some result => Reply (PResult result (estimate (getCostPolicy env) (xr_Bytes result) (xr_GasUsed result)))
  end.

Definition txEstimateHandler (env : string -> string) (maxBody : option Z) r e : reply payload :=
  let& q := post_json parse_estimate maxBody maxTxSize r in
  let& sizes :=
    let lookupHash := TrimSpace (eq_Hash q) in
    if negb (bool_decide (lookupHash = EmptyString)) then
      let& _ := guard 400 (maxHashLen <? Z.of_nat (String.length lookupHash)) "hash too long" in
      let& found := on_err 500 (GetTxResult (rq_ctxErr r) lookupHash e) in
      match found with
      | None => Fail 404 (EMsg "tx not found")
      | Some result => Reply (xr_Bytes result, xr_GasUsed result)
      end
    else if negb (bool_decide (eq_TxBase64 q = EmptyString)) || negb (bool_decide (eq_TxHex q = EmptyString)) then
      let& raw := on_err 400 (decodeTx (eq_TxHex q) (eq_TxBase64 q)) in Reply (blen raw, eq_Gas q)
    else Reply (eq_Bytes q, eq_Gas q) in
  let& _ := guard 400 ((sizes.1 =? 0) && (sizes.2 =? 0)) "supply one of {tx_base64|tx_hex} + gas, {hash}, or {bytes, gas}" in
  Reply (PCost (estimate (getCostPolicy env) sizes.1 sizes.2)).

(** [ParseFloat] is [strconv.ParseFloat(_, 64)]; [other] is what a conversion to uint64 gives out of range. *)
Context (ParseFloat : string -> res spec_float) (other : Z).
Definition gasAdjustmentPermille (env : string -> string) : Z :=
  let v := TrimSpace (env "COSMOS_EXEC_GAS_ADJUSTMENT"%string) in
  if bool_decide (v = EmptyString) then 1300
  else match ParseFloat v with
  | Err _ => 1300
  | Ok f =>
      if Strategy.f_lt f Strategy.f_one then 1300
      else let n := Strategy.f_to_int other (Strategy.f_mul f (Strategy.f_of_int 1000)) in if bool_decide (is_u64 n) then n else other
  end.

Definition gas_limit (permille used wanted : Z) : Z :=
  let gasLimit := u64 (u64 (used * permille) + 999) / 1000 in if gasLimit =? 0 then wanted else gasLimit.

Definition txSimulateHandler (env : string -> string) (maxBody : option Z) r e : reply payload :=
  let& q := post_json parse_estimate maxBody maxTxSize r in
  let& raw := on_err 400 (decodeTx (eq_TxHex q) (eq_TxBase64 q)) in
  let& res := on_err 400 (SimulateTx (rq_ctxErr r) raw e) in
  let gasLimit := gas_limit (gasAdjustmentPermille env) (sr_GasUsed res) (sr_GasWanted res) in
  match feeForGas env gasLimit with
  | Err _ => Dropped
  | Ok fee => Reply (PSimulated {| sm_gas_used := sr_GasUsed res; sm_gas_wanted := sr_GasWanted res; sm_gas_limit := gasLimit; sm_fee := fee |})
  end.

Definition querySmartHandler (queryGasMax : Z) (maxBody : option Z) r e : reply payload :=
  let& q := post_json parse_query maxBody maxQueryMsgSize r in
  let& _ := guard 400 (bool_decide (qq_Contract q = EmptyString)) "contract is required" in
  let& _ := guard 400 (blen (qq_Msg q) =? 0) "msg is required" in
  let& result := on_err 400 (QuerySmart queryGasMax (rq_ctxErr r) (qq_Contract q) (qq_Msg q) e) in
  Reply (if json_Valid result then PData result else PDataRaw result).

Definition blocksLatestHandler r e : reply payload :=
  let& _ := require_method GET r in
  let& found := on_err 500 (GetLatestBlock (rq_ctxErr r) e) in
  Reply (match found with Some b => PBlock b | None => PNotFound end).

Definition blockByHeightHandler r e : reply payload :=
  let& _ := require_method GET r in
  match ParseUint (rq_path r) with
  | Err _ => Fail 400 (EMsg "invalid block height")
  | Ok height =>
      let& _ := guard 400 (height =? 0) "invalid block height" in
      let& found := on_err 500 (GetBlock (rq_ctxErr r) height e) in
      match found with Some b => Reply (PBlock b) | None => Fail 404 (EMsg "block not found") end
  end.

Definition address_param r : reply string :=
  let addr := TrimSpace (rq_path r) in let& _ := guard 400 (bool_decide (addr = EmptyString)) "address is required" in Reply addr.
Definition authAccountHandler r e : reply payload :=
  let& _ := require_method GET r in
  let& addr := address_param r in
  let& info := on_err 400 (GetAccountInfo addr e) in Reply (PAccount info).
Definition bankBalanceHandler r e : reply payload :=
  let& _ := require_method GET r in
  let& addr := address_param r in
  let& info := on_err 400 (GetBalance addr (rq_query r "denom") e) in Reply (PBalance info).
Definition lcdBalancesHandler r e : reply payload :=
  let& _ := require_method GET r in
  let& info := on_err 400 (GetBalance (TrimSpace (rq_path r)) EmptyString e) in Reply (PBalances (bl_Balances info)).
Definition lcdBalanceByDenomHandler r e : reply payload :=
  let& _ := require_method GET r in
  let denom := TrimSpace (rq_query r "denom") in
  let& info := on_err 400 (GetBalance (TrimSpace (rq_path r)) denom e) in
  Reply (PDenomBalance denom (if bool_decide (bl_Amount info = EmptyString) then "0" else bl_Amount info)).

Definition statusHandler r e : reply payload :=
  let& _ := require_method GET r in let& s := on_err 500 (GetStatus (rq_ctxErr r) e) in Reply (PStatus s).
Definition txPendingHandler r e : reply payload :=
  let& _ := require_method GET r in let& n := on_err 500 (GetPendingTxCount (rq_ctxErr r) e) in Reply (PCount n).

Definition txByHashHandler (env : string -> string) r e : reply payload :=
  let& _ := require_method GET r in
  let& hash := hash_param (rq_path r) in
  let& found := on_err 500 (GetTxResult (rq_ctxErr r) hash e) in
  match found with
  | None => Reply (PPending hash)
  | Some result => Reply (PTx (xr_Code result =? 0) result (estimate (getCostPolicy env) (xr_Bytes result) (xr_GasUsed result)))
  end.

(** [GetStats]: results, blocks, pending transactions. *)
Definition GetStats e : Z * Z * Z := (Z.of_nat (size (txResults e)), Z.of_nat (size (blocks e)), blen (mempool e)).
Definition healthHandler r e : reply payload :=
  let& _ := require_method GET r in let '(txs, blks, _) := GetStats e in Reply (PHealth txs blks).
Definition metricsHandler (m : Metrics) e : reply payload := let '(txs, blks, pool) := GetStats e in Reply (PMetrics m txs blks pool).

(** The status after an error is the zero one. *)
Definition readyHandler r e : reply payload :=
  let& _ := require_method GET r in
  match GetStatus (rq_ctxErr r) e with
  | Ok s => if si_Initialized s then Reply (PReady (si_LatestHeight s) (si_FinalizedHeight s)) else Fail 503 (EMsg "not initialized")
  | Err _ => Fail 503 (EMsg "not initialized")
  end.
Definition execHeightHandler r e : reply payload :=
  let& _ := require_method GET r in let& h := on_err 500 (GetLatestHeight (rq_ctxErr r) e) in Reply (PHeight h).

Definition execRollbackHandler (maxBody : option Z) r e : CosmosExecutor A * reply payload :=
  match (let& target := post_json parse_target_height maxBody 4096 r in
         let& _ := guard 400 (target =? 0) "target_height must be > 0" in Reply target) with
  | Reply target => let '(e, x) := Rollback (rq_ctxErr r) target e in (e, let& _ := on_err 400 x in Reply POk)
  | Fail st er => (e, Fail st er)
  | Dropped => (e, Dropped)
  end.
Definition execPruneHandler (maxBody : option Z) r e : CosmosExecutor A * reply payload :=
  match post_json parse_height maxBody 4096 r with
  | Reply height => let '(e, x) := PruneExec (rq_ctxErr r) height e in (e, let& _ := on_err 500 x in Reply POk)
  | Fail st er => (e, Fail st er)
  | Dropped => (e, Dropped)
  end.
End handlers.
Arguments simulated : clear implicits. Arguments payload : clear implicits.

(** ** The server: routes behind the middleware (main.go) *)

Section server.
Context {Dec Coins A F M : Type} `{CL : CosmosLib Dec Coins} `{AP : App A} `{AQ : AppQueries A Coins} `{BF : BigFloat F} `{SJ : ServerJSON}.
Context `{TL : TxLib M Coins}.
Context (ParseFloat : string -> res spec_float) (other : Z).

(** [Grpc call] is a method of the executor service: connect reads and decodes the body, within its limit. *)
Inductive route :=
  | TxSubmit | TxResult | TxEstimate | TxSimulate | WasmQuery | BlocksLatest | BlockByHeight | StatusR | TxPending | TxByHash | Health
  | Ready | MetricsR | ExecHeight | ExecRollback | AuthAccount | BankBalance | LcdBalances | LcdByDenom | ExecPrune | Faucet | Swagger
  | Grpc (call : option Z -> request -> CosmosExecutor A -> CosmosExecutor A * reply (payload Coins)).

Record server := {
  hs_exec : CosmosExecutor A; hs_faucet : option (faucetConfig Coins); hs_limiter : option ipRateLimiter; hs_metrics : Metrics }.
Definition set_exec (e : CosmosExecutor A) (s : server) : server :=
  {| hs_exec := e; hs_faucet := hs_faucet s; hs_limiter := hs_limiter s; hs_metrics := hs_metrics s |}.
Definition set_limiter (l : option ipRateLimiter) (s : server) : server :=
  {| hs_exec := hs_exec s; hs_faucet := hs_faucet s; hs_limiter := l; hs_metrics := hs_metrics s |}.
Definition set_metrics (m : Metrics) (s : server) : server :=
  {| hs_exec := hs_exec s; hs_faucet := hs_faucet s; hs_limiter := hs_limiter s; hs_metrics := m |}.

Definition new_server (c : Config) (faucet : option (faucetConfig Coins)) (e : CosmosExecutor A) : server := {|
  hs_exec := e; hs_faucet := faucet; hs_limiter := if 0 <? RateLimitRPS c then Some (newIPRateLimiter (RateLimitRPS c)) else None;
  hs_metrics := newMetrics |}.

(** The handler of a route, with its counter. *)
Definition dispatch (c : Config) (env : string -> string) (now : Z) (maxBody : option Z) (rt : route) (r : request) (s : server)
  : server * reply (payload Coins) :=
  let count k := set_metrics (withMetrics k (hs_metrics s)) s in
  let run (h : CosmosExecutor A * reply (payload Coins)) s := let '(e, x) := h in (set_exec e s, x) in
  let e := hs_exec s in
  match rt with
  | TxSubmit => run (submitTxHandler maxBody r e) (count KTxSubmit)
  | TxResult => (s, txResultHandler env r e)
  | TxEstimate => (s, txEstimateHandler env maxBody r e)
  | TxSimulate => (count KOther, txSimulateHandler ParseFloat other env maxBody r e)
  | WasmQuery => (count KQuery, querySmartHandler (QueryGasMax c) maxBody r e)
  | BlocksLatest => (s, blocksLatestHandler r e)
  | BlockByHeight => (s, blockByHeightHandler r e)
  | StatusR => (s, statusHandler r e)
  | TxPending => (s, txPendingHandler r e)
  | TxByHash => (s, txByHashHandler env r e)
  | Health => (s, healthHandler r e)
  | Ready => (s, readyHandler r e)
  | MetricsR => (s, metricsHandler (hs_metrics s) e)
  | ExecHeight => (s, execHeightHandler r e)
  | ExecRollback => run (execRollbackHandler maxBody r e) s
  | AuthAccount => (s, authAccountHandler r e)
  | BankBalance => (s, bankBalanceHandler r e)
  | LcdBalances => (s, lcdBalancesHandler r e)
  | LcdByDenom => (s, lcdBalanceByDenomHandler r e)
  | ExecPrune => run (execPruneHandler maxBody r e) s
  | Faucet =>
      match hs_faucet s with
      | None => (s, Fail 404 (EMsg "404 page not found"))
      | Some fc =>
          let '(fc, e, x) := faucetHandler (M := M) env (rq_ctxErr r) (rq_Method r) (rq_query r "addr") now fc e in
          ({| hs_exec := e; hs_faucet := Some fc; hs_limiter := hs_limiter s; hs_metrics := withMetrics KOther (hs_metrics s) |},
           let& hash := x in Reply (PHash hash))
      end
  | Swagger => (s, Reply PStatic)
  | Grpc call => if bool_decide (rq_Method r = POST) then run (call maxBody r e) s else (s, Fail 405 (EMsg "Method Not Allowed"))
  end.

(** [metricsCountingMiddleware], if the counters are on; a panic passes by the counting of errors. *)
Definition metricsCountingMiddleware (c : Config) (next : server -> server * reply (payload Coins)) (s : server)
  : server * reply (payload Coins) :=
  if negb (MetricsEnabled c) then next s
  else
    let '(s, x) := next (set_metrics (incRequest (hs_metrics s)) s) in
    let statusCode := match x with Reply _ => 200 | Fail status _ => status | Dropped => 0 end in
    (if 400 <=? statusCode then set_metrics (incError (hs_metrics s)) s else s, x).

Definition serve (c : Config) (env : string -> string) (now : Z) (rt : route) (r : request) : server -> server * reply (payload Coins) :=
  metricsCountingMiddleware c (fun s =>
    let '(l, g) := securityMiddleware c (hs_limiter s) r now in
    let s := set_limiter l s in
    match g with
    | Stop status => (s, Fail status (EMsg "refused"))
    | Pass maxBody => dispatch c env now maxBody rt r s
    end).
End server.
Arguments route : clear implicits. Arguments server : clear implicits.

(** ** A closed server *)

(** The server takes no POST of this request: it is read-only, or it wants a token the request has not. *)
Definition closed (c : Config) (r : request) : Prop :=
  ReadOnlyMode c = true \/ (AuthToken c <> EmptyString /\ rq_auth r <> String.append "Bearer " (AuthToken c)).

Section closed.
Context {Dec Coins A F M : Type} `{CL : CosmosLib Dec Coins} `{AP : App A} `{AQ : AppQueries A Coins} `{BF : BigFloat F} `{SJ : ServerJSON}.
Context `{TL : TxLib M Coins}.
Context (ParseFloat : string -> res spec_float) (other : Z).
Implicit Types (s : server Coins A) (rt : route Coins A).

Lemma closed_post c l r now : closed c r -> rq_Method r = POST ->
  exists status, securityMiddleware c l r now = (l, Stop status) /\ (status = 403 \/ status = 401).
Proof.
  intros Hc Hm. unfold securityMiddleware. rewrite Hm. rewrite bool_decide_false by done. rewrite (bool_decide_true (POST = POST)) by done.
  rewrite !andb_true_r. destruct (ReadOnlyMode c) eqn:E; [eauto|]. destruct Hc as [|[H1 H2]]; [congruence|].
  rewrite !bool_decide_false by done. eauto.
Qed.

Lemma post_json_method {X} (parse : bytes -> res X) maxBody limit r : rq_Method r <> POST ->
  post_json parse maxBody limit r = Fail 405 (EMsg "method not allowed").
Proof. intros H. unfold post_json, require_method. by rewrite bool_decide_false. Qed.

Lemma dispatch_get c env now maxBody rt r s : rq_Method r <> POST -> rt <> Faucet ->
  hs_exec (dispatch (M := M) ParseFloat other c env now maxBody rt r s).1 = hs_exec s /\
  hs_faucet (dispatch (M := M) ParseFloat other c env now maxBody rt r s).1 = hs_faucet s.
Proof.
  intros Hm Hf. destruct rt; try done; cbn [dispatch].
  1-3: unfold submitTxHandler, execRollbackHandler, execPruneHandler; by rewrite post_json_method.
  by rewrite bool_decide_false.
Qed.

Lemma counted_exec c next s (P : CosmosExecutor A -> option (faucetConfig Coins) -> reply (payload Coins) -> Prop) :
  (forall m, P (hs_exec (next (set_metrics m s)).1) (hs_faucet (next (set_metrics m s)).1) (next (set_metrics m s)).2) ->
  let '(s', x) := metricsCountingMiddleware c next s in P (hs_exec s') (hs_faucet s') x.
Proof.
  intros H. unfold metricsCountingMiddleware. destruct (MetricsEnabled c); cbn.
  - specialize (H (incRequest (hs_metrics s))). destruct (next _) as [s' x]. cbn in H. by destruct (400 <=? _).
  - specialize (H (hs_metrics s)). destruct s. cbn in H. by destruct (next _).
Qed.

(** C37: A server that is read-only, or that wants a token which the request does not carry, refuses every POST:
    of a client and of the node itself, whose calls of the executor service are POSTs and carry no token.
    Nothing but a GET of the faucet changes the executor then. *)
Theorem closed_server (c : Config) (env : string -> string) (now : Z) (rt : route Coins A) (r : request) (s : server Coins A) :
  closed c r ->
  let '(s', x) := serve (M := M) ParseFloat other c env now rt r s in
  (rq_Method r = POST -> hs_exec s' = hs_exec s /\ hs_faucet s' = hs_faucet s /\
     exists status, x = Fail status (EMsg "refused") /\ (status = 403 \/ status = 401)) /\
  (rt <> Faucet -> hs_exec s' = hs_exec s /\ hs_faucet s' = hs_faucet s).
Proof.
  intros Hc. unfold serve.
  apply (counted_exec c _ s (fun e fc x =>
    (rq_Method r = POST -> e = hs_exec s /\ fc = hs_faucet s /\ exists status, x = Fail status (EMsg "refused") /\ (status = 403 \/ status = 401)) /\
    (rt <> Faucet -> e = hs_exec s /\ fc = hs_faucet s))). intros m. cbn [hs_limiter set_metrics].
  destruct (decide (rq_Method r = POST)) as [Hm|Hm].
  - destruct (closed_post c (hs_limiter s) r now Hc Hm) as (status & -> & Hs). cbn. eauto 10.
  - split; [done|]. intros Hf. destruct (securityMiddleware _ _ _ _) as [l [st|b]]; cbn; [done|].
    by destruct (dispatch_get c env now b rt r (set_limiter l (set_metrics m s)) Hm Hf).
Qed.
End closed.

(** ** Transactions *)

Lemma hex_prefix b p : p = "0x"%string \/ p = "0X"%string -> String.prefix p (hex_encode b) = false.
Proof.
  intros Hp. destruct b as [|x b]; [by destruct Hp as [-> | ->]|]. cbn [hex_encode].
  pose proof (hex_value_digit (byte_Z x mod 16) (Z.mod_pos_bound (byte_Z x) 16 ltac:(lia))) as Hv.
  generalize dependent (hex_digit (byte_Z x mod 16)). intros c Hv. generalize (hex_digit (byte_Z x / 16)). intros c0.
  destruct Hp as [-> | ->]; cbn [String.prefix]; destruct (Ascii.ascii_dec "0" c0); [|done| |done];
    match goal with |- context [Ascii.ascii_dec ?x c] => destruct (Ascii.ascii_dec x c) as [<-|]; [|done] end; by vm_compute in Hv.
Qed.
Lemma hex_no_0x b : TrimPrefix "0x" (hex_encode b) = hex_encode b /\ TrimPrefix "0X" (TrimPrefix "0x" (hex_encode b)) = hex_encode b.
Proof. unfold TrimPrefix. rewrite (hex_prefix b "0x") by (by left). by rewrite (hex_prefix b "0X") by (by right). Qed.

Lemma lower_hex b : ToLower (hex_encode b) = hex_encode b.
Proof.
  assert (H : forall n, 0 <= n < 16 -> lower (hex_digit n) = hex_digit n).
  { intros n Hn. unfold hex_digit. rewrite Z.mod_small by done. assert (Hk : (Z.to_nat n < 16)%nat) by lia. revert Hk.
    generalize (Z.to_nat n). clear. intros n Hn. do 16 (destruct n as [|n]; [done|]). lia. }
  induction b as [|x b IH]; [done|]. cbn [hex_encode ToLower]. pose proof (byte_Z_range x).
  rewrite IH, !H by (Z.div_mod_to_equations; lia). done.
Qed.

Lemma normalizeHash_hash tx : normalizeHash (hashTx tx) = hashTx tx.
Proof. unfold normalizeHash, hashTx, TrimSpace. rewrite Base64.trim_solid by apply Base64.hex_solid. by rewrite (proj2 (hex_no_0x _)), lower_hex. Qed.

(** Both encodings of a transaction are decoded to it. *)
Lemma decodeTx_encoded tx base64Input : tx <> [] ->
  decodeTx (hex_encode tx) base64Input = Ok tx /\ decodeTx EmptyString (Base64.encode64 tx) = Ok tx.
Proof.
  intros Hx. assert (Hl : (blen tx =? 0) = false) by (by destruct tx). unfold decodeTx, TrimSpace, hex_DecodeString.
  rewrite Base64.trim_solid by apply Base64.hex_solid. rewrite bool_decide_false by (by destruct tx). cbn [negb].
  rewrite (proj2 (hex_no_0x tx)), hex_decode_encode. cbn [wrap_err res_bind]. rewrite Hl. split; [done|]. cbn [Raft.TrimSpace Raft.trim_left Raft.trim_right].
  rewrite bool_decide_true by done. cbn [negb]. rewrite Base64.trim_solid by apply Base64.encode_solid.
  rewrite bool_decide_false by (by rewrite Base64.encode_empty). cbn [negb]. rewrite Base64.decode_encode64. cbn. by rewrite Hl.
Qed.

Section transactions.
Context {Dec Coins A F M : Type} `{CL : CosmosLib Dec Coins} `{CLL : !CosmosLibLaws Dec Coins} `{AP : App A} `{AQ : AppQueries A Coins}.
Context `{BF : BigFloat F} `{SJ : ServerJSON}.
Implicit Types (e : CosmosExecutor A) (r : request).

Lemma reply_bind_ok {X R} (m : reply X) (k : X -> reply R) y : reply_bind m k = Reply y -> exists x, m = Reply x /\ k x = Reply y.
Proof. destruct m; simpl; [eauto|done..]. Qed.

Definition recorded (h : Z) (k : string) e : Prop :=
  exists result, txResults e !! k = Some result /\ xr_Height result = h /\ xr_Hash result = k.
Lemma record_found h k results txs e e' hs : record_results h results txs e = (e', Ok hs) ->
  recorded h k e \/ k ∈ hashTx <$> take (length results) txs -> recorded h k e'.
Proof.
  revert txs e hs. induction results as [|r results IH]; intros [|tx txs] e hs E Hk; cbn in E;
    try (injection E as <- _; destruct Hk as [|Hk]; [done|by apply elem_of_nil in Hk]).
  match type of E with (let '(_, _) := ?m in _) = _ => destruct m as [e1 [[]|]] eqn:E1 end; [|done].
  destruct (record_results h results txs e1) as [e2 [hs'|]] eqn:E2; [|done]. injection E as <- _. apply (IH _ _ _ E2). clear IH E2.
  assert (Hm : txResults e1 = txResults (set_maps (<[hashTx tx := {| xr_Hash := hashTx tx; xr_Height := h; xr_Code := tr_Code r; xr_Log := tr_Log r;
                       xr_Events := toExecTxEvents (tr_Events r); xr_GasUsed := safeUint64 (tr_GasUsed r);
                       xr_GasWanted := safeUint64 (tr_GasWanted r); xr_Bytes := blen tx |}]> (txResults e)) (blocks e) e)).
  { destruct (persistStore e) as [p|]; [destruct (AppendTxResult p _) as [p' w]|]; by injection E1 as <-. }
  cbn in Hm. unfold recorded at 1. rewrite Hm. cbn in Hk. rewrite elem_of_cons in Hk.
  destruct (decide (k = hashTx tx)) as [->|Hne]; [left; rewrite lookup_insert_eq; by eexists|].
  rewrite lookup_insert_ne by done. destruct Hk as [Hk|[Hk|Hk]]; [by left|done|by right].
Qed.

Lemma finish_txs h ts n hs e e' root : finish_block h ts n hs e = (e', Ok root) -> txResults e' = txResults e.
Proof.
  unfold finish_block, saveMetadataLocked. destruct (app_Commit _) as [a [[]|]]; [|done]. cbn.
  destruct (persistStore e) as [p|] eqn:Ep; cbn; [|rewrite Ep; by intros [= <- _]].
  destruct (AppendBlock p _) as [p1 [[]|]]; cbn; [|done]. destruct (SaveMetadata p1 _) as [p2 [[]|]]; [|done]. by intros [= <- _].
Qed.

(** Every transaction of an executed block, unless empty, has a result at its hash. *)
Lemma ExecuteTxs_records txs h ts prev e e' root tx :
  (forall a l i t p a' results, app_FinalizeBlock a l i t p = (a', Ok results) -> length results = length l) ->
  ExecuteTxs None txs h ts prev e = (e', Ok root) -> tx ∈ txs -> tx <> [] -> recorded h (hashTx tx) e'.
Proof.
  intros Hlen E Hin Hne. unfold ExecuteTxs in E. destruct (h =? 0); [done|]. destruct (negb (initialized e)); [done|].
  destruct (negb (bool_decide _)); [done|]. destruct (negb (h =? _)); [done|].
  destruct (app_FinalizeBlock _ _ _ _ _) as [a [results|]] eqn:Ef; [|done]. apply Hlen in Ef.
  destruct (record_results _ _ _ _) as [e1 [hs|]] eqn:Er; [|done]. apply (record_found _ (hashTx tx)) in Er.
  - unfold recorded in *. by rewrite (finish_txs _ _ _ _ _ _ _ E).
  - right. rewrite Ef, firstn_all. apply list_elem_of_fmap. exists tx. split; [done|]. apply list_elem_of_filter.
    split; [|done]. destruct tx; [done|unfold blen; cbn; lia].
Qed.

(** C38: A transaction that was accepted is in the mempool, and the reply is its hash. Once a block with it has been
    executed, a query of that hash finds its result. *)
Theorem submitted_found (env : string -> string) (maxBody : option Z) (r : request) (e e1 : CosmosExecutor A) (hash : string)
  (Hlen : forall (a : A) l i t p a' results, app_FinalizeBlock a l i t p = (a', Ok results) -> length results = length l)
  (E : submitTxHandler (Coins := Coins) maxBody r e = (e1, Reply (PHash hash))) :
  exists tx, tx <> [] /\ hash = hashTx tx /\ e1 = set_mempool (mempool e ++ [tx]) e /\
    forall txs h ts prev e2 e3 root q, tx ∈ txs -> ExecuteTxs None txs h ts prev e2 = (e3, Ok root) ->
      rq_Method q = GET -> rq_query q "hash" = hash -> rq_ctxErr q = None ->
      exists result cost, txResultHandler (Coins := Coins) (F := F) env q e3 = Reply (PResult result cost) /\ xr_Hash result = hash /\ xr_Height result = h.
Proof.
  unfold submitTxHandler in E. destruct (reply_bind _ _) as [tx| |] eqn:Eq; [|done..].
  unfold InjectTx in E. destruct (rq_ctxErr r); [done|]. destruct (Z.eqb_spec (blen tx) 0) as [|Hn]; [done|]. injection E as <- <-.
  assert (Hne : tx <> []) by (by intros ->). exists tx. split; [done|]. split; [done|]. split; [done|].
  intros txs h ts prev e2 e3 root q Hin Ex Hq Hh Hc.
  destruct (ExecuteTxs_records _ _ _ _ _ _ _ tx Hlen Ex Hin Hne) as (result & Hl & Hht & Hxh).
  unfold txResultHandler, require_method, hash_param. rewrite Hq, Hh, Hc, bool_decide_true by done. cbn [reply_bind].
  assert (TrimSpace (hashTx tx) = hashTx tx) as -> by apply Base64.trim_solid, Base64.hex_solid.
  rewrite bool_decide_false by (unfold hashTx; intros H0; apply (f_equal String.length) in H0; by rewrite length_hex_encode, length_sha256 in H0).
  assert (String.length (hashTx tx) = 64%nat) as -> by (unfold hashTx; by rewrite length_hex_encode, length_sha256).
  replace (maxHashLen <? Z.of_nat 64) with false by done. cbn [guard reply_bind].
  unfold GetTxResult. rewrite normalizeHash_hash, Hl. cbn. by eexists _, _.
Qed.

(** The suggestion of a simulation passes the fee check of the chain. With an adjustment of at least one, and
    short of an overflow, it is the least gas limit that is the used gas times the adjustment. *)
Theorem simulated_fee_accepted (ParseFloat : string -> res spec_float) (other : Z) (env : string -> string) (maxBody : option Z) (r : request)
  (e : CosmosExecutor A) (x : simulated Coins) :
  txSimulateHandler ParseFloat other env maxBody r e = Reply (PSimulated x) ->
  is_ok (txFeeChecker (feePolicyFromEnv env) false (Some (sm_fee x, sm_gas_limit x))) = true /\
  let permille := gasAdjustmentPermille ParseFloat other env in
  (1000 <= permille -> 0 < sm_gas_used x -> sm_gas_used x * permille + 999 < two64 ->
     sm_gas_used x <= sm_gas_limit x /\ sm_gas_used x * permille <= sm_gas_limit x * 1000 < sm_gas_used x * permille + 1000).
Proof.
  unfold txSimulateHandler. intros (q & _ & E)%reply_bind_ok. apply reply_bind_ok in E as (raw & _ & E).
  apply reply_bind_ok in E as (sim & _ & E). destruct (feeForGas env _) as [fee|] eqn:Ef; [|done]. injection E as <-. cbn [sm_fee sm_gas_limit sm_gas_used].
  split; [by apply feeForGas_accepted|]. set (p := gasAdjustmentPermille _ _ _). clearbody p. intros Hp Hu Ho.
  unfold gas_limit, u64. rewrite (Z.mod_small (sr_GasUsed sim * p)) by nia. rewrite Z.mod_small by nia.
  destruct (Z.eqb_spec ((sr_GasUsed sim * p + 999) / 1000) 0) as [H0|H0]; Z.div_mod_to_equations; nia.
Qed.
End transactions.

(** ** The rate limit *)

(** [n] requests of one address at one time: which of them are let through. *)
Fixpoint burst (n : nat) (ip : string) (now : Z) (l : ipRateLimiter) : list bool :=
  match n with O => [] | S n => let '(l, ok) := allow ip now l in ok :: burst n ip now l end.

Definition has_tokens (k : Z) (ip : string) (now : Z) (l : ipRateLimiter) : Prop :=
  rps l = 100 /\ match buckets l !! ip with Some b => b = {| tokens := Strategy.f_of_int k; lastTime := now |} | None => k = 100 end.

Lemma since_now now : RpcServer.time_Since now now = 0.
Proof. unfold RpcServer.time_Since. by rewrite Z.sub_diag. Qed.

Lemma allow_now k ip now l : 0 <= k <= 100 -> has_tokens k ip now l ->
  (allow ip now l).2 = (0 <? k) /\ has_tokens (Z.max 0 (k - 1)) ip now (allow ip now l).1.
Proof.
  intros Hk [Hr Hb]. unfold allow, has_tokens. set (b := default _ _).
  assert (Eb : b = {| tokens := Strategy.f_of_int k; lastTime := now |}).
  { subst b. destruct (buckets l !! ip); [done|]. by rewrite Hb, Hr. }
  rewrite Eb, Hr. unfold refill. cbn [tokens lastTime]. rewrite since_now.
  replace k with (Z.of_nat (Z.to_nat k)) in * by lia. assert (Hn : (Z.to_nat k < 101)%nat) by lia. revert Hn.
  generalize (Z.to_nat k). clear. intros k Hk.
  assert (H : Forall (fun k : nat => let t := RpcServer.f_add (Strategy.f_of_int (Z.of_nat k)) (Strategy.f_mul (Seconds 0) (Strategy.f_of_int 100)) in
      Strategy.f_lt (Strategy.f_of_int 100) t = false /\ t = Strategy.f_of_int (Z.of_nat k) /\
      Strategy.f_lt t Strategy.f_one = negb (0 <? Z.of_nat k) /\
      (0 < Z.of_nat k -> SFsub 53 1024 t Strategy.f_one = Strategy.f_of_int (Z.max 0 (Z.of_nat k - 1)))) (seq 0 101)).
  { repeat constructor; try done. }
  rewrite Forall_forall in H. destruct (H k) as (H1 & H2 & H3 & H4); [by apply elem_of_seq; lia|]. clear H. cbv zeta in *.
  rewrite H1, H3. destruct (Z.ltb_spec 0 (Z.of_nat k)) as [Hp|Hp]; cbn [negb fst snd buckets rps]; (split; [done|]); (split; [done|]); rewrite lookup_insert_eq.
  - by rewrite H4.
  - rewrite H2. by replace (Z.of_nat k) with 0 by lia.
Qed.

(** With the limit of the production profile an address gets one hundred requests at once, and then none. *)
Theorem prod_burst (ip : string) (now : Z) (n : nat) (l : ipRateLimiter) : rps l = RateLimitRPS (ForProfile ProfileProd) -> buckets l !! ip = None ->
  burst n ip now l = replicate (min n 100) true ++ replicate (n - 100) false.
Proof.
  intros Hr Hb. assert (Ht : has_tokens (Z.of_nat 100) ip now l) by (split; [done|by rewrite Hb]).
  assert (Hk : (100 <= 100)%nat) by lia. revert Hk Ht. generalize 100%nat at 1 3 4 5. intros k. clear Hr Hb. revert k l.
  induction n as [|n IH]; intros k l Hk Ht; [by rewrite Nat.min_0_l|]. cbn [burst].
  destruct (allow_now (Z.of_nat k) ip now l ltac:(lia) Ht) as [Ea Hl]. destruct (allow ip now l) as [l' ok]. cbn in Ea, Hl. subst ok.
  replace (Z.max 0 (Z.of_nat k - 1)) with (Z.of_nat (k - 1)) in Hl by lia. rewrite (IH (k - 1)%nat l') by (done || lia).
  destruct k as [|k]; [by rewrite !Nat.min_0_r, Nat.sub_0_r|]. by replace (S k - 1)%nat with k by lia.
Qed.

(** The address is what the request says it is: with a new one each time there is no limit. *)
Lemma forwarded_unlimited c l r now : rps l = 100 -> rq_forwarded r <> EmptyString -> buckets l !! extractIP r = None ->
  rq_Method r = GET -> exists l', securityMiddleware c (Some l) r now = (Some l', Pass None) /\ rps l' = 100.
Proof.
  intros Hr Hf Hb Hm. unfold securityMiddleware. rewrite Hm. cbn. rewrite !andb_false_r. cbn.
  destruct (allow_now 100 (extractIP r) now l ltac:(lia)) as [Ea [Hl _]]; [split; [done|by rewrite Hb]|].
  destruct (allow (extractIP r) now l) as [l' ok]. cbn in *. subst ok. eauto.
Qed.

(** ** Configuration *)

Lemma ForProfile_valid p : Validate (ForProfile p) = Ok tt.
Proof. by destruct p. Qed.

Lemma number_pos env key old parse ok : 0 < old -> (forall n, ok n = true -> 0 < n) -> 0 < number env key old parse ok.
Proof. intros Ho Hk. unfold number, var. case_bool_decide; [done|]. destruct (parse _) as [n|]; [|done]. destruct (ok n) eqn:E; auto. Qed.

(** The environment cannot make a valid configuration invalid, except by a gas limit of zero for queries. *)
Theorem LoadFromEnv_valid (ParseDuration : string -> res Z) (env : string -> string) (c : Config) : Validate c = Ok tt ->
  Validate (LoadFromEnv ParseDuration env c) =
    if bool_decide (QueryGasMax (LoadFromEnv ParseDuration env c) = 0) then Err (EMsg "query_gas_max must be > 0") else Ok tt.
Proof.
  intros Hv. unfold Validate in Hv. case_bool_decide as Hl; [done|]. destruct (Z.eqb_spec (QueryGasMax c) 0) as [|Hq]; [done|].
  destruct (Z.leb_spec (MaxBlobSize c) 0) as [|Hb]; [done|]. destruct (Z.leb_spec (MaxStoreTotalSize c) 0) as [|Hs]; [done|]. clear Hv.
  unfold Validate. rewrite bool_decide_false; [|unfold LoadFromEnv, var; cbn; by case_bool_decide].
  destruct (Z.eqb_spec (QueryGasMax (LoadFromEnv ParseDuration env c)) 0) as [E|E]; [by rewrite bool_decide_true|].
  rewrite bool_decide_false by done.
  assert (0 < MaxBlobSize (LoadFromEnv ParseDuration env c)) by (apply number_pos; [done|intros n Hn; by apply Z.ltb_lt]).
  assert (0 < MaxStoreTotalSize (LoadFromEnv ParseDuration env c)) by (apply number_pos; [done|intros n Hn; by apply Z.ltb_lt]).
  destruct (Z.leb_spec (MaxBlobSize (LoadFromEnv ParseDuration env c)) 0); [lia|].
  by destruct (Z.leb_spec (MaxStoreTotalSize (LoadFromEnv ParseDuration env c)) 0); [lia|].
Qed.

(** The production profile with --in-memory: the application's database is gone with the process, but the
    executor's heights and results are kept in files, and are there for the next, empty application. *)
Lemma in_memory_prod c : InMemory c = true -> PersistTxResults c = true -> ResolveDataDir c <> EmptyString ->
  openDatabase (ResolveDataDir c) (InMemory c) = MemDB /\ persist_dir c = Some (ResolveDataDir c).
Proof. intros Hi Hp Hd. unfold openDatabase, persist_dir. rewrite Hi, Hp. cbn. by rewrite bool_decide_false. Qed.

(** No origin configured, as in the production profile, is every origin. *)
Example prod_origin : allowed_origin (ForProfile ProfileProd) = "*"%string.
Proof. done. Qed.

(** ** The theorems applied *)

Module CosmosServerWitness.
Import CosmosAppWitness.

#[export] Instance ref_json : ServerJSON := {|
  parse_submit b := Ok {| sq_TxBase64 := String.string_of_list_byte b; sq_TxHex := EmptyString |};
  parse_estimate b := Ok {| eq_TxBase64 := String.string_of_list_byte b; eq_TxHex := EmptyString; eq_Hash := EmptyString; eq_Bytes := 0; eq_Gas := 0 |};
  parse_query b := Ok {| qq_Contract := "contract"; qq_Msg := b |};
  parse_target_height b := match b with [x] => Ok (byte_Z x) | _ => Err (EMsg "unexpected end of JSON input") end;
  parse_height b := match b with [x] => Ok (byte_Z x) | _ => Err (EMsg "unexpected end of JSON input") end;
  json_Valid b := bool_decide (b <> []) |}.
#[export] Instance ref_big : BigFloat Z := {|
  big_Parse s := match parse_dec 0 s with Some n => Ok n | None => Err (EMsg "number has no digits") end; big_zero := 0;
  big_SetUint64 n := n; big_Mul := Z.mul; big_Text _ n := dec_string n |}.

Definition request_of (m : method) (param : string) (body : bytes) : request := {|
  rq_Method := m; rq_auth := EmptyString; rq_forwarded := EmptyString; rq_remote := "10.0.0.1:4711"; rq_body := body; rq_readErr := None;
  rq_query := fun _ => param; rq_path := param; rq_ctxErr := None |}.
Definition noFloat (_ : string) : res spec_float := Err (EMsg "invalid syntax").

(** A server with a token, and its faucet. *)
Definition locked : Config := LoadFromEnv (fun _ => Ok 0) (fun k => if bool_decide (k = "COSMOS_EXEC_AUTH_TOKEN"%string) then "secret" else EmptyString)
  (ForProfile ProfileProd).
Definition started : CosmosExecutor CosmosWitness.toy := set_chain true "toy" [x01] 2 1 (New CosmosWitness.toy0).
Definition locked_server : server (gmap string Z) CosmosWitness.toy := new_server locked (Some (faucet 200000)) started.
Definition set_final : route (gmap string Z) CosmosWitness.toy := Grpc (fun _ _ e => let '(e, x) := SetFinal None 2 e in (e, let& _ := on_err 500 x in Reply POk)).
Definition locked_out : server (gmap string Z) CosmosWitness.toy * reply (payload (gmap string Z)) :=
  serve (Dec := Z) (F := Z) (M := string) noFloat 0 locked env 1000 set_final (request_of POST EmptyString []) locked_server.
Lemma closed_server_witness : finalizedHeight (hs_exec locked_out.1) = 1 /\
  exists status, locked_out.2 = Fail status (EMsg "refused") /\ (status = 403 \/ status = 401).
Proof.
  pose proof (closed_server (Dec := Z) (F := Z) (M := string) noFloat 0 locked env 1000 set_final (request_of POST EmptyString []) locked_server) as H.
  unfold locked_out. destruct (serve _ _ _ _ _ _ _ _) as [s' x]. destruct H as [H _]; [right; by vm_compute|].
  destruct (H eq_refl) as (He & _ & Hx). cbn [fst snd]. split; [|exact Hx]. rewrite He. by vm_compute.
Defined.

(** The same server takes a GET of its faucet from everyone. *)
Example faucet_by_get :
  let '(s, x) := serve (Dec := Z) (F := Z) (M := string) noFloat 0 locked env 1000 Faucet (request_of GET "alice" []) locked_server in
  is_Some (head (mempool (hs_exec s))) /\ match x with Reply _ => True | _ => False end.
Proof. vm_compute. eauto. Qed.

Definition sent : bytes := [x01; x02].
Definition submit : request := request_of POST EmptyString (String.list_byte_of_string (Base64.encode64 sent)).
Definition accepted : CosmosExecutor CosmosWitness.toy := (submitTxHandler (Coins := gmap string Z) (Some 1000) submit started).1.
Definition executed : CosmosExecutor CosmosWitness.toy :=
  (ExecuteTxs None [sent] 3 9 (stateRoot accepted) (GetTxs None accepted).1).1.
Lemma toy_results (a : CosmosWitness.toy) l i t p a' results : app_FinalizeBlock a l i t p = (a', Ok results) -> length results = length l.
Proof. cbn. intros [= _ <-]. by rewrite length_fmap. Qed.
Lemma submitted_found_witness : exists result cost,
  txResultHandler (Coins := gmap string Z) (F := Z) env (request_of GET (hashTx sent) []) executed = Reply (PResult result cost) /\
  xr_Hash result = hashTx sent /\ xr_Height result = 3.
Proof.
  destruct (submitted_found (Coins := gmap string Z) (F := Z) env (Some 1000) submit started accepted (hashTx sent) toy_results)
    as (tx & _ & Eh & Em & H); [by vm_compute|].
  assert (tx = sent) as ->.
  { apply (f_equal mempool) in Em. vm_compute in Em. by injection Em as <-. }
  apply (H [sent] 3 9 (stateRoot accepted) (GetTxs None accepted).1 executed (stateRoot executed)); [by constructor|by vm_compute|done..].
Defined.

Definition suggestion : simulated (gmap string Z) :=
  match txSimulateHandler (Dec := Z) noFloat 0 env None submit started with
  | Reply (PSimulated x) => x
  | _ => {| sm_gas_used := 0; sm_gas_wanted := 0; sm_gas_limit := 0; sm_fee := ∅ |}
  end.
Lemma simulated_fee_accepted_witness :
  is_ok (txFeeChecker policy false (Some (sm_fee suggestion, sm_gas_limit suggestion))) = true /\ sm_gas_used suggestion <= sm_gas_limit suggestion.
Proof.
  destruct (simulated_fee_accepted (Dec := Z) noFloat 0 env None submit started suggestion) as [H1 H2]; [by vm_compute|].
  split; [exact H1|]. by apply H2; vm_compute.
Defined.

Lemma prod_burst_witness : burst 102 "10.0.0.1" 7 (newIPRateLimiter 100) = replicate 100 true ++ [false; false].
Proof. apply (prod_burst "10.0.0.1" 7 102 (newIPRateLimiter 100)); done. Defined.

Definition zero_gas (k : string) : string := if bool_decide (k = "COSMOS_EXEC_QUERY_GAS_MAX"%string) then "0" else EmptyString.
Lemma LoadFromEnv_valid_witness : Validate (LoadFromEnv (fun _ => Ok 0) zero_gas DefaultConfig) = Err (EMsg "query_gas_max must be > 0").
Proof. rewrite (LoadFromEnv_valid (fun _ => Ok 0) zero_gas DefaultConfig); done. Defined.
End CosmosServerWitness.
End CosmosServer.
