(* ===== verification/SdkClient.v ===== *)
(** The clients of the SDK (apps/cosmos-exec/sdk/cosmoswasm): the HTTP client of the executor (client.go,
    client_extra.go, sdk_config.go), transactions and their signer (tx.go, signer.go, internal/txcodec), and the
    blobs an application keeps on the DA layer and records on the chain (blob.go, blob_record.go).

    The client runs against the modelled server. Between its requests the node works on the executor; a request
    or its reply may be lost, and the context may be cancelled: these are functions of the number of the request. *)

From Stdlib Require Import SpecFloat.
From S2P Require Import Prelude Sha256 Interfaces Types Store Replay Sdk ForcedInclusion Submit BlobClient Raft CosmosExec Config RpcServer Base64 CosmosApp CosmosServer.

(** [json.Marshal] of the requests, and of an object with one object inside. *)
Inductive jvalue := JString (s : string) | JNumber (n : Z) | JOther (raw : bytes).
Class ClientJSON := {
  marshal_object : string -> gmap string jvalue -> res bytes;
  marshal_submit : string -> bytes;
  marshal_estimate : estimateRequest -> bytes;
  marshal_query : string -> bytes -> bytes;
}.
(** The server reads what the client wrote: fields that are left out are empty. *)
Class ClientJSONLaws `{ServerJSON} `{ClientJSON} := {
  parse_marshal_submit s : parse_submit (marshal_submit s) = Ok {| sq_TxBase64 := s; sq_TxHex := EmptyString |};
  parse_marshal_simulate s : parse_estimate (marshal_submit s) =
    Ok {| eq_TxBase64 := s; eq_TxHex := EmptyString; eq_Hash := EmptyString; eq_Bytes := 0; eq_Gas := 0 |};
  parse_marshal_estimate q : parse_estimate (marshal_estimate q) = Ok q;
  parse_marshal_query c m : parse_query (marshal_query c m) = Ok {| qq_Contract := c; qq_Msg := m |};
}.
(** The messages of wasmd, and a transaction without signature. *)
Class WasmMsgs (M : Type) := {
  MsgStoreCode : string -> bytes -> M;
  (** sender, admin, code, label, message *)
  MsgInstantiateContract : string -> string -> Z -> string -> bytes -> M;
  MsgExecuteContract : string -> string -> bytes -> M;
  encode_unsigned : list M -> res bytes;
  (** the address of twenty bytes 0x11 *)
  DefaultSender : string;
}.

Module SdkClient.
Import CosmosExec CosmosApp CosmosServer.

(** ** Configuration (sdk_config.go) *)

Record SDKConfig := { ExecURL : string; Timeout : Z; RetryAttempts : Z; cfg_RetryDelay : Z; cfg_AuthToken : string; ChainID : string }.
Definition DefaultSDKConfig : SDKConfig := {|
  ExecURL := EmptyString; Timeout := 20 * Config.Second; RetryAttempts := 0; cfg_RetryDelay := Config.Second; cfg_AuthToken := EmptyString;
  ChainID := EmptyString |}.
(** [Validate] fills in what is missing. *)
Definition SDKConfig_Validate (c : SDKConfig) : res SDKConfig :=
  if bool_decide (TrimSpace (ExecURL c) = EmptyString) then Err (EMsg "ExecURL is required")
  else Ok {| ExecURL := ExecURL c; Timeout := if Timeout c <=? 0 then 20 * Config.Second else Timeout c; RetryAttempts := RetryAttempts c;
             cfg_RetryDelay := if cfg_RetryDelay c <=? 0 then Config.Second else cfg_RetryDelay c; cfg_AuthToken := cfg_AuthToken c;
             ChainID := ChainID c |}.

Record Client := { baseURL : string; httpTimeout : Z; authToken : string; retryMax : Z; retryDelay : Z; chainID : string }.
Definition NewClientFromConfig (c : SDKConfig) : res Client :=
  let? c := SDKConfig_Validate c in
  Ok {| baseURL := TrimRight "/" (TrimSpace (ExecURL c)); httpTimeout := Timeout c; authToken := cfg_AuthToken c; retryMax := RetryAttempts c;
        retryDelay := cfg_RetryDelay c; chainID := ChainID c |}.
Definition DefaultExecAPIURL : string := "http://127.0.0.1:50051".
Definition NewClient (url : string) : Client :=
  let trimmed := TrimRight "/" (TrimSpace url) in
  {| baseURL := if bool_decide (trimmed = EmptyString) then DefaultExecAPIURL else trimmed; httpTimeout := 20 * Config.Second;
     authToken := EmptyString; retryMax := 0; retryDelay := 0; chainID := EmptyString |}.

(** ** Requests *)

Inductive FinalityLevel := FinalityUnknown | FinalitySoft | FinalityDA.
Definition level_number (l : FinalityLevel) : Z := match l with FinalityUnknown => 0 | FinalitySoft => 1 | FinalityDA => 2 end.

(** What becomes of a request: it is answered; it is executed but the reply does not arrive; it does not arrive. *)
Inductive fate := Arrives | ReplyLost (e : err) | NotSent (e : err).

(** Errors after which the client tries again: their text says so. *)
Definition transient (e : err) : bool := Contains (err_Error e) "connection refused" || Contains (err_Error e) "deadline exceeded".

Section client.
Context {Dec Coins A F M : Type} `{CL : CosmosLib Dec Coins} `{AP : App A} `{AQ : AppQueries A Coins} `{BF : BigFloat F} `{SJ : ServerJSON}.
Context `{TL : TxLib M Coins} `{CJ : ClientJSON} `{WM : WasmMsgs M}.
(** The server's process. *)
Context (ParseFloat : string -> res spec_float) (other : Z) (cfg : Config) (env : string -> string).
(** The time of a request, what becomes of it, whether the context is cancelled before it, and what the node does
    to the executor before it. *)
Context (clock : nat -> Z) (fates : nat -> fate) (cancelled : nat -> option err) (node : nat -> CosmosExecutor A -> CosmosExecutor A).

Record world := { w_server : server Coins A; w_tick : nat }.
Definition at_request (w : world) : server Coins A := set_exec (node (w_tick w) (hs_exec (w_server w))) (w_server w).

(** The request of the client; [param] stands for the part of its path or query that varies. *)
Definition http_request (c : Client) (m : method) (param : string) (body : bytes) : request := {|
  rq_Method := m; rq_auth := if bool_decide (authToken c = EmptyString) then EmptyString else String.append "Bearer " (authToken c);
  rq_forwarded := EmptyString; rq_remote := "127.0.0.1:40000"; rq_body := body; rq_readErr := None; rq_query := fun _ => param;
  rq_path := param; rq_ctxErr := None |}.

Definition doJSONOnce (rt : route Coins A) (r : request) (w : world) : world * res (payload Coins) :=
  let s := at_request w in
  let '(s', x) := serve (F := F) (M := M) ParseFloat other cfg env (clock (w_tick w)) rt r s in
  let next s := {| w_server := s; w_tick := S (w_tick w) |} in
  match fates (w_tick w) with
  | NotSent e => (next s, Err (EWrap "request failed" e))
  | ReplyLost e => (next s', Err (EWrap "request failed" e))
  | Arrives =>
      (next s', match x with
                | Reply p => Ok p
                | Fail _ e => Err (EWrap "api error" e)
                | Dropped => Err (EWrap "request failed" (EMsg "EOF"))
                end)
  end.

(** The attempts of [doJSON]; [again] says that this is not the first. *)
Fixpoint attempts_loop (attempts : nat) (again : bool) (rt : route Coins A) (r : request) (w : world) : world * res (payload Coins) :=
  match attempts with
  | O => (w, Err (EMsg "no attempts"))
  | S attempts =>
      match (if again then cancelled (w_tick w) else None) with
      | Some e => (w, Err e)
      | None =>
          let '(w, x) := doJSONOnce rt r w in
          match x with
          | Ok p => (w, Ok p)
          | Err e => if transient e && negb (attempts =? 0)%nat then attempts_loop attempts true rt r w else (w, Err e)
          end
      end
  end.
Definition doJSON (c : Client) (rt : route Coins A) (m : method) (param : string) (body : bytes) (w : world) : world * res (payload Coins) :=
  attempts_loop (Z.to_nat (Z.max 1 (1 + retryMax c))) false rt (http_request c m param body) w.

(** ** The client's methods *)

Definition SubmitTxBase64 (c : Client) (txBase64 : string) (w : world) : world * res string :=
  let txBase64 := TrimSpace txBase64 in
  if bool_decide (txBase64 = EmptyString) then (w, Err (EMsg "tx base64 is required"))
  else
    let '(w, x) := doJSON c TxSubmit POST EmptyString (marshal_submit txBase64) w in
    (w, let? p := x in
        match p with
        | PHash h => if bool_decide (TrimSpace h = EmptyString) then Err (EMsg "submit response missing tx hash") else Ok h
        | _ => Err (EMsg "submit response missing tx hash")
        end).
Definition SubmitTxBytes (c : Client) (txBytes : bytes) (w : world) : world * res string :=
  if blen txBytes =? 0 then (w, Err (EMsg "tx bytes cannot be empty")) else SubmitTxBase64 c (Base64.encode64 txBytes) w.

Definition unexpected {X} : res X := Err (EMsg "decode response json").
Definition FetchAccount (c : Client) (address : string) (w : world) : world * res AccountInfo :=
  let address := TrimSpace address in
  if bool_decide (address = EmptyString) then (w, Err (EMsg "address is required"))
  else let '(w, x) := doJSON c AuthAccount GET address [] w in
       (w, let? p := x in match p with PAccount i => Ok i | _ => unexpected end).

(** [None] is [Found = false]. *)
Definition Client_GetTxResult (c : Client) (txHash : string) (w : world) : world * res (option TxExecutionResult) :=
  let txHash := TrimSpace txHash in
  if bool_decide (txHash = EmptyString) then (w, Err (EMsg "tx hash is required"))
  else let '(w, x) := doJSON c TxResult GET txHash [] w in
       (w, let? p := x in match p with PResult r _ => Ok (Some r) | PNotFound => Ok None | _ => unexpected end).

(** [fuel] is more than the number of polls. *)
Fixpoint WaitTxResult (fuel : nat) (c : Client) (txHash : string) (w : world) : world * res TxExecutionResult :=
  match fuel with
  | O => (w, Err (EMsg "out of fuel"))
  | S fuel =>
      match Client_GetTxResult c txHash w with
      | (w, Err e) => (w, Err e)
      | (w, Ok (Some r)) => (w, Ok r)
      | (w, Ok None) => match cancelled (w_tick w) with Some e => (w, Err e) | None => WaitTxResult fuel c txHash w end
      end
  end.

Definition Client_Status (c : Client) (w : world) : world * res StatusInfo :=
  let '(w, x) := doJSON c StatusR GET EmptyString [] w in (w, let? p := x in match p with PStatus s => Ok s | _ => unexpected end).

Definition GetTxFinality (c : Client) (txHash : string) (w : world) : world * res (FinalityLevel * option TxExecutionResult) :=
  match Client_GetTxResult c txHash w with
  | (w, Err e) => (w, Err e)
  | (w, Ok None) => (w, Ok (FinalityUnknown, None))
  | (w, Ok (Some r)) =>
      let '(w, x) := Client_Status c w in
      (w, let? status := x in Ok (if xr_Height r <=? si_FinalizedHeight status then FinalityDA else FinalitySoft, Some r))
  end.

Fixpoint WaitTxFinality (fuel : nat) (c : Client) (txHash : string) (want : FinalityLevel) (w : world)
  : world * res (option TxExecutionResult) :=
  let wanted := match want with FinalityUnknown => FinalitySoft | l => l end in
  match fuel with
  | O => (w, Err (EMsg "out of fuel"))
  | S fuel =>
      match GetTxFinality c txHash w with
      | (w, Err e) => (w, Err e)
      | (w, Ok (level, r)) =>
          if level_number wanted <=? level_number level then (w, Ok r)
          else match cancelled (w_tick w) with Some e => (w, Err e) | None => WaitTxFinality fuel c txHash want w end
      end
  end.

Definition Client_SimulateTx (c : Client) (txBytes : bytes) (w : world) : world * res (simulated Coins) :=
  if blen txBytes =? 0 then (w, Err (EMsg "tx bytes cannot be empty"))
  else let '(w, x) := doJSON c TxSimulate POST EmptyString (marshal_submit (Base64.encode64 txBytes)) w in
       (w, let? p := x in match p with PSimulated s => Ok s | _ => unexpected end).
Definition EstimateCost (c : Client) (q : estimateRequest) (w : world) : world * res CostBreakdown :=
  let '(w, x) := doJSON c TxEstimate POST EmptyString (marshal_estimate q) w in
  (w, let? p := x in match p with PCost b => Ok b | _ => unexpected end).
Definition Client_GetLatestBlock (c : Client) (w : world) : world * res (option BlockInfo) :=
  let '(w, x) := doJSON c BlocksLatest GET EmptyString [] w in
  (w, let? p := x in match p with PBlock b => Ok (if bi_Height b =? 0 then None else Some b) | PNotFound => Ok None | _ => unexpected end).
Definition GetBlockByHeight (c : Client) (height : Z) (w : world) : world * res BlockInfo :=
  if height =? 0 then (w, Err (EMsg "height must be > 0"))
  else let '(w, x) := doJSON c BlockByHeight GET (dec_string height) [] w in
       (w, let? p := x in match p with PBlock b => Ok b | _ => unexpected end).
Definition Client_GetPendingTxCount (c : Client) (w : world) : world * res Z :=
  let '(w, x) := doJSON c TxPending GET EmptyString [] w in (w, let? p := x in match p with PCount n => Ok n | _ => unexpected end).

(** [NormalizeJSONBytes]: [bytes.TrimSpace] on ASCII text. *)
Definition NormalizeJSONBytes (raw : bytes) : res bytes :=
  let trimmed := String.list_byte_of_string (TrimSpace (String.string_of_list_byte raw)) in
  if blen trimmed =? 0 then Err (EMsg "json msg cannot be empty")
  else if negb (json_Valid trimmed) then Err (EMsg "msg must be valid json") else Ok trimmed.
(** A message that is nil is the empty object; another value is its JSON text. *)
Definition NormalizeJSONMsg (msg : option bytes) : res bytes :=
  match msg with None => Ok (String.list_byte_of_string "{}") | Some raw => NormalizeJSONBytes raw end.

(** The JSON value, or the raw text. *)
Definition QuerySmartRaw (c : Client) (contract : string) (msg : option bytes) (w : world) : world * res (bytes + bytes) :=
  let contract := TrimSpace contract in
  if bool_decide (contract = EmptyString) then (w, Err (EMsg "contract is required"))
  else match wrap_err "invalid query msg" (NormalizeJSONMsg msg) with
  | Err e => (w, Err e)
  | Ok msgJSON =>
      let '(w, x) := doJSON c WasmQuery POST EmptyString (marshal_query contract msgJSON) w in
      (w, let? p := x in match p with PData d => Ok (inl d) | PDataRaw d => Ok (inr d) | _ => unexpected end)
  end.

(** ** Transactions (tx.go, signer.go) *)

Definition WithDefaultSender (sender : string) : string :=
  let sender := TrimSpace sender in if bool_decide (sender = EmptyString) then DefaultSender else sender.
Record InstantiateTxRequest := { it_Sender : string; it_CodeID : Z; it_Msg : option bytes; it_Label : string; it_Admin : string }.
Record ExecuteTxRequest := { et_Sender : string; et_Contract : string; et_Msg : option bytes }.
Definition label_of (label : string) : string :=
  let label := TrimSpace label in if bool_decide (label = EmptyString) then "wasm-via-sdk" else label.

Definition BuildStoreTx (wasmByteCode : bytes) (sender : string) : res bytes :=
  if blen wasmByteCode =? 0 then Err (EMsg "wasm bytecode cannot be empty")
  else encode_unsigned [MsgStoreCode (WithDefaultSender sender) wasmByteCode].
Definition BuildInstantiateTx (q : InstantiateTxRequest) : res bytes :=
  if it_CodeID q =? 0 then Err (EMsg "code id is required")
  else
    let? msgJSON := wrap_err "invalid instantiate msg" (NormalizeJSONMsg (it_Msg q)) in
    encode_unsigned [MsgInstantiateContract (WithDefaultSender (it_Sender q)) (TrimSpace (it_Admin q)) (it_CodeID q) (label_of (it_Label q)) msgJSON].
Definition BuildExecuteTx (q : ExecuteTxRequest) : res bytes :=
  let contract := TrimSpace (et_Contract q) in
  if bool_decide (contract = EmptyString) then Err (EMsg "contract is required")
  else
    let? msgJSON := wrap_err "invalid execute msg" (NormalizeJSONMsg (et_Msg q)) in
    encode_unsigned [MsgExecuteContract (WithDefaultSender (et_Sender q)) contract msgJSON].

(** What both records of blobs have: height, namespace, tag, and whatever the caller adds, which comes last. *)
Definition with_details (height : Z) (namespace tag : string) (extra inner : gmap string jvalue) : gmap string jvalue :=
  let text key t (m : gmap string jvalue) := let t := TrimSpace t in if bool_decide (t = EmptyString) then m else <[key := JString t]> m in
  let inner := if 0 <? height then <["height"%string := JNumber height]> inner else inner in
  extra ∪ text "tag"%string tag (text "namespace"%string namespace inner).
Record BlobCommitTxRequest := {
  bc_Sender : string; bc_Contract : string; bc_Commitment : string; bc_Height : Z; bc_Namespace : string; bc_Tag : string;
  bc_Extra : gmap string jvalue }.
Definition BuildBlobCommitTx (q : BlobCommitTxRequest) : res bytes :=
  let commitment := TrimSpace (bc_Commitment q) in
  if bool_decide (commitment = EmptyString) then Err (EMsg "commitment is required")
  else
    let contract := TrimSpace (bc_Contract q) in
    if bool_decide (contract = EmptyString) then Err (EMsg "contract is required")
    else
      let inner := with_details (bc_Height q) (bc_Namespace q) (bc_Tag q) (bc_Extra q) {["commitment"%string := JString commitment]} in
      match marshal_object "record_blob" inner with
      | Err e => Err (EWrap "invalid execute msg" e)
      | Ok msg => BuildExecuteTx {| et_Sender := bc_Sender q; et_Contract := contract; et_Msg := Some msg |}
      end.
Record BatchRootTxRequest := {
  br_Sender : string; br_Contract : string; br_Root : string; br_Height : Z; br_Namespace : string; br_Count : Z; br_Tag : string;
  br_Extra : gmap string jvalue }.
Definition BuildBatchRootTx (q : BatchRootTxRequest) : res bytes :=
  let root := TrimSpace (br_Root q) in
  if bool_decide (root = EmptyString) then Err (EMsg "root is required")
  else
    let contract := TrimSpace (br_Contract q) in
    if bool_decide (contract = EmptyString) then Err (EMsg "contract is required")
    else
      let inner := with_details (br_Height q) (br_Namespace q) (br_Tag q) (br_Extra q)
                     {["root"%string := JString root; "count"%string := JNumber (br_Count q)]} in
      match marshal_object "record_batch" inner with
      | Err e => Err (EWrap "invalid execute msg" e)
      | Ok msg => BuildExecuteTx {| et_Sender := br_Sender q; et_Contract := contract; et_Msg := Some msg |}
      end.

Record Signer := { sg_privKey : bytes; sg_chainID : string; sg_gasLimit : Z; sg_feeAmount : Coins }.
Definition NewSignerFromHex (hexPrivKey chainID : string) : res Signer :=
  let? pk := NewSecp256k1FromHex hexPrivKey in
  if bool_decide (chainID = EmptyString) then Err (EMsg "chainID is required")
  else Ok {| sg_privKey := pk; sg_chainID := chainID; sg_gasLimit := 100000000; sg_feeAmount := no_coins |}.
Definition WithGasLimit (limit : Z) (s : Signer) : Signer :=
  {| sg_privKey := sg_privKey s; sg_chainID := sg_chainID s; sg_gasLimit := limit; sg_feeAmount := sg_feeAmount s |}.
Definition WithFee (fee : Coins) (s : Signer) : Signer :=
  {| sg_privKey := sg_privKey s; sg_chainID := sg_chainID s; sg_gasLimit := sg_gasLimit s; sg_feeAmount := fee |}.
Definition Address (s : Signer) : string := secp_Address (sg_privKey s).

Definition resolveSignerInput (c : Client) (s : Signer) (w : world) : world * res (SignerInput Coins) :=
  let '(w, x) := FetchAccount c (Address s) w in
  (w, let? info := wrap_err "fetch account" x in
      Ok {| in_PrivKey := sg_privKey s; in_ChainID := sg_chainID s; in_AccountNumber := ai_AccountNumber info; in_Sequence := ai_Sequence info;
            in_GasLimit := sg_gasLimit s; in_FeeAmount := sg_feeAmount s |}).
Definition sign_with (c : Client) (s : Signer) (msg : M) (w : world) : world * res bytes :=
  let '(w, x) := resolveSignerInput c s w in (w, let? i := x in BuildSignedProtoTxBytes i [msg]).
Definition BuildSignedStoreTx (c : Client) (s : Signer) (wasmByteCode : bytes) (w : world) : world * res bytes :=
  if blen wasmByteCode =? 0 then (w, Err (EMsg "wasm bytecode cannot be empty"))
  else sign_with c s (MsgStoreCode (Address s) wasmByteCode) w.
Definition BuildSignedInstantiateTx (c : Client) (s : Signer) (q : InstantiateTxRequest) (w : world) : world * res bytes :=
  if it_CodeID q =? 0 then (w, Err (EMsg "code id is required"))
  else match wrap_err "invalid instantiate msg" (NormalizeJSONMsg (it_Msg q)) with
  | Err e => (w, Err e)
  | Ok msgJSON => sign_with c s (MsgInstantiateContract (Address s) (TrimSpace (it_Admin q)) (it_CodeID q) (label_of (it_Label q)) msgJSON) w
  end.
Definition BuildSignedExecuteTx (c : Client) (s : Signer) (q : ExecuteTxRequest) (w : world) : world * res bytes :=
  let contract := TrimSpace (et_Contract q) in
  if bool_decide (contract = EmptyString) then (w, Err (EMsg "contract is required"))
  else match wrap_err "invalid execute msg" (NormalizeJSONMsg (et_Msg q)) with
  | Err e => (w, Err e)
  | Ok msgJSON => sign_with c s (MsgExecuteContract (Address s) contract msgJSON) w
  end.

(** Builds, submits and waits; the hash is there as soon as the transaction is submitted. *)
Definition recordOnChain (fuel : nat) (c : Client) (s : Signer) (contract : string) (msg : option bytes) (w : world)
  : world * (string * option err) :=
  match BuildSignedExecuteTx c s {| et_Sender := Address s; et_Contract := contract; et_Msg := msg |} w with
  | (w, Err e) => (w, (EmptyString, Some (EWrap "build record tx" e)))
  | (w, Ok tx) =>
      match SubmitTxBytes c tx w with
      | (w, Err e) => (w, (EmptyString, Some (EWrap "submit record tx" e)))
      | (w, Ok hash) =>
          match WaitTxResult fuel c hash w with
          | (w, Err e) => (w, (hash, Some (EWrap "wait record tx" e)))
          | (w, Ok r) => (w, (hash, if xr_Code r =? 0 then None else Some (EMsg "record tx failed")))
          end
      end
  end.
End client.
Arguments world : clear implicits. Arguments Signer : clear implicits.

(** ** Blobs (blob.go, blob_record.go) *)

Definition MaxBlobSize : Z := 2 * 1024 * 1024.
Definition MaxBatchTotal : Z := 8 * 1024 * 1024.
Definition normalizeHex (s : string) : string := ToLower (TrimPrefix "0x" (TrimSpace s)).
Definition decodeCommitment (commitmentHex : string) : res bytes :=
  let h := normalizeHex commitmentHex in
  if bool_decide (h = EmptyString) then Err (EMsg "commitment is required") else wrap_err "invalid commitment hex" (hex_DecodeString h).

Section blobs.
Context {W L PR OPT : Type} `{API : BlobAPI W L PR OPT}.
(** Explicit options when a gas price is given; none are the options of the node. *)
Record BlobClient := { b_ns : bytes; b_nsHex : string; b_opts : OPT }.
Context (gas_options : spec_float -> OPT).
Record BlobClientConfig := { BridgeRPC : string; b_AuthToken : string; b_Namespace : string; b_GasPrice : spec_float }.
(** [dial] is the connection to the node. *)
Definition NewBlobClient (dial : string -> string -> W -> W * res unit) (cfg : BlobClientConfig) (w : W) : W * res BlobClient :=
  if bool_decide (TrimSpace (BridgeRPC cfg) = EmptyString) then (w, Err (EMsg "BridgeRPC is required"))
  else if bool_decide (TrimSpace (b_Namespace cfg) = EmptyString) then (w, Err (EMsg "Namespace is required"))
  else match Namespaces.NamespaceFromString (String.list_byte_of_string (b_Namespace cfg)) with
  | None => (w, Err (EMsg "nil namespace"))
  | Some nsObj =>
      match wrap_err "resolve namespace" (share_NewNamespaceFromBytes (Namespaces.Bytes nsObj)) with
      | Err e => (w, Err e)
      | Ok ns =>
          match dial (BridgeRPC cfg) (b_AuthToken cfg) w with
          | (w, Err e) => (w, Err (EWrap "connect Celestia bridge" e))
          | (w, Ok _) =>
              (w, Ok {| b_ns := ns; b_nsHex := Namespaces.Hex nsObj;
                        b_opts := if SFltb (S754_zero false) (b_GasPrice cfg) then gas_options (b_GasPrice cfg) else zero_options |})
          end
      end
  end.

Record BlobSubmitResponse := { bs_Commitment : string; bs_Height : Z; bs_Namespace : string; bs_Size : Z }.
Definition SubmitBlob (b : BlobClient) (data : bytes) (w : W) : W * res BlobSubmitResponse :=
  if blen data =? 0 then (w, Err (EMsg "blob data is empty"))
  else if MaxBlobSize <? blen data then (w, Err (EMsg "blob too large"))
  else match wrap_err "build blob" (DAC.NewBlobV0 (b_ns b) data) with
  | Err e => (w, Err e)
  | Ok blob =>
      let '(w, x) := api_Submit w [blob] (b_opts b) in
      (w, let? height := wrap_err "submit blob to Celestia" x in
          Ok {| bs_Commitment := hex_encode blob.2; bs_Height := height; bs_Namespace := b_nsHex b; bs_Size := blen data |})
  end.

(** No blob is a nil pointer, and reading its data panics. *)
Definition RetrieveBlob (b : BlobClient) (height : Z) (commitmentHex : string) (w : W) : W * res bytes :=
  if height =? 0 then (w, Err (EMsg "height is required to retrieve a blob"))
  else match decodeCommitment commitmentHex with
  | Err e => (w, Err e)
  | Ok com =>
      let '(w, x) := api_Get w height (b_ns b) com in
      (w, let? blob := wrap_err "get blob from Celestia" x in
          match blob with Some blob => Ok (share_Data blob.1) | None => Err (EMsg "panic: nil pointer dereference") end)
  end.

(** The loop of [SubmitBatch]; [total] are the bytes so far. *)
Fixpoint batch_blobs (b : BlobClient) (total : Z) (blobs : list bytes) : res (list (L * bytes)) :=
  match blobs with
  | [] => Ok []
  | data :: blobs =>
      if blen data =? 0 then Err (EMsg "blob is empty")
      else if MaxBatchTotal <? total + blen data then Err (EMsg "batch too large")
      else
        let? blob := wrap_err "build blob" (DAC.NewBlobV0 (b_ns b) data) in
        let? rest := batch_blobs b (total + blen data) blobs in
        Ok (blob :: rest)
  end.
Record BlobBatchResponse := { bb_Root : string; bb_Commitments : list string; bb_Count : Z; bb_Height : Z }.
Definition SubmitBatch (b : BlobClient) (blobs : list bytes) (w : W) : W * res BlobBatchResponse :=
  if blen blobs =? 0 then (w, Err (EMsg "no blobs to submit"))
  else match batch_blobs b 0 blobs with
  | Err e => (w, Err e)
  | Ok daBlobs =>
      let commitments := (fun blob : L * bytes => hex_encode blob.2) <$> daBlobs in
      let '(w, x) := api_Submit w daBlobs (b_opts b) in
      (w, let? height := wrap_err "submit batch to Celestia" x in
          let? proof := wrap_err "compute batch merkle root" (Merkle.BuildProof commitments 0) in
          Ok {| bb_Root := proof.1; bb_Commitments := commitments; bb_Count := blen commitments; bb_Height := height |})
  end.

Definition VerifyBlob (b : BlobClient) (height : Z) (commitmentHex : string) (w : W) : W * res bool :=
  let want := normalizeHex commitmentHex in
  if bool_decide (want = EmptyString) then (w, Err (EMsg "commitment is required"))
  else match RetrieveBlob b height commitmentHex w with
  | (w, Err e) => (w, Err e)
  | (w, Ok data) =>
      (w, let? recomputed := wrap_err "recompute commitment" (DAC.NewBlobV0 (b_ns b) data) in Ok (bool_decide (hex_encode recomputed.2 = want)))
  end.

(** The blob first, then its record: [record] is [recordOnChain] of the client and signer. The blob is returned
    even when the record fails. *)
Definition StoreBlobAndRecord {X} (record : bytes -> X -> X * (string * option err)) (buildMsg : BlobSubmitResponse -> string -> bytes)
  (b : BlobClient) (data : bytes) (w : W) (x : X) : W * X * (option BlobSubmitResponse * string * option err) :=
  match SubmitBlob b data w with
  | (w, Err e) => (w, x, (None, EmptyString, Some e))
  | (w, Ok blob) => let '(x, (hash, e)) := record (buildMsg blob (b_nsHex b)) x in (w, x, (Some blob, hash, e))
  end.
Definition StoreBatchAndRecord {X} (record : bytes -> X -> X * (string * option err)) (buildMsg : BlobBatchResponse -> string -> bytes)
  (b : BlobClient) (blobs : list bytes) (w : W) (x : X) : W * X * (option BlobBatchResponse * string * option err) :=
  match SubmitBatch b blobs w with
  | (w, Err e) => (w, x, (None, EmptyString, Some e))
  | (w, Ok batch) => let '(x, (hash, e)) := record (buildMsg batch (b_nsHex b)) x in (w, x, (Some batch, hash, e))
  end.
End blobs.
Arguments BlobClient : clear implicits.

(** ** The client against the server *)

Section against_server.
Context {Dec Coins A F M : Type} `{CL : CosmosLib Dec Coins} `{AP : App A} `{AQ : AppQueries A Coins} `{BF : BigFloat F} `{SJ : ServerJSON}.
Context `{TL : TxLib M Coins} `{CJ : ClientJSON} `{CJL : !ClientJSONLaws} `{WM : WasmMsgs M}.
Context (ParseFloat : string -> res spec_float) (other : Z) (cfg : Config) (env : string -> string).
Context (clock : nat -> Z) (fates : nat -> fate) (cancelled : nat -> option err) (node : nat -> CosmosExecutor A -> CosmosExecutor A).
Abbreviation once := (doJSONOnce (F := F) (M := M) ParseFloat other cfg env clock fates node).
Abbreviation loop := (attempts_loop (F := F) (M := M) ParseFloat other cfg env clock fates cancelled node).
Abbreviation submit := (SubmitTxBytes (F := F) (M := M) ParseFloat other cfg env clock fates cancelled node).
Abbreviation result_of := (Client_GetTxResult (F := F) (M := M) ParseFloat other cfg env clock fates cancelled node).
Abbreviation wait := (WaitTxResult (F := F) (M := M) ParseFloat other cfg env clock fates cancelled node).
Abbreviation finality := (GetTxFinality (F := F) (M := M) ParseFloat other cfg env clock fates cancelled node).
Abbreviation served := (serve (F := F) (M := M) ParseFloat other cfg env).
Implicit Types (w : world Coins A) (s : server Coins A) (c : Client).

(** The server takes the client's POSTs: it writes, and the client has its token. *)
Definition open_to c : Prop := ReadOnlyMode cfg = false /\ (AuthToken cfg = EmptyString \/ authToken c = AuthToken cfg).
(** A body both the middleware and the handler read in full. *)
Definition fits (body : bytes) : Prop := (MaxRequestBodyBytes cfg <= 0 \/ blen body <= MaxRequestBodyBytes cfg) /\ blen body <= maxTxSize.
Definition exec_of w : CosmosExecutor A := hs_exec (w_server w).

Lemma serve_passes now rt r s maxBody : hs_limiter s = None -> securityMiddleware cfg None r now = (None, Pass maxBody) ->
  exists m m' s' x, dispatch (F := F) (M := M) ParseFloat other cfg env now maxBody rt r (set_metrics m s) = (s', x) /\
    served now rt r s = (set_metrics m' s', x).
Proof.
  intros Hl Hp. unfold serve, metricsCountingMiddleware. destruct s as [e fc l m]. cbn in Hl. subst l. destruct (MetricsEnabled cfg); cbn.
  - exists (incRequest m). rewrite Hp. unfold set_limiter, set_metrics. cbn. destruct (dispatch _ _ _ _ _ _ _ _ _) as [s' x].
    destruct (400 <=? _); eexists _, s', x; (split; [reflexivity|]); [reflexivity|]. by instantiate (1 := hs_metrics s'); destruct s'.
  - exists m. rewrite Hp. unfold set_limiter, set_metrics. cbn. destruct (dispatch _ _ _ _ _ _ _ _ _) as [s' x].
    exists (hs_metrics s'), s', x. split; [reflexivity|]. by destruct s'.
Qed.

Lemma post_passes c param body now : open_to c ->
  securityMiddleware cfg None (http_request c POST param body) now = (None, Pass (if 0 <? MaxRequestBodyBytes cfg then Some (MaxRequestBodyBytes cfg) else None)).
Proof.
  intros [Hr Ht]. unfold securityMiddleware. cbn [rq_Method rq_auth http_request]. rewrite bool_decide_false by done.
  rewrite (bool_decide_true (POST = POST)) by done. rewrite Hr, !andb_true_r. cbn.
  destruct (decide (AuthToken cfg = EmptyString)) as [E|E]; [by rewrite bool_decide_true|].
  destruct Ht as [|Ht]; [done|]. rewrite Ht, !(bool_decide_false (AuthToken cfg = _)) by done. by rewrite bool_decide_true.
Qed.
Lemma get_passes c param now : securityMiddleware cfg None (http_request c GET param []) now = (None, Pass None).
Proof. unfold securityMiddleware. cbn. by rewrite !andb_false_r. Qed.

(** A transaction that arrives is in the mempool. *)
Lemma submit_served c tx now s : open_to c -> hs_limiter s = None -> tx <> [] -> fits (marshal_submit (Base64.encode64 tx)) ->
  exists s', served now TxSubmit (http_request c POST EmptyString (marshal_submit (Base64.encode64 tx))) s = (s', Reply (PHash (hashTx tx))) /\
    hs_exec s' = set_mempool (mempool (hs_exec s) ++ [tx]) (hs_exec s) /\ hs_limiter s' = None.
Proof.
  intros Ho Hl Hx [Hf1 Hf2]. set (body := marshal_submit _) in *.
  destruct (serve_passes now TxSubmit (http_request c POST EmptyString body) s _ Hl (post_passes c EmptyString body now Ho))
    as (m & m' & s' & x & Ed & ->). cbn [dispatch] in Ed. unfold submitTxHandler, post_json, require_method in Ed.
  cbn [rq_Method http_request] in Ed. rewrite bool_decide_true in Ed by done. cbn [reply_bind] in Ed.
  assert (Hb : forall r, rq_body r = body -> rq_readErr r = None ->
    read_body (if 0 <? MaxRequestBodyBytes cfg then Some (MaxRequestBodyBytes cfg) else None) maxTxSize r = Ok body).
  { intros r Hr1 Hr2. unfold read_body. rewrite Hr2, Hr1. assert (Ht : take (Z.to_nat maxTxSize) body = body).
    { apply take_ge. unfold blen in Hf2. lia. }
    rewrite Ht. destruct (Z.ltb_spec 0 (MaxRequestBodyBytes cfg)); [|done].
    destruct (Z.ltb_spec (MaxRequestBodyBytes cfg) (blen body)); [lia|]. by rewrite andb_false_r. }
  rewrite Hb in Ed by done. subst body. rewrite parse_marshal_submit in Ed. cbn [reply_bind sq_TxHex sq_TxBase64] in Ed.
  rewrite (proj2 (decodeTx_encoded tx EmptyString Hx)) in Ed. cbn in Ed. destruct tx as [|b tx]; [done|].
  unfold InjectTx in Ed. cbn in Ed. injection Ed as <- <-. eexists. done.
Qed.

Lemma once_arrives rt r w s' x : fates (w_tick w) = Arrives -> served (clock (w_tick w)) rt r (at_request node w) = (s', Reply x) ->
  once rt r w = ({| w_server := s'; w_tick := S (w_tick w) |}, Ok x).
Proof. intros Hf Hs. unfold doJSONOnce. by rewrite Hs, Hf. Qed.

Lemma submit_bytes c tx w : tx <> [] ->
  submit c tx w = let '(w, x) := doJSON (F := F) (M := M) ParseFloat other cfg env clock fates cancelled node c TxSubmit POST EmptyString
                                   (marshal_submit (Base64.encode64 tx)) w in
    (w, let? p := x in match p with
        | PHash h => if bool_decide (TrimSpace h = EmptyString) then Err (EMsg "submit response missing tx hash") else Ok h
        | _ => Err (EMsg "submit response missing tx hash")
        end).
Proof.
  intros Hx. unfold SubmitTxBytes, SubmitTxBase64, TrimSpace. destruct (Z.eqb_spec (blen tx) 0); [by destruct tx|].
  rewrite (Base64.trim_solid (Base64.encode64 tx)) by apply Base64.encode_solid. by rewrite bool_decide_false by (by rewrite Base64.encode_empty).
Qed.
Lemma hash_kept tx : TrimSpace (hashTx tx) = hashTx tx /\ hashTx tx <> EmptyString.
Proof.
  split; [by apply Base64.trim_solid, Base64.hex_solid|]. unfold hashTx. intros H. apply (f_equal String.length) in H.
  by rewrite length_hex_encode, length_sha256 in H.
Qed.

(** A submission whose request and reply arrive puts the transaction into the mempool once and returns its hash. *)
Theorem SubmitTxBytes_delivers (c : Client) (tx : bytes) (w : world Coins A)
  (Hopen : open_to c) (Hlim : hs_limiter (w_server w) = None) (Hne : tx <> []) (Hfits : fits (marshal_submit (Base64.encode64 tx)))
  (Harr : fates (w_tick w) = Arrives) :
  exists w', submit c tx w = (w', Ok (hashTx tx)) /\ let e := node (w_tick w) (exec_of w) in exec_of w' = set_mempool (mempool e ++ [tx]) e.
Proof.
  destruct (submit_served c tx (clock (w_tick w)) (at_request node w) Hopen Hlim Hne Hfits) as (s' & Hs & He & _).
  rewrite submit_bytes by done. unfold doJSON. replace (Z.to_nat (Z.max 1 (1 + retryMax c))) with (S (Z.to_nat (Z.max 0 (retryMax c)))) by lia.
  cbn [attempts_loop]. rewrite (once_arrives _ _ _ _ _ Harr Hs). destruct (hash_kept tx) as [Ht Hn]. cbn. rewrite Ht, bool_decide_false by done.
  eexists. split; [reflexivity|]. exact He.
Qed.

(** The second of two results for a transaction is the one that is kept. *)
Lemma duplicate_result tx h ts prev (e e' : CosmosExecutor A) root a r1 r2 : tx <> [] ->
  app_FinalizeBlock (x_app e) [tx; tx] (i64 h) ts prev = (a, Ok [r1; r2]) ->
  ExecuteTxs None [tx; tx] h ts prev e = (e', Ok root) ->
  exists result, GetTxResult None (hashTx tx) e' = Ok (Some result) /\ xr_Code result = tr_Code r2.
Proof.
  intros Hx Hf E. unfold ExecuteTxs in E. destruct (h =? 0); [done|]. destruct (negb (initialized e)); [done|].
  destruct (negb (bool_decide _)); [done|]. destruct (negb (h =? _)); [done|].
  assert (Hv : filter (fun t => 0 < blen t) [tx; tx] = [tx; tx]).
  { assert (0 < blen tx) by (destruct tx; [done|unfold blen; cbn; lia]). by rewrite !filter_cons, !decide_True by done. }
  rewrite Hv, Hf in E. destruct (record_results h [r1; r2] [tx; tx] (set_app a e)) as [e1 [hs|]] eqn:Er; [|done].
  unfold GetTxResult. rewrite normalizeHash_hash, (finish_txs _ _ _ _ _ _ _ E). clear E. cbn in Er.
  assert (H1 : forall p, persistStore e = p -> exists result, txResults e1 !! hashTx tx = Some result /\ xr_Code result = tr_Code r2).
  { intros [p|] Ep; rewrite Ep in Er; cbn in Er.
    - destruct (AppendTxResult p _) as [p1 [[]|]]; cbn in Er; [|done].
      destruct (AppendTxResult p1 _) as [p2 [[]|]]; cbn in Er; [|done]. injection Er as <- _. cbn. rewrite lookup_insert_eq. by eexists.
    - rewrite Ep in Er. cbn in Er. injection Er as <- _. cbn. rewrite lookup_insert_eq. by eexists. }
  destruct (H1 _ eq_refl) as (result & -> & Hc). by exists result.
Qed.

(** C39: A submission that is executed but whose reply is late is submitted again by a client with retries. The
    transaction is then twice in the mempool; and when a block executes both, a query of its hash reports
    the code of the second execution, whatever the first one returned. *)
Theorem retry_duplicates (c : Client) (tx : bytes) (w : world Coins A) (late : err)
  (Hopen : open_to c) (Hlim : hs_limiter (w_server w) = None) (Hne : tx <> []) (Hfits : fits (marshal_submit (Base64.encode64 tx)))
  (Hretry : 1 <= retryMax c) (Hlost : fates (w_tick w) = ReplyLost late) (Hlate : transient late = true)
  (Hctx : cancelled (S (w_tick w)) = None) (Harr : fates (S (w_tick w)) = Arrives) (Hidle : forall e, node (S (w_tick w)) e = e) :
  exists w', submit c tx w = (w', Ok (hashTx tx)) /\
    (let e := node (w_tick w) (exec_of w) in exec_of w' = set_mempool (mempool e ++ [tx; tx]) e) /\
    forall h ts prev (e e' : CosmosExecutor A) root a r1 r2, app_FinalizeBlock (x_app e) [tx; tx] (i64 h) ts prev = (a, Ok [r1; r2]) ->
      ExecuteTxs None [tx; tx] h ts prev e = (e', Ok root) ->
      exists result, GetTxResult None (hashTx tx) e' = Ok (Some result) /\ xr_Code result = tr_Code r2.
Proof.
  destruct (submit_served c tx (clock (w_tick w)) (at_request node w) Hopen Hlim Hne Hfits) as (s1 & Hs1 & He1 & Hl1).
  pose (w1 := {| w_server := s1; w_tick := S (w_tick w) |}).
  destruct (submit_served c tx (clock (S (w_tick w))) (at_request node w1) Hopen Hl1 Hne Hfits) as (s2 & Hs2 & He2 & _).
  rewrite submit_bytes by done. unfold doJSON. replace (Z.to_nat (Z.max 1 (1 + retryMax c))) with (S (S (Z.to_nat (retryMax c - 1)))) by lia.
  cbn [attempts_loop]. unfold doJSONOnce at 1. rewrite Hs1, Hlost. fold w1.
  assert (Ht : transient (EWrap "request failed" late) = true).
  { unfold transient in *. apply orb_true_iff in Hlate as [H|H]; apply orb_true_iff; [left|right]; by apply Contains_wrap. }
  rewrite Ht. cbn [andb negb Nat.eqb]. cbn [w_tick w1]. rewrite Hctx. rewrite (once_arrives _ _ w1 _ _ Harr Hs2).
  destruct (hash_kept tx) as [Hk Hn]. cbn. rewrite Hk, bool_decide_false by done. eexists. split; [reflexivity|]. split.
  - unfold exec_of at 1. cbn. rewrite He2. cbn. rewrite Hidle, He1. cbn. by rewrite <- app_assoc.
  - intros h ts prev e e' root a r1 r2 Hf Hx. by eapply duplicate_result.
Qed.

(** A query that arrives changes nothing. *)
Lemma result_served c tx now s : hs_limiter s = None -> exists s' cost,
  served now TxResult (http_request c GET (hashTx tx) []) s =
    (s', Reply (match txResults (hs_exec s) !! hashTx tx with Some r => PResult r (cost r) | None => PNotFound end)) /\
  hs_exec s' = hs_exec s /\ hs_limiter s' = None.
Proof.
  intros Hl. destruct (serve_passes now TxResult (http_request c GET (hashTx tx) []) s _ Hl (get_passes c (hashTx tx) now))
    as (m & m' & s' & x & Ed & ->). cbn [dispatch] in Ed. injection Ed as <- <-. destruct (hash_kept tx) as [Hk Hn].
  exists (set_metrics m' (set_metrics m s)), (fun r => estimate (getCostPolicy env) (xr_Bytes r) (xr_GasUsed r)).
  split; [|done]. f_equal. unfold txResultHandler, require_method, hash_param. cbn [rq_Method rq_query rq_ctxErr http_request].
  rewrite bool_decide_true by done. cbn [reply_bind]. rewrite Hk, bool_decide_false by done.
  assert (String.length (hashTx tx) = 64%nat) as -> by (unfold hashTx; by rewrite length_hex_encode, length_sha256).
  replace (maxHashLen <? Z.of_nat 64) with false by done. cbn [guard reply_bind]. unfold GetTxResult. rewrite normalizeHash_hash.
  cbn [on_err reply_bind hs_exec set_metrics]. by destruct (txResults (hs_exec s) !! hashTx tx).
Qed.

Lemma result_arrives c tx w : hs_limiter (w_server w) = None -> fates (w_tick w) = Arrives -> exists w',
  result_of c (hashTx tx) w = (w', Ok (txResults (node (w_tick w) (exec_of w)) !! hashTx tx)) /\
  w_tick w' = S (w_tick w) /\ exec_of w' = node (w_tick w) (exec_of w) /\ hs_limiter (w_server w') = None.
Proof.
  intros Hl Hf. destruct (result_served c tx (clock (w_tick w)) (at_request node w) Hl) as (s' & cost & Hs & He & Hl').
  destruct (hash_kept tx) as [Hk Hn]. unfold Client_GetTxResult. rewrite Hk, bool_decide_false by done. unfold doJSON.
  replace (Z.to_nat (Z.max 1 (1 + retryMax c))) with (S (Z.to_nat (Z.max 0 (retryMax c)))) by lia. cbn [attempts_loop].
  rewrite (once_arrives _ _ _ _ _ Hf Hs). exists {| w_server := s'; w_tick := S (w_tick w) |}.
  split; [|done]. f_equal. cbn. unfold exec_of. by destruct (txResults (node (w_tick w) (hs_exec (w_server w))) !! hashTx tx).
Qed.

(** The executor at the [n]-th request from request [t] on. *)
Fixpoint exec_after (n t : nat) (e : CosmosExecutor A) : CosmosExecutor A :=
  match n with O => node t e | S n => exec_after n (S t) (node t e) end.

(** Waiting for a result ends: if the transaction has one by the [n]-th poll, and the polls arrive, the client
    returns the result that the executor has at that time. *)
Theorem WaitTxResult_returns (n fuel : nat) (c : Client) (tx : bytes) (w : world Coins A) (r : TxExecutionResult)
  (Hlim : hs_limiter (w_server w) = None) (Hfuel : (n < fuel)%nat) (Harr : forall i, (i <= n)%nat -> fates (w_tick w + i) = Arrives)
  (Hctx : forall i, (i <= n)%nat -> cancelled (w_tick w + i) = None) (Hres : txResults (exec_after n (w_tick w) (exec_of w)) !! hashTx tx = Some r) :
  exists w' r', wait fuel c (hashTx tx) w = (w', Ok r') /\ txResults (exec_of w') !! hashTx tx = Some r'.
Proof.
  revert w n Hlim Hfuel Harr Hctx Hres. induction fuel as [|fuel IH]; intros w n Hlim Hfuel Harr Hctx Hres; [lia|]. cbn [WaitTxResult].
  destruct (result_arrives c tx w Hlim) as (w1 & -> & Ht & He & Hl); [specialize (Harr 0%nat); rewrite Nat.add_0_r in Harr; apply Harr; lia|].
  destruct (txResults (node (w_tick w) (exec_of w)) !! hashTx tx) as [r'|] eqn:Er; [exists w1, r'; by rewrite He|].
  destruct n as [|n]; [cbn in Hres; congruence|].
  assert (cancelled (w_tick w1) = None) as -> by (rewrite Ht, <- Nat.add_1_r; apply Hctx; lia).
  apply (IH w1 n); [done|lia| | |by rewrite Ht, He].
  - intros i Hi. rewrite Ht, Nat.add_succ_comm. apply Harr. lia.
  - intros i Hi. rewrite Ht, Nat.add_succ_comm. apply Hctx. lia.
Qed.

(** The finality of a transaction: unknown without a result; final on the DA layer exactly when the node has
    finalized the height of the result. *)
Theorem GetTxFinality_exact (c : Client) (tx : bytes) (w : world Coins A) (Hlim : hs_limiter (w_server w) = None)
  (Harr1 : fates (w_tick w) = Arrives) (Harr2 : fates (S (w_tick w)) = Arrives) :
  let e1 := node (w_tick w) (exec_of w) in
  exists w', finality c (hashTx tx) w = (w', Ok (match txResults e1 !! hashTx tx with
    | None => (FinalityUnknown, None)
    | Some r => (if xr_Height r <=? finalizedHeight (node (S (w_tick w)) e1) then FinalityDA else FinalitySoft, Some r)
    end)).
Proof.
  intros e1. unfold GetTxFinality. destruct (result_arrives c tx w Hlim Harr1) as (w1 & -> & Ht & He & Hl). fold e1 in He |- *.
  destruct (txResults e1 !! hashTx tx) as [r|]; [|by eexists].
  destruct (serve_passes (clock (w_tick w1)) StatusR (http_request c GET EmptyString []) (at_request node w1) _ Hl (get_passes c EmptyString _))
    as (m & m' & s' & x & Ed & Es). cbn [dispatch] in Ed. injection Ed as <- <-. unfold Client_Status, doJSON.
  replace (Z.to_nat (Z.max 1 (1 + retryMax c))) with (S (Z.to_nat (Z.max 0 (retryMax c)))) by lia. cbn [attempts_loop].
  rewrite <- Ht in Harr2. rewrite (once_arrives _ _ w1 _ _ Harr2 Es). eexists. cbn. unfold exec_of in He. by rewrite He, Ht.
Qed.

(** A record on the chain that is reported without error has been executed with code 0. *)
Lemma wait_found fuel c hash w w' r : wait fuel c hash w = (w', Ok r) -> exists v v', result_of c hash v = (v', Ok (Some r)) /\ w' = v'.
Proof.
  revert w. induction fuel as [|fuel IH]; intros w; [done|]. cbn [WaitTxResult].
  destruct (result_of c hash w) as [v [[r'|]|e]] eqn:E; [|destruct (cancelled _); [done|apply IH]|done]. intros [= <- <-]. by exists w, v.
Qed.
Lemma record_outcome fuel c sg contract msg w w' hash :
  recordOnChain (F := F) (M := M) ParseFloat other cfg env clock fates cancelled node fuel c sg contract msg w = (w', (hash, None)) ->
  exists r v, result_of c hash v = (w', Ok (Some r)) /\ xr_Code r = 0.
Proof.
  unfold recordOnChain. destruct (BuildSignedExecuteTx _ _ _ _ _ _ _ _ _ _ _ _) as [w1 [tx|]]; [|done].
  destruct (submit c tx w1) as [w2 [h|]]; [|done]. destruct (wait fuel c h w2) as [w3 [r|]] eqn:Ew; [|done].
  destruct (Z.eqb_spec (xr_Code r) 0) as [Hc|]; [|done]. intros [= <- <-]. destruct (wait_found _ _ _ _ _ _ Ew) as (v & v' & Hv & ->). eauto.
Qed.
End against_server.

(** ** Blobs come back *)

Section blob_theorems.
Context {W L PR OPT : Type} `{AL : DAC.BlobAPILaws W L PR OPT}.

Lemma decode_own com : com <> [] -> normalizeHex (hex_encode com) = hex_encode com /\ decodeCommitment (hex_encode com) = Ok com.
Proof.
  intros Hc. assert (Hn : normalizeHex (hex_encode com) = hex_encode com).
  { unfold normalizeHex, TrimSpace. rewrite Base64.trim_solid by apply Base64.hex_solid. by rewrite (proj1 (hex_no_0x com)), lower_hex. }
  split; [done|]. unfold decodeCommitment. rewrite Hn, bool_decide_false by (by destruct com). unfold hex_DecodeString. by rewrite hex_decode_encode.
Qed.

(** A blob that was submitted is retrieved and verified by the height and the commitment of the response,
    whenever the node answers, as long as no two blobs of the height have the same commitment. *)
Theorem blob_comes_back (b : BlobClient OPT) (data : bytes) (w w1 : W) (resp : BlobSubmitResponse)
  (Hs : SubmitBlob b data w = (w1, Ok resp)) (H0 : bs_Height resp <> 0)
  (Huni : forall x y, x ∈ DAC.ledger w1 (bs_Height resp) (b_ns b) -> y ∈ DAC.ledger w1 (bs_Height resp) (b_ns b) -> x.2 = y.2 -> x = y) :
  (forall w2 x, api_Get w1 (bs_Height resp) (b_ns b) (match hex_decode (bs_Commitment resp) with Some c => c | None => [] end) = (w2, Ok x) ->
     RetrieveBlob b (bs_Height resp) (bs_Commitment resp) w1 = (w2, Ok data) /\
     VerifyBlob b (bs_Height resp) (bs_Commitment resp) w1 = (w2, Ok true)).
Proof.
  unfold SubmitBlob in Hs. destruct (blen data =? 0); [done|]. destruct (MaxBlobSize <? blen data); [done|].
  destruct (DAC.NewBlobV0 (b_ns b) data) as [blob|] eqn:Eb; [|done]. cbn [wrap_err] in Hs.
  destruct (api_Submit w [blob] (b_opts b)) as [w' [h|]] eqn:Es; [|done]. injection Hs as -> <-. cbn [bs_Height bs_Commitment] in *.
  intros w2 x Eg. rewrite hex_decode_encode in Eg.
  pose proof Eb as Hb. unfold DAC.NewBlobV0, DAC.NewBlob in Hb. destruct (ValidateForBlob (b_ns b)) as [[]|]; [|done]. cbn in Hb.
  destruct (share_NewBlob (b_ns b) data 0) as [l|] eqn:El; [|done]. cbn in Hb. destruct (CreateCommitment l) as [com|] eqn:Ec; [|done].
  injection Hb as <-. apply DAC.share_NewBlob_spec in El as [Hd Hn]. apply DAC.CreateCommitment_spec in Ec. cbn [snd] in *.
  destruct (decode_own com Ec) as [Hnorm Hdec]. apply DAC.api_Submit_spec in Es as [_ Hled].
  destruct (Hled (b_ns b)) as (l1 & l2 & Hl); [by repeat constructor|].
  assert (Hin : (l, com) ∈ DAC.ledger w1 h (b_ns b)) by (rewrite Hl, !elem_of_app; right; left; by left).
  pose proof Eg as Hg. apply DAC.api_Get_spec in Hg as [_ Hx]. specialize (Hx x eq_refl).
  assert (Hret : RetrieveBlob b h (hex_encode com) w1 = (w2, Ok data)).
  { unfold RetrieveBlob. destruct (Z.eqb_spec h 0); [done|]. rewrite Hdec, Eg. cbn. destruct x as [x|]; [|by destruct (Hx _ Hin)].
    destruct Hx as [Hxi Hxc]. rewrite (Huni x (l, com) Hxi Hin Hxc). cbn. by rewrite Hd. }
  split; [done|]. unfold VerifyBlob. rewrite Hnorm, bool_decide_false by (by destruct com). rewrite Hret, Eb. cbn. by rewrite bool_decide_true.
Qed.
End blob_theorems.

(** ** The theorems applied *)

Module SdkClientWitness.
Import CosmosAppWitness.
#[local] Existing Instance CosmosServerWitness.ref_big.
#[local] Existing Instance DAC.DACWitness.layer_api.
#[local] Existing Instance DAC.DACWitness.layer_laws.

(** A format of its own: the first byte says which request it is. *)
Definition fields (b : bytes) : res estimateRequest :=
  match b with
  | x00 :: b => Ok {| eq_TxBase64 := String.string_of_list_byte b; eq_TxHex := EmptyString; eq_Hash := EmptyString; eq_Bytes := 0; eq_Gas := 0 |}
  | x01 :: b =>
      match RefCodec.bytes_pos b ≫= decode (A := string * string * string * Z * Z) with
      | Some (t, h, k, n, g) => Ok {| eq_TxBase64 := t; eq_TxHex := h; eq_Hash := k; eq_Bytes := n; eq_Gas := g |}
      | None => Err (EMsg "unexpected end of JSON input")
      end
  | _ => Err (EMsg "unexpected end of JSON input")
  end.
#[local] Instance own_json : ServerJSON := {|
  parse_submit b := let? q := fields b in Ok {| sq_TxBase64 := eq_TxBase64 q; sq_TxHex := eq_TxHex q |};
  parse_estimate := fields;
  parse_query b := match RefCodec.bytes_pos b ≫= decode (A := string * bytes) with
                   | Some (c, m) => Ok {| qq_Contract := c; qq_Msg := m |}
                   | None => Err (EMsg "unexpected end of JSON input")
                   end;
  parse_target_height _ := Err (EMsg "unexpected end of JSON input"); parse_height _ := Err (EMsg "unexpected end of JSON input");
  json_Valid b := bool_decide (b <> []) |}.
#[local] Instance own_marshal : ClientJSON := {|
  marshal_object _ _ := Ok [x7b; x7d];
  marshal_submit s := x00 :: String.list_byte_of_string s;
  marshal_estimate q := x01 :: RefCodec.pos_bytes (encode (eq_TxBase64 q, eq_TxHex q, eq_Hash q, eq_Bytes q, eq_Gas q));
  marshal_query c m := RefCodec.pos_bytes (encode (c, m)) |}.
#[local] Instance own_laws : ClientJSONLaws.
Proof.
  split; cbn [parse_submit parse_estimate parse_query marshal_submit marshal_estimate marshal_query own_json own_marshal fields].
  - intros s. cbn. by rewrite String.string_of_list_byte_of_string.
  - intros s. by rewrite String.string_of_list_byte_of_string.
  - intros [t h k n g]. rewrite RefCodec.bytes_pos_bytes. cbn [mbind option_bind]. by rewrite decode_encode.
  - intros c m. rewrite RefCodec.bytes_pos_bytes. cbn [mbind option_bind]. by rewrite decode_encode.
Qed.

Definition token : Config := LoadFromEnv (fun _ => Ok 0)
  (fun k => if bool_decide (k = "COSMOS_EXEC_AUTH_TOKEN"%string) then "secret" else EmptyString) DefaultConfig.
Definition client : Client := {| baseURL := "http://127.0.0.1:50051"; httpTimeout := 20; authToken := "secret"; retryMax := 2; retryDelay := 1; chainID := "toy" |}.
Definition tx : bytes := [x01; x02].
Definition start : world (gmap string Z) CosmosWitness.toy := {| w_server := new_server token None CosmosServerWitness.started; w_tick := 0 |}.
Definition late : err := EMsg "context deadline exceeded".
Definition lossy (t : nat) : fate := if (t =? 0)%nat then ReplyLost late else Arrives.
Definition idle (t : nat) (e : CosmosExecutor CosmosWitness.toy) : CosmosExecutor CosmosWitness.toy := e.
Definition never (t : nat) : option err := None.

Lemma client_open : open_to token client.
Proof. split; [done|by right]. Qed.
Lemma tx_fits : fits token (marshal_submit (Base64.encode64 tx)).
Proof. split; [right|]; by vm_compute. Qed.

Lemma SubmitTxBytes_delivers_witness : exists w',
  SubmitTxBytes (Dec := Z) (F := Z) (M := string) CosmosServerWitness.noFloat 0 token env (fun _ => 5) (fun _ => Arrives) never idle client tx start =
    (w', Ok (hashTx tx)) /\ mempool (exec_of w') = [tx].
Proof.
  destruct (SubmitTxBytes_delivers (Dec := Z) (F := Z) (M := string) CosmosServerWitness.noFloat 0 token env (fun _ => 5) (fun _ => Arrives) never idle
    client tx start client_open eq_refl ltac:(done) tx_fits eq_refl) as (w' & Hs & He).
  exists w'. split; [exact Hs|]. by rewrite He.
Defined.

Lemma retry_duplicates_witness : exists w',
  SubmitTxBytes (Dec := Z) (F := Z) (M := string) CosmosServerWitness.noFloat 0 token env (fun _ => 5) lossy never idle client tx start =
    (w', Ok (hashTx tx)) /\ mempool (exec_of w') = [tx; tx].
Proof.
  destruct (retry_duplicates (Dec := Z) (F := Z) (M := string) CosmosServerWitness.noFloat 0 token env (fun _ => 5) lossy never idle
    client tx start late client_open eq_refl ltac:(done) tx_fits ltac:(done) eq_refl eq_refl eq_refl eq_refl ltac:(done)) as (w' & Hs & He & _).
  exists w'. split; [exact Hs|]. by rewrite He.
Defined.

(** The node executes the transaction before the second poll and finalizes the block before the third. *)
Definition result : TxExecutionResult := {| xr_Hash := hashTx tx; xr_Height := 3; xr_Code := 0; xr_Log := EmptyString; xr_Events := []; xr_GasUsed := 5;
  xr_GasWanted := 0; xr_Bytes := 2 |}.
Definition busy (t : nat) (e : CosmosExecutor CosmosWitness.toy) : CosmosExecutor CosmosWitness.toy :=
  match t with
  | 1%nat => set_maps (<[hashTx tx := result]> (txResults e)) (blocks e) (set_chain true "toy" [x02] 3 1 e)
  | 2%nat => set_chain true "toy" [x02] 3 3 e
  | _ => e
  end.
Lemma WaitTxResult_returns_witness : exists w' r',
  WaitTxResult (Dec := Z) (F := Z) (M := string) CosmosServerWitness.noFloat 0 token env (fun _ => 5) (fun _ => Arrives) never busy 3 client (hashTx tx) start =
    (w', Ok r') /\ txResults (exec_of w') !! hashTx tx = Some r'.
Proof.
  apply (WaitTxResult_returns (Dec := Z) (F := Z) (M := string) CosmosServerWitness.noFloat 0 token env (fun _ => 5) (fun _ => Arrives) never busy 1 3
    client tx start result eq_refl ltac:(lia)); [done|done|]. cbn. by rewrite lookup_insert_eq.
Defined.

Definition polled : world (gmap string Z) CosmosWitness.toy := {| w_server := w_server start; w_tick := 1 |}.
Lemma GetTxFinality_exact_witness : exists w',
  GetTxFinality (Dec := Z) (F := Z) (M := string) CosmosServerWitness.noFloat 0 token env (fun _ => 5) (fun _ => Arrives) never busy client (hashTx tx) polled =
    (w', Ok (FinalityDA, Some result)).
Proof.
  destruct (GetTxFinality_exact (Dec := Z) (F := Z) (M := string) CosmosServerWitness.noFloat 0 token env (fun _ => 5) (fun _ => Arrives) never busy
    client tx polled eq_refl eq_refl eq_refl) as (w' & ->).
  exists w'. cbn [w_tick polled w_server]. unfold busy at 1 3. cbn [txResults set_maps]. rewrite lookup_insert_eq. done.
Defined.

Definition blobs : BlobClient unit := {| b_ns := DAC.DACWitness.w_ns; b_nsHex := EmptyString; b_opts := tt |}.
Definition stored : DAC.DACWitness.layer * res BlobSubmitResponse := SubmitBlob blobs [x05; x06] DAC.DACWitness.w_layer.
Definition response : BlobSubmitResponse := {| bs_Commitment := "010506"; bs_Height := 7; bs_Namespace := EmptyString; bs_Size := 2 |}.
Lemma blob_comes_back_witness : RetrieveBlob blobs 7 "010506" stored.1 = (stored.1, Ok [x05; x06]) /\ VerifyBlob blobs 7 "010506" stored.1 = (stored.1, Ok true).
Proof.
  refine (blob_comes_back blobs [x05; x06] DAC.DACWitness.w_layer stored.1 response _ _ _ stored.1 _ eq_refl); [by vm_compute|done|].
  assert (E : DAC.ledger stored.1 7 DAC.DACWitness.w_ns = [((DAC.DACWitness.w_ns, [x05; x06]), [x01; x05; x06])]).
  { symmetry. eapply (DAC.api_GetAll_spec stored.1 7 DAC.DACWitness.w_ns); [apply surjective_pairing|]. by vm_compute. }
  intros x y Hx Hy _. assert (Hone : forall z, z ∈ DAC.ledger stored.1 7 DAC.DACWitness.w_ns -> z = ((DAC.DACWitness.w_ns, [x05; x06]), [x01; x05; x06])).
  { intros z. rewrite E. apply list_elem_of_singleton. }
  by rewrite (Hone x Hx), (Hone y Hy).
Defined.
End SdkClientWitness.
End SdkClient.
