(* ===== verification/ExecClient.v ===== *)
(** The node's end of the executor (apps/cosmos-wasm/cmd/executor_client.go and run.go): the client with which the
    node of the cosmos-wasm app calls the executor service and the routes /exec/height, /exec/rollback and
    /exec/prune, over JSON and HTTP.

    The client runs against the modelled server and executor: requests pass the middleware, connect's decoding, the
    gRPC server and the handlers. What becomes of a request and what others do to the executor before it are
    functions of its number, as for the clients of the SDK. JSON is a class with laws. *)

From Stdlib Require Import SpecFloat.
From S2P Require Import Prelude Sha256 Interfaces Types Store Execution Replay BlobClient Grpc Sdk Raft CosmosExec Config RpcServer Base64 CosmosApp CosmosServer SdkClient.

Import Filter Store.

(** ** JSON *)

(** A status in the JSON of a response, as [json.Unmarshal] tells them apart: null and a number that fits an int
    are read as a number, a string as a name. *)
Inductive raw_status := RNull | RNumber (n : Z) | RName (s : string) | ROther.
(** An enumeration in the JSON of protobuf: the name of a value that has one, else its number. *)
Definition json_status (n : Z) : raw_status :=
  if n =? 0 then RName "FILTER_OK" else if n =? 1 then RName "FILTER_REMOVE" else if n =? 2 then RName "FILTER_POSTPONE" else RNumber n.

(** What connect writes. *)
Inductive rpc_response :=
  | RsInitChain (stateRoot : bytes) | RsGetTxs (txs : list bytes) | RsExecuteTxs (updatedStateRoot : bytes) | RsSetFinal
  | RsExecutionInfo (maxGas : Z) | RsFilterTxs (statuses : list Z).

Class ConnectJSON := {
  (** the client's requests: of InitChain time, height and chain; of ExecuteTxs transactions, height, time and root *)
  marshal_init : Z -> Z -> string -> bytes;
  marshal_execute : list bytes -> Z -> Z -> bytes -> bytes;
  marshal_final : Z -> bytes;
  marshal_filter : Grpc.FilterTxsRequest -> bytes;
  marshal_none : bytes;
  marshal_target : Z -> bytes;
  marshal_height : Z -> bytes;
  (** connect's reading of them *)
  parse_init : bytes -> res Grpc.InitChainRequest;
  parse_execute : bytes -> res Grpc.ExecuteTxsRequest;
  parse_final : bytes -> res Z;
  parse_filter : bytes -> res Grpc.FilterTxsRequest;
  parse_none : bytes -> res unit;
  (** responses, and the client's reading of them *)
  write_response : rpc_response -> bytes;
  read_stateRoot : bytes -> res bytes;
  read_txs : bytes -> res (list bytes);
  read_updatedStateRoot : bytes -> res bytes;
  read_maxGas : bytes -> res Z;
  read_statuses : bytes -> res (list raw_status);
  (** connect's status of an error, and the body of a reply that is not 200 *)
  connect_status : err -> Z;
  error_body : err -> string;
}.

Definition ascii_text (s : string) : bool := forallb (fun c => Ascii.nat_of_ascii c <? 128)%nat (String.list_ascii_of_string s).
Definition init_request (time height : Z) (chainID : string) : Grpc.InitChainRequest :=
  {| Grpc.GenesisTime := Some (Grpc.timestamp_New time); Grpc.InitialHeight := height; Grpc.ChainId := chainID |}.
Definition execute_request (txs : list bytes) (height time : Z) (root : bytes) : Grpc.ExecuteTxsRequest :=
  {| Grpc.er_Txs := txs; Grpc.er_BlockHeight := height; Grpc.er_Timestamp := Some (Grpc.timestamp_New time); Grpc.er_PrevStateRoot := root |}.

(** What is read is what was written. Reading fails only for what has no place in the message: a number that is not
    of type uint64, a time that is not one of int64 nanoseconds. [json.Marshal] changes text that is not UTF-8: the
    law of InitChain is about ASCII. Transactions are slices that are not nil. *)
Class ConnectJSONLaws `{ServerJSON} `{ConnectJSON} := {
  init_exact t h id q : ascii_text id = true -> parse_init (marshal_init t h id) = Ok q -> q = init_request t h id;
  init_read t h id : ascii_text id = true -> is_i64 t -> is_u64 h -> is_ok (parse_init (marshal_init t h id)) = true;
  execute_exact txs h t root q : parse_execute (marshal_execute txs h t root) = Ok q -> q = execute_request txs h t root;
  execute_read txs h t root : is_i64 t -> is_u64 h -> is_ok (parse_execute (marshal_execute txs h t root)) = true;
  final_exact h n : parse_final (marshal_final h) = Ok n -> n = h;
  final_read h : is_u64 h -> is_ok (parse_final (marshal_final h)) = true;
  filter_exact q q' : parse_filter (marshal_filter q) = Ok q' -> q' = q;
  filter_read q : is_u64 (Grpc.fr_MaxBytes q) -> is_u64 (Grpc.fr_MaxGas q) -> is_ok (parse_filter (marshal_filter q)) = true;
  none_read : parse_none marshal_none = Ok tt;
  target_exact h n : parse_target_height (marshal_target h) = Ok n -> n = h;
  target_read h : is_u64 h -> is_ok (parse_target_height (marshal_target h)) = true;
  target_short h : is_u64 h -> blen (marshal_target h) <= 4096;
  height_exact h n : parse_height (marshal_height h) = Ok n -> n = h;
  height_read h : is_u64 h -> is_ok (parse_height (marshal_height h)) = true;
  height_short h : is_u64 h -> blen (marshal_height h) <= 4096;
  stateRoot_read root : read_stateRoot (write_response (RsInitChain root)) = Ok root;
  txs_read txs : read_txs (write_response (RsGetTxs txs)) = Ok txs;
  updatedStateRoot_read root : read_updatedStateRoot (write_response (RsExecuteTxs root)) = Ok root;
  maxGas_read n : is_u64 n -> read_maxGas (write_response (RsExecutionInfo n)) = Ok n;
  statuses_read l : read_statuses (write_response (RsFilterTxs l)) = Ok (json_status <$> l);
}.

Module ExecClient.
Import CosmosExec CosmosApp CosmosServer SdkClient.

Definition Cosmos_GetExecutionInfo (ctxErr : option err) : res Z := match ctxErr with Some e => Err e | None => Ok 0 end.

(** The executor behind the gRPC server. *)
#[export] Instance Cosmos_Executor {A} `{AP : App A} : Grpc.Executor (CosmosExecutor A) := {|
  Grpc.ex_InitChain := fun e time height id => InitChain None time height id e;
  Grpc.ex_GetTxs := fun e => GetTxs None e;
  Grpc.ex_ExecuteTxs := fun e txs height time root => ExecuteTxs None txs height time root e;
  Grpc.ex_SetFinal := fun e height => SetFinal None height e;
  Grpc.ex_GetExecutionInfo := fun e => (e, Cosmos_GetExecutionInfo None);
  Grpc.ex_FilterTxs := fun e txs maxBytes maxGas forced => (e, Cosmos_FilterTxs None txs maxBytes maxGas forced) |}.

(** ** The executor service as routes of the server *)

Section service.
Context {Coins A : Type} `{AP : App A} `{CX : ConnectJSON}.

(** A unary method, as connect documents it: the body, within the limit of the middleware, is decoded, the method of
    the gRPC server is called, and its response or its error is written. *)
Definition connect_error (er : err) : reply (payload Coins) := Fail (connect_status er) er.
Definition unary {Q R} (parse : bytes -> res Q) (handler : Q -> CosmosExecutor A -> CosmosExecutor A * res R) (write : R -> rpc_response)
  (maxBody : option Z) (r : request) (e : CosmosExecutor A) : CosmosExecutor A * reply (payload Coins) :=
  match rq_readErr r with
  | Some er => (e, connect_error er)
  | None =>
      if match maxBody with Some n => n <? blen (rq_body r) | None => false end then (e, connect_error (EMsg "http: request body too large"))
      else match parse (rq_body r) with
           | Err er => (e, connect_error er)
           | Ok q => let '(e, x) := handler q e in (e, match x with Ok v => Reply (PData (write_response (write v))) | Err er => connect_error er end)
           end
  end.

Definition rpc_InitChain := unary parse_init Grpc.Server.InitChain RsInitChain.
Definition rpc_GetTxs := unary parse_none Grpc.Server.GetTxs RsGetTxs.
Definition rpc_ExecuteTxs := unary parse_execute Grpc.Server.ExecuteTxs RsExecuteTxs.
Definition rpc_SetFinal := unary parse_final Grpc.Server.SetFinal (fun _ => RsSetFinal).
Definition rpc_GetExecutionInfo := unary parse_none Grpc.Server.GetExecutionInfo RsExecutionInfo.
Definition rpc_FilterTxs := unary parse_filter Grpc.Server.FilterTxs RsFilterTxs.
End service.

(** ** The client (executor_client.go) *)

Record EnhancedExecutorClient := { x_baseURL : string; x_timeout : Z }.
Definition NewEnhancedExecutorClient (url : string) : EnhancedExecutorClient := {| x_baseURL := TrimRight "/" url; x_timeout := 30 * Config.Second |}.
(** [createExecutionClient] of run.go; [url] is the flag. *)
Definition createExecutionClient (url : string) : res EnhancedExecutorClient :=
  if bool_decide (url = EmptyString) then Err (EMsg "grpc-executor-url flag is required") else Ok (NewEnhancedExecutorClient url).

Definition filterStatusNames (name : string) : option Z :=
  if bool_decide (name = "FILTER_OK"%string) then Some 0 else if bool_decide (name = "FILTER_REMOVE"%string) then Some 1
  else if bool_decide (name = "FILTER_POSTPONE"%string) then Some 2 else None.
(** A number is taken as it is. *)
Definition parseFilterStatus (raw : raw_status) : res Z :=
  match raw with
  | RNull => Ok 0
  | RNumber n => Ok n
  | RName name => match filterStatusNames name with Some n => Ok n | None => Err (EMsg "unknown filter status") end
  | ROther => Err (EMsg "decode status")
  end.
Fixpoint parse_statuses (l : list raw_status) : res (list Z) :=
  match l with
  | [] => Ok []
  | raw :: l => let? n := wrap_err "statuses" (parseFilterStatus raw) in let? rest := parse_statuses l in Ok (n :: rest)
  end.

Module Client.
Section client.
Context {Dec Coins A F M : Type} `{CL : CosmosLib Dec Coins} `{AP : App A} `{AQ : AppQueries A Coins} `{BF : BigFloat F} `{SJ : ServerJSON}.
Context `{TL : TxLib M Coins} `{CX : ConnectJSON}.
Context (ParseFloat : string -> res spec_float) (other : Z) (cfg : Config) (env : string -> string).
Context (clock : nat -> Z) (fates : nat -> fate) (others : nat -> CosmosExecutor A -> CosmosExecutor A).
Abbreviation world := (world Coins A).

(** The request carries no Authorization header. *)
Definition exec_request (m : method) (body : bytes) : request := {|
  rq_Method := m; rq_auth := EmptyString; rq_forwarded := EmptyString; rq_remote := "127.0.0.1:40001"; rq_body := body; rq_readErr := None;
  rq_query := fun _ => EmptyString; rq_path := EmptyString; rq_ctxErr := None |}.

(** [httpClient.Do] and the reading of the response *)
Definition arrived (x : reply (payload Coins)) : res (reply (payload Coins)) := match x with Dropped => Err (EMsg "EOF") | _ => Ok x end.
Definition Do (rt : route Coins A) (r : request) (w : world) : world * res (reply (payload Coins)) :=
  let s := at_request others w in
  let '(s', x) := serve (F := F) (M := M) ParseFloat other cfg env (clock (w_tick w)) rt r s in
  let next s := {| w_server := s; w_tick := S (w_tick w) |} in
  match fates (w_tick w) with
  | NotSent e => (next s, Err e)
  | ReplyLost e => (next s', Err e)
  | Arrives => (next s', arrived x)
  end.

(** The end of both calls: the status, and the decoding of the body. *)
Definition response {X} (name : string) (decode : payload Coins -> res X) (x : res (reply (payload Coins))) : res X :=
  match x with
  | Err e => Err (EWrap name e)
  | Ok (Reply p) => wrap_err name (wrap_err "decode response" (decode p))
  | Ok (Fail status e) => Err (EWrap name (EWrap (String.append "status " (dec_string status)) (EMsg (error_body e))))
  | Ok Dropped => Err (EWrap name (EMsg "EOF"))
  end.
(** The body of a reply of the executor service. *)
Definition json_body {X} (read : bytes -> res X) (p : payload Coins) : res X :=
  match p with PData body => read body | _ => Err (EMsg "not the reply of the service") end.
Definition no_body (p : payload Coins) : res unit := Ok tt.

Definition connectCall {X} (name : string) (call : option Z -> request -> CosmosExecutor A -> CosmosExecutor A * reply (payload Coins))
  (body : bytes) (decode : payload Coins -> res X) (w : world) : world * res X :=
  let '(w, x) := Do (Grpc call) (exec_request POST body) w in (w, response name decode x).
Definition httpCall {X} (m : method) (path : string) (rt : route Coins A) (body : bytes) (decode : payload Coins -> res X) (w : world) : world * res X :=
  let '(w, x) := Do rt (exec_request m body) w in (w, response path decode x).

Definition InitChain (genesisTime initialHeight : Z) (chainID : string) (w : world) : world * res bytes :=
  connectCall "InitChain" rpc_InitChain (marshal_init genesisTime initialHeight chainID) (json_body read_stateRoot) w.
Definition GetTxs (w : world) : world * res (list bytes) := connectCall "GetTxs" rpc_GetTxs marshal_none (json_body read_txs) w.
Definition ExecuteTxs (txs : list bytes) (blockHeight timestamp : Z) (prevStateRoot : bytes) (w : world) : world * res bytes :=
  connectCall "ExecuteTxs" rpc_ExecuteTxs (marshal_execute txs blockHeight timestamp prevStateRoot) (json_body read_updatedStateRoot) w.
Definition SetFinal (blockHeight : Z) (w : world) : world * res unit := connectCall "SetFinal" rpc_SetFinal (marshal_final blockHeight) no_body w.
Definition GetExecutionInfo (w : world) : world * res Z :=
  connectCall "GetExecutionInfo" rpc_GetExecutionInfo marshal_none (json_body read_maxGas) w.
(** The statuses are the numbers of [FilterStatus]. *)
Definition FilterTxs (txs : list bytes) (maxBytes maxGas : Z) (hasForced : bool) (w : world) : world * res (list Z) :=
  let '(w, x) := connectCall "FilterTxs" rpc_FilterTxs
    (marshal_filter {| Grpc.fr_Txs := txs; Grpc.fr_MaxBytes := maxBytes; Grpc.fr_MaxGas := maxGas; Grpc.fr_HasForceIncludedTransaction := hasForced |})
    (json_body read_statuses) w in
  (w, let? statuses := x in parse_statuses statuses).
Definition GetLatestHeight (w : world) : world * res Z :=
  httpCall GET "/exec/height" ExecHeight [] (fun p => match p with PHeight h => Ok h | _ => Err (EMsg "no height") end) w.
Definition Rollback (targetHeight : Z) (w : world) : world * res unit :=
  httpCall POST "/exec/rollback" ExecRollback (marshal_target targetHeight) no_body w.
Definition PruneExec (height : Z) (w : world) : world * res unit := httpCall POST "/exec/prune" ExecPrune (marshal_height height) no_body w.

(** What the node sees: the executor with its height and its rollback. *)
Definition Enhanced_CoreExecutor : CoreExecutor world := {|
  exec_InitChain w time height id := InitChain time height id w;
  exec_ExecuteTxs w txs height time root := ExecuteTxs txs height time root w;
  exec_SetFinal w height := SetFinal height w;
  exec_GetLatestHeight := Some GetLatestHeight;
  exec_Rollback := Some (fun w height => Rollback height w) |}.
End client.
End Client.

(** ** A call has the effect of one call of the executor, or none *)

Section theorems.
Context {Dec Coins A F M : Type} `{CL : CosmosLib Dec Coins} `{AP : App A} `{AQ : AppQueries A Coins} `{BF : BigFloat F} `{SJ : ServerJSON}.
Context `{TL : TxLib M Coins} `{CX : ConnectJSON} `{CXL : !ConnectJSONLaws}.
Context (ParseFloat : string -> res spec_float) (other : Z) (cfg : Config) (env : string -> string).
Context (clock : nat -> Z) (fates : nat -> fate) (others : nat -> CosmosExecutor A -> CosmosExecutor A).
Abbreviation init := (Client.InitChain (F := F) (M := M) ParseFloat other cfg env clock fates others).
Abbreviation getTxs := (Client.GetTxs (F := F) (M := M) ParseFloat other cfg env clock fates others).
Abbreviation execute := (Client.ExecuteTxs (F := F) (M := M) ParseFloat other cfg env clock fates others).
Abbreviation setFinal := (Client.SetFinal (F := F) (M := M) ParseFloat other cfg env clock fates others).
Abbreviation info := (Client.GetExecutionInfo (F := F) (M := M) ParseFloat other cfg env clock fates others).
Abbreviation filterTxs := (Client.FilterTxs (F := F) (M := M) ParseFloat other cfg env clock fates others).
Abbreviation latest := (Client.GetLatestHeight (F := F) (M := M) ParseFloat other cfg env clock fates others).
Abbreviation rollback := (Client.Rollback (F := F) (M := M) ParseFloat other cfg env clock fates others).
Abbreviation prune := (Client.PruneExec (F := F) (M := M) ParseFloat other cfg env clock fates others).
Implicit Types (w : world Coins A) (s : server Coins A) (e : CosmosExecutor A).

(** The executor when the request arrives. *)
Definition arriving w : CosmosExecutor A := others (w_tick w) (exec_of w).

(** The route hands the request to the handler [h]. *)
Definition runs (rt : route Coins A) (r : request) (h : option Z -> request -> CosmosExecutor A -> CosmosExecutor A * reply (payload Coins)) : Prop :=
  forall now maxBody s, dispatch (F := F) (M := M) ParseFloat other cfg env now maxBody rt r s =
    (set_exec (h maxBody r (hs_exec s)).1 s, (h maxBody r (hs_exec s)).2).

Lemma serve_runs rt r h now s : runs rt r h ->
  let '(s', x) := serve (F := F) (M := M) ParseFloat other cfg env now rt r s in
  (hs_exec s' = hs_exec s /\ exists st er, x = Fail st er) \/ exists maxBody, h maxBody r (hs_exec s) = (hs_exec s', x).
Proof.
  intros Hr. unfold serve. apply (counted_exec cfg _ s (fun e _ x =>
    (e = hs_exec s /\ exists st er, x = Fail st er) \/ exists maxBody, h maxBody r (hs_exec s) = (e, x))).
  intros m. cbn [hs_limiter set_metrics]. destruct (securityMiddleware _ _ _ _) as [l [st|mb]]; cbn; [left; eauto|right; exists mb].
  rewrite Hr. cbn. by destruct (h mb r (hs_exec s)).
Qed.

(** Success: the executor has done what was asked, once, and this is its result. Failure: once, or not at all. *)
Definition at_most_once {X} (direct : CosmosExecutor A * res X) w (o : world Coins A * res X) : Prop :=
  match o.2 with
  | Ok x => direct = (exec_of o.1, Ok x)
  | Err _ => exec_of o.1 = arriving w \/ exec_of o.1 = direct.1
  end.

Lemma call_once {X} rt r h name decode w (direct : CosmosExecutor A * res X) : runs rt r h ->
  (forall maxBody, (exists st er, h maxBody r (arriving w) = (arriving w, Fail st er)) \/
     exists y, h maxBody r (arriving w) = (direct.1, y) /\ forall p x, y = Reply p -> decode p = Ok x -> direct.2 = Ok x) ->
  at_most_once direct w (let '(w', x) := Client.Do (F := F) (M := M) ParseFloat other cfg env clock fates others rt r w in
                         (w', Client.response name decode x)).
Proof.
  intros Hr Hh. unfold Client.Do. pose proof (serve_runs rt r h (clock (w_tick w)) (at_request others w) Hr) as H.
  destruct (serve _ _ _ _ _ _ _ _) as [s' x]. change (hs_exec (at_request others w)) with (arriving w) in H.
  assert (Hs : (hs_exec s' = arriving w \/ hs_exec s' = direct.1) /\
    forall p z, x = Reply p -> decode p = Ok z -> direct = (hs_exec s', Ok z)).
  { destruct H as [[-> (st & er & ->)]|[mb E]]; [by split; [left|]|]. destruct (Hh mb) as [(st & er & E')|(y & E' & Hy)].
    - rewrite E in E'. injection E' as -> ->. by split; [left|].
    - rewrite E in E'. injection E' as Es ->. split; [by right|]. intros p z Hp Hd. destruct direct as [d1 d2]. cbn in *. by rewrite Es, (Hy p z Hp Hd). }
  destruct Hs as [Hs Hx]. destruct (fates (w_tick w)) as [|er|er]; unfold at_most_once; cbn; [|exact Hs|by left].
  destruct x as [p|st er|]; cbn; [|exact Hs|exact Hs]. specialize (Hx p). destruct (decode p) as [z|er]; cbn; [by apply Hx|exact Hs].
Qed.

Lemma grpc_runs call body : runs (Grpc call) (Client.exec_request POST body) call.
Proof. intros now mb s. cbn. by destruct (call _ _ _). Qed.

Lemma connect_once {Q R X} name parse handler (write : R -> rpc_response) body decode (q : Q) w (direct : CosmosExecutor A * res X) :
  (forall q', parse body = Ok q' -> q' = q) ->
  (exists er, handler q (arriving w) = (arriving w, Err er)) \/
    (exists y, handler q (arriving w) = (direct.1, y) /\
       forall v x, y = Ok v -> decode (PData (write_response (write v))) = Ok x -> direct.2 = Ok x) ->
  at_most_once direct w (Client.connectCall (F := F) (M := M) ParseFloat other cfg env clock fates others name (unary parse handler write) body decode w).
Proof.
  intros Hq Hh. unfold Client.connectCall. apply (call_once _ _ _ _ _ _ _ (grpc_runs _ _)). intros mb. unfold unary. cbn [rq_readErr rq_body Client.exec_request].
  destruct (match mb with Some n => _ | None => false end); [left; eauto|]. destruct (parse body) as [q'|er]; [|left; eauto].
  rewrite (Hq q' eq_refl). destruct Hh as [[er ->]|(y & -> & Hy)]; [left; eauto|right]. eexists. split; [reflexivity|].
  intros p x Hp Hd. destruct y as [v|er]; [|done]. injection Hp as <-. by eapply Hy.
Qed.

(** The names that are written are the names that are read; numbers other than those of the three statuses pass as they are. *)
Lemma statuses_parsed l : parse_statuses (json_status <$> l) = Ok l.
Proof.
  induction l as [|n l IH]; [done|]. rewrite fmap_cons. cbn [parse_statuses]. rewrite IH. unfold json_status.
  destruct (Z.eqb_spec n 0) as [->|]; [done|]. destruct (Z.eqb_spec n 1) as [->|]; [done|]. by destruct (Z.eqb_spec n 2) as [->|].
Qed.
Definition filter_direct txs maxBytes maxGas forced e : CosmosExecutor A * res (list Z) :=
  (e, let? l := Cosmos_FilterTxs None txs maxBytes maxGas forced in Ok (Grpc.pb_FilterStatus <$> l)).

Lemma once_then {X Y} (g : X -> res Y) (direct : CosmosExecutor A * res X) w (o : world Coins A * res X) :
  at_most_once direct w o -> at_most_once (direct.1, let? x := direct.2 in g x) w (let '(w, x) := o in (w, let? y := x in g y)).
Proof. intros H. destruct o as [w' [x|er]]; cbn in *; [|exact H]. rewrite H. unfold at_most_once. cbn. destruct (g x); cbn; auto. Qed.

(** A short POST reaches its handler in full, or not. *)
Lemma post_once {X R} parse mb body (x : X) e (k : X -> CosmosExecutor A * reply (payload Coins)) (direct : CosmosExecutor A * res R)
  decode : blen body <= 4096 -> (forall y, parse body = Ok y -> y = x) ->
  (exists st er, k x = (e, Fail st er)) \/
    (exists y, k x = (direct.1, y) /\ forall p z, y = Reply p -> decode p = Ok z -> direct.2 = Ok z) ->
  let o := match post_json parse mb 4096 (Client.exec_request POST body) with Reply v => k v | Fail st er => (e, Fail st er) | Dropped => (e, Dropped) end in
  (exists st er, o = (e, Fail st er)) \/ exists y, o = (direct.1, y) /\ forall p z, y = Reply p -> decode p = Ok z -> direct.2 = Ok z.
Proof.
  intros Hb Hp Hk. unfold post_json, require_method. rewrite bool_decide_true by done. cbn [reply_bind]. assert (Ht : take (Z.to_nat 4096) body = body) by (apply take_ge; unfold blen in Hb; lia).
  assert (Hr : forall r, rq_body r = body -> rq_readErr r = None -> is_ok (read_body mb 4096 r) = false \/ read_body mb 4096 r = Ok body).
  { intros r H1 H2. unfold read_body. rewrite H1, H2, Ht. destruct mb; [destruct (_ && _)|]; eauto. }
  destruct (Hr (Client.exec_request POST body) eq_refl eq_refl) as [H| ->].
  - destruct (read_body _ _ _); [done|left; eauto].
  - destruct (parse body) as [y|er]; [|left; eauto]. by rewrite (Hp y eq_refl).
Qed.

Lemma rollback_handler mb r e : execRollbackHandler (Coins := Coins) mb r e =
  match post_json parse_target_height mb 4096 r with
  | Reply target => if target =? 0 then (e, Fail 400 (EMsg "target_height must be > 0"))
                    else ((Rollback (rq_ctxErr r) target e).1, let& _ := on_err 400 (Rollback (rq_ctxErr r) target e).2 in Reply POk)
  | Fail st er => (e, Fail st er)
  | Dropped => (e, Dropped)
  end.
Proof.
  unfold execRollbackHandler. destruct (post_json _ _ _ _) as [t|st er|]; [|done..]. cbn. destruct (t =? 0); [done|]. cbn.
  by destruct (Rollback (rq_ctxErr r) t e).
Qed.

(** Whatever the configuration of the server, and whatever becomes of the request, a call of the client that
    succeeds is one call of the executor and its result; one that fails is one call, or none. *)
Theorem client_at_most_once w :
  (forall time height id, ascii_text id = true -> at_most_once (InitChain None time height id (arriving w)) w (init time height id w)) /\
  at_most_once (GetTxs None (arriving w)) w (getTxs w) /\
  (forall txs height time root, at_most_once (ExecuteTxs None txs height time root (arriving w)) w (execute txs height time root w)) /\
  (forall height, at_most_once (SetFinal None height (arriving w)) w (setFinal height w)) /\
  at_most_once (arriving w, Cosmos_GetExecutionInfo None) w (info w) /\
  (forall txs maxBytes maxGas forced, at_most_once (filter_direct txs maxBytes maxGas forced (arriving w)) w (filterTxs txs maxBytes maxGas forced w)) /\
  at_most_once (arriving w, GetLatestHeight None (arriving w)) w (latest w) /\
  (forall height, is_u64 height -> at_most_once (Rollback None height (arriving w)) w (rollback height w)) /\
  (forall height, is_u64 height -> at_most_once (PruneExec None height (arriving w)) w (prune height w)).
Proof.
  set (e := arriving w). split_and!.
  - intros time height id Hid. apply (connect_once _ _ _ _ _ _ (init_request time height id)); [by intros q; apply init_exact|].
    fold e. unfold Grpc.Server.InitChain. cbn -[InitChain]. destruct (height =? 0); [left; eauto|]. case_bool_decide; [left; eauto|].
    right. rewrite Grpc.AsTime_New. destruct (InitChain _ _ _ _ _) as [e' [root|er]]; eexists; (split; [reflexivity|]); [|done].
    intros v x [= <-]. cbn. by rewrite stateRoot_read.
  - apply (connect_once _ _ _ _ _ _ tt); [by intros []|]. right. fold e. unfold Grpc.Server.GetTxs. cbn -[GetTxs].
    destruct (GetTxs None e) as [e' [txs|er]]; eexists; (split; [reflexivity|]); [|done]. intros v x [= <-]. cbn. by rewrite txs_read.
  - intros txs height time root. apply (connect_once _ _ _ _ _ _ (execute_request txs height time root)); [by intros q; apply execute_exact|].
    fold e. unfold Grpc.Server.ExecuteTxs. cbn -[ExecuteTxs]. destruct (height =? 0); [left; eauto|]. destruct (blen root =? 0); [left; eauto|].
    right. rewrite Grpc.AsTime_New. destruct (ExecuteTxs _ _ _ _ _ _) as [e' [root'|er]]; eexists; (split; [reflexivity|]); [|done].
    intros v x [= <-]. cbn. by rewrite updatedStateRoot_read.
  - intros height. apply (connect_once _ _ _ _ _ _ height); [by intros q; apply final_exact|]. fold e. unfold Grpc.Server.SetFinal. cbn -[SetFinal].
    destruct (height =? 0); [left; eauto|]. right. destruct (SetFinal _ _ _) as [e' [[]|er]]; eexists; (split; [reflexivity|]); [|done]. by intros v [].
  - apply (connect_once _ _ _ _ _ _ tt); [by intros []|]. right. eexists. split; [reflexivity|]. intros v x [= <-]. cbn. by rewrite maxGas_read.
  - intros txs maxBytes maxGas forced. unfold Client.FilterTxs.
    set (l := Grpc.pb_FilterStatus <$> cosmos_loop maxBytes 0 txs).
    assert (H : filter_direct txs maxBytes maxGas forced e = (e, let? x := Ok (json_status <$> l) in parse_statuses x))
      by (cbn; by rewrite statuses_parsed).
    rewrite H. apply (once_then parse_statuses (e, Ok (json_status <$> l))).
    eapply connect_once; [intros q; apply filter_exact|]. right. eexists. split; [reflexivity|]. intros v x [= <-]. cbn. by rewrite statuses_read.
  - apply (call_once ExecHeight _ (fun _ r e => (e, execHeightHandler r e))); [by intros now mb [] |]. intros mb. right. eexists. split; [reflexivity|].
    intros p x [= <-] [= <-]. done.
  - intros height Hh. apply (call_once ExecRollback _ execRollbackHandler); [intros now mb s; cbn [dispatch]; by destruct (execRollbackHandler _ _ _)|].
    intros mb. fold e. rewrite rollback_handler. apply (post_once _ _ _ height); [by apply target_short|apply target_exact|].
    destruct (height =? 0); [left; eauto|right]. eexists. split; [reflexivity|]. cbn -[Rollback]. intros p [] Hp _.
    by destruct (Rollback None height e).2 as [[]|].
  - intros height Hh. apply (call_once ExecPrune _ execPruneHandler); [intros now mb s; cbn [dispatch]; by destruct (execPruneHandler _ _ _)|].
    intros mb. fold e. apply (post_once _ _ _ height); [by apply height_short|apply height_exact|]. right. eexists. split; [reflexivity|]. by intros p [].
Qed.

(** ** A call that is delivered is the call of the executor *)

(** The same effect and the same result; of an error, the client has the text in the body of the reply. *)
Definition agrees {X} (name : string) (direct : CosmosExecutor A * res X) (o : world Coins A * res X) : Prop :=
  exec_of o.1 = direct.1 /\
  match direct.2, o.2 with
  | Ok x, Ok y => x = y
  | Err er, Err er' => exists status sent prefix, err_Error sent = String.append prefix (err_Error er) /\
      er' = EWrap name (EWrap (String.append "status " (dec_string status)) (EMsg (error_body sent)))
  | _, _ => False
  end.
Definition takes (body : bytes) : Prop := MaxRequestBodyBytes cfg <= 0 \/ blen body <= MaxRequestBodyBytes cfg.

Section open.
Context w (Hopen : ReadOnlyMode cfg = false /\ AuthToken cfg = EmptyString) (Hlim : hs_limiter (w_server w) = None).

Lemma served_once rt r h mb : runs rt r h -> securityMiddleware cfg None r (clock (w_tick w)) = (None, Pass mb) ->
  exists s', serve (F := F) (M := M) ParseFloat other cfg env (clock (w_tick w)) rt r (at_request others w) = (s', (h mb r (arriving w)).2) /\
    hs_exec s' = (h mb r (arriving w)).1.
Proof.
  intros Hr Hp.
  destruct (serve_passes (F := F) (M := M) ParseFloat other cfg env (clock (w_tick w)) rt r (at_request others w) mb Hlim Hp)
    as (m & m' & s' & x & Ed & ->). rewrite Hr in Ed. cbn in Ed. fold (exec_of w) in Ed. fold (arriving w) in Ed. injection Ed as <- <-. eauto.
Qed.

Lemma post_let_in body : securityMiddleware cfg None (Client.exec_request POST body) (clock (w_tick w)) =
  (None, Pass (if 0 <? MaxRequestBodyBytes cfg then Some (MaxRequestBodyBytes cfg) else None)).
Proof. destruct Hopen as [Hr Ht]. unfold securityMiddleware. cbn. rewrite Hr, Ht, !andb_true_r. done. Qed.

Lemma within body : takes body -> match (if 0 <? MaxRequestBodyBytes cfg then Some (MaxRequestBodyBytes cfg) else None) with
  | Some n => n <? blen body | None => false end = false.
Proof. intros Hf. unfold takes in Hf. destruct (Z.ltb_spec 0 (MaxRequestBodyBytes cfg)); [|done]. apply Z.ltb_ge. lia. Qed.

(** A mempool whose reply is lost is lost: the executor has emptied it, and the client has an error. *)
Lemma mempool_lost er : fates (w_tick w) = ReplyLost er -> takes marshal_none ->
  mempool (exec_of (getTxs w).1) = [] /\ (getTxs w).2 = Err (EWrap "GetTxs" er).
Proof.
  intros Hf Ht. unfold Client.GetTxs, Client.connectCall, Client.Do.
  destruct (served_once _ _ _ _ (grpc_runs rpc_GetTxs marshal_none) (post_let_in marshal_none)) as (s' & -> & He). rewrite Hf. cbn [fst snd]. split; [|done].
  unfold exec_of. cbn [w_server]. rewrite He. unfold rpc_GetTxs, unary. cbn [rq_readErr rq_body Client.exec_request].
  rewrite within, none_read by done. unfold Grpc.Server.GetTxs. cbn -[GetTxs]. unfold GetTxs. by destruct (mempool (arriving w)) eqn:E.
Qed.

Section delivered.
Context (Harr : fates (w_tick w) = Arrives).

Lemma do_delivered rt r h mb : runs rt r h -> securityMiddleware cfg None r (clock (w_tick w)) = (None, Pass mb) ->
  exists w', Client.Do (F := F) (M := M) ParseFloat other cfg env clock fates others rt r w =
    (w', Client.arrived (h mb r (arriving w)).2) /\ exec_of w' = (h mb r (arriving w)).1.
Proof. intros Hr Hp. unfold Client.Do. destruct (served_once _ _ _ _ Hr Hp) as (s' & -> & He). rewrite Harr. eexists. split; [reflexivity|]. exact He. Qed.

Lemma internal_agrees {X Y} name msg (direct : CosmosExecutor A * res X) (g : X -> Y) w' (decode : payload Coins -> res X) (payload_of : Y -> payload Coins) :
  exec_of w' = direct.1 -> (forall x, direct.2 = Ok x -> decode (payload_of (g x)) = Ok x) ->
  agrees name direct (w', Client.response name decode (Client.arrived (match Grpc.internal msg (let? x := direct.2 in Ok (g x)) with
     | Ok v => Reply (payload_of v) | Err er => connect_error er end))).
Proof.
  intros He Hd. split; [done|]. destruct direct.2 as [x|e]; cbn; [by rewrite Hd|]. eexists _, _, _. split; [|reflexivity].
  cbn [err_Error]. by rewrite !Grpc.append_assoc.
Qed.

Lemma connect_delivered {Q R X} name parse handler (write : R -> rpc_response) body decode (q : Q) msg g (direct : CosmosExecutor A * res X) :
  is_ok (parse body) = true -> (forall q', parse body = Ok q' -> q' = q) -> takes body ->
  handler q (arriving w) = (direct.1, Grpc.internal msg (let? x := direct.2 in Ok (g x))) ->
  (forall x, direct.2 = Ok x -> decode (PData (write_response (write (g x)))) = Ok x) ->
  agrees name direct (Client.connectCall (F := F) (M := M) ParseFloat other cfg env clock fates others name (unary parse handler write) body decode w).
Proof.
  intros Hok Hex Hf Hh Hd. destruct (parse body) as [q'|] eqn:Eq; [|done]. rewrite (Hex q' eq_refl) in Eq. clear Hok Hex q'. unfold Client.connectCall.
  destruct (do_delivered _ _ _ _ (grpc_runs (unary parse handler write) body) (post_let_in body)) as (w' & -> & He).
  revert He. unfold unary. cbn [rq_readErr rq_body Client.exec_request]. rewrite within by done. rewrite Eq, Hh. cbn [fst snd]. intros He.
  by apply (internal_agrees name msg direct g w' decode (fun v => PData (write_response (write v)))).
Qed.

Lemma post_read {X} parse body (x : X) : is_ok (parse body) = true -> (forall y, parse body = Ok y -> y = x) -> blen body <= 4096 -> takes body ->
  post_json parse (if 0 <? MaxRequestBodyBytes cfg then Some (MaxRequestBodyBytes cfg) else None) 4096 (Client.exec_request POST body) = Reply x.
Proof.
  intros Hok Hex Hb Hf. destruct (parse body) as [y|] eqn:Ep; [|done]. rewrite (Hex y eq_refl) in Ep. pose proof (within body Hf) as Hw.
  unfold post_json, require_method, read_body. rewrite bool_decide_true by done. cbn.
  assert (Ht : take (Z.to_nat 4096) body = body) by (apply take_ge; unfold blen in Hb; lia). rewrite Ht.
  destruct (0 <? MaxRequestBodyBytes cfg); [rewrite Hw, andb_false_r|]; by rewrite Ep.
Qed.

Lemma http_delivered {X} rt m h path body (decode : payload Coins -> res X) mb status (value : X -> payload Coins) (direct : CosmosExecutor A * res X) :
  runs rt (Client.exec_request m body) h -> securityMiddleware cfg None (Client.exec_request m body) (clock (w_tick w)) = (None, Pass mb) ->
  h mb (Client.exec_request m body) (arriving w) = (direct.1, let& x := on_err status direct.2 in Reply (value x)) ->
  (forall x, decode (value x) = Ok x) ->
  agrees path direct (Client.httpCall (F := F) (M := M) ParseFloat other cfg env clock fates others m path rt body decode w).
Proof.
  intros Hr Hp Hh Hd. unfold Client.httpCall. destruct (do_delivered _ _ _ _ Hr Hp) as (w' & -> & He). rewrite Hh in He |- *.
  split; [exact He|]. cbn [snd]. destruct direct.2 as [x|er]; cbn; [by rewrite Hd|]. by eexists _, er, EmptyString.
Qed.

Lemma init_delivered time height id : is_i64 time -> is_u64 height -> height <> 0 -> ascii_text id = true -> id <> EmptyString ->
  takes (marshal_init time height id) -> agrees "InitChain" (InitChain None time height id (arriving w)) (init time height id w).
Proof.
  intros Ht Hh H0 Ha He Hf. apply (connect_delivered _ _ _ _ _ _ (init_request time height id) "failed to init chain" (fun x => x));
    [by apply init_read|by intros q; apply init_exact|done| |by intros x _; apply stateRoot_read].
  unfold Grpc.Server.InitChain. cbn -[InitChain]. apply Z.eqb_neq in H0. rewrite H0, bool_decide_false, Grpc.AsTime_New by done.
  by destruct (InitChain _ _ _ _ _) as [e' []].
Qed.
Lemma execute_delivered txs height time root : is_i64 time -> is_u64 height -> height <> 0 -> root <> [] -> takes (marshal_execute txs height time root) ->
  agrees "ExecuteTxs" (ExecuteTxs None txs height time root (arriving w)) (execute txs height time root w).
Proof.
  intros Ht Hh H0 Hr Hf. apply (connect_delivered _ _ _ _ _ _ (execute_request txs height time root) "failed to execute txs" (fun x => x));
    [by apply execute_read|by intros q; apply execute_exact|done| |by intros x _; apply updatedStateRoot_read].
  unfold Grpc.Server.ExecuteTxs. cbn -[ExecuteTxs]. apply Z.eqb_neq in H0. rewrite H0, Grpc.AsTime_New.
  destruct (Z.eqb_spec (blen root) 0); [by destruct root|]. by destruct (ExecuteTxs _ _ _ _ _ _) as [e' []].
Qed.
Lemma filter_delivered txs maxBytes maxGas forced : is_u64 maxBytes -> is_u64 maxGas ->
  takes (marshal_filter {| Grpc.fr_Txs := txs; Grpc.fr_MaxBytes := maxBytes; Grpc.fr_MaxGas := maxGas; Grpc.fr_HasForceIncludedTransaction := forced |}) ->
  agrees "FilterTxs" (filter_direct txs maxBytes maxGas forced (arriving w)) (filterTxs txs maxBytes maxGas forced w).
Proof.
  intros Hb Hg Hf. unfold Client.FilterTxs. set (l := Grpc.pb_FilterStatus <$> cosmos_loop maxBytes 0 txs). set (q := Grpc.Build_FilterTxsRequest _ _ _ _) in *.
  assert (H : agrees "FilterTxs" (arriving w, Ok (json_status <$> l)) (Client.connectCall (F := F) (M := M) ParseFloat other cfg env clock fates others
    "FilterTxs" rpc_FilterTxs (marshal_filter q) (Client.json_body read_statuses) w)).
  { apply (connect_delivered _ _ _ _ _ _ q "failed to filter transactions" (fun _ => l)); [by apply filter_read|by intros q'; apply filter_exact|done..|].
    intros x [= <-]. apply statuses_read. }
  destruct (Client.connectCall _ _ _ _ _ _ _ _ _ _ _ _) as [w' [raws|er]]; destruct H as [He Hx]; cbn in Hx; [|done]. subst raws.
  split; [exact He|]. cbn. by rewrite statuses_parsed.
Qed.

End delivered.
End open.

(** ** Requests the server does not take *)

(** A call that does not reach the executor and fails. *)
Definition refused {X} w (o : world Coins A * res X) : Prop := exec_of o.1 = arriving w /\ is_ok o.2 = false.

Lemma do_refused {X} rt body w (decode : payload Coins -> res X) name h : runs rt (Client.exec_request POST body) h ->
  (forall now l, exists st, (securityMiddleware cfg l (Client.exec_request POST body) now).2 = Stop st) \/
    (forall e, exists st er, h (Some (MaxRequestBodyBytes cfg)) (Client.exec_request POST body) e = (e, Fail st er)) /\ 0 < MaxRequestBodyBytes cfg ->
  refused w (let '(w', x) := Client.Do (F := F) (M := M) ParseFloat other cfg env clock fates others rt (Client.exec_request POST body) w in
             (w', Client.response name decode x)).
Proof.
  intros Hr Hs. unfold Client.Do.
  assert (H : let '(s', x) := serve (F := F) (M := M) ParseFloat other cfg env (clock (w_tick w)) rt (Client.exec_request POST body) (at_request others w) in
    hs_exec s' = arriving w /\ exists st er, x = Fail st er).
  { unfold serve. apply (counted_exec cfg _ (at_request others w) (fun e _ x => e = arriving w /\ exists st er, x = Fail st er)). intros m.
    cbn [hs_limiter set_metrics].
    destruct (securityMiddleware _ _ _ _) as [l [st|mb]] eqn:Em; cbn; [eauto|]. destruct Hs as [Hs|[Hs Hp]].
    { destruct (Hs (clock (w_tick w)) (hs_limiter (w_server w))) as [st Hst]. cbn in Em. by rewrite Em in Hst. }
    assert (mb = Some (MaxRequestBodyBytes cfg)) as ->.
    { revert Em. unfold securityMiddleware. apply Z.ltb_lt in Hp. cbn. rewrite Hp. cbn.
      rewrite !(bool_decide_true (POST = POST)) by done. repeat case_match; congruence. }
    rewrite !Hr. change (hs_exec (set_limiter l (set_metrics m (at_request others w)))) with (arriving w).
    destruct (Hs (arriving w)) as (st & er & ->). split; [done|by exists st, er]. }
  destruct (serve _ _ _ _ _ _ _ _) as [s' x]. destruct H as [He (st & er & ->)].
  destruct (fates (w_tick w)); split; cbn; by try rewrite He.
Qed.

(** The node is locked out of a server that is read-only or has a token: it sends none. It still sees the height. *)
Theorem node_locked_out w : ReadOnlyMode cfg = true \/ AuthToken cfg <> EmptyString ->
  (forall time height id, refused w (init time height id w)) /\ refused w (getTxs w) /\
  (forall txs height time root, refused w (execute txs height time root w)) /\ (forall height, refused w (setFinal height w)) /\
  (forall height, refused w (rollback height w)).
Proof.
  intros Hc.
  assert (Hs : forall body now l, exists st, (securityMiddleware cfg l (Client.exec_request POST body) now).2 = Stop st).
  { intros body now l. destruct (closed_post cfg l (Client.exec_request POST body) now) as (st & -> & _); [|done|by exists st].
    destruct Hc as [|Ht]; [by left|right]. by split. }
  refine (conj _ (conj _ (conj _ (conj _ _)))); intros; eapply do_refused; (apply grpc_runs || (left; apply Hs)).
Qed.

(** A block too large for the body of a request is never executed: neither its execution gets through, nor the filter
    of its transactions. *)
Theorem large_block_refused w (txs : list bytes) : 0 < MaxRequestBodyBytes cfg ->
  (forall height time root, MaxRequestBodyBytes cfg < blen (marshal_execute txs height time root) -> refused w (execute txs height time root w)) /\
  (forall maxBytes maxGas forced, MaxRequestBodyBytes cfg < blen (marshal_filter {| Grpc.fr_Txs := txs; Grpc.fr_MaxBytes := maxBytes;
     Grpc.fr_MaxGas := maxGas; Grpc.fr_HasForceIncludedTransaction := forced |}) -> refused w (filterTxs txs maxBytes maxGas forced w)).
Proof.
  intros Hm.
  assert (Hu : forall Q R parse handler (write : R -> rpc_response) body e, MaxRequestBodyBytes cfg < blen body -> exists st er,
    unary (Coins := Coins) (Q := Q) parse handler write (Some (MaxRequestBodyBytes cfg)) (Client.exec_request POST body) e = (e, Fail st er)).
  { intros Q R parse handler write body e Hb. unfold unary. cbn [rq_readErr rq_body Client.exec_request]. apply Z.ltb_lt in Hb. rewrite Hb. eauto. }
  split.
  - intros height time root Hb. eapply do_refused; [apply grpc_runs|right]. split; [|done]. intros e. by apply Hu.
  - intros maxBytes maxGas forced Hb. unfold Client.FilterTxs.
    match goal with |- context [Client.connectCall ?a ?b ?c ?d ?e ?g ?h ?n ?k ?body ?dec w] =>
      assert (H : refused w (Client.connectCall a b c d e g h n k body dec w)) end.
    { eapply do_refused; [apply grpc_runs|right]. split; [|done]. intros e. by apply Hu. }
    destruct (Client.connectCall _ _ _ _ _ _ _ _ _ _ _ w) as [w' [x|er]]; destruct H; [done|]. by split.
Qed.
End theorems.

(** ** The replay a node starts with, through the client *)

Section projection.
Context {W1 W2 D B K : Type} {E1 : CoreExecutor W1} {E2 : CoreExecutor W2} `{Datastore D} `{Batching D B} `{PubKeys K} `{Protowire} `{HashString}.
Context `{ProtoCodec pb_Version} `{ProtoCodec pb_Header} `{ProtoCodec pb_SignedHeader} `{ProtoCodec pb_Data} `{ProtoCodec pb_State}.
Context (f : W1 -> W2).

(** What succeeds on the first world succeeds on its image, and alike. *)
Definition projects {X} (m1 : bm (W1 * D) X) (m2 : bm (W2 * D) X) : Prop :=
  forall w s w' s' x, m1 (w, s) = ((w', s'), Ok x) -> m2 (f w, s) = ((f w', s'), Ok x).

Lemma projects_ret {X} (x : X) : projects (bm_ret x) (bm_ret x).
Proof. by intros w s w' s' y [= <- <- <-]. Qed.
Lemma projects_err {X} e : projects (X := X) (bm_err e) (bm_err e).
Proof. by intros w s w' s' y. Qed.
Lemma projects_bind {X Y} m1 m2 (k1 : X -> bm (W1 * D) Y) k2 : projects m1 m2 -> (forall x, projects (k1 x) (k2 x)) -> projects (bm_bind m1 k1) (bm_bind m2 k2).
Proof.
  intros Hm Hk w s w' s' y E. unfold bm_bind in *. destruct (m1 (w, s)) as [[w1 s1] [x|er]] eqn:Em; [|done].
  rewrite (Hm _ _ _ _ _ Em). by apply Hk.
Qed.
Lemma projects_wrap {X} msg (m1 : bm (W1 * D) X) m2 : projects m1 m2 -> projects (bm_wrap msg m1) (bm_wrap msg m2).
Proof.
  intros Hm w s w' s' y E. unfold bm_wrap in *. destruct (m1 (w, s)) as [[w1 s1] [x|er]] eqn:Em; [|done]. injection E as <- <- <-.
  by rewrite (Hm _ _ _ _ _ Em).
Qed.
Lemma projects_store {X} (h : D -> res X) : projects (on_store h) (on_store h).
Proof. intros w s w' s' y [= <- <- E]. unfold on_store. cbn in *. by rewrite E. Qed.
Lemma projects_write {X} (h : D -> D * res X) : projects (write_store h) (write_store h).
Proof. intros w s w' s' y E. unfold write_store in *. cbn in *. destruct (h s) as [s1 r]. by injection E as <- <- ->. Qed.
Lemma projects_world {X} (h1 : W1 -> W1 * res X) h2 : (forall w w' x, h1 w = (w', Ok x) -> h2 (f w) = (f w', Ok x)) -> projects (on_world h1) (on_world h2).
Proof.
  intros Hh w s w' s' y E. unfold on_world in *. cbn in *. destruct (h1 w) as [w1 r] eqn:Ew. injection E as <- <- ->.
  by rewrite (Hh _ _ _ Ew).
Qed.

Context (Hexec : forall txs h t root w w' x, exec_ExecuteTxs w txs h t root = (w', Ok x) -> exec_ExecuteTxs (f w) txs h t root = (f w', Ok x)).

Lemma replayBlock_projects g h : projects (Replay.replayBlock (EX := E1) (B := B) (K := K) g h) (Replay.replayBlock (EX := E2) (B := B) (K := K) g h).
Proof.
  unfold Replay.replayBlock. apply projects_bind; [apply projects_wrap, projects_store|]. intros [hdr d].
  apply projects_bind; [apply projects_store|]. intros prev. apply projects_bind; [apply projects_wrap, projects_world; intros; by apply Hexec|].
  intros root. apply projects_bind; [apply projects_store|]. intros ok. apply projects_bind; [|intros _; apply projects_write].
  destruct ok; [apply projects_ret|apply projects_err].
Qed.
Lemma replay_loop_projects g fuel h target :
  projects (Replay.replay_loop (EX := E1) (B := B) (K := K) fuel g h target) (Replay.replay_loop (EX := E2) (B := B) (K := K) fuel g h target).
Proof.
  revert h. induction fuel as [|fuel IH]; intros h; cbn [Replay.replay_loop]; (destruct (target <? h); [apply projects_ret|]); [apply projects_err|].
  apply projects_bind; [apply projects_wrap, replayBlock_projects|]. intros _. apply IH.
Qed.

Context (latest1 : W1 -> W1 * res Z) (latest2 : W2 -> W2 * res Z) (back1 : W1 -> Z -> W1 * res unit) (back2 : W2 -> Z -> W2 * res unit).
Context (HL1 : exec_GetLatestHeight (CoreExecutor := E1) = Some latest1) (HL2 : exec_GetLatestHeight (CoreExecutor := E2) = Some latest2).
Context (HR1 : exec_Rollback (CoreExecutor := E1) = Some back1) (HR2 : exec_Rollback (CoreExecutor := E2) = Some back2).
Context (Hlatest : forall w w' x, latest1 w = (w', Ok x) -> latest2 (f w) = (f w', Ok x)).

Lemma SyncToHeight_projects g target : (forall w w' x, back1 w target = (w', Ok x) -> back2 (f w) target = (f w', Ok x)) ->
  projects (Replay.SyncToHeight (EX := E1) (B := B) (K := K) g target) (Replay.SyncToHeight (EX := E2) (B := B) (K := K) g target).
Proof.
  intros Hback. unfold Replay.SyncToHeight. rewrite HL1, HL2. destruct (target <? _); [apply projects_ret|].
  apply projects_bind; [by apply projects_wrap, projects_world|]. intros x. destruct (target <? x).
  { rewrite HR1, HR2. by apply projects_wrap, projects_world. }
  destruct (x <? target); [|apply projects_ret]. apply projects_bind; [apply projects_wrap, projects_store|]. intros _. apply replay_loop_projects.
Qed.
End projection.

Section sync.
Context {Dec Coins A F M : Type} `{CL : CosmosLib Dec Coins} `{AP : App A} `{AQ : AppQueries A Coins} `{BF : BigFloat F} `{SJ : ServerJSON}.
Context `{TL : TxLib M Coins} `{CX : ConnectJSON} `{CXL : !ConnectJSONLaws}.
Context {D B K : Type} `{Datastore D} `{Batching D B} `{PubKeys K} `{Protowire} `{HashString}.
Context `{ProtoCodec pb_Version} `{ProtoCodec pb_Header} `{ProtoCodec pb_SignedHeader} `{ProtoCodec pb_Data} `{ProtoCodec pb_State}.
Context (ParseFloat : string -> res spec_float) (other : Z) (cfg : Config) (env : string -> string).
Context (clock : nat -> Z) (fates : nat -> fate).

(** C40: The replay through the client refines the replay on the executor itself: whatever the configuration of the
    server and whatever becomes of the requests, if the replay with which the node starts succeeds, it has left the
    executor and the store as it leaves them when the executor is called directly. *)
Theorem sync_through_client (g : Genesis) (target : Z) (w w' : world Coins A) (s s' : D) (Ht : is_u64 target) :
  let client := Client.Enhanced_CoreExecutor (F := F) (M := M) ParseFloat other cfg env clock fates (fun _ e => e) in
  Replay.SyncToHeight (EX := client) (B := B) (K := K) g target (w, s) = ((w', s'), Ok tt) ->
  Replay.SyncToHeight (EX := Cosmos_CoreExecutor) (B := B) (K := K) g target (exec_of w, s) = ((exec_of w', s'), Ok tt).
Proof.
  intros client.
  pose proof (fun v : world Coins A => client_at_most_once (F := F) (M := M) ParseFloat other cfg env clock fates (fun _ e => e) v) as Honce.
  apply (SyncToHeight_projects (E1 := client) (E2 := Cosmos_CoreExecutor) exec_of) with
    (latest1 := Client.GetLatestHeight (F := F) (M := M) ParseFloat other cfg env clock fates (fun _ e => e))
    (latest2 := fun e => (e, GetLatestHeight None e)) (back2 := fun e height => Rollback None height e)
    (back1 := fun v height => Client.Rollback (F := F) (M := M) ParseFloat other cfg env clock fates (fun _ e => e) height v); try reflexivity.
  - intros txs h t root v v' x E. destruct (Honce v) as (_ & _ & Hx & _). specialize (Hx txs h t root). cbn in E. rewrite E in Hx. exact Hx.
  - intros v v' x E. destruct (Honce v) as (_ & _ & _ & _ & _ & _ & Hx & _). rewrite E in Hx. exact Hx.
  - intros v v' x E. destruct (Honce v) as (_ & _ & _ & _ & _ & _ & _ & Hx & _). specialize (Hx target Ht). rewrite E in Hx. exact Hx.
Qed.
End sync.

(** ** The theorems applied *)

Module ExecClientWitness.
Import CosmosAppWitness.
#[local] Existing Instance CosmosServerWitness.ref_big.

(** A number of type uint64 is eight bytes; the rest is a format of its own. *)
Definition number_bytes (h : Z) : bytes := if (0 <=? h) && (h <? two64) then PutUint64_LE h else [].
Definition bytes_number (b : bytes) : res Z := if blen b =? 8 then Ok (Uint64_LE b) else Err (EMsg "unexpected end of JSON input").
Definition read {X} `{Countable X} (b : bytes) : res X :=
  match RefCodec.bytes_pos b ≫= decode with Some x => Ok x | None => Err (EMsg "unexpected end of JSON input") end.
Definition write {X} `{Countable X} (x : X) : bytes := RefCodec.pos_bytes (encode x).
Lemma read_write {X} `{Countable X} (x : X) : read (write x) = Ok x.
Proof. unfold read, write. rewrite RefCodec.bytes_pos_bytes. cbn [mbind option_bind]. by rewrite decode_encode. Qed.
Lemma number_cases h : (is_u64 h /\ bytes_number (number_bytes h) = Ok h) \/ (~ is_u64 h /\ is_ok (bytes_number (number_bytes h)) = false).
Proof.
  unfold number_bytes. destruct (Z.leb_spec 0 h), (Z.ltb_spec h two64); [left|right..]; (split; [unfold is_u64; lia|]); [|done..].
  cbn [andb]. unfold bytes_number, blen. rewrite length_PutUint64_LE, Uint64_LE_Put, u64_small by done. done.
Qed.
Lemma number_read h : is_u64 h -> is_ok (bytes_number (number_bytes h)) = true.
Proof. intros Hh. by destruct (number_cases h) as [[_ ->]|[]]. Qed.
Lemma number_exact h n : bytes_number (number_bytes h) = Ok n -> n = h.
Proof. destruct (number_cases h) as [[_ ->]|[_ H]]; [congruence|]. by intros E; rewrite E in H. Qed.
Lemma number_short h : is_u64 h -> blen (number_bytes h) <= 4096.
Proof. intros _. unfold number_bytes. destruct (_ && _); [unfold blen; by rewrite length_PutUint64_LE|done]. Qed.

#[local] Instance own_json : ServerJSON := {|
  parse_submit := parse_submit (ServerJSON := CosmosServerWitness.ref_json); parse_estimate := parse_estimate (ServerJSON := CosmosServerWitness.ref_json);
  parse_query := parse_query (ServerJSON := CosmosServerWitness.ref_json); parse_target_height := bytes_number; parse_height := bytes_number;
  json_Valid b := bool_decide (b <> []) |}.
#[local] Instance own_connect : ConnectJSON := {|
  marshal_init t h id := write (t, h, id);
  marshal_execute txs h t root := write (txs, h, t, root);
  marshal_final := write;
  marshal_filter q := write (Grpc.fr_Txs q, Grpc.fr_MaxBytes q, Grpc.fr_MaxGas q, Grpc.fr_HasForceIncludedTransaction q);
  marshal_none := [x7b; x7d]; marshal_target := number_bytes; marshal_height := number_bytes;
  parse_init b := let? x := read (X := Z * Z * string) b in Ok (init_request x.1.1 x.1.2 x.2);
  parse_execute b := let? x := read (X := list bytes * Z * Z * bytes) b in Ok (execute_request x.1.1.1 x.1.1.2 x.1.2 x.2);
  parse_final := read;
  parse_filter b := let? x := read (X := list bytes * Z * Z * bool) b in
    Ok {| Grpc.fr_Txs := x.1.1.1; Grpc.fr_MaxBytes := x.1.1.2; Grpc.fr_MaxGas := x.1.2; Grpc.fr_HasForceIncludedTransaction := x.2 |};
  parse_none _ := Ok tt;
  write_response x := match x with
    | RsInitChain root | RsExecuteTxs root => root | RsGetTxs txs => write txs | RsSetFinal => [x7b; x7d] | RsExecutionInfo n => write n
    | RsFilterTxs l => write l end;
  read_stateRoot b := Ok b; read_txs := read; read_updatedStateRoot b := Ok b; read_maxGas := read;
  read_statuses b := let? l := read (X := list Z) b in Ok (json_status <$> l);
  connect_status _ := 500; error_body := err_Error |}.
#[local] Instance own_connect_laws : ConnectJSONLaws.
Proof.
  split; cbn -[read write number_bytes bytes_number]; intros; rewrite ?read_write in *; cbn in *; try done; try congruence;
    eauto using number_exact, number_short, number_read.
  match goal with H : _ = Ok _ |- _ => injection H as <- end. by destruct q.
Qed.

Import RefHash TypesWitness.
Abbreviation toy_world := (world (gmap string Z) CosmosWitness.toy).
Definition server_of (c : Config) (e : CosmosExecutor CosmosWitness.toy) : toy_world := {| w_server := new_server c None e; w_tick := 0 |}.
Definition idle (_ : nat) (e : CosmosExecutor CosmosWitness.toy) : CosmosExecutor CosmosWitness.toy := e.

(** Two blocks through the client: the first is executed, the same again is refused, and the filter keeps both statuses apart. *)
Definition ready : toy_world := server_of DefaultConfig CosmosServerWitness.started.

(** The executor is one block ahead of the node's store: the replay takes it back, through the client. *)
Definition ahead : toy_world := server_of DefaultConfig CosmosWitness.at_two.
Definition g1 : Genesis := {| g_ChainID := "toy"; g_StartTime := 0; g_InitialHeight := 1; g_ProposerAddress := [x05]; g_DAStartHeight := 1; g_DAEpochForcedInclusion := 1 |}.
Abbreviation sync_ahead := (Replay.SyncToHeight (EX := Client.Enhanced_CoreExecutor (Dec := Z) (F := Z) (M := string) CosmosServerWitness.noFloat 0 DefaultConfig env
  (fun _ => 5) (fun _ => Arrives) (fun _ e => e)) (B := list batch_op) (K := bytes) g1 1 (ahead, Mapds ∅ true)).
Definition synced : toy_world * mapds := sync_ahead.1.
Lemma synced_is : sync_ahead = ((synced.1, synced.2), Ok tt).
Proof. by vm_compute. Qed.
Lemma sync_through_client_witness : lastHeight (exec_of ahead) = 2 /\ lastHeight (exec_of synced.1) = 1 /\
  Replay.SyncToHeight (EX := Cosmos_CoreExecutor) (B := list batch_op) (K := bytes) g1 1 (exec_of ahead, Mapds ∅ true) = ((exec_of synced.1, synced.2), Ok tt).
Proof.
  split; [by vm_compute|]. split; [by vm_compute|].
  exact (sync_through_client (Dec := Z) (F := Z) (M := string) (B := list batch_op) (K := bytes) CosmosServerWitness.noFloat 0 DefaultConfig env
    (fun _ => 5) (fun _ => Arrives) g1 1 ahead synced.1 (Mapds ∅ true) synced.2 (conj (Z.le_0_1) eq_refl) synced_is).
Defined.

(** A server with a token: the executor stays where it is, and the node has an error. *)
Lemma node_locked_out_witness :
  refused idle (server_of SdkClientWitness.token CosmosServerWitness.started)
    (Client.ExecuteTxs (Dec := Z) (F := Z) (M := string) CosmosServerWitness.noFloat 0 SdkClientWitness.token env (fun _ => 5) (fun _ => Arrives) idle [[x05]] 3 9 [x01]
       (server_of SdkClientWitness.token CosmosServerWitness.started)).
Proof.
  destruct (node_locked_out (Dec := Z) (F := Z) (M := string) CosmosServerWitness.noFloat 0 SdkClientWitness.token env (fun _ => 5) (fun _ => Arrives) idle
    (server_of SdkClientWitness.token CosmosServerWitness.started)) as (_ & _ & H & _); [by right; vm_compute|]. apply H.
Defined.

(** A small server: a block over its limit is refused, as is the filter of its transactions. *)
Definition small : Config := LoadFromEnv (fun _ => Ok 0) (fun k => if bool_decide (k = "COSMOS_EXEC_MAX_BODY_BYTES"%string) then "40" else EmptyString) DefaultConfig.
Definition large : list bytes := [replicate 60 x07].
Lemma large_block_refused_witness :
  refused idle ready (Client.ExecuteTxs (Dec := Z) (F := Z) (M := string) CosmosServerWitness.noFloat 0 small env (fun _ => 5) (fun _ => Arrives) idle large 3 9 [x01] ready).
Proof.
  destruct (large_block_refused (Dec := Z) (F := Z) (M := string) CosmosServerWitness.noFloat 0 small env (fun _ => 5) (fun _ => Arrives) idle
    ready large) as [H _]; [by vm_compute|]. apply H. by vm_compute.
Defined.

(** A transaction in the mempool, and a reply of GetTxs that is lost. *)
Definition waiting : toy_world := server_of DefaultConfig (InjectTx None [x05] CosmosServerWitness.started).1.
Lemma mempool_lost_witness : mempool (exec_of waiting) = [[x05]] /\
  mempool (exec_of (Client.GetTxs (Dec := Z) (F := Z) (M := string) CosmosServerWitness.noFloat 0 DefaultConfig env (fun _ => 5)
    (fun _ => ReplyLost (EMsg "timeout")) idle waiting).1) = [].
Proof.
  split; [by vm_compute|].
  by apply (mempool_lost (Dec := Z) (F := Z) (M := string) CosmosServerWitness.noFloat 0 DefaultConfig env (fun _ => 5)
    (fun _ => ReplyLost (EMsg "timeout")) idle waiting (conj eq_refl eq_refl) eq_refl (EMsg "timeout") eq_refl); right; vm_compute.
Defined.

End ExecClientWitness.
End ExecClient.
