(* ===== verification/LocalDA.v ===== *)
(** The in-memory DA layer of a local chain (tools/local-da): the layer (local.go) and the RPC server that serves
    it to the DA client of a node (rpc.go). The server implements the class of the DA node's API, with its laws,
    so that what is proved of the DA client holds over this layer.

    The share library and Ed25519 are classes. The time is a field of the layer that every event may move. *)

From S2P Require Import Prelude Sha256 Validation ForcedInclusion Submit Sdk BlobClient.

(** go-square: namespaces, blobs and their commitments; and the RPC's options and proofs. *)
Class ShareLib (L : Type) := {
  lib_NewNamespaceFromBytes : bytes -> res bytes;
  lib_ValidateForBlob : bytes -> res unit;
  lib_NewBlob : bytes -> bytes -> Z -> res L;
  lib_Data : L -> bytes;
  lib_Namespace : L -> bytes;
  lib_ShareVersion : L -> Z;
  lib_CreateCommitment : L -> res bytes;
}.
Class ShareLibLaws (L : Type) `{ShareLib L} := {
  lib_NewBlob_spec ns data v b : lib_NewBlob ns data v = Ok b -> lib_Data b = data /\ lib_Namespace b = ns;
  lib_CreateCommitment_spec b c : lib_CreateCommitment b = Ok c -> c <> [];
}.
(** crypto/ed25519 *)
Class Ed25519 := {
  ed_Public : bytes -> bytes;
  ed_Sign : bytes -> bytes -> bytes;
  ed_Verify : bytes -> bytes -> bytes -> bool;
}.
Class Ed25519Laws `{Ed25519} := { ed_Verify_Sign key msg : ed_Verify (ed_Public key) msg (ed_Sign key msg) = true }.

Module LocalDA.
Definition DefaultMaxBlobSize : Z := 7 * 1024 * 1024.

Section layer.
Context {L : Type} `{SL : ShareLib L} `{ED : Ed25519}.
Abbreviation blob := (L * bytes)%type.

(** The channel of a subscriber has room for 64 events. *)
Record subscriptionEvent := { ev_height : Z; ev_blobs : list blob }.
Record subscriber := { sub_ch : list subscriptionEvent; sub_ns : bytes }.
Definition channel_size : nat := 64.

Record LocalDA := {
  d_data : gmap Z (list (bytes * bytes)); d_timestamps : gmap Z Z; d_blobData : gmap Z (list (option blob)); d_maxBlobSize : Z;
  d_height : Z; d_privKey : bytes; d_lastTime : Z; d_subscribers : gmap Z subscriber; d_nextSubID : Z; d_now : Z }.

Definition NewLocalDA (maxBlobSize : Z) (key : bytes) (now : Z) : LocalDA := {|
  d_data := ∅; d_timestamps := ∅; d_blobData := ∅; d_maxBlobSize := maxBlobSize; d_height := 0; d_privKey := key; d_lastTime := now;
  d_subscribers := ∅; d_nextSubID := 0; d_now := now |}.

Definition set_block (h : Z) (ts : gmap Z Z) (lastTime : Z) (d : LocalDA) : LocalDA := {|
  d_data := d_data d; d_timestamps := ts; d_blobData := d_blobData d; d_maxBlobSize := d_maxBlobSize d; d_height := h;
  d_privKey := d_privKey d; d_lastTime := lastTime; d_subscribers := d_subscribers d; d_nextSubID := d_nextSubID d; d_now := d_now d |}.
Definition set_content (data : gmap Z (list (bytes * bytes))) (blobData : gmap Z (list (option blob))) (d : LocalDA) : LocalDA := {|
  d_data := data; d_timestamps := d_timestamps d; d_blobData := blobData; d_maxBlobSize := d_maxBlobSize d; d_height := d_height d;
  d_privKey := d_privKey d; d_lastTime := d_lastTime d; d_subscribers := d_subscribers d; d_nextSubID := d_nextSubID d; d_now := d_now d |}.
Definition set_subscribers (subs : gmap Z subscriber) (next : Z) (d : LocalDA) : LocalDA := {|
  d_data := d_data d; d_timestamps := d_timestamps d; d_blobData := d_blobData d; d_maxBlobSize := d_maxBlobSize d; d_height := d_height d;
  d_privKey := d_privKey d; d_lastTime := d_lastTime d; d_subscribers := subs; d_nextSubID := next; d_now := d_now d |}.

Definition validateNamespace (ns : bytes) : res unit :=
  if negb (blen ns =? 29) then Err (EMsg "namespace must be exactly 29 bytes") else Ok tt.
Definition MaxBlobSize (d : LocalDA) : Z := d_maxBlobSize d.
Definition getID (cnt : Z) : bytes := PutUint64_LE cnt.
Definition nextID (d : LocalDA) : bytes := getID (d_height d).
Definition getHash (b : bytes) : bytes := sha256_Sum256 b.
Definition getProof (d : LocalDA) (b : bytes) : bytes := ed_Sign (d_privKey d) (getHash b).

(** A time after the last one. *)
Definition monotonicTime (d : LocalDA) : Z := if d_lastTime d <? d_now d then d_now d else d_lastTime d + 1.

(** *** Subscriptions *)

Definition subscribe (ns : bytes) (d : LocalDA) : LocalDA * Z :=
  (set_subscribers (<[d_nextSubID d := {| sub_ch := []; sub_ns := ns |}]> (d_subscribers d)) (d_nextSubID d + 1) d, d_nextSubID d).
Definition unsubscribe (id : Z) (d : LocalDA) : LocalDA := set_subscribers (delete id (d_subscribers d)) (d_nextSubID d) d.
(** An event for a subscriber: the blobs of its namespace. When its channel is full the event is dropped. *)
Definition in_namespace (ns : bytes) (l : list (option blob)) : list blob := filter (fun b => lib_Namespace b.1 = ns) (omap id l).
Definition notify_one (height : Z) (all : list (option blob)) (s : subscriber) : subscriber :=
  if (length (sub_ch s) <? channel_size)%nat
  then {| sub_ch := sub_ch s ++ [{| ev_height := height; ev_blobs := in_namespace (sub_ns s) all |}]; sub_ns := sub_ns s |}
  else s.
Definition notifySubscribers (height : Z) (d : LocalDA) : LocalDA :=
  set_subscribers (notify_one height (default [] (d_blobData d !! height)) <$> d_subscribers d) (d_nextSubID d) d.

(** The next height, with its time. *)
Definition new_height (d : LocalDA) : LocalDA :=
  let h := d_height d +u 1 in let t := monotonicTime d in set_block h (<[h := t]> (d_timestamps d)) t d.
Definition produceEmptyBlock (d : LocalDA) : LocalDA := let d := new_height d in notifySubscribers (d_height d) d.

(** *** The layer by identifiers *)

Fixpoint find_key (id : bytes) (l : list (bytes * bytes)) : option bytes :=
  match l with [] => None | (k, v) :: l => if bool_decide (k = id) then Some v else find_key id l end.
Fixpoint get_all (d : LocalDA) (ids : list bytes) : res (list bytes) :=
  match ids with
  | [] => Ok []
  | id :: ids =>
      if blen id <? 8 then Err (EMsg "invalid ID")
      else match find_key id (default [] (d_data d !! Uint64_LE id)) with
           | None => Err DA.ErrBlobNotFound
           | Some v => let? vs := get_all d ids in Ok (v :: vs)
           end
  end.
Definition Get (ids : list bytes) (ns : bytes) (d : LocalDA) : res (list bytes) := let? _ := validateNamespace ns in get_all d ids.

(** [None] is a nil result. *)
Definition GetIDs (height : Z) (ns : bytes) (d : LocalDA) : res (option (list bytes * Z)) :=
  let? _ := validateNamespace ns in
  if d_height d <? height then Err (EWrap "height is in the future" DA.ErrHeightFromFuture)
  else Ok ((fun kvps => (kvps.*1, default 0 (d_timestamps d !! height))) <$> d_data d !! height).
Definition GetProofs (ids : list bytes) (ns : bytes) (d : LocalDA) : res (list bytes) :=
  let? _ := validateNamespace ns in let? blobs := Get ids ns d in Ok (getProof d <$> blobs).
Definition Commit (blobs : list bytes) (ns : bytes) : res (list bytes) := let? _ := validateNamespace ns in Ok (getHash <$> blobs).
(** [ids[i][8:]] panics on a short identifier. *)
Fixpoint validate_all (d : LocalDA) (ids proofs : list bytes) : res (list bool) :=
  match ids, proofs with
  | id :: ids, proof :: proofs =>
      if blen id <? 8 then Err index_panic
      else let? rest := validate_all d ids proofs in Ok (ed_Verify (ed_Public (d_privKey d)) (drop 8 id) proof :: rest)
  | _, _ => Ok []
  end.
Definition Validate (ids proofs : list bytes) (ns : bytes) (d : LocalDA) : res (list bool) :=
  let? _ := validateNamespace ns in
  if negb (length ids =? length proofs)%nat then Err (EMsg "number of IDs doesn't equal to number of proofs") else validate_all d ids proofs.

(** [jsonrpc.NewBlob] without a commitment *)
Definition NewBlob (shareVersion : Z) (ns data : bytes) : res blob :=
  let? _ := wrap_err "invalid namespace" (lib_ValidateForBlob ns) in
  let? libBlob := wrap_err "build blob" (lib_NewBlob ns data shareVersion) in
  let? com := wrap_err "create commitment" (lib_CreateCommitment libBlob) in Ok (libBlob, com).

(** A blob the share library refuses is a nil entry of the blobs served by RPC. *)
Definition SubmitWithOptions (blobs : list bytes) (ns : bytes) (d : LocalDA) : LocalDA * res (list bytes) :=
  match validateNamespace ns with
  | Err e => (d, Err e)
  | Ok _ =>
      if existsb (fun b => d_maxBlobSize d <? blen b) blobs then (d, Err DAC.ErrBlobSizeOverLimit)
      else
        let d := new_height d in
        let nspace := match lib_NewNamespaceFromBytes ns with Ok n => n | Err _ => [] end in
        let ids := (fun b => nextID d ++ getHash b) <$> blobs in
        let rpcBlobs := (fun b => match NewBlob 0 nspace b with Ok x => Some x | Err _ => None end) <$> blobs in
        let d := set_content (if blen blobs =? 0 then d_data d
                              else <[d_height d := default [] (d_data d !! d_height d) ++ zip ids blobs]> (d_data d))
                   (<[d_height d := rpcBlobs]> (d_blobData d)) d in
        (notifySubscribers (d_height d) d, Ok ids)
  end.

(** [Submit] is the same without the options, which are ignored. *)
Definition Submit (blobs : list bytes) (ns : bytes) (d : LocalDA) : LocalDA * res (list bytes) := SubmitWithOptions blobs ns d.

(** ** The RPC server (rpc.go) *)

(** One blob of a submission: without a commitment it is built again. *)
Definition committed (b : blob) : blob :=
  if bool_decide (b.2 = []) then match NewBlob (lib_ShareVersion b.1) (lib_Namespace b.1) (lib_Data b.1) with Ok b => b | Err _ => b end else b.
(** The loop of [Submit], which stops at the first blob that is too large. *)
Fixpoint rpc_append (height : Z) (blobs : list blob) (d : LocalDA) : LocalDA * res unit :=
  match blobs with
  | [] => (d, Ok tt)
  | b :: blobs =>
      if d_maxBlobSize d <? blen (lib_Data b.1) then (d, Err DAC.ErrBlobSizeOverLimit)
      else rpc_append height blobs (set_content (d_data d) (<[height := default [] (d_blobData d !! height) ++ [Some (committed b)]]> (d_blobData d)) d)
  end.
Definition rpc_Submit (blobs : list blob) (d : LocalDA) : LocalDA * res Z :=
  let height := d_height d +u 1 in
  let d := set_block height (d_timestamps d) (d_lastTime d) d in
  match rpc_append height blobs d with
  | (d, Err e) => (d, Err e)
  | (d, Ok _) =>
      let d := set_block height (<[height := d_now d]> (d_timestamps d)) (d_lastTime d) d in
      (notifySubscribers height d, Ok height)
  end.

(** A nil entry is dereferenced. *)
Fixpoint find_blob (ns com : bytes) (l : list (option blob)) : res blob :=
  match l with
  | [] => Err DA.ErrBlobNotFound
  | None :: _ => Err nil_deref
  | Some b :: l => if bool_decide (lib_Namespace b.1 = ns) && bool_decide (b.2 = com) then Ok b else find_blob ns com l
  end.
Definition rpc_Get (height : Z) (ns com : bytes) (d : LocalDA) : res blob :=
  if d_height d <? height then Err DA.ErrHeightFromFuture
  else match d_blobData d !! height with None => Err DA.ErrBlobNotFound | Some l => find_blob ns com l end.

(** Without namespaces everything at the height, nil entries too. *)
Definition rpc_GetAll (height : Z) (namespaces : list bytes) (d : LocalDA) : res (list (option blob)) :=
  if d_height d <? height then Err DA.ErrHeightFromFuture
  else match d_blobData d !! height with
  | None => Err DA.ErrBlobNotFound
  | Some l =>
      if blen namespaces =? 0 then Ok l
      else
        let out := filter (fun b => lib_Namespace b.1 ∈ namespaces) (omap id l) in
        if blen out =? 0 then Err DA.ErrBlobNotFound else Ok (Some <$> out)
  end.
Definition rpc_Included (height : Z) (ns com : bytes) (d : LocalDA) : bool * option err :=
  match rpc_Get height ns com d with
  | Ok _ => (true, None)
  | Err e => if errors_is e DA.ErrBlobNotFound then (false, None) else (false, Some e)
  end.

Definition GetByHeight (height : Z) (d : LocalDA) : res (Z * Z) :=
  if d_height d <? height then Err DA.ErrHeightFromFuture else Ok (height, default (d_now d) (d_timestamps d !! height)).
Definition LocalHead (d : LocalDA) : res (Z * Z) := GetByHeight (d_height d) d.
Definition NetworkHead (d : LocalDA) : res (Z * Z) := LocalHead d.

(** What happens to the layer while a subscription is open. *)
Inductive event := EmptyBlock | Submitted (blobs : list blob) | Time (now : Z).
Definition set_now (now : Z) (d : LocalDA) : LocalDA := {|
  d_data := d_data d; d_timestamps := d_timestamps d; d_blobData := d_blobData d; d_maxBlobSize := d_maxBlobSize d; d_height := d_height d;
  d_privKey := d_privKey d; d_lastTime := d_lastTime d; d_subscribers := d_subscribers d; d_nextSubID := d_nextSubID d; d_now := now |}.
Definition happens (e : event) (d : LocalDA) : LocalDA :=
  match e with EmptyBlock => produceEmptyBlock d | Submitted blobs => (rpc_Submit blobs d).1 | Time now => set_now now d end.
(** [Subscribe]: the goroutine takes what is in the channel after each event; the context ends after the last. *)
Definition receive (id : Z) (d : LocalDA) : LocalDA * list subscriptionEvent :=
  match d_subscribers d !! id with
  | None => (d, [])
  | Some s => (set_subscribers (<[id := {| sub_ch := []; sub_ns := sub_ns s |}]> (d_subscribers d)) (d_nextSubID d) d, sub_ch s)
  end.
Fixpoint stream (id : Z) (events : list event) (d : LocalDA) : LocalDA * list subscriptionEvent :=
  match events with
  | [] => (d, [])
  | e :: events =>
      let '(d, now) := receive id (happens e d) in
      let '(d, later) := stream id events d in (d, now ++ later)
  end.
Definition Subscribe (ns : bytes) (events : list event) (d : LocalDA) : LocalDA * list subscriptionEvent :=
  let '(d, id) := subscribe ns d in
  let '(d, out) := stream id events d in (unsubscribe id d, out).
End layer.
Arguments LocalDA : clear implicits. Arguments event : clear implicits.

(** ** The layer behind the DA client *)

Section served.
Context {L : Type} `{SL : ShareLib L} `{SLL : !ShareLibLaws L} `{ED : Ed25519} `{EDL : !Ed25519Laws}.
Implicit Types (d : LocalDA L) (blobs : list (L * bytes)).

(** JSON of options and proofs (the proof of this layer is empty), and what happens while a subscription is open. *)
Context {OPT : Type} (json_opt : bytes -> res OPT) (no_opt : OPT) (json_proof : res bytes) (proof_json : bytes -> res unit).
Context (meanwhile : LocalDA L -> list (event L)).

#[export] Instance local_api : BlobAPI (LocalDA L) L unit OPT := {|
  share_NewNamespaceFromBytes := lib_NewNamespaceFromBytes; ValidateForBlob := lib_ValidateForBlob; share_NewBlob := lib_NewBlob;
  share_Data := lib_Data; CreateCommitment := lib_CreateCommitment;
  json_options := json_opt; zero_options := no_opt; json_of_proof _ := json_proof; proof_of_json := proof_json;
  api_Submit d blobs _ := rpc_Submit blobs d;
  api_GetAll d h ns := (d, let? l := rpc_GetAll h [ns] d in Ok (omap id l));
  api_Get d h ns com := (d, let? b := rpc_Get h ns com d in Ok (Some b));
  api_GetProof d _ _ _ := (d, Ok tt);
  api_Included d h ns _ com := (d, rpc_Included h ns com d);
  api_Subscribe d ns := let '(d, evs) := Subscribe ns (meanwhile d) d in (d, Ok ((fun e => Some (ev_height e, Some <$> ev_blobs e)) <$> evs));
  api_HeaderTime d h := (d, let? x := GetByHeight h d in Ok x.2);
  api_NetworkHead d := (d, let? x := NetworkHead d in Ok (Some x.1));
  time_Now := d_now |}.

(** The blobs of a height and a namespace. *)
Definition local_ledger d (h : Z) (ns : bytes) : list (L * bytes) := in_namespace ns (default [] (d_blobData d !! h)).

Lemma committed_kept (b : L * bytes) : b.2 <> [] -> committed b = b.
Proof. intros Hb. unfold committed. by rewrite bool_decide_false. Qed.
Lemma in_namespace_app ns l1 l2 : in_namespace ns (l1 ++ l2) = in_namespace ns l1 ++ in_namespace ns l2.
Proof. unfold in_namespace. by rewrite omap_app, filter_app. Qed.
Lemma in_namespace_all ns blobs : Forall (fun b => lib_Namespace b.1 = ns) blobs -> in_namespace ns (Some <$> blobs) = blobs.
Proof.
  unfold in_namespace. induction 1 as [|b blobs Hb _ IH]; [done|]. cbn [fmap list_fmap omap list_omap id].
  rewrite filter_cons, decide_True by done. f_equal. exact IH.
Qed.

(** A submission appends its blobs to what the height has, up to the first one that is too large. *)
Lemma rpc_append_spec h blobs d : exists n,
  d_blobData (rpc_append h blobs d).1 = (if (n =? 0)%nat then d_blobData d
    else <[h := default [] (d_blobData d !! h) ++ (Some ∘ committed <$> take n blobs)]> (d_blobData d)) /\
  (is_ok (rpc_append h blobs d).2 = true -> n = length blobs) /\
  d_height (rpc_append h blobs d).1 = d_height d.
Proof.
  revert d. induction blobs as [|b blobs IH]; intros d; cbn [rpc_append]; [by exists 0%nat|].
  destruct (d_maxBlobSize d <? blen (lib_Data b.1)); [by exists 0%nat|].
  match goal with |- context [rpc_append h blobs ?d1] => destruct (IH d1) as (n & Hd & Hok & Hh) end. exists (S n). rewrite Hd, Hh. cbn.
  split; [|split; [intros E; by rewrite (Hok E)|done]].
  rewrite lookup_insert_eq. cbn. destruct n as [|n]; cbn; [done|]. by rewrite insert_insert_eq, <- app_assoc.
Qed.

Lemma notify_content h d : d_blobData (notifySubscribers h d) = d_blobData d.
Proof. done. Qed.

(** The server of the layer is a DA node as the DA client expects it. *)
#[export] Instance local_laws : DAC.BlobAPILaws (LocalDA L) L unit OPT.
Proof.
  refine {| DAC.ledger := local_ledger; DAC.share_Namespace := lib_Namespace |}.
  - intros ns data v b. apply lib_NewBlob_spec.
  - intros b c. apply lib_CreateCommitment_spec.
  - intros d blobs o d' h. cbn [api_Submit local_api]. unfold rpc_Submit. set (hh := d_height d +u 1).
    destruct (rpc_append_spec hh blobs (set_block hh (d_timestamps d) (d_lastTime d) d)) as (n & Hc & Hok & _).
    destruct (rpc_append hh blobs _) as [d1 [[]|]]; [|done]. intros [= <- <-]. rewrite (Hok eq_refl) in Hc.
    split; [subst hh; unfold is_u64, u64; apply Z.mod_pos_bound; done|]. intros ns Hall.
    unfold local_ledger. rewrite notify_content. cbn [d_blobData set_block]. cbn [fst] in Hc. rewrite Hc. cbn [d_blobData set_block].
    destruct blobs as [|b blobs]; [by exists (in_namespace ns (default [] (d_blobData d !! hh))), []; rewrite !app_nil_r|].
    rewrite firstn_all. cbn [length Nat.eqb]. rewrite lookup_insert_eq. cbn [from_option id]. rewrite in_namespace_app.
    eexists _, []. rewrite app_nil_r. f_equal. apply Forall_and in Hall as [Hns Hcm].
    transitivity (in_namespace ns (Some <$> b :: blobs)); [|by apply in_namespace_all]. f_equal. apply list_fmap_ext. intros i x Hx. cbn. f_equal. apply committed_kept.
    rewrite Forall_forall in Hcm. apply Hcm. eapply list_elem_of_lookup_2, Hx.
  - intros d h ns d' r [= <- <-]. split; [done|]. intros blobs. unfold rpc_GetAll, local_ledger.
    destruct (d_height d <? h); [done|]. destruct (d_blobData d !! h) as [l|]; [|done]. cbn [blen length Z.of_nat Z.eqb Pos.of_succ_nat].
    assert (Hf : filter (fun b : L * bytes => lib_Namespace b.1 ∈ [ns]) (omap id l) = in_namespace ns l).
    { unfold in_namespace. apply list_filter_iff. intros x. by rewrite list_elem_of_singleton. }
    rewrite Hf. destruct (blen (in_namespace ns l) =? 0); [done|]. cbn [res_bind]. intros [= <-]. cbn [from_option id].
    clear Hf. generalize (in_namespace ns l). intros xs. induction xs as [|x xs IH]; [done|]. cbn. f_equal. exact IH.
  - intros d h ns com d' r [= <- <-]. split; [done|]. intros b. unfold rpc_Get, local_ledger.
    destruct (d_height d <? h); [done|]. destruct (d_blobData d !! h) as [l|]; [|done]. cbn [from_option id].
    induction l as [|[x|] l IH]; [done| |done]. cbn [find_blob]. destruct (bool_decide (lib_Namespace x.1 = ns) && _) eqn:E.
    + intros [= <-]. apply andb_prop in E as [E1%bool_decide_eq_true E2%bool_decide_eq_true]. split; [|done].
      unfold in_namespace. apply list_elem_of_filter. split; [done|by left].
    + intros Hb. specialize (IH Hb). destruct b as [b|]; [|by destruct (find_blob ns com l)].
      destruct IH as [Hin Hc]. split; [|done]. unfold in_namespace in *. apply list_elem_of_filter in Hin as [Hn Hin].
      apply list_elem_of_filter. split; [done|by right].
  - intros d h d' r [= <- <-]. done.
Defined.
End served.

Section theorems.
Context {L : Type} `{SL : ShareLib L} `{ED : Ed25519} `{EDL : !Ed25519Laws}.
Implicit Types (d : LocalDA L).

(** *** By identifiers *)

Lemma find_key_zip p blobs (b : bytes) : b ∈ blobs -> (forall b', b' ∈ blobs -> getHash b' = getHash b -> b' = b) ->
  find_key (p ++ getHash b) (zip ((fun x => p ++ getHash x) <$> blobs) blobs) = Some b.
Proof.
  intros Hin Hinj. induction blobs as [|x blobs IH]; [by apply elem_of_nil in Hin|]. cbn. case_bool_decide as E.
  - apply app_inv_head in E. by rewrite (Hinj x ltac:(by left) E).
  - apply IH; [|intros b' Hb'; apply Hinj; by right]. apply elem_of_cons in Hin as [<-|Hin]; done.
Qed.

Lemma get_ids d h blobs all : is_u64 h -> d_data d !! h = Some (zip ((fun x => getID h ++ getHash x) <$> all) all) -> blobs ⊆ all ->
  (forall a b, a ∈ all -> b ∈ all -> getHash a = getHash b -> a = b) -> get_all d ((fun x => getID h ++ getHash x) <$> blobs) = Ok blobs.
Proof.
  intros Hu Hd Hsub Hinj. induction blobs as [|b blobs IH]; [done|]. cbn [fmap list_fmap get_all].
  assert (Hb : b ∈ all) by (apply Hsub; by left).
  destruct (Z.ltb_spec (blen (getID h ++ getHash b)) 8) as [Hl|_].
  { unfold blen, getID in Hl. rewrite length_app, length_PutUint64_LE in Hl. lia. }
  unfold getID at 2. rewrite Uint64_LE_Put_app, u64_small, Hd by done. cbn [from_option id].
  rewrite find_key_zip by (done || (intros b' Hb' E; by apply Hinj)). rewrite IH; [done|]. intros x Hx. apply Hsub. by right.
Qed.

Lemma validate_own d h blobs : validate_all d ((fun x => getID h ++ getHash x) <$> blobs) (getProof d <$> blobs) = Ok (replicate (length blobs) true).
Proof.
  induction blobs as [|b blobs IH]; [done|]. cbn [fmap list_fmap validate_all].
  destruct (Z.ltb_spec (blen (getID h ++ getHash b)) 8) as [Hl|_].
  { unfold blen, getID in Hl. rewrite length_app, length_PutUint64_LE in Hl. lia. }
  rewrite IH. cbn [res_bind]. unfold getID. rewrite drop_app_length' by (by rewrite length_PutUint64_LE).
  unfold getProof. by rewrite ed_Verify_Sign.
Qed.

(** What was submitted is read back by its identifiers, and its proofs are valid, unless two blobs collide. Any
    namespace will do: the layer does not remember the one of the submission. *)
Theorem ids_roundtrip (blobs ids : list bytes) (ns ns' : bytes) (d d' : LocalDA L)
  (Hs : SubmitWithOptions blobs ns d = (d', Ok ids)) (Hne : blobs <> []) (Hfresh : d_data d !! (d_height d +u 1) = None)
  (Hinj : forall a b, a ∈ blobs -> b ∈ blobs -> getHash a = getHash b -> a = b) (Hns : validateNamespace ns' = Ok tt) :
  Get ids ns' d' = Ok blobs /\
  exists proofs, GetProofs ids ns' d' = Ok proofs /\ Validate ids proofs ns' d' = Ok (replicate (length blobs) true).
Proof.
  unfold SubmitWithOptions in Hs. destruct (validateNamespace ns) as [[]|]; [|done]. destruct (existsb _ _); [done|].
  destruct (Z.eqb_spec (blen blobs) 0) as [E0|_]; [by destruct blobs|]. set (h := d_height d +u 1).
  assert (ids = (fun x => getID h ++ getHash x) <$> blobs) as -> by (apply (f_equal snd) in Hs; by injection Hs as <-).
  apply (f_equal fst) in Hs. cbn [fst] in Hs. subst d'. set (d1 := notifySubscribers _ _).
  assert (Hd : d_data d1 !! h = Some (zip ((fun x => getID h ++ getHash x) <$> blobs) blobs)).
  { change (d_data d1) with (<[h := default [] (d_data d !! h) ++ zip ((fun x => getID h ++ getHash x) <$> blobs) blobs]> (d_data d)).
    rewrite lookup_insert_eq. fold h in Hfresh. by rewrite Hfresh. }
  assert (Hg : Get ((fun x => getID h ++ getHash x) <$> blobs) ns' d1 = Ok blobs).
  { unfold Get. rewrite Hns. cbn. apply (get_ids _ _ _ blobs); [unfold h, is_u64, u64; apply Z.mod_pos_bound; done|done|done|done]. }
  split; [done|]. exists (getProof d1 <$> blobs). unfold GetProofs, Validate. rewrite Hns. cbn [res_bind]. rewrite Hg. split; [done|].
  rewrite !length_fmap, Nat.eqb_refl. cbn. apply validate_own.
Qed.

(** *** A failed submission *)

(** A submission over RPC with a blob that is too large is reported as failed, but the blobs before that one are on
    the layer, at a height of which no subscriber is told. *)
Theorem failed_submission_leaves_blobs (l rest : list (L * bytes)) (big : L * bytes) (ns : bytes) (d : LocalDA L)
  (Hsmall : Forall (fun b => blen (lib_Data b.1) <= d_maxBlobSize d) l) (Hbig : d_maxBlobSize d < blen (lib_Data big.1))
  (Hl : Forall (fun b => lib_Namespace b.1 = ns /\ b.2 <> []) l) (Hfresh : d_blobData d !! (d_height d +u 1) = None) :
  exists d', rpc_Submit (l ++ big :: rest) d = (d', Err DAC.ErrBlobSizeOverLimit) /\
    d_height d' = d_height d +u 1 /\ local_ledger d' (d_height d') ns = l /\ d_subscribers d' = d_subscribers d.
Proof.
  unfold rpc_Submit. set (h := d_height d +u 1). fold h in Hfresh.
  assert (H : forall l (d : LocalDA L), Forall (fun b => blen (lib_Data b.1) <= d_maxBlobSize d) l -> d_maxBlobSize d < blen (lib_Data big.1) ->
    exists d', rpc_append h (l ++ big :: rest) d = (d', Err DAC.ErrBlobSizeOverLimit) /\ d_height d' = d_height d /\
      default [] (d_blobData d' !! h) = default [] (d_blobData d !! h) ++ (Some ∘ committed <$> l) /\ d_subscribers d' = d_subscribers d).
  { clear. intros l. induction l as [|b l IH]; intros d0 Hsmall Hbig; cbn [app rpc_append].
    - rewrite (proj2 (Z.ltb_lt _ _) Hbig). exists d0. by rewrite app_nil_r.
    - apply Forall_cons in Hsmall as [Hb Hsmall]. destruct (Z.ltb_spec (d_maxBlobSize d0) (blen (lib_Data b.1))); [lia|].
      match goal with |- context [rpc_append h _ ?d1] => destruct (IH d1 Hsmall Hbig) as (d' & -> & Hh & Hc & Hs) end.
      exists d'. split; [done|]. split; [done|]. split; [|done]. rewrite Hc. cbn. rewrite lookup_insert_eq. cbn. by rewrite <- app_assoc. }
  destruct (H l (set_block h (d_timestamps d) (d_lastTime d) d) Hsmall Hbig) as (d' & -> & Hh & Hc & Hs).
  exists d'. split; [done|]. split; [done|]. split; [|done]. rewrite Hh. cbn [d_height set_block]. unfold local_ledger. rewrite Hc. cbn [d_blobData set_block]. rewrite Hfresh.
  cbn [from_option app]. apply Forall_and in Hl as [Hns Hcm]. transitivity (in_namespace ns (Some <$> l)); [|by apply in_namespace_all]. f_equal.
  apply list_fmap_ext. intros i x Hx. cbn. f_equal. apply committed_kept. rewrite Forall_forall in Hcm. by eapply Hcm, list_elem_of_lookup_2.
Qed.

(** *** Subscriptions *)

(** The submissions of a script have no blob that is too large. *)
Definition event_fits d (e : event L) : Prop :=
  match e with Submitted blobs => Forall (fun b => blen (lib_Data b.1) <= d_maxBlobSize d) blobs | _ => True end.
Definition is_block (e : event L) : Prop := match e with Time _ => False | _ => True end.
#[local] Instance is_block_dec (e : event L) : Decision (is_block e).
Proof. destruct e; cbn; apply _. Defined.

Lemma rpc_append_fits h blobs d : Forall (fun b => blen (lib_Data b.1) <= d_maxBlobSize d) blobs ->
  exists c, rpc_append h blobs d = (set_content (d_data d) c d, Ok tt) /\ forall k, k <> h -> c !! k = d_blobData d !! k.
Proof.
  revert d. induction blobs as [|b blobs IH]; intros d Hf; [exists (d_blobData d); by destruct d|]. apply Forall_cons in Hf as [Hb Hf].
  cbn [rpc_append]. destruct (Z.ltb_spec (d_maxBlobSize d) (blen (lib_Data b.1))); [lia|].
  match goal with |- context [rpc_append h blobs ?d1] => destruct (IH d1 Hf) as (c & -> & Hc) end.
  exists c. split; [done|]. intros k Hk. rewrite (Hc k Hk). cbn. by rewrite lookup_insert_ne.
Qed.

(** What one event does to a subscriber whose channel is empty. *)
Lemma happens_block e d id ns : is_block e -> event_fits d e -> d_height d + 1 < two64 -> 0 <= d_height d ->
  d_subscribers d !! id = Some {| sub_ch := []; sub_ns := ns |} ->
  let d' := happens e d in
  d_height d' = d_height d + 1 /\ d_maxBlobSize d' = d_maxBlobSize d /\ (forall k, k <> d_height d + 1 -> d_blobData d' !! k = d_blobData d !! k) /\
  d_subscribers d' !! id = Some {| sub_ch := [{| ev_height := d_height d + 1; ev_blobs := local_ledger d' (d_height d + 1) ns |}]; sub_ns := ns |}.
Proof.
  intros Hb Hf Hw H0 Hs. destruct e as [|blobs|now]; [| |done]; cbn [happens]; cbv zeta.
  - unfold produceEmptyBlock, notifySubscribers, new_height, local_ledger. cbn. rewrite u64_small by (split; lia).
    split; [done|]. split; [done|]. split; [done|]. by rewrite lookup_fmap, Hs.
  - unfold rpc_Submit. rewrite u64_small by (split; lia).
    destruct (rpc_append_fits (d_height d + 1) blobs (set_block (d_height d + 1) (d_timestamps d) (d_lastTime d) d) Hf) as (c & -> & Hc).
    unfold notifySubscribers, local_ledger. cbn. split; [done|]. split; [done|]. split; [exact Hc|]. by rewrite lookup_fmap, Hs.
Qed.

Lemma stream_spec id ns events d : Forall (event_fits d) events -> 0 <= d_height d -> d_height d + Z.of_nat (length events) < two64 ->
  d_subscribers d !! id = Some {| sub_ch := []; sub_ns := ns |} ->
  let '(d', out) := stream id events d in
  ev_height <$> out = seqZ (d_height d + 1) (Z.of_nat (length (filter is_block events))) /\
  Forall (fun ev => ev_blobs ev = local_ledger d' (ev_height ev) ns) out /\
  (forall k, k <= d_height d -> d_blobData d' !! k = d_blobData d !! k).
Proof.
  revert d. induction events as [|e events IH]; intros d Hf H0 Hw Hs; cbn [stream]; [by rewrite seqZ_nil|].
  apply Forall_cons in Hf as [Hfe Hf]. cbn [length] in Hw. destruct (decide (is_block e)) as [Hb|Hb].
  - destruct (happens_block e d id ns Hb Hfe) as (Hh & Hm & Hk & Hsub); [lia..|done|]. unfold receive. rewrite Hsub.
    match goal with |- context [stream id events ?d1] => specialize (IH d1) end.
    destruct (stream id events _) as [d' out]. destruct IH as (Hev & Hbl & Hkeep).
    + eapply Forall_impl; [exact Hf|]. intros x Hx. destruct x; [done| |done]. cbn. by rewrite Hm.
    + cbn. lia.
    + cbn. rewrite Hh. lia.
    + cbn. by rewrite lookup_insert_eq.
    + cbn in Hev, Hkeep. rewrite Hh in Hev, Hkeep. cbn [app fmap list_fmap ev_height sub_ch]. rewrite filter_cons, decide_True by done.
      cbn [length]. rewrite seqZ_cons by lia. split; [f_equal; rewrite Hev; f_equal; lia|]. split.
      * constructor; [|done]. cbn. unfold local_ledger. by rewrite (Hkeep (d_height d + 1)).
      * intros k Hk'. rewrite (Hkeep k) by lia. apply Hk. lia.
  - destruct e as [| |now]; [done..|]. cbn [happens]. unfold receive. cbn [d_subscribers set_now]. rewrite Hs. cbn [sub_ch sub_ns app].
    rewrite filter_cons, decide_False by done.
    match goal with |- context [stream id events ?d1] => specialize (IH d1) end.
    destruct (stream id events _) as [d' out]. cbn in IH. apply IH; [|done|lia|by rewrite lookup_insert_eq].
    eapply Forall_impl; [exact Hf|]. by intros [].
Qed.

(** A subscriber that keeps up sees every new height once and in order, with the blobs that its namespace has there. *)
Theorem subscription_complete (ns : bytes) (events : list (event L)) (d : LocalDA L)
  (Hfits : Forall (event_fits d) events) (H0 : 0 <= d_height d) (Hw : d_height d + Z.of_nat (length events) < two64) :
  let '(d', out) := Subscribe ns events d in
  ev_height <$> out = seqZ (d_height d + 1) (Z.of_nat (length (filter is_block events))) /\
  Forall (fun ev => ev_blobs ev = local_ledger d' (ev_height ev) ns) out.
Proof.
  unfold Subscribe, subscribe. set (d1 := set_subscribers _ _ d).
  pose proof (stream_spec (d_nextSubID d) ns events d1) as H. destruct (stream (d_nextSubID d) events d1) as [d' out].
  destruct H as (H1 & H2 & _); [done|done|done|by subst d1; cbn; rewrite lookup_insert_eq|]. done.
Qed.
End theorems.

(** ** The theorems applied *)

Module LocalDAWitness.
(** A blob is its namespace and data; an empty blob is refused. *)
#[local] Instance ref_share : ShareLib (bytes * bytes) := {|
  lib_NewNamespaceFromBytes b := if blen b =? 29 then Ok b else Err (EMsg "invalid namespace length"); lib_ValidateForBlob _ := Ok tt;
  lib_NewBlob ns data _ := if blen data =? 0 then Err (EMsg "empty blob") else Ok (ns, data);
  lib_Data := snd; lib_Namespace := fst; lib_ShareVersion _ := 0; lib_CreateCommitment b := Ok (x01 :: b.2) |}.
#[local] Instance ref_share_laws : ShareLibLaws (bytes * bytes).
Proof. split; cbn; [|by intros b c [= <-]]. intros ns data v b. destruct (blen data =? 0); [done|]. by intros [= <-]. Qed.
#[local] Instance ref_ed : Ed25519 := {| ed_Public key := key; ed_Sign key msg := key ++ msg; ed_Verify key msg sig := bool_decide (sig = key ++ msg) |}.
#[local] Instance ref_ed_laws : Ed25519Laws.
Proof. split. intros key msg. cbn. by rewrite bool_decide_true. Qed.

Definition w_ns : bytes := replicate 29 x07.
Definition empty : LocalDA (bytes * bytes) := NewLocalDA 2 [x09] 100.
Definition blob (data : bytes) : (bytes * bytes) * bytes := ((w_ns, data), x01 :: data).

Definition w_submitted : LocalDA (bytes * bytes) * res (list bytes) := SubmitWithOptions [[x01]; [x02]; [x01]] w_ns empty.
Definition w_ids : list bytes := match w_submitted.2 with Ok ids => ids | Err _ => [] end.
Lemma ids_roundtrip_witness : Get w_ids w_ns w_submitted.1 = Ok [[x01]; [x02]; [x01]].
Proof.
  apply (ids_roundtrip [[x01]; [x02]; [x01]] w_ids w_ns w_ns empty w_submitted.1); [by vm_compute|done|done| |done].
  intros a b Ha Hb. rewrite !elem_of_cons, elem_of_nil in Ha, Hb.
  destruct Ha as [->|[->|[->|[]]]], Hb as [->|[->|[->|[]]]]; intros E; first [reflexivity | vm_compute in E; discriminate E].
Defined.

Lemma failed_submission_leaves_blobs_witness : exists d', rpc_Submit [blob [x01]; blob [x01; x02; x03]] empty = (d', Err DAC.ErrBlobSizeOverLimit) /\
  d_height d' = 1 /\ local_ledger d' (d_height d') w_ns = [blob [x01]] /\ d_subscribers d' = ∅.
Proof.
  apply (failed_submission_leaves_blobs [blob [x01]] [] (blob [x01; x02; x03]) w_ns empty); [by repeat constructor|done|by repeat constructor|done].
Defined.

Definition script : list (event (bytes * bytes)) := [EmptyBlock; Time 200; Submitted [blob [x01]; ((replicate 29 x08, [x02]), [x01])]; Submitted []].
Lemma subscription_complete_witness : ev_height <$> (Subscribe w_ns script empty).2 = [1; 2; 3].
Proof.
  pose proof (subscription_complete w_ns script empty ltac:(by repeat constructor) ltac:(done) ltac:(done)) as H.
  destruct (Subscribe w_ns script empty) as [d' out]. exact (proj1 H).
Defined.

(** The DA client over this layer. *)
#[local] Existing Instance local_api.
Definition da_api : BlobAPI (LocalDA (bytes * bytes)) (bytes * bytes) unit unit := local_api (fun _ => Ok tt) tt (Ok []) (fun _ => Ok tt) (fun _ => []).
Definition da_result : LocalDA (bytes * bytes) * DAC.BaseResult := DAC.Submit (API := da_api) [[x01]; [x02]] w_ns [] empty.
Example client_over_local : DAC.Code da_result.2 = DA.StatusSuccess /\ DAC.Height da_result.2 = 1 /\
  DAC.rt_Data (DAC.Retrieve (API := da_api) 1 w_ns da_result.1).2 = [[x01]; [x02]] /\
  DAC.Code (DAC.rt_Base (DAC.Retrieve (API := da_api) 2 w_ns da_result.1).2) = DA.StatusHeightFromFuture.
Proof. by vm_compute. Qed.

(** A blob that the share library refuses is a nil entry, at which a lookup over RPC of the blobs behind it stops. *)
Example nil_entry_panics : rpc_Get 1 w_ns [x01; x02] (SubmitWithOptions [[]; [x02]] w_ns empty).1 = Err nil_deref.
Proof. by vm_compute. Qed.
(** The times of blocks submitted over RPC may be before those of the blocks below. *)
Example rpc_time_regresses :
  let d := (rpc_Submit [blob [x01]] (produceEmptyBlock (produceEmptyBlock empty))).1 in
  d_timestamps d !! 2 = Some 102 /\ d_timestamps d !! 3 = Some 100.
Proof. by vm_compute. Qed.
End LocalDAWitness.
End LocalDA.
